(* ===== verification/_CoqProject ===== *)
-Q . S2P
Prelude.v
GoStrings.v
GoText.v
GoPath.v
GoCrypto.v
GoJson.v
GoJsonObject.v
GoJsonWrite.v
GoBase64.v
GoUrl.v
GoNetUrl.v
GoTime.v
Errors.v
Domain.v
HttpRedirects.v
Ports.v
Browser.v
AuthPorts.v
Totp.v
SecretCodec.v
Keys.v
Jwt.v
Scopes.v
TokenService.v
TokenTheorems.v
Remote.v
Database.v
Rbac.v
ShortURL.v
ClientRepo.v
ClientService.v
UserRepo.v
AuditStream.v
RoleRepo.v
ConsentRepo.v
TotpRepo.v
JwkKeyRepo.v
KeyRotation.v
AuthorizationCodeRepo.v
SessionRepo.v
TokenRepo.v
Redis.v
RedisKeys.v
LuaScripts.v
TokenCache.v
TokenCacheTheorems.v
StateMask.v
WorkerPool.v
AuthnPlugins.v
AuthnService.v
AuthnTheorems.v
SessionCache.v
DeviceCache.v
MFACache.v
RateLimitCache.v
ReplayCache.v
LoggedIn.v
MfaService.v
PasskeyService.v
AuthnSystem.v
Authz.v
AuthorizeEndpoint.v
ConsentService.v
SessionService.v
DeviceService.v
ClientAuth.v
ClientSystem.v
BrowserLogout.v
BrowserConsent.v
BrowserLogin.v
BrowserSecondFactor.v
BrowserSetup.v
BrowserTheorems.v
RegisterService.v
AdminGate.v
AdminActions.v
Oidc.v
OidcProvider.v
TokenEndpoint.v
ApiHandlers.v
