(* ===== verification/Prelude.v ===== *)
(** * Sienne IdP: a verified model of the identity provider's core

    The repository's Go program, src/idp-server, is an OAuth 2.0 / OpenID
    Connect identity provider.  Application services (internal/application)
    hold the rules; they reach storage, caches, signing and the clock through
    interfaces (internal/ports, internal/domain); adapters implement the
    interfaces over MySQL (internal/infrastructure/persistence and its SQL
    files), Redis (internal/infrastructure/cache/redis and scripts/lua), keys
    and files (internal/infrastructure/crypto) and other providers
    (internal/infrastructure/external); login methods, client authentication
    and grants are plugins (internal/plugins); HTTP handlers
    (internal/interfaces/http) call the services.  This development models all
    of these layers, from the bound form of a request to the statements and
    scripts on the servers, and joins them where they meet.

    ** How Go is read

    - A method [func (s *T) F(ctx, in) (Out, error)] is a function
      [F : ... -> IO W Out] of the state-and-error monad below, over a world
      [W]: databases, caches, clock, random source.  Effects made before an
      error stay.  Go's early returns are [guard], [check] and [throw]; an
      error that is inspected or dropped is an [attempt].
    - Strings are byte strings.  [int64] is a [Z] with wrap-around written out
      ([wrap64] in GoStrings); a [time.Time] is a number of nanoseconds and
      a [time.Duration] a wrapped int64 of them (GoTime).  Pointers and nil
      slices are [option]s.
    - An interface is a record of operations over [W] (Ports, AuthPorts), an
      optional dependency an [option] of one.  Service theorems hold for every
      record: a port may fail or lie in every way its type allows, unless the
      theorem says which law it needs.
    - A handler is a function from what it reads of [gin.Context] (the address,
      cookies and headers of the request, and the form that binding made of its
      body, [None] when binding failed) to a response with its cookies.
    - Context cancellation, logging, metrics and tracing are left out.  A
      wrapped error ([%w]) is its sentinel; any other error is a [Driver] with
      some text.

    ** The files

    Prelude: the monad, its inversion lemmas ([ret_Ok], [bind_Ok], ...), the
    tactics built on them ([run], [run_guard], [run_some], ...), shared lemmas.

    The Go library, executable: GoStrings, GoText, GoPath (strings, strconv,
    unicode, path), GoTime (durations; time.Format and time.Parse), GoCrypto
    (SHA-256, SHA-1, HMAC, hex), GoBase64, GoJson, GoJsonObject, GoJsonWrite
    (encoding/json with float64 numbers, in both directions), GoUrl, GoNetUrl
    (net/url: parsing, query values, printing).

    The program's data: Errors (sentinels and their texts), Domain
    (internal/domain), Ports and AuthPorts (internal/ports and the repository
    interfaces), Scopes (the scope helpers each service has a copy of),
    StateMask (ports/cache/state_mask.go).

    The services, one file per package of internal/application: TokenService
    with TokenTheorems, Authz, ConsentService, SessionService, DeviceService,
    ClientAuth (with its plugins), ClientService, Rbac (with pkg/rbac),
    AuthnPlugins and AuthnService with AuthnTheorems (login, lockout, second
    factors, federated users; WorkerPool has the pools a login runs on),
    MfaService, PasskeyService and ShortURL (each with its repository),
    RegisterService (accounts, and the passwords administrators set), Oidc
    (with the bearer middleware), LoggedIn (what several services mean by
    it).  OidcProvider (infrastructure/external) is the other side of a
    federated login.

    The adapters over MySQL: Remote (what a request over a network can do),
    Database (the server, tables, dbRouter), then AuthorizationCodeRepo,
    TokenRepo, SessionRepo, UserRepo, RoleRepo, ConsentRepo, TotpRepo (over
    SecretCodec), ClientRepo, JwkKeyRepo, AuditStream (audit events).
    Over Redis: Redis (server, client, transactions), RedisKeys (key.go),
    LuaScripts (scripts/lua and helpers.go), TokenCache with
    TokenCacheTheorems, SessionCache, DeviceCache, MFACache, RateLimitCache,
    ReplayCache.  Keys and tokens: Keys, Jwt (infrastructure/crypto),
    KeyRotation (loading, rotation, reload).  Totp (security/totp.go).

    The HTTP interface: TokenEndpoint (token and introspection endpoints and
    the grant plugins), HttpRedirects (where browsers are sent),
    AuthorizeEndpoint, Browser (requests, responses, csrf.go), BrowserLogout,
    BrowserConsent, BrowserLogin, BrowserSecondFactor, BrowserSetup (the pages
    and forms), BrowserTheorems; AdminGate (the middleware that asks for
    privileges), AdminActions (the console's actions, their audit records and
    routes), ApiHandlers (the handlers that answer JSON, and the table of the
    guarded routes).

    Systems: AuthnSystem (login over Redis), ClientSystem (clients from the
    administrator through the database to the token endpoint), and the last
    sections of RoleRepo, RegisterService and KeyRotation (a service over its
    table).

    ** The theorems

    Tokens (TokenTheorems): a grant issues tokens only when its preconditions
    were met, in the order of the code.  The token endpoint (TokenEndpoint)
    issues only what its service gave for the client it authenticated, and
    answers every failure as OAuth prescribes.  Authorization (Authz,
    AuthorizeEndpoint, ConsentService): every outcome of [Authorize] with what
    it presupposes, where the browser is sent and with which parameters, that
    a consent grants what the request asked for, that a PKCE challenge is
    answered by exactly the verifiers of its method.

    Single use: of authorization codes and of refresh tokens in the database,
    of refresh tokens in the cache, of one-time passwords.  Each is about any
    interleaving of all the repository's operations, by any number of servers,
    as atomic steps (a transaction or script is one step), with requests and
    replies lost and programs run again by a retrying client.  The same runs
    carry [detected_replay_locks_family], [lockout_end_to_end],
    [account_status_machine] and the refinements of a versioned register by
    the challenge cache and of a map by the consent table.
    [builtin_roles_stay] is the same for the role service: the built-in roles
    keep their privileges.
    [poll_interval_enforced] is about the optimistic transaction of the device
    cache; [pools_answer_every_caller] about the worker pools as a transition
    system.

    Logging in (AuthnTheorems, MfaService, PasskeyService): every way to a
    session and what it took; [federated_login_bound]: a login at another
    provider answers a state this server issued and claims that fit it;
    [password_in_force]: after a registration or a reset exactly the new
    password is accepted.  Pages (BrowserTheorems): session cookies are those
    of a login, a logout leads only where a client registered; over all
    handlers, pages and JSON (ApiHandlers): forged forms decide nothing;
    HttpRedirects: which local addresses are let through.
    Administration ([admin_actions_guarded]): an action runs only for a logged
    in user with the privileges of its route and a valid form token, and what
    it did is in the audit record.

    Keys and JWTs: what is accepted was signed with a key of this server and
    says what was asked for; tokens outlive the rotation of their key while its
    row is kept and its file not overwritten (two rotations within a second do
    that); introspection answers what was issued, exactly in its life.  Clients: only well-formed ones
    are stored, and they authenticate with the secret they were given.
    Round trips through caches, codecs and encoders; bounds on counters and
    lifetimes; [create_terminates] and the fuel lemmas.

    Each theorem with hypotheses has a witness, named after it, that runs it
    on a concrete service, server or database.  Examples named in the text
    run the model where the code does something surprising.

    ** What is a parameter

    Redis and MySQL are not in the repository.  [Redis.RedisServer] is a
    server whose commands act on the live keys the way the documentation of
    each command says; between two commands any function of the world may have
    run.  [Database.Table] gives SELECT, INSERT and UPDATE their documented
    meaning on the rows of a table, [Database.TableEdit] the other
    statements, [Database.Columns] what a column does to a value (rounding of
    datetime, comparison by the collation).  AES-GCM ([SecretCodec]), RSA with
    PEM and PKCS (Keys), the operating system's files (KeyRotation),
    uuid.NewSHA1, the grammar of net/mail, the HTTP client, LIKE, the order of
    a Go map's range, the clock, UUIDs and the random source
    ([Ports.Runtime]), password hashing and WebAuthn are classes, arguments
    or ports too.  All have executable instances, so that the witnesses run.

    ** Fuel and bounds

    Recursion is structural, or has fuel: SHA-256 and SHA-1 one step per
    64-byte block; the JSON readers more than the length of the text, for
    which the round-trip lemmas show it is enough; a remote call the client's
    [max_retries]; [rand.Int] a number of draws, which [create_terminates]
    shows to be enough once the source gives a usable one.  url.ParseQuery
    stops at the 10000 parameters Go allows.  Where a theorem bounds a value,
    the bound is the code's or the format's: [ttl_ok] (a lifetime in seconds
    that does not overflow as a Duration), [four_digit_year] (RFC 3339 as
    [time.Format] writes it), [exact_int] (integers a Lua number holds
    exactly).  The nesting limit of encoding/json and the lengths of columns
    other than those of secrets are not modelled.

    ** Not modelled

    The password verifier (bcrypt) and the WebAuthn provider: third-party
    code behind the ports the services are proved against.  The pages of the
    administration and audit consoles and of the portal, templates and the QR
    code: they read and render, and decide nothing.  Logging, metrics and
    recovery middleware and the wiring of gin.  internal/bootstrap and cmd
    (configuration from the environment, construction of the components,
    partly generated), of which only the registry of grants is modelled, and
    the clients of Redis and MySQL with the loading of scripts: pure I/O.
    The audit stream (infrastructure/auditstream) and its replay tool are not
    modelled, only the repository behind them. *)

From stdpp Require Import base tactics list gmap strings numbers.
From Stdlib Require Import ZArith Lia.

#[global] Open Scope Z_scope.

(** ** Results and the state-and-error monad

    A Go function [func (s *T) F(ctx, in) (Out, error)] becomes
    [F : ... -> M W Out]: it reads and writes the world [W] (databases,
    caches, clock, random source) and ends in [Ok] or in [Err].  The state
    reached before an error is kept: Go does not undo the effects made
    before [return nil, err]. *)

Inductive result (E A : Type) :=
| Ok (a : A)
| Err (e : E).
Arguments Ok {E A} a.
Arguments Err {E A} e.

Definition M (E W A : Type) : Type := W -> result E A * W.

Declare Scope go_scope.
Delimit Scope go_scope with go.

Section Monad.
Context {E W : Type}.

Definition ret {A} (a : A) : M E W A := fun w => (Ok a, w).

Definition fail {A} (e : E) : M E W A := fun w => (Err e, w).

Definition bind {A B} (m : M E W A) (k : A -> M E W B) : M E W B :=
  fun w => match m w with
           | (Ok a, w1) => k a w1
           | (Err e, w1) => (Err e, w1)
           end.

(** [if !b { return nil, e }] *)
Definition require (b : bool) (e : E) : M E W unit :=
  if b then ret tt else fail e.

(** A call whose error the caller inspects, or drops with [_ = f()]. *)
Definition attempt {A} (m : M E W A) : M E W (result E A) :=
  fun w => match m w with (r, w1) => (Ok r, w1) end.

(** [if p != nil { ... }] around a call on an optional dependency. *)
Definition when_some {A} (o : option A) (k : A -> M E W unit) : M E W unit :=
  match o with Some a => k a | None => ret tt end.

(** [for _, x := range xs { if err := f(x); err != nil { return err } }] *)
Fixpoint mapM_ {A} (f : A -> M E W unit) (xs : list A) : M E W unit :=
  match xs with
  | [] => ret tt
  | x :: rest => bind (f x) (fun _ => mapM_ f rest)
  end.
End Monad.

Arguments ret : simpl never.
Arguments fail : simpl never.
Arguments bind : simpl never.
Arguments require : simpl never.
Arguments attempt : simpl never.
Arguments when_some : simpl never.

Notation "'let*' x ':=' m 'in' k" := (bind m (fun x => k))
  (at level 10, x pattern, m at level 200, k at level 200) : go_scope.
Notation "'do*' m 'in' k" := (bind m (fun _ => k))
  (at level 10, m at level 200, k at level 200) : go_scope.
#[global] Open Scope go_scope.

(** ** Reasoning about runs that return [Ok] *)

Section MonadLemmas.
Context {E W : Type}.

Lemma bind_Ok {A B} (m : M E W A) (k : A -> M E W B) w b w' :
  bind m k w = (Ok b, w') <-> exists a w1, m w = (Ok a, w1) /\ k a w1 = (Ok b, w').
Proof.
  unfold bind. split.
  - destruct (m w) as [[a|e] w1]; [eauto | discriminate].
  - intros (a & w1 & -> & H). exact H.
Qed.

Lemma bind_Err {A B} (m : M E W A) (k : A -> M E W B) w e w' :
  bind m k w = (Err e, w') <->
  m w = (Err e, w') \/ exists a w1, m w = (Ok a, w1) /\ k a w1 = (Err e, w').
Proof.
  unfold bind. destruct (m w) as [[a|e1] w1]; split.
  - intros H. right. eauto.
  - intros [?|(? & ? & [= <- <-] & ?)]; [discriminate | done].
  - intros [= <- <-]. by left.
  - intros [[= <- <-]|(? & ? & ? & ?)]; [done | discriminate].
Qed.

Lemma bind_run {A B} (m : M E W A) (k : A -> M E W B) w a w1 :
  m w = (Ok a, w1) -> bind m k w = k a w1.
Proof. unfold bind. by intros ->. Qed.

Lemma bind_run_Err {A B} (m : M E W A) (k : A -> M E W B) w e w1 :
  m w = (Err e, w1) -> bind m k w = (Err e, w1).
Proof. unfold bind. by intros ->. Qed.

Lemma bind_ext {A B} (m : M E W A) (k1 k2 : A -> M E W B) w :
  (forall a w1, m w = (Ok a, w1) -> k1 a w1 = k2 a w1) -> bind m k1 w = bind m k2 w.
Proof. intros Hk. unfold bind. destruct (m w) as [[a|e] w1]; [by apply Hk | done]. Qed.

Lemma ret_Ok {A} (a b : A) (w w' : W) : ret (E:=E) a w = (Ok b, w') <-> a = b /\ w = w'.
Proof. unfold ret. split; [by intros [= -> ->] | by intros [-> ->]]. Qed.

Lemma fail_Ok {A} (e : E) (b : A) (w w' : W) : fail e w = (Ok b, w') <-> False.
Proof. unfold fail. split; [discriminate | done]. Qed.

Lemma require_Ok (b : bool) (e : E) u (w w' : W) :
  require b e w = (Ok u, w') <-> b = true /\ w = w'.
Proof.
  unfold require, ret, fail. destruct b, u; split; try done.
  - by intros [= ->].
  - by intros [_ ->].
  - by intros [? _].
Qed.

Lemma require_true (e : E) (w : W) : require true e w = (Ok tt, w).
Proof. done. Qed.

Lemma require_false (e : E) (w : W) : require false e w = (Err e, w).
Proof. done. Qed.

Lemma attempt_Ok {A} (m : M E W A) r w w' : attempt m w = (Ok r, w') <-> m w = (r, w').
Proof.
  unfold attempt. destruct (m w) as [r0 w0]. split; [by intros [= -> ->] | by intros [= -> ->]].
Qed.

Lemma attempt_inv {A} (m : M E W A) r w w' : attempt m w = (Ok r, w') -> m w = (r, w').
Proof. apply attempt_Ok. Qed.

Lemma bind_assoc {A B C} (m : M E W A) (k : A -> M E W B) (h : B -> M E W C) w :
  bind (bind m k) h w = bind m (fun a => bind (k a) h) w.
Proof. unfold bind. by destruct (m w) as [[a|e] w1]. Qed.

(** A state predicate that every run of [m] keeps, error runs included. *)
Definition preserves {A} (P : W -> Prop) (m : M E W A) : Prop :=
  forall w r w', m w = (r, w') -> P w -> P w'.

Lemma preserves_ret {A} P (a : A) : preserves P (ret a).
Proof. by intros w r w' [= <- <-]. Qed.

Lemma preserves_fail {A} P (e : E) : preserves P (fail (A:=A) e).
Proof. by intros w r w' [= <- <-]. Qed.

Lemma preserves_require P b (e : E) : preserves P (require b e).
Proof. destruct b; [apply preserves_ret | apply preserves_fail]. Qed.

Lemma preserves_bind {A B} P (m : M E W A) (k : A -> M E W B) :
  preserves P m -> (forall a, preserves P (k a)) -> preserves P (bind m k).
Proof.
  intros Hm Hk w r w' H HP. unfold bind in H.
  destruct (m w) as [[a|e] w1] eqn:Em.
  - exact (Hk a _ _ _ H (Hm _ _ _ Em HP)).
  - simplify_eq. exact (Hm _ _ _ Em HP).
Qed.

Lemma preserves_attempt {A} P (m : M E W A) : preserves P m -> preserves P (attempt m).
Proof.
  intros Hm w r w' H HP. unfold attempt in H.
  destruct (m w) as [r0 w0] eqn:Em. simplify_eq. exact (Hm _ _ _ Em HP).
Qed.

Lemma preserves_when_some {A} P (o : option A) (k : A -> M E W unit) :
  (forall a, o = Some a -> preserves P (k a)) -> preserves P (when_some o k).
Proof. intros Hk. destruct o; [by apply Hk | apply preserves_ret]. Qed.

Lemma preserves_mapM_ {A} P (f : A -> M E W unit) xs :
  (forall a, preserves P (f a)) -> preserves P (mapM_ f xs).
Proof.
  intros Hf. induction xs as [|x xs IH]; cbn.
  - apply preserves_ret.
  - apply preserves_bind; auto.
Qed.

(** A loop that succeeded did its work on every element, when the work on one
    element does not undo the work on another. *)
Lemma mapM_establishes {A} (f : A -> M E W unit) (Q : A -> W -> Prop) xs w w' :
  (forall x w1 w2, f x w1 = (Ok tt, w2) -> Q x w2) ->
  (forall x y, preserves (Q y) (f x)) ->
  mapM_ f xs w = (Ok tt, w') -> forall x, x ∈ xs -> Q x w'.
Proof.
  intros Hest Hkeep. revert w. induction xs as [|x xs IH]; intros w H y Hy.
  { by apply elem_of_nil in Hy. }
  cbn in H. apply bind_Ok in H as ([] & w1 & Hx & H).
  apply elem_of_cons in Hy as [->|Hy]; [|by eapply IH].
  apply (preserves_mapM_ (Q x) f xs) with (2 := H); [auto | by eapply Hest].
Qed.
End MonadLemmas.

Create HintDb preserves discriminated.
#[export] Hint Resolve preserves_ret preserves_fail preserves_require
  preserves_bind preserves_attempt preserves_when_some preserves_mapM_ : preserves.

(** [minv H] turns a run that returned [Ok] into the run of each of its
    steps, discarding the branches that fail.  Guards become hypotheses. *)
Ltac minv_step :=
  match goal with
  | H : bind _ _ _ = (Ok _, _) |- _ =>
      apply bind_Ok in H; destruct H as (? & ? & ? & H)
  | H : ret _ _ = (Ok _, _) |- _ => apply ret_Ok in H; destruct H as [? ?]; subst
  | H : fail _ _ = (Ok _, _) |- _ => by apply fail_Ok in H
  | H : require _ _ _ = (Ok _, _) |- _ => apply require_Ok in H; destruct H as [? ?]; subst
  | H : attempt _ _ = (Ok _, _) |- _ => apply attempt_inv in H
  | H : (match ?x with _ => _ end) _ = (Ok _, _) |- _ => destruct x eqn:?
  | H : (if ?b then _ else _) _ = (Ok _, _) |- _ => destruct b eqn:?
  | H : (let '_ := ?x in _) _ = (Ok _, _) |- _ => destruct x eqn:?
  end.
Ltac minv := repeat (minv_step; simpl in *).

(** [mrun] pushes known step results through a goal [bind m k w = _]. *)
Ltac mrun1 :=
  match goal with
  | H : ?m ?w = (Ok _, _) |- context [bind ?m _ ?w] => rewrite (bind_run _ _ _ _ _ H)
  | H : ?m ?w = (Err _, _) |- context [bind ?m _ ?w] => rewrite (bind_run_Err _ _ _ _ _ H)
  end.

(** [provide_run t] instantiates the result and final state of the concrete
    run [t], which must return [Ok]; [run_is t] proves what [t] evaluates to. *)
Ltac provide_run t :=
  let v := eval vm_compute in t in
  lazymatch v with (Ok ?r, ?w) => exists r, w end.
Ltac run_is := vm_compute; reflexivity.
