(* ===== verification/GoStrings.v ===== *)
(** * Go's [strings] and [strconv], as the services use them

    A Go string is a sequence of bytes, here a [string] of [ascii].
    [TrimSpace] cuts the UTF-8 encodings of every rune for which
    [unicode.IsSpace] holds.  [ToLower] and [ToUpper] are exact on ASCII and
    on the non-ASCII runes whose image is ASCII (so a comparison of the
    result with an ASCII literal is exact); they leave other letters alone.
    [ParseInt]/[FormatInt] are base 10, 64 bits. *)

From stdpp Require Import base tactics list strings numbers.
From Stdlib Require Import ZArith Lia DecimalString DecimalZ DecimalPos Ascii String.
From S2P Require Import Prelude.

#[local] Arguments String.append !_ _ / : simpl nomatch.

(** ** Bytes *)

Definition byte_of (c : ascii) : Z := Z.of_N (N_of_ascii c).
Definition ascii_of (z : Z) : ascii := ascii_of_N (Z.to_N z).

Definition bytes_of (s : string) : list Z := List.map byte_of (list_ascii_of_string s).
Definition string_of_bytes (l : list Z) : string := string_of_list_ascii (List.map ascii_of l).

Lemma byte_of_range c : 0 <= byte_of c < 256.
Proof.
  unfold byte_of. pose proof (N_ascii_bounded c). lia.
Qed.

Lemma ascii_of_byte_of c : ascii_of (byte_of c) = c.
Proof. unfold ascii_of, byte_of. rewrite N2Z.id. apply ascii_N_embedding. Qed.

Lemma byte_of_ascii_of z : 0 <= z < 256 -> byte_of (ascii_of z) = z.
Proof. intros H. unfold ascii_of, byte_of. rewrite N_ascii_embedding; lia. Qed.

Lemma string_of_bytes_of s : string_of_bytes (bytes_of s) = s.
Proof.
  unfold string_of_bytes, bytes_of. induction s as [|c s IH]; simpl; [done|].
  by rewrite ascii_of_byte_of, IH.
Qed.

(** ** [strings.TrimSpace] *)

(** The one-, two- and three-byte encodings of the space runes:
    U+0009-000D and U+0020; U+0085 and U+00A0; U+1680, U+2000-200A, U+2028,
    U+2029, U+202F, U+205F and U+3000. *)
Definition is_space1 (a : ascii) : bool :=
  let x := byte_of a in ((9 <=? x) && (x <=? 13)) || (x =? 32).

Definition is_space2 (a b : ascii) : bool :=
  (byte_of a =? 194) && ((byte_of b =? 133) || (byte_of b =? 160)).

Definition is_space3 (a b c : ascii) : bool :=
  let x := byte_of a in let y := byte_of b in let z := byte_of c in
  ((x =? 225) && (y =? 154) && (z =? 128)) ||
  ((x =? 226) && (y =? 128) &&
    (((128 <=? z) && (z <=? 138)) || (z =? 168) || (z =? 169) || (z =? 175))) ||
  ((x =? 226) && (y =? 129) && (z =? 159)) ||
  ((x =? 227) && (y =? 128) && (z =? 128)).

Section TrimWith.
  Variables (sp2 : ascii -> ascii -> bool) (sp3 : ascii -> ascii -> ascii -> bool).

Fixpoint trim_with (s : string) : string :=
  match s with
  | EmptyString => EmptyString
  | String a s1 =>
      if is_space1 a then trim_with s1 else
      match s1 with
      | EmptyString => s
      | String b s2 =>
          if sp2 a b then trim_with s2 else
          match s2 with
          | EmptyString => s
          | String c s3 => if sp3 a b c then trim_with s3 else s
          end
      end
  end.

(** Whether the string starts with the encoding of a space. *)
Definition leading_space (s : string) : bool :=
  match s with
  | EmptyString => false
  | String a s1 =>
      is_space1 a ||
      match s1 with
      | EmptyString => false
      | String b s2 =>
          sp2 a b ||
          match s2 with EmptyString => false | String c _ => sp3 a b c end
      end
  end.

Lemma trim_with_not_leading s : leading_space (trim_with s) = false.
Proof.
  enough (H : forall n s, (String.length s <= n)%nat -> leading_space (trim_with s) = false)
    by exact (H _ s (Nat.le_refl _)).
  clear s. induction n as [|n IH]; intros s Hs.
  { destruct s; [done | simpl in Hs; lia]. }
  destruct s as [|a [|b [|c s]]]; simpl in *; try done.
  - destruct (is_space1 a) eqn:?; simpl; [done|]. by rewrite Heqb.
  - destruct (is_space1 a) eqn:?; [apply (IH (String b "")); simpl; lia|].
    destruct (sp2 a b) eqn:?; simpl; [done|]. by rewrite Heqb0, Heqb1.
  - destruct (is_space1 a) eqn:?; [apply (IH (String b (String c s))); simpl; lia|].
    destruct (sp2 a b) eqn:?; [apply (IH (String c s)); simpl; lia|].
    destruct (sp3 a b c) eqn:?; [apply IH; lia|].
    simpl. by rewrite Heqb0, Heqb1, Heqb2.
Qed.

Lemma trim_with_id s : leading_space s = false -> trim_with s = s.
Proof.
  destruct s as [|a [|b [|c s]]]; simpl; try done.
  - by destruct (is_space1 a).
  - destruct (is_space1 a); [done|]. by destruct (sp2 a b).
  - destruct (is_space1 a); [done|]. destruct (sp2 a b); [done|]. simpl. by intros ->.
Qed.

Lemma leading_space_app p q : leading_space p = true -> leading_space (p +:+ q) = true.
Proof.
  destruct p as [|a [|b [|c p]]]; simpl; try done.
  - destruct (is_space1 a); done.
  - destruct (is_space1 a); [done|]. destruct (sp2 a b); done.
Qed.

(** What is cut off is a prefix. *)
Lemma trim_with_suffix s : exists p, s = p +:+ trim_with s.
Proof.
  enough (H : forall n s, (String.length s <= n)%nat -> exists p, s = p +:+ trim_with s)
    by exact (H _ s (Nat.le_refl _)).
  clear s. induction n as [|n IH]; intros s Hs.
  { destruct s; [by exists "" | simpl in Hs; lia]. }
  destruct s as [|a s]; [by exists ""|]. simpl in Hs.
  destruct (leading_space (String a s)) eqn:Hl.
  2: { exists "". by rewrite trim_with_id. }
  cbn [trim_with]. cbn [leading_space] in Hl.
  destruct (is_space1 a) eqn:H1.
  { destruct (IH s) as [p Hp]; [lia|]. exists (String a p). simpl. f_equal. exact Hp. }
  destruct s as [|b s]; [done|]. simpl in Hs, Hl.
  destruct (sp2 a b) eqn:H2.
  { destruct (IH s) as [p Hp]; [lia|]. exists (String a (String b p)). simpl. do 2 f_equal. exact Hp. }
  destruct s as [|c s]; [done|]. simpl in Hs, Hl. rewrite Hl.
  destruct (IH s) as [p Hp]; [lia|].
  exists (String a (String b (String c p))). simpl. do 3 f_equal. exact Hp.
Qed.
End TrimWith.

Lemma string_app_assoc (p q r : string) : p +:+ (q +:+ r) = (p +:+ q) +:+ r.
Proof. induction p as [|a p IH]; simpl; [done|]. by f_equal. Qed.

Fixpoint string_rev_app (s acc : string) : string :=
  match s with
  | EmptyString => acc
  | String a s' => string_rev_app s' (String a acc)
  end.
Definition string_rev (s : string) : string := string_rev_app s "".

Lemma string_rev_app_spec s acc : string_rev_app s acc = string_rev s +:+ acc.
Proof.
  revert acc. unfold string_rev. induction s as [|a s IH]; intros acc; simpl; [done|].
  rewrite (IH (String a acc)), (IH (String a "")).
  rewrite <- string_app_assoc. done.
Qed.

Lemma string_app_nil_r s : s +:+ "" = s.
Proof. induction s; simpl; congruence. Qed.

Lemma string_rev_cons a s : string_rev (String a s) = string_rev s +:+ String a "".
Proof. unfold string_rev at 1. simpl. apply string_rev_app_spec. Qed.

Lemma string_rev_distr p q : string_rev (p +:+ q) = string_rev q +:+ string_rev p.
Proof.
  induction p as [|a p IH]; simpl.
  - by rewrite string_app_nil_r.
  - by rewrite !string_rev_cons, IH, string_app_assoc.
Qed.

Lemma string_rev_involutive s : string_rev (string_rev s) = s.
Proof.
  induction s as [|a s IH]; [done|].
  by rewrite string_rev_cons, string_rev_distr, IH.
Qed.

Definition trimLeft (s : string) : string := trim_with is_space2 is_space3 s.

(** The trailing runes are cut by reading the bytes backwards. *)
Definition trimRight (s : string) : string :=
  string_rev (trim_with (fun b a => is_space2 a b) (fun c b a => is_space3 a b c) (string_rev s)).

Definition TrimSpace (s : string) : string := trimRight (trimLeft s).

Lemma trimRight_prefix s : exists q, s = trimRight s +:+ q.
Proof.
  unfold trimRight.
  destruct (trim_with_suffix (fun b a => is_space2 a b) (fun c b a => is_space3 a b c)
              (string_rev s)) as [p Hp].
  exists (string_rev p). rewrite <- string_rev_distr, <- Hp.
  by rewrite string_rev_involutive.
Qed.

(** Trimming is idempotent, so a value that was trimmed once is found again
    by any later trimmed lookup. *)
Lemma TrimSpace_idem s : TrimSpace (TrimSpace s) = TrimSpace s.
Proof.
  unfold TrimSpace.
  assert (Hl : leading_space is_space2 is_space3 (trimRight (trimLeft s)) = false).
  { destruct (leading_space is_space2 is_space3 (trimRight (trimLeft s))) eqn:E; [|done].
    destruct (trimRight_prefix (trimLeft s)) as [q Hq].
    pose proof (leading_space_app is_space2 is_space3 _ q E) as Hc.
    rewrite <- Hq in Hc. unfold trimLeft in Hc. by rewrite trim_with_not_leading in Hc. }
  unfold trimLeft at 1. rewrite trim_with_id by exact Hl.
  unfold trimRight. rewrite string_rev_involutive.
  rewrite (trim_with_id _ _ (trim_with _ _ _)); [done|]. apply trim_with_not_leading.
Qed.

(** No space rune at either end: trimming changes nothing. *)
Definition trimmed (s : string) : bool := String.eqb (TrimSpace s) s.

Lemma trimmed_spec s : trimmed s = true <-> TrimSpace s = s.
Proof. apply String.eqb_eq. Qed.

Lemma TrimSpace_trimmed s : trimmed (TrimSpace s) = true.
Proof. apply trimmed_spec, TrimSpace_idem. Qed.

(** [strings.TrimSpace(s) == ""] *)
Definition blank (s : string) : bool := String.eqb (TrimSpace s) "".

Lemma blank_spec s : blank s = true <-> TrimSpace s = "".
Proof. apply String.eqb_eq. Qed.

(** A nonempty string of visible ASCII needs no trimming. *)
Definition visible (a : ascii) : bool := (33 <=? byte_of a) && (byte_of a <=? 126).

Fixpoint forall_string (p : ascii -> bool) (s : string) : bool :=
  match s with EmptyString => true | String a s' => p a && forall_string p s' end.

Lemma forall_string_app p s t : forall_string p (s +:+ t) = forall_string p s && forall_string p t.
Proof. induction s as [|a s IH]; simpl; [done|]. by rewrite IH, andb_assoc. Qed.

Lemma forall_string_rev p s : forall_string p (string_rev s) = forall_string p s.
Proof.
  induction s as [|a s IH]; [done|].
  rewrite string_rev_cons, forall_string_app, IH. simpl. rewrite andb_true_r. apply andb_comm.
Qed.

Lemma forall_string_impl (p q : ascii -> bool) s :
  (forall a, p a = true -> q a = true) -> forall_string p s = true -> forall_string q s = true.
Proof.
  intros Hpq. induction s as [|a s IH]; simpl; [done|].
  rewrite !andb_true_iff. intros [??]. auto.
Qed.

Lemma visible_no_space a :
  visible a = true -> is_space1 a = false /\
  (forall b, is_space2 a b = false /\ is_space2 b a = false) /\
  (forall b c, is_space3 a b c = false /\ is_space3 c b a = false).
Proof.
  unfold visible, is_space1, is_space2, is_space3. cbv zeta. rewrite andb_true_iff. intros [H1 H2].
  apply Z.leb_le in H1, H2.
  repeat split; intros;
    repeat rewrite ?orb_false_iff, ?andb_false_iff, ?Z.leb_gt, ?Z.eqb_neq; lia.
Qed.

Lemma visible_not_leading s :
  forall_string visible s = true ->
  leading_space is_space2 is_space3 s = false /\
  leading_space (fun b a => is_space2 a b) (fun c b a => is_space3 a b c) s = false.
Proof.
  destruct s as [|a [|b [|c s]]]; simpl; try done; rewrite !andb_true_iff; intros H;
    destruct H as [Ha _]; destruct (visible_no_space a Ha) as (-> & H2 & H3); simpl; try done.
  - by rewrite (proj1 (H2 b)), (proj2 (H2 b)).
  - rewrite (proj1 (H2 b)), (proj2 (H2 b)). simpl.
    split; [apply H3 | apply H3].
Qed.

Lemma TrimSpace_visible s : forall_string visible s = true -> TrimSpace s = s.
Proof.
  intros H. unfold TrimSpace, trimLeft.
  rewrite trim_with_id by (by apply visible_not_leading).
  unfold trimRight. rewrite trim_with_id.
  - apply string_rev_involutive.
  - apply visible_not_leading. by rewrite forall_string_rev.
Qed.

(** A string whose first byte is visible is not blank. *)
Definition space_byte (a : ascii) : bool := is_space1 a || (128 <=? byte_of a).

Lemma is_space2_bytes a b : is_space2 a b = true -> space_byte a = true /\ space_byte b = true.
Proof.
  unfold is_space2, space_byte. rewrite andb_true_iff, orb_true_iff, !Z.eqb_eq.
  intros [Ha Hb]. rewrite !orb_true_iff, !Z.leb_le. lia.
Qed.

Lemma is_space3_bytes a b c :
  is_space3 a b c = true -> space_byte a = true /\ space_byte b = true /\ space_byte c = true.
Proof.
  unfold is_space3, space_byte. cbv zeta.
  rewrite !orb_true_iff, !andb_true_iff, !orb_true_iff, !andb_true_iff, !Z.eqb_eq, !Z.leb_le. lia.
Qed.

Lemma trim_with_empty sp2 sp3 s :
  (forall a b, sp2 a b = true -> space_byte a = true /\ space_byte b = true) ->
  (forall a b c, sp3 a b c = true ->
     space_byte a = true /\ space_byte b = true /\ space_byte c = true) ->
  trim_with sp2 sp3 s = "" -> forall_string space_byte s = true.
Proof.
  intros H2 H3.
  enough (H : forall n s, (String.length s <= n)%nat ->
              trim_with sp2 sp3 s = "" -> forall_string space_byte s = true)
    by exact (H _ s (Nat.le_refl _)).
  clear s. induction n as [|n IH]; intros s Hs Ht.
  { destruct s; [done | simpl in Hs; lia]. }
  destruct s as [|a s]; [done|]. simpl in Hs. cbn [trim_with] in Ht. cbn [forall_string].
  destruct (is_space1 a) eqn:E1.
  { rewrite (IH s) by (done || lia). unfold space_byte. by rewrite E1. }
  destruct s as [|b s]; [done|]. simpl in Hs. cbn [forall_string].
  destruct (sp2 a b) eqn:E2.
  { destruct (H2 _ _ E2) as [-> ->]. apply IH; [lia|done]. }
  destruct s as [|c s]; [done|]. simpl in Hs. cbn [forall_string].
  destruct (sp3 a b c) eqn:E3; [|done].
  destruct (H3 _ _ _ E3) as (-> & -> & ->). apply IH; [lia|done].
Qed.

Lemma not_blank_visible a t : visible a = true -> blank (String a t) = false.
Proof.
  intros Hv. destruct (blank (String a t)) eqn:E; [|done]. exfalso.
  apply blank_spec in E. destruct (visible_no_space a Hv) as (H1 & H2 & H3).
  assert (Hl : leading_space is_space2 is_space3 (String a t) = false).
  { simpl. rewrite H1. destruct t as [|b [|c t]]; simpl; [done| |].
    - by rewrite (proj1 (H2 b)).
    - by rewrite (proj1 (H2 b)), (proj1 (H3 b c)). }
  unfold TrimSpace, trimLeft in E. rewrite (trim_with_id _ _ _ Hl) in E.
  unfold trimRight in E. apply (f_equal string_rev) in E.
  rewrite string_rev_involutive in E. apply trim_with_empty in E.
  - rewrite forall_string_rev in E. simpl in E. unfold space_byte in E. rewrite H1 in E.
    unfold visible in Hv. rewrite andb_true_iff, !Z.leb_le in Hv.
    rewrite orb_false_l, andb_true_iff, Z.leb_le in E. lia.
  - intros x y Hxy. apply is_space2_bytes in Hxy. tauto.
  - intros x y z Hxyz. apply is_space3_bytes in Hxyz. tauto.
Qed.

(** ** Case mapping *)

Definition lower1 (a : ascii) : ascii :=
  let x := byte_of a in if (65 <=? x) && (x <=? 90) then ascii_of (x + 32) else a.
Definition upper1 (a : ascii) : ascii :=
  let x := byte_of a in if (97 <=? x) && (x <=? 122) then ascii_of (x - 32) else a.

(** U+0130 lowers to [i] and U+212A to [k]. *)
Fixpoint ToLower (s : string) : string :=
  match s with
  | EmptyString => EmptyString
  | String a s1 =>
      match s1 with
      | String b s2 =>
          if (byte_of a =? 196) && (byte_of b =? 176) then String "i" (ToLower s2) else
          match s2 with
          | String c s3 =>
              if (byte_of a =? 226) && (byte_of b =? 132) && (byte_of c =? 170)
              then String "k" (ToLower s3) else String (lower1 a) (ToLower s1)
          | EmptyString => String (lower1 a) (ToLower s1)
          end
      | EmptyString => String (lower1 a) EmptyString
      end
  end.

(** U+0131 uppers to [I] and U+017F to [S]. *)
Fixpoint ToUpper (s : string) : string :=
  match s with
  | EmptyString => EmptyString
  | String a s1 =>
      match s1 with
      | String b s2 =>
          if (byte_of a =? 196) && (byte_of b =? 177) then String "I" (ToUpper s2) else
          if (byte_of a =? 197) && (byte_of b =? 191) then String "S" (ToUpper s2)
          else String (upper1 a) (ToUpper s1)
      | EmptyString => String (upper1 a) EmptyString
      end
  end.

Lemma ToUpper_id s :
  forall_string (fun a => visible a && Ascii.eqb (upper1 a) a) s = true -> ToUpper s = s.
Proof.
  induction s as [|a s IH]; [done|]. cbn [forall_string]. rewrite !andb_true_iff.
  intros [[Hv Hu] Hs]. apply Ascii.eqb_eq in Hu. specialize (IH Hs).
  unfold visible in Hv. rewrite andb_true_iff, Z.leb_le, Z.leb_le in Hv.
  cbn [ToUpper]. destruct s as [|b s]; [by rewrite Hu|].
  rewrite (proj2 (Z.eqb_neq (byte_of a) 196)), (proj2 (Z.eqb_neq (byte_of a) 197)) by lia.
  cbn [andb]. by rewrite Hu, IH.
Qed.

(** ** Prefixes, splitting, joining *)

Definition HasPrefix (s p : string) : bool := String.prefix p s.

Fixpoint drop_string (n : nat) (s : string) : string :=
  match n, s with
  | S n', String _ s' => drop_string n' s'
  | _, _ => s
  end.

Definition TrimPrefix (s p : string) : string :=
  if HasPrefix s p then drop_string (String.length p) s else s.

Lemma HasPrefix_append p s : HasPrefix (p +:+ s) p = true.
Proof.
  unfold HasPrefix. induction p as [|a p IH]; [by destruct s|]. simpl.
  by destruct (ascii_dec a a).
Qed.

Lemma drop_append p s : drop_string (String.length p) (p +:+ s) = s.
Proof. induction p as [|a p IH]; [by destruct s | exact IH]. Qed.

Lemma TrimPrefix_append p s : TrimPrefix (p +:+ s) p = s.
Proof. unfold TrimPrefix. by rewrite HasPrefix_append, drop_append. Qed.

(** [strings.SplitN(s, sep, 2)] for a one-byte separator: the parts before
    and after its first occurrence, or [s] alone. *)
Fixpoint split2 (sep : ascii) (s : string) : string * option string :=
  match s with
  | EmptyString => ("", None)
  | String a s' =>
      if Ascii.eqb a sep then ("", Some s')
      else let '(l, r) := split2 sep s' in (String a l, r)
  end.

Lemma split2_join sep s l r : split2 sep s = (l, Some r) -> s = l +:+ String sep r.
Proof.
  revert l r. induction s as [|a s IH]; intros l r; simpl; [done|].
  destruct (Ascii.eqb a sep) eqn:E.
  - apply Ascii.eqb_eq in E as ->. by intros [= <- <-].
  - destruct (split2 sep s) as [l' r'] eqn:Es. intros [= <- ->]. simpl. f_equal. by apply IH.
Qed.

Lemma split2_first sep l r :
  forall_string (fun a => negb (Ascii.eqb a sep)) l = true ->
  split2 sep (l +:+ String sep r) = (l, Some r).
Proof.
  induction l as [|a l IH]; simpl.
  - by rewrite Ascii.eqb_refl.
  - rewrite andb_true_iff, negb_true_iff. intros [-> H]. by rewrite (IH H).
Qed.

Definition Join (parts : list string) (sep : string) : string := String.concat sep parts.

(** ** [strconv] *)

Definition FormatInt (z : Z) : string := NilZero.string_of_int (Z.to_int z).

Definition int64_min : Z := - 2 ^ 63.
Definition int64_max : Z := 2 ^ 63 - 1.
Definition in_int64 (z : Z) : bool := (int64_min <=? z) && (z <=? int64_max).

(** [strconv.ParseInt(s, 10, 64)]; [None] for a syntax or range error. *)
Definition ParseInt (s : string) : option Z :=
  let n := match s with
           | String "+" s' => option_map (fun u => Z.of_int (Decimal.Pos u)) (NilZero.uint_of_string s')
           | _ => option_map Z.of_int (NilZero.int_of_string s)
           end in
  match n with
  | Some z => if in_int64 z then Some z else None
  | None => None
  end.

(** [strconv.ParseUint(s, 10, 32)], with 0 for an error as [parseUint32] has it. *)
Definition ParseUint32 (s : string) : option Z :=
  match NilZero.uint_of_string s with
  | Some u => let z := Z.of_int (Decimal.Pos u) in if z <? 2 ^ 32 then Some z else None
  | None => None
  end.

Lemma FormatInt_not_plus z s : FormatInt z <> String "+" s.
Proof.
  unfold FormatInt, NilZero.string_of_int. intros H.
  destruct (Z.to_int z) as [u|u]; [|discriminate].
  destruct u; simpl in H; discriminate.
Qed.

Lemma uint_nonnil z : Z.to_int z <> Decimal.Pos Decimal.Nil /\ Z.to_int z <> Decimal.Neg Decimal.Nil.
Proof.
  split; intros H; pose proof (DecimalZ.of_to z) as Hz; rewrite H in Hz; cbn in Hz; subst z;
    vm_compute in H; discriminate.
Qed.

Lemma ParseInt_FormatInt z : in_int64 z = true -> ParseInt (FormatInt z) = Some z.
Proof.
  intros Hz. unfold ParseInt.
  assert (Hp : option_map Z.of_int (NilZero.int_of_string (FormatInt z)) = Some z).
  { unfold FormatInt. destruct (uint_nonnil z) as [Hn1 Hn2].
    rewrite NilZero.isi by assumption. simpl. by rewrite DecimalZ.of_to. }
  destruct (FormatInt z) as [|a s] eqn:E; [by rewrite Hp, Hz|].
  destruct (Ascii.eqb a "+") eqn:Ea.
  - apply Ascii.eqb_eq in Ea as ->. by apply FormatInt_not_plus in E.
  - assert (forall T (x y : T),
      match a with "+"%char => x | _ => y end = y) as ->.
    { intros T x y. destruct a as [[] [] [] [] [] [] [] []]; try done; discriminate. }
    by rewrite Hp, Hz.
Qed.

Lemma FormatInt_inj a b : in_int64 a = true -> in_int64 b = true -> FormatInt a = FormatInt b -> a = b.
Proof.
  intros Ha Hb H. apply ParseInt_FormatInt in Ha, Hb. rewrite H in Ha. congruence.
Qed.

(** A number below [10 ^ k] prints in at most [k] characters. *)

Lemma uint_string_length d : String.length (NilEmpty.string_of_uint d) = Decimal.nb_digits d.
Proof. induction d; simpl; congruence. Qed.

Lemma of_uint_acc_lower d acc :
  (Zpos acc * 10 ^ Z.of_nat (Decimal.nb_digits d) <= Zpos (Pos.of_uint_acc d acc)).
Proof.
  revert acc. induction d; intros acc; cbn [Decimal.nb_digits Pos.of_uint_acc]; [lia|..];
    (etrans; [|apply IHd]); rewrite Nat2Z.inj_succ, Z.pow_succ_r by lia;
    match goal with |- ?a * (10 * ?c) <= ?b * ?c => transitivity (10 * a * c); [lia|]; apply Z.mul_le_mono_nonneg_r; lia end.
Qed.

Lemma FormatInt_length n k : 0 <= n < 10 ^ Z.of_nat k -> (0 < k)%nat -> (String.length (FormatInt n) <= k)%nat.
Proof.
  intros Hn Hk. destruct n as [|p|p]; [simpl; lia| |lia].
  unfold FormatInt. cbn [Z.to_int NilZero.string_of_int].
  pose proof (Unsigned.of_to p) as Hof. pose proof (Unsigned.to_of (Pos.to_uint p)) as Hto. rewrite Hof in Hto. simpl in Hto.
  assert (Hlow : forall d, Pos.of_uint_acc d 1 = p \/ (exists q, (1 < q)%positive /\ Pos.of_uint_acc d q = p) ->
    (S (Decimal.nb_digits d) <= k)%nat).
  { intros d Hd. assert (10 ^ Z.of_nat (Decimal.nb_digits d) <= Zpos p) as Hle.
    { destruct Hd as [Hd|(q & Hq & Hd)]; [pose proof (of_uint_acc_lower d 1) | pose proof (of_uint_acc_lower d q)]; rewrite Hd in *; nia. }
    assert (Z.of_nat (Decimal.nb_digits d) < Z.of_nat k); [|lia].
    apply (Z.pow_lt_mono_r_iff 10); lia. }
  destruct (Pos.to_uint p) as [|d|d|d|d|d|d|d|d|d|d] eqn:E; cbn [NilZero.string_of_uint].
  1: done.
  1: { exfalso. clear Hlow. unfold Decimal.unorm in Hto. cbn [Decimal.nzhead] in Hto.
    assert (Hnz : forall d e, Decimal.nzhead d <> Decimal.D0 e).
    { induction d0; intros e; simpl; try done. }
    destruct (Decimal.nzhead d) eqn:En; try discriminate Hto.
    + injection Hto as ->. discriminate Hof.
    + by apply Hnz in En. }
  all: rewrite uint_string_length; cbn [Decimal.nb_digits]; apply Hlow; cbn [Pos.of_uint] in Hof; injection Hof as Hof;
    first [by left | right; eexists; split; [|exact Hof]; lia].
Qed.
