(* ===== verification/GoText.v ===== *)
(** * More of Go's [strings]

    [EqualFold] with an ASCII word, [Fields], [Contains], [Index] of a byte,
    [Split] at a byte, [HasSuffix]. *)

From stdpp Require Import base tactics list strings sorting.
From Stdlib Require Import ZArith Lia Ascii.
From S2P Require Import Prelude GoStrings.

(** [strings.EqualFold(s, word)] for an ASCII [word] in lower case: besides
    letter case, U+017F folds with [s] and U+212A with [k]. *)
Fixpoint fold_case (s : string) : string :=
  match s with
  | EmptyString => EmptyString
  | String a s1 =>
      match s1 with
      | String b s2 =>
          if (byte_of a =? 197) && (byte_of b =? 191) then String "s" (fold_case s2) else
          match s2 with
          | String c s3 =>
              if (byte_of a =? 226) && (byte_of b =? 132) && (byte_of c =? 170)
              then String "k" (fold_case s3) else String (lower1 a) (fold_case s1)
          | EmptyString => String (lower1 a) (fold_case s1)
          end
      | EmptyString => String (lower1 a) EmptyString
      end
  end.

Definition EqualFold (s word : string) : bool := String.eqb (fold_case s) word.

(** [strings.Contains], [strings.HasSuffix] *)
Fixpoint Contains (s sub : string) : bool :=
  HasPrefix s sub || match s with EmptyString => false | String _ s' => Contains s' sub end.

Definition HasSuffix (s suffix : string) : bool := HasPrefix (string_rev s) (string_rev suffix).

(** [strings.Cut] at the first occurrence of a byte; [None] when there is
    none. *)
Fixpoint cut_at (x : ascii) (s : string) : option (string * string) :=
  match s with
  | EmptyString => None
  | String a s' =>
      if Ascii.eqb a x then Some (EmptyString, s')
      else match cut_at x s' with Some (p, q) => Some (String a p, q) | None => None end
  end.

Definition contains_ascii (x : ascii) (s : string) : bool :=
  match cut_at x s with Some _ => true | None => false end.

(** [strings.LastIndex] of a byte, as the cut there. *)
Definition cut_last (x : ascii) (s : string) : option (string * string) :=
  match cut_at x (string_rev s) with
  | Some (q, p) => Some (string_rev p, string_rev q)
  | None => None
  end.

(** [strings.Split(s, sep)] for a one-byte separator. *)
Fixpoint split_at (x : ascii) (s : string) : list string :=
  match s with
  | EmptyString => [EmptyString]
  | String a s' =>
      if Ascii.eqb a x then EmptyString :: split_at x s'
      else match split_at x s' with w :: ws => String a w :: ws | [] => [String a EmptyString] end
  end.

(** [sort.Strings] *)
Definition string_le (a b : string) : Prop := String.leb a b = true.
#[export] Instance string_le_dec a b : Decision (string_le a b).
Proof. unfold string_le. apply _. Defined.

Definition sort_Strings (l : list string) : list string := merge_sort string_le l.

(** [strings.Fields]: the words between runs of spaces.  A word ends where
    [leading_space] begins. *)
Fixpoint fields_from (fuel : nat) (word : string) (s : string) : list string :=
  let close := if String.eqb word "" then [] else [string_rev word] in
  match fuel with
  | O => close
  | S fuel' =>
      match s with
      | EmptyString => close
      | String a s' =>
          if leading_space is_space2 is_space3 s then close ++ fields_from fuel' "" (trimLeft s)
          else fields_from fuel' (String a word) s'
      end
  end.

Definition Fields (s : string) : list string := fields_from (S (String.length s)) "" s.

(** The pieces around a byte are found again. *)
Lemma split_at_cut x a b : forall_string (fun c => negb (Ascii.eqb c x)) a = true ->
  split_at x (a +:+ String x b) = a :: split_at x b.
Proof.
  induction a as [|c a IH]; cbn [forall_string]; intros Ha.
  - change (EmptyString +:+ ?s) with s. cbn [split_at]. by rewrite Ascii.eqb_refl.
  - apply andb_true_iff in Ha as [Hc%negb_true_iff Ha]. change (String c a +:+ ?s) with (String c (a +:+ s)).
    cbn [split_at]. rewrite Hc, IH by done. done.
Qed.

Lemma split_at_none x a : forall_string (fun c => negb (Ascii.eqb c x)) a = true -> split_at x a = [a].
Proof.
  induction a as [|c a IH]; cbn [forall_string split_at]; [done|]. intros [Hc%negb_true_iff Ha]%andb_true_iff.
  by rewrite Hc, IH.
Qed.

Lemma split_at_pieces x s : Forall (fun e => forall_string (fun c => negb (Ascii.eqb c x)) e = true) (split_at x s).
Proof.
  induction s as [|a s IH]; cbn [split_at]; [by constructor|]. destruct (Ascii.eqb a x) eqn:Ea; [by constructor|].
  destruct (split_at x s) as [|w ws]; [by constructor; [cbn; by rewrite Ea|]|].
  apply Forall_cons_1 in IH as [Hw Hws]. constructor; [|done]. cbn. by rewrite Ea.
Qed.

Lemma cut_at_Some x s p q : cut_at x s = Some (p, q) ->
  s = p +:+ String x q /\ forall_string (fun c => negb (Ascii.eqb c x)) p = true.
Proof.
  revert p. induction s as [|a s IH]; intros p; cbn [cut_at]; [done|]. destruct (Ascii.eqb_spec a x) as [->|Ha].
  - by intros [= <- <-].
  - destruct (cut_at x s) as [[p' q']|]; [|done]. intros [= <- <-]. destruct (IH p' eq_refl) as [-> Hp]. split; [done|].
    cbn. by rewrite (proj2 (Ascii.eqb_neq _ _) Ha).
Qed.

Lemma cut_at_app x p q : forall_string (fun c => negb (Ascii.eqb c x)) p = true -> cut_at x (p +:+ String x q) = Some (p, q).
Proof.
  induction p as [|c p IH]; cbn [forall_string].
  - intros _. change (EmptyString +:+ ?s) with s. cbn [cut_at]. by rewrite Ascii.eqb_refl.
  - intros [Hc%negb_true_iff Hp]%andb_true_iff. change (String c p +:+ ?s) with (String c (p +:+ s)).
    cbn [cut_at]. by rewrite Hc, IH.
Qed.

Lemma cut_at_None x s : cut_at x s = None <-> forall_string (fun c => negb (Ascii.eqb c x)) s = true.
Proof.
  induction s as [|a s IH]; [done|]. cbn [cut_at forall_string]. destruct (Ascii.eqb a x); [done|].
  rewrite andb_true_l, <- IH. by destruct (cut_at x s) as [[]|].
Qed.

(** [ToLower] of ASCII works letter by letter. *)
Lemma ToLower_forall (p q : ascii -> bool) s : (forall a, p a = true -> byte_of a < 128 /\ q (lower1 a) = true) ->
  forall_string p s = true -> forall_string q (ToLower s) = true.
Proof.
  intros Hp. induction s as [|a s IH]; [done|]. cbn [forall_string]. intros [Ha Hs]%andb_true_iff. specialize (IH Hs).
  destruct (Hp a Ha) as [Hb Hq]. cbn [ToLower].
  rewrite (proj2 (Z.eqb_neq (byte_of a) 196)), (proj2 (Z.eqb_neq (byte_of a) 226)) by lia. cbn [andb].
  assert (Hgo : forall_string q (String (lower1 a) (ToLower s)) = true) by by cbn [forall_string]; rewrite Hq, IH.
  destruct s as [|b [|c s]]; [cbn; by rewrite Hq | exact Hgo | exact Hgo].
Qed.

Lemma HasPrefix_inv s p : HasPrefix s p = true -> exists t, s = p +:+ t.
Proof.
  unfold HasPrefix. revert s. induction p as [|a p IH]; intros s; [by exists s|]. destruct s as [|b s]; [done|]. cbn [String.prefix].
  destruct (ascii_dec a b) as [->|]; [|done]. intros [t ->]%IH. by exists t.
Qed.
