(* ===== verification/GoPath.v ===== *)
(** * [path/filepath] on Unix: Clean, Join, IsAbs, Rel

    A path is read as its elements, with "." and ".." resolved; cleaning a
    path prints them again.  [Rel] is defined as it is documented: the
    elements the two paths share are dropped, and it fails when it would have
    to go up from an unknown directory. *)

From stdpp Require Import base tactics list strings.
From Stdlib Require Import ZArith Lia Ascii.
From S2P Require Import Prelude GoStrings GoText.

Definition slash : ascii := "/"%char.
Definition IsAbs (path : string) : bool := HasPrefix path "/".

(** ** Elements *)

(** The elements so far, the last one first. *)
Definition clean_step (rooted : bool) (st : list string) (e : string) : list string :=
  if String.eqb e "" || String.eqb e "." then st else
  if String.eqb e ".." then
    match st with
    | top :: st' => if String.eqb top ".." then ".." :: st else st'
    | [] => if rooted then [] else [".."]
    end
  else e :: st.

Definition clean_from (rooted : bool) (st es : list string) : list string := fold_left (clean_step rooted) es st.
Definition elements_of (path : string) : list string := rev (clean_from (IsAbs path) [] (split_at slash path)).

Definition path_of (rooted : bool) (es : list string) : string :=
  if rooted then "/" +:+ Join es "/" else if bool_decide (es = []) then "." else Join es "/".

Definition Clean (path : string) : string := path_of (IsAbs path) (elements_of path).

(** [filepath.Join] of two parts: empty ones are left out. *)
Definition join2 (a b : string) : string :=
  if String.eqb a "" then (if String.eqb b "" then "" else Clean b) else Clean (a +:+ "/" +:+ b).

Fixpoint drop_common (a b : list string) : list string * list string :=
  match a, b with
  | x :: a', y :: b' => if String.eqb x y then drop_common a' b' else (a, b)
  | _, _ => (a, b)
  end.

Definition Rel (basepath targpath : string) : option string :=
  if negb (Bool.eqb (IsAbs basepath) (IsAbs targpath)) then None else
  let '(b, t) := drop_common (elements_of basepath) (elements_of targpath) in
  if bool_decide (head b = Some "..") then None
  else Some (path_of false (replicate (List.length b) ".." ++ t)).

Example path_examples :
  Rel "/srv/idp" "/srv/keys/k.pem" = Some "../keys/k.pem" /\ Rel "/srv" "/srv/./keys//k.pem" = Some "keys/k.pem" /\
  Rel "a/b" "a/b" = Some "." /\ Rel ".." "a" = None /\ Rel "a" "/a" = None /\
  Clean "/../a/./b/../c/" = "/a/c" /\ Clean "a/../.." = ".." /\ Clean "" = "." /\ join2 "." "scripts/dev_keys" = "scripts/dev_keys".
Proof. repeat split. Qed.

(** ** What elements look like *)

Definition no_slash (e : string) : bool := forall_string (fun c => negb (Ascii.eqb c slash)) e.
Definition name (e : string) : Prop := e <> "" /\ e <> "." /\ e <> ".." /\ no_slash e = true.

(** The ".." elements come first, and none from the root. *)
Definition resolved (rooted : bool) (es : list string) : Prop :=
  exists ups names, es = replicate ups ".." ++ names /\ Forall name names /\ (rooted = true -> ups = 0%nat).

Lemma split_no_slash x s : Forall (fun e => forall_string (fun c => negb (Ascii.eqb c x)) e = true) (split_at x s).
Proof.
  induction s as [|c s IH]; cbn [split_at]; [by constructor|].
  destruct (Ascii.eqb c x) eqn:E; [by constructor|].
  destruct (split_at x s) as [|w ws]; [constructor; [cbn; by rewrite E | constructor]|].
  apply Forall_cons in IH as [Hw Hws]. constructor; [cbn; by rewrite E | done].
Qed.

Lemma step_name rooted st e : name e -> clean_step rooted st e = e :: st.
Proof.
  intros (H1 & H2 & H3 & _). unfold clean_step.
  by rewrite (proj2 (String.eqb_neq _ _) H1), (proj2 (String.eqb_neq _ _) H2), (proj2 (String.eqb_neq _ _) H3).
Qed.

Lemma resolved_snoc rooted es e : resolved rooted es -> name e -> resolved rooted (es ++ [e]).
Proof.
  intros (u & ns & -> & Hn & Hr) He. exists u, (ns ++ [e]). split; [by rewrite app_assoc|]. split; [|done].
  apply Forall_app. by split; [|constructor].
Qed.

Lemma step_resolved rooted st e : no_slash e = true -> resolved rooted (rev st) -> resolved rooted (rev (clean_step rooted st e)).
Proof.
  intros He Hst. unfold clean_step. destruct (String.eqb_spec e "") as [|H1]; [done|]. destruct (String.eqb_spec e ".") as [|H2]; [done|].
  cbn [orb]. destruct (String.eqb_spec e "..") as [->|H3].
  2: { cbn [rev]. by apply resolved_snoc. }
  destruct st as [|top st].
  { destruct rooted; [done|]. exists 1%nat, []. by split. }
  cbn [rev] in Hst. destruct Hst as (u & ns & Heq & Hn & Hr).
  destruct ns as [|y ns' _] using rev_ind.
  - rewrite app_nil_r in Heq. destruct u as [|u]; [by destruct (rev st)|].
    rewrite replicate_S_end in Heq. apply app_inj_tail in Heq as [Heq ->]. rewrite String.eqb_refl.
    destruct rooted; [by specialize (Hr eq_refl)|]. exists (S (S u)), []. split; [|by split].
    rewrite app_nil_r. cbn [rev]. rewrite Heq. by rewrite !replicate_S_end.
  - rewrite app_assoc in Heq. apply app_inj_tail in Heq as [Heq ->].
    apply Forall_app in Hn as [Hn Hy]. apply Forall_cons in Hy as [(_ & _ & Hy & _) _].
    rewrite (proj2 (String.eqb_neq _ _) Hy). exists u, ns'. by split.
Qed.

Lemma clean_from_resolved rooted es st : Forall (fun e => no_slash e = true) es ->
  resolved rooted (rev st) -> resolved rooted (rev (clean_from rooted st es)).
Proof.
  revert st. induction es as [|e es IH]; intros st Hes Hst; [done|].
  apply Forall_cons in Hes as [He Hes]. cbn [clean_from fold_left]. apply IH; [done|]. by apply step_resolved.
Qed.

Lemma elements_resolved path : resolved (IsAbs path) (elements_of path).
Proof. apply clean_from_resolved; [apply split_no_slash|]. exists 0%nat, []. by split. Qed.

(** Resolved elements are pushed as they are. *)
Lemma replay rooted es st : resolved rooted (rev st ++ es) -> clean_from rooted st es = rev es ++ st.
Proof.
  revert st. induction es as [|e es IH]; intros st Hr; [done|]. cbn [clean_from fold_left].
  assert (Hs : clean_step rooted st e = e :: st).
  { destruct Hr as (u & ns & Heq & Hn & Hr).
    assert (He : e = ".." /\ Forall (fun x => x = "..") (rev st) /\ rooted = false \/ name e).
    { destruct (Nat.lt_ge_cases (List.length (rev st)) u) as [Hlt|Hge].
      - left. assert (Hu : rev st ++ [e] = replicate (S (List.length (rev st))) "..").
        { apply (f_equal (take (S (List.length (rev st))))) in Heq. rewrite cons_middle, app_assoc, take_app_length' in Heq
            by (rewrite length_app; simpl; lia). rewrite Heq, take_app_le, take_replicate by (rewrite length_replicate; lia).
          f_equal. lia. }
        rewrite replicate_S_end in Hu. apply app_inj_tail in Hu as [Hu ->]. split; [done|]. split.
        + rewrite Hu. by apply Forall_replicate.
        + destruct rooted; [|done]. specialize (Hr eq_refl). lia.
      - right. assert (Hin : e ∈ ns).
        { apply (f_equal (fun l => l !! List.length (rev st))) in Heq. rewrite list_lookup_middle in Heq by done.
          rewrite lookup_app_r in Heq by (rewrite length_replicate; lia). symmetry in Heq. by eapply list_elem_of_lookup_2. }
        rewrite Forall_forall in Hn. by apply Hn. }
    destruct He as [(-> & Hall & ->)|He]; [|by apply step_name].
    unfold clean_step. cbn. destruct st as [|top st]; [done|]. cbn [rev] in Hall.
    apply Forall_app in Hall as [_ Ht]. apply Forall_cons in Ht as [-> _]. by rewrite String.eqb_refl. }
  rewrite Hs. cbn [clean_from fold_left] in IH. unfold clean_from in IH. rewrite IH.
  - cbn [rev]. by rewrite <- app_assoc.
  - cbn [rev]. by rewrite <- app_assoc.
Qed.

(** ".." takes names back. *)
Lemma unwind rooted st names : Forall name names ->
  clean_from rooted (rev names ++ st) (replicate (List.length names) "..") = st.
Proof.
  induction names as [|y names IH] using rev_ind; intros Hn; [done|].
  apply Forall_app in Hn as [Hn Hy]. apply Forall_cons in Hy as [(_ & _ & Hy & _) _].
  rewrite rev_app_distr, length_app, Nat.add_comm. cbn [List.length rev app Nat.add replicate clean_from fold_left].
  unfold clean_step at 2. cbn [orb]. rewrite (proj2 (String.eqb_neq _ _) Hy). by apply IH.
Qed.

(** ** Reading what was printed *)

Lemma split_cut a b : no_slash a = true -> split_at slash (a +:+ String slash b) = a :: split_at slash b.
Proof.
  induction a as [|c a IH]; [done|]. cbn [no_slash forall_string]. intros [Hc%negb_true_iff Ha]%andb_true_iff.
  change (String c a +:+ ?s) with (String c (a +:+ s)). cbn [split_at]. by rewrite Hc, IH.
Qed.

Lemma split_one a : no_slash a = true -> split_at slash a = [a].
Proof.
  induction a as [|c a IH]; [done|]. cbn [no_slash forall_string split_at]. intros [Hc%negb_true_iff Ha]%andb_true_iff.
  by rewrite Hc, IH.
Qed.

Lemma split_at_nonempty x s : split_at x s <> [].
Proof. destruct s as [|c s]; cbn [split_at]; [done|]. destruct (Ascii.eqb c x); [done|]. by destruct (split_at x s). Qed.

Lemma split_app a b : split_at slash (a +:+ String slash b) = split_at slash a ++ split_at slash b.
Proof.
  induction a as [|c a IH]; [done|]. change (String c a +:+ ?s) with (String c (a +:+ s)). cbn [split_at].
  rewrite IH. destruct (Ascii.eqb c slash); [done|]. pose proof (split_at_nonempty slash a) as Hne.
  by destruct (split_at slash a).
Qed.

Lemma split_Join es : es <> [] -> Forall (fun e => no_slash e = true) es -> split_at slash (Join es "/") = es.
Proof.
  induction es as [|e es IH]; [done|]. intros _ [He Hes]%Forall_cons. unfold Join in *. cbn [String.concat].
  destruct es as [|e2 es]; [by apply split_one|].
  change (e +:+ "/" +:+ ?s) with (e +:+ String slash s). rewrite split_cut by done. by rewrite IH.
Qed.

Lemma resolved_no_slash rooted es : resolved rooted es -> Forall (fun e => no_slash e = true /\ e <> "") es.
Proof.
  intros (u & ns & -> & Hn & _). apply Forall_app. split; [by apply Forall_replicate|].
  eapply Forall_impl; [exact Hn|]. intros e (? & _ & _ & ?). done.
Qed.

Lemma IsAbs_cons c s : IsAbs (String c s) = Ascii.eqb c slash.
Proof.
  unfold IsAbs, HasPrefix. cbn [String.prefix]. destruct (Ascii.eqb_spec c slash) as [->|Hc].
  - by destruct (ascii_dec "/" slash), s.
  - destruct (ascii_dec "/" c) as [<-|]; [by destruct Hc | done].
Qed.

Lemma Join_not_abs es : Forall (fun e => no_slash e = true /\ e <> "") es -> IsAbs (Join es "/") = false.
Proof.
  destruct es as [|e es]; [done|]. intros [[He Hne] _]%Forall_cons. destruct e as [|c e]; [done|].
  cbn [no_slash forall_string] in He. apply andb_true_iff in He as [Hc%negb_true_iff _].
  unfold Join. cbn [String.concat]. destruct es; [by rewrite IsAbs_cons|].
  change (String c e +:+ ?s) with (String c (e +:+ s)). by rewrite IsAbs_cons.
Qed.

Lemma path_of_abs rooted es : resolved rooted es -> IsAbs (path_of rooted es) = rooted.
Proof.
  intros Hr%resolved_no_slash. unfold path_of. destruct rooted; [by apply (HasPrefix_append "/")|].
  case_bool_decide; [done | by apply Join_not_abs].
Qed.

Lemma clean_from_split rooted st es : resolved rooted es ->
  clean_from rooted st (split_at slash (path_of false es)) = clean_from rooted st es.
Proof.
  intros Hr%resolved_no_slash. unfold path_of. case_bool_decide as He; [by subst es|].
  rewrite split_Join; [done | done |]. eapply Forall_impl; [exact Hr|]. by intros e [? _].
Qed.

Lemma elements_of_path rooted es : resolved rooted es -> elements_of (path_of rooted es) = es.
Proof.
  intros Hr. unfold elements_of. rewrite path_of_abs by done. pose proof (resolved_no_slash _ _ Hr) as Hs.
  assert (Hc : clean_from rooted [] (split_at slash (path_of rooted es)) = rev es ++ []).
  { rewrite <- (replay rooted es []) by done. destruct rooted; [|by apply clean_from_split].
    unfold path_of. change ("/" +:+ ?s) with ("" +:+ String slash s). rewrite split_app.
    destruct es as [|e es]; [done|]. rewrite split_Join; [done | done |]. eapply Forall_impl; [exact Hs|]. by intros ? [? _]. }
  by rewrite Hc, app_nil_r, rev_involutive.
Qed.

Lemma Clean_path_of rooted es : resolved rooted es -> Clean (path_of rooted es) = path_of rooted es.
Proof. intros Hr. unfold Clean. by rewrite path_of_abs, elements_of_path. Qed.

Lemma Clean_idem path : Clean (Clean path) = Clean path.
Proof. apply Clean_path_of, elements_resolved. Qed.

(** ** Relative paths lead back *)

Lemma drop_common_spec a b a' b' : drop_common a b = (a', b') -> exists c, a = c ++ a' /\ b = c ++ b'.
Proof.
  revert b a' b'. induction a as [|x a IH]; intros b a' b'; cbn [drop_common].
  - intros [= <- <-]. by exists [].
  - destruct b as [|y b]; [intros [= <- <-]; by exists []|]. destruct (String.eqb_spec x y) as [->|].
    + intros (c & -> & ->)%IH. by exists (y :: c).
    + intros [= <- <-]. by exists [].
Qed.

(** After an element that is a name, only names. *)
Lemma resolved_tail rooted c b : resolved rooted (c ++ b) -> head b <> Some ".." -> Forall name b.
Proof.
  intros (u & ns & Heq & Hn & _) Hb. destruct (Nat.lt_ge_cases (List.length c) u) as [Hlt|Hge].
  - exfalso. apply Hb. assert (Hl : (c ++ b) !! List.length c = Some "..").
    { rewrite Heq, lookup_app_l by (rewrite length_replicate; lia). by apply lookup_replicate_2. }
    rewrite lookup_app_r, Nat.sub_diag in Hl by lia. by destruct b.
  - apply (f_equal (drop (List.length c))) in Heq. rewrite drop_app_length, drop_app_ge in Heq by (rewrite length_replicate; lia).
    rewrite Heq. by apply Forall_drop.
Qed.

(** [Rel base target] walked from [base] is [target]. *)
Theorem Rel_joined base target r : base <> "" -> Rel base target = Some r -> join2 base r = Clean target.
Proof.
  intros Hb. unfold Rel. destruct (Bool.eqb (IsAbs base) (IsAbs target)) eqn:Ha; cbn [negb]; [|done]. apply Bool.eqb_prop in Ha.
  destruct (drop_common _ _) as [b t] eqn:Hd. apply drop_common_spec in Hd as (c & Hbase & Htarget).
  case_bool_decide as Hh; [done|]. intros [= <-].
  pose proof (elements_resolved base) as Hrb. pose proof (elements_resolved target) as Hrt. rewrite Hbase in Hrb.
  pose proof (resolved_tail _ _ _ Hrb Hh) as Hnames. rewrite Htarget in Hrt.
  set (rel := replicate (List.length b) ".." ++ t).
  unfold join2. rewrite (proj2 (String.eqb_neq _ _) Hb). unfold Clean.
  assert (Habs : forall s, IsAbs (base +:+ s) = IsAbs base).
  { intros s. destruct base as [|x base]; [done|]. change (String x base +:+ s) with (String x (base +:+ s)). by rewrite !IsAbs_cons. }
  rewrite Habs, <- Ha. f_equal. rewrite Htarget. unfold elements_of at 1. rewrite Habs.
  change ("/" +:+ ?s) with (String slash s). rewrite split_app. unfold clean_from. rewrite fold_left_app.
  fold (clean_from (IsAbs base) [] (split_at slash base)).
  assert (Hst : clean_from (IsAbs base) [] (split_at slash base) = rev b ++ rev c).
  { rewrite <- rev_app_distr, <- Hbase. unfold elements_of. by rewrite rev_involutive. }
  rewrite Hst. fold (clean_from (IsAbs base) (rev b ++ rev c) (split_at slash (path_of false rel))).
  rewrite Ha in *.
  assert (Hrel : clean_from (IsAbs target) (rev b ++ rev c) rel = rev t ++ rev c).
  { unfold rel, clean_from. rewrite fold_left_app. fold (clean_from (IsAbs target) (rev b ++ rev c) (replicate (List.length b) "..")).
    rewrite unwind by done. apply replay. by rewrite rev_involutive. }
  assert (Hs : Forall (fun e => no_slash e = true) rel).
  { apply Forall_app. split; [by apply Forall_replicate|]. apply resolved_no_slash in Hrt. apply Forall_app in Hrt as [_ Ht].
    eapply Forall_impl; [exact Ht|]. by intros e [? _]. }
  assert (Hsplit : clean_from (IsAbs target) (rev b ++ rev c) (split_at slash (path_of false rel)) = rev t ++ rev c).
  { rewrite <- Hrel. unfold path_of. case_bool_decide as He; [rewrite He; done|]. by rewrite split_Join. }
  etrans; [apply (f_equal (rev (A := string))); exact Hsplit|]. by rewrite rev_app_distr, !rev_involutive.
Qed.

(** ** Paths without a space at the end *)

Definition visible_end (s : string) : Prop := exists p c, s = p +:+ String c "" /\ visible c = true.

Lemma visible_end_app a b : visible_end b -> visible_end (a +:+ b).
Proof. intros (p & c & -> & Hc). exists (a +:+ p), c. by rewrite string_app_assoc. Qed.

Lemma visible_head a s : visible a = true ->
  leading_space is_space2 is_space3 (String a s) = false /\
  leading_space (fun b a => is_space2 a b) (fun c b a => is_space3 a b c) (String a s) = false.
Proof.
  intros Ha. destruct (visible_no_space a Ha) as (H1 & H2 & H3).
  destruct s as [|b [|c s]]; simpl; rewrite H1; simpl; [done| |].
  - by rewrite (proj1 (H2 b)), (proj2 (H2 b)).
  - rewrite (proj1 (H2 b)), (proj2 (H2 b)). simpl. split; apply H3.
Qed.

Lemma TrimSpace_ends a s : visible a = true -> visible_end s -> TrimSpace (String a s) = String a s.
Proof.
  intros Ha (p & c & -> & Hc). unfold TrimSpace, trimLeft. rewrite trim_with_id by by apply visible_head.
  unfold trimRight. change (String a (p +:+ String c "")) with (String a p +:+ String c "").
  rewrite string_rev_distr. change (string_rev (String c "") +:+ ?s) with (String c s).
  rewrite trim_with_id by by apply visible_head.
  change (String c (string_rev (String a p))) with (string_rev (String c "") +:+ string_rev (String a p)).
  by rewrite <- string_rev_distr, string_rev_involutive.
Qed.

Lemma path_visible_end rooted es : (forall e, last es = Some e -> visible_end e) -> visible_end (path_of rooted es).
Proof.
  intros Hl. assert (Hj : es <> [] -> visible_end (Join es "/")).
  { intros Hne. induction es as [|e es IH]; [done|]. unfold Join in *. cbn [String.concat]. destruct es as [|e2 es].
    - by apply Hl.
    - apply visible_end_app, visible_end_app, IH; [|done]. intros x Hx. by apply Hl. }
  unfold path_of. destruct rooted.
  - destruct es as [|e es]; [exists "", slash; done|]. apply visible_end_app. by apply Hj.
  - case_bool_decide; [exists "", "."%char; done | by apply Hj].
Qed.

Lemma Rel_visible_end base target r : (forall e, last (elements_of target) = Some e -> visible_end e) ->
  Rel base target = Some r -> visible_end r.
Proof.
  intros Hl. unfold Rel. destruct (negb _); [done|]. destruct (drop_common _ _) as [b t] eqn:Hd.
  apply drop_common_spec in Hd as (c & _ & Ht). case_bool_decide; [done|]. intros [= <-].
  apply (path_visible_end false). intros e He. destruct t as [|x t].
  - rewrite app_nil_r in He. apply last_Some in He as [l He]. assert (Hin : e ∈ replicate (List.length b) "..") by (rewrite He; apply elem_of_app; right; by left).
    apply elem_of_replicate in Hin as [-> _]. by exists ".", "."%char.
  - apply Hl. rewrite Ht. rewrite last_app_cons in He |- *. done.
Qed.

(** A file put in a directory is the last element, whatever the parts hold. *)
Lemma join_last dir file stem suffix : file = stem +:+ suffix -> no_slash suffix = true -> suffix <> "" ->
  (forall x, no_slash x = true -> name (x +:+ suffix)) -> exists es x, elements_of (join2 dir file) = es ++ [x +:+ suffix].
Proof.
  intros -> Hs Hne Hn.
  assert (Hsp : exists l x, split_at slash (stem +:+ suffix) = l ++ [x +:+ suffix]).
  { induction stem as [|c stem IH]; [by exists [], ""; apply split_one|].
    change (String c stem +:+ suffix) with (String c (stem +:+ suffix)). cbn [split_at]. destruct IH as (l & x & ->).
    destruct (Ascii.eqb c slash); [by exists ("" :: l), x|]. destruct l as [|w l]; [by exists [], (String c x) | by exists (String c w :: l), x]. }
  destruct Hsp as (l & x & Hsp).
  assert (Hx : no_slash x = true).
  { pose proof (split_no_slash slash (stem +:+ suffix)) as Hall. rewrite Hsp in Hall. apply Forall_app in Hall as [_ Hall].
    apply Forall_cons in Hall as [Hall _]. unfold no_slash. rewrite forall_string_app in Hall. by apply andb_true_iff in Hall as [? _]. }
  assert (Hgen : forall r l0, exists es, rev (clean_from r [] (l0 ++ split_at slash (stem +:+ suffix))) = es ++ [x +:+ suffix]).
  { intros r l0. rewrite Hsp, app_assoc. unfold clean_from. rewrite fold_left_app. cbn [fold_left].
    rewrite step_name by by apply Hn. cbn [rev]. by eexists. }
  unfold join2. destruct (String.eqb_spec dir "").
  - destruct (String.eqb_spec (stem +:+ suffix) "") as [E|_]; [by destruct stem, suffix|].
    unfold Clean. rewrite elements_of_path by apply elements_resolved. destruct (Hgen (IsAbs (stem +:+ suffix)) []) as [es Hes].
    by exists es, x.
  - unfold Clean. rewrite elements_of_path by apply elements_resolved. unfold elements_of.
    change ("/" +:+ ?s) with (String slash s). rewrite split_app.
    destruct (Hgen (IsAbs (dir +:+ String slash (stem +:+ suffix))) (split_at slash dir)) as [es Hes]. by exists es, x.
Qed.

(** ** From the root *)

Lemma IsAbs_app a b : IsAbs a = true -> IsAbs (a +:+ b) = true.
Proof. destruct a as [|c a]; [done|]. change (String c a +:+ b) with (String c (a +:+ b)). by rewrite !IsAbs_cons. Qed.

Lemma IsAbs_Clean p : IsAbs (Clean p) = IsAbs p.
Proof. apply path_of_abs, elements_resolved. Qed.

Lemma join2_clean a b : b <> "" -> Clean (join2 a b) = join2 a b.
Proof.
  intros Hb. unfold join2. rewrite (proj2 (String.eqb_neq _ _) Hb). destruct (String.eqb a ""); apply Clean_idem.
Qed.

Lemma IsAbs_join2 a b : IsAbs a = true -> IsAbs (join2 a b) = true.
Proof.
  intros Ha. unfold join2. destruct (String.eqb_spec a "") as [->|]; [done|]. rewrite IsAbs_Clean. by apply IsAbs_app.
Qed.

Lemma Rel_from_root base target : IsAbs base = true -> IsAbs target = true -> exists r, Rel base target = Some r /\ IsAbs r = false.
Proof.
  intros Hb Ht. unfold Rel. rewrite Hb, Ht. cbn [Bool.eqb negb]. destruct (drop_common _ _) as [b t] eqn:Hd.
  apply drop_common_spec in Hd as (c & Heb & Het).
  pose proof (elements_resolved base) as (u & ns & Hbs & Hn & Hu). specialize (Hu Hb). subst u. cbn [replicate app] in Hbs.
  pose proof (elements_resolved target) as (u & ns' & Hts & Hn' & Hu). specialize (Hu Ht). subst u. cbn [replicate app] in Hts.
  rewrite Heb in Hbs. rewrite Het in Hts. subst ns ns'. apply Forall_app in Hn as [_ Hn]. apply Forall_app in Hn' as [_ Hn'].
  case_bool_decide as Hh.
  - exfalso. destruct b as [|x b]; [done|]. injection Hh as ->. apply Forall_cons in Hn as [(_ & _ & Hx & _) _]. done.
  - eexists. split; [done|]. apply (path_of_abs false). exists (List.length b), t. by split.
Qed.
