(* ===== verification/GoCrypto.v ===== *)
(** * SHA-256, hexadecimal and base64, executable

    Go's [crypto/sha256], [encoding/hex] and [encoding/base64] as the token
    service uses them: [sha256.Sum256] of a byte string (FIPS 180-4),
    [hex.EncodeToString] and [base64.RawURLEncoding.EncodeToString].
    The examples at the end are the standard's own vectors and the PKCE
    vector of RFC 7636, appendix B. *)

From stdpp Require Import base tactics list strings numbers.
From Stdlib Require Import ZArith Lia Ascii String.
From S2P Require Import Prelude GoStrings.

(** ** 32-bit words *)

Definition w32 (z : Z) : Z := z mod 2 ^ 32.
Definition add32 (a b : Z) : Z := w32 (a + b).
Definition rotr (n x : Z) : Z := Z.lor (Z.shiftr x n) (w32 (Z.shiftl x (32 - n))).
Definition not32 (x : Z) : Z := 2 ^ 32 - 1 - x.

Definition ch (x y z : Z) : Z := Z.lxor (Z.land x y) (Z.land (not32 x) z).
Definition maj (x y z : Z) : Z := Z.lxor (Z.lxor (Z.land x y) (Z.land x z)) (Z.land y z).
Definition bsig0 (x : Z) : Z := Z.lxor (Z.lxor (rotr 2 x) (rotr 13 x)) (rotr 22 x).
Definition bsig1 (x : Z) : Z := Z.lxor (Z.lxor (rotr 6 x) (rotr 11 x)) (rotr 25 x).
Definition ssig0 (x : Z) : Z := Z.lxor (Z.lxor (rotr 7 x) (rotr 18 x)) (Z.shiftr x 3).
Definition ssig1 (x : Z) : Z := Z.lxor (Z.lxor (rotr 17 x) (rotr 19 x)) (Z.shiftr x 10).

(** The constants: the first 32 bits of the fractional parts of the cube
    roots of the first 64 primes, and of the square roots of the first 8. *)
Definition primes : list Z :=
  [2; 3; 5; 7; 11; 13; 17; 19; 23; 29; 31; 37; 41; 43; 47; 53;
   59; 61; 67; 71; 73; 79; 83; 89; 97; 101; 103; 107; 109; 113; 127; 131;
   137; 139; 149; 151; 157; 163; 167; 173; 179; 181; 191; 193; 197; 199; 211; 223;
   227; 229; 233; 239; 241; 251; 257; 263; 269; 271; 277; 281; 283; 293; 307; 311].

(** The largest [r] below [2 ^ bits] with [r ^ 3 <= n], bit by bit. *)
Fixpoint cube_root (bits : nat) (r n : Z) : Z :=
  match bits with
  | O => r
  | S b =>
      let r' := r + 2 ^ Z.of_nat b in
      cube_root b (if r' * r' * r' <=? n then r' else r) n
  end.

Definition K256 : list Z :=
  Eval vm_compute in List.map (fun p => w32 (cube_root 36 0 (p * 2 ^ 96))) primes.

Definition H256 : list Z :=
  Eval vm_compute in List.map (fun p => w32 (Z.sqrt (p * 2 ^ 64))) (take 8 primes).

(** ** Padding and blocks *)

Fixpoint be_bytes (n : nat) (z : Z) : list Z :=
  match n with
  | O => []
  | S n' => be_bytes n' (Z.shiftr z 8) ++ [Z.land z 255]
  end.

Definition pad (msg : list Z) : list Z :=
  let len := Z.of_nat (List.length msg) in
  msg ++ [128] ++ replicate (Z.to_nat ((55 - len) mod 64)) 0 ++ be_bytes 8 (8 * len).

(** Big-endian words of a byte list. *)
Fixpoint be_words (l : list Z) : list Z :=
  match l with
  | a :: b :: c :: d :: rest =>
      (Z.shiftl a 24 + Z.shiftl b 16 + Z.shiftl c 8 + d) :: be_words rest
  | _ => []
  end.

(** The message schedule, kept as the last sixteen words in reverse. *)
Fixpoint schedule (n : nat) (rev_w : list Z) : list Z :=
  match n with
  | O => rev_w
  | S n' =>
      let at_ i := nth i rev_w 0 in
      schedule n' (add32 (add32 (ssig1 (at_ 1%nat)) (at_ 6%nat))
                         (add32 (ssig0 (at_ 14%nat)) (at_ 15%nat)) :: rev_w)
  end.

Fixpoint rounds (ks ws : list Z) (s : list Z) : list Z :=
  match ks, ws, s with
  | k :: ks', w :: ws', [a; b; c; d; e; f; g; h] =>
      let t1 := w32 (h + bsig1 e + ch e f g + k + w) in
      let t2 := w32 (bsig0 a + maj a b c) in
      rounds ks' ws' [add32 t1 t2; a; b; c; add32 d t1; e; f; g]
  | _, _, _ => s
  end.

Definition compress (s block : list Z) : list Z :=
  let ws := rev (schedule 48 (rev block)) in
  zip_with add32 s (rounds K256 ws s).

Fixpoint blocks (fuel : nat) (s ws : list Z) : list Z :=
  match fuel with
  | O => s
  | S fuel' =>
      match ws with
      | [] => s
      | _ => blocks fuel' (compress s (take 16 ws)) (drop 16 ws)
      end
  end.

(** [sha256.Sum256]; one step of fuel per block is enough. *)
Definition Sum256 (msg : list Z) : list Z :=
  let ws := be_words (pad msg) in
  List.concat (List.map (be_bytes 4) (blocks (List.length ws) H256 ws)).

(** ** Encodings *)

Definition hex_digit (z : Z) : ascii := ascii_of (if z <? 10 then 48 + z else 87 + z).

Definition HexEncode (l : list Z) : string :=
  string_of_list_ascii
    (List.concat (List.map (fun b => [hex_digit (Z.shiftr b 4); hex_digit (Z.land b 15)]) l)).

Definition b64url (z : Z) : ascii :=
  ascii_of (if z <? 26 then 65 + z
            else if z <? 52 then 71 + z
            else if z <? 62 then z - 4
            else if z =? 62 then 45 else 95).

(** [base64.RawURLEncoding.EncodeToString] *)
Fixpoint RawURLEncode (l : list Z) : string :=
  match l with
  | a :: b :: c :: rest =>
      let n := Z.shiftl a 16 + Z.shiftl b 8 + c in
      String (b64url (Z.shiftr n 18)) (String (b64url (Z.land (Z.shiftr n 12) 63))
        (String (b64url (Z.land (Z.shiftr n 6) 63)) (String (b64url (Z.land n 63))
          (RawURLEncode rest))))
  | [a; b] =>
      let n := Z.shiftl a 16 + Z.shiftl b 8 in
      String (b64url (Z.shiftr n 18)) (String (b64url (Z.land (Z.shiftr n 12) 63))
        (String (b64url (Z.land (Z.shiftr n 6) 63)) EmptyString))
  | [a] =>
      let n := Z.shiftl a 16 in
      String (b64url (Z.shiftr n 18)) (String (b64url (Z.land (Z.shiftr n 12) 63)) EmptyString)
  | [] => EmptyString
  end.

(** [sum := sha256.Sum256([]byte(value)); hex.EncodeToString(sum[:])] *)
Definition sha256_hex (value : string) : string := HexEncode (Sum256 (bytes_of value)).

(** The PKCE transformation [BASE64URL-ENCODE(SHA256(ASCII(verifier)))]. *)
Definition s256_challenge (verifier : string) : string := RawURLEncode (Sum256 (bytes_of verifier)).

(** ** Test vectors *)

Example sha256_empty :
  sha256_hex EmptyString = "e3b0c44298fc1c149afbf4c8996fb92427ae41e4649b934ca495991b7852b855".
Proof. vm_compute. reflexivity. Qed.

Example sha256_abc :
  sha256_hex "abc" = "ba7816bf8f01cfea414140de5dae2223b00361a396177a9cb410ff61f20015ad".
Proof. vm_compute. reflexivity. Qed.

Example sha256_two_blocks :
  sha256_hex "abcdbcdecdefdefgefghfghighijhijkijkljklmklmnlmnomnopnopq" =
  "248d6a61d20638b8e5c026930c3e6039a33ce45964ff2167f6ecedd419db06c1".
Proof. vm_compute. reflexivity. Qed.

Example rfc7636_appendix_B :
  s256_challenge "dBjftJeZ4CVP-mB92K27uhbUJU1p1r_wW1gFWFOEjXk" =
  "E9Melhoa2OwvFrEMTJguCHaoeK1t8URWbuGJSstw-cM".
Proof. vm_compute. reflexivity. Qed.

(** * SHA-1, HMAC and base32, executable

    Go's [crypto/sha1] (FIPS 180-4), [crypto/hmac] over it (RFC 2104) and
    [encoding/base32] (RFC 4648), as the one-time passwords and the names of
    federated users need them.  Byte strings are lists of integers; the
    examples are the vectors of the standards. *)

(** ** SHA-1 *)

Definition rotl (n x : Z) : Z := rotr (32 - n) x.

Record sha1_state := mkSha1 { h0 : Z; h1 : Z; h2 : Z; h3 : Z; h4 : Z }.

Definition sha1_init : sha1_state := mkSha1 0x67452301 0xEFCDAB89 0x98BADCFE 0x10325476 0xC3D2E1F0.

(** The message schedule, kept as the last words in reverse. *)
Fixpoint sha1_schedule (n : nat) (rev_w : list Z) : list Z :=
  match n with
  | O => rev_w
  | S n' =>
      let at_ i := nth i rev_w 0 in
      sha1_schedule n' (rotl 1 (Z.lxor (Z.lxor (at_ 2%nat) (at_ 7%nat)) (Z.lxor (at_ 13%nat) (at_ 15%nat))) :: rev_w)
  end.

Definition sha1_f (t : nat) (b c d : Z) : Z * Z :=
  if (t <? 20)%nat then (ch b c d, 0x5A827999)
  else if (t <? 40)%nat then (Z.lxor (Z.lxor b c) d, 0x6ED9EBA1)
  else if (t <? 60)%nat then (maj b c d, 0x8F1BBCDC)
  else (Z.lxor (Z.lxor b c) d, 0xCA62C1D6).

Fixpoint sha1_rounds (t : nat) (ws : list Z) (s : sha1_state) : sha1_state :=
  match ws with
  | [] => s
  | w :: ws' =>
      let '(f, k) := sha1_f t (h1 s) (h2 s) (h3 s) in
      let temp := w32 (rotl 5 (h0 s) + f + h4 s + k + w) in
      sha1_rounds (S t) ws' (mkSha1 temp (h0 s) (rotl 30 (h1 s)) (h2 s) (h3 s))
  end.

Definition sha1_compress (s : sha1_state) (block : list Z) : sha1_state :=
  let r := sha1_rounds 0 (rev (sha1_schedule 64 (rev block))) s in
  mkSha1 (add32 (h0 s) (h0 r)) (add32 (h1 s) (h1 r)) (add32 (h2 s) (h2 r)) (add32 (h3 s) (h3 r)) (add32 (h4 s) (h4 r)).

Fixpoint sha1_blocks (fuel : nat) (s : sha1_state) (ws : list Z) : sha1_state :=
  match fuel, ws with
  | S fuel', _ :: _ => sha1_blocks fuel' (sha1_compress s (take 16 ws)) (drop 16 ws)
  | _, _ => s
  end.

(** [sha1.Sum]; one step of fuel per block is enough. *)
Definition sha1_Sum (msg : list Z) : list Z :=
  let ws := be_words (pad msg) in
  let s := sha1_blocks (List.length ws) sha1_init ws in
  be_bytes 4 (h0 s) ++ be_bytes 4 (h1 s) ++ be_bytes 4 (h2 s) ++ be_bytes 4 (h3 s) ++ be_bytes 4 (h4 s).

(** ** HMAC *)

Definition hmac_key (key : list Z) : list Z :=
  let key := if (64 <? List.length key)%nat then sha1_Sum key else key in
  key ++ replicate (64 - List.length key) 0.

(** [hmac.New(sha1.New, key)], [Write(msg)], [Sum(nil)] *)
Definition hmac_sha1 (key msg : list Z) : list Z :=
  let k := hmac_key key in
  sha1_Sum (List.map (Z.lxor 0x5c) k ++ sha1_Sum (List.map (Z.lxor 0x36) k ++ msg)).

Definition bytes_ok (l : list Z) : Prop := Forall (fun b => 0 <= b < 256) l.

Lemma be_bytes_length n z : List.length (be_bytes n z) = n.
Proof. revert z. induction n as [|n IH]; intros z; simpl; [done|]. rewrite length_app, IH. simpl. lia. Qed.

Lemma be_bytes_ok n z : bytes_ok (be_bytes n z).
Proof.
  unfold bytes_ok. revert z. induction n as [|n IH]; intros z; simpl; [constructor|].
  apply Forall_app. split; [apply IH|]. constructor; [|constructor].
  change 255 with (Z.ones 8). rewrite Z.land_ones by lia. apply Z.mod_pos_bound. lia.
Qed.

Lemma sha1_Sum_length msg : List.length (sha1_Sum msg) = 20%nat.
Proof. unfold sha1_Sum. by rewrite !length_app, !be_bytes_length. Qed.

Lemma sha1_Sum_bytes msg : bytes_ok (sha1_Sum msg).
Proof. unfold sha1_Sum, bytes_ok. rewrite !Forall_app. repeat split; apply be_bytes_ok. Qed.

(** ** Base32 *)

Definition base32_char (d : Z) : ascii := ascii_of (if d <? 26 then 65 + d else 24 + d).

Definition base32_value (a : ascii) : option Z :=
  let x := byte_of a in
  if (65 <=? x) && (x <=? 90) then Some (x - 65)
  else if (50 <=? x) && (x <=? 55) then Some (x - 24)
  else None.

(** Five bytes are eight digits; a shorter last group has the digits its bits
    need. *)
Fixpoint base32_digits (l : list Z) : list Z :=
  match l with
  | a :: b :: c :: d :: e :: rest =>
      a / 8 :: a mod 8 * 4 + b / 64 :: b / 2 mod 32 :: b mod 2 * 16 + c / 16 :: c mod 16 * 2 + d / 128
        :: d / 4 mod 32 :: d mod 4 * 8 + e / 32 :: e mod 32 :: base32_digits rest
  | [a; b; c; d] =>
      [a / 8; a mod 8 * 4 + b / 64; b / 2 mod 32; b mod 2 * 16 + c / 16; c mod 16 * 2 + d / 128;
       d / 4 mod 32; d mod 4 * 8]
  | [a; b; c] => [a / 8; a mod 8 * 4 + b / 64; b / 2 mod 32; b mod 2 * 16 + c / 16; c mod 16 * 2]
  | [a; b] => [a / 8; a mod 8 * 4 + b / 64; b / 2 mod 32; b mod 2 * 16]
  | [a] => [a / 8; a mod 8 * 4]
  | [] => []
  end.

Definition pad_char : ascii := "="%char.

(** The padding completes the last group of eight. *)
Definition base32_Encode (l : list Z) : string :=
  let digits := base32_digits l in
  string_of_list_ascii (List.map base32_char digits ++
    replicate (Z.to_nat ((- Z.of_nat (List.length digits)) mod 8)) pad_char).

(** Without padding, a last group of one, three or six digits gives no bytes. *)
Fixpoint base32_bytes (l : list Z) : list Z :=
  match l with
  | d0 :: d1 :: d2 :: d3 :: d4 :: d5 :: d6 :: d7 :: rest =>
      d0 * 8 + d1 / 4 :: d1 mod 4 * 64 + d2 * 2 + d3 / 16 :: d3 mod 16 * 16 + d4 / 2
        :: d4 mod 2 * 128 + d5 * 4 + d6 / 8 :: d6 mod 8 * 32 + d7 :: base32_bytes rest
  | [d0; d1; d2; d3; d4; d5; d6] =>
      [d0 * 8 + d1 / 4; d1 mod 4 * 64 + d2 * 2 + d3 / 16; d3 mod 16 * 16 + d4 / 2;
       d4 mod 2 * 128 + d5 * 4 + d6 / 8]
  | [d0; d1; d2; d3; d4] => [d0 * 8 + d1 / 4; d1 mod 4 * 64 + d2 * 2 + d3 / 16; d3 mod 16 * 16 + d4 / 2]
  | [d0; d1; d2; d3] => [d0 * 8 + d1 / 4; d1 mod 4 * 64 + d2 * 2 + d3 / 16]
  | [d0; d1] => [d0 * 8 + d1 / 4]
  | _ => []
  end.

Definition newline (a : ascii) : bool := (byte_of a =? 10) || (byte_of a =? 13).

Definition base32_DecodeNoPadding (s : string) : option (list Z) :=
  let chars := List.filter (fun a => negb (newline a)) (list_ascii_of_string s) in
  option_map base32_bytes (mapM base32_value chars).

(** [strings.TrimRight(s, "=")] *)
Fixpoint drop_pad (l : list ascii) : list ascii :=
  match l with
  | [] => []
  | a :: rest => if Ascii.eqb a pad_char then drop_pad rest else l
  end.

Definition trim_pad (s : string) : string :=
  string_of_list_ascii (rev (drop_pad (rev (list_ascii_of_string s)))).

(** ** What was encoded is decoded *)

Definition digits_ok (l : list Z) : Prop := Forall (fun d => 0 <= d < 32) l.

(** Induction by groups of five. *)
Lemma by_fives (P : list Z -> Prop) :
  P [] -> (forall a, P [a]) -> (forall a b, P [a; b]) -> (forall a b c, P [a; b; c]) ->
  (forall a b c d, P [a; b; c; d]) ->
  (forall a b c d e rest, P rest -> P (a :: b :: c :: d :: e :: rest)) -> forall l, P l.
Proof.
  intros H0 H1 H2 H3 H4 H5. fix IH 1. intros [|a [|b [|c [|d [|e rest]]]]]; [done | apply H1 | apply H2 | apply H3 | apply H4|].
  apply H5, IH.
Qed.

Ltac list_ranges := repeat match goal with H : Forall _ (_ :: _) |- _ => apply Forall_cons_iff in H as [? H] end.

Lemma base32_digits_ok l : bytes_ok l -> digits_ok (base32_digits l).
Proof.
  unfold bytes_ok, digits_ok. induction l as [| | | | |a b c d e rest IH] using by_fives; intros Hl; list_ranges;
    cbn [base32_digits]; repeat (apply Forall_cons_iff; split); try (by apply Forall_nil_2); try (by apply IH);
    clear Hl; Z.to_euclidean_division_equations; lia.
Qed.

Lemma base32_bytes_digits l : bytes_ok l -> base32_bytes (base32_digits l) = l.
Proof.
  unfold bytes_ok. induction l as [| | | | |a b c d e rest IH] using by_fives; intros Hl; list_ranges;
    cbn [base32_digits base32_bytes]; repeat (f_equal; try (by apply IH));
    clear Hl; Z.to_euclidean_division_equations; lia.
Qed.

Lemma base32_value_char d : 0 <= d < 32 -> base32_value (base32_char d) = Some d.
Proof.
  intros Hd. unfold base32_value, base32_char. destruct (Z.ltb_spec d 26); rewrite byte_of_ascii_of by lia.
  - rewrite (proj2 (Z.leb_le 65 _)), (proj2 (Z.leb_le _ 90)) by lia. simpl. f_equal. lia.
  - rewrite (proj2 (Z.leb_gt 65 _)) by lia. cbn [andb].
    rewrite (proj2 (Z.leb_le 50 _)), (proj2 (Z.leb_le _ 55)) by lia. simpl. f_equal. lia.
Qed.

Lemma base32_values l : digits_ok l -> mapM base32_value (List.map base32_char l) = Some l.
Proof.
  intros Hl. induction Hl as [|d l Hd _ IH]; [done|]. cbn [List.map]. simpl.
  rewrite base32_value_char by done. simpl. change (mapM base32_value (List.map base32_char l)) with (mapM base32_value (List.map base32_char l)) in IH.
  by rewrite IH.
Qed.

(** The alphabet, as bytes. *)
Definition base32_ascii (a : ascii) : bool := match base32_value a with Some _ => true | None => false end.

Lemma base32_ascii_spec a : base32_ascii a = true ->
  visible a = true /\ upper1 a = a /\ newline a = false /\ a <> pad_char.
Proof. destruct a as [[] [] [] [] [] [] [] []]; intros H; try discriminate H; repeat split; discriminate. Qed.

Lemma base32_chars_ascii l : digits_ok l -> Forall (fun a => base32_ascii a = true) (List.map base32_char l).
Proof.
  intros Hl. apply Forall_map. eapply Forall_impl; [|exact Hl]. intros d Hd. unfold base32_ascii.
  simpl. by rewrite base32_value_char.
Qed.

Lemma filter_all {A} (p : A -> bool) l : Forall (fun a => p a = true) l -> List.filter p l = l.
Proof. induction 1 as [|a l Ha _ IH]; [done|]. simpl. by rewrite Ha, IH. Qed.

Lemma drop_pad_replicate n l : drop_pad (replicate n pad_char ++ l) = drop_pad l.
Proof. induction n; [done|]. by simpl. Qed.

Lemma drop_pad_alphabet l : Forall (fun a => base32_ascii a = true) l -> drop_pad l = l.
Proof.
  intros [|a rest Ha _]; [done|]. simpl. apply base32_ascii_spec in Ha as (_ & _ & _ & Hne).
  by rewrite (proj2 (Ascii.eqb_neq _ _) Hne).
Qed.

(** The secret as the program writes it: encoded, the padding cut off. *)
Lemma trim_pad_Encode l : bytes_ok l ->
  trim_pad (base32_Encode l) = string_of_list_ascii (List.map base32_char (base32_digits l)).
Proof.
  intros Hl. unfold trim_pad, base32_Encode. rewrite list_ascii_of_string_of_list_ascii, rev_app_distr.
  pose proof (base32_chars_ascii _ (base32_digits_ok _ Hl)) as Ha.
  assert (Hrev : forall n, rev (replicate n pad_char) = replicate n pad_char).
  { intros n. induction n as [|n IH]; [done|]. cbn [replicate rev]. rewrite IH. clear.
    induction n as [|n IH]; [done|]. cbn [replicate app]. by rewrite IH. }
  rewrite Hrev, drop_pad_replicate, drop_pad_alphabet, rev_involutive; [done|]. by apply List.Forall_rev.
Qed.

Lemma forall_string_Forall p l : Forall (fun a => p a = true) l -> forall_string p (string_of_list_ascii l) = true.
Proof. induction 1 as [|a l Ha _ IH]; [done|]. simpl. by rewrite Ha, IH. Qed.

Lemma base32_round_trip l : bytes_ok l ->
  base32_DecodeNoPadding (ToUpper (TrimSpace (trim_pad (base32_Encode l)))) = Some l.
Proof.
  intros Hl. rewrite trim_pad_Encode by done.
  pose proof (base32_digits_ok _ Hl) as Hd. pose proof (base32_chars_ascii _ Hd) as Ha.
  rewrite TrimSpace_visible, ToUpper_id.
  - unfold base32_DecodeNoPadding. rewrite list_ascii_of_string_of_list_ascii, filter_all, base32_values; [|done|].
    + simpl. by rewrite base32_bytes_digits.
    + eapply Forall_impl; [|exact Ha]. intros a H%base32_ascii_spec. destruct H as (_ & _ & -> & _). done.
  - apply forall_string_Forall. eapply Forall_impl; [|exact Ha]. intros a H%base32_ascii_spec.
    destruct H as (-> & -> & _). by rewrite Ascii.eqb_refl.
  - apply forall_string_Forall. eapply Forall_impl; [|exact Ha]. intros a H%base32_ascii_spec. apply H.
Qed.

(** ** Test vectors *)

Example sha1_abc : HexEncode (sha1_Sum (bytes_of "abc")) = "a9993e364706816aba3e25717850c26c9cd0d89d".
Proof. vm_compute. reflexivity. Qed.

Example sha1_two_blocks :
  HexEncode (sha1_Sum (bytes_of "abcdbcdecdefdefgefghfghighijhijkijkljklmklmnlmnomnopnopq")) =
  "84983e441c3bd26ebaae4aa1f95129e5e54670f1".
Proof. vm_compute. reflexivity. Qed.

Example rfc2202_case_2 :
  HexEncode (hmac_sha1 (bytes_of "Jefe") (bytes_of "what do ya want for nothing?")) =
  "effcdf6ae5eb2fa2d27416d5f184df9c259a7c79".
Proof. vm_compute. reflexivity. Qed.

Example rfc4648_foobar : base32_Encode (bytes_of "foobar") = "MZXW6YTBOI======".
Proof. vm_compute. reflexivity. Qed.
