(* ===== verification/GoJson.v ===== *)
(** * Go's [encoding/json] on [[]string]

    [json.Marshal] of a string slice and [json.Unmarshal] into a nil string
    slice, at the level of bytes: HTML-safe escaping, UTF-8 validation and
    U+FFFD substitution when writing; whitespace, escapes and surrogate pairs
    when reading.  A nil slice is [None], a non-nil slice [Some l]. *)

From stdpp Require Import base tactics list strings numbers.
From Stdlib Require Import ZArith Lia Ascii.
From S2P Require Import Prelude GoStrings.

#[local] Arguments String.append !_ _ / : simpl nomatch.

(** ** UTF-8 *)

Definition cont (b : ascii) : bool := (128 <=? byte_of b) && (byte_of b <=? 191).

(** The well-formed two-, three- and four-byte sequences (no overlong form,
    no surrogate, nothing above U+10FFFF). *)
Definition utf8_2 (a b : ascii) : bool := (194 <=? byte_of a) && (byte_of a <=? 223) && cont b.

Definition utf8_3 (a b c : ascii) : bool :=
  let x := byte_of a in let y := byte_of b in
  (224 <=? x) && (x <=? 239) && cont b && cont c &&
  (negb (x =? 224) || (160 <=? y)) && (negb (x =? 237) || (y <=? 159)).

Definition utf8_4 (a b c d : ascii) : bool :=
  let x := byte_of a in let y := byte_of b in
  (240 <=? x) && (x <=? 244) && cont b && cont c && cont d &&
  (negb (x =? 240) || (144 <=? y)) && (negb (x =? 244) || (y <=? 143)).

(** U+2028 and U+2029 *)
Definition line_separator (a b c : ascii) : bool :=
  (byte_of a =? 226) && (byte_of b =? 128) && ((byte_of c =? 168) || (byte_of c =? 169)).

(** ** Writing *)

Definition quote : ascii := ascii_of 34.
Definition backslash : ascii := ascii_of 92.
Definition hex1 (z : Z) : ascii := ascii_of (if z <? 10 then 48 + z else 87 + z).

Definition esc (l : list Z) : string := string_of_bytes (92 :: l).

Definition quote_ascii (a : ascii) : string :=
  let x := byte_of a in
  if (x =? 34) || (x =? 92) then esc [x]
  else if x =? 8 then esc [98]
  else if x =? 9 then esc [116]
  else if x =? 10 then esc [110]
  else if x =? 12 then esc [102]
  else if x =? 13 then esc [114]
  else if (x <? 32) || (x =? 38) || (x =? 60) || (x =? 62)
  then esc [117; 48; 48; byte_of (hex1 (Z.shiftr x 4)); byte_of (hex1 (Z.land x 15))]
  else String a EmptyString.

(** The escape sequence of U+FFFD, written for a byte that is not UTF-8. *)
Definition esc_fffd : string := esc [117; 102; 102; 102; 100].
Definition esc_2028 (c : ascii) : string :=
  esc [117; 50; 48; 50; byte_of (hex1 (Z.land (byte_of c) 15))].

Fixpoint quote_body (s : string) : string :=
  match s with
  | EmptyString => EmptyString
  | String a s1 =>
      if byte_of a <? 128 then quote_ascii a +:+ quote_body s1 else
      match s1 with
      | EmptyString => esc_fffd
      | String b s2 =>
          if utf8_2 a b then String a (String b (quote_body s2)) else
          match s2 with
          | EmptyString => esc_fffd +:+ quote_body s1
          | String c s3 =>
              if line_separator a b c then esc_2028 c +:+ quote_body s3
              else if utf8_3 a b c then String a (String b (String c (quote_body s3))) else
              match s3 with
              | EmptyString => esc_fffd +:+ quote_body s1
              | String d s4 =>
                  if utf8_4 a b c d
                  then String a (String b (String c (String d (quote_body s4))))
                  else esc_fffd +:+ quote_body s1
              end
          end
      end
  end.

Definition quote_string (s : string) : string :=
  String quote (quote_body s +:+ String quote EmptyString).

Fixpoint marshal_rest (l : list string) : string :=
  match l with
  | [] => "]"
  | s :: l' => String "," (quote_string s +:+ marshal_rest l')
  end.

Definition MarshalStrings (v : option (list string)) : string :=
  match v with
  | None => "null"
  | Some [] => "[]"
  | Some (s :: l) => String "[" (quote_string s +:+ marshal_rest l)
  end.

(** ** Reading *)

Definition is_ws (a : ascii) : bool :=
  let x := byte_of a in (x =? 32) || (x =? 9) || (x =? 10) || (x =? 13).

Fixpoint skip_ws (s : string) : string :=
  match s with
  | String a s' => if is_ws a then skip_ws s' else s
  | EmptyString => s
  end.

Definition hex_val (a : ascii) : option Z :=
  let x := byte_of a in
  if (48 <=? x) && (x <=? 57) then Some (x - 48)
  else if (97 <=? x) && (x <=? 102) then Some (x - 87)
  else if (65 <=? x) && (x <=? 70) then Some (x - 55)
  else None.

Definition hex4 (s : string) : option (Z * string) :=
  match s with
  | String a (String b (String c (String d rest))) =>
      match hex_val a, hex_val b, hex_val c, hex_val d with
      | Some w, Some x, Some y, Some z => Some (4096 * w + 256 * x + 16 * y + z, rest)
      | _, _, _, _ => None
      end
  | _ => None
  end.

Definition utf8_encode (r : Z) : string :=
  if r <? 128 then string_of_bytes [r]
  else if r <? 2048 then string_of_bytes [192 + Z.shiftr r 6; 128 + Z.land r 63]
  else if r <? 65536
  then string_of_bytes [224 + Z.shiftr r 12; 128 + Z.land (Z.shiftr r 6) 63; 128 + Z.land r 63]
  else string_of_bytes [240 + Z.shiftr r 18; 128 + Z.land (Z.shiftr r 12) 63;
                        128 + Z.land (Z.shiftr r 6) 63; 128 + Z.land r 63].

Definition fffd : Z := 65533.

(** After a [\u] with value [r]: a surrogate takes the following [\u] escape
    with it when the two form a pair, and becomes U+FFFD otherwise. *)
Definition surrogate (r : Z) (s : string) : Z * string :=
  if (r <? 55296) || (57343 <? r) then (r, s) else
  match s with
  | String a (String b rest) =>
      if Ascii.eqb a backslash && Ascii.eqb b "u" then
        match hex4 rest with
        | Some (r2, rest') =>
            if (r <? 56320) && (56320 <=? r2) && (r2 <? 57344)
            then (65536 + 1024 * (r - 55296) + (r2 - 56320), rest')
            else (fffd, s)
        | None => (fffd, s)
        end
      else (fffd, s)
  | _ => (fffd, s)
  end.

Definition simple_escape (b : ascii) : option Z :=
  let x := byte_of b in
  if (x =? 34) || (x =? 92) || (x =? 47) then Some x
  else if x =? 98 then Some 8
  else if x =? 102 then Some 12
  else if x =? 110 then Some 10
  else if x =? 114 then Some 13
  else if x =? 116 then Some 9
  else None.

Definition prepend (p : string) (o : option (string * string)) : option (string * string) :=
  match o with Some (t, r) => Some (p +:+ t, r) | None => None end.

(** The length of the UTF-8 sequence at the head, when it is well formed. *)
Definition rune_split (s : string) : option (string * string) :=
  match s with
  | String a (String b s2) =>
      if utf8_2 a b then Some (String a (String b EmptyString), s2) else
      match s2 with
      | String c s3 =>
          if utf8_3 a b c then Some (String a (String b (String c EmptyString)), s3) else
          match s3 with
          | String d s4 =>
              if utf8_4 a b c d
              then Some (String a (String b (String c (String d EmptyString))), s4) else None
          | EmptyString => None
          end
      | EmptyString => None
      end
  | _ => None
  end.

(** The body of a string literal after its opening quote: the value and what
    follows the closing quote.  Fuel bounds the number of characters. *)
Fixpoint unquote (fuel : nat) (s : string) : option (string * string) :=
  match fuel with
  | O => None
  | S n =>
      match s with
      | EmptyString => None
      | String a s1 =>
          let x := byte_of a in
          if x =? 34 then Some (EmptyString, s1)
          else if x =? 92 then
            match s1 with
            | EmptyString => None
            | String b s2 =>
                if byte_of b =? 117 then
                  match hex4 s2 with
                  | Some (r, s3) =>
                      let '(r', s4) := surrogate r s3 in prepend (utf8_encode r') (unquote n s4)
                  | None => None
                  end
                else match simple_escape b with
                     | Some y => prepend (string_of_bytes [y]) (unquote n s2)
                     | None => None
                     end
            end
          else if x <? 32 then None
          else if x <? 128 then prepend (String a EmptyString) (unquote n s1)
          else match rune_split s with
               | Some (p, s') => prepend p (unquote n s')
               | None => prepend (utf8_encode fffd) (unquote n s1)
               end
      end
  end.

(** An element of the array: a string, or [null] which leaves the zero value. *)
Definition element (s : string) : option (string * string) :=
  match s with
  | String a s1 =>
      if Ascii.eqb a quote then unquote (S (String.length s1)) s1
      else if HasPrefix s "null" then Some (EmptyString, drop_string 4 s)
      else None
  | EmptyString => None
  end.

Fixpoint elements (fuel : nat) (s : string) : option (list string * string) :=
  match fuel with
  | O => None
  | S n =>
      match element (skip_ws s) with
      | None => None
      | Some (v, s1) =>
          match skip_ws s1 with
          | String a s2 =>
              if Ascii.eqb a "]" then Some ([v], s2)
              else if Ascii.eqb a "," then
                match elements n s2 with
                | Some (l, r) => Some (v :: l, r)
                | None => None
                end
              else None
          | EmptyString => None
          end
      end
  end.

Definition at_end (s : string) : bool :=
  match skip_ws s with EmptyString => true | _ => false end.

(** [json.Unmarshal([]byte(raw), &scopes)]: [None] is a non-nil error. *)
Definition UnmarshalStrings (raw : string) : option (option (list string)) :=
  let s := skip_ws raw in
  match s with
  | EmptyString => None
  | String a s1 =>
      if Ascii.eqb a "[" then
        match skip_ws s1 with
        | String b s2 =>
            if Ascii.eqb b "]" then (if at_end s2 then Some (Some []) else None)
            else match elements (S (String.length s1)) s1 with
                 | Some (l, r) => if at_end r then Some (Some l) else None
                 | None => None
                 end
        | EmptyString => None
        end
      else if HasPrefix s "null" then (if at_end (drop_string 4 s) then Some None else None)
      else None
  end.

(** ** Round trip *)

Definition is_ascii (a : ascii) : bool := byte_of a <? 128.
Definition ascii_string (s : string) : bool := forall_string is_ascii s.

Lemma unquote_quote_ascii n a rest :
  is_ascii a = true ->
  unquote (S n) (quote_ascii a +:+ rest) = prepend (String a EmptyString) (unquote n rest).
Proof.
  intros Ha. destruct a as [[] [] [] [] [] [] [] []]; try discriminate Ha; reflexivity.
Qed.

Lemma quote_body_app a s :
  is_ascii a = true -> quote_body (String a s) = quote_ascii a +:+ quote_body s.
Proof. unfold is_ascii. intros H. cbn [quote_body]. by rewrite H. Qed.

Lemma unquote_quote_body s : forall n rest,
  ascii_string s = true -> (String.length s < n)%nat ->
  unquote n (quote_body s +:+ String quote rest) = Some (s, rest).
Proof.
  induction s as [|a s IH]; intros n rest Hs Hn; destruct n as [|n]; simpl in Hn; try lia.
  - reflexivity.
  - cbn [ascii_string forall_string] in Hs. unfold ascii_string in *. simpl in Hs.
    apply andb_true_iff in Hs as [Ha Hs].
    rewrite quote_body_app, <- string_app_assoc, unquote_quote_ascii by done.
    rewrite IH by (done || lia). done.
Qed.

Lemma length_append (s t : string) :
  String.length (s +:+ t) = (String.length s + String.length t)%nat.
Proof. induction s as [|a s IH]; simpl; [done|]. by rewrite IH. Qed.

Lemma length_quote_ascii a : (1 <= String.length (quote_ascii a))%nat.
Proof. destruct a as [[] [] [] [] [] [] [] []]; vm_compute; lia. Qed.

Lemma length_quote_body s :
  ascii_string s = true -> (String.length s <= String.length (quote_body s))%nat.
Proof.
  induction s as [|a s IH]; [done|]. unfold ascii_string in *. simpl forall_string.
  rewrite andb_true_iff. intros [Ha Hs]. rewrite quote_body_app, length_append by done.
  pose proof (length_quote_ascii a). specialize (IH Hs). simpl. lia.
Qed.

Lemma element_quote_string s rest :
  ascii_string s = true -> element (quote_string s +:+ rest) = Some (s, rest).
Proof.
  intros Hs. unfold quote_string.
  change (String quote ?x +:+ rest) with (String quote (x +:+ rest)).
  rewrite <- string_app_assoc.
  change (String quote EmptyString +:+ rest) with (String quote rest).
  unfold element. rewrite Ascii.eqb_refl.
  rewrite unquote_quote_body; [done|done|].
  rewrite length_append. pose proof (length_quote_body s Hs). simpl. lia.
Qed.

Lemma elements_marshal s l : forall n rest,
  ascii_string s = true -> forallb ascii_string l = true -> (List.length l < n)%nat ->
  elements n (quote_string s +:+ (marshal_rest l +:+ rest)) = Some (s :: l, rest).
Proof.
  revert s. induction l as [|t l IH]; intros s n rest Hs Hl Hn; destruct n as [|n]; try (simpl in Hn; lia).
  - cbn [elements]. change (skip_ws (quote_string s +:+ ?r)) with (quote_string s +:+ r).
    rewrite element_quote_string by done. reflexivity.
  - simpl in Hl. apply andb_true_iff in Hl as [Ht Hl].
    cbn [elements]. change (skip_ws (quote_string s +:+ ?r)) with (quote_string s +:+ r).
    rewrite element_quote_string by done. cbn [marshal_rest].
    change (skip_ws ((String "," ?x) +:+ ?r)) with (String "," (x +:+ r)). cbv beta iota zeta.
    change (Ascii.eqb "," "]") with false. change (Ascii.eqb "," ",") with true. cbv iota.
    rewrite <- string_app_assoc, (IH t n rest) by (done || (simpl in Hn; lia)). done.
Qed.

Lemma length_marshal_rest l : (List.length l < String.length (marshal_rest l))%nat.
Proof.
  induction l as [|s l IH]; [simpl; lia|]. cbn [marshal_rest].
  change (String.length (String ?a ?b)) with (S (String.length b)).
  rewrite length_append. simpl. lia.
Qed.

(** What [json.Marshal] writes for ASCII strings, [json.Unmarshal] reads
    back, nil and empty slices kept apart. *)
Lemma Unmarshal_Marshal v :
  (forall l, v = Some l -> forallb ascii_string l = true) ->
  UnmarshalStrings (MarshalStrings v) = Some v.
Proof.
  destruct v as [[|s l]|]; intros H; [reflexivity | | reflexivity].
  specialize (H _ eq_refl). simpl in H. apply andb_true_iff in H as [Hs Hl].
  unfold UnmarshalStrings, MarshalStrings.
  change (skip_ws (String "[" ?x)) with (String "[" x). cbv beta iota zeta.
  change (Ascii.eqb "[" "[") with true. cbv iota.
  set (s1 := quote_string s +:+ marshal_rest l).
  assert (Hq : skip_ws s1 = String quote ((quote_body s +:+ String quote EmptyString) +:+ marshal_rest l))
    by reflexivity.
  rewrite Hq. change (Ascii.eqb quote "]") with false. cbv iota. subst s1.
  rewrite <- (string_app_nil_r (marshal_rest l)) at 2.
  rewrite elements_marshal; [reflexivity|done|done|].
  rewrite !length_append. pose proof (length_marshal_rest l). simpl. lia.
Qed.

Example marshal_two : MarshalStrings (Some ["openid"; "a<b"]) =
  string_of_bytes [91;34;111;112;101;110;105;100;34;44;34;97;92;117;48;48;51;99;98;34;93].
Proof. reflexivity. Qed.

Example unmarshal_spaces : UnmarshalStrings (string_of_bytes [32;91;34;97;34;44;32;34;92;117;48;48;54;50;34;32;93;10])
  = Some (Some ["a"; "b"]).
Proof. reflexivity. Qed.
