(* ===== verification/GoJsonObject.v ===== *)
(** * Go's [encoding/json] on a flat struct

    A JSON reader for whole values, and the decoding of an object into a
    struct of strings and one int64, the way [json.Unmarshal] fills it: keys
    match a field exactly or up to ASCII case, unknown keys are skipped,
    [null] leaves the field alone, a value of the wrong type is an error. *)

From stdpp Require Import base tactics list strings numbers.
From Stdlib Require Import ZArith Lia Ascii DecimalString DecimalZ Decimal DecimalFacts.
From S2P Require Import Prelude GoStrings GoJson.

(** ** Values *)

Inductive json :=
| JNull
| JBool (b : bool)
| JNumber (s : string)
| JString (s : string)
| JArray (l : list json)
| JObject (l : list (string * json)).

Definition digit_char (a : ascii) : bool := (48 <=? byte_of a) && (byte_of a <=? 57).

Definition number_char (a : ascii) : bool :=
  let x := byte_of a in
  digit_char a || (x =? 45) || (x =? 43) || (x =? 46) || (x =? 101) || (x =? 69).

Fixpoint span_string (p : ascii -> bool) (s : string) : string * string :=
  match s with
  | EmptyString => (EmptyString, EmptyString)
  | String a s' =>
      if p a then let '(l, r) := span_string p s' in (String a l, r) else (EmptyString, s)
  end.

(** An optional fraction and exponent. *)
Definition exponent_ok (s : string) : bool :=
  match s with
  | EmptyString => true
  | String e s1 =>
      ((byte_of e =? 101) || (byte_of e =? 69)) &&
      (let s2 := match s1 with
                 | String c s2 => if (byte_of c =? 43) || (byte_of c =? 45) then s2 else s1
                 | EmptyString => s1
                 end in
       negb (String.eqb s2 "") && forall_string digit_char s2)
  end.

Definition tail_ok (s : string) : bool :=
  match s with
  | String c s1 =>
      if byte_of c =? 46 then
        let '(frac, rest) := span_string digit_char s1 in
        negb (String.eqb frac "") && exponent_ok rest
      else exponent_ok s
  | EmptyString => true
  end.

(** The JSON number grammar: no leading zero, no plus sign. *)
Definition number_ok (s : string) : bool :=
  let s := match s with
           | String c s' => if byte_of c =? 45 then s' else s
           | EmptyString => s
           end in
  match s with
  | EmptyString => false
  | String c s' =>
      if byte_of c =? 48 then tail_ok s'
      else digit_char c && tail_ok (snd (span_string digit_char s'))
  end.

Fixpoint value (fuel : nat) (s : string) : option (json * string) :=
  match fuel with
  | O => None
  | S n =>
      let s := skip_ws s in
      match s with
      | EmptyString => None
      | String a s1 =>
          if Ascii.eqb a quote then
            match unquote (S (String.length s1)) s1 with
            | Some (v, r) => Some (JString v, r)
            | None => None
            end
          else if Ascii.eqb a "{" then
            match skip_ws s1 with
            | String b s2 =>
                if Ascii.eqb b "}" then Some (JObject [], s2)
                else match members n s1 with
                     | Some (l, r) => Some (JObject l, r)
                     | None => None
                     end
            | EmptyString => None
            end
          else if Ascii.eqb a "[" then
            match skip_ws s1 with
            | String b s2 =>
                if Ascii.eqb b "]" then Some (JArray [], s2)
                else match items n s1 with
                     | Some (l, r) => Some (JArray l, r)
                     | None => None
                     end
            | EmptyString => None
            end
          else if HasPrefix s "true" then Some (JBool true, drop_string 4 s)
          else if HasPrefix s "false" then Some (JBool false, drop_string 5 s)
          else if HasPrefix s "null" then Some (JNull, drop_string 4 s)
          else
            let '(num, r) := span_string number_char s in
            if number_ok num then Some (JNumber num, r) else None
      end
  end
with members (fuel : nat) (s : string) : option (list (string * json) * string) :=
  match fuel with
  | O => None
  | S n =>
      match skip_ws s with
      | String a s1 =>
          if negb (Ascii.eqb a quote) then None else
          match unquote (S (String.length s1)) s1 with
          | None => None
          | Some (k, s2) =>
              match skip_ws s2 with
              | String c s3 =>
                  if negb (Ascii.eqb c ":") then None else
                  match value n s3 with
                  | None => None
                  | Some (v, s4) =>
                      match skip_ws s4 with
                      | String d s5 =>
                          if Ascii.eqb d "}" then Some ([(k, v)], s5)
                          else if Ascii.eqb d "," then
                            match members n s5 with
                            | Some (l, r) => Some ((k, v) :: l, r)
                            | None => None
                            end
                          else None
                      | EmptyString => None
                      end
                  end
              | EmptyString => None
              end
          end
      | EmptyString => None
      end
  end
with items (fuel : nat) (s : string) : option (list json * string) :=
  match fuel with
  | O => None
  | S n =>
      match value n s with
      | None => None
      | Some (v, s1) =>
          match skip_ws s1 with
          | String d s2 =>
              if Ascii.eqb d "]" then Some ([v], s2)
              else if Ascii.eqb d "," then
                match items n s2 with
                | Some (l, r) => Some (v :: l, r)
                | None => None
                end
              else None
          | EmptyString => None
          end
      end
  end.

(** A whole document: one value and nothing after it.  Every call of the
    reader consumes a byte between two uses of fuel of the same kind, so twice
    the length is enough. *)
Definition parse_json (s : string) : option json :=
  match value (2 * String.length s + 2) s with
  | Some (v, r) => if at_end r then Some v else None
  | None => None
  end.

(** ** Writing a struct *)

Inductive field := FString (s : string) | FInt (z : Z).

Definition render_field (f : field) : string :=
  match f with FString s => quote_string s | FInt z => FormatInt z end.

Fixpoint render_members (l : list (string * field)) : string :=
  match l with
  | [] => "}"
  | [(k, f)] => quote_string k +:+ ":" +:+ render_field f +:+ "}"
  | (k, f) :: rest => quote_string k +:+ ":" +:+ render_field f +:+ "," +:+ render_members rest
  end.

Definition render_struct (l : list (string * field)) : string := String "{" (render_members l).

(** What the reader makes of a rendered field. *)
Definition field_json (f : field) : json :=
  match f with FString s => JString s | FInt z => JNumber (FormatInt z) end.

(** ** Decoding into fields *)

Definition fold_ascii (s : string) : string := ToLower s.

(** The field a key names: an exact match first, a case-insensitive one
    otherwise. *)
Fixpoint update_first (p : string -> bool) (g : field -> option field) (l : list (string * field))
    : option (option (list (string * field))) :=
  match l with
  | [] => None
  | (k, f) :: rest =>
      if p k then
        match g f with Some f' => Some (Some ((k, f') :: rest)) | None => Some None end
      else match update_first p g rest with
           | Some (Some r) => Some (Some ((k, f) :: r))
           | Some None => Some None
           | None => None
           end
  end.

Definition store (v : json) (f : field) : option field :=
  match v, f with
  | JNull, _ => Some f
  | JString s, FString _ => Some (FString s)
  | JNumber n, FInt _ => match ParseInt n with Some z => Some (FInt z) | None => None end
  | _, _ => None
  end.

Fixpoint fill (l : list (string * json)) (fields : list (string * field))
    : option (list (string * field)) :=
  match l with
  | [] => Some fields
  | (k, v) :: rest =>
      match update_first (String.eqb k) (store v) fields with
      | Some (Some fields') => fill rest fields'
      | Some None => None
      | None =>
          match update_first (fun n => String.eqb (fold_ascii n) (fold_ascii k)) (store v) fields with
          | Some (Some fields') => fill rest fields'
          | Some None => None
          | None => fill rest fields
          end
      end
  end.

(** [json.Unmarshal(payload, &v)] into a struct holding [fields]. *)
Definition unmarshal_struct (payload : string) (fields : list (string * field))
    : option (list (string * field)) :=
  match parse_json payload with
  | Some (JObject l) => fill l fields
  | Some JNull => Some fields
  | _ => None
  end.

(** ** What is rendered is read back *)

Lemma span_string_stop p s a rest :
  forall_string p s = true -> p a = false ->
  span_string p (s +:+ String a rest) = (s, String a rest).
Proof.
  intros Hs Ha. induction s as [|c s IH]; simpl in *; [by rewrite Ha|].
  apply andb_true_iff in Hs as [-> Hs]. by rewrite (IH Hs).
Qed.

Lemma span_string_all p s : forall_string p s = true -> span_string p s = (s, EmptyString).
Proof.
  induction s as [|c s IH]; simpl; [done|]. rewrite andb_true_iff. intros [-> Hs]. by rewrite (IH Hs).
Qed.

Lemma uint_digits u : forall_string digit_char (NilEmpty.string_of_uint u) = true.
Proof. induction u; simpl; auto. Qed.

Lemma digit_number a : digit_char a = true -> number_char a = true.
Proof. unfold number_char. by intros ->. Qed.

(** The number grammar on a string of digits. *)
Lemma number_ok_digits c s :
  byte_of c <> 48 -> digit_char c = true -> forall_string digit_char s = true ->
  number_ok (String c s) = true.
Proof.
  intros Hz Hc Hs. unfold number_ok.
  assert (byte_of c =? 45 = false) as ->.
  { unfold digit_char in Hc. rewrite andb_true_iff, !Z.leb_le in Hc. lia. }
  apply Z.eqb_neq in Hz as ->. by rewrite Hc, (span_string_all _ _ Hs).
Qed.

Lemma number_ok_negative s :
  number_ok s = true -> (forall t, s <> String "-" t) -> number_ok (String "-" s) = true.
Proof.
  intros Hs Hn. unfold number_ok at 1. change (byte_of "-" =? 45) with true. cbv iota.
  destruct s as [|c s]; [done|]. unfold number_ok in Hs. destruct (byte_of c =? 45) eqn:E; [|done].
  exfalso. apply (Hn s). f_equal. apply Z.eqb_eq in E. rewrite <- (ascii_of_byte_of c), E. done.
Qed.

(** The decimal notation of an unsigned number that does not start with a
    useless zero. *)
Lemma unorm_string u : u = Decimal.unorm u ->
  let s := NilZero.string_of_uint u in
  forall_string digit_char s = true /\ number_ok s = true /\ (forall t, s <> String "-" t).
Proof.
  intros Hu. destruct u as [|u|u|u|u|u|u|u|u|u|u]; try discriminate Hu.
  { assert (u = Decimal.Nil) as ->; [|done].
    unfold Decimal.unorm in Hu. simpl in Hu.
    destruct (Decimal.nzhead u) eqn:E; try discriminate Hu; [congruence|].
    injection Hu as Hu. exfalso. by apply (nzhead_nonzero u u0). }
  all: cbn [NilZero.string_of_uint NilEmpty.string_of_uint];
    (split; [cbn [forall_string]; by rewrite (uint_digits u) |];
     split; [|done]; by apply number_ok_digits; [| |apply uint_digits]).
Qed.

Lemma FormatInt_number z :
  forall_string number_char (FormatInt z) = true /\ number_ok (FormatInt z) = true.
Proof.
  pose proof (DecimalZ.to_of (Z.to_int z)) as Hn. rewrite DecimalZ.of_to in Hn.
  unfold FormatInt. destruct (Z.to_int z) as [u|u] eqn:E; cbn [Decimal.norm] in Hn.
  - injection Hn as Hn. destruct (unorm_string u Hn) as (Hd & Hok & _). split; [|exact Hok].
    eapply forall_string_impl; [|exact Hd]. apply digit_number.
  - assert (Hu : u = Decimal.unorm u).
    { unfold Decimal.unorm. destruct (Decimal.nzhead u) eqn:Enz; try discriminate Hn;
        injection Hn as Hn; exact Hn. }
    destruct (unorm_string u Hu) as (Hd & Hok & Hm).
    change (NilZero.string_of_int (Decimal.Neg u)) with (String "-" (NilZero.string_of_uint u)).
    split; [|by apply number_ok_negative].
    cbn [forall_string]. change (number_char "-") with true. cbn [andb].
    eapply forall_string_impl; [|exact Hd]. apply digit_number.
Qed.

(** The fields the round trip is about: ASCII text and int64 numbers. *)
Definition field_ok (f : field) : bool :=
  match f with FString s => ascii_string s | FInt z => in_int64 z end.

Definition member_ok (m : string * field) : bool := ascii_string m.1 && field_ok m.2.

Lemma number_start a s : number_char a = true ->
  is_ws a = false /\ Ascii.eqb a quote = false /\ Ascii.eqb a "{" = false /\
  Ascii.eqb a "[" = false /\ HasPrefix (String a s) "true" = false /\
  HasPrefix (String a s) "false" = false /\ HasPrefix (String a s) "null" = false.
Proof. destruct a as [[] [] [] [] [] [] [] []]; intros H; try discriminate H; auto 10. Qed.

Lemma unquote_quoted s rest n :
  ascii_string s = true -> n = S (String.length ((quote_body s +:+ String quote EmptyString) +:+ rest)) ->
  unquote n ((quote_body s +:+ String quote EmptyString) +:+ rest) = Some (s, rest).
Proof.
  intros Hs ->. rewrite <- !string_app_assoc.
  change (String quote EmptyString +:+ rest) with (String quote rest).
  apply unquote_quote_body; [done|].
  rewrite length_append. pose proof (length_quote_body s Hs). simpl. lia.
Qed.

Lemma value_quoted n s rest :
  ascii_string s = true -> value (S n) (quote_string s +:+ rest) = Some (JString s, rest).
Proof.
  intros Hs. unfold quote_string.
  change (String quote ?x +:+ rest) with (String quote (x +:+ rest)). cbn [value].
  change (skip_ws (String quote ?x)) with (String quote x). cbv beta iota zeta.
  rewrite Ascii.eqb_refl. by rewrite unquote_quoted.
Qed.

Lemma value_FormatInt n z c rest :
  number_char c = false -> value (S n) (FormatInt z +:+ String c rest) = Some (JNumber (FormatInt z), String c rest).
Proof.
  intros Hc. destruct (FormatInt_number z) as [Hd Hok].
  destruct (FormatInt z) as [|a s]; [discriminate Hok|].
  pose proof (proj1 (andb_prop _ _ Hd)) as Ha.
  destruct (number_start a (s +:+ String c rest) Ha) as (Hws & Hq & Hb & Hl & Ht & Hf & Hn).
  change (String a s +:+ ?x) with (String a (s +:+ x)). cbn [value skip_ws].
  rewrite Hws. cbv beta iota zeta. rewrite Hq, Hb, Hl, Ht, Hf, Hn.
  change (String a (s +:+ ?x)) with (String a s +:+ x).
  by rewrite span_string_stop, Hok.
Qed.

Lemma value_field n f c rest :
  field_ok f = true -> number_char c = false ->
  value (S n) (render_field f +:+ String c rest) = Some (field_json f, String c rest).
Proof.
  destruct f as [s|z]; intros Hf Hc; [by apply value_quoted | by apply value_FormatInt].
Qed.

Definition member_json (m : string * field) : string * json := (m.1, field_json m.2).

Lemma members_render k f l : forall n rest,
  forallb member_ok ((k, f) :: l) = true -> (List.length l + 1 < n)%nat ->
  members n (render_members ((k, f) :: l) +:+ rest) = Some (List.map member_json ((k, f) :: l), rest).
Proof.
  revert k f. induction l as [|[k' f'] l IH]; intros k f n rest Hok Hn; (destruct n as [|n]; [lia|]);
    cbn [forallb] in Hok; apply andb_true_iff in Hok as [Hm Hok]; unfold member_ok in Hm at 1; cbn in Hm;
    apply andb_true_iff in Hm as [Hk Hf].
  - cbn [render_members members]. rewrite <- !string_app_assoc.
    change (skip_ws (quote_string k +:+ ?r)) with (quote_string k +:+ r). unfold quote_string.
    change (String quote ?x +:+ ?r) with (String quote (x +:+ r)). cbv beta iota.
    rewrite Ascii.eqb_refl. cbn [negb]. rewrite unquote_quoted by done.
    change (skip_ws (":" +:+ ?r)) with (String ":" r). cbv beta iota.
    rewrite Ascii.eqb_refl. cbn [negb]. destruct n as [|n]; [simpl in Hn; lia|].
    change ("}" +:+ rest) with (String "}" rest). by rewrite value_field.
  - cbn [members]. set (tl := (k', f') :: l) in *.
    change (render_members ((k, f) :: tl))
      with (quote_string k +:+ ":" +:+ render_field f +:+ "," +:+ render_members tl).
    rewrite <- !string_app_assoc.
    change (skip_ws (quote_string k +:+ ?r)) with (quote_string k +:+ r). unfold quote_string.
    change (String quote ?x +:+ ?r) with (String quote (x +:+ r)). cbv beta iota.
    rewrite Ascii.eqb_refl. cbn [negb]. rewrite unquote_quoted by done.
    change (skip_ws (":" +:+ ?r)) with (String ":" r). cbv beta iota.
    rewrite Ascii.eqb_refl. cbn [negb]. destruct n as [|n]; [simpl in Hn; lia|].
    change ("," +:+ ?r) with (String "," r). rewrite value_field by done.
    change (skip_ws (String "," ?r)) with (String "," r). cbv beta iota.
    change (Ascii.eqb "," "}") with false. change (Ascii.eqb "," ",") with true. cbv iota.
    subst tl. by rewrite IH by (done || (simpl in Hn; lia)).
Qed.

Lemma length_render_members l : (List.length l < String.length (render_members l))%nat.
Proof.
  induction l as [|[k f] [|m l] IH]; [simpl; lia | |].
  - cbn [render_members]. rewrite !length_append. simpl. lia.
  - change (render_members ((k, f) :: m :: l))
      with (quote_string k +:+ ":" +:+ render_field f +:+ "," +:+ render_members (m :: l)).
    rewrite !length_append. cbn [List.length String.length] in *. lia.
Qed.

Lemma parse_render_struct m l :
  forallb member_ok (m :: l) = true ->
  parse_json (render_struct (m :: l)) = Some (JObject (List.map member_json (m :: l))).
Proof.
  intros Hok. unfold parse_json, render_struct. destruct m as [k f].
  pose proof (length_render_members ((k, f) :: l)) as Hlen. cbn [List.length] in Hlen.
  set (s := render_members ((k, f) :: l)) in *.
  replace (2 * String.length (String "{" s) + 2)%nat with (S (2 * String.length s + 3))
    by (cbn [String.length]; lia).
  cbn [value]. change (skip_ws (String "{" s)) with (String "{" s). cbv beta iota zeta.
  change (Ascii.eqb "{" quote) with false. change (Ascii.eqb "{" "{") with true. cbv iota.
  assert (Hq : exists r, s = String quote r).
  { subst s. destruct l as [|? ?]; simpl render_members; unfold quote_string; eexists; reflexivity. }
  destruct Hq as [r Hr]. rewrite Hr at 1. change (skip_ws (String quote r)) with (String quote r).
  cbv beta iota. change (Ascii.eqb quote "}") with false. cbv iota.
  rewrite <- (string_app_nil_r s) at 2. unfold s at 2.
  rewrite members_render; [reflexivity | done | lia].
Qed.

Definition same_kind (f g : field) : bool :=
  match f, g with FString _, FString _ | FInt _, FInt _ => true | _, _ => false end.

Lemma store_field f g : field_ok f = true -> same_kind f g = true -> store (field_json f) g = Some f.
Proof. destruct f, g; try done. simpl. intros H _. by rewrite ParseInt_FormatInt. Qed.

Lemma update_first_skip p g done k f f' rest :
  forallb (fun m => negb (p m.1)) done = true -> p k = true -> g f = Some f' ->
  update_first p g (done ++ (k, f) :: rest) = Some (Some (done ++ (k, f') :: rest)).
Proof.
  intros Hd Hp Hg. induction done as [|[k0 f0] done IH]; simpl in *; [by rewrite Hp, Hg|].
  apply andb_true_iff in Hd as [H0 Hd]. apply negb_true_iff in H0 as ->. by rewrite (IH Hd).
Qed.

Lemma fill_members l : forall done zs,
  NoDup ((done ++ l).*1) -> l.*1 = zs.*1 -> forallb member_ok l = true ->
  Forall2 (fun m z => same_kind m.2 z.2 = true) l zs ->
  fill (List.map member_json l) (done ++ zs) = Some (done ++ l).
Proof.
  induction l as [|[k f] l IH]; intros done zs Hnd Hkeys Hok Hkind.
  { apply Forall2_nil_inv_l in Hkind as ->. reflexivity. }
  apply Forall2_cons_inv_l in Hkind as ([k' g] & zs' & Hg & Hkind & ->). simpl in Hkeys, Hg.
  injection Hkeys as <- Hkeys. cbn [forallb] in Hok. apply andb_true_iff in Hok as [Hm Hok].
  unfold member_ok in Hm; simpl in Hm. apply andb_true_iff in Hm as [_ Hf].
  cbn [List.map member_json fill fst snd].
  rewrite (update_first_skip _ _ _ _ g f); [| |apply String.eqb_refl|by apply store_field].
  - replace (done ++ (k, f) :: zs') with ((done ++ [(k, f)]) ++ zs') by by rewrite <- app_assoc.
    rewrite IH; [by rewrite <- app_assoc | by rewrite <- app_assoc | done | done | done].
  - apply forallb_forall. intros [k1 f1] H1. apply negb_true_iff, String.eqb_neq. simpl. intros <-.
    rewrite fmap_app in Hnd. apply list.NoDup_app in Hnd as (_ & Hnd & _).
    apply (Hnd k); [|left]. apply list_elem_of_fmap. exists (k, f1). split; [done|].
    by apply list_elem_of_In.
Qed.

(** A struct written by [json.Marshal] is read back by [json.Unmarshal] into
    a fresh struct of the same type. *)
Lemma unmarshal_render_struct l zs :
  l <> [] -> NoDup (l.*1) -> l.*1 = zs.*1 -> forallb member_ok l = true ->
  Forall2 (fun m z => same_kind m.2 z.2 = true) l zs ->
  unmarshal_struct (render_struct l) zs = Some l.
Proof.
  intros Hne Hnd Hkeys Hok Hkind. unfold unmarshal_struct.
  destruct l as [|m l]; [done|]. rewrite parse_render_struct by done.
  exact (fill_members (m :: l) [] zs Hnd Hkeys Hok Hkind).
Qed.
