(* ===== verification/GoJsonWrite.v ===== *)
(** * Go's [json.Marshal] on whole values, and numbers read back

    [render] writes a value the way [json.Marshal] writes nested maps and
    slices; the reader of GoJsonObject reads it back.  [to_int64] is what
    [int64(v)] makes of a number that [json.Unmarshal] has stored as a
    float64. *)

From stdpp Require Import base tactics list gmap sorting strings numbers.
From Stdlib Require Import ZArith Lia Ascii DecimalString DecimalZ DecimalFacts.
From S2P Require Import Prelude GoStrings GoJson GoJsonObject.

(** ** Writing *)

Fixpoint render (v : json) : string :=
  match v with
  | JNull => "null"
  | JBool true => "true"
  | JBool false => "false"
  | JNumber s => s
  | JString s => quote_string s
  | JArray l =>
      String "[" ((fix go (l : list json) : string :=
        match l with
        | [] => "]"
        | x :: rest => render x +:+ match rest with [] => "]" | _ => String "," (go rest) end
        end) l)
  | JObject l =>
      String "{" ((fix go (l : list (string * json)) : string :=
        match l with
        | [] => "}"
        | (k, x) :: rest =>
            quote_string k +:+ String ":" (render x +:+ match rest with [] => "}" | _ => String "," (go rest) end)
        end) l)
  end.

Fixpoint render_items (l : list json) : string :=
  match l with
  | [] => "]"
  | x :: rest => render x +:+ match rest with [] => "]" | _ => String "," (render_items rest) end
  end.

Fixpoint render_fields (l : list (string * json)) : string :=
  match l with
  | [] => "}"
  | (k, x) :: rest => quote_string k +:+ String ":" (render x +:+ match rest with [] => "}" | _ => String "," (render_fields rest) end)
  end.

Lemma render_array l : render (JArray l) = String "[" (render_items l).
Proof. reflexivity. Qed.
Lemma render_object l : render (JObject l) = String "{" (render_fields l).
Proof. reflexivity. Qed.

(** Values whose strings are ASCII and whose numbers are JSON numbers. *)
Fixpoint writable (v : json) : bool :=
  match v with
  | JNull | JBool _ => true
  | JNumber s => forall_string number_char s && number_ok s
  | JString s => ascii_string s
  | JArray l => forallb writable l
  | JObject l => forallb (fun m => ascii_string m.1 && writable m.2) l
  end.

(** The fuel a value takes. *)
Fixpoint size (v : json) : nat :=
  match v with
  | JArray l => S (list_sum (List.map (fun x => S (size x)) l))
  | JObject l => S (list_sum (List.map (fun m => S (size m.2)) l))
  | _ => 1
  end.

(** Induction through the lists. *)
Lemma json_rect_lists (P : json -> Prop) :
  P JNull -> (forall b, P (JBool b)) -> (forall s, P (JNumber s)) -> (forall s, P (JString s)) ->
  (forall l, Forall P l -> P (JArray l)) -> (forall l, Forall (fun m => P m.2) l -> P (JObject l)) -> forall v, P v.
Proof.
  intros Hn Hb Hnum Hs Ha Ho. fix rec 1. intros [ | | | |l|l]; [done|done|done|done| |].
  - apply Ha. induction l; constructor; auto.
  - apply Ho. induction l as [|[k x] l IH]; constructor; [apply rec | exact IH].
Qed.

(** ** Reading back *)

(** What follows a value must not go on with a number. *)
Definition stops (rest : string) : bool :=
  match rest with EmptyString => true | String a _ => negb (number_char a) end.

Lemma number_head s : number_ok s = true -> forall_string number_char s = true ->
  exists a s', s = String a s' /\ number_char a = true.
Proof. destruct s as [|a s]; [done|]. intros _ [? _]%andb_prop. by exists a, s. Qed.

(** No value starts with a space, a bracket or a brace that closes. *)
Lemma render_head v : writable v = true ->
  exists a s, render v = String a s /\ is_ws a = false /\ Ascii.eqb a "]" = false /\ Ascii.eqb a "}" = false.
Proof.
  destruct v as [ |[]|s|s|l|l]; intros Hv; try (by eexists _, _).
  - cbn in Hv. apply andb_true_iff in Hv as [Hc Hok]. destruct (number_head s Hok Hc) as (a & s' & -> & Ha).
    exists a, s'. split; [done|]. destruct a as [[] [] [] [] [] [] [] []]; try discriminate Ha; auto.
Qed.

Lemma value_number n s rest : number_ok s = true -> forall_string number_char s = true -> stops rest = true ->
  value (S n) (s +:+ rest) = Some (JNumber s, rest).
Proof.
  intros Hok Hc Hr. destruct (number_head s Hok Hc) as (a & s' & -> & Ha).
  destruct (number_start a (s' +:+ rest) Ha) as (Hws & Hq & Hb & Hl & Ht & Hf & Hn).
  change (String a s' +:+ ?x) with (String a (s' +:+ x)). cbn [value skip_ws].
  rewrite Hws. cbv beta iota zeta. rewrite Hq, Hb, Hl, Ht, Hf, Hn.
  change (String a (s' +:+ ?x)) with (String a s' +:+ x).
  destruct rest as [|c rest].
  - rewrite string_app_nil_r, span_string_all by done. by rewrite Hok.
  - rewrite span_string_stop by (done || by apply negb_true_iff). by rewrite Hok.
Qed.

Lemma skip_render v rest : writable v = true -> skip_ws (render v +:+ rest) = render v +:+ rest.
Proof.
  intros Hv. destruct (render_head v Hv) as (a & s & Hr & Hw & _). rewrite Hr.
  change (String a s +:+ rest) with (String a (s +:+ rest)). cbn [skip_ws]. by rewrite Hw.
Qed.

Definition reads_back (v : json) : Prop := forall n rest,
  writable v = true -> stops rest = true -> (size v <= n)%nat -> value n (render v +:+ rest) = Some (v, rest).

Lemma items_render l : Forall reads_back l -> forall n rest, l <> [] -> forallb writable l = true ->
  (list_sum (List.map (fun x => S (size x)) l) <= n)%nat -> items n (render_items l +:+ rest) = Some (l, rest).
Proof.
  induction 1 as [|x l Hx _ IH]; intros n rest Hne Hw Hn; [done|].
  cbn [forallb] in Hw. apply andb_true_iff in Hw as [Hwx Hwl]. cbn [List.map list_sum fold_right] in Hn.
  destruct n as [|n]; [lia|]. cbn [items render_items]. rewrite <- string_app_assoc. destruct l as [|y l].
  - rewrite (Hx n ("]" +:+ rest)) by (done || lia). reflexivity.
  - change (String "," ?a +:+ rest) with (String "," (a +:+ rest)).
    rewrite (Hx n) by (done || lia). change (skip_ws (String "," ?a)) with (String "," a). cbv beta iota.
    change (Ascii.eqb "," "]") with false. change (Ascii.eqb "," ",") with true. cbv iota.
    unfold list_sum in IH. by rewrite IH by (done || lia).
Qed.

Lemma members_fields l : Forall (fun m => reads_back m.2) l -> forall n rest, l <> [] ->
  forallb (fun m => ascii_string m.1 && writable m.2) l = true ->
  (list_sum (List.map (fun m => S (size m.2)) l) <= n)%nat -> members n (render_fields l +:+ rest) = Some (l, rest).
Proof.
  induction 1 as [|[k x] l Hx _ IH]; intros n rest Hne Hw Hn; [done|]. simpl in Hx.
  cbn [forallb] in Hw. apply andb_true_iff in Hw as [[Hk Hwx]%andb_true_iff Hwl]. cbn [fst snd] in Hk, Hwx.
  cbn [List.map list_sum fold_right] in Hn. destruct n as [|n]; [lia|]. cbn [members render_fields].
  rewrite <- string_app_assoc. change (String ":" ?a +:+ rest) with (String ":" (a +:+ rest)). rewrite <- string_app_assoc.
  change (skip_ws (quote_string k +:+ ?r)) with (quote_string k +:+ r). unfold quote_string.
  change (String quote ?a +:+ ?r) with (String quote (a +:+ r)). cbv beta iota.
  rewrite Ascii.eqb_refl. cbn [negb]. rewrite unquote_quoted by done.
  change (skip_ws (String ":" ?r)) with (String ":" r). cbv beta iota.
  rewrite Ascii.eqb_refl. cbn [negb]. destruct l as [|m l].
  - rewrite (Hx n ("}" +:+ rest)) by (done || (simpl in Hn; lia)). reflexivity.
  - change (String "," ?a +:+ rest) with (String "," (a +:+ rest)).
    rewrite (Hx n) by (done || (cbn [snd] in Hn; lia)). change (skip_ws (String "," ?a)) with (String "," a). cbv beta iota.
    change (Ascii.eqb "," "}") with false. change (Ascii.eqb "," ",") with true. cbv iota.
    unfold list_sum in IH. by rewrite IH by (done || (cbn [snd] in Hn; lia)).
Qed.

Lemma render_fields_head m l : exists r, render_fields (m :: l) = String quote r.
Proof. destruct m as [k x]. cbn [render_fields]. unfold quote_string. by eexists. Qed.

Lemma render_items_head x l : writable x = true ->
  exists a r, render_items (x :: l) = String a r /\ is_ws a = false /\ Ascii.eqb a "]" = false.
Proof.
  intros (a & s & Hr & Hw & Hb & _)%render_head. cbn [render_items]. rewrite Hr. by eexists _, _.
Qed.

Lemma value_render v : reads_back v.
Proof.
  induction v as [ |b|s|s|l Hl|l Hl] using json_rect_lists; intros n rest Hw Hr Hn;
    (destruct n as [|n]; [cbn in Hn; lia|]).
  - vm_compute. by destruct rest.
  - destruct b; vm_compute; by destruct rest.
  - cbn in Hw. apply andb_true_iff in Hw as [? ?]. by apply value_number.
  - by apply value_quoted.
  - rewrite render_array. destruct l as [|x l]; [reflexivity|]. cbn [writable] in Hw.
    destruct (render_items_head x l) as (a & r & Hh & Hws & Hb); [by cbn [forallb] in Hw; apply andb_prop in Hw as [? _]|].
    change (String "[" ?a +:+ rest) with (String "[" (a +:+ rest)). cbn [value].
    change (skip_ws (String "[" ?a)) with (String "[" a). cbv beta iota zeta.
    change (Ascii.eqb "[" quote) with false. change (Ascii.eqb "[" "{") with false. change (Ascii.eqb "[" "[") with true. cbv iota.
    rewrite Hh at 1. change (String a r +:+ rest) with (String a (r +:+ rest)). cbn [skip_ws]. rewrite Hws, Hb.
    by rewrite items_render by (done || (cbn in Hn |- *; lia)).
  - rewrite render_object. destruct l as [|m l]; [reflexivity|]. cbn [writable] in Hw.
    destruct (render_fields_head m l) as (r & Hh).
    change (String "{" ?a +:+ rest) with (String "{" (a +:+ rest)). cbn [value].
    change (skip_ws (String "{" ?a)) with (String "{" a). cbv beta iota zeta.
    change (Ascii.eqb "{" quote) with false. change (Ascii.eqb "{" "{") with true. cbv iota.
    rewrite Hh at 1. change (skip_ws (String quote r +:+ rest)) with (String quote (r +:+ rest)). cbv beta iota.
    change (Ascii.eqb quote "}") with false. cbv iota.
    by rewrite members_fields by (done || (cbn in Hn |- *; lia)).
Qed.

(** The text is long enough for the fuel of [parse_json]. *)
Lemma size_render v : writable v = true -> (size v <= 2 * String.length (render v))%nat.
Proof.
  induction v as [ |b|s|s|l Hl|l Hl] using json_rect_lists; intros Hw.
  - cbn. lia.
  - destruct b; cbn; lia.
  - cbn in Hw. apply andb_true_iff in Hw as [Hc Hok]. destruct (number_head s Hok Hc) as (a & s' & -> & _). cbn. lia.
  - cbn. lia.
  - rewrite render_array. cbn [size writable String.length] in *.
    enough (list_sum (List.map (fun x => S (size x)) l) <= 2 * String.length (render_items l) + 1)%nat by lia.
    induction Hl as [|x l Hx Hl IH]; [cbn; lia|]. cbn [forallb] in Hw. apply andb_true_iff in Hw as [Hwx Hwl].
    specialize (Hx Hwx). specialize (IH Hwl). cbn [List.map list_sum fold_right render_items] in *. rewrite length_append.
    unfold list_sum in IH. destruct l; cbn [String.length List.map fold_right] in *; lia.
  - rewrite render_object. cbn [size writable String.length] in *.
    enough (list_sum (List.map (fun m => S (size m.2)) l) <= 2 * String.length (render_fields l) + 1)%nat by lia.
    induction Hl as [|[k x] l Hx Hl IH]; [cbn; lia|]. cbn [forallb] in Hw. apply andb_true_iff in Hw as [[Hk Hwx]%andb_true_iff Hwl].
    specialize (Hx Hwx). specialize (IH Hwl). cbn [List.map list_sum fold_right render_fields fst snd] in *.
    rewrite length_append. cbn [String.length]. rewrite length_append.
    unfold list_sum in IH. destruct l; cbn [String.length List.map fold_right] in *; lia.
Qed.

Theorem parse_render v : writable v = true -> parse_json (render v) = Some v.
Proof.
  intros Hw. unfold parse_json. rewrite <- (string_app_nil_r (render v)) at 2.
  rewrite value_render; [done|done|done|]. pose proof (size_render v Hw). lia.
Qed.

(** * Numbers of a decoded JSON document

    [json.Unmarshal] into [any] stores a number as the nearest float64
    ([strconv.ParseFloat]); [int64(v)] drops its fraction.  Integers up to
    2^53 come through unchanged.  The conversion of a float64 outside int64 is
    left open by the language; the value here is that of amd64. *)

(** ** Decimal text *)

Definition digits_value (s : string) : Z :=
  match NilEmpty.uint_of_string s with Some u => Z.of_uint u | None => 0 end.

(** The sign, then [m * 10 ^ e]. *)
Definition decimal (s : string) : bool * Z * Z :=
  let '(neg, s) := match s with
                   | String a s' => if byte_of a =? 45 then (true, s') else (false, s)
                   | EmptyString => (false, s)
                   end in
  let '(int, s) := span_string digit_char s in
  let '(frac, s) := match s with
                    | String a s' => if byte_of a =? 46 then span_string digit_char s' else (EmptyString, s)
                    | EmptyString => (EmptyString, s)
                    end in
  let exp := match s with
             | String _ (String a s') =>
                 if byte_of a =? 45 then - digits_value s'
                 else if byte_of a =? 43 then digits_value s' else digits_value (String a s')
             | _ => 0
             end in
  (neg, digits_value (int +:+ frac), exp - Z.of_nat (String.length frac)).

(** ** Rounding to 53 bits, half to even *)

(** [floor (log2 (num / den))], [num] and [den] positive. *)
Definition log2_quot (num den : Z) : Z :=
  let k := Z.log2 num - Z.log2 den in
  if (if 0 <=? k then den * 2 ^ k <=? num else den <=? num * 2 ^ (- k)) then k else k - 1.

Definition round_quot (a b : Z) : Z :=
  let q := a / b in let r := a mod b in
  if 2 * r <? b then q else if b <? 2 * r then q + 1 else if Z.even q then q else q + 1.

(** Mantissa and exponent of the nearest float64. *)
Definition nearest (num den : Z) : Z * Z :=
  let e := Z.max (log2_quot num den - 52) (-1074) in
  (if 0 <=? e then round_quot num (den * 2 ^ e) else round_quot (num * 2 ^ (- e)) den, e).

(** The whole part; [None] is an overflow of float64. *)
Definition whole_part (num den : Z) : option Z :=
  if num =? 0 then Some 0 else
  let '(m, e) := nearest num den in
  let v := if 0 <=? e then m * 2 ^ e else m / 2 ^ (- e) in
  if 2 ^ 1024 <=? v then None else Some v.

(** [int64(v)] of the float64 a number was read as; [None] when
    [json.Unmarshal] fails on it. *)
Definition float_int64 (s : string) : option Z :=
  let '(neg, m, e) := decimal s in
  match (if 0 <=? e then whole_part (m * 10 ^ e) 1 else whole_part m (10 ^ (- e))) with
  | None => None
  | Some v => let v := if neg : bool then - v else v in Some (if in_int64 v then v else int64_min)
  end.

(** ** Integers come through *)

Lemma log2_quot_int z : 0 < z -> log2_quot z 1 = Z.log2 z.
Proof.
  intros Hz. unfold log2_quot. change (Z.log2 1) with 0. rewrite Z.sub_0_r, Z.mul_1_l.
  pose proof (Z.log2_nonneg z) as Hl. rewrite (proj2 (Z.leb_le _ _) Hl).
  by rewrite (proj2 (Z.leb_le _ _) (proj1 (Z.log2_spec z Hz))).
Qed.

Lemma whole_part_int z : 0 <= z <= 2 ^ 53 -> whole_part z 1 = Some z.
Proof.
  intros [H0 H1]. unfold whole_part. destruct (Z.eqb_spec z 0) as [->|Hne]; [done|].
  assert (Hz : 0 < z) by lia. unfold nearest. rewrite log2_quot_int by done.
  pose proof (Z.log2_nonneg z). assert (Z.log2 z <= 53) by (rewrite <- (Z.log2_pow2 53) by lia; by apply Z.log2_le_mono).
  destruct (Z.eq_dec z (2 ^ 53)) as [->|Hlt]; [by vm_compute|].
  assert (Hlog : Z.log2 z < 53) by (apply Z.log2_lt_pow2; lia).
  rewrite Z.max_l by lia. set (k := 52 - Z.log2 z). replace (Z.log2 z - 52) with (- k) by (unfold k; lia).
  assert (Hk : 0 <= k) by (unfold k; lia).
  assert (Hr : forall x, round_quot x 1 = x) by (intros x; unfold round_quot; by rewrite Z.div_1_r, Z.mod_1_r).
  assert (Hbig : forall A (x y : A), (if 2 ^ 1024 <=? z then x else y) = y).
  { intros A x y. rewrite (proj2 (Z.leb_gt (2 ^ 1024) z)); [done|]. eapply Z.le_lt_trans; [exact H1|]. by vm_compute. }
  rewrite Z.opp_involutive. destruct (Z.leb_spec 0 (- k)) as [Hle|Hgt].
  - replace (- k) with 0 by lia. change (1 * 2 ^ 0) with 1. rewrite Hr, Z.pow_0_r, Z.mul_1_r. apply Hbig.
  - rewrite Hr, Z.div_mul by (apply Z.pow_nonzero; lia). apply Hbig.
Qed.

Lemma uint_text u : u <> Decimal.Nil -> NilZero.string_of_uint u = NilEmpty.string_of_uint u.
Proof. by destruct u. Qed.

Lemma decimal_digits s : s <> EmptyString -> forall_string digit_char s = true -> decimal s = (false, digits_value s, 0).
Proof.
  intros Hne Hs. unfold decimal. destruct s as [|a s]; [done|].
  assert (Ha : byte_of a =? 45 = false).
  { cbn [forall_string] in Hs. apply andb_prop in Hs as [Ha _]. unfold digit_char in Ha. apply Z.eqb_neq. lia. }
  rewrite Ha. rewrite (span_string_all _ _ Hs). by rewrite string_app_nil_r.
Qed.

Lemma decimal_negative s : s <> EmptyString -> forall_string digit_char s = true ->
  decimal (String "-" s) = (true, digits_value s, 0).
Proof.
  intros Hne Hs. unfold decimal. change (byte_of "-" =? 45) with true. cbv iota.
  rewrite (span_string_all _ _ Hs). by rewrite string_app_nil_r.
Qed.

Lemma text_of_int z : exists u, FormatInt z = (if z <? 0 then String "-" (NilEmpty.string_of_uint u) else NilEmpty.string_of_uint u) /\
  Z.of_uint u = Z.abs z /\ NilEmpty.string_of_uint u <> EmptyString.
Proof.
  unfold FormatInt. pose proof (DecimalZ.of_to z) as Hz. destruct (uint_nonnil z) as [Hn1 Hn2].
  destruct (Z.to_int z) as [u|u] eqn:E; exists u; cbn [NilZero.string_of_int]; cbn in Hz.
  - assert (Hu : u <> Decimal.Nil) by congruence. rewrite uint_text by done.
    assert (0 <= Z.of_uint u) by (unfold Z.of_uint; lia).
    rewrite (proj2 (Z.ltb_ge z 0)) by lia. split; [done|]. split; [lia|]. by destruct u.
  - assert (Hu : u <> Decimal.Nil) by congruence. rewrite uint_text by done.
    assert (Hz0 : z < 0). { destruct z; try done; cbn in E; discriminate E. }
    rewrite (proj2 (Z.ltb_lt z 0)) by done. split; [done|]. split; [lia|]. by destruct u.
Qed.

Lemma float_int64_FormatInt z : Z.abs z <= 2 ^ 53 -> float_int64 (FormatInt z) = Some z.
Proof.
  intros Hz. destruct (text_of_int z) as (u & -> & Hu & Hne).
  assert (Hd : digits_value (NilEmpty.string_of_uint u) = Z.abs z) by (unfold digits_value; by rewrite NilEmpty.usu, Hu).
  assert (Hin : forall y, Z.abs y <= 2 ^ 53 -> in_int64 y = true).
  { intros y Hy. unfold in_int64, int64_min, int64_max. apply andb_true_iff. rewrite !Z.leb_le. lia. }
  unfold float_int64. destruct (Z.ltb_spec z 0).
  - rewrite decimal_negative by (done || apply uint_digits). rewrite Hd. cbn [Z.leb Z.compare]. rewrite Z.mul_1_r, whole_part_int by lia.
    rewrite Hin by lia. f_equal. lia.
  - rewrite decimal_digits by (done || apply uint_digits). rewrite Hd. cbn [Z.leb Z.compare]. rewrite Z.mul_1_r, whole_part_int by lia.
    rewrite Hin by lia. f_equal. lia.
Qed.

Example floats :
  List.map float_int64 ["1700000000"; "-1.5"; "1e3"; "0.9999999999999999999"; "9007199254740993"; "1e19"; "1e400"] =
  [Some 1700000000; Some (-1); Some 1000; Some 1; Some 9007199254740992; Some (- 2 ^ 63); None].
Proof. vm_compute. reflexivity. Qed.
