(* ===== verification/GoBase64.v ===== *)
(** * Go's [encoding/base64], [StdEncoding]

    [EncodeToString] and [DecodeString] as the Basic authentication scheme
    uses them: padded, newlines ignored when reading, trailing bits of the
    last quantum not checked. *)

From stdpp Require Import base tactics list strings numbers.
From Stdlib Require Import ZArith Lia Ascii.
From S2P Require Import Prelude GoStrings GoCrypto.

Definition b64_char (z : Z) : ascii :=
  ascii_of (if z <? 26 then 65 + z
            else if z <? 52 then 71 + z
            else if z <? 62 then z - 4
            else if z =? 62 then 43 else 47).

Definition b64_val (a : ascii) : option Z :=
  let x := byte_of a in
  if (65 <=? x) && (x <=? 90) then Some (x - 65)
  else if (97 <=? x) && (x <=? 122) then Some (x - 71)
  else if (48 <=? x) && (x <=? 57) then Some (x + 4)
  else if x =? 43 then Some 62
  else if x =? 47 then Some 63
  else None.

Definition pad_char : ascii := ascii_of 61.
Definition is_pad (a : ascii) : bool := Ascii.eqb a pad_char.

Fixpoint StdEncode (l : list Z) : list ascii :=
  match l with
  | a :: b :: c :: rest =>
      let n := a * 65536 + b * 256 + c in
      b64_char (n / 262144) :: b64_char (n / 4096 mod 64) ::
      b64_char (n / 64 mod 64) :: b64_char (n mod 64) :: StdEncode rest
  | [a; b] =>
      let n := a * 65536 + b * 256 in
      [b64_char (n / 262144); b64_char (n / 4096 mod 64); b64_char (n / 64 mod 64); pad_char]
  | [a] =>
      let n := a * 65536 in
      [b64_char (n / 262144); b64_char (n / 4096 mod 64); pad_char; pad_char]
  | [] => []
  end.

Fixpoint decode_quanta (s : list ascii) : option (list Z) :=
  match s with
  | [] => Some []
  | a :: b :: c :: d :: rest =>
      match b64_val a, b64_val b with
      | Some w, Some x =>
          match b64_val c, b64_val d with
          | Some y, Some z =>
              let n := w * 262144 + x * 4096 + y * 64 + z in
              match decode_quanta rest with
              | Some l => Some (n / 65536 :: n / 256 mod 256 :: n mod 256 :: l)
              | None => None
              end
          | Some y, None =>
              let n := w * 262144 + x * 4096 + y * 64 in
              if is_pad d && bool_decide (rest = []) then Some [n / 65536; n / 256 mod 256] else None
          | None, _ =>
              let n := w * 262144 + x * 4096 in
              if is_pad c && is_pad d && bool_decide (rest = []) then Some [n / 65536] else None
          end
      | _, _ => None
      end
  | _ => None
  end.

(** [\r] and [\n] are skipped. *)
Definition newline (a : ascii) : bool := (byte_of a =? 10) || (byte_of a =? 13).

Definition DecodeString (s : string) : option string :=
  option_map string_of_bytes
    (decode_quanta (List.filter (fun a => negb (newline a)) (String.list_ascii_of_string s))).

Definition EncodeToString (s : string) : string :=
  String.string_of_list_ascii (StdEncode (bytes_of s)).

(** ** Round trip *)

Lemma b64_val_char z : 0 <= z < 64 -> b64_val (b64_char z) = Some z /\ newline (b64_char z) = false.
Proof.
  intros Hz. unfold b64_val, b64_char, newline.
  destruct (Z.ltb_spec z 26); [|destruct (Z.ltb_spec z 52); [|destruct (Z.ltb_spec z 62);
    [|destruct (Z.eqb_spec z 62)]]]; cbv zeta; rewrite byte_of_ascii_of by lia;
    repeat (match goal with
            | |- context [?a <=? ?b] => destruct (Z.leb_spec a b); try lia
            | |- context [?a =? ?b] => destruct (Z.eqb_spec a b); try lia
            end; simpl); split; try reflexivity; f_equal; lia.
Qed.

Lemma b64_val_char_eq z : 0 <= z < 64 -> b64_val (b64_char z) = Some z.
Proof. intros H. by apply b64_val_char. Qed.

Lemma quantum (a b c : Z) :
  0 <= a < 256 -> 0 <= b < 256 -> 0 <= c < 256 ->
  let n := a * 65536 + b * 256 + c in
  n / 262144 * 262144 + n / 4096 mod 64 * 4096 + n / 64 mod 64 * 64 + n mod 64 = n /\
  0 <= n / 262144 < 64 /\ n / 65536 = a /\ n / 256 mod 256 = b /\ n mod 256 = c.
Proof. cbv zeta. intros. Z.to_euclidean_division_equations. lia. Qed.

Lemma mod64 z : 0 <= z mod 64 < 64.
Proof. apply Z.mod_pos_bound. lia. Qed.

Lemma decode_encode l :
  Forall (fun z => 0 <= z < 256) l -> decode_quanta (StdEncode l) = Some l.
Proof.
  enough (H : forall n l, (List.length l <= n)%nat -> Forall (fun z => 0 <= z < 256) l ->
              decode_quanta (StdEncode l) = Some l) by exact (H _ l (Nat.le_refl _)).
  clear l. induction n as [|n IH]; intros l Hn Hl.
  { destruct l; [done | simpl in Hn; lia]. }
  destruct l as [|a [|b [|c l]]].
  - done.
  - apply Forall_cons_1 in Hl as [Ha _]. cbn [StdEncode decode_quanta].
    destruct (quantum a 0 0 Ha ltac:(lia) ltac:(lia)) as (Q & R & Qa & _).
    rewrite !Z.mul_0_l, !Z.add_0_r in *.
    rewrite !b64_val_char_eq by (apply mod64 || lia).
    change (b64_val pad_char) with (@None Z). cbv iota zeta. cbn [is_pad andb]. simpl. do 2 f_equal.
    revert Q. Z.to_euclidean_division_equations. lia.
  - apply Forall_cons_1 in Hl as [Ha Hl]. apply Forall_cons_1 in Hl as [Hb _].
    cbn [StdEncode decode_quanta].
    destruct (quantum a b 0 Ha Hb ltac:(lia)) as (Q & R & Qa & Qb & _). rewrite !Z.add_0_r in *.
    rewrite !b64_val_char_eq by (apply mod64 || lia).
    change (b64_val pad_char) with (@None Z). cbv iota zeta. simpl.
    assert (Hz : (a * 65536 + b * 256) mod 64 = 0) by (Z.to_euclidean_division_equations; lia).
    rewrite Hz, Z.add_0_r in Q. rewrite Q, Qa, Qb. done.
  - apply Forall_cons_1 in Hl as [Ha Hl]. apply Forall_cons_1 in Hl as [Hb Hl].
    apply Forall_cons_1 in Hl as [Hc Hl]. cbn [StdEncode decode_quanta].
    destruct (quantum a b c Ha Hb Hc) as (Q & R & Qa & Qb & Qc).
    rewrite !b64_val_char_eq by (apply mod64 || lia). cbv zeta.
    rewrite IH by (done || (simpl in Hn; lia)). by rewrite Q, Qa, Qb, Qc.
Qed.

Lemma bytes_of_range s : Forall (fun z => 0 <= z < 256) (bytes_of s).
Proof.
  unfold bytes_of. induction (String.list_ascii_of_string s) as [|a l IH]; constructor; [|done].
  apply byte_of_range.
Qed.

Lemma encode_no_newline l :
  Forall (fun z => 0 <= z < 256) l ->
  List.filter (fun a => negb (newline a)) (StdEncode l) = StdEncode l.
Proof.
  assert (Hc : forall z, 0 <= z < 64 -> newline (b64_char z) = false)
    by (intros z Hz; by apply b64_val_char).
  enough (H : forall n l, (List.length l <= n)%nat -> Forall (fun z => 0 <= z < 256) l ->
    List.filter (fun a => negb (newline a)) (StdEncode l) = StdEncode l)
    by exact (H _ l (Nat.le_refl _)).
  clear l. induction n as [|n IH]; intros l Hn Hl.
  { destruct l; [done | simpl in Hn; lia]. }
  destruct l as [|a [|b [|c l]]]; [done| | |].
  - apply Forall_cons_1 in Hl as [Ha _]. cbn [StdEncode List.filter].
    pose proof (quantum a 0 0 Ha ltac:(lia) ltac:(lia)) as (_ & R & _).
    rewrite !Z.mul_0_l, !Z.add_0_r in R. cbv zeta. by rewrite !Hc by (apply mod64 || lia).
  - apply Forall_cons_1 in Hl as [Ha Hl]. apply Forall_cons_1 in Hl as [Hb _].
    cbn [StdEncode List.filter]. pose proof (quantum a b 0 Ha Hb ltac:(lia)) as (_ & R & _).
    rewrite !Z.add_0_r in R. cbv zeta. by rewrite !Hc by (apply mod64 || lia).
  - apply Forall_cons_1 in Hl as [Ha Hl]. apply Forall_cons_1 in Hl as [Hb Hl].
    apply Forall_cons_1 in Hl as [Hcc Hl]. cbn [StdEncode List.filter].
    pose proof (quantum a b c Ha Hb Hcc) as (_ & R & _). cbv zeta.
    rewrite !Hc by (apply mod64 || lia). cbn [negb]. by rewrite IH by (done || (simpl in Hn; lia)).
Qed.

Lemma Decode_Encode s : DecodeString (EncodeToString s) = Some s.
Proof.
  unfold DecodeString, EncodeToString. rewrite String.list_ascii_of_string_of_list_ascii.
  rewrite encode_no_newline, decode_encode by apply bytes_of_range. cbn.
  by rewrite string_of_bytes_of.
Qed.

(** * Go's [encoding/base64], [RawURLEncoding]: reading

    The writer is [RawURLEncode] in GoCrypto.  The reader skips newlines, takes
    no padding, and does not check the unused bits of a last short group. *)

Definition b64url_val (a : ascii) : option Z :=
  let x := byte_of a in
  if (x =? 43) || (x =? 47) then None
  else if x =? 45 then Some 62
  else if x =? 95 then Some 63
  else b64_val a.

Fixpoint raw_quanta (s : list ascii) : option (list Z) :=
  match s with
  | [] => Some []
  | [a] => None
  | [a; b] =>
      match b64url_val a, b64url_val b with
      | Some w, Some x => Some [(w * 262144 + x * 4096) / 65536]
      | _, _ => None
      end
  | [a; b; c] =>
      match b64url_val a, b64url_val b, b64url_val c with
      | Some w, Some x, Some y =>
          let n := w * 262144 + x * 4096 + y * 64 in Some [n / 65536; n / 256 mod 256]
      | _, _, _ => None
      end
  | a :: b :: c :: d :: rest =>
      match b64url_val a, b64url_val b, b64url_val c, b64url_val d, raw_quanta rest with
      | Some w, Some x, Some y, Some z, Some l =>
          let n := w * 262144 + x * 4096 + y * 64 + z in
          Some (n / 65536 :: n / 256 mod 256 :: n mod 256 :: l)
      | _, _, _, _, _ => None
      end
  end.

(** [base64.RawURLEncoding.DecodeString] *)
Definition RawURLDecode (s : string) : option (list Z) :=
  raw_quanta (List.filter (fun a => negb (newline a)) (String.list_ascii_of_string s)).

(** ** Round trip *)

Definition url_char (a : ascii) : bool :=
  match b64url_val a with Some _ => true | None => false end.

Definition url_check (z : Z) : bool :=
  match b64url_val (b64url z) with Some y => y =? z | None => false end && visible (b64url z) &&
  negb (newline (b64url z)) && negb (byte_of (b64url z) =? 46).

Lemma b64url_range z : 0 <= z < 64 ->
  b64url_val (b64url z) = Some z /\ visible (b64url z) = true /\ newline (b64url z) = false /\ byte_of (b64url z) <> 46.
Proof.
  intros Hz. assert (Hc : forallb url_check (seqZ 0 64) = true) by (vm_compute; reflexivity).
  rewrite forallb_forall in Hc. specialize (Hc z). rewrite <- list_elem_of_In, elem_of_seqZ in Hc.
  specialize (Hc ltac:(lia)). unfold url_check in Hc. apply andb_true_iff in Hc as [[[Hv ?]%andb_true_iff Hn]%andb_true_iff Hd].
  split; [|split; [done|split; [by apply negb_true_iff in Hn | by apply negb_true_iff, Z.eqb_neq in Hd]]].
  destruct (b64url_val (b64url z)); [|done]. by apply Z.eqb_eq in Hv as ->.
Qed.

Lemma b64url_val_eq z : 0 <= z < 64 -> b64url_val (b64url z) = Some z.
Proof. intros H. by apply b64url_range. Qed.

Lemma shift_div n k : 0 <= k -> Z.shiftr n k = n / 2 ^ k.
Proof. apply Z.shiftr_div_pow2. Qed.
Lemma land63 n : Z.land n 63 = n mod 64.
Proof. apply (Z.land_ones n 6). lia. Qed.

(** The characters the writer puts out, over divisions instead of shifts. *)
Lemma encode3 a b c l : let n := a * 65536 + b * 256 + c in
  RawURLEncode (a :: b :: c :: l) =
  String (b64url (n / 262144)) (String (b64url (n / 4096 mod 64)) (String (b64url (n / 64 mod 64))
    (String (b64url (n mod 64)) (RawURLEncode l)))).
Proof.
  cbv zeta. cbn [RawURLEncode]. rewrite !Z.shiftl_mul_pow2, !shift_div, !land63 by lia.
  change (2 ^ 16) with 65536. change (2 ^ 8) with 256. change (2 ^ 18) with 262144.
  change (2 ^ 12) with 4096. by change (2 ^ 6) with 64.
Qed.

Lemma encode2 a b : let n := a * 65536 + b * 256 in
  RawURLEncode [a; b] =
  String (b64url (n / 262144)) (String (b64url (n / 4096 mod 64)) (String (b64url (n / 64 mod 64)) EmptyString)).
Proof.
  cbv zeta. cbn [RawURLEncode]. rewrite !Z.shiftl_mul_pow2, !shift_div, !land63 by lia.
  change (2 ^ 16) with 65536. change (2 ^ 8) with 256. change (2 ^ 18) with 262144.
  change (2 ^ 12) with 4096. by change (2 ^ 6) with 64.
Qed.

Lemma encode1 a : let n := a * 65536 in
  RawURLEncode [a] = String (b64url (n / 262144)) (String (b64url (n / 4096 mod 64)) EmptyString).
Proof.
  cbv zeta. cbn [RawURLEncode]. rewrite !Z.shiftl_mul_pow2, !shift_div, !land63 by lia.
  change (2 ^ 16) with 65536. change (2 ^ 18) with 262144. by change (2 ^ 12) with 4096.
Qed.

(** Induction by groups of three bytes. *)
Lemma groups_ind (P : list Z -> Prop) :
  P [] ->
  (forall a, 0 <= a < 256 -> P [a]) ->
  (forall a b, 0 <= a < 256 -> 0 <= b < 256 -> P [a; b]) ->
  (forall a b c l, 0 <= a < 256 -> 0 <= b < 256 -> 0 <= c < 256 -> Forall (fun z => 0 <= z < 256) l -> P l -> P (a :: b :: c :: l)) ->
  forall l, Forall (fun z => 0 <= z < 256) l -> P l.
Proof.
  intros H0 H1 H2 H3.
  enough (H : forall n l, (List.length l <= n)%nat -> Forall (fun z => 0 <= z < 256) l -> P l)
    by (intros l; apply (H _ l (Nat.le_refl _))).
  induction n as [|n IH]; intros l Hn Hl; [by destruct l; [|simpl in Hn; lia]|].
  destruct l as [|a [|b [|c l]]]; [done| | |]; repeat (apply Forall_cons_1 in Hl as [? Hl]); auto.
  apply H3; auto. apply IH; [simpl in Hn; lia | done].
Qed.

Lemma raw_quanta_encode l :
  Forall (fun z => 0 <= z < 256) l -> raw_quanta (String.list_ascii_of_string (RawURLEncode l)) = Some l.
Proof.
  revert l. apply groups_ind.
  - done.
  - intros a Ha. rewrite encode1. cbn [String.list_ascii_of_string raw_quanta].
    destruct (quantum a 0 0 Ha ltac:(lia) ltac:(lia)) as (Q & R & _). rewrite !Z.mul_0_l, !Z.add_0_r in *.
    rewrite !b64url_val_eq by (apply mod64 || lia). do 2 f_equal. revert Q. Z.to_euclidean_division_equations. lia.
  - intros a b Ha Hb. rewrite encode2. cbn [String.list_ascii_of_string raw_quanta].
    destruct (quantum a b 0 Ha Hb ltac:(lia)) as (Q & R & Qa & Qb & _). rewrite !Z.add_0_r in *.
    rewrite !b64url_val_eq by (apply mod64 || lia). cbv zeta.
    assert (Hz : (a * 65536 + b * 256) mod 64 = 0) by (Z.to_euclidean_division_equations; lia).
    rewrite Hz, Z.add_0_r in Q. by rewrite Q, Qa, Qb.
  - intros a b c l Ha Hb Hc _ IH. rewrite encode3. cbn [String.list_ascii_of_string raw_quanta].
    destruct (quantum a b c Ha Hb Hc) as (Q & R & Qa & Qb & Qc).
    rewrite !b64url_val_eq by (apply mod64 || lia). rewrite IH. cbv zeta. by rewrite Q, Qa, Qb, Qc.
Qed.

(** What a predicate of the alphabet says of an encoding. *)
Lemma RawURLEncode_forall (p : ascii -> bool) l :
  (forall z, 0 <= z < 64 -> p (b64url z) = true) -> Forall (fun z => 0 <= z < 256) l ->
  forall_string p (RawURLEncode l) = true.
Proof.
  intros Hp. revert l. apply groups_ind; [done| | |].
  - intros a Ha. rewrite encode1. destruct (quantum a 0 0 Ha ltac:(lia) ltac:(lia)) as (_ & R & _).
    rewrite !Z.mul_0_l, !Z.add_0_r in R. cbn [forall_string]. by rewrite !Hp by (apply mod64 || lia).
  - intros a b Ha Hb. rewrite encode2. destruct (quantum a b 0 Ha Hb ltac:(lia)) as (_ & R & _).
    rewrite !Z.add_0_r in R. cbn [forall_string]. by rewrite !Hp by (apply mod64 || lia).
  - intros a b c l Ha Hb Hc _ IH. rewrite encode3. destruct (quantum a b c Ha Hb Hc) as (_ & R & _).
    cbn [forall_string]. by rewrite !Hp, IH by (apply mod64 || lia).
Qed.

Lemma RawURLEncode_visible l : Forall (fun z => 0 <= z < 256) l -> forall_string visible (RawURLEncode l) = true.
Proof. apply RawURLEncode_forall. intros z Hz. by apply b64url_range. Qed.

Lemma RawURLEncode_length l : Forall (fun z => 0 <= z < 256) l ->
  Z.of_nat (String.length (RawURLEncode l)) = (4 * Z.of_nat (List.length l) + 2) / 3.
Proof.
  revert l. apply groups_ind.
  - done.
  - done.
  - done.
  - intros a b c l _ _ _ _ IH. rewrite encode3. cbn [String.length List.length].
    replace (4 * Z.of_nat (S (S (S (List.length l)))) + 2) with (4 * Z.of_nat (List.length l) + 2 + 4 * 3) by lia.
    rewrite Z.div_add by done. lia.
Qed.

Lemma RawURLDecode_encode l : Forall (fun z => 0 <= z < 256) l -> RawURLDecode (RawURLEncode l) = Some l.
Proof.
  intros Hl. unfold RawURLDecode.
  assert (Hn : forall_string (fun a => negb (newline a)) (RawURLEncode l) = true).
  { apply RawURLEncode_forall; [|done]. intros z Hz. apply b64url_range in Hz as (_ & _ & -> & _). done. }
  replace (List.filter _ _) with (String.list_ascii_of_string (RawURLEncode l)); [by apply raw_quanta_encode|].
  revert Hn. generalize (RawURLEncode l) as s.
  induction s as [|a s IH]; cbn [forall_string String.list_ascii_of_string List.filter]; [done|].
  intros [-> ?]%andb_true_iff. f_equal. auto.
Qed.

Example url_alphabet : RawURLDecode "-_-_ Zg" = None /\ RawURLDecode "-_-_" = Some [251; 255; 191] /\ RawURLDecode "Zm8" = Some [102; 111].
Proof. repeat split; vm_compute; reflexivity. Qed.
