(* ===== verification/GoUrl.v ===== *)
(** * Escaping for URLs (net/url)

    [url.PathEscape], [url.QueryEscape] and [Values.Encode]: every byte that
    is not unreserved becomes a percent sign and two hexadecimal digits, but
    for the few marks a path segment may hold, and the space of a query. *)

From stdpp Require Import base tactics list strings numbers.
From Stdlib Require Import ZArith Lia Ascii String.
From S2P Require Import Prelude GoStrings.

Definition unreserved (a : ascii) : bool :=
  let x := byte_of a in
  (97 <=? x) && (x <=? 122) || (65 <=? x) && (x <=? 90) || (48 <=? x) && (x <=? 57) ||
  (x =? 45) || (x =? 95) || (x =? 46) || (x =? 126).

(** [$ & + : = @] stand for themselves in a path segment. *)
Definition path_mark (a : ascii) : bool :=
  existsb (fun x => byte_of a =? x) [36; 38; 43; 58; 61; 64].

Definition upper_hex (z : Z) : ascii := ascii_of (if z <? 10 then 48 + z else 55 + z).

Definition percent (a : ascii) (rest : string) : string :=
  String "%" (String (upper_hex (byte_of a / 16)) (String (upper_hex (byte_of a mod 16)) rest)).

Fixpoint PathEscape (s : string) : string :=
  match s with
  | EmptyString => EmptyString
  | String a s' => if unreserved a || path_mark a then String a (PathEscape s') else percent a (PathEscape s')
  end.

Fixpoint QueryEscape (s : string) : string :=
  match s with
  | EmptyString => EmptyString
  | String a s' =>
      if unreserved a then String a (QueryEscape s')
      else if byte_of a =? 32 then String "+" (QueryEscape s')
      else percent a (QueryEscape s')
  end.

(** [Values.Encode] of single values, listed in the order of their keys. *)
Fixpoint encode_values (kvs : list (string * string)) : string :=
  match kvs with
  | [] => EmptyString
  | [(k, v)] => QueryEscape k +:+ "=" +:+ QueryEscape v
  | (k, v) :: rest => QueryEscape k +:+ "=" +:+ QueryEscape v +:+ "&" +:+ encode_values rest
  end.

(** ** What a reader of the query gets back *)

Definition hex_val (a : ascii) : option Z :=
  let x := byte_of a in
  if (48 <=? x) && (x <=? 57) then Some (x - 48)
  else if (65 <=? x) && (x <=? 70) then Some (x - 55)
  else if (97 <=? x) && (x <=? 102) then Some (x - 87)
  else None.

(** [url.QueryUnescape] *)
Fixpoint QueryUnescape (s : string) : option string :=
  match s with
  | EmptyString => Some EmptyString
  | String a s1 =>
      if byte_of a =? 37 then
        match s1 with
        | String x (String y s') =>
            match hex_val x, hex_val y with
            | Some h, Some l => option_map (String (ascii_of (h * 16 + l))) (QueryUnescape s')
            | _, _ => None
            end
        | _ => None
        end
      else option_map (String (if byte_of a =? 43 then " "%char else a)) (QueryUnescape s1)
  end.

(** Printing a byte and reading it back, checked on all of them. *)
Lemma query_byte a rest :
  QueryUnescape (match QueryEscape (String a EmptyString) with s => s +:+ rest end) =
  option_map (String a) (QueryUnescape rest).
Proof. destruct a as [[] [] [] [] [] [] [] []]; reflexivity. Qed.

Lemma query_cons a s : QueryEscape (String a s) = QueryEscape (String a EmptyString) +:+ QueryEscape s.
Proof. cbn [QueryEscape]. by destruct (unreserved a), (byte_of a =? 32). Qed.

Lemma QueryUnescape_Escape s : QueryUnescape (QueryEscape s) = Some s.
Proof.
  induction s as [|a s IH]; [done|]. rewrite query_cons. pose proof (query_byte a (QueryEscape s)) as Hb.
  cbv zeta in Hb. by rewrite Hb, IH.
Qed.

(** An escaped value has no separator of the query in it. *)
Lemma QueryEscape_clean s :
  forall_string (fun a => unreserved a || (byte_of a =? 37) || (byte_of a =? 43)) (QueryEscape s) = true.
Proof.
  induction s as [|a s IH]; [done|]. rewrite query_cons, forall_string_app, IH, andb_true_r.
  destruct a as [[] [] [] [] [] [] [] []]; reflexivity.
Qed.
