(* ===== verification/GoNetUrl.v ===== *)
(** * URLs (net/url)

    [url.Parse], [url.ParseRequestURI], [URL.String] and [URL.Query], as Go
    1.26 has them, with the table of what each part of a URL may hold.  The
    program asks of an error only whether there is one.

    The last sections say what a URL that was put together looks like to the
    reader who cuts it at the first [?] and [#], and that a query which was
    encoded is read back. *)

From stdpp Require Import base tactics list gmap strings numbers sorting.
From Stdlib Require Import ZArith Lia Ascii.
From S2P Require Import Prelude GoStrings GoText GoPath GoUrl.

Inductive encoding := encodePath | encodeUserPassword | encodeQueryComponent | encodeFragment | encodeHost | encodeZone.

#[export] Instance encoding_eq_dec : EqDecision encoding.
Proof. solve_decision. Defined.

Definition one_of (chars : list Z) (a : ascii) : bool := existsb (fun x => byte_of a =? x) chars.

(** [$ & + , / : ; = ? @] *)
Definition reserved (a : ascii) : bool := one_of [36; 38; 43; 44; 47; 58; 59; 61; 63; 64] a.
(** [! $ & ' ( ) * + , ; = : ] and brackets, angles and the double quote *)
Definition host_mark (a : ascii) : bool :=
  one_of [33; 36; 38; 39; 40; 41; 42; 43; 44; 59; 61; 58; 91; 93; 60; 62; 34] a.

Definition shouldEscape (a : ascii) (mode : encoding) : bool :=
  if unreserved a then false else
  match mode with
  | encodeHost | encodeZone => negb (host_mark a)
  | encodePath => negb (reserved a && negb (byte_of a =? 63))
  | encodeUserPassword => negb (reserved a && negb (one_of [64; 47; 63; 58] a))
  | encodeQueryComponent => true
  | encodeFragment => negb (reserved a || one_of [33; 40; 41; 42] a)
  end.

(** What a percent triplet may stand for. *)
Definition triplet_ok (mode : encoding) (h l : Z) : bool :=
  match mode with
  | encodeHost => (8 <=? h) || (h * 16 + l =? 37)
  | encodeZone => (h * 16 + l =? 37) || (h * 16 + l =? 32) || negb (shouldEscape (ascii_of (h * 16 + l)) encodeHost)
  | _ => true
  end.

Definition plain_ok (mode : encoding) (a : ascii) : bool :=
  match mode with encodeHost | encodeZone => (128 <=? byte_of a) || negb (shouldEscape a mode) | _ => true end.

Fixpoint unescape (mode : encoding) (s : string) : option string :=
  match s with
  | EmptyString => Some EmptyString
  | String a s1 =>
      if byte_of a =? 37 then
        match s1 with
        | String x (String y s') =>
            match hex_val x, hex_val y with
            | Some h, Some l => if triplet_ok mode h l then option_map (String (ascii_of (h * 16 + l))) (unescape mode s') else None
            | _, _ => None
            end
        | _ => None
        end
      else if plain_ok mode a
           then option_map (String (if (byte_of a =? 43) && bool_decide (mode = encodeQueryComponent) then " "%char else a)) (unescape mode s1)
           else None
  end.

Fixpoint escape (mode : encoding) (s : string) : string :=
  match s with
  | EmptyString => EmptyString
  | String a s' =>
      if shouldEscape a mode
      then if (byte_of a =? 32) && bool_decide (mode = encodeQueryComponent) then String "+" (escape mode s') else percent a (escape mode s')
      else String a (escape mode s')
  end.

(** Of an encoding that is only a hint. *)
Definition validEncoded (s : string) (mode : encoding) : bool :=
  forall_string (fun a => one_of [33; 36; 38; 39; 40; 41; 42; 43; 44; 59; 61; 58; 64; 91; 93; 37] a || negb (shouldEscape a mode)) s.

(** ** The parts *)

(** [pw] is [None] when no password was set. *)
Record Userinfo := mkUserinfo { ui_username : string; ui_password : option string }.

Record URL := mkURL {
  Scheme : string;
  Opaque : string;
  User : option Userinfo;
  Host : string;
  Path : string;
  RawPath : string;
  OmitHost : bool;
  ForceQuery : bool;
  RawQuery : string;
  Fragment : string;
  RawFragment : string;
}.

Definition is_alpha (a : ascii) : bool := let x := byte_of a in (97 <=? x) && (x <=? 122) || (65 <=? x) && (x <=? 90).
Definition is_digit (a : ascii) : bool := let x := byte_of a in (48 <=? x) && (x <=? 57).

(** [None]: no scheme before the colon. *)
Fixpoint scheme_from (first : bool) (word : string) (s : string) : option (option (string * string)) :=
  match s with
  | EmptyString => Some None
  | String a s' =>
      if is_alpha a then scheme_from false (String a word) s'
      else if is_digit a || one_of [43; 45; 46] a then if first then Some None else scheme_from false (String a word) s'
      else if byte_of a =? 58 then if first then None else Some (Some (string_rev word, s'))
      else Some None
  end.

(** The scheme, empty when there is none, and the rest. *)
Definition getScheme (rawURL : string) : option (string * string) :=
  option_map (default (EmptyString, rawURL)) (scheme_from true EmptyString rawURL).

(** *** IPv6 literals (net/netip) *)

Definition hex_digit (a : ascii) : bool := match hex_val a with Some _ => true | None => false end.

Fixpoint span (p : ascii -> bool) (s : string) : string * string :=
  match s with
  | String a s' => if p a then let '(x, y) := span p s' in (String a x, y) else (EmptyString, s)
  | EmptyString => (EmptyString, EmptyString)
  end.

(** One decimal field of an IPv4 address. *)
Definition ipv4_field (s : string) : bool :=
  negb (String.eqb s "") && forall_string is_digit s && (String.length s <=? 3)%nat &&
  (String.eqb s "0" || negb (HasPrefix s "0")) &&
  (fold_left (fun n a => n * 10 + (byte_of a - 48)) (String.list_ascii_of_string s) 0 <=? 255).

Definition ipv4_fields (s : string) : bool :=
  let l := split_at "." s in (length l =? 4)%nat && forallb ipv4_field l.

(** The loop over the fields: [i] bytes are filled, [ellipsis] tells whether
    [::] was seen.  Eight fields fill the address. *)
Fixpoint ipv6_fields (fuel : nat) (i : Z) (ellipsis : bool) (s : string) : bool :=
  let finish i ellipsis := if i <? 16 then ellipsis else negb ellipsis in
  match fuel with
  | O => String.eqb s "" && finish i ellipsis
  | S fuel' =>
      let '(digits, rest) := span hex_digit s in
      if String.eqb digits "" || (4 <? String.length digits)%nat then false else
      if HasPrefix rest "." then
        (ellipsis || (i =? 12)) && (i + 4 <=? 16) && ipv4_fields s && finish (i + 4) ellipsis
      else
        let i := i + 2 in
        match rest with
        | EmptyString => finish i ellipsis
        | String c rest =>
            if negb (Ascii.eqb c ":") then false else
            match rest with
            | EmptyString => false
            | String d rest' =>
                if Ascii.eqb d ":"
                then if ellipsis then false
                     else if String.eqb rest' "" then finish i true else ipv6_fields fuel' i true rest'
                else ipv6_fields fuel' i ellipsis rest
            end
        end
  end.

(** Whether [netip.ParseAddr] reads an IPv6 address. *)
Definition ipv6_address (hostname : string) : bool :=
  let '(s, zone_ok) := match cut_at "%" hostname with Some (s, zone) => (s, negb (String.eqb zone "")) | None => (hostname, true) end in
  zone_ok && contains_ascii ":" s &&
  (if HasPrefix s "::" then let s := TrimPrefix s "::" in String.eqb s "" || ipv6_fields 8 0 true s
   else ipv6_fields 8 0 false s).

(** *** The host *)

Definition validOptionalPort (port : string) : bool :=
  match port with EmptyString => true | String c digits => Ascii.eqb c ":" && forall_string is_digit digits end.

(** [strings.Cut(s, "%25")], the separator kept with the rest. *)
Fixpoint cut_zone (s : string) : option (string * string) :=
  if HasPrefix s "%25" then Some (EmptyString, s) else
  match s with
  | EmptyString => None
  | String a s' => match cut_zone s' with Some (p, q) => Some (String a p, q) | None => None end
  end.

Definition unescape_hostname (hostname : string) : option string :=
  match cut_zone hostname with
  | Some (host, zone) =>
      match unescape encodeHost host, unescape encodeZone zone with Some h, Some z => Some (h +:+ z) | _, _ => None end
  | None => unescape encodeHost hostname
  end.

(** Several colons are refused in the host of http and https only. *)
Definition port_cut (scheme : string) : string -> option (string * string) :=
  if String.eqb scheme "http" || String.eqb scheme "https" then cut_at ":" else cut_last ":".

Definition parseHost (scheme host : string) : option string :=
  match cut_at "[" host with
  | Some (EmptyString, inner) =>
      if contains_ascii "[" inner then None else
      match cut_last "]" inner with
      | None => None
      | Some (hostname, colonPort) =>
          if negb (validOptionalPort colonPort) then None else
          match unescape_hostname hostname with
          | Some h => if ipv6_address h then Some ("[" +:+ h +:+ "]" +:+ colonPort) else None
          | None => None
          end
      end
  | Some _ => None
  | None =>
      match port_cut scheme host with
      | Some (_, port) => if forall_string is_digit port then unescape encodeHost host else None
      | None => unescape encodeHost host
      end
  end.

Definition validUserinfo (s : string) : bool :=
  forall_string (fun a => unreserved a || one_of [58; 33; 36; 38; 39; 40; 41; 42; 43; 44; 59; 61; 37; 64] a) s.

Definition parse_user (userinfo : string) : option Userinfo :=
  if negb (validUserinfo userinfo) then None else
  match cut_at ":" userinfo with
  | None => option_map (fun u => mkUserinfo u None) (unescape encodeUserPassword userinfo)
  | Some (username, password) =>
      match unescape encodeUserPassword username, unescape encodeUserPassword password with
      | Some u, Some p => Some (mkUserinfo u (Some p))
      | _, _ => None
      end
  end.

Definition parseAuthority (scheme authority : string) : option (option Userinfo * string) :=
  match cut_last "@" authority with
  | None => option_map (fun h => (None, h)) (parseHost scheme authority)
  | Some (userinfo, host) =>
      match parseHost scheme host, parse_user userinfo with Some h, Some u => Some (Some u, h) | _, _ => None end
  end.

(** ** Parsing *)

Definition is_ctl (a : ascii) : bool := (byte_of a <? 32) || (byte_of a =? 127).

(** [setPath]: the path and the hint of its encoding. *)
Definition set_encoded (mode : encoding) (p : string) : option (string * string) :=
  option_map (fun path => (path, if String.eqb p (escape mode path) then EmptyString else p)) (unescape mode p).

(** The query is cut off first. *)
Definition cut_query (rest : string) : string * string * bool :=
  match cut_at "?" rest with
  | None => (rest, EmptyString, false)
  | Some (p, q) => (p, q, String.eqb q "")
  end.

(** The authority, when there is one, and the rest. *)
Definition cut_authority (viaRequest : bool) (scheme rest : string) : option (option Userinfo * string * string * bool) :=
  if (negb (String.eqb scheme "") || negb viaRequest && negb (HasPrefix rest "///")) && HasPrefix rest "//" then
    let authority := TrimPrefix rest "//" in
    let '(authority, rest) := match cut_at "/" authority with Some (a, r) => (a, "/" +:+ r) | None => (authority, EmptyString) end in
    option_map (fun uh => (uh.1, uh.2, rest, false)) (parseAuthority scheme authority)
  else Some (None, EmptyString, rest, negb (String.eqb scheme "") && HasPrefix rest "/").

Definition segment_colon (path : string) : bool :=
  contains_ascii ":" (match cut_at "/" path with Some (p, _) => p | None => path end).

Definition parse (rawURL : string) (viaRequest : bool) : option URL :=
  if negb (forall_string (fun a => negb (is_ctl a)) rawURL) then None else
  if String.eqb rawURL "" && viaRequest then None else
  if String.eqb rawURL "*" then Some (mkURL "" "" None "" "*" "" false false "" "" "") else
  match getScheme rawURL with
  | None => None
  | Some (scheme, rest) =>
      let scheme := ToLower scheme in
      let '(rest, query, forced) := cut_query rest in
      if negb (HasPrefix rest "/") && negb (String.eqb scheme "") then Some (mkURL scheme rest None "" "" "" false forced query "" "") else
      if negb (HasPrefix rest "/") && (viaRequest || segment_colon rest) then None else
      match cut_authority viaRequest scheme rest with
      | None => None
      | Some (user, host, rest, omit) =>
          option_map (fun pr => mkURL scheme "" user host pr.1 pr.2 omit forced query "" "") (set_encoded encodePath rest)
      end
  end.

Definition with_fragment (u : URL) (f : string * string) : URL :=
  mkURL (Scheme u) (Opaque u) (User u) (Host u) (Path u) (RawPath u) (OmitHost u) (ForceQuery u) (RawQuery u) f.1 f.2.

(** [url.Parse], [url.ParseRequestURI] *)
Definition Parse (rawURL : string) : option URL :=
  match cut_at "#" rawURL with
  | None => parse rawURL false
  | Some (raw, frag) =>
      match parse raw false with
      | None => None
      | Some u => if String.eqb frag "" then Some u else option_map (with_fragment u) (set_encoded encodeFragment frag)
      end
  end.

Definition ParseRequestURI (rawURL : string) : option URL := parse rawURL true.

(** ** Printing *)

(** [EscapedPath], [EscapedFragment] *)
Definition escaped (mode : encoding) (raw decoded : string) : string :=
  if negb (String.eqb raw "") && validEncoded raw mode && bool_decide (unescape mode raw = Some decoded) then raw
  else escape mode decoded.

Definition EscapedPath (u : URL) : string :=
  if negb (String.eqb (RawPath u) "") && validEncoded (RawPath u) encodePath && bool_decide (unescape encodePath (RawPath u) = Some (Path u))
  then RawPath u else if String.eqb (Path u) "*" then "*" else escape encodePath (Path u).

Definition EscapedFragment (u : URL) : string := escaped encodeFragment (RawFragment u) (Fragment u).

Definition user_String (u : Userinfo) : string :=
  if String.eqb (ui_username u) "" && bool_decide (default "" (ui_password u) = "") then "" else
  escape encodeUserPassword (ui_username u) +:+
  match ui_password u with None => "" | Some p => ":" +:+ escape encodeUserPassword p end.

Definition authority_String (u : URL) : string :=
  if String.eqb (Scheme u) "" && String.eqb (Host u) "" && bool_decide (User u = None) then "" else
  if OmitHost u && String.eqb (Host u) "" && bool_decide (User u = None) then "" else
  (if negb (String.eqb (Host u) "") || negb (String.eqb (Path u) "") || bool_decide (is_Some (User u)) then "//" else "") +:+
  (match User u with Some ui => user_String ui +:+ "@" | None => "" end) +:+ escape encodeHost (Host u).

Definition hierarchy_String (scheme : string) (u : URL) : string :=
  let front := scheme +:+ authority_String u in
  let path := EscapedPath u in
  let front := if negb (String.eqb path "") && negb (HasPrefix path "/") && negb (String.eqb (Host u) "") then front +:+ "/" else front in
  (if String.eqb front "" && segment_colon path then "./" else front) +:+ path.

(** What stands before the query. *)
Definition front_String (u : URL) : string :=
  let scheme := if String.eqb (Scheme u) "" then "" else Scheme u +:+ ":" in
  if String.eqb (Opaque u) "" then hierarchy_String scheme u else scheme +:+ Opaque u.

(** [URL.String] *)
Definition URL_String (u : URL) : string :=
  front_String u +:+
  (if ForceQuery u || negb (String.eqb (RawQuery u) "") then "?" +:+ RawQuery u else "") +:+
  (if String.eqb (Fragment u) "" then "" else "#" +:+ EscapedFragment u).

(** ** The query *)

(** [url.Values]; a key that is absent has no values. *)
Abbreviation values := (gmap string (list string)).

Definition add_value (m : values) (kv : string * string) : values := <[kv.1 := default [] (m !! kv.1) ++ [kv.2]]> m.

(** [key=value] of the query, [None] when it is skipped. *)
Definition query_pair (part : string) : option (string * string) :=
  if contains_ascii ";" part || String.eqb part "" then None else
  let '(key, value) := match cut_at "=" part with Some kv => kv | None => (part, EmptyString) end in
  match QueryUnescape key, QueryUnescape value with Some k, Some v => Some (k, v) | _, _ => None end.

(** The default of GODEBUG's urlmaxqueryparams. *)
Definition max_query_params : Z := 10000.

(** [URL.Query]: what [ParseQuery] could read. *)
Definition ParseQuery (query : string) : values :=
  let parts := split_at "&" query in
  if max_query_params <? Z.of_nat (length parts) then ∅ else fold_left add_value (omap query_pair parts) ∅.

Definition Query (u : URL) : values := ParseQuery (RawQuery u).

Definition Values_Get (m : values) (key : string) : string := default "" (m !! key ≫= head).
Definition Values_Set (key value : string) (m : values) : values := <[key := [value]]> m.

(** [Values.Encode]: the keys in order. *)
Definition sorted_keys (m : values) : list string := sort_Strings (List.map fst (map_to_list m)).

Definition pairs_of (m : values) : list (string * string) :=
  List.concat (List.map (fun k => List.map (fun v => (k, v)) (default [] (m !! k))) (sorted_keys m)).

Definition Encode (m : values) : string := encode_values (pairs_of m).

Definition with_query (u : URL) (query : string) : URL :=
  mkURL (Scheme u) (Opaque u) (User u) (Host u) (Path u) (RawPath u) (OmitHost u) (ForceQuery u) query (Fragment u) (RawFragment u).

(** ** What a URL looks like when it is printed *)

Definition allowed (mode : encoding) (a : ascii) : bool := (byte_of a =? 37) || negb (shouldEscape a mode).

Lemma upper_hex_unreserved z : 0 <= z < 16 -> unreserved (upper_hex z) = true.
Proof.
  intros Hz. assert (Hin : In z (List.map Z.of_nat (seq 0 16))).
  { apply in_map_iff. exists (Z.to_nat z). rewrite in_seq. lia. }
  assert (Hall : forallb (fun z => unreserved (upper_hex z)) (List.map Z.of_nat (seq 0 16)) = true) by done.
  rewrite forallb_forall in Hall. by apply Hall.
Qed.

Lemma allowed_unreserved mode a : unreserved a = true -> allowed mode a = true.
Proof. unfold allowed, shouldEscape. intros ->. apply orb_true_r. Qed.

Lemma escape_allowed mode s : mode <> encodeQueryComponent -> forall_string (allowed mode) (escape mode s) = true.
Proof.
  intros Hm. induction s as [|a s IH]; [done|]. cbn [escape]. rewrite (bool_decide_eq_false_2 _ Hm), andb_false_r.
  destruct (shouldEscape a mode) eqn:Ea; cbn [forall_string percent].
  - pose proof (byte_of_range a). rewrite IH, andb_true_r. cbn [allowed]. unfold allowed at 1. cbn [orb andb].
    rewrite !allowed_unreserved; [done | apply upper_hex_unreserved..].
    + apply Z.mod_pos_bound. lia.
    + split; [apply Z.div_pos; lia | apply Z.div_lt_upper_bound; lia].
  - rewrite IH, andb_true_r. unfold allowed. rewrite Ea. apply orb_true_r.
Qed.

(** A character that ends no part of a URL. *)
Definition inner (a : ascii) : bool := negb (one_of [63; 35] a).

Lemma allowed_inner mode a : mode <> encodeFragment -> allowed mode a = true -> inner a = true.
Proof. destruct mode; intros ?; try done; destruct a as [[] [] [] [] [] [] [] []]; (done || discriminate). Qed.

Lemma EscapedPath_inner u : forall_string inner (EscapedPath u) = true.
Proof.
  unfold EscapedPath. destruct (negb _ && validEncoded _ _ && _) eqn:E.
  - apply andb_true_iff in E as [E _]. apply andb_true_iff in E as [_ E]. revert E. apply forall_string_impl.
    intros a. destruct a as [[] [] [] [] [] [] [] []]; (done || discriminate).
  - case_match; [done|]. eapply forall_string_impl, escape_allowed; [|done]. intros a. by apply allowed_inner.
Qed.

Lemma user_inner ui : forall_string inner (user_String ui) = true.
Proof.
  assert (Hu : forall s, forall_string inner (escape encodeUserPassword s) = true).
  { intros s. eapply forall_string_impl, escape_allowed; [|done]. intros a. by apply allowed_inner. }
  unfold user_String. case_match; [done|]. rewrite forall_string_app, Hu. destruct (ui_password ui); [|done].
  by rewrite forall_string_app, Hu.
Qed.

Lemma authority_inner u : forall_string inner (authority_String u) = true.
Proof.
  assert (Hh : forall_string inner (escape encodeHost (Host u)) = true).
  { eapply forall_string_impl, escape_allowed; [|done]. intros a. by apply allowed_inner. }
  unfold authority_String. do 2 (case_match; [done|]). rewrite !forall_string_app, Hh, andb_true_r, andb_true_iff. split.
  - by case_match.
  - destruct (User u); [|done]. by rewrite forall_string_app, user_inner.
Qed.

(** What [Parse] promises of the parts that are printed as they are. *)
Definition clean_parts (u : URL) : Prop := forall_string inner (Scheme u) = true /\ forall_string inner (Opaque u) = true.

Lemma front_inner u : clean_parts u -> forall_string inner (front_String u) = true.
Proof.
  intros [Hs Ho]. unfold front_String. set (scheme := if String.eqb (Scheme u) "" then "" else Scheme u +:+ ":").
  assert (Hsc : forall_string inner scheme = true) by (unfold scheme; case_match; [done|]; by rewrite forall_string_app, Hs).
  case_match; [|by rewrite forall_string_app, Hsc, Ho].
  unfold hierarchy_String. rewrite forall_string_app, EscapedPath_inner, andb_true_r.
  assert (Hf : forall_string inner (scheme +:+ authority_String u) = true) by by rewrite forall_string_app, Hsc, authority_inner.
  case_match; [done|]. case_match; [by rewrite forall_string_app, Hf | done].
Qed.

Lemma scheme_inner raw scheme rest : getScheme raw = Some (scheme, rest) ->
  forall_string (fun a => is_alpha a || is_digit a || one_of [43; 45; 46] a) scheme = true /\
  (scheme = "" /\ rest = raw \/ exists p, raw = p +:+ rest).
Proof.
  set (ok := fun a => is_alpha a || is_digit a || one_of [43; 45; 46] a).
  assert (Hgen : forall s first word o, forall_string ok word = true -> scheme_from first word s = Some o ->
    match o with None => True | Some (sch, r) => forall_string ok sch = true /\ exists p, s = p +:+ r end).
  { induction s as [|a s IH]; intros first word o Hw; cbn [scheme_from]; [by intros [= <-]|].
    assert (Hcons : ok a = true -> forall_string ok (String a word) = true) by (intros Ha; cbn [forall_string]; by rewrite Ha, Hw).
    assert (Hstep : forall r, (exists p, s = p +:+ r) -> exists p, String a s = p +:+ r) by (intros r [p ->]; by exists (String a p)).
    destruct (is_alpha a) eqn:Ea.
    { intros Hx. apply IH in Hx; [|apply Hcons; unfold ok; by rewrite Ea]. destruct o as [[sch r]|]; [|done]. destruct Hx as [? ?]. auto. }
    destruct (is_digit a || one_of [43; 45; 46] a) eqn:Ed.
    { destruct first; [by intros [= <-]|]. intros Hx. apply IH in Hx; [|apply Hcons; unfold ok; by rewrite <- orb_assoc, Ed, orb_true_r].
      destruct o as [[sch r]|]; [|done]. destruct Hx as [? ?]. auto. }
    destruct (byte_of a =? 58); [|by intros [= <-]]. destruct first; [done|]. intros [= <-].
    rewrite forall_string_rev. split; [done|]. by exists (String a ""). }
  unfold getScheme. destruct (scheme_from true "" raw) as [o|] eqn:E; [|done]. apply Hgen in E; [|done].
  destruct o as [[sch r]|]; intros [= <- <-]; [|by split; [|left]]. destruct E as [? ?]. auto.
Qed.

Lemma lowered_scheme s : forall_string (fun a => is_alpha a || is_digit a || one_of [43; 45; 46] a) s = true ->
  forall_string inner (ToLower s) = true.
Proof.
  apply ToLower_forall. intros a. split; [|revert H]; destruct a as [[] [] [] [] [] [] [] []]; (done || discriminate).
Qed.

Lemma inner_split s : forall_string (fun c => negb (Ascii.eqb c "#")) s = true ->
  forall_string (fun c => negb (Ascii.eqb c "?")) s = true -> forall_string inner s = true.
Proof.
  induction s as [|a s IH]; [done|]. cbn [forall_string]. intros [H1 H2]%andb_true_iff [H3 H4]%andb_true_iff. rewrite IH by done.
  rewrite andb_true_r. clear -H1 H3. revert H1 H3. destruct a as [[] [] [] [] [] [] [] []]; (done || discriminate).
Qed.

Lemma cut_query_inv rest p q forced : cut_query rest = (p, q, forced) ->
  forall_string (fun c => negb (Ascii.eqb c "?")) p = true /\ exists t, rest = p +:+ t.
Proof.
  unfold cut_query. destruct (cut_at "?" rest) as [[x y]|] eqn:E; intros [= <- <- <-].
  - apply cut_at_Some in E as [-> H]. split; [done|]. by exists (String "?" y).
  - apply cut_at_None in E. split; [done|]. exists "". by rewrite string_app_nil_r.
Qed.

(** The parts of a URL that was read from a text without [#]. *)
Lemma parse_clean raw via u : forall_string (fun c => negb (Ascii.eqb c "#")) raw = true -> parse raw via = Some u -> clean_parts u.
Proof.
  intros Hraw. unfold parse. do 2 (case_match; [done|]). case_match; [by intros [= <-]|].
  destruct (getScheme raw) as [[scheme rest]|] eqn:Es; [|done]. cbv zeta. apply scheme_inner in Es as [Hs%lowered_scheme Hrest].
  destruct (cut_query rest) as [[p q] forced] eqn:Eq. apply cut_query_inv in Eq as [Hq [t Ht]].
  assert (Hp : forall_string inner p = true).
  { apply inner_split; [|done]. assert (Hr : forall_string (fun c => negb (Ascii.eqb c "#")) rest = true).
    { destruct Hrest as [[_ ->]|[p0 ->]]; [done|]. rewrite forall_string_app, andb_true_iff in Hraw. apply Hraw. }
    rewrite Ht, forall_string_app, andb_true_iff in Hr. apply Hr. }
  case_match; [intros [= <-]; by split|]. case_match; [done|].
  destruct (cut_authority _ _ _) as [[[[user host] path] omit]|]; [|done].
  destruct (set_encoded _ _) as [[]|]; [|done]. intros [= <-]. by split.
Qed.

Lemma Parse_clean raw u : Parse raw = Some u -> clean_parts u.
Proof.
  unfold Parse. destruct (cut_at "#" raw) as [[r f]|] eqn:E.
  - apply cut_at_Some in E as [_ Hr]. destruct (parse r false) as [u0|] eqn:Ep; [|done]. apply parse_clean in Ep; [|done].
    case_match; [by intros [= <-]|]. destruct (set_encoded _ _) as [fr|]; [|done]. by intros [= <-].
  - apply cut_at_None in E. by apply parse_clean.
Qed.

(** ** A query that was encoded is read back *)

Definition pair_text (kv : string * string) : string := QueryEscape kv.1 +:+ "=" +:+ QueryEscape kv.2.

Lemma QueryEscape_no (x : ascii) s : unreserved x || (byte_of x =? 37) || (byte_of x =? 43) = false ->
  forall_string (fun c => negb (Ascii.eqb c x)) (QueryEscape s) = true.
Proof.
  intros Hx. eapply forall_string_impl, QueryEscape_clean. intros a Ha. apply negb_true_iff, Ascii.eqb_neq. intros ->. cbv beta in Ha. congruence.
Qed.

Lemma pair_no (x : ascii) kv : unreserved x || (byte_of x =? 37) || (byte_of x =? 43) = false -> Ascii.eqb "=" x = false ->
  forall_string (fun c => negb (Ascii.eqb c x)) (pair_text kv) = true.
Proof.
  intros Hx He. unfold pair_text. rewrite !forall_string_app, !QueryEscape_no by done. cbn [forall_string]. by rewrite He.
Qed.

Lemma query_pair_text kv : query_pair (pair_text kv) = Some kv.
Proof.
  unfold query_pair. assert (Hs : contains_ascii ";" (pair_text kv) = false).
  { unfold contains_ascii. by rewrite (proj2 (cut_at_None _ _) (pair_no ";" kv eq_refl eq_refl)). }
  assert (He : String.eqb (pair_text kv) "" = false) by (unfold pair_text; by destruct (QueryEscape kv.1)).
  rewrite Hs, He. cbn [orb]. assert (Hc : cut_at "=" (pair_text kv) = Some (QueryEscape kv.1, QueryEscape kv.2)).
  { unfold pair_text. change ("=" +:+ ?s) with (String "=" s). apply cut_at_app. by apply QueryEscape_no. }
  rewrite Hc, !QueryUnescape_Escape. by destruct kv.
Qed.

Lemma encode_values_cons kv kvs : encode_values (kv :: kvs) = pair_text kv +:+ match kvs with [] => "" | _ => "&" +:+ encode_values kvs end.
Proof. destruct kv as [k v]. unfold pair_text. destruct kvs; cbn [encode_values fst snd]; by rewrite <- ?string_app_assoc, ?string_app_nil_r. Qed.

Lemma split_encoded kvs : kvs <> [] -> split_at "&" (encode_values kvs) = List.map pair_text kvs.
Proof.
  induction kvs as [|kv kvs IH]; [done|]. intros _. rewrite encode_values_cons. destruct kvs as [|kv' kvs].
  - rewrite string_app_nil_r. by rewrite split_at_none by by apply pair_no.
  - change ("&" +:+ ?s) with (String "&" s). rewrite split_at_cut by by apply pair_no. by rewrite IH.
Qed.

Definition values_of (k : string) (l : list (string * string)) : list string :=
  List.map snd (List.filter (fun kv => String.eqb kv.1 k) l).

Lemma fold_values l m k :
  fold_left add_value l m !! k = match values_of k l with [] => m !! k | vs => Some (default [] (m !! k) ++ vs) end.
Proof.
  revert m. induction l as [|[k' v] l IH]; intros m; [done|]. cbn [fold_left]. rewrite IH. unfold values_of, add_value. cbn [List.filter fst snd].
  destruct (String.eqb_spec k' k) as [->|Hne].
  - rewrite lookup_insert_eq. cbn [List.map]. fold (values_of k l). destruct (values_of k l); [done|]. cbn. by rewrite <- app_assoc.
  - by rewrite lookup_insert_ne.
Qed.

Lemma values_of_groups (f : string -> list string) k ks : NoDup ks ->
  values_of k (List.concat (List.map (fun k => List.map (fun v => (k, v)) (f k)) ks)) = if bool_decide (k ∈ ks) then f k else [].
Proof.
  assert (Hone : forall k', values_of k (List.map (fun v => (k', v)) (f k')) = if String.eqb k' k then f k else []).
  { intros k'. unfold values_of. destruct (String.eqb_spec k' k) as [->|Hne].
    - induction (f k) as [|v l IH]; [done|]. cbn. rewrite String.eqb_refl. cbn. by rewrite IH.
    - induction (f k') as [|v l IH]; [done|]. cbn. by rewrite (proj2 (String.eqb_neq _ _) Hne). }
  intros Hnd. induction Hnd as [|k' ks Hin Hnd IH]; [done|]. cbn [List.map List.concat].
  unfold values_of in *. rewrite List.filter_app, List.map_app, Hone, IH. destruct (String.eqb_spec k' k) as [->|Hne].
  - rewrite bool_decide_eq_false_2 by done. rewrite bool_decide_eq_true_2 by left. apply app_nil_r.
  - cbn. replace (bool_decide (k ∈ k' :: ks)) with (bool_decide (k ∈ ks)); [done|]. apply bool_decide_ext. rewrite elem_of_cons. naive_solver.
Qed.

Lemma sorted_keys_elem m k : NoDup (sorted_keys m) /\ (k ∈ sorted_keys m <-> is_Some (m !! k)).
Proof.
  unfold sorted_keys, sort_Strings. rewrite merge_sort_Permutation. change (List.map fst ?l) with (l.*1). split; [apply NoDup_fst_map_to_list|].
  rewrite list_elem_of_fmap. split.
  - intros ([k' v] & -> & Hin). apply elem_of_map_to_list in Hin. by exists v.
  - intros [v Hv]. exists (k, v). split; [done|]. by apply elem_of_map_to_list.
Qed.

(** No key with an empty list, as in every query that was read. *)
Definition inhabited_values (m : values) : Prop := map_Forall (fun _ l => l <> []) m.

Lemma regroup m : inhabited_values m -> fold_left add_value (pairs_of m) ∅ = m.
Proof.
  intros Hm. apply map_eq. intros k. rewrite fold_values, lookup_empty. unfold pairs_of.
  destruct (sorted_keys_elem m k) as [Hnd Hk]. rewrite (values_of_groups (fun k => default [] (m !! k))) by done.
  destruct (m !! k) as [l|] eqn:E.
  - rewrite bool_decide_eq_true_2 by (apply Hk; by eexists). cbn. pose proof (Hm k l E). by destruct l.
  - rewrite bool_decide_eq_false_2; [done|]. rewrite Hk. by intros [? [=]].
Qed.

Lemma inhabited_fold l m : inhabited_values m -> inhabited_values (fold_left add_value l m).
Proof.
  revert m. induction l as [|kv l IH]; intros m Hm; [done|]. apply IH. apply map_Forall_insert_2; [|done]. by destruct (default [] _).
Qed.

Lemma inhabited_query q : inhabited_values (ParseQuery q).
Proof. unfold ParseQuery. case_match; [done|]. by apply inhabited_fold. Qed.

Lemma inhabited_Set k v m : inhabited_values m -> inhabited_values (Values_Set k v m).
Proof. intros Hm. by apply map_Forall_insert_2. Qed.

Lemma ParseQuery_Encode m : inhabited_values m -> Z.of_nat (length (pairs_of m)) <= max_query_params -> ParseQuery (Encode m) = m.
Proof.
  intros Hm Hlen. unfold ParseQuery, Encode. pose proof (regroup m Hm) as Hr. destruct (pairs_of m) as [|kv kvs] eqn:Ep.
  { cbn. exact Hr. }
  rewrite split_encoded by done. rewrite List.length_map, (proj2 (Z.ltb_ge _ _) Hlen).
  assert (Ho : omap query_pair (List.map pair_text (kv :: kvs)) = kv :: kvs).
  { clear. generalize (kv :: kvs). intros l. induction l as [|x l IH]; [done|]. cbn [List.map]. 
    change (omap query_pair (pair_text x :: ?t)) with (match query_pair (pair_text x) with Some y => y :: omap query_pair t | None => omap query_pair t end).
    by rewrite query_pair_text, IH. }
  by rewrite Ho.
Qed.

(** ** What the receiver of a redirect sees *)

(** Up to the fragment; its query; and what is before the query. *)
Definition without_fragment (uri : string) : string := match cut_at "#" uri with Some (p, _) => p | None => uri end.
Definition request_query (uri : string) : string := match cut_at "?" (without_fragment uri) with Some (_, q) => q | None => EmptyString end.
Definition request_base (uri : string) : string :=
  match cut_at "?" (without_fragment uri) with Some (p, _) => p | None => without_fragment uri end.

Lemma inner_no s x : forall_string inner s = true -> inner x = false -> forall_string (fun c => negb (Ascii.eqb c x)) s = true.
Proof. intros Hs Hx. eapply forall_string_impl, Hs. intros a Ha. apply negb_true_iff, Ascii.eqb_neq. intros ->. congruence. Qed.

Lemma read_printed base q frag : forall_string inner base = true ->
  forall_string (fun c => negb (Ascii.eqb c "#")) q = true ->
  (frag = "" \/ exists f, frag = String "#" f) ->
  request_query (base +:+ "?" +:+ q +:+ frag) = q /\ request_base (base +:+ "?" +:+ q +:+ frag) = base.
Proof.
  intros Hb Hq Hf. assert (Hw : without_fragment (base +:+ "?" +:+ q +:+ frag) = base +:+ String "?" q).
  { assert (Hn : forall_string (fun c => negb (Ascii.eqb c "#")) (base +:+ String "?" q) = true).
    { rewrite forall_string_app. cbn. by rewrite Hq, inner_no. }
    unfold without_fragment. change ("?" +:+ ?s) with (String "?" s). change (String "?" (q +:+ frag)) with (String "?" q +:+ frag).
    rewrite string_app_assoc. destruct Hf as [->|[f ->]].
    - rewrite string_app_nil_r. by rewrite (proj2 (cut_at_None _ _) Hn).
    - by rewrite cut_at_app. }
  unfold request_query, request_base. rewrite Hw, cut_at_app by by apply inner_no. done.
Qed.

Lemma fragment_text u : (if String.eqb (Fragment u) "" then "" else "#" +:+ EscapedFragment u) = "" \/
  exists g, (if String.eqb (Fragment u) "" then "" else "#" +:+ EscapedFragment u) = String "#" g.
Proof. case_match; [by left | by right; eexists]. Qed.

Lemma Encode_no_hash m : forall_string (fun c => negb (Ascii.eqb c "#")) (Encode m) = true.
Proof.
  unfold Encode. induction (pairs_of m) as [|kv kvs IH]; [done|]. rewrite encode_values_cons, forall_string_app, pair_no by done.
  destruct kvs; [done|]. by rewrite forall_string_app, IH.
Qed.

Lemma Encode_nonempty m k l : m !! k = Some l -> l <> [] -> Encode m <> "".
Proof.
  intros Hk Hl. unfold Encode. assert (Hp : pairs_of m <> []).
  { intros Hp. assert (Hin : (k, hd "" l) ∈ pairs_of m); [|rewrite Hp in Hin; by apply elem_of_nil in Hin].
    unfold pairs_of. rewrite list_elem_of_In, in_concat. exists (List.map (fun v => (k, v)) l). rewrite !in_map_iff. split.
    - exists k. rewrite Hk. split; [done|]. apply list_elem_of_In, sorted_keys_elem. by eexists.
    - exists (hd "" l). split; [done|]. destruct l; [done | by left]. }
  destruct (pairs_of m) as [|kv kvs]; [done|]. rewrite encode_values_cons. unfold pair_text.
  intros Hx. by destruct (QueryEscape kv.1).
Qed.

(** A URL whose query is replaced by values of which one is there: the
    receiver reads exactly these values, at the address of the URL. *)
Lemma replaced_query raw u m k l : Parse raw = Some u -> m !! k = Some l -> l <> [] -> inhabited_values m ->
  Z.of_nat (length (pairs_of m)) <= max_query_params ->
  ParseQuery (request_query (URL_String (with_query u (Encode m)))) = m /\
  request_base (URL_String (with_query u (Encode m))) = front_String u.
Proof.
  intros Hu Hk Hl Hm Hlen. apply Parse_clean, front_inner in Hu.
  pose proof (Encode_nonempty m k l Hk Hl) as Hne. unfold URL_String.
  change (RawQuery (with_query u (Encode m))) with (Encode m). change (front_String (with_query u (Encode m))) with (front_String u).
  rewrite (proj2 (String.eqb_neq _ _) Hne), orb_true_r, <- string_app_assoc.
  destruct (read_printed (front_String u) (Encode m) _ Hu (Encode_no_hash m) (fragment_text (with_query u (Encode m)))) as [-> ->].
  by rewrite ParseQuery_Encode.
Qed.
