(* ===== verification/GoTime.v ===== *)
(** * Go's [time] package, as the services use it

    An instant is the number of nanoseconds since the Unix epoch (UTC), a
    [Duration] an int64 number of nanoseconds.  Products of durations wrap,
    [Sub] saturates. *)

From stdpp Require Import base tactics list strings numbers.
From Stdlib Require Import ZArith Lia Ascii.
From S2P Require Import Prelude GoStrings.

Definition time : Type := Z.
Definition duration : Type := Z.

Definition Nanosecond : duration := 1.
Definition Millisecond : duration := 1000000.
Definition Second : duration := 1000000000.
Definition Minute : duration := 60 * Second.

(** The zero [time.Time], 1 January of year 1. *)
Definition zero_time : time := -62135596800 * Second.

(** Two's-complement wrap-around at 64 bits. *)
Definition wrap64 (z : Z) : Z := (z + 2 ^ 63) mod 2 ^ 64 - 2 ^ 63.

Lemma wrap64_id z : in_int64 z = true -> wrap64 z = z.
Proof.
  unfold in_int64, int64_min, int64_max, wrap64. rewrite andb_true_iff, !Z.leb_le.
  intros [??]. rewrite Z.mod_small; lia.
Qed.

Lemma wrap64_range z : in_int64 (wrap64 z) = true.
Proof.
  unfold in_int64, int64_min, int64_max, wrap64. rewrite andb_true_iff, !Z.leb_le.
  pose proof (Z.mod_pos_bound (z + 2 ^ 63) (2 ^ 64) ltac:(lia)). lia.
Qed.

(** [time.Duration(n) * time.Second] *)
Definition seconds (n : Z) : duration := wrap64 (n * Second).

(** The bound on a configured TTL (about 292 years) under which its duration
    does not wrap. *)
Definition ttl_ok (n : Z) : bool := (0 <=? n) && (n <=? 9223372036).

Lemma seconds_exact n : ttl_ok n = true -> seconds n = n * Second.
Proof.
  unfold ttl_ok, seconds. rewrite andb_true_iff, !Z.leb_le. intros [??].
  apply wrap64_id. unfold in_int64, int64_min, int64_max, Second.
  rewrite andb_true_iff, !Z.leb_le. lia.
Qed.

Definition Add (t : time) (d : duration) : time := t + d.
Definition After (t u : time) : bool := u <? t.
Definition Before (t u : time) : bool := t <? u.

(** [t.Sub(u)] saturates at the ends of int64. *)
Definition Sub (t u : time) : duration := Z.max int64_min (Z.min int64_max (t - u)).

Definition Unix (t : time) : Z := t / Second.
Definition UnixMilli (t : time) : Z := t / Millisecond.

(** [int64(d.Seconds())]: truncation towards zero.  [Seconds] computes in
    float64, which is exact to the nanosecond for durations below 2^24
    seconds (194 days), the lifetimes the server hands out. *)
Definition SecondsInt (d : duration) : Z := Z.quot d Second.

Lemma After_spec t u : After t u = true <-> u < t.
Proof. apply Z.ltb_lt. Qed.

Lemma After_false t u : After t u = false <-> t <= u.
Proof. apply Z.ltb_ge. Qed.

Lemma After_irrefl t : After t t = false.
Proof. apply Z.ltb_irrefl. Qed.

Lemma Sub_pos t u : After t u = true -> 0 < Sub t u.
Proof. rewrite After_spec. unfold Sub, int64_min, int64_max. lia. Qed.

Lemma Sub_nonpos t u : After t u = false -> Sub t u <= 0.
Proof. rewrite After_false. unfold Sub, int64_min, int64_max. lia. Qed.

Lemma Unix_Add_seconds t n : ttl_ok n = true -> Unix (Add t (seconds n)) = Unix t + n.
Proof.
  intros H. unfold Unix, Add. rewrite seconds_exact by done.
  unfold Second. rewrite Z.div_add by lia. done.
Qed.

(** * [time.Format] and [time.Parse] with the RFC 3339 layout, in UTC

    The cache stores instants as text.  [formatTime] is
    [value.UTC().Format(time.RFC3339)], which drops the fraction of a second;
    [parseTime] is [time.Parse(time.RFC3339, value)] with its error dropped,
    so that anything else than a date reads as the zero instant.  The civil
    calendar is the proleptic Gregorian one. *)

(** ** Days and civil dates *)

(** Eras of 400 years start on 1 March; [doe] is the day of the era. *)
Definition era_days : Z := 146097.
Definition epoch_shift : Z := 719468.

Definition yoe_of (doe : Z) : Z := (doe - doe / 1460 + doe / 36524 - doe / 146096) / 365.
(** The first day of a year of the era. *)
Definition year_start (yoe : Z) : Z := 365 * yoe + yoe / 4 - yoe / 100 + yoe / 400.

Definition doy_of (doe : Z) : Z := doe - year_start (yoe_of doe).
(** Month and day from the day of a year that starts on 1 March. *)
Definition month_of (doy : Z) : Z :=
  let mp := (5 * doy + 2) / 153 in if mp <? 10 then mp + 3 else mp - 9.
Definition day_of (doy : Z) : Z :=
  let mp := (5 * doy + 2) / 153 in doy - (153 * mp + 2) / 5 + 1.

Definition civil_from_days (days : Z) : Z * Z * Z :=
  let z := days + epoch_shift in
  let era := z / era_days in
  let doe := z mod era_days in
  let doy := doy_of doe in
  let m := month_of doy in
  (yoe_of doe + era * 400 + (if m <=? 2 then 1 else 0), m, day_of doy).

Definition doy_from (m d : Z) : Z :=
  (153 * (if 2 <? m then m - 3 else m + 9) + 2) / 5 + d - 1.

Definition days_from_civil (y m d : Z) : Z :=
  let y := if m <=? 2 then y - 1 else y in
  y / 400 * era_days + (year_start (y mod 400) + doy_from m d) - epoch_shift.

Definition leap (y : Z) : bool :=
  (y mod 4 =? 0) && (negb (y mod 100 =? 0) || (y mod 400 =? 0)).
Definition days_in (y m : Z) : Z :=
  if m =? 2 then (if leap y then 29 else 28)
  else if (m =? 4) || (m =? 6) || (m =? 9) || (m =? 11) then 30 else 31.

(** ** The calendar, checked year by year and day by day

    The day count of a year is where [yoe_of] changes; between two changes it
    is constant because it is monotone.  So 400 years and 366 days are all
    there is to compute. *)
Fixpoint all_below (n : nat) (z : Z) (p : Z -> bool) : bool :=
  match n with O => true | S n' => p z && all_below n' (z + 1) p end.

Lemma all_below_spec n z p : all_below n z p = true ->
  forall x, z <= x < z + Z.of_nat n -> p x = true.
Proof.
  revert z. induction n as [|n IH]; intros z H x Hx; [lia|].
  cbn [all_below] in H. apply andb_true_iff in H as [Hz H].
  destruct (Z.eq_dec x z) as [->|]; [done|]. apply (IH (z + 1)); [done | lia].
Qed.

Definition year_ok (y : Z) : bool :=
  let len := year_start (y + 1) - year_start y in
  (yoe_of (year_start y) =? y) && (yoe_of (year_start (y + 1) - 1) =? y) &&
  (if leap (y + 1) then len =? 366 else len =? 365).

Lemma years_checked : all_below 400 0 year_ok = true.
Proof. vm_compute. reflexivity. Qed.

Definition doy_ok (doy : Z) : bool :=
  let m := month_of doy in let d := day_of doy in
  (1 <=? m) && (m <=? 12) && (1 <=? d) && (d <=? 31) && (doy_from m d =? doy) &&
  (d <=? days_in (if doy =? 365 then 4 else 1) m).

Lemma doys_checked : all_below 366 0 doy_ok = true.
Proof. vm_compute. reflexivity. Qed.

(** The dividend of [yoe_of] never decreases. *)
Definition leap_free (doe : Z) : Z := doe - doe / 1460 + doe / 36524 - doe / 146096.

Lemma leap_free_step x : 0 <= x -> x + 1 < era_days -> leap_free x <= leap_free (x + 1).
Proof.
  unfold era_days, leap_free. intros Hx Hb. destruct (Z.eq_dec (x + 1) 146096) as [E|E].
  - rewrite E. replace x with 146095 by lia. vm_compute. discriminate.
  - rewrite (Z.div_small x 146096), (Z.div_small (x + 1) 146096) by lia.
    Z.to_euclidean_division_equations. lia.
Qed.

Lemma yoe_mono x x' : 0 <= x <= x' -> x' < era_days -> yoe_of x <= yoe_of x'.
Proof.
  intros H H'. unfold yoe_of. apply Z.div_le_mono; [lia|].
  change (leap_free x <= leap_free x').
  assert (Hn : forall n : nat, x + Z.of_nat n < era_days -> leap_free x <= leap_free (x + Z.of_nat n)).
  { induction n as [|n IH]; intros Hb; [rewrite Z.add_0_r; lia|].
    etransitivity; [apply IH; lia|].
    replace (x + Z.of_nat (S n)) with (x + Z.of_nat n + 1) by lia. apply leap_free_step; lia. }
  replace x' with (x + Z.of_nat (Z.to_nat (x' - x))) by lia. apply Hn. lia.
Qed.

Lemma year_search n doe : 0 <= doe < year_start (Z.of_nat n) ->
  exists y, 0 <= y < Z.of_nat n /\ year_start y <= doe < year_start (y + 1).
Proof.
  induction n as [|n IH]; intros H; [change (year_start (Z.of_nat 0)) with 0 in H; lia|].
  destruct (Z.lt_ge_cases doe (year_start (Z.of_nat n))).
  - destruct IH as (y & Hy & ?); [lia|]. exists y. lia.
  - exists (Z.of_nat n). replace (Z.of_nat n + 1) with (Z.of_nat (S n)) by lia. lia.
Qed.

(** What a day of the era is made of. *)
Lemma doe_split doe : 0 <= doe < era_days ->
  0 <= yoe_of doe < 400 /\ 0 <= doy_of doe <= 365 /\
  year_start (yoe_of doe) + doy_of doe = doe /\
  (doy_of doe = 365 -> leap (yoe_of doe + 1) = true).
Proof.
  intros H. destruct (year_search 400 doe) as (y & Hy & Hlo & Hhi); [exact H|].
  pose proof (all_below_spec _ _ _ years_checked y ltac:(lia)) as Hok.
  unfold year_ok in Hok. cbv zeta in Hok. rewrite !andb_true_iff, !Z.eqb_eq in Hok.
  destruct Hok as [[Hs He] Hlen].
  assert (Hy0 : 0 <= year_start y) by (unfold year_start; Z.to_euclidean_division_equations; lia).
  assert (Hend : year_start (y + 1) - 1 < era_days)
    by (unfold year_start, era_days; Z.to_euclidean_division_equations; lia).
  assert (Hyoe : yoe_of doe = y).
  { pose proof (yoe_mono (year_start y) doe ltac:(lia) ltac:(lia)).
    pose proof (yoe_mono doe (year_start (y + 1) - 1) ltac:(lia) ltac:(lia)). lia. }
  unfold doy_of. rewrite Hyoe.
  assert (Hl : year_start (y + 1) - year_start y <= 366 /\
               (leap (y + 1) = false -> year_start (y + 1) - year_start y = 365)).
  { destruct (leap (y + 1)); apply Z.eqb_eq in Hlen; split; lia || done. }
  destruct Hl as [Hl1 Hl2]. split; [lia|]. split; [lia|]. split; [lia|].
  intros H365. destruct (leap (y + 1)); [done|]. specialize (Hl2 eq_refl). lia.
Qed.

Lemma doy_ok_all doy : 0 <= doy <= 365 ->
  1 <= month_of doy <= 12 /\ 1 <= day_of doy <= 31 /\
  doy_from (month_of doy) (day_of doy) = doy /\
  day_of doy <= days_in (if doy =? 365 then 4 else 1) (month_of doy).
Proof.
  intros H. pose proof (all_below_spec _ _ _ doys_checked doy ltac:(lia)) as Hok.
  unfold doy_ok in Hok. cbv zeta in Hok. rewrite !andb_true_iff, !Z.leb_le, Z.eqb_eq in Hok. lia.
Qed.

Lemma leap_era y k : leap (y + k * 400) = leap y.
Proof.
  unfold leap.
  replace ((y + k * 400) mod 4) with (y mod 4) by (Z.to_euclidean_division_equations; lia).
  replace ((y + k * 400) mod 100) with (y mod 100) by (Z.to_euclidean_division_equations; lia).
  by rewrite Z.mod_add by lia.
Qed.

Lemma civil_round_trip days :
  let '(y, m, d) := civil_from_days days in
  days_from_civil y m d = days /\ 1 <= m <= 12 /\ 1 <= d <= 31 /\ d <= days_in y m.
Proof.
  unfold civil_from_days. cbv zeta.
  set (z := days + epoch_shift). set (doe := z mod era_days).
  destruct (doe_split doe (Z.mod_pos_bound z era_days ltac:(unfold era_days; lia)))
    as (Hy & Hdoy & Hsum & Hleap).
  destruct (doy_ok_all (doy_of doe) Hdoy) as (Hm & Hd & Hfrom & Hin).
  split; [|split; [done|split; [done|]]].
  - unfold days_from_civil. cbv zeta.
    replace (if month_of (doy_of doe) <=? 2 then _ else _)
      with (yoe_of doe + z / era_days * 400) by (destruct (month_of _ <=? 2); lia).
    rewrite Z.div_add, Z.mod_add, (Z.div_small (yoe_of doe)), (Z.mod_small (yoe_of doe)), Hfrom,
      Hsum by lia.
    pose proof (Z.div_mod z era_days ltac:(unfold era_days; lia)) as Hdm. fold doe in Hdm.
    unfold z in Hdm at 1. lia.
  - etransitivity; [exact Hin|]. unfold days_in.
    destruct (Z.eqb_spec (month_of (doy_of doe)) 2) as [E|E]; [|done]. rewrite E. simpl.
    replace (yoe_of doe + z / era_days * 400 + 1) with (yoe_of doe + 1 + z / era_days * 400) by lia.
    rewrite leap_era. destruct (Z.eqb_spec (doy_of doe) 365) as [E'|E'].
    + by rewrite (Hleap E').
    + change (leap 1) with false. destruct (leap (yoe_of doe + 1)); lia.
Qed.

(** ** Text *)

Definition digit (z : Z) : ascii := ascii_of (48 + z).

Definition pad2 (z : Z) : string := String (digit (z / 10)) (String (digit (z mod 10)) EmptyString).
Definition pad4 (z : Z) : string := pad2 (z / 100) +:+ pad2 (z mod 100).

(** The instant to the second, then [rest] *)
Definition stamp (value : time) (rest : string) : string :=
  let s := Unix value in
  let '(y, m, d) := civil_from_days (s / 86400) in
  let r := s mod 86400 in
  pad4 y +:+ "-" +:+ pad2 m +:+ "-" +:+ pad2 d +:+ "T" +:+ pad2 (r / 3600) +:+ ":" +:+
  pad2 (r / 60 mod 60) +:+ ":" +:+ pad2 (r mod 60) +:+ rest.

(** [time.RFC3339] *)
Definition formatTime (value : time) : string := stamp value "Z".

(** [time.RFC3339Nano]: the digits of the fraction up to its last one that is
    not 0 *)
Fixpoint fraction (digits : nat) (weight n : Z) : string :=
  match digits with
  | O => EmptyString
  | S digits => if n =? 0 then EmptyString else String (digit (n / weight)) (fraction digits (weight / 10) (n mod weight))
  end.

Definition formatNano (value : time) : string :=
  let n := value mod Second in
  stamp value (if n =? 0 then "Z" else "." +:+ fraction 9 100000000 n +:+ "Z").

Definition digit_val (a : ascii) : option Z :=
  let x := byte_of a in if (48 <=? x) && (x <=? 57) then Some (x - 48) else None.

Definition read2 (s : string) : option (Z * string) :=
  match s with
  | String a (String b rest) =>
      match digit_val a, digit_val b with
      | Some x, Some y => Some (10 * x + y, rest)
      | _, _ => None
      end
  | _ => None
  end.

Definition read4 (s : string) : option (Z * string) :=
  match read2 s with
  | Some (x, rest) =>
      match read2 rest with Some (y, rest') => Some (100 * x + y, rest') | None => None end
  | None => None
  end.

(** The separator [c]. *)
Definition expect (c : ascii) (s : string) : option string :=
  match s with
  | String a rest => if Ascii.eqb a c then Some rest else None
  | EmptyString => None
  end.

(** A fraction of a second: digits after a point, kept to the nanosecond. *)
Fixpoint read_digits (weight acc : Z) (s : string) : Z * string :=
  match s with
  | String a rest =>
      match digit_val a with
      | Some x => read_digits (weight / 10) (acc + x * weight) rest
      | None => (acc, s)
      end
  | EmptyString => (acc, s)
  end.

Definition read_fraction (s : string) : Z * string :=
  match s with
  | String a (String b rest) =>
      if (Ascii.eqb a "." || Ascii.eqb a ",") &&
         match digit_val b with Some _ => true | None => false end
      then read_digits 100000000 0 (String b rest) else (0, s)
  | _ => (0, s)
  end.

(** [Z] or [+hh:mm] or [-hh:mm], in seconds east of UTC. *)
Definition read_zone (s : string) : option (Z * string) :=
  match s with
  | String a rest =>
      if Ascii.eqb a "Z" then Some (0, rest)
      else if Ascii.eqb a "+" || Ascii.eqb a "-" then
        match read2 rest with
        | Some (h, rest') =>
            match expect ":" rest' with
            | Some rest'' =>
                match read2 rest'' with
                | Some (mi, out) =>
                    if (h <=? 24) && (mi <=? 60)
                    then Some ((if Ascii.eqb a "+" then 1 else -1) * (h * 3600 + mi * 60), out)
                    else None
                | None => None
                end
            | None => None
            end
        | None => None
        end
      else None
  | EmptyString => None
  end.

Definition obind {A B} (o : option A) (k : A -> option B) : option B :=
  match o with Some a => k a | None => None end.

Definition parse_rfc3339 (s : string) : option time :=
  obind (read4 s) (fun '(y, s) =>
  obind (expect "-" s) (fun s =>
  obind (read2 s) (fun '(m, s) =>
  obind (expect "-" s) (fun s =>
  obind (read2 s) (fun '(d, s) =>
  obind (expect "T" s) (fun s =>
  obind (read2 s) (fun '(h, s) =>
  obind (expect ":" s) (fun s =>
  obind (read2 s) (fun '(mi, s) =>
  obind (expect ":" s) (fun s =>
  obind (read2 s) (fun '(sec, s) =>
  let '(nano, s) := read_fraction s in
  obind (read_zone s) (fun '(zone, s) =>
  if String.eqb s "" && (1 <=? m) && (m <=? 12) && (1 <=? d) && (d <=? days_in y m) &&
     (h <? 24) && (mi <? 60) && (sec <? 60)
  then Some ((days_from_civil y m d * 86400 + h * 3600 + mi * 60 + sec - zone) * Second + nano)
  else None)))))))))))).

Definition parseTime (value : string) : time := default zero_time (parse_rfc3339 value).

(** ** Round trip *)

Lemma digit_val_digit z : 0 <= z < 10 -> digit_val (digit z) = Some z.
Proof.
  intros H. unfold digit_val, digit. cbv zeta. rewrite byte_of_ascii_of by lia.
  rewrite (proj2 (Z.leb_le _ _)), (proj2 (Z.leb_le _ _)) by lia. simpl. f_equal. lia.
Qed.

Lemma read2_pad2 z s : 0 <= z < 100 -> read2 (pad2 z +:+ s) = Some (z, s).
Proof.
  intros H. change (pad2 z +:+ s) with (String (digit (z / 10)) (String (digit (z mod 10)) s)).
  cbn [read2]. rewrite !digit_val_digit.
  - do 2 f_equal. Z.to_euclidean_division_equations. lia.
  - apply Z.mod_pos_bound. lia.
  - Z.to_euclidean_division_equations. lia.
Qed.

Lemma read4_pad4 z s : 0 <= z < 10000 -> read4 (pad4 z +:+ s) = Some (z, s).
Proof.
  intros H. unfold read4, pad4. rewrite <- string_app_assoc.
  rewrite read2_pad2 by (Z.to_euclidean_division_equations; lia).
  rewrite read2_pad2 by (apply Z.mod_pos_bound; lia). do 2 f_equal.
  Z.to_euclidean_division_equations. lia.
Qed.

(** The instants whose year has four digits. *)
Definition four_digit_year (t : time) : Prop :=
  let '(y, _, _) := civil_from_days (Unix t / 86400) in 0 <= y < 10000.

Lemma parse_stamp t rest nano : four_digit_year t -> read_fraction rest = (nano, "Z") ->
  parse_rfc3339 (stamp t rest) = Some (Unix t * Second + nano).
Proof.
  unfold four_digit_year, stamp, parse_rfc3339. set (s := Unix t). cbv zeta. intros Hy0 Hf. revert Hy0.
  pose proof (civil_round_trip (s / 86400)) as Hc.
  destruct (civil_from_days (s / 86400)) as [[y m] d]. destruct Hc as (Hc & Hm & Hd1 & Hd). intros Hy.
  pose proof (Z.mod_pos_bound s 86400 ltac:(lia)) as Hr.
  assert (H1 : 0 <= s mod 86400 / 3600 < 24) by (Z.to_euclidean_division_equations; lia).
  pose proof (Z.mod_pos_bound (s mod 86400 / 60) 60 ltac:(lia)) as H2.
  pose proof (Z.mod_pos_bound (s mod 86400) 60 ltac:(lia)) as H3.
  rewrite read4_pad4 by lia. cbn [obind expect].
  change (expect ?c ("-" +:+ ?x)) with (if Ascii.eqb "-" c then Some x else None).
  cbn [Ascii.eqb Bool.eqb obind]. rewrite read2_pad2 by lia. cbn [obind].
  change (expect ?c ("-" +:+ ?x)) with (if Ascii.eqb "-" c then Some x else None).
  cbn [Ascii.eqb Bool.eqb obind]. rewrite read2_pad2 by lia. cbn [obind].
  change (expect ?c ("T" +:+ ?x)) with (if Ascii.eqb "T" c then Some x else None).
  cbn [Ascii.eqb Bool.eqb obind]. rewrite read2_pad2 by lia. cbn [obind].
  change (expect ?c (":" +:+ ?x)) with (if Ascii.eqb ":" c then Some x else None).
  cbn [Ascii.eqb Bool.eqb obind]. rewrite read2_pad2 by lia. cbn [obind].
  change (expect ?c (":" +:+ ?x)) with (if Ascii.eqb ":" c then Some x else None).
  cbn [Ascii.eqb Bool.eqb obind]. rewrite read2_pad2 by lia. cbn [obind].
  rewrite Hf. cbv iota beta. change (read_zone "Z") with (Some (0, EmptyString)).
  cbn [obind]. rewrite !(proj2 (Z.leb_le _ _)), !(proj2 (Z.ltb_lt _ _)) by lia.
  cbn. rewrite Hc. pose proof (Z.div_mod s 86400 ltac:(lia)).
  assert (s mod 86400 / 3600 * 3600 + s mod 86400 / 60 mod 60 * 60 + (s mod 86400) mod 60 = s mod 86400)
    by (Z.to_euclidean_division_equations; lia).
  f_equal. lia.
Qed.

(** An instant written to the cache is read back to the second. *)
Lemma parseTime_formatTime t :
  four_digit_year t -> parseTime (formatTime t) = Unix t * Second.
Proof. intros Ht. unfold parseTime, formatTime. rewrite (parse_stamp t "Z" 0) by done. cbn. lia. Qed.

Lemma read_digits_fraction k weight acc n : 10 * weight = 10 ^ Z.of_nat k -> 0 <= n < 10 * weight ->
  read_digits weight acc (fraction k weight n +:+ "Z") = (acc + n, "Z").
Proof.
  revert weight acc n. induction k as [|k IH]; intros weight acc n Hw Hn; [cbn in Hw; lia|].
  cbn [fraction]. destruct (Z.eqb_spec n 0) as [->|Hn0]; [by rewrite Z.add_0_r|].
  rewrite Nat2Z.inj_succ, Z.pow_succ_r in Hw by lia. assert (weight = 10 ^ Z.of_nat k) as Hw' by lia.
  assert (0 < weight) by (rewrite Hw'; lia).
  change (String ?a ?s +:+ ?t) with (String a (s +:+ t)). cbn [read_digits].
  rewrite digit_val_digit by (split; [apply Z.div_pos; lia | apply Z.div_lt_upper_bound; lia]).
  pose proof (Z.mod_pos_bound n weight ltac:(lia)). pose proof (Z.div_mod n weight ltac:(lia)).
  destruct k as [|k].
  - change (10 ^ Z.of_nat 0) with 1 in Hw'. subst weight. rewrite Z.div_1_r, Z.mul_1_r. reflexivity.
  - rewrite Nat2Z.inj_succ, Z.pow_succ_r in Hw' by lia.
    assert (weight / 10 = 10 ^ Z.of_nat k) as Hd by (rewrite Hw', (Z.mul_comm 10), Z.div_mul; lia).
    rewrite IH; [f_equal; lia|..]; rewrite Hd; [rewrite Nat2Z.inj_succ, Z.pow_succ_r by lia|]; lia.
Qed.

(** With RFC3339Nano nothing of it is lost. *)
Lemma parse_formatNano t : four_digit_year t -> parse_rfc3339 (formatNano t) = Some t.
Proof.
  intros Ht. unfold formatNano. pose proof (Z.mod_pos_bound t Second eq_refl). pose proof (Z.div_mod t Second ltac:(done)).
  cbv zeta. destruct (Z.eqb_spec (t mod Second) 0) as [Hz|Hz].
  - rewrite (parse_stamp t "Z" 0) by done. f_equal. unfold Unix. lia.
  - erewrite parse_stamp; [|done|].
    2: { change ("." +:+ ?x) with (String "." x). change (fraction 9 ?w ?n) with
           (if n =? 0 then EmptyString else String (digit (n / w)) (fraction 8 (w / 10) (n mod w))).
         rewrite (proj2 (Z.eqb_neq _ _) Hz). change (String ?a ?s +:+ ?t) with (String a (s +:+ t)). cbn [read_fraction].
         rewrite digit_val_digit by (unfold Second in *; split; [apply Z.div_pos; lia | apply Z.div_lt_upper_bound; lia]).
         cbn [Ascii.eqb Bool.eqb orb andb].
         pose proof (read_digits_fraction 9 100000000 0 (t mod Second) eq_refl ltac:(unfold Second in *; lia)) as Hr.
         cbn [fraction] in Hr. rewrite (proj2 (Z.eqb_neq _ _) Hz) in Hr. exact Hr. }
    f_equal. unfold Unix. lia.
Qed.

Example format_nano : formatNano 1778068800120000000 = "2026-05-06T12:00:00.12Z".
Proof. reflexivity. Qed.

Example format_epoch : formatTime 1778068800123456789 = "2026-05-06T12:00:00Z".
Proof. reflexivity. Qed.
