(* ===== verification/Errors.v ===== *)
(** * The sentinel errors

    Every package of the program declares its errors as values made with
    [errors.New]; here one inductive type per package, and their sum
    [error].  Two sentinels are the same error exactly when they are the
    same constructor ([errors.Is] on unwrapped sentinels). *)

From stdpp Require Import base tactics strings.
From S2P Require Import Prelude.

(** application/token/types.go *)
Inductive token_error :=
| ErrUnsupportedGrantType
| ErrInvalidClient
| ErrInvalidScope
| ErrInvalidCode
| ErrInvalidRedirectURI
| ErrInvalidCodeVerifier
| ErrInvalidRefreshToken
| ErrInvalidUserCredentials
| ErrInvalidDeviceCode
| ErrAuthorizationPending
| ErrSlowDown
| ErrAccessDenied.

(** application/authz/types.go *)
Inductive authz_error :=
| AuthzErrInvalidRequest
| AuthzErrUnsupportedResponseType
| AuthzErrInvalidClient
| AuthzErrInvalidRedirectURI
| AuthzErrInvalidScope
| AuthzErrInvalidCodeChallenge
| AuthzErrLoginRequired
| AuthzErrConsentRequired.

(** application/device/types.go *)
Inductive device_error :=
| DeviceErrInvalidUserCode
| DeviceErrLoginRequired
| DeviceErrInvalidAction
| DeviceErrInvalidClient
| DeviceErrInvalidScope.

(** application/rbac/types.go *)
Inductive rbac_error :=
| ErrInvalidRoleCode
| ErrRoleAlreadyExists
| ErrRoleNotFound
| ErrSystemRoleImmutable
| ErrRoleInUse
| ErrUserNotFound
| ErrInvalidPrivilege
| ErrInvalidTenantScope
| ErrInvalidDisplayName
| ErrInvalidDescription.

(** application/authn/types.go *)
Inductive authn_error :=
| AuthnErrInvalidCredentials
| AuthnErrUserLocked
| AuthnErrUserDisabled
| AuthnErrRateLimited
| AuthnErrUnsupportedMethod
| AuthnErrMFARequired
| AuthnErrMFAEnrollmentRequired
| AuthnErrInvalidTOTPCode
| AuthnErrTOTPCodeReused
| AuthnErrMFAChallengeExpired
| AuthnErrMFAPushNotApproved
| AuthnErrMFAPushRejected
| AuthnErrInvalidMFAAction
| AuthnErrMFAApproverMismatch
| AuthnErrInvalidPushMatchCode
| AuthnErrPasskeyUnavailable
| AuthnErrPasskeySessionMissing.

(** application/mfa/types.go *)
Inductive mfa_error :=
| MfaErrLoginRequired
| MfaErrAlreadyEnabled
| MfaErrEnrollmentExpired
| MfaErrInvalidTOTPCode
| MfaErrTOTPCodeReused.

(** application/passkey/types.go *)
Inductive passkey_error :=
| PasskeyErrLoginRequired
| PasskeyErrPasskeyDisabled
| PasskeyErrPasskeySetupExpired
| PasskeyErrPasskeyCredentialSave.

(** application/client/types.go *)
Inductive client_error :=
| ClientErrInvalidClientID
| ClientErrClientIDAlreadyExists
| ClientErrClientNotFound
| ClientErrInvalidClientName
| ClientErrInvalidClientType
| ClientErrInvalidClientSecret
| ClientErrInvalidAuthMethod
| ClientErrInvalidGrantType
| ClientErrInvalidScope
| ClientErrRedirectURIRequired
| ClientErrInvalidRedirectURI
| ClientErrInvalidClientConfig.

(** application/register/types.go *)
Inductive register_error :=
| RegisterErrInvalidUsername
| RegisterErrInvalidEmail
| RegisterErrInvalidDisplayName
| RegisterErrWeakPassword
| RegisterErrUsernameAlreadyUsed
| RegisterErrEmailAlreadyUsed
| RegisterErrUserNotFound
| RegisterErrPasswordUpdateFailed
| RegisterErrUserUnlockFailed.

(** application/consent/types.go *)
Inductive consent_error :=
| ConsentErrInvalidReturnTo
| ConsentErrLoginRequired
| ConsentErrInvalidClient
| ConsentErrInvalidScope
| ConsentErrInvalidAction.

(** application/oidc/types.go *)
Inductive oidc_error :=
| OidcErrInvalidAccessToken
| OidcErrUserNotFound.

(** application/shorturl/types.go *)
Inductive shorturl_error :=
| ShortURLErrInvalidCode
| ShortURLErrCodeAlreadyExists
| ShortURLErrInvalidTargetURL
| ShortURLErrInvalidExpiry
| ShortURLErrLinkNotFound
| ShortURLErrLinkExpired.

(** ports/cache/errors.go *)
Inductive cache_error :=
| ErrStateVersionConflict
| ErrInvalidStateTransition.

(** What the program's own code tells apart of the errors of the database
    and of the cache server; [Driver] is any other error they return, or an
    error the program makes up on the spot. *)
Inductive infra_error :=
| ErrNoRows
| ErrDuplicate
| Driver (what : string).

Inductive error :=
| Token (e : token_error)
| Authz (e : authz_error)
| Device (e : device_error)
| Rbac (e : rbac_error)
| Authn (e : authn_error)
| Mfa (e : mfa_error)
| Passkey (e : passkey_error)
| Client (e : client_error)
| Register (e : register_error)
| Consent (e : consent_error)
| Oidc (e : oidc_error)
| ShortURL (e : shorturl_error)
| Cache (e : cache_error)
| Infra (e : infra_error).

#[export] Instance token_error_eq_dec : EqDecision token_error.
Proof. solve_decision. Defined.
#[export] Instance authz_error_eq_dec : EqDecision authz_error.
Proof. solve_decision. Defined.
#[export] Instance device_error_eq_dec : EqDecision device_error.
Proof. solve_decision. Defined.
#[export] Instance rbac_error_eq_dec : EqDecision rbac_error.
Proof. solve_decision. Defined.
#[export] Instance authn_error_eq_dec : EqDecision authn_error.
Proof. solve_decision. Defined.
#[export] Instance mfa_error_eq_dec : EqDecision mfa_error.
Proof. solve_decision. Defined.
#[export] Instance passkey_error_eq_dec : EqDecision passkey_error.
Proof. solve_decision. Defined.
#[export] Instance client_error_eq_dec : EqDecision client_error.
Proof. solve_decision. Defined.
#[export] Instance register_error_eq_dec : EqDecision register_error.
Proof. solve_decision. Defined.
#[export] Instance consent_error_eq_dec : EqDecision consent_error.
Proof. solve_decision. Defined.
#[export] Instance oidc_error_eq_dec : EqDecision oidc_error.
Proof. solve_decision. Defined.
#[export] Instance shorturl_error_eq_dec : EqDecision shorturl_error.
Proof. solve_decision. Defined.
#[export] Instance cache_error_eq_dec : EqDecision cache_error.
Proof. solve_decision. Defined.
#[export] Instance infra_error_eq_dec : EqDecision infra_error.
Proof. solve_decision. Defined.
#[export] Instance error_eq_dec : EqDecision error.
Proof. solve_decision. Defined.

Coercion Token : token_error >-> error.
Coercion Authz : authz_error >-> error.
Coercion Device : device_error >-> error.
Coercion Rbac : rbac_error >-> error.
Coercion Authn : authn_error >-> error.
Coercion Mfa : mfa_error >-> error.
Coercion Passkey : passkey_error >-> error.
Coercion Client : client_error >-> error.
Coercion Register : register_error >-> error.
Coercion Consent : consent_error >-> error.
Coercion Oidc : oidc_error >-> error.
Coercion ShortURL : shorturl_error >-> error.
Coercion Cache : cache_error >-> error.
Coercion Infra : infra_error >-> error.

(** ** What the errors say ([err.Error()]) *)

Definition token_error_text (e : token_error) : string :=
  match e with
  | ErrUnsupportedGrantType => "unsupported grant type"
  | ErrInvalidClient => "invalid client"
  | ErrInvalidScope => "invalid scope"
  | ErrInvalidCode => "invalid authorization code"
  | ErrInvalidRedirectURI => "invalid redirect uri"
  | ErrInvalidCodeVerifier => "invalid code verifier"
  | ErrInvalidRefreshToken => "invalid refresh token"
  | ErrInvalidUserCredentials => "invalid user credentials"
  | ErrInvalidDeviceCode => "invalid device code"
  | ErrAuthorizationPending => "authorization pending"
  | ErrSlowDown => "slow down"
  | ErrAccessDenied => "access denied"
  end.

Definition authz_error_text (e : authz_error) : string :=
  match e with
  | AuthzErrInvalidRequest => "invalid request"
  | AuthzErrUnsupportedResponseType => "unsupported response type"
  | AuthzErrInvalidClient => "invalid client"
  | AuthzErrInvalidRedirectURI => "invalid redirect uri"
  | AuthzErrInvalidScope => "invalid scope"
  | AuthzErrInvalidCodeChallenge => "invalid code challenge"
  | AuthzErrLoginRequired => "login required"
  | AuthzErrConsentRequired => "consent required"
  end.

Definition device_error_text (e : device_error) : string :=
  match e with
  | DeviceErrInvalidUserCode => "invalid user code"
  | DeviceErrLoginRequired => "login required"
  | DeviceErrInvalidAction => "invalid action"
  | DeviceErrInvalidClient => "invalid client"
  | DeviceErrInvalidScope => "invalid scope"
  end.

Definition rbac_error_text (e : rbac_error) : string :=
  match e with
  | ErrInvalidRoleCode => "invalid role code"
  | ErrRoleAlreadyExists => "role already exists"
  | ErrRoleNotFound => "role not found"
  | ErrSystemRoleImmutable => "system role is immutable"
  | ErrRoleInUse => "role is still assigned to users"
  | ErrUserNotFound => "user not found"
  | ErrInvalidPrivilege => "invalid privilege mask"
  | ErrInvalidTenantScope => "invalid tenant scope"
  | ErrInvalidDisplayName => "invalid display name"
  | ErrInvalidDescription => "invalid description"
  end.

Definition authn_error_text (e : authn_error) : string :=
  match e with
  | AuthnErrInvalidCredentials => "invalid credentials"
  | AuthnErrUserLocked => "user is locked"
  | AuthnErrUserDisabled => "user is disabled"
  | AuthnErrRateLimited => "rate limit exceeded"
  | AuthnErrUnsupportedMethod => "unsupported authentication method"
  | AuthnErrMFARequired => "mfa required"
  | AuthnErrMFAEnrollmentRequired => "mfa enrollment required"
  | AuthnErrInvalidTOTPCode => "invalid totp code"
  | AuthnErrTOTPCodeReused => "totp code already used"
  | AuthnErrMFAChallengeExpired => "mfa challenge expired"
  | AuthnErrMFAPushNotApproved => "mfa push not approved"
  | AuthnErrMFAPushRejected => "mfa push rejected"
  | AuthnErrInvalidMFAAction => "invalid mfa action"
  | AuthnErrMFAApproverMismatch => "mfa approver mismatch"
  | AuthnErrInvalidPushMatchCode => "invalid push match code"
  | AuthnErrPasskeyUnavailable => "passkey unavailable"
  | AuthnErrPasskeySessionMissing => "passkey session missing"
  end.

Definition mfa_error_text (e : mfa_error) : string :=
  match e with
  | MfaErrLoginRequired => "login required"
  | MfaErrAlreadyEnabled => "totp already enabled"
  | MfaErrEnrollmentExpired => "totp enrollment expired"
  | MfaErrInvalidTOTPCode => "invalid totp code"
  | MfaErrTOTPCodeReused => "totp code already used"
  end.

Definition passkey_error_text (e : passkey_error) : string :=
  match e with
  | PasskeyErrLoginRequired => "login required"
  | PasskeyErrPasskeyDisabled => "passkey is not enabled"
  | PasskeyErrPasskeySetupExpired => "passkey setup expired"
  | PasskeyErrPasskeyCredentialSave => "failed to save passkey credential"
  end.

Definition client_error_text (e : client_error) : string :=
  match e with
  | ClientErrInvalidClientID => "invalid client id"
  | ClientErrClientIDAlreadyExists => "client id already exists"
  | ClientErrClientNotFound => "client not found"
  | ClientErrInvalidClientName => "invalid client name"
  | ClientErrInvalidClientType => "invalid client type"
  | ClientErrInvalidClientSecret => "invalid client secret"
  | ClientErrInvalidAuthMethod => "invalid token endpoint auth method"
  | ClientErrInvalidGrantType => "invalid grant type"
  | ClientErrInvalidScope => "invalid scope"
  | ClientErrRedirectURIRequired => "redirect uri is required"
  | ClientErrInvalidRedirectURI => "invalid redirect uri"
  | ClientErrInvalidClientConfig => "invalid client configuration"
  end.

Definition register_error_text (e : register_error) : string :=
  match e with
  | RegisterErrInvalidUsername => "invalid username"
  | RegisterErrInvalidEmail => "invalid email"
  | RegisterErrInvalidDisplayName => "invalid display name"
  | RegisterErrWeakPassword => "password does not meet policy"
  | RegisterErrUsernameAlreadyUsed => "username already exists"
  | RegisterErrEmailAlreadyUsed => "email already exists"
  | RegisterErrUserNotFound => "user not found"
  | RegisterErrPasswordUpdateFailed => "password update is not supported by repository"
  | RegisterErrUserUnlockFailed => "user unlock is not supported by repository"
  end.

Definition consent_error_text (e : consent_error) : string :=
  match e with
  | ConsentErrInvalidReturnTo => "invalid return_to"
  | ConsentErrLoginRequired => "login required"
  | ConsentErrInvalidClient => "invalid client"
  | ConsentErrInvalidScope => "invalid scope"
  | ConsentErrInvalidAction => "invalid action"
  end.

Definition oidc_error_text (e : oidc_error) : string :=
  match e with
  | OidcErrInvalidAccessToken => "invalid access token"
  | OidcErrUserNotFound => "user not found"
  end.

Definition shorturl_error_text (e : shorturl_error) : string :=
  match e with
  | ShortURLErrInvalidCode => "invalid short url code"
  | ShortURLErrCodeAlreadyExists => "short url code already exists"
  | ShortURLErrInvalidTargetURL => "invalid target url"
  | ShortURLErrInvalidExpiry => "invalid short url expiry"
  | ShortURLErrLinkNotFound => "short url not found"
  | ShortURLErrLinkExpired => "short url expired"
  end.

Definition cache_error_text (e : cache_error) : string :=
  match e with
  | ErrStateVersionConflict => "state version conflict"
  | ErrInvalidStateTransition => "invalid state transition"
  end.

(** A wrapped error says more than its sentinel; it is only ever looked
    into, not shown. *)
Definition error_text (e : error) : string :=
  match e with
  | Token e => token_error_text e
  | Authz e => authz_error_text e
  | Device e => device_error_text e
  | Rbac e => rbac_error_text e
  | Authn e => authn_error_text e
  | Mfa e => mfa_error_text e
  | Passkey e => passkey_error_text e
  | Client e => client_error_text e
  | Register e => register_error_text e
  | Consent e => consent_error_text e
  | Oidc e => oidc_error_text e
  | ShortURL e => shorturl_error_text e
  | Cache e => cache_error_text e
  | Infra ErrNoRows => "sql: no rows in result set"
  | Infra ErrDuplicate => "duplicate repository record"
  | Infra (Driver what) => what
  end.

(** Every computation of the program fails with an [error]; giving the type
    first lets a sentinel be written without its package constructor. *)
Abbreviation IO W A := (M error W A).
Definition throw {W A} (e : error) : IO W A := fail e.
Definition guard {W} (b : bool) (e : error) : IO W unit := require b e.

Lemma throw_Ok {W A} (e : error) (b : A) (w w' : W) : throw e w = (Ok b, w') <-> False.
Proof. apply fail_Ok. Qed.

Lemma guard_Ok {W} (b : bool) (e : error) u (w w' : W) :
  guard b e w = (Ok u, w') <-> b = true /\ w = w'.
Proof. apply require_Ok. Qed.

Lemma guard_true {W} (e : error) (w : W) : guard true e w = (Ok tt, w).
Proof. done. Qed.

Lemma guard_false {W} (e : error) (w : W) : guard false e w = (Err e, w).
Proof. done. Qed.

Arguments throw : simpl never.
Arguments guard : simpl never.

Lemma preserves_throw {W A} (P : W -> Prop) e : preserves P (throw (A:=A) e).
Proof. apply preserves_fail. Qed.
Lemma preserves_guard {W} (P : W -> Prop) b e : preserves P (guard b e).
Proof. apply preserves_require. Qed.
#[export] Hint Resolve preserves_throw preserves_guard : preserves.

(** A pure check that returns an [error] or nil. *)
Definition check {W} (o : option error) : IO W unit :=
  match o with None => ret tt | Some e => fail e end.

Lemma check_Ok {W} o u (w w' : W) : check o w = (Ok u, w') <-> o = None /\ w = w'.
Proof.
  destruct o as [e|], u; cbn.
  - split; [discriminate | by intros [? _]].
  - split; [by intros [= ->] | by intros [_ ->]].
Qed.
Arguments check : simpl never.

Lemma preserves_check {W} (P : W -> Prop) o : preserves P (check o).
Proof. destruct o; [apply preserves_fail | apply preserves_ret]. Qed.
#[export] Hint Resolve preserves_check : preserves.

(** [if x == nil { return nil, e }], binding what [x] points to. *)
Definition some_or {W A} (o : option A) (e : error) : IO W A :=
  match o with Some a => ret a | None => fail e end.

Lemma some_or_Ok {W A} (o : option A) e a (w w' : W) :
  some_or o e w = (Ok a, w') <-> o = Some a /\ w = w'.
Proof.
  destruct o as [x|]; cbn.
  - split; [by intros [= -> ->] | by intros [[= ->] ->]].
  - split; [discriminate | by intros [? _]].
Qed.
Arguments some_or : simpl never.

(** Steps that pass, in a goal. *)
Lemma guard_run {W B} (b : bool) (e : error) (k : unit -> IO W B) w : b = true -> bind (guard b e) k w = k tt w.
Proof. by intros ->. Qed.
Lemma some_or_run {W A B} (a : A) (e : error) (k : A -> IO W B) w : bind (some_or (Some a) e) k w = k a w.
Proof. done. Qed.

Lemma preserves_some_or {W A} (P : W -> Prop) (o : option A) e : preserves P (some_or o e).
Proof. destruct o; [apply preserves_ret | apply preserves_fail]. Qed.
#[export] Hint Resolve preserves_some_or : preserves.

(** The inversion of the prelude, extended to the checks above. *)
Ltac einv_step :=
  match goal with
  | H : throw _ _ = (Ok _, _) |- _ => by apply throw_Ok in H
  | H : guard _ _ _ = (Ok _, _) |- _ => apply guard_Ok in H; destruct H as [? ?]; subst
  | H : check _ _ = (Ok _, _) |- _ => apply check_Ok in H; destruct H as [? ?]; subst
  | H : some_or _ _ _ = (Ok _, _) |- _ => apply some_or_Ok in H; destruct H as [? ?]; subst
  | _ => minv_step
  end.
Ltac einv := repeat (einv_step; simpl in *).

(** Peeling one statement off a successful run, with the names the proof
    wants: a call, a guard, a check, a nil test. *)
Tactic Notation "run" hyp(H) "as" ident(x) ident(w) ident(Hx) :=
  apply bind_Ok in H as (x & w & Hx & H).
Tactic Notation "run_guard" hyp(H) "as" ident(Hx) :=
  apply bind_Ok in H as ([] & ? & Hx & H); apply guard_Ok in Hx as [Hx <-].
Tactic Notation "run_check" hyp(H) "as" ident(Hx) :=
  apply bind_Ok in H as ([] & ? & Hx & H); apply check_Ok in Hx as [Hx <-].
Tactic Notation "run_some" hyp(H) "as" ident(x) ident(Hx) :=
  apply bind_Ok in H as (x & ? & Hx & H); apply some_or_Ok in Hx as [Hx <-].
