(* ===== verification/Domain.v ===== *)
(** * The domain models

    The records of internal/domain, one module per Go package, with the
    source's field names.  A pointer field is an [option]; an [int64] or
    [int] is a [Z]. *)

From stdpp Require Import base tactics list strings.
From S2P Require Import Prelude GoStrings GoTime.

Module client.
Record Model := mk {
  ID : Z;
  ClientID : string;
  ClientName : string;
  ClientSecretHash : string;
  ClientType : string;
  TokenEndpointAuthMethod : string;
  RequirePKCE : bool;
  RequireConsent : bool;
  AccessTokenTTLSeconds : Z;
  RefreshTokenTTLSeconds : Z;
  IDTokenTTLSeconds : Z;
  Status : string;
  RedirectURIs : list string;
  PostLogoutRedirectURIs : list string;
  GrantTypes : list string;
  AuthMethods : list string;
  Scopes : list string;
  CreatedAt : time;
  UpdatedAt : time;
}.
End client.

Module user.
Record Model := mk {
  ID : Z;
  UserUUID : string;
  Username : string;
  Email : string;
  EmailVerified : bool;
  DisplayName : string;
  PasswordHash : string;
  RoleCode : string;
  PrivilegeMask : Z;
  TenantScope : string;
  Status : string;
  FailedLoginCount : Z;
  LastLoginAt : option time;
  CreatedAt : time;
  UpdatedAt : time;
}.
End user.

Module session.
Record Model := mk {
  ID : Z;
  SessionID : string;
  UserID : Z;
  Subject : string;
  ACR : string;
  AMRJSON : string;
  IPAddress : string;
  UserAgent : string;
  AuthenticatedAt : time;
  ExpiresAt : time;
  LoggedOutAt : option time;
  CreatedAt : time;
}.
End session.

Module authorization.
Record Model := mk {
  ID : Z;
  Code : string;
  ClientDBID : Z;
  UserID : Z;
  SessionDBID : option Z;
  RedirectURI : string;
  ScopesJSON : string;
  StateValue : string;
  NonceValue : string;
  CodeChallenge : string;
  CodeChallengeMethod : string;
  ExpiresAt : time;
  ConsumedAt : option time;
  CreatedAt : time;
}.

Definition set_ID (id : Z) (m : Model) : Model :=
  mk id (Code m) (ClientDBID m) (UserID m) (SessionDBID m) (RedirectURI m) (ScopesJSON m)
     (StateValue m) (NonceValue m) (CodeChallenge m) (CodeChallengeMethod m) (ExpiresAt m)
     (ConsumedAt m) (CreatedAt m).

Definition set_ConsumedAt (t : option time) (m : Model) : Model :=
  mk (ID m) (Code m) (ClientDBID m) (UserID m) (SessionDBID m) (RedirectURI m) (ScopesJSON m)
     (StateValue m) (NonceValue m) (CodeChallenge m) (CodeChallengeMethod m) (ExpiresAt m)
     t (CreatedAt m).
End authorization.

Module access.
Record AccessToken := mk {
  ID : Z;
  TokenValue : string;
  TokenSHA256 : string;
  ClientID : Z;
  UserID : option Z;
  Subject : string;
  AudienceJSON : string;
  ScopesJSON : string;
  TokenType : string;
  TokenFormat : string;
  IssuedAt : time;
  ExpiresAt : time;
  RevokedAt : option time;
  CreatedAt : time;
}.

Definition set_ID (id : Z) (m : AccessToken) : AccessToken :=
  mk id (TokenValue m) (TokenSHA256 m) (ClientID m) (UserID m) (Subject m) (AudienceJSON m)
     (ScopesJSON m) (TokenType m) (TokenFormat m) (IssuedAt m) (ExpiresAt m) (RevokedAt m)
     (CreatedAt m).

Definition set_RevokedAt (t : option time) (m : AccessToken) : AccessToken :=
  mk (ID m) (TokenValue m) (TokenSHA256 m) (ClientID m) (UserID m) (Subject m) (AudienceJSON m)
     (ScopesJSON m) (TokenType m) (TokenFormat m) (IssuedAt m) (ExpiresAt m) t (CreatedAt m).
End access.

Module refresh.
Record RefreshToken := mk {
  ID : Z;
  TokenValue : string;
  TokenSHA256 : string;
  ClientID : Z;
  UserID : option Z;
  Subject : string;
  ScopesJSON : string;
  IssuedAt : time;
  ExpiresAt : time;
  RevokedAt : option time;
  ReplacedByTokenID : option Z;
  CreatedAt : time;
}.

Definition set_ID (id : Z) (m : RefreshToken) : RefreshToken :=
  mk id (TokenValue m) (TokenSHA256 m) (ClientID m) (UserID m) (Subject m) (ScopesJSON m)
     (IssuedAt m) (ExpiresAt m) (RevokedAt m) (ReplacedByTokenID m) (CreatedAt m).

Definition set_RevokedAt (t : option time) (m : RefreshToken) : RefreshToken :=
  mk (ID m) (TokenValue m) (TokenSHA256 m) (ClientID m) (UserID m) (Subject m) (ScopesJSON m)
     (IssuedAt m) (ExpiresAt m) t (ReplacedByTokenID m) (CreatedAt m).

Definition set_replaced (t : option time) (by_id : option Z) (m : RefreshToken) : RefreshToken :=
  mk (ID m) (TokenValue m) (TokenSHA256 m) (ClientID m) (UserID m) (Subject m) (ScopesJSON m)
     (IssuedAt m) (ExpiresAt m) t by_id (CreatedAt m).
End refresh.

Module operatorrole.
Record Model := mk {
  ID : Z;
  RoleCode : string;
  DisplayName : string;
  Description : string;
  PrivilegeMask : Z;
  IsSystem : bool;
  CreatedAt : time;
  UpdatedAt : time;
}.

Definition set_ID (id : Z) (m : Model) : Model :=
  mk id (RoleCode m) (DisplayName m) (Description m) (PrivilegeMask m) (IsSystem m)
     (CreatedAt m) (UpdatedAt m).

(** The three assignments of UpdateRole. *)
Definition edit (display description : string) (mask : Z) (m : Model) : Model :=
  mk (ID m) (RoleCode m) display description mask (IsSystem m) (CreatedAt m) (UpdatedAt m).
End operatorrole.
