(* ===== verification/HttpRedirects.v ===== *)
(** * Where browsers are sent (interfaces/http/handler)

    redirect_validation.go and post_login_redirect.go, which choose a local
    address to return to; the functions of authorize_handler.go and
    end_session_handler.go that answer to a client's redirect URI; and
    buildDenyRedirect of the consent service. *)

From stdpp Require Import base tactics list gmap strings numbers sorting.
From Stdlib Require Import ZArith Lia Ascii.
From S2P Require Import Prelude GoStrings GoText GoPath GoUrl GoNetUrl Domain.

(** ** Local addresses *)

(** [None] for errInvalidLocalRedirectTarget. *)
Definition validateLocalRedirectTarget (target : string) : option string :=
  let target := TrimSpace target in
  if String.eqb target "" then Some "" else
  if contains_ascii "\" target || HasPrefix target "//" then None else
  match Parse target with
  | None => None
  | Some u =>
      if negb (String.eqb (Scheme u) "") || negb (String.eqb (Host u) "") || bool_decide (is_Some (User u)) ||
         negb (String.eqb (Opaque u) "") then None else
      if negb (HasPrefix (Path u) "/") then None else
      Some (URL_String u)
  end.

Definition resolveBrowserPostLoginRedirect (returnTo upstreamRedirectURI roleCode : string) : string :=
  if negb (blank returnTo) then TrimSpace returnTo else
  if negb (blank upstreamRedirectURI) then TrimSpace upstreamRedirectURI else
  let role := ToLower (TrimSpace roleCode) in
  if String.eqb role "end_user" then "/"
  else if String.eqb role "support" then "/admin/workbench/support"
  else if String.eqb role "oauth_admin" then "/admin/workbench/oauth"
  else if String.eqb role "security_admin" then "/admin/workbench/security"
  else if String.eqb role "super_admin" then "/admin"
  else "".

(** ** Parameters added to an address *)

(** [q := u.Query(); ...; u.RawQuery = q.Encode(); return u.String()] *)
Definition set_query (f : values -> values) (u : URL) : string := URL_String (with_query u (Encode (f (Query u)))).

Definition set_if (key value : string) (m : values) : values := if String.eqb value "" then m else Values_Set key value m.

Definition withReturnTo (loginURI returnTo : string) : string :=
  match Parse loginURI with None => loginURI | Some u => set_query (Values_Set "return_to" returnTo) u end.

Definition success_params (code state : string) (q : values) : values := set_if "state" state (Values_Set "code" code q).

Definition buildAuthorizeSuccessRedirect (redirectURI code state : string) : option string :=
  option_map (set_query (success_params code state)) (Parse redirectURI).

Definition error_params (code description state : string) (q : values) : values :=
  set_if "state" state (set_if "error_description" description (Values_Set "error" code q)).

Definition buildAuthorizeErrorRedirect (redirectURI code description state : string) : option string :=
  option_map (set_query (error_params code description state)) (Parse redirectURI).

Definition buildDenyRedirect (redirectURI state : string) : option string :=
  option_map (set_query (fun q => set_if "state" state (Values_Set "error" "access_denied" q))) (Parse redirectURI).

Definition buildPostLogoutRedirect (redirectURI state : string) : string :=
  if blank state then redirectURI else
  match Parse redirectURI with None => redirectURI | Some u => set_query (Values_Set "state" state) u end.

(** [URL.RequestURI] of the request's URL *)
Definition RequestURI (u : URL) : string :=
  (if String.eqb (Opaque u) "" then if String.eqb (EscapedPath u) "" then "/" else EscapedPath u
   else if HasPrefix (Opaque u) "//" then Scheme u +:+ ":" +:+ Opaque u else Opaque u) +:+
  (if ForceQuery u || negb (String.eqb (RawQuery u) "") then "?" +:+ RawQuery u else "").

(** ** What the receiver reads *)

Lemma inhabited_set_if k v m : inhabited_values m -> inhabited_values (set_if k v m).
Proof. unfold set_if. case_match; [done | by apply inhabited_Set]. Qed.

#[export] Hint Resolve inhabited_set_if inhabited_Set inhabited_query : core.

(** The parameters of an address, and what stands before them. *)
Definition received (uri : string) : values := ParseQuery (request_query uri).

Definition few_params (m : values) : Prop := Z.of_nat (length (pairs_of m)) <= max_query_params.

#[export] Instance few_params_dec m : Decision (few_params m).
Proof. unfold few_params. apply _. Defined.

(** Parameters that were set are received, at the same address. *)
Lemma set_query_received raw u f k v : Parse raw = Some u -> (f (Query u)) !! k = Some [v] ->
  (forall m, inhabited_values m -> inhabited_values (f m)) -> few_params (f (Query u)) ->
  received (set_query f u) = f (Query u) /\ request_base (set_query f u) = front_String u.
Proof.
  intros Hu Hk Hf Hl. unfold received, set_query. eapply (replaced_query raw u (f (Query u)) k [v]); try done.
  apply Hf, inhabited_query.
Qed.

Lemma lookup_set_if k v m k' : set_if k v m !! k' = if String.eqb k' k && negb (String.eqb v "") then Some [v] else m !! k'.
Proof.
  unfold set_if, Values_Set. destruct (String.eqb_spec v ""); [by rewrite andb_false_r|]. rewrite andb_true_r.
  destruct (String.eqb_spec k' k) as [->|]; [by rewrite lookup_insert_eq | by rewrite lookup_insert_ne].
Qed.

Lemma success_code code state q : success_params code state q !! "code" = Some [code].
Proof. unfold success_params. rewrite lookup_set_if. apply lookup_insert_eq. Qed.

Lemma error_error code description state q : error_params code description state q !! "error" = Some [code].
Proof. unfold error_params. rewrite !lookup_set_if. apply lookup_insert_eq. Qed.

(** ** Local addresses stay local *)

(** What a browser takes for an address of the same site: it begins with
    one slash, or with a percent sign, so that no scheme and no host is in
    front, and has no backslash, which browsers read as a slash. *)
Definition stays_local (uri : string) : bool :=
  (HasPrefix uri "/" || HasPrefix uri "%") && negb (HasPrefix uri "//") && negb (contains_ascii "\" uri).

Lemma getScheme_none raw scheme rest : getScheme raw = Some (scheme, rest) -> scheme = "" -> rest = raw.
Proof.
  assert (Hgen : forall s first word o, (first = false -> word <> "") -> scheme_from first word s = Some o ->
    match o with None => True | Some (sch, _) => sch <> "" end).
  { induction s as [|a s IH]; intros first word o Hw; cbn [scheme_from]; [by intros [= <-]|].
    destruct (is_alpha a); [by apply IH|]. destruct (is_digit a || one_of [43; 45; 46] a).
    { destruct first; [by intros [= <-]|]. by apply IH. }
    destruct (byte_of a =? 58); [|by intros [= <-]]. destruct first; [done|]. intros [= <-] Hx.
    apply (Hw eq_refl). apply (f_equal string_rev) in Hx. by rewrite string_rev_involutive in Hx. }
  unfold getScheme. destruct (scheme_from true "" raw) as [o|] eqn:E; [|done]. apply Hgen in E; [|done].
  destruct o as [[sch r]|]; intros [= <- <-]; [|done]. intros ->. done.
Qed.

Lemma ToLower_nonempty s : ToLower s = "" -> s = "".
Proof.
  destruct s as [|a s]; [done|]. cbn [ToLower]. destruct s as [|b s]; [done|]. case_match; [done|]. destruct s; [done|]. by case_match.
Qed.

(** The path of an address without scheme and host, as it was written. *)
Record local_url (raw : string) (u : URL) (p : string) : Prop := {
  lo_prefix : exists t, raw = p +:+ t;
  lo_base : p = match cut_at "?" raw with Some (p, _) => p | None => raw end;
  lo_query : exists t, raw = t +:+ RawQuery u;
  lo_path : unescape encodePath p = Some (Path u);
  lo_raw : RawPath u = if String.eqb p (escape encodePath (Path u)) then "" else p;
  lo_colon : HasPrefix p "/" = true \/ segment_colon p = false;
  lo_clean : Scheme u = "" /\ Host u = "" /\ User u = None /\ Opaque u = "";
}.

Lemma parse_local raw u : parse raw false = Some u -> Scheme u = "" -> Host u = "" -> User u = None -> Opaque u = "" ->
  HasPrefix raw "//" = false -> raw <> "*" -> exists p, local_url raw u p.
Proof.
  intros Hp Hs Hh Hu Ho Hraw Hstar. unfold parse in Hp. case_match; [done|]. rewrite andb_false_r in Hp. cbn [andb orb] in Hp.
  rewrite (proj2 (String.eqb_neq _ _) Hstar) in Hp. destruct (getScheme raw) as [[scheme rest]|] eqn:Es; [|done]. cbv zeta in Hp.
  destruct (cut_query rest) as [[p q] forced] eqn:Eq. pose proof (cut_query_inv _ _ _ _ Eq) as [_ [t Ht]].
  assert (Hsc : ToLower scheme = "").
  { destruct (negb (HasPrefix p "/") && negb (String.eqb (ToLower scheme) "")); [by rewrite <- Hs; injection Hp as <-|].
    destruct (negb (HasPrefix p "/") && segment_colon p); [discriminate Hp|].
    destruct (cut_authority _ _ _) as [[[[us ho] rs] om]|]; [|discriminate Hp].
    destruct (set_encoded _ _); [|discriminate Hp]. cbn [option_map] in Hp. rewrite <- Hs. by injection Hp as <-. }
  apply ToLower_nonempty in Hsc as Hsc'. apply (getScheme_none _ _ _ Es) in Hsc' as ->. rewrite Hsc in Hp. cbn [String.eqb negb] in Hp.
  rewrite andb_false_r in Hp. cbn [orb] in Hp.
  destruct (negb (HasPrefix p "/") && segment_colon p) eqn:Ec; [done|].
  assert (Hpp : HasPrefix p "//" = false).
  { destruct (HasPrefix p "//") eqn:E; [|done]. apply HasPrefix_inv in E as [s ->].
    by rewrite Ht, <- string_app_assoc, HasPrefix_append in Hraw. }
  unfold cut_authority in Hp. rewrite Hpp, andb_false_r in Hp. cbn [String.eqb negb andb] in Hp. unfold set_encoded in Hp.
  destruct (unescape encodePath p) as [path|] eqn:Ep; [|done]. cbn [option_map fst snd] in Hp. injection Hp as <-.
  exists p. split; cbn; try done.
  - by exists t.
  - unfold cut_query in Eq. destruct (cut_at "?" raw) as [[x y]|]; by injection Eq as <- _ _.
  - unfold cut_query in Eq. destruct (cut_at "?" raw) as [[x y]|] eqn:Ex; injection Eq as <- <- <-.
    + apply cut_at_Some in Ex as [-> _]. exists (x +:+ "?"). by rewrite <- string_app_assoc.
    + exists raw. by rewrite string_app_nil_r.
  - destruct (HasPrefix p "/"); [by left | right; exact Ec].
Qed.

Lemma validEncoded_escape mode s : mode <> encodeQueryComponent -> validEncoded (escape mode s) mode = true.
Proof.
  intros Hm. unfold validEncoded. eapply forall_string_impl, escape_allowed; [|done]. intros a. unfold allowed.
  intros [Ha|Ha]%orb_true_iff; [|by rewrite Ha, orb_true_r]. apply Z.eqb_eq in Ha. unfold one_of. rewrite Ha. reflexivity.
Qed.

(** What is printed of its path. *)
Lemma local_EscapedPath raw u p : local_url raw u p -> HasPrefix (Path u) "/" = true ->
  EscapedPath u = (if validEncoded p encodePath then p else escape encodePath (Path u)) /\
  validEncoded (RawPath u) encodePath = validEncoded p encodePath.
Proof.
  intros [_ _ _ Hp Hr _ _] Hs. unfold EscapedPath. rewrite Hr.
  assert (Hstar : String.eqb (Path u) "*" = false) by (destruct (String.eqb_spec (Path u) "*") as [E|]; [by rewrite E in Hs | done]).
  rewrite Hstar. destruct (String.eqb_spec p (escape encodePath (Path u))) as [E|Hne].
  - cbn [String.eqb negb andb]. pose proof (validEncoded_escape encodePath (Path u) ltac:(done)) as Hv. rewrite <- E in Hv |- *. by rewrite Hv.
  - assert (Hp0 : p <> "") by (intros ->; injection Hp as Hp; by rewrite <- Hp in Hne).
    rewrite (proj2 (String.eqb_neq _ _) Hp0), (bool_decide_eq_true_2 _ Hp). cbn [negb andb]. by rewrite andb_true_r.
Qed.

Lemma escape_slash mode a s : HasPrefix (escape mode (String a s)) "/" = Ascii.eqb a "/" && negb (shouldEscape "/" mode).
Proof.
  cbn [escape]. destruct (Ascii.eqb_spec a "/") as [->|Hne].
  - destruct (shouldEscape "/" mode); [by case_match|]. unfold HasPrefix. cbn. by destruct (escape mode s).
  - unfold HasPrefix. repeat case_match; cbn [percent String.prefix]; by destruct (ascii_dec _ _).
Qed.

Lemma HasPrefix_same a s p : HasPrefix (String a s) (String a p) = HasPrefix s p.
Proof. unfold HasPrefix. cbn [String.prefix]. by destruct (ascii_dec a a). Qed.

Lemma slash_segment s : HasPrefix s "/" = true -> segment_colon s = false.
Proof. intros [t ->]%HasPrefix_inv. done. Qed.

Lemma escape_rooted s : HasPrefix s "/" = true ->
  HasPrefix (escape encodePath s) "/" = true /\ HasPrefix (escape encodePath s) "//" = HasPrefix s "//".
Proof.
  intros [t ->]%HasPrefix_inv. change ("/" +:+ t) with (String "/" t). split; [by rewrite escape_slash|].
  change (escape encodePath (String "/" t)) with (String "/" (escape encodePath t)). rewrite !HasPrefix_same.
  destruct t as [|b t]; [done|]. rewrite escape_slash. rewrite andb_true_r. unfold HasPrefix. cbn [String.prefix].
  destruct (Ascii.eqb_spec b "/") as [->|Hb]; [by destruct (ascii_dec "/" "/"), t|]. destruct (ascii_dec "/" b); [congruence | done].
Qed.

Lemma unescape_rooted p path : unescape encodePath p = Some path -> HasPrefix path "/" = true ->
  HasPrefix p "/" = true \/ HasPrefix p "%" = true.
Proof.
  destruct p as [|a p]; [by intros [= <-]|]. cbn [unescape]. destruct (Z.eqb_spec (byte_of a) 37) as [Ha|Ha].
  - intros _ _. right. assert (a = "%"%char) as -> by by rewrite <- (ascii_of_byte_of a), Ha. by rewrite HasPrefix_same; destruct p.
  - cbn [plain_ok]. rewrite (bool_decide_eq_false_2 (encodePath = encodeQueryComponent)), andb_false_r by done.
    destruct (unescape encodePath p) as [q|]; [|done]. intros [= <-] Hs. left. apply HasPrefix_inv in Hs as [t [= -> _]].
    rewrite HasPrefix_same. by destruct p.
Qed.

(** What is printed of such an address. *)
Lemma local_front raw u p : local_url raw u p -> HasPrefix (Path u) "/" = true ->
  front_String u = EscapedPath u /\ (HasPrefix (EscapedPath u) "/" = true \/ HasPrefix (EscapedPath u) "%" = true) /\
  segment_colon (EscapedPath u) = false.
Proof.
  intros Hl Hs. destruct (local_EscapedPath _ _ _ Hl Hs) as [He _]. destruct Hl as [_ _ _ Hp _ Hc (Hsc & Hh & Hu & Ho)].
  destruct (escape_rooted _ Hs) as [Hes _].
  assert (Hfirst : (HasPrefix (EscapedPath u) "/" = true \/ HasPrefix (EscapedPath u) "%" = true) /\ segment_colon (EscapedPath u) = false).
  { rewrite He. destruct (validEncoded p encodePath); [|split; [by left | by apply slash_segment]].
    split; [by eapply unescape_rooted|]. destruct Hc; [by apply slash_segment | done]. }
  split; [|exact Hfirst]. destruct Hfirst as [_ Hseg]. unfold front_String, hierarchy_String, authority_String.
  rewrite Ho, Hsc, Hh, (bool_decide_eq_true_2 _ Hu). cbn [String.eqb andb negb]. change ("" +:+ "") with "".
  rewrite andb_false_r. cbn [String.eqb andb]. by rewrite Hseg.
Qed.

Lemma no_char_app x s t : contains_ascii x (s +:+ t) = contains_ascii x s || contains_ascii x t.
Proof.
  unfold contains_ascii. induction s as [|a s IH]; [done|]. change (String a s +:+ t) with (String a (s +:+ t)). cbn [cut_at].
  destruct (Ascii.eqb a x); [done|]. revert IH. by destruct (cut_at x (s +:+ t)) as [[]|], (cut_at x s) as [[]|].
Qed.

Lemma no_char x s : contains_ascii x s = false <-> forall_string (fun c => negb (Ascii.eqb c x)) s = true.
Proof. unfold contains_ascii. rewrite <- cut_at_None. by destruct (cut_at x s). Qed.

Lemma escape_no_backslash mode s : mode <> encodeQueryComponent -> contains_ascii "\" (escape mode s) = false.
Proof.
  intros Hm. apply no_char. eapply forall_string_impl, escape_allowed; [|done]. intros a Ha. apply negb_true_iff, Ascii.eqb_neq. intros ->.
  by destruct mode.
Qed.

Lemma EscapedFragment_no_backslash raw f fr : set_encoded encodeFragment f = Some fr -> contains_ascii "\" f = false ->
  contains_ascii "\" (EscapedFragment (with_fragment raw fr)) = false.
Proof.
  unfold set_encoded. destruct (unescape encodeFragment f) as [d|]; [|done]. cbn [option_map]. intros [= <-] Hf.
  unfold EscapedFragment, escaped, with_fragment. cbn [RawFragment Fragment fst snd]. case_match; [|by apply escape_no_backslash].
  case_match; [done | exact Hf].
Qed.

Lemma parse_no_fragment raw via u : parse raw via = Some u -> Fragment u = "".
Proof.
  unfold parse. destruct (negb _); [done|]. destruct (_ && via); [done|]. destruct (String.eqb raw "*"); [by intros [= <-]|].
  destruct (getScheme raw) as [[scheme rest]|]; [|done]. cbv zeta. destruct (cut_query rest) as [[p q] forced].
  destruct (_ && _); [by intros [= <-]|]. destruct (_ && _); [done|]. destruct (cut_authority _ _ _) as [[[[us ho] rs] om]|]; [|done].
  destruct (set_encoded _ _); [|done]. by intros [= <-].
Qed.

Lemma Parse_inv t u : Parse t = Some u -> exists u0, parse (without_fragment t) false = Some u0 /\
  (u = u0 \/ exists x f fr, t = x +:+ String "#" f /\ set_encoded encodeFragment f = Some fr /\ u = with_fragment u0 fr).
Proof.
  unfold Parse, without_fragment. destruct (cut_at "#" t) as [[x f]|] eqn:Ec; [|intros Hu; exists u; by split; [|left]].
  destruct (parse x false) as [u0|]; [|done]. apply cut_at_Some in Ec as [-> _]. intros Hu. exists u0. split; [done|].
  destruct (String.eqb f ""); [injection Hu as ->; by left|]. destruct (set_encoded encodeFragment f) as [fr|] eqn:Ef; [|done].
  injection Hu as <-. right. by exists x, f, fr.
Qed.

Lemma without_fragment_prefix t : exists q, t = without_fragment t +:+ q.
Proof.
  unfold without_fragment. destruct (cut_at "#" t) as [[x y]|] eqn:Ec; [|exists ""; by rewrite string_app_nil_r].
  apply cut_at_Some in Ec as [-> _]. by eexists.
Qed.

(** An address that passed, part by part. *)
Lemma validated_parts target r : validateLocalRedirectTarget target = Some r -> r <> "" ->
  exists u p, Parse (TrimSpace target) = Some u /\ local_url (without_fragment (TrimSpace target)) u p /\
    HasPrefix (Path u) "/" = true /\ r = URL_String u /\ contains_ascii "\" (TrimSpace target) = false.
Proof.
  unfold validateLocalRedirectTarget. cbv zeta. set (t := TrimSpace target). intros Hv Hne.
  destruct (String.eqb t ""); [by injection Hv as <-|]. destruct (contains_ascii "\" t || HasPrefix t "//") eqn:Eb; [done|].
  apply orb_false_iff in Eb as [Hbs Hss]. destruct (Parse t) as [u|] eqn:Eu; [|done].
  destruct (_ || _) eqn:Eo; [done|]. apply orb_false_iff in Eo as [[[Hsc%negb_false_iff%String.eqb_eq Hh%negb_false_iff%String.eqb_eq]%orb_false_iff
    Hu%bool_decide_eq_false]%orb_false_iff Ho%negb_false_iff%String.eqb_eq].
  destruct (HasPrefix (Path u) "/") eqn:Hs; [|done]. injection Hv as <-.
  assert (Hu0 : User u = None) by (destruct (User u); [exfalso; apply Hu; by eexists | done]).
  destruct (without_fragment_prefix t) as [q Hq].
  assert (Hraw2 : HasPrefix (without_fragment t) "//" = false).
  { destruct (HasPrefix (without_fragment t) "//") eqn:E; [|done]. apply HasPrefix_inv in E as [x E].
    by rewrite Hq, E, <- string_app_assoc, HasPrefix_append in Hss. }
  destruct (Parse_inv _ _ Eu) as (u0 & Hp & Hf).
  assert (Hsame : Scheme u0 = Scheme u /\ Host u0 = Host u /\ User u0 = User u /\ Opaque u0 = Opaque u /\ Path u0 = Path u /\
    RawPath u0 = RawPath u /\ RawQuery u0 = RawQuery u) by (by destruct Hf as [->|(x & f & fr & _ & _ & ->)]).
  destruct Hsame as (S1 & S2 & S3 & S4 & S5 & S6 & S7).
  assert (Hstar : without_fragment t <> "*").
  { intros Hx. rewrite Hx in Hp. injection Hp as Hp. by rewrite <- S5, <- Hp in Hs. }
  destruct (parse_local _ _ Hp) as [p Hl]; try congruence. exists u, p. split; [done|]. split; [|done].
  destruct Hl as [L1 L2 L3 L4 L5 L6 L7]. split; [exact L1 | exact L2 | by rewrite <- S7 | by rewrite <- S5 | by rewrite <- S5, <- S6 | exact L6 |].
  by rewrite <- S1, <- S2, <- S3, <- S4.
Qed.

(** What follows the path. *)
Lemma printed_local raw u p : local_url raw u p -> HasPrefix (Path u) "/" = true ->
  exists tail, URL_String u = EscapedPath u +:+ tail /\ (tail = "" \/ exists t, tail = String "?" t \/ tail = String "#" t).
Proof.
  intros Hl Hs. destruct (local_front _ _ _ Hl Hs) as [Hf _]. unfold URL_String. rewrite Hf. eexists. split; [reflexivity|].
  case_match; [right; eexists; by left|]. case_match; [by left | right; eexists; by right].
Qed.

Lemma printed_no_backslash raw u p : local_url raw u p -> HasPrefix (Path u) "/" = true ->
  contains_ascii "\" raw = false -> (Fragment u = "" \/ contains_ascii "\" (EscapedFragment u) = false) ->
  contains_ascii "\" (URL_String u) = false.
Proof.
  intros Hl Hs Hraw Hfr. destruct (local_front _ _ _ Hl Hs) as [Hf _]. destruct (local_EscapedPath _ _ _ Hl Hs) as [He _].
  destruct Hl as [[t Hp] _ [q Hq] _ _ _ _]. unfold URL_String. rewrite Hf, !no_char_app, !orb_false_iff. split; [|split].
  - rewrite He. case_match; [|by apply escape_no_backslash]. rewrite Hp, no_char_app, orb_false_iff in Hraw. apply Hraw.
  - clear He. destruct (ForceQuery u || _); [|done]. rewrite no_char_app. rewrite Hq, no_char_app, orb_false_iff in Hraw. by rewrite (proj2 Hraw).
  - destruct (String.eqb_spec (Fragment u) ""); [done|]. rewrite no_char_app. destruct Hfr as [?|Hfr]; [done|]. by rewrite Hfr.
Qed.

Lemma rooted_app s t : HasPrefix s "/" = true \/ HasPrefix s "%" = true -> HasPrefix (s +:+ t) "/" || HasPrefix (s +:+ t) "%" = true.
Proof.
  intros [H|H]; apply HasPrefix_inv in H as [x ->]; rewrite <- string_app_assoc, HasPrefix_append; [done | apply orb_true_r].
Qed.

Lemma double_slash_app s tail : s <> "" -> (tail = "" \/ exists t, tail = String "?" t \/ tail = String "#" t) ->
  HasPrefix (s +:+ tail) "//" = HasPrefix s "//".
Proof.
  intros Hs Ht. destruct s as [|a [|b s]]; [done| |].
  - change (String a "" +:+ tail) with (String a tail). unfold HasPrefix. cbn [String.prefix]. destruct (ascii_dec "/" a); [|done].
    by destruct Ht as [->|[t [-> | ->]]].
  - change (String a (String b s) +:+ tail) with (String a (String b (s +:+ tail))). unfold HasPrefix. cbn [String.prefix].
    destruct (ascii_dec "/" a); [|done]. destruct (ascii_dec "/" b); [|done]. by destruct (s +:+ tail), s.
Qed.

(** Exactly when what is printed leaves the site. *)
Lemma printed_stays raw u p : local_url raw u p -> HasPrefix (Path u) "/" = true -> HasPrefix raw "//" = false ->
  contains_ascii "\" (URL_String u) = false ->
  stays_local (URL_String u) = negb (HasPrefix (Path u) "//" && negb (validEncoded (RawPath u) encodePath)).
Proof.
  intros Hl Hs Hraw Hb. destruct (local_front _ _ _ Hl Hs) as (_ & Hfirst & _). destruct (local_EscapedPath _ _ _ Hl Hs) as [He Hv].
  destruct (printed_local _ _ _ Hl Hs) as (tail & Hr & Ht). unfold stays_local. rewrite Hb, andb_true_r. rewrite Hr in *.
  rewrite rooted_app by done. cbn [andb]. rewrite double_slash_app; [|by destruct Hfirst as [H|H]; intros E; rewrite E in H|done].
  rewrite Hv, He. destruct (validEncoded p encodePath); cbn [negb]; [|rewrite andb_true_r; by rewrite (proj2 (escape_rooted _ Hs))].
  rewrite andb_false_r. destruct (HasPrefix p "//") eqn:E; [|done]. apply HasPrefix_inv in E as [x E].
  destruct Hl as [[t Hp] _ _ _ _ _ _]. by rewrite Hp, E, <- string_app_assoc, HasPrefix_append in Hraw.
Qed.

Lemma validated_stays target r : validateLocalRedirectTarget target = Some r -> r <> "" ->
  exists u p, Parse (TrimSpace target) = Some u /\ local_url (without_fragment (TrimSpace target)) u p /\ HasPrefix (Path u) "/" = true /\
    r = URL_String u /\ stays_local r = negb (HasPrefix (Path u) "//" && negb (validEncoded (RawPath u) encodePath)).
Proof.
  intros Hv Hne. destruct (validated_parts _ _ Hv Hne) as (u & p & Hu & Hl & Hs & -> & Hb). exists u, p. do 4 (split; [done|]).
  assert (Hss : HasPrefix (TrimSpace target) "//" = false).
  { unfold validateLocalRedirectTarget in Hv. cbv zeta in Hv. destruct (String.eqb_spec (TrimSpace target) "") as [->|]; [done|].
    destruct (contains_ascii _ _ || _) eqn:E; [done|]. by apply orb_false_iff in E as [_ E]. }
  set (t := TrimSpace target) in *. destruct (without_fragment_prefix t) as [q Hq].
  assert (Hraw : HasPrefix (without_fragment t) "//" = false).
  { destruct (HasPrefix (without_fragment t) "//") eqn:E; [|done]. apply HasPrefix_inv in E as [x E].
    by rewrite Hq, E, <- string_app_assoc, HasPrefix_append in Hss. }
  eapply printed_stays; [exact Hl | done | done |]. eapply printed_no_backslash; [exact Hl | done | |].
  - rewrite Hq, no_char_app, orb_false_iff in Hb. apply Hb.
  - destruct (Parse_inv _ _ Hu) as (u0 & Hp & [->|(x & f & fr & Hx & Hf & ->)]).
    + left. by eapply parse_no_fragment.
    + right. eapply EscapedFragment_no_backslash; [exact Hf|]. rewrite Hx, no_char_app, orb_false_iff in Hb. destruct Hb as [_ Hb].
      apply no_char in Hb. apply no_char. exact Hb.
Qed.

Lemma prefix_before p s path tail : p +:+ s = path +:+ tail -> forall_string inner p = true ->
  (tail = "" \/ exists t, tail = String "?" t \/ tail = String "#" t) -> exists x, path = p +:+ x.
Proof.
  revert path. induction p as [|a p IH]; intros path He Hp Ht; [by exists path|].
  cbn [forall_string] in Hp. apply andb_true_iff in Hp as [Ha Hp]. destruct path as [|b path].
  - change ("" +:+ tail) with tail in He. change (String a p +:+ s) with (String a (p +:+ s)) in He.
    destruct Ht as [->|[t [-> | ->]]]; [done | |]; injection He as -> _; done.
  - injection He as -> He. destruct (IH _ He Hp Ht) as [x ->]. by exists x.
Qed.

Lemma TrimSpace_prefix s : HasPrefix s "/" = true \/ HasPrefix s "%" = true -> exists q, s = TrimSpace s +:+ q.
Proof.
  intros Hs. unfold TrimSpace. assert (Hl : trimLeft s = s).
  { apply trim_with_id. destruct Hs as [H|H]; apply HasPrefix_inv in H as [t ->]; destruct t as [|b [|c t]]; reflexivity. }
  rewrite Hl. apply trimRight_prefix.
Qed.

Lemma stays_valid target r r' : validateLocalRedirectTarget target = Some r -> validateLocalRedirectTarget r = Some r' ->
  r' = "" \/ stays_local r' = true.
Proof.
  intros Hv Hv'. destruct (String.eqb_spec r' "") as [|Hne']; [by left | right].
  assert (Hne : r <> "") by (intros ->; by injection Hv' as <-).
  destruct (validated_stays _ _ Hv Hne) as (u & p & _ & Hl & Hs & Hr & _).
  destruct (validated_stays _ _ Hv' Hne') as (u' & p' & _ & Hl' & Hs' & _ & ->).
  destruct (local_EscapedPath _ _ _ Hl Hs) as [He _]. destruct (local_front _ _ _ Hl Hs) as (_ & Hfirst & _).
  destruct (printed_local _ _ _ Hl Hs) as (tail & Hp & Ht). destruct (local_EscapedPath _ _ _ Hl' Hs') as [_ ->].
  assert (Hvalid : validEncoded (EscapedPath u) encodePath = true) by (rewrite He; case_match; [done | by apply validEncoded_escape]).
  rewrite Hp in Hr. destruct (TrimSpace_prefix r) as [q1 Hq1].
  { apply orb_true_iff. rewrite Hr. by apply rooted_app. }
  destruct (without_fragment_prefix (TrimSpace r)) as [q2 Hq2].
  destruct Hl' as [[q3 Hq3] Hbase _ _ _ _ _].
  assert (Hinner : forall_string inner p' = true).
  { apply inner_split.
    - assert (Hn : forall_string (fun c => negb (Ascii.eqb c "#")) (without_fragment (TrimSpace r)) = true).
      { unfold without_fragment. destruct (cut_at "#" (TrimSpace r)) as [[x y]|] eqn:E; [by apply cut_at_Some in E as [_ E] | by apply cut_at_None]. }
      rewrite Hq3, forall_string_app, andb_true_iff in Hn. apply Hn.
    - rewrite Hbase. destruct (cut_at "?" _) as [[x y]|] eqn:E; [by apply cut_at_Some in E as [_ E] | by apply cut_at_None]. }
  destruct (prefix_before p' (q3 +:+ q2 +:+ q1) (EscapedPath u) tail) as [x Hx]; [|done|done|].
  { rewrite <- Hr, Hq1, Hq2, Hq3. by rewrite !string_app_assoc. }
  unfold validEncoded in Hvalid. rewrite Hx, forall_string_app, andb_true_iff in Hvalid. unfold validEncoded. rewrite (proj1 Hvalid).
  by rewrite andb_false_r.
Qed.

(** C16. Where the browser goes after logging in, logging out or enrolling:
    an address that [validateLocalRedirectTarget] lets pass is one of this
    site, with no scheme, host or backslash, except exactly when its path,
    once decoded, begins with two slashes and has a byte that a path may not
    hold as it is, because then the decoded path is printed; and an address
    that passed twice, as in the login handler, is always one of this site. *)
Theorem local_redirects target r :
  validateLocalRedirectTarget target = Some r ->
  (r = "" \/ exists u, Parse (TrimSpace target) = Some u /\
     (stays_local r = false <-> HasPrefix (Path u) "//" = true /\ validEncoded (RawPath u) encodePath = false)) /\
  (forall r', validateLocalRedirectTarget r = Some r' -> r' = "" \/ stays_local r' = true).
Proof.
  intros Hv. split; [|intros r'; by eapply stays_valid]. destruct (String.eqb_spec r "") as [|Hne]; [by left | right].
  destruct (validated_stays _ _ Hv Hne) as (u & p & Hu & _ & _ & _ & ->). exists u. split; [done|].
  by rewrite negb_false_iff, andb_true_iff, negb_true_iff.
Qed.

(** The hole: one decoded slash and one space. *)
Example redirect_hole : validateLocalRedirectTarget "/%2Fevil.example/a b" = Some "//evil.example/a%20b" /\
  stays_local "//evil.example/a%20b" = false /\ validateLocalRedirectTarget "//evil.example/a%20b" = None.
Proof. vm_compute. done. Qed.

Lemma local_redirects_witness :
  validateLocalRedirectTarget " /oauth2/authorize?client_id=web&state=a%20b#top " = Some "/oauth2/authorize?client_id=web&state=a%20b#top" /\
  stays_local "/oauth2/authorize?client_id=web&state=a%20b#top" = true.
Proof.
  assert (H : validateLocalRedirectTarget " /oauth2/authorize?client_id=web&state=a%20b#top " = Some "/oauth2/authorize?client_id=web&state=a%20b#top")
    by reflexivity.
  split; [exact H|]. destruct (proj2 (local_redirects _ _ H) "/oauth2/authorize?client_id=web&state=a%20b#top" eq_refl) as [Hx|Hx]; [discriminate | exact Hx].
Defined.
