(* ===== verification/Ports.v ===== *)
(** * The ports

    The Go interfaces of internal/ports as records of operations over an
    abstract world [W] (the databases, the cache server, the clock and the
    random source), and the cache entries they exchange.  An operation that
    fills in fields of the model it is given returns the model as the caller
    sees it afterwards.  What an interface returns as a nil pointer is
    [None]. *)

From stdpp Require Import base tactics list gmap strings.
From S2P Require Import Prelude GoStrings GoTime Errors Domain.

(** ** The runtime: clock, google/uuid, crypto/rand *)

Class Runtime (W : Type) := {
  time_Now : W -> time * W;
  uuid_NewString : W -> string * W;
  rand_Read : nat -> W -> result error (list Z) * W;
}.

Section RuntimeOps.
Context {W : Type} `{Runtime W}.

Definition now : IO W time := fun w => let '(t, w') := time_Now w in (Ok t, w').
Definition NewString : IO W string := fun w => let '(u, w') := uuid_NewString w in (Ok u, w').
Definition rand_bytes (n : nat) : IO W (list Z) := rand_Read n.

(** [time.Until(t)] *)
Definition Until (t : time) : IO W duration := let* n := now in ret (Sub t n).
End RuntimeOps.

(** ** Cache entries *)

Record AccessTokenCacheEntry := mkAccessTokenCacheEntry {
  ace_TokenSHA256 : string;
  ace_ClientID : string;
  ace_UserID : string;
  ace_Subject : string;
  ace_ScopesJSON : string;
  ace_AudienceJSON : string;
  ace_TokenType : string;
  ace_TokenFormat : string;
  ace_IssuedAt : time;
  ace_ExpiresAt : time;
}.

Record RefreshTokenCacheEntry := mkRefreshTokenCacheEntry {
  rce_TokenSHA256 : string;
  rce_ClientID : string;
  rce_UserID : string;
  rce_Subject : string;
  rce_ScopesJSON : string;
  rce_FamilyID : string;
  rce_IssuedAt : time;
  rce_ExpiresAt : time;
}.

Record TokenResponseCacheEntry := mkTokenResponseCacheEntry {
  tre_AccessToken : string;
  tre_TokenType : string;
  tre_ExpiresIn : Z;
  tre_RefreshToken : string;
  tre_Scope : string;
  tre_IDToken : string;
}.

Inductive RefreshTokenReplayStatus :=
| RefreshTokenReplayNone
| RefreshTokenReplayGrace
| RefreshTokenReplayRejected.

#[export] Instance RefreshTokenReplayStatus_eq_dec : EqDecision RefreshTokenReplayStatus.
Proof. solve_decision. Defined.

Record RefreshTokenReplayResult := mkRefreshTokenReplayResult {
  rr_Status : RefreshTokenReplayStatus;
  rr_Response : option TokenResponseCacheEntry;
}.

Record SessionCacheEntry := mkSessionCacheEntry {
  sce_SessionID : string;
  sce_UserID : string;
  sce_Subject : string;
  sce_ACR : string;
  sce_AMRJSON : string;
  sce_IPAddress : string;
  sce_UserAgent : string;
  sce_AuthenticatedAt : time;
  sce_ExpiresAt : time;
  sce_Status : string;
  sce_StateMask : Z;
  sce_StateVersion : Z;
}.

(** The zero [time.Time] of a field that was not set is [None]. *)
Record DeviceCodeEntry := mkDeviceCodeEntry {
  dce_DeviceCode : string;
  dce_UserCode : string;
  dce_ClientID : string;
  dce_ClientName : string;
  dce_ScopesJSON : string;
  dce_Status : string;
  dce_UserID : string;
  dce_Subject : string;
  dce_ExpiresAt : time;
  dce_ApprovedAt : option time;
  dce_DeniedAt : option time;
  dce_ConsumedAt : option time;
  dce_LastPolledAt : option time;
  dce_Interval : Z;
}.

(** ** Claims of a token handed to the signer *)

Inductive claim :=
| ClaimString (s : string)
| ClaimStrings (l : option (list string))
| ClaimInt (z : Z)
| ClaimBool (b : bool).

Definition claims : Type := gmap string claim.

(** ** Repositories *)

Section Interfaces.
Context (W : Type).

Record AuthorizationCodeRepository := {
  AuthorizationCode_Create : authorization.Model -> IO W authorization.Model;
  ConsumeByCode : string -> time -> IO W (option authorization.Model);
}.

Record ClientRepository := {
  FindByClientID : string -> IO W (option client.Model);
  HasPostLogoutRedirectURI : Z -> string -> IO W bool;
  CreateClient : client.Model -> IO W client.Model;
  RegisterRedirectURIs : Z -> list string -> IO W Z;
  RegisterPostLogoutRedirectURIs : Z -> list string -> IO W Z;
}.

Record ConsentRepository := {
  HasActiveConsent : Z -> Z -> list string -> IO W bool;
  UpsertActiveConsent : Z -> Z -> list string -> time -> IO W unit;
}.

Record OperatorRoleRepository := {
  Role_Upsert : operatorrole.Model -> IO W operatorrole.Model;
  Role_Create : operatorrole.Model -> IO W operatorrole.Model;
  Role_Update : operatorrole.Model -> IO W unit;
  DeleteByRoleCode : string -> IO W unit;
  FindByRoleCode : string -> IO W (option operatorrole.Model);
  Role_List : IO W (list (option operatorrole.Model));
}.

Record SessionRepository := {
  Session_Create : session.Model -> IO W session.Model;
  FindBySessionID : string -> IO W (option session.Model);
  ListActiveByUserID : Z -> IO W (list (option session.Model));
  LogoutBySessionID : string -> time -> IO W unit;
  LogoutAllByUserID : Z -> time -> IO W unit;
}.

Record TokenRepository := {
  CreateAccessToken : access.AccessToken -> IO W access.AccessToken;
  CreateRefreshToken : refresh.RefreshToken -> IO W refresh.RefreshToken;
  FindActiveAccessTokenBySHA256 : string -> IO W (option access.AccessToken);
  FindActiveRefreshTokenBySHA256 : string -> IO W (option refresh.RefreshToken);
  RotateRefreshToken : string -> time -> refresh.RefreshToken -> IO W refresh.RefreshToken;
}.

Record UserRepository := {
  User_Create : user.Model -> IO W user.Model;
  User_FindByID : Z -> IO W (option user.Model);
  FindByUserUUID : string -> IO W (option user.Model);
  FindByEmail : string -> IO W (option user.Model);
  FindByUsername : string -> IO W (option user.Model);
  ListByRoleCode : string -> Z -> IO W (list (option user.Model));
  CountByRoleCode : string -> IO W Z;
  UpdateRoleAndPrivilege : Z -> string -> Z -> string -> IO W unit;
  UnlockAccount : Z -> time -> IO W unit;
  IncrementFailedLogin : Z -> IO W Z;
  ResetFailedLogin : Z -> time -> IO W unit;
}.

(** application/session: the part of the token repository used to revoke. *)
Record tokenRevoker := {
  ListActiveAccessTokensByUserID : Z -> IO W (list (option access.AccessToken));
  ListActiveRefreshTokensByUserID : Z -> IO W (list (option refresh.RefreshToken));
  RevokeAccessTokensByUserID : Z -> time -> IO W unit;
  RevokeRefreshTokensByUserID : Z -> time -> IO W unit;
}.

(** ** Caches *)

Record TokenCacheRepository := {
  SaveAccessToken : AccessTokenCacheEntry -> duration -> IO W unit;
  GetAccessToken : string -> IO W (option AccessTokenCacheEntry);
  SaveRefreshToken : RefreshTokenCacheEntry -> duration -> IO W unit;
  GetRefreshToken : string -> IO W (option RefreshTokenCacheEntry);
  CheckRefreshTokenReplay : string -> string -> IO W (option RefreshTokenReplayResult);
  Cache_RotateRefreshToken : string -> RefreshTokenCacheEntry -> TokenResponseCacheEntry ->
    string -> duration -> duration -> IO W unit;
  RevokeAccessToken : string -> duration -> IO W unit;
  RevokeRefreshToken : string -> duration -> IO W unit;
  IsAccessTokenRevoked : string -> IO W bool;
  IsRefreshTokenRevoked : string -> IO W bool;
}.

Record SessionCacheRepository := {
  SessionCache_Save : SessionCacheEntry -> duration -> IO W unit;
  SessionCache_Get : string -> IO W (option SessionCacheEntry);
  SessionCache_Delete : string -> IO W unit;
  AddUserSessionIndex : string -> string -> duration -> IO W unit;
  ListUserSessionIDs : string -> IO W (list string);
  RemoveUserSessionIndex : string -> string -> IO W unit;
}.

Record DeviceCodeRepository := {
  Device_Save : DeviceCodeEntry -> duration -> IO W unit;
  GetByDeviceCode : string -> IO W (option DeviceCodeEntry);
  GetByUserCode : string -> IO W (option DeviceCodeEntry);
  Device_Approve : string -> string -> string -> time -> IO W unit;
  Device_Deny : string -> time -> IO W unit;
  MarkConsumed : string -> time -> IO W unit;
  TouchPoll : string -> time -> duration -> IO W bool;
}.

(** ** Security *)

(** [VerifyPassword] returns nil exactly when the boolean is true; the
    services never look at which error it is. *)
Record PasswordVerifier := {
  HashPassword : string -> IO W string;
  VerifyPassword : string -> string -> bool;
}.

Record Signer := {
  Mint : claims -> IO W string;
}.
End Interfaces.

Arguments AuthorizationCode_Create {W} _ _.
Arguments ConsumeByCode {W} _ _ _.
Arguments FindByClientID {W} _ _.
Arguments HasPostLogoutRedirectURI {W} _ _ _.
Arguments CreateClient {W} _ _.
Arguments RegisterRedirectURIs {W} _ _ _.
Arguments RegisterPostLogoutRedirectURIs {W} _ _ _.
Arguments HasActiveConsent {W} _ _ _ _.
Arguments UpsertActiveConsent {W} _ _ _ _ _.
Arguments Role_Upsert {W} _ _.
Arguments Role_Create {W} _ _.
Arguments Role_Update {W} _ _.
Arguments DeleteByRoleCode {W} _ _.
Arguments FindByRoleCode {W} _ _.
Arguments Role_List {W} _.
Arguments Session_Create {W} _ _.
Arguments FindBySessionID {W} _ _.
Arguments ListActiveByUserID {W} _ _.
Arguments LogoutBySessionID {W} _ _ _.
Arguments LogoutAllByUserID {W} _ _ _.
Arguments CreateAccessToken {W} _ _.
Arguments CreateRefreshToken {W} _ _.
Arguments FindActiveAccessTokenBySHA256 {W} _ _.
Arguments FindActiveRefreshTokenBySHA256 {W} _ _.
Arguments RotateRefreshToken {W} _ _ _ _.
Arguments User_Create {W} _ _.
Arguments User_FindByID {W} _ _.
Arguments FindByUserUUID {W} _ _.
Arguments FindByEmail {W} _ _.
Arguments FindByUsername {W} _ _.
Arguments ListByRoleCode {W} _ _ _.
Arguments CountByRoleCode {W} _ _.
Arguments UpdateRoleAndPrivilege {W} _ _ _ _ _.
Arguments UnlockAccount {W} _ _ _.
Arguments IncrementFailedLogin {W} _ _.
Arguments ResetFailedLogin {W} _ _ _.
Arguments ListActiveAccessTokensByUserID {W} _ _.
Arguments ListActiveRefreshTokensByUserID {W} _ _.
Arguments RevokeAccessTokensByUserID {W} _ _ _.
Arguments RevokeRefreshTokensByUserID {W} _ _ _.
Arguments SaveAccessToken {W} _ _ _.
Arguments GetAccessToken {W} _ _.
Arguments SaveRefreshToken {W} _ _ _.
Arguments GetRefreshToken {W} _ _.
Arguments CheckRefreshTokenReplay {W} _ _ _.
Arguments Cache_RotateRefreshToken {W} _ _ _ _ _ _ _.
Arguments RevokeAccessToken {W} _ _ _.
Arguments RevokeRefreshToken {W} _ _ _.
Arguments IsAccessTokenRevoked {W} _ _.
Arguments IsRefreshTokenRevoked {W} _ _.
Arguments SessionCache_Save {W} _ _ _.
Arguments SessionCache_Get {W} _ _.
Arguments SessionCache_Delete {W} _ _.
Arguments AddUserSessionIndex {W} _ _ _ _.
Arguments ListUserSessionIDs {W} _ _.
Arguments RemoveUserSessionIndex {W} _ _ _.
Arguments Device_Save {W} _ _ _.
Arguments GetByDeviceCode {W} _ _.
Arguments GetByUserCode {W} _ _.
Arguments Device_Approve {W} _ _ _ _ _.
Arguments Device_Deny {W} _ _ _.
Arguments MarkConsumed {W} _ _ _.
Arguments TouchPoll {W} _ _ _ _.
Arguments HashPassword {W} _ _.
Arguments VerifyPassword {W} _ _ _.
Arguments Mint {W} _ _.
