(* ===== verification/Browser.v ===== *)
(** * Pages and forms (interfaces/http/handler: csrf.go, and what the pages share)

    What the handlers read of a request and write to a response through
    gin.Context, and the double-submit token that keeps forms of other sites
    out: a cookie the server set, sent back in a form field or a header. *)

From stdpp Require Import base tactics list strings numbers.
From Stdlib Require Import ZArith Lia Ascii.
From S2P Require Import Prelude GoStrings GoText GoCrypto GoBase64 GoJson GoJsonObject GoNetUrl GoTime Errors Domain Ports.

(** ** Requests and responses *)

(** [rq_cookie] and [rq_header] give the empty string for what is absent;
    every handler drops the error of [c.Cookie]. *)
Record request := mkRequest {
  rq_GET : bool;
  rq_URL : URL;
  rq_cookie : string -> string;
  rq_header : string -> string;
  rq_clientIP : string;
}.

(** [c.Query] *)
Definition query_value (rq : request) (key : string) : string := Values_Get (Query (rq_URL rq)) key.

(** [c.SetCookie]: every cookie has the path / and no domain. *)
Record cookie := mkCookie { ck_name : string; ck_value : string; ck_maxAge : Z; ck_secure : bool; ck_httpOnly : bool }.

Inductive datum :=
| Str (s : string)
| Bool (b : bool)
| Int (n : Z)
| Time (t : time)
| Strs (l : list string)
| Val (v : json).

Abbreviation fields := (list (string * datum)).

Inductive body :=
| Redirect (location : string)
| JSON (content : fields)
| HTML (template : string) (data : fields)
| Text (content : string).

Record response := mkResponse { rs_status : Z; rs_cookies : list cookie; rs_body : body }.

Definition StatusOK : Z := 200.
Definition StatusFound : Z := 302.
Definition StatusBadRequest : Z := 400.
Definition StatusUnauthorized : Z := 401.
Definition StatusForbidden : Z := 403.
Definition StatusConflict : Z := 409.
Definition StatusLocked : Z := 423.
Definition StatusTooManyRequests : Z := 429.
Definition StatusInternalServerError : Z := 500.
Definition StatusServiceUnavailable : Z := 503.

(** [gin.H{"error": ...}] *)
Definition json_error (cookies : list cookie) (status : Z) (text : string) : response :=
  mkResponse status cookies (JSON [("error", Str text)]).
Definition redirect (cookies : list cookie) (location : string) : response := mkResponse StatusFound cookies (Redirect location).

(** consent_handler.go *)
Definition wantsHTML (rq : request) : bool :=
  let accept := ToLower (rq_header rq "Accept") in
  String.eqb accept "" || Contains accept "text/html" || Contains accept "*/*".

Definition session_cookie : string := "idp_session".
Definition csrfCookieName : string := "idp_csrf_token".
Definition csrfHeaderName : string := "X-CSRF-Token".
Definition csrfCookieMaxAge : Z := 12 * 60 * 60.
Definition mfaChallengeCookieName : string := "idp_mfa_challenge".
Definition invalid_csrf_token : string := "invalid csrf token".

(** redirect_validation.go *)
Definition invalid_return_to : string := "invalid return_to".

(** The cookies that end a session, and a login. *)
Definition clear_session : cookie := mkCookie session_cookie "" (-1) true true.
Definition clear_challenge : cookie := mkCookie mfaChallengeCookieName "" (-1) true true.

(** ** csrf.go *)

Section Csrf.
Context {W : Type} `{!Runtime W}.

Definition readCSRFCookie (rq : request) : string := rq_cookie rq csrfCookieName.

Definition newCSRFToken : IO W string := let* token := rand_bytes 32 in ret (RawURLEncode token).

(** The token, and the cookie to set when it is new. *)
Definition ensureCSRFToken (rq : request) : IO W (string * list cookie) :=
  let token := TrimSpace (readCSRFCookie rq) in
  if negb (String.eqb token "") then ret (token, []) else
  let* token := newCSRFToken in
  ret (token, [mkCookie csrfCookieName token csrfCookieMaxAge true false]).

(** Whether the submitted token is accepted. *)
Definition validateCSRFToken (rq : request) (submittedToken : string) : bool :=
  let submittedToken := TrimSpace submittedToken in
  let submittedToken := if String.eqb submittedToken "" then TrimSpace (rq_header rq csrfHeaderName) else submittedToken in
  let cookieToken := TrimSpace (readCSRFCookie rq) in
  if String.eqb submittedToken "" || String.eqb cookieToken "" then false else String.eqb submittedToken cookieToken.

Definition writeCSRFError (rq : request) : response :=
  if wantsHTML rq then mkResponse StatusForbidden [] (Text invalid_csrf_token) else json_error [] StatusForbidden invalid_csrf_token.

(** [maxAge := int(time.Until(expiresAt).Seconds())] *)
Definition seconds_until (expiresAt : time) : IO W Z := let* t := now in ret (Z.quot (Sub expiresAt t) Second).

(** A page that insists on its token: without one to show it is an error. *)
Definition strict_page (template : string) (rq : request) (cookies : list cookie) (status : Z) (token : string) (data : fields) : IO W response :=
  if negb (String.eqb token "") then ret (mkResponse status cookies (HTML template (("CSRFToken", Str token) :: data))) else
  let* issued := attempt (ensureCSRFToken rq) in
  ret match issued with
      | Err _ => json_error cookies StatusInternalServerError "failed to generate csrf token"
      | Ok (token, set) => mkResponse status (cookies ++ set) (HTML template (("CSRFToken", Str token) :: data))
      end.

(** A page that goes without. *)
Definition lenient_token (rq : request) : IO W (string * list cookie) :=
  let* issued := attempt (ensureCSRFToken rq) in
  ret match issued with Ok issued => issued | Err _ => ("", []) end.
End Csrf.
