(* ===== verification/AuthPorts.v ===== *)
(** * The ports of login, registration and second factors

    More of internal/ports: one-time passwords, passkeys, rate limits, short
    lived MFA state and the login methods.  As in [Ports], an interface is a
    record of operations over the world; an operation of a concrete type that
    the source reaches by a type assertion is an [option]. *)

From stdpp Require Import base tactics list gmap strings.
From S2P Require Import Prelude GoStrings GoTime Errors Domain Ports.

(** ** domain/totp and domain/passkey *)

Module totp.
Record Model := mk {
  ID : Z;
  UserID : Z;
  Secret : string;
  EnabledAt : time;
  CreatedAt : time;
  UpdatedAt : time;
}.
End totp.

Module passkey.
Record Model := mk {
  ID : Z;
  UserID : Z;
  CredentialID : string;
  CredentialJSON : string;
  LastUsedAt : option time;
  CreatedAt : time;
  UpdatedAt : time;
}.
End passkey.

(** ** ports/cache: entries *)

Record TOTPEnrollmentEntry := mkTOTPEnrollmentEntry {
  tee_SessionID : string;
  tee_UserID : string;
  tee_Secret : string;
  tee_ProvisioningURI : string;
  tee_ExpiresAt : time;
}.

Record MFAChallengeEntry := mkMFAChallengeEntry {
  mce_ChallengeID : string;
  mce_UserID : string;
  mce_Subject : string;
  mce_Username : string;
  mce_IPAddress : string;
  mce_UserAgent : string;
  mce_ReturnTo : string;
  mce_RedirectURI : string;
  mce_MFAMode : string;
  mce_PushStatus : string;
  mce_PushCode : string;
  mce_ApproverUserID : string;
  mce_DecidedAt : time;
  mce_PasskeySessionJSON : string;
  mce_ExpiresAt : time;
  mce_StateMask : Z;
  mce_StateVersion : Z;
}.

Definition TOTPPurposeLogin : string := "login".
Definition TOTPPurposeEnable2FA : string := "enable_2fa".
Definition TOTPPurposeResetPassword : string := "reset_password".

Record RateLimitIncrementResult := mkRateLimitIncrementResult {
  rli_Count : Z;
  rli_Locked : bool;
}.

(** ** ports/plugin: login methods *)

Abbreviation AuthnMethodType := string (only parsing).
Definition AuthnMethodTypePassword : AuthnMethodType := "password".
Definition AuthnMethodTypeFederatedOIDC : AuthnMethodType := "federated_oidc".

Module plugin.
Record AuthenticateInput := mkInput {
  in_Username : string;
  in_Password : string;
  in_RedirectURI : string;
  in_ReturnTo : string;
  in_State : string;
  in_Code : string;
  in_Nonce : string;
  in_User : option user.Model;
}.

Record AuthenticateResult := mkResult {
  Handled : bool;
  Authenticated : bool;
  UserID : Z;
  UserStatus : string;
  Subject : string;
  IdentityProvider : string;
  Username : string;
  DisplayName : string;
  Email : string;
  RedirectURI : string;
}.
End plugin.

(** ** ports/security *)

Record PasskeyUser := mkPasskeyUser {
  pu_UserHandle : string;
  pu_Username : string;
  pu_DisplayName : string;
}.

Section Interfaces.
Context (W : Type).

(** The methods besides [Authenticate] are constants of the plugin. *)
Record AuthnMethod := mkAuthnMethod {
  method_Name : string;
  method_Type : AuthnMethodType;
  method_Authenticate : plugin.AuthenticateInput -> IO W (option plugin.AuthenticateResult);
}.

Record MFARepository := {
  SaveTOTPEnrollment : TOTPEnrollmentEntry -> duration -> IO W unit;
  GetTOTPEnrollment : string -> IO W (option TOTPEnrollmentEntry);
  DeleteTOTPEnrollment : string -> IO W unit;
  ReserveTOTPStepUse : string -> string -> Z -> duration -> IO W bool;
  SaveMFAChallenge : MFAChallengeEntry -> duration -> IO W unit;
  GetMFAChallenge : string -> IO W (option MFAChallengeEntry);
  DeleteMFAChallenge : string -> IO W unit;
}.

Record RateLimitRepository := {
  IncrementLoginFailByUser : string -> string -> duration -> Z -> duration ->
    IO W (option RateLimitIncrementResult);
  IncrementLoginFailByIP : string -> duration -> Z -> duration -> IO W (option RateLimitIncrementResult);
  GetLoginFailByUser : string -> IO W Z;
  GetLoginFailByIP : string -> IO W Z;
  ResetLoginFailByUser : string -> IO W unit;
  ResetLoginFailByIP : string -> IO W unit;
  IncrementBlacklistByUser : string -> string -> Z -> IO W (option RateLimitIncrementResult);
  ResetBlacklistByUser : string -> IO W unit;
  SetUserLock : string -> duration -> IO W unit;
  IsUserLocked : string -> IO W bool;
  ClearUserLock : string -> IO W unit;
  IsIPLocked : string -> IO W bool;
  ClearIPLock : string -> IO W unit;
}.

Record TOTPRepository := {
  TOTP_FindByUserID : Z -> IO W (option totp.Model);
  TOTP_Upsert : totp.Model -> IO W unit;
  TOTP_DeleteByUserID : Z -> IO W unit;
}.

Record PasskeyCredentialRepository := {
  Passkey_ListByUserID : Z -> IO W (list (option passkey.Model));
  Passkey_Upsert : passkey.Model -> IO W unit;
  Passkey_TouchByCredentialID : string -> time -> IO W unit;
}.

(** [VerifyCodeWithStep] is a function of its arguments: the step matched,
    or [None]. *)
Record TOTPProvider := {
  GenerateSecret : IO W string;
  ProvisioningURI : string -> string -> string -> string;
  VerifyCodeWithStep : string -> string -> time -> option Z;
}.

(** The WebAuthn library behind the port draws random challenges. *)
Record PasskeyProvider := {
  BeginRegistration : PasskeyUser -> list string -> IO W (string * string);
  FinishRegistration : PasskeyUser -> list string -> string -> string -> IO W (string * string);
  BeginLogin : PasskeyUser -> list string -> IO W (string * string);
  FinishLogin : PasskeyUser -> list string -> string -> string -> IO W (string * string);
}.

(** What a user repository may offer besides its interface. *)
Record UserAccounts := {
  LockAccount : option (Z -> time -> IO W unit);
  UpdatePasswordHash : option (Z -> string -> time -> IO W unit);
}.
End Interfaces.

Arguments method_Name {W} _.
Arguments method_Type {W} _.
Arguments method_Authenticate {W} _ _.
Arguments SaveTOTPEnrollment {W} _ _ _.
Arguments GetTOTPEnrollment {W} _ _.
Arguments DeleteTOTPEnrollment {W} _ _.
Arguments ReserveTOTPStepUse {W} _ _ _ _ _.
Arguments SaveMFAChallenge {W} _ _ _.
Arguments GetMFAChallenge {W} _ _.
Arguments DeleteMFAChallenge {W} _ _.
Arguments IncrementLoginFailByUser {W} _ _ _ _ _ _.
Arguments IncrementLoginFailByIP {W} _ _ _ _ _.
Arguments GetLoginFailByUser {W} _ _.
Arguments GetLoginFailByIP {W} _ _.
Arguments ResetLoginFailByUser {W} _ _.
Arguments ResetLoginFailByIP {W} _ _.
Arguments IncrementBlacklistByUser {W} _ _ _ _.
Arguments ResetBlacklistByUser {W} _ _.
Arguments SetUserLock {W} _ _ _.
Arguments IsUserLocked {W} _ _.
Arguments ClearUserLock {W} _ _.
Arguments IsIPLocked {W} _ _.
Arguments ClearIPLock {W} _ _.
Arguments TOTP_FindByUserID {W} _ _.
Arguments TOTP_Upsert {W} _ _.
Arguments TOTP_DeleteByUserID {W} _ _.
Arguments Passkey_ListByUserID {W} _ _.
Arguments Passkey_Upsert {W} _ _.
Arguments Passkey_TouchByCredentialID {W} _ _ _.
Arguments GenerateSecret {W} _.
Arguments ProvisioningURI {W} _ _ _ _.
Arguments VerifyCodeWithStep {W} _ _ _ _.
Arguments BeginRegistration {W} _ _ _.
Arguments FinishRegistration {W} _ _ _ _ _.
Arguments BeginLogin {W} _ _ _.
Arguments FinishLogin {W} _ _ _ _ _.
Arguments LockAccount {W} _.
Arguments UpdatePasswordHash {W} _.
