(* ===== verification/Totp.v ===== *)
(** * One-time passwords (infrastructure/security/totp.go)

    RFC 6238 over HMAC-SHA-1: secrets in base32, a 30-second step, six
    digits, one step of clock skew either way.  The step that matched is
    returned, so that the caller can reserve it. *)

From stdpp Require Import base tactics list strings numbers.
From Stdlib Require Import ZArith Lia Ascii String.
From S2P Require Import Prelude GoStrings GoJson GoJsonObject GoCrypto GoUrl GoTime Errors Ports AuthPorts.

Record Provider := mkProvider { period : Z; digits : nat; skew : nat }.

Definition NewTOTPProvider : Provider := mkProvider 30 6 1.

Section Provider.
Context (p : Provider).

(** ["%0*d"] of a number that is not negative. *)
Definition zero_padded (width : nat) (n : Z) : string :=
  let s := FormatInt n in string_of_list_ascii (replicate (width - String.length s) "0"%char) +:+ s.

(** [sum[offset:offset+4]], big endian *)
Definition uint32_at (sum : list Z) (offset : nat) : Z :=
  nth 0 (be_words (take 4 (drop offset sum))) 0.

Definition truncated (sum : list Z) : Z :=
  let offset := Z.to_nat (Z.land (List.last sum 0) 15) in
  Z.land (uint32_at sum offset) 0x7fffffff.

Definition generateCode (key : list Z) (counter : Z) : string :=
  let sum := hmac_sha1 key (be_bytes 8 (counter mod 2 ^ 64)) in
  zero_padded (digits p) (truncated sum mod 10 ^ Z.of_nat (digits p)).

(** The loop [for offset := -skew; offset <= skew; offset++]. *)
Fixpoint match_step (key : list Z) (code : string) (step : Z) (n : nat) : option Z :=
  match n with
  | O => None
  | S n' => if String.eqb (generateCode key step) code then Some step else match_step key code (step + 1) n'
  end.

Definition counter_at (t : time) : Z := Z.quot (Unix t) (period p).

Definition decode_secret (secret : string) : option (list Z) :=
  base32_DecodeNoPadding (ToUpper (TrimSpace secret)).

Definition VerifyCodeWithStep (secret code : string) (now : time) : option Z :=
  let code := TrimSpace code in
  if negb (String.length code =? digits p)%nat then None else
  match decode_secret secret with
  | None | Some [] => None
  | Some key => match_step key code (counter_at now - Z.of_nat (skew p)) (2 * skew p + 1)
  end.

Definition VerifyCode (secret code : string) (now : time) : bool :=
  match VerifyCodeWithStep secret code now with Some _ => true | None => false end.

Definition ProvisioningURI (issuer accountName secret : string) : string :=
  let issuer := TrimSpace issuer in
  let accountName := TrimSpace accountName in
  let label := if String.eqb issuer "" then PathEscape accountName
               else PathEscape (issuer +:+ ":" +:+ accountName) in
  let values :=
    [("algorithm", "SHA1"); ("digits", FormatInt (Z.of_nat (digits p)))]
    ++ (if String.eqb issuer "" then [] else [("issuer", issuer)])
    ++ [("period", FormatInt (period p)); ("secret", secret)] in
  "otpauth://totp/" +:+ label +:+ "?" +:+ encode_values values.

Section Random.
Context {W : Type} `{Runtime W}.

Definition GenerateSecret : IO W string :=
  let* raw := rand_bytes 20 in ret (trim_pad (base32_Encode raw)).
End Random.
End Provider.

Definition NewProvider (W : Type) `{Runtime W} (p : Provider) : TOTPProvider W := {|
  AuthPorts.GenerateSecret := GenerateSecret;
  AuthPorts.ProvisioningURI := ProvisioningURI p;
  AuthPorts.VerifyCodeWithStep := VerifyCodeWithStep p;
|}.

(** ** Codes *)

Lemma land_ones_range x n : 0 <= n -> 0 <= Z.land x (Z.ones n) < 2 ^ n.
Proof. intros Hn. rewrite Z.land_ones by done. apply Z.mod_pos_bound. lia. Qed.

(** The four bytes the truncation reads are there: the slice never runs out
    of the 20-byte digest. *)
Lemma truncation_in_bounds key msg :
  let sum := hmac_sha1 key msg in
  let offset := Z.to_nat (Z.land (List.last sum 0) 15) in
  (offset + 4 <= List.length sum)%nat /\ List.length (be_words (take 4 (drop offset sum))) = 1%nat.
Proof.
  cbv zeta. set (sum := hmac_sha1 key msg). assert (Hlen : List.length sum = 20%nat) by apply sha1_Sum_length.
  change 15 with (Z.ones 4). pose proof (land_ones_range (List.last sum 0) 4 ltac:(lia)) as Ho.
  set (off := Z.to_nat _). assert (off <= 15)%nat by (unfold off; lia). split; [lia|].
  assert (H4 : List.length (take 4 (drop off sum)) = 4%nat) by (rewrite length_take, length_drop; lia).
  destruct (take 4 (drop off sum)) as [|a [|b [|c [|d [|]]]]]; simpl in H4; try discriminate; done.
Qed.

Lemma zero_padded_length width n : (String.length (FormatInt n) <= width)%nat ->
  String.length (zero_padded width n) = width.
Proof.
  intros Hw. unfold zero_padded. rewrite length_append. revert Hw. generalize (FormatInt n) as s. intros s Hw.
  assert (Hr : forall m, String.length (string_of_list_ascii (replicate m "0"%char)) = m).
  { induction m as [|m IH]; [done|]. simpl. by rewrite IH. }
  rewrite Hr. lia.
Qed.

Lemma truncated_range key msg : 0 <= truncated (hmac_sha1 key msg) < 2 ^ 31.
Proof. unfold truncated. apply (land_ones_range _ 31). lia. Qed.

Lemma match_step_spec p key code step n s :
  match_step p key code step n = Some s ->
  step <= s < step + Z.of_nat n /\ generateCode p key s = code /\
  forall s', step <= s' < s -> generateCode p key s' <> code.
Proof.
  revert step. induction n as [|n IH]; intros step; cbn [match_step]; [done|].
  destruct (String.eqb_spec (generateCode p key step) code) as [Heq|Hne].
  - intros [= ->]. split; [lia|]. split; [done|]. lia.
  - intros (Hr & Hc & Hf)%IH. split; [lia|]. split; [done|]. intros s' Hs'.
    destruct (Z.eq_dec s' step) as [->|]; [done | apply Hf; lia].
Qed.

Lemma match_step_complete p key code step n s :
  step <= s < step + Z.of_nat n -> generateCode p key s = code ->
  exists s', match_step p key code step n = Some s'.
Proof.
  revert step. induction n as [|n IH]; intros step Hs Hc; [lia|]. cbn [match_step].
  destruct (String.eqb_spec (generateCode p key step) code); [by eexists|].
  apply IH; [|done]. destruct (Z.eq_dec s step) as [->|]; [done | lia].
Qed.

Lemma generateCode_length p key step : (0 < digits p)%nat ->
  String.length (generateCode p key step) = digits p.
Proof.
  intros Hd. unfold generateCode. apply zero_padded_length, FormatInt_length; [|done].
  apply Z.mod_pos_bound. apply Z.pow_pos_nonneg; lia.
Qed.

Lemma generateCode_visible p key step : forall_string visible (generateCode p key step) = true.
Proof.
  unfold generateCode, zero_padded. rewrite forall_string_app. apply andb_true_iff. split.
  - apply forall_string_Forall. generalize (digits p - String.length (FormatInt
      (truncated (hmac_sha1 key (be_bytes 8 (step mod 2 ^ 64))) mod 10 ^ Z.of_nat (digits p))))%nat as n.
    intros n. induction n; simpl; by constructor.
  - eapply forall_string_impl; [|apply FormatInt_number].
    intros a. destruct a as [[] [] [] [] [] [] [] []]; intros Ha; try discriminate Ha; reflexivity.
Qed.

(** C30. A one-time password is accepted exactly when it is, spaces around
    it aside, the code of the secret for one of the steps around the current
    one, the clock skew on either side; the step returned is the first such
    step.  A secret that is not base32, or empty, accepts nothing. *)
Theorem totp_verify_iff p secret code now s :
  VerifyCodeWithStep p secret code now = Some s <->
  exists key, decode_secret secret = Some key /\ key <> [] /\ String.length (TrimSpace code) = digits p /\
    Z.abs (s - counter_at p now) <= Z.of_nat (skew p) /\ generateCode p key s = TrimSpace code /\
    forall s', counter_at p now - Z.of_nat (skew p) <= s' < s -> generateCode p key s' <> TrimSpace code.
Proof.
  unfold VerifyCodeWithStep. cbv zeta. split.
  - destruct (Nat.eqb_spec (String.length (TrimSpace code)) (digits p)) as [Hlen|]; [|done]. cbn [negb].
    destruct (decode_secret secret) as [[|b key]|] eqn:Hkey; [done| |done].
    intros (Hr & Hc & Hf)%match_step_spec. exists (b :: key). repeat split; auto; lia.
  - intros (key & Hkey & Hne & Hlen & Hs & Hc & Hf). rewrite Hlen, Nat.eqb_refl. cbn [negb]. rewrite Hkey.
    destruct key as [|b key]; [done|].
    destruct (match_step_complete p (b :: key) (TrimSpace code) (counter_at p now - Z.of_nat (skew p)) (2 * skew p + 1) s
      ltac:(lia) Hc) as [s1 H1].
    rewrite H1. f_equal. apply match_step_spec in H1 as (Hr1 & Hc1 & Hf1).
    destruct (Z.lt_trichotomy s1 s) as [Hlt|[->|Hgt]]; [|done|].
    + exfalso. apply (Hf s1); [lia | done].
    + exfalso. apply (Hf1 s); [lia | done].
Qed.

(** The random source returns as many bytes as it was asked for. *)
Definition random_bytes {W} `{Runtime W} : Prop := forall n w raw w',
  rand_Read n w = (Ok raw, w') -> List.length raw = n /\ bytes_ok raw.

(** What an authenticator shows is accepted: the secret handed out at
    enrollment decodes to the random bytes it was made of, and the code
    computed from those bytes for any step within the skew of the verifier's
    clock passes, with a step in that window that has this code. *)
Theorem totp_enrolled_code_verifies {W} `{Runtime W} p secret (w w' : W) :
  random_bytes -> GenerateSecret w = (Ok secret, w') -> (0 < digits p)%nat ->
  exists raw, List.length raw = 20%nat /\ decode_secret secret = Some raw /\
    forall now s, Z.abs (s - counter_at p now) <= Z.of_nat (skew p) ->
      exists s', VerifyCodeWithStep p secret (generateCode p raw s) now = Some s' /\
        Z.abs (s' - counter_at p now) <= Z.of_nat (skew p) /\ generateCode p raw s' = generateCode p raw s.
Proof.
  intros Hrand Hgen Hdig. unfold GenerateSecret, rand_bytes in Hgen. apply bind_Ok in Hgen as (raw & w1 & Hr & Hret).
  apply ret_Ok in Hret as [<- _]. destruct (Hrand _ _ _ _ Hr) as [Hlen Hok].
  assert (Hdec : decode_secret (trim_pad (base32_Encode raw)) = Some raw) by by apply base32_round_trip.
  exists raw. split; [done|]. split; [done|]. intros now s Hs.
  assert (Hcode : TrimSpace (generateCode p raw s) = generateCode p raw s)
    by apply TrimSpace_visible, generateCode_visible.
  destruct (match_step_complete p raw (generateCode p raw s) (counter_at p now - Z.of_nat (skew p)) (2 * skew p + 1) s
    ltac:(lia) eq_refl) as [s' Hm].
  exists s'. split.
  - unfold VerifyCodeWithStep. cbv zeta. rewrite Hcode, generateCode_length, Nat.eqb_refl by done. cbn [negb].
    rewrite Hdec. destruct raw; [discriminate Hlen | done].
  - apply match_step_spec in Hm as (Hr' & Hc & _). split; [lia | done].
Qed.

(** ** At work *)

(** RFC 4226, appendix D, and RFC 6238, appendix B (eight digits). *)
Example rfc4226_appendix_D :
  List.map (generateCode NewTOTPProvider (bytes_of "12345678901234567890")) [0; 1; 2; 9] =
  ["755224"; "287082"; "359152"; "520489"].
Proof. vm_compute. reflexivity. Qed.

Example rfc6238_appendix_B :
  List.map (fun t => generateCode (mkProvider 30 8 1) (bytes_of "12345678901234567890") (counter_at NewTOTPProvider (t * Second)))
    [59; 1111111109; 20000000000] = ["94287082"; "07081804"; "65353130"].
Proof. vm_compute. reflexivity. Qed.

Example provisioning_uri :
  ProvisioningURI NewTOTPProvider "My IdP" "alice@example.com" "JBSWY3DPEHPK3PXP" =
  "otpauth://totp/My%20IdP:alice@example.com?algorithm=SHA1&digits=6&issuer=My+IdP&period=30&secret=JBSWY3DPEHPK3PXP".
Proof. vm_compute. reflexivity. Qed.

Module TotpDemo.
#[export] Instance runtime : Runtime Z := {
  time_Now := fun w => (w, w);
  uuid_NewString := fun w => ("uuid", w);
  rand_Read := fun n w => (Ok (replicate n 7), w);
}.

Lemma random : random_bytes.
Proof.
  intros n w raw w' [= <- _]. split; [apply length_replicate|]. unfold bytes_ok.
  induction n; simpl; [constructor | by constructor].
Qed.

Definition secret : string := "A4DQOBYHA4DQOBYHA4DQOBYHA4DQOBYH".
End TotpDemo.

Import TotpDemo.

Lemma totp_enrolled_code_verifies_witness :
  exists raw s', VerifyCodeWithStep NewTOTPProvider TotpDemo.secret (generateCode NewTOTPProvider raw 41) (1260 * Second) = Some s'.
Proof.
  destruct (totp_enrolled_code_verifies NewTOTPProvider TotpDemo.secret 0 0 TotpDemo.random) as (raw & _ & _ & Hv).
  - vm_compute. reflexivity.
  - simpl. lia.
  - destruct (Hv (1260 * Second) 41) as (s' & Hs & _); [vm_compute; discriminate|]. by exists raw, s'.
Defined.
