(* ===== verification/SecretCodec.v ===== *)
(** * Secrets at rest (infrastructure/security/secret_codec.go)

    Short secrets are stored as ["enc:v1:"] and the unpadded URL base64 of a
    random nonce and the AES-GCM ciphertext.  Values without the prefix are
    rows from before encryption and read as they are.

    AES-GCM itself is a parameter: a pair of functions with the law that
    opening undoes sealing, and the sizes the mode gives. *)

From stdpp Require Import base tactics list gmap strings numbers.
From Stdlib Require Import ZArith Lia Ascii.
From S2P Require Import Prelude GoStrings GoCrypto GoBase64 GoTime Errors Domain Ports AuthPorts Totp.

Definition isValidAESKeySize (size : nat) : bool := (size =? 16)%nat || (size =? 24)%nat || (size =? 32)%nat.

(** [cipher.NewGCM(aes.NewCipher(key))]: a 12-byte nonce, a 16-byte tag. *)
Class GCM := {
  Seal : list Z -> list Z -> list Z -> list Z;
  Open : list Z -> list Z -> list Z -> option (list Z);
  Open_Seal : forall key nonce plaintext,
    isValidAESKeySize (List.length key) = true -> bytes_ok plaintext -> Open key nonce (Seal key nonce plaintext) = Some plaintext;
  Seal_length : forall key nonce plaintext, List.length (Seal key nonce plaintext) = (List.length plaintext + 16)%nat;
  Seal_bytes : forall key nonce plaintext, bytes_ok (Seal key nonce plaintext);
}.

Definition nonce_size : nat := 12.
Definition secretEncPrefix : string := "enc:v1:".

Definition validateAESKeySize {S} (size : nat) : IO S unit :=
  guard (isValidAESKeySize size)
    (Driver ("invalid key length " +:+ FormatInt (Z.of_nat size) +:+ " (must be 16/24/32 bytes)")).

Definition parseSecretKey {S} (keyMaterial : string) : IO S (list Z) :=
  do* guard (negb (String.eqb keyMaterial "")) (Driver "empty secret encryption key") in
  if HasPrefix keyMaterial "base64:" then
    let* decoded := some_or (DecodeString (TrimPrefix keyMaterial "base64:")) (Driver "decode base64 key") in
    do* validateAESKeySize (String.length decoded) in
    ret (bytes_of decoded)
  else
    match DecodeString keyMaterial with
    | Some decoded =>
        if isValidAESKeySize (String.length decoded) then ret (bytes_of decoded)
        else do* validateAESKeySize (String.length keyMaterial) in ret (bytes_of keyMaterial)
    | None => do* validateAESKeySize (String.length keyMaterial) in ret (bytes_of keyMaterial)
    end.

(** The codec holds the cipher of its key. *)
Record SecretCodec := mkSecretCodec { codec_key : list Z }.

Definition NewSecretCodec {S} (keyMaterial : string) : IO S SecretCodec :=
  let* key := parseSecretKey (TrimSpace keyMaterial) in ret (mkSecretCodec key).

Section Codec.
Context `{!GCM}.

Definition payload_of (c : SecretCodec) (nonce : list Z) (plaintext : string) : list Z :=
  nonce ++ Seal (codec_key c) nonce (bytes_of plaintext).

Definition Encrypt {W} `{!Runtime W} (c : SecretCodec) (plaintext : string) : IO W string :=
  let plaintext := TrimSpace plaintext in
  if String.eqb plaintext "" then ret "" else
  let* nonce := rand_bytes nonce_size in
  ret (secretEncPrefix +:+ RawURLEncode (payload_of c nonce plaintext)).

Definition Decrypt {S} (c : SecretCodec) (value : string) : IO S string :=
  let value := TrimSpace value in
  if String.eqb value "" then ret "" else
  if negb (HasPrefix value secretEncPrefix) then ret value else
  let* payload := some_or (RawURLDecode (TrimPrefix value secretEncPrefix)) (Driver "decode encrypted payload") in
  do* guard (nonce_size <? List.length payload)%nat (Driver "invalid encrypted payload length") in
  let* plaintext := some_or (Open (codec_key c) (take nonce_size payload) (drop nonce_size payload)) (Driver "decrypt payload") in
  ret (string_of_bytes plaintext).

(** ** Theorems *)

Lemma guard_pass {S} b e (s : S) : b = true -> guard b e s = (Ok tt, s).
Proof. by intros ->. Qed.

Lemma length_bytes_of (t : string) : List.length (bytes_of t) = String.length t.
Proof. unfold bytes_of. rewrite List.length_map. by induction t as [|a t IH]; simpl; [|rewrite IH]. Qed.

Lemma parseSecretKey_size {S} m (s : S) key s' :
  parseSecretKey m s = (Ok key, s') -> isValidAESKeySize (List.length key) = true.
Proof.
  unfold parseSecretKey, validateAESKeySize. intros Hx. run_guard Hx as Hne.
  destruct (HasPrefix _ _).
  - run Hx as decoded s1 Hd. run_guard Hx as Hs. apply ret_Ok in Hx as [<- _]. by rewrite length_bytes_of.
  - destruct (DecodeString m) as [decoded|]; [destruct (isValidAESKeySize (String.length decoded)) eqn:E|].
    + apply ret_Ok in Hx as [<- _]. by rewrite length_bytes_of.
    + run_guard Hx as Hs. apply ret_Ok in Hx as [<- _]. by rewrite length_bytes_of.
    + run_guard Hx as Hs. apply ret_Ok in Hx as [<- _]. by rewrite length_bytes_of.
Qed.

Lemma payload_ok c nonce p : bytes_ok nonce -> bytes_ok (payload_of c nonce p).
Proof. intros Hn. apply Forall_app. split; [done | apply Seal_bytes]. Qed.

Lemma sealed_visible c nonce p : bytes_ok nonce ->
  forall_string visible (secretEncPrefix +:+ RawURLEncode (payload_of c nonce p)) = true.
Proof. intros Hn. rewrite forall_string_app. apply andb_true_iff. split; [done|]. by apply RawURLEncode_visible, payload_ok. Qed.

Lemma Decrypt_Encrypt {W} `{!Runtime W} {S1} c p (w w' : W) v :
  random_bytes (W := W) -> isValidAESKeySize (List.length (codec_key c)) = true -> Encrypt c p w = (Ok v, w') ->
  (forall (s : S1), Decrypt c v s = (Ok (TrimSpace p), s)) /\
  (TrimSpace p <> "" -> exists nonce, List.length nonce = nonce_size /\ bytes_ok nonce /\
     v = secretEncPrefix +:+ RawURLEncode (payload_of c nonce (TrimSpace p))).
Proof.
  intros Hrand Hkey He. unfold Encrypt in He. destruct (String.eqb_spec (TrimSpace p) "") as [Hp|Hp].
  { apply ret_Ok in He as [<- _]. rewrite Hp. by split. }
  run He as nonce w1 Hn. apply ret_Ok in He as [<- _]. apply Hrand in Hn as [Hlen Hok].
  pose proof (payload_ok c nonce (TrimSpace p) Hok) as Hpl. split; [|by intros _; exists nonce].
  intros s. unfold Decrypt. rewrite TrimSpace_visible by by apply sealed_visible.
  change (String.eqb (secretEncPrefix +:+ _) "") with false. cbv iota.
  rewrite HasPrefix_append, TrimPrefix_append, RawURLDecode_encode by done. cbn [negb].
  rewrite (bind_run _ _ _ (payload_of c nonce (TrimSpace p)) s) by done.
  rewrite (bind_run _ _ _ tt s).
  2: { apply guard_pass, Nat.ltb_lt. unfold payload_of. rewrite length_app, Seal_length, Hlen. unfold nonce_size. lia. }
  unfold payload_of. rewrite take_app_length', drop_app_length', Open_Seal by (done || apply bytes_of_range).
  rewrite (bind_run _ _ _ (bytes_of (TrimSpace p)) s) by done. by rewrite string_of_bytes_of.
Qed.

(** What was encrypted is read back, spaces around it aside, by a codec
    of the same key, and every key the constructor accepts has a size AES
    takes; nothing is stored in the clear: a secret that is not blank becomes
    the prefix and the encoding of the nonce and its ciphertext.  An
    authenticator secret of 32 characters takes 87 of the 128 the column has. *)
Theorem secret_codec_round_trip {W} `{!Runtime W} {S1} keyMaterial (s0 s1 : S1) c p (w w' : W) v :
  random_bytes (W := W) -> NewSecretCodec keyMaterial s0 = (Ok c, s1) -> Encrypt c p w = (Ok v, w') ->
  isValidAESKeySize (List.length (codec_key c)) = true /\
  (forall (s : S1), Decrypt c v s = (Ok (TrimSpace p), s)) /\
  (TrimSpace p <> "" -> exists nonce, List.length nonce = nonce_size /\
     v = secretEncPrefix +:+ RawURLEncode (payload_of c nonce (TrimSpace p))) /\
  Z.of_nat (String.length v) <= 7 + (4 * (Z.of_nat (String.length (TrimSpace p)) + 28) + 2) / 3.
Proof.
  intros Hrand Hc He.
  assert (Hkey : isValidAESKeySize (List.length (codec_key c)) = true).
  { unfold NewSecretCodec in Hc. run Hc as key s2 Hk. apply ret_Ok in Hc as [<- _]. by eapply parseSecretKey_size. }
  destruct (Decrypt_Encrypt (S1 := S1) c p w w' v Hrand Hkey He) as [Hd Hv]. split; [done|]. split; [done|].
  destruct (String.eqb_spec (TrimSpace p) "") as [Hp|Hp].
  { unfold Encrypt in He. rewrite Hp in He. apply ret_Ok in He as [<- _]. split; [done|]. rewrite Hp. vm_compute. discriminate. }
  destruct (Hv Hp) as (nonce & Hlen & Hok & ->). split; [by intros _; exists nonce|].
  rewrite GoJson.length_append, Nat2Z.inj_add, RawURLEncode_length by by apply payload_ok.
  change (Z.of_nat (String.length secretEncPrefix)) with 7.
  unfold payload_of. rewrite length_app, Seal_length, length_bytes_of, Hlen. unfold nonce_size.
  apply Z.add_le_mono_l, Z.div_le_mono; lia.
Qed.
End Codec.

(** A row from before encryption reads as it is. *)
Example legacy_plain_text `{!GCM} c (s : unit) : Decrypt c " JBSWY3DPEHPK3PXP " s = (Ok "JBSWY3DPEHPK3PXP", s).
Proof. vm_compute. reflexivity. Qed.

(** A key of 32 letters and digits is taken for base64: 24 bytes. *)
Example raw_key_read_as_base64 :
  option_map (List.length (A := Z)) (match parseSecretKey "0123456789abcdef0123456789abcdef" tt with (Ok k, _) => Some k | _ => None end) = Some 24%nat.
Proof. vm_compute. reflexivity. Qed.

(** ** At work *)

Module SecretCodecDemo.
(** A cipher with the sizes of GCM that hides nothing: the law does not ask
    for more. *)
#[export] Program Instance gcm : GCM := {
  Seal := fun _ _ p => List.map (fun b => b mod 256) p ++ replicate 16 0;
  Open := fun _ _ c => Some (take (List.length c - 16) c);
}.
Next Obligation.
  intros key nonce p _ Hp. cbv beta. rewrite length_app, length_replicate, Nat.add_sub, take_app_length. f_equal.
  induction Hp as [|b p Hb _ IH]; simpl; [done|]. by rewrite Z.mod_small, IH.
Qed.
Next Obligation. intros key nonce p. cbv beta. by rewrite length_app, List.length_map, length_replicate. Qed.
Next Obligation.
  intros key nonce p. apply Forall_app. split; [|by repeat constructor].
  induction p; simpl; constructor; [by apply Z.mod_pos_bound | done].
Qed.

Definition keyMaterial : string := "base64:AAECAwQFBgcICQoLDA0ODw==".
Definition codec : SecretCodec := mkSecretCodec (seqZ 0 16).
End SecretCodecDemo.

Import TotpDemo SecretCodecDemo.

Lemma secret_codec_round_trip_witness :
  exists v w', Encrypt SecretCodecDemo.codec " JBSWY3DPEHPK3PXP" 0 = (Ok v, w') /\
    Decrypt SecretCodecDemo.codec v tt = (Ok "JBSWY3DPEHPK3PXP", tt).
Proof.
  destruct (Encrypt SecretCodecDemo.codec " JBSWY3DPEHPK3PXP" 0) as [[v|] w'] eqn:E; [|vm_compute in E; discriminate E].
  exists v, w'. split; [reflexivity|].
  destruct (secret_codec_round_trip SecretCodecDemo.keyMaterial tt tt SecretCodecDemo.codec _ _ _ _ TotpDemo.random
    ltac:(vm_compute; reflexivity) E) as (_ & Hd & _). exact (Hd tt).
Defined.
