(* ===== verification/Jwt.v ===== *)
(** * JSON web tokens (infrastructure/crypto/signer.go, jwt.go)

    A token is the unpadded URL base64 of a JSON header and of the JSON
    claims, and of an RSA signature over both.  [VerifyJWT] finds the public
    key by the kid of the header; [ParseAndValidate] then looks at the issuer,
    audience, subject and times. *)

From stdpp Require Import base tactics list gmap sorting strings numbers.
From Stdlib Require Import ZArith Lia Ascii.
From S2P Require Import Prelude GoStrings GoText GoCrypto GoBase64 GoJson GoJsonObject GoJsonWrite GoTime Errors Domain Ports Keys.

(** ** Claims as JSON *)

Definition claim_json (c : claim) : json :=
  match c with
  | ClaimString s => JString s
  | ClaimStrings None => JNull
  | ClaimStrings (Some l) => JArray (List.map JString l)
  | ClaimInt z => JNumber (FormatInt z)
  | ClaimBool b => JBool b
  end.

Definition member_le (a b : string * claim) : Prop := string_le a.1 b.1.
#[local] Instance member_le_dec a b : Decision (member_le a b).
Proof. unfold member_le, string_le. apply _. Defined.

(** [json.Marshal] of a map[string]any: keys in order. *)
Definition claims_object (c : claims) : list (string * json) :=
  List.map (fun m => (m.1, claim_json m.2)) (merge_sort member_le (map_to_list c)).
Definition marshal_claims (c : claims) : string := render (JObject (claims_object c)).

(** [json.Unmarshal] into a map[string]any: a later member replaces an
    earlier one, null leaves the map nil, and a number that is no float64
    anywhere is an error. *)
Fixpoint numbers_fit (v : json) : bool :=
  match v with
  | JNumber s => match float_int64 s with Some _ => true | None => false end
  | JArray l => forallb numbers_fit l
  | JObject l => forallb (fun m => numbers_fit m.2) l
  | _ => true
  end.

Abbreviation json_map := (gmap string json).

Definition unmarshal_map (raw : string) : option json_map :=
  match parse_json raw with
  | Some (JObject l) => if numbers_fit (JObject l) then Some (list_to_map (reverse l)) else None
  | Some JNull => Some ∅
  | _ => None
  end.

(** [s, _ := claims[key].(string)] *)
Definition as_string (o : option json) : string := match o with Some (JString s) => s | _ => "" end.

(** ** Signing and verifying *)

Section Signer.
Context {W : Type} `{!Runtime W} `{!RSA}.

(** [keys] is the manager the signer points to, as it is now. *)
Record Signer := NewSigner { signer_keys : option (W -> KeyManager) }.

Definition signing_input (header claims : claims) : string :=
  RawURLEncode (bytes_of (marshal_claims header)) +:+ "." +:+ RawURLEncode (bytes_of (marshal_claims claims)).

Definition jwt_header (meta : key.Model) : claims :=
  list_to_map [("alg", ClaimString (key.Alg meta)); ("typ", ClaimString "JWT"); ("kid", ClaimString (key.KID meta))].

(** A call that does not touch the world. *)
Definition pure_result {A} (r : result error A) : IO W A := fun w => (r, w).

Definition SignJWT (s : Signer) (c : claims) : IO W string :=
  let* keys := some_or (signer_keys s) (Driver "key manager is required") in
  let* active := fun w => (ActiveSigningKey (keys w), w) in
  let '(meta, privateKey) := active in
  do* guard (String.eqb (key.Alg meta) DefaultJWTAlg) (Driver "unsupported signing alg") in
  let signingInput := signing_input (jwt_header meta) c in
  let* signature := some_or (SignPKCS1v15 privateKey (Sum256 (bytes_of signingInput))) (Driver "sign jwt") in
  ret (signingInput +:+ "." +:+ RawURLEncode signature).

Definition VerifyJWT (s : Signer) (token : string) : IO W json_map :=
  let* keys := some_or (signer_keys s) (Driver "key manager is required") in
  match split_at "." token with
  | [part0; part1; part2] =>
      let* headerBytes := some_or (RawURLDecode part0) (Driver "decode jwt header") in
      let* claimsBytes := some_or (RawURLDecode part1) (Driver "decode jwt claims") in
      let* signature := some_or (RawURLDecode part2) (Driver "decode jwt signature") in
      let* header := some_or (unmarshal_map (string_of_bytes headerBytes)) (Driver "unmarshal jwt header") in
      let alg := as_string (header !! "alg") in
      do* guard (String.eqb alg DefaultJWTAlg) (Driver "unsupported jwt alg") in
      let kid := as_string (header !! "kid") in
      do* guard (negb (String.eqb kid "")) (Driver "jwt kid is required") in
      let* found := fun w => (PublicKeyByKID (keys w) kid, w) in
      let '(meta, publicKey) := found in
      do* guard (String.eqb (key.Alg meta) alg) (Driver "jwt alg mismatch") in
      let signingInput := part0 +:+ "." +:+ part1 in
      do* guard (VerifyPKCS1v15 publicKey (Sum256 (bytes_of signingInput)) signature) (Driver "verify jwt signature") in
      some_or (unmarshal_map (string_of_bytes claimsBytes)) (Driver "unmarshal jwt claims")
  | _ => throw (Driver "invalid jwt format")
  end.

(** ** Validation *)

Record ValidateOptions := mkValidateOptions { vo_Issuer : string; vo_Audience : string; vo_Subject : string; vo_Now : time }.

Definition validateStringClaim (c : json_map) (key expected : string) (required : bool) : option error :=
  if String.eqb expected "" then None else
  let value := as_string (c !! key) in
  if String.eqb value "" then Some (Driver (if required then "missing claim" else "invalid claim") : error)
  else if String.eqb value expected then None else Some (Driver "unexpected claim" : error).

Definition validateAudienceClaim (c : json_map) (expected : string) : option error :=
  if String.eqb expected "" then None else
  match c !! "aud" with
  | None => Some (Driver "missing aud claim" : error)
  | Some (JString aud) => if String.eqb aud expected then None else Some (Driver "unexpected aud claim" : error)
  | Some (JArray aud) =>
      if existsb (fun item => match item with JString s => String.eqb s expected | _ => false end) aud
      then None else Some (Driver "unexpected aud claim" : error)
  | Some _ => Some (Driver "invalid aud claim" : error)
  end.

Inductive timeClaimMode := claimMustBeFuture | claimMustNotBeFuture.

Definition claimNumberToInt64 (v : json) : option Z := match v with JNumber s => float_int64 s | _ => None end.

(** [time.Unix(sec, 0)]: seconds are kept from year 1, in an int64. *)
Definition unix_time (sec : Z) : time := (wrap64 (sec + 62135596800) - 62135596800) * Second.

Definition validateUnixTimeClaim (c : json_map) (key : string) (now : time) (mode : timeClaimMode) : option error :=
  match c !! key with
  | None => if String.eqb key "nbf" || String.eqb key "iat" then None else Some (Driver "missing claim" : error)
  | Some value =>
      match claimNumberToInt64 value with
      | None => Some (Driver "invalid claim" : error)
      | Some unixValue =>
          let claimTime := unix_time unixValue in
          match mode with
          | claimMustBeFuture => if negb (After claimTime now) then Some (Driver "claim has expired" : error) else None
          | claimMustNotBeFuture => if After claimTime now then Some (Driver "claim is in the future" : error) else None
          end
      end
  end.

Record JWTService := NewJWTService { jwt_signer : option Signer }.

Definition Mint (s : JWTService) (c : claims) : IO W string :=
  let* signer := some_or (jwt_signer s) (Driver "signer is required") in SignJWT signer c.

Definition ParseAndValidate (s : JWTService) (token : string) (opts : ValidateOptions) : IO W json_map :=
  let* signer := some_or (jwt_signer s) (Driver "signer is required") in
  let* verified := VerifyJWT signer token in
  let* now := if vo_Now opts =? zero_time then now else ret (vo_Now opts) in
  do* check (validateStringClaim verified "iss" (vo_Issuer opts) false) in
  do* check (validateAudienceClaim verified (vo_Audience opts)) in
  do* check (validateStringClaim verified "sub" (vo_Subject opts) false) in
  do* check (validateUnixTimeClaim verified "exp" now claimMustBeFuture) in
  do* check (validateUnixTimeClaim verified "nbf" now claimMustNotBeFuture) in
  do* check (validateUnixTimeClaim verified "iat" now claimMustNotBeFuture) in
  ret verified.

(** ParseAndValidateBasic, and the adapters of bootstrap/wire.go. *)
Definition ParseAndValidateBasic (s : JWTService) (token issuer : string) : IO W json_map :=
  ParseAndValidate s token (mkValidateOptions issuer "" "" zero_time).
End Signer.
Arguments Signer W {_}.
Arguments JWTService W {_}.

(** ** What is written is read back *)

Definition json_claims (c : claims) : json_map := claim_json <$> c.

(** ASCII strings, and integers a float64 holds. *)
Definition claim_ok (c : claim) : bool :=
  match c with
  | ClaimString s => ascii_string s
  | ClaimStrings None => true
  | ClaimStrings (Some l) => forallb ascii_string l
  | ClaimInt z => (Z.abs z <=? 2 ^ 53)
  | ClaimBool _ => true
  end.
Definition claims_ok (c : claims) : Prop := map_Forall (fun k v => ascii_string k = true /\ claim_ok v = true) c.

Lemma claim_writable v : claim_ok v = true -> writable (claim_json v) = true.
Proof.
  destruct v as [s|[l|]|z|b]; cbn; intros Hv; [done| |done| |done].
  - rewrite forallb_forall in Hv |- *. intros x (y & <- & Hy)%in_map_iff. cbn. by apply Hv.
  - by destruct (FormatInt_number z) as [-> ->].
Qed.

Lemma claim_numbers v : claim_ok v = true -> numbers_fit (claim_json v) = true.
Proof.
  destruct v as [s|[l|]|z|b]; cbn; intros Hv; [done| |done| |done].
  - rewrite forallb_forall. by intros x (y & <- & _)%in_map_iff.
  - apply Z.leb_le in Hv. by rewrite float_int64_FormatInt.
Qed.

Lemma marshal_unmarshal c : claims_ok c -> unmarshal_map (marshal_claims c) = Some (json_claims c).
Proof.
  intros Hc. unfold unmarshal_map, marshal_claims.
  set (l := merge_sort member_le (map_to_list c)).
  assert (Hl : l ≡ₚ map_to_list c) by apply merge_sort_Permutation.
  assert (Hin : forall m, m ∈ l -> ascii_string m.1 = true /\ claim_ok m.2 = true).
  { intros [k v] Hm. rewrite Hl in Hm. apply elem_of_map_to_list in Hm. exact (Hc k v Hm). }
  assert (Hf : forall p, (forall m, m ∈ l -> p (m.1, claim_json m.2) = true) -> forallb p (claims_object c) = true).
  { intros p Hp. apply forallb_forall. intros x (m & <- & Hm)%in_map_iff. apply Hp. by apply list_elem_of_In. }
  rewrite parse_render.
  2: { apply Hf. intros m Hm. cbn [fst snd]. apply andb_true_iff. split; [by apply Hin|]. by apply claim_writable, Hin. }
  assert (Hnum : numbers_fit (JObject (claims_object c)) = true).
  { cbn [numbers_fit]. apply Hf. intros m Hm. by apply claim_numbers, Hin. }
  rewrite Hnum. f_equal. unfold claims_object. fold l.
  assert (Hnd : NoDup (l.*1)) by (rewrite Hl; apply NoDup_fst_map_to_list).
  change (List.map (fun m => (m.1, claim_json m.2)) l) with (prod_map id claim_json <$> l).
  rewrite <- (list_to_map_proper (prod_map id claim_json <$> l)).
  - rewrite list_to_map_fmap. unfold json_claims. f_equal.
    rewrite <- (list_to_map_to_list c). apply list_to_map_proper; done.
  - by rewrite <- list_fmap_compose.
  - symmetry. apply reverse_Permutation.
Qed.

Lemma encoded_no_dot l : bytes_ok l -> forall_string (fun c => negb (Ascii.eqb c ".")) (RawURLEncode l) = true.
Proof.
  intros Hl. apply RawURLEncode_forall; [|done]. apply (b64url_check (fun c => negb (Ascii.eqb c "."))).
  vm_compute. reflexivity.
Qed.

Lemma token_parts a b c : bytes_ok a -> bytes_ok b -> bytes_ok c ->
  split_at "." ((RawURLEncode a +:+ "." +:+ RawURLEncode b) +:+ "." +:+ RawURLEncode c) =
  [RawURLEncode a; RawURLEncode b; RawURLEncode c].
Proof.
  intros Ha Hb Hc. rewrite <- string_app_assoc. change ("." +:+ ?s) with (String "." s).
  change (String "." ?s +:+ ?t) with (String "." (s +:+ t)).
  rewrite split_at_cut by by apply encoded_no_dot.
  by rewrite split_at_cut, split_at_none by by apply encoded_no_dot.
Qed.

(** ** Theorems *)

Section Tokens.
Context {W : Type} `{!Runtime W} `{!RSA}.

(** What a set of claims must say to be accepted at [t]. *)
Definition valid_for (o : ValidateOptions) (c : claims) (t : time) : Prop :=
  (vo_Issuer o = "" \/ c !! "iss" = Some (ClaimString (vo_Issuer o))) /\
  (vo_Audience o = "" \/ c !! "aud" = Some (ClaimString (vo_Audience o)) \/
     exists l, c !! "aud" = Some (ClaimStrings (Some l)) /\ vo_Audience o ∈ l) /\
  (vo_Subject o = "" \/ c !! "sub" = Some (ClaimString (vo_Subject o))) /\
  (exists e, c !! "exp" = Some (ClaimInt e) /\ t < e * Second) /\
  (forall k, k = "nbf" \/ k = "iat" -> c !! k = None \/ exists z, c !! k = Some (ClaimInt z) /\ z * Second <= t).

Lemma json_claims_lookup c k : json_claims c !! k = option_map claim_json (c !! k).
Proof. apply lookup_fmap. Qed.

Lemma unix_time_small z : Z.abs z <= 2 ^ 53 -> unix_time z = z * Second.
Proof.
  intros Hz. unfold unix_time. rewrite wrap64_id; [lia|].
  unfold in_int64, int64_min, int64_max. rewrite andb_true_iff, !Z.leb_le. lia.
Qed.

Lemma string_claim_valid c k e : validateStringClaim (json_claims c) k e false = None <->
  e = "" \/ c !! k = Some (ClaimString e).
Proof.
  unfold validateStringClaim. rewrite json_claims_lookup. destruct (String.eqb_spec e "") as [->|Hne]; [by split; [left|]|].
  destruct (c !! k) as [[s|[l|]|z|b]|]; cbn; try (split; [done | intros [?|?]; congruence]).
  destruct (String.eqb_spec s ""); [split; [done | intros [?|?]; congruence]|].
  destruct (String.eqb_spec s e) as [->|]; split; try done; [by right | intros [?|?]; congruence].
Qed.

Lemma audience_valid c e : validateAudienceClaim (json_claims c) e = None <->
  e = "" \/ c !! "aud" = Some (ClaimString e) \/ exists l, c !! "aud" = Some (ClaimStrings (Some l)) /\ e ∈ l.
Proof.
  unfold validateAudienceClaim. rewrite json_claims_lookup. destruct (String.eqb_spec e "") as [->|Hne]; [by split; [left|]|].
  destruct (c !! "aud") as [[s|[l|]|z|b]|]; cbn; try (split; [done | intros [?|[?|(?&?&?)]]; congruence]).
  - destruct (String.eqb_spec s e) as [->|]; split; try done; [by right; left | intros [?|[?|(?&?&?)]]; congruence].
  - assert (He : existsb (fun item => match item with JString s => String.eqb s e | _ => false end) (List.map JString l) = true <-> e ∈ l).
    { rewrite existsb_exists, list_elem_of_In. split.
      - intros (x & (s & <- & Hs)%in_map_iff & Heq). by apply String.eqb_eq in Heq as <-.
      - intros Hin. exists (JString e). split; [by apply in_map | by rewrite String.eqb_refl]. }
    destruct (existsb _ _); split; try done.
    + intros _. right. right. exists l. split; [done | by apply He].
    + intros [?|[?|(l'&[= <-]&Hl)]]; [congruence|congruence|]. by apply He in Hl.
Qed.

Lemma int_claim_cases c k : claims_ok c -> forall v, c !! k = Some v ->
  claimNumberToInt64 (claim_json v) = match v with ClaimInt z => Some z | _ => None end /\
  forall z, v = ClaimInt z -> unix_time z = z * Second.
Proof.
  intros Hc v Hv. destruct (Hc _ _ Hv) as [_ Hok]. destruct v as [s|[l|]|z|b]; cbn in Hok |- *; try (by split).
  apply Z.leb_le in Hok. rewrite float_int64_FormatInt by done. split; [done|]. intros ? [= <-]. by apply unix_time_small.
Qed.

Lemma exp_valid c t : claims_ok c -> validateUnixTimeClaim (json_claims c) "exp" t claimMustBeFuture = None <->
  exists e, c !! "exp" = Some (ClaimInt e) /\ t < e * Second.
Proof.
  intros Hc. unfold validateUnixTimeClaim. rewrite json_claims_lookup.
  destruct (c !! "exp") as [v|] eqn:E; cbn [fmap option_fmap option_map]; [|split; [done | by intros (e & ? & _)]].
  destruct (int_claim_cases c _ Hc _ E) as [-> Hu]. destruct v as [s|l|z|b]; try (split; [done | by intros (e & ? & _)]).
  rewrite (Hu z eq_refl). destruct (After _ t) eqn:Ea; cbn; (split; [|]); try done.
  - intros _. exists z. split; [done | by apply After_spec].
  - intros (e & [= <-] & Hlt). by apply After_false in Ea; lia.
Qed.

Lemma past_valid c k t : claims_ok c -> k = "nbf" \/ k = "iat" ->
  validateUnixTimeClaim (json_claims c) k t claimMustNotBeFuture = None <->
  (c !! k = None \/ exists z, c !! k = Some (ClaimInt z) /\ z * Second <= t).
Proof.
  intros Hc Hk. unfold validateUnixTimeClaim. rewrite json_claims_lookup.
  destruct (c !! k) as [v|] eqn:E; cbn [fmap option_fmap option_map].
  2: { destruct Hk as [-> | ->]; cbn; split; auto. }
  destruct (int_claim_cases c _ Hc _ E) as [-> Hu]. destruct v as [s|l|z|b]; try (split; [done | by intros [?|(e & ? & _)]]).
  rewrite (Hu z eq_refl). destruct (After _ t) eqn:Ea; split; try done.
  - apply After_spec in Ea. intros [?|(e & [= <-] & Hle)]; [done | lia].
  - intros _. right. exists z. split; [done | by apply After_false].
Qed.

Lemma header_ok meta : ascii_string (key.Alg meta) = true -> ascii_string (key.KID meta) = true -> claims_ok (jwt_header meta).
Proof.
  intros Ha Hk. unfold jwt_header, claims_ok. cbn [list_to_map foldr fst snd].
  repeat (apply map_Forall_insert_2; [split; done|]). apply map_Forall_empty.
Qed.

(** A token that was signed verifies wherever the public key is known. *)
Lemma verify_signed_token (s s2 : Signer W) keys keys2 c w token w1 meta sk meta2 w2 :
  signer_keys s = Some keys -> signer_keys s2 = Some keys2 ->
  ActiveSigningKey (keys w) = Ok (meta, sk) -> key.KID meta <> "" -> ascii_string (key.KID meta) = true ->
  PublicKeyByKID (keys2 w2) (key.KID meta) = Ok (meta2, Public sk) -> key.Alg meta2 = DefaultJWTAlg ->
  claims_ok c -> SignJWT s c w = (Ok token, w1) -> VerifyJWT s2 token w2 = (Ok (json_claims c), w2).
Proof.
  intros Hs Hs2 Hact Hkid Hka Hpub Halg2 Hc Hsign. unfold SignJWT in Hsign. rewrite Hs in Hsign.
  run_some Hsign as k Hk. injection Hk as <-. run Hsign as a wa Ha. rewrite Hact in Ha. injection Ha as <- <-.
  run_guard Hsign as Halg. apply String.eqb_eq in Halg. run_some Hsign as sig Hsig. apply ret_Ok in Hsign as [<- _].
  assert (Hh : claims_ok (jwt_header meta)) by (apply header_ok; [by rewrite Halg | done]).
  unfold VerifyJWT, signing_input. rewrite Hs2. erewrite bind_run by reflexivity.
  rewrite token_parts by (apply bytes_of_range || by eapply signature_bytes).
  rewrite !RawURLDecode_encode by (apply bytes_of_range || by eapply signature_bytes).
  do 3 (erewrite bind_run by reflexivity). rewrite string_of_bytes_of, marshal_unmarshal by done.
  erewrite bind_run by reflexivity. cbv zeta.
  replace (as_string (json_claims (jwt_header meta) !! "alg")) with (key.Alg meta) by reflexivity.
  replace (as_string (json_claims (jwt_header meta) !! "kid")) with (key.KID meta) by reflexivity.
  rewrite Halg, (proj2 (String.eqb_neq _ _) Hkid). do 2 (erewrite bind_run by reflexivity).
  rewrite (bind_run _ _ _ (meta2, Public sk) w2) by by rewrite Hpub. rewrite Halg2. erewrite bind_run by reflexivity.
  unfold signing_input in Hsig. rewrite (verify_signed _ _ _ Hsig). erewrite bind_run by reflexivity.
  by rewrite string_of_bytes_of, marshal_unmarshal.
Qed.

(** A check either passes or is the answer. *)
Lemma check_cases {A} o (k : IO W A) w r w' : bind (check o) (fun _ => k) w = (r, w') ->
  (o = None /\ k w = (r, w')) \/ exists e, o = Some e /\ r = Err e.
Proof. destruct o as [e|]; cbn; [intros [= <- _]; right; by exists e | by left]. Qed.

(** The instant a validation looks at the clock. *)
Definition validated_at (o : ValidateOptions) (w : W) : time := if vo_Now o =? zero_time then (time_Now w).1 else vo_Now o.

Lemma validation_clock o w : exists w', (if vo_Now o =? zero_time then now else ret (vo_Now o)) w = (Ok (validated_at o w), w').
Proof.
  unfold validated_at, now. destruct (vo_Now o =? zero_time); [|by eexists].
  destruct (time_Now w) as [t w']. by exists w'.
Qed.

(** A token the server minted is accepted exactly for what it says.
    Wherever the public key of the signing key is known under its kid, now or
    after a rotation, in this process or another, validation returns the
    claims that were signed, and it does so exactly when the issuer, audience
    and subject asked for are those of the claims, the expiry is ahead and
    neither "not before" nor "issued at" is; otherwise it fails. *)
Theorem minted_token_validates (minter checker : JWTService W) keys keys2 c w token w1 meta sk meta2 o w2 r w3 :
  jwt_signer minter = Some (NewSigner (Some keys)) -> jwt_signer checker = Some (NewSigner (Some keys2)) ->
  ActiveSigningKey (keys w) = Ok (meta, sk) -> key.KID meta <> "" -> ascii_string (key.KID meta) = true ->
  PublicKeyByKID (keys2 w2) (key.KID meta) = Ok (meta2, Public sk) -> key.Alg meta2 = DefaultJWTAlg ->
  claims_ok c -> Mint minter c w = (Ok token, w1) -> ParseAndValidate checker token o w2 = (r, w3) ->
  (r = Ok (json_claims c) <-> valid_for o c (validated_at o w2)) /\ (r = Ok (json_claims c) \/ exists e, r = Err e).
Proof.
  intros Hm Hch Hact Hkid Hka Hpub Halg Hc Hmint Hr. unfold Mint in Hmint. rewrite Hm in Hmint.
  run_some Hmint as sg Hsg. injection Hsg as <-.
  pose proof (verify_signed_token (NewSigner (Some keys)) (NewSigner (Some keys2)) _ _ _ _ _ _ _ _ _ _
    eq_refl eq_refl Hact Hkid Hka Hpub Halg Hc Hmint) as Hv.
  unfold ParseAndValidate in Hr. rewrite Hch in Hr. erewrite bind_run in Hr by reflexivity.
  rewrite (bind_run _ _ _ _ _ Hv) in Hr. destruct (validation_clock o w2) as [w4 Hnow]. rewrite (bind_run _ _ _ _ _ Hnow) in Hr.
  set (t := validated_at o w2) in *. unfold valid_for.
  rewrite <- (exp_valid c t Hc), <- (string_claim_valid c "iss"), <- (string_claim_valid c "sub"), <- (audience_valid c).
  assert (Hpast : (forall k, k = "nbf" \/ k = "iat" -> c !! k = None \/ exists z, c !! k = Some (ClaimInt z) /\ z * Second <= t) <->
    validateUnixTimeClaim (json_claims c) "nbf" t claimMustNotBeFuture = None /\
    validateUnixTimeClaim (json_claims c) "iat" t claimMustNotBeFuture = None).
  { split.
    - intros Hp. split; apply past_valid; auto.
    - intros [H1 H2] k [-> | ->]; [by apply (past_valid c "nbf" t Hc); auto | by apply (past_valid c "iat" t Hc); auto]. }
  rewrite Hpast. clear Hpast.
  do 6 (apply check_cases in Hr as [[-> Hr]|(e & -> & ->)]; [|split; [by split; [|intros ?; destruct_and?] | by right; eexists]]).
  injection Hr as <- _. split; [|by left]. by intuition.
Qed.

(** What validation demands of a payload at time [t]. *)
Definition claims_accepted (o : ValidateOptions) (c : json_map) (t : time) : Prop :=
  (vo_Issuer o = "" \/ c !! "iss" = Some (JString (vo_Issuer o))) /\
  (vo_Audience o = "" \/ c !! "aud" = Some (JString (vo_Audience o)) \/
   exists l, c !! "aud" = Some (JArray l) /\ JString (vo_Audience o) ∈ l) /\
  (vo_Subject o = "" \/ c !! "sub" = Some (JString (vo_Subject o))) /\
  (exists v e, c !! "exp" = Some v /\ claimNumberToInt64 v = Some e /\ t < unix_time e) /\
  forall k, k = "nbf" \/ k = "iat" ->
    c !! k = None \/ exists v e, c !! k = Some v /\ claimNumberToInt64 v = Some e /\ unix_time e <= t.

Lemma as_string_nonempty (m : json_map) k s : as_string (m !! k) = s -> s <> "" -> m !! k = Some (JString s).
Proof. intros <- Hne. destruct (m !! k) as [[| | |x| |]|]; done. Qed.

Lemma string_claim_accepted c k e : validateStringClaim c k e false = None -> e = "" \/ c !! k = Some (JString e).
Proof.
  unfold validateStringClaim. destruct (String.eqb_spec e "") as [|Hne]; [by left|right].
  destruct (String.eqb_spec (as_string (c !! k)) "") as [|Hi]; [done|].
  destruct (String.eqb_spec (as_string (c !! k)) e) as [He|]; [|done]. by apply as_string_nonempty.
Qed.

Lemma audience_accepted c e : validateAudienceClaim c e = None ->
  e = "" \/ c !! "aud" = Some (JString e) \/ exists l, c !! "aud" = Some (JArray l) /\ JString e ∈ l.
Proof.
  unfold validateAudienceClaim. destruct (String.eqb_spec e "") as [|Hne]; [by left|]. intros Hv. right.
  destruct (c !! "aud") as [v|]; [|done]. destruct v as [| | |aud|l|]; try done.
  - destruct (String.eqb aud e) eqn:Ea; [|done]. apply String.eqb_eq in Ea. left. by rewrite Ea.
  - destruct (existsb _ l) eqn:Hx; [|done]. right. exists l. split; [done|].
    apply existsb_exists in Hx as (x & Hin & Hx). destruct x; try done. apply String.eqb_eq in Hx as ->. by apply list_elem_of_In.
Qed.

Lemma exp_accepted c t : validateUnixTimeClaim c "exp" t claimMustBeFuture = None ->
  exists v e, c !! "exp" = Some v /\ claimNumberToInt64 v = Some e /\ t < unix_time e.
Proof.
  unfold validateUnixTimeClaim. destruct (c !! "exp") as [v|]; [|done].
  destruct (claimNumberToInt64 v) as [e|] eqn:Ee; [|done]. intros He. exists v, e. do 2 (split; [done|]).
  destruct (After _ _) eqn:Ea; [|done]. by apply After_spec in Ea.
Qed.

Lemma past_accepted c k t : validateUnixTimeClaim c k t claimMustNotBeFuture = None ->
  c !! k = None \/ exists v e, c !! k = Some v /\ claimNumberToInt64 v = Some e /\ unix_time e <= t.
Proof.
  unfold validateUnixTimeClaim. destruct (c !! k) as [v|]; [|by left].
  destruct (claimNumberToInt64 v) as [e|] eqn:Ee; [|done]. intros He. right. exists v, e. do 2 (split; [done|]).
  destruct (After _ _) eqn:Ea; [done|]. apply not_true_iff_false in Ea. rewrite After_spec in Ea. lia.
Qed.

(** C36. Whatever is accepted was signed: a token that passes validation is
    three parts whose last is a signature over the first two that verifies
    under a public key the server holds for the kid in the header, with
    algorithm RS256 both in the header and on the key; and the claims handed
    out are those of the second part: the issuer, the audience (alone or
    among others) and the subject asked for, an expiry ahead of the clock, and
    neither "nbf" nor "iat" ahead of it. *)
Theorem accepted_token_authentic (js : JWTService W) token o w claims w' :
  ParseAndValidate js token o w = (Ok claims, w') ->
  exists keys p0 p1 p2 header body signature headers kid meta pk,
    option_map signer_keys (jwt_signer js) = Some (Some keys) /\ split_at "." token = [p0; p1; p2] /\
    RawURLDecode p0 = Some header /\ RawURLDecode p1 = Some body /\ RawURLDecode p2 = Some signature /\
    unmarshal_map (string_of_bytes header) = Some headers /\ headers !! "alg" = Some (JString DefaultJWTAlg) /\
    headers !! "kid" = Some (JString kid) /\ PublicKeyByKID (keys w) kid = Ok (meta, pk) /\ key.Alg meta = DefaultJWTAlg /\
    VerifyPKCS1v15 pk (Sum256 (bytes_of (p0 +:+ "." +:+ p1))) signature = true /\
    unmarshal_map (string_of_bytes body) = Some claims /\
    claims_accepted o claims (validated_at o w).
Proof.
  intros Hp. unfold ParseAndValidate in Hp. run_some Hp as sg Hsg. run Hp as verified w1 Hv.
  unfold VerifyJWT in Hv. run_some Hv as keys Hk. destruct (split_at "." token) as [|p0 [|p1 [|p2 [|? ?]]]] eqn:Hsp; try done.
  run_some Hv as header Hd0. run_some Hv as body Hd1. run_some Hv as signature Hd2. run_some Hv as headers Hh.
  run_guard Hv as Halg. run_guard Hv as Hkid. run Hv as found w2 Hf. destruct found as [meta pk]. injection Hf as Hf <-.
  run_guard Hv as Hma. run_guard Hv as Hsig. apply some_or_Ok in Hv as [Hc <-].
  destruct (validation_clock o w) as [w4 Hnow]. run Hp as t w5 Ht. rewrite Hnow in Ht. injection Ht as <- <-.
  run_check Hp as H1. run_check Hp as H2. run_check Hp as H3. run_check Hp as H4. run_check Hp as H5. run_check Hp as H6.
  apply ret_Ok in Hp as [<- _].
  apply String.eqb_eq in Halg. apply negb_true_iff, String.eqb_neq in Hkid. apply String.eqb_eq in Hma.
  exists keys, p0, p1, p2, header, body, signature, headers, (as_string (headers !! "kid")), meta, pk.
  rewrite Hsg. cbn [option_map]. split; [by rewrite Hk|]. do 5 (split; [done|]).
  split; [by apply as_string_nonempty|]. split; [by apply as_string_nonempty|]. split; [done|]. split; [congruence|].
  do 2 (split; [done|]). split; [by apply string_claim_accepted|]. split; [by apply audience_accepted|].
  split; [by apply string_claim_accepted|]. split; [by apply exp_accepted|].
  intros k [-> | ->]; by apply past_accepted.
Qed.
End Tokens.

(** ** At work: an ID token, and a checker that only has public keys *)

Import KeyDemo.

Module JwtDemo.
(** The world is the clock. *)
#[export] Instance runtime : Runtime time := {
  time_Now := fun w => (w, w);
  uuid_NewString := fun w => ("uuid", w);
  rand_Read := fun n w => (Ok (replicate n 7), w);
}.

Definition with_key (kid secret : string) (m : KeyManager) : KeyManager :=
  (AddRSAKey kid (Some secret) "" "" true m).2.
Definition signing_keys : KeyManager := with_key "kid-2" "k2" (with_key "kid-1" "k1" NewKeyManager).
Definition public_keys : KeyManager :=
  (AddRSAPublicKey "kid-2" (Some (toy_public "k2")) "RS256" "sig" NewKeyManager).2.

Definition minter : JWTService time := NewJWTService (Some (NewSigner (Some (fun _ => signing_keys)))).
Definition checker : JWTService time := NewJWTService (Some (NewSigner (Some (fun _ => public_keys)))).

Definition id_claims : claims := list_to_map
  [("iss", ClaimString "https://idp.example"); ("sub", ClaimString "alice"); ("aud", ClaimStrings (Some ["web"; "app"]));
   ("iat", ClaimInt 1700000000); ("exp", ClaimInt 1700003600)].
Definition options : ValidateOptions := mkValidateOptions "https://idp.example" "app" "alice" zero_time.

Definition issued_at : time := 1700000000 * Second.
Definition token : string := match (Mint minter id_claims issued_at).1 with Ok t => t | Err _ => "" end.

Lemma id_claims_ok : claims_ok id_claims.
Proof. apply (bool_decide_unpack (claims_ok id_claims)). vm_compute. exact I. Qed.
End JwtDemo.
Import JwtDemo.

Lemma minted_token_validates_witness :
  ParseAndValidate checker token options (1700000060 * Second) = (Ok (json_claims id_claims), 1700000060 * Second).
Proof.
  destruct (ParseAndValidate checker token options (1700000060 * Second)) as [r w] eqn:E.
  assert (w = 1700000060 * Second) as -> by (vm_compute in E; by injection E).
  destruct (minted_token_validates minter checker (fun _ => signing_keys) (fun _ => public_keys) id_claims issued_at token
    issued_at (key.mk "kid-2" "RS256" "sig") "k2" (key.mk "kid-2" "RS256" "sig") options (1700000060 * Second) r _
    eq_refl eq_refl ltac:(vm_compute; reflexivity) ltac:(discriminate) eq_refl ltac:(vm_compute; reflexivity) eq_refl
    id_claims_ok ltac:(vm_compute; reflexivity) E) as [[_ Hv] _].
  rewrite Hv; [reflexivity|]. clear. unfold valid_for. split; [right; reflexivity|].
  split; [right; right; exists ["web"; "app"]; split; [reflexivity | right; left]|]. split; [right; reflexivity|].
  split; [exists 1700003600; split; [reflexivity | vm_compute; reflexivity]|].
  intros k [-> | ->]; [left; reflexivity | right; exists 1700000000; split; [reflexivity | vm_compute; discriminate]].
Defined.

Lemma accepted_token_authentic_witness : exists kid, kid = "kid-2" /\ exists claims w,
  ParseAndValidate checker token options (1700000060 * Second) = (Ok claims, w) /\
  claims_accepted options claims (1700000060 * Second).
Proof.
  destruct (ParseAndValidate checker token options (1700000060 * Second)) as [[claims|] w] eqn:E; [|vm_compute in E; discriminate E].
  destruct (accepted_token_authentic checker token options _ claims w E)
    as (keys & p0 & p1 & p2 & header & body & signature & headers & kid & meta & pk & Hk & Hs & H0 & _ & _ & Hh & _ & Hkid & _ & _ & _ & _ & Hacc).
  exists kid. split.
  - assert (Hp0 : p0 = hd "" (split_at "." token)) by (rewrite Hs; reflexivity). clear Hs. vm_compute in Hp0. subst p0.
    vm_compute in H0. injection H0 as <-. vm_compute in Hh. injection Hh as <-. vm_compute in Hkid. congruence.
  - exists claims, w. split; [reflexivity | exact Hacc].
Defined.
