(* ===== verification/Scopes.v ===== *)
(** * Scope lists

    [contains], [normalizeScopes], [allContained] and [mustDecodeScopeJSON]:
    the authorization, token and device services each carry a copy of the
    same text, of which this is the model.  A slice that may be nil when it
    is marshalled is an [option (list string)]. *)

From stdpp Require Import base tactics list gmap sets strings.
From S2P Require Import Prelude GoStrings GoJson.

(** ** Operations *)

Fixpoint contains (values : list string) (expected : string) : bool :=
  match values with
  | [] => false
  | value :: rest => if String.eqb value expected then true else contains rest expected
  end.

Fixpoint normalize_loop (scopes : list string) (seen : gset string) : list string :=
  match scopes with
  | [] => []
  | scope :: rest =>
      let scope := TrimSpace scope in
      if String.eqb scope "" then normalize_loop rest seen
      else if decide (scope ∈ seen) then normalize_loop rest seen
      else scope :: normalize_loop rest ({[ scope ]} ∪ seen)
  end.

Definition normalizeScopes (scopes : list string) : list string := normalize_loop scopes ∅.

Fixpoint allowed_set (allowed : list string) : gset string :=
  match allowed with
  | [] => ∅
  | value :: rest =>
      let value := TrimSpace value in
      if String.eqb value "" then allowed_set rest else {[ value ]} ∪ allowed_set rest
  end.

Definition allContained (values allowed : list string) : bool :=
  forallb (fun value => bool_decide (value ∈ allowed_set allowed)) values.

(** A nil slice, or one that was made: [elems] is what [range] visits. *)
Definition elems (s : option (list string)) : list string := default [] s.

(** [append([]string(nil), xs...)] *)
Definition append_nil (xs : list string) : option (list string) :=
  match xs with [] => None | _ => Some xs end.

Definition mustDecodeScopeJSON (raw : string) : option (list string) :=
  if blank raw then None
  else match UnmarshalStrings raw with Some scopes => scopes | None => None end.

(** [scopes := normalizeScopes(in); if len(scopes) == 0 { scopes = append([]string(nil), client.Scopes...) }] *)
Definition scopes_or_default (requested registered : list string) : option (list string) :=
  match normalizeScopes requested with
  | [] => append_nil registered
  | scopes => Some scopes
  end.

(** ** Their meaning *)

Lemma contains_spec values x : contains values x = true <-> x ∈ values.
Proof.
  induction values as [|v vs IH]; simpl.
  - split; [done | by intros ?%elem_of_nil].
  - rewrite elem_of_cons. destruct (String.eqb_spec v x) as [->|Hne].
    + by split; [left|].
    + rewrite IH. naive_solver.
Qed.

Lemma contains_false values x : contains values x = false <-> x ∉ values.
Proof. rewrite <- contains_spec. by destruct (contains values x). Qed.

Lemma elem_of_normalize_loop scopes seen x :
  x ∈ normalize_loop scopes seen <->
  x <> "" /\ x ∉ seen /\ exists y, y ∈ scopes /\ TrimSpace y = x.
Proof.
  revert seen. induction scopes as [|s rest IH]; intros seen; simpl.
  - split; [by intros ?%elem_of_nil | intros (_ & _ & y & ?%elem_of_nil & _); done].
  - destruct (String.eqb_spec (TrimSpace s) "") as [He|Hne].
    + rewrite IH. setoid_rewrite elem_of_cons. naive_solver.
    + case_decide as Hin.
      * rewrite IH. setoid_rewrite elem_of_cons. naive_solver.
      * rewrite elem_of_cons, IH, not_elem_of_union, not_elem_of_singleton.
        setoid_rewrite elem_of_cons. destruct (decide (x = TrimSpace s)); naive_solver.
Qed.

Lemma elem_of_normalizeScopes scopes x :
  x ∈ normalizeScopes scopes <-> x <> "" /\ exists y, y ∈ scopes /\ TrimSpace y = x.
Proof.
  unfold normalizeScopes. rewrite elem_of_normalize_loop.
  pose proof (not_elem_of_empty (C:=gset string) x). tauto.
Qed.

Lemma NoDup_normalize_loop scopes seen : NoDup (normalize_loop scopes seen).
Proof.
  revert seen. induction scopes as [|s rest IH]; intros seen; simpl; [constructor|].
  destruct (String.eqb (TrimSpace s) ""); [done|]. case_decide; [done|].
  constructor; [|done]. rewrite elem_of_normalize_loop. set_solver.
Qed.

Lemma NoDup_normalizeScopes scopes : NoDup (normalizeScopes scopes).
Proof. apply NoDup_normalize_loop. Qed.

(** The order of first occurrences is kept. *)
Lemma normalize_loop_sublist scopes seen :
  sublist (normalize_loop scopes seen) (TrimSpace <$> scopes).
Proof.
  revert seen. induction scopes as [|s rest IH]; intros seen; simpl; [constructor|].
  destruct (String.eqb (TrimSpace s) ""); [by constructor|].
  case_decide; by constructor.
Qed.

(** A list whose entries are trimmed, nonempty and distinct. *)
Definition normal_scopes (l : list string) : Prop :=
  NoDup l /\ Forall (fun x => x <> "" /\ TrimSpace x = x) l.

Lemma normal_normalizeScopes scopes : normal_scopes (normalizeScopes scopes).
Proof.
  split; [apply NoDup_normalizeScopes|]. apply Forall_forall. intros x Hx.
  apply elem_of_normalizeScopes in Hx as (Hx & y & _ & <-). split; [done | apply TrimSpace_idem].
Qed.

Lemma normalize_loop_id l seen :
  normal_scopes l -> (forall x, x ∈ l -> x ∉ seen) -> normalize_loop l seen = l.
Proof.
  revert seen. induction l as [|x l IH]; intros seen [Hnd Hall] Hseen; simpl; [done|].
  apply NoDup_cons in Hnd as [Hx Hnd]. apply Forall_cons in Hall as [[Hne Ht] Hall].
  rewrite Ht. destruct (String.eqb_spec x ""); [done|].
  rewrite decide_False by (apply Hseen; set_solver).
  f_equal. apply IH; [by split|]. set_solver.
Qed.

Lemma normalizeScopes_id l : normal_scopes l -> normalizeScopes l = l.
Proof. intros H. apply normalize_loop_id; [done | set_solver]. Qed.

Lemma normalizeScopes_idem l : normalizeScopes (normalizeScopes l) = normalizeScopes l.
Proof. apply normalizeScopes_id, normal_normalizeScopes. Qed.

Lemma elem_of_allowed_set allowed x :
  x ∈ allowed_set allowed <-> x <> "" /\ exists a, a ∈ allowed /\ TrimSpace a = x.
Proof.
  induction allowed as [|a rest IH]; simpl.
  - split; [set_solver | intros (_ & y & ?%elem_of_nil & _); done].
  - setoid_rewrite elem_of_cons.
    destruct (String.eqb_spec (TrimSpace a) "") as [He|Hne].
    + rewrite IH. naive_solver.
    + rewrite elem_of_union, elem_of_singleton, IH. naive_solver.
Qed.

Lemma allContained_spec values allowed :
  allContained values allowed = true <->
  forall x, x ∈ values -> x <> "" /\ exists a, a ∈ allowed /\ TrimSpace a = x.
Proof.
  unfold allContained. rewrite forallb_forall. split; intros H x Hx.
  - apply elem_of_allowed_set. apply (bool_decide_eq_true_1 _), H. by apply list_elem_of_In.
  - apply bool_decide_eq_true_2, elem_of_allowed_set, H. by apply list_elem_of_In.
Qed.

(** With a registration that is trimmed, containment is inclusion. *)
Lemma allContained_incl values allowed :
  Forall (fun a => TrimSpace a = a) allowed ->
  allContained values allowed = true ->
  forall x, x ∈ values -> x ∈ allowed.
Proof.
  intros Ht H x Hx. rewrite allContained_spec in H.
  destruct (H x Hx) as (_ & a & Ha & <-).
  rewrite Forall_forall in Ht. by rewrite (Ht a Ha).
Qed.

Lemma allContained_mono values values' allowed :
  (forall x, x ∈ values' -> x ∈ values) ->
  allContained values allowed = true -> allContained values' allowed = true.
Proof. rewrite !allContained_spec. naive_solver. Qed.

(** A scope list written as JSON is decoded as itself, nil included. *)
Lemma decode_marshal_scopes v :
  forallb ascii_string (elems v) = true -> mustDecodeScopeJSON (MarshalStrings v) = v.
Proof.
  intros H. unfold mustDecodeScopeJSON.
  assert (exists a t, MarshalStrings v = String a t /\ visible a = true) as (a & t & Hv & Ha).
  { by destruct v as [[|s l]|]; do 2 eexists. }
  rewrite Hv, not_blank_visible, <- Hv by done.
  rewrite Unmarshal_Marshal; [done|]. intros l ->. exact H.
Qed.

Lemma append_nil_elems xs : elems (append_nil xs) = xs.
Proof. by destruct xs. Qed.

(** What the endpoints grant: the normalised request, or the registration
    when the request names no scope. *)
Lemma scopes_or_default_elems requested registered :
  elems (scopes_or_default requested registered) =
  match normalizeScopes requested with [] => registered | l => l end.
Proof.
  unfold scopes_or_default. destruct (normalizeScopes requested); [apply append_nil_elems | done].
Qed.
