(* ===== verification/TokenService.v ===== *)
(** * application/token: the token endpoint's service

    [Exchange] and the five grants, in the order of the source.  The world
    [W] is whatever the ports act on; the optional ports (token cache, device
    codes, password verifier) are [option]s, nil being [None]. *)

From stdpp Require Import base tactics list gmap strings.
From S2P Require Import Prelude GoStrings GoCrypto GoJson GoTime Errors Domain Ports Scopes.

(** ** pkg/oauth2 and pkg/oidc constants *)

Definition GrantType : Type := string.
Definition GrantTypeAuthorizationCode : GrantType := "authorization_code".
Definition GrantTypeRefreshToken : GrantType := "refresh_token".
Definition GrantTypeClientCredentials : GrantType := "client_credentials".
Definition GrantTypePassword : GrantType := "password".
Definition GrantTypeDeviceCode : GrantType := "urn:ietf:params:oauth:grant-type:device_code".

Definition ClaimIssuer : string := "iss".
Definition ClaimSubject : string := "sub".
Definition ClaimAudience : string := "aud".
Definition ClaimExpiration : string := "exp".
Definition ClaimIssuedAt : string := "iat".
Definition ClaimNotBefore : string := "nbf".
Definition ClaimJWTID : string := "jti".
Definition ClaimNonce : string := "nonce".
Definition ClaimAuthorizedParty : string := "azp".
Definition ClaimAuthTime : string := "auth_time".
Definition ClaimName : string := "name".
Definition ClaimPreferredUsername : string := "preferred_username".
Definition ClaimEmail : string := "email".
Definition ClaimEmailVerified : string := "email_verified".

(** ** Inputs and results *)

Record ExchangeInput := mkExchangeInput {
  in_GrantType : GrantType;
  in_ClientID : string;
  in_ClientSecret : string;
  in_ReplayFingerprint : string;
  in_Code : string;
  in_RedirectURI : string;
  in_CodeVerifier : string;
  in_RefreshToken : string;
  in_DeviceCode : string;
  in_Username : string;
  in_Password : string;
  in_Scopes : list string;
}.

Record ExchangeResult := mkExchangeResult {
  AccessToken : string;
  TokenType : string;
  ExpiresIn : Z;
  RefreshToken : string;
  Scope : string;
  IDToken : string;
}.

Definition set_RefreshToken (t : string) (r : ExchangeResult) : ExchangeResult :=
  mkExchangeResult (AccessToken r) (TokenType r) (ExpiresIn r) t (Scope r) (IDToken r).
Definition set_IDToken (t : string) (r : ExchangeResult) : ExchangeResult :=
  mkExchangeResult (AccessToken r) (TokenType r) (ExpiresIn r) (RefreshToken r) (Scope r) t.

Definition refreshTokenGracePeriod : duration := 10 * Second.

(** ** Pure helpers *)

Definition sha256Hex (value : string) : string := sha256_hex value.
Definition int64String (value : Z) : string := FormatInt value.
Definition int64StringPtr (value : option Z) : string :=
  match value with None => "" | Some v => FormatInt v end.

Definition validateCodeVerifier (code : authorization.Model) (verifier : string)
    (requirePKCE : bool) : option error :=
  if String.eqb (authorization.CodeChallenge code) "" then
    if requirePKCE then Some (Token ErrInvalidCodeVerifier) else None
  else if String.eqb verifier "" then Some (Token ErrInvalidCodeVerifier)
  else
    let method := ToUpper (authorization.CodeChallengeMethod code) in
    if String.eqb method "" || String.eqb method "PLAIN" then
      if String.eqb (authorization.CodeChallenge code) verifier then None
      else Some (Token ErrInvalidCodeVerifier)
    else if String.eqb method "S256" then
      let expected := RawURLEncode (Sum256 (bytes_of verifier)) in
      if String.eqb (authorization.CodeChallenge code) expected then None
      else Some (Token ErrInvalidCodeVerifier)
    else Some (Token ErrInvalidCodeVerifier).

Definition shouldIssueRefreshToken (c : client.Model) (scopes : list string) : bool :=
  if client.RefreshTokenTTLSeconds c <=? 0 then false
  else if negb (contains (client.GrantTypes c) GrantTypeRefreshToken) then false
  else contains scopes "offline_access".

Definition refreshReplayToExchangeResult (replay : option RefreshTokenReplayResult)
    : option ExchangeResult :=
  match replay with
  | None => None
  | Some r =>
      if decide (rr_Status r = RefreshTokenReplayGrace) then
        match rr_Response r with
        | None => None
        | Some e => Some (mkExchangeResult (tre_AccessToken e) (tre_TokenType e) (tre_ExpiresIn e)
                            (tre_RefreshToken e) (tre_Scope e) (tre_IDToken e))
        end
      else None
  end.

Definition replay_rejected (replay : option RefreshTokenReplayResult) : bool :=
  match replay with
  | None => false
  | Some r => bool_decide (rr_Status r = RefreshTokenReplayRejected)
  end.

(** The claim set every access token is minted from. *)
Definition access_claims (issuer sub : string) (audiences : list string) (expiresAt now : time)
    (jti cid : string) (scopes : option (list string)) : claims :=
  list_to_map
    [("iss", ClaimString issuer); ("sub", ClaimString sub);
     ("aud", ClaimStrings (Some audiences)); ("exp", ClaimInt (Unix expiresAt));
     ("iat", ClaimInt (Unix now)); ("nbf", ClaimInt (Unix now));
     ("jti", ClaimString jti); ("cid", ClaimString cid); ("scp", ClaimStrings scopes)].

(** ** The service *)

Section Service.
Context {W : Type} `{!Runtime W}.

Record Service := NewService {
  authCodes : AuthorizationCodeRepository W;
  clients : ClientRepository W;
  users : UserRepository W;
  tokens : TokenRepository W;
  tokenCache : option (TokenCacheRepository W);
  deviceCodes : option (DeviceCodeRepository W);
  passwords : option (PasswordVerifier W);
  signer : Signer W;
  issuer : string;
}.

Definition validateClientSecret (s : Service) (secretHash presentedSecret : string)
    : option error :=
  if blank secretHash then None
  else match passwords s with
       | None => Some (Token ErrInvalidClient)
       | Some p => if VerifyPassword p presentedSecret secretHash then None
                   else Some (Token ErrInvalidClient)
       end.

(** The lookup each grant starts with: the client exists, is active and may
    use the grant. *)
Definition find_client (s : Service) (clientID : string) (grant : GrantType)
    : IO W client.Model :=
  let* found := FindByClientID (clients s) (TrimSpace clientID) in
  let* c := some_or found ErrInvalidClient in
  do* guard (String.eqb (client.Status c) "active") ErrInvalidClient in
  do* guard (contains (client.GrantTypes c) grant) ErrInvalidClient in
  ret c.

(** The access token row and its cache entry. *)
Definition access_model (value : string) (clientDBID : Z) (userID : option Z) (subject : string)
    (audienceJSON scopesJSON : string) (issuedAt expiresAt : time) : access.AccessToken :=
  access.mk 0 value (sha256Hex value) clientDBID userID subject audienceJSON scopesJSON
    "Bearer" "jwt" issuedAt expiresAt None zero_time.

Definition access_entry (m : access.AccessToken) (clientID userID subject : string)
    : AccessTokenCacheEntry :=
  mkAccessTokenCacheEntry (access.TokenSHA256 m) clientID userID subject (access.ScopesJSON m)
    (access.AudienceJSON m) (access.TokenType m) (access.TokenFormat m)
    (access.IssuedAt m) (access.ExpiresAt m).

(** [if s.tokenCache != nil { _ = s.tokenCache.SaveAccessToken(...) }] *)
Definition cache_access (s : Service) (m : access.AccessToken) (clientID userID subject : string)
    : IO W unit :=
  when_some (tokenCache s) (fun cache =>
    let* ttl := Until (access.ExpiresAt m) in
    do* attempt (SaveAccessToken cache (access_entry m clientID userID subject) ttl) in
    ret tt).

Definition bearer_result (accessToken : string) (expiresAt : time) (scopes : option (list string))
    : IO W ExchangeResult :=
  let* remaining := Until expiresAt in
  ret (mkExchangeResult accessToken "Bearer" (SecondsInt remaining) "" (Join (elems scopes) " ") "").

Definition issueUserGrantTokens (s : Service) (c : client.Model) (u : user.Model)
    (scopes : option (list string)) (at_ : time) : IO W ExchangeResult :=
  let accessExpiresAt := Add at_ (seconds (client.AccessTokenTTLSeconds c)) in
  let audiences := [client.ClientID c] in
  let* jti := NewString in
  let* accessToken := Mint (signer s)
    (access_claims (issuer s) (user.UserUUID u) audiences accessExpiresAt at_ jti
       (client.ClientID c) scopes) in
  let accessAudienceJSON := MarshalStrings (Some audiences) in
  let accessScopesJSON := MarshalStrings scopes in
  let accessModel := access_model accessToken (client.ID c) (Some (user.ID u)) (user.UserUUID u)
                       accessAudienceJSON accessScopesJSON at_ accessExpiresAt in
  do* CreateAccessToken (tokens s) accessModel in
  do* cache_access s accessModel (client.ClientID c) (int64String (user.ID u)) (user.UserUUID u) in
  let* result := bearer_result accessToken accessExpiresAt scopes in
  if negb (shouldIssueRefreshToken c (elems scopes)) then ret result else
  let* r1 := NewString in
  let* r2 := NewString in
  let refreshToken := r1 +:+ "." +:+ r2 in
  let refreshExpiresAt := Add at_ (seconds (client.RefreshTokenTTLSeconds c)) in
  let refreshModel := refresh.mk 0 refreshToken (sha256Hex refreshToken) (client.ID c)
    (Some (user.ID u)) (user.UserUUID u) accessScopesJSON at_ refreshExpiresAt
    None None zero_time in
  do* CreateRefreshToken (tokens s) refreshModel in
  do* when_some (tokenCache s) (fun cache =>
        let* ttl := Until refreshExpiresAt in
        do* attempt (SaveRefreshToken cache
              (mkRefreshTokenCacheEntry (refresh.TokenSHA256 refreshModel) (client.ClientID c)
                 (int64String (user.ID u)) (user.UserUUID u) accessScopesJSON
                 (refresh.TokenSHA256 refreshModel) (refresh.IssuedAt refreshModel)
                 (refresh.ExpiresAt refreshModel)) ttl) in
        ret tt) in
  ret (set_RefreshToken refreshToken result).

Definition id_token_claims (s : Service) (c : client.Model) (u : user.Model)
    (code : authorization.Model) (at_ : time) (jti : string) : claims :=
  let ttl := if client.IDTokenTTLSeconds c <=? 0
             then (if client.AccessTokenTTLSeconds c <=? 0 then 3600
                   else client.AccessTokenTTLSeconds c)
             else client.IDTokenTTLSeconds c in
  let base : claims := list_to_map
    [(ClaimIssuer, ClaimString (issuer s)); (ClaimSubject, ClaimString (user.UserUUID u));
     (ClaimAudience, ClaimString (client.ClientID c));
     (ClaimExpiration, ClaimInt (Unix (Add at_ (seconds ttl))));
     (ClaimIssuedAt, ClaimInt (Unix at_)); (ClaimAuthTime, ClaimInt (Unix at_));
     (ClaimJWTID, ClaimString jti); (ClaimAuthorizedParty, ClaimString (client.ClientID c));
     (ClaimName, ClaimString (user.DisplayName u));
     (ClaimPreferredUsername, ClaimString (user.Username u));
     (ClaimEmail, ClaimString (user.Email u));
     (ClaimEmailVerified, ClaimBool (user.EmailVerified u))] in
  if String.eqb (authorization.NonceValue code) "" then base
  else <[ClaimNonce := ClaimString (authorization.NonceValue code)]> base.

Definition mintIDToken (s : Service) (c : client.Model) (u : user.Model)
    (code : authorization.Model) (at_ : time) : IO W string :=
  let* jti := NewString in
  Mint (signer s) (id_token_claims s c u code at_ jti).

Definition exchangeAuthorizationCode (s : Service) (input : ExchangeInput)
    : IO W ExchangeResult :=
  do* guard (String.eqb (in_GrantType input) GrantTypeAuthorizationCode) ErrUnsupportedGrantType in
  let* c := find_client s (in_ClientID input) GrantTypeAuthorizationCode in
  do* guard (contains (client.RedirectURIs c) (in_RedirectURI input)) ErrInvalidRedirectURI in
  do* check (validateClientSecret s (client.ClientSecretHash c) (in_ClientSecret input)) in
  let* consumedAt := now in
  let* consumed := ConsumeByCode (authCodes s) (in_Code input) consumedAt in
  let* code := some_or consumed ErrInvalidCode in
  do* guard (authorization.ClientDBID code =? client.ID c) ErrInvalidCode in
  do* guard (String.eqb (authorization.RedirectURI code) (in_RedirectURI input))
        ErrInvalidRedirectURI in
  do* check (validateCodeVerifier code (in_CodeVerifier input) (client.RequirePKCE c)) in
  let* found := User_FindByID (users s) (authorization.UserID code) in
  let* u := some_or found ErrInvalidCode in
  let* at_ := now in
  let scopes := mustDecodeScopeJSON (authorization.ScopesJSON code) in
  let* result := issueUserGrantTokens s c u scopes at_ in
  if contains (elems scopes) "openid" then
    let* idToken := mintIDToken s c u code at_ in
    ret (set_IDToken idToken result)
  else ret result.

Definition tryRefreshTokenGraceReplay (s : Service) (tokenSHA256 replayFingerprint : string)
    : IO W (option ExchangeResult) :=
  match tokenCache s with
  | None => ret None
  | Some cache =>
      let* replay := CheckRefreshTokenReplay cache tokenSHA256 (TrimSpace replayFingerprint) in
      match refreshReplayToExchangeResult replay with
      | Some result => ret (Some result)
      | None => if replay_rejected replay then throw ErrInvalidRefreshToken else ret None
      end
  end.

(** The rotation of the database row, and what follows it. *)
Definition finish_rotation (s : Service) (input : ExchangeInput) (c : client.Model)
    (oldSHA : string) (oldRefresh : refresh.RefreshToken) (scopesJSON : string) (at_ : time)
    (result : ExchangeResult) : IO W ExchangeResult :=
  let* r1 := NewString in
  let* r2 := NewString in
  let newRefreshToken := r1 +:+ "." +:+ r2 in
  let refreshExpiresAt := Add at_ (seconds (client.RefreshTokenTTLSeconds c)) in
  let newRefresh := refresh.mk 0 newRefreshToken (sha256Hex newRefreshToken) (client.ID c)
    (refresh.UserID oldRefresh) (refresh.Subject oldRefresh) scopesJSON at_ refreshExpiresAt
    None None zero_time in
  let* rotated := attempt (RotateRefreshToken (tokens s) oldSHA at_ newRefresh) in
  match rotated with
  | Err err =>
      let* replay := attempt (tryRefreshTokenGraceReplay s oldSHA (in_ReplayFingerprint input)) in
      match replay with
      | Ok (Some replayResult) => ret replayResult
      | _ => if decide (err = Infra ErrNoRows) then throw ErrInvalidRefreshToken else throw err
      end
  | Ok _ =>
      do* when_some (tokenCache s) (fun cache =>
            let* ttl := Until refreshExpiresAt in
            do* attempt (Cache_RotateRefreshToken cache oldSHA
                  (mkRefreshTokenCacheEntry (refresh.TokenSHA256 newRefresh) (client.ClientID c)
                     (int64StringPtr (refresh.UserID oldRefresh)) (refresh.Subject oldRefresh)
                     scopesJSON oldSHA (refresh.IssuedAt newRefresh) (refresh.ExpiresAt newRefresh))
                  (mkTokenResponseCacheEntry (AccessToken result) (TokenType result)
                     (ExpiresIn result) newRefreshToken (Scope result) (IDToken result))
                  (TrimSpace (in_ReplayFingerprint input)) ttl refreshTokenGracePeriod) in
            ret tt) in
      ret (set_RefreshToken newRefreshToken result)
  end.

(** From the lookup of the presented token in the database on. *)
Definition refresh_from_database (s : Service) (input : ExchangeInput) (c : client.Model)
    (oldSHA : string) : IO W ExchangeResult :=
  let* found := FindActiveRefreshTokenBySHA256 (tokens s) oldSHA in
  let* oldRefresh := some_or found ErrInvalidRefreshToken in
  do* guard (refresh.ClientID oldRefresh =? client.ID c) ErrInvalidRefreshToken in
  let* foundUser := User_FindByID (users s) (default 0 (refresh.UserID oldRefresh)) in
  let* u := some_or foundUser ErrInvalidRefreshToken in
  let* at_ := now in
  let scopes := mustDecodeScopeJSON (refresh.ScopesJSON oldRefresh) in
  let audiences := [client.ClientID c] in
  let accessExpiresAt := Add at_ (seconds (client.AccessTokenTTLSeconds c)) in
  let* jti := NewString in
  let* accessToken := Mint (signer s)
    (access_claims (issuer s) (user.UserUUID u) audiences accessExpiresAt at_ jti
       (client.ClientID c) scopes) in
  let scopesJSON := MarshalStrings scopes in
  let accessModel := access_model accessToken (client.ID c) (refresh.UserID oldRefresh)
                       (refresh.Subject oldRefresh) (MarshalStrings (Some audiences)) scopesJSON
                       at_ accessExpiresAt in
  do* CreateAccessToken (tokens s) accessModel in
  do* cache_access s accessModel (client.ClientID c) (int64StringPtr (refresh.UserID oldRefresh))
        (refresh.Subject oldRefresh) in
  let* result := bearer_result accessToken accessExpiresAt scopes in
  if client.RefreshTokenTTLSeconds c <=? 0 then ret result
  else finish_rotation s input c oldSHA oldRefresh scopesJSON at_ result.

Definition exchangeRefreshToken (s : Service) (input : ExchangeInput) : IO W ExchangeResult :=
  let* c := find_client s (in_ClientID input) GrantTypeRefreshToken in
  do* check (validateClientSecret s (client.ClientSecretHash c) (in_ClientSecret input)) in
  let oldSHA := sha256Hex (in_RefreshToken input) in
  match tokenCache s with
  | None => refresh_from_database s input c oldSHA
  | Some cache =>
      let* replay := CheckRefreshTokenReplay cache oldSHA (TrimSpace (in_ReplayFingerprint input)) in
      match refreshReplayToExchangeResult replay with
      | Some result => ret result
      | None =>
          if replay_rejected replay then throw ErrInvalidRefreshToken
          else refresh_from_database s input c oldSHA
      end
  end.

Definition exchangeClientCredentials (s : Service) (input : ExchangeInput)
    : IO W ExchangeResult :=
  let* c := find_client s (in_ClientID input) GrantTypeClientCredentials in
  do* check (validateClientSecret s (client.ClientSecretHash c) (in_ClientSecret input)) in
  let scopes := scopes_or_default (in_Scopes input) (client.Scopes c) in
  do* guard (allContained (elems scopes) (client.Scopes c)) ErrInvalidScope in
  let* at_ := now in
  let accessExpiresAt := Add at_ (seconds (client.AccessTokenTTLSeconds c)) in
  let audiences := [client.ClientID c] in
  let* jti := NewString in
  let* accessToken := Mint (signer s)
    (access_claims (issuer s) (client.ClientID c) audiences accessExpiresAt at_ jti
       (client.ClientID c) scopes) in
  let accessModel := access_model accessToken (client.ID c) None (client.ClientID c)
    (MarshalStrings (Some audiences)) (MarshalStrings scopes) at_ accessExpiresAt in
  do* CreateAccessToken (tokens s) accessModel in
  do* cache_access s accessModel (client.ClientID c) "" (client.ClientID c) in
  bearer_result accessToken accessExpiresAt scopes.

Definition user_may_login (u : user.Model) : bool :=
  negb (String.eqb (user.Status u) "locked" ||
        (negb (String.eqb (user.Status u) "") && negb (String.eqb (user.Status u) "active"))).

Definition exchangePassword (s : Service) (input : ExchangeInput) : IO W ExchangeResult :=
  let* c := find_client s (in_ClientID input) GrantTypePassword in
  do* check (validateClientSecret s (client.ClientSecretHash c) (in_ClientSecret input)) in
  let* found := FindByUsername (users s) (TrimSpace (in_Username input)) in
  let* u := some_or found ErrInvalidUserCredentials in
  do* guard (user_may_login u) ErrInvalidUserCredentials in
  let* p := some_or (passwords s) ErrInvalidUserCredentials in
  do* guard (VerifyPassword p (in_Password input) (user.PasswordHash u))
        ErrInvalidUserCredentials in
  let scopes := scopes_or_default (in_Scopes input) (client.Scopes c) in
  do* guard (allContained (elems scopes) (client.Scopes c)) ErrInvalidScope in
  let* at_ := now in
  issueUserGrantTokens s c u scopes at_.

(** The [switch entry.Status]: nil when the flow goes on. *)
Definition device_status_error (status : string) : option error :=
  if String.eqb status "pending" || String.eqb status "" then Some (Token ErrAuthorizationPending)
  else if String.eqb status "denied" then Some (Token ErrAccessDenied)
  else if String.eqb status "consumed" then Some (Token ErrInvalidDeviceCode)
  else if String.eqb status "approved" then None
  else Some (Token ErrInvalidDeviceCode).

Definition exchangeDeviceCode (s : Service) (input : ExchangeInput) : IO W ExchangeResult :=
  let* c := find_client s (in_ClientID input) GrantTypeDeviceCode in
  do* check (validateClientSecret s (client.ClientSecretHash c) (in_ClientSecret input)) in
  let* devices := some_or (deviceCodes s) ErrUnsupportedGrantType in
  let* found := GetByDeviceCode devices (TrimSpace (in_DeviceCode input)) in
  let* entry := some_or found ErrInvalidDeviceCode in
  do* guard (String.eqb (dce_ClientID entry) (client.ClientID c)) ErrInvalidDeviceCode in
  let* t := now in
  do* guard (After (dce_ExpiresAt entry) t) ErrInvalidDeviceCode in
  let* polledAt := now in
  let* allowed := TouchPoll devices (dce_DeviceCode entry) polledAt (seconds (dce_Interval entry)) in
  do* guard allowed ErrSlowDown in
  do* check (device_status_error (dce_Status entry)) in
  let* userID := some_or (ParseInt (dce_UserID entry)) ErrInvalidDeviceCode in
  do* guard (0 <? userID) ErrInvalidDeviceCode in
  let* foundUser := User_FindByID (users s) userID in
  let* u := some_or foundUser ErrInvalidDeviceCode in
  do* guard (String.eqb (user.UserUUID u) (dce_Subject entry)) ErrInvalidDeviceCode in
  let scopes := mustDecodeScopeJSON (dce_ScopesJSON entry) in
  let* at_ := now in
  let* result := issueUserGrantTokens s c u scopes at_ in
  let* consumedAt := now in
  do* MarkConsumed devices (dce_DeviceCode entry) consumedAt in
  ret result.

Definition Exchange (s : Service) (input : ExchangeInput) : IO W ExchangeResult :=
  let g := in_GrantType input in
  if String.eqb g GrantTypeAuthorizationCode then exchangeAuthorizationCode s input
  else if String.eqb g GrantTypeRefreshToken then exchangeRefreshToken s input
  else if String.eqb g GrantTypeClientCredentials then exchangeClientCredentials s input
  else if String.eqb g GrantTypePassword then exchangePassword s input
  else if String.eqb g GrantTypeDeviceCode then exchangeDeviceCode s input
  else throw ErrUnsupportedGrantType.

End Service.

Arguments Service W : clear implicits.
