(* ===== verification/TokenTheorems.v ===== *)
(** * What the token endpoint's service guarantees

    Theorems on [TokenService], for every implementation of the ports, and
    the concrete service the witnesses run. *)

From stdpp Require Import base tactics list gmap strings.
From S2P Require Import Prelude GoStrings GoCrypto GoJson GoTime Errors Domain Ports Scopes TokenService.

(** ** A concrete service for the witnesses

    The world is a counter that serves as clock and as source of uuids; the
    ports hold one client, one user, one code, one refresh token and one
    device code. *)
Module Demo.

#[export] Instance runtime : Runtime Z := {|
  time_Now w := (w, w);
  uuid_NewString w := (FormatInt w, w + 1);
  rand_Read n w := (Ok (replicate n 7), w);
|}.

Definition verifier : string := "dBjftJeZ4CVP-mB92K27uhbUJU1p1r_wW1gFWFOEjXk".
Definition callback : string := "https://app.example/callback".
Definition scopes_json : string := MarshalStrings (Some ["openid"; "offline_access"]).

Definition web : client.Model :=
  client.mk 7 "web" "Web" "hash" "confidential" "client_secret_basic" true false 3600 86400 0
    "active" [callback] []
    [GrantTypeAuthorizationCode; GrantTypeRefreshToken; GrantTypeClientCredentials;
     GrantTypePassword; GrantTypeDeviceCode]
    [] ["openid"; "offline_access"; "profile"] 0 0.

Definition alice : user.Model :=
  user.mk 42 "uuid-alice" "alice" "alice@example.org" true "Alice" "pwhash" "end_user" 0
    "" "active" 0 None 0 0.

Definition code : authorization.Model :=
  authorization.mk 1 "code-1" 7 42 None callback scopes_json "st" "n-1"
    "E9Melhoa2OwvFrEMTJguCHaoeK1t8URWbuGJSstw-cM" "S256" 1000 None 0.

Definition old_refresh : refresh.RefreshToken :=
  refresh.mk 5 "rt-1" (sha256Hex "rt-1") 7 (Some 42) "uuid-alice" scopes_json 0 1000 None None 0.

Definition device (status : string) : DeviceCodeEntry :=
  mkDeviceCodeEntry "dev-1" "ABCD-EFGH" "web" "Web" scopes_json status "42" "uuid-alice" 1000
    None None None None 5.

Definition authCodes : AuthorizationCodeRepository Z := {|
  AuthorizationCode_Create m := ret m;
  ConsumeByCode v t := ret (if String.eqb v "code-1" then Some code else None);
|}.

Definition clients : ClientRepository Z := {|
  FindByClientID id := ret (if String.eqb id "web" then Some web else None);
  HasPostLogoutRedirectURI _ _ := ret false;
  CreateClient m := ret m;
  RegisterRedirectURIs _ _ := ret 0;
  RegisterPostLogoutRedirectURIs _ _ := ret 0;
|}.

Definition users : UserRepository Z := {|
  User_Create m := ret m;
  User_FindByID id := ret (if id =? 42 then Some alice else None);
  FindByUserUUID _ := ret None;
  FindByEmail _ := ret None;
  FindByUsername n := ret (if String.eqb n "alice" then Some alice else None);
  ListByRoleCode _ _ := ret [];
  CountByRoleCode _ := ret 0;
  UpdateRoleAndPrivilege _ _ _ _ := ret tt;
  UnlockAccount _ _ := ret tt;
  IncrementFailedLogin _ := ret 1;
  ResetFailedLogin _ _ := ret tt;
|}.

Definition tokens : TokenRepository Z := {|
  CreateAccessToken m := ret (access.set_ID 1 m);
  CreateRefreshToken m := ret (refresh.set_ID 2 m);
  FindActiveAccessTokenBySHA256 _ := ret None;
  FindActiveRefreshTokenBySHA256 h :=
    ret (if String.eqb h (sha256Hex "rt-1") then Some old_refresh else None);
  RotateRefreshToken _ _ m := ret (refresh.set_ID 6 m);
|}.

Definition devices (status : string) : DeviceCodeRepository Z := {|
  Device_Save _ _ := ret tt;
  GetByDeviceCode d := ret (if String.eqb d "dev-1" then Some (device status) else None);
  GetByUserCode _ := ret (Some (device status));
  Device_Approve _ _ _ _ := ret tt;
  Device_Deny _ _ := ret tt;
  MarkConsumed _ _ := ret tt;
  TouchPoll _ _ _ := ret true;
|}.

Definition passwords : PasswordVerifier Z := {|
  HashPassword p := ret p;
  VerifyPassword p h := String.eqb h "hash" && String.eqb p "secret" ||
                        String.eqb h "pwhash" && String.eqb p "pw";
|}.

Definition signer : Signer Z := {| Mint _ := ret "jwt" |}.

Definition cache (status : RefreshTokenReplayStatus) : TokenCacheRepository Z := {|
  SaveAccessToken _ _ := ret tt;
  GetAccessToken _ := ret None;
  SaveRefreshToken _ _ := ret tt;
  GetRefreshToken _ := ret None;
  CheckRefreshTokenReplay _ _ := ret (Some (mkRefreshTokenReplayResult status None));
  Cache_RotateRefreshToken _ _ _ _ _ _ := ret tt;
  RevokeAccessToken _ _ := ret tt;
  RevokeRefreshToken _ _ := ret tt;
  IsAccessTokenRevoked _ := ret false;
  IsRefreshTokenRevoked _ := ret false;
|}.

Definition cached_service (status : RefreshTokenReplayStatus) : Service Z :=
  NewService authCodes clients users tokens (Some (cache status)) None (Some passwords) signer
    "https://idp.example".

Definition service (status : string) : Service Z :=
  NewService authCodes clients users tokens None (Some (devices status)) (Some passwords) signer
    "https://idp.example".

Definition input (g : GrantType) : ExchangeInput :=
  mkExchangeInput g "web" "secret" "fp" "code-1" callback verifier "rt-1" "dev-1" "alice" "pw"
    [" openid "; "profile"; "openid"].
End Demo.

Section Theorems.
Context {W : Type} `{!Runtime W}.
Implicit Types (s : Service W) (input : ExchangeInput) (w : W) (r : ExchangeResult).

(** ** Shared steps *)

Lemma find_client_Ok s id g w c w' :
  find_client s id g w = (Ok c, w') ->
  FindByClientID (clients s) (TrimSpace id) w = (Ok (Some c), w') /\
  client.Status c = "active" /\ g ∈ client.GrantTypes c.
Proof.
  unfold find_client. intros H. einv.
  rewrite String.eqb_eq in *. rewrite contains_spec in *. done.
Qed.

(** The two ways a presented secret is accepted. *)
Definition secret_verified s (c : client.Model) (presented : string) : Prop :=
  blank (client.ClientSecretHash c) = true \/
  exists p, passwords s = Some p /\ VerifyPassword p presented (client.ClientSecretHash c) = true.

Lemma validateClientSecret_spec s c presented :
  validateClientSecret s (client.ClientSecretHash c) presented = None <->
  secret_verified s c presented.
Proof.
  unfold validateClientSecret, secret_verified.
  destruct (blank _); [naive_solver|].
  destruct (passwords s) as [p|]; [|naive_solver].
  destruct (VerifyPassword p presented _) eqn:E; naive_solver congruence.
Qed.

(** RFC 7636, section 4.6: what the verifier must satisfy. *)
Definition pkce_verified (code : authorization.Model) (verifier : string) (required : bool)
    : Prop :=
  let challenge := authorization.CodeChallenge code in
  let method := ToUpper (authorization.CodeChallengeMethod code) in
  (challenge = "" /\ required = false) \/
  (challenge <> "" /\ verifier <> "" /\
     (((method = "" \/ method = "PLAIN") /\ verifier = challenge) \/
      (method = "S256" /\ s256_challenge verifier = challenge))).

Lemma validateCodeVerifier_cases code verifier required :
  (validateCodeVerifier code verifier required = None /\ pkce_verified code verifier required) \/
  (validateCodeVerifier code verifier required = Some (Token ErrInvalidCodeVerifier) /\
   ~ pkce_verified code verifier required).
Proof.
  unfold validateCodeVerifier, pkce_verified. change (RawURLEncode _) with (s256_challenge verifier).
  generalize (ToUpper (authorization.CodeChallengeMethod code)) as m.
  generalize (authorization.CodeChallenge code) as ch. generalize (s256_challenge verifier) as e.
  intros e ch m. cbv zeta.
  destruct (String.eqb_spec ch "") as [->|Hc].
  { destruct required; [right|left]; (split; [done|]); [intros [[_ ?]|[? _]]; congruence | by left]. }
  destruct (String.eqb_spec verifier "") as [->|Hv].
  { right. split; [done|]. intros [[? _]|(_ & ? & _)]; congruence. }
  destruct (String.eqb m "" || String.eqb m "PLAIN") eqn:Em.
  { assert (Hm : m = "" \/ m = "PLAIN") by (by rewrite orb_true_iff, !String.eqb_eq in Em).
    assert (m <> "S256") by (by destruct Hm as [->| ->]).
    destruct (String.eqb_spec ch verifier) as [->|Hne]; [left|right]; (split; [done|]).
    - right. eauto.
    - intros [[? _]|(_ & _ & [[_ ?]|[? _]])]; congruence. }
  rewrite orb_false_iff, !String.eqb_neq in Em. destruct Em as [Hm1 Hm2].
  destruct (String.eqb_spec m "S256") as [->|Hm3].
  { destruct (String.eqb_spec ch e) as [->|Hne]; [left|right]; (split; [done|]).
    - right. eauto.
    - intros [[? _]|(_ & _ & [[[?|?] _]|[_ ?]])]; congruence. }
  right. split; [done|]. intros [[? _]|(_ & _ & [[[?|?] _]|[? _]])]; congruence.
Qed.

(** ** Issuing tokens *)

Lemma bearer_result_Ok tok exp sc w r w' :
  bearer_result tok exp sc w = (Ok r, w') ->
  AccessToken r = tok /\ TokenType r = "Bearer" /\ RefreshToken r = "" /\ IDToken r = "" /\
  Scope r = Join (elems sc) " ".
Proof. unfold bearer_result, Until. intros H. einv. done. Qed.

Lemma dotted_nonempty (a b : string) : a +:+ "." +:+ b <> "".
Proof. by destruct a. Qed.

Lemma shouldIssueRefreshToken_spec c sc :
  shouldIssueRefreshToken c sc = true <->
  0 < client.RefreshTokenTTLSeconds c /\ GrantTypeRefreshToken ∈ client.GrantTypes c /\
  "offline_access" ∈ sc.
Proof.
  unfold shouldIssueRefreshToken. rewrite <- !contains_spec.
  destruct (Z.leb_spec (client.RefreshTokenTTLSeconds c) 0); [split; [done | lia]|].
  destruct (contains (client.GrantTypes c) GrantTypeRefreshToken); simpl; naive_solver.
Qed.

(** The run of the signer and of the row insertion behind the access token of
    a result. *)
Definition access_issued s (c : client.Model) (userID : option Z) (sub subject : string)
    (sc : option (list string)) (at_ : time) r : Prop :=
  let exp := Add at_ (seconds (client.AccessTokenTTLSeconds c)) in
  exists jti w1 w2 w3 m,
    Mint (signer s) (access_claims (issuer s) sub [client.ClientID c] exp at_ jti
                       (client.ClientID c) sc) w1 = (Ok (AccessToken r), w2) /\
    CreateAccessToken (tokens s)
      (access_model (AccessToken r) (client.ID c) userID subject
         (MarshalStrings (Some [client.ClientID c])) (MarshalStrings sc) at_ exp) w2 = (Ok m, w3).

(** The row insertion behind the refresh token of a result. *)
Definition refresh_issued s (c : client.Model) (u : user.Model) (sc : option (list string))
    (at_ : time) r : Prop :=
  exists w1 w2 m,
    CreateRefreshToken (tokens s)
      (refresh.mk 0 (RefreshToken r) (sha256Hex (RefreshToken r)) (client.ID c)
         (Some (user.ID u)) (user.UserUUID u) (MarshalStrings sc) at_
         (Add at_ (seconds (client.RefreshTokenTTLSeconds c))) None None zero_time) w1
    = (Ok m, w2).

Definition user_tokens_issued s c u sc at_ r : Prop :=
  access_issued s c (Some (user.ID u)) (user.UserUUID u) (user.UserUUID u) sc at_ r /\
  TokenType r = "Bearer" /\ Scope r = Join (elems sc) " " /\
  ((RefreshToken r = "" /\ shouldIssueRefreshToken c (elems sc) = false) \/
   (RefreshToken r <> "" /\ shouldIssueRefreshToken c (elems sc) = true /\
    refresh_issued s c u sc at_ r)).

Lemma issueUserGrantTokens_Ok s c u sc at_ w r w' :
  issueUserGrantTokens s c u sc at_ w = (Ok r, w') ->
  user_tokens_issued s c u sc at_ r /\ IDToken r = "".
Proof.
  unfold issueUserGrantTokens. cbv zeta. intros H.
  apply bind_Ok in H as (jti & w1 & _ & H). apply bind_Ok in H as (tok & w2 & Hmint & H).
  apply bind_Ok in H as (m & w3 & Hrow & H). apply bind_Ok in H as (? & w4 & _ & H).
  apply bind_Ok in H as (r0 & w5 & Hr0 & H).
  apply bearer_result_Ok in Hr0 as (Ha & Ht & Hrt & Hid & Hsc).
  destruct (shouldIssueRefreshToken c (elems sc)) eqn:Es; simpl in H.
  - apply bind_Ok in H as (u1 & w6 & _ & H). apply bind_Ok in H as (u2 & w7 & _ & H).
    apply bind_Ok in H as (m2 & w8 & Hrow2 & H). apply bind_Ok in H as (? & w9 & _ & H).
    apply ret_Ok in H as [<- <-]. simpl. split; [|done].
    split; [|split; [done|split; [done|]]].
    + subst tok. repeat eexists; eauto.
    + right. split; [apply dotted_nonempty|split; [done|]]. repeat eexists; eauto.
  - apply ret_Ok in H as [<- <-]. split; [|done].
    split; [|split; [done|split; [done|by left]]]. subst tok. repeat eexists; eauto.
Qed.

(** ** The authorization code grant *)

Definition code_redeemed s input w r : Prop :=
  exists c code u sc at_ t w1 w2 w3 w4 w5,
    FindByClientID (clients s) (TrimSpace (in_ClientID input)) w = (Ok (Some c), w1) /\
    client.Status c = "active" /\
    GrantTypeAuthorizationCode ∈ client.GrantTypes c /\
    in_RedirectURI input ∈ client.RedirectURIs c /\
    secret_verified s c (in_ClientSecret input) /\
    ConsumeByCode (authCodes s) (in_Code input) t w2 = (Ok (Some code), w3) /\
    authorization.ClientDBID code = client.ID c /\
    authorization.RedirectURI code = in_RedirectURI input /\
    pkce_verified code (in_CodeVerifier input) (client.RequirePKCE c) /\
    User_FindByID (users s) (authorization.UserID code) w4 = (Ok (Some u), w5) /\
    sc = mustDecodeScopeJSON (authorization.ScopesJSON code) /\
    user_tokens_issued s c u sc at_ r /\
    (IDToken r <> "" -> "openid" ∈ elems sc).

(** C2. The authorization-code grant hands out tokens only when the client is
    registered, active and allowed the grant, authenticated itself, and names
    a redirect URI it registered; when the code was consumed by this very
    request, belongs to that client and was issued for that redirect URI; and
    when the code verifier matches the challenge the code was issued with, as
    RFC 7636 requires.  The tokens then carry the code's user and scopes, and
    an ID token appears only with the scope openid. *)
Theorem authorization_code_grant_sound s input w r w' :
  exchangeAuthorizationCode s input w = (Ok r, w') -> code_redeemed s input w r.
Proof.
  unfold exchangeAuthorizationCode. cbv zeta. intros H. run_guard H as Hg.
  run H as c w1 Hc. apply find_client_Ok in Hc as (Hc & Hact & Hgr).
  run_guard H as Hu. run_check H as Hs. run H as t w2 Ht. run H as o w3 Hcons.
  run_some H as code Ho. subst o. run_guard H as Hid. run_guard H as Hru. run_check H as Hp.
  run H as o w4 Hfu. run_some H as u Ho. subst o. run H as at_ w5 Hat.
  run H as r0 w6 Hr0. apply issueUserGrantTokens_Ok in Hr0 as [Hr0 Hid0].
  apply contains_spec in Hu. apply Z.eqb_eq in Hid. apply String.eqb_eq in Hru.
  apply validateClientSecret_spec in Hs.
  destruct (validateCodeVerifier_cases code (in_CodeVerifier input) (client.RequirePKCE c))
    as [[_ Hpk]|[Hn _]]; [|congruence].
  exists c, code, u, (mustDecodeScopeJSON (authorization.ScopesJSON code)), at_, t.
  eexists _, _, _, _, _. do 11 (split; [eassumption || reflexivity|]).
  destruct (contains _ "openid") eqn:Eo.
  - run H as idt w7 Hidt. apply ret_Ok in H as [<- <-].
    split; [exact Hr0|]. intros _. by apply contains_spec.
  - apply ret_Ok in H as [<- <-]. split; [exact Hr0 | congruence].
Qed.

(** What follows the checks on the consumed code. *)
Definition redeem_tail s (c : client.Model) (code : authorization.Model) : IO W ExchangeResult :=
  let* found := User_FindByID (users s) (authorization.UserID code) in
  let* u := some_or found ErrInvalidCode in
  let* at_ := now in
  let scopes := mustDecodeScopeJSON (authorization.ScopesJSON code) in
  let* result := issueUserGrantTokens s c u scopes at_ in
  if contains (elems scopes) "openid" then
    let* idToken := mintIDToken s c u code at_ in
    ret (set_IDToken idToken result)
  else ret result.

(** A code is spent by the attempt, not by its success. *)
Definition spends_code s input w (code : authorization.Model) (c : client.Model) w' : Prop :=
  exists t w1 w2,
    in_GrantType input = GrantTypeAuthorizationCode /\
    find_client s (in_ClientID input) GrantTypeAuthorizationCode w = (Ok c, w1) /\
    contains (client.RedirectURIs c) (in_RedirectURI input) = true /\
    validateClientSecret s (client.ClientSecretHash c) (in_ClientSecret input) = None /\
    now w1 = (Ok t, w2) /\
    ConsumeByCode (authCodes s) (in_Code input) t w2 = (Ok (Some code), w').

(** A code presented by the wrong client, for the wrong redirect URI or
    with the wrong verifier is rejected with the source's error, and the run
    stops in the state the consumption left: the code stays spent and nothing
    is issued. *)
Theorem rejected_code_stays_spent s input w code c w' :
  spends_code s input w code c w' ->
  (authorization.ClientDBID code <> client.ID c ->
   exchangeAuthorizationCode s input w = (Err (Token ErrInvalidCode), w')) /\
  (authorization.ClientDBID code = client.ID c ->
   authorization.RedirectURI code <> in_RedirectURI input ->
   exchangeAuthorizationCode s input w = (Err (Token ErrInvalidRedirectURI), w')) /\
  (authorization.ClientDBID code = client.ID c ->
   authorization.RedirectURI code = in_RedirectURI input ->
   ~ pkce_verified code (in_CodeVerifier input) (client.RequirePKCE c) ->
   exchangeAuthorizationCode s input w = (Err (Token ErrInvalidCodeVerifier), w')).
Proof.
  intros (t & w1 & w2 & Hg & Hc & Hu & Hs & Ht & Hcons).
  assert (Hrun : exchangeAuthorizationCode s input w =
    (do* guard (authorization.ClientDBID code =? client.ID c) ErrInvalidCode in
     do* guard (String.eqb (authorization.RedirectURI code) (in_RedirectURI input))
           ErrInvalidRedirectURI in
     do* check (validateCodeVerifier code (in_CodeVerifier input) (client.RequirePKCE c)) in
     redeem_tail s c code) w').
  { unfold exchangeAuthorizationCode. rewrite Hg, String.eqb_refl.
    rewrite (bind_run _ _ _ _ _ (guard_true _ _)), (bind_run _ _ _ _ _ Hc), Hu.
    rewrite (bind_run _ _ _ _ _ (guard_true _ _)), Hs.
    rewrite (bind_run (check None) _ w1 tt w1) by done.
    by rewrite (bind_run _ _ _ _ _ Ht), (bind_run _ _ _ _ _ Hcons). }
  rewrite Hrun. split; [|split].
  - intros Hne. by rewrite (proj2 (Z.eqb_neq _ _) Hne).
  - intros -> Hne. by rewrite Z.eqb_refl, (proj2 (String.eqb_neq _ _) Hne).
  - intros -> -> Hp. rewrite Z.eqb_refl, String.eqb_refl.
    destruct (validateCodeVerifier_cases code (in_CodeVerifier input) (client.RequirePKCE c))
      as [[_ ?]|[-> _]]; done.
Qed.

(** ** The other grants *)

Definition client_cleared s input (g : GrantType) w (c : client.Model) : Prop :=
  (exists w1, FindByClientID (clients s) (TrimSpace (in_ClientID input)) w = (Ok (Some c), w1)) /\
  client.Status c = "active" /\ g ∈ client.GrantTypes c /\
  secret_verified s c (in_ClientSecret input).

(** The scopes a request without a user context is granted. *)
Definition scopes_registered input (c : client.Model) (sc : option (list string)) : Prop :=
  sc = scopes_or_default (in_Scopes input) (client.Scopes c) /\
  forall x, x ∈ elems sc -> x <> "" /\ exists a, a ∈ client.Scopes c /\ TrimSpace a = x.

Lemma cleared_client s input g w c w1 :
  FindByClientID (clients s) (TrimSpace (in_ClientID input)) w = (Ok (Some c), w1) ->
  client.Status c = "active" -> g ∈ client.GrantTypes c ->
  validateClientSecret s (client.ClientSecretHash c) (in_ClientSecret input) = None ->
  client_cleared s input g w c.
Proof. intros ? ? ? Hs%validateClientSecret_spec. split; eauto. Qed.

(** The client-credentials grant issues to an active, authenticated
    client an access token for itself only, never a refresh token, and only
    for scopes of its registration: those it asked for, normalised, or all of
    them when it asked for none. *)
Theorem client_credentials_sound s input w r w' :
  exchangeClientCredentials s input w = (Ok r, w') ->
  exists c sc at_,
    client_cleared s input GrantTypeClientCredentials w c /\
    scopes_registered input c sc /\
    access_issued s c None (client.ClientID c) (client.ClientID c) sc at_ r /\
    Scope r = Join (elems sc) " " /\ RefreshToken r = "" /\ IDToken r = "".
Proof.
  unfold exchangeClientCredentials. cbv zeta. intros H.
  run H as c w1 Hc. apply find_client_Ok in Hc as (Hc & Hact & Hgr).
  run_check H as Hs. run_guard H as Hsc. run H as at_ w2 Hat. run H as jti w3 Hj.
  run H as tok w4 Hm. run H as m w5 Hrow. run H as u w6 Hcache.
  apply bearer_result_Ok in H as (<- & _ & Hrt & Hid & Hscope).
  exists c, (scopes_or_default (in_Scopes input) (client.Scopes c)), at_.
  split; [by eapply cleared_client|].
  split; [split; [done | by apply allContained_spec]|].
  split; [|done]. repeat eexists; eassumption.
Qed.

(** The password grant issues tokens only to an active, authenticated
    client, for a user whose status is active (or unset) and whose password
    the verifier accepted, and only for scopes of the client's registration. *)
Theorem password_grant_sound s input w r w' :
  exchangePassword s input w = (Ok r, w') ->
  exists c u sc at_ p w1 w2,
    client_cleared s input GrantTypePassword w c /\
    FindByUsername (users s) (TrimSpace (in_Username input)) w1 = (Ok (Some u), w2) /\
    (user.Status u = "active" \/ user.Status u = "") /\
    passwords s = Some p /\ VerifyPassword p (in_Password input) (user.PasswordHash u) = true /\
    scopes_registered input c sc /\
    user_tokens_issued s c u sc at_ r /\ IDToken r = "".
Proof.
  unfold exchangePassword. cbv zeta. intros H.
  run H as c w1 Hc. apply find_client_Ok in Hc as (Hc & Hact & Hgr).
  run_check H as Hs. run H as o w2 Hu. run_some H as u Ho. subst o. run_guard H as Hst.
  run_some H as p Hp. run_guard H as Hv. run_guard H as Hsc. run H as at_ w3 Hat.
  apply issueUserGrantTokens_Ok in H as [Hr Hid].
  exists c, u, (scopes_or_default (in_Scopes input) (client.Scopes c)), at_, p, w1, w2.
  split; [by eapply cleared_client|]. split; [done|].
  split.
  { unfold user_may_login in Hst.
    destruct (String.eqb_spec (user.Status u) "active"); [by left|].
    destruct (String.eqb_spec (user.Status u) ""); [by right|].
    by destruct (String.eqb (user.Status u) "locked"). }
  do 2 (split; [done|]). split; [split; [done | by apply allContained_spec]|]. done.
Qed.

(** The device grant issues tokens only against a device code that a user
    approved: the record belongs to the polling client, has not expired, was
    not polled too fast, names a user who still exists with the subject that
    approved; the scopes are the record's, and the code is marked consumed
    before the tokens are returned. *)
Theorem device_grant_sound s input w r w' :
  exchangeDeviceCode s input w = (Ok r, w') ->
  exists c d entry u userID sc at_ t1 t2 w1 w2 w3 w4 w5 w6 w7,
    client_cleared s input GrantTypeDeviceCode w c /\ deviceCodes s = Some d /\
    GetByDeviceCode d (TrimSpace (in_DeviceCode input)) w1 = (Ok (Some entry), w2) /\
    dce_ClientID entry = client.ClientID c /\ dce_Status entry = "approved" /\
    now w2 = (Ok t1, w3) /\ t1 < dce_ExpiresAt entry /\
    TouchPoll d (dce_DeviceCode entry) t2 (seconds (dce_Interval entry)) w4 = (Ok true, w5) /\
    ParseInt (dce_UserID entry) = Some userID /\ 0 < userID /\
    User_FindByID (users s) userID w5 = (Ok (Some u), w6) /\
    user.UserUUID u = dce_Subject entry /\
    sc = mustDecodeScopeJSON (dce_ScopesJSON entry) /\
    user_tokens_issued s c u sc at_ r /\
    exists t3, MarkConsumed d (dce_DeviceCode entry) t3 w7 = (Ok tt, w').
Proof.
  unfold exchangeDeviceCode. cbv zeta. intros H.
  run H as c w1 Hc. apply find_client_Ok in Hc as (Hc & Hact & Hgr).
  run_check H as Hs. run_some H as d Hd. run H as o w2 He. run_some H as entry Ho. subst o.
  run_guard H as Hcl. run H as t1 w3 Ht1. run_guard H as Hexp. run H as t2 w4 Ht2.
  run H as allowed w5 Hpoll. run_guard H as Hal. subst allowed. run_check H as Hst.
  run_some H as userID Hp. run_guard H as Hpos. run H as o w6 Hu. run_some H as u Ho. subst o.
  run_guard H as Hsub. run H as at_ w7 Hat. run H as r0 w8 Hr. run H as t3 w9 Ht3.
  run H as mc w10 Hmark. apply ret_Ok in H as [<- <-].
  apply issueUserGrantTokens_Ok in Hr as [Hr _]. destruct mc.
  apply String.eqb_eq in Hcl, Hsub. apply After_spec in Hexp. apply Z.ltb_lt in Hpos.
  exists c, d, entry, u, userID, (mustDecodeScopeJSON (dce_ScopesJSON entry)), at_, t1, t2.
  eexists _, _, _, _, _, _, _. split; [by eapply cleared_client|].
  do 3 (split; [eassumption|]). split.
  { unfold device_status_error in Hst.
    destruct (String.eqb_spec (dce_Status entry) "approved"); [done|].
    repeat (destruct (String.eqb (dce_Status entry) _); try done). }
  do 9 (split; [eassumption || reflexivity|]). eauto.
Qed.

(** What a polling device is told before approval: too fast a poll is
    slow_down, whatever the status; then a pending record is
    authorization_pending, a denied one access_denied, a consumed or unknown
    one an invalid code.  The run ends where the poll was recorded: no token
    is issued. *)
Theorem device_poll_answers s input d entry c w w1 w2 w3 w4 w5 t1 t2 allowed :
  find_client s (in_ClientID input) GrantTypeDeviceCode w = (Ok c, w1) ->
  validateClientSecret s (client.ClientSecretHash c) (in_ClientSecret input) = None ->
  deviceCodes s = Some d ->
  GetByDeviceCode d (TrimSpace (in_DeviceCode input)) w1 = (Ok (Some entry), w2) ->
  dce_ClientID entry = client.ClientID c ->
  now w2 = (Ok t1, w3) -> t1 < dce_ExpiresAt entry -> now w3 = (Ok t2, w4) ->
  TouchPoll d (dce_DeviceCode entry) t2 (seconds (dce_Interval entry)) w4 = (Ok allowed, w5) ->
  let answer e := exchangeDeviceCode s input w = (Err (Token e), w5) in
  (allowed = false -> answer ErrSlowDown) /\
  (allowed = true ->
   (dce_Status entry ∈ ["pending"; ""] -> answer ErrAuthorizationPending) /\
   (dce_Status entry = "denied" -> answer ErrAccessDenied) /\
   (dce_Status entry ∉ ["pending"; ""; "denied"; "approved"] -> answer ErrInvalidDeviceCode)).
Proof.
  intros Hc Hs Hd He Hcl Ht1 Hexp Ht2 Hpoll answer. subst answer. cbv beta.
  assert (Hrun : exists k, exchangeDeviceCode s input w =
    (do* guard allowed ErrSlowDown in
     do* check (device_status_error (dce_Status entry)) in k) w5).
  { eexists. unfold exchangeDeviceCode. rewrite (bind_run _ _ _ _ _ Hc), Hs, Hd.
    rewrite (bind_run (check None) _ w1 tt w1) by done.
    rewrite (bind_run (some_or (Some d) _) _ w1 d w1) by done.
    rewrite (bind_run _ _ _ _ _ He).
    rewrite (bind_run (some_or (Some entry) _) _ w2 entry w2) by done.
    rewrite Hcl, String.eqb_refl, (bind_run _ _ _ _ _ (guard_true _ _)).
    rewrite (bind_run _ _ _ _ _ Ht1), (proj2 (After_spec _ _) Hexp).
    rewrite (bind_run _ _ _ _ _ (guard_true _ _)), (bind_run _ _ _ _ _ Ht2).
    by rewrite (bind_run _ _ _ _ _ Hpoll). }
  destruct Hrun as [k ->]. split; [by intros ->|]. intros ->. rewrite (bind_run _ _ _ _ _ (guard_true _ _)).
  split; [|split].
  - intros Hst. apply elem_of_cons in Hst as [->|Hst]; [done|].
    apply list_elem_of_singleton in Hst. rewrite Hst. reflexivity.
  - by intros ->.
  - rewrite !not_elem_of_cons. intros (H1 & H2 & H3 & H4 & _). unfold device_status_error.
    rewrite (proj2 (String.eqb_neq _ _) H1), (proj2 (String.eqb_neq _ _) H2),
      (proj2 (String.eqb_neq _ _) H3), (proj2 (String.eqb_neq _ _) H4). cbn [orb].
    by destruct (String.eqb (dce_Status entry) "consumed").
Qed.

(** ** Refresh *)

Definition grace_replayed s input r : Prop :=
  exists cache replay e w1 w2,
    tokenCache s = Some cache /\
    CheckRefreshTokenReplay cache (sha256Hex (in_RefreshToken input))
      (TrimSpace (in_ReplayFingerprint input)) w1 = (Ok (Some replay), w2) /\
    rr_Status replay = RefreshTokenReplayGrace /\ rr_Response replay = Some e /\
    r = mkExchangeResult (tre_AccessToken e) (tre_TokenType e) (tre_ExpiresIn e)
          (tre_RefreshToken e) (tre_Scope e) (tre_IDToken e).

Definition rotated s input c (old : refresh.RefreshToken) sc at_ r : Prop :=
  exists w1 w2 m,
    RotateRefreshToken (tokens s) (sha256Hex (in_RefreshToken input)) at_
      (refresh.mk 0 (RefreshToken r) (sha256Hex (RefreshToken r)) (client.ID c)
         (refresh.UserID old) (refresh.Subject old) (MarshalStrings sc) at_
         (Add at_ (seconds (client.RefreshTokenTTLSeconds c))) None None zero_time) w1
    = (Ok m, w2).

Definition refreshed s input c r : Prop :=
  exists old u sc at_ w1 w2 w3,
    FindActiveRefreshTokenBySHA256 (tokens s) (sha256Hex (in_RefreshToken input)) w1
      = (Ok (Some old), w2) /\
    refresh.ClientID old = client.ID c /\
    User_FindByID (users s) (default 0 (refresh.UserID old)) w2 = (Ok (Some u), w3) /\
    sc = mustDecodeScopeJSON (refresh.ScopesJSON old) /\ Scope r = Join (elems sc) " " /\
    access_issued s c (refresh.UserID old) (user.UserUUID u) (refresh.Subject old) sc at_ r /\
    ((client.RefreshTokenTTLSeconds c <= 0 /\ RefreshToken r = "") \/
     (0 < client.RefreshTokenTTLSeconds c /\ RefreshToken r <> "" /\
      rotated s input c old sc at_ r)).

Lemma refreshReplay_grace replay r :
  refreshReplayToExchangeResult replay = Some r ->
  exists x e, replay = Some x /\ rr_Status x = RefreshTokenReplayGrace /\
    rr_Response x = Some e /\
    r = mkExchangeResult (tre_AccessToken e) (tre_TokenType e) (tre_ExpiresIn e)
          (tre_RefreshToken e) (tre_Scope e) (tre_IDToken e).
Proof.
  destruct replay as [x|]; [|done]. simpl. case_decide; [|done].
  destruct (rr_Response x) as [e|] eqn:E; [|done]. intros [= <-]. by exists x, e.
Qed.

Lemma tryGrace_Ok s input w r w' :
  tryRefreshTokenGraceReplay s (sha256Hex (in_RefreshToken input)) (in_ReplayFingerprint input) w
    = (Ok (Some r), w') -> grace_replayed s input r.
Proof.
  unfold tryRefreshTokenGraceReplay. destruct (tokenCache s) as [cache|] eqn:Ec.
  2: { intros H. by apply ret_Ok in H as [? _]. }
  intros H. run H as replay w1 Hr.
  destruct (refreshReplayToExchangeResult replay) as [r0|] eqn:E.
  - apply ret_Ok in H as [[= ->] <-]. apply refreshReplay_grace in E as (rp & e & -> & Hs & He & ->).
    by exists cache, rp, e, w, w1.
  - destruct (replay_rejected replay); [by apply throw_Ok in H | by apply ret_Ok in H as [? _]].
Qed.

Lemma finish_rotation_Ok s input c old sc at_ r0 w r w' :
  finish_rotation s input c (sha256Hex (in_RefreshToken input)) old (MarshalStrings sc) at_ r0 w
    = (Ok r, w') ->
  grace_replayed s input r \/
  (rotated s input c old sc at_ r /\ RefreshToken r <> "" /\ exists t, r = set_RefreshToken t r0).
Proof.
  unfold finish_rotation. cbv zeta. intros H. run H as u1 w1 Hu1. run H as u2 w2 Hu2.
  run H as rot w3 Hrot. apply attempt_inv in Hrot. destruct rot as [m|err].
  - run H as x w4 Hx. apply ret_Ok in H as [<- <-]. right.
    split; [|split; [apply dotted_nonempty | eauto]]. exists w2, w3, m. exact Hrot.
  - run H as rep w4 Hrep. apply attempt_inv in Hrep. destruct rep as [[rr|]|e].
    + apply ret_Ok in H as [<- <-]. left. by eapply tryGrace_Ok.
    + case_decide; by apply throw_Ok in H.
    + case_decide; by apply throw_Ok in H.
Qed.

Lemma refresh_from_database_Ok s input c w r w' :
  refresh_from_database s input c (sha256Hex (in_RefreshToken input)) w = (Ok r, w') ->
  grace_replayed s input r \/ refreshed s input c r.
Proof.
  unfold refresh_from_database. cbv zeta. intros H. run H as o w1 Hold. run_some H as old Ho.
  subst o. run_guard H as Hcl. apply Z.eqb_eq in Hcl. run H as o w2 Hu. run_some H as u Ho.
  subst o. run H as at_ w3 Hat. run H as jti w4 Hj. run H as tok w5 Hm. run H as m w6 Hrow.
  run H as y w7 Hy. run H as r0 w8 Hr0.
  apply bearer_result_Ok in Hr0 as (Ha & Ht & Hrt & Hid & Hsc).
  set (sc := mustDecodeScopeJSON (refresh.ScopesJSON old)) in *.
  assert (Hiss : forall r1, AccessToken r1 = tok ->
    access_issued s c (refresh.UserID old) (user.UserUUID u) (refresh.Subject old) sc at_ r1).
  { intros r1 Hr1. unfold access_issued. rewrite Hr1. repeat eexists; eassumption. }
  destruct (Z.leb_spec (client.RefreshTokenTTLSeconds c) 0).
  - apply ret_Ok in H as [<- <-]. right. exists old, u, sc, at_, w, w1, w2. eauto 12.
  - apply finish_rotation_Ok in H as [?|(Hrot & Hne & t & ->)]; [by left|]. right.
    exists old, u, sc, at_, w, w1, w2. eauto 12.
Qed.

(** C4. A refresh answers either with the very response that an earlier
    exchange of the same token left in the grace cache, or with tokens for
    the user, subject, client and scopes of the presented, still active
    token: never more scopes.  In the second case a new refresh token leaves
    the server only if the database rotated the presented one to it. *)
Theorem refresh_grant_sound s input w r w' :
  exchangeRefreshToken s input w = (Ok r, w') ->
  exists c, client_cleared s input GrantTypeRefreshToken w c /\
    (grace_replayed s input r \/ refreshed s input c r).
Proof.
  unfold exchangeRefreshToken. cbv zeta. intros H.
  run H as c w1 Hc. apply find_client_Ok in Hc as (Hc & Hact & Hgr). run_check H as Hs.
  exists c. split; [by eapply cleared_client|].
  destruct (tokenCache s) as [cache|] eqn:Ec; [|by eapply refresh_from_database_Ok].
  run H as replay w2 Hrep. destruct (refreshReplayToExchangeResult replay) as [r0|] eqn:E.
  - apply ret_Ok in H as [<- <-]. left.
    apply refreshReplay_grace in E as (rp & e & -> & Hst & He & ->). by exists cache, rp, e, w1, w2.
  - destruct (replay_rejected replay); [by apply throw_Ok in H | by eapply refresh_from_database_Ok].
Qed.

(** A refresh token the cache reports as replayed outside its grace
    window, or under another fingerprint, is refused with
    ErrInvalidRefreshToken before the database is read and before anything is
    issued. *)
Theorem rejected_replay_refused s input cache c replay w w1 w2 :
  find_client s (in_ClientID input) GrantTypeRefreshToken w = (Ok c, w1) ->
  validateClientSecret s (client.ClientSecretHash c) (in_ClientSecret input) = None ->
  tokenCache s = Some cache ->
  CheckRefreshTokenReplay cache (sha256Hex (in_RefreshToken input))
    (TrimSpace (in_ReplayFingerprint input)) w1 = (Ok (Some replay), w2) ->
  rr_Status replay = RefreshTokenReplayRejected ->
  exchangeRefreshToken s input w = (Err (Token ErrInvalidRefreshToken), w2).
Proof.
  intros Hc Hs Hcache Hrep Hst. unfold exchangeRefreshToken. rewrite (bind_run _ _ _ _ _ Hc), Hs.
  rewrite (bind_run (check None) _ w1 tt w1) by done. rewrite Hcache, (bind_run _ _ _ _ _ Hrep).
  simpl. by rewrite Hst.
Qed.

(** ** The dispatcher *)

Lemma authorization_code_cleared s input w r w' :
  exchangeAuthorizationCode s input w = (Ok r, w') ->
  exists c, client_cleared s input GrantTypeAuthorizationCode w c.
Proof.
  unfold exchangeAuthorizationCode. intros H. run_guard H as Hg. cbv zeta in H.
  run H as c w1 Hc. apply find_client_Ok in Hc as (Hc & Hact & Hgr).
  run_guard H as Hu. run_check H as Hs. exists c. by eapply cleared_client.
Qed.

Lemma refresh_cleared s input w r w' :
  exchangeRefreshToken s input w = (Ok r, w') ->
  exists c, client_cleared s input GrantTypeRefreshToken w c.
Proof.
  unfold exchangeRefreshToken. intros H. cbv zeta in H.
  run H as c w1 Hc. apply find_client_Ok in Hc as (Hc & Hact & Hgr). run_check H as Hs. exists c.
  by eapply cleared_client.
Qed.

Lemma client_credentials_cleared s input w r w' :
  exchangeClientCredentials s input w = (Ok r, w') ->
  exists c, client_cleared s input GrantTypeClientCredentials w c.
Proof.
  unfold exchangeClientCredentials. intros H. cbv zeta in H.
  run H as c w1 Hc. apply find_client_Ok in Hc as (Hc & Hact & Hgr). run_check H as Hs. exists c.
  by eapply cleared_client.
Qed.

Lemma password_cleared s input w r w' :
  exchangePassword s input w = (Ok r, w') ->
  exists c, client_cleared s input GrantTypePassword w c.
Proof.
  unfold exchangePassword. intros H. cbv zeta in H.
  run H as c w1 Hc. apply find_client_Ok in Hc as (Hc & Hact & Hgr). run_check H as Hs. exists c.
  by eapply cleared_client.
Qed.

Lemma device_cleared s input w r w' :
  exchangeDeviceCode s input w = (Ok r, w') ->
  exists c, client_cleared s input GrantTypeDeviceCode w c.
Proof.
  unfold exchangeDeviceCode. intros H. cbv zeta in H.
  run H as c w1 Hc. apply find_client_Ok in Hc as (Hc & Hact & Hgr). run_check H as Hs. exists c.
  by eapply cleared_client.
Qed.

Definition grants : list GrantType :=
  [GrantTypeAuthorizationCode; GrantTypeRefreshToken; GrantTypeClientCredentials;
   GrantTypePassword; GrantTypeDeviceCode].

(** Whatever the grant, the token endpoint's service answers with tokens
    only if the grant type is one of the five it knows and the client it
    looked up is active, may use that grant and passed authentication; an
    unknown grant type is refused without touching any store. *)
Theorem exchange_gate s input w :
  (in_GrantType input ∉ grants ->
   Exchange s input w = (Err (Token ErrUnsupportedGrantType), w)) /\
  (forall r w', Exchange s input w = (Ok r, w') ->
   in_GrantType input ∈ grants /\ exists c, client_cleared s input (in_GrantType input) w c).
Proof.
  unfold Exchange, grants. set (g := in_GrantType input). split.
  - rewrite !not_elem_of_cons. intros (H1 & H2 & H3 & H4 & H5 & _).
    by rewrite !(proj2 (String.eqb_neq _ _)) by done.
  - intros r w'.
    destruct (String.eqb_spec g GrantTypeAuthorizationCode) as [->|_].
    { intros H%authorization_code_cleared. split; [set_solver | done]. }
    destruct (String.eqb_spec g GrantTypeRefreshToken) as [->|_].
    { intros H%refresh_cleared. split; [set_solver | done]. }
    destruct (String.eqb_spec g GrantTypeClientCredentials) as [->|_].
    { intros H%client_credentials_cleared. split; [set_solver | done]. }
    destruct (String.eqb_spec g GrantTypePassword) as [->|_].
    { intros H%password_cleared. split; [set_solver | done]. }
    destruct (String.eqb_spec g GrantTypeDeviceCode) as [->|_].
    { intros H%device_cleared. split; [set_solver | done]. }
    intros H. by apply throw_Ok in H.
Qed.
End Theorems.

(** ** Witnesses *)

#[local] Existing Instance Demo.runtime.

Lemma authorization_code_grant_sound_witness :
  let s := Demo.service "approved" in let i := Demo.input GrantTypeAuthorizationCode in
  exists r w', exchangeAuthorizationCode s i 100 = (Ok r, w') /\ code_redeemed s i 100 r.
Proof.
  intros s i. provide_run (exchangeAuthorizationCode s i 100).
  assert (H : exchangeAuthorizationCode s i 100 = _) by run_is.
  split; [exact H | exact (authorization_code_grant_sound _ _ _ _ _ H)].
Defined.

(** A code presented with a wrong verifier. *)
Definition wrong_verifier : ExchangeInput :=
  mkExchangeInput GrantTypeAuthorizationCode "web" "secret" "fp" "code-1" Demo.callback "guess"
    "" "" "" "" [].

Lemma rejected_code_stays_spent_witness :
  exchangeAuthorizationCode (Demo.service "approved") wrong_verifier 100
  = (Err (Token ErrInvalidCodeVerifier), 100).
Proof.
  apply (rejected_code_stays_spent (Demo.service "approved") wrong_verifier 100 Demo.code Demo.web).
  - exists 100, 100, 100. repeat split; run_is.
  - reflexivity.
  - reflexivity.
  - intros Hp.
    destruct (validateCodeVerifier_cases Demo.code "guess" true) as [[Hn _]|[_ Hn]];
      [vm_compute in Hn; discriminate | exact (Hn Hp)].
Defined.

Lemma client_credentials_sound_witness :
  let s := Demo.service "approved" in let i := Demo.input GrantTypeClientCredentials in
  exists r w', exchangeClientCredentials s i 100 = (Ok r, w') /\ Scope r = "openid profile" /\
    exists c, client_cleared s i GrantTypeClientCredentials 100 c.
Proof.
  intros s i. provide_run (exchangeClientCredentials s i 100).
  assert (H : exchangeClientCredentials s i 100 = _) by run_is.
  split; [exact H | split; [reflexivity|]].
  destruct (client_credentials_sound _ _ _ _ _ H) as (c & _ & _ & Hc & _). exists c. exact Hc.
Defined.

Lemma password_grant_sound_witness :
  let s := Demo.service "approved" in let i := Demo.input GrantTypePassword in
  exists r w', exchangePassword s i 100 = (Ok r, w') /\
    exists c, client_cleared s i GrantTypePassword 100 c.
Proof.
  intros s i. provide_run (exchangePassword s i 100).
  assert (H : exchangePassword s i 100 = _) by run_is. split; [exact H|].
  destruct (password_grant_sound _ _ _ _ _ H) as (c & _ & _ & _ & _ & _ & _ & Hc & _).
  exists c. exact Hc.
Defined.

Lemma device_grant_sound_witness :
  let s := Demo.service "approved" in let i := Demo.input GrantTypeDeviceCode in
  exists r w', exchangeDeviceCode s i 100 = (Ok r, w') /\
    exists c, client_cleared s i GrantTypeDeviceCode 100 c.
Proof.
  intros s i. provide_run (exchangeDeviceCode s i 100).
  assert (H : exchangeDeviceCode s i 100 = _) by run_is. split; [exact H|].
  destruct (device_grant_sound _ _ _ _ _ H) as (c & Hc).
  do 15 destruct Hc as [? Hc]. exists c. exact (proj1 Hc).
Defined.

Lemma device_poll_answers_witness :
  exchangeDeviceCode (Demo.service "pending") (Demo.input GrantTypeDeviceCode) 100
  = (Err (Token ErrAuthorizationPending), 100).
Proof.
  apply (device_poll_answers (Demo.service "pending") (Demo.input GrantTypeDeviceCode)
           (Demo.devices "pending") (Demo.device "pending") Demo.web 100 100 100 100 100 100
           100 100 true); try reflexivity; try run_is.
  left.
Defined.

Lemma refresh_grant_sound_witness :
  let s := Demo.service "approved" in let i := Demo.input GrantTypeRefreshToken in
  exists r w', exchangeRefreshToken s i 100 = (Ok r, w') /\
    exists c, grace_replayed s i r \/ refreshed s i c r.
Proof.
  intros s i. provide_run (exchangeRefreshToken s i 100).
  assert (H : exchangeRefreshToken s i 100 = _) by run_is. split; [exact H|].
  destruct (refresh_grant_sound _ _ _ _ _ H) as (c & _ & Hc). exists c. exact Hc.
Defined.

Lemma rejected_replay_refused_witness :
  exchangeRefreshToken (Demo.cached_service RefreshTokenReplayRejected)
    (Demo.input GrantTypeRefreshToken) 100 = (Err (Token ErrInvalidRefreshToken), 100).
Proof.
  apply (rejected_replay_refused _ _ (Demo.cache RefreshTokenReplayRejected) Demo.web
           (mkRefreshTokenReplayResult RefreshTokenReplayRejected None) 100 100 100);
    try reflexivity; run_is.
Defined.

Lemma exchange_gate_witness :
  let s := Demo.service "approved" in let i := Demo.input GrantTypePassword in
  exists r w', Exchange s i 100 = (Ok r, w') /\
    exists c, client_cleared s i (in_GrantType i) 100 c.
Proof.
  intros s i. provide_run (Exchange s i 100).
  assert (H : Exchange s i 100 = _) by run_is. split; [exact H|].
  exact (proj2 (proj2 (exchange_gate s i 100) _ _ H)).
Defined.
