(* ===== verification/Remote.v ===== *)
(** * Remote servers

    The cache server and the database server are states the world refers to.
    A request to one of them may be lost, and so may its reply; between a
    request's departure and its execution anything the rest of the system does
    may happen.  The client library may retry, so that a program may run more
    than once, and an error does not tell whether it ran. *)

From stdpp Require Import base tactics list relations.
From S2P Require Import Prelude Errors.

Inductive delivery :=
| Delivered
| LostRequest (e : error)
| LostReply (e : error).

(** [transport] is what happens until the server takes the request up: time
    passes, other clients act.  [max_retries] is the client library's option. *)
Class Remote (W R : Type) := {
  server : W -> R;
  put_server : R -> W -> W;
  server_put : forall r w, server (put_server r w) = r;
  transport : W -> delivery * W;
  max_retries : W -> nat;
}.

Section Client.
Context {W R : Type} `{Remote W R}.

Fixpoint round_trips {A} (retries : nat) (m : IO R A) : IO W A := fun w =>
  let '(d, w1) := transport w in
  let again (e : error) (w : W) :=
    match retries with O => (Err e, w) | S n => round_trips n m w end in
  match d with
  | Delivered => let '(a, r) := m (server w1) in (a, put_server r w1)
  | LostRequest e => again e w1
  | LostReply e => let '(_, r) := m (server w1) in again e (put_server r w1)
  end.

Definition call {A} (m : IO R A) : IO W A := fun w => round_trips (max_retries w) m w.

(** A round trip that returned a value ran the program once at the end, on
    the server as it was then. *)
Lemma call_Ok {A} (m : IO R A) w a w' :
  call m w = (Ok a, w') -> exists w1 r, m (server w1) = (Ok a, r) /\ server w' = r.
Proof.
  unfold call. generalize (max_retries w) as n. intros n.
  revert w. induction n as [|n IH]; intros w; cbn [round_trips]; destruct (transport w) as [[|e|e] w1].
  - destruct (m (server w1)) as [x r] eqn:E. intros [= -> <-]. exists w1, r. by rewrite server_put.
  - discriminate.
  - destruct (m (server w1)) as [x r]. discriminate.
  - destruct (m (server w1)) as [x r] eqn:E. intros [= -> <-]. exists w1, r. by rewrite server_put.
  - apply IH.
  - destruct (m (server w1)) as [x r]. apply IH.
Qed.

(** Everything that happens to the server during a round trip is what
    [transport] does to it, and runs of the program; the run whose reply
    arrived started from a server reached that way. *)
Section Steps.
Context {A : Type} (step : relation R) (m : IO R A).
Hypothesis transport_steps : forall w, rtc step (server w) (server (transport w).2).
Hypothesis program_steps : forall r, rtc step r (m r).2.

Lemma call_Ok_steps w a w' :
  call m w = (Ok a, w') ->
  exists w1 r, rtc step (server w) (server w1) /\ m (server w1) = (Ok a, r) /\ server w' = r.
Proof.
  unfold call. generalize (max_retries w) as n. intros n.
  revert w. induction n as [|n IH]; intros w; cbn [round_trips]; pose proof (transport_steps w) as Hw;
    destruct (transport w) as [[|e|e] w1]; simpl in Hw; pose proof (program_steps (server w1)) as Hr.
  1,3,4,6: destruct (m (server w1)) as [x r] eqn:E; simpl in Hr.
  - intros [= -> <-]. exists w1, r. by rewrite server_put.
  - discriminate.
  - intros [= -> <-]. exists w1, r. by rewrite server_put.
  - intros Hc. destruct (IH _ Hc) as (w2 & r2 & Hs & Hm & Hw'). rewrite server_put in Hs.
    exists w2, r2. split; [|done]. etrans; [exact Hw|]. by etrans.
  - discriminate.
  - intros Hc. destruct (IH _ Hc) as (w2 & r2 & Hs & Hm & Hw').
    exists w2, r2. split; [|done]. by etrans.
Qed.

(** The same of a round trip that failed. *)
Lemma call_steps w : rtc step (server w) (server (call m w).2).
Proof.
  unfold call. generalize (max_retries w) as n. intros n. revert w. induction n as [|n IH]; intros w; cbn [round_trips]; pose proof (transport_steps w) as Hw;
    destruct (transport w) as [[|e|e] w1]; cbn [snd] in Hw; try exact Hw; pose proof (program_steps (server w1)) as Hr.
  1-3: destruct (m (server w1)) as [x r] eqn:E; cbn [snd] in *; rewrite server_put; by etrans.
  - etrans; [exact Hw | apply IH].
  - destruct (m (server w1)) as [x r] eqn:E. cbn [snd] in Hr. etrans; [exact Hw|]. etrans; [exact Hr|]. rewrite <- (server_put r w1) at 1. apply IH.
Qed.
End Steps.
End Client.
