(* ===== verification/Database.v ===== *)
(** * The database server (MySQL)

    A parameter: a type [D] of database states with, for each table, the three
    statements the repositories use and the laws their documentation gives.
    The statements themselves (the SQL files) are translated where they are
    used, as predicates and updates on rows.

    A statement that fails changes nothing.  A transaction that locks the row
    it decides on ([SELECT ... FOR UPDATE]) is one step for everybody who
    touches that row; without a commit it leaves no trace. *)

From stdpp Require Import base tactics list gmap strings numbers.
From Stdlib Require Import ZArith Lia Ascii.
From S2P Require Import Prelude GoStrings GoTime Errors Domain Ports Remote.

(** ** Columns *)

(** [datetime] is what a DATETIME column keeps of an instant; [json_column]
    the normalised text of a JSON column, [None] when the text is not JSON;
    [collate] the equality of the text columns' collation;
    [current_timestamp] the server's clock. *)
Class Columns (D : Type) := {
  datetime : time -> time;
  json_column : string -> option string;
  collate : string -> string -> bool;
  collate_refl : forall s, collate s s = true;
  collate_sym : forall s t, collate s t = collate t s;
  collate_trans : forall s t u, collate s t = true -> collate t u = true -> collate s u = true;
  current_timestamp : D -> time;
}.

(** ** Tables *)

(** A table with an AUTO_INCREMENT primary key, [row_id], and unique keys:
    two rows that [conflict] cannot both be there. *)
Class Row (R : Type) := {
  row_id : R -> Z;
  conflict : R -> R -> bool;
}.

Class Table (D R : Type) `{Row R} := {
  rows : D -> gmap Z R;
  SELECT : (D -> R -> bool) -> IO D (list R);
  INSERT : (Z -> time -> R) -> IO D Z;
  UPDATE : (D -> R -> bool) -> (R -> R) -> IO D Z;

  rows_keyed : forall d id r, rows d !! id = Some r -> row_id r = id;
  rows_unique : forall d id1 id2 r1 r2,
    rows d !! id1 = Some r1 -> rows d !! id2 = Some r2 -> conflict r1 r2 = true -> id1 = id2;
  SELECT_rows : forall p d a d', SELECT p d = (a, d') -> rows d' = rows d;
  SELECT_Ok : forall p d l d', SELECT p d = (Ok l, d') ->
    forall r, r ∈ l <-> p d r = true /\ exists id, rows d !! id = Some r;
  INSERT_Err : forall f d e d', INSERT f d = (Err e, d') -> rows d' = rows d;
  INSERT_Ok : forall f d id d', INSERT f d = (Ok id, d') ->
    rows d !! id = None /\ exists created_at,
      rows d' = <[id := f id created_at]> (rows d) /\ row_id (f id created_at) = id;
  UPDATE_Err : forall p f d e d', UPDATE p f d = (Err e, d') -> rows d' = rows d;
  UPDATE_Ok : forall p f d n d', UPDATE p f d = (Ok n, d') ->
    rows d' = (fun r => if p d r then f r else r) <$> rows d /\
    (n = 0 -> forall id r, rows d !! id = Some r -> p d r = true -> f r = r);
}.

(** No statement sets the server's clock back. *)
Class ForwardClock (D R : Type) `{Columns D} `{Table D R} : Prop := {
  SELECT_clock : forall p (d : D) a d', SELECT p d = (a, d') -> current_timestamp d <= current_timestamp d';
  INSERT_clock : forall f (d : D) a d', INSERT f d = (a, d') -> current_timestamp d <= current_timestamp d';
  UPDATE_clock : forall p f (d : D) a d', UPDATE p f d = (a, d') -> current_timestamp d <= current_timestamp d';
}.

(** [BeginTx], the body, then [Commit] when it asks for it; the deferred
    [Rollback] otherwise. *)
Definition transaction {D A} (body : IO D (bool * A)) : IO D A := fun d =>
  match body d with
  | (Ok (true, a), d') => (Ok a, d')
  | (Ok (false, a), _) => (Ok a, d)
  | (Err e, _) => (Err e, d)
  end.

Lemma transaction_Ok {D A} (body : IO D (bool * A)) d a d' :
  transaction body d = (Ok a, d') <->
  (body d = (Ok (true, a), d') \/ exists d1, body d = (Ok (false, a), d1) /\ d' = d).
Proof.
  unfold transaction. destruct (body d) as [[[[] b]|e] d1]; split; intros Hx.
  - injection Hx as -> ->. by left.
  - destruct Hx as [[= -> ->]|(? & [=] & _)]. done.
  - injection Hx as -> <-. right. by exists d1.
  - destruct Hx as [[=]|(? & [= -> _] & ->)]. done.
  - discriminate.
  - destruct Hx as [[=]|(? & [=] & _)].
Qed.

Lemma transaction_Err {D A} (body : IO D (bool * A)) d e d' :
  transaction body d = (Err e, d') -> d' = d.
Proof. unfold transaction. destruct (body d) as [[[[] b]|e1] d1]; congruence. Qed.

(** A lower bound on the clock survives a transaction whose body keeps it. *)
Lemma preserves_transaction {D A} (P : D -> Prop) (body : IO D (bool * A)) :
  preserves P body -> preserves P (transaction body).
Proof.
  intros Hb d a d' Ht HP. unfold transaction in Ht. destruct (body d) as [[[[] x]|e] d1] eqn:E.
  - injection Ht as _ <-. by eapply Hb.
  - by injection Ht as _ <-.
  - by injection Ht as _ <-.
Qed.

(** ** Null columns (session_repo.go) *)

Definition nullString (value : string) : option string := if String.eqb value "" then None else Some value.
Definition nullTime (value : option time) : option time := value.
Definition nullInt64 (value : option Z) : option Z := value.

(** [sql.NullString.String] *)
Definition scan_string (o : option string) : string := default "" o.

Lemma scan_nullString s : scan_string (nullString s) = s.
Proof. unfold scan_string, nullString. by destruct (String.eqb_spec s "") as [->|]. Qed.

(** ** The connections (db_router.go) *)

Section Router.
Context {W D : Type}.

(** A [*sql.DB]: a way to reach one database server, nil when absent. *)
Definition DB : Type := option (Remote W D).

Record dbRouter := mkRouter { write : DB; read : DB }.

Definition newDBRouter (writeDB readDB : DB) : dbRouter :=
  let writeDB := match writeDB with None => readDB | Some _ => writeDB end in
  let readDB := match readDB with None => writeDB | Some _ => readDB end in
  mkRouter writeDB readDB.

Definition writer (r : dbRouter) : DB := write r.
Definition reader (r : dbRouter) : DB := read r.

(** A statement or transaction on a connection; on nil it is a crash, an
    error of the request here. *)
Definition run_on {A} (db : DB) (m : IO D A) : IO W A :=
  match db with
  | Some h => call (H := h) m
  | None => throw (Driver "nil *sql.DB")
  end.
End Router.
Arguments DB : clear implicits.
Arguments dbRouter : clear implicits.

(** ** A database in memory

    One table of a state [D], seen through [get] and [put]: what the laws
    above ask for can be met.  A state whose rows break the keys counts as
    having none; no statement makes such a state. *)
Section Memory.
Context {D R : Type} `{Row R}.
Context (get : D -> gmap Z R) (put : gmap Z R -> D -> D) (clock : D -> time).
Hypothesis get_put : forall m d, get (put m d) = m.

Definition keyed (m : gmap Z R) : bool := forallb (fun p => row_id p.2 =? p.1) (map_to_list m).

Definition unique (m : gmap Z R) : bool :=
  forallb (fun p => forallb (fun q => negb (conflict p.2 q.2) || (p.1 =? q.1)) (map_to_list m)) (map_to_list m).

Definition wf (m : gmap Z R) : bool := keyed m && unique m.

Definition mem_rows (d : D) : gmap Z R := if wf (get d) then get d else ∅.

Definition mem_SELECT (p : D -> R -> bool) : IO D (list R) := fun d =>
  (Ok (List.filter (p d) (List.map snd (map_to_list (mem_rows d)))), d).

Definition mem_INSERT (f : Z -> time -> R) : IO D Z := fun d =>
  let m := mem_rows d in
  let id := fresh (dom m) in
  let m' := <[id := f id (clock d)]> m in
  if wf m' then (Ok id, put m' d) else (Err (ErrDuplicate : error), d).

Definition mem_UPDATE (p : D -> R -> bool) (f : R -> R) : IO D Z := fun d =>
  let m := mem_rows d in
  let m' := (fun r => if p d r then f r else r) <$> m in
  if wf m' then (Ok (Z.of_nat (length (List.filter (fun q => p d q.2) (map_to_list m)))), put m' d)
  else (Err (Driver "constraint" : error), d).

Lemma keyed_spec m id r : wf m = true -> m !! id = Some r -> row_id r = id.
Proof.
  unfold wf. rewrite andb_true_iff. intros [Hk _] Hm. unfold keyed in Hk. rewrite forallb_forall in Hk.
  specialize (Hk (id, r)). rewrite <- list_elem_of_In in Hk. apply Z.eqb_eq, Hk. by apply elem_of_map_to_list.
Qed.

Lemma unique_spec m i j r s : wf m = true -> m !! i = Some r -> m !! j = Some s -> conflict r s = true -> i = j.
Proof.
  unfold wf. rewrite andb_true_iff. intros [_ Hu] Hi Hj Hc. unfold unique in Hu. rewrite forallb_forall in Hu.
  specialize (Hu (i, r)). rewrite <- list_elem_of_In, forallb_forall in Hu.
  specialize (Hu ltac:(by apply elem_of_map_to_list) (j, s)). rewrite <- list_elem_of_In in Hu.
  specialize (Hu ltac:(by apply elem_of_map_to_list)). simpl in Hu. rewrite Hc in Hu. by apply Z.eqb_eq.
Qed.

Lemma mem_rows_Some d id r : mem_rows d !! id = Some r -> wf (get d) = true /\ get d !! id = Some r.
Proof. unfold mem_rows. destruct (wf (get d)); [done|]. by rewrite lookup_empty. Qed.

Lemma mem_rows_put m d : wf m = true -> mem_rows (put m d) = m.
Proof. intros Hm. unfold mem_rows. by rewrite get_put, Hm. Qed.

Program Definition memory_table : Table D R := {|
  rows := mem_rows;
  SELECT := mem_SELECT;
  INSERT := mem_INSERT;
  UPDATE := mem_UPDATE;
|}.
Next Obligation. intros d id r Hr. apply mem_rows_Some in Hr as [? ?]. by eapply keyed_spec. Qed.
Next Obligation.
  intros d i j r s Hi Hj Hc. apply mem_rows_Some in Hi as [? ?], Hj as [? ?]. by eapply unique_spec.
Qed.
Next Obligation. by intros p d a d' [= _ <-]. Qed.
Next Obligation.
  intros p d l d' [= <- <-] r. rewrite list_elem_of_In, filter_In, in_map_iff. split.
  - intros [([i s] & <- & Hin) Hp]. split; [done|]. exists i.
    apply elem_of_map_to_list. by apply list_elem_of_In.
  - intros [Hp [i Hi]]. split; [|done]. exists (i, r). split; [done|].
    apply list_elem_of_In. by apply elem_of_map_to_list.
Qed.
Next Obligation. intros f d e d'. unfold mem_INSERT. case_match; [discriminate|]. by intros [= _ <-]. Qed.
Next Obligation.
  intros f d id d'. unfold mem_INSERT. case_match eqn:E; [|discriminate]. intros [= <- <-].
  rewrite mem_rows_put by done. split; [apply not_elem_of_dom, is_fresh|].
  eexists. split; [done|]. eapply keyed_spec; [exact E|]. by rewrite lookup_insert_eq.
Qed.
Next Obligation. intros p f d e d'. unfold mem_UPDATE. case_match; [discriminate|]. by intros [= _ <-]. Qed.
Next Obligation.
  intros p f d n d'. unfold mem_UPDATE. case_match eqn:E; [|discriminate]. intros [= <- <-].
  rewrite mem_rows_put by done. split; [done|]. intros Hn id r Hr Hp. exfalso.
  assert (Hin : (id, r) ∈ List.filter (fun q => p d q.2) (map_to_list (mem_rows d))).
  { apply list_elem_of_In, filter_In. split; [|done]. apply list_elem_of_In. by apply elem_of_map_to_list. }
  destruct (List.filter (fun q => p d q.2) (map_to_list (mem_rows d))); [by apply elem_of_nil in Hin|].
  simpl in Hn. lia.
Qed.

Lemma memory_forward `{!Columns D} :
  (forall m d, current_timestamp (put m d) = current_timestamp d) ->
  ForwardClock D R (H1 := memory_table).
Proof.
  intros Hput. constructor.
  - intros p d a d' [= _ <-]. lia.
  - intros f d a d'. simpl. unfold mem_INSERT. case_match; intros [= _ <-]; rewrite ?Hput; lia.
  - intros p f d a d'. simpl. unfold mem_UPDATE. case_match; intros [= _ <-]; rewrite ?Hput; lia.
Qed.
End Memory.

(** The columns of that database: seconds, JSON kept as it is, a collation
    that tells all texts apart. *)
Definition memory_columns {D} (clock : D -> time) : Columns D.
Proof.
  refine {| datetime := fun t => (t + 500000000) / Second * Second; json_column := Some;
            collate := String.eqb; current_timestamp := clock |}.
  - apply String.eqb_refl.
  - apply String.eqb_sym.
  - intros s t u. rewrite !String.eqb_eq. congruence.
Defined.

(** * DELETE and INSERT ... ON DUPLICATE KEY UPDATE

    The two statements only some tables see, with the laws MySQL documents
    for them, the table in memory that has them, and Go's iteration over a
    set kept as a map. *)

(** [UPSERT f g] inserts the row [f id t]; when a row with an equal unique
    key is there, that row is replaced by [g t old new] instead, where [t] is
    the time of the statement and [new] the row that was to be inserted. *)
Class TableEdit (D R : Type) `{Table D R} := {
  DELETE : (D -> R -> bool) -> IO D Z;
  UPSERT : (Z -> time -> R) -> (time -> R -> R -> R) -> IO D Z;
  DELETE_Err : forall p d e d', DELETE p d = (Err e, d') -> rows d' = rows d;
  DELETE_Ok : forall p d n d', DELETE p d = (Ok n, d') -> rows d' = filter (fun q => p d q.2 = false) (rows d);
  UPSERT_Err : forall f g d e d', UPSERT f g d = (Err e, d') -> rows d' = rows d;
  UPSERT_Ok : forall f g d n d', UPSERT f g d = (Ok n, d') -> exists id t,
    (rows d !! id = None /\ (forall i r, rows d !! i = Some r -> conflict r (f i t) = false) /\
     rows d' = <[id := f id t]> (rows d) /\ row_id (f id t) = id) \/
    (exists r, rows d !! id = Some r /\ conflict r (f id t) = true /\ rows d' = <[id := g t r (f id t)]> (rows d));
}.

(** [for k := range m], over a map used as a set: any order. *)
Class MapRange := {
  range_keys : gset string -> list string;
  range_keys_perm : forall s, range_keys s ≡ₚ elements s;
}.

Lemma elem_of_range_keys `{MapRange} s x : x ∈ range_keys s <-> x ∈ s.
Proof. by rewrite range_keys_perm, elem_of_elements. Qed.

Section Memory.
Context {D R : Type} `{Row R}.
Context (get : D -> gmap Z R) (put : gmap Z R -> D -> D) (clock : D -> time).
Hypothesis get_put : forall m d, get (put m d) = m.

#[local] Instance memory : Table D R := memory_table get put clock get_put.

Definition mem_DELETE (p : D -> R -> bool) : IO D Z := fun d =>
  let m := mem_rows get d in
  let m' := filter (fun q => p d q.2 = false) m in
  if wf m' then (Ok (Z.of_nat (size m - size m')), put m' d) else (Err (Driver "constraint" : error), d).

Definition mem_UPSERT (f : Z -> time -> R) (g : time -> R -> R -> R) : IO D Z := fun d =>
  let m := mem_rows get d in
  match List.find (fun q => conflict q.2 (f q.1 (clock d))) (map_to_list m) with
  | Some (id, r) =>
      let m' := <[id := g (clock d) r (f id (clock d))]> m in
      if wf m' then (Ok id, put m' d) else (Err (Driver "constraint" : error), d)
  | None =>
      let id := fresh (dom m) in
      let m' := <[id := f id (clock d)]> m in
      if wf m' then (Ok id, put m' d) else (Err (ErrDuplicate : error), d)
  end.

Program Definition memory_edit : TableEdit D R := {|
  DELETE := mem_DELETE;
  UPSERT := mem_UPSERT;
|}.
Next Obligation. intros p d e d'. unfold mem_DELETE. case_match; [discriminate|]. by intros [= _ <-]. Qed.
Next Obligation.
  intros p d n d'. unfold mem_DELETE. case_match eqn:E; [|discriminate]. intros [= _ <-]. simpl.
  by rewrite mem_rows_put.
Qed.
Next Obligation.
  intros f g d e d'. unfold mem_UPSERT. repeat case_match; intros Hx; try discriminate; by injection Hx as _ <-.
Qed.
Next Obligation.
  intros f g d n d'. unfold mem_UPSERT. destruct (List.find _ _) as [[id r]|] eqn:Ef.
  - case_match eqn:E; [|discriminate]. intros [= _ <-]. exists id, (clock d). right. exists r.
    apply List.find_some in Ef as [Hin Hc]. apply list_elem_of_In, elem_of_map_to_list in Hin.
    split; [done|]. split; [done|]. simpl. by rewrite mem_rows_put.
  - case_match eqn:E; [|discriminate]. intros [= _ <-]. eexists _, (clock d). left.
    split; [apply not_elem_of_dom, is_fresh|]. split; [|split].
    + intros i r Hr. apply (List.find_none _ _ Ef (i, r)). apply list_elem_of_In. by apply elem_of_map_to_list.
    + simpl. by rewrite mem_rows_put.
    + eapply keyed_spec; [exact E|]. by rewrite lookup_insert_eq.
Qed.
End Memory.
