(* ===== verification/Rbac.v ===== *)
(** * pkg/rbac and application/rbac: privilege masks and operator roles *)

From stdpp Require Import base tactics list strings numbers.
From Stdlib Require Import ZArith Lia Ascii.
From S2P Require Import Prelude GoStrings GoTime Errors Domain Ports.

(** ** Masks *)

Definition ActionRead : Z := 0x8.
Definition ActionExec : Z := 0x4.
Definition ActionManage : Z := 0x2.
Definition ActionPriv : Z := 0x1.

(** A permission is an action shifted to the nibble of its domain:
    Auth 28, OAuth 24, Client 20, User 16, Audit 12, Key 8, Tenant 4, Ops 0. *)
Definition permission (action shift : Z) : Z := Z.shiftl action shift.

Definition domain_shifts : list Z := [28; 24; 20; 16; 12; 8; 4; 0].

Definition RoleEndUser : string := "end_user".
Definition RoleSupport : string := "support".
Definition RoleOAuthAdmin : string := "oauth_admin".
Definition RoleSecurityAdmin : string := "security_admin".
Definition RoleSuperAdmin : string := "super_admin".

Definition MaskEndUser : Z := 0x00000000.
Definition MaskAuditor : Z := 0x88888888.
Definition MaskSupport : Z := 0xCC8C888C.
Definition MaskOAuthAdmin : Z := 0x8EEC8888.
Definition MaskSecurityAdmin : Z := 0xEEEEEAEE.
Definition MaskSuperAdmin : Z := 0xFFFFFFFF.

Fixpoint HasAll (mask : Z) (required : list Z) : bool :=
  match required with
  | [] => true
  | p :: rest =>
      if p =? 0 then HasAll mask rest
      else if negb (Z.land mask p =? p) then false
      else HasAll mask rest
  end.

Fixpoint HasAny (mask : Z) (required : list Z) : bool :=
  match required with
  | [] => false
  | p :: rest =>
      if negb (p =? 0) && (Z.land mask p =? p) then true else HasAny mask rest
  end.

(** ** Inputs and results *)

Record RoleView := mkRoleView {
  rv_RoleCode : string;
  rv_DisplayName : string;
  rv_Description : string;
  rv_PrivilegeMask : Z;
  rv_IsSystem : bool;
}.

Record AssignRoleInput := mkAssignRoleInput {
  ar_UserID : Z;
  ar_RoleCode : string;
  ar_PrivilegeMask : option Z;
  ar_TenantScope : string;
}.

Record AssignRoleResult := mkAssignRoleResult {
  arr_UserID : Z;
  arr_Username : string;
  arr_RoleCode : string;
  arr_PrivilegeMask : Z;
  arr_TenantScope : string;
}.

Record UpsertRoleInput := mkUpsertRoleInput {
  ur_RoleCode : string;
  ur_DisplayName : string;
  ur_Description : string;
  ur_PrivilegeMask : Z;
}.

Record RoleUserView := mkRoleUserView {
  ruv_UserID : Z;
  ruv_UserUUID : string;
  ruv_Username : string;
  ruv_Email : string;
  ruv_DisplayName : string;
  ruv_Status : string;
  ruv_RoleCode : string;
  ruv_PrivilegeMask : Z;
  ruv_TenantScope : string;
}.

Record RoleUsageView := mkRoleUsageView {
  rus_RoleCode : string;
  rus_DisplayName : string;
  rus_IsSystem : bool;
  rus_PrivilegeMask : Z;
  rus_UserCount : Z;
}.

(** ** Pure helpers *)

Definition lower_letter (a : ascii) : bool := (97 <=? byte_of a) && (byte_of a <=? 122).
Definition role_char (a : ascii) : bool :=
  let x := byte_of a in
  lower_letter a || ((48 <=? x) && (x <=? 57)) || (x =? 95) || (x =? 58) || (x =? 45).

(** [^[a-z][a-z0-9_:-]{2,63}$] *)
Definition roleCodePattern (s : string) : bool :=
  match s with
  | EmptyString => false
  | String a rest =>
      lower_letter a && forall_string role_char rest &&
      (2 <=? String.length rest)%nat && (String.length rest <=? 63)%nat
  end.

(** [len(s)]: bytes. *)
Definition len (s : string) : Z := Z.of_nat (String.length s).

Definition normalizeRoleInput (input : UpsertRoleInput) : result error string :=
  let roleCode := TrimSpace (ur_RoleCode input) in
  let displayName := TrimSpace (ur_DisplayName input) in
  let description := TrimSpace (ur_Description input) in
  if negb (roleCodePattern roleCode) then Err (Rbac ErrInvalidRoleCode)
  else if (len displayName <? 2) || (128 <? len displayName) then Err (Rbac ErrInvalidDisplayName)
  else if (len description <? 4) || (512 <? len description) then Err (Rbac ErrInvalidDescription)
  else Ok roleCode.

Definition toRoleView (m : operatorrole.Model) : RoleView :=
  mkRoleView (operatorrole.RoleCode m) (operatorrole.DisplayName m) (operatorrole.Description m)
    (operatorrole.PrivilegeMask m) (operatorrole.IsSystem m).

Definition builtin (code display description : string) (mask : Z) : operatorrole.Model :=
  operatorrole.mk 0 code display description mask true zero_time zero_time.

Definition builtinRoles : list operatorrole.Model :=
  [builtin RoleEndUser "End User" "regular end user without management privilege" MaskEndUser;
   builtin RoleSupport "Support Engineer"
     "support operator with read and limited execution permissions" MaskSupport;
   builtin RoleOAuthAdmin "OAuth Administrator"
     "operator managing oauth clients and protocol settings" MaskOAuthAdmin;
   builtin RoleSecurityAdmin "Security Administrator"
     "security operator with broad but not catastrophic security permissions" MaskSecurityAdmin;
   builtin RoleSuperAdmin "Super Administrator"
     "full access operator for bootstrap and emergency operations" MaskSuperAdmin].

Definition builtinRoleViews : list RoleView := List.map toRoleView builtinRoles.

(** The non-nil elements of a slice of pointers. *)
Fixpoint non_nil {A} (l : list (option A)) : list A :=
  match l with
  | [] => []
  | Some a :: rest => a :: non_nil rest
  | None :: rest => non_nil rest
  end.

(** ** The service *)

Section Service.
Context {W : Type}.

Record Service := NewService {
  roles : OperatorRoleRepository W;
  users : UserRepository W;
}.

Definition lift {A} (r : result error A) : IO W A :=
  match r with Ok a => ret a | Err e => fail e end.

Definition BootstrapBuiltinRoles (s : Service) : IO W (list RoleView) :=
  do* mapM_ (fun role => do* Role_Upsert (roles s) role in ret tt) builtinRoles in
  ret builtinRoleViews.

Definition ListRoles (s : Service) : IO W (list RoleView) :=
  let* models := Role_List (roles s) in
  ret (List.map toRoleView (non_nil models)).

Definition toRoleUserView (u : user.Model) : RoleUserView :=
  mkRoleUserView (user.ID u) (user.UserUUID u) (user.Username u) (user.Email u)
    (user.DisplayName u) (user.Status u) (user.RoleCode u) (user.PrivilegeMask u)
    (user.TenantScope u).

Definition ListUsersByRole (s : Service) (code : string) (limit : Z)
    : IO W (string * list RoleUserView) :=
  let roleCode := TrimSpace code in
  do* guard (roleCodePattern roleCode) ErrInvalidRoleCode in
  let* found := FindByRoleCode (roles s) roleCode in
  do* some_or found ErrRoleNotFound in
  let* us := ListByRoleCode (users s) roleCode limit in
  ret (roleCode, List.map toRoleUserView (non_nil us)).

Fixpoint usage_loop (s : Service) (models : list operatorrole.Model) : IO W (list RoleUsageView) :=
  match models with
  | [] => ret []
  | role :: rest =>
      let* count := CountByRoleCode (users s) (operatorrole.RoleCode role) in
      let* views := usage_loop s rest in
      ret (mkRoleUsageView (operatorrole.RoleCode role) (operatorrole.DisplayName role)
             (operatorrole.IsSystem role) (operatorrole.PrivilegeMask role) count :: views)
  end.

Definition RoleUsage (s : Service) : IO W (list RoleUsageView) :=
  let* models := Role_List (roles s) in
  usage_loop s (non_nil models).

Definition AssignRole (s : Service) (input : AssignRoleInput) : IO W AssignRoleResult :=
  do* guard (0 <? ar_UserID input) ErrUserNotFound in
  let roleCode := TrimSpace (ar_RoleCode input) in
  do* guard (negb (String.eqb roleCode "")) ErrInvalidRoleCode in
  do* guard (negb (128 <? len (ar_TenantScope input))) ErrInvalidTenantScope in
  let* foundUser := User_FindByID (users s) (ar_UserID input) in
  let* u := some_or foundUser ErrUserNotFound in
  let* foundRole := FindByRoleCode (roles s) roleCode in
  let* role := some_or foundRole ErrRoleNotFound in
  let mask := default (operatorrole.PrivilegeMask role) (ar_PrivilegeMask input) in
  let scope := TrimSpace (ar_TenantScope input) in
  do* UpdateRoleAndPrivilege (users s) (ar_UserID input) roleCode mask scope in
  ret (mkAssignRoleResult (user.ID u) (user.Username u) roleCode mask scope).

Definition CreateRole (s : Service) (input : UpsertRoleInput) : IO W RoleView :=
  let* roleCode := lift (normalizeRoleInput input) in
  let* existing := FindByRoleCode (roles s) roleCode in
  do* guard (match existing with None => true | Some _ => false end) ErrRoleAlreadyExists in
  let model := operatorrole.mk 0 roleCode (TrimSpace (ur_DisplayName input))
                 (TrimSpace (ur_Description input)) (ur_PrivilegeMask input) false
                 zero_time zero_time in
  let* created := Role_Create (roles s) model in
  ret (toRoleView created).

Definition UpdateRole (s : Service) (input : UpsertRoleInput) : IO W RoleView :=
  let* roleCode := lift (normalizeRoleInput input) in
  let* found := FindByRoleCode (roles s) roleCode in
  let* existing := some_or found ErrRoleNotFound in
  do* guard (negb (operatorrole.IsSystem existing)) ErrSystemRoleImmutable in
  let edited := operatorrole.edit (TrimSpace (ur_DisplayName input))
                  (TrimSpace (ur_Description input)) (ur_PrivilegeMask input) existing in
  do* Role_Update (roles s) edited in
  ret (toRoleView edited).

Definition DeleteRole (s : Service) (code : string) : IO W unit :=
  let roleCode := TrimSpace code in
  do* guard (roleCodePattern roleCode) ErrInvalidRoleCode in
  let* found := FindByRoleCode (roles s) roleCode in
  let* existing := some_or found ErrRoleNotFound in
  do* guard (negb (operatorrole.IsSystem existing)) ErrSystemRoleImmutable in
  let* count := CountByRoleCode (users s) roleCode in
  do* guard (negb (0 <? count)) ErrRoleInUse in
  DeleteByRoleCode (roles s) roleCode.
End Service.

Arguments Service W : clear implicits.

(** ** What a mask grants *)

(** Every bit of [p] is a bit of [mask]. *)
Definition covers (mask p : Z) : Prop :=
  forall n, 0 <= n -> Z.testbit p n = true -> Z.testbit mask n = true.

Lemma land_covers mask p : Z.land mask p = p <-> covers mask p.
Proof.
  split.
  - intros H n Hn Hp. rewrite <- H, Z.land_spec in Hp. by apply andb_true_iff in Hp as [? _].
  - intros H. apply Z.bits_inj'. intros n Hn. rewrite Z.land_spec.
    destruct (Z.testbit p n) eqn:E; [by rewrite (H n Hn E) | apply andb_false_r].
Qed.

Lemma covers_lor mask p q : covers mask (Z.lor p q) <-> covers mask p /\ covers mask q.
Proof.
  unfold covers. setoid_rewrite Z.lor_spec. setoid_rewrite orb_true_iff. naive_solver.
Qed.

Lemma covers_refl m : covers m m.
Proof. by intros n. Qed.

Lemma covers_trans a b c : covers a b -> covers b c -> covers a c.
Proof. unfold covers. auto. Qed.

Lemma HasAll_spec mask required :
  HasAll mask required = true <-> forall p, p ∈ required -> covers mask p.
Proof.
  induction required as [|p rest IH]; simpl.
  - split; [by intros _ p ?%elem_of_nil | done].
  - setoid_rewrite elem_of_cons. destruct (Z.eqb_spec p 0) as [->|Hp].
    + rewrite IH. split; [|naive_solver]. intros H p [->|Hin]; [|by apply H].
      intros n _ Hn. by rewrite Z.bits_0 in Hn.
    + destruct (Z.eqb_spec (Z.land mask p) p) as [E|E]; simpl.
      * rewrite IH. apply land_covers in E. naive_solver.
      * split; [done|]. intros H. elim E. apply land_covers. apply H. by left.
Qed.

(** A mask passes a permission check exactly when it has every bit of
    every required permission; so checking several permissions is checking
    their union, adding bits to a mask never loses a permission, and a mask
    that holds an administrator's mask passes whatever that one passes. *)
Theorem HasAll_is_bit_inclusion mask required :
  (HasAll mask required = true <-> covers mask (foldr Z.lor 0 required)) /\
  (forall extra, HasAll mask required = true -> HasAll (Z.lor mask extra) required = true) /\
  (forall mask', covers mask' mask -> HasAll mask required = true ->
                 HasAll mask' required = true).
Proof.
  assert (Hu : forall m, HasAll m required = true <-> covers m (foldr Z.lor 0 required)).
  { intros m. rewrite HasAll_spec. induction required as [|p rest IH]; simpl.
    - split; [intros _ n _ Hn; by rewrite Z.bits_0 in Hn | by intros _ p ?%elem_of_nil].
    - rewrite covers_lor, <- IH. setoid_rewrite elem_of_cons. naive_solver. }
  split; [apply Hu|]. split.
  - intros extra. rewrite !Hu. apply covers_trans. apply (covers_lor _ mask extra), covers_refl.
  - intros mask' Hc. rewrite !Hu. by apply covers_trans.
Qed.

(** Of the built-in roles only super_admin carries a privileged action,
    in any domain; and each built-in operator role can read every domain. *)
Theorem builtin_roles_least_privilege role shift :
  In role builtinRoles -> In shift domain_shifts ->
  (HasAny (operatorrole.PrivilegeMask role) [permission ActionPriv shift] = true <->
   operatorrole.RoleCode role = RoleSuperAdmin) /\
  (HasAll (operatorrole.PrivilegeMask role) [permission ActionRead shift] = true <->
   operatorrole.RoleCode role <> RoleEndUser).
Proof.
  intros Hr Hs. simpl in Hr, Hs.
  repeat (destruct Hr as [<-|Hr]); try done;
    repeat (destruct Hs as [<-|Hs]); try done; vm_compute; split; split; congruence.
Qed.

(** ** The role operations *)

Section RoleTheorems.
Context {W : Type}.
Implicit Types (s : Service W) (w : W).

Lemma lift_Ok {A} (r : result error A) a (w w' : W) :
  lift r w = (Ok a, w') <-> r = Ok a /\ w = w'.
Proof.
  destruct r as [x|e]; cbn.
  - split; [by intros [= -> ->] | by intros [[= ->] ->]].
  - split; [discriminate | by intros [? _]].
Qed.

(** The bounds a role definition is held to. *)
Definition well_formed_role (input : UpsertRoleInput) (code : string) : Prop :=
  code = TrimSpace (ur_RoleCode input) /\ roleCodePattern code = true /\
  2 <= len (TrimSpace (ur_DisplayName input)) <= 128 /\
  4 <= len (TrimSpace (ur_Description input)) <= 512.

Lemma normalizeRoleInput_Ok input code :
  normalizeRoleInput input = Ok code <-> well_formed_role input code.
Proof.
  unfold normalizeRoleInput, well_formed_role. cbv zeta.
  destruct (roleCodePattern (TrimSpace (ur_RoleCode input))) eqn:Ep; simpl.
  2: { split; [discriminate|]. intros (-> & H & _). congruence. }
  destruct (Z.ltb_spec (len (TrimSpace (ur_DisplayName input))) 2),
    (Z.ltb_spec 128 (len (TrimSpace (ur_DisplayName input)))); simpl;
    try (split; [discriminate | lia]);
  destruct (Z.ltb_spec (len (TrimSpace (ur_Description input))) 4),
    (Z.ltb_spec 512 (len (TrimSpace (ur_Description input)))); simpl;
    try (split; [discriminate | lia]).
  split; [intros [= <-]; repeat split; try done; lia | by intros (-> & _)].
Qed.

(** A system role is never changed through the service: whatever the
    (valid) request, updating and deleting it fail with
    ErrSystemRoleImmutable in the state the lookup left, so nothing was
    written. *)
Theorem system_roles_immutable s input code role w w1 :
  FindByRoleCode (roles s) (TrimSpace code) w = (Ok (Some role), w1) ->
  operatorrole.IsSystem role = true ->
  (roleCodePattern (TrimSpace code) = true ->
   DeleteRole s code w = (Err (Rbac ErrSystemRoleImmutable), w1)) /\
  (well_formed_role input (TrimSpace code) ->
   UpdateRole s input w = (Err (Rbac ErrSystemRoleImmutable), w1)).
Proof.
  intros Hf Hs. split.
  - intros Hp. unfold DeleteRole. cbv zeta. rewrite Hp, (bind_run _ _ _ _ _ (guard_true _ _)).
    rewrite (bind_run _ _ _ _ _ Hf), (bind_run (some_or (Some role) _) _ w1 role w1) by done.
    by rewrite Hs.
  - intros Hn%normalizeRoleInput_Ok. unfold UpdateRole. cbv zeta. rewrite Hn.
    rewrite (bind_run (lift (Ok _)) _ w (TrimSpace code) w) by done.
    rewrite (bind_run _ _ _ _ _ Hf), (bind_run (some_or (Some role) _) _ w1 role w1) by done.
    by rewrite Hs.
Qed.

(** What a successful role mutation means.  Deleting: the role existed,
    is not a system role, no user held it when it was counted, and the delete
    of exactly that code returned nil.  Creating: the definition is within
    bounds, the code was free, and the stored role is not a system role.
    Updating: the definition is within bounds and only name, description and
    mask change; the code, the identifier and the system flag stay. *)
Theorem role_mutations_sound s w w' :
  (forall code, DeleteRole s code w = (Ok tt, w') ->
   exists role count w1 w2,
     FindByRoleCode (roles s) (TrimSpace code) w = (Ok (Some role), w1) /\
     operatorrole.IsSystem role = false /\
     CountByRoleCode (users s) (TrimSpace code) w1 = (Ok count, w2) /\ count <= 0 /\
     DeleteByRoleCode (roles s) (TrimSpace code) w2 = (Ok tt, w')) /\
  (forall input view, CreateRole s input w = (Ok view, w') ->
   exists code model created w1,
     well_formed_role input code /\
     FindByRoleCode (roles s) code w = (Ok None, w1) /\
     Role_Create (roles s) model w1 = (Ok created, w') /\
     operatorrole.RoleCode model = code /\ operatorrole.IsSystem model = false /\
     operatorrole.PrivilegeMask model = ur_PrivilegeMask input) /\
  (forall input view, UpdateRole s input w = (Ok view, w') ->
   exists code role edited w1,
     well_formed_role input code /\
     FindByRoleCode (roles s) code w = (Ok (Some role), w1) /\
     operatorrole.IsSystem role = false /\
     Role_Update (roles s) edited w1 = (Ok tt, w') /\ view = toRoleView edited /\
     operatorrole.ID edited = operatorrole.ID role /\
     operatorrole.RoleCode edited = operatorrole.RoleCode role /\
     operatorrole.IsSystem edited = false).
Proof.
  split; [|split].
  - intros code H. unfold DeleteRole in H. cbv zeta in H. run_guard H as Hp.
    run H as o w1 Hf. run_some H as role Ho. subst o. run_guard H as Hs.
    run H as count w2 Hc. run_guard H as Hz. apply negb_true_iff in Hs, Hz. apply Z.ltb_ge in Hz.
    by exists role, count, w1, w2.
  - intros input view H. unfold CreateRole in H. cbv zeta in H.
    run H as code w1 Hn. apply lift_Ok in Hn as [Hn <-]. apply normalizeRoleInput_Ok in Hn.
    run H as o w2 Hf. run_guard H as Hg. destruct o; [done|].
    run H as created w3 Hc. apply ret_Ok in H as [_ <-].
    exists code. do 2 eexists. exists w2. split; [done|]. split; [done|]. split; [exact Hc | done].
  - intros input view H. unfold UpdateRole in H. cbv zeta in H.
    run H as code w1 Hn. apply lift_Ok in Hn as [Hn <-]. apply normalizeRoleInput_Ok in Hn.
    run H as o w2 Hf. run_some H as role Ho. subst o. run_guard H as Hs.
    apply negb_true_iff in Hs. run H as u w3 Hu. destruct u. apply ret_Ok in H as [<- <-].
    exists code, role. eexists. exists w2. split; [done|]. split; [done|]. split; [done|].
    by split; [exact Hu|].
Qed.

(** A successful assignment targets a user and a role that exist, and
    writes the role's code with the role's own mask unless the request names
    a mask, and a trimmed tenant scope of at most 128 bytes. *)
Theorem assign_role_sound s input r w w' :
  AssignRole s input w = (Ok r, w') ->
  exists u role w1 w2 w3,
    0 < ar_UserID input /\
    User_FindByID (users s) (ar_UserID input) w1 = (Ok (Some u), w2) /\
    FindByRoleCode (roles s) (arr_RoleCode r) w2 = (Ok (Some role), w3) /\
    arr_RoleCode r = TrimSpace (ar_RoleCode input) /\ arr_RoleCode r <> "" /\
    arr_PrivilegeMask r = default (operatorrole.PrivilegeMask role) (ar_PrivilegeMask input) /\
    arr_TenantScope r = TrimSpace (ar_TenantScope input) /\ len (ar_TenantScope input) <= 128 /\
    UpdateRoleAndPrivilege (users s) (ar_UserID input) (arr_RoleCode r) (arr_PrivilegeMask r)
      (arr_TenantScope r) w3 = (Ok tt, w').
Proof.
  unfold AssignRole. cbv zeta. intros H. run_guard H as Hpos. run_guard H as Hne.
  run_guard H as Hlen. run H as o w1 Hu. run_some H as u Ho. subst o.
  run H as o w2 Hr. run_some H as role Ho. subst o. run H as x w3 Hup. destruct x.
  apply ret_Ok in H as [<- <-]. apply Z.ltb_lt in Hpos.
  apply negb_true_iff in Hne, Hlen. apply String.eqb_neq in Hne. apply Z.ltb_ge in Hlen.
  by exists u, role, w, w1, w2.
Qed.
End RoleTheorems.

(** ** Witnesses *)

Module Demo.
Definition support : operatorrole.Model := builtin RoleSupport "Support" "support role" MaskSupport.
Definition custom : operatorrole.Model :=
  operatorrole.mk 9 "custom_ops" "Custom" "custom role" 14 false 0 0.

Definition role_repo : OperatorRoleRepository Z := {|
  Role_Upsert m := ret m;
  Role_Create m := ret (operatorrole.set_ID 9 m);
  Role_Update _ := ret tt;
  DeleteByRoleCode _ := ret tt;
  FindByRoleCode c := ret (if String.eqb c "support" then Some support
                           else if String.eqb c "custom_ops" then Some custom else None);
  Role_List := ret [Some support; None];
|}.

Definition user_repo : UserRepository Z := {|
  User_Create m := ret m;
  User_FindByID id := ret (Some (user.mk id "u" "alice" "" true "" "" "end_user" 0 "" "active" 0
                                   None 0 0));
  FindByUserUUID _ := ret None;
  FindByEmail _ := ret None;
  FindByUsername _ := ret None;
  ListByRoleCode _ _ := ret [];
  CountByRoleCode _ := ret 0;
  UpdateRoleAndPrivilege _ _ _ _ := ret tt;
  UnlockAccount _ _ := ret tt;
  IncrementFailedLogin _ := ret 1;
  ResetFailedLogin _ _ := ret tt;
|}.

Definition service : Service Z := NewService role_repo user_repo.
Definition edit_support : UpsertRoleInput :=
  mkUpsertRoleInput " support " "Support" "changed text" 4294967295.
End Demo.

Lemma builtin_roles_least_privilege_witness :
  HasAny (operatorrole.PrivilegeMask (builtin RoleSupport "Support Engineer"
     "support operator with read and limited execution permissions" MaskSupport))
    [permission ActionPriv 28] = true <-> RoleSupport = RoleSuperAdmin.
Proof.
  apply (builtin_roles_least_privilege (builtin RoleSupport "Support Engineer"
     "support operator with read and limited execution permissions" MaskSupport) 28);
    [right; left; reflexivity | left; reflexivity].
Defined.

Lemma system_roles_immutable_witness :
  UpdateRole Demo.service Demo.edit_support 0 = (Err (Rbac ErrSystemRoleImmutable), 0).
Proof.
  apply (system_roles_immutable Demo.service Demo.edit_support "support" Demo.support 0 0);
    [reflexivity | reflexivity |].
  apply normalizeRoleInput_Ok. reflexivity.
Defined.

Lemma role_mutations_sound_witness :
  DeleteRole Demo.service "custom_ops" 0 = (Ok tt, 0) /\
  exists role, FindByRoleCode (roles Demo.service) "custom_ops" 0 = (Ok (Some role), 0) /\
    operatorrole.IsSystem role = false.
Proof.
  split; [reflexivity|].
  destruct (proj1 (role_mutations_sound Demo.service 0 0) "custom_ops" eq_refl)
    as (role & c & w1 & w2 & Hf & Hs & _).
  exists role. split; [|exact Hs]. injection Hf as <- <-. reflexivity.
Defined.

Lemma assign_role_sound_witness :
  let i := mkAssignRoleInput 42 " support " None " eu " in
  exists r w', AssignRole Demo.service i 0 = (Ok r, w') /\ arr_TenantScope r = "eu".
Proof.
  intros i. provide_run (AssignRole Demo.service i 0).
  assert (H : AssignRole Demo.service i 0 = _) by run_is. split; [exact H|].
  destruct (assign_role_sound _ _ _ _ _ H) as (u & role & w1 & w2 & w3 & Hr).
  destruct Hr as (_ & _ & _ & _ & _ & _ & Hr & _). rewrite Hr. reflexivity.
Defined.
