(* ===== verification/ShortURL.v ===== *)
(** * Short URLs (application/shorturl, persistence/short_url_repo.go)

    A short code stands for a web address.  [Create] stores an address under
    a chosen code or under one of at most eight random codes; [Resolve] finds
    it again and counts the click. *)

From stdpp Require Import base tactics list gmap strings numbers relations.
From Stdlib Require Import ZArith Lia Ascii.
From S2P Require Import Prelude GoStrings GoText GoPath GoUrl GoNetUrl GoTime Errors Domain Ports Remote Database.

(** domain/shorturl *)
Record Link := mkLink {
  l_ID : Z;
  l_Code : string;
  l_TargetURL : string;
  l_ClickCount : Z;
  l_ExpiresAt : option time;
  l_LastAccessAt : option time;
  l_CreatedAt : time;
  l_UpdatedAt : time;
}.

(** ports/repository/short_url_repository.go; [Create] returns the link with
    its id. *)
Record ShortURLRepository (W : Type) := mkShortURLRepository {
  sr_Create : Link -> IO W Link;
  sr_FindActiveByCode : string -> IO W (option Link);
  sr_IncrementClick : Z -> IO W unit;
}.
Arguments sr_Create {W}.
Arguments sr_FindActiveByCode {W}.
Arguments sr_IncrementClick {W}.

Record CreateInput := mkCreateInput { ci_Code : string; ci_TargetURL : string; ci_ExpiresAt : option time }.
Record CreateResult := mkCreateResult { cr_Code : string; cr_TargetURL : string; cr_ExpiresAt : option time; cr_CreatedAt : time }.
Record ResolveResult := mkResolveResult { rr_Code : string; rr_TargetURL : string; rr_ExpiresAt : option time }.

(** [^[A-Za-z0-9_-]{4,32}$] *)
Definition shortCodePattern (code : string) : bool :=
  forall_string (fun a => is_alpha a || is_digit a || (byte_of a =? 95) || (byte_of a =? 45)) code &&
  (4 <=? String.length code)%nat && (String.length code <=? 32)%nat.

Definition shortCodeAlphabet : string := "0123456789abcdefghijklmnopqrstuvwxyzABCDEFGHIJKLMNOPQRSTUVWXYZ".

(** [None] for ErrInvalidTargetURL. *)
Definition normalizeTargetURL (value : string) : option string :=
  let targetURL := TrimSpace value in
  if String.eqb targetURL "" || (2048 <? String.length targetURL)%nat then None else
  match ParseRequestURI targetURL with
  | None => None
  | Some parsed =>
      if String.eqb (Scheme parsed) "" || String.eqb (Host parsed) "" then None else
      let scheme := ToLower (Scheme parsed) in
      if negb (String.eqb scheme "http" || String.eqb scheme "https") then None else
      match User parsed with Some _ => None | None => Some (URL_String parsed) end
  end.

Definition createResultFromLink (link : Link) : CreateResult :=
  mkCreateResult (l_Code link) (l_TargetURL link) (l_ExpiresAt link) (l_CreatedAt link).

Definition isDuplicateCode (e : error) : bool := bool_decide (e = Infra ErrDuplicate).

(** ** The service

    [rand.Int] draws until the number is small enough; [fuel] bounds the
    draws, and [None] says that it ran out. *)
Section Service.
Context {W : Type} `{!Runtime W}.
Context (fuel : nat) (repo : ShortURLRepository W).

(** [SetBytes] of a big.Int *)
Definition set_bytes (l : list Z) : Z := fold_left (fun n b => n * 256 + b) l 0.

Fixpoint draw (fuel : nat) (max mask : Z) (k : nat) : IO W (option Z) :=
  match fuel with
  | O => ret None
  | S fuel' =>
      let* bytes := rand_bytes k in
      let n := set_bytes match bytes with b :: rest => Z.land b mask :: rest | [] => [] end in
      if n <? max then ret (Some n) else draw fuel' max mask k
  end.

(** [rand.Int(rand.Reader, max)] *)
Definition rand_Int (max : Z) : IO W (option Z) :=
  let bitLen := if max <=? 1 then 0 else Z.log2 (max - 1) + 1 in
  if bitLen =? 0 then ret (Some 0) else
  let b := if bitLen mod 8 =? 0 then 8 else bitLen mod 8 in
  draw fuel max (2 ^ b - 1) (Z.to_nat ((bitLen + 7) / 8)).

Definition alphabet_at (n : Z) : ascii := default "0"%char (String.get (Z.to_nat n) shortCodeAlphabet).

Fixpoint generateCode (length : nat) : IO W (option string) :=
  match length with
  | O => ret (Some EmptyString)
  | S length' =>
      let* n := rand_Int (Z.of_nat (String.length shortCodeAlphabet)) in
      match n with
      | None => ret None
      | Some n => let* rest := generateCode length' in ret (option_map (String (alphabet_at n)) rest)
      end
  end.

Definition new_link (code targetURL : string) (expiresAt : option time) (createdAt : time) : Link :=
  mkLink 0 code targetURL 0 expiresAt None createdAt zero_time.

(** Store one link; [None] when the code is taken. *)
Definition try_create (code targetURL : string) (expiresAt : option time) : IO W (option CreateResult) :=
  let* t := now in
  let* created := attempt (sr_Create repo (new_link code targetURL expiresAt t)) in
  match created with
  | Ok link => ret (Some (createResultFromLink link))
  | Err e => if isDuplicateCode e then ret None else throw e
  end.

(** [for attempts := 0; attempts < 8; attempts++] *)
Fixpoint create_generated (attempts : nat) (targetURL : string) (expiresAt : option time) : IO W (option CreateResult) :=
  match attempts with
  | O => throw ShortURLErrCodeAlreadyExists
  | S attempts' =>
      let* generated := generateCode 7 in
      match generated with
      | None => ret None
      | Some code =>
          let* created := try_create code targetURL expiresAt in
          match created with
          | Some result => ret (Some result)
          | None => create_generated attempts' targetURL expiresAt
          end
      end
  end.

Definition check_expiry (expiresAt : option time) : IO W unit :=
  match expiresAt with
  | None => ret tt
  | Some expiry => let* t := now in guard (After expiry t) ShortURLErrInvalidExpiry
  end.

Definition Create (input : CreateInput) : IO W (option CreateResult) :=
  let* targetURL := some_or (normalizeTargetURL (ci_TargetURL input)) ShortURLErrInvalidTargetURL in
  do* check_expiry (ci_ExpiresAt input) in
  let code := TrimSpace (ci_Code input) in
  if negb (String.eqb code "") then
    do* guard (shortCodePattern code) ShortURLErrInvalidCode in
    let* created := try_create code targetURL (ci_ExpiresAt input) in
    let* result := some_or created ShortURLErrCodeAlreadyExists in
    ret (Some result)
  else create_generated 8 targetURL (ci_ExpiresAt input).

Definition link_live (link : Link) : IO W unit :=
  match l_ExpiresAt link with
  | None => ret tt
  | Some expiry => let* t := now in guard (After expiry t) ShortURLErrLinkExpired
  end.

Definition Resolve (code : string) : IO W ResolveResult :=
  let code := TrimSpace code in
  do* guard (shortCodePattern code) ShortURLErrInvalidCode in
  let* found := sr_FindActiveByCode repo code in
  let* link := some_or found ShortURLErrLinkNotFound in
  do* link_live link in
  do* sr_IncrementClick repo (l_ID link) in
  ret (mkResolveResult (l_Code link) (l_TargetURL link) (l_ExpiresAt link)).
End Service.

(** ** The repository *)

Record link_row := mkLinkRow {
  s_id : Z;
  s_code : string;
  s_target_url : string;
  s_click_count : Z;
  s_expires_at : option time;
  s_last_access_at : option time;
  s_created_at : time;
  s_updated_at : time;
}.

(** PRIMARY KEY (id), UNIQUE KEY (code) *)
#[export] Instance link_row_keys {D} `{Columns D} : Row link_row := {
  row_id := s_id;
  conflict := fun a b => collate (D := D) (s_code a) (s_code b);
}.

Definition scan_link (r : link_row) : Link :=
  mkLink (s_id r) (s_code r) (s_target_url r) (s_click_count r) (s_expires_at r) (s_last_access_at r) (s_created_at r) (s_updated_at r).

Definition nullTimePtr (value : option time) : option time := value.

(** An error of MySQL with number 1062. *)
Definition isDuplicateMySQLError (e : error) : bool := bool_decide (e = Infra ErrDuplicate).

Section Repository.
Context {W D : Type} `{!Columns D} `{!Table D link_row (H := link_row_keys (D := D))}.

Definition ShortURLRepo : Type := dbRouter W D.

Definition NewShortURLRepositoryRW (writeDB readDB : DB W D) : ShortURLRepo := newDBRouter writeDB readDB.

(** create.sql *)
Definition createLink (code targetURL : string) (expiresAt : option time) : IO D Z :=
  INSERT (fun id t => mkLinkRow id code targetURL 0 (option_map datetime expiresAt) None t t).

(** find_active_by_code.sql *)
Definition findActiveByCode (code : string) : IO D (option link_row) :=
  let* l := SELECT (fun _ r => collate (D := D) (s_code r) code) in ret (head l).

(** increment_click.sql; every row changes, so updated_at is set. *)
Definition click (t : time) (r : link_row) : link_row :=
  mkLinkRow (s_id r) (s_code r) (s_target_url r) (s_click_count r + 1) (s_expires_at r) (Some t) (s_created_at r) t.
Definition incrementClick (id : Z) : IO D Z := fun d => UPDATE (fun _ r => s_id r =? id) (click (current_timestamp d)) d.

Definition RepoCreate (r : ShortURLRepo) (link : Link) : IO W Link :=
  let* result := attempt (run_on (writer r) (createLink (l_Code link) (l_TargetURL link) (nullTimePtr (l_ExpiresAt link)))) in
  match result with
  | Err e => if isDuplicateMySQLError e then throw ErrDuplicate else throw e
  | Ok id => ret (mkLink id (l_Code link) (l_TargetURL link) (l_ClickCount link) (l_ExpiresAt link) (l_LastAccessAt link)
                    (l_CreatedAt link) (l_UpdatedAt link))
  end.

Definition FindActiveByCode (r : ShortURLRepo) (code : string) : IO W (option Link) :=
  let* row := run_on (reader r) (findActiveByCode code) in ret (option_map scan_link row).

Definition IncrementClick (r : ShortURLRepo) (id : Z) : IO W unit :=
  do* run_on (writer r) (incrementClick id) in ret tt.

Definition NewShortURLRepository (r : ShortURLRepo) : ShortURLRepository W :=
  mkShortURLRepository W (RepoCreate r) (FindActiveByCode r) (IncrementClick r).
End Repository.
Arguments ShortURLRepo : clear implicits.

(** ** Addresses that are stored *)

(** An http or https address of a named host; nothing in the host part ends
    it or hides another one. *)
Definition web_address (uri : string) : Prop := exists scheme host rest,
  uri = scheme +:+ "://" +:+ host +:+ rest /\ (ToLower scheme = "http" \/ ToLower scheme = "https") /\
  host <> "" /\ forall_string (allowed encodeHost) host = true /\
  (rest = "" \/ exists t, rest = String "/" t \/ rest = String "?" t).

Lemma request_uri_parts raw u : ParseRequestURI raw = Some u -> Host u <> "" -> Opaque u = "" /\ Fragment u = "".
Proof.
  unfold ParseRequestURI, parse. destruct (negb (forall_string _ raw)); [done|]. destruct (_ && true); [done|].
  destruct (String.eqb raw "*"); [by intros [= <-]|]. destruct (getScheme raw) as [[scheme rest]|]; [|done]. cbv zeta.
  destruct (cut_query rest) as [[p q] forced]. destruct (negb (HasPrefix p "/") && negb (String.eqb (ToLower scheme) "")); [by intros [= <-]|].
  destruct (_ && _); [done|]. destruct (cut_authority true (ToLower scheme) p) as [[[[us ho] rs] om]|]; [|done].
  destruct (set_encoded _ _); [|done]. by intros [= <-].
Qed.

Lemma escape_nonempty mode s : s <> "" -> escape mode s <> "".
Proof. destruct s as [|a s]; [done|]. intros _. cbn [escape]. by repeat case_match. Qed.

(** An address with a host is printed with it in its place. *)
Lemma printed_host u : Opaque u = "" -> Scheme u <> "" -> Host u <> "" -> User u = None ->
  exists path, front_String u = Scheme u +:+ "://" +:+ escape encodeHost (Host u) +:+ path /\ (path = "" \/ exists t, path = String "/" t).
Proof.
  intros Ho Hs Hh Hu. unfold front_String, hierarchy_String, authority_String.
  rewrite Ho, Hu, (proj2 (String.eqb_neq _ _) Hs), (proj2 (String.eqb_neq _ _) Hh). cbn [String.eqb andb orb negb].
  rewrite !andb_false_r. cbn [andb]. rewrite andb_true_r.
  set (front := (Scheme u +:+ ":") +:+ "//" +:+ "" +:+ escape encodeHost (Host u)).
  assert (Hf : front = Scheme u +:+ "://" +:+ escape encodeHost (Host u)) by (unfold front; by rewrite <- string_app_assoc).
  assert (Hne : forall t, String.eqb (front +:+ t) "" = false) by (intros t; rewrite Hf; by destruct (Scheme u)).
  destruct (negb (String.eqb (EscapedPath u) "") && negb (HasPrefix (EscapedPath u) "/")) eqn:E.
  - rewrite Hne. cbn [andb]. exists ("/" +:+ EscapedPath u). rewrite Hf, <- !string_app_assoc. split; [done|]. right. by eexists.
  - rewrite <- (string_app_nil_r front), Hne, string_app_nil_r. cbn [andb]. exists (EscapedPath u). rewrite Hf, <- !string_app_assoc. split; [done|].
    apply andb_false_iff in E as [E|E]; [left; by apply negb_false_iff, String.eqb_eq in E | right].
    apply negb_false_iff, HasPrefix_inv in E as [t ->]. by exists t.
Qed.

Lemma normalizeTargetURL_address v uri : normalizeTargetURL v = Some uri -> web_address uri.
Proof.
  unfold normalizeTargetURL. cbv zeta. destruct (_ || _); [done|]. destruct (ParseRequestURI (TrimSpace v)) as [u|] eqn:Hp; [|done].
  destruct (String.eqb_spec (Scheme u) "") as [|Hs]; [done|]. destruct (String.eqb_spec (Host u) "") as [|Hh]; [done|]. cbn [orb].
  destruct (String.eqb (ToLower (Scheme u)) "http" || String.eqb (ToLower (Scheme u)) "https") eqn:Hsc; [|done]. cbn [negb].
  destruct (User u) eqn:Hu; [done|]. intros [= <-]. destruct (request_uri_parts _ _ Hp Hh) as [Ho Hf].
  destruct (printed_host u Ho Hs Hh Hu) as (path & Hfront & Hpath).
  apply orb_true_iff in Hsc. rewrite !String.eqb_eq in Hsc.
  exists (Scheme u), (escape encodeHost (Host u)), (path +:+ if ForceQuery u || negb (String.eqb (RawQuery u) "") then "?" +:+ RawQuery u else "").
  split; [unfold URL_String; rewrite Hfront, Hf, string_app_nil_r, <- !string_app_assoc; done|].
  split; [exact Hsc|]. split; [by apply escape_nonempty|]. split; [by apply escape_allowed|].
  destruct Hpath as [->|[t ->]]; [|right; by eexists; left]. change ("" +:+ ?s) with s.
  destruct (ForceQuery u || _); [right; eexists; by right | by left].
Qed.

(** ** [Create] ends *)

Section Termination.
Context {W : Type} `{!Runtime W} (repo : ShortURLRepository W).
Implicit Types (w : W).

(** Within [n] draws the source fails or gives a number below the size of
    the alphabet. *)
Inductive small_within : nat -> W -> Prop :=
| small_error n w e w' : rand_Read 1 w = (Err e, w') -> small_within (S n) w
| small_now n w b w' : rand_Read 1 w = (Ok [b], w') -> Z.land b 63 < 62 -> small_within (S n) w
| small_later n w bytes w' : rand_Read 1 w = (Ok bytes, w') -> small_within n w' -> small_within (S n) w.

Lemma draw_ends n w : small_within n w ->
  (draw n 62 63 1 w).1 <> Ok None /\ forall fuel, (n <= fuel)%nat -> draw fuel 62 63 1 w = draw n 62 63 1 w.
Proof.
  intros Hs. induction Hs as [n w e w' Hr|n w b w' Hr Hb|n w bytes w' Hr Hs IH].
  - assert (He : forall f, draw (S f) 62 63 1 w = (Err e, w')) by (intros f; cbn [draw]; unfold bind, rand_bytes; by rewrite Hr).
    split; [by rewrite He|]. intros [|fuel] Hf; [lia | by rewrite !He].
  - assert (Hn : set_bytes [Z.land b 63] = Z.land b 63) by done.
    assert (He : forall f, draw (S f) 62 63 1 w = (Ok (Some (Z.land b 63)), w')).
    { intros f. cbn [draw]. unfold bind, rand_bytes. rewrite Hr, Hn. by rewrite (proj2 (Z.ltb_lt _ _) Hb). }
    split; [by rewrite He|]. intros [|fuel] Hf; [lia | by rewrite !He].
  - assert (He : forall f, draw (S f) 62 63 1 w =
      let n := set_bytes match bytes with b :: rest => Z.land b 63 :: rest | [] => [] end in
      if n <? 62 then (Ok (Some n), w') else draw f 62 63 1 w').
    { intros f. cbn [draw]. unfold bind, rand_bytes. rewrite Hr. cbv zeta. by case_match. }
    cbv zeta in He. destruct IH as [IH1 IH2]. split.
    + rewrite He. by case_match.
    + intros [|fuel] Hf; [lia|]. rewrite !He. case_match; [done|]. apply IH2. lia.
Qed.

Context (n : nat) (fair : forall w, small_within n w).

Lemma rand_Int_62 fuel w : rand_Int fuel 62 w = draw fuel 62 63 1 w.
Proof. reflexivity. Qed.

(** A run that does not depend on the fuel, and does not run out of it. *)
Definition settled {A} (m : nat -> IO W (option A)) : Prop :=
  forall w, (m n w).1 <> Ok None /\ forall fuel, (n <= fuel)%nat -> m fuel w = m n w.

Lemma settled_bind {A B} (m : nat -> IO W (option A)) (k : nat -> option A -> IO W (option B)) :
  settled m -> (forall a, settled (fun f => k f (Some a))) -> settled (fun f => let* a := m f in k f a).
Proof.
  intros Hm Hk w. destruct (Hm w) as [H1 H2]. split.
  - unfold bind. destruct (m n w) as [[[a|]|e] w1]; [apply Hk | done | done].
  - intros fuel Hf. unfold bind. rewrite (H2 _ Hf). destruct (m n w) as [[[a|]|e] w1]; [by apply Hk | done | done].
Qed.

Lemma settled_const {A B} (m : IO W A) (k : nat -> A -> IO W (option B)) :
  (forall a, settled (fun f => k f a)) -> settled (fun f => let* a := m in k f a).
Proof.
  intros Hk w. unfold bind. split; [destruct (m w) as [[a|e] w1]; [apply Hk | done]|].
  intros fuel Hf. destruct (m w) as [[a|e] w1]; [by apply Hk | done].
Qed.

Lemma settled_ret {A} (a : A) : settled (fun _ => ret (Some a)).
Proof. by intros w. Qed.
Lemma settled_throw {A} e : settled (A := A) (fun _ => throw e).
Proof. by intros w. Qed.
Hint Resolve settled_bind settled_const settled_ret settled_throw : core.

Lemma generateCode_settled length : settled (fun f => generateCode f length).
Proof.
  induction length as [|length IH]; cbn [generateCode]; [auto|].
  apply (settled_bind (fun f => rand_Int f 62) (fun f n0 => match n0 with None => ret None | Some n0 =>
    let* rest := generateCode f length in ret (option_map (String (alphabet_at n0)) rest) end)).
  - intros w. rewrite rand_Int_62. destruct (draw_ends n w (fair w)) as [H1 H2]. split; [done|]. intros fuel Hf. rewrite rand_Int_62. by apply H2.
  - intros a. apply (settled_bind (fun f => generateCode f length) (fun f rest => ret (option_map (String (alphabet_at a)) rest))); [done|].
    intros rest. apply settled_ret.
Qed.

Lemma create_generated_settled attempts targetURL expiresAt : settled (fun f => create_generated f repo attempts targetURL expiresAt).
Proof.
  induction attempts as [|attempts IH]; cbn [create_generated]; [auto|].
  apply (settled_bind (fun f => generateCode f 7) (fun f g => match g with None => ret None | Some code =>
    let* created := try_create repo code targetURL expiresAt in
    match created with Some result => ret (Some result) | None => create_generated f repo attempts targetURL expiresAt end end));
    [apply generateCode_settled|].
  intros code. apply settled_const. intros [result|]; auto.
Qed.

Lemma Create_settled input : settled (fun f => Create f repo input).
Proof.
  unfold Create. apply settled_const. intros targetURL. apply settled_const. intros _.
  destruct (negb _); [|apply create_generated_settled].
  apply settled_const. intros _. apply settled_const. intros created. apply settled_const. intros result. auto.
Qed.

(** The number of links [Create] asked the repository to store. *)
Context (asked : W -> Z).
Hypothesis asked_now : forall w, asked (time_Now w).2 = asked w.
Hypothesis asked_rand : forall k w, asked (rand_Read k w).2 = asked w.
Hypothesis asked_create : forall link w, asked (sr_Create repo link w).2 <= asked w + 1.

Definition asks {A} (m : IO W A) (k : Z) : Prop := forall w, asked (m w).2 <= asked w + k.

Lemma asks_bind {A B} (m : IO W A) (k : A -> IO W B) i j : asks m i -> (forall a, asks (k a) j) -> 0 <= j -> asks (let* a := m in k a) (i + j).
Proof.
  intros Hm Hk Hj w. specialize (Hm w). unfold bind. destruct (m w) as [[a|e] w1]; cbn [snd] in *; [|lia]. specialize (Hk a w1). lia.
Qed.

Lemma asks_weaken {A} (m : IO W A) i j : asks m i -> i <= j -> asks m j.
Proof. intros Hm Hi w. specialize (Hm w). lia. Qed.

Lemma asks_ret {A} (a : A) : asks (ret a) 0.
Proof. intros w. change (asked w <= asked w + 0). lia. Qed.
Lemma asks_throw {A} e : asks (A := A) (throw e) 0.
Proof. intros w. change (asked w <= asked w + 0). lia. Qed.
Lemma asks_guard b e : asks (guard b e) 0.
Proof. intros w. destruct b; change (asked w <= asked w + 0); lia. Qed.
Lemma asks_some_or {A} (o : option A) e : asks (some_or o e) 0.
Proof. destruct o; [apply asks_ret | apply asks_throw]. Qed.

Lemma asks_now_ : asks now 0.
Proof. intros w. unfold now. pose proof (asked_now w). destruct (time_Now w). cbn in *. lia. Qed.
Hint Resolve asks_ret asks_throw asks_guard asks_some_or asks_now_ : core.

Lemma asks_draw f max mask k : asks (draw f max mask k) 0.
Proof.
  induction f as [|f IH]; cbn [draw]; [auto|]. apply (asks_bind _ _ 0 0); [|intros bytes; by case_match | lia].
  intros w. unfold rand_bytes. rewrite asked_rand. lia.
Qed.

Lemma asks_code f length : asks (generateCode f length) 0.
Proof.
  induction length as [|length IH]; cbn [generateCode]; [auto|]. apply (asks_bind _ _ 0 0); [|intros [a|]; [|auto] | lia].
  - unfold rand_Int. case_match; [auto | apply asks_draw].
  - apply (asks_bind _ _ 0 0); [done | auto | lia].
Qed.

Lemma asks_try code targetURL expiresAt : asks (try_create repo code targetURL expiresAt) 1.
Proof.
  unfold try_create. apply (asks_bind _ _ 0 1); [auto| |lia]. intros t. apply (asks_bind _ _ 1 0); [|intros r; repeat case_match; auto|lia].
  intros w. specialize (asked_create (new_link code targetURL expiresAt t) w). unfold attempt. destruct (sr_Create repo _ w). cbn in *. lia.
Qed.

Lemma asks_generated f attempts targetURL expiresAt : asks (create_generated f repo attempts targetURL expiresAt) (Z.of_nat attempts).
Proof.
  induction attempts as [|attempts IH]; cbn [create_generated]; [auto|].
  apply (asks_bind _ _ 0 (Z.of_nat (S attempts))); [apply asks_code | | lia]. intros [code|]; [|eapply asks_weaken; [auto | lia]].
  replace (Z.of_nat (S attempts)) with (1 + Z.of_nat attempts) by lia.
  apply asks_bind; [apply asks_try | | lia]. intros [r|]; [eapply asks_weaken; [auto | lia] | exact IH].
Qed.

Lemma asks_Create f input : asks (Create f repo input) 8.
Proof.
  unfold Create. apply (asks_bind _ _ 0 8); [auto| |lia]. intros targetURL. apply (asks_bind _ _ 0 8); [|intros _|lia].
  { unfold check_expiry. destruct (ci_ExpiresAt input); [|auto]. apply (asks_bind _ _ 0 0); [auto | auto | lia]. }
  destruct (negb _); [|apply (asks_generated f 8)].
  apply (asks_bind _ _ 0 8); [auto| |lia]. intros _. apply (asks_bind _ _ 1 7); [apply asks_try | | lia].
  intros created. apply (asks_weaken _ (0 + 0)); [apply asks_bind; [auto | auto | lia] | lia].
Qed.

(** C19. [Create] ends: when the random source gives, from any state, a
    number below the size of the alphabet within [n] draws, or an error, then
    [n] draws per letter are enough, more of them change nothing, and whatever
    the repository answers [Create] returns, with a link or an error, after it
    asked the repository to store at most eight links. *)
Theorem create_terminates fuel input w : (n <= fuel)%nat ->
  Create fuel repo input w = Create n repo input w /\
  ((exists r, (Create fuel repo input w).1 = Ok (Some r)) \/ (exists e, (Create fuel repo input w).1 = Err e)) /\
  asked (Create fuel repo input w).2 <= asked w + 8.
Proof.
  intros Hf. destruct (Create_settled input w) as [Hn He]. rewrite (He _ Hf). split; [done|]. split; [|apply asks_Create].
  destruct (Create n repo input w) as [[[r|]|e] w']; [left; by exists r | done | right; by exists e].
Qed.
End Termination.

(** ** A link that was created is found *)

Section Links.
Context {D : Type} `{!Columns D} `{!Table D link_row (H := link_row_keys (D := D))}.

(** The statements on links, whatever their outcome, and anything that
    leaves the table alone. *)
Inductive link_step : relation D :=
| step_created code targetURL expiresAt d a d' : createLink code targetURL expiresAt d = (a, d') -> link_step d d'
| step_clicked id d a d' : incrementClick id d = (a, d') -> link_step d d'
| step_elsewhere d d' : rows (R := link_row) d' = rows d -> link_step d d'.

(** The row of a link with this code, address and lifetime. *)
Definition link_row_of (i : Z) (code targetURL : string) (expiresAt : option time) (d : D) : Prop :=
  exists r, rows d !! i = Some r /\ s_code r = code /\ s_target_url r = targetURL /\ s_expires_at r = expiresAt.

Lemma link_step_kept i code targetURL expiresAt d d' :
  link_step d d' -> link_row_of i code targetURL expiresAt d -> link_row_of i code targetURL expiresAt d'.
Proof.
  intros Hst (r & Hr & Hc & Ht & He). destruct Hst as [c t e d a d' Hx|id d a d' Hx|d d' Hx].
  - destruct a as [id|err]; [|apply INSERT_Err in Hx; exists r; by rewrite Hx].
    apply INSERT_Ok in Hx as (Hn & at_ & Hrows & _). exists r. rewrite Hrows, lookup_insert_ne by congruence. done.
  - destruct a as [n|err]; [|apply UPDATE_Err in Hx; exists r; by rewrite Hx].
    apply UPDATE_Ok in Hx as [Hrows _]. exists (if s_id r =? id then click (current_timestamp d) r else r).
    rewrite Hrows, lookup_fmap, Hr. split; [done|]. by destruct (s_id r =? id).
  - exists r. by rewrite Hx.
Qed.

Lemma link_steps_kept i code targetURL expiresAt d d' :
  rtc link_step d d' -> link_row_of i code targetURL expiresAt d -> link_row_of i code targetURL expiresAt d'.
Proof. intros Hst. induction Hst as [d|d1 d2 d3 H1 _ IH]; [done|]. intros Hr. by eapply IH, link_step_kept. Qed.

Lemma find_link_steps code (d : D) : rtc link_step d (findActiveByCode code d).2.
Proof.
  apply rtc_once, step_elsewhere. unfold findActiveByCode, bind. destruct (SELECT _ d) as [[l|e] d'] eqn:Es; apply SELECT_rows in Es; exact Es.
Qed.

(** Any spelling of the code the collation does not tell apart finds it. *)
Lemma find_link i code targetURL expiresAt c (d : D) o d' : link_row_of i code targetURL expiresAt d ->
  collate (D := D) code c = true -> findActiveByCode c d = (Ok o, d') ->
  exists r, o = Some r /\ s_id r = i /\ s_code r = code /\ s_target_url r = targetURL /\ s_expires_at r = expiresAt.
Proof.
  intros (r & Hr & Hc & Ht & He) Hcol Hf. unfold findActiveByCode in Hf. run Hf as l d1 Hs. apply ret_Ok in Hf as [<- _].
  pose proof (SELECT_Ok _ _ _ _ Hs) as Hin. destruct l as [|r' l].
  - exfalso. assert (Hnil : r ∈ ([] : list link_row)); [|by apply elem_of_nil in Hnil]. apply Hin. split; [by rewrite Hc | by exists i].
  - exists r'. split; [done|]. destruct (proj1 (Hin r') ltac:(by left)) as [Hp [i' Hr']].
    assert (i = i') as <-.
    { eapply rows_unique; [exact Hr | exact Hr'|]. simpl. rewrite Hc. eapply collate_trans; [exact Hcol|]. by rewrite collate_sym. }
    assert (r' = r) as -> by congruence. split; [exact (rows_keyed d i r Hr) | done].
Qed.

Context {W : Type} `{!Runtime W} (repo : ShortURLRepo W D) (h : Remote W D).
Hypothesis on_writer : writer repo = Some h.
Hypothesis on_reader : reader repo = Some h.
(** While a request travels, others use the table. *)
Hypothesis transport_links : forall w, rtc link_step (server w) (server (transport w).2).

Abbreviation service := (NewShortURLRepository repo).

Lemma try_create_row code targetURL expiresAt w res w' :
  try_create service code targetURL expiresAt w = (Ok (Some res), w') ->
  cr_Code res = code /\ cr_TargetURL res = targetURL /\ cr_ExpiresAt res = expiresAt /\
  exists i, link_row_of i code targetURL (option_map datetime expiresAt) (server w').
Proof.
  unfold try_create. intros Hx. run Hx as t w1 Hn. run Hx as created w2 Hc. apply attempt_inv in Hc.
  destruct created as [link|e]; [|destruct (isDuplicateCode e); [by apply ret_Ok in Hx as [? _] | by apply throw_Ok in Hx]].
  apply ret_Ok in Hx as [Hr <-]. injection Hr as <-. cbn [NewShortURLRepository sr_Create] in Hc. unfold RepoCreate in Hc.
  run Hc as result w3 Hi. apply attempt_inv in Hi. destruct result as [id|e].
  2: { destruct (isDuplicateMySQLError e); by apply throw_Ok in Hc. }
  apply ret_Ok in Hc as [<- <-]. do 3 (split; [done|]). unfold run_on in Hi. rewrite on_writer in Hi.
  apply call_Ok in Hi as (w4 & d & Hi & <-). cbn [new_link l_Code l_TargetURL l_ExpiresAt nullTimePtr] in Hi.
  apply INSERT_Ok in Hi as (_ & at_ & Hrows & _). exists id. eexists. rewrite Hrows, lookup_insert_eq. by split.
Qed.

Lemma create_generated_row fuel attempts targetURL expiresAt w res w' :
  create_generated fuel service attempts targetURL expiresAt w = (Ok (Some res), w') ->
  cr_TargetURL res = targetURL /\ cr_ExpiresAt res = expiresAt /\
  exists i, link_row_of i (cr_Code res) targetURL (option_map datetime expiresAt) (server w').
Proof.
  revert w. induction attempts as [|attempts IH]; intros w Hx; cbn [create_generated] in Hx; [by apply throw_Ok in Hx|].
  run Hx as generated w1 Hg. destruct generated as [code|]; [|by apply ret_Ok in Hx as [? _]].
  run Hx as created w2 Hc. destruct created as [r|]; [|by eapply IH]. apply ret_Ok in Hx as [[= ->] <-].
  apply try_create_row in Hc as (Hc & Ht & He & Hi). by rewrite Hc.
Qed.

Lemma Create_row fuel input w res w' : Create fuel service input w = (Ok (Some res), w') ->
  web_address (cr_TargetURL res) /\ cr_ExpiresAt res = ci_ExpiresAt input /\
  exists i, link_row_of i (cr_Code res) (cr_TargetURL res) (option_map datetime (cr_ExpiresAt res)) (server w').
Proof.
  unfold Create. intros Hx. run Hx as targetURL w1 Ht. apply some_or_Ok in Ht as [Ht <-]. apply normalizeTargetURL_address in Ht.
  run Hx as u w2 He. destruct (negb _).
  - run_guard Hx as Hp. run Hx as created w3 Hc. run_some Hx as r Hr. subst created. apply ret_Ok in Hx as [[= ->] <-].
    apply try_create_row in Hc as (Hc & Htu & Hex & Hi). rewrite Hc, Htu, Hex. done.
  - apply create_generated_row in Hx as (Htu & Hex & Hi). rewrite Htu, Hex. done.
Qed.

(** A short URL leads where it was made to lead: what [Create] reports
    is an http or https address with a host, and from then on, whatever links
    others create and however often it is clicked, a lookup of its code in any
    spelling the collation accepts finds this link, and [Resolve] gives, when
    it answers, exactly this address, code and lifetime. *)
Theorem created_link_resolves fuel input w res w1 w2 code :
  Create fuel service input w = (Ok (Some res), w1) -> rtc link_step (server w1) (server w2) ->
  collate (D := D) (cr_Code res) (TrimSpace code) = true ->
  web_address (cr_TargetURL res) /\
  (forall o w3, FindActiveByCode repo (TrimSpace code) w2 = (Ok o, w3) -> exists link, o = Some link /\ l_TargetURL link = cr_TargetURL res) /\
  (forall out w3, Resolve service code w2 = (Ok out, w3) ->
     rr_TargetURL out = cr_TargetURL res /\ rr_Code out = cr_Code res /\ rr_ExpiresAt out = option_map datetime (ci_ExpiresAt input) /\
     web_address (rr_TargetURL out)).
Proof.
  intros Hx Hst Hcol. apply Create_row in Hx as (Hweb & Hexp & i & Hrow). rewrite Hexp in Hrow.
  assert (Hfind : forall o w3, FindActiveByCode repo (TrimSpace code) w2 = (Ok o, w3) ->
    exists link, o = Some link /\ l_TargetURL link = cr_TargetURL res /\ l_Code link = cr_Code res /\ l_ExpiresAt link = option_map datetime (ci_ExpiresAt input)).
  { intros o w3 Hf. unfold FindActiveByCode, run_on in Hf. rewrite on_reader in Hf. run Hf as row w4 Hc. apply ret_Ok in Hf as [<- _].
    apply (call_Ok_steps link_step) in Hc as (w5 & d & Hst2 & Hq & _); [|exact transport_links|intros; apply find_link_steps].
    assert (Hrow2 : link_row_of i (cr_Code res) (cr_TargetURL res) (option_map datetime (ci_ExpiresAt input)) (server w5))
      by (eapply link_steps_kept, Hrow; by etrans).
    destruct (find_link _ _ _ _ _ _ _ _ Hrow2 Hcol Hq) as (r & -> & _ & Hc & Ht & He). exists (scan_link r). by split. }
  split; [done|]. split.
  - intros o w3 Hf. destruct (Hfind _ _ Hf) as (link & -> & Ht & _). by exists link.
  - intros out w3 Hr. unfold Resolve in Hr. run_guard Hr as Hp. run Hr as found w4 Hf. destruct (Hfind _ _ Hf) as (link & -> & Ht & Hc & He).
    run_some Hr as l Hl. injection Hl as <-. run Hr as u w5 Hlive. run Hr as v w6 Hclick. apply ret_Ok in Hr as [<- _]. cbn.
    by rewrite Ht, Hc, He.
Qed.
End Links.

(** ** At work *)

Module ShortURLDemo.
Record database := mkDatabase { table_rows : gmap Z link_row; clock : time }.
Record world := mkWorld { w_db : database; w_drawn : Z }.

#[export] Instance columns : Columns database := memory_columns clock.
#[export] Instance table : Table database link_row :=
  memory_table table_rows (fun m d => mkDatabase m (clock d)) clock (fun m d => eq_refl).

#[export] Program Instance remote : Remote world database := {
  server := w_db;
  put_server := fun d w => mkWorld d (w_drawn w);
  transport := fun w => (Delivered, w);
  max_retries := fun _ => 0%nat;
}.
Next Obligation. done. Qed.

(** The random source counts up by three. *)
#[export] Instance runtime : Runtime world := {
  time_Now := fun w => (clock (w_db w), w);
  uuid_NewString := fun w => ("uuid", w);
  rand_Read := fun n w => (Ok (replicate n (w_drawn w mod 256)), mkWorld (w_db w) (w_drawn w + 3));
}.

Definition repo : ShortURLRepo world database := NewShortURLRepositoryRW (Some remote) None.
Definition service : ShortURLRepository world := NewShortURLRepository repo.
Definition now : time := 1700000000 * Second.
Definition empty : world := mkWorld (mkDatabase ∅ now) 59.
Definition docs : CreateInput := mkCreateInput "" " https://Example.com:8443/docs?q=oauth " (Some (now + 3600 * Second)).
Definition after (m : IO world (option CreateResult)) (w : world) : world := (m w).2.
Definition stored : world := after (Create 64 service docs) empty.
Definition clicked : world := (Resolve service "X147adg" stored).2.

(** Of two consecutive numbers one is below 62: [w_drawn] moves by 3. *)
Lemma fair w : small_within 64 w.
Proof.
  assert (Hone : forall n v, Z.land (w_drawn v mod 256) 63 < 62 -> small_within (S n) v).
  { intros n v Hv. by eapply small_now. }
  assert (Hmod : forall z, Z.land (z mod 256) 63 = z mod 64).
  { intros z. change 63 with (Z.ones 6). rewrite Z.land_ones by lia. change (2 ^ 6) with 64.
    apply Z.mod_mod_divide. by exists 4. }
  destruct (Z_lt_dec (w_drawn w mod 64) 62) as [H|H]; [apply Hone; by rewrite Hmod|].
  eapply small_later; [reflexivity|]. apply Hone. cbn [w_drawn]. rewrite Hmod. pose proof (Z.mod_pos_bound (w_drawn w) 64). 
  rewrite Z.add_mod by lia. assert (Hc : w_drawn w mod 64 = 62 \/ w_drawn w mod 64 = 63) by lia. by destruct Hc as [-> | ->].
Qed.
End ShortURLDemo.
Import ShortURLDemo.

Lemma create_terminates_witness : exists r, (Create 100 service docs empty).1 = Ok (Some r) /\
  Create 100 service docs empty = Create 64 service docs empty.
Proof.
  destruct (create_terminates service 64 fair (fun _ => 0) (fun w => eq_refl) (fun k w => eq_refl) (fun link w => ltac:(cbn; lia)) 100 docs empty
    ltac:(lia)) as (He & Ho & _).
  destruct Ho as [[r Hr]|[e Hx]]; [exists r; split; [exact Hr | exact He]|].
  exfalso. assert (Hb : match (Create 100 service docs empty).1 with Ok _ => true | Err _ => false end = true) by (vm_compute; reflexivity).
  rewrite Hx in Hb. discriminate.
Defined.

Example created_code : match (Create 64 service docs empty).1 with
  | Ok (Some r) => (cr_Code r, cr_TargetURL r) | _ => ("", "") end = ("X147adg", "https://Example.com:8443/docs?q=oauth").
Proof. vm_compute. reflexivity. Qed.

Lemma created_link_resolves_witness : exists out w', Resolve service " X147adg " clicked = (Ok out, w') /\
  rr_TargetURL out = "https://Example.com:8443/docs?q=oauth" /\ web_address (rr_TargetURL out).
Proof.
  assert (Hrun : exists res, Create 64 service docs empty = (Ok (Some res), stored) /\ cr_Code res = "X147adg" /\
    cr_TargetURL res = "https://Example.com:8443/docs?q=oauth") by (eexists; split; [vm_compute; reflexivity | split; reflexivity]).
  destruct Hrun as (res & Hrun & Hcode & Htarget).
  assert (Hst : rtc link_step (ShortURLDemo.w_db stored) (ShortURLDemo.w_db clicked)).
  { apply rtc_once. apply (step_clicked 0 _ (incrementClick 0 (w_db stored)).1). vm_compute. reflexivity. }
  assert (Hres : exists out w', Resolve service " X147adg " clicked = (Ok out, w')) by (eexists _, _; vm_compute; reflexivity).
  destruct Hres as (out & w' & Hres). exists out, w'. split; [exact Hres|].
  assert (Hcol : collate (D := database) (cr_Code res) (TrimSpace " X147adg ") = true) by (rewrite Hcode; reflexivity).
  pose proof (created_link_resolves repo remote eq_refl eq_refl (fun w => rtc_refl _ _) 64 docs empty res stored clicked " X147adg "
    Hrun Hst Hcol) as (_ & _ & Hall).
  destruct (Hall out w' Hres) as (Ht & _ & _ & Hweb). rewrite Htarget in Ht. split; [exact Ht | exact Hweb].
Defined.
