(* ===== verification/ClientRepo.v ===== *)
(** * Clients in the database (client_repo.go)

    A client is a row of oauth_clients and rows of five tables that hold its
    grant types, authentication methods, scopes and redirect URIs.
    [CreateClient] writes them in one transaction; [FindByClientID] reads them
    with one query per table.  Redirect URIs are told apart by their SHA-256
    digest, and only they are added later. *)

From stdpp Require Import base tactics list gmap strings numbers relations sorting.
From Stdlib Require Import ZArith Lia Ascii.
From S2P Require Import Prelude GoStrings GoCrypto GoTime Errors Domain Ports Remote Database.

Record client_row := mkClientRow {
  c_id : Z;
  c_client_id : string;
  c_client_name : string;
  c_client_secret_hash : option string;
  c_client_type : string;
  c_token_endpoint_auth_method : string;
  c_require_pkce : bool;
  c_require_consent : bool;
  c_access_token_ttl_seconds : Z;
  c_refresh_token_ttl_seconds : Z;
  c_id_token_ttl_seconds : Z;
  c_status : string;
  c_created_at : time;
  c_updated_at : time;
}.

(** oauth_client_grant_types, oauth_client_auth_methods, oauth_client_scopes *)
Inductive value_table := GrantTypeRows | AuthMethodRows | ScopeRows.
Record value_row (t : value_table) := mkValueRow { v_id : Z; v_client_id : Z; v_value : string }.
Arguments mkValueRow {t}.
Arguments v_id {t}.
Arguments v_client_id {t}.
Arguments v_value {t}.

(** oauth_client_redirect_uris, oauth_client_post_logout_redirect_uris *)
Inductive uri_table := RedirectRows | PostLogoutRows.
Record uri_row (t : uri_table) := mkUriRow { r_id : Z; r_client_id : Z; r_redirect_uri : string; r_redirect_uri_sha256 : string }.
Arguments mkUriRow {t}.
Arguments r_id {t}.
Arguments r_client_id {t}.
Arguments r_redirect_uri {t}.
Arguments r_redirect_uri_sha256 {t}.

(** UNIQUE KEY (client_id), (client_id, value), (client_id, redirect_uri_sha256) *)
#[export] Instance client_row_keys {D} `{Columns D} : Row client_row := {
  row_id := c_id;
  conflict := fun a b => collate (D := D) (c_client_id a) (c_client_id b);
}.
#[export] Instance value_row_keys {D} `{Columns D} t : Row (value_row t) := {
  row_id := v_id;
  conflict := fun a b => (v_client_id a =? v_client_id b) && collate (D := D) (v_value a) (v_value b);
}.
#[export] Instance uri_row_keys {D} `{Columns D} t : Row (uri_row t) := {
  row_id := r_id;
  conflict := fun a b => (r_client_id a =? r_client_id b) && collate (D := D) (r_redirect_uri_sha256 a) (r_redirect_uri_sha256 b);
}.

(** The six tables, in one database: a statement on one leaves the others
    alone. *)
Inductive table := Clients | Values (t : value_table) | URIs (t : uri_table).
#[export] Instance table_dec : EqDecision table.
Proof. intros [|[]|[]] [|[]|[]]; (by left) || by right. Defined.

Definition row_of (k : table) : Type :=
  match k with Clients => client_row | Values t => value_row t | URIs t => uri_row t end.
#[export] Instance row_of_keys {D} `{Columns D} k : Row (row_of k) :=
  match k with
  | Clients => client_row_keys (D := D)
  | Values t => value_row_keys (D := D) t
  | URIs t => uri_row_keys (D := D) t
  end.

Class Schema (D : Type) `{!Columns D} := {
  tables : forall k, Table D (row_of k) (H := row_of_keys (D := D) k);
  SELECT_apart : forall k k' p d a d', SELECT (Table := tables k) p d = (a, d') ->
    rows (Table := tables k') d' = rows (Table := tables k') d;
  INSERT_apart : forall k k' f d a d', INSERT (Table := tables k) f d = (a, d') -> k <> k' ->
    rows (Table := tables k') d' = rows (Table := tables k') d;
}.
#[export] Instance clients_table {D} `{Schema D} : Table D client_row (H := client_row_keys (D := D)) := tables Clients.
#[export] Instance values_table {D} `{Schema D} t : Table D (value_row t) (H := value_row_keys (D := D) t) := tables (Values t).
#[export] Instance uris_table {D} `{Schema D} t : Table D (uri_row t) (H := uri_row_keys (D := D) t) := tables (URIs t).

(** ORDER BY id *)
Definition by_key {R} `{Row R} (a b : R) : Prop := row_id a <= row_id b.
#[export] Instance by_key_dec {R} `{Row R} a b : Decision (by_key (R := R) a b).
Proof. unfold by_key. apply _. Defined.

Section Repository.
Context {W D : Type} `{!Columns D} `{!Schema D}.

Definition ClientRepo : Type := dbRouter W D.

Definition NewClientRepositoryRW (writeDB readDB : DB W D) : ClientRepo := newDBRouter writeDB readDB.

(** create_client.sql *)
Definition createClient (m : client.Model) : IO D Z :=
  INSERT (fun id t => mkClientRow id (client.ClientID m) (client.ClientName m) (nullString (client.ClientSecretHash m)) (client.ClientType m)
    (client.TokenEndpointAuthMethod m) (client.RequirePKCE m) (client.RequireConsent m) (client.AccessTokenTTLSeconds m)
    (client.RefreshTokenTTLSeconds m) (client.IDTokenTTLSeconds m) (client.Status m) t t).

(** insert_client_grant_type.sql, insert_client_auth_method.sql, insert_client_scope.sql *)
Definition insertValue (t : value_table) (clientDBID : Z) (value : string) : IO D Z :=
  INSERT (R := value_row t) (fun id _ => mkValueRow id clientDBID value).

(** insert_redirect_uri.sql, insert_post_logout_redirect_uri.sql *)
Definition insertURI (t : uri_table) (clientDBID : Z) (uri : string) : IO D Z :=
  INSERT (R := uri_row t) (fun id _ => mkUriRow id clientDBID uri (sha256_hex uri)).

(** insert_redirect_uri_ignore.sql, insert_post_logout_redirect_uri_ignore.sql:
    a row with the same key is kept, and none is affected.  MySQL also turns
    the errors of a missing client or of a value that does not fit into
    warnings here; the table of the model fails with them. *)
Definition insertURIIgnore (t : uri_table) (clientDBID : Z) (uri : string) : IO D Z :=
  let* result := attempt (insertURI t clientDBID uri) in
  match result with
  | Ok _ => ret 1
  | Err e => if bool_decide (e = Infra ErrDuplicate) then ret 0 else throw e
  end.

(** find_by_client_id.sql *)
Definition findByClientID (clientID : string) : IO D (option client_row) :=
  let* l := SELECT (fun _ r => collate (D := D) (c_client_id r) clientID) in ret (head l).

(** select_grant_types_by_client_id.sql, select_auth_methods_by_client_id.sql,
    select_scopes_by_client_id.sql *)
Definition selectValues (t : value_table) (clientDBID : Z) : IO D (list string) :=
  let* l := SELECT (R := value_row t) (fun _ r => v_client_id r =? clientDBID) in ret (List.map v_value (merge_sort by_key l)).

(** select_redirect_uris_by_client_id.sql *)
Definition selectRedirectURIs (clientDBID : Z) : IO D (list string) :=
  let* l := SELECT (R := uri_row RedirectRows) (fun _ r => r_client_id r =? clientDBID) in ret (List.map r_redirect_uri (merge_sort by_key l)).

(** has_post_logout_redirect_uri.sql *)
Definition selectPostLogout (clientDBID : Z) (digest : string) : IO D bool :=
  let* l := SELECT (R := uri_row PostLogoutRows)
    (fun _ r => (r_client_id r =? clientDBID) && collate (D := D) (r_redirect_uri_sha256 r) digest) in
  ret (match l with [] => false | _ => true end).

Definition insertStringValuesTx (t : value_table) (clientDBID : Z) (values : list string) : IO D unit :=
  mapM_ (fun value => do* insertValue t clientDBID value in ret tt) values.

(** insertRedirectURIsTx, insertPostLogoutRedirectURIsTx *)
Definition insertURIsTx (t : uri_table) (clientDBID : Z) (uris : list string) : IO D unit :=
  mapM_ (fun uri => do* insertURI t clientDBID uri in ret tt) uris.

Definition with_id (m : client.Model) (id : Z) : client.Model :=
  client.mk id (client.ClientID m) (client.ClientName m) (client.ClientSecretHash m) (client.ClientType m) (client.TokenEndpointAuthMethod m)
    (client.RequirePKCE m) (client.RequireConsent m) (client.AccessTokenTTLSeconds m) (client.RefreshTokenTTLSeconds m)
    (client.IDTokenTTLSeconds m) (client.Status m) (client.RedirectURIs m) (client.PostLogoutRedirectURIs m) (client.GrantTypes m)
    (client.AuthMethods m) (client.Scopes m) (client.CreatedAt m) (client.UpdatedAt m).

(** The body of CreateClient's transaction. *)
Definition create_client_tx (m : client.Model) : IO D (bool * client.Model) :=
  let* id := createClient m in
  do* insertStringValuesTx GrantTypeRows id (client.GrantTypes m) in
  do* insertStringValuesTx AuthMethodRows id (client.AuthMethods m) in
  do* insertStringValuesTx ScopeRows id (client.Scopes m) in
  do* insertURIsTx RedirectRows id (client.RedirectURIs m) in
  do* insertURIsTx PostLogoutRows id (client.PostLogoutRedirectURIs m) in
  ret (true, with_id m id).

Definition CreateClient (r : ClientRepo) (m : client.Model) : IO W client.Model :=
  run_on (writer r) (transaction (create_client_tx m)).

Definition scan_client (r : client_row) (redirectURIs grantTypes authMethods scopes : list string) : client.Model :=
  client.mk (c_id r) (c_client_id r) (c_client_name r) (scan_string (c_client_secret_hash r)) (c_client_type r)
    (c_token_endpoint_auth_method r) (c_require_pkce r) (c_require_consent r) (c_access_token_ttl_seconds r)
    (c_refresh_token_ttl_seconds r) (c_id_token_ttl_seconds r) (c_status r) redirectURIs [] grantTypes authMethods scopes
    (c_created_at r) (c_updated_at r).

Definition FindByClientID (r : ClientRepo) (clientID : string) : IO W (option client.Model) :=
  let* row := run_on (reader r) (findByClientID clientID) in
  match row with
  | None => ret None
  | Some row =>
      let* redirectURIs := run_on (reader r) (selectRedirectURIs (c_id row)) in
      let* grantTypes := run_on (reader r) (selectValues GrantTypeRows (c_id row)) in
      let* authMethods := run_on (reader r) (selectValues AuthMethodRows (c_id row)) in
      let* scopes := run_on (reader r) (selectValues ScopeRows (c_id row)) in
      ret (Some (scan_client row redirectURIs grantTypes authMethods scopes))
  end.

(** The loop over the URIs, counting the rows that were inserted. *)
Fixpoint register_tx (t : uri_table) (clientDBID insertedCount : Z) (uris : list string) : IO D (bool * Z) :=
  match uris with
  | [] => ret (true, insertedCount)
  | uri :: uris =>
      let* affectedRows := insertURIIgnore t clientDBID uri in
      register_tx t clientDBID (insertedCount + affectedRows) uris
  end.

(** RegisterRedirectURIs, RegisterPostLogoutRedirectURIs *)
Definition RegisterURIs (t : uri_table) (r : ClientRepo) (clientDBID : Z) (uris : list string) : IO W Z :=
  match uris with [] => ret 0 | _ => run_on (writer r) (transaction (register_tx t clientDBID 0 uris)) end.

Definition HasPostLogoutRedirectURI (r : ClientRepo) (clientDBID : Z) (uri : string) : IO W bool :=
  run_on (reader r) (selectPostLogout clientDBID (sha256_hex uri)).

Definition NewClientRepository (r : ClientRepo) : ClientRepository W := {|
  Ports.FindByClientID := FindByClientID r;
  Ports.HasPostLogoutRedirectURI := HasPostLogoutRedirectURI r;
  Ports.CreateClient := CreateClient r;
  Ports.RegisterRedirectURIs := RegisterURIs RedirectRows r;
  Ports.RegisterPostLogoutRedirectURIs := RegisterURIs PostLogoutRows r;
|}.
End Repository.
Arguments ClientRepo : clear implicits.

(** ** What the statements add *)

Section Growth.
Context {D : Type} `{!Columns D} `{!Schema D}.

Abbreviation rows_of k := (rows (Table := tables k)).

(** Every table keeps its rows; a new value is one that [new] allows. *)
Definition added (new : value_table -> Z -> string -> Prop) (d d' : D) : Prop :=
  (forall k, rows_of k d ⊆ rows_of k d') /\
  forall t i (r : value_row t), rows_of (Values t) d' !! i = Some r ->
    rows_of (Values t) d !! i = Some r \/ new t (v_client_id r) (v_value r).

#[local] Instance added_refl new : Reflexive (added new).
Proof. intros d. split; [done|]. by left. Qed.
#[local] Instance added_trans new : Transitive (added new).
Proof.
  intros d1 d2 d3 [H1 H2] [H3 H4]. split; [intros k; etrans; [apply H1 | apply H3]|].
  intros t i r Hr. destruct (H4 _ _ _ Hr) as [Hr2|]; [by apply H2 | by right].
Qed.

Lemma added_weaken (new new' : value_table -> Z -> string -> Prop) d d' :
  (forall t id v, new t id v -> new' t id v) -> added new d d' -> added new' d d'.
Proof. intros Hn [H1 H2]. split; [done|]. intros t i r Hr. destruct (H2 _ _ _ Hr); [by left | right; auto]. Qed.

Lemma INSERT_added new k f d a d' : INSERT (Table := tables k) f d = (a, d') ->
  (forall id at_, match k return row_of k -> Prop with Values t => fun r => new t (v_client_id r) (v_value r) | _ => fun _ => True end (f id at_)) ->
  added new d d'.
Proof.
  intros Hx Hf. assert (Hk : rows_of k d' = rows_of k d \/ exists id at_, rows_of k d !! id = None /\ rows_of k d' = <[id := f id at_]> (rows_of k d)).
  { destruct a as [id|e]; [right | left; by eapply INSERT_Err]. apply INSERT_Ok in Hx as (Hn & at_ & Hr & _). by exists id, at_. }
  split.
  - intros k'. destruct (decide (k = k')) as [<-|Hne]; [|by rewrite (INSERT_apart _ _ _ _ _ _ Hx Hne)].
    destruct Hk as [->|(id & at_ & Hn & ->)]; [done | by apply insert_subseteq].
  - intros t i r Hr. destruct (decide (k = Values t)) as [->|Hne]; [|left; by rewrite (INSERT_apart _ _ _ _ _ _ Hx Hne) in Hr].
    destruct Hk as [Hk|(id & at_ & Hn & Hk)]; rewrite Hk in Hr; [by left|].
    apply lookup_insert_Some in Hr as [[<- <-]|[_ Hr]]; [right; apply (Hf id at_) | by left].
Qed.

Lemma mapM_added {A} new (f : A -> IO D unit) xs d a d' :
  (forall x d1 a1 d2, x ∈ xs -> f x d1 = (a1, d2) -> added new d1 d2) -> mapM_ f xs d = (a, d') -> added new d d'.
Proof.
  revert d. induction xs as [|x xs IH]; intros d Hf Hx; cbn in Hx.
  - unfold ret in Hx. by injection Hx as _ <-.
  - unfold bind in Hx. destruct (f x d) as [[[]|e] d1] eqn:E; [|injection Hx as _ <-; eapply Hf; [by left | exact E]].
    etrans; [eapply Hf; [by left | exact E]|]. eapply IH; [|exact Hx]. intros y d2 a2 d3 Hy. apply Hf. by right.
Qed.

Lemma bind_ret_state {A B} (m : IO D A) (k : A -> B) d a d' : (let* x := m in ret (k x)) d = (a, d') -> exists o, m d = (o, d').
Proof. unfold bind, ret. destruct (m d) as [[x|e] d1]; intros [= _ <-]; eauto. Qed.

Lemma insertValues_added (new : value_table -> Z -> string -> Prop) t id vs d a d' :
  (forall v, v ∈ vs -> new t id v) -> insertStringValuesTx t id vs d = (a, d') -> added new d d'.
Proof.
  intros Hn. apply mapM_added. intros v d1 a1 d2 Hv Hx. apply bind_ret_state in Hx as [o Hx].
  eapply (INSERT_added new (Values t)); [exact Hx|]. intros i at_. by apply Hn.
Qed.

Lemma insertURIs_added new t id uris d a d' : insertURIsTx t id uris d = (a, d') -> added new d d'.
Proof.
  apply mapM_added. intros v d1 a1 d2 _ Hx. apply bind_ret_state in Hx as [o Hx].
  by eapply (INSERT_added new (URIs t)); [exact Hx|].
Qed.

(** ** What the tables hold of a client *)

Definition has_value (t : value_table) (id : Z) (v : string) (d : D) : Prop :=
  exists i r, rows_of (Values t) d !! i = Some r /\ v_client_id r = id /\ v_value r = v.

Definition has_uri (t : uri_table) (id : Z) (uri : string) (d : D) : Prop :=
  exists i r, rows_of (URIs t) d !! i = Some r /\ r_client_id r = id /\ r_redirect_uri r = uri /\ r_redirect_uri_sha256 r = sha256_hex uri.

Lemma has_value_added new t id v d d' : added new d d' -> has_value t id v d -> has_value t id v d'.
Proof. intros [H _] (i & r & Hr & Hv). exists i, r. split; [|done]. by eapply lookup_weaken, (H (Values t)). Qed.

Lemma has_uri_added new t id uri d d' : added new d d' -> has_uri t id uri d -> has_uri t id uri d'.
Proof. intros [H _] (i & r & Hr & Hv). exists i, r. split; [|done]. by eapply lookup_weaken, (H (URIs t)). Qed.

Lemma insertValues_has t id vs d d' v : insertStringValuesTx t id vs d = (Ok tt, d') -> v ∈ vs -> has_value t id v d'.
Proof.
  intros Hx. revert v. unfold insertStringValuesTx in Hx.
  eapply (mapM_establishes (fun value => do* insertValue t id value in ret tt) (has_value t id) vs d d'); [| |exact Hx].
  - intros v d1 d2 H1. run H1 as i d3 Hi. apply ret_Ok in H1 as [_ <-]. apply INSERT_Ok in Hi as (_ & at_ & Hr & _).
    exists i. eexists. split; [rewrite (Hr : rows_of (Values t) d3 = _); apply lookup_insert_eq | done].
  - intros v v' d1 a d2 H1. apply bind_ret_state in H1 as [o H1]. apply (has_value_added (fun _ _ _ => True)).
    by eapply (INSERT_added _ (Values t)); [exact H1|].
Qed.

Lemma insertURIs_has t id uris d d' uri : insertURIsTx t id uris d = (Ok tt, d') -> uri ∈ uris -> has_uri t id uri d'.
Proof.
  intros Hx. revert uri. eapply (mapM_establishes (fun uri => do* insertURI t id uri in ret tt) (has_uri t id) uris d d'); [| |exact Hx].
  - intros v d1 d2 H1. run H1 as i d3 Hi. apply ret_Ok in H1 as [_ <-]. apply INSERT_Ok in Hi as (_ & at_ & Hr & _).
    exists i. eexists. split; [rewrite (Hr : rows_of (URIs t) d3 = _); apply lookup_insert_eq | done].
  - intros v v' d1 a d2 H1. apply bind_ret_state in H1 as [o H1]. apply (has_uri_added (fun _ _ _ => True)).
    by eapply (INSERT_added _ (URIs t)); [exact H1|].
Qed.

(** The columns of oauth_clients that the caller chose. *)
Definition settings (m : client.Model) :=
  (client.ClientID m, client.ClientName m, client.ClientSecretHash m, client.ClientType m, client.TokenEndpointAuthMethod m,
   client.RequirePKCE m, client.RequireConsent m,
   (client.AccessTokenTTLSeconds m, client.RefreshTokenTTLSeconds m, client.IDTokenTTLSeconds m), client.Status m).

Definition values_of (t : value_table) (m : client.Model) : list string :=
  match t with GrantTypeRows => client.GrantTypes m | AuthMethodRows => client.AuthMethods m | ScopeRows => client.Scopes m end.
Definition uris_of (t : uri_table) (m : client.Model) : list string :=
  match t with RedirectRows => client.RedirectURIs m | PostLogoutRows => client.PostLogoutRedirectURIs m end.

(** The client is there with these settings, exactly these values, and at
    least these URIs. *)
Definition stored (m : client.Model) (d : D) : Prop :=
  (exists r, rows_of Clients d !! client.ID m = Some r /\ settings (scan_client r [] [] [] []) = settings m) /\
  (forall t v, has_value t (client.ID m) v d <-> v ∈ values_of t m) /\
  (forall t uri, uri ∈ uris_of t m -> has_uri t (client.ID m) uri d).

(** Every value is of a client that is there: the foreign keys. *)
Definition no_orphans (d : D) : Prop :=
  forall t i (r : value_row t), rows_of (Values t) d !! i = Some r -> is_Some (rows_of Clients d !! v_client_id r).

(** A new value is of a client that was not there. *)
Definition later (d d' : D) : Prop := added (fun _ id _ => rows_of Clients d !! id = None) d d'.

Lemma later_trans d1 d2 d3 : later d1 d2 -> later d2 d3 -> later d1 d3.
Proof.
  intros H1 H2. eapply added_trans; [exact H1|]. eapply added_weaken, H2. cbn. intros _ id _ Hn. destruct H1 as [H1 _].
  by eapply lookup_weaken_None, (H1 Clients).
Qed.

Lemma stored_later m d d' : later d d' -> stored m d -> stored m d'.
Proof.
  intros Hl ((r & Hr & Hs) & Hv & Hu). pose proof Hl as [Hsub Hnew]. split; [|split].
  - exists r. split; [|done]. by eapply lookup_weaken, (Hsub Clients).
  - intros t v. rewrite <- Hv. split; [|by apply (has_value_added _ _ _ _ _ _ Hl)].
    intros (i & r' & Hr' & Hid & Hval). exists i, r'. split; [|done]. destruct (Hnew _ _ _ Hr') as [|Hn]; [done|].
    rewrite Hid in Hn. by pose proof (eq_trans (eq_sym Hr) Hn).
  - intros t uri Hin. by eapply has_uri_added, Hu.
Qed.

Lemma with_id_settings m id : settings (with_id m id) = settings m.
Proof. done. Qed.

(** The transaction of [CreateClient] when it commits: a client that was not
    there, with its values and URIs, and nothing of anybody else's. *)
Lemma client_tx_Ok m d b m' d' : create_client_tx m d = (Ok (b, m'), d') ->
  exists id, b = true /\ m' = with_id m id /\ rows_of Clients d !! id = None /\
    (exists r, rows_of Clients d' !! id = Some r /\ settings (scan_client r [] [] [] []) = settings m) /\
    added (fun t id' v => id' = id /\ v ∈ values_of t m) d d' /\
    (forall t v, v ∈ values_of t m -> has_value t id v d') /\
    (forall t uri, uri ∈ uris_of t m -> has_uri t id uri d').
Proof.
  intros Hx. unfold create_client_tx in Hx. run Hx as id d1 Hc. run Hx as u2 d2 Hg. run Hx as u3 d3 Ha. run Hx as u4 d4 Hs.
  run Hx as u5 d5 Hr. run Hx as u6 d6 Hp. apply ret_Ok in Hx as [Hx <-]. injection Hx as <- <-. destruct u2, u3, u4, u5, u6.
  set (new := fun t id' v => id' = id /\ v ∈ values_of t m).
  assert (A1 : added new d d1) by (by eapply (INSERT_added _ Clients); [exact Hc|]).
  assert (A2 : added new d1 d2) by (by eapply (insertValues_added new GrantTypeRows); [|exact Hg]).
  assert (A3 : added new d2 d3) by (by eapply (insertValues_added new AuthMethodRows); [|exact Ha]).
  assert (A4 : added new d3 d4) by (by eapply (insertValues_added new ScopeRows); [|exact Hs]).
  assert (A5 : added new d4 d5) by exact (insertURIs_added new _ _ _ _ _ _ Hr).
  assert (A6 : added new d5 d6) by exact (insertURIs_added new _ _ _ _ _ _ Hp).
  assert (B5 : added new d5 d6) by exact A6. assert (B4 : added new d4 d6) by (by etrans). assert (B3 : added new d3 d6) by (by etrans).
  assert (B2 : added new d2 d6) by (by etrans). assert (B1 : added new d1 d6) by (by etrans).
  apply INSERT_Ok in Hc as (Hn & at_ & Hrow & _).
  exists id. do 2 (split; [done|]). split; [exact Hn|]. split; [|split; [by etrans|split]].
  - eexists. split; [eapply lookup_weaken; [|apply (proj1 B1 Clients)]; rewrite (Hrow : rows_of Clients d1 = _); apply lookup_insert_eq|].
    unfold settings, scan_client. cbn. by rewrite scan_nullString.
  - intros [] v Hv; eapply has_value_added; [exact B2| |exact B3| |exact B4|]; by eapply insertValues_has.
  - intros [] uri Hv; [eapply has_uri_added; [exact B5|]|]; by eapply insertURIs_has.
Qed.

(** The statements on clients, whatever their outcome, and anything that
    leaves the tables alone. *)
Inductive client_step : relation D :=
| step_created m d a d' : transaction (create_client_tx m) d = (a, d') -> client_step d d'
| step_registered t id uris d a d' : transaction (register_tx t id 0 uris) d = (a, d') -> client_step d d'
| step_elsewhere d d' : (forall k, rows_of k d' = rows_of k d) -> client_step d d'.

Lemma same_later (d d' : D) : (forall k, rows_of k d' = rows_of k d) -> added (fun _ _ _ => False) d d'.
Proof. intros Hk. split; [intros k; by rewrite Hk|]. intros t i r Hr. rewrite Hk in Hr. by left. Qed.

Lemma register_added new t id n uris d a d' : register_tx t id n uris d = (a, d') -> added new d d'.
Proof.
  revert n d. induction uris as [|uri uris IH]; intros n d Hx; cbn [register_tx] in Hx.
  - unfold ret in Hx. by injection Hx as _ <-.
  - unfold bind at 1, insertURIIgnore in Hx. unfold bind at 1, attempt in Hx.
    destruct (insertURI t id uri d) as [o d1] eqn:Hi. assert (Ha : added new d d1) by (by eapply (INSERT_added _ (URIs t)); [exact Hi|]).
    destruct o as [x|e]; [|case_bool_decide]; try (unfold ret in Hx at 1; etrans; [exact Ha | by eapply IH]).
    by injection Hx as _ <-.
Qed.

Lemma client_step_later d d' : client_step d d' -> later d d' /\ (no_orphans d -> no_orphans d').
Proof.
  assert (Hnone : forall d d', added (fun _ _ _ => False) d d' -> later d d' /\ (no_orphans d -> no_orphans d')).
  { intros d1 d2 Ha. split; [by eapply added_weaken, Ha|]. intros Ho t i r Hr. destruct Ha as [Hsub Hnew].
    destruct (Hnew _ _ _ Hr) as [Hr1|[]]. destruct (Ho _ _ _ Hr1) as [c Hc]. exists c. by eapply lookup_weaken, (Hsub Clients). }
  intros [m d1 a d2 Hx|t id uris d1 a d2 Hx|d1 d2 Hk].
  - destruct a as [m'|e]; [|apply transaction_Err in Hx as ->; apply Hnone; reflexivity].
    apply transaction_Ok in Hx as [Hx|(? & Hx & ->)]; [|apply Hnone; reflexivity].
    apply client_tx_Ok in Hx as (id & _ & _ & Hn & (r & Hr & _) & Ha & _). split.
    + eapply added_weaken, Ha. by intros t id' v [-> _].
    + intros Ho t i r' Hr'. destruct Ha as [Hsub Hnew]. destruct (Hnew _ _ _ Hr') as [Hr1|[-> _]]; [|by exists r].
      destruct (Ho _ _ _ Hr1) as [c Hc]. exists c. by eapply lookup_weaken, (Hsub Clients).
  - apply Hnone. unfold transaction in Hx. destruct (register_tx t id 0 uris d1) as [[[[] n]|e] d3] eqn:Hb.
    1: injection Hx as _ <-; by eapply register_added. all: injection Hx as _ <-; reflexivity.
  - by apply Hnone, same_later.
Qed.

Lemma client_steps_later d d' : rtc client_step d d' -> later d d' /\ (no_orphans d -> no_orphans d').
Proof.
  induction 1 as [d|d1 d2 d3 H1 _ [IH1 IH2]]; [split; [apply added_refl | done]|].
  apply client_step_later in H1 as [H1 H2]. split; [by eapply later_trans | auto].
Qed.

Lemma created_stored m d m' d' : no_orphans d -> transaction (create_client_tx m) d = (Ok m', d') ->
  stored m' d' /\ exists id, m' = with_id m id.
Proof.
  intros Ho Hx. apply transaction_Ok in Hx as [Hx|(d1 & Hx & _)]; [|by apply client_tx_Ok in Hx as (? & [=] & _)].
  apply client_tx_Ok in Hx as (id & _ & -> & Hn & Hr & [_ Hnew] & Hv & Hu). split; [|by exists id]. split; [exact Hr|]. split; [|exact Hu].
  intros t v. split; [|apply Hv]. intros (i & r & Hri & Hid & <-). destruct (Hnew _ _ _ Hri) as [Hold|[_ Hin]]; [|exact Hin].
  destruct (Ho _ _ _ Hold) as [c Hc]. change (client.ID (with_id m id)) with id in Hid. rewrite Hid in Hc.
  by pose proof (eq_trans (eq_sym Hn) Hc).
Qed.
End Growth.

(** ** A client that was created is found *)

Section Found.
Context {W D : Type} `{!Columns D} `{!Schema D} (repo : ClientRepo W D) (h : Remote W D).
Hypothesis on_writer : writer repo = Some h.
Hypothesis on_reader : reader repo = Some h.
(** While a request travels, others use the tables. *)
Hypothesis transport_clients : forall w, rtc client_step (server w) (server (transport w).2).

Abbreviation rows_of k := (rows (Table := tables k)).

(** A query finds what the tables hold when it runs, and changes nothing. *)
Definition query {A} (m : IO D A) : Prop := forall d a d', m d = (a, d') -> client_step d d'.

Lemma SELECT_query {A} k (p : D -> row_of k -> bool) (f : list (row_of k) -> A) :
  query (let* l := SELECT (Table := tables k) p in ret (f l)).
Proof. intros d a d' Hx. apply bind_ret_state in Hx as [o Hx]. apply step_elsewhere. intros k'. by eapply SELECT_apart. Qed.

Lemma run_reader {A} (m : IO D A) w a w' : query m -> run_on (reader repo) m w = (Ok a, w') ->
  exists d, rtc client_step (server w) d /\ m d = (Ok a, server w') /\ rtc client_step d (server w').
Proof.
  intros Hq Hx. unfold run_on in Hx. rewrite on_reader in Hx.
  apply (call_Ok_steps client_step) in Hx as (w1 & d & Hst & Hm & <-); [|exact transport_clients|].
  - exists (server w1). split; [done|]. split; [done|]. apply rtc_once. by eapply Hq.
  - intros d. apply rtc_once. destruct (m d) as [o d'] eqn:Hm. by eapply Hq.
Qed.

Lemma stored_steps m d d' : rtc client_step d d' -> stored m d -> stored m d'.
Proof. intros Hst. apply stored_later. by apply client_steps_later. Qed.

Lemma merge_sort_in {R} `{Row R} (l : list R) r : r ∈ merge_sort by_key l <-> r ∈ l.
Proof. by rewrite (merge_sort_Permutation by_key l). Qed.

Lemma selectValues_Ok t id d vs d' v : selectValues t id d = (Ok vs, d') -> v ∈ vs <-> has_value t id v d.
Proof.
  intros Hx. unfold selectValues in Hx. run Hx as l d1 Hs. apply ret_Ok in Hx as [<- _].
  rewrite list_elem_of_In, in_map_iff. split.
  - intros (r & <- & Hr). rewrite <- list_elem_of_In, merge_sort_in, (SELECT_Ok _ _ _ _ Hs) in Hr.
    destruct Hr as [Hid [i Hr]]. exists i, r. split; [exact Hr|]. by apply Z.eqb_eq in Hid.
  - intros (i & r & Hr & Hid & Hv). exists r. split; [done|]. rewrite <- list_elem_of_In, merge_sort_in, (SELECT_Ok _ _ _ _ Hs).
    split; [by apply Z.eqb_eq | by exists i].
Qed.

Lemma selectRedirectURIs_Ok id d uris d' uri : selectRedirectURIs id d = (Ok uris, d') -> has_uri RedirectRows id uri d -> uri ∈ uris.
Proof.
  intros Hx (i & r & Hr & Hid & <- & _). unfold selectRedirectURIs in Hx. run Hx as l d1 Hs. apply ret_Ok in Hx as [<- _].
  rewrite list_elem_of_In, in_map_iff. exists r. split; [done|]. rewrite <- list_elem_of_In, merge_sort_in, (SELECT_Ok _ _ _ _ Hs).
  split; [by apply Z.eqb_eq | by exists i].
Qed.

Lemma selectPostLogout_Ok id d b d' uri : selectPostLogout id (sha256_hex uri) d = (Ok b, d') -> has_uri PostLogoutRows id uri d -> b = true.
Proof.
  intros Hx (i & r & Hr & Hid & Hu & Hh). unfold selectPostLogout in Hx. run Hx as l d1 Hs. apply ret_Ok in Hx as [<- _].
  destruct l as [|r' l]; [|done]. exfalso. assert (Hin : r ∈ ([] : list (uri_row PostLogoutRows))); [|by apply elem_of_nil in Hin].
  apply (SELECT_Ok _ _ _ _ Hs). split; [|by exists i]. rewrite Hid, Hh, Z.eqb_refl. apply collate_refl.
Qed.

(** The row that a client's id in any accepted spelling finds is the client's. *)
Lemma findByClientID_Ok m c d o d' : stored m d -> collate (D := D) (client.ClientID m) c = true ->
  findByClientID c d = (Ok o, d') ->
  exists r, o = Some r /\ c_id r = client.ID m /\ settings (scan_client r [] [] [] []) = settings m.
Proof.
  intros ((r & Hr & Hset) & _) Hcol Hx. unfold findByClientID in Hx. run Hx as l d1 Hs. apply ret_Ok in Hx as [<- _].
  pose proof (SELECT_Ok _ _ _ _ Hs) as Hin.
  assert (Hid : c_client_id r = client.ClientID m) by (unfold settings in Hset; cbn in Hset; congruence).
  destruct l as [|r' l].
  - exfalso. assert (Hnil : r ∈ ([] : list client_row)); [|by apply elem_of_nil in Hnil]. apply Hin. split; [by rewrite Hid | by exists (client.ID m)].
  - exists r'. split; [done|]. destruct (proj1 (Hin r') ltac:(by left)) as [Hp [i Hr']].
    assert (i = client.ID m) as ->.
    { eapply (rows_unique (Table := tables Clients)); [exact Hr' | exact Hr|]. simpl. rewrite Hid.
      eapply collate_trans; [exact Hp|]. by rewrite collate_sym. }
    assert (r' = r) as -> by (pose proof (eq_trans (eq_sym Hr) Hr'); congruence). split; [|done].
    exact (rows_keyed (Table := tables Clients) d _ r Hr).
Qed.

Lemma FindByClientID_stored m c w o w' : stored m (server w) -> collate (D := D) (client.ClientID m) c = true ->
  FindByClientID repo c w = (Ok o, w') ->
  exists found, o = Some found /\ client.ID found = client.ID m /\ settings found = settings m /\
    (forall t v, v ∈ values_of t found <-> v ∈ values_of t m) /\
    (forall uri, uri ∈ client.RedirectURIs m -> uri ∈ client.RedirectURIs found).
Proof.
  intros Hst Hcol Hx. unfold FindByClientID in Hx. run Hx as row w1 Hf.
  apply run_reader in Hf as (d & Hd & Hf & H1); [|intros ?; apply (SELECT_query Clients _ head)].
  apply (stored_steps _ _ _ Hd) in Hst. destruct (findByClientID_Ok _ _ _ _ _ Hst Hcol Hf) as (r & -> & Hid & Hset).
  apply (stored_steps _ _ _ H1) in Hst. rewrite Hid in Hx.
  run Hx as redirects w2 Hr. apply run_reader in Hr as (d2 & Hd2 & Hr & H2); [|intros ?; apply (SELECT_query (URIs RedirectRows) _ (fun l => List.map r_redirect_uri (merge_sort by_key l)))].
  apply (stored_steps _ _ _ Hd2) in Hst. pose proof Hst as [_ [_ Hu]]. specialize (Hu RedirectRows). apply (stored_steps _ _ _ H2) in Hst.
  assert (Hsel : forall t wa vs wb, run_on (reader repo) (selectValues t (client.ID m)) wa = (Ok vs, wb) -> stored m (server wa) ->
    stored m (server wb) /\ forall v, v ∈ vs <-> v ∈ values_of t m).
  { intros t wa vs wb Hq Hs. apply run_reader in Hq as (d3 & Hd3 & Hq & H3); [|intros ?; apply (SELECT_query (Values t) _ (fun l => List.map v_value (merge_sort by_key l)))].
    apply (stored_steps _ _ _ Hd3) in Hs. split; [by eapply stored_steps|]. intros v. rewrite (selectValues_Ok _ _ _ _ _ v Hq). apply Hs. }
  run Hx as grants w3 Hg. destruct (Hsel _ _ _ _ Hg Hst) as [Hst3 Hgr]. run Hx as methods w4 Ha. destruct (Hsel _ _ _ _ Ha Hst3) as [Hst4 Hme].
  run Hx as scopes w5 Hs. destruct (Hsel _ _ _ _ Hs Hst4) as [Hst5 Hsc]. apply ret_Ok in Hx as [<- _].
  eexists. split; [done|]. split; [exact Hid|]. split; [exact Hset|]. split; [by intros []|].
  intros uri Hin. eapply selectRedirectURIs_Ok; [exact Hr|]. by apply Hu.
Qed.

(** A client that [CreateClient] stored is the client that its id finds,
    whatever clients and URIs others add before, between and after the
    queries: any spelling of the id that the collation accepts gives this
    client, with the settings it was created with, exactly its grant types,
    authentication methods and scopes, and every redirect URI it was given;
    and its post-logout URIs are accepted. *)
Theorem created_client_found m w m' w1 w2 c :
  no_orphans (server w) -> CreateClient repo m w = (Ok m', w1) -> rtc client_step (server w1) (server w2) ->
  collate (D := D) (client.ClientID m) c = true ->
  (forall o w3, FindByClientID repo c w2 = (Ok o, w3) ->
     exists found, o = Some found /\ client.ID found = client.ID m' /\ settings found = settings m /\
       (forall t v, v ∈ values_of t found <-> v ∈ values_of t m) /\
       (forall uri, uri ∈ client.RedirectURIs m -> uri ∈ client.RedirectURIs found)) /\
  (forall uri b w3, uri ∈ client.PostLogoutRedirectURIs m ->
     HasPostLogoutRedirectURI repo (client.ID m') uri w2 = (Ok b, w3) -> b = true).
Proof.
  intros Ho Hx Hst Hcol. unfold CreateClient, run_on in Hx. rewrite on_writer in Hx.
  apply (call_Ok_steps client_step) in Hx as (w0 & d & Hst0 & Hc & <-); [|exact transport_clients|].
  2: { intros d. apply rtc_once. destruct (transaction (create_client_tx m) d) as [o d'] eqn:Ht. by eapply step_created. }
  apply created_stored in Hc as [Hs [id ->]]; [|by eapply client_steps_later]. apply (stored_steps _ _ _ Hst) in Hs. split.
  - intros o w3 Hf. exact (FindByClientID_stored _ _ _ _ _ Hs Hcol Hf).
  - intros uri b w3 Hin Hf. apply run_reader in Hf as (d' & Hd & Hf & _); [|intros ?; apply (SELECT_query (URIs PostLogoutRows) _ (fun l => match l with [] => false | _ => true end))].
    eapply selectPostLogout_Ok; [exact Hf|]. apply (stored_steps _ _ _ Hd) in Hs. by apply Hs.
Qed.
End Found.

(** ** At work *)

Module ClientDemo.
Record database := mkDatabase { contents : forall k, gmap Z (row_of k); clock : time }.

Definition put (k : table) (m : gmap Z (row_of k)) (d : database) : database :=
  mkDatabase (fun k' => match decide (k = k') with left e => eq_rect k (fun k => gmap Z (row_of k)) m k' e | right _ => contents d k' end) (clock d).

Lemma put_same k m d : contents (put k m d) k = m.
Proof.
  unfold put. cbn. destruct (decide (k = k)) as [e|]; [|done].
  by rewrite (Eqdep_dec.UIP_dec (fun a b => decide (a = b)) e eq_refl).
Qed.

Lemma put_other k k' m d : k <> k' -> contents (put k m d) k' = contents d k'.
Proof. intros Hn. unfold put. cbn. by destruct (decide (k = k')). Qed.

#[export] Instance columns : Columns database := memory_columns clock.
Definition memory (k : table) : Table database (row_of k) (H := row_of_keys (D := database) k) :=
  memory_table (fun d => contents d k) (put k) clock (put_same k).

Lemma mem_rows_other k k' m d : k <> k' -> mem_rows (fun d => contents d k') (put k m d) = mem_rows (fun d => contents d k') d.
Proof. intros Hn. unfold mem_rows. by rewrite (put_other k k' m d Hn). Qed.

#[export] Program Instance schema : Schema database := {| tables := memory |}.
Next Obligation. by intros k k' p d a d' [= _ <-]. Qed.
Next Obligation.
  intros k k' f d a d' Hx Hn. cbn in Hx. unfold mem_INSERT in Hx. case_match; injection Hx as _ <-; [|done].
  by apply mem_rows_other.
Qed.

#[export] Program Instance remote : Remote database database := {
  server := fun w => w;
  put_server := fun d _ => d;
  transport := fun w => (Delivered, w);
  max_retries := fun _ => 0%nat;
}.
Next Obligation. done. Qed.

Definition repo : ClientRepo database database := newDBRouter (Some remote) None.
Definition empty : database := mkDatabase (fun _ => ∅) (1700000000 * Second).

(** A client as the migration's seed data have them. *)
Definition portal : client.Model :=
  client.mk 0 "web-client" "Web Portal" "$2a$10$hash" "confidential" "client_secret_basic" true true 3600 2592000 3600 "active"
    ["https://portal.example/callback"; "https://portal.example/silent"] ["https://portal.example/bye"]
    ["authorization_code"; "refresh_token"] ["client_secret_basic"] ["openid"; "profile"] 0 0.
Definition cli : client.Model :=
  client.mk 0 "cli-client" "Command Line" "" "public" "none" true false 3600 0 0 "active" [] [] ["authorization_code"] ["none"] ["openid"] 0 0.

Definition stored_client : result error client.Model * database := CreateClient repo portal empty.
Definition others : database := (RegisterURIs PostLogoutRows repo 0 ["https://portal.example/out"; "https://portal.example/bye"]
  (CreateClient repo cli stored_client.2).2).2.
End ClientDemo.
Import ClientDemo.

Example client_read_back : match (FindByClientID repo "web-client" others).1 with
  | Ok (Some m) => Some (client.ClientSecretHash m, client.RedirectURIs m, client.GrantTypes m, client.Scopes m)
  | _ => None end
  = Some ("$2a$10$hash", ["https://portal.example/callback"; "https://portal.example/silent"],
          ["authorization_code"; "refresh_token"], ["openid"; "profile"]).
Proof. vm_compute. reflexivity. Qed.

Lemma created_client_found_witness : exists found w3, FindByClientID repo "web-client" others = (Ok (Some found), w3) /\
  (forall v, v ∈ client.Scopes found <-> v ∈ ["openid"; "profile"]) /\ "https://portal.example/silent" ∈ client.RedirectURIs found.
Proof.
  destruct (FindByClientID repo "web-client" others) as [o w3] eqn:Hf.
  assert (Hok : match o with Ok _ => true | Err _ => false end = true) by (apply (f_equal fst) in Hf; cbn [fst] in Hf; rewrite <- Hf; vm_compute; reflexivity).
  destruct o as [o|]; [|discriminate].
  assert (Hc : exists m', CreateClient repo portal empty = (Ok m', stored_client.2)) by (eexists; vm_compute; reflexivity).
  destruct Hc as [m' Hc].
  destruct (created_client_found repo remote eq_refl eq_refl (fun w => rtc_refl _ _) portal empty m' stored_client.2 others "web-client") as [H _].
  - by intros t i r Hr.
  - exact Hc.
  - eapply rtc_l; [eapply (step_created cli); apply surjective_pairing|]. eapply rtc_once.
    eapply (step_registered PostLogoutRows 0 ["https://portal.example/out"; "https://portal.example/bye"]). apply surjective_pairing.
  - vm_compute. reflexivity.
  - destruct (H _ _ Hf) as (found & -> & _ & _ & Hv & Hu). exists found, w3. split; [done|]. split; [exact (Hv ScopeRows)|].
    apply Hu. right. by left.
Defined.
