(* ===== verification/ClientService.v ===== *)
(** * Client administration (application/client)

    [CreateClient] turns what an administrator typed into a client, or
    refuses it; the other operations add redirect URIs to a client and check
    where a logout may send the browser. *)

From stdpp Require Import base tactics list strings numbers.
From Stdlib Require Import ZArith Lia Ascii.
From S2P Require Import Prelude GoStrings GoText GoNetUrl HttpRedirects GoTime Errors Domain Ports.

(** [^[a-zA-Z0-9._:-]{3,128}$] *)
Definition clientIDPattern (s : string) : bool :=
  forall_string (fun a => is_alpha a || is_digit a || (byte_of a =? 46) || (byte_of a =? 95) || (byte_of a =? 58) || (byte_of a =? 45)) s &&
  (3 <=? String.length s)%nat && (String.length s <=? 128)%nat.

Definition supportedGrantTypes : list string := ["authorization_code"; "refresh_token"; "client_credentials"].

(** ** types.go *)

Record CreateClientInput := mkCreateClientInput {
  in_ClientID : string;
  in_ClientName : string;
  in_ClientSecret : string;
  in_ClientType : string;
  in_TokenEndpointAuthMethod : string;
  in_RequirePKCE : option bool;
  in_RequireConsent : option bool;
  in_AccessTokenTTLSeconds : Z;
  in_RefreshTokenTTLSeconds : Z;
  in_IDTokenTTLSeconds : Z;
  in_GrantTypes : list string;
  in_Scopes : list string;
  in_RedirectURIs : list string;
  in_PostLogoutRedirectURIs : list string;
  in_Status : string;
}.

Record CreateClientResult := mkCreateClientResult {
  out_ClientID : string;
  out_ClientName : string;
  out_ClientType : string;
  out_TokenEndpointAuthMethod : string;
  out_RequirePKCE : bool;
  out_RequireConsent : bool;
  out_AccessTokenTTLSeconds : Z;
  out_RefreshTokenTTLSeconds : Z;
  out_IDTokenTTLSeconds : Z;
  out_GrantTypes : list string;
  out_AuthMethods : list string;
  out_Scopes : list string;
  out_RedirectURIs : list string;
  out_PostLogoutRedirectURIs : list string;
  out_Status : string;
}.

(** RegisterRedirectURIsResult, RegisterPostLogoutRedirectURIsResult *)
Record RegisterURIsResult := mkRegisterURIsResult {
  reg_ClientID : string;
  reg_ClientName : string;
  reg_RedirectURIs : list string;
  reg_RegisteredCount : Z;
  reg_SkippedCount : Z;
}.

Record ValidatePostLogoutRedirectURIResult := mkValidateResult {
  val_ClientID : string;
  val_ClientName : string;
  val_RedirectURI : string;
}.

(** ** Normalisation *)

(** The loop the three list normalisations share: values that are empty
    after cleaning and values seen before are skipped; a bad one ends it. *)
Fixpoint collect (clean : string -> string) (bad : string -> bool) (seen : list string) (values : list string) : option (list string) :=
  match values with
  | [] => Some []
  | value :: values =>
      let v := clean value in
      if String.eqb v "" then collect clean bad seen values
      else if bad v then None
      else if bool_decide (v ∈ seen) then collect clean bad seen values
      else option_map (cons v) (collect clean bad (v :: seen) values)
  end.

Definition containsString (values : list string) (expected : string) : bool := existsb (fun value => String.eqb value expected) values.

Definition normalizeGrantTypes (values : list string) : result client_error (list string) :=
  if (length values =? 0)%nat then Err ClientErrInvalidGrantType else
  match collect (fun value => ToLower (TrimSpace value)) (fun g => negb (containsString supportedGrantTypes g)) [] values with
  | None | Some [] => Err ClientErrInvalidGrantType
  | Some grants =>
      if containsString grants "refresh_token" && negb (containsString grants "authorization_code")
      then Err ClientErrInvalidClientConfig else Ok grants
  end.

Definition normalizeScopes (values : list string) : result client_error (list string) :=
  if (length values =? 0)%nat then Err ClientErrInvalidScope else
  match collect TrimSpace (fun s => (128 <? String.length s)%nat) [] values with
  | None | Some [] => Err ClientErrInvalidScope
  | Some scopes => Ok scopes
  end.

(** What the loop of normalizeRedirectURIs refuses. *)
Definition bad_uri (redirectURI : string) : bool :=
  (1024 <? String.length redirectURI)%nat || contains_ascii "#" redirectURI ||
  match ParseRequestURI redirectURI with
  | None => true
  | Some parsed => String.eqb (Scheme parsed) "" || negb (String.eqb (Fragment parsed) "")
  end.

Definition normalizeRedirectURIs (values : list string) : result client_error (list string) :=
  if (length values =? 0)%nat then Err ClientErrRedirectURIRequired else
  match collect TrimSpace bad_uri [] values with
  | None => Err ClientErrInvalidRedirectURI
  | Some [] => Err ClientErrRedirectURIRequired
  | Some uris => Ok uris
  end.

Definition normalizeClientRedirectURIs (values grantTypes : list string) : result client_error (list string) :=
  if negb (containsString grantTypes "authorization_code") then Ok [] else normalizeRedirectURIs values.

Definition normalizeOptionalRedirectURIs (values : list string) : result client_error (list string) :=
  if (length values =? 0)%nat then Ok [] else normalizeRedirectURIs values.

Definition normalizeTTL (value fallback : Z) : Z := if value <=? 0 then fallback else value.
Definition normalizeRefreshTTL (value : Z) (grantTypes : list string) : Z :=
  if negb (containsString grantTypes "refresh_token") then 0 else if value <=? 0 then 2592000 else value.
Definition normalizeIDTokenTTL (value : Z) (grantTypes : list string) : Z :=
  if negb (containsString grantTypes "authorization_code") then 0 else if value <=? 0 then 3600 else value.

Definition normalizeStatus (value : string) : string :=
  let status := ToLower (TrimSpace value) in if String.eqb status "" then "active" else status.

(** Client type, authentication method, PKCE, consent *)
Definition normalizeClientSettings (input : CreateClientInput) : result client_error (string * string * bool * bool) :=
  let clientType := ToLower (TrimSpace (in_ClientType input)) in
  let clientType := if String.eqb clientType "" then "confidential" else clientType in
  if negb (String.eqb clientType "confidential") && negb (String.eqb clientType "public") then Err ClientErrInvalidClientType else
  let authMethod := ToLower (TrimSpace (in_TokenEndpointAuthMethod input)) in
  let authMethod := if String.eqb authMethod "" then if String.eqb clientType "public" then "none" else "client_secret_basic" else authMethod in
  if negb (String.eqb authMethod "client_secret_basic" || String.eqb authMethod "client_secret_post" || String.eqb authMethod "none")
  then Err ClientErrInvalidAuthMethod else
  if String.eqb clientType "public" && negb (String.eqb authMethod "none") then Err ClientErrInvalidClientConfig else
  if String.eqb clientType "confidential" && String.eqb authMethod "none" then Err ClientErrInvalidClientConfig else
  let requirePKCE := default true (in_RequirePKCE input) in
  if String.eqb clientType "public" && negb requirePKCE then Err ClientErrInvalidClientConfig else
  Ok (clientType, authMethod, requirePKCE, default true (in_RequireConsent input)).

(** ** The service *)

Section Service.
Context {W : Type}.

Record Service := NewService {
  clients : ClientRepository W;
  passwords : option (PasswordVerifier W);
}.

(** [v, err := f(); if err != nil { return nil, err }] of a function without effects *)
Definition checked {A} (r : result client_error A) : IO W A := match r with Ok a => ret a | Err e => throw e end.

Definition normalizeClientSecret (s : Service) (clientType authMethod secret : string) : IO W string :=
  if String.eqb clientType "public" || String.eqb authMethod "none" then
    do* guard (String.eqb secret "") ClientErrInvalidClientSecret in ret ""
  else
    do* guard (negb ((String.length secret <? 8)%nat || (128 <? String.length secret)%nat)) ClientErrInvalidClientSecret in
    let* p := some_or (passwords s) ClientErrInvalidClientSecret in
    HashPassword p secret.

Definition created_result (m : client.Model) : CreateClientResult :=
  mkCreateClientResult (client.ClientID m) (client.ClientName m) (client.ClientType m) (client.TokenEndpointAuthMethod m)
    (client.RequirePKCE m) (client.RequireConsent m) (client.AccessTokenTTLSeconds m) (client.RefreshTokenTTLSeconds m)
    (client.IDTokenTTLSeconds m) (client.GrantTypes m) (client.AuthMethods m) (client.Scopes m) (client.RedirectURIs m)
    (client.PostLogoutRedirectURIs m) (client.Status m).

(** The model that CreateClient stores. *)
Definition new_model (input : CreateClientInput) (clientType authMethod : string) (requirePKCE requireConsent : bool)
    (grantTypes scopes redirectURIs postLogoutRedirectURIs : list string) (secretHash : string) : client.Model :=
  client.mk 0 (TrimSpace (in_ClientID input)) (TrimSpace (in_ClientName input)) secretHash clientType authMethod requirePKCE requireConsent
    (normalizeTTL (in_AccessTokenTTLSeconds input) 3600) (normalizeRefreshTTL (in_RefreshTokenTTLSeconds input) grantTypes)
    (normalizeIDTokenTTL (in_IDTokenTTLSeconds input) grantTypes) (normalizeStatus (in_Status input)) redirectURIs postLogoutRedirectURIs
    grantTypes [authMethod] scopes zero_time zero_time.

Definition CreateClient (s : Service) (input : CreateClientInput) : IO W CreateClientResult :=
  let clientID := TrimSpace (in_ClientID input) in
  let clientName := TrimSpace (in_ClientName input) in
  do* guard (clientIDPattern clientID) ClientErrInvalidClientID in
  do* guard (negb ((String.length clientName <? 2)%nat || (128 <? String.length clientName)%nat)) ClientErrInvalidClientName in
  let* existing := FindByClientID (clients s) clientID in
  do* guard (bool_decide (existing = None)) ClientErrClientIDAlreadyExists in
  let* settings := checked (normalizeClientSettings input) in
  let '(clientType, authMethod, requirePKCE, requireConsent) := settings in
  let* grantTypes := checked (normalizeGrantTypes (in_GrantTypes input)) in
  do* guard (negb (negb (String.eqb clientType "confidential") && containsString grantTypes "client_credentials")) ClientErrInvalidClientConfig in
  let* scopes := checked (normalizeScopes (in_Scopes input)) in
  let* redirectURIs := checked (normalizeClientRedirectURIs (in_RedirectURIs input) grantTypes) in
  let* postLogoutRedirectURIs := checked (normalizeOptionalRedirectURIs (in_PostLogoutRedirectURIs input)) in
  let* secretHash := normalizeClientSecret s clientType authMethod (TrimSpace (in_ClientSecret input)) in
  let* created := Ports.CreateClient (clients s)
    (new_model input clientType authMethod requirePKCE requireConsent grantTypes scopes redirectURIs postLogoutRedirectURIs secretHash) in
  ret (created_result created).

(** RegisterRedirectURIs and RegisterPostLogoutRedirectURIs, which differ in
    the operation of the repository. *)
Definition register_uris (s : Service) (register : Z -> list string -> IO W Z) (clientID : string) (uris : list string) : IO W RegisterURIsResult :=
  let clientID := TrimSpace clientID in
  do* guard (negb (String.eqb clientID "")) ClientErrInvalidClientID in
  let* redirectURIs := checked (normalizeRedirectURIs uris) in
  let* found := FindByClientID (clients s) clientID in
  let* model := some_or found ClientErrClientNotFound in
  let* insertedCount := register (client.ID model) redirectURIs in
  ret (mkRegisterURIsResult (client.ClientID model) (client.ClientName model) redirectURIs insertedCount
    (Z.of_nat (length redirectURIs) - insertedCount)).

Definition RegisterRedirectURIs (s : Service) := register_uris s (Ports.RegisterRedirectURIs (clients s)).
Definition RegisterPostLogoutRedirectURIs (s : Service) := register_uris s (Ports.RegisterPostLogoutRedirectURIs (clients s)).

Definition ValidatePostLogoutRedirectURI (s : Service) (clientID redirectURI : string) : IO W ValidatePostLogoutRedirectURIResult :=
  let clientID := TrimSpace clientID in
  let redirectURI := TrimSpace redirectURI in
  do* guard (negb (String.eqb clientID "" || String.eqb redirectURI "")) ClientErrInvalidRedirectURI in
  let* found := FindByClientID (clients s) clientID in
  let* model := some_or found ClientErrClientNotFound in
  do* guard (String.eqb (client.Status model) "active") ClientErrClientNotFound in
  let* registered := HasPostLogoutRedirectURI (clients s) (client.ID model) redirectURI in
  do* guard registered ClientErrInvalidRedirectURI in
  ret (mkValidateResult (client.ClientID model) (client.ClientName model) redirectURI).
End Service.
Arguments Service W : clear implicits.

(** ** What is stored *)

Definition nodup (l : list string) : bool := bool_decide (NoDup l).

(** Of a length the column takes, with a scheme, and without a fragment. *)
Definition absolute_uri (uri : string) : bool :=
  (String.length uri <=? 1024)%nat && negb (contains_ascii "#" uri) &&
  match ParseRequestURI uri with Some parsed => negb (String.eqb (Scheme parsed) "") | None => false end.

Definition uris_ok (uris : list string) : bool := nodup uris && forallb (fun u => negb (String.eqb u "") && trimmed u && absolute_uri u) uris.

(** A client this server can work with: a legal id and name; a type and the
    methods that go with it, a public client with PKCE and without secret;
    supported grants, each once, that fit together and fit the type; scopes,
    each once; absolute redirect URIs without fragment, at least one when
    there are authorization codes to deliver and none otherwise; lifetimes
    that are positive exactly for the tokens its grants give. *)
Definition well_formed (m : client.Model) : bool :=
  clientIDPattern (client.ClientID m) && trimmed (client.ClientName m) &&
  (2 <=? String.length (client.ClientName m))%nat && (String.length (client.ClientName m) <=? 128)%nat &&
  (String.eqb (client.ClientType m) "public" && String.eqb (client.TokenEndpointAuthMethod m) "none" && client.RequirePKCE m &&
     String.eqb (client.ClientSecretHash m) "" ||
   String.eqb (client.ClientType m) "confidential" &&
     (String.eqb (client.TokenEndpointAuthMethod m) "client_secret_basic" || String.eqb (client.TokenEndpointAuthMethod m) "client_secret_post")) &&
  bool_decide (client.AuthMethods m = [client.TokenEndpointAuthMethod m]) &&
  nodup (client.GrantTypes m) && negb (length (client.GrantTypes m) =? 0)%nat && forallb (containsString supportedGrantTypes) (client.GrantTypes m) &&
  implb (containsString (client.GrantTypes m) "refresh_token") (containsString (client.GrantTypes m) "authorization_code") &&
  implb (containsString (client.GrantTypes m) "client_credentials") (String.eqb (client.ClientType m) "confidential") &&
  nodup (client.Scopes m) && negb (length (client.Scopes m) =? 0)%nat &&
  forallb (fun s => negb (String.eqb s "") && trimmed s && (String.length s <=? 128)%nat) (client.Scopes m) &&
  uris_ok (client.RedirectURIs m) && uris_ok (client.PostLogoutRedirectURIs m) &&
  Bool.eqb (containsString (client.GrantTypes m) "authorization_code") (negb (length (client.RedirectURIs m) =? 0)%nat) &&
  (0 <? client.AccessTokenTTLSeconds m) &&
  (if containsString (client.GrantTypes m) "refresh_token" then 0 <? client.RefreshTokenTTLSeconds m else client.RefreshTokenTTLSeconds m =? 0) &&
  (if containsString (client.GrantTypes m) "authorization_code" then 0 <? client.IDTokenTTLSeconds m else client.IDTokenTTLSeconds m =? 0) &&
  negb (String.eqb (client.Status m) "").

Lemma collect_ok clean bad (good : string -> Prop) : (forall v, clean v <> "" -> bad (clean v) = false -> good (clean v)) ->
  forall values seen l, collect clean bad seen values = Some l ->
  NoDup l /\ (forall v, v ∈ l -> v ∉ seen) /\ Forall good l.
Proof.
  intros Hgood. induction values as [|value values IH]; intros seen l; cbn [collect]; [intros [= <-]; split; [constructor | split; [intros v Hv; by apply elem_of_nil in Hv | constructor]]|].
  destruct (String.eqb_spec (clean value) "") as [|Hne]; [apply IH|]. destruct (bad (clean value)) eqn:Hb; [done|].
  case_bool_decide as Hs; [apply IH|]. destruct (collect clean bad (clean value :: seen) values) as [l'|] eqn:Hc; [|done].
  intros [= <-]. apply IH in Hc as (Hnd & Hsn & Hgd). split; [|split].
  - constructor; [|done]. intros Hin. apply (Hsn _ Hin). by left.
  - intros v [->|Hv]%elem_of_cons; [done|]. intros Hin. apply (Hsn _ Hv). by right.
  - constructor; [by apply Hgood | done].
Qed.

Lemma nodup_spec l : nodup l = true <-> NoDup l.
Proof. apply bool_decide_eq_true. Qed.

Lemma forallb_Forall_iff {A} (p : A -> bool) l : forallb p l = true <-> Forall (fun x => p x = true) l.
Proof. rewrite forallb_forall, List.Forall_forall. done. Qed.

Lemma normalizeGrantTypes_ok values grants : normalizeGrantTypes values = Ok grants ->
  nodup grants = true /\ negb (length grants =? 0)%nat = true /\ forallb (containsString supportedGrantTypes) grants = true /\
  implb (containsString grants "refresh_token") (containsString grants "authorization_code") = true.
Proof.
  unfold normalizeGrantTypes. destruct (_ =? 0)%nat; [done|]. destruct (collect _ _ _ _) as [[|g l]|] eqn:Hc; [done| |done].
  destruct (_ && _) eqn:Hr; [done|]. intros [= <-].
  apply (collect_ok _ _ (fun g => containsString supportedGrantTypes g = true)) in Hc as (Hnd & _ & Hg).
  2: { intros v _. by rewrite negb_false_iff. }
  rewrite nodup_spec, forallb_Forall_iff. do 3 (split; [done|]). by destruct (containsString _ "refresh_token"), (containsString _ "authorization_code").
Qed.

Lemma normalizeScopes_ok values scopes : normalizeScopes values = Ok scopes ->
  nodup scopes = true /\ negb (length scopes =? 0)%nat = true /\
  forallb (fun s => negb (String.eqb s "") && trimmed s && (String.length s <=? 128)%nat) scopes = true.
Proof.
  unfold normalizeScopes. destruct (_ =? 0)%nat; [done|]. destruct (collect _ _ _ _) as [[|g l]|] eqn:Hc; [done| |done]. intros [= <-].
  apply (collect_ok _ _ (fun s => negb (String.eqb s "") && trimmed s && (String.length s <=? 128)%nat = true)) in Hc as (Hnd & _ & Hg).
  2: { intros v Hv Hb. rewrite TrimSpace_trimmed, (proj2 (String.eqb_neq _ _) Hv). apply Nat.ltb_ge in Hb. by apply Nat.leb_le in Hb as ->. }
  by rewrite nodup_spec, forallb_Forall_iff.
Qed.

Lemma bad_uri_absolute uri : bad_uri uri = false -> absolute_uri uri = true.
Proof.
  unfold bad_uri, absolute_uri. rewrite !orb_false_iff, Nat.ltb_ge. intros [[Hl ->] Hp]. apply Nat.leb_le in Hl as ->. cbn [andb negb].
  destruct (ParseRequestURI uri); [|done]. apply orb_false_iff in Hp as [-> _]. done.
Qed.

Lemma normalizeRedirectURIs_ok values uris : normalizeRedirectURIs values = Ok uris -> uris_ok uris = true /\ negb (length uris =? 0)%nat = true.
Proof.
  unfold normalizeRedirectURIs. destruct (_ =? 0)%nat; [done|]. destruct (collect _ _ _ _) as [[|g l]|] eqn:Hc; [done| |done]. intros [= <-].
  apply (collect_ok _ _ (fun u => negb (String.eqb u "") && trimmed u && absolute_uri u = true)) in Hc as (Hnd & _ & Hg).
  2: { intros v Hv Hb%bad_uri_absolute. by rewrite TrimSpace_trimmed, (proj2 (String.eqb_neq _ _) Hv), Hb. }
  split; [|done]. unfold uris_ok. by rewrite (proj2 (nodup_spec _) Hnd), (proj2 (forallb_Forall_iff _ _) Hg).
Qed.

Lemma normalizeClientRedirectURIs_ok values grants uris : normalizeClientRedirectURIs values grants = Ok uris ->
  uris_ok uris = true /\ Bool.eqb (containsString grants "authorization_code") (negb (length uris =? 0)%nat) = true.
Proof.
  unfold normalizeClientRedirectURIs. destruct (containsString _ _); cbn [negb]; [|by intros [= <-]].
  intros [H1 H2]%normalizeRedirectURIs_ok. split; [done|]. by rewrite H2.
Qed.

Lemma normalizeOptionalRedirectURIs_ok values uris : normalizeOptionalRedirectURIs values = Ok uris -> uris_ok uris = true.
Proof. unfold normalizeOptionalRedirectURIs. destruct (_ =? 0)%nat; [by intros [= <-]|]. by intros [H _]%normalizeRedirectURIs_ok. Qed.

Lemma normalizeStatus_nonempty v : negb (String.eqb (normalizeStatus v) "") = true.
Proof. unfold normalizeStatus. cbv zeta. destruct (String.eqb (ToLower (TrimSpace v)) "") eqn:E; [done | by rewrite E]. Qed.

Lemma normalizeClientSettings_ok input clientType authMethod pkce consent :
  normalizeClientSettings input = Ok (clientType, authMethod, pkce, consent) ->
  (clientType = "public" /\ authMethod = "none" /\ pkce = true) \/
  (clientType = "confidential" /\ (authMethod = "client_secret_basic" \/ authMethod = "client_secret_post")).
Proof.
  unfold normalizeClientSettings. cbv zeta. set (t := if String.eqb (ToLower (TrimSpace (in_ClientType input))) "" then _ else _).
  set (a := if String.eqb (ToLower (TrimSpace (in_TokenEndpointAuthMethod input))) "" then _ else _).
  destruct (String.eqb_spec t "confidential") as [Ht|_]; [rewrite Ht | destruct (String.eqb_spec t "public") as [Ht|_]; [rewrite Ht | done]]; cbn [negb andb].
  - change (String.eqb "confidential" "public") with false. change (String.eqb "confidential" "confidential") with true. cbn [andb].
    destruct (String.eqb_spec a "client_secret_basic") as [Ha|_]; [rewrite Ha; cbn [orb negb]; intros [= <- <- _ _]; auto|].
    destruct (String.eqb_spec a "client_secret_post") as [Ha|_]; [rewrite Ha; cbn [orb negb]; intros [= <- <- _ _]; auto|].
    destruct (String.eqb_spec a "none") as [Ha|_]; done.
  - change (String.eqb "public" "public") with true. cbn [andb]. change (String.eqb "public" "confidential") with false. cbn [andb].
    destruct (String.eqb_spec a "none") as [Ha|_]; [rewrite Ha|]; cbn [negb orb].
    + rewrite !orb_true_r. cbn [negb]. destruct (in_RequirePKCE input) as [[]|]; cbn; intros [= <- <- <- _]; auto.
    + destruct (negb _); [done|]. done.
Qed.

Section Theorems.
Context {W : Type}.
Implicit Types (s : Service W) (w : W).

(** The same service over a repository that refuses malformed clients. *)
Definition checking s : Service W :=
  NewService {|
    FindByClientID := FindByClientID (clients s);
    HasPostLogoutRedirectURI := HasPostLogoutRedirectURI (clients s);
    Ports.CreateClient := fun m => do* guard (well_formed m) (Driver "malformed client") in Ports.CreateClient (clients s) m;
    Ports.RegisterRedirectURIs := fun id uris => do* guard (uris_ok uris) (Driver "malformed uri") in Ports.RegisterRedirectURIs (clients s) id uris;
    Ports.RegisterPostLogoutRedirectURIs := fun id uris => do* guard (uris_ok uris) (Driver "malformed uri") in Ports.RegisterPostLogoutRedirectURIs (clients s) id uris;
  |} (passwords s).

Lemma checked_Ok {A} (r : result client_error A) w a w' : checked r w = (Ok a, w') <-> r = Ok a /\ w = w'.
Proof. destruct r; unfold checked; [rewrite ret_Ok | rewrite throw_Ok]; split; naive_solver. Qed.

Lemma normalizeClientSecret_public s t a secret w hash w' : normalizeClientSecret s t a secret w = (Ok hash, w') ->
  t = "public" -> hash = "".
Proof. unfold normalizeClientSecret. intros Hx ->. cbn [String.eqb orb] in Hx. run_guard Hx as Hs. by apply ret_Ok in Hx as [<- _]. Qed.

Lemma new_model_well_formed input t a pkce consent grants scopes uris post hash :
  clientIDPattern (TrimSpace (in_ClientID input)) = true ->
  negb ((String.length (TrimSpace (in_ClientName input)) <? 2)%nat || (128 <? String.length (TrimSpace (in_ClientName input)))%nat) = true ->
  normalizeClientSettings input = Ok (t, a, pkce, consent) -> normalizeGrantTypes (in_GrantTypes input) = Ok grants ->
  negb (negb (String.eqb t "confidential") && containsString grants "client_credentials") = true ->
  normalizeScopes (in_Scopes input) = Ok scopes -> normalizeClientRedirectURIs (in_RedirectURIs input) grants = Ok uris ->
  normalizeOptionalRedirectURIs (in_PostLogoutRedirectURIs input) = Ok post -> (t = "public" -> hash = "") ->
  well_formed (new_model input t a pkce consent grants scopes uris post hash) = true.
Proof.
  intros Hid [Hn1 Hn2]%negb_true_iff%orb_false_iff Hset%normalizeClientSettings_ok (Hg1 & Hg2 & Hg3 & Hg4)%normalizeGrantTypes_ok Hcc
    (Hs1 & Hs2 & Hs3)%normalizeScopes_ok (Hr1 & Hr2)%normalizeClientRedirectURIs_ok Hp%normalizeOptionalRedirectURIs_ok Hpub.
  apply Nat.ltb_ge, Nat.leb_le in Hn1, Hn2. unfold well_formed, new_model.
  cbn [client.ClientID client.ClientName client.ClientSecretHash client.ClientType client.TokenEndpointAuthMethod
    client.RequirePKCE client.RequireConsent client.AccessTokenTTLSeconds client.RefreshTokenTTLSeconds client.IDTokenTTLSeconds client.Status
    client.RedirectURIs client.PostLogoutRedirectURIs client.GrantTypes client.AuthMethods client.Scopes].
  rewrite Hid, TrimSpace_trimmed, Hn1, Hn2, Hg1, Hg2, Hg3, Hg4, Hs1, Hs2, Hs3, Hr1, Hr2, Hp, normalizeStatus_nonempty. cbn [andb].
  assert (Hty : (String.eqb t "public" && String.eqb a "none" && pkce && String.eqb hash "" ||
    String.eqb t "confidential" && (String.eqb a "client_secret_basic" || String.eqb a "client_secret_post")) = true).
  { destruct Hset as [(Ht & -> & ->)|(-> & [-> | ->])]; [rewrite (Hpub Ht); by rewrite Ht | done | done]. }
  assert (Hcc' : implb (containsString grants "client_credentials") (String.eqb t "confidential") = true).
  { destruct (String.eqb t "confidential"), (containsString grants "client_credentials"); done. }
  rewrite Hty, Hcc', bool_decide_eq_true_2 by done. cbn [andb]. unfold normalizeTTL, normalizeRefreshTTL, normalizeIDTokenTTL.
  destruct (containsString grants "refresh_token"), (containsString grants "authorization_code"); cbn [negb];
    repeat case_match; rewrite ?andb_true_iff, ?Z.ltb_lt in *; rewrite ?Z.leb_le, ?Z.leb_gt in *; try lia; repeat split; try lia; done.
Qed.

(** A created client was looked for, its secret hashed, and then it was
    stored. *)
Lemma CreateClient_Ok s input w res w' : CreateClient s input w = (Ok res, w') ->
  exists w1 w2 m m', FindByClientID (clients s) (TrimSpace (in_ClientID input)) w = (Ok None, w1) /\
    well_formed m = true /\ Ports.CreateClient (clients s) m w2 = (Ok m', w') /\ res = created_result m' /\
    (client.ClientType m = "public" /\ w2 = w1 \/
     exists p, passwords s = Some p /\ HashPassword p (TrimSpace (in_ClientSecret input)) w1 = (Ok (client.ClientSecretHash m), w2) /\
       (8 <= String.length (TrimSpace (in_ClientSecret input)))%nat).
Proof.
  unfold CreateClient. cbv zeta. intros Hx. run_guard Hx as Hid. run_guard Hx as Hname. run Hx as o w1 Hf. run_guard Hx as Ho.
  apply bool_decide_eq_true in Ho as ->. run Hx as set w2 Hset. destruct set as [[[t a] pkce] consent]. apply checked_Ok in Hset as [Hset <-].
  run Hx as grants w2 Hg. apply checked_Ok in Hg as [Hg <-]. run_guard Hx as Hcc. run Hx as scopes w2 Hs. apply checked_Ok in Hs as [Hs <-].
  run Hx as uris w2 Hu. apply checked_Ok in Hu as [Hu <-]. run Hx as post w2 Hp. apply checked_Ok in Hp as [Hp <-].
  run Hx as hash w2 Hh. run Hx as m' w3 Hc. apply ret_Ok in Hx as [<- <-].
  pose proof (normalizeClientSecret_public _ _ _ _ _ _ _ Hh) as Hpub.
  eexists w1, w2, _, m'. split; [exact Hf|]. split; [by eapply new_model_well_formed|]. split; [exact Hc|]. split; [done|].
  cbn [new_model client.ClientType client.ClientSecretHash]. apply normalizeClientSettings_ok in Hset. unfold normalizeClientSecret in Hh.
  destruct Hset as [(-> & _)|(-> & Ha)].
  - left. cbn [String.eqb orb] in Hh. run_guard Hh as Hs'. by apply ret_Ok in Hh as [_ <-].
  - right. replace (String.eqb "confidential" "public" || String.eqb a "none") with false in Hh by (by destruct Ha as [-> | ->]).
    run_guard Hh as Hlen. run_some Hh as p Hpw. exists p. split; [done|]. split; [done|].
    apply negb_true_iff, orb_false_iff in Hlen as [Hlen _]. by apply Nat.ltb_ge in Hlen.
Qed.

(** C18. Only well-formed clients are stored, and only good redirect URIs
    registered: over a repository that refuses a malformed client or URI list
    the operations give the same results in the same states, errors included,
    for any input, any state and any repository underneath. *)
Theorem only_well_formed_clients s input id uris w :
  CreateClient (checking s) input w = CreateClient s input w /\
  RegisterRedirectURIs (checking s) id uris w = RegisterRedirectURIs s id uris w /\
  RegisterPostLogoutRedirectURIs (checking s) id uris w = RegisterPostLogoutRedirectURIs s id uris w.
Proof.
  split; [|split].
  2, 3: unfold RegisterRedirectURIs, RegisterPostLogoutRedirectURIs, register_uris; cbv zeta; apply bind_ext; intros [] w1 _;
    apply bind_ext; intros l w2 Hl; apply checked_Ok in Hl as [Hl _]; apply normalizeRedirectURIs_ok in Hl as [Hl _];
    apply bind_ext; intros found w3 _; apply bind_ext; intros m w4 _;
    cbn [checking clients Ports.RegisterRedirectURIs Ports.RegisterPostLogoutRedirectURIs]; rewrite Hl; reflexivity.
  unfold CreateClient. cbv zeta. apply bind_ext. intros [] w1 Hid. apply guard_Ok in Hid as [Hid _].
  apply bind_ext. intros [] w2 Hname. apply guard_Ok in Hname as [Hname _]. apply bind_ext. intros o w3 _. apply bind_ext. intros _ w4 _.
  apply bind_ext. intros [[[t a] pkce] consent] w5 Hset. apply checked_Ok in Hset as [Hset _].
  apply bind_ext. intros grants w6 Hg. apply checked_Ok in Hg as [Hg _]. apply bind_ext. intros [] w7 Hcc. apply guard_Ok in Hcc as [Hcc _].
  apply bind_ext. intros scopes w8 Hs. apply checked_Ok in Hs as [Hs _]. apply bind_ext. intros uris' w9 Hr. apply checked_Ok in Hr as [Hr _].
  apply bind_ext. intros post w10 Hp. apply checked_Ok in Hp as [Hp _]. apply bind_ext. intros hash w11 Hh.
  cbn [checking clients Ports.CreateClient]. rewrite (new_model_well_formed input t a pkce consent grants scopes uris' post hash); [reflexivity | done..|].
  by eapply normalizeClientSecret_public.
Qed.
End Theorems.
