(* ===== verification/UserRepo.v ===== *)
(** * Users in the database (user_repo.go)

    The users table and the statements of sql/user_repository.  A user is
    inserted once and never removed; the account status changes only through
    [LockAccount] and [UnlockAccount], whose statements read it
    ([CASE WHEN status = ...]) under the collation of the column. *)

From stdpp Require Import base tactics list gmap strings numbers relations sorting.
From Stdlib Require Import ZArith Lia Ascii.
From S2P Require Import Prelude GoStrings GoTime Errors Domain Ports AuthPorts Remote Database Rbac.

(** A row of users. *)
Record user_row := mkUserRow {
  u_id : Z;
  u_user_uuid : string;
  u_username : string;
  u_email : string;
  u_email_verified : bool;
  u_display_name : string;
  u_password_hash : string;
  u_role_code : string;
  u_privilege_mask : Z;
  u_tenant_scope : option string;
  u_status : string;
  u_failed_login_count : Z;
  u_last_login_at : option time;
  u_created_at : time;
  u_updated_at : time;
}.

#[export] Instance user_row_eq_dec : EqDecision user_row.
Proof. solve_decision. Defined.

(** PRIMARY KEY (id), UNIQUE KEY (user_uuid), (username), (email) *)
#[export] Instance user_row_keys {D} `{Columns D} : Row user_row := {
  row_id := u_id;
  conflict := fun a b => collate (D := D) (u_user_uuid a) (u_user_uuid b) ||
                         collate (D := D) (u_username a) (u_username b) ||
                         collate (D := D) (u_email a) (u_email b);
}.

(** What the statements assign. *)
Definition set_status (status : string) (failed : Z) (t : time) (r : user_row) : user_row :=
  mkUserRow (u_id r) (u_user_uuid r) (u_username r) (u_email r) (u_email_verified r) (u_display_name r)
    (u_password_hash r) (u_role_code r) (u_privilege_mask r) (u_tenant_scope r) status failed
    (u_last_login_at r) (u_created_at r) t.

Definition set_password (hash : string) (t : time) (r : user_row) : user_row :=
  mkUserRow (u_id r) (u_user_uuid r) (u_username r) (u_email r) (u_email_verified r) (u_display_name r)
    hash (u_role_code r) (u_privilege_mask r) (u_tenant_scope r) (u_status r) 0
    (u_last_login_at r) (u_created_at r) t.

Definition set_role (role : string) (mask : Z) (tenant : option string) (t : time) (r : user_row) : user_row :=
  mkUserRow (u_id r) (u_user_uuid r) (u_username r) (u_email r) (u_email_verified r) (u_display_name r)
    (u_password_hash r) role mask tenant (u_status r) (u_failed_login_count r)
    (u_last_login_at r) (u_created_at r) t.

Definition set_failed (failed : Z) (last_login : option time) (t : time) (r : user_row) : user_row :=
  mkUserRow (u_id r) (u_user_uuid r) (u_username r) (u_email r) (u_email_verified r) (u_display_name r)
    (u_password_hash r) (u_role_code r) (u_privilege_mask r) (u_tenant_scope r) (u_status r) failed
    last_login (u_created_at r) t.

(** ON UPDATE CURRENT_TIMESTAMP: a statement that does not set updated_at sets
    it to the time of the statement when it changes some other column. *)
Definition on_update (t : time) (g : time -> user_row -> user_row) (r : user_row) : user_row :=
  if bool_decide (g (u_updated_at r) r = r) then r else g t r.

(** ORDER BY id ASC *)
Definition by_id (a b : user_row) : Prop := u_id a <= u_id b.
#[export] Instance by_id_dec a b : Decision (by_id a b).
Proof. unfold by_id. apply _. Defined.
#[export] Instance by_id_total : Total by_id.
Proof. intros a b. unfold by_id. lia. Qed.
#[export] Instance by_id_trans : Transitive by_id.
Proof. intros a b c. unfold by_id. lia. Qed.

Section Repository.
Context {W D : Type} `{!Columns D} `{!Table D user_row (H := user_row_keys (D := D))}.

Definition UserRepo : Type := dbRouter W D.

Definition NewUserRepositoryRW (writeDB readDB : DB W D) : UserRepo := newDBRouter writeDB readDB.

(** A statement that uses the server's clock. *)
Definition at_now {A} (k : time -> IO D A) : IO D A := fun d => k (current_timestamp d) d.

(** create_user.sql *)
Definition createUser (model : user.Model) (roleCode : string) : IO D Z :=
  INSERT (fun id created_at =>
    mkUserRow id (user.UserUUID model) (user.Username model) (user.Email model) (user.EmailVerified model)
      (user.DisplayName model) (user.PasswordHash model) roleCode (user.PrivilegeMask model)
      (nullString (user.TenantScope model)) (user.Status model) (user.FailedLoginCount model)
      (option_map datetime (nullTime (user.LastLoginAt model))) created_at created_at).

(** find_by_id.sql, find_by_username.sql, find_by_email.sql, find_by_user_uuid.sql *)
Definition findUser (p : user_row -> bool) : IO D (option user_row) :=
  let* l := SELECT (fun _ => p) in ret (head l).
Definition findByID (id : Z) : IO D (option user_row) := findUser (fun r => u_id r =? id).
Definition findByUsername (username : string) : IO D (option user_row) :=
  findUser (fun r => collate (D := D) (u_username r) username).
Definition findByEmail (email : string) : IO D (option user_row) :=
  findUser (fun r => collate (D := D) (u_email r) email).
Definition findByUserUUID (uuid : string) : IO D (option user_row) :=
  findUser (fun r => collate (D := D) (u_user_uuid r) uuid).

(** list_by_role_code.sql, count_by_role_code.sql *)
Definition listByRoleCode (roleCode : string) (limit : Z) : IO D (list user_row) :=
  let* l := SELECT (fun _ r => collate (D := D) (u_role_code r) roleCode) in
  ret (take (Z.to_nat limit) (merge_sort by_id l)).

Definition countByRoleCode (roleCode : string) : IO D Z :=
  let* l := SELECT (R := user_row) (fun _ r => collate (D := D) (u_role_code r) roleCode) in
  ret (Z.of_nat (List.length l)).

(** update_role_and_privilege.sql *)
Definition updateRoleAndPrivilege (roleCode : string) (mask : Z) (tenant : option string) (id : Z) : IO D Z :=
  at_now (fun t => UPDATE (fun _ r => u_id r =? id) (set_role roleCode mask tenant t)).

(** lock_account.sql *)
Definition lock_row (t : time) (r : user_row) : user_row :=
  set_status (if collate (D := D) (u_status r) "active" then "locked" else u_status r) (u_failed_login_count r) t r.
Definition lockAccount (t : time) (id : Z) : IO D Z := UPDATE (fun _ r => u_id r =? id) (lock_row (datetime t)).

(** unlock_account.sql *)
Definition unlock_row (t : time) (r : user_row) : user_row :=
  set_status (if collate (D := D) (u_status r) "locked" then "active" else u_status r) 0 t r.
Definition unlockAccount (t : time) (id : Z) : IO D Z := UPDATE (fun _ r => u_id r =? id) (unlock_row (datetime t)).

(** update_password_hash.sql *)
Definition updatePasswordHash (hash : string) (t : time) (id : Z) : IO D Z :=
  UPDATE (fun _ r => u_id r =? id) (set_password hash (datetime t)).

(** increment_failed_login.sql; the column is an INT. *)
Definition incrementFailedLogin (id : Z) : IO D Z :=
  at_now (fun t => UPDATE (fun _ r => u_id r =? id)
    (on_update t (fun t r => set_failed (u_failed_login_count r + 1) (u_last_login_at r) t r))).

(** select_failed_login_count_by_user_id.sql *)
Definition selectFailedLoginCount (id : Z) : IO D (option Z) :=
  let* row := findUser (fun r => u_id r =? id) in ret (option_map u_failed_login_count row).

(** reset_failed_login.sql *)
Definition resetFailedLogin (lastLoginAt : time) (id : Z) : IO D Z :=
  at_now (fun t => UPDATE (fun _ r => u_id r =? id)
    (on_update t (set_failed 0 (Some (datetime lastLoginAt))))).

(** [uint32(privilegeMask)] of a value read as uint64 *)
Definition scanOne (r : user_row) : user.Model :=
  user.mk (u_id r) (u_user_uuid r) (u_username r) (u_email r) (u_email_verified r) (u_display_name r)
    (u_password_hash r) (u_role_code r) (u_privilege_mask r mod 2 ^ 32) (scan_string (u_tenant_scope r)) (u_status r)
    (u_failed_login_count r) (u_last_login_at r) (u_created_at r) (u_updated_at r).

Definition Create (r : UserRepo) (model : user.Model) : IO W user.Model :=
  let roleCode := if String.eqb (user.RoleCode model) "" then RoleEndUser else user.RoleCode model in
  let* id := run_on (writer r) (createUser model roleCode) in
  ret (user.mk id (user.UserUUID model) (user.Username model) (user.Email model) (user.EmailVerified model)
         (user.DisplayName model) (user.PasswordHash model) roleCode (user.PrivilegeMask model)
         (user.TenantScope model) (user.Status model) (user.FailedLoginCount model) (user.LastLoginAt model)
         (user.CreatedAt model) (user.UpdatedAt model)).

Definition getOne (r : UserRepo) (query : IO D (option user_row)) : IO W (option user.Model) :=
  let* row := run_on (reader r) query in ret (option_map scanOne row).

Definition FindByID (r : UserRepo) (id : Z) := getOne r (findByID id).
Definition FindByUsername (r : UserRepo) (username : string) := getOne r (findByUsername username).
Definition FindByEmail (r : UserRepo) (email : string) := getOne r (findByEmail email).
Definition FindByUserUUID (r : UserRepo) (uuid : string) := getOne r (findByUserUUID uuid).

Definition ListByRoleCode (r : UserRepo) (roleCode : string) (limit : Z) : IO W (list (option user.Model)) :=
  let limit := if (limit <=? 0) || (500 <? limit) then 100 else limit in
  let* l := run_on (reader r) (listByRoleCode roleCode limit) in
  ret (List.map (fun x => Some (scanOne x)) l).

Definition CountByRoleCode (r : UserRepo) (roleCode : string) : IO W Z := run_on (reader r) (countByRoleCode roleCode).

Definition UpdateRoleAndPrivilege (r : UserRepo) (id : Z) (roleCode : string) (mask : Z) (tenantScope : string) : IO W unit :=
  do* run_on (writer r) (updateRoleAndPrivilege roleCode mask (nullString tenantScope) id) in ret tt.

Definition LockAccount (r : UserRepo) (id : Z) (updatedAt : time) : IO W unit :=
  do* run_on (writer r) (lockAccount updatedAt id) in ret tt.

Definition UnlockAccount (r : UserRepo) (id : Z) (updatedAt : time) : IO W unit :=
  do* run_on (writer r) (unlockAccount updatedAt id) in ret tt.

Definition UpdatePasswordHash (r : UserRepo) (id : Z) (hash : string) (updatedAt : time) : IO W unit :=
  do* run_on (writer r) (updatePasswordHash hash updatedAt id) in ret tt.

Definition IncrementFailedLogin (r : UserRepo) (id : Z) : IO W Z :=
  do* run_on (writer r) (incrementFailedLogin id) in
  let* count := run_on (writer r) (selectFailedLoginCount id) in
  ret (default 0 count).

Definition ResetFailedLogin (r : UserRepo) (id : Z) (lastLoginAt : time) : IO W unit :=
  do* run_on (writer r) (resetFailedLogin lastLoginAt id) in ret tt.

Definition NewUserRepository (r : UserRepo) : UserRepository W := {|
  User_Create := Create r;
  User_FindByID := FindByID r;
  Ports.FindByUserUUID := FindByUserUUID r;
  Ports.FindByEmail := FindByEmail r;
  Ports.FindByUsername := FindByUsername r;
  Ports.ListByRoleCode := ListByRoleCode r;
  Ports.CountByRoleCode := CountByRoleCode r;
  Ports.UpdateRoleAndPrivilege := UpdateRoleAndPrivilege r;
  Ports.UnlockAccount := UnlockAccount r;
  Ports.IncrementFailedLogin := IncrementFailedLogin r;
  Ports.ResetFailedLogin := ResetFailedLogin r;
|}.

Definition accounts (r : UserRepo) : UserAccounts W := {|
  AuthPorts.LockAccount := Some (LockAccount r);
  AuthPorts.UpdatePasswordHash := Some (UpdatePasswordHash r);
|}.
End Repository.
Arguments UserRepo : clear implicits.

(** ** Runs of the table's operations *)

Section Steps.
Context {D : Type} `{!Columns D} `{!Table D user_row (H := user_row_keys (D := D))}.

(** One statement on the users, whatever its outcome; or anything that
    leaves them alone.  [unlocks id] says which accounts may be unlocked. *)
Inductive user_step (unlocks : Z -> Prop) : relation D :=
| user_created m role d a d' : createUser m role d = (a, d') -> user_step unlocks d d'
| user_role role mask tenant id d a d' : updateRoleAndPrivilege role mask tenant id d = (a, d') -> user_step unlocks d d'
| user_locked t id d a d' : lockAccount t id d = (a, d') -> user_step unlocks d d'
| user_unlocked t id d a d' : unlocks id -> unlockAccount t id d = (a, d') -> user_step unlocks d d'
| user_password hash t id d a d' : updatePasswordHash hash t id d = (a, d') -> user_step unlocks d d'
| user_failed id d a d' : incrementFailedLogin id d = (a, d') -> user_step unlocks d d'
| user_reset t id d a d' : resetFailedLogin t id d = (a, d') -> user_step unlocks d d'
| user_elsewhere d d' : rows (R := user_row) d' = rows d -> user_step unlocks d d'.

(** The row [id] is there and satisfies [P]. *)
Definition held (id : Z) (P : user_row -> Prop) (d : D) : Prop := exists r, rows d !! id = Some r /\ P r.

Lemma held_insert id P f : preserves (held id P) (INSERT (R := user_row) f).
Proof.
  intros d a d' Hi (r & Hr & Hp). exists r. split; [|done]. destruct a as [n|e].
  - apply INSERT_Ok in Hi as (Hn & ? & -> & _). rewrite lookup_insert_ne; [done|congruence].
  - apply INSERT_Err in Hi. by rewrite Hi.
Qed.

Lemma held_update id P p (f : user_row -> user_row) :
  (forall d r, P r -> u_id r = id -> p d r = true -> P (f r)) -> preserves (held id P) (UPDATE p f).
Proof.
  intros Hf d a d' Hx (r & Hr & Hp). destruct a as [n|e].
  - apply UPDATE_Ok in Hx as [Hd _]. exists (if p d r then f r else r). rewrite Hd, lookup_fmap, Hr. split; [done|].
    destruct (p d r) eqn:E; [|done]. eapply Hf; [done| |exact E]. exact (rows_keyed d id r Hr).
  - apply UPDATE_Err in Hx. exists r. by rewrite Hx.
Qed.

Lemma preserves_at_now {A} Q (k : time -> IO D A) : (forall t, preserves Q (k t)) -> preserves Q (at_now k).
Proof. intros Hk d a d' Hd. by eapply Hk. Qed.

(** The statements keep what only the status and the row's identity say. *)
Definition same_account (r r' : user_row) : Prop :=
  u_id r' = u_id r /\ u_user_uuid r' = u_user_uuid r /\ u_username r' = u_username r /\ u_email r' = u_email r.

Definition status_move (s s' : string) : Prop :=
  collate (D := D) s "active" = true /\ s' = "locked" \/ collate (D := D) s "locked" = true /\ s' = "active".

Lemma same_account_trans r r1 r2 : same_account r r1 -> same_account r1 r2 -> same_account r r2.
Proof. unfold same_account. intuition congruence. Qed.

(** What one statement can do to one row. *)
Definition row_step (unlocks : Z -> Prop) (r r' : user_row) : Prop :=
  same_account r r' /\
  (u_status r' = u_status r \/
   collate (D := D) (u_status r) "active" = true /\ u_status r' = "locked" \/
   unlocks (u_id r) /\ collate (D := D) (u_status r) "locked" = true /\ u_status r' = "active").

Lemma row_step_same unlocks r r' : same_account r r' -> u_status r' = u_status r -> row_step unlocks r r'.
Proof. intros ? ?. split; [done | by left]. Qed.

Lemma row_step_lock unlocks t r : row_step unlocks r (lock_row (D := D) t r).
Proof. split; [done|]. unfold lock_row, set_status. simpl. case_match; [right; left | left]; done. Qed.

Lemma row_step_unlock (unlocks : Z -> Prop) t r : unlocks (u_id r) -> row_step unlocks r (unlock_row (D := D) t r).
Proof. intros ?. split; [done|]. unfold unlock_row, set_status. simpl. case_match; [right; right | left]; done. Qed.

Lemma row_step_on_update unlocks t g r :
  (forall t, row_step unlocks r (g t r)) -> row_step unlocks r (on_update t g r).
Proof. intros Hg. unfold on_update. case_bool_decide; [|done]. by apply row_step_same. Qed.

Create HintDb row_step.
#[local] Hint Resolve row_step_lock row_step_unlock row_step_on_update : row_step.
#[local] Hint Extern 1 (row_step _ _ _) => (by apply row_step_same) : row_step.

(** One statement takes a row to what [row_step] allows. *)
Lemma user_step_held unlocks id (P : user_row -> Prop) (d d' : D) :
  (forall r r', P r -> u_id r = id -> row_step unlocks r r' -> P r') ->
  user_step unlocks d d' -> held id P d -> held id P d'.
Proof.
  intros HP Hs.
  assert (Hup : forall p f, (forall d r, p d r = true -> row_step unlocks r (f r)) -> preserves (held id P) (UPDATE p f)).
  { intros p f Hf. apply held_update. intros d0 r Hr Hid Hp. eapply HP; eauto. }
  destruct Hs as [m role d a d' Hx|role mask tenant i d a d' Hx|t i d a d' Hx|t i d a d' Hu Hx|hash t i d a d' Hx|
    i d a d' Hx|t i d a d' Hx|d d' Hx]; [by eapply held_insert| | | | | | |].
  7: { intros (r & Hr & Hl). exists r. by rewrite Hx. }
  1, 5, 6: eapply preserves_at_now; [intros; apply Hup | exact Hx].
  4-6: eapply Hup; [|exact Hx].
  all: intros ? r Hp; apply Z.eqb_eq in Hp; subst; auto with row_step.
Qed.

Lemma user_steps_held unlocks id P (d d' : D) :
  (forall r r', P r -> u_id r = id -> row_step unlocks r r' -> P r') ->
  rtc (user_step unlocks) d d' -> held id P d -> held id P d'.
Proof. intros HP. induction 1; eauto using user_step_held. Qed.

Lemma same_account_refl r : same_account r r.
Proof. done. Qed.

(** Whoever the user is, the row stays. *)
Lemma account_kept unlocks (d d' : D) id r : rtc (user_step unlocks) d d' -> rows d !! id = Some r ->
  exists r', rows d' !! id = Some r' /\ same_account r r'.
Proof.
  intros Hrtc Hr. apply (user_steps_held unlocks id (same_account r) d d') in Hrtc as (r' & Hr' & Hs).
  - by exists r'.
  - intros r1 r2 Hs _ [Hs' _]. by eapply same_account_trans.
  - by exists r.
Qed.

(** C32. The life of an account: in any run of the repository's statements, by
    any number of servers, a user's row stays, keeps its id, uuid, name and
    email, and its status only goes from active to locked and back.  So an
    account that was created disabled or waiting for verification is never
    made usable by the program, and only the accounts that were unlocked come
    back from locked. *)
Theorem account_status_machine (unlocks : Z -> Prop) (d d' : D) id r :
  rtc (user_step unlocks) d d' -> rows d !! id = Some r ->
  exists r', rows d' !! id = Some r' /\ same_account r r' /\
    rtc (fun s s' => status_move s s' /\ (collate (D := D) s "active" = true \/ unlocks id)) (u_status r) (u_status r') /\
    (collate (D := D) (u_status r) "active" = false -> collate (D := D) (u_status r) "locked" = false ->
     u_status r' = u_status r).
Proof.
  intros Hrtc Hr. set (move := fun s s' => _).
  apply (user_steps_held unlocks id (fun r' => same_account r r' /\ rtc move (u_status r) (u_status r')) d d') in Hrtc as (r' & Hr' & Hs & Hm).
  - exists r'. do 3 (split; [done|]). intros Ha Hl. destruct Hm as [|s1 s2 s3 [Hm _] _]; [done|].
    unfold status_move in Hm. destruct Hm as [[? _]|[? _]]; congruence.
  - intros r1 r2 [Hsame Hm] Hid [Hsame' Hst]. split; [by eapply same_account_trans|].
    destruct Hst as [-> | [(Ha & ->) | (Hu & Ha & ->)]]; [done| |]; (eapply rtc_r; [done|]); unfold move, status_move.
    + split; [by left | by left].
    + split; [by right | right; congruence].
  - exists r. split; [done|]. split; [done | apply rtc_refl].
Qed.

Lemma steps_weaken (P Q : Z -> Prop) (d d' : D) :
  (forall id, P id -> Q id) -> rtc (user_step P) d d' -> rtc (user_step Q) d d'.
Proof.
  intros HPQ. induction 1 as [|d1 d2 d3 Hs _ IH]; [apply rtc_refl|]. eapply rtc_l; [|exact IH].
  destruct Hs; [by eapply user_created | by eapply user_role | by eapply user_locked | eapply user_unlocked; eauto |
    by eapply user_password | by eapply user_failed | by eapply user_reset | by eapply user_elsewhere].
Qed.

Lemma findUser_steps unlocks p (d : D) : rtc (user_step unlocks) d (findUser p d).2.
Proof.
  apply rtc_once, user_elsewhere. unfold findUser, bind.
  destruct (SELECT _ d) as [b d1] eqn:Es. apply SELECT_rows in Es. by destruct b.
Qed.

(** What a lookup finds is a row as it is stored. *)
Lemma findUser_inv p (d : D) r d' :
  findUser p d = (Ok (Some r), d') -> rows d !! u_id r = Some r /\ p r = true.
Proof.
  intros Hr. unfold findUser in Hr. run Hr as l d1 Hl. apply ret_Ok in Hr as [Ho _].
  destruct l as [|x l]; simplify_eq/=. pose proof (SELECT_Ok _ _ _ _ Hl r) as [Hin _].
  destruct Hin as [Hp [id Hid]]; [by left|]. split; [|done].
  pose proof (rows_keyed _ _ _ Hid) as Hk. simpl in Hk. by subst id.
Qed.

End Steps.

Section Repo.
Context {W D : Type} `{!Columns D} `{!Table D user_row (H := user_row_keys (D := D))}.
Context (repo : UserRepo W D) (h : Remote W D).
Hypothesis on_writer : writer repo = Some h.
Hypothesis on_reader : reader repo = Some h.
Hypothesis transport_steps : forall w, rtc (user_step (fun _ => True)) (server w) (server (transport w).2).

(** What any of the lookups returns is the row of the user's id, at an
    instant of the call. *)
Lemma getOne_inv p w m w' :
  getOne repo (findUser p) w = (Ok (Some m), w') ->
  exists d r, rtc (user_step (fun _ => True)) (server w) d /\ rows d !! u_id r = Some r /\ p r = true /\ m = scanOne r.
Proof.
  unfold getOne, run_on. rewrite on_reader. intros Hg. run Hg as o w1 Hc. apply ret_Ok in Hg as [Ho <-].
  destruct o as [r|]; [|done]. injection Ho as <-.
  apply (call_Ok_steps (user_step (fun _ => True))) in Hc as (w2 & d & Hst & Hf & _); [|exact transport_steps|intros; apply findUser_steps].
  apply findUser_inv in Hf as [Hr Hp]. by exists (server w2), r.
Qed.

(** A name is taken for good: once a user was created, whatever the
    repository does from then on, a lookup by any spelling of the name that
    the column considers equal finds that user and no other, and no later
    creation succeeds with such a name, or such an email or uuid. *)
Theorem username_taken_for_good m w m' w1 w2 :
  Create repo m w = (Ok m', w1) -> rtc (user_step (fun _ => True)) (server w1) (server w2) ->
  (forall name x w3, FindByUsername repo name w2 = (Ok (Some x), w3) ->
     collate (D := D) (user.Username m) name = true -> user.ID x = user.ID m' /\ user.UserUUID x = user.UserUUID m) /\
  (forall n n' w3, Create repo n w2 = (Ok n', w3) ->
     collate (D := D) (user.Username m) (user.Username n) = false /\
     collate (D := D) (user.Email m) (user.Email n) = false /\
     collate (D := D) (user.UserUUID m) (user.UserUUID n) = false).
Proof.
  intros Hc Hrtc. unfold Create, run_on in Hc. rewrite on_writer in Hc.
  set (role := if String.eqb _ _ then _ else _) in Hc. clearbody role.
  run Hc as id wa Hi. apply ret_Ok in Hc as [<- <-]. apply call_Ok in Hi as (wb & d1 & Hi & <-).
  unfold createUser in Hi. apply INSERT_Ok in Hi as (_ & at_ & Hrows & Hid). simpl in Hid.
  destruct (rows (server wa) !! id) as [r0|] eqn:Hr0; [|by rewrite Hrows, lookup_insert_eq in Hr0].
  assert (Hm : u_user_uuid r0 = user.UserUUID m /\ u_username r0 = user.Username m /\ u_email r0 = user.Email m).
  { rewrite Hrows, lookup_insert_eq in Hr0. by injection Hr0 as <-. }
  destruct Hm as (Hm1 & Hm2 & Hm3). simpl. split.
  - intros name x w3 Hf Hname. apply getOne_inv in Hf as (d & r & Hst & Hr & Hp & ->).
    destruct (account_kept _ _ _ _ _ (transitivity Hrtc Hst) Hr0) as (r' & Hr' & Hi' & Hu' & Hn' & _).
    assert (id = u_id r) as Heq.
    { eapply rows_unique; [exact Hr' | exact Hr|]. simpl. rewrite Hn', Hm2.
      rewrite (collate_trans _ name _ Hname) by (by rewrite collate_sym). by rewrite orb_true_r. }
    assert (r' = r) as -> by congruence. simpl. split; [done | congruence].
  - intros n n' w3 Hcn. unfold Create, run_on in Hcn. rewrite on_writer in Hcn.
    set (role' := if String.eqb _ _ then _ else _) in Hcn. clearbody role'.
    run Hcn as id' wc Hi'. apply ret_Ok in Hcn as [_ <-].
    apply (call_Ok_steps (user_step (fun _ => True))) in Hi' as (wd & d2 & Hst & Hi' & <-); [|exact transport_steps|].
    2: { intros d. apply rtc_once. destruct (createUser n role' d) as [a d'] eqn:E. by eapply user_created. }
    destruct (account_kept _ _ _ _ _ (transitivity Hrtc Hst) Hr0) as (r' & Hr' & _ & Hu' & Hn' & He').
    unfold createUser in Hi'. apply INSERT_Ok in Hi' as (Hfresh & at' & Hrows' & _).
    assert (Hno : forall b, conflict r' (mkUserRow id' (user.UserUUID n) (user.Username n) (user.Email n) (user.EmailVerified n)
      (user.DisplayName n) (user.PasswordHash n) role' (user.PrivilegeMask n) (nullString (user.TenantScope n)) (user.Status n)
      (user.FailedLoginCount n) (option_map datetime (nullTime (user.LastLoginAt n))) at' at') = b -> b = false).
    { intros [] Hcf; [|done]. exfalso. apply (rows_unique (server wc) id id') in Hcf.
      - congruence.
      - rewrite Hrows', lookup_insert_ne; [done|congruence].
      - by rewrite Hrows', lookup_insert_eq. }
    specialize (Hno _ eq_refl). simpl in Hno. apply orb_false_iff in Hno as [Hno He]. apply orb_false_iff in Hno as [Hu Hn].
    rewrite Hu', Hm1 in Hu. rewrite Hn', Hm2 in Hn. rewrite He', Hm3 in He. done.
Qed.
End Repo.

(** ** Locking *)

Section Lock.
Context {W D : Type} `{!Columns D} `{!Table D user_row (H := user_row_keys (D := D))}.
Context (repo : UserRepo W D) (h : Remote W D) (id : Z).
Hypothesis on_writer : writer repo = Some h.
Hypothesis on_reader : reader repo = Some h.

(** Nobody unlocks the account [id]. *)
Definition not_unlocked : relation D := rtc (user_step (fun i => i <> id)).

Hypothesis nobody_unlocks : forall w, not_unlocked (server w) (server (transport w).2).
Hypothesis words_differ : collate (D := D) "locked" "active" = false.

(** The lookups of the repository. *)
Inductive lookup_user : IO W (option user.Model) -> Prop :=
| lookup_id i : lookup_user (FindByID repo i)
| lookup_name name : lookup_user (FindByUsername repo name)
| lookup_email email : lookup_user (FindByEmail repo email)
| lookup_uuid uuid : lookup_user (FindByUserUUID repo uuid).

Lemma lookup_user_find q : lookup_user q -> exists p, q = getOne repo (findUser p).
Proof. destruct 1; by eexists. Qed.

Definition locked_out (was : string) (r : user_row) : Prop :=
  collate (D := D) (u_status r) "active" = false /\ u_status r = was.

Lemma locked_out_kept was d d' :
  not_unlocked d d' -> held id (locked_out was) d -> held id (locked_out was) d'.
Proof.
  apply user_steps_held. intros r r' [Ha Hw] Hid [_ [He | [(Ha' & _) | (Hu & _)]]]; [unfold locked_out; by rewrite He | congruence | congruence].
Qed.

(** A locked account stays locked: after [LockAccount] the account is
    not active, and as long as nobody
    unlocks it, whatever else the repository does, no lookup, by id, name,
    email or uuid, finds it active again.  After [UnlockAccount] the account is
    not locked and its failures are forgotten. *)
Theorem locked_account_stays_locked t w w1 r0 w2 :
  LockAccount repo id t w = (Ok tt, w1) -> rows (server w1) !! id = Some r0 ->
  not_unlocked (server w1) (server w2) ->
  (forall q m w3, lookup_user q -> q w2 = (Ok (Some m), w3) -> user.ID m = id ->
     collate (D := D) (user.Status m) "active" = false /\ user.Status m = u_status r0) /\
  (forall t' w3, UnlockAccount repo id t' w2 = (Ok tt, w3) ->
     exists r3, rows (server w3) !! id = Some r3 /\ u_failed_login_count r3 = 0 /\
       collate (D := D) (u_status r3) "locked" = false).
Proof.
  intros Hl Hr0 Hrtc. unfold LockAccount, run_on in Hl. rewrite on_writer in Hl.
  run Hl as n wa Hc. apply ret_Ok in Hl as [_ <-]. apply call_Ok in Hc as (wb & d1 & Hx & <-).
  assert (Hout : held id (locked_out (u_status r0)) (server w2)).
  { eapply locked_out_kept; [exact Hrtc|]. exists r0. split; [done|]. split; [|done].
    apply UPDATE_Ok in Hx as [Hd _]. rewrite Hd, lookup_fmap in Hr0. destruct (rows (server wb) !! id) as [r|] eqn:Er; [|done].
    pose proof (rows_keyed _ _ _ Er) as Hk. simpl in Hk. simpl in Hr0. rewrite Hk, Z.eqb_refl in Hr0. injection Hr0 as <-.
    unfold lock_row, set_status. simpl. by destruct (collate (u_status r) "active") eqn:E. }
  split.
  - intros q m w3 Hq Hf Hm. apply lookup_user_find in Hq as [p ->]. unfold getOne, run_on in Hf. rewrite on_reader in Hf.
    run Hf as o wc Hc. apply ret_Ok in Hf as [Ho <-]. destruct o as [r|]; [|done]. injection Ho as <-.
    apply (call_Ok_steps (user_step (fun i => i <> id))) in Hc as (wd & d & Hst & Hf & _);
      [|exact nobody_unlocks|intros; apply findUser_steps].
    apply findUser_inv in Hf as [Hr _]. apply (locked_out_kept _ _ _ Hst) in Hout as (r' & Hr' & Hlo).
    simpl in Hm. assert (r' = r) as -> by congruence. exact Hlo.
  - intros t' w3 Hu. unfold UnlockAccount, run_on in Hu. rewrite on_writer in Hu.
    run Hu as n' wc Hc. apply ret_Ok in Hu as [_ <-]. destruct Hout as (r2 & Hr2 & _).
    apply (call_Ok_steps (user_step (fun _ => True))) in Hc as (wd & d & Hst & Hu & <-).
    2: { intros w'. eapply steps_weaken; [|apply nobody_unlocks]. done. }
    2: { intros d. apply rtc_once. destruct (unlockAccount t' id d) as [a d'] eqn:E. by eapply user_unlocked. }
    destruct (account_kept _ _ _ _ _ Hst Hr2) as (r & Hr & _).
    apply UPDATE_Ok in Hu as [Hd _]. pose proof (rows_keyed _ _ _ Hr) as Hk. simpl in Hk. eexists.
    rewrite Hd, lookup_fmap, Hr. simpl. rewrite Hk, Z.eqb_refl. split; [done|]. unfold unlock_row, set_status. simpl. split; [done|].
    destruct (collate (u_status r) "locked") eqn:E; [by rewrite collate_sym | done].
Qed.
End Lock.

(** ** At work *)

Module UserRepoDemo.
Record database := mkDatabase { users : gmap Z user_row; clock : time }.
Record world := mkWorld { w_db : database }.

#[export] Instance columns : Columns database := memory_columns clock.
#[export] Instance table : Table database user_row (H := user_row_keys (D := database)) :=
  memory_table users (fun m d => mkDatabase m (clock d)) clock (fun m d => eq_refl).

#[export] Program Instance remote : Remote world database := {
  server := w_db;
  put_server := fun d w => mkWorld d;
  transport := fun w => (Delivered, w);
  max_retries := fun _ => 0%nat;
}.
Next Obligation. done. Qed.

Definition now : time := 1700000000 * Second.

Definition somebody (uuid name email status : string) : user.Model :=
  user.mk 0 uuid name email true name "hash" "" 0 "" status 0 None now now.

Definition repo : UserRepo world database := NewUserRepositoryRW (Some remote) None.

Definition start : world := (Create repo (somebody "uuid-a" "alice" "a@x" "active") (mkWorld (mkDatabase ∅ now))).2.
Definition more : world := (Create repo (somebody "uuid-b" "bob" "b@x" "disabled") start).2.
Definition locked : world := (LockAccount repo 0 now more).2.
Definition tried : world := (UnlockAccount repo 1 now locked).2.

Lemma more_step : user_step (fun _ => True) (server start) (server more).
Proof.
  destruct (createUser (somebody "uuid-b" "bob" "b@x" "disabled") RoleEndUser (server start)) as [a d'] eqn:E.
  assert (server more = d') as -> by (vm_compute in E; injection E as _ <-; vm_compute; reflexivity).
  by eapply user_created.
Qed.

(** Bob was created disabled; unlocking him does not make him active. *)
Lemma tried_step unlocks : unlocks 1 -> user_step unlocks (server locked) (server tried).
Proof.
  intros Hu. destruct (unlockAccount now 1 (server locked)) as [a d'] eqn:E.
  assert (server tried = d') as -> by (vm_compute in E; injection E as _ <-; vm_compute; reflexivity).
  by eapply user_unlocked.
Qed.
End UserRepoDemo.

Import UserRepoDemo.

Lemma account_status_machine_witness :
  exists r, rows (server UserRepoDemo.tried) !! 1 = Some r /\ u_status r = "disabled".
Proof.
  destruct (rows (server UserRepoDemo.locked) !! 1) as [r0|] eqn:E; [|vm_compute in E; discriminate E].
  destruct (account_status_machine (fun _ => True) (server UserRepoDemo.locked) (server UserRepoDemo.tried) 1 r0
    (rtc_once _ _ (UserRepoDemo.tried_step _ I)) E) as (r & Hr & _ & _ & Hs).
  exists r. split; [exact Hr|]. vm_compute in E. injection E as <-. apply Hs; reflexivity.
Defined.

Lemma username_taken_for_good_witness :
  (exists x w3, FindByUsername UserRepoDemo.repo "alice" UserRepoDemo.more = (Ok (Some x), w3) /\ user.ID x = 0) /\
  (forall n n' w3, Create UserRepoDemo.repo n UserRepoDemo.more = (Ok n', w3) -> "alice" =? user.Username n = false)%string.
Proof.
  destruct (Create UserRepoDemo.repo (UserRepoDemo.somebody "uuid-a" "alice" "a@x" "active")
    (UserRepoDemo.mkWorld (UserRepoDemo.mkDatabase ∅ UserRepoDemo.now))) as [[m'|] w1] eqn:E; [|vm_compute in E; discriminate E].
  assert (Hw : w1 = UserRepoDemo.start) by (unfold UserRepoDemo.start; rewrite E; reflexivity).
  destruct (username_taken_for_good UserRepoDemo.repo UserRepoDemo.remote eq_refl eq_refl ltac:(intros; apply rtc_refl)
    _ _ _ _ UserRepoDemo.more E) as [Hfind Hcreate].
  { rewrite Hw. apply rtc_once, UserRepoDemo.more_step. }
  split.
  - destruct (FindByUsername UserRepoDemo.repo "alice" UserRepoDemo.more) as [[[x|]|] w3] eqn:F;
      [|vm_compute in F; discriminate F|vm_compute in F; discriminate F].
    exists x, w3. split; [reflexivity|]. rewrite (proj1 (Hfind _ _ _ F eq_refl)). vm_compute in E. injection E as <- _. reflexivity.
  - intros n n' w3 Hn. apply (Hcreate n n' w3 Hn).
Defined.

Lemma locked_account_stays_locked_witness :
  exists m w3, FindByUsername UserRepoDemo.repo "alice" UserRepoDemo.tried = (Ok (Some m), w3) /\ user.Status m = "locked".
Proof.
  destruct (LockAccount UserRepoDemo.repo 0 UserRepoDemo.now UserRepoDemo.more) as [[[]|] w1] eqn:E; [|vm_compute in E; discriminate E].
  assert (Hw : w1 = UserRepoDemo.locked) by (unfold UserRepoDemo.locked; rewrite E; reflexivity).
  destruct (rows (server w1) !! 0) as [r0|] eqn:Hr; [|rewrite Hw in Hr; vm_compute in Hr; discriminate Hr].
  destruct (locked_account_stays_locked UserRepoDemo.repo UserRepoDemo.remote 0 eq_refl eq_refl ltac:(intros; apply rtc_refl) eq_refl
    _ _ _ _ UserRepoDemo.tried E Hr) as [Hfind _].
  { rewrite Hw. apply rtc_once, UserRepoDemo.tried_step. discriminate. }
  destruct (FindByUsername UserRepoDemo.repo "alice" UserRepoDemo.tried) as [[[m|]|] w3] eqn:F;
    [|vm_compute in F; discriminate F|vm_compute in F; discriminate F].
  exists m, w3. split; [reflexivity|].
  rewrite (proj2 (Hfind _ m w3 (lookup_name _ "alice") F ltac:(vm_compute in F; injection F as <- _; reflexivity))).
  rewrite Hw in Hr. vm_compute in Hr. injection Hr as <-. reflexivity.
Defined.
