(* ===== verification/AuditStream.v ===== *)
(** * Audit events: the repository and the stream before it
      (audit_event_repo.go, infrastructure/auditstream)

    Rows of audit_events are keyed by the event, so that an event delivered
    twice is one row. *)

From stdpp Require Import base tactics list gmap strings numbers relations sorting.
From Stdlib Require Import ZArith Lia Ascii.
From S2P Require Import Prelude GoStrings GoText GoTime Errors Domain Remote Database Ports AuthPorts.

(** ** Events *)

(** domain/audit *)
Module audit.
Record Model := mk {
  ID : Z; EventID : string; EventType : string; ClientID : option Z; UserID : option Z; Subject : string; SessionID : option Z;
  IPAddress : string; UserAgent : string; MetadataJSON : string; CreatedAt : time;
}.
End audit.

(** audit_events; the texts that may be NULL are never written so. *)
Record audit_row := mkAuditRow {
  e_id : Z; e_event_id : string; e_event_type : string; e_client_id : option Z; e_user_id : option Z; e_subject : option string;
  e_session_id : option Z; e_ip_address : option string; e_user_agent : option string; e_metadata_json : option string; e_created_at : time;
}.

#[export] Instance audit_row_eq_dec : EqDecision audit_row.
Proof. solve_decision. Defined.

(** PRIMARY KEY (id), UNIQUE KEY (event_id) *)
#[export] Instance audit_row_keys {D} `{!Columns D} : Row audit_row := {
  row_id := e_id;
  conflict := fun a b => collate (D := D) (e_event_id a) (e_event_id b);
}.

(** ** The repository *)

(** repository.ListAuditEventsInput *)
Record ListAuditEventsInput := mkListAuditEventsInput {
  la_Limit : Z; la_Offset : Z; la_EventType : string; la_UserID : option Z; la_Subject : string; la_From : option time; la_To : option time;
}.

(** ORDER BY created_at DESC, id DESC *)
Definition newest_first (a b : audit_row) : Prop :=
  e_created_at b < e_created_at a \/ (e_created_at a = e_created_at b /\ e_id b <= e_id a).
#[export] Instance newest_first_dec a b : Decision (newest_first a b).
Proof. unfold newest_first. apply _. Defined.
#[export] Instance newest_first_total : Total newest_first.
Proof. intros a b. unfold newest_first. lia. Qed.
#[export] Instance newest_first_trans : Transitive newest_first.
Proof. intros a b c. unfold newest_first. lia. Qed.

(** [if id != nil && *id > 0 { value = *id }] *)
Definition positive_id (id : option Z) : option Z := match id with Some n => if 0 <? n then Some n else None | None => None end.

Definition page_limit (limit : Z) : Z := let limit := if limit <=? 0 then 100 else limit in if 500 <? limit then 500 else limit.
Definition page_offset (offset : Z) : Z := if offset <? 0 then 0 else offset.

(** The ON DUPLICATE KEY clause of create.sql *)
Definition replace_event (old new : audit_row) : audit_row :=
  mkAuditRow (e_id old) (e_event_id old) (e_event_type new) (e_client_id new) (e_user_id new) (e_subject new) (e_session_id new)
    (e_ip_address new) (e_user_agent new) (e_metadata_json new) (e_created_at old).

Section Events.
Context {W D : Type} `{!Runtime W} `{!Columns D} `{!Table D audit_row (H := audit_row_keys (D := D))} `{!TableEdit D audit_row}.

(** LIKE, the pattern first: the database's, with its wildcards. *)
Context (like : string -> string -> bool).

Definition AuditRepo : Type := dbRouter W D.
Definition NewAuditEventRepositoryRW (writeDB readDB : DB W D) : AuditRepo := newDBRouter writeDB readDB.

(** create.sql *)
Definition createEvent (m : audit.Model) (metadata : option string) : IO D Z :=
  UPSERT (fun id t => mkAuditRow id (TrimSpace (audit.EventID m)) (TrimSpace (audit.EventType m)) (positive_id (audit.ClientID m))
            (positive_id (audit.UserID m)) (Some (TrimSpace (audit.Subject m))) (positive_id (audit.SessionID m))
            (Some (TrimSpace (audit.IPAddress m))) (Some (TrimSpace (audit.UserAgent m))) metadata t)
    (fun _ => replace_event).

Definition set_event_id (id : string) (m : audit.Model) : audit.Model :=
  audit.mk (audit.ID m) id (audit.EventType m) (audit.ClientID m) (audit.UserID m) (audit.Subject m) (audit.SessionID m)
    (audit.IPAddress m) (audit.UserAgent m) (audit.MetadataJSON m) (audit.CreatedAt m).
Definition set_row_id (id : Z) (m : audit.Model) : audit.Model :=
  audit.mk id (audit.EventID m) (audit.EventType m) (audit.ClientID m) (audit.UserID m) (audit.Subject m) (audit.SessionID m)
    (audit.IPAddress m) (audit.UserAgent m) (audit.MetadataJSON m) (audit.CreatedAt m).

Definition uuid : IO W string := fun w => let '(u, w') := uuid_NewString w in (Ok u, w').

Definition Create (r : AuditRepo) (m : audit.Model) : IO W audit.Model :=
  let* m := (if String.eqb (TrimSpace (audit.EventID m)) "" then let* u := uuid in ret (set_event_id u m) else ret m) in
  let metadata := if String.eqb (TrimSpace (audit.MetadataJSON m)) "" then None else Some (audit.MetadataJSON m) in
  let* id := run_on (writer r)
    (match metadata with
     | None => createEvent m None
     | Some v => let* json := some_or (json_column v) (Driver "Invalid JSON text") in createEvent m (Some json)
     end) in
  ret (set_row_id id m).

(** The WHERE clause that List builds *)
Definition selected (input : ListAuditEventsInput) (r : audit_row) : bool :=
  let eventType := TrimSpace (la_EventType input) in
  let subject := TrimSpace (la_Subject input) in
  (String.eqb eventType "" || collate (D := D) (e_event_type r) eventType) &&
  match positive_id (la_UserID input) with Some u => match e_user_id r with Some v => v =? u | None => false end | None => true end &&
  (String.eqb subject "" || match e_subject r with Some s => like ("%" +:+ subject +:+ "%") s | None => false end) &&
  match la_From input with Some t => t <=? e_created_at r | None => true end &&
  match la_To input with Some t => e_created_at r <=? t | None => true end.

(** LIMIT and OFFSET *)
Definition listEvents (input : ListAuditEventsInput) : IO D (list audit_row) :=
  let* l := SELECT (fun _ => selected input) in
  ret (take (Z.to_nat (page_limit (la_Limit input))) (drop (Z.to_nat (page_offset (la_Offset input))) (merge_sort newest_first l))).

Definition or_empty (s : option string) : string := default "" s.

Definition scan_event (r : audit_row) : audit.Model :=
  audit.mk (e_id r) (TrimSpace (e_event_id r)) (e_event_type r) (e_client_id r) (e_user_id r) (or_empty (e_subject r)) (e_session_id r)
    (or_empty (e_ip_address r)) (or_empty (e_user_agent r)) (TrimSpace (or_empty (e_metadata_json r))) (e_created_at r).

Definition List (r : AuditRepo) (input : ListAuditEventsInput) : IO W (list audit.Model) :=
  let* l := run_on (reader r) (listEvents input) in ret (List.map scan_event l).

(** A page holds at most 500 events, whatever was asked for, the newest
    first, all of them selected. *)
Lemma page_of_events input (d : D) l d' : listEvents input d = (Ok l, d') ->
  (length l <= 500)%nat /\ StronglySorted newest_first l /\ forall r, r ∈ l -> selected input r = true /\ exists id, rows d !! id = Some r.
Proof.
  unfold listEvents. intros H. run H as all d1 Hs. apply ret_Ok in H as [<- _]. split; [|split].
  - rewrite length_take. assert (page_limit (la_Limit input) <= 500) by (unfold page_limit; cbv zeta; repeat case_match; lia). lia.
  - assert (Hsub : forall k (l : list audit_row), StronglySorted newest_first l -> StronglySorted newest_first (take k l) /\ StronglySorted newest_first (drop k l)).
    { intros k m Hm. rewrite <- (take_drop k m) in Hm. split; [by eapply StronglySorted_app_1_l | by eapply StronglySorted_app_1_r]. }
    apply Hsub, Hsub, StronglySorted_merge_sort; apply _.
  - intros r Hr%subseteq_take%subseteq_drop. rewrite (merge_sort_Permutation newest_first), (SELECT_Ok _ _ _ _ Hs) in Hr. exact Hr.
Qed.
End Events.
Arguments AuditRepo : clear implicits.
