(* ===== verification/RoleRepo.v ===== *)
(** * Roles in the database (operator_role_repo.go)

    The repository, and the role service over it: what keeps the built-in
    roles as they are. *)

From stdpp Require Import base tactics list gmap strings numbers relations sorting.
From Stdlib Require Import ZArith Lia Ascii.
From S2P Require Import Prelude GoStrings GoText GoTime Errors Domain Remote Database Ports AuthPorts Rbac.

(** ** Roles *)

(** A row of operator_roles. *)
Record role_row := mkRoleRow {
  o_id : Z; o_role_code : string; o_display_name : string; o_description_text : string; o_privilege_mask : Z; o_is_system : bool;
  o_created_at : time; o_updated_at : time;
}.

#[export] Instance role_row_eq_dec : EqDecision role_row.
Proof. solve_decision. Defined.

(** PRIMARY KEY (id), UNIQUE KEY (role_code) *)
#[export] Instance role_row_keys {D} `{!Columns D} : Row role_row := {
  row_id := o_id;
  conflict := fun a b => collate (D := D) (o_role_code a) (o_role_code b);
}.

Definition set_role_row (display description : string) (mask : Z) (system : bool) (t : time) (r : role_row) : role_row :=
  mkRoleRow (o_id r) (o_role_code r) display description mask system (o_created_at r) t.

Section Roles.
Context {W D : Type} `{!Columns D} `{!Table D role_row (H := role_row_keys (D := D))} `{!TableEdit D role_row}.

Definition RoleRepo : Type := dbRouter W D.
Definition NewOperatorRoleRepositoryRW (writeDB readDB : DB W D) : RoleRepo := newDBRouter writeDB readDB.

Definition role_of (m : operatorrole.Model) (id : Z) (t : time) : role_row :=
  mkRoleRow id (operatorrole.RoleCode m) (operatorrole.DisplayName m) (operatorrole.Description m) (operatorrole.PrivilegeMask m)
    (operatorrole.IsSystem m) t t.

(** create.sql, upsert.sql, update.sql, delete_by_role_code.sql *)
Definition createRole (m : operatorrole.Model) : IO D Z := INSERT (role_of m).
Definition upsertRole (m : operatorrole.Model) : IO D Z :=
  UPSERT (role_of m) (fun t old new => set_role_row (o_display_name new) (o_description_text new) (o_privilege_mask new) (o_is_system new) t old).
Definition updateRole (display description : string) (mask : Z) (code : string) : IO D Z := fun d =>
  UPDATE (fun _ r => collate (D := D) (o_role_code r) code)
    (fun r => set_role_row display description mask (o_is_system r) (current_timestamp d) r) d.
Definition deleteByRole (code : string) : IO D Z := DELETE (R := role_row) (fun _ r => collate (D := D) (o_role_code r) code).

(** find_by_role_code.sql; list.sql, in the order of the collation, which is
    left open *)
Definition findByRoleCode (code : string) : IO D (option role_row) :=
  let* l := SELECT (fun _ r => collate (D := D) (o_role_code r) code) in ret (head l).
Definition listRoles : IO D (list role_row) := SELECT (fun _ _ => true).

(** [uint32(privilegeMask)] *)
Definition scanOperatorRole (r : role_row) : operatorrole.Model :=
  operatorrole.mk (o_id r) (o_role_code r) (o_display_name r) (o_description_text r) (o_privilege_mask r mod 2 ^ 32) (o_is_system r)
    (o_created_at r) (o_updated_at r).

Definition Upsert (r : RoleRepo) (m : operatorrole.Model) : IO W operatorrole.Model :=
  let* id := run_on (writer r) (upsertRole m) in ret (if 0 <? id then operatorrole.set_ID id m else m).
Definition Create (r : RoleRepo) (m : operatorrole.Model) : IO W operatorrole.Model :=
  let* id := run_on (writer r) (createRole m) in ret (operatorrole.set_ID id m).
Definition Update (r : RoleRepo) (m : operatorrole.Model) : IO W unit :=
  do* run_on (writer r) (updateRole (operatorrole.DisplayName m) (operatorrole.Description m) (operatorrole.PrivilegeMask m)
        (TrimSpace (operatorrole.RoleCode m))) in ret tt.
Definition DeleteByRoleCode (r : RoleRepo) (code : string) : IO W unit := do* run_on (writer r) (deleteByRole (TrimSpace code)) in ret tt.
Definition FindByRoleCode (r : RoleRepo) (code : string) : IO W (option operatorrole.Model) :=
  let* row := run_on (reader r) (findByRoleCode code) in ret (option_map scanOperatorRole row).
Definition List (r : RoleRepo) : IO W (list (option operatorrole.Model)) :=
  let* l := run_on (reader r) listRoles in ret (List.map (fun row => Some (scanOperatorRole row)) l).

Definition NewOperatorRoleRepository (r : RoleRepo) : OperatorRoleRepository W := {|
  Role_Upsert := Upsert r; Role_Create := Create r; Role_Update := Update r;
  Ports.DeleteByRoleCode := DeleteByRoleCode r; Ports.FindByRoleCode := FindByRoleCode r; Role_List := List r;
|}.
End Roles.
Arguments RoleRepo : clear implicits.

(** ** What the role service does to the table *)

Section Steps.
Context {D : Type} `{!Columns D} `{!Table D role_row (H := role_row_keys (D := D))} `{!TableEdit D role_row}.

(** The collation tells the built-in codes apart. *)
Hypothesis builtin_apart : forall b c, b ∈ builtinRoles -> c ∈ builtinRoles ->
  collate (D := D) (operatorrole.RoleCode b) (operatorrole.RoleCode c) = true -> b = c.

(** The code is none of a built-in role. *)
Definition custom (code : string) : Prop := forall b, b ∈ builtinRoles -> collate (D := D) code (operatorrole.RoleCode b) = false.

(** What the service's operations come down to, whatever their outcome; or
    anything that leaves the table alone. *)
Inductive role_step : relation D :=
| role_seeded b d a d' : b ∈ builtinRoles -> upsertRole b d = (a, d') -> role_step d d'
| role_created m d a d' : trimmed (operatorrole.RoleCode m) = true -> createRole m d = (a, d') -> role_step d d'
| role_updated display description mask code d a d' : custom code -> updateRole display description mask code d = (a, d') -> role_step d d'
| role_deleted code d a d' : custom code -> deleteByRole code d = (a, d') -> role_step d d'
| role_elsewhere d d' : rows (R := role_row) d' = rows d -> role_step d d'.

(** No code is surrounded by spaces. *)
Definition tidy (d : D) : Prop := forall id r, rows d !! id = Some r -> trimmed (o_role_code r) = true.

(** The built-in role is there, as it is built in. *)
Definition in_place (b : operatorrole.Model) (d : D) : Prop := exists id r, rows d !! id = Some r /\
  collate (D := D) (o_role_code r) (operatorrole.RoleCode b) = true /\ o_privilege_mask r = operatorrole.PrivilegeMask b /\ o_is_system r = true.

Definition seeded (d : D) : Prop := tidy d /\ forall b, b ∈ builtinRoles -> in_place b d.

Lemma builtin_trimmed b : b ∈ builtinRoles -> trimmed (operatorrole.RoleCode b) = true /\ operatorrole.IsSystem b = true.
Proof. unfold builtinRoles. rewrite !elem_of_cons. intros [->|[->|[->|[->|[->|Hb]]]]]; [by split..|by apply elem_of_nil in Hb]. Qed.

Lemma tidy_insert id r (d d' : D) : rows d' = <[id := r]> (rows d) -> trimmed (o_role_code r) = true -> tidy d -> tidy d'.
Proof. intros Hr Ht Hd i s. rewrite Hr. rewrite lookup_insert_Some. intros [[_ <-]|[_ Hi]]; [done | by eapply Hd]. Qed.

Lemma tidy_step (d d' : D) : role_step d d' -> tidy d -> tidy d'.
Proof.
  intros Hs Ht. destruct Hs as [b d [n|e] d' Hb Hx|m d [n|e] d' Hm Hx|di de ma c d [n|e] d' Hc Hx|c d [n|e] d' Hc Hx|d d' Hx].
  - unfold upsertRole in Hx. apply UPSERT_Ok in Hx as (id & t & [(_ & _ & Hr & _)|(r & Hr0 & _ & Hr)]).
    + eapply tidy_insert; [exact Hr | by apply builtin_trimmed | done].
    + eapply tidy_insert; [exact Hr | exact (Ht _ _ Hr0) | done].
  - apply UPSERT_Err in Hx. unfold tidy. by rewrite Hx.
  - apply INSERT_Ok in Hx as (_ & t & Hr & _). eapply tidy_insert; [exact Hr | exact Hm | done].
  - apply INSERT_Err in Hx. unfold tidy. by rewrite Hx.
  - apply UPDATE_Ok in Hx as [Hr _]. intros i s. rewrite Hr, lookup_fmap_Some. intros (r & <- & Hi). specialize (Ht _ _ Hi). by case_match.
  - apply UPDATE_Err in Hx. unfold tidy. by rewrite Hx.
  - apply DELETE_Ok in Hx. intros i s. rewrite Hx, map_lookup_filter_Some. intros [Hi _]. by eapply Ht.
  - apply DELETE_Err in Hx. unfold tidy. by rewrite Hx.
  - unfold tidy. by rewrite Hx.
Qed.

Lemma in_place_rows b (d d' : D) : rows (R := role_row) d' = rows d -> in_place b d -> in_place b d'.
Proof. intros Hd. unfold in_place. by rewrite Hd. Qed.

(** Another row is written. *)
Lemma in_place_insert b id r (d d' : D) : rows d' = <[id := r]> (rows d) -> rows d !! id = None -> in_place b d -> in_place b d'.
Proof. intros Hr Hn (i & s & Hi & Hrest). exists i, s. split; [|done]. rewrite Hr, lookup_insert_ne; [done|congruence]. Qed.

Lemma custom_row code b r : custom code -> b ∈ builtinRoles -> collate (D := D) (o_role_code r) (operatorrole.RoleCode b) = true ->
  collate (D := D) (o_role_code r) code = false.
Proof.
  intros Hc Hb Hr. apply not_true_is_false. intros Ht. specialize (Hc _ Hb). rewrite collate_sym in Ht.
  by rewrite (collate_trans _ _ _ Ht Hr) in Hc.
Qed.

Lemma in_place_step b (d d' : D) : b ∈ builtinRoles -> role_step d d' -> in_place b d -> in_place b d'.
Proof.
  intros Hb Hs Hin. destruct Hs as [c d [n|e] d' Hc Hx|m d [n|e] d' Hm Hx|di de ma c d [n|e] d' Hc Hx|c d [n|e] d' Hc Hx|d d' Hx];
    [|by eapply in_place_rows; [eapply UPSERT_Err|]| |by eapply in_place_rows; [eapply INSERT_Err|]| |by eapply in_place_rows; [eapply UPDATE_Err|]|
     |by eapply in_place_rows; [eapply DELETE_Err|]|by eapply in_place_rows].
  - unfold upsertRole in Hx. apply UPSERT_Ok in Hx as (id & t & [(Hn & _ & Hr & _)|(r & Hr0 & Hcf & Hr)]); [by eapply in_place_insert|].
    destruct Hin as (i & s & Hi & Hco & Hma & Hsy). destruct (decide (i = id)) as [->|Hne].
    2: { exists i, s. split; [|done]. by rewrite Hr, lookup_insert_ne. }
    assert (r = s) as -> by congruence. cbn in Hcf. assert (c = b) as ->.
    { apply builtin_apart; [done..|]. rewrite collate_sym in Hcf. by eapply collate_trans. }
    eexists id, _. split; [by rewrite Hr, lookup_insert_eq|]. split; [exact Hco|]. split; [done|]. by apply builtin_trimmed.
  - apply INSERT_Ok in Hx as (Hn & t & Hr & _). by eapply in_place_insert.
  - destruct Hin as (i & r & Hi & Hco & Hrest). apply UPDATE_Ok in Hx as [Hr _]. exists i, r. split; [|done].
    rewrite Hr, lookup_fmap, Hi. cbn. by rewrite (custom_row _ _ _ Hc Hb Hco).
  - destruct Hin as (i & r & Hi & Hco & Hrest). apply DELETE_Ok in Hx. exists i, r. split; [|done].
    rewrite Hx, map_lookup_filter_Some. split; [done|]. cbn. by eapply custom_row.
Qed.

Lemma in_place_upserted b (d : D) n d' : b ∈ builtinRoles -> upsertRole b d = (Ok n, d') -> in_place b d'.
Proof.
  intros Hb Hx. apply UPSERT_Ok in Hx as (id & t & [(_ & _ & Hr & _)|(r & _ & Hc & Hr)]); eexists id, _; (split; [by rewrite Hr, lookup_insert_eq|]).
  - split; [apply collate_refl|]. split; [done|]. by apply builtin_trimmed.
  - split; [exact Hc|]. split; [done|]. by apply builtin_trimmed.
Qed.

Lemma tidy_steps (d d' : D) : rtc role_step d d' -> tidy d -> tidy d'.
Proof. induction 1; eauto using tidy_step. Qed.
Lemma in_place_steps b (d d' : D) : b ∈ builtinRoles -> rtc role_step d d' -> in_place b d -> in_place b d'.
Proof. intros Hb. induction 1; eauto using in_place_step. Qed.
Lemma seeded_steps (d d' : D) : rtc role_step d d' -> seeded d -> seeded d'.
Proof. intros Hs [Ht Hi]. split; [by eapply tidy_steps|]. intros b Hb. eapply in_place_steps; eauto. Qed.

(** A lookup of a row finds the built-in one under its code, and a code that
    is not system is custom. *)
Lemma find_Ok code (d : D) o d' : findByRoleCode code d = (Ok o, d') -> rows (R := role_row) d' = rows d /\
  match o with
  | Some r => (exists id, rows d !! id = Some r) /\ collate (D := D) (o_role_code r) code = true
  | None => forall id r, rows d !! id = Some r -> collate (D := D) (o_role_code r) code = false
  end.
Proof.
  unfold findByRoleCode. intros H. run H as l d1 Hl. apply ret_Ok in H as [<- <-]. split; [by eapply SELECT_rows|].
  pose proof (SELECT_Ok _ _ _ _ Hl) as Hin. destruct l as [|r l]; cbn.
  - intros id r Hr. apply not_true_is_false. intros Hc. assert (Hnil : r ∈ ([] : list role_row)); [|by apply elem_of_nil in Hnil].
    apply Hin. split; [exact Hc|]. exists id. exact Hr.
  - destruct (proj1 (Hin r) ltac:(by left)) as [Hc Hr]. done.
Qed.

Lemma find_steps code (d : D) : rtc role_step d (findByRoleCode code d).2.
Proof. apply rtc_once, role_elsewhere. unfold findByRoleCode, bind. destruct (SELECT _ d) as [b d1] eqn:Es. apply SELECT_rows in Es. by destruct b. Qed.

Lemma found_builtin b id r (d : D) : in_place b d -> rows d !! id = Some r ->
  collate (D := D) (o_role_code r) (operatorrole.RoleCode b) = true -> o_privilege_mask r = operatorrole.PrivilegeMask b /\ o_is_system r = true.
Proof.
  intros (i & s & Hi & Hc & Hrest) Hr Hcr. assert (i = id) as ->; [|by assert (s = r) as -> by congruence].
  eapply rows_unique; [exact Hi | exact Hr|]. cbn. rewrite collate_sym in Hcr. by eapply collate_trans.
Qed.

Lemma not_system_custom id r code (d : D) : seeded d -> rows d !! id = Some r -> collate (D := D) (o_role_code r) code = true ->
  o_is_system r = false -> custom code.
Proof.
  intros [_ Hin] Hr Hc Hsys b Hb. apply not_true_is_false. intros Hcb.
  destruct (found_builtin _ _ _ _ (Hin _ Hb) Hr (collate_trans _ _ _ Hc Hcb)) as [_ Hs]. congruence.
Qed.
End Steps.

(** ** The role service over the table *)

Section Service.
Context {W D : Type} `{!Columns D} `{!Table D role_row (H := role_row_keys (D := D))} `{!TableEdit D role_row}.
Context (repo : RoleRepo W D) (h : Remote W D) (users : UserRepository W).
Hypothesis on_writer : writer repo = Some h.
Hypothesis on_reader : reader repo = Some h.
Hypothesis builtin_apart : forall b c, b ∈ builtinRoles -> c ∈ builtinRoles ->
  collate (D := D) (operatorrole.RoleCode b) (operatorrole.RoleCode c) = true -> b = c.

Definition steps : relation D := rtc role_step.

(** Others run this service too; counting users does not touch the roles. *)
Hypothesis transport_steps : forall w, steps (server w) (server (transport w).2).
Hypothesis count_steps : forall code w, steps (server w) (server (CountByRoleCode users code w).2).

Definition role_service : Rbac.Service W := Rbac.NewService (NewOperatorRoleRepository repo) users.

(** What a run of [m] from [w] does to the table *)
Definition stepped {A} (m : IO W A) (w : W) : Prop := steps (server w) (server (m w).2).

Lemma stepped_pure {A} (m : IO W A) w : (forall w, (m w).2 = w) -> stepped m w.
Proof. intros Hm. unfold stepped. rewrite Hm. apply rtc_refl. Qed.

Lemma stepped_bind {A B} (m : IO W A) (k : A -> IO W B) w :
  stepped m w -> (forall a w1, m w = (Ok a, w1) -> stepped (k a) w1) -> stepped (bind m k) w.
Proof.
  unfold stepped, bind. intros Hm Hk. destruct (m w) as [[a|e] w1]; [|exact Hm]. etrans; [exact Hm|]. by apply Hk.
Qed.

Lemma stepped_call {A} (m : IO D A) w : (forall d, steps d (m d).2) -> stepped (run_on (Some h) m) w.
Proof. intros Hm. by apply (call_steps role_step). Qed.

Lemma once {A} (m : IO D A) d : role_step d (m d).2 -> steps d (m d).2.
Proof. apply rtc_once. Qed.

Lemma upsert_stepped b w : b ∈ builtinRoles -> stepped (Upsert repo b) w.
Proof.
  intros Hb. unfold Upsert. rewrite on_writer. apply stepped_bind; [|intros; by apply stepped_pure].
  apply stepped_call. intros d. apply once. destruct (upsertRole b d) as [a d'] eqn:E. by eapply role_seeded.
Qed.

Lemma create_stepped m w : trimmed (operatorrole.RoleCode m) = true -> stepped (Create repo m) w.
Proof.
  intros Hm. unfold Create. rewrite on_writer. apply stepped_bind; [|intros; by apply stepped_pure].
  apply stepped_call. intros d. apply once. destruct (createRole m d) as [a d'] eqn:E. by eapply role_created.
Qed.

Lemma update_stepped m w : custom (D := D) (TrimSpace (operatorrole.RoleCode m)) -> stepped (Update repo m) w.
Proof.
  intros Hm. unfold Update. rewrite on_writer. apply stepped_bind; [|intros; by apply stepped_pure].
  apply stepped_call. intros d. apply once. destruct (updateRole _ _ _ _ d) as [a d'] eqn:E. by eapply role_updated.
Qed.

Lemma delete_stepped code w : custom (D := D) (TrimSpace code) -> stepped (DeleteByRoleCode repo code) w.
Proof.
  intros Hm. unfold DeleteByRoleCode. rewrite on_writer. apply stepped_bind; [|intros; by apply stepped_pure].
  apply stepped_call. intros d. apply once. destruct (deleteByRole _ d) as [a d'] eqn:E. by eapply role_deleted.
Qed.

Lemma find_stepped code w : stepped (FindByRoleCode repo code) w.
Proof.
  unfold FindByRoleCode. rewrite on_reader. apply stepped_bind; [|intros; by apply stepped_pure].
  apply stepped_call. intros d. apply find_steps.
Qed.

(** A lookup from a seeded table: the built-in role under its code; and a role
    that is not system has a custom code. *)
Lemma find_seeded code o w w1 : FindByRoleCode repo code w = (Ok o, w1) -> seeded (server w) -> seeded (server w1) /\
  (forall b, b ∈ builtinRoles -> collate (D := D) code (operatorrole.RoleCode b) = true ->
     exists m, o = Some m /\ operatorrole.PrivilegeMask m = operatorrole.PrivilegeMask b /\ operatorrole.IsSystem m = true) /\
  (forall m, o = Some m -> operatorrole.IsSystem m = false -> custom (D := D) code /\ custom (D := D) (TrimSpace (operatorrole.RoleCode m))).
Proof.
  intros Hf Hs. split; [pose proof (find_stepped code w) as Hst; unfold stepped in Hst; rewrite Hf in Hst; by eapply seeded_steps|].
  unfold FindByRoleCode, run_on in Hf. rewrite on_reader in Hf. run Hf as row w2 Hc. apply ret_Ok in Hf as [<- _].
  apply (call_Ok_steps role_step) in Hc as (w3 & d & Hst & Hq & _); [|exact transport_steps|intros; apply find_steps].
  apply (seeded_steps builtin_apart _ _ Hst) in Hs. apply find_Ok in Hq as [_ Hrow]. pose proof Hs as [Ht Hin]. split.
  - intros b Hb Hcb. destruct row as [r|].
    + destruct Hrow as [[id Hr] Hcr]. destruct (found_builtin _ _ _ _ (Hin _ Hb) Hr (collate_trans _ _ _ Hcr Hcb)) as [Hm Hsys].
      eexists. split; [done|]. split; [|exact Hsys]. cbn. rewrite Hm. unfold builtinRoles in Hb. rewrite !elem_of_cons in Hb.
      destruct Hb as [->|[->|[->|[->|[->|Hb]]]]]; [reflexivity..|by apply elem_of_nil in Hb].
    + exfalso. destruct (Hin _ Hb) as (id & r & Hr & Hcr & _). specialize (Hrow _ _ Hr). rewrite collate_sym in Hcb.
      by rewrite (collate_trans _ _ _ Hcr Hcb) in Hrow.
  - intros m Hm Hsys. destruct row as [r|]; [|done]. injection Hm as <-. destruct Hrow as [[id Hr] Hcr]. split; [by eapply not_system_custom|].
    change (custom (D := D) (TrimSpace (o_role_code r))). rewrite (proj1 (trimmed_spec _) (Ht _ _ Hr)). eapply not_system_custom; [done | exact Hr | apply collate_refl | exact Hsys].
Qed.

(** ** The operations *)

Inductive role_operation :=
| op_bootstrap
| op_create (input : UpsertRoleInput)
| op_update (input : UpsertRoleInput)
| op_delete (code : string).

Definition perform (op : role_operation) (w : W) : W :=
  match op with
  | op_bootstrap => (Rbac.BootstrapBuiltinRoles role_service w).2
  | op_create input => (Rbac.CreateRole role_service input w).2
  | op_update input => (Rbac.UpdateRole role_service input w).2
  | op_delete code => (Rbac.DeleteRole role_service code w).2
  end.

Lemma stepped_require {B} (b : bool) (e : error) (k : unit -> IO W B) w : (b = true -> stepped (k tt) w) -> stepped (bind (guard b e) k) w.
Proof. intros Hk. apply stepped_bind; [apply stepped_pure; by destruct b|]. intros [] w1 H. apply guard_Ok in H as [Hb <-]. by apply Hk. Qed.

Lemma stepped_some {A B} (o : option A) (e : error) (k : A -> IO W B) w : (forall a, o = Some a -> stepped (k a) w) -> stepped (bind (some_or o e) k) w.
Proof. intros Hk. apply stepped_bind; [apply stepped_pure; by destruct o|]. intros a w1 H. apply some_or_Ok in H as [Ha <-]. by apply Hk. Qed.

Lemma stepped_lift {A B} (r : result error A) (k : A -> IO W B) w : (forall a, r = Ok a -> stepped (k a) w) -> stepped (bind (Rbac.lift r) k) w.
Proof. intros Hk. apply stepped_bind; [apply stepped_pure; by destruct r|]. intros a w1 H. destruct r; [|done]. apply ret_Ok in H as [-> <-]. by apply Hk. Qed.

Lemma bootstrap_stepped w : stepped (Rbac.BootstrapBuiltinRoles role_service) w.
Proof.
  unfold Rbac.BootstrapBuiltinRoles. apply stepped_bind; [|intros; by apply stepped_pure].
  assert (Hall : forall l, (forall b, b ∈ l -> b ∈ builtinRoles) ->
    forall w, stepped (mapM_ (fun role => bind (Role_Upsert (Rbac.roles role_service) role) (fun _ => ret tt)) l) w).
  { induction l as [|b l IH]; intros Hl w1; [by apply stepped_pure|]. cbn [mapM_]. apply stepped_bind.
    - apply stepped_bind; [|intros; by apply stepped_pure]. apply upsert_stepped, Hl. left.
    - intros ? w2 _. apply IH. intros c Hc. apply Hl. by right. }
  by apply Hall.
Qed.

Lemma create_role_stepped input w : stepped (Rbac.CreateRole role_service input) w.
Proof.
  unfold Rbac.CreateRole. apply stepped_lift. intros code Hcode. apply stepped_bind; [apply find_stepped|]. intros o w1 _.
  apply stepped_require. intros _. cbv zeta. apply stepped_bind; [|intros; by apply stepped_pure]. apply create_stepped. cbn.
  unfold normalizeRoleInput in Hcode. repeat case_match; try discriminate. injection Hcode as <-. apply TrimSpace_trimmed.
Qed.

(** A role that is looked up and not found to be system may be written. *)
Lemma guarded_stepped {B} code (k : operatorrole.Model -> IO W B) w : seeded (server w) ->
  (forall m w1, custom (D := D) code -> custom (D := D) (TrimSpace (operatorrole.RoleCode m)) -> stepped (k m) w1) ->
  stepped (let* found := Ports.FindByRoleCode (Rbac.roles role_service) code in let* existing := some_or found ErrRoleNotFound in
           do* guard (negb (operatorrole.IsSystem existing)) ErrSystemRoleImmutable in k existing) w.
Proof.
  intros Hs Hk. apply stepped_bind; [apply find_stepped|]. intros o w1 Hf. destruct (find_seeded _ _ _ _ Hf Hs) as (_ & _ & Hc).
  apply stepped_some. intros m ->. apply stepped_require. intros Hsys%negb_true_iff. destruct (Hc m eq_refl Hsys). by apply Hk.
Qed.

Lemma operation_stepped op w : seeded (server w) -> steps (server w) (server (perform op w)).
Proof.
  intros Hs. destruct op as [|input|input|code]; cbn [perform].
  - apply bootstrap_stepped.
  - apply create_role_stepped.
  - unfold Rbac.UpdateRole. refine (stepped_lift _ _ _ _). intros code _. apply guarded_stepped; [done|]. intros m w1 _ Hm.
    cbv zeta. apply stepped_bind; [by apply update_stepped | intros; by apply stepped_pure].
  - unfold Rbac.DeleteRole. cbv zeta. refine (stepped_require _ _ _ _ _). intros _. apply guarded_stepped; [done|]. intros m w1 Hc _.
    apply stepped_bind; [apply count_steps|]. intros n w2 _. apply stepped_require. intros _.
    apply delete_stepped. by rewrite TrimSpace_idem.
Qed.

(** A run of the service: its operations, here or elsewhere. *)
Inductive service_step : relation W :=
| run_here op w : service_step w (perform op w)
| run_elsewhere w w' : steps (server w) (server w') -> service_step w w'.

Lemma bootstrap_seeds w l w1 : tidy (server w) -> Rbac.BootstrapBuiltinRoles role_service w = (Ok l, w1) -> seeded (server w1).
Proof.
  intros Ht Hb. pose proof (bootstrap_stepped w) as Hst. unfold stepped in Hst. rewrite Hb in Hst.
  split; [by eapply tidy_steps|]. intros b Hin. unfold Rbac.BootstrapBuiltinRoles in Hb. run Hb as x w2 Hm. apply ret_Ok in Hb as [_ <-]. destruct x.
  assert (Hall : forall l w, (forall c, c ∈ l -> c ∈ builtinRoles) -> b ∈ l \/ in_place b (server w) ->
    forall w2, mapM_ (fun role => bind (Role_Upsert (Rbac.roles role_service) role) (fun _ => ret tt)) l w = (Ok tt, w2) -> in_place b (server w2)).
  { clear w w2 l Hm Ht Hst. induction l as [|c l IH]; intros w Hl Hb w2 Hm.
    - apply ret_Ok in Hm as [_ <-]. destruct Hb as [Hb|]; [by apply elem_of_nil in Hb|done].
    - cbn [mapM_] in Hm. run Hm as x w3 Hc. destruct x. run Hc as m w4 Hu. apply ret_Ok in Hc as [_ <-].
      apply (IH w4); [intros; apply Hl; by right| |exact Hm]. apply or_comm. rewrite elem_of_cons in Hb.
      destruct Hb as [[->|Hb]|Hb]; [left|by right|left].
      + cbn in Hu. unfold Upsert, run_on in Hu. rewrite on_writer in Hu. run Hu as n w5 Hcall. apply ret_Ok in Hu as [_ <-].
        apply call_Ok in Hcall as (w6 & d & Hx & <-). eapply in_place_upserted; [apply Hl; left | exact Hx].
      + eapply in_place_steps; [exact builtin_apart | done | | exact Hb]. pose proof (upsert_stepped c w (Hl c ltac:(left))) as Hst. unfold stepped in Hst. cbn in Hu. by rewrite Hu in Hst. }
  eapply Hall; [|left; exact Hin | exact Hm]. done.
Qed.

(** C40. Once the built-in roles were bootstrapped, they stay: whatever
    operations of the role service follow, on this server and others, with
    requests lost and run again, a lookup that answers finds each of them, as
    a system role with the privileges it is built in with, and updating or
    deleting it never succeeds, under any spelling of its code the database
    takes for the same. *)
Theorem builtin_roles_stay w l w1 w2 b : tidy (server w) -> Rbac.BootstrapBuiltinRoles role_service w = (Ok l, w1) ->
  rtc service_step w1 w2 -> b ∈ builtinRoles ->
  (forall code o w3, collate (D := D) code (operatorrole.RoleCode b) = true -> FindByRoleCode repo code w2 = (Ok o, w3) ->
     exists m, o = Some m /\ operatorrole.PrivilegeMask m = operatorrole.PrivilegeMask b /\ operatorrole.IsSystem m = true) /\
  (forall input v w3, collate (D := D) (TrimSpace (ur_RoleCode input)) (operatorrole.RoleCode b) = true ->
     Rbac.UpdateRole role_service input w2 <> (Ok v, w3)) /\
  (forall code v w3, collate (D := D) (TrimSpace code) (operatorrole.RoleCode b) = true -> Rbac.DeleteRole role_service code w2 <> (Ok v, w3)).
Proof.
  intros Ht Hboot Hrun Hb. assert (Hs : seeded (server w2)).
  { apply bootstrap_seeds in Hboot; [|done]. clear Ht. induction Hrun as [w1|w1 w2 w3 Hstep _ IH]; [done|]. apply IH.
    eapply seeded_steps; [exact builtin_apart | | exact Hboot]. destruct Hstep as [op w1|w1 w2 Hst]; [by apply operation_stepped | exact Hst]. }
  split; [|split].
  - intros code o w3 Hc Hf. destruct (find_seeded _ _ _ _ Hf Hs) as (_ & Hin & _). by apply Hin.
  - intros input v w3 Hc Hu. unfold Rbac.UpdateRole in Hu. run Hu as code w4 Hn. run Hu as o w5 Hf. run_some Hu as m Ho. run_guard Hu as Hsys.
    assert (code = TrimSpace (ur_RoleCode input) /\ w4 = w2) as [-> ->].
    { unfold normalizeRoleInput in Hn. cbv zeta in Hn. repeat case_match; try discriminate; by apply ret_Ok in Hn as [-> ->]. }
    destruct (find_seeded _ _ _ _ Hf Hs) as (_ & Hin & _). destruct (Hin _ Hb Hc) as (m' & Hm & _ & Hsys'). subst o. injection Hm as ->. by rewrite Hsys' in Hsys.
  - intros code v w3 Hc Hd. unfold Rbac.DeleteRole in Hd. cbv zeta in Hd. run_guard Hd as Hp. run Hd as o w5 Hf. run_some Hd as m Ho. run_guard Hd as Hsys.
    destruct (find_seeded _ _ _ _ Hf Hs) as (_ & Hin & _). destruct (Hin _ Hb Hc) as (m' & Hm & _ & Hsys'). subst o. injection Hm as ->. by rewrite Hsys' in Hsys.
Qed.
End Service.

Module RoleRepoDemo.
Record database := mkDatabase { table_rows : gmap Z role_row; clock : time }.
Record world := mkWorld { w_db : database }.

#[export] Instance columns : Columns database := memory_columns clock.
#[export] Instance table : Table database role_row (H := role_row_keys (D := database)) :=
  memory_table (H := role_row_keys (D := database)) table_rows (fun m d => mkDatabase m (clock d)) clock (fun m d => eq_refl).
#[export] Instance edit : TableEdit database role_row :=
  memory_edit (H := role_row_keys (D := database)) table_rows (fun m d => mkDatabase m (clock d)) clock (fun m d => eq_refl).

#[export] Program Instance remote : Remote world database := {
  server := w_db;
  put_server := fun d w => mkWorld d;
  transport := fun w => (Delivered, w);
  max_retries := fun _ => 0%nat;
}.
Next Obligation. done. Qed.

Definition users : UserRepository world := {|
  User_Create := fun m => ret m; User_FindByID := fun _ => ret None; FindByUserUUID := fun _ => ret None; FindByEmail := fun _ => ret None;
  FindByUsername := fun _ => ret None; ListByRoleCode := fun _ _ => ret []; CountByRoleCode := fun _ => ret 0;
  UpdateRoleAndPrivilege := fun _ _ _ _ => ret tt; UnlockAccount := fun _ _ => ret tt; IncrementFailedLogin := fun _ => ret 0;
  ResetFailedLogin := fun _ _ => ret tt;
|}.

Definition start : world := mkWorld (mkDatabase ∅ (1700000000 * Second)).
Definition repo : RoleRepo world database := NewOperatorRoleRepositoryRW (Some remote) None.
Definition service : Rbac.Service world := role_service repo users.
Definition booted : world := (Rbac.BootstrapBuiltinRoles service start).2.
Definition ops : UpsertRoleInput := mkUpsertRoleInput " ops " "Operations" "night shift" 0x00C0.
Definition created : world := (Rbac.CreateRole service ops booted).2.
Definition seized : UpsertRoleInput := mkUpsertRoleInput "super_admin " "Nobody" "none" 0.

(** The custom role is created, and can go; the built-in one can not. *)
Example custom_role_created :
  List.map (fun r => o_role_code r.2) (map_to_list (table_rows (w_db created))) !! 5%nat <> None /\
  (Rbac.DeleteRole service "ops" created).1 = Ok tt /\
  (Rbac.UpdateRole service seized created).1 = Err (ErrSystemRoleImmutable : error).
Proof. split; [|split]; vm_compute; [discriminate|reflexivity..]. Qed.

Lemma apart b c : b ∈ builtinRoles -> c ∈ builtinRoles ->
  collate (D := database) (operatorrole.RoleCode b) (operatorrole.RoleCode c) = true -> b = c.
Proof.
  unfold builtinRoles. rewrite !elem_of_cons. intros Hb Hc.
  destruct Hb as [->|[->|[->|[->|[->|Hb]]]]]; [..|by apply elem_of_nil in Hb];
  destruct Hc as [->|[->|[->|[->|[->|Hc]]]]]; first [by apply elem_of_nil in Hc | discriminate 1 | reflexivity].
Qed.

Lemma tidy_start : tidy (server start).
Proof. intros id r Hr. apply mem_rows_Some in Hr as [_ Hr]. simpl in Hr. by rewrite lookup_empty in Hr. Qed.
End RoleRepoDemo.

Import RoleRepoDemo.

Lemma builtin_roles_stay_witness :
  (forall v w3, Rbac.UpdateRole RoleRepoDemo.service RoleRepoDemo.seized RoleRepoDemo.created <> (Ok v, w3)) /\
  exists m w3, FindByRoleCode RoleRepoDemo.repo "super_admin" RoleRepoDemo.created = (Ok (Some m), w3) /\
    operatorrole.PrivilegeMask m = MaskSuperAdmin.
Proof.
  destruct (Rbac.BootstrapBuiltinRoles RoleRepoDemo.service RoleRepoDemo.start) as [[l|] w1] eqn:Eb; [|vm_compute in Eb; discriminate Eb].
  assert (w1 = RoleRepoDemo.booted) as -> by (unfold RoleRepoDemo.booted; rewrite Eb; reflexivity).
  destruct (builtin_roles_stay RoleRepoDemo.repo RoleRepoDemo.remote RoleRepoDemo.users eq_refl eq_refl RoleRepoDemo.apart
    (fun w => rtc_refl _ _) (fun _ w => rtc_refl _ _) RoleRepoDemo.start l RoleRepoDemo.booted RoleRepoDemo.created
    (builtin RoleSuperAdmin "Super Administrator" "full access operator for bootstrap and emergency operations" MaskSuperAdmin)
    RoleRepoDemo.tidy_start Eb
    (rtc_once _ _ (run_here RoleRepoDemo.repo RoleRepoDemo.remote RoleRepoDemo.users (op_create RoleRepoDemo.ops) RoleRepoDemo.booted))
    ltac:(unfold builtinRoles; rewrite !elem_of_cons; tauto)) as (Hf & Hu & _).
  split.
  - intros v w3. apply Hu. vm_compute. reflexivity.
  - destruct (FindByRoleCode RoleRepoDemo.repo "super_admin" RoleRepoDemo.created) as [[o|] w3] eqn:E; [|vm_compute in E; discriminate E].
    destruct (Hf "super_admin" o w3 ltac:(vm_compute; reflexivity) E) as (m & -> & Hm & _). exists m, w3. split; [reflexivity | exact Hm].
Defined.
