(* ===== verification/ConsentRepo.v ===== *)
(** * Consents in the database (consent_repo.go)

    One row per user and client holds the scopes the user granted, as a JSON
    array.  [UpsertActiveConsent] merges the new scopes into it inside a
    transaction that locks the row; [HasActiveConsent] asks whether all of a
    list were granted.  No code revokes a consent. *)

From stdpp Require Import base tactics list gmap sets strings numbers relations.
From Stdlib Require Import ZArith Lia Ascii.
From S2P Require Import Prelude GoStrings GoJson GoTime Errors Domain Scopes Ports Remote Database.

(** A row of oauth_consents. *)
Record consent_row := mkConsentRow {
  o_id : Z;
  o_user_id : Z;
  o_client_id : Z;
  o_scopes_json : string;
  o_granted_at : time;
  o_revoked_at : option time;
  o_created_at : time;
  o_updated_at : time;
}.

#[export] Instance consent_row_eq_dec : EqDecision consent_row.
Proof. solve_decision. Defined.

(** PRIMARY KEY (id), UNIQUE KEY (user_id, client_id) *)
#[export] Instance consent_row_keys : Row consent_row := {
  row_id := o_id;
  conflict := fun a b => (o_user_id a =? o_user_id b) && (o_client_id a =? o_client_id b);
}.

(** The ON DUPLICATE KEY clause, with updated_at ON UPDATE CURRENT_TIMESTAMP. *)
Definition merge_consent (t : time) (old new : consent_row) : consent_row :=
  let row updated := mkConsentRow (o_id old) (o_user_id old) (o_client_id old) (o_scopes_json new) (o_granted_at new)
                       None (o_created_at old) updated in
  if bool_decide (row (o_updated_at old) = old) then old else row t.

(** [for _, scope := range scopes { ... if _, ok := granted[scope]; !ok { return false } }] *)
Definition covers (granted : gset string) (scopes : list string) : bool :=
  forallb (fun scope => blank scope || bool_decide (TrimSpace scope ∈ granted)) scopes.

Section Repository.
Context {W D : Type} `{!Columns D} `{!Table D consent_row} `{!TableEdit D consent_row} `{!MapRange}.

Definition ConsentRepo : Type := dbRouter W D.

Definition NewConsentRepositoryRW (writeDB readDB : DB W D) : ConsentRepo := newDBRouter writeDB readDB.

(** has_active_consent_select.sql *)
Definition hasActiveConsentSelect (userID clientID : Z) : IO D (option string) :=
  let* l := SELECT (fun _ r => (o_user_id r =? userID) && (o_client_id r =? clientID) && bool_decide (o_revoked_at r = None)) in
  ret (option_map o_scopes_json (head l)).

(** upsert_select_existing.sql *)
Definition upsertSelectExisting (userID clientID : Z) : IO D (option string) :=
  let* l := SELECT (fun _ r => (o_user_id r =? userID) && (o_client_id r =? clientID)) in
  ret (option_map o_scopes_json (head l)).

(** upsert_active_consent.sql *)
Definition upsertActiveConsent (userID clientID : Z) (scopesJSON : string) (grantedAt : time) : IO D Z :=
  let* json := some_or (json_column scopesJSON) (Driver "Invalid JSON text") in
  UPSERT (fun id t => mkConsentRow id userID clientID json (datetime grantedAt) None t t) merge_consent.

(** [json.Unmarshal] into a []string *)
Definition unmarshal_scopes {S} (raw : string) : IO S (list string) :=
  let* l := some_or (UnmarshalStrings raw) (Driver "json: cannot unmarshal") in ret (elems l).

Definition HasActiveConsent (r : ConsentRepo) (userID clientID : Z) (scopes : list string) : IO W bool :=
  let* row := run_on (reader r) (hasActiveConsentSelect userID clientID) in
  match row with
  | None => ret false
  | Some scopesJSON =>
      let* grantedScopes := unmarshal_scopes scopesJSON in
      ret (covers (allowed_set grantedScopes) scopes)
  end.

(** The body of the transaction. *)
Definition upsert_tx (userID clientID : Z) (scopes : list string) (grantedAt : time) : IO D (bool * unit) :=
  let* existing := upsertSelectExisting userID clientID in
  let* existingScopes := match existing with
                         | None => ret []
                         | Some existingJSON => if blank existingJSON then ret [] else unmarshal_scopes existingJSON
                         end in
  let scopeSet := allowed_set scopes ∪ allowed_set existingScopes in
  do* upsertActiveConsent userID clientID (MarshalStrings (Some (range_keys scopeSet))) grantedAt in
  ret (true, tt).

Definition UpsertActiveConsent (r : ConsentRepo) (userID clientID : Z) (scopes : list string) (grantedAt : time) : IO W unit :=
  run_on (writer r) (transaction (upsert_tx userID clientID scopes grantedAt)).

Definition NewConsentRepository (r : ConsentRepo) : ConsentRepository W := {|
  Ports.HasActiveConsent := HasActiveConsent r;
  Ports.UpsertActiveConsent := UpsertActiveConsent r;
|}.
End Repository.
Arguments ConsentRepo : clear implicits.

(** ** The contract: a map from users and clients to the granted scopes *)

Abbreviation consents := (gmap (Z * Z) (gset string)).

Definition grant (g : Z * Z * list string) (m : consents) : consents :=
  let '(user, client, scopes) := g in
  <[(user, client) := default ∅ (m !! (user, client)) ∪ allowed_set scopes]> m.

Definition granted (m : consents) (user client : Z) (scopes : list string) : bool :=
  match m !! (user, client) with None => false | Some g => covers g scopes end.

(** The consents a history of grants leaves, the latest first. *)
Definition consented (log : list (Z * Z * list string)) : consents := foldr grant ∅ log.

Definition ascii_scopes (g : Z * Z * list string) : Prop := Forall (fun s => ascii_string s = true) g.2.

Section Refinement.
Context {D : Type} `{!Columns D} `{!Table D consent_row} `{!TableEdit D consent_row} `{!MapRange}.

(** A JSON column keeps the value of what it is given. *)
Hypothesis json_kept : forall v j, json_column (D := D) (MarshalStrings v) = Some j ->
  UnmarshalStrings j = UnmarshalStrings (MarshalStrings v) /\ blank j = false.

(** Runs of the table: grants that succeeded (logged), grants that failed, and
    whatever leaves the consents alone. *)
Inductive consent_run : list (Z * Z * list string) -> relation D :=
| run_start d : consent_run [] d d
| run_grant log d d1 d2 user client scopes at_ :
    consent_run log d d1 -> ascii_scopes (user, client, scopes) ->
    transaction (upsert_tx user client scopes at_) d1 = (Ok tt, d2) -> consent_run ((user, client, scopes) :: log) d d2
| run_failed log d d1 d2 user client scopes at_ e :
    consent_run log d d1 -> transaction (upsert_tx user client scopes at_) d1 = (Err e, d2) -> consent_run log d d2
| run_elsewhere log d d1 d2 :
    consent_run log d d1 -> rows (R := consent_row) d2 = rows d1 -> consent_run log d d2.

(** The row of a user and client stands for the set of scopes. *)
Definition stands_for (r : consent_row) (g : gset string) : Prop :=
  o_revoked_at r = None /\ blank (o_scopes_json r) = false /\ set_Forall (fun s => ascii_string s = true) g /\
  exists l, UnmarshalStrings (o_scopes_json r) = Some l /\ allowed_set (elems l) = g.

Definition represents (m : consents) (d : D) : Prop :=
  forall user client,
    match m !! (user, client) with
    | None => forall id r, rows d !! id = Some r -> o_user_id r = user -> o_client_id r = client -> False
    | Some g => exists id r, rows d !! id = Some r /\ o_user_id r = user /\ o_client_id r = client /\ stands_for r g
    end.

Lemma ascii_TrimSpace s : ascii_string s = true -> ascii_string (TrimSpace s) = true.
Proof.
  unfold ascii_string, TrimSpace, trimLeft. intros Hs.
  destruct (trim_with_suffix is_space2 is_space3 s) as [p Hp]. rewrite Hp, forall_string_app, andb_true_iff in Hs.
  destruct Hs as [_ Hs]. set (x := trim_with _ _ _) in *. destruct (trimRight_prefix x) as [q Hq].
  rewrite Hq, forall_string_app, andb_true_iff in Hs. apply Hs.
Qed.

Lemma allowed_set_trimmed l x : x ∈ allowed_set l -> x <> "" /\ TrimSpace x = x.
Proof. rewrite elem_of_allowed_set. intros (Hx & a & _ & <-). split; [done | apply TrimSpace_idem]. Qed.

Lemma allowed_set_ascii l : Forall (fun s => ascii_string s = true) l -> set_Forall (fun s => ascii_string s = true) (allowed_set l).
Proof.
  intros Hl x Hx. apply elem_of_allowed_set in Hx as (_ & a & Ha & <-). apply ascii_TrimSpace.
  rewrite Forall_forall in Hl. by apply Hl.
Qed.

(** A set of trimmed names, written out in any order and read again. *)
Lemma allowed_set_range g : (forall x, x ∈ g -> x <> "" /\ TrimSpace x = x) -> allowed_set (range_keys g) = g.
Proof.
  intros Hg. apply set_eq. intros x. rewrite elem_of_allowed_set. split.
  - intros (_ & a & Ha & <-). apply elem_of_range_keys in Ha. by rewrite (proj2 (Hg a Ha)).
  - intros Hx. split; [by apply Hg|]. exists x. split; [by apply elem_of_range_keys | by apply Hg].
Qed.

Lemma stored_set g :
  (forall x, x ∈ g -> x <> "" /\ TrimSpace x = x) -> set_Forall (fun s => ascii_string s = true) g ->
  forall j, json_column (D := D) (MarshalStrings (Some (range_keys g))) = Some j ->
  blank j = false /\ exists l, UnmarshalStrings j = Some l /\ allowed_set (elems l) = g.
Proof.
  intros Hg Ha j Hj. apply json_kept in Hj as [-> Hb]. split; [done|]. exists (Some (range_keys g)). split.
  - apply Unmarshal_Marshal. intros l [= <-]. apply forallb_forall. intros x Hx. apply Ha.
    apply elem_of_range_keys. by apply list_elem_of_In.
  - by apply allowed_set_range.
Qed.

(** What either SELECT finds for a user and client. *)
Lemma select_consent (p : consent_row -> bool) m (d : D) user client l d1 :
  represents m d ->
  (forall r, p r = true -> o_user_id r = user /\ o_client_id r = client) ->
  (forall r, o_user_id r = user -> o_client_id r = client -> o_revoked_at r = None -> p r = true) ->
  SELECT (fun _ => p) d = (Ok l, d1) ->
  match m !! (user, client) with
  | None => head l = None
  | Some g => exists r, head l = Some r /\ stands_for r g /\ exists id, rows d !! id = Some r
  end.
Proof.
  intros Hm Hp1 Hp2 Hs. pose proof (SELECT_Ok _ _ _ _ Hs) as Hin. specialize (Hm user client).
  destruct (m !! (user, client)) as [g|].
  - destruct Hm as (id & r & Hr & Hu & Hc & Hst). destruct l as [|r' l].
    { exfalso. assert (Hnil : r ∈ ([] : list consent_row)); [|by apply elem_of_nil in Hnil].
      apply Hin. split; [|by exists id]. by apply Hp2; [| |apply Hst]. }
    exists r'. split; [done|]. destruct (proj1 (Hin r') ltac:(by left)) as [Hpr [id' Hr']].
    destruct (Hp1 _ Hpr) as [Hu' Hc']. assert (id = id') as ->.
    { eapply rows_unique; [exact Hr|exact Hr'|]. simpl. by rewrite Hu, Hc, Hu', Hc', !Z.eqb_refl. }
    assert (r' = r) as -> by congruence. split; [done | by exists id'].
  - destruct l as [|r l]; [done|]. exfalso. destruct (proj1 (Hin r) ltac:(by left)) as [Hpr [id Hr]].
    destruct (Hp1 _ Hpr) as [Hu Hc]. by eapply Hm.
Qed.

Lemma two_keys u c (r : consent_row) :
  (o_user_id r =? u) && (o_client_id r =? c) = true <-> o_user_id r = u /\ o_client_id r = c.
Proof. by rewrite andb_true_iff, !Z.eqb_eq. Qed.

Lemma existing_scopes m (d : D) user client l d1 :
  represents m d -> SELECT (fun _ r => (o_user_id r =? user) && (o_client_id r =? client)) d = (Ok l, d1) ->
  forall w w' scopes, match option_map o_scopes_json (head l) with
    | None => ret []
    | Some existingJSON => if blank existingJSON then ret [] else unmarshal_scopes existingJSON
    end w = (Ok scopes, w') -> w' = (w : D) /\ allowed_set scopes = default ∅ (m !! (user, client)).
Proof.
  intros Hm Hs w w' scopes Hsc.
  pose proof (select_consent _ m d user client l d1 Hm ltac:(intros r; apply two_keys) ltac:(by intros r ?? _; apply two_keys) Hs) as Hl.
  destruct (m !! (user, client)) as [g|].
  - destruct Hl as (r & Hh & (_ & Hb & _ & l0 & Hj & Hg) & _). rewrite Hh in Hsc. simpl in Hsc. rewrite Hb in Hsc. unfold unmarshal_scopes in Hsc.
    run_some Hsc as l1 Ho. apply ret_Ok in Hsc as [<- <-]. rewrite Hj in Ho. by injection Ho as <-.
  - rewrite Hl in Hsc. simpl in Hsc. by apply ret_Ok in Hsc as [<- <-].
Qed.

(** One transaction is one [grant]. *)
Lemma upsert_grants m (d d' : D) user client scopes at_ :
  represents m d -> ascii_scopes (user, client, scopes) ->
  upsert_tx user client scopes at_ d = (Ok (true, tt), d') -> represents (grant (user, client, scopes) m) d'.
Proof.
  intros Hm Ha Hx. unfold upsert_tx, upsertSelectExisting in Hx. run Hx as existing d1 Hs. run Hs as l d0 Hs1.
  apply ret_Ok in Hs as [<- <-]. pose proof (SELECT_rows _ _ _ _ Hs1) as Hd1.
  run Hx as old d2 Hold. apply (existing_scopes m d user client l d0 Hm Hs1) in Hold as [-> Hold].
  run Hx as n d3 Hu. apply ret_Ok in Hx as [_ <-]. unfold upsertActiveConsent in Hu. run_some Hu as j Hj.
  rewrite Hold in Hj. set (g := allowed_set scopes ∪ default ∅ (m !! (user, client))) in *.
  assert (Hg : (forall x, x ∈ g -> x <> "" /\ TrimSpace x = x) /\ set_Forall (fun s => ascii_string s = true) g).
  { assert (Hold' : forall y, y ∈ g -> y ∈ allowed_set scopes \/ exists g0, m !! (user, client) = Some g0 /\ y ∈ g0).
    { intros y. unfold g. rewrite elem_of_union. intros [Hin|Hin]; [by left|]. destruct (m !! (user, client)) as [g0|]; [right; by exists g0|].
      by apply elem_of_empty in Hin. }
    pose proof (Hm user client) as Hrow. split; intros y Hy; apply Hold' in Hy as [Hy | (g0 & Hg0 & Hy)].
    - by eapply allowed_set_trimmed.
    - rewrite Hg0 in Hrow. destruct Hrow as (? & r & _ & _ & _ & _ & _ & _ & l' & _ & Hl').
      rewrite <- Hl' in Hy. by eapply allowed_set_trimmed.
    - by apply (allowed_set_ascii scopes).
    - rewrite Hg0 in Hrow. destruct Hrow as (? & r & _ & _ & _ & _ & _ & Hag & _). by apply Hag. }
  destruct Hg as [Hgt Hga]. destruct (stored_set g Hgt Hga j Hj) as (Hb & l' & Hl' & Hg).
  apply UPSERT_Ok in Hu as (id & t & Hu). rewrite Hd1 in Hu.
  assert (Hnew : exists r, rows d3 = <[id := r]> (rows d) /\ o_user_id r = user /\ o_client_id r = client /\ stands_for r g /\
    forall i s, rows d !! i = Some s -> o_user_id s = user -> o_client_id s = client -> i = id).
  { destruct Hu as [(Hn & Hno & Hrows & Hid)|(r & Hr & Hc & Hrows)].
    - eexists. split; [exact Hrows|]. do 2 (split; [done|]). split; [by repeat split; [..|exists l']|].
      intros i s Hi Hus Hcs. specialize (Hno i s Hi). simpl in Hno. by rewrite Hus, Hcs, !Z.eqb_refl in Hno.
    - simpl in Hc. apply two_keys in Hc as [Hus Hcs].
      eexists. split; [exact Hrows|]. unfold merge_consent. case_bool_decide as Heq.
      + simpl in Heq. split; [done|]. split; [done|].
        assert (o_scopes_json r = j /\ o_revoked_at r = None) as [Hjs Hrev] by (rewrite <- Heq; done).
        split; [split; [done|]; rewrite Hjs; by repeat split; [..|exists l']|].
        intros i s Hi Hu' Hc'. eapply rows_unique; [exact Hi|exact Hr|]. simpl. by rewrite Hu', Hc', Hus, Hcs, !Z.eqb_refl.
      + simpl. do 2 (split; [done|]). split; [by repeat split; [..|exists l']|].
        intros i s Hi Hu' Hc'. eapply rows_unique; [exact Hi|exact Hr|]. simpl. by rewrite Hu', Hc', Hus, Hcs, !Z.eqb_refl. }
  destruct Hnew as (r & Hrows & Hru & Hrc & Hst & Honly).
  intros u c. unfold grant. cbv beta iota. destruct (decide ((u, c) = (user, client))) as [[= -> ->]|Hne].
  - rewrite lookup_insert_eq. exists id, r. rewrite Hrows, lookup_insert_eq. do 3 (split; [done|]).
    by rewrite (union_comm_L _ (allowed_set scopes)).
  - rewrite lookup_insert_ne by congruence. specialize (Hm u c). destruct (m !! (u, c)) as [g1|].
    + destruct Hm as (i & s & Hi & Hus & Hcs & Hss). exists i, s. split; [|done]. rewrite Hrows, lookup_insert_ne; [done|].
      intros <-. pose proof (rows_keyed _ _ _ Hi) as Hk.
      assert (Hrow : rows d3 !! id = Some r) by by rewrite Hrows, lookup_insert_eq.
      destruct Hu as [(Hn & _)|(r1 & Hr1 & Hc1 & _)]; [congruence|]. simpl in Hc1. apply two_keys in Hc1 as [? ?]. congruence.
    + intros i s Hi Hus Hcs. rewrite Hrows in Hi. destruct (decide (i = id)) as [->|Hni].
      * rewrite lookup_insert_eq in Hi. injection Hi as <-. apply Hne. congruence.
      * rewrite lookup_insert_ne in Hi by done. by eapply Hm.
Qed.

Lemma represents_run log m (d d' : D) :
  represents m d -> consent_run log d d' -> represents (foldr grant m log) d'.
Proof.
  intros Hm Hrun. induction Hrun as [d|log d d1 d2 user client scopes at_ _ IH Ha Hx|log d d1 d2 user client scopes at_ e _ IH Hx|
    log d d1 d2 _ IH Hx].
  - done.
  - cbn [foldr]. apply transaction_Ok in Hx as [Hx|(d3 & Hx & _)].
    + eapply upsert_grants; [by apply IH | done | exact Hx].
    + exfalso. unfold upsert_tx in Hx. run Hx as o1 e1 H1. run Hx as o2 e2 H2. run Hx as o3 e3 H3. by apply ret_Ok in Hx as [? _].
  - apply transaction_Err in Hx as ->. by apply IH.
  - intros u c. specialize (IH Hm u c). by destruct (foldr grant m log !! (u, c)); rewrite Hx.
Qed.

Lemma consent_run_app log1 log2 (d d1 d2 : D) :
  consent_run log1 d d1 -> consent_run log2 d1 d2 -> consent_run (log2 ++ log1) d d2.
Proof.
  intros H1 H2. induction H2; simpl; [done | by eapply run_grant; eauto | by eapply run_failed; eauto | by eapply run_elsewhere; eauto].
Qed.

(** C33. The consent table keeps the contract of a map from (user, client) to
    a set of scopes.  In any run from an empty table, grants of any number of
    servers interleaved, failed and retried ones included,
    [HasActiveConsent] answers exactly what the grants that succeeded say:
    false when this user granted this client nothing, and otherwise whether
    every scope asked for, spaces aside, is among those granted.  In
    particular one grant never takes back an earlier one, and the answer is
    never yes for a scope that was not granted by that user to that client. *)
Theorem consent_store_refines_map {W} (repo : ConsentRepo W D) (h : Remote W D) log d0 w user client scopes b w' :
  reader repo = Some h ->
  (forall w, exists more, consent_run more (server w) (server (transport w).2)) ->
  rows (R := consent_row) d0 = ∅ -> consent_run log d0 (server w) ->
  HasActiveConsent repo user client scopes w = (Ok b, w') ->
  exists more, consent_run (more ++ log) d0 (server w') /\
    b = granted (consented (more ++ log)) user client scopes.
Proof.
  intros Hr Htr Hempty Hlog Hx. unfold HasActiveConsent, run_on in Hx. rewrite Hr in Hx. run Hx as row w1 Hc.
  apply (call_Ok_steps (fun d d' => exists more, consent_run more d d')) in Hc as (w2 & d & Hst & Hs & Hw1).
  2: { intros w0. by apply rtc_once. }
  2: { intros d. apply rtc_once. exists []. eapply run_elsewhere; [apply run_start|]. unfold hasActiveConsentSelect, bind.
       destruct (SELECT _ d) as [a d'] eqn:Es. apply SELECT_rows in Es. by destruct a. }
  assert (Hmore : exists more, consent_run more (server w) (server w2)).
  { clear -Hst. induction Hst as [d|d1 d2 d3 [m1 H1] _ [m2 H2]]; [exists []; apply run_start|]. exists (m2 ++ m1). by eapply consent_run_app. }
  destruct Hmore as [more Hmore]. pose proof (consent_run_app _ _ _ _ _ Hlog Hmore) as Hrun.
  assert (Hrep : represents (consented (more ++ log)) (server w2)).
  { eapply represents_run, Hrun. intros u c. rewrite lookup_empty. intros id r Hrow. rewrite Hempty in Hrow. by rewrite lookup_empty in Hrow. }
  unfold hasActiveConsentSelect in Hs. run Hs as l d1 Hs1. apply ret_Ok in Hs as [<- <-].
  assert (Hw' : server w' = d1).
  { destruct (option_map o_scopes_json (head l)); [|by apply ret_Ok in Hx as [_ <-]].
    unfold unmarshal_scopes in Hx. run Hx as l0 w3 Hu. run_some Hu as l1 Hl1. apply ret_Ok in Hu as [_ <-]. by apply ret_Ok in Hx as [_ <-]. }
  exists more. split.
  { rewrite Hw'. eapply run_elsewhere; [exact Hrun|]. by eapply SELECT_rows. }
  pose proof (select_consent (fun r => (o_user_id r =? user) && (o_client_id r =? client) && bool_decide (o_revoked_at r = None))
    _ _ user client _ _ Hrep ltac:(intros r Hb; apply andb_true_iff in Hb as [Hb _]; by apply two_keys)
    ltac:(intros r ? ? Hn; apply andb_true_iff; split; [by apply two_keys | by apply bool_decide_eq_true_2]) Hs1) as Hl.
  unfold granted. destruct (consented (more ++ log) !! (user, client)) as [g|].
  - destruct Hl as (r & Hh & (_ & _ & _ & l1 & Hj & Hg) & _). rewrite Hh in Hx. simpl in Hx. unfold unmarshal_scopes in Hx.
    run Hx as l0 w3 Hu. run_some Hu as l2 Hl2. apply ret_Ok in Hu as [<- _]. apply ret_Ok in Hx as [<- _].
    rewrite Hj in Hl2. injection Hl2 as <-. by rewrite Hg.
  - rewrite Hl in Hx. by apply ret_Ok in Hx as [<- _].
Qed.
End Refinement.

(** ** At work *)

Module ConsentRepoDemo.
Record database := mkDatabase { table_rows : gmap Z consent_row; clock : time }.
Record world := mkWorld { w_db : database }.

#[export] Instance columns : Columns database := memory_columns clock.
#[export] Instance table : Table database consent_row :=
  memory_table table_rows (fun m d => mkDatabase m (clock d)) clock (fun m d => eq_refl).
#[export] Instance edit : TableEdit database consent_row :=
  memory_edit table_rows (fun m d => mkDatabase m (clock d)) clock (fun m d => eq_refl).
#[export] Program Instance ranges : MapRange := { range_keys := base.elements }.
Next Obligation. done. Qed.

#[export] Program Instance remote : Remote world database := {
  server := w_db;
  put_server := fun d w => mkWorld d;
  transport := fun w => (Delivered, w);
  max_retries := fun _ => 0%nat;
}.
Next Obligation. done. Qed.

Definition repo : ConsentRepo world database := NewConsentRepositoryRW (Some remote) None.
Definition empty : database := mkDatabase ∅ (1700000000 * Second).
Definition once : world := (UpsertActiveConsent repo 7 3 ["openid"; " profile "] 0 (mkWorld empty)).2.
Definition twice : world := (UpsertActiveConsent repo 7 3 ["email"] 0 once).2.

Lemma json_as_is v j : json_column (D := database) (MarshalStrings v) = Some j ->
  UnmarshalStrings j = UnmarshalStrings (MarshalStrings v) /\ blank j = false.
Proof.
  change (Some (MarshalStrings v) = Some j -> UnmarshalStrings j = UnmarshalStrings (MarshalStrings v) /\ blank j = false).
  intros [= <-]. split; [done|]. destruct v as [[|s l]|]; [done| |done]. by apply not_blank_visible.
Qed.

Lemma no_rows : rows (R := consent_row) empty = ∅.
Proof. vm_compute. reflexivity. Qed.

Lemma twice_run : consent_run [(7, 3, ["email"]); (7, 3, ["openid"; " profile "])] empty (server twice).
Proof.
  eapply (run_grant _ _ (server once)); [eapply (run_grant _ _ empty); [apply run_start| |]| |].
  2: { instantiate (1 := 0). change (transaction (upsert_tx 7 3 ["openid"; " profile "] 0) empty = (Ok tt, server once)).
       vm_compute. reflexivity. }
  1, 2: repeat constructor.
  instantiate (1 := 0). change (transaction (upsert_tx 7 3 ["email"] 0) (server once) = (Ok tt, server twice)). vm_compute. reflexivity.
Qed.
End ConsentRepoDemo.

Import ConsentRepoDemo.

Lemma consent_store_refines_map_witness :
  exists b w', HasActiveConsent ConsentRepoDemo.repo 7 3 ["profile"; "email"] ConsentRepoDemo.twice = (Ok b, w') /\ b = true.
Proof.
  destruct (HasActiveConsent ConsentRepoDemo.repo 7 3 ["profile"; "email"] ConsentRepoDemo.twice) as [[b|] w'] eqn:E;
    [|vm_compute in E; discriminate E].
  exists b, w'. split; [reflexivity|].
  destruct (consent_store_refines_map ConsentRepoDemo.json_as_is
    ConsentRepoDemo.repo ConsentRepoDemo.remote _ ConsentRepoDemo.empty _ _ _ _ _ _ eq_refl
    (fun w => ex_intro _ [] (run_start _)) ConsentRepoDemo.no_rows ConsentRepoDemo.twice_run E) as (more & _ & _).
  vm_compute in E. injection E as <- _. reflexivity.
Defined.
