(* ===== verification/TotpRepo.v ===== *)
(** * One-time-password secrets in the database (totp_repo.go)

    One row per user, its secret encrypted when the repository has a codec.
    The codec is an interface with one law, that what it encrypts it decrypts;
    [SecretCodec] is one. *)

From stdpp Require Import base tactics list gmap strings numbers relations.
From Stdlib Require Import ZArith Lia Ascii.
From S2P Require Import Prelude GoStrings GoCrypto GoTime Errors Domain Remote Database Totp SecretCodec Ports AuthPorts.

(** A row of user_totp_credentials. *)
Record totp_row := mkTotpRow {
  p_id : Z;
  p_user_id : Z;
  p_secret : string;
  p_enabled_at : time;
  p_created_at : time;
  p_updated_at : time;
}.

#[export] Instance totp_row_eq_dec : EqDecision totp_row.
Proof. solve_decision. Defined.

(** PRIMARY KEY (id), UNIQUE KEY (user_id) *)
#[export] Instance totp_row_keys : Row totp_row := {
  row_id := p_id;
  conflict := fun a b => p_user_id a =? p_user_id b;
}.

Record secretCodec (W : Type) := mkCodec {
  codec_Encrypt : string -> IO W string;
  codec_Decrypt : string -> IO W string;
}.
Arguments codec_Encrypt {W} s p.
Arguments codec_Decrypt {W} s v.

Definition faithful {W} (c : secretCodec W) : Prop := forall p w v w',
  codec_Encrypt c p w = (Ok v, w') -> forall w1, codec_Decrypt c v w1 = (Ok (TrimSpace p), w1).

(** [infrasecurity.SecretCodec] as a [secretCodec]. *)
Definition secret_codec {W} `{!Runtime W} `{!GCM} (c : SecretCodec) : secretCodec W :=
  mkCodec W (Encrypt c) (Decrypt c).

Lemma secret_codec_faithful {W} `{!Runtime W} `{!GCM} keyMaterial c (w0 w1 : W) :
  random_bytes (W := W) -> NewSecretCodec keyMaterial w0 = (Ok c, w1) -> faithful (secret_codec c).
Proof.
  intros Hr Hk p w v w' He w2. unfold NewSecretCodec in Hk. run Hk as key wk Hp. apply ret_Ok in Hk as [<- _].
  apply parseSecretKey_size in Hp. by apply (Decrypt_Encrypt (S1 := W) (mkSecretCodec key) p w w' v).
Qed.

Definition with_secret (secret : string) (m : totp.Model) : totp.Model :=
  totp.mk (totp.ID m) (totp.UserID m) secret (totp.EnabledAt m) (totp.CreatedAt m) (totp.UpdatedAt m).

(** The ON DUPLICATE KEY clause; it sets updated_at itself. *)
Definition replace_secret (t : time) (old new : totp_row) : totp_row :=
  mkTotpRow (p_id old) (p_user_id old) (p_secret new) (p_enabled_at new) (p_created_at old) (p_updated_at new).

Section Repository.
Context {W D : Type} `{!Runtime W} `{!Columns D} `{!Table D totp_row} `{!TableEdit D totp_row}.

Record TotpRepo := mkTotpRepo { db : dbRouter W D; codec : option (secretCodec W) }.

Definition NewTOTPRepositoryRW (writeDB readDB : DB W D) (codec : option (secretCodec W)) : TotpRepo :=
  mkTotpRepo (newDBRouter writeDB readDB) codec.

(** find_by_user_id.sql *)
Definition findByUserID (userID : Z) : IO D (option totp_row) :=
  let* l := SELECT (fun _ r => p_user_id r =? userID) in ret (head l).

(** upsert.sql *)
Definition upsertTotp (userID : Z) (secret : string) (enabledAt createdAt updatedAt : time) : IO D Z :=
  UPSERT (fun id _ => mkTotpRow id userID secret (datetime enabledAt) (datetime createdAt) (datetime updatedAt)) replace_secret.

(** delete_by_user.sql *)
Definition deleteByUser (userID : Z) : IO D Z := DELETE (R := totp_row) (fun _ r => p_user_id r =? userID).

Definition encryptSecret (r : TotpRepo) (secret : string) : IO W string :=
  match codec r with None => ret secret | Some c => codec_Encrypt c secret end.

Definition decryptSecret (r : TotpRepo) (secret : string) : IO W string :=
  match codec r with None => ret secret | Some c => codec_Decrypt c secret end.

Definition scan_totp (r : totp_row) : totp.Model :=
  totp.mk (p_id r) (p_user_id r) (p_secret r) (p_enabled_at r) (p_created_at r) (p_updated_at r).

Definition FindByUserID (r : TotpRepo) (userID : Z) : IO W (option totp.Model) :=
  let* row := run_on (reader (db r)) (findByUserID userID) in
  match row with
  | None => ret None
  | Some row =>
      let model := scan_totp row in
      let* secret := decryptSecret r (totp.Secret model) in
      ret (Some (with_secret secret model))
  end.

(** [if t.IsZero() { t = now }] *)
Definition or_now (t now : time) : time := if t =? zero_time then now else t.

Definition Upsert (r : TotpRepo) (model : totp.Model) : IO W unit :=
  let* t := now in
  let* secret := encryptSecret r (totp.Secret model) in
  do* run_on (writer (db r))
        (upsertTotp (totp.UserID model) secret (or_now (totp.EnabledAt model) t) (or_now (totp.CreatedAt model) t)
           (or_now (totp.UpdatedAt model) t)) in
  ret tt.

Definition DeleteByUserID (r : TotpRepo) (userID : Z) : IO W unit :=
  do* run_on (writer (db r)) (deleteByUser userID) in ret tt.

Definition NewTOTPRepository (r : TotpRepo) : TOTPRepository W := {|
  TOTP_FindByUserID := FindByUserID r;
  TOTP_Upsert := Upsert r;
  TOTP_DeleteByUserID := DeleteByUserID r;
|}.
End Repository.
Arguments TotpRepo : clear implicits.

(** ** Runs of the table's operations *)

Section Steps.
Context {D : Type} `{!Columns D} `{!Table D totp_row} `{!TableEdit D totp_row}.

(** One statement on the secrets of the users in [touched], whatever its
    outcome; or anything that leaves the table alone. *)
Inductive totp_step (touched : Z -> Prop) : relation D :=
| totp_upserted user secret t1 t2 t3 d a d' :
    touched user -> upsertTotp user secret t1 t2 t3 d = (a, d') -> totp_step touched d d'
| totp_deleted user d a d' : touched user -> deleteByUser user d = (a, d') -> totp_step touched d d'
| totp_elsewhere d d' : rows (R := totp_row) d' = rows d -> totp_step touched d d'.

(** What the table says of a user. *)
Definition secret_of (user : Z) (s : option (string * time)) (d : D) : Prop :=
  match s with
  | Some (v, t) => exists id r, rows d !! id = Some r /\ p_user_id r = user /\ p_secret r = v /\ p_enabled_at r = t
  | None => forall id r, rows d !! id = Some r -> p_user_id r <> user
  end.

Lemma secret_of_rows user s (d d' : D) : rows (R := totp_row) d' = rows d -> secret_of user s d -> secret_of user s d'.
Proof. intros Hd. unfold secret_of. by rewrite Hd. Qed.

Lemma upsert_other user other secret t1 t2 t3 s (d : D) a d' : user <> other ->
  upsertTotp other secret t1 t2 t3 d = (a, d') -> secret_of user s d -> secret_of user s d'.
Proof.
  intros Hne Hu. unfold upsertTotp in Hu. destruct a as [n|e].
  2: { apply UPSERT_Err in Hu. by apply secret_of_rows. }
  apply UPSERT_Ok in Hu as (id & t & [(Hn & _ & Hr & _)|(r0 & Hr0 & Hc & Hr)]).
  - destruct s as [[v te]|]; simpl.
    + intros (i & r & Hi & Hrest). exists i, r. split; [|done]. rewrite Hr, lookup_insert_ne; [done|congruence].
    + intros Hno i r. rewrite Hr. destruct (decide (i = id)) as [->|]; [rewrite lookup_insert_eq; intros [= <-]; simpl; congruence|].
      rewrite lookup_insert_ne by done. apply Hno.
  - simpl in Hc. apply Z.eqb_eq in Hc. destruct s as [[v te]|]; simpl.
    + intros (i & r & Hi & Hu & Hrest). exists i, r. split; [|done]. rewrite Hr, lookup_insert_ne; [done|congruence].
    + intros Hno i r. rewrite Hr. destruct (decide (i = id)) as [->|]; [rewrite lookup_insert_eq; intros [= <-]; simpl; congruence|].
      rewrite lookup_insert_ne by done. apply Hno.
Qed.

Lemma upsert_same user secret t1 t2 t3 (d : D) n d' :
  upsertTotp user secret t1 t2 t3 d = (Ok n, d') -> secret_of user (Some (secret, datetime t1)) d'.
Proof.
  intros Hu. apply UPSERT_Ok in Hu as (id & t & [(_ & _ & Hr & _)|(r0 & _ & Hc & Hr)]).
  - exists id. eexists. by rewrite Hr, lookup_insert_eq.
  - simpl in Hc. apply Z.eqb_eq in Hc. exists id. eexists. by rewrite Hr, lookup_insert_eq.
Qed.

Lemma delete_other user other s (d : D) a d' : user <> other ->
  deleteByUser other d = (a, d') -> secret_of user s d -> secret_of user s d'.
Proof.
  intros Hne Hx. unfold deleteByUser in Hx. destruct a as [n|e].
  2: { apply DELETE_Err in Hx. by apply secret_of_rows. }
  apply DELETE_Ok in Hx. unfold secret_of. rewrite Hx. destruct s as [[v te]|].
  - intros (i & r & Hi & Hu & Hrest). exists i, r. split; [|done]. apply map_lookup_filter_Some. split; [done|].
    simpl. apply Z.eqb_neq. congruence.
  - intros Hno i r Hi. apply map_lookup_filter_Some in Hi as [Hi _]. by eapply Hno.
Qed.

Lemma delete_same user (d : D) n d' : deleteByUser user d = (Ok n, d') -> secret_of user None d'.
Proof.
  intros Hx i r. apply DELETE_Ok in Hx. rewrite Hx. intros [_ Hf]%map_lookup_filter_Some. simpl in Hf. by apply Z.eqb_neq.
Qed.

Lemma totp_steps_other user s (d d' : D) :
  rtc (totp_step (fun u => u <> user)) d d' -> secret_of user s d -> secret_of user s d'.
Proof.
  induction 1 as [|d d1 d2 Hs _ IH]; [done|]. intros Hsec. apply IH. destruct Hs as [u v t1 t2 t3 d a d' Hu Hx|u d a d' Hu Hx|d d' Hx].
  - by eapply upsert_other; [| exact Hx |].
  - by eapply delete_other; [| exact Hx |].
  - by eapply secret_of_rows.
Qed.

Lemma select_steps touched user (d : D) : rtc (totp_step touched) d (findByUserID user d).2.
Proof.
  apply rtc_once, totp_elsewhere. unfold findByUserID, bind.
  destruct (SELECT _ d) as [b d1] eqn:Es. apply SELECT_rows in Es. by destruct b.
Qed.

Lemma select_secret user s (d : D) o d' : findByUserID user d = (Ok o, d') -> secret_of user s d ->
  match s with
  | Some (v, t) => exists r, o = Some r /\ p_user_id r = user /\ p_secret r = v /\ p_enabled_at r = t
  | None => o = None
  end.
Proof.
  intros Hf Hs. unfold findByUserID in Hf. run Hf as l d1 Hl. apply ret_Ok in Hf as [<- _].
  pose proof (SELECT_Ok _ _ _ _ Hl) as Hin. destruct s as [[v t]|].
  - destruct Hs as (id & r & Hr & Hu & Hrest). destruct l as [|r1 l].
    { exfalso. assert (Hnil : r ∈ ([] : list totp_row)); [|by apply elem_of_nil in Hnil].
      apply Hin. split; [by apply Z.eqb_eq | by exists id]. }
    exists r1. split; [done|]. destruct (proj1 (Hin r1) ltac:(by left)) as [Hu1 [id1 Hr1]].
    assert (id = id1) as ->. { eapply rows_unique; [exact Hr | exact Hr1|]. simpl. apply Z.eqb_eq. apply Z.eqb_eq in Hu1. congruence. }
    assert (r1 = r) as -> by congruence. done.
  - destruct l as [|r l]; [done|]. exfalso. destruct (proj1 (Hin r) ltac:(by left)) as [Hu [id Hr]].
    apply Z.eqb_eq in Hu. by eapply Hs.
Qed.
End Steps.

Section Repo.
Context {W D : Type} `{!Runtime W} `{!Columns D} `{!Table D totp_row} `{!TableEdit D totp_row}.
Context (repo : TotpRepo W D) (h : Remote W D) (user : Z).
Hypothesis on_writer : writer (db repo) = Some h.
Hypothesis on_reader : reader (db repo) = Some h.
Hypothesis codec_ok : match codec repo with None => True | Some c => faithful c end.

(** Nobody else touches the secret of [user]. *)
Definition others : relation D := rtc (totp_step (fun u => u <> user)).
Hypothesis transport_others : forall w, others (server w) (server (transport w).2).

Lemma decrypt_encrypt secret w v w' : encryptSecret repo secret w = (Ok v, w') -> TrimSpace secret = secret ->
  forall w1, decryptSecret repo v w1 = (Ok secret, w1).
Proof.
  unfold encryptSecret, decryptSecret. intros He Ht w1. destruct (codec repo) as [c|].
  - rewrite (codec_ok _ _ _ _ He w1). by rewrite Ht.
  - by apply ret_Ok in He as [-> _].
Qed.

(** What a lookup runs on. *)
Lemma find_inv o w w' s : FindByUserID repo user w = (Ok o, w') -> secret_of user s (server w) ->
  match s with
  | Some (v, t) => exists r secret w1 w2, o = Some (with_secret secret (scan_totp r)) /\ p_user_id r = user /\
      p_enabled_at r = t /\ decryptSecret repo v w1 = (Ok secret, w2)
  | None => o = None
  end.
Proof.
  intros Hf Hs. unfold FindByUserID, run_on in Hf. rewrite on_reader in Hf. run Hf as row w1 Hc.
  apply (call_Ok_steps (totp_step (fun u => u <> user))) in Hc as (w2 & d & Hst & Hq & _);
    [|exact transport_others|intros; apply select_steps].
  apply (totp_steps_other _ _ _ _ Hst) in Hs. apply (select_secret _ _ _ _ _ Hq) in Hs.
  destruct s as [[v t]|].
  - destruct Hs as (r & -> & Hu & Hv & Ht). run Hf as secret w3 Hd. apply ret_Ok in Hf as [<- _].
    exists r, secret, w1, w3. simpl in Hd. rewrite Hv in Hd. done.
  - subst row. by apply ret_Ok in Hf as [<- _].
Qed.

(** The secret a user enrolled is the secret later logins verify
    against: after [Upsert], and whatever statements other requests make for
    other users, a lookup of the user that answers finds that user's row with
    this very secret, through the encryption; after [DeleteByUserID] it finds
    nothing. *)
Theorem enrolled_secret_found m w w1 w2 :
  Upsert repo m w = (Ok tt, w1) -> totp.UserID m = user -> TrimSpace (totp.Secret m) = totp.Secret m ->
  others (server w1) (server w2) ->
  (forall o w3, FindByUserID repo user w2 = (Ok o, w3) ->
     exists x, o = Some x /\ totp.UserID x = user /\ totp.Secret x = totp.Secret m /\
       (totp.EnabledAt m <> zero_time -> totp.EnabledAt x = datetime (totp.EnabledAt m))) /\
  (forall w3 w4, DeleteByUserID repo user w2 = (Ok tt, w3) -> others (server w3) (server w4) ->
     forall o w5, FindByUserID repo user w4 = (Ok o, w5) -> o = None).
Proof.
  intros Hu Hm Ht Hrtc. split.
  - intros o w3 Hf. unfold Upsert in Hu. run Hu as t wa Hn. run Hu as v wb He. run Hu as n wc Hx. apply ret_Ok in Hu as [_ <-].
    unfold run_on in Hx. rewrite on_writer in Hx. apply call_Ok in Hx as (wd & d & Hx & <-).
    rewrite Hm in Hx. apply upsert_same in Hx. apply (totp_steps_other _ _ _ _ Hrtc) in Hx.
    apply (find_inv _ _ _ _ Hf) in Hx as (r & secret & w4 & w5 & -> & Hr & Hte & Hd).
    rewrite (decrypt_encrypt _ _ _ _ He Ht w4) in Hd. injection Hd as <- _.
    eexists. split; [done|]. split; [done|]. split; [done|]. intros Hz. simpl. rewrite Hte. unfold or_now.
    by rewrite (proj2 (Z.eqb_neq _ _) Hz).
  - intros w3 w4 Hd Hrtc2 o w5 Hf. unfold DeleteByUserID, run_on in Hd. rewrite on_writer in Hd.
    run Hd as n wa Hx. apply ret_Ok in Hd as [_ <-]. apply call_Ok in Hx as (wb & d & Hx & <-).
    apply delete_same in Hx. apply (totp_steps_other _ _ _ _ Hrtc2) in Hx. by apply (find_inv _ _ _ _ Hf) in Hx.
Qed.
End Repo.

(** ** At work *)

Import SecretCodecDemo.

Module TotpRepoDemo.
Record database := mkDatabase { table_rows : gmap Z totp_row; clock : time }.
Record world := mkWorld { w_db : database }.

#[export] Instance columns : Columns database := memory_columns clock.
#[export] Instance table : Table database totp_row :=
  memory_table table_rows (fun m d => mkDatabase m (clock d)) clock (fun m d => eq_refl).
#[export] Instance edit : TableEdit database totp_row :=
  memory_edit table_rows (fun m d => mkDatabase m (clock d)) clock (fun m d => eq_refl).

#[export] Program Instance remote : Remote world database := {
  server := w_db;
  put_server := fun d w => mkWorld d;
  transport := fun w => (Delivered, w);
  max_retries := fun _ => 0%nat;
}.
Next Obligation. done. Qed.

#[export] Instance runtime : Runtime world := {
  time_Now := fun w => (clock (w_db w), w);
  uuid_NewString := fun w => ("uuid", w);
  rand_Read := fun n w => (Ok (replicate n 7), w);
}.

Lemma seven : random_bytes (W := world).
Proof.
  intros n w raw w' [= <- _]. split; [apply length_replicate|]. unfold bytes_ok.
  induction n; simpl; [constructor | by constructor].
Qed.

Definition start : world := mkWorld (mkDatabase ∅ (1700000000 * Second)).
Definition repo : TotpRepo world database :=
  NewTOTPRepositoryRW (Some remote) None (Some (secret_codec (W := world) SecretCodecDemo.codec)).
Definition enrolled : totp.Model := totp.mk 0 7 "JBSWY3DPEHPK3PXP" (1700000000 * Second) zero_time zero_time.
Definition stored : world := (Upsert repo enrolled start).2.

(** The column does not hold the secret. *)
Example stored_encrypted :
  List.map (fun r => p_secret r.2) (map_to_list (table_rows (w_db stored))) =
  ["enc:v1:BwcHBwcHBwcHBwcHSkJTV1kzRFBFSFBLM1BYUAAAAAAAAAAAAAAAAAAAAAA"].
Proof. vm_compute. reflexivity. Qed.
End TotpRepoDemo.

Import TotpRepoDemo.

Lemma enrolled_secret_found_witness :
  exists x w', FindByUserID TotpRepoDemo.repo 7 TotpRepoDemo.stored = (Ok (Some x), w') /\ totp.Secret x = "JBSWY3DPEHPK3PXP".
Proof.
  destruct (FindByUserID TotpRepoDemo.repo 7 TotpRepoDemo.stored) as [[o|] w'] eqn:E; [|vm_compute in E; discriminate E].
  assert (Hu : Upsert TotpRepoDemo.repo TotpRepoDemo.enrolled TotpRepoDemo.start = (Ok tt, TotpRepoDemo.stored))
    by (vm_compute; reflexivity).
  destruct (enrolled_secret_found TotpRepoDemo.repo TotpRepoDemo.remote 7 eq_refl eq_refl
    (secret_codec_faithful SecretCodecDemo.keyMaterial SecretCodecDemo.codec TotpRepoDemo.start TotpRepoDemo.start TotpRepoDemo.seven
       ltac:(vm_compute; reflexivity))
    (fun w => rtc_refl _ _) _ _ _ TotpRepoDemo.stored Hu eq_refl ltac:(vm_compute; reflexivity) (rtc_refl _ _)) as [Hf _].
  destruct (Hf _ _ E) as (x & -> & _ & Hs & _). exists x, w'. split; [reflexivity | exact Hs].
Defined.
