(* ===== verification/JwkKeyRepo.v ===== *)
(** * Signing keys in the database (jwk_key_repo.go)

    One row per key, by kid.  A new key is inserted active in a transaction
    that first retires the active ones: they stay listed, and their tokens
    verifiable, until the time they are given. *)

From stdpp Require Import base tactics list gmap strings numbers relations sorting.
From Stdlib Require Import ZArith Lia Ascii.
From S2P Require Import Prelude GoStrings GoTime Errors Domain Remote Database.

(** A row of jwk_keys. *)
Record jwk_row := mkJwkRow {
  j_id : Z;
  j_kid : string;
  j_kty : string;
  j_alg : string;
  j_use_type : string;
  j_public_jwk_json : string;
  j_private_key_ref : option string;
  j_is_active : bool;
  j_created_at : time;
  j_rotates_at : option time;
  j_deactivated_at : option time;
}.

(** PRIMARY KEY (id), UNIQUE KEY (kid) *)
#[export] Instance jwk_row_keys {D} `{Columns D} : Row jwk_row := {
  row_id := j_id;
  conflict := fun a b => collate (D := D) (j_kid a) (j_kid b);
}.

Record JWKKeyRecord := mkJWKKeyRecord {
  kr_ID : Z;
  kr_KID : string;
  kr_KTY : string;
  kr_Alg : string;
  kr_UseType : string;
  kr_PublicJWKJSON : string;
  kr_PrivateKeyRef : string;
  kr_IsActive : bool;
  kr_CreatedAt : time;
  kr_RotatesAt : option time;
  kr_DeactivatedAt : option time;
}.

Definition scan_key (r : jwk_row) : JWKKeyRecord :=
  mkJWKKeyRecord (j_id r) (j_kid r) (j_kty r) (j_alg r) (j_use_type r) (j_public_jwk_json r)
    (scan_string (j_private_key_ref r)) (j_is_active r) (j_created_at r) (j_rotates_at r) (j_deactivated_at r).

(** The SET clause of deactivate_active_keys.sql *)
Definition deactivate {D} `{Columns D} (t : time) (r : jwk_row) : jwk_row :=
  let at_ := match j_deactivated_at r with
             | None => datetime (D := D) t
             | Some x => if t <? x then datetime (D := D) t else x
             end in
  mkJwkRow (j_id r) (j_kid r) (j_kty r) (j_alg r) (j_use_type r) (j_public_jwk_json r) (j_private_key_ref r)
    false (j_created_at r) (j_rotates_at r) (Some at_).

(** ORDER BY is_active DESC, created_at DESC, id DESC *)
Definition active_rank (r : jwk_row) : Z := if j_is_active r then 1 else 0.
Definition current_first (a b : jwk_row) : Prop :=
  active_rank b < active_rank a \/ (active_rank a = active_rank b /\
    (j_created_at b < j_created_at a \/ (j_created_at a = j_created_at b /\ j_id b <= j_id a))).

#[export] Instance current_first_dec a b : Decision (current_first a b).
Proof. unfold current_first. apply _. Defined.

#[export] Instance current_first_total : Total current_first.
Proof. intros a b. unfold current_first. lia. Qed.

#[export] Instance current_first_trans : Transitive current_first.
Proof. intros a b c. unfold current_first. lia. Qed.

Section Repository.
Context {W D : Type} `{!Columns D} `{!Table D jwk_row (H := jwk_row_keys (D := D))}.

Definition JWKKeyRepository : Type := dbRouter W D.

Definition NewJWKKeyRepositoryRW (writeDB readDB : DB W D) : JWKKeyRepository := newDBRouter writeDB readDB.

(** The WHERE clause of list_current_keys.sql *)
Definition current (d : D) (r : jwk_row) : bool :=
  match j_deactivated_at r with None => true | Some t => current_timestamp d <? t end.

(** list_current_keys.sql *)
Definition listCurrentKeys : IO D (list jwk_row) :=
  let* l := SELECT current in ret (merge_sort current_first l).

Definition ListCurrent (r : JWKKeyRepository) : IO W (list JWKKeyRecord) :=
  let* l := run_on (writer r) listCurrentKeys in ret (List.map scan_key l).

(** deactivate_active_keys.sql *)
Definition deactivateActive (retiresExistingAt : time) : IO D Z :=
  UPDATE (fun _ r => j_is_active r) (deactivate (D := D) retiresExistingAt).

(** insert_active_key.sql *)
Definition insertActiveKey (record : JWKKeyRecord) : IO D Z :=
  let* json := some_or (json_column (kr_PublicJWKJSON record)) (Driver "Invalid JSON text") in
  INSERT (fun id _ => mkJwkRow id (kr_KID record) (kr_KTY record) (kr_Alg record) (kr_UseType record) json
    (nullString (kr_PrivateKeyRef record)) true (datetime (kr_CreatedAt record))
    (option_map datetime (nullTime (kr_RotatesAt record))) None).

(** The body of the transaction. *)
Definition create_tx (record : JWKKeyRecord) (retiresExistingAt : time) : IO D (bool * unit) :=
  do* deactivateActive retiresExistingAt in
  do* insertActiveKey record in
  ret (true, tt).

Definition CreateActiveKey (r : JWKKeyRepository) (record : JWKKeyRecord) (retiresExistingAt : time) : IO W unit :=
  run_on (writer r) (transaction (create_tx record retiresExistingAt)).
End Repository.
Arguments JWKKeyRepository : clear implicits.

(** ** Runs of the table's operations *)

Section Steps.
Context {D : Type} `{!Columns D} `{!Table D jwk_row (H := jwk_row_keys (D := D))}.

(** A rotation that keeps the keys it retires until [T] at least, whatever
    its outcome; or anything that leaves the table alone. *)
Inductive key_step (T : time) : relation D :=
| key_created record t d a d' : T <= datetime (D := D) t ->
    transaction (create_tx record t) d = (a, d') -> key_step T d d'
| key_elsewhere d d' : rows (R := jwk_row) d' = rows d -> key_step T d d'.

(** At most one key signs, and it is not to be retired. *)
Definition one_active (d : D) : Prop :=
  (forall id r, rows d !! id = Some r -> j_is_active r = true -> j_deactivated_at r = None) /\
  (forall i j r s, rows d !! i = Some r -> rows d !! j = Some s -> j_is_active r = true -> j_is_active s = true -> i = j).

(** The same key, perhaps retired since, but not before [T]. *)
Definition same_key (r r' : jwk_row) : Prop :=
  j_kid r' = j_kid r /\ j_alg r' = j_alg r /\ j_use_type r' = j_use_type r /\
  j_public_jwk_json r' = j_public_jwk_json r /\ j_private_key_ref r' = j_private_key_ref r.

Definition kept_until (T : time) (r : jwk_row) : Prop :=
  match j_deactivated_at r with None => True | Some t => T <= t end.

Lemma deactivate_kept T t r : T <= datetime (D := D) t -> kept_until T r -> kept_until T (deactivate (D := D) t r).
Proof. unfold kept_until, deactivate. cbn. destruct (j_deactivated_at r) as [x|]; [|done]. by destruct (t <? x). Qed.

(** What a rotation that went through leaves. *)
Lemma create_tx_Ok record t d d' u : transaction (create_tx record t) d = (Ok u, d') -> exists id json,
  json_column (kr_PublicJWKJSON record) = Some json /\ rows d !! id = None /\
  rows d' = <[id := mkJwkRow id (kr_KID record) (kr_KTY record) (kr_Alg record) (kr_UseType record) json
      (nullString (kr_PrivateKeyRef record)) true (datetime (kr_CreatedAt record)) (option_map datetime (kr_RotatesAt record)) None]>
    ((fun r => if j_is_active r then deactivate (D := D) t r else r) <$> rows d).
Proof.
  intros [Hx|(d1 & Hx & _)]%transaction_Ok.
  - unfold create_tx, deactivateActive, insertActiveKey in Hx. run Hx as n d1 Hu. run Hx as id d2 Hi. apply ret_Ok in Hx as [_ <-].
    run_some Hi as json Hj. apply UPDATE_Ok in Hu as [Hu _]. apply INSERT_Ok in Hi as (Hn & t0 & Hi & _).
    exists id, json. split; [done|]. rewrite Hu in Hi, Hn. split; [|done]. rewrite lookup_fmap in Hn. by destruct (rows d !! id).
  - unfold create_tx in Hx. run Hx as n d2 Hu. run Hx as id d3 Hi. by apply ret_Ok in Hx as [? _].
Qed.

Lemma key_step_cases T d d' : key_step T d d' ->
  rows (R := jwk_row) d' = rows d \/ exists record t u, T <= datetime (D := D) t /\ transaction (create_tx record t) d = (Ok u, d').
Proof.
  intros [record t d0 [u|e] d1 Ht Hx|d0 d1 Hx]; [right; by exists record, t, u| |by left].
  apply transaction_Err in Hx as ->. by left.
Qed.

Lemma one_active_step T d d' : key_step T d d' -> one_active d -> one_active d'.
Proof.
  intros [Hr|(record & t & u & _ & Hx)]%key_step_cases [H1 H2]; [by unfold one_active; rewrite Hr|].
  apply create_tx_Ok in Hx as (id & json & _ & Hn & Hr).
  assert (Hin : forall i r, rows d' !! i = Some r -> j_is_active r = true -> i = id /\ j_deactivated_at r = None).
  { intros i r. rewrite Hr. destruct (decide (i = id)) as [->|]; [rewrite lookup_insert_eq; by intros [= <-]|].
    rewrite lookup_insert_ne, lookup_fmap by done. destruct (rows d !! i) as [r0|]; [|done]. cbn. intros [= <-].
    by destruct (j_is_active r0) eqn:E; cbn; rewrite ?E. }
  split; [intros i r Hi Ha; by apply (Hin i r)|]. intros i j r s Hi Hj Ha Hb.
  destruct (Hin i r Hi Ha) as [-> _]. by destruct (Hin j s Hj Hb) as [-> _].
Qed.

Lemma kept_step T d d' id r : key_step T d d' -> rows d !! id = Some r -> kept_until T r ->
  exists r', rows d' !! id = Some r' /\ same_key r r' /\ kept_until T r'.
Proof.
  intros [Hr|(record & t & u & Ht & Hx)]%key_step_cases Hid Hk; [exists r; by rewrite Hr|].
  apply create_tx_Ok in Hx as (i & json & _ & Hn & ->).
  rewrite lookup_insert_ne by congruence. rewrite lookup_fmap, Hid. cbn. eexists. split; [done|].
  destruct (j_is_active r); [|done]. split; [done|]. by apply deactivate_kept.
Qed.

(** At every time one key at most is active, and a key is not lost by
    being replaced: from a table with one active key or none, and over any
    interleaving of rotations that give the keys they replace until [T], there
    is never more than one active key and it is not marked as retired, and the
    key that was active is still in the table with its kid, its algorithm and
    its public and private parts, so that every listing made before [T]
    contains it. *)
Theorem rotation_keeps_keys T (d d' : D) : rtc (key_step T) d d' -> one_active d ->
  one_active d' /\
  forall id r, rows d !! id = Some r -> j_is_active r = true ->
    exists r', rows d' !! id = Some r' /\ same_key r r' /\
      forall l d2, current_timestamp d' < T -> listCurrentKeys d' = (Ok l, d2) -> r' ∈ l.
Proof.
  intros Hrtc Hone. split.
  - induction Hrtc as [|d d1 d2 Hs _ IH]; [done|]. apply IH. by eapply one_active_step.
  - intros id r Hr Ha.
    assert (Hkept : exists r', rows d' !! id = Some r' /\ same_key r r' /\ kept_until T r').
    { assert (Hk : kept_until T r) by (unfold kept_until; by rewrite (proj1 Hone _ _ Hr Ha)). clear Ha Hone. revert r Hr Hk.
      induction Hrtc as [|d d1 d2 Hs _ IH]; intros r Hr Hk; [by exists r|].
      destruct (kept_step _ _ _ _ _ Hs Hr Hk) as (r1 & Hr1 & (S1 & S2 & S3 & S4 & S5) & Hk1).
      destruct (IH _ Hr1 Hk1) as (r2 & Hr2 & (Q1 & Q2 & Q3 & Q4 & Q5) & Hk2). exists r2. split; [done|]. split; [|done].
      unfold same_key. repeat split; congruence. }
    destruct Hkept as (r' & Hr' & Hsame & Hk). exists r'. split; [done|]. split; [done|]. intros l d2 Hc Hl.
    unfold listCurrentKeys in Hl. run Hl as l0 d3 Hs. apply ret_Ok in Hl as [<- _].
    rewrite merge_sort_Permutation, (SELECT_Ok _ _ _ _ Hs). split; [|by exists id].
    unfold current, kept_until in *. destruct (j_deactivated_at r') as [t|]; [|done]. apply Z.ltb_lt. lia.
Qed.
End Steps.

(** ** At work: one rotation *)

Module JwkRepoDemo.
Record database := mkDatabase { table_rows : gmap Z jwk_row; clock : time }.

#[export] Instance columns : Columns database := memory_columns clock.
#[export] Instance table : Table database jwk_row (H := jwk_row_keys (D := database)) :=
  memory_table table_rows (fun m d => mkDatabase m (clock d)) clock (fun m d => eq_refl).

Definition now : time := 1700000000 * Second.
Definition day : duration := 86400 * Second.
Definition record (kid : string) : JWKKeyRecord :=
  mkJWKKeyRecord 0 kid "RSA" "RS256" "sig" "{}" "file://k.pem" true now (Some (now + 90 * day)) None.

Definition first : database := (transaction (create_tx (record "kid-1") now) (mkDatabase ∅ now)).2.
Definition later : database := mkDatabase (table_rows first) (now + 3600 * Second).
Definition rotated : database := (transaction (create_tx (record "kid-2") (now + 3600 * Second + day)) later).2.

Lemma select_once (p : database -> jwk_row -> bool) d l d' : SELECT p d = (Ok l, d') -> NoDup l.
Proof.
  cbn. unfold mem_SELECT. intros [= <- _]. apply NoDup_ListNoDup, List.NoDup_filter, NoDup_ListNoDup.
  change (NoDup (snd <$> map_to_list (mem_rows table_rows d))). apply NoDup_fmap_2_strong; [|apply NoDup_map_to_list].
  intros [i r] [j s] Hi Hj Hrs. cbn in Hrs. subst s. apply elem_of_map_to_list in Hi, Hj.
  pose proof (rows_keyed (R := jwk_row) d _ _ Hi) as H1. pose proof (rows_keyed (R := jwk_row) d _ _ Hj) as H2. congruence.
Qed.

#[export] Instance forward : ForwardClock database jwk_row.
Proof. exact (memory_forward table_rows (fun m d => mkDatabase m (clock d)) clock (fun m d => eq_refl) (fun m d => eq_refl)). Qed.

Lemma first_one_active : one_active first.
Proof.
  assert (Hall : forall id r, rows first !! id = Some r -> id = 0 /\ j_deactivated_at r = None).
  { intros id r Hr. assert (Hin : map_Forall (fun i (x : jwk_row) => i = 0 /\ j_deactivated_at x = None) (rows first)).
    { apply (bool_decide_unpack (map_Forall (fun i (x : jwk_row) => i = 0 /\ j_deactivated_at x = None) (rows first))). vm_compute. exact I. }
    exact (Hin id r Hr). }
  split; [intros id r Hr _; by apply (Hall id r)|]. intros i j r s Hi Hj _ _.
  destruct (Hall i r Hi) as [-> _]. by destruct (Hall j s Hj) as [-> _].
Qed.
End JwkRepoDemo.

Import JwkRepoDemo.

Lemma rotation_keeps_keys_witness :
  one_active rotated /\ exists r l, rows rotated !! 0 = Some r /\ j_kid r = "kid-1" /\ listCurrentKeys rotated = (Ok l, rotated) /\ r ∈ l.
Proof.
  assert (Hs : rtc (key_step (now + day)) first rotated).
  { eapply rtc_l; [apply key_elsewhere with (d' := later); reflexivity|]. apply rtc_once.
    eapply key_created with (t := now + 3600 * Second + day); [vm_compute; discriminate|].
    apply surjective_pairing. }
  destruct (rotation_keeps_keys (now + day) _ _ Hs first_one_active) as [Hone Hkeep]. split; [exact Hone|].
  destruct (rows first !! 0) as [r|] eqn:E; [|vm_compute in E; discriminate E].
  destruct (Hkeep 0 r E) as (r' & Hr' & (Hk & _) & Hl); [vm_compute in E; injection E as <-; reflexivity|].
  destruct (listCurrentKeys rotated) as [[l|e] d2] eqn:El; [|vm_compute in El; discriminate El].
  exists r', l. split; [exact Hr'|]. split; [rewrite Hk; vm_compute in E; injection E as <-; reflexivity|].
  assert (d2 = rotated) as -> by (vm_compute in El; injection El; intros; subst; vm_compute; reflexivity).
  split; [reflexivity|]. apply (Hl l rotated); [vm_compute; reflexivity | reflexivity].
Defined.
