(* ===== verification/KeyRotation.v ===== *)
(** * Loading and rotating the signing keys (key_loader.go, key_rotation.go, key_sync.go)

    The private keys are files; the database holds the public keys, which one
    is active, and a reference to each file.  A key manager is what one
    reading of the database and of the files gave. *)

From stdpp Require Import base tactics list gmap strings numbers relations sorting.
From Stdlib Require Import ZArith Lia Ascii.
From S2P Require Import Prelude GoStrings GoText GoPath GoCrypto GoBase64 GoJson GoJsonObject GoTime Errors Domain Remote Database JwkKeyRepo Ports Keys Jwt.

(** ** The operating system

    [file w p] is what the file at [p] holds.  A read may fail although the
    file is there. *)
Class OS (W : Type) `{!RSA} := {
  file : W -> string -> option string;
  MkdirAll : string -> IO W unit;
  WriteFile : string -> string -> IO W unit;
  ReadFile : string -> IO W string;
  Getenv : W -> string -> string;
  GenerateKey : Z -> IO W PrivateKey;
  WriteFile_Ok : forall path content w u w', WriteFile path content w = (Ok u, w') -> file w' path = Some content;
  ReadFile_Ok : forall path w content w', ReadFile path w = (Ok content, w') -> file w path = Some content;
  ReadFile_keeps : forall path w r w', ReadFile path w = (r, w') -> file w' = file w /\ Getenv w' = Getenv w;
}.

Section Loading.
Context {W : Type} `{!RSA} `{!OS W}.

(** [strings.NewReplacer] with one-byte pairs. *)
Definition env_char (a : ascii) : ascii :=
  if Ascii.eqb a "/" || Ascii.eqb a "-" || Ascii.eqb a "." || Ascii.eqb a ":" then "_"%char else a.
Fixpoint map_string (f : ascii -> ascii) (s : string) : string :=
  match s with EmptyString => EmptyString | String a s' => String (f a) (map_string f s') end.

Definition refToEnvName (prefix ref : string) : string :=
  ToUpper prefix +:+ "_" +:+ map_string env_char (ToUpper (TrimSpace ref)).

Definition from_env (envName : string) : IO W string := fun w =>
  let value := Getenv w envName in
  if blank value then (Err (Driver "environment variable is empty" : error), w) else (Ok value, w).

Definition read_at (workingDir path : string) : IO W string :=
  ReadFile (if IsAbs path then path else join2 workingDir path).

Definition resolvePrivateKeyRef (ref workingDir : string) : IO W string :=
  let ref := TrimSpace ref in
  if HasPrefix ref "file://" then read_at workingDir (TrimPrefix ref "file://")
  else if HasPrefix ref "env://" then from_env (TrimPrefix ref "env://")
  else if HasPrefix ref "vault://" then from_env (refToEnvName "vault" (TrimPrefix ref "vault://"))
  else if HasPrefix ref "kms://" then from_env (refToEnvName "kms" (TrimPrefix ref "kms://"))
  else read_at workingDir ref.

Definition loadRSAPrivateKey (ref workingDir : string) : IO W PrivateKey :=
  let* content := resolvePrivateKeyRef ref workingDir in
  let* block := some_or (pem_Decode content) (Driver "invalid pem content") in
  match ParsePKCS1PrivateKey block with
  | Some k => ret k
  | None =>
      let* privateKeyAny := some_or (ParsePKCS8PrivateKey block) (Driver "parse private key") in
      some_or privateKeyAny (Driver "private key is not rsa")
  end.

(** An operation on the manager being built. *)
Definition on_manager (m : KeyManager) (op : IO KeyManager unit) : IO W KeyManager := fun w =>
  match op m with (Ok _, m') => (Ok m', w) | (Err e, _) => (Err e, w) end.

Definition NewGeneratedRSAKeyManager (kid : string) (bits : Z) : IO W KeyManager :=
  let* privateKey := GenerateKey bits in
  on_manager NewKeyManager (AddRSAKey kid (Some privateKey) DefaultJWTAlg DefaultKeyUse true).

(** The repository, as an interface. *)
Record rotationRepository := mkRotationRepository {
  rr_ListCurrent : IO W (list JWKKeyRecord);
  rr_CreateActiveKey : JWKKeyRecord -> time -> IO W unit;
}.

(** The body of the loop over the records; the state is the manager and
    [activePrivateLoaded]. *)
Definition load_record (workingDir : string) (st : KeyManager * bool) (record : JWKKeyRecord) : IO W (KeyManager * bool) :=
  let '(manager, activePrivateLoaded) := st in
  let* publicKey := parseRSAPublicJWK (kr_PublicJWKJSON record) in
  let* manager := on_manager manager (AddRSAPublicKey (kr_KID record) (Some publicKey) (kr_Alg record) (kr_UseType record)) in
  if blank (kr_PrivateKeyRef record) then ret (manager, activePrivateLoaded) else
  let* loaded := attempt (loadRSAPrivateKey (kr_PrivateKeyRef record) workingDir) in
  match loaded with
  | Err e => if kr_IsActive record then throw (Driver "load active private key") else ret (manager, activePrivateLoaded)
  | Ok privateKey =>
      let* manager := on_manager manager
        (AddRSAKey (kr_KID record) (Some privateKey) (kr_Alg record) (kr_UseType record) (kr_IsActive record)) in
      ret (manager, activePrivateLoaded || kr_IsActive record)
  end.

Fixpoint load_records (workingDir : string) (st : KeyManager * bool) (records : list JWKKeyRecord) : IO W (KeyManager * bool) :=
  match records with
  | [] => ret st
  | record :: records => let* st := load_record workingDir st record in load_records workingDir st records
  end.

Definition LoadKeyManagerFromRepository (source : option rotationRepository) (workingDir : string) : IO W KeyManager :=
  let* source := some_or source (Driver "signing key source is required") in
  let* records := rr_ListCurrent source in
  do* guard (negb (bool_decide (records = []))) (Driver "no signing keys configured") in
  let* loaded := load_records workingDir (NewKeyManager, false) records in
  let '(manager, activePrivateLoaded) := loaded in
  do* guard activePrivateLoaded (Driver "no active signing private key loaded") in
  ret manager.

(** ** Rotation *)

Record RotationConfig := mkRotationConfig {
  WorkingDir : string;
  StorageDir : string;
  KeyBits : Z;
  RotateBefore : duration;
  RetireAfter : duration;
  KIDPrefix : string;
}.

Definition Hour : duration := 3600 * Second.

Definition with_defaults (cfg : RotationConfig) : RotationConfig :=
  mkRotationConfig (WorkingDir cfg) (StorageDir cfg)
    (if KeyBits cfg <=? 0 then 2048 else KeyBits cfg)
    (if RotateBefore cfg <=? 0 then 24 * Hour else RotateBefore cfg)
    (if RetireAfter cfg <=? 0 then 24 * Hour else RetireAfter cfg)
    (if blank (KIDPrefix cfg) then "kid" else KIDPrefix cfg).

Definition findActiveKey (records : list JWKKeyRecord) : option JWKKeyRecord := List.find kr_IsActive records.

(** Where the file of a key goes, and how the database refers to it;
    [ToSlash] is the identity on Unix. *)
Definition key_path (cfg : RotationConfig) (kid : string) : string * string :=
  let dir := TrimSpace (StorageDir cfg) in
  let dir := if String.eqb dir "" then "scripts/dev_keys" else dir in
  let dir := if IsAbs dir then dir else join2 (WorkingDir cfg) dir in
  (dir, join2 dir (kid +:+ ".pem")).

Definition writePrivateKey (cfg : RotationConfig) (kid : string) (privateKey : PrivateKey) : IO W string :=
  let '(dir, path) := key_path cfg kid in
  do* MkdirAll dir in
  let* encoded := some_or (MarshalPKCS8PrivateKey privateKey) (Driver "marshal private key") in
  do* WriteFile path (pem_EncodeToMemory encoded) in
  match Rel (WorkingDir cfg) path with
  | None => ret ("file://" +:+ path)
  | Some relative => ret ("file://" +:+ relative)
  end.

(** The layout "20060102T150405Z" *)
Definition key_stamp (value : time) : string :=
  let s := Unix value in
  let '(y, m, d) := civil_from_days (s / 86400) in
  let r := s mod 86400 in
  pad4 y +:+ pad2 m +:+ pad2 d +:+ "T" +:+ pad2 (r / 3600) +:+ pad2 (r / 60 mod 60) +:+ pad2 (r mod 60) +:+ "Z".

Context `{!Runtime W}.

Definition key_id (cfg : RotationConfig) (now : time) : string := TrimSpace (KIDPrefix cfg) +:+ "-" +:+ key_stamp now.

(** Not forced, and the active key is not about to rotate. *)
Definition keeps_key (cfg : RotationConfig) (force : bool) (now : time) (active : option JWKKeyRecord) : bool :=
  match active with
  | None => false
  | Some active => negb force && match kr_RotatesAt active with None => true | Some t => After t (Add now (RotateBefore cfg)) end
  end.

Definition new_record (kid jwk ref : string) (now : time) : JWKKeyRecord :=
  mkJWKKeyRecord 0 kid "RSA" DefaultJWTAlg DefaultKeyUse jwk ref true now (Some (Add now (90 * 24 * Hour))) None.

Definition rotateKey (repo : option rotationRepository) (cfg : RotationConfig) (force : bool) : IO W bool :=
  let* repo := some_or repo (Driver "rotation repository is required") in
  let cfg := with_defaults cfg in
  let* records := rr_ListCurrent repo in
  let* now := now in
  if keeps_key cfg force now (findActiveKey records) then ret false else
  let* newKey := GenerateKey (KeyBits cfg) in
  let kid := key_id cfg now in
  let* privateKeyRef := writePrivateKey cfg kid newKey in
  let publicJWK := buildPublicJWKJSON kid (Public newKey) DefaultJWTAlg DefaultKeyUse in
  do* rr_CreateActiveKey repo (new_record kid publicJWK privateKeyRef now) (Add now (RetireAfter cfg)) in
  ret true.

Definition ensureRotation (repo : option rotationRepository) (cfg : RotationConfig) : IO W bool := rotateKey repo cfg false.

Definition EnsureKeyManager (repo : option rotationRepository) (cfg : RotationConfig) : IO W KeyManager :=
  do* ensureRotation repo cfg in LoadKeyManagerFromRepository repo (WorkingDir cfg).

(** ** The manager in use and the broadcast *)

(** A shared manager: [m.ReplaceWith] changes what everybody sees. *)
Record managerRef := mkManagerRef { manager_now : W -> KeyManager; set_manager : KeyManager -> W -> W }.

Definition replace_manager (m : managerRef) (refreshed : KeyManager) : IO W unit := fun w =>
  let '(_, k) := ReplaceWith (Some refreshed) (manager_now m w) in (Ok tt, set_manager m k w).

(** The redis client, when there is one, and the channel. *)
Record KeySyncBroadcaster := mkBroadcaster { rdb_Publish : option (string -> string -> IO W unit); channel : string }.

Definition NewKeySyncBroadcaster (rdb : option (string -> string -> IO W unit)) (keyPrefix : string) : KeySyncBroadcaster :=
  mkBroadcaster rdb ((if String.eqb keyPrefix "" then "idp" else keyPrefix) +:+ ":jwks:rotated").

Definition Publish (b : option KeySyncBroadcaster) : IO W unit :=
  match b with
  | None => ret tt
  | Some b =>
      match rdb_Publish b with
      | None => ret tt
      | Some publish => let* t := now in publish (channel b) (FormatInt (UnixMilli t))
      end
  end.

(** What a message on the channel does after the debounce. *)
Definition reload (manager : managerRef) (repo : option rotationRepository) (workingDir : string) : IO W unit :=
  let* refreshed := attempt (LoadKeyManagerFromRepository repo workingDir) in
  match refreshed with Ok refreshed => replace_manager manager refreshed | Err _ => ret tt end.

(** One tick of StartRotationLoop. *)
Definition rotation_tick (repo : option rotationRepository) (manager : managerRef) (cfg : RotationConfig)
    (broadcaster : option KeySyncBroadcaster) : IO W unit :=
  let* rotated := attempt (ensureRotation repo cfg) in
  match rotated with
  | Err _ => ret tt
  | Ok rotated =>
      let* refreshed := attempt (LoadKeyManagerFromRepository repo (WorkingDir cfg)) in
      match refreshed with
      | Err _ => ret tt
      | Ok refreshed =>
          do* replace_manager manager refreshed in
          if rotated then (do* attempt (Publish broadcaster) in ret tt) else ret tt
      end
  end.

Record ManualRotateResult := mkManualRotateResult { PreviousKID : string; ActiveKID : string; RotatedAt : time; RotatesAt : option time }.

Definition RotateSigningKeyNow (repo : option rotationRepository) (manager : option managerRef) (cfg : RotationConfig)
    (broadcaster : option KeySyncBroadcaster) : IO W ManualRotateResult :=
  let* r := some_or repo (Driver "rotation repository is required") in
  let* previousRecords := rr_ListCurrent r in
  let previousKID := match findActiveKey previousRecords with Some previous => kr_KID previous | None => "" end in
  let* rotatedAt := now in
  do* rotateKey repo cfg true in
  do* match manager with
      | None => ret tt
      | Some m => let* refreshed := LoadKeyManagerFromRepository repo (WorkingDir cfg) in replace_manager m refreshed
      end in
  do* attempt (Publish broadcaster) in
  let* currentRecords := rr_ListCurrent r in
  let* active := some_or (findActiveKey currentRecords) (Driver "no active signing key") in
  ret (mkManualRotateResult previousKID (kr_KID active) rotatedAt (kr_RotatesAt active)).

(** application/keys/service.go *)
Definition ErrRotateUnavailable : error := Driver "key rotation is unavailable".

Definition RotateNow (rotateNow : option (IO W ManualRotateResult)) : IO W ManualRotateResult :=
  match rotateNow with None => throw ErrRotateUnavailable | Some f => f end.
End Loading.
Arguments rotationRepository W : clear implicits.
Arguments managerRef W {_}.
Arguments KeySyncBroadcaster W : clear implicits.

(** ** What a reference resolves to *)

Section Files.
Context {W : Type} `{!RSA} `{!OS W}.

Definition ref_content (w : W) (ref workingDir : string) : option string :=
  let ref := TrimSpace ref in
  let at_path path := file w (if IsAbs path then path else join2 workingDir path) in
  let env name := Some (Getenv w name) in
  if HasPrefix ref "file://" then at_path (TrimPrefix ref "file://")
  else if HasPrefix ref "env://" then env (TrimPrefix ref "env://")
  else if HasPrefix ref "vault://" then env (refToEnvName "vault" (TrimPrefix ref "vault://"))
  else if HasPrefix ref "kms://" then env (refToEnvName "kms" (TrimPrefix ref "kms://"))
  else at_path ref.

Definition parse_private (content : string) : option PrivateKey :=
  match pem_Decode content with
  | None => None
  | Some block =>
      match ParsePKCS1PrivateKey block with
      | Some k => Some k
      | None => match ParsePKCS8PrivateKey block with Some (Some k) => Some k | _ => None end
      end
  end.

(** The private key behind a reference, if there is one. *)
Definition ref_key (w : W) (ref workingDir : string) : option PrivateKey :=
  match ref_content w ref workingDir with Some content => parse_private content | None => None end.

Definition os_same (w w' : W) : Prop := file w' = file w /\ Getenv w' = Getenv w.

#[global] Instance os_same_refl : Reflexive os_same.
Proof. by split. Qed.
#[global] Instance os_same_trans : Transitive os_same.
Proof. intros w1 w2 w3 [H1 H2] [H3 H4]. split; congruence. Qed.

Lemma ref_key_same w w' ref wd : os_same w w' -> ref_key w' ref wd = ref_key w ref wd.
Proof. intros [Hf He]. unfold ref_key, ref_content. by rewrite Hf, He. Qed.

Lemma resolve_inv ref wd w r w' : resolvePrivateKeyRef ref wd w = (r, w') ->
  os_same w w' /\ forall content, r = Ok content -> ref_content w ref wd = Some content.
Proof.
  assert (Hread : forall p r w', read_at wd p w = (r, w') ->
    os_same w w' /\ forall content, r = Ok content -> file w (if IsAbs p then p else join2 wd p) = Some content).
  { intros p r0 w0 Hr. split; [by apply ReadFile_keeps in Hr|]. intros content ->. by apply ReadFile_Ok in Hr. }
  assert (Henv : forall n r w', from_env n w = (r, w') -> os_same w w' /\ forall content, r = Ok content -> Some (Getenv w n) = Some content).
  { intros n r0 w0. unfold from_env. destruct (blank _); intros [= <- <-]; (split; [done|]); by intros content [= <-]. }
  unfold resolvePrivateKeyRef, ref_content. cbv zeta.
  destruct (HasPrefix _ "file://"); [apply Hread|]. destruct (HasPrefix _ "env://"); [apply Henv|].
  destruct (HasPrefix _ "vault://"); [apply Henv|]. destruct (HasPrefix _ "kms://"); [apply Henv | apply Hread].
Qed.

Lemma load_private_inv ref wd w r w' : loadRSAPrivateKey ref wd w = (r, w') ->
  os_same w w' /\ forall k, r = Ok k -> ref_key w ref wd = Some k.
Proof.
  unfold loadRSAPrivateKey, bind, some_or, fail, ret. destruct (resolvePrivateKeyRef ref wd w) as [c w1] eqn:Hres. apply resolve_inv in Hres as [Hos Hc].
  unfold ref_key, parse_private. destruct c as [content|e].
  2: { intros Hx. injection Hx as <- <-. split; [done|]. intros; congruence. }
  rewrite (Hc _ eq_refl). destruct (pem_Decode content) as [block|];
    [destruct (ParsePKCS1PrivateKey block); [|destruct (ParsePKCS8PrivateKey block) as [[]|]]|];
    cbn; intros Hx; injection Hx as <- <-; (split; [done|]); intros; congruence.
Qed.

(** A key file that was written is what its reference resolves to. *)
Lemma written_key_found cfg kid key w ref w' : IsAbs (WorkingDir cfg) = true ->
  writePrivateKey cfg kid key w = (Ok ref, w') ->
  ref_key w' ref (WorkingDir cfg) = Some key /\ ref <> "".
Proof.
  intros Hwd. unfold writePrivateKey. destruct (key_path cfg kid) as [dir path] eqn:Hp. intros Hx.
  run Hx as u w1 Hmk. run_some Hx as der Hder. run Hx as u2 w2 Hwrite. apply WriteFile_Ok in Hwrite.
  unfold key_path in Hp. set (dir0 := if String.eqb (TrimSpace (StorageDir cfg)) "" then _ else _) in Hp.
  injection Hp as Hdir Hpath. rewrite Hdir in Hpath.
  assert (Hne : kid +:+ ".pem" <> "") by by destruct kid.
  assert (Habs : IsAbs path = true).
  { subst path. apply IsAbs_join2. rewrite <- Hdir. destruct (IsAbs dir0) eqn:E; [done | by apply IsAbs_join2]. }
  destruct (Rel_from_root _ _ Hwd Habs) as (rel & Hrel & Hnot). rewrite Hrel in Hx. apply ret_Ok in Hx as [<- <-].
  split; [|done]. unfold ref_key, ref_content.
  assert (Hend : visible_end rel).
  { eapply Rel_visible_end; [|exact Hrel]. subst path.
    destruct (join_last dir (kid +:+ ".pem") kid ".pem" eq_refl eq_refl ltac:(done)) as (es & x & Hes).
    { intros x Hx. split; [by destruct x|]. split; [|split]; [by destruct x as [|? [|? ?]]|by destruct x as [|? [|? [|? ?]]]|].
      unfold no_slash in *. by rewrite forall_string_app, Hx. }
    intros e He. rewrite Hes, last_snoc in He. injection He as <-. apply visible_end_app. by exists ".pe", "m"%char. }
  assert (Htrim : TrimSpace ("file://" +:+ rel) = "file://" +:+ rel).
  { change ("file://" +:+ rel) with (String "f" ("ile://" +:+ rel)). apply TrimSpace_ends; [done | by apply visible_end_app]. }
  rewrite Htrim. cbv zeta. rewrite HasPrefix_append, TrimPrefix_append, Hnot.
  assert (Hj : join2 (WorkingDir cfg) rel = path).
  { rewrite (Rel_joined _ path) by (done || by destruct (WorkingDir cfg)). subst path. by apply join2_clean. }
  rewrite Hj, Hwrite. unfold parse_private. rewrite pem_round_trip. by destruct (pkcs8_round_trip _ _ Hder) as [-> ->].
Qed.
End Files.

(** ** What a loaded manager holds *)

Section Loaded.
Context {W : Type} `{!RSA} `{!OS W}.

(** The public key a JSON web key holds. *)
Definition parsed_key (raw : string) : result error PublicKey := (parseRSAPublicJWK raw tt).1.

Lemma parse_anywhere {S} raw (s : S) : parseRSAPublicJWK raw s = (parsed_key raw, s).
Proof.
  unfold parsed_key, parseRSAPublicJWK, bind, some_or, guard, require, throw, fail, ret. cbv beta.
  repeat (case_match; simplify_eq/=; try done).
Qed.

Definition key_meta (record : JWKKeyRecord) : key.Model :=
  key.mk (kr_KID record) (or_default (kr_Alg record) DefaultJWTAlg) (or_default (kr_UseType record) DefaultKeyUse).

(** Where a managed key came from: its record, at the world of the reading. *)
Definition entry_of (w : W) (wd : string) (record : JWKKeyRecord) (e : managedKey) : Prop :=
  mk_meta e = key_meta record /\
  (exists pk, mk_publicKey e = Some pk /\
     (parsed_key (kr_PublicJWKJSON record) = Ok pk \/ exists sk, ref_key w (kr_PrivateKeyRef record) wd = Some sk /\ pk = Public sk)) /\
  (forall sk, mk_privateKey e = Some sk -> ref_key w (kr_PrivateKeyRef record) wd = Some sk).

(** The manager after some records: distinct kids. *)
Definition loaded_from (w : W) (wd : string) (done : list JWKKeyRecord) (st : KeyManager * bool) : Prop :=
  (forall kid e, km_keys st.1 !! kid = Some e -> exists record, record ∈ done /\ kr_KID record = kid /\ entry_of w wd record e) /\
  (forall record, record ∈ done -> kr_KID record <> "" /\ exists e, km_keys st.1 !! kr_KID record = Some e) /\
  (st.2 = true -> exists record, record ∈ done /\ kr_IsActive record = true /\ kr_KID record = km_activeKID st.1).

Lemma on_manager_Ok m op (w : W) m' w' : on_manager m op w = (Ok m', w') -> op m = (Ok tt, m') /\ w' = w.
Proof. unfold on_manager. destruct (op m) as [[[]|e] m0]; [by intros [= <- <-] | discriminate]. Qed.

Lemma loaded_insert w wd done st record e st' :
  loaded_from w wd done st -> (forall r, r ∈ done -> kr_KID r <> kr_KID record) -> kr_KID record <> "" ->
  entry_of w wd record e -> km_keys st'.1 = <[kr_KID record := e]> (km_keys st.1) ->
  (st'.2 = st.2 /\ km_activeKID st'.1 = km_activeKID st.1 \/
   st'.2 = (st.2 || kr_IsActive record) /\
   km_activeKID st'.1 = if kr_IsActive record || String.eqb (km_activeKID st.1) "" then kr_KID record else km_activeKID st.1) ->
  loaded_from w wd (done ++ [record]) st'.
Proof.
  intros (H1 & H2 & H3) Hnew Hne He Hk Hact. unfold loaded_from. rewrite Hk. split; [|split].
  - intros kid e'. destruct (decide (kid = kr_KID record)) as [->|Hkid].
    + rewrite lookup_insert_eq. intros [= <-]. exists record. split; [apply elem_of_app; right; by left | done].
    + rewrite lookup_insert_ne by done. intros (r & Hr & Hrest)%H1. exists r. split; [apply elem_of_app; by left | done].
  - intros r [Hr| ->%list_elem_of_singleton]%elem_of_app.
    + destruct (H2 r Hr) as [? [e' ?]]. split; [done|]. exists e'. by rewrite lookup_insert_ne by by apply not_eq_sym, Hnew.
    + split; [done|]. exists e. by rewrite lookup_insert_eq.
  - intros Ht. assert (Hold : st.2 = true -> km_activeKID st'.1 = km_activeKID st.1 ->
      exists r, r ∈ done ++ [record] /\ kr_IsActive r = true /\ kr_KID r = km_activeKID st'.1).
    { intros Hs ->. destruct (H3 Hs) as (r & Hr & Hrest). exists r. split; [apply elem_of_app; by left | done]. }
    destruct Hact as [[Hb Ha]|[Hb Ha]]; [rewrite Hb in Ht; by apply Hold|].
    destruct (kr_IsActive record) eqn:E; cbn [orb] in Ha.
    + exists record. split; [apply elem_of_app; right; by left | done].
    + rewrite Hb, orb_false_r in Ht. apply Hold; [done|]. rewrite Ha. destruct (H3 Ht) as (r & Hr & _ & Hrk).
      destruct (String.eqb_spec (km_activeKID st.1) ""); [|done]. destruct (H2 r Hr) as [Hrne _]. congruence.
Qed.

Lemma load_record_loaded w0 wd done st record w st' w' : os_same w0 w -> loaded_from w0 wd done st ->
  (forall r, r ∈ done -> kr_KID r <> kr_KID record) -> load_record wd st record w = (Ok st', w') ->
  os_same w0 w' /\ loaded_from w0 wd (done ++ [record]) st'.
Proof.
  intros Hos Hl Hnew Hx. destruct st as [m b]. unfold load_record in Hx. run Hx as pk w1 Hp. rewrite parse_anywhere in Hp.
  injection Hp as Hp <-. run Hx as m1 w2 Hm. apply on_manager_Ok in Hm as [Hm ->].
  apply AddRSAPublicKey_Ok in Hm as (pub & [= <-] & Hne & Hact & Hkeys).
  assert (Hnone : km_keys m !! kr_KID record = None).
  { destruct (km_keys m !! kr_KID record) as [e|] eqn:E; [|done]. apply (proj1 Hl) in E as (r & Hr & Hk & _). by destruct (Hnew r Hr). }
  rewrite Hnone in Hkeys. set (e1 := mkManagedKey (key_meta record) None (Some pk)).
  assert (He1 : entry_of w0 wd record e1).
  { split; [done|]. split; [exists pk; split; [done | by left] | done]. }
  assert (Hskip : loaded_from w0 wd (done ++ [record]) (m1, b)).
  { eapply loaded_insert; [exact Hl | done | done | exact He1 | exact Hkeys | by left]. }
  destruct (blank (kr_PrivateKeyRef record)); [by apply ret_Ok in Hx as [<- <-]|].
  run Hx as loaded w3 Ha. unfold attempt in Ha. destruct (loadRSAPrivateKey _ _ w) as [lr wl] eqn:Hload. injection Ha as <- <-.
  apply load_private_inv in Hload as [Hos1 Hk1]. assert (Hos2 : os_same w0 wl) by (by etrans).
  destruct lr as [sk|er].
  2: { destruct (kr_IsActive record); [discriminate|]. by apply ret_Ok in Hx as [<- <-]. }
  run Hx as m2 w4 Hm2. apply on_manager_Ok in Hm2 as [Hm2 ->]. apply ret_Ok in Hx as [<- <-]. split; [done|].
  apply AddRSAKey_Ok in Hm2 as (sk' & [= <-] & _ & Hact2 & Hkeys2).
  assert (Hsk : ref_key w0 (kr_PrivateKeyRef record) wd = Some sk).
  { rewrite <- (ref_key_same w0 w) by done. by apply Hk1. }
  eapply loaded_insert with (st' := (m2, b || kr_IsActive record)); [exact Hl | done | done | | |].
  2: { cbn [fst]. rewrite Hkeys2, Hkeys, insert_insert_eq. done. }
  - split; [done|]. split; [exists (Public sk); split; [done|]; right; by exists sk | by intros ? [= <-]].
  - right. cbn [fst snd]. rewrite Hact2, Hact. done.
Qed.

Lemma load_records_loaded w0 wd records done st w st' w' : os_same w0 w -> loaded_from w0 wd done st ->
  NoDup (List.map kr_KID (done ++ records)) -> load_records wd st records w = (Ok st', w') ->
  loaded_from w0 wd (done ++ records) st'.
Proof.
  revert done st w. induction records as [|record records IH]; intros done st w Hos Hl Hnd Hx; cbn [load_records] in Hx.
  - apply ret_Ok in Hx as [<- _]. by rewrite app_nil_r.
  - run Hx as st1 w1 H1. rewrite cons_middle, app_assoc in Hnd |- *.
    assert (Hnew : forall r, r ∈ done -> kr_KID r <> kr_KID record).
    { intros r Hr Heq. rewrite !List.map_app in Hnd. apply NoDup_app in Hnd as (Hnd & _ & _). apply NoDup_app in Hnd as (_ & Hd & _).
      apply (Hd (kr_KID r)); [by apply list_elem_of_fmap_2|]. cbn. rewrite Heq. by left. }
    destruct (load_record_loaded _ _ _ _ _ _ _ _ Hos Hl Hnew H1) as [Hos1 Hl1]. by eapply IH.
Qed.

Lemma LoadKeyManager_inv repo wd w m w' : LoadKeyManagerFromRepository (Some repo) wd w = (Ok m, w') ->
  exists records w1, rr_ListCurrent repo w = (Ok records, w1) /\
    (NoDup (List.map kr_KID records) -> loaded_from w1 wd records (m, true)).
Proof.
  intros Hx. unfold LoadKeyManagerFromRepository in Hx. run_some Hx as r Hr. injection Hr as <-.
  run Hx as records w1 Hl. run_guard Hx as Hne. run Hx as loaded w2 Hld. destruct loaded as [mgr b]. run_guard Hx as Hb.
  apply ret_Ok in Hx as [<- _]. subst b. exists records, w1. split; [done|]. intros Hnd.
  apply (load_records_loaded w1 wd records [] (NewKeyManager, false) w1 _ w2); [done | | done | done].
  split; [intros kid e Hk; exfalso; revert Hk; apply (lookup_empty_Some (M := gmap string) kid e)|]. split; [by intros r Hr; apply elem_of_nil in Hr | done].
Qed.
End Loaded.

(** ** With the database *)

Section Rotation.
Context {W D : Type} `{!Runtime W} `{!RSA} `{!OS W} `{!Columns D} `{!Table D jwk_row (H := jwk_row_keys (D := D))}
  `{!ForwardClock D jwk_row}.
Context (repo : JWKKeyRepository W D) (h : Remote W D) (wd : string).
Hypothesis on_writer : writer repo = Some h.

(** persistence.JWKKeyRepository as a rotationRepository. *)
Definition rotation_repository : rotationRepository W :=
  mkRotationRepository (ListCurrent repo) (CreateActiveKey repo).

(** The world right after a listing. *)
Definition listed (w : W) : W := (ListCurrent repo w).2.

(** The row of [kid] publishes the public key of [sk]. *)
Definition publishes (w : W) (kid : string) (sk : PrivateKey) : Prop := forall id r, rows (server w) !! id = Some r ->
  j_kid r = kid -> parsed_key (j_public_jwk_json r) = Ok (Public sk).

(** The reference of [kid] leads to [sk], or to no private key at all: its
    file has not been overwritten with another key. *)
Definition file_kept (w : W) (kid : string) (sk : PrivateKey) : Prop := forall id r, rows (server w) !! id = Some r ->
  j_kid r = kid -> forall k, ref_key w (scan_string (j_private_key_ref r)) wd = Some k -> k = sk.

Section Until.
Context (T : time).
(** What happens while a request travels are rotations that keep the keys
    they replace until [T]. *)
Hypothesis transport_keys : forall w, rtc (key_step T) (server w) (server (transport w).2).

Lemma listing_inv w records w' : ListCurrent repo w = (Ok records, w') -> exists d l,
  rtc (key_step T) (server w) d /\ listCurrentKeys d = (Ok l, server w') /\ records = List.map scan_key l.
Proof.
  unfold ListCurrent. intros Hx. run Hx as l w1 Hc. apply ret_Ok in Hx as [<- <-].
  unfold run_on in Hc. rewrite on_writer in Hc.
  apply (call_Ok_steps (key_step T)) in Hc as (w2 & d & Hs & Hq & <-); [by exists (server w2), l|exact transport_keys|].
  intros d. apply rtc_once, key_elsewhere. unfold listCurrentKeys, bind. destruct (SELECT _ d) as [a d1] eqn:Es.
  apply SELECT_rows in Es. by destruct a.
Qed.

Lemma current_rows d l d' : listCurrentKeys d = (Ok l, d') -> rows (R := jwk_row) d' = rows d /\
  (forall r, r ∈ l <-> current d r = true /\ exists id, rows d !! id = Some r) /\ current_timestamp d <= current_timestamp d'.
Proof.
  unfold listCurrentKeys. intros Hx. run Hx as l0 d1 Hs. apply ret_Ok in Hx as [<- <-].
  split; [by apply SELECT_rows in Hs|]. split; [|by eapply SELECT_clock].
  intros r. by rewrite merge_sort_Permutation, (SELECT_Ok _ _ _ _ Hs).
Qed.

(** Rows are listed once (the table has no duplicates), with distinct kids. *)
Hypothesis SELECT_once : forall p (d : D) (l : list jwk_row) d', SELECT p d = (Ok l, d') -> NoDup l.

Lemma same_row d i j r s : rows d !! i = Some r -> rows d !! j = Some s -> j_kid r = j_kid s -> r = s.
Proof.
  intros Hi Hj Hk. assert (i = j) as ->; [|congruence].
  eapply rows_unique; [exact Hi | exact Hj|]. simpl. rewrite Hk. apply collate_refl.
Qed.

Lemma listed_kids d l d' : listCurrentKeys d = (Ok l, d') -> NoDup (List.map kr_KID (List.map scan_key l)).
Proof.
  intros Hx. pose proof (current_rows _ _ _ Hx) as (_ & Hin & _). rewrite List.map_map. cbn.
  assert (Hnd : NoDup l).
  { unfold listCurrentKeys in Hx. run Hx as l0 d1 Hs. apply ret_Ok in Hx as [<- _].
    rewrite merge_sort_Permutation. by eapply SELECT_once. }
  change (NoDup (j_kid <$> l)). apply NoDup_fmap_2_strong; [|done]. intros r s Hr Hs Hk.
  apply Hin in Hr as [_ [i Hi]]. apply Hin in Hs as [_ [j Hj]]. by eapply same_row.
Qed.

(** What loading from the database gives, in terms of the table. *)
Lemma loaded_inv w m w' : LoadKeyManagerFromRepository (Some rotation_repository) wd w = (Ok m, w') ->
  exists d l w1, rtc (key_step T) (server w) d /\ listCurrentKeys d = (Ok l, server w1) /\ listed w = w1 /\
    loaded_from w1 wd (List.map scan_key l) (m, true).
Proof.
  intros (records & w1 & Hl & Hm)%LoadKeyManager_inv. cbn [rotation_repository rr_ListCurrent] in Hl.
  assert (Hlisted : listed w = w1) by (unfold listed; by rewrite Hl).
  apply listing_inv in Hl as (d & l & Hs & Hq & ->). exists d, l, w1. split; [done|]. split; [done|]. split; [done|].
  apply Hm. by eapply listed_kids.
Qed.

(** The entry of a manager and its row. *)
Lemma entry_row w1 l m kid e d : loaded_from w1 wd (List.map scan_key l) (m, true) ->
  listCurrentKeys d = (Ok l, server w1) -> km_keys m !! kid = Some e ->
  exists id r, rows (server w1) !! id = Some r /\ r ∈ l /\ j_kid r = kid /\ entry_of w1 wd (scan_key r) e.
Proof.
  intros (H1 & _ & _) Hq He. destruct (H1 _ _ He) as (record & (r & <- & Hr)%list_elem_of_In%in_map_iff & Hk & Hent).
  apply list_elem_of_In in Hr. pose proof (current_rows _ _ _ Hq) as (Hrows & Hin & _).
  destruct (proj1 (Hin r) Hr) as [_ [id Hid]]. exists id, r. by rewrite Hrows.
Qed.

(** C37. Tokens outlive the rotation of the key that signed them: a token
    minted with the active key of a manager loaded from the database, whose
    row publishes that key, is accepted, for exactly the claims it carries, by
    every manager loaded later (in this process or another), whatever
    rotations of the table came between, under two conditions at that later
    load: the database's clock has not reached the time until which those
    rotations keep the keys they replace, and the key's file, if it can still
    be read, has not been overwritten with another private key.  The second is
    not granted by the code: two rotations within a second write the same
    file ([overwritten_key_refused] below). *)
Theorem token_survives_rotation w1 m1 w1' meta sk c wm token wm' w2 m2 w2' o wv r wv' :
  one_active (server w1) -> publishes (listed w1) (key.KID meta) sk -> file_kept (listed w2) (key.KID meta) sk ->
  LoadKeyManagerFromRepository (Some rotation_repository) wd w1 = (Ok m1, w1') ->
  ActiveSigningKey m1 = Ok (meta, sk) -> ascii_string (key.KID meta) = true -> claims_ok c ->
  Mint (NewJWTService (W := W) (Some (NewSigner (Some (fun _ => m1))))) c wm = (Ok token, wm') ->
  rtc (key_step T) (server (listed w1)) (server w2) -> current_timestamp (server (listed w2)) < T ->
  LoadKeyManagerFromRepository (Some rotation_repository) wd w2 = (Ok m2, w2') ->
  ParseAndValidate (NewJWTService (W := W) (Some (NewSigner (Some (fun _ => m2))))) token o wv = (r, wv') ->
  (r = Ok (json_claims c) <-> valid_for o c (validated_at o wv)) /\ (r = Ok (json_claims c) \/ exists e, r = Err e).
Proof.
  intros Hone Hs1 Hs2 Hload1 Hact Hka Hc Hmint Hsteps Hclock Hload2 Hval.
  apply loaded_inv in Hload1 as (d1 & l1 & w1l & Ht1 & Hq1 & Hl1 & Hld1). rewrite Hl1 in *.
  apply loaded_inv in Hload2 as (d2 & l2 & w2l & Ht2 & Hq2 & Hl2 & Hld2). rewrite Hl2 in *.
  pose proof (current_rows _ _ _ Hq1) as (Hrows1 & Hin1 & _). pose proof (current_rows _ _ _ Hq2) as (Hrows2 & Hin2 & Hck).
  destruct (rotation_keeps_keys T _ _ Ht1 Hone) as [Hone1 _].
  assert (Hone1' : one_active (server w1l)) by (unfold one_active in *; by rewrite Hrows1).
  unfold ActiveSigningKey in Hact. destruct (String.eqb_spec (km_activeKID m1) "") as [|Hkne]; [done|].
  destruct (km_keys m1 !! km_activeKID m1) as [e1|] eqn:He1; [|done]. destruct (mk_privateKey e1) as [sk'|] eqn:Hsk; [|done].
  injection Hact as <- <-. destruct (entry_row _ _ _ _ _ _ Hld1 Hq1 He1) as (id & r1 & Hr1 & Hr1l & Hkid & Hm1 & _ & _).
  pose proof (f_equal key.KID Hm1) as Hmk. cbn in Hmk.
  (* the active key's row is active *)
  destruct Hld1 as (_ & _ & Hactive). destruct (Hactive eq_refl) as (rec & (ra & <- & Hra)%list_elem_of_In%in_map_iff & Hia & Hka2).
  apply list_elem_of_In in Hra. destruct (proj1 (Hin1 ra) Hra) as [_ [ida Hida]]. rewrite <- Hrows1 in Hida.
  assert (ra = r1) as -> by (eapply same_row; [exact Hida | exact Hr1 | cbn in Hka2; congruence]). cbn in Hia.
  (* it is still listed *)
  destruct (rotation_keeps_keys T _ d2 ltac:(etrans; [exact Hsteps | exact Ht2]) Hone1') as [_ Hkeep].
  destruct (Hkeep _ _ Hr1 Hia) as (r2 & Hr2 & (S1 & S2 & S3 & S4 & S5) & Hlist).
  assert (Hr2l : r2 ∈ l2) by (eapply Hlist; [lia | exact Hq2]).
  assert (Hk2 : exists e2, km_keys m2 !! km_activeKID m1 = Some e2).
  { destruct Hld2 as (_ & Hall & _). destruct (Hall (scan_key r2)) as [_ [e2 He2]]; [by apply list_elem_of_fmap_2|].
    exists e2. cbn in He2. by rewrite S1, Hkid in He2. }
  destruct Hk2 as [e2 He2]. destruct (entry_row _ _ _ _ _ _ Hld2 Hq2 He2) as (id' & r2' & Hr2' & _ & Hkid2 & Hm2 & (pk & Hpk & Hpub) & _).
  rewrite <- Hrows2 in Hr2. assert (r2' = r2) as -> by (eapply same_row; [exact Hr2' | exact Hr2 | congruence]).
  pose proof (Hs1 _ _ Hr1 ltac:(congruence)) as Hp1. pose proof (Hs2 _ _ Hr2 ltac:(congruence)) as Hu2.
  assert (pk = Public sk') as ->.
  { destruct Hpub as [Hpub|(k & Hk & ->)]; [cbn in Hpub; rewrite S4 in Hpub; congruence|]. by rewrite (Hu2 _ Hk). }
  set (js := fun m => NewJWTService (W := W) (Some (NewSigner (Some (fun _ => m))))).
  refine (minted_token_validates (js m1) (js m2) (fun _ => m1) (fun _ => m2) _ _ _ _ (mk_meta e1) sk' (mk_meta e2) _ _ _ _
    eq_refl eq_refl _ _ Hka _ _ Hc Hmint Hval).
  - cbv beta. unfold ActiveSigningKey. rewrite (proj2 (String.eqb_neq _ _) Hkne), He1, Hsk. done.
  - rewrite Hmk. congruence.
  - cbv beta. unfold PublicKeyByKID. rewrite Hmk, Hkid, He2, Hpk. done.
  - rewrite Hm2. cbn. rewrite S2. unfold Mint, SignJWT in Hmint. run_some Hmint as sg Hsg. injection Hsg as <-.
    run_some Hmint as ks Hks. injection Hks as <-. run Hmint as a wa Ha. cbv beta in Ha. unfold ActiveSigningKey in Ha. rewrite (proj2 (String.eqb_neq _ _) Hkne), He1, Hsk in Ha. injection Ha as <- <-.
    run_guard Hmint as Halg. apply String.eqb_eq in Halg. rewrite Hm1 in Halg. cbn in Halg. done.
Qed.
End Until.

(** Requests to the database do not touch the files. *)
Hypothesis transport_files : forall w, os_same w (transport w).2.
Hypothesis put_files : forall d w, os_same w (put_server d w).
(** A JSON column keeps the value of what it is given. *)
Hypothesis json_kept : forall raw j, json_column (D := D) raw = Some j ->
  unmarshal_struct j jwk_document = unmarshal_struct raw jwk_document.

Lemma call_files {A} (m : IO D A) w r w' : call m w = (r, w') -> os_same w w'.
Proof.
  unfold call. generalize (max_retries w) as n. intros n. revert w. induction n as [|n IH]; intros w; cbn [round_trips];
    pose proof (transport_files w) as Ht; destruct (transport w) as [[|e|e] w1]; cbn [snd] in Ht;
    try (destruct (m (server w1)) as [x d] eqn:E; pose proof (put_files d w1) as Hp); intros Hx.
  1,2,3: by injection Hx as <- <-; try etrans.
  - injection Hx as <- <-. by etrans.
  - apply IH in Hx. by etrans.
  - apply IH in Hx. etrans; [exact Ht|]. by etrans.
Qed.

(** A rotation leaves one key to sign with, whose parts belong
    together: after a rotation that reports a new key, the only active row of
    the table is the new one, not retired and due in ninety days; its JSON web
    key reads back as the public key, and its reference leads to the file of
    the private key, wherever the storage directory is.  Without [force] a
    rotation happens only when no key is active or the active one is due
    within the configured margin; otherwise the table is not written. *)
Theorem rotation_creates_key cfg force w b w' :
  IsAbs (WorkingDir cfg) = true ->
  rotateKey (Some rotation_repository) cfg force w = (Ok b, w') ->
  exists records w1 now, ListCurrent repo w = (Ok records, w1) /\
    b = negb (keeps_key (with_defaults cfg) force now (findActiveKey records)) /\
    (b = true -> exists id r sk, rows (server w') !! id = Some r /\ j_kid r = key_id (with_defaults cfg) now /\
      j_is_active r = true /\ j_deactivated_at r = None /\ j_rotates_at r = Some (datetime (Add now (90 * 24 * Hour))) /\
      (forall i r', rows (server w') !! i = Some r' -> j_is_active r' = true -> i = id) /\
      (ascii_string (j_kid r) = true -> parsed_key (j_public_jwk_json r) = Ok (Public sk)) /\
      ref_key w' (scan_string (j_private_key_ref r)) (WorkingDir cfg) = Some sk).
Proof.
  intros Hwd Hx. unfold rotateKey in Hx. run_some Hx as rp Hrp. injection Hrp as <-. cbv zeta in Hx.
  run Hx as records w1 Hl. run Hx as t w2 Hn. exists records, w1, t. split; [exact Hl|].
  destruct (keeps_key _ _ _ _); [by apply ret_Ok in Hx as [<- _]|].
  run Hx as sk w3 Hg. run Hx as ref w4 Hw. run Hx as u w5 Hc. apply ret_Ok in Hx as [<- <-]. split; [done|]. intros _.
  apply (written_key_found (with_defaults cfg)) in Hw as [Hw Hne]; [|exact Hwd].
  cbn [rotation_repository rr_CreateActiveKey] in Hc. unfold CreateActiveKey, run_on in Hc. rewrite on_writer in Hc.
  pose proof (call_files _ _ _ _ Hc) as Hos. apply call_Ok in Hc as (w6 & d & Hc & <-).
  apply create_tx_Ok in Hc as (id & json & Hj & Hfree & Hr).
  exists id. eexists. exists sk. rewrite Hr, lookup_insert_eq. split; [done|].
  cbn [j_kid j_is_active j_deactivated_at j_rotates_at j_public_jwk_json j_private_key_ref new_record kr_KID kr_PrivateKeyRef kr_RotatesAt].
  do 4 (split; [done|]). split; [|split].
  - intros i r'. destruct (decide (i = id)) as [->|Hi]; [done|]. rewrite lookup_insert_ne, lookup_fmap by done.
    destruct (rows (server w6) !! i) as [r0|]; [|done]. cbn. intros [= <-]. by destruct (j_is_active r0) eqn:E; cbn; rewrite ?E.
  - intros Ha. unfold parsed_key. rewrite (jwk_reads_back (key_id (with_defaults cfg) t) (Public sk)); [done | apply public_ok | done|].
    by apply json_kept.
  - rewrite (ref_key_same w4) by done. rewrite scan_nullString. exact Hw.
Qed.
End Rotation.

(** ** At work: a service that rotates its key *)

Import KeyDemo JwkRepoDemo.

Module RotationDemo.
(** The database, the files, and how many keys were drawn. *)
Record world := mkWorld { w_db : JwkRepoDemo.database; w_files : gmap string string; w_drawn : Z }.

#[export] Program Instance remote : Remote world JwkRepoDemo.database := {
  server := w_db;
  put_server := fun d w => mkWorld d (w_files w) (w_drawn w);
  transport := fun w => (Delivered, w);
  max_retries := fun _ => 0%nat;
}.
Next Obligation. done. Qed.

#[export] Instance runtime : Runtime world := {
  time_Now := fun w => (clock (w_db w), w);
  uuid_NewString := fun w => ("uuid", w);
  rand_Read := fun n w => (Ok (replicate n 7), w);
}.

#[export] Program Instance os : OS world := {
  file := fun w p => w_files w !! p;
  MkdirAll := fun p w => (Ok tt, w);
  WriteFile := fun p c w => (Ok tt, mkWorld (w_db w) (<[p := c]> (w_files w)) (w_drawn w));
  ReadFile := fun p w => match w_files w !! p with Some c => (Ok c, w) | None => (Err (Driver "no such file" : error), w) end;
  Getenv := fun w n => "";
  GenerateKey := fun bits w => (Ok ("k" +:+ FormatInt (w_drawn w)), mkWorld (w_db w) (w_files w) (w_drawn w + 1));
}.
Next Obligation. intros p c w u w' [= _ <-]. cbn. by rewrite lookup_insert_eq. Qed.
Next Obligation. intros p w c w'. cbn. destruct (w_files w !! p); by intros [= <- _]. Qed.
Next Obligation. intros p w r w'. cbn. by destruct (w_files w !! p); intros [= _ <-]. Qed.

Definition repo : JWKKeyRepository world JwkRepoDemo.database := NewJWKKeyRepositoryRW (Some remote) None.
Definition repository : option (rotationRepository world) := Some (rotation_repository repo).
Definition cfg : RotationConfig := mkRotationConfig "/srv/idp" "" 0 0 0 "".

Definition empty : world := mkWorld (JwkRepoDemo.mkDatabase ∅ JwkRepoDemo.now) ∅ 0.
Definition later (d : duration) (w : world) : world :=
  mkWorld (JwkRepoDemo.mkDatabase (table_rows (w_db w)) (clock (w_db w) + d)) (w_files w) (w_drawn w).

(** The first start makes a key; an hour later an operator rotates it. *)
Definition started : world := (rotateKey repository cfg false empty).2.
Definition manager_at (w : world) : KeyManager :=
  match (LoadKeyManagerFromRepository repository (WorkingDir cfg) w).1 with Ok m => m | Err _ => NewKeyManager end.
Definition hour_later : world := later (3600 * Second) started.
Definition replaced : world := (rotateKey repository cfg true hour_later).2.

Example first_key : List.map (fun r => (j_kid r.2, j_private_key_ref r.2)) (map_to_list (table_rows (w_db started))) =
  [("kid-20231114T221320Z", Some "file://scripts/dev_keys/kid-20231114T221320Z.pem")].
Proof. vm_compute. reflexivity. Qed.

Definition service (w : world) : JWTService world := NewJWTService (Some (NewSigner (Some (fun _ => manager_at w)))).
Definition token : string := match (Mint (service started) JwtDemo.id_claims started).1 with Ok t => t | Err _ => "" end.

(** The public keys of the service name their JSON web keys; both kids are there. *)
Example both_published : List.map jwk_Kid (PublicJWKS (manager_at replaced)) = ["kid-20231114T221320Z"; "kid-20231114T231320Z"].
Proof. vm_compute. reflexivity. Qed.

(** A second rotation within the second fails on the kid, but has written its
    private key over that of the first: the key that signs is no longer the
    one the table publishes. *)
Example same_second_rotation : exists e w', rotateKey repository cfg true started = (Err e, w') /\
  ref_key started "file://scripts/dev_keys/kid-20231114T221320Z.pem" "/srv/idp" = Some ("k0" : PrivateKey) /\
  ref_key w' "file://scripts/dev_keys/kid-20231114T221320Z.pem" "/srv/idp" = Some ("k1" : PrivateKey) /\
  rows (R := jwk_row) (server w') = rows (server started).
Proof. vm_compute. by eexists _, _. Qed.
End RotationDemo.
Import RotationDemo.

Lemma demo_transport_files (w : world) : os_same w (transport w).2.
Proof. by split. Qed.
Lemma demo_put_files d (w : world) : os_same w (put_server d w).
Proof. by split. Qed.
Lemma demo_json_kept raw j : json_column (D := JwkRepoDemo.database) raw = Some j ->
  unmarshal_struct j jwk_document = unmarshal_struct raw jwk_document.
Proof. by intros [= <-]. Qed.

Lemma rotation_creates_key_witness : exists id r sk w', rotateKey repository cfg true hour_later = (Ok true, w') /\
  rows (server w') !! id = Some r /\ j_is_active r = true /\
  ref_key w' (scan_string (j_private_key_ref r)) (WorkingDir cfg) = Some sk.
Proof.
  destruct (rotateKey repository cfg true hour_later) as [b w'] eqn:E.
  assert (b = Ok true) as -> by (apply (f_equal fst) in E; vm_compute in E; congruence).
  destruct (rotation_creates_key repo remote eq_refl demo_transport_files demo_put_files demo_json_kept
    cfg true hour_later true w' eq_refl E) as (records & w1 & t & _ & _ & Hall).
  destruct (Hall eq_refl) as (id & r & sk & Hr & _ & Ha & _ & _ & _ & _ & Hk). exists id, r, sk, w'.
  split; [reflexivity|]. split; [exact Hr|]. split; [exact Ha | exact Hk].
Defined.

Lemma started_rows id r : rows (server started) !! id = Some r -> id = 0 /\ j_deactivated_at r = None.
Proof. intros Hr. apply elem_of_map_to_list in Hr. vm_compute in Hr. apply list_elem_of_singleton in Hr. by injection Hr as -> ->. Qed.

Lemma started_one_active : one_active (server started).
Proof.
  split; [intros id r Hr _; by apply started_rows in Hr as [_ ?]|]. intros i j r s Hi Hj _ _.
  apply started_rows in Hi as [-> _]. by apply started_rows in Hj as [-> _].
Qed.

Lemma started_publishes : publishes remote (listed repo started) "kid-20231114T221320Z" ("k0" : @PrivateKey toy_rsa).
Proof.
  intros id r Hr _. apply elem_of_map_to_list in Hr. vm_compute in Hr. apply list_elem_of_singleton in Hr. injection Hr as _ ->.
  vm_compute. reflexivity.
Qed.

Lemma replaced_file_kept : file_kept remote "/srv/idp" (listed repo replaced) "kid-20231114T221320Z" ("k0" : @PrivateKey toy_rsa).
Proof.
  intros id r Hr. apply elem_of_map_to_list in Hr. vm_compute in Hr.
  apply elem_of_cons in Hr as [Hr|Hr]; [|apply list_elem_of_singleton in Hr]; injection Hr as _ ->; intros Hkid k Hk.
  - vm_compute in Hkid. discriminate Hkid.
  - vm_compute in Hk. by injection Hk as <-.
Qed.

(** The rotation of the demo is one step of the table. *)
Lemma replaced_steps T : T <= 1700003600 * Second + 86400 * Second -> rtc (key_step T) (server (listed repo started)) (server replaced).
Proof.
  intros HT. eapply rtc_l; [apply key_elsewhere with (d' := server hour_later); vm_compute; reflexivity|].
  apply rtc_once. set (now := 1700003600 * Second).
  set (record := new_record "kid-20231114T231320Z"
    (buildPublicJWKJSON "kid-20231114T231320Z" (toy_public "k1") DefaultJWTAlg DefaultKeyUse)
    "file://scripts/dev_keys/kid-20231114T231320Z.pem" now).
  apply (key_created T record (Add now (86400 * Second)) _ (Ok tt)); [exact HT|]. vm_compute. reflexivity.
Qed.

Definition until : time := 1700003600 * Second + 86400 * Second.

Lemma demo_transport_keys (w : world) : rtc (key_step until) (server w) (server (transport w).2).
Proof. apply rtc_refl. Qed.

(** The manager the demo service has at a time. *)
Lemma manager_loaded w m w' : LoadKeyManagerFromRepository repository "/srv/idp" w = (Ok m, w') -> manager_at w = m.
Proof. unfold manager_at. change (WorkingDir cfg) with "/srv/idp". by intros ->. Qed.

Lemma started_active : exists meta, ActiveSigningKey (manager_at started) = Ok (meta, "k0" : @PrivateKey toy_rsa) /\ key.KID meta = "kid-20231114T221320Z".
Proof. vm_compute. by eexists. Qed.

Lemma token_minted : Mint (service started) JwtDemo.id_claims started = (Ok token, started).
Proof. vm_compute. reflexivity. Qed.

Lemma loads_at w : forallb id [match (LoadKeyManagerFromRepository repository "/srv/idp" w).1 with Ok _ => true | Err _ => false end] = true ->
  exists w', LoadKeyManagerFromRepository repository "/srv/idp" w = (Ok (manager_at w), w').
Proof.
  destruct (LoadKeyManagerFromRepository repository "/srv/idp" w) as [[m|e] w'] eqn:E; [|discriminate].
  intros _. exists w'. by rewrite (manager_loaded _ _ _ E).
Qed.

(** Asked a second before the token expires, the hour after. *)
Definition asked : ValidateOptions := mkValidateOptions "https://idp.example" "" "" (1700003599 * Second).

(** After the second rotation within a second the service loads its keys
    again, but refuses its own token: the file of the key is another's. *)
Example overwritten_key_refused : let w := (rotateKey repository cfg true started).2 in
  (ParseAndValidate (service started) token asked w).1 = Ok (json_claims JwtDemo.id_claims) /\
  (ParseAndValidate (service w) token asked w).1 = Err (Driver "verify jwt signature" : error).
Proof. split; vm_compute; reflexivity. Qed.

Lemma token_survives_rotation_witness :
  exists r w', ParseAndValidate (service replaced) token asked replaced = (r, w') /\
    r = Ok (json_claims JwtDemo.id_claims).
Proof.
  destruct (ParseAndValidate (service replaced) token asked replaced) as [r w'] eqn:E.
  destruct started_active as (meta & Hact & Hkid).
  destruct (loads_at started ltac:(vm_compute; reflexivity)) as [w1 H1].
  destruct (loads_at replaced ltac:(vm_compute; reflexivity)) as [w2 H2].
  destruct (token_survives_rotation repo remote "/srv/idp" eq_refl until demo_transport_keys select_once
    started (manager_at started) w1 meta _ JwtDemo.id_claims started token started replaced (manager_at replaced) w2
    asked replaced r w'
    started_one_active ltac:(rewrite Hkid; exact started_publishes) ltac:(rewrite Hkid; exact replaced_file_kept) H1 Hact
    ltac:(rewrite Hkid; reflexivity) JwtDemo.id_claims_ok token_minted
    (replaced_steps until (Z.le_refl until)) ltac:(vm_compute; reflexivity) H2 E) as [[_ Hr] _].
  exists r, w'. split; [reflexivity|]. apply Hr. split; [right; reflexivity|]. split; [left; reflexivity|].
  split; [left; reflexivity|]. split; [exists 1700003600; split; [reflexivity | vm_compute; reflexivity]|].
  intros k [-> | ->]; [left; reflexivity | right; exists 1700000000; split; [reflexivity | vm_compute; discriminate]].
Defined.
