(* ===== verification/AuthorizationCodeRepo.v ===== *)
(** * Authorization codes in the database (authorization_code_repo.go)

    A code is inserted once and consumed under a row lock.  The statements are
    those of sql/authorization_code_repository. *)

From stdpp Require Import base tactics list gmap strings numbers relations.
From Stdlib Require Import ZArith Lia Ascii.
From S2P Require Import Prelude GoStrings GoTime Errors Domain Ports Remote Database.

(** A row of oauth_authorization_codes. *)
Record code_row := mkCodeRow {
  c_id : Z;
  c_code : string;
  c_client_id : Z;
  c_user_id : Z;
  c_session_id : option Z;
  c_redirect_uri : string;
  c_scopes_json : string;
  c_state_value : option string;
  c_nonce_value : option string;
  c_code_challenge : option string;
  c_code_challenge_method : option string;
  c_expires_at : time;
  c_consumed_at : option time;
  c_created_at : time;
}.

(** PRIMARY KEY (id), UNIQUE KEY (code) *)
#[export] Instance code_row_keys {D} `{Columns D} : Row code_row := {
  row_id := c_id;
  conflict := fun a b => collate (D := D) (c_code a) (c_code b);
}.

Definition set_consumed_at (t : time) (r : code_row) : code_row :=
  mkCodeRow (c_id r) (c_code r) (c_client_id r) (c_user_id r) (c_session_id r) (c_redirect_uri r)
    (c_scopes_json r) (c_state_value r) (c_nonce_value r) (c_code_challenge r)
    (c_code_challenge_method r) (c_expires_at r) (Some t) (c_created_at r).

Section Repository.
Context {W D : Type} `{!Columns D} `{!Table D code_row (H := code_row_keys (D := D))}.
Context (db : dbRouter W D).

Definition NewAuthorizationCodeRepositoryRW (writeDB readDB : DB W D) : dbRouter W D :=
  newDBRouter writeDB readDB.

(** create_authorization_code.sql *)
Definition createAuthorizationCode (model : authorization.Model) : IO D Z :=
  let* scopes_json := some_or (json_column (authorization.ScopesJSON model)) (Driver "Invalid JSON text") in
  INSERT (fun id created_at =>
    mkCodeRow id (authorization.Code model) (authorization.ClientDBID model) (authorization.UserID model)
      (nullInt64 (authorization.SessionDBID model)) (authorization.RedirectURI model) scopes_json
      (nullString (authorization.StateValue model)) (nullString (authorization.NonceValue model))
      (nullString (authorization.CodeChallenge model)) (nullString (authorization.CodeChallengeMethod model))
      (datetime (authorization.ExpiresAt model))
      (option_map datetime (nullTime (authorization.ConsumedAt model))) created_at).

Definition Create (model : authorization.Model) : IO W authorization.Model :=
  let* id := run_on (writer db) (createAuthorizationCode model) in
  ret (authorization.set_ID id model).

Definition scanAuthorizationCode (r : code_row) : authorization.Model :=
  authorization.mk (c_id r) (c_code r) (c_client_id r) (c_user_id r) (c_session_id r)
    (c_redirect_uri r) (c_scopes_json r) (scan_string (c_state_value r)) (scan_string (c_nonce_value r))
    (scan_string (c_code_challenge r)) (scan_string (c_code_challenge_method r)) (c_expires_at r)
    (c_consumed_at r) (c_created_at r).

(** consume_select_by_code_for_update.sql; [QueryRow] takes the first row. *)
Definition consumeSelectByCodeForUpdate (code : string) : IO D (option code_row) :=
  let* l := SELECT (fun _ r => collate (D := D) (c_code r) code) in
  ret (match l with r :: _ => Some r | [] => None end).

(** consume_update_consumed_at.sql *)
Definition consumeUpdateConsumedAt (consumedAt : time) (id : Z) : IO D Z :=
  UPDATE (fun _ r => (c_id r =? id) && bool_decide (c_consumed_at r = None))
    (set_consumed_at (datetime consumedAt)).

Definition consume_tx (code : string) (consumedAt : time) : IO D (bool * option authorization.Model) :=
  let* row := consumeSelectByCodeForUpdate code in
  match row with
  | None => ret (false, None)
  | Some r =>
      let model := scanAuthorizationCode r in
      if bool_decide (is_Some (authorization.ConsumedAt model)) ||
         negb (After (authorization.ExpiresAt model) consumedAt)
      then ret (false, None) else
      let* rowsAffected := consumeUpdateConsumedAt consumedAt (authorization.ID model) in
      if rowsAffected =? 0 then ret (false, None)
      else ret (true, Some (authorization.set_ConsumedAt (Some consumedAt) model))
  end.

Definition ConsumeByCode (code : string) (consumedAt : time) : IO W (option authorization.Model) :=
  run_on (writer db) (transaction (consume_tx code consumedAt)).

Definition NewAuthorizationCodeRepository : AuthorizationCodeRepository W := {|
  AuthorizationCode_Create := Create;
  Ports.ConsumeByCode := ConsumeByCode;
|}.
End Repository.

(** ** Consumption *)

Section Consumption.
Context {D : Type} `{!Columns D} `{!Table D code_row (H := code_row_keys (D := D))}.

(** The code is there and has been consumed. *)
Definition consumed (code : string) (d : D) : Prop :=
  exists id r, rows d !! id = Some r /\ collate (D := D) (c_code r) code = true /\ c_consumed_at r <> None.

Lemma select_code_inv code (d : D) o d' :
  consumeSelectByCodeForUpdate code d = (Ok o, d') ->
  rows d' = rows d /\
  forall r, o = Some r -> rows d !! c_id r = Some r /\ collate (D := D) (c_code r) code = true.
Proof.
  intros Hr. unfold consumeSelectByCodeForUpdate in Hr. run Hr as l d1 Hl. apply ret_Ok in Hr as [<- <-].
  split; [by eapply SELECT_rows|]. intros r Hr. destruct l as [|r' l]; simplify_eq.
  pose proof (SELECT_Ok _ _ _ _ Hl r) as [Hin _]. destruct Hin as [Hp [id Hid]]; [by left|].
  split; [|done]. by rewrite <- (rows_keyed _ _ _ Hid) in Hid.
Qed.

(** What a successful consumption found and left. *)
Lemma consume_tx_Ok code t (d : D) m d' :
  transaction (consume_tx code t) d = (Ok (Some m), d') ->
  exists r, rows d !! c_id r = Some r /\ collate (D := D) (c_code r) code = true /\
    c_consumed_at r = None /\ t < c_expires_at r /\
    m = authorization.set_ConsumedAt (Some t) (scanAuthorizationCode r) /\
    rows d' = <[c_id r := set_consumed_at (datetime t) r]> (rows d).
Proof.
  intros Hr. apply transaction_Ok in Hr as [Hr|(d1 & Hr & _)].
  all: unfold consume_tx in Hr; run Hr as o d2 Hs; apply select_code_inv in Hs as [Hrows Hsel].
  all: destruct o as [r|]; [|by apply ret_Ok in Hr as [? _]].
  all: destruct (Hsel r eq_refl) as [Hrow Hcode]; case_match eqn:Hg; [by apply ret_Ok in Hr as [? _]|].
  all: run Hr as n d3 Hu; case_match; [by apply ret_Ok in Hr as [? _]|].
  all: apply ret_Ok in Hr as [Heq <-]; simplify_eq.
  exists r. apply orb_false_iff in Hg as [Hc He]. simpl in Hc, He.
  assert (Hnone : c_consumed_at r = None).
  { destruct (c_consumed_at r); [|done]. by rewrite bool_decide_eq_true_2 in Hc by eauto. }
  apply negb_false_iff, After_spec in He.
  repeat split; try done. apply UPDATE_Ok in Hu as [-> _]. rewrite Hrows.
  apply map_eq. intros i. rewrite lookup_fmap. destruct (decide (c_id r = i)) as [<-|Hne].
  - rewrite Hrow, lookup_insert_eq. simpl. by rewrite Z.eqb_refl, bool_decide_eq_true_2.
  - rewrite lookup_insert_ne by done. destruct (rows d !! i) as [r'|] eqn:Ei; [|done]. simpl.
    pose proof (rows_keyed _ _ _ Ei) as Hid. simpl in Hid. subst i.
    by rewrite (proj2 (Z.eqb_neq _ _)) by congruence.
Qed.

(** The consumed row is the only one with its code. *)
Lemma consumed_unique code (d : D) r id :
  consumed code d -> rows d !! id = Some r -> collate (D := D) (c_code r) code = true ->
  c_consumed_at r <> None.
Proof.
  intros (id0 & r0 & H0 & Hc0 & Hn) Hr Hc.
  assert (id0 = id) as ->; [|congruence].
  eapply rows_unique; [exact H0|exact Hr|]. simpl.
  eapply collate_trans; [exact Hc0|]. by rewrite collate_sym.
Qed.
End Consumption.

(** ** Runs of the table's operations *)

Section Steps.
Context {D : Type} `{!Columns D} `{!Table D code_row (H := code_row_keys (D := D))}.

(** One statement or transaction on the table, whatever its outcome; or
    anything that leaves the table alone. *)
Inductive code_step : relation D :=
| step_create m d a d' : createAuthorizationCode m d = (a, d') -> code_step d d'
| step_consume code t d a d' : transaction (consume_tx code t) d = (a, d') -> code_step d d'
| step_elsewhere d d' : rows d' = rows d -> code_step d d'.

Lemma consumed_step code (d d' : D) : code_step d d' -> consumed code d -> consumed code d'.
Proof.
  intros Hs (id & r & Hr & Hc & Hn). destruct Hs as [m d a d' Hx|code' t d a d' Hx|d d' Hx].
  - unfold createAuthorizationCode in Hx.
    destruct (json_column (authorization.ScopesJSON m)) as [js|]; [|by injection Hx as _ <-; exists id, r].
    simpl in Hx. unfold bind in Hx. simpl in Hx. destruct a as [nid|e].
    + apply INSERT_Ok in Hx as (Hnew & created & Hd & _). exists id, r. split; [|done].
      rewrite Hd, lookup_insert_ne; [done|]. congruence.
    + apply INSERT_Err in Hx. exists id, r. by rewrite Hx.
  - destruct a as [[m|]|e].
    + apply consume_tx_Ok in Hx as (r1 & Hr1 & _ & Hn1 & _ & _ & Hd).
      exists id, r. split; [|done]. rewrite Hd, lookup_insert_ne; [done|]. intros <-. congruence.
    + apply transaction_Ok in Hx as [Hx|(? & _ & ->)]; [|by exists id, r].
      exfalso. unfold consume_tx in Hx. run Hx as o d1 H1. destruct o; [|by apply ret_Ok in Hx as [? _]].
      case_match; [by apply ret_Ok in Hx as [? _]|]. run Hx as n d2 H2. case_match; by apply ret_Ok in Hx as [? _].
    + apply transaction_Err in Hx as ->. by exists id, r.
  - exists id, r. by rewrite Hx.
Qed.

Lemma consumed_forever code (d d' : D) : rtc code_step d d' -> consumed code d -> consumed code d'.
Proof. induction 1; eauto using consumed_step. Qed.
End Steps.

(** C3. An authorization code is consumed at most once.  When
    [ConsumeByCode] returns a code, then while the call ran its row was
    stored, not consumed and not expired at that instant, what is returned is
    that row, and the row is marked in the same transaction; from then on no
    call with that code (as the collation compares codes) returns anything,
    whatever codes are created or consumed in between, by any number of
    servers, lost replies included. *)
Theorem authorization_code_single_use {W D} `{!Columns D} `{!Table D code_row (H := code_row_keys (D := D))}
    (db : dbRouter W D) (h : Remote W D) code1 code2 t1 t2 m m' w w1 w2 w3 :
  writer db = Some h ->
  (forall w, rtc code_step (server w) (server (transport w).2)) ->
  ConsumeByCode db code1 t1 w = (Ok (Some m), w1) ->
  collate (D := D) code1 code2 = true ->
  rtc code_step (server w1) (server w2) ->
  (exists wa r, rtc code_step (server w) (server wa) /\
     rows (server wa) !! c_id r = Some r /\ collate (D := D) (c_code r) code1 = true /\
     c_consumed_at r = None /\ t1 < c_expires_at r /\
     m = authorization.set_ConsumedAt (Some t1) (scanAuthorizationCode r) /\
     rows (server w1) = <[c_id r := set_consumed_at (datetime t1) r]> (rows (server wa))) /\
  ConsumeByCode db code2 t2 w2 <> (Ok (Some m'), w3).
Proof.
  intros Hdb Htr H1 Hcode Hrtc. unfold ConsumeByCode, run_on in *. rewrite Hdb in *.
  assert (Hsteps : forall code t (d : D), rtc code_step d (transaction (consume_tx code t) d).2).
  { intros code t d. apply rtc_once. destruct (transaction (consume_tx code t) d) as [a d'] eqn:E. by eapply step_consume. }
  apply (call_Ok_steps code_step) in H1 as (wa & d1 & Hwa & Hs & <-); [|exact Htr|apply Hsteps].
  apply consume_tx_Ok in Hs as (r & Hr & Hc & Hn & He & -> & Hrows).
  split; [by exists wa, r|]. intros H2.
  assert (Hcon : consumed code2 (server w1)).
  { exists (c_id r), (set_consumed_at (datetime t1) r). rewrite Hrows, lookup_insert_eq. split; [done|].
    split; [by eapply collate_trans|done]. }
  apply (consumed_forever _ _ _ Hrtc) in Hcon.
  apply (call_Ok_steps code_step) in H2 as (wb & d2 & Hwb & Hs & _); [|exact Htr|apply Hsteps].
  apply (consumed_forever _ _ _ Hwb) in Hcon.
  apply consume_tx_Ok in Hs as (r2 & Hr2 & Hc2 & Hn2 & _). by eapply consumed_unique.
Qed.

(** ** At work *)

Module CodeDemo.
Record database := mkDatabase { codes : gmap Z code_row; clock : time }.
Record world := mkWorld { w_db : database }.

#[export] Instance columns : Columns database := memory_columns clock.
#[export] Instance table : Table database code_row (H := code_row_keys (D := database)) :=
  memory_table codes (fun m d => mkDatabase m (clock d)) clock (fun m d => eq_refl).

#[export] Program Instance remote : Remote world database := {
  server := w_db;
  put_server := fun d w => mkWorld d;
  transport := fun w => (Delivered, w);
  max_retries := fun _ => 0%nat;
}.
Next Obligation. done. Qed.

Definition now : time := 1700000000 * Second.

Definition code : authorization.Model :=
  authorization.mk 0 "code-1" 3 7 None "https://app/cb" "[]" "" "n" "" "" (now + 600 * Second) None 0.

Definition db : dbRouter world database := newDBRouter (Some remote) None.

Definition created : world := (Create db code (mkWorld (mkDatabase ∅ now))).2.
Definition model : option authorization.Model :=
  match (ConsumeByCode db "code-1" (now + Second) created).1 with Ok (Some m) => Some m | _ => None end.
Definition spent : world := (ConsumeByCode db "code-1" (now + Second) created).2.
End CodeDemo.

Import CodeDemo.

Lemma authorization_code_single_use_witness :
  exists m, ConsumeByCode CodeDemo.db "code-1" (CodeDemo.now + Second) created = (Ok (Some m), spent) /\
    forall m' w3, ConsumeByCode CodeDemo.db "code-1" (CodeDemo.now + 2 * Second) spent <> (Ok (Some m'), w3).
Proof.
  destruct (ConsumeByCode CodeDemo.db "code-1" (CodeDemo.now + Second) created) as [[[m|]|e] w1] eqn:E;
    [|vm_compute in E; discriminate E|vm_compute in E; discriminate E].
  exists m. assert (Hw : w1 = spent) by (unfold spent; rewrite E; reflexivity). subst w1.
  split; [reflexivity|]. intros m' w3.
  destruct (authorization_code_single_use CodeDemo.db CodeDemo.remote "code-1" "code-1" (CodeDemo.now + Second)
    (CodeDemo.now + 2 * Second) m m' created spent spent w3) as [_ Hno].
  - reflexivity.
  - intros w. constructor.
  - exact E.
  - reflexivity.
  - constructor.
  - exact Hno.
Defined.
