(* ===== verification/SessionRepo.v ===== *)
(** * Sessions in the database (session_repo.go)

    A session is inserted at login and never removed; logging out stamps it.
    The statements are those of sql/session_repository.  Session identifiers
    are uuids, 36 characters, which the CHAR(36) column keeps as they are. *)

From stdpp Require Import base tactics list gmap strings numbers relations sorting.
From Stdlib Require Import ZArith Lia Ascii.
From S2P Require Import Prelude GoStrings GoTime Errors Domain Ports Remote Database.

(** A row of login_sessions. *)
Record session_row := mkSessionRow {
  l_id : Z;
  l_session_id : string;
  l_user_id : Z;
  l_subject : string;
  l_acr : option string;
  l_amr_json : option string;
  l_ip_address : option string;
  l_user_agent : option string;
  l_authenticated_at : time;
  l_expires_at : time;
  l_logged_out_at : option time;
  l_created_at : time;
}.

(** PRIMARY KEY (id), UNIQUE KEY (session_id) *)
#[export] Instance session_row_keys {D} `{Columns D} : Row session_row := {
  row_id := l_id;
  conflict := fun a b => collate (D := D) (l_session_id a) (l_session_id b);
}.

Definition set_logged_out (t : time) (r : session_row) : session_row :=
  mkSessionRow (l_id r) (l_session_id r) (l_user_id r) (l_subject r) (l_acr r) (l_amr_json r)
    (l_ip_address r) (l_user_agent r) (l_authenticated_at r) (l_expires_at r) (Some t) (l_created_at r).

(** ORDER BY authenticated_at DESC; rows of the same instant in any order. *)
Definition newest_first (a b : session_row) : Prop := l_authenticated_at b <= l_authenticated_at a.

#[export] Instance newest_first_dec a b : Decision (newest_first a b).
Proof. unfold newest_first. apply _. Defined.

#[export] Instance newest_first_total : Total newest_first.
Proof. intros a b. unfold newest_first. lia. Qed.

#[export] Instance newest_first_trans : Transitive newest_first.
Proof. intros a b c. unfold newest_first. lia. Qed.

Section Repository.
Context {W D : Type} `{!Columns D} `{!Table D session_row (H := session_row_keys (D := D))}.

Record SessionRepo := mkSessionRepo { db : dbRouter W D; forcePrimaryReadByID : bool }.

Definition NewSessionRepositoryRWWithPolicy (writeDB readDB : DB W D) (force : bool) : SessionRepo :=
  mkSessionRepo (newDBRouter writeDB readDB) force.

Definition NewSessionRepositoryRW (writeDB readDB : DB W D) : SessionRepo :=
  NewSessionRepositoryRWWithPolicy writeDB readDB false.

Definition amr_column (value : string) : IO D (option string) :=
  match nullString value with
  | None => ret None
  | Some s => let* j := some_or (json_column s) (Driver "Invalid JSON text") in ret (Some j)
  end.

(** create_session.sql *)
Definition createSession (model : session.Model) : IO D Z :=
  let* amr_json := amr_column (session.AMRJSON model) in
  INSERT (fun id created_at =>
    mkSessionRow id (session.SessionID model) (session.UserID model) (session.Subject model)
      (nullString (session.ACR model)) amr_json (nullString (session.IPAddress model))
      (nullString (session.UserAgent model)) (datetime (session.AuthenticatedAt model))
      (datetime (session.ExpiresAt model)) (option_map datetime (nullTime (session.LoggedOutAt model)))
      created_at).

Definition Create (r : SessionRepo) (model : session.Model) : IO W session.Model :=
  let* id := run_on (writer (db r)) (createSession model) in
  ret (session.mk id (session.SessionID model) (session.UserID model) (session.Subject model)
         (session.ACR model) (session.AMRJSON model) (session.IPAddress model) (session.UserAgent model)
         (session.AuthenticatedAt model) (session.ExpiresAt model) (session.LoggedOutAt model)
         (session.CreatedAt model)).

Definition scanSession (r : session_row) : session.Model :=
  session.mk (l_id r) (l_session_id r) (l_user_id r) (l_subject r) (scan_string (l_acr r))
    (scan_string (l_amr_json r)) (scan_string (l_ip_address r)) (scan_string (l_user_agent r))
    (l_authenticated_at r) (l_expires_at r) (l_logged_out_at r) (l_created_at r).

(** find_by_session_id.sql *)
Definition findBySessionID (sessionID : string) : IO D (option session_row) :=
  let* l := SELECT (fun _ r => collate (D := D) (l_session_id r) sessionID) in ret (head l).

(** list_active_by_user_id.sql *)
Definition listActiveByUserID (userID : Z) : IO D (list session_row) :=
  let* l := SELECT (fun d r => (l_user_id r =? userID) && bool_decide (l_logged_out_at r = None) &&
                               (current_timestamp d <? l_expires_at r)) in
  ret (merge_sort newest_first l).

(** logout_by_session_id.sql *)
Definition logoutBySessionID (loggedOutAt : time) (sessionID : string) : IO D Z :=
  UPDATE (fun _ r => collate (D := D) (l_session_id r) sessionID && bool_decide (l_logged_out_at r = None))
    (set_logged_out (datetime loggedOutAt)).

(** logout_all_by_user_id.sql *)
Definition logoutAllByUserID (loggedOutAt : time) (userID : Z) : IO D Z :=
  UPDATE (fun _ r => (l_user_id r =? userID) && bool_decide (l_logged_out_at r = None))
    (set_logged_out (datetime loggedOutAt)).

(** [getOne] on the connection of the repository's policy: a row or nil. *)
Definition getOne (conn : DB W D) (sessionID : string) : IO W (option session.Model) :=
  let* row := run_on conn (findBySessionID sessionID) in
  ret (option_map scanSession row).

Definition FindBySessionID (r : SessionRepo) (sessionID : string) : IO W (option session.Model) :=
  getOne (if forcePrimaryReadByID r then writer (db r) else reader (db r)) sessionID.

Definition ListActiveByUserID (r : SessionRepo) (userID : Z) : IO W (list (option session.Model)) :=
  let* l := run_on (reader (db r)) (listActiveByUserID userID) in
  ret (List.map (fun x => Some (scanSession x)) l).

Definition LogoutBySessionID (r : SessionRepo) (sessionID : string) (loggedOutAt : time) : IO W unit :=
  do* run_on (writer (db r)) (logoutBySessionID loggedOutAt sessionID) in ret tt.

Definition LogoutAllByUserID (r : SessionRepo) (userID : Z) (loggedOutAt : time) : IO W unit :=
  do* run_on (writer (db r)) (logoutAllByUserID loggedOutAt userID) in ret tt.

Definition NewSessionRepository (r : SessionRepo) : SessionRepository W := {|
  Session_Create := Create r;
  Ports.FindBySessionID := FindBySessionID r;
  Ports.ListActiveByUserID := ListActiveByUserID r;
  Ports.LogoutBySessionID := LogoutBySessionID r;
  Ports.LogoutAllByUserID := LogoutAllByUserID r;
|}.
End Repository.

(** ** Runs of the table's operations *)

Section Steps.
Context {D : Type} `{!Columns D} `{!Table D session_row (H := session_row_keys (D := D))}.

(** One statement on the sessions, whatever its outcome; or anything that
    leaves them alone. *)
Inductive session_step : relation D :=
| session_create m d a d' : createSession m d = (a, d') -> session_step d d'
| session_logout t sid d a d' : logoutBySessionID t sid d = (a, d') -> session_step d d'
| session_logout_all t u d a d' : logoutAllByUserID t u d = (a, d') -> session_step d d'
| session_elsewhere d d' : rows (R := session_row) d' = rows d -> session_step d d'.

(** The row is there, belongs to that user and session, and is logged out. *)
Definition logged_out (id : Z) (sid : string) (user : Z) (d : D) : Prop :=
  exists r, rows d !! id = Some r /\ l_session_id r = sid /\ l_user_id r = user /\ l_logged_out_at r <> None.

Lemma preserves_create P m : (forall f, preserves P (INSERT (R := session_row) f)) -> preserves P (createSession m).
Proof.
  intros HI. unfold createSession, amr_column. apply preserves_bind.
  - case_match; [|apply preserves_ret]. apply preserves_bind; [apply preserves_some_or|]. intros. apply preserves_ret.
  - intros amr. apply HI.
Qed.

Lemma logged_out_update (p : D -> session_row -> bool) t id sid user :
  preserves (logged_out id sid user) (UPDATE p (set_logged_out t)).
Proof.
  intros d a d' Hx (r & Hr & H1 & H2 & H3). destruct a as [n|e].
  - apply UPDATE_Ok in Hx as [Hd _]. exists (if p d r then set_logged_out t r else r).
    rewrite Hd, lookup_fmap, Hr. split; [done|]. by case_match.
  - apply UPDATE_Err in Hx. exists r. by rewrite Hx.
Qed.

Lemma logged_out_step id sid user (d d' : D) :
  session_step d d' -> logged_out id sid user d -> logged_out id sid user d'.
Proof.
  intros [m d0 a d0' Hx|t s d0 a d0' Hx|t u d0 a d0' Hx|d0 d0' Hx]; revert Hx.
  - apply preserves_create. intros f da b db Hi (r & Hr & Hl). exists r. split; [|done]. destruct b as [n|e].
    + apply INSERT_Ok in Hi as (Hn & ? & -> & _). rewrite lookup_insert_ne; [done|congruence].
    + apply INSERT_Err in Hi. by rewrite Hi.
  - apply logged_out_update.
  - apply logged_out_update.
  - intros Hx (r & Hr & Hl). exists r. by rewrite Hx.
Qed.

Lemma logged_out_forever id sid user (d d' : D) :
  rtc session_step d d' -> logged_out id sid user d -> logged_out id sid user d'.
Proof. induction 1; eauto using logged_out_step. Qed.

Lemma find_session_steps sid (d : D) : rtc session_step d (findBySessionID sid d).2.
Proof.
  apply rtc_once, session_elsewhere. unfold findBySessionID, bind.
  destruct (SELECT _ d) as [b d1] eqn:Es. apply SELECT_rows in Es. by destruct b.
Qed.

Lemma list_session_steps u (d : D) : rtc session_step d (listActiveByUserID u d).2.
Proof.
  apply rtc_once, session_elsewhere. unfold listActiveByUserID, bind.
  destruct (SELECT _ d) as [b d1] eqn:Es. apply SELECT_rows in Es. by destruct b.
Qed.

(** What a lookup finds is a row with that identifier, as it is stored. *)
Lemma find_session_inv sid (d : D) r d' :
  findBySessionID sid d = (Ok (Some r), d') ->
  rows d !! l_id r = Some r /\ collate (D := D) (l_session_id r) sid = true.
Proof.
  intros Hr. unfold findBySessionID in Hr. run Hr as l d1 Hl. apply ret_Ok in Hr as [Ho _].
  destruct l as [|x l]; simplify_eq/=. pose proof (SELECT_Ok _ _ _ _ Hl r) as [Hin _].
  destruct Hin as [Hp [id Hid]]; [by left|]. split; [|done].
  pose proof (rows_keyed _ _ _ Hid) as Hk. simpl in Hk. by subst id.
Qed.

(** The listed rows are the user's active ones, newest first. *)
Lemma list_session_inv u (d : D) l d' :
  listActiveByUserID u d = (Ok l, d') ->
  StronglySorted newest_first l /\
  forall r, r ∈ l <-> rows d !! l_id r = Some r /\ l_user_id r = u /\ l_logged_out_at r = None /\
    current_timestamp d < l_expires_at r.
Proof.
  intros Hr. unfold listActiveByUserID in Hr. run Hr as l0 d1 Hl. apply ret_Ok in Hr as [<- _].
  split; [apply StronglySorted_merge_sort; apply _|]. intros r.
  rewrite merge_sort_Permutation, (SELECT_Ok _ _ _ _ Hl r), !andb_true_iff, Z.eqb_eq, bool_decide_eq_true, Z.ltb_lt.
  split.
  - intros [[[? ?] ?] [id Hid]]. pose proof (rows_keyed _ _ _ Hid) as Hk. simpl in Hk. by subst id.
  - intros (? & ? & ? & ?). eauto.
Qed.

(** After the update every row of the user is logged out. *)
Lemma logout_all_inv t u (d : D) n d' id r :
  logoutAllByUserID t u d = (Ok n, d') -> rows d' !! id = Some r -> l_user_id r = u ->
  logged_out id (l_session_id r) u d'.
Proof.
  intros Hx Hr Hu. exists r. do 3 (split; [done|]). apply UPDATE_Ok in Hx as [Hd _].
  rewrite Hd, lookup_fmap in Hr. destruct (rows d !! id) as [r0|]; [|done]. injection Hr as <-.
  destruct (_ && _) eqn:E; [done|]. rewrite Hu, Z.eqb_refl in E. simpl in E. by apply bool_decide_eq_false in E.
Qed.
End Steps.

(** Logging a user out of all sessions is final.  After
    [LogoutAllByUserID] every session row of the user is logged out; from then
    on, whatever sessions are created or logged out in between, a lookup of
    that identifier on the primary finds it logged out and no listing
    shows it as active. *)
Theorem user_logout_final {W D} `{!Columns D} `{!Table D session_row (H := session_row_keys (D := D))}
    (repo : SessionRepo (W := W) (D := D)) (h : Remote W D) user t w w1 id r w2 :
  writer (db repo) = Some h ->
  (forall w, rtc session_step (server w) (server (transport w).2)) ->
  LogoutAllByUserID repo user t w = (Ok tt, w1) ->
  rows (server w1) !! id = Some r -> l_user_id r = user ->
  rtc session_step (server w1) (server w2) ->
  (forall sid m w3, forcePrimaryReadByID repo = true -> FindBySessionID repo sid w2 = (Ok (Some m), w3) ->
     collate (D := D) (l_session_id r) sid = true ->
     session.ID m = id /\ session.UserID m = user /\ session.LoggedOutAt m <> None) /\
  (forall u l w3 m, reader (db repo) = Some h -> ListActiveByUserID repo u w2 = (Ok l, w3) ->
     Some m ∈ l -> session.ID m <> id).
Proof.
  intros Hdb Htr H1 Hr Hu Hrtc. unfold LogoutAllByUserID, run_on in H1. rewrite Hdb in H1.
  run H1 as n wa Hc. apply ret_Ok in H1 as [_ <-]. apply call_Ok in Hc as (wb & d1 & Hs & <-).
  pose proof (logout_all_inv _ _ _ _ _ _ _ Hs Hr Hu) as Hout.
  apply (logged_out_forever _ _ _ _ _ Hrtc) in Hout. split.
  - intros sid m w3 Hforce H2 Hsid. unfold FindBySessionID, getOne, run_on in H2. rewrite Hforce, Hdb in H2.
    run H2 as o wc Hc. apply ret_Ok in H2 as [Ho <-]. destruct o as [x|]; [|done]. injection Ho as <-.
    apply (call_Ok_steps session_step) in Hc as (wd & d2 & Hst & Hf & _);
      [|exact Htr|intros; apply find_session_steps].
    apply (logged_out_forever _ _ _ _ _ Hst) in Hout as (y & Hy & Hsy & Huy & Hly).
    apply find_session_inv in Hf as [Hx Hcx]. simpl.
    assert (id = l_id x) as ->.
    { eapply rows_unique; [exact Hy|exact Hx|]. simpl. rewrite Hsy.
      eapply collate_trans; [exact Hsid|]. by rewrite collate_sym. }
    assert (y = x) as -> by congruence. done.
  - intros u l w3 m Hrd H2 Hm Hid. unfold ListActiveByUserID, run_on in H2. rewrite Hrd in H2.
    run H2 as lr wc Hc. apply ret_Ok in H2 as [<- <-].
    apply (call_Ok_steps session_step) in Hc as (wd & d2 & Hst & Hf & _);
      [|exact Htr|intros; apply list_session_steps].
    apply (logged_out_forever _ _ _ _ _ Hst) in Hout as (y & Hy & _ & _ & Hly).
    apply list_session_inv in Hf as [_ Hf]. apply list_elem_of_In, in_map_iff in Hm as (x & [= <-] & Hx).
    apply list_elem_of_In, Hf in Hx as (Hx & _ & Hn & _). simpl in Hid. congruence.
Qed.

(** ** At work *)

Module SessionRepoDemo.
Record database := mkDatabase { sessions : gmap Z session_row; clock : time }.
Record world := mkWorld { w_db : database }.

#[export] Instance columns : Columns database := memory_columns clock.
#[export] Instance table : Table database session_row (H := session_row_keys (D := database)) :=
  memory_table sessions (fun m d => mkDatabase m (clock d)) clock (fun m d => eq_refl).

#[export] Program Instance remote : Remote world database := {
  server := w_db;
  put_server := fun d w => mkWorld d;
  transport := fun w => (Delivered, w);
  max_retries := fun _ => 0%nat;
}.
Next Obligation. done. Qed.

Definition now : time := 1700000000 * Second.

Definition login (sid : string) : session.Model :=
  session.mk 0 sid 42 "uuid-42" "urn:idp:acr:pwd" "[]" "" "" now (now + 3600 * Second) None 0.

Definition repo : SessionRepo (W := world) (D := database) := NewSessionRepositoryRWWithPolicy (Some remote) None true.

Definition start : world := (Create repo (login "sid-1") (mkWorld (mkDatabase ∅ now))).2.
Definition left_all : world := (LogoutAllByUserID repo 42 now start).2.
Definition again : world := (Create repo (login "sid-2") left_all).2.
End SessionRepoDemo.

Import SessionRepoDemo.

Lemma user_logout_final_witness :
  exists m w3, FindBySessionID SessionRepoDemo.repo "sid-1" SessionRepoDemo.again = (Ok (Some m), w3) /\
    session.LoggedOutAt m <> None.
Proof.
  destruct (FindBySessionID SessionRepoDemo.repo "sid-1" SessionRepoDemo.again) as [[[m|]|e] w3] eqn:E;
    [|vm_compute in E; discriminate E|vm_compute in E; discriminate E].
  exists m, w3. split; [reflexivity|].
  assert (Hrow : exists r, rows (server SessionRepoDemo.left_all) !! 0 = Some r /\ l_user_id r = 42 /\
      l_session_id r = "sid-1") by (eexists; split; [vm_compute; reflexivity | split; reflexivity]).
  destruct Hrow as (r & Hr & Hu & Hs).
  refine (proj2 (proj2 (proj1 (user_logout_final SessionRepoDemo.repo SessionRepoDemo.remote 42 SessionRepoDemo.now
    SessionRepoDemo.start SessionRepoDemo.left_all 0 r SessionRepoDemo.again _ _ _ Hr Hu _) "sid-1" m w3 _ E _))).
  - reflexivity.
  - intros w. constructor.
  - vm_compute. reflexivity.
  - destruct (createSession (SessionRepoDemo.login "sid-2") (server SessionRepoDemo.left_all)) as [a d'] eqn:Ec.
    assert (Hd : server SessionRepoDemo.again = d').
    { vm_compute in Ec. injection Ec as _ <-. vm_compute. reflexivity. }
    rewrite Hd. apply rtc_once. by eapply session_create.
  - reflexivity.
  - rewrite Hs. reflexivity.
Defined.
