(* ===== verification/TokenRepo.v ===== *)
(** * Tokens in the database (token_repo.go)

    Access and refresh tokens are inserted, looked up while active, revoked
    by user, and refresh tokens are rotated under a row lock.  The statements
    are those of sql/token_repository. *)

From stdpp Require Import base tactics list gmap strings numbers relations.
From Stdlib Require Import ZArith Lia Ascii.
From S2P Require Import Prelude GoStrings GoTime Errors Domain Ports Remote Database.

(** A row of oauth_access_tokens. *)
Record access_row := mkAccessRow {
  a_id : Z;
  a_token_value : string;
  a_token_sha256 : string;
  a_client_id : Z;
  a_user_id : option Z;
  a_subject : string;
  a_audience_json : option string;
  a_scopes_json : string;
  a_token_type : string;
  a_token_format : string;
  a_issued_at : time;
  a_expires_at : time;
  a_revoked_at : option time;
  a_created_at : time;
}.

(** A row of oauth_refresh_tokens. *)
Record refresh_row := mkRefreshRow {
  r_id : Z;
  r_token_value : string;
  r_token_sha256 : string;
  r_client_id : Z;
  r_user_id : option Z;
  r_subject : string;
  r_scopes_json : string;
  r_issued_at : time;
  r_expires_at : time;
  r_revoked_at : option time;
  r_replaced_by_token_id : option Z;
  r_created_at : time;
}.

#[export] Instance access_row_keys {D} `{Columns D} : Row access_row := {
  row_id := a_id;
  conflict := fun a b => collate (D := D) (a_token_sha256 a) (a_token_sha256 b);
}.

#[export] Instance refresh_row_keys {D} `{Columns D} : Row refresh_row := {
  row_id := r_id;
  conflict := fun a b => collate (D := D) (r_token_sha256 a) (r_token_sha256 b);
}.

Definition set_access_revoked (t : time) (r : access_row) : access_row :=
  mkAccessRow (a_id r) (a_token_value r) (a_token_sha256 r) (a_client_id r) (a_user_id r) (a_subject r)
    (a_audience_json r) (a_scopes_json r) (a_token_type r) (a_token_format r) (a_issued_at r)
    (a_expires_at r) (Some t) (a_created_at r).

Definition set_refresh_revoked (t : time) (replaced : option Z) (r : refresh_row) : refresh_row :=
  mkRefreshRow (r_id r) (r_token_value r) (r_token_sha256 r) (r_client_id r) (r_user_id r) (r_subject r)
    (r_scopes_json r) (r_issued_at r) (r_expires_at r) (Some t) replaced (r_created_at r).

Section Repository.
Context {W D : Type} `{!Columns D}.
Context `{!Table D access_row (H := access_row_keys (D := D))}.
Context `{!Table D refresh_row (H := refresh_row_keys (D := D))}.

Record TokenRepo := mkTokenRepo { db : dbRouter W D; forcePrimaryReadBySHA256 : bool }.

Definition NewTokenRepositoryRWWithPolicy (writeDB readDB : DB W D) (force : bool) : TokenRepo :=
  mkTokenRepo (newDBRouter writeDB readDB) force.

Definition NewTokenRepositoryRW (writeDB readDB : DB W D) : TokenRepo :=
  NewTokenRepositoryRWWithPolicy writeDB readDB false.

(** *** Creation *)

Definition json_or_null (value : string) : IO D (option string) :=
  match nullString value with
  | None => ret None
  | Some s => let* j := some_or (json_column s) (Driver "Invalid JSON text") in ret (Some j)
  end.

(** create_access_token.sql *)
Definition createAccessToken (model : access.AccessToken) : IO D Z :=
  let* audience_json := json_or_null (access.AudienceJSON model) in
  let* scopes_json := some_or (json_column (access.ScopesJSON model)) (Driver "Invalid JSON text") in
  INSERT (fun id created_at =>
    mkAccessRow id (access.TokenValue model) (access.TokenSHA256 model) (access.ClientID model)
      (nullInt64 (access.UserID model)) (access.Subject model) audience_json scopes_json
      (access.TokenType model) (access.TokenFormat model) (datetime (access.IssuedAt model))
      (datetime (access.ExpiresAt model)) (option_map datetime (nullTime (access.RevokedAt model))) created_at).

(** create_refresh_token.sql and rotate_insert_new_refresh.sql: the same
    statement. *)
Definition createRefreshToken (model : refresh.RefreshToken) : IO D Z :=
  let* scopes_json := some_or (json_column (refresh.ScopesJSON model)) (Driver "Invalid JSON text") in
  INSERT (fun id created_at =>
    mkRefreshRow id (refresh.TokenValue model) (refresh.TokenSHA256 model) (refresh.ClientID model)
      (nullInt64 (refresh.UserID model)) (refresh.Subject model) scopes_json
      (datetime (refresh.IssuedAt model)) (datetime (refresh.ExpiresAt model))
      (option_map datetime (nullTime (refresh.RevokedAt model)))
      (nullInt64 (refresh.ReplacedByTokenID model)) created_at).

Definition CreateAccessToken (r : TokenRepo) (model : access.AccessToken) : IO W access.AccessToken :=
  let* id := run_on (writer (db r)) (createAccessToken model) in
  ret (access.set_ID id model).

Definition CreateRefreshToken (r : TokenRepo) (model : refresh.RefreshToken) : IO W refresh.RefreshToken :=
  let* id := run_on (writer (db r)) (createRefreshToken model) in
  ret (refresh.set_ID id model).

(** *** Reading *)

Definition scanRefreshToken (r : refresh_row) : refresh.RefreshToken :=
  refresh.mk (r_id r) (r_token_value r) (r_token_sha256 r) (r_client_id r) (r_user_id r) (r_subject r)
    (r_scopes_json r) (r_issued_at r) (r_expires_at r) (r_revoked_at r) (r_replaced_by_token_id r)
    (r_created_at r).

Definition scanAccessToken (r : access_row) : access.AccessToken :=
  access.mk (a_id r) (a_token_value r) (a_token_sha256 r) (a_client_id r) (a_user_id r) (a_subject r)
    (scan_string (a_audience_json r)) (a_scopes_json r) (a_token_type r) (a_token_format r) (a_issued_at r)
    (a_expires_at r) (a_revoked_at r) (a_created_at r).

(** revoked_at IS NULL AND expires_at > CURRENT_TIMESTAMP *)
Definition active_access (d : D) (r : access_row) : bool :=
  bool_decide (a_revoked_at r = None) && (current_timestamp d <? a_expires_at r).

(** revoked_at IS NULL AND replaced_by_token_id IS NULL
    AND expires_at > CURRENT_TIMESTAMP *)
Definition active_refresh (d : D) (r : refresh_row) : bool :=
  bool_decide (r_revoked_at r = None) && bool_decide (r_replaced_by_token_id r = None) &&
  (current_timestamp d <? r_expires_at r).

Definition first_row {A} (l : list A) : option A := match l with x :: _ => Some x | [] => None end.

(** find_active_access_by_sha256.sql *)
Definition findActiveAccessBySHA256 (sha : string) : IO D (option access_row) :=
  let* l := SELECT (fun d r => collate (D := D) (a_token_sha256 r) sha && active_access d r) in ret (first_row l).

(** find_active_refresh_by_sha256.sql *)
Definition findActiveRefreshBySHA256 (sha : string) : IO D (option refresh_row) :=
  let* l := SELECT (fun d r => collate (D := D) (r_token_sha256 r) sha && active_refresh d r) in ret (first_row l).

Definition read_by_sha (r : TokenRepo) : DB W D :=
  if forcePrimaryReadBySHA256 r then writer (db r) else reader (db r).

Definition FindActiveAccessTokenBySHA256 (r : TokenRepo) (tokenSHA256 : string) : IO W (option access.AccessToken) :=
  let* row := run_on (read_by_sha r) (findActiveAccessBySHA256 tokenSHA256) in
  ret (option_map scanAccessToken row).

Definition FindActiveRefreshTokenBySHA256 (r : TokenRepo) (tokenSHA256 : string)
    : IO W (option refresh.RefreshToken) :=
  let* row := run_on (read_by_sha r) (findActiveRefreshBySHA256 tokenSHA256) in
  ret (option_map scanRefreshToken row).

Definition owned_by (userID : Z) (o : option Z) : bool := bool_decide (o = Some userID).

(** list_active_access_by_user_id.sql *)
Definition listActiveAccessByUserID (userID : Z) : IO D (list access_row) :=
  SELECT (fun d r => owned_by userID (a_user_id r) && active_access d r).

(** list_active_refresh_by_user_id.sql *)
Definition listActiveRefreshByUserID (userID : Z) : IO D (list refresh_row) :=
  SELECT (fun d r => owned_by userID (r_user_id r) && active_refresh d r).

Definition ListActiveAccessTokensByUserID (r : TokenRepo) (userID : Z)
    : IO W (list (option access.AccessToken)) :=
  let* l := run_on (reader (db r)) (listActiveAccessByUserID userID) in
  ret (List.map (fun x => Some (scanAccessToken x)) l).

Definition ListActiveRefreshTokensByUserID (r : TokenRepo) (userID : Z)
    : IO W (list (option refresh.RefreshToken)) :=
  let* l := run_on (reader (db r)) (listActiveRefreshByUserID userID) in
  ret (List.map (fun x => Some (scanRefreshToken x)) l).

(** *** Revocation *)

(** revoke_access_by_user_id.sql *)
Definition revokeAccessByUserID (revokedAt : time) (userID : Z) : IO D Z :=
  UPDATE (fun d r => owned_by userID (a_user_id r) && active_access d r) (set_access_revoked (datetime revokedAt)).

(** revoke_refresh_by_user_id.sql *)
Definition revokeRefreshByUserID (revokedAt : time) (userID : Z) : IO D Z :=
  UPDATE (fun d r => owned_by userID (r_user_id r) && active_refresh d r)
    (fun r => set_refresh_revoked (datetime revokedAt) (r_replaced_by_token_id r) r).

Definition RevokeAccessTokensByUserID (r : TokenRepo) (userID : Z) (revokedAt : time) : IO W unit :=
  do* run_on (writer (db r)) (revokeAccessByUserID revokedAt userID) in ret tt.

Definition RevokeRefreshTokensByUserID (r : TokenRepo) (userID : Z) (revokedAt : time) : IO W unit :=
  do* run_on (writer (db r)) (revokeRefreshByUserID revokedAt userID) in ret tt.

(** *** Rotation *)

(** rotate_find_old_for_update.sql *)
Definition rotateFindOldForUpdate (sha : string) : IO D (option refresh_row) :=
  let* l := SELECT (fun _ r => collate (D := D) (r_token_sha256 r) sha) in ret (first_row l).

(** rotate_update_old_refresh.sql *)
Definition rotateUpdateOldRefresh (revokedAt : time) (new_id old_id : Z) : IO D Z :=
  UPDATE (fun _ r => r_id r =? old_id) (set_refresh_revoked (datetime revokedAt) (Some new_id)).

Definition rotate_tx (oldTokenSHA256 : string) (revokedAt : time) (newToken : refresh.RefreshToken)
    : IO D (bool * refresh.RefreshToken) :=
  let* row := rotateFindOldForUpdate oldTokenSHA256 in
  let* row := some_or row ErrNoRows in
  let oldToken := scanRefreshToken row in
  if bool_decide (is_Some (refresh.RevokedAt oldToken)) ||
     bool_decide (is_Some (refresh.ReplacedByTokenID oldToken)) ||
     negb (After (refresh.ExpiresAt oldToken) revokedAt)
  then throw ErrNoRows else
  let* insertedID := createRefreshToken newToken in
  let newToken := refresh.set_ID insertedID newToken in
  do* rotateUpdateOldRefresh revokedAt (refresh.ID newToken) (refresh.ID oldToken) in
  ret (true, newToken).

Definition RotateRefreshToken (r : TokenRepo) (oldTokenSHA256 : string) (revokedAt : time)
    (newToken : refresh.RefreshToken) : IO W refresh.RefreshToken :=
  run_on (writer (db r)) (transaction (rotate_tx oldTokenSHA256 revokedAt newToken)).

Definition NewTokenRepository (r : TokenRepo) : TokenRepository W := {|
  Ports.CreateAccessToken := CreateAccessToken r;
  Ports.CreateRefreshToken := CreateRefreshToken r;
  Ports.FindActiveAccessTokenBySHA256 := FindActiveAccessTokenBySHA256 r;
  Ports.FindActiveRefreshTokenBySHA256 := FindActiveRefreshTokenBySHA256 r;
  Ports.RotateRefreshToken := RotateRefreshToken r;
|}.
End Repository.

(** ** The rotation transaction *)

Section Rotation.
Context {D : Type} `{!Columns D}.
Context `{!Table D refresh_row (H := refresh_row_keys (D := D))}.

Lemma createRefreshToken_Ok m (d : D) id d' :
  createRefreshToken m d = (Ok id, d') ->
  rows d !! id = None /\ exists r, rows d' = <[id := r]> (rows d) /\ r_id r = id /\
    r_token_sha256 r = refresh.TokenSHA256 m /\ r_user_id r = refresh.UserID m /\
    r_client_id r = refresh.ClientID m /\ r_expires_at r = datetime (refresh.ExpiresAt m) /\
    r_revoked_at r = option_map datetime (refresh.RevokedAt m) /\
    r_replaced_by_token_id r = refresh.ReplacedByTokenID m.
Proof.
  intros Hr. unfold createRefreshToken in Hr. run_some Hr as js Hjs.
  apply INSERT_Ok in Hr as (Hnew & created & Hd & Hid). split; [done|]. eexists. split; [exact Hd|]. done.
Qed.

Lemma createRefreshToken_Err m (d : D) e d' : createRefreshToken m d = (Err e, d') -> rows d' = rows d.
Proof.
  unfold createRefreshToken, some_or, bind. destruct (json_column (refresh.ScopesJSON m)); simpl.
  - apply INSERT_Err.
  - by intros [= _ <-].
Qed.

Lemma find_old_inv sha (d : D) o d' :
  rotateFindOldForUpdate sha d = (Ok o, d') ->
  rows d' = rows d /\
  forall r, o = Some r -> rows d !! r_id r = Some r /\ collate (D := D) (r_token_sha256 r) sha = true.
Proof.
  intros Hr. unfold rotateFindOldForUpdate in Hr. run Hr as l d1 Hl. apply ret_Ok in Hr as [<- <-].
  split; [by eapply SELECT_rows|]. intros r Hr. destruct l as [|r' l]; simplify_eq/=.
  pose proof (SELECT_Ok _ _ _ _ Hl r) as [Hin _]. destruct Hin as [Hp [id Hid]]; [by left|].
  split; [|done]. by rewrite <- (rows_keyed _ _ _ Hid) in Hid.
Qed.

(** What a rotation that committed found and left: the old row, usable, now
    revoked and pointing to the new one; the new row; every other row. *)
Definition rotated_rows (old_sha : string) (t : time) (newToken tok : refresh.RefreshToken) (d d' : D) : Prop :=
  exists old new,
    rows d !! r_id old = Some old /\ collate (D := D) (r_token_sha256 old) old_sha = true /\
    r_revoked_at old = None /\ r_replaced_by_token_id old = None /\ t < r_expires_at old /\
    rows d !! refresh.ID tok = None /\ tok = refresh.set_ID (r_id new) newToken /\
    r_token_sha256 new = refresh.TokenSHA256 newToken /\
    rows d' = <[r_id old := set_refresh_revoked (datetime t) (Some (r_id new)) old]>
                (<[r_id new := new]> (rows d)).

Lemma rotate_tx_Ok sha t newToken (d : D) tok d' :
  transaction (rotate_tx sha t newToken) d = (Ok tok, d') -> rotated_rows sha t newToken tok d d'.
Proof.
  intros Hr. apply transaction_Ok in Hr as [Hr|(d1 & Hr & _)].
  all: unfold rotate_tx in Hr; run Hr as o d2 Hs; apply find_old_inv in Hs as [Hrows Hsel].
  all: run_some Hr as old Ho; destruct (Hsel old Ho) as [Hold Hsha].
  all: case_match eqn:Hg; [by apply throw_Ok in Hr|].
  all: run Hr as id d3 Hi; run Hr as n d4 Hu; apply ret_Ok in Hr as [Heq <-]; simplify_eq.
  apply orb_false_iff in Hg as [Hg He]. apply orb_false_iff in Hg as [Hg1 Hg2]. simpl in Hg1, Hg2, He.
  assert (Hnone : forall A (x : option A), bool_decide (is_Some x) = false -> x = None).
  { intros A [x|]; [|done]. by rewrite bool_decide_eq_true_2 by eauto. }
  apply Hnone in Hg1, Hg2. apply negb_false_iff, After_spec in He.
  apply createRefreshToken_Ok in Hi as (Hnew & new & Hd3 & Hid & Hs & _). rewrite Hrows in *.
  exists old, new. simpl. rewrite Hid. repeat split; try done.
  apply UPDATE_Ok in Hu as [-> _]. rewrite Hd3. simpl. apply map_eq. intros i. rewrite lookup_fmap.
  destruct (decide (r_id old = i)) as [<-|Hne].
  - assert (id <> r_id old) by congruence.
    rewrite lookup_insert_eq, lookup_insert_ne, Hold by done. simpl. by rewrite Z.eqb_refl.
  - rewrite (lookup_insert_ne _ (r_id old)) by done. destruct (<[id:=new]> (rows d) !! i) as [r|] eqn:Ei; [|done]. simpl.
    assert (r_id r = i) as Hri.
    { destruct (decide (id = i)) as [->|]; [rewrite lookup_insert_eq in Ei; congruence|].
      rewrite lookup_insert_ne in Ei by done. exact (rows_keyed _ _ _ Ei). }
    by rewrite (proj2 (Z.eqb_neq _ _)) by congruence.
Qed.

(** ** Runs of the table's operations *)

(** One statement or transaction on the refresh tokens, whatever its outcome;
    or anything that leaves them alone.  The clock does not go back. *)
Inductive refresh_effect : relation D :=
| effect_create m d a d' : createRefreshToken m d = (a, d') -> refresh_effect d d'
| effect_revoke t u d a d' : revokeRefreshByUserID t u d = (a, d') -> refresh_effect d d'
| effect_rotate sha t m d a d' : transaction (rotate_tx sha t m) d = (a, d') -> refresh_effect d d'
| effect_elsewhere d d' : rows (R := refresh_row) d' = rows d -> refresh_effect d d'.

Definition refresh_step : relation D := fun d d' =>
  refresh_effect d d' /\ current_timestamp d <= current_timestamp d'.

Lemma clock_rotate `{!ForwardClock D refresh_row} n sha t m :
  preserves (fun d => n <= current_timestamp d) (transaction (rotate_tx sha t m)).
Proof.
  apply preserves_transaction. unfold rotate_tx, rotateFindOldForUpdate, createRefreshToken, rotateUpdateOldRefresh.
  assert (HS : forall p, preserves (fun d : D => n <= current_timestamp d) (SELECT (R := refresh_row) p))
    by (intros p d a d' Hx Hn; pose proof (SELECT_clock _ _ _ _ Hx); lia).
  assert (HI : forall f, preserves (fun d : D => n <= current_timestamp d) (INSERT (R := refresh_row) f))
    by (intros f d a d' Hx Hn; pose proof (INSERT_clock _ _ _ _ Hx); lia).
  assert (HU : forall p f, preserves (fun d : D => n <= current_timestamp d) (UPDATE (R := refresh_row) p f))
    by (intros p f d a d' Hx Hn; pose proof (UPDATE_clock _ _ _ _ _ Hx); lia).
  repeat first [apply preserves_ret | apply preserves_throw | apply preserves_some_or | apply HS | apply HI
    | apply HU | apply preserves_bind; [|intros ?]
    | match goal with |- preserves _ (if ?b then _ else _) => destruct b end].
Qed.

Lemma rotate_steps `{!ForwardClock D refresh_row} sha t m (d : D) :
  rtc refresh_step d (transaction (rotate_tx sha t m) d).2.
Proof.
  apply rtc_once. destruct (transaction (rotate_tx sha t m) d) as [a d'] eqn:E.
  split; [by eapply effect_rotate|]. eapply clock_rotate; [exact E|]. simpl. lia.
Qed.

Lemma find_active_steps `{!ForwardClock D refresh_row} sha (d : D) :
  rtc refresh_step d (findActiveRefreshBySHA256 sha d).2.
Proof.
  apply rtc_once. unfold findActiveRefreshBySHA256, bind. destruct (SELECT _ d) as [b d1] eqn:Es.
  assert (Hd : (match b with Ok l => ret (first_row l) d1 | Err e => (Err e, d1) end).2 = d1) by by destruct b.
  rewrite Hd. split; [apply effect_elsewhere; by eapply SELECT_rows | by eapply SELECT_clock].
Qed.

(** Rows are never removed; what identifies a token and its expiry never
    change; a revoked row stays revoked. *)
Definition row_kept (r r' : refresh_row) : Prop :=
  r_id r' = r_id r /\ r_token_sha256 r' = r_token_sha256 r /\ r_user_id r' = r_user_id r /\
  r_expires_at r' = r_expires_at r /\ (r_revoked_at r <> None -> r_revoked_at r' <> None).

Lemma row_kept_refl r : row_kept r r.
Proof. by repeat split. Qed.

Lemma row_persists (d d' : D) id r :
  refresh_effect d d' -> rows d !! id = Some r -> exists r', rows d' !! id = Some r' /\ row_kept r r'.
Proof.
  intros Hs Hr. pose proof (row_kept_refl r) as Hkeep.
  destruct Hs as [m d a d' Hx|t u d a d' Hx|sha t m d a d' Hx|d d' Hx].
  - destruct a as [nid|e].
    + apply createRefreshToken_Ok in Hx as (Hnew & r' & Hd & _). exists r. split; [|done].
      rewrite Hd, lookup_insert_ne; [done|congruence].
    + apply createRefreshToken_Err in Hx. exists r. by rewrite Hx.
  - destruct a as [n|e].
    + apply UPDATE_Ok in Hx as [Hd _]. rewrite Hd, lookup_fmap, Hr. simpl. eexists. split; [done|].
      case_match; [|done]. repeat split; done.
    + apply UPDATE_Err in Hx. exists r. by rewrite Hx.
  - destruct a as [tok|e].
    + apply rotate_tx_Ok in Hx as (old & new & Hold & _ & _ & _ & _ & Hnew & -> & _ & Hd). simpl in Hnew.
      rewrite Hd. destruct (decide (r_id old = id)) as [<-|Hne].
      * rewrite lookup_insert_eq. eexists. split; [done|]. assert (r = old) as -> by congruence. repeat split; done.
      * rewrite lookup_insert_ne by done. exists r. split; [|done]. rewrite lookup_insert_ne; [done|congruence].
    + apply transaction_Err in Hx as ->. by exists r.
  - exists r. by rewrite Hx.
Qed.

(** The token is there and revoked. *)
Definition spent (sha : string) (d : D) : Prop :=
  exists id r, rows d !! id = Some r /\ collate (D := D) (r_token_sha256 r) sha = true /\ r_revoked_at r <> None.

Lemma row_spent_forever sha (d d' : D) : rtc refresh_step d d' -> spent sha d -> spent sha d'.
Proof.
  induction 1 as [|d d1 d' [Hs _] _ IH]; [done|]. intros (id & r & Hr & Hc & Hn). apply IH.
  destruct (row_persists _ _ _ _ Hs Hr) as (r' & Hr' & _ & Hsha & _ & _ & Hrev).
  exists id, r'. rewrite Hsha. auto.
Qed.

(** The row can no longer be found active. *)
Definition dead (id : Z) (d : D) : Prop :=
  exists r, rows d !! id = Some r /\ (r_revoked_at r <> None \/ r_expires_at r <= current_timestamp d).

Lemma dead_forever id (d d' : D) : rtc refresh_step d d' -> dead id d -> dead id d'.
Proof.
  induction 1 as [|d d1 d' [Hs Hclock] _ IH]; [done|]. intros (r & Hr & Hdead). apply IH.
  destruct (row_persists _ _ _ _ Hs Hr) as (r' & Hr' & _ & _ & _ & Hexp & Hrev).
  exists r'. split; [done|]. rewrite Hexp. destruct Hdead; [left; auto | right; lia].
Qed.
End Rotation.

(** C7. A refresh token is rotated at most once in the database, and
    atomically.  When [RotateRefreshToken] succeeds, the old token was stored,
    neither revoked nor replaced, and unexpired; in one transaction it is
    revoked and points to the new token, which is stored.  From then on no
    rotation of that token succeeds, whatever operations run in between. *)
Theorem database_rotation_single_use {W D} `{!Columns D}
    `{!Table D refresh_row (H := refresh_row_keys (D := D))} `{!ForwardClock D refresh_row}
    (repo : TokenRepo) (h : Remote W D) sha t1 t2 new1 new2 tok1 tok2 w w1 w2 w3 :
  writer (db repo) = Some h ->
  (forall w, rtc refresh_step (server w) (server (transport w).2)) ->
  RotateRefreshToken repo sha t1 new1 w = (Ok tok1, w1) ->
  rtc refresh_step (server w1) (server w2) ->
  (exists d, rotated_rows sha t1 new1 tok1 d (server w1)) /\
  RotateRefreshToken repo sha t2 new2 w2 <> (Ok tok2, w3).
Proof.
  intros Hdb Htr H1 Hrtc. unfold RotateRefreshToken, run_on in *. rewrite Hdb in *.
  apply call_Ok in H1 as (wa & d1 & Hs & <-). apply rotate_tx_Ok in Hs.
  split; [by eexists|]. destruct Hs as (old & new & _ & Hsha & _ & _ & _ & _ & _ & _ & Hrows). intros H2.
  assert (Hsp : spent sha (server w1)).
  { exists (r_id old), (set_refresh_revoked (datetime t1) (Some (r_id new)) old).
    by rewrite Hrows, lookup_insert_eq. }
  apply (row_spent_forever _ _ _ Hrtc) in Hsp.
  apply (call_Ok_steps refresh_step) in H2 as (wb & d2 & Hsteps & Hs2 & _); [|exact Htr|].
  - apply (row_spent_forever _ _ _ Hsteps) in Hsp as (id & r & Hr & Hc & Hn).
    apply rotate_tx_Ok in Hs2 as (old2 & ? & Hold2 & Hc2 & Hn2 & _).
    assert (id = r_id old2) as ->; [|congruence].
    eapply rows_unique; [exact Hr|exact Hold2|]. simpl.
    eapply collate_trans; [exact Hc|]. by rewrite collate_sym.
  - intros d. apply rotate_steps.
Qed.

(** Revoking a user's refresh tokens is final.  After
    [RevokeRefreshTokensByUserID] every refresh token the user had is dead: no
    later lookup on the primary, whatever ran in between, returns one of
    them as active.  (What a lookup returns is the stored row of the hash
    asked for, unrevoked, unreplaced and unexpired.) *)
Theorem user_revocation_final {W D} `{!Columns D}
    `{!Table D refresh_row (H := refresh_row_keys (D := D))} `{!ForwardClock D refresh_row}
    (repo : TokenRepo) (h : Remote W D) user t w w1 id r w2 sha m w3 :
  writer (db repo) = Some h -> forcePrimaryReadBySHA256 repo = true ->
  (forall w, rtc refresh_step (server w) (server (transport w).2)) ->
  RevokeRefreshTokensByUserID repo user t w = (Ok tt, w1) ->
  rows (server w1) !! id = Some r -> r_user_id r = Some user -> r_replaced_by_token_id r = None ->
  rtc refresh_step (server w1) (server w2) ->
  FindActiveRefreshTokenBySHA256 repo sha w2 = (Ok (Some m), w3) ->
  refresh.ID m <> id /\ refresh.RevokedAt m = None /\ refresh.ReplacedByTokenID m = None /\
  collate (D := D) (refresh.TokenSHA256 m) sha = true.
Proof.
  intros Hdb Hforce Htr H1 Hr Hu Hrep Hrtc H2.
  unfold RevokeRefreshTokensByUserID, FindActiveRefreshTokenBySHA256, read_by_sha, run_on in *.
  rewrite Hforce in H2. rewrite Hdb in *.
  run H1 as n wa Hc. apply ret_Ok in H1 as [_ <-]. apply call_Ok in Hc as (wb & d1 & Hs & <-).
  assert (Hdead : dead id (server wa)).
  { exists r. split; [done|]. pose proof (UPDATE_clock _ _ _ _ _ Hs) as Hclock. apply UPDATE_Ok in Hs as [Hrows _].
    rewrite Hrows, lookup_fmap in Hr. destruct (rows (server wb) !! id) as [r0|]; [|done]. simpl in Hr.
    injection Hr as <-. destruct (owned_by user (r_user_id r0) && active_refresh (server wb) r0) eqn:E;
      [by left|]. unfold owned_by, active_refresh in E.
    rewrite (bool_decide_eq_true_2 (r_user_id r0 = _)), (bool_decide_eq_true_2 (r_replaced_by_token_id r0 = None)) in E
      by done. simpl in E. rewrite andb_true_r in E. apply andb_false_iff in E as [E|E].
    - left. by apply bool_decide_eq_false in E.
    - right. apply Z.ltb_ge in E. lia. }
  apply (dead_forever _ _ _ Hrtc) in Hdead.
  run H2 as o wc Hc. apply ret_Ok in H2 as [Ho <-]. destruct o as [row|]; [|done]. injection Ho as <-.
  apply (call_Ok_steps refresh_step) in Hc as (wd & d2 & Hsteps & Hs2 & _); [|exact Htr|].
  - apply (dead_forever _ _ _ Hsteps) in Hdead as (rd & Hrd & Hdead).
    unfold findActiveRefreshBySHA256 in Hs2. run Hs2 as l d3 Hl. apply ret_Ok in Hs2 as [Hfirst _].
    destruct l as [|x l]; simplify_eq/=. pose proof (SELECT_Ok _ _ _ _ Hl row) as [Hin _].
    destruct Hin as [Hp [id' Hid]]; [by left|]. unfold active_refresh in Hp. rewrite !andb_true_iff in Hp.
    destruct Hp as [Hsha [[Hp1 Hp2] Hp3]]. apply bool_decide_eq_true in Hp1, Hp2. apply Z.ltb_lt in Hp3.
    split; [|done]. intros Heq. pose proof (rows_keyed _ _ _ Hid) as Hk. simpl in Hk. subst id'.
    rewrite Heq in Hid. assert (rd = row) as -> by congruence. destruct Hdead; [done|lia].
  - intros d. apply find_active_steps.
Qed.

(** ** At work *)

Module TokenDemo.
Record database := mkDatabase { access_tokens : gmap Z access_row; refresh_tokens : gmap Z refresh_row; clock : time }.
Record world := mkWorld { w_db : database }.

#[export] Instance columns : Columns database := memory_columns clock.
#[export] Instance access_table : Table database access_row (H := access_row_keys (D := database)) :=
  memory_table access_tokens (fun m d => mkDatabase m (refresh_tokens d) (clock d)) clock (fun m d => eq_refl).
#[export] Instance refresh_table : Table database refresh_row (H := refresh_row_keys (D := database)) :=
  memory_table refresh_tokens (fun m d => mkDatabase (access_tokens d) m (clock d)) clock (fun m d => eq_refl).
#[export] Instance forward : ForwardClock database refresh_row (H1 := refresh_table).
Proof. by apply memory_forward. Qed.

#[export] Program Instance remote : Remote world database := {
  server := w_db;
  put_server := fun d w => mkWorld d;
  transport := fun w => (Delivered, w);
  max_retries := fun _ => 0%nat;
}.
Next Obligation. done. Qed.

Definition now : time := 1700000000 * Second.

Definition token (sha : string) : refresh.RefreshToken :=
  refresh.mk 0 "" sha 3 (Some 7) "uuid-7" "[]" now (now + 86400 * Second) None None 0.

Definition repo : TokenRepo (W := world) (D := database) := NewTokenRepositoryRWWithPolicy (Some remote) None true.

Definition start : world := (CreateRefreshToken repo (token "old") (mkWorld (mkDatabase ∅ ∅ now))).2.
Definition rotated : world := (RotateRefreshToken repo "old" now (token "new") start).2.
Definition revoked : world := (RevokeRefreshTokensByUserID repo 7 now start).2.
End TokenDemo.

Import TokenDemo.

Lemma database_rotation_single_use_witness :
  exists tok, RotateRefreshToken TokenDemo.repo "old" TokenDemo.now (token "new") TokenDemo.start =
      (Ok tok, TokenDemo.rotated) /\
    forall tok2 w3, RotateRefreshToken TokenDemo.repo "old" TokenDemo.now (token "newer") TokenDemo.rotated <>
      (Ok tok2, w3).
Proof.
  destruct (RotateRefreshToken TokenDemo.repo "old" TokenDemo.now (token "new") TokenDemo.start) as [[tok|e] w1] eqn:E;
    [|vm_compute in E; discriminate E].
  exists tok. assert (Hw : w1 = TokenDemo.rotated) by (unfold TokenDemo.rotated; rewrite E; reflexivity). subst w1.
  split; [reflexivity|]. intros tok2 w3.
  destruct (database_rotation_single_use TokenDemo.repo TokenDemo.remote "old" TokenDemo.now TokenDemo.now
    (token "new") (token "newer") tok tok2 TokenDemo.start TokenDemo.rotated TokenDemo.rotated w3) as [_ Hno].
  - reflexivity.
  - intros w. constructor.
  - exact E.
  - constructor.
  - exact Hno.
Defined.

Lemma user_revocation_final_witness :
  exists m w3, FindActiveRefreshTokenBySHA256 TokenDemo.repo "next"
      (CreateRefreshToken TokenDemo.repo (token "next") TokenDemo.revoked).2 = (Ok (Some m), w3) /\
    refresh.ID m <> 0.
Proof.
  set (next := (CreateRefreshToken TokenDemo.repo (token "next") TokenDemo.revoked).2).
  destruct (FindActiveRefreshTokenBySHA256 TokenDemo.repo "next" next) as [[[m|]|e] w3] eqn:E;
    [|vm_compute in E; discriminate E|vm_compute in E; discriminate E].
  exists m, w3. split; [reflexivity|].
  assert (Hrow : exists r, rows (server TokenDemo.revoked) !! 0 = Some r /\ r_user_id r = Some 7 /\
      r_replaced_by_token_id r = None) by (eexists; split; [vm_compute; reflexivity | split; reflexivity]).
  destruct Hrow as (r & Hr & Hu & Hrep).
  refine (proj1 (user_revocation_final TokenDemo.repo TokenDemo.remote 7 TokenDemo.now TokenDemo.start
    TokenDemo.revoked 0 r next "next" m w3 _ _ _ _ Hr Hu Hrep _ E)).
  - reflexivity.
  - reflexivity.
  - intros w. constructor.
  - vm_compute. reflexivity.
  - destruct (createRefreshToken (token "next") (server TokenDemo.revoked)) as [a d'] eqn:Ec.
    assert (Hd : server next = d').
    { unfold next. vm_compute in Ec. injection Ec as _ <-. vm_compute. reflexivity. }
    rewrite Hd. apply rtc_once. split; [by eapply effect_create|].
    vm_compute in Ec. injection Ec as _ <-. vm_compute. discriminate.
Defined.
