(* ===== verification/Redis.v ===== *)
(** * The cache server and its client

    The Redis server is a parameter: a type [R] of server states with an
    operation [exec] for each command, and the law that [exec] acts on the
    live keys the way the command's documentation says ([documented]).  Keys
    carry their remaining time to live in milliseconds, so that the passing of
    time is a function on the live keys ([elapse]) and no key is ever both
    expired and visible.

    The client reaches the server over [Remote]. *)

From stdpp Require Import base tactics list gmap strings numbers.
From Stdlib Require Import ZArith Lia Ascii.
From S2P Require Import Prelude GoStrings GoTime Errors Ports Remote.

(** ** Keys and commands *)

Inductive rvalue :=
| RString (s : string)
| RHash (h : gmap string string)
| RSet (s : gset string).

Record entry := mkEntry { e_value : rvalue; e_ttl : option Z }.

Abbreviation keyspace := (gmap string entry).

Inductive command : Type -> Type :=
| EXISTS (k : string) : command bool
| GET (k : string) : command (option string)
| HGET (k f : string) : command (option string)
| HMGET (k : string) (fs : list string) : command (list (option string))
| HGETALL (k : string) : command (gmap string string)
| TTL (k : string) : command Z
| SMEMBERS (k : string) : command (gset string)
| SCARD (k : string) : command Z
| HSET (k : string) (fvs : list (string * string)) : command unit
| SET (k v : string) (ex : option Z) : command unit
| SETPX (k v : string) (ms : Z) : command unit
| SETKEEPTTL (k v : string) : command unit
| SETNX (k v : string) (px : option Z) : command bool
| INCR (k : string) : command Z
| DEL (k : string) : command bool
| EXPIRE (k : string) (secs : Z) : command bool
| SADD (k m : string) : command bool
| SREM (k m : string) : command bool
| BITFIELD_SET (k : string) (fields : list (nat * Z)) : command unit
| BITFIELD_GET (k : string) (offsets : list nat) : command (list Z).

Definition WRONGTYPE : error := Driver "WRONGTYPE".
Definition NOT_INTEGER : error := Driver "ERR value is not an integer or out of range".
Definition INVALID_EXPIRE : error := Driver "ERR invalid expire time in 'set' command".

(** ** The documented effect of a command *)

Section Documented.
Context (ks : keyspace).

Definition keeps_ttl (k : string) (v : rvalue) : keyspace :=
  <[k := mkEntry v (ks !! k ≫= e_ttl)]> ks.

Definition hash_at (k : string) : option (gmap string string) :=
  match ks !! k with
  | None => Some ∅
  | Some (mkEntry (RHash h) _) => Some h
  | Some _ => None
  end.

Definition set_at (k : string) : option (gset string) :=
  match ks !! k with
  | None => Some ∅
  | Some (mkEntry (RSet s) _) => Some s
  | Some _ => None
  end.

Definition string_at (k : string) : option (option string) :=
  match ks !! k with
  | None => Some None
  | Some (mkEntry (RString s) _) => Some (Some s)
  | Some _ => None
  end.

Definition on_type {T A} (o : option T) (f : T -> A * keyspace) : result error A * keyspace :=
  match o with
  | Some x => let '(a, ks') := f x in (Ok a, ks')
  | None => (Err WRONGTYPE, ks)
  end.

Definition hset (h : gmap string string) (fvs : list (string * string)) : gmap string string :=
  foldl (fun h fv => <[fv.1 := fv.2]> h) h fvs.

(** [TTL]: seconds, rounded to the nearest; -1 without expiry, -2 without key. *)
Definition ttl_reply (k : string) : Z :=
  match ks !! k with
  | None => -2
  | Some (mkEntry _ None) => -1
  | Some (mkEntry _ (Some ms)) => (ms + 500) / 1000
  end.

(** The integer a string value is, when it is one in canonical decimal. *)
Definition integer_value (s : string) : option Z :=
  match ParseInt s with
  | Some z => if String.eqb (FormatInt z) s then Some z else None
  | None => None
  end.

(** Removing the last member of a set removes the key. *)
Definition store_set (k : string) (s : gset string) : keyspace :=
  if decide (s = ∅) then delete k ks else keeps_ttl k (RSet s).
End Documented.

(** A u32 field of a string value, big endian; the string is padded with
    zero bytes up to the field. *)
Definition u32_bytes (z : Z) : list ascii :=
  let z := z mod 2 ^ 32 in
  [ascii_of (z / 2 ^ 24); ascii_of (z / 2 ^ 16 mod 256); ascii_of (z / 2 ^ 8 mod 256); ascii_of (z mod 256)].

Definition zero_byte : ascii := ascii_of 0.

Definition pad_to (n : nat) (l : list ascii) : list ascii :=
  l ++ List.repeat zero_byte (n - List.length l).

Definition bitfield_set1 (l : list ascii) (field : nat * Z) : list ascii :=
  let '(off, z) := field in
  let l := pad_to (off + 4) l in
  take off l ++ u32_bytes z ++ drop (off + 4) l.

Definition bitfield_get1 (l : list ascii) (off : nat) : Z :=
  match take 4 (drop off (pad_to (off + 4) l)) with
  | [a; b; c; d] => byte_of a * 2 ^ 24 + byte_of b * 2 ^ 16 + byte_of c * 2 ^ 8 + byte_of d
  | _ => 0
  end.

Definition chars (o : option string) : list ascii :=
  match o with Some s => String.list_ascii_of_string s | None => [] end.

Definition documented {A} (c : command A) (ks : keyspace) : result error A * keyspace :=
  match c in command A return result error A * keyspace with
  | EXISTS k => (Ok (bool_decide (is_Some (ks !! k))), ks)
  | GET k => on_type ks (string_at ks k) (fun o => (o, ks))
  | HGET k f => on_type ks (hash_at ks k) (fun h => (h !! f, ks))
  | HMGET k fs => on_type ks (hash_at ks k) (fun h => (List.map (fun f => h !! f) fs, ks))
  | HGETALL k => on_type ks (hash_at ks k) (fun h => (h, ks))
  | TTL k => (Ok (ttl_reply ks k), ks)
  | SMEMBERS k => on_type ks (set_at ks k) (fun s => (s, ks))
  | SCARD k => on_type ks (set_at ks k) (fun s => (Z.of_nat (size s), ks))
  | HSET k fvs =>
      on_type ks (hash_at ks k) (fun h => (tt, keeps_ttl ks k (RHash (hset h fvs))))
  | SET k v ex =>
      match ex with
      | None => (Ok tt, <[k := mkEntry (RString v) None]> ks)
      | Some secs =>
          if secs <=? 0 then (Err INVALID_EXPIRE, ks)
          else (Ok tt, <[k := mkEntry (RString v) (Some (secs * 1000))]> ks)
      end
  | SETPX k v ms =>
      if ms <=? 0 then (Err INVALID_EXPIRE, ks)
      else (Ok tt, <[k := mkEntry (RString v) (Some ms)]> ks)
  | SETKEEPTTL k v => (Ok tt, keeps_ttl ks k (RString v))
  | SETNX k v px =>
      if match px with Some ms => ms <=? 0 | None => false end then (Err INVALID_EXPIRE, ks)
      else match ks !! k with
           | Some _ => (Ok false, ks)
           | None => (Ok true, <[k := mkEntry (RString v) px]> ks)
           end
  | INCR k =>
      match string_at ks k with
      | None => (Err WRONGTYPE, ks)
      | Some o =>
          match integer_value (default "0" o) with
          | Some n => if n =? int64_max then (Err NOT_INTEGER, ks)
                      else (Ok (n + 1), keeps_ttl ks k (RString (FormatInt (n + 1))))
          | None => (Err NOT_INTEGER, ks)
          end
      end
  | DEL k => (Ok (bool_decide (is_Some (ks !! k))), delete k ks)
  | EXPIRE k secs =>
      match ks !! k with
      | None => (Ok false, ks)
      | Some e =>
          if secs <=? 0 then (Ok true, delete k ks)
          else (Ok true, <[k := mkEntry (e_value e) (Some (secs * 1000))]> ks)
      end
  | SADD k m =>
      on_type ks (set_at ks k)
        (fun s => (bool_decide (m ∉ s), keeps_ttl ks k (RSet ({[m]} ∪ s))))
  | SREM k m =>
      on_type ks (set_at ks k)
        (fun s => if decide (m ∈ s) then (true, store_set ks k (s ∖ {[m]})) else (false, ks))
  | BITFIELD_SET k fields =>
      on_type ks (string_at ks k)
        (fun o => (tt, keeps_ttl ks k
                    (RString (String.string_of_list_ascii (foldl bitfield_set1 (chars o) fields)))))
  | BITFIELD_GET k offsets =>
      on_type ks (string_at ks k) (fun o => (List.map (bitfield_get1 (chars o)) offsets, ks))
  end.

(** [d] milliseconds pass. *)
Definition age (d : Z) (e : entry) : option entry :=
  match e_ttl e with
  | None => Some e
  | Some ms => if ms <=? d then None else Some (mkEntry (e_value e) (Some (ms - d)))
  end.

Definition elapse (d : Z) (ks : keyspace) : keyspace := omap (age d) ks.

(** ** The server *)

Class RedisServer (R : Type) := {
  exec : forall {A}, command A -> IO R A;
  keys : R -> keyspace;
  exec_documented : forall A (c : command A) r a r',
    exec c r = (a, r') -> documented c (keys r) = (a, keys r');
}.

(** The server that is its live keys and nothing else. *)
#[export] Instance keyspace_server : RedisServer keyspace := {
  exec := fun A c => documented c;
  keys := fun ks => ks;
  exec_documented := fun A c r a r' H => H;
}.

(** ** The client *)

(** [set_order] is the order in which the client lists a set. *)
Class RedisClient (W R : Type) `{RedisServer R} `{!Remote W R} := {
  set_order : gset string -> list string;
  set_order_spec : forall s, set_order s ≡ₚ elements s;
}.

(** ** Programs of commands

    [TxPipeline]: the queued commands all run, and the first error among the
    replies is what [Exec] returns. *)

Section Programs.
Context {R : Type} `{RedisServer R}.

Fixpoint tx_pipeline (cmds : list (IO R unit)) : IO R unit := fun r =>
  match cmds with
  | [] => (Ok tt, r)
  | c :: rest =>
      let '(a, r1) := c r in
      let '(b, r2) := tx_pipeline rest r1 in
      (match a with Ok _ => b | Err e => Err e end, r2)
  end.

Definition quietly {A} (m : IO R A) : IO R unit := let* _ := m in ret tt.

(** A program of commands, seen on the live keys: [simulates m f] says that
    [f] is what [m] does to them. *)
Definition simulates {A} (m : IO R A) (f : IO keyspace A) : Prop :=
  forall r a r', m r = (a, r') -> f (keys r) = (a, keys r').

Lemma simulates_exec {A} (c : command A) : simulates (exec c) (documented c).
Proof. intros r a r'. apply exec_documented. Qed.

Lemma simulates_ret {A} (a : A) : simulates (ret a) (ret a).
Proof. by intros r a' r' [= <- <-]. Qed.

Lemma simulates_fail {A} e : simulates (A:=A) (fail e) (fail e).
Proof. by intros r a' r' [= <- <-]. Qed.

Lemma simulates_bind {A B} (m : IO R A) (k : A -> IO R B) f g :
  simulates m f -> (forall a, simulates (k a) (g a)) -> simulates (bind m k) (bind f g).
Proof.
  intros Hm Hk r b r'. unfold bind. destruct (m r) as [[a|e] r1] eqn:E; rewrite (Hm _ _ _ E).
  - apply Hk.
  - by intros [= <- <-].
Qed.

Lemma simulates_if {A} (b : bool) (m n : IO R A) f g :
  simulates m f -> simulates n g -> simulates (if b then m else n) (if b then f else g).
Proof. by destruct b. Qed.

Lemma simulates_option {A T} (o : option T) (m : T -> IO R A) (n : IO R A) f g :
  (forall x, simulates (m x) (f x)) -> simulates n g ->
  simulates (match o with Some x => m x | None => n end) (match o with Some x => f x | None => g end).
Proof. by destruct o. Qed.
End Programs.

Lemma simulates_tx {R} `{RedisServer R} (cmds : list (IO R unit)) (fs : list (IO keyspace unit)) :
  Forall2 simulates cmds fs -> simulates (tx_pipeline cmds) (tx_pipeline fs).
Proof.
  induction 1 as [|c f cmds fs Hc _ IH]; intros r a r'; simpl; [by intros [= <- <-]|].
  destruct (c r) as [a1 r1] eqn:E1. rewrite (Hc _ _ _ E1).
  destruct (tx_pipeline cmds r1) as [a2 r2] eqn:E2. rewrite (IH _ _ _ E2). by intros [= <- <-].
Qed.

Lemma simulates_quietly {R} `{RedisServer R} {A} (m : IO R A) f :
  simulates m f -> simulates (quietly m) (quietly f).
Proof. intros Hm. apply simulates_bind; [done|]. intros. apply simulates_ret. Qed.

Create HintDb simulates discriminated.
#[export] Hint Resolve simulates_exec simulates_ret simulates_fail simulates_bind simulates_if
  simulates_option simulates_tx simulates_quietly : simulates.

(** ** What a successful command did *)

Section Inversion.
Implicit Types (ks : keyspace) (k : string).

Lemma hash_at_Some ks k h ttl : ks !! k = Some (mkEntry (RHash h) ttl) -> hash_at ks k = Some h.
Proof. unfold hash_at. by intros ->. Qed.

Lemma hash_at_inv ks k h : hash_at ks k = Some h -> is_Some (ks !! k) ->
  exists ttl, ks !! k = Some (mkEntry (RHash h) ttl).
Proof.
  unfold hash_at. intros Hh [[v ttl] Hk]. rewrite Hk in *. destruct v; simplify_eq. by eexists.
Qed.

Lemma EXISTS_Ok ks k b ks' :
  documented (EXISTS k) ks = (Ok b, ks') <-> b = bool_decide (is_Some (ks !! k)) /\ ks' = ks.
Proof. simpl. split; [by intros [= <- <-] | by intros [-> ->]]. Qed.

Lemma HGET_Ok ks k f o ks' :
  documented (HGET k f) ks = (Ok o, ks') <-> exists h, hash_at ks k = Some h /\ o = h !! f /\ ks' = ks.
Proof.
  simpl. unfold on_type. destruct (hash_at ks k) as [h|].
  - split; [intros [= <- <-]; eauto | by intros (? & [= <-] & -> & ->)].
  - split; [discriminate | by intros (? & ? & _)].
Qed.

Lemma GET_Ok ks k o ks' :
  documented (GET k) ks = (Ok o, ks') <-> string_at ks k = Some o /\ ks' = ks.
Proof.
  simpl. unfold on_type. destruct (string_at ks k) as [s|].
  - split; [by intros [= <- <-] | by intros [[= ->] ->]].
  - split; [discriminate | by intros [? _]].
Qed.

Lemma HSET_Ok ks k fvs u ks' :
  documented (HSET k fvs) ks = (Ok u, ks') <->
  exists h, hash_at ks k = Some h /\ ks' = keeps_ttl ks k (RHash (hset h fvs)).
Proof.
  simpl. unfold on_type. destruct u, (hash_at ks k) as [h|].
  - split; [intros [= <-]; eauto | by intros (? & [= <-] & ->)].
  - split; [discriminate | by intros (? & ? & _)].
Qed.

Lemma SET_Ok ks k v ex u ks' :
  documented (SET k v ex) ks = (Ok u, ks') ->
  ks' = <[k := mkEntry (RString v) (option_map (fun s => s * 1000) ex)]> ks /\
  (forall s, ex = Some s -> 0 < s).
Proof.
  simpl. destruct ex as [s|]; [|by intros [= <-]].
  destruct (Z.leb_spec s 0); [discriminate|]. intros [= <-]. split; [done|]. by intros ? [= <-].
Qed.

Lemma SETNX_Ok ks k v px b ks' :
  documented (SETNX k v px) ks = (Ok b, ks') ->
  b = bool_decide (ks !! k = None) /\ ks' = if b then <[k := mkEntry (RString v) px]> ks else ks.
Proof.
  simpl. destruct (match px with Some ms => ms <=? 0 | None => false end); [discriminate|].
  destruct (ks !! k); intros [= <- <-]; split; try done.
Qed.

Lemma INCR_Ok ks k n ks' :
  documented (INCR k) ks = (Ok n, ks') ->
  exists o m, string_at ks k = Some o /\ integer_value (default "0" o) = Some m /\ n = m + 1 /\
    ks' = keeps_ttl ks k (RString (FormatInt n)).
Proof.
  simpl. destruct (string_at ks k) as [o|] eqn:Eo; [|discriminate].
  destruct (integer_value _) as [m|] eqn:Em; [|discriminate].
  destruct (m =? int64_max); [discriminate|]. intros [= <- <-]. by exists o, m.
Qed.

Lemma EXPIRE_Ok ks k s b ks' :
  documented (EXPIRE k s) ks = (Ok b, ks') -> 0 < s ->
  ks' = alter (fun e => mkEntry (e_value e) (Some (s * 1000))) k ks.
Proof.
  simpl. destruct (ks !! k) as [e|] eqn:E.
  - destruct (Z.leb_spec s 0); [lia|]. intros [= <- <-] _. apply map_eq. intros j.
    destruct (decide (k = j)) as [->|].
    + by rewrite lookup_insert_eq, lookup_alter_eq, E.
    + by rewrite lookup_insert_ne, lookup_alter_ne.
  - intros [= <- <-] _. apply map_eq. intros j. destruct (decide (k = j)) as [->|].
    + by rewrite lookup_alter_eq, E.
    + by rewrite lookup_alter_ne.
Qed.

Lemma TTL_Ok ks k z ks' : documented (TTL k) ks = (Ok z, ks') <-> z = ttl_reply ks k /\ ks' = ks.
Proof. simpl. split; [by intros [= <- <-] | by intros [-> ->]]. Qed.

Lemma lookup_elapse d ks k : elapse d ks !! k = ks !! k ≫= age d.
Proof. apply lookup_omap. Qed.

Lemma hset_lookup_ne h fvs f : f ∉ fvs.*1 -> hset h fvs !! f = h !! f.
Proof.
  unfold hset. revert h. induction fvs as [|[g v] fvs IH]; intros h Hf; simpl in *; [done|].
  rewrite IH by set_solver. apply lookup_insert_ne. set_solver.
Qed.
End Inversion.

(** The keys a command can write. *)
Definition writes {A} (c : command A) : option string :=
  match c with
  | EXISTS _ | GET _ | HGET _ _ | HMGET _ _ | HGETALL _ | TTL _ | SMEMBERS _ | SCARD _
  | BITFIELD_GET _ _ => None
  | HSET k _ | SET k _ _ | SETPX k _ _ | SETKEEPTTL k _ | SETNX k _ _ | INCR k | DEL k | EXPIRE k _ | SADD k _ | SREM k _ | BITFIELD_SET k _ => Some k
  end.

(** Nothing but the key a command writes changes, whatever its outcome. *)
Lemma documented_frame {A} (c : command A) ks a ks' k :
  documented c ks = (a, ks') -> writes c <> Some k -> ks' !! k = ks !! k.
Proof.
  destruct c; simpl; unfold on_type, keeps_ttl, store_set; intros H Hk;
    repeat (case_match || case_decide); simplify_eq; unfold keeps_ttl;
    rewrite ?lookup_insert_ne, ?lookup_delete_ne by congruence; try done.
Qed.

(** A property of one key is kept by the commands that do not write it. *)
Lemma preserves_documented {A} (c : command A) (P : option entry -> Prop) k :
  writes c <> Some k -> preserves (fun ks => P (ks !! k)) (documented c).
Proof. intros Hk ks a ks' H. by rewrite (documented_frame c ks a ks' k H Hk). Qed.

(** ** A client next to its server

    Nothing is lost and nobody else writes: the setting of the concrete
    examples. *)
Module Local.
Record world := mkWorld { w_keys : keyspace; w_clock : time }.

#[export] Instance runtime : Runtime world := {
  time_Now := fun w => (w_clock w, w);
  uuid_NewString := fun w => ("uuid", w);
  rand_Read := fun n w => (Ok (List.repeat 7 n), w);
}.

#[export] Program Instance remote : Remote world keyspace := {
  server := w_keys;
  put_server := fun ks w => mkWorld ks (w_clock w);
  transport := fun w => (Delivered, w);
  max_retries := fun _ => 3%nat;
}.
Next Obligation. done. Qed.

#[export] Program Instance client : RedisClient world keyspace := { set_order := elements }.
Next Obligation. done. Qed.
End Local.

(** ** A client nobody interferes with

    For the functional behaviour of an operation: every request arrives, and
    the cache is as it was when the request left. *)
Class Quiet (W R : Type) `{HC : RedisClient W R} : Prop :=
  quiet : forall w, exists w1, transport w = (Delivered, w1) /\ keys (server w1) = keys (server w).

#[export] Instance local_quiet : Quiet Local.world keyspace (HC := Local.client).
Proof. intros w. by exists w. Qed.

Lemma quiet_call {W R A} `{HC : RedisClient W R} `{!Quiet W R} (m : IO R A) f w a ks' :
  simulates m f -> f (keys (server w)) = (a, ks') ->
  exists w', call m w = (a, w') /\ keys (server w') = ks'.
Proof.
  intros Hm Hf. destruct (quiet w) as (w1 & Ht & Hk). unfold call.
  destruct (m (server w1)) as [b r] eqn:E. pose proof (Hm _ _ _ E) as Hs. rewrite Hk, Hf in Hs.
  injection Hs as <- ->. exists (put_server r w1). rewrite server_put. split; [|done].
  destruct (max_retries w); simpl; by rewrite Ht, E.
Qed.

(** ** Packed u32 fields *)

Lemma u32_bytes_decode z a b c d : u32_bytes z = [a; b; c; d] ->
  byte_of a * 2 ^ 24 + byte_of b * 2 ^ 16 + byte_of c * 2 ^ 8 + byte_of d = z mod 2 ^ 32.
Proof.
  unfold u32_bytes. set (m := z mod 2 ^ 32).
  assert (Hm : 0 <= m < 2 ^ 32) by (apply Z.mod_pos_bound; lia).
  intros [= <- <- <- <-]. rewrite !byte_of_ascii_of; Z.to_euclidean_division_equations; lia.
Qed.

Lemma pad_to_long n l : (n <= List.length l)%nat -> pad_to n l = l.
Proof.
  intros Hn. unfold pad_to. replace (n - List.length l)%nat with 0%nat by lia. apply app_nil_r.
Qed.

Lemma bitfield_get_u32 (pre : list ascii) z post :
  bitfield_get1 (pre ++ u32_bytes z ++ post) (List.length pre) = z mod 2 ^ 32.
Proof.
  unfold bitfield_get1. rewrite pad_to_long by (rewrite !length_app; simpl; lia).
  rewrite drop_app_length.
  change (take 4 (u32_bytes z ++ post)) with (u32_bytes z).
  unfold u32_bytes. by apply u32_bytes_decode.
Qed.

Lemma bitfield_set_first l z : exists post, bitfield_set1 l (0%nat, z) = u32_bytes z ++ post.
Proof. eexists. reflexivity. Qed.

Lemma bitfield_set_next (pre l : list ascii) z :
  exists post, bitfield_set1 (pre ++ l) (List.length pre, z) = pre ++ u32_bytes z ++ post.
Proof.
  unfold bitfield_set1, pad_to. rewrite <- app_assoc, take_app_length. eexists. reflexivity.
Qed.

(** Two adjacent fields are read back, whatever the string was before. *)
Lemma bitfield_pair l a b :
  let l' := foldl bitfield_set1 l [(0%nat, a); (4%nat, b)] in
  List.map (bitfield_get1 l') [0%nat; 4%nat] = [a mod 2 ^ 32; b mod 2 ^ 32].
Proof.
  cbn [foldl]. destruct (bitfield_set_first l a) as [p1 ->].
  change 4%nat with (List.length (u32_bytes a)) at 1.
  destruct (bitfield_set_next (u32_bytes a) p1 b) as [p2 ->].
  cbn [List.map]. f_equal; [exact (bitfield_get_u32 [] a (u32_bytes b ++ p2))|].
  f_equal. exact (bitfield_get_u32 (u32_bytes a) b p2).
Qed.

(** ** Values, lifetimes aside *)

Definition value_at (ks : keyspace) (k : string) : option rvalue := e_value <$> ks !! k.

Lemma value_keeps_ttl ks k v j : value_at (keeps_ttl ks k v) j = if decide (k = j) then Some v else value_at ks j.
Proof. unfold value_at, keeps_ttl. rewrite lookup_insert. by destruct (decide (k = j)). Qed.

Lemma value_insert ks k e j :
  value_at (<[k := e]> ks) j = if decide (k = j) then Some (e_value e) else value_at ks j.
Proof. unfold value_at. rewrite lookup_insert. by destruct (decide (k = j)). Qed.

Lemma value_EXPIRE ks k s b ks' j :
  documented (EXPIRE k s) ks = (Ok b, ks') -> 0 < s -> value_at ks' j = value_at ks j.
Proof.
  intros H Hs. apply EXPIRE_Ok in H as ->; [|done]. unfold value_at. destruct (decide (k = j)) as [->|].
  - rewrite lookup_alter_eq. by destruct (ks !! j).
  - by rewrite lookup_alter_ne.
Qed.

Lemma hash_at_value ks k : hash_at ks k =
  match value_at ks k with None => Some ∅ | Some (RHash h) => Some h | Some _ => None end.
Proof. unfold hash_at, value_at. by destruct (ks !! k) as [[[] ?]|]. Qed.

Lemma set_at_value ks k : set_at ks k =
  match value_at ks k with None => Some ∅ | Some (RSet s) => Some s | Some _ => None end.
Proof. unfold set_at, value_at. by destruct (ks !! k) as [[[] ?]|]. Qed.

Lemma string_at_value ks k : string_at ks k =
  match value_at ks k with None => Some None | Some (RString s) => Some (Some s) | Some _ => None end.
Proof. unfold string_at, value_at. by destruct (ks !! k) as [[[] ?]|]. Qed.

Lemma SADD_Ok ks k m b ks' :
  documented (SADD k m) ks = (Ok b, ks') ->
  exists s, set_at ks k = Some s /\ ks' = keeps_ttl ks k (RSet ({[m]} ∪ s)).
Proof.
  simpl. unfold on_type. destruct (set_at ks k) as [s|]; [|discriminate]. intros [= _ <-]. eauto.
Qed.

Lemma BITFIELD_SET_Ok ks k l u ks' :
  documented (BITFIELD_SET k l) ks = (Ok u, ks') ->
  exists o, string_at ks k = Some o /\
    ks' = keeps_ttl ks k (RString (String.string_of_list_ascii (foldl bitfield_set1 (chars o) l))).
Proof.
  simpl. unfold on_type. destruct (string_at ks k) as [o|]; [|discriminate]. intros [= <-]. eauto.
Qed.
