(* ===== verification/RedisKeys.v ===== *)
(** * The cache keys (internal/infrastructure/cache/redis/key.go)

    One key format per kind of entry.  Keys of different kinds, or of the same
    kind with different arguments, never collide, with two provisos that the
    callers meet: an MFA challenge id does not start with "state:", and the
    user id and purpose of a TOTP step contain no colon. *)

From stdpp Require Import base tactics list strings numbers.
From Stdlib Require Import ZArith Lia Ascii.
From S2P Require Import Prelude GoStrings GoJson.

Module KeyBuilder.

Record KeyBuilder := mkKeyBuilder { Prefix : string; Env : string }.

Definition NewKeyBuilder (prefix env : string) : KeyBuilder := mkKeyBuilder prefix env.

Definition Session (k : KeyBuilder) (sessionID : string) : string :=
  Prefix k +:+ ":" +:+ Env k +:+ ":session:sid:" +:+ sessionID.
Definition SessionState (k : KeyBuilder) (sessionID : string) : string :=
  Prefix k +:+ ":" +:+ Env k +:+ ":session:state:" +:+ sessionID.
Definition UserSessionIndex (k : KeyBuilder) (userID : string) : string :=
  Prefix k +:+ ":" +:+ Env k +:+ ":session:user:" +:+ userID.
Definition AuthCode (k : KeyBuilder) (code : string) : string :=
  Prefix k +:+ ":" +:+ Env k +:+ ":authcode:code:" +:+ code.
Definition AuthCodeConsumed (k : KeyBuilder) (code : string) : string :=
  Prefix k +:+ ":" +:+ Env k +:+ ":authcode:consumed:" +:+ code.
Definition OAuthState (k : KeyBuilder) (state : string) : string :=
  Prefix k +:+ ":" +:+ Env k +:+ ":oauthstate:" +:+ state.
Definition Nonce (k : KeyBuilder) (nonce : string) : string :=
  Prefix k +:+ ":" +:+ Env k +:+ ":nonce:" +:+ nonce.
Definition AccessToken (k : KeyBuilder) (tokenSHA256 : string) : string :=
  Prefix k +:+ ":" +:+ Env k +:+ ":token:access:sha256:" +:+ tokenSHA256.
Definition RefreshToken (k : KeyBuilder) (tokenSHA256 : string) : string :=
  Prefix k +:+ ":" +:+ Env k +:+ ":token:refresh:sha256:" +:+ tokenSHA256.
Definition RevokedAccessToken (k : KeyBuilder) (tokenSHA256 : string) : string :=
  Prefix k +:+ ":" +:+ Env k +:+ ":revoked:access:" +:+ tokenSHA256.
Definition RevokedRefreshToken (k : KeyBuilder) (tokenSHA256 : string) : string :=
  Prefix k +:+ ":" +:+ Env k +:+ ":revoked:refresh:" +:+ tokenSHA256.
Definition RefreshTokenGrace (k : KeyBuilder) (tokenSHA256 : string) : string :=
  Prefix k +:+ ":" +:+ Env k +:+ ":token:refresh:grace:" +:+ tokenSHA256.
Definition RefreshTokenFamilyRevoked (k : KeyBuilder) (familyID : string) : string :=
  Prefix k +:+ ":" +:+ Env k +:+ ":token:refresh:family:revoked:" +:+ familyID.
Definition LoginFailUser (k : KeyBuilder) (username : string) : string :=
  Prefix k +:+ ":" +:+ Env k +:+ ":loginfail:user:" +:+ username.
Definition LoginFailIP (k : KeyBuilder) (ip : string) : string :=
  Prefix k +:+ ":" +:+ Env k +:+ ":loginfail:ip:" +:+ ip.
Definition UserLock (k : KeyBuilder) (userID : string) : string :=
  Prefix k +:+ ":" +:+ Env k +:+ ":lock:user:" +:+ userID.
Definition IPLock (k : KeyBuilder) (ip : string) : string :=
  Prefix k +:+ ":" +:+ Env k +:+ ":lock:ip:" +:+ ip.
Definition LoginBlacklistUser (k : KeyBuilder) (username : string) : string :=
  Prefix k +:+ ":" +:+ Env k +:+ ":loginblacklist:user:" +:+ username.
Definition DeviceCode (k : KeyBuilder) (deviceCode : string) : string :=
  Prefix k +:+ ":" +:+ Env k +:+ ":device:code:" +:+ deviceCode.
Definition DeviceUserCode (k : KeyBuilder) (userCode : string) : string :=
  Prefix k +:+ ":" +:+ Env k +:+ ":device:user:" +:+ userCode.
Definition TOTPEnrollment (k : KeyBuilder) (sessionID : string) : string :=
  Prefix k +:+ ":" +:+ Env k +:+ ":mfa:totp:enroll:" +:+ sessionID.
Definition MFAChallenge (k : KeyBuilder) (challengeID : string) : string :=
  Prefix k +:+ ":" +:+ Env k +:+ ":mfa:challenge:" +:+ challengeID.
Definition MFAChallengeState (k : KeyBuilder) (challengeID : string) : string :=
  Prefix k +:+ ":" +:+ Env k +:+ ":mfa:challenge:state:" +:+ challengeID.
Definition TOTPStepUsed (k : KeyBuilder) (userID purpose : string) (step : Z) : string :=
  Prefix k +:+ ":" +:+ Env k +:+ ":mfa:totp:used:" +:+ userID +:+ ":" +:+ purpose +:+ ":" +:+ FormatInt step.
Definition AuditStream (k : KeyBuilder) : string :=
  Prefix k +:+ ":" +:+ Env k +:+ ":audit:stream".
Definition AuditDLQStream (k : KeyBuilder) : string :=
  Prefix k +:+ ":" +:+ Env k +:+ ":audit:dlq".
Definition AuditEventDedup (k : KeyBuilder) (eventID : string) : string :=
  Prefix k +:+ ":" +:+ Env k +:+ ":audit:dedup:" +:+ eventID.
Definition AuditRetryCounter (k : KeyBuilder) (eventID : string) : string :=
  Prefix k +:+ ":" +:+ Env k +:+ ":audit:retry:" +:+ eventID.
End KeyBuilder.

(** The kinds of entry. *)
Inductive cache_key :=
| KSession (sessionID : string)
| KSessionState (sessionID : string)
| KUserSessionIndex (userID : string)
| KAuthCode (code : string)
| KAuthCodeConsumed (code : string)
| KOAuthState (state : string)
| KNonce (nonce : string)
| KAccessToken (tokenSHA256 : string)
| KRefreshToken (tokenSHA256 : string)
| KRevokedAccessToken (tokenSHA256 : string)
| KRevokedRefreshToken (tokenSHA256 : string)
| KRefreshTokenGrace (tokenSHA256 : string)
| KRefreshTokenFamilyRevoked (familyID : string)
| KLoginFailUser (username : string)
| KLoginFailIP (ip : string)
| KUserLock (userID : string)
| KIPLock (ip : string)
| KLoginBlacklistUser (username : string)
| KDeviceCode (deviceCode : string)
| KDeviceUserCode (userCode : string)
| KTOTPEnrollment (sessionID : string)
| KMFAChallenge (challengeID : string)
| KMFAChallengeState (challengeID : string)
| KTOTPStepUsed (userID purpose : string) (step : Z)
| KAuditStream
| KAuditDLQStream
| KAuditEventDedup (eventID : string)
| KAuditRetryCounter (eventID : string).

Definition build (k : KeyBuilder.KeyBuilder) (c : cache_key) : string :=
  match c with
  | KSession sessionID => KeyBuilder.Session k sessionID
  | KSessionState sessionID => KeyBuilder.SessionState k sessionID
  | KUserSessionIndex userID => KeyBuilder.UserSessionIndex k userID
  | KAuthCode code => KeyBuilder.AuthCode k code
  | KAuthCodeConsumed code => KeyBuilder.AuthCodeConsumed k code
  | KOAuthState state => KeyBuilder.OAuthState k state
  | KNonce nonce => KeyBuilder.Nonce k nonce
  | KAccessToken tokenSHA256 => KeyBuilder.AccessToken k tokenSHA256
  | KRefreshToken tokenSHA256 => KeyBuilder.RefreshToken k tokenSHA256
  | KRevokedAccessToken tokenSHA256 => KeyBuilder.RevokedAccessToken k tokenSHA256
  | KRevokedRefreshToken tokenSHA256 => KeyBuilder.RevokedRefreshToken k tokenSHA256
  | KRefreshTokenGrace tokenSHA256 => KeyBuilder.RefreshTokenGrace k tokenSHA256
  | KRefreshTokenFamilyRevoked familyID => KeyBuilder.RefreshTokenFamilyRevoked k familyID
  | KLoginFailUser username => KeyBuilder.LoginFailUser k username
  | KLoginFailIP ip => KeyBuilder.LoginFailIP k ip
  | KUserLock userID => KeyBuilder.UserLock k userID
  | KIPLock ip => KeyBuilder.IPLock k ip
  | KLoginBlacklistUser username => KeyBuilder.LoginBlacklistUser k username
  | KDeviceCode deviceCode => KeyBuilder.DeviceCode k deviceCode
  | KDeviceUserCode userCode => KeyBuilder.DeviceUserCode k userCode
  | KTOTPEnrollment sessionID => KeyBuilder.TOTPEnrollment k sessionID
  | KMFAChallenge challengeID => KeyBuilder.MFAChallenge k challengeID
  | KMFAChallengeState challengeID => KeyBuilder.MFAChallengeState k challengeID
  | KTOTPStepUsed userID purpose step => KeyBuilder.TOTPStepUsed k userID purpose step
  | KAuditStream => KeyBuilder.AuditStream k
  | KAuditDLQStream => KeyBuilder.AuditDLQStream k
  | KAuditEventDedup eventID => KeyBuilder.AuditEventDedup k eventID
  | KAuditRetryCounter eventID => KeyBuilder.AuditRetryCounter k eventID
  end.

(** The fixed part of a key and what follows it. *)
Definition tag (c : cache_key) : string :=
  match c with
  | KSession _ => ":session:sid:"
  | KSessionState _ => ":session:state:"
  | KUserSessionIndex _ => ":session:user:"
  | KAuthCode _ => ":authcode:code:"
  | KAuthCodeConsumed _ => ":authcode:consumed:"
  | KOAuthState _ => ":oauthstate:"
  | KNonce _ => ":nonce:"
  | KAccessToken _ => ":token:access:sha256:"
  | KRefreshToken _ => ":token:refresh:sha256:"
  | KRevokedAccessToken _ => ":revoked:access:"
  | KRevokedRefreshToken _ => ":revoked:refresh:"
  | KRefreshTokenGrace _ => ":token:refresh:grace:"
  | KRefreshTokenFamilyRevoked _ => ":token:refresh:family:revoked:"
  | KLoginFailUser _ => ":loginfail:user:"
  | KLoginFailIP _ => ":loginfail:ip:"
  | KUserLock _ => ":lock:user:"
  | KIPLock _ => ":lock:ip:"
  | KLoginBlacklistUser _ => ":loginblacklist:user:"
  | KDeviceCode _ => ":device:code:"
  | KDeviceUserCode _ => ":device:user:"
  | KTOTPEnrollment _ => ":mfa:totp:enroll:"
  | KMFAChallenge _ => ":mfa:challenge:"
  | KMFAChallengeState _ => ":mfa:challenge:state:"
  | KTOTPStepUsed _ _ _ => ":mfa:totp:used:"
  | KAuditStream => ":audit:stream"
  | KAuditDLQStream => ":audit:dlq"
  | KAuditEventDedup _ => ":audit:dedup:"
  | KAuditRetryCounter _ => ":audit:retry:"
  end.

Definition arg (c : cache_key) : string :=
  match c with
  | KSession x => x
  | KSessionState x => x
  | KUserSessionIndex x => x
  | KAuthCode x => x
  | KAuthCodeConsumed x => x
  | KOAuthState x => x
  | KNonce x => x
  | KAccessToken x => x
  | KRefreshToken x => x
  | KRevokedAccessToken x => x
  | KRevokedRefreshToken x => x
  | KRefreshTokenGrace x => x
  | KRefreshTokenFamilyRevoked x => x
  | KLoginFailUser x => x
  | KLoginFailIP x => x
  | KUserLock x => x
  | KIPLock x => x
  | KLoginBlacklistUser x => x
  | KDeviceCode x => x
  | KDeviceUserCode x => x
  | KTOTPEnrollment x => x
  | KMFAChallenge x => x
  | KMFAChallengeState x => x
  | KTOTPStepUsed userID purpose step => userID +:+ ":" +:+ purpose +:+ ":" +:+ FormatInt step
  | KAuditStream => ""
  | KAuditDLQStream => ""
  | KAuditEventDedup x => x
  | KAuditRetryCounter x => x
  end.

(** ** Keys do not collide *)

Lemma build_shape k c :
  build k c = KeyBuilder.Prefix k +:+ ":" +:+ KeyBuilder.Env k +:+ tag c +:+ arg c.
Proof. by destruct c. Qed.

Lemma app_cancel_l (p s t : string) : p +:+ s = p +:+ t -> s = t.
Proof. induction p as [|a p IH]; simpl; [done|]. intros [= H]. by apply IH. Qed.

(** Two strings that share an extension: one is a prefix of the other. *)
Lemma app_overlap (p q s t : string) : p +:+ s = q +:+ t -> HasPrefix p q = true \/ HasPrefix q p = true.
Proof.
  unfold HasPrefix. revert q. induction p as [|a p IH]; intros [|b q]; simpl; try (by left); try (by right).
  intros [= -> H]. destruct (ascii_dec b b); [|done]. by apply IH in H.
Qed.

Definition no_colon (s : string) : bool := forall_string (fun a => negb (Ascii.eqb a ":")) s.

Definition key_ok (c : cache_key) : bool :=
  match c with
  | KMFAChallenge id => negb (HasPrefix id "state:")
  | KTOTPStepUsed userID purpose step => no_colon userID && no_colon purpose && in_int64 step
  | _ => true
  end.

Lemma no_colon_split s t s' t' :
  no_colon s = true -> no_colon t = true -> s +:+ String ":" s' = t +:+ String ":" t' -> s = t /\ s' = t'.
Proof.
  intros Hs. revert t. induction s as [|a s IH]; intros [|b t] Ht; simpl; intros [= E]; subst.
  - done.
  - discriminate Ht.
  - discriminate Hs.
  - apply andb_true_iff in Hs as [_ Hs], Ht as [_ Ht].
    destruct (IH Hs t Ht) as [-> ->]; done.
Qed.

Lemma totp_arg_inj u p s u' p' s' :
  key_ok (KTOTPStepUsed u p s) = true -> key_ok (KTOTPStepUsed u' p' s') = true ->
  arg (KTOTPStepUsed u p s) = arg (KTOTPStepUsed u' p' s') -> u = u' /\ p = p' /\ s = s'.
Proof.
  simpl. rewrite !andb_true_iff. intros [[Hu Hp] Hs] [[Hu' Hp'] Hs'] E.
  apply no_colon_split in E as [-> E]; [|done|done].
  apply no_colon_split in E as [-> E]; [|done|done].
  by apply FormatInt_inj in E.
Qed.

Lemma challenge_tags id x : HasPrefix id "state:" = false ->
  ":mfa:challenge:" +:+ id <> ":mfa:challenge:state:" +:+ x.
Proof.
  change (":mfa:challenge:state:" +:+ x) with (":mfa:challenge:" +:+ ("state:" +:+ x)).
  intros Hid E. apply app_cancel_l in E. subst id.
  by rewrite (HasPrefix_append "state:" x) in Hid.
Qed.

Lemma build_inj k c c' : key_ok c = true -> key_ok c' = true -> build k c = build k c' -> c = c'.
Proof.
  intros Hc Hc'. rewrite !build_shape. intros E.
  do 3 apply app_cancel_l in E. pose proof (app_overlap _ _ _ _ E) as Ho.
  destruct c, c'; simpl in Ho; try (destruct Ho; discriminate);
    try (by apply app_cancel_l in E; simpl in E; subst).
  - exfalso. apply negb_true_iff in Hc. exact (challenge_tags _ _ Hc E).
  - exfalso. apply negb_true_iff in Hc'. exact (challenge_tags _ _ Hc' (eq_sym E)).
  - apply app_cancel_l in E. by apply totp_arg_inj in E as (-> & -> & ->).
Qed.

Lemma build_ne k c c' : key_ok c = true -> key_ok c' = true -> c <> c' -> build k c <> build k c'.
Proof. intros Hc Hc' Hne E. by apply build_inj in E. Qed.

(** Two entries of the cache share a key only when they are the same
    entry: same kind, same session, token hash, family, user code, challenge.
    The provisos are on MFA challenge ids and TOTP step arguments. *)
Theorem cache_keys_distinct k c c' :
  key_ok c = true -> key_ok c' = true -> build k c = build k c' <-> c = c'.
Proof. intros Hc Hc'. split; [by apply build_inj | by intros ->]. Qed.

Lemma cache_keys_distinct_witness :
  let k := KeyBuilder.NewKeyBuilder "idp" "test" in
  build k (KMFAChallenge "c1") = build k (KMFAChallengeState "c1") <-> KMFAChallenge "c1" = KMFAChallengeState "c1".
Proof. intros k. apply cache_keys_distinct; reflexivity. Defined.
