(* ===== verification/LuaScripts.v ===== *)
(** * The Lua scripts (scripts/lua) and the cache helpers

    Each script is a program of Redis commands over any server; the server
    runs it as one step.  A script that fails in the middle keeps the effects
    of the commands before.  Lua numbers are doubles: reading a decimal integer
    rounds it to 53 bits, [tostring] prints fourteen significant digits. *)

From stdpp Require Import base tactics list gmap strings numbers.
From Stdlib Require Import ZArith Lia Ascii.
From S2P Require Import Prelude GoStrings GoJsonObject GoTime Errors Ports Remote Redis.

(** ** helpers.go *)

Definition durationSeconds (ttl : duration) : Z :=
  let seconds := Z.quot ttl Second in
  if (0 <? ttl) && (seconds =? 0) then 1 else seconds.

Definition boolString (value : bool) : string := if value then "1" else "0".
Definition parseBoolString (value : string) : bool := String.eqb value "1" || String.eqb value "true".

(** [ParseInt] returns the nearest bound with a range error; nothing the
    repositories store is out of range, and a syntax error gives 0. *)
Definition parseUint32 (value : string) : Z := default 0 (ParseUint32 value).

Lemma durationSeconds_pos ttl : 0 < ttl -> 0 < durationSeconds ttl.
Proof.
  intros Ht. unfold durationSeconds. rewrite Z.quot_div_nonneg by (unfold Second; lia).
  pose proof (Z.div_pos ttl Second ltac:(lia) ltac:(unfold Second; lia)).
  destruct (Z.ltb_spec 0 ttl); [|lia]. destruct (Z.eqb_spec (ttl / Second) 0); simpl; lia.
Qed.

Lemma durationSeconds_exact n : 0 < n -> durationSeconds (n * Second) = n.
Proof.
  intros Hn. unfold durationSeconds. rewrite Z.quot_mul by (unfold Second; lia).
  destruct (Z.eqb_spec n 0); [lia|]. by rewrite andb_false_r.
Qed.

(** ** Lua numbers and replies *)

Definition round_half_even (n d : Z) : Z :=
  let q := n / d in
  let r := n mod d in
  if 2 * r <? d then q
  else if d <? 2 * r then q + 1
  else if Z.even q then q else q + 1.

Definition to_double (z : Z) : Z :=
  let a := Z.abs z in
  if a <=? 2 ^ 53 then z
  else let e := Z.log2 a - 52 in Z.sgn z * (round_half_even a (2 ^ e) * 2 ^ e).

(** [tonumber] on the decimal integers the server and the scripts write. *)
Definition tonumber (s : string) : option Z := option_map to_double (ParseInt (TrimSpace s)).

(** [tonumber(s) or 0] *)
Definition number_or_0 (s : string) : Z := default 0 (tonumber s).

Fixpoint strip_zeros (l : list ascii) : list ascii :=
  match l with
  | [] => []
  | a :: rest => if Ascii.eqb a "0" then strip_zeros rest else l
  end.

(** ["%.14g"] of an integer. *)
Definition tostring (z : Z) : string :=
  let a := Z.abs z in
  if a <? 10 ^ 14 then FormatInt z else
  let n := Z.of_nat (String.length (FormatInt a)) in
  let q := round_half_even a (10 ^ (n - 14)) in
  let '(q, n) := if q =? 10 ^ 14 then (10 ^ 13, n + 1) else (q, n) in
  let digits := rev (strip_zeros (rev (String.list_ascii_of_string (FormatInt q)))) in
  let sign := if z <? 0 then "-" else "" in
  let mantissa := match digits with
                  | d :: ((_ :: _) as rest) => String d (String "." (String.string_of_list_ascii rest))
                  | _ => String.string_of_list_ascii digits
                  end in
  sign +:+ mantissa +:+ "e+" +:+ FormatInt (n - 1).

Inductive lua_value :=
| LInt (z : Z)
| LStr (s : string)
| LNil.

Section Replies.
Context {W : Type}.

Definition luaInt64 (value : lua_value) : IO W Z :=
  match value with
  | LInt z => ret z
  | LStr s => some_or (ParseInt s) (Driver "strconv.ParseInt")
  | LNil => throw (Driver "unexpected lua integer type")
  end.

Definition luaString (value : lua_value) : IO W string :=
  match value with
  | LStr s => ret s
  | LNil => ret ""
  | LInt _ => throw (Driver "unexpected lua string type")
  end.
End Replies.

(** ** Numbers on their way through the scripts *)

Definition exact_int (z : Z) : Prop := Z.abs z <= 2 ^ 53.

Lemma exact_in_int64 z : exact_int z -> in_int64 z = true.
Proof.
  unfold exact_int, in_int64, int64_min, int64_max. intros Hz.
  rewrite andb_true_iff, !Z.leb_le. lia.
Qed.

Lemma to_double_exact z : exact_int z -> to_double z = z.
Proof. unfold exact_int, to_double. intros Hz. destruct (Z.leb_spec (Z.abs z) (2 ^ 53)); lia. Qed.

Lemma number_char_no_space a : number_char a = true -> visible a = true.
Proof. destruct a as [[] [] [] [] [] [] [] []]; intros H; try discriminate H; reflexivity. Qed.

Lemma FormatInt_trimmed z : TrimSpace (FormatInt z) = FormatInt z.
Proof.
  apply TrimSpace_visible. eapply forall_string_impl; [|apply FormatInt_number].
  apply number_char_no_space.
Qed.

Lemma tonumber_FormatInt z : exact_int z -> tonumber (FormatInt z) = Some z.
Proof.
  intros Hz. unfold tonumber. rewrite FormatInt_trimmed, ParseInt_FormatInt by by apply exact_in_int64.
  simpl. by rewrite to_double_exact.
Qed.

Lemma number_or_0_FormatInt z : exact_int z -> number_or_0 (FormatInt z) = z.
Proof. intros Hz. unfold number_or_0. by rewrite tonumber_FormatInt. Qed.

Lemma tostring_small z : Z.abs z < 10 ^ 14 -> tostring z = FormatInt z.
Proof. unfold tostring. intros Hz. destruct (Z.ltb_spec (Z.abs z) (10 ^ 14)); [done|lia]. Qed.

(** Instants and lifetimes that print as plain integers: ten thousand billion
    seconds on either side of 1970. *)
Definition plain (z : Z) : Prop := Z.abs z < 10 ^ 13.

Lemma plain_exact z : plain z -> exact_int z.
Proof. unfold plain, exact_int. lia. Qed.

(** ** The scripts *)

Section Scripts.
Context {R : Type} `{RedisServer R}.

Definition filled (o : option string) : option string :=
  match o with Some s => if String.eqb s "" then None else Some s | None => None end.

(** The status of a token hash, derived from the older fields when the hash
    has no status. *)
Definition token_status (key : string) (status : option string) : IO R string :=
  match filled status with
  | Some s => ret s
  | None =>
      let* revoked := exec (HGET key "revoked") in
      let* rotated_to := exec (HGET key "rotated_to") in
      ret (if bool_decide (revoked = Some "1") then "revoked"
           else if bool_decide (is_Some (filled rotated_to)) then "rotated" else "active")
  end.

(** Adding a token to the optional per-user and per-client sets. *)
Definition track_token (set_key new_sha : string) (new_ttl : Z) : IO R unit :=
  if String.eqb set_key "" then ret tt else
  do* exec (SADD set_key ("refresh:" +:+ new_sha)) in
  if 0 <? new_ttl then
    let* set_ttl := exec (TTL set_key) in
    if (set_ttl <? 0) || (set_ttl <? new_ttl)
    then do* exec (EXPIRE set_key new_ttl) in ret tt
    else ret tt
  else ret tt.

Record rotate_argv := mkRotateArgv {
  a_old_sha : string; a_new_sha : string; a_client_id : string; a_user_id : string;
  a_subject : string; a_scopes_json : string; a_issued_at : string; a_expires_at : string;
  a_new_ttl : string; a_grace_ttl : string; a_now : string; a_fingerprint : string;
  a_response : string;
}.

Definition rotated_fields (argv : rotate_argv) (family_id : string) : list (string * string) :=
  let now_ts := number_or_0 (a_now argv) in
  let grace_ttl := number_or_0 (a_grace_ttl argv) in
  [("status", "rotated"); ("rotated_to", a_new_sha argv); ("rotated_at", tostring now_ts);
   ("grace_until", tostring (to_double (now_ts + grace_ttl))); ("bind_fp", a_fingerprint argv);
   ("family_id", family_id)].

Definition fresh_fields (argv : rotate_argv) (family_id : string) : list (string * string) :=
  [("client_id", a_client_id argv); ("user_id", a_user_id argv); ("subject", a_subject argv);
   ("scopes_json", a_scopes_json argv); ("issued_at", a_issued_at argv);
   ("expires_at", a_expires_at argv); ("status", "active"); ("revoked", "0");
   ("family_id", family_id); ("rotated_from", a_old_sha argv); ("rotated_to", "");
   ("rotated_at", ""); ("grace_until", ""); ("bind_fp", "")].

(** rotate_token.lua *)
Definition rotate_token (old_key new_key grace_key family_prefix user_set client_set : string)
    (argv : rotate_argv) : IO R Z :=
  let* found := exec (EXISTS old_key) in
  if negb found then ret (-1) else
  let* status := exec (HGET old_key "status") in
  let* status := token_status old_key status in
  if negb (String.eqb status "active") then ret (-2) else
  let new_ttl := number_or_0 (a_new_ttl argv) in
  let grace_ttl := number_or_0 (a_grace_ttl argv) in
  let* family := exec (HGET old_key "family_id") in
  let family_id := default (a_old_sha argv) (filled family) in
  let family_key := family_prefix +:+ family_id in
  let* revoked := exec (EXISTS family_key) in
  if (revoked : bool) then ret (-3) else
  do* exec (HSET old_key (rotated_fields argv family_id)) in
  do* exec (HSET new_key (fresh_fields argv family_id)) in
  do* (if 0 <? new_ttl then quietly (exec (EXPIRE new_key new_ttl)) else ret tt) in
  do* exec (SET grace_key (a_response argv) (if 0 <? grace_ttl then Some grace_ttl else None)) in
  do* track_token user_set (a_new_sha argv) new_ttl in
  do* track_token client_set (a_new_sha argv) new_ttl in
  ret 1.

(** check_refresh_replay.lua *)
Definition check_refresh_replay (old_key grace_key family_prefix : string)
    (now_arg fingerprint token_sha : string) : IO R (list lua_value) :=
  let* found := exec (EXISTS old_key) in
  if negb found then ret [LInt 0; LStr ""] else
  let* status := exec (HGET old_key "status") in
  let* family := exec (HGET old_key "family_id") in
  let family_id := default token_sha (filled family) in
  let family_key := family_prefix +:+ family_id in
  let* revoked := exec (EXISTS family_key) in
  if (revoked : bool) then ret [LInt (-1); LStr ""] else
  let* status := token_status old_key status in
  if String.eqb status "active" then ret [LInt 0; LStr ""] else
  if negb (String.eqb status "rotated") then ret [LInt (-1); LStr ""] else
  let* grace_until := exec (HGET old_key "grace_until") in
  let* bind_fp := exec (HGET old_key "bind_fp") in
  let bind_fp := default "" bind_fp in
  let now_ts := number_or_0 now_arg in
  let* grace_until := some_or (tonumber (default "0" grace_until))
                        (Driver "attempt to compare nil with number") in
  if (now_ts <=? grace_until) && (String.eqb bind_fp "" || String.eqb bind_fp fingerprint) then
    let* cached := exec (GET grace_key) in
    match filled cached with
    | Some json => ret [LInt 1; LStr json]
    | None => ret [LInt (-1); LStr ""]
    end
  else
    let* family_ttl := exec (TTL old_key) in
    let family_ttl := if family_ttl <=? 0 then 60 else family_ttl in
    do* exec (SET family_key "1" (Some family_ttl)) in
    do* exec (HSET old_key [("status", "compromised")]) in
    ret [LInt (-1); LStr ""].

(** revoke_token.lua *)
Definition revoke_token (token_key marker_key introspection_key : string) (ttl_arg : string)
    : IO R (list lua_value) :=
  let revoke_ttl := number_or_0 ttl_arg in
  let* token_found :=
    (if String.eqb token_key "" then ret 0 else
     let* found := exec (EXISTS token_key) in
     if negb found then ret 0
     else do* exec (HSET token_key [("revoked", "1")]) in ret 1) in
  do* exec (SET marker_key "1" (if 0 <? revoke_ttl then Some revoke_ttl else None)) in
  let* introspection_deleted :=
    (if String.eqb introspection_key "" then ret 0 else
     let* d := exec (DEL introspection_key) in ret (if (d : bool) then 1 else 0)) in
  ret [LInt token_found; LInt introspection_deleted].

Record session_argv := mkSessionArgv {
  s_member : string; s_user_id : string; s_subject : string; s_acr : string; s_amr_json : string;
  s_ip : string; s_user_agent : string; s_authenticated_at : string; s_expires_at : string;
  s_status : string; s_ttl : string; s_state_mask : string; s_state_version : string;
}.

Definition session_fields (argv : session_argv) : list (string * string) :=
  [("user_id", s_user_id argv); ("subject", s_subject argv); ("acr", s_acr argv);
   ("amr_json", s_amr_json argv); ("ip", s_ip argv); ("user_agent", s_user_agent argv);
   ("authenticated_at", s_authenticated_at argv); ("expires_at", s_expires_at argv);
   ("status", s_status argv)].

(** save_session.lua *)
Definition save_session (session_key index_key state_key : string) (argv : session_argv) : IO R Z :=
  let ttl := number_or_0 (s_ttl argv) in
  let state_mask := default 1 (tonumber (s_state_mask argv)) in
  let state_ver := default 1 (tonumber (s_state_version argv)) in
  do* exec (HSET session_key (session_fields argv)) in
  do* exec (BITFIELD_SET state_key [(0%nat, state_mask); (4%nat, state_ver)]) in
  do* (if 0 <? ttl
       then do* exec (EXPIRE session_key ttl) in quietly (exec (EXPIRE state_key ttl))
       else ret tt) in
  do* exec (SADD index_key (s_member argv)) in
  do* (if 0 <? ttl then
         let* set_ttl := exec (TTL index_key) in
         if (set_ttl <? 0) || (set_ttl <? ttl) then quietly (exec (EXPIRE index_key ttl)) else ret tt
       else ret tt) in
  ret 1.

(** delete_session.lua *)
Definition delete_session (session_key index_key state_key : string) (member : string)
    : IO R (list lua_value) :=
  let flag (b : bool) := LInt (if b then 1 else 0) in
  let* deleted_session := exec (DEL session_key) in
  let* removed_index := exec (SREM index_key member) in
  let* deleted_state := exec (DEL state_key) in
  let* members := exec (SCARD index_key) in
  do* (if members =? 0 then quietly (exec (DEL index_key)) else ret tt) in
  ret [flag deleted_session; flag removed_index; flag deleted_state].
End Scripts.

(** ** Scripts act on the live keys alone *)

Ltac simulate :=
  repeat first
    [ apply simulates_ret | apply simulates_fail | apply simulates_exec
    | apply simulates_quietly | apply simulates_bind; [|intros ?]
    | apply simulates_if | apply simulates_option; [intros ?|]
    | progress unfold throw, some_or, guard, require ].

Section Simulation.
Context {R : Type} `{RedisServer R}.

Lemma simulates_token_status key status : simulates (R:=R) (token_status key status) (token_status key status).
Proof. unfold token_status. simulate. Qed.

Lemma simulates_track_token k sha ttl : simulates (R:=R) (track_token k sha ttl) (track_token k sha ttl).
Proof. unfold track_token. simulate. Qed.

Lemma simulates_rotate_token o n g f u c argv :
  simulates (R:=R) (rotate_token o n g f u c argv) (rotate_token o n g f u c argv).
Proof.
  unfold rotate_token. simulate; try apply simulates_token_status; simulate;
    try apply simulates_track_token; simulate.
Qed.

Lemma simulates_check_refresh_replay o g f now fp sha :
  simulates (R:=R) (check_refresh_replay o g f now fp sha) (check_refresh_replay o g f now fp sha).
Proof.
  unfold check_refresh_replay. simulate; try apply simulates_token_status; simulate.
Qed.

Lemma simulates_revoke_token t m i ttl :
  simulates (R:=R) (revoke_token t m i ttl) (revoke_token t m i ttl).
Proof. unfold revoke_token. simulate. Qed.

Lemma simulates_save_session s i st argv :
  simulates (R:=R) (save_session s i st argv) (save_session s i st argv).
Proof. unfold save_session. simulate. Qed.

Lemma simulates_delete_session s i st m :
  simulates (R:=R) (delete_session s i st m) (delete_session s i st m).
Proof. unfold delete_session. simulate. Qed.
End Simulation.

#[export] Hint Resolve simulates_rotate_token simulates_check_refresh_replay simulates_revoke_token
  simulates_save_session simulates_delete_session : simulates.
