(* ===== verification/TokenCache.v ===== *)
(** * The token cache (token_cache_repository.go)

    The Redis side of refresh-token rotation: metadata of access and refresh
    tokens, revocation markers, the rotation script and the replay check.  The
    repository implements the cache port of the token service. *)

From stdpp Require Import base tactics list gmap strings numbers relations.
From Stdlib Require Import ZArith Lia Ascii.
From S2P Require Import Prelude GoStrings GoJson GoJsonObject GoTime Errors Ports Remote Redis RedisKeys LuaScripts.

Import KeyBuilder.

Section Repository.
Context {W R : Type} `{Runtime W} `{HC : RedisClient W R}.
Context (key : KeyBuilder).

Definition map_get (h : gmap string string) (f : string) : string := default "" (h !! f).

(** *** Access tokens *)

Definition access_fields (entry : AccessTokenCacheEntry) : list (string * string) :=
  [("client_id", ace_ClientID entry); ("user_id", ace_UserID entry); ("subject", ace_Subject entry);
   ("scopes_json", ace_ScopesJSON entry); ("aud_json", ace_AudienceJSON entry);
   ("token_type", ace_TokenType entry); ("token_format", ace_TokenFormat entry);
   ("issued_at", formatTime (ace_IssuedAt entry)); ("expires_at", formatTime (ace_ExpiresAt entry));
   ("revoked", "0")].

(** [HSET] and [EXPIRE] in one transaction; the client sends a lifetime in
    whole seconds, a positive one below a second as 1. *)
Definition save_hash (k : string) (fields : list (string * string)) (ttl : duration) : IO R unit :=
  tx_pipeline [exec (HSET k fields); quietly (exec (EXPIRE k (durationSeconds ttl)))].

Definition SaveAccessToken (entry : AccessTokenCacheEntry) (ttl : duration) : IO W unit :=
  call (save_hash (AccessToken key (ace_TokenSHA256 entry)) (access_fields entry) ttl).

Definition GetAccessToken (tokenSHA256 : string) : IO W (option AccessTokenCacheEntry) :=
  let* result := call (exec (HGETALL (AccessToken key tokenSHA256))) in
  if decide (result = ∅) then ret None else
  ret (Some {| ace_TokenSHA256 := tokenSHA256;
               ace_ClientID := map_get result "client_id";
               ace_UserID := map_get result "user_id";
               ace_Subject := map_get result "subject";
               ace_ScopesJSON := map_get result "scopes_json";
               ace_AudienceJSON := map_get result "aud_json";
               ace_TokenType := map_get result "token_type";
               ace_TokenFormat := map_get result "token_format";
               ace_IssuedAt := parseTime (map_get result "issued_at");
               ace_ExpiresAt := parseTime (map_get result "expires_at") |}).

(** *** Refresh tokens *)

Definition refresh_fields (entry : RefreshTokenCacheEntry) : list (string * string) :=
  let familyID := if String.eqb (rce_FamilyID entry) "" then rce_TokenSHA256 entry else rce_FamilyID entry in
  [("client_id", rce_ClientID entry); ("user_id", rce_UserID entry); ("subject", rce_Subject entry);
   ("scopes_json", rce_ScopesJSON entry); ("issued_at", formatTime (rce_IssuedAt entry));
   ("expires_at", formatTime (rce_ExpiresAt entry)); ("status", "active"); ("revoked", "0");
   ("family_id", familyID); ("rotated_to", "")].

Definition SaveRefreshToken (entry : RefreshTokenCacheEntry) (ttl : duration) : IO W unit :=
  call (save_hash (RefreshToken key (rce_TokenSHA256 entry)) (refresh_fields entry) ttl).

Definition GetRefreshToken (tokenSHA256 : string) : IO W (option RefreshTokenCacheEntry) :=
  let* result := call (exec (HGETALL (RefreshToken key tokenSHA256))) in
  if decide (result = ∅) then ret None else
  ret (Some {| rce_TokenSHA256 := tokenSHA256;
               rce_ClientID := map_get result "client_id";
               rce_UserID := map_get result "user_id";
               rce_Subject := map_get result "subject";
               rce_ScopesJSON := map_get result "scopes_json";
               rce_FamilyID := "";
               rce_IssuedAt := parseTime (map_get result "issued_at");
               rce_ExpiresAt := parseTime (map_get result "expires_at") |}).

(** *** Revocation *)

Definition revoke_access_script (tokenSHA256 : string) (ttl : duration) : IO R (list lua_value) :=
  revoke_token (AccessToken key tokenSHA256) (RevokedAccessToken key tokenSHA256) ""
    (FormatInt (durationSeconds ttl)).

Definition revoke_refresh_script (tokenSHA256 : string) (ttl : duration) : IO R (list lua_value) :=
  revoke_token (RefreshToken key tokenSHA256) (RevokedRefreshToken key tokenSHA256) ""
    (FormatInt (durationSeconds ttl)).

Definition RevokeAccessToken (tokenSHA256 : string) (ttl : duration) : IO W unit :=
  do* call (revoke_access_script tokenSHA256 ttl) in ret tt.

Definition RevokeRefreshToken (tokenSHA256 : string) (ttl : duration) : IO W unit :=
  do* call (revoke_refresh_script tokenSHA256 ttl) in ret tt.

Definition IsAccessTokenRevoked (tokenSHA256 : string) : IO W bool :=
  call (exec (EXISTS (RevokedAccessToken key tokenSHA256))).

Definition IsRefreshTokenRevoked (tokenSHA256 : string) : IO W bool :=
  call (exec (EXISTS (RevokedRefreshToken key tokenSHA256))).

(** *** The replay check *)

Definition response_struct (r : TokenResponseCacheEntry) : list (string * field) :=
  [("AccessToken", FString (tre_AccessToken r)); ("TokenType", FString (tre_TokenType r));
   ("ExpiresIn", FInt (tre_ExpiresIn r)); ("RefreshToken", FString (tre_RefreshToken r));
   ("Scope", FString (tre_Scope r)); ("IDToken", FString (tre_IDToken r))].

Definition response_of_struct (l : list (string * field)) : option TokenResponseCacheEntry :=
  match l with
  | [(_, FString a); (_, FString t); (_, FInt e); (_, FString r); (_, FString s); (_, FString i)] =>
      Some (mkTokenResponseCacheEntry a t e r s i)
  | _ => None
  end.

Definition marshal_response (r : TokenResponseCacheEntry) : string := render_struct (response_struct r).

Definition unmarshal_response (payload : string) : option TokenResponseCacheEntry :=
  match unmarshal_struct payload (response_struct (mkTokenResponseCacheEntry "" "" 0 "" "" "")) with
  | Some l => response_of_struct l
  | None => None
  end.

Definition replay_script (tokenSHA256 replayFingerprint : string) (now : time) : IO R (list lua_value) :=
  check_refresh_replay (RefreshToken key tokenSHA256) (RefreshTokenGrace key tokenSHA256)
    (RefreshTokenFamilyRevoked key "") (FormatInt (Unix now)) replayFingerprint tokenSHA256.

Definition replay_result (code : Z) (payload : string) : IO W (option RefreshTokenReplayResult) :=
  if code =? 0 then ret (Some (mkRefreshTokenReplayResult RefreshTokenReplayNone None))
  else if code =? 1 then
    let* response := some_or (unmarshal_response payload) (Driver "json.Unmarshal") in
    ret (Some (mkRefreshTokenReplayResult RefreshTokenReplayGrace (Some response)))
  else if code =? -1 then ret (Some (mkRefreshTokenReplayResult RefreshTokenReplayRejected None))
  else throw (Driver "unexpected refresh replay script code").

Definition CheckRefreshTokenReplay (tokenSHA256 replayFingerprint : string)
    : IO W (option RefreshTokenReplayResult) :=
  let* n := now in
  let* values := call (replay_script tokenSHA256 replayFingerprint n) in
  match values with
  | code :: payload :: _ =>
      let* code := luaInt64 code in
      let* payload := luaString payload in
      replay_result code payload
  | _ => throw (Driver "unexpected refresh replay script result")
  end.

(** *** Rotation *)

Definition rotate_args (oldTokenSHA256 : string) (newEntry : RefreshTokenCacheEntry)
    (response : TokenResponseCacheEntry) (replayFingerprint : string) (newTTL graceTTL : duration)
    (now : time) : rotate_argv :=
  {| a_old_sha := oldTokenSHA256;
     a_new_sha := rce_TokenSHA256 newEntry;
     a_client_id := rce_ClientID newEntry;
     a_user_id := rce_UserID newEntry;
     a_subject := rce_Subject newEntry;
     a_scopes_json := rce_ScopesJSON newEntry;
     a_issued_at := formatTime (rce_IssuedAt newEntry);
     a_expires_at := formatTime (rce_ExpiresAt newEntry);
     a_new_ttl := FormatInt (durationSeconds newTTL);
     a_grace_ttl := FormatInt (durationSeconds graceTTL);
     a_now := FormatInt (Unix now);
     a_fingerprint := replayFingerprint;
     a_response := marshal_response response |}.

Definition rotate_script (oldTokenSHA256 newTokenSHA256 : string) (argv : rotate_argv) : IO R Z :=
  rotate_token (RefreshToken key oldTokenSHA256) (RefreshToken key newTokenSHA256)
    (RefreshTokenGrace key oldTokenSHA256) (RefreshTokenFamilyRevoked key "") "" "" argv.

Definition RotateRefreshToken (oldTokenSHA256 : string) (newEntry : RefreshTokenCacheEntry)
    (response : TokenResponseCacheEntry) (replayFingerprint : string) (newTTL graceTTL : duration)
    : IO W unit :=
  let* n := now in
  let* result := call (rotate_script oldTokenSHA256 (rce_TokenSHA256 newEntry)
    (rotate_args oldTokenSHA256 newEntry response replayFingerprint newTTL graceTTL n)) in
  if result =? 1 then ret tt
  else if result =? -1 then throw (Driver "refresh token not found in cache")
  else if result =? -2 then throw (Driver "refresh token already rotated in cache")
  else if result =? -3 then throw (Driver "refresh token family revoked in cache")
  else throw (Driver "unexpected refresh token rotate result").

(** The repository as the port of the token service. *)
Definition NewTokenCacheRepository : TokenCacheRepository W := {|
  Ports.SaveAccessToken := SaveAccessToken;
  Ports.GetAccessToken := GetAccessToken;
  Ports.SaveRefreshToken := SaveRefreshToken;
  Ports.GetRefreshToken := GetRefreshToken;
  Ports.CheckRefreshTokenReplay := CheckRefreshTokenReplay;
  Ports.Cache_RotateRefreshToken := RotateRefreshToken;
  Ports.RevokeAccessToken := RevokeAccessToken;
  Ports.RevokeRefreshToken := RevokeRefreshToken;
  Ports.IsAccessTokenRevoked := IsAccessTokenRevoked;
  Ports.IsRefreshTokenRevoked := IsRefreshTokenRevoked;
|}.
End Repository.
