(* ===== verification/TokenCacheTheorems.v ===== *)
(** * Refresh-token rotation in the cache: theorems

    First the scripts on the live keys (what a rotation does, what the replay
    check decides), then runs of operations by any number of servers, cut
    into atomic steps: a refresh token is rotated at most once, a detected
    replay locks the whole family, a revocation marker outlives everything
    but its own lifetime. *)

From stdpp Require Import base tactics list gmap strings numbers relations.
From Stdlib Require Import ZArith Lia Ascii.
From S2P Require Import Prelude GoStrings GoJson GoJsonObject GoTime Errors Ports Remote Redis RedisKeys LuaScripts TokenCache.

Import KeyBuilder.

(** ** The state of a refresh token *)

Definition hash_status (h : gmap string string) : string :=
  match filled (h !! "status") with
  | Some s => s
  | None =>
      if bool_decide (h !! "revoked" = Some "1") then "revoked"
      else if bool_decide (is_Some (filled (h !! "rotated_to"))) then "rotated" else "active"
  end.

Definition hash_family (sha : string) (h : gmap string string) : string :=
  default sha (filled (h !! "family_id")).

Lemma token_status_Ok k (ks : keyspace) h s ks' status :
  hash_at ks k = Some h -> status = h !! "status" ->
  token_status k status ks = (Ok s, ks') <-> s = hash_status h /\ ks' = ks.
Proof.
  intros Hh ->. unfold token_status, hash_status. destruct (filled (h !! "status")) as [x|].
  { rewrite ret_Ok. naive_solver. }
  cbn [exec keyspace_server]. split.
  - intros Hr. apply bind_Ok in Hr as (a & k1 & Ha & Hr). apply HGET_Ok in Ha as (h1 & Hh1 & -> & ->).
    apply bind_Ok in Hr as (b & k2 & Hb & Hr). apply HGET_Ok in Hb as (h2 & Hh2 & -> & ->).
    apply ret_Ok in Hr as [<- <-]. rewrite Hh in Hh1, Hh2. simplify_eq. done.
  - intros [-> ->].
    rewrite (bind_run _ _ _ (h !! "revoked") ks) by (apply HGET_Ok; eauto).
    rewrite (bind_run _ _ _ (h !! "rotated_to") ks) by (apply HGET_Ok; eauto). done.
Qed.

(** ** One rotation *)

Definition family_prefix_key (key : KeyBuilder) (f : string) : string := RefreshTokenFamilyRevoked key f.

Lemma family_key key f : RefreshTokenFamilyRevoked key "" +:+ f = RefreshTokenFamilyRevoked key f.
Proof. unfold RefreshTokenFamilyRevoked. by rewrite <- !string_app_assoc. Qed.

(** The token [sha] can be rotated: known, active, in a family not revoked. *)
Definition rotatable (key : KeyBuilder) (ks : keyspace) (sha : string) (h : gmap string string)
    (ttl : option Z) : Prop :=
  ks !! RefreshToken key sha = Some (mkEntry (RHash h) ttl) /\
  hash_status h = "active" /\
  ks !! RefreshTokenFamilyRevoked key (hash_family sha h) = None.

Definition expiry (secs : Z) (otherwise : option Z) : option Z :=
  if 0 <? secs then Some (secs * 1000) else otherwise.

(** What a successful rotation leaves. *)
Definition rotated (key : KeyBuilder) (old new : string) (argv : rotate_argv) (ks : keyspace)
    (h : gmap string string) (ttl : option Z) (ks' : keyspace) : Prop :=
  let f := hash_family old h in
  ks' !! RefreshToken key old = Some (mkEntry (RHash (hset h (rotated_fields argv f))) ttl) /\
  (exists hn, hash_at ks (RefreshToken key new) = Some hn /\
    ks' !! RefreshToken key new =
      Some (mkEntry (RHash (hset hn (fresh_fields argv f)))
              (expiry (number_or_0 (a_new_ttl argv)) (ks !! RefreshToken key new ≫= e_ttl)))) /\
  ks' !! RefreshTokenGrace key old =
    Some (mkEntry (RString (a_response argv)) (expiry (number_or_0 (a_grace_ttl argv)) None)) /\
  (forall c, key_ok c = true -> c <> KRefreshToken old -> c <> KRefreshToken new ->
    c <> KRefreshTokenGrace old -> ks' !! build key c = ks !! build key c).

Lemma key_ne key c c' : key_ok c = true -> key_ok c' = true -> c <> c' -> build key c <> build key c'.
Proof. apply build_ne. Qed.

(** The four writes of the script, once its guards are passed. *)
Lemma rotation_writes key old new argv ks h ttl ks' f :
  old <> new -> a_old_sha argv = old -> f = hash_family old h ->
  ks !! RefreshToken key old = Some (mkEntry (RHash h) ttl) ->
  (do* exec (HSET (RefreshToken key old) (rotated_fields argv f)) in
   do* exec (HSET (RefreshToken key new) (fresh_fields argv f)) in
   do* (if 0 <? number_or_0 (a_new_ttl argv)
        then quietly (exec (EXPIRE (RefreshToken key new) (number_or_0 (a_new_ttl argv)))) else ret tt) in
   exec (SET (RefreshTokenGrace key old) (a_response argv)
     (if 0 <? number_or_0 (a_grace_ttl argv) then Some (number_or_0 (a_grace_ttl argv)) else None))) ks
  = (Ok tt, ks') ->
  rotated key old new argv ks h ttl ks'.
Proof.
  intros Hne Hold Hf Hk Hr. cbn [exec keyspace_server] in Hr.
  assert (Hon : RefreshToken key old <> RefreshToken key new).
  { apply (key_ne key (KRefreshToken old) (KRefreshToken new)); [done|done|congruence]. }
  assert (Hog : RefreshToken key old <> RefreshTokenGrace key old)
    by (apply (key_ne key (KRefreshToken old) (KRefreshTokenGrace old)); done).
  assert (Hng : RefreshToken key new <> RefreshTokenGrace key old)
    by (apply (key_ne key (KRefreshToken new) (KRefreshTokenGrace old)); done).
  run Hr as u1 k1 H1. apply HSET_Ok in H1 as (h1 & Hh1 & ->).
  rewrite (hash_at_Some _ _ _ _ Hk) in Hh1. injection Hh1 as <-.
  run Hr as u2 k2 H2. apply HSET_Ok in H2 as (hn & Hhn & ->).
  assert (Hhn' : hash_at ks (RefreshToken key new) = Some hn).
  { revert Hhn. unfold hash_at, keeps_ttl. by rewrite lookup_insert_ne. }
  run Hr as u3 k3 H3. apply SET_Ok in Hr as [-> _].
  set (fin := if 0 <? number_or_0 (a_new_ttl argv) then _ else _) in H3.
  assert (Hk3 : k3 !! RefreshToken key new =
      Some (mkEntry (RHash (hset hn (fresh_fields argv f)))
        (expiry (number_or_0 (a_new_ttl argv)) (ks !! RefreshToken key new ≫= e_ttl))) /\
      forall k, k <> RefreshToken key new ->
        k3 !! k = keeps_ttl ks (RefreshToken key old) (RHash (hset h (rotated_fields argv f))) !! k).
  { subst fin. unfold expiry. destruct (Z.ltb_spec 0 (number_or_0 (a_new_ttl argv))).
    - unfold quietly in H3. run H3 as b k4 H4. apply ret_Ok in H3 as [_ <-].
      apply EXPIRE_Ok in H4 as ->; [|done]. split.
      + rewrite lookup_alter_eq. unfold keeps_ttl at 1. by rewrite lookup_insert_eq.
      + intros k Hkn. rewrite lookup_alter_ne by done. unfold keeps_ttl at 1. by rewrite lookup_insert_ne.
    - apply ret_Ok in H3 as [_ <-]. split.
      + unfold keeps_ttl at 1. rewrite lookup_insert_eq. unfold keeps_ttl. by rewrite lookup_insert_ne.
      + intros k Hkn. unfold keeps_ttl at 1. by rewrite lookup_insert_ne. }
  destruct Hk3 as [Hnew Hrest]. unfold rotated. rewrite <- Hf. repeat split.
  - rewrite lookup_insert_ne, Hrest by done. unfold keeps_ttl. by rewrite lookup_insert_eq, Hk.
  - exists hn. split; [done|]. by rewrite lookup_insert_ne.
  - rewrite lookup_insert_eq. unfold expiry. by destruct (0 <? number_or_0 (a_grace_ttl argv)).
  - intros c Hc Hc1 Hc2 Hc3.
    assert (N1 : build key c <> RefreshToken key old) by by apply (key_ne key c (KRefreshToken old)).
    assert (N2 : build key c <> RefreshToken key new) by by apply (key_ne key c (KRefreshToken new)).
    assert (N3 : build key c <> RefreshTokenGrace key old) by by apply (key_ne key c (KRefreshTokenGrace old)).
    rewrite lookup_insert_ne, Hrest by done. unfold keeps_ttl. by rewrite lookup_insert_ne.
Qed.

(** The outcomes of the rotation script; a refusal writes nothing. *)
Definition rotation_outcome (key : KeyBuilder) (old new : string) (argv : rotate_argv)
    (ks : keyspace) (z : Z) (ks' : keyspace) : Prop :=
  (z = 1 /\ exists h ttl, rotatable key ks old h ttl /\ rotated key old new argv ks h ttl ks') \/
  (z = -1 /\ ks !! RefreshToken key old = None /\ ks' = ks) \/
  (exists h ttl, ks !! RefreshToken key old = Some (mkEntry (RHash h) ttl) /\
    ((z = -2 /\ hash_status h <> "active") \/
     (z = -3 /\ is_Some (ks !! RefreshTokenFamilyRevoked key (hash_family old h)))) /\ ks' = ks).

Lemma rotate_script_outcome key old new argv ks z ks' :
  old <> new -> a_old_sha argv = old ->
  rotate_script key old new argv ks = (Ok z, ks') -> rotation_outcome key old new argv ks z ks'.
Proof.
  intros Hne Hold Hr. unfold rotate_script, rotate_token in Hr. cbn [exec keyspace_server] in Hr.
  run Hr as found k1 H1. apply EXISTS_Ok in H1 as [-> ->].
  destruct (ks !! RefreshToken key old) as [e|] eqn:Ek; cycle 1.
  { cbn in Hr. apply ret_Ok in Hr as [<- <-]. right; left. done. }
  rewrite bool_decide_eq_true_2 in Hr by eauto. cbn [negb] in Hr.
  run Hr as st k2 H2. apply HGET_Ok in H2 as (h & Hh & -> & ->).
  destruct (hash_at_inv _ _ _ Hh) as [ttl Hk]; [by rewrite Ek|]. rewrite Ek in Hk. injection Hk as ->.
  run Hr as s k3 H3. apply (token_status_Ok _ _ h) in H3 as [-> ->]; [|done|done].
  destruct (String.eqb_spec (hash_status h) "active") as [Ha|Ha]; cbn [negb] in Hr; cycle 1.
  { apply ret_Ok in Hr as [<- <-]. right; right. exists h, ttl. eauto 10. }
  run Hr as fam k4 H4. apply HGET_Ok in H4 as (h1 & Hh1 & -> & ->).
  rewrite Hh in Hh1. injection Hh1 as <-. rewrite Hold, family_key in Hr.
  run Hr as rv k5 H5. apply EXISTS_Ok in H5 as [-> ->]. fold (hash_family old h) in Hr.
  destruct (ks !! RefreshTokenFamilyRevoked key (hash_family old h)) as [m|] eqn:Ef.
  { rewrite bool_decide_eq_true_2 in Hr by eauto. apply ret_Ok in Hr as [<- <-].
    right; right. exists h, ttl. rewrite Ef. eauto 10. }
  rewrite bool_decide_eq_false_2 in Hr by (by intros [? ?]).
  left. run Hr as u1 k6 W1. run Hr as u2 k7 W2. run Hr as u3 k8 W3. run Hr as u4 k9 W4.
  run Hr as u5 k10 W5. apply ret_Ok in W5 as [_ <-]. run Hr as u6 k11 W6. apply ret_Ok in W6 as [_ <-].
  apply ret_Ok in Hr as [<- <-]. split; [done|]. exists h, ttl. split; [done|].
  destruct u1, u2, u3, u4. eapply rotation_writes; try done.
  cbn [exec keyspace_server]. by rewrite (bind_run _ _ _ _ _ W1), (bind_run _ _ _ _ _ W2), (bind_run _ _ _ _ _ W3).
Qed.

(** ** One replay check *)

Definition grace_bound (h : gmap string string) : option Z := tonumber (default "0" (h !! "grace_until")).
Definition bound_fp (h : gmap string string) : string := default "" (h !! "bind_fp").

(** The retry of the same request: in time and from the same client. *)
Definition in_grace (h : gmap string string) (gu now : Z) (fp : string) : Prop :=
  now <= gu /\ (bound_fp h = "" \/ bound_fp h = fp).

#[export] Instance in_grace_dec h gu now fp : Decision (in_grace h gu now fp).
Proof. unfold in_grace. apply _. Defined.

(** What the check decides about the token hash [h] of [sha], and whether it
    locks the family. *)
Inductive replay_decision (key : KeyBuilder) (ks : keyspace) (sha : string) (now : Z) (fp : string) :
    list lua_value -> keyspace -> Prop :=
| replay_absent :
    ks !! RefreshToken key sha = None -> replay_decision key ks sha now fp [LInt 0; LStr ""] ks
| replay_family h ttl :
    ks !! RefreshToken key sha = Some (mkEntry (RHash h) ttl) ->
    is_Some (ks !! RefreshTokenFamilyRevoked key (hash_family sha h)) ->
    replay_decision key ks sha now fp [LInt (-1); LStr ""] ks
| replay_active h ttl :
    ks !! RefreshToken key sha = Some (mkEntry (RHash h) ttl) ->
    ks !! RefreshTokenFamilyRevoked key (hash_family sha h) = None -> hash_status h = "active" ->
    replay_decision key ks sha now fp [LInt 0; LStr ""] ks
| replay_dead h ttl :
    ks !! RefreshToken key sha = Some (mkEntry (RHash h) ttl) ->
    ks !! RefreshTokenFamilyRevoked key (hash_family sha h) = None ->
    hash_status h <> "active" -> hash_status h <> "rotated" ->
    replay_decision key ks sha now fp [LInt (-1); LStr ""] ks
| replay_grace h ttl gu cached :
    ks !! RefreshToken key sha = Some (mkEntry (RHash h) ttl) ->
    ks !! RefreshTokenFamilyRevoked key (hash_family sha h) = None -> hash_status h = "rotated" ->
    grace_bound h = Some gu -> in_grace h gu now fp ->
    string_at ks (RefreshTokenGrace key sha) = Some cached ->
    replay_decision key ks sha now fp
      (match filled cached with Some json => [LInt 1; LStr json] | None => [LInt (-1); LStr ""] end) ks
| replay_detected h ttl gu ks' :
    ks !! RefreshToken key sha = Some (mkEntry (RHash h) ttl) ->
    ks !! RefreshTokenFamilyRevoked key (hash_family sha h) = None -> hash_status h = "rotated" ->
    grace_bound h = Some gu -> ~ in_grace h gu now fp ->
    (let life := ttl_reply ks (RefreshToken key sha) in
     ks' = keeps_ttl (<[RefreshTokenFamilyRevoked key (hash_family sha h) :=
                        mkEntry (RString "1") (Some ((if life <=? 0 then 60 else life) * 1000))]> ks)
             (RefreshToken key sha) (RHash (hset h [("status", "compromised")]))) ->
    replay_decision key ks sha now fp [LInt (-1); LStr ""] ks'.

Lemma replay_script_decision key sha fp t ks v ks' :
  replay_script key sha fp t ks = (Ok v, ks') ->
  replay_decision key ks sha (number_or_0 (FormatInt (Unix t))) fp v ks'.
Proof.
  intros Hr. unfold replay_script, check_refresh_replay in Hr. cbn [exec keyspace_server] in Hr.
  run Hr as found k1 H1. apply EXISTS_Ok in H1 as [-> ->].
  destruct (ks !! RefreshToken key sha) as [e|] eqn:Ek; cycle 1.
  { cbn in Hr. apply ret_Ok in Hr as [<- <-]. by apply replay_absent. }
  rewrite bool_decide_eq_true_2 in Hr by eauto. cbn [negb] in Hr.
  run Hr as st k2 H2. apply HGET_Ok in H2 as (h & Hh & -> & ->).
  destruct (hash_at_inv _ _ _ Hh) as [ttl Hk]; [by rewrite Ek|]. rewrite Ek in Hk. injection Hk as ->.
  run Hr as fam k4 H4. apply HGET_Ok in H4 as (h1 & Hh1 & -> & ->).
  rewrite Hh in Hh1. injection Hh1 as <-. rewrite family_key in Hr.
  run Hr as rv k5 H5. apply EXISTS_Ok in H5 as [-> ->]. fold (hash_family sha h) in Hr.
  destruct (ks !! RefreshTokenFamilyRevoked key (hash_family sha h)) as [m|] eqn:Ef.
  { rewrite bool_decide_eq_true_2 in Hr by eauto. apply ret_Ok in Hr as [<- <-].
    eapply replay_family; [done|]. by rewrite Ef. }
  rewrite bool_decide_eq_false_2 in Hr by (by intros [? ?]).
  run Hr as s k3 H3. apply (token_status_Ok _ _ h) in H3 as [-> ->]; [|done|done].
  destruct (String.eqb_spec (hash_status h) "active") as [Ha|Ha].
  { apply ret_Ok in Hr as [<- <-]. by eapply replay_active. }
  destruct (String.eqb_spec (hash_status h) "rotated") as [Hro|Hro]; cbn [negb] in Hr; cycle 1.
  { apply ret_Ok in Hr as [<- <-]. by eapply replay_dead. }
  run Hr as gu k6 H6. apply HGET_Ok in H6 as (h2 & Hh2 & -> & ->). rewrite Hh in Hh2. injection Hh2 as <-.
  run Hr as bf k7 H7. apply HGET_Ok in H7 as (h3 & Hh3 & -> & ->). rewrite Hh in Hh3. injection Hh3 as <-.
  fold (grace_bound h) (bound_fp h) in Hr. run_some Hr as gu Hgu.
  destruct ((_ <=? gu) && _) eqn:Eg.
  - run Hr as cached k8 H8. apply GET_Ok in H8 as [Hc ->].
    assert (Hin : in_grace h gu (number_or_0 (FormatInt (Unix t))) fp).
    { apply andb_true_iff in Eg as [E1 E2]. apply Z.leb_le in E1.
      apply orb_true_iff in E2 as [E2|E2]; apply String.eqb_eq in E2; split; auto. }
    pose proof (replay_grace key ks sha _ fp h ttl gu cached Ek Ef Hro Hgu Hin Hc) as Hd.
    destruct (filled cached); apply ret_Ok in Hr as [<- <-]; exact Hd.
  - run Hr as life k8 H8. apply TTL_Ok in H8 as [-> ->].
    run Hr as u1 k9 H9. apply SET_Ok in H9 as [-> _].
    run Hr as u2 k10 H10. apply HSET_Ok in H10 as (h4 & Hh4 & ->). apply ret_Ok in Hr as [<- <-].
    assert (Hne : RefreshTokenFamilyRevoked key (hash_family sha h) <> RefreshToken key sha)
      by by apply (key_ne key (KRefreshTokenFamilyRevoked _) (KRefreshToken _)).
    unfold hash_at in Hh4. rewrite lookup_insert_ne, Ek in Hh4 by done. injection Hh4 as <-.
    eapply replay_detected; try done.
    intros [E1 E2]. rewrite (proj2 (Z.leb_le _ _) E1) in Eg. cbn [andb] in Eg.
    apply orb_false_iff in Eg as [E3 E4]. apply String.eqb_neq in E3, E4. naive_solver.
Qed.

(** ** Atomic steps

    What one server does to the cache between two instants, as the rest of
    the system sees it: one operation of the repository on the live keys, the
    passing of time, or anything that leaves the token entries alone. *)

Definition token_entry (c : cache_key) : bool :=
  match c with
  | KAccessToken _ | KRefreshToken _ | KRevokedAccessToken _ | KRevokedRefreshToken _
  | KRefreshTokenGrace _ | KRefreshTokenFamilyRevoked _ => true
  | _ => false
  end.

Inductive cache_op :=
| Elapse (d : Z)
| OpSaveAccess (entry : AccessTokenCacheEntry) (ttl : duration)
| OpSaveRefresh (entry : RefreshTokenCacheEntry) (ttl : duration)
| OpRevokeAccess (sha : string) (ttl : duration)
| OpRevokeRefresh (sha : string) (ttl : duration)
| OpReplay (sha fp : string) (t : time)
| OpRotate (old new : string) (argv : rotate_argv)
| Foreign.

Section Steps.
Context {R : Type} `{RedisServer R}.
Context (key : KeyBuilder).

Inductive step : cache_op -> R -> R -> Prop :=
| step_elapse d r r' : 0 <= d -> keys r' = elapse d (keys r) -> step (Elapse d) r r'
| step_save_access entry ttl r a r' :
    save_hash (AccessToken key (ace_TokenSHA256 entry)) (access_fields entry) ttl r = (a, r') ->
    step (OpSaveAccess entry ttl) r r'
| step_save_refresh entry ttl r a r' :
    save_hash (RefreshToken key (rce_TokenSHA256 entry)) (refresh_fields entry) ttl r = (a, r') ->
    step (OpSaveRefresh entry ttl) r r'
| step_revoke_access sha ttl r a r' :
    revoke_access_script key sha ttl r = (a, r') -> step (OpRevokeAccess sha ttl) r r'
| step_revoke_refresh sha ttl r a r' :
    revoke_refresh_script key sha ttl r = (a, r') -> step (OpRevokeRefresh sha ttl) r r'
| step_replay sha fp t r a r' :
    replay_script key sha fp t r = (a, r') -> step (OpReplay sha fp t) r r'
| step_rotate old new argv r a r' :
    a_old_sha argv = old -> rotate_script key old new argv r = (a, r') -> step (OpRotate old new argv) r r'
| step_foreign r r' :
    (forall c, token_entry c = true -> keys r' !! build key c = keys r !! build key c) ->
    step Foreign r r'.

(** A run: the operations in the order the cache executed them. *)
Inductive runs : list cache_op -> R -> R -> Prop :=
| runs_nil r : runs [] r r
| runs_cons op ops r r1 r2 : step op r r1 -> runs ops r1 r2 -> runs (op :: ops) r r2.

Definition elapsed1 (op : cache_op) : Z := match op with Elapse d => d | _ => 0 end.
Definition elapsed (ops : list cache_op) : Z := foldr (fun op z => elapsed1 op + z) 0 ops.

(** Steps whose operations satisfy [P], in any number. *)
Definition allowed (P : cache_op -> Prop) : relation R := fun r r' => exists op, P op /\ step op r r'.

Lemma runs_allowed P ops r r' : runs ops r r' -> Forall P ops -> rtc (allowed P) r r'.
Proof.
  induction 1 as [|op ops r r1 r2 Hs Hr IH]; intros HP; [done|].
  apply Forall_cons in HP as [Hop HP]. econstructor; [by exists op | by apply IH].
Qed.
End Steps.

(** The programs of the steps act on the live keys alone. *)
Section OpSimulation.
Context {R : Type} `{RedisServer R}.

Lemma simulates_save_hash k fields ttl :
  simulates (R:=R) (save_hash k fields ttl) (save_hash k fields ttl).
Proof.
  apply simulates_tx. repeat constructor; [apply simulates_exec|].
  apply simulates_quietly, simulates_exec.
Qed.

Lemma step_on_keys key op r r' : step key op r r' -> step key op (keys r) (keys r').
Proof.
  destruct 1.
  - by econstructor.
  - eapply step_save_access, simulates_save_hash; eauto.
  - eapply step_save_refresh, simulates_save_hash; eauto.
  - eapply step_revoke_access, simulates_revoke_token; eauto.
  - eapply step_revoke_refresh, simulates_revoke_token; eauto.
  - eapply step_replay, simulates_check_refresh_replay; eauto.
  - eapply step_rotate, simulates_rotate_token; eauto.
  - by econstructor.
Qed.

Lemma runs_on_keys key ops r r' : runs key ops r r' -> runs key ops (keys r) (keys r').
Proof. induction 1; econstructor; eauto using step_on_keys. Qed.

Lemma allowed_on_keys key P r r' : allowed key P r r' -> allowed key P (keys r) (keys r').
Proof. intros (op & Hop & Hs). exists op. split; [done|]. by apply step_on_keys. Qed.
End OpSimulation.

(** ** A spent token stays spent *)

Definition spent_entry (e : option entry) : Prop :=
  match e with Some (mkEntry (RHash h) _) => hash_status h <> "active" | _ => True end.

Definition spent (key : KeyBuilder) (sha : string) (ks : keyspace) : Prop :=
  spent_entry (ks !! RefreshToken key sha).

(** The operation does not write the record of [sha] as a new token. *)
Definition not_reissue (sha : string) (op : cache_op) : Prop :=
  match op with
  | OpSaveRefresh entry _ => rce_TokenSHA256 entry <> sha
  | OpRotate _ new _ => new <> sha
  | _ => True
  end.

(** Writes that keep a token hash spent, and do not create an active one. *)
Definition keeps_spent (fvs : list (string * string)) : Prop :=
  forall h, h = ∅ \/ hash_status h <> "active" -> hash_status (hset h fvs) <> "active".

Lemma keeps_spent_revoked : keeps_spent [("revoked", "1")].
Proof.
  intros h. unfold hash_status, hset. simpl. rewrite !lookup_insert_ne by done.
  destruct (filled (h !! "status")) as [s|] eqn:E.
  - intros [->|Hs]; [|done]. discriminate E.
  - intros _. rewrite lookup_insert_eq, bool_decide_eq_true_2 by done. done.
Qed.

Lemma keeps_spent_compromised : keeps_spent [("status", "compromised")].
Proof. intros h _. unfold hash_status, hset. simpl. by rewrite lookup_insert_eq. Qed.

Lemma keeps_spent_rotated argv f : keeps_spent (rotated_fields argv f).
Proof.
  intros h _. unfold hash_status.
  assert (hset h (rotated_fields argv f) !! "status" = Some "rotated") as ->; [|done].
  unfold hset, rotated_fields. simpl. rewrite !lookup_insert_ne by done. by rewrite lookup_insert_eq.
Qed.

Lemma preserves_spent_HSET key sha k fvs :
  keeps_spent fvs -> preserves (spent key sha) (documented (HSET k fvs)).
Proof.
  intros Hf ks a ks' Hr Hs. destruct (decide (k = RefreshToken key sha)) as [->|Hne].
  - simpl in Hr. unfold on_type in Hr. destruct (hash_at ks _) as [h|] eqn:Eh; simplify_eq; [|done].
    unfold spent, keeps_ttl. rewrite lookup_insert_eq. simpl. apply Hf. unfold spent, hash_at in *.
    destruct (ks !! RefreshToken key sha) as [[[s|h0|s] ttl]|]; simplify_eq; auto.
  - unfold spent. rewrite (documented_frame _ _ _ _ _ Hr); [done|]. simpl. congruence.
Qed.

Lemma preserves_spent_other {A} key sha (c : command A) :
  writes c <> Some (RefreshToken key sha) -> preserves (spent key sha) (documented c).
Proof. intros Hc. exact (preserves_documented c spent_entry _ Hc). Qed.

(** Reads, and writes to entries of other kinds or of other tokens. *)
Lemma preserves_spent_read {A} key sha (c : command A) :
  writes c = None -> preserves (spent key sha) (documented c).
Proof. intros Hc. apply preserves_spent_other. by rewrite Hc. Qed.

Lemma preserves_spent_write {A} key sha (c : command A) e :
  writes c = Some (build key e) -> key_ok e = true -> e <> KRefreshToken sha ->
  preserves (spent key sha) (documented c).
Proof.
  intros Hc He Hne. apply preserves_spent_other. rewrite Hc.
  intros [= E]. by apply (key_ne key e (KRefreshToken sha)) in Hne.
Qed.

Lemma preserves_quietly {A} (P : keyspace -> Prop) (m : IO keyspace A) :
  preserves P m -> preserves P (quietly m).
Proof. intros. apply preserves_bind; [done|]. intros. apply preserves_ret. Qed.

Lemma preserves_tx (P : keyspace -> Prop) cmds :
  Forall (preserves P) cmds -> preserves P (tx_pipeline cmds).
Proof.
  induction 1 as [|c cmds Hc _ IH]; intros ks a ks'; simpl; [by intros [= <- <-]|].
  destruct (c ks) as [b k1] eqn:E1. destruct (tx_pipeline cmds k1) as [b2 k2] eqn:E2.
  intros [= <- <-] HP. eauto.
Qed.

Ltac spent_step0 :=
  first
    [ apply preserves_ret | apply preserves_fail | apply preserves_some_or
    | apply preserves_quietly | apply preserves_spent_read; reflexivity
    | apply preserves_bind; [|intros ?]
    | match goal with |- preserves _ (if ?b then _ else _) => destruct b end
    | match goal with |- preserves _ (match ?o with Some _ => _ | None => _ end) => destruct o end ].

Lemma preserves_token_status (P : keyspace -> Prop) k s :
  (forall f, preserves P (documented (HGET k f))) -> preserves P (token_status k s).
Proof. intros Hk. unfold token_status. cbn [exec keyspace_server]. repeat (spent_step0 || apply Hk). Qed.

Ltac spent_step :=
  spent_step0 || (apply preserves_token_status; intros ?; spent_step0).

Lemma spent_revoke key sha t m ttl :
  (exists e, m = build key e /\ key_ok e = true /\ e <> KRefreshToken sha) ->
  preserves (spent key sha) (revoke_token t m "" ttl).
Proof.
  intros (e & -> & He & Hne). unfold revoke_token. cbn [exec keyspace_server String.eqb].
  repeat spent_step; try (by apply preserves_spent_HSET, keeps_spent_revoked).
  all: by eapply preserves_spent_write.
Qed.

Lemma spent_replay key sha t fp n : preserves (spent key sha) (replay_script key t fp n).
Proof.
  unfold replay_script, check_refresh_replay. cbn [exec keyspace_server].
  repeat spent_step.
  all: try by apply preserves_spent_HSET, keeps_spent_compromised.
  all: rewrite family_key; by eapply (preserves_spent_write _ _ _ (KRefreshTokenFamilyRevoked _)).
Qed.

Lemma spent_rotate key sha old new argv :
  new <> sha -> preserves (spent key sha) (rotate_script key old new argv).
Proof.
  intros Hne. unfold rotate_script, rotate_token, track_token. cbn [exec keyspace_server String.eqb].
  repeat spent_step.
  all: try by apply preserves_spent_HSET, keeps_spent_rotated.
  all: try (eapply (preserves_spent_write _ _ _ (KRefreshToken new)); [done|done|congruence]).
  all: by eapply (preserves_spent_write _ _ _ (KRefreshTokenGrace old)).
Qed.

Lemma spent_save_hash key sha e fields ttl :
  key_ok e = true -> e <> KRefreshToken sha -> preserves (spent key sha) (save_hash (build key e) fields ttl).
Proof.
  intros He Hne. apply preserves_tx. repeat constructor; [|apply preserves_quietly];
    by eapply preserves_spent_write.
Qed.

Lemma spent_elapse key sha d ks : spent key sha ks -> spent key sha (elapse d ks).
Proof.
  unfold spent. rewrite lookup_elapse. destruct (ks !! RefreshToken key sha) as [[v [ttl|]]|]; try done.
  unfold age. simpl. by destruct (ttl <=? d).
Qed.

Lemma spent_step key sha op ks ks' :
  not_reissue sha op -> step key op ks ks' -> spent key sha ks -> spent key sha ks'.
Proof.
  intros Hop Hs Hsp. destruct Hs as [d ks ks' Hd He|? ? ? ? ? Hr|? ? ? ? ? Hr|? ? ? ? ? Hr|? ? ? ? ? Hr
    |? ? ? ? ? ? Hr|? ? ? ? ? ? ? Hr|ks ks' Hr].
  - simpl in He. subst. by apply spent_elapse.
  - by eapply (spent_save_hash key sha (KAccessToken _)).
  - eapply (spent_save_hash key sha (KRefreshToken _)); [done| |exact Hr|done]. simpl in Hop. congruence.
  - eapply spent_revoke; [|exact Hr|done]. by eexists (KRevokedAccessToken _).
  - eapply spent_revoke; [|exact Hr|done]. by eexists (KRevokedRefreshToken _).
  - by eapply spent_replay.
  - by eapply spent_rotate.
  - unfold spent. specialize (Hr (KRefreshToken sha) eq_refl). simpl in Hr. by rewrite Hr.
Qed.

Lemma spent_forever key sha (ks ks' : keyspace) :
  rtc (allowed key (not_reissue sha)) ks ks' -> spent key sha ks -> spent key sha ks'.
Proof. induction 1 as [|ks k1 ks' (op & Hop & Hs) _ IH]; [done|]. eauto using spent_step. Qed.

Lemma rotated_spent key old new argv ks h ttl ks' :
  rotated key old new argv ks h ttl ks' -> spent key old ks'.
Proof.
  intros (Hold & _). unfold spent. rewrite Hold. simpl.
  destruct (decide (hash_status h = "active")) as [E|E]; [|by apply keeps_spent_rotated; right].
  unfold hash_status at 1. unfold hset, rotated_fields. simpl. rewrite !lookup_insert_ne by done.
  by rewrite lookup_insert_eq.
Qed.

(** ** The repository's operations *)

Section Client.
Context {W R : Type} `{Runtime W} `{HC : RedisClient W R}.
Context (key : KeyBuilder).

(** While a request travels, and while the clock is read, the rest of the
    system acts on the cache by operations that satisfy [P]. *)
Definition others_do (P : cache_op -> Prop) : Prop :=
  (forall w, rtc (allowed key P) (server w) (server (transport w).2)) /\
  (forall w, rtc (allowed key P) (server w) (server (time_Now w).2)).

Lemma RotateRefreshToken_Ok old newEntry response fp newTTL graceTTL w w' :
  RotateRefreshToken key old newEntry response fp newTTL graceTTL w = (Ok tt, w') ->
  exists t w0 w1 r, time_Now w = (t, w0) /\
    call (rotate_script key old (rce_TokenSHA256 newEntry)
            (rotate_args old newEntry response fp newTTL graceTTL t)) w0 = (Ok 1, w') /\
    rotate_script key old (rce_TokenSHA256 newEntry)
      (rotate_args old newEntry response fp newTTL graceTTL t) (server w1) = (Ok 1, r) /\
    server w' = r.
Proof.
  intros Hr. unfold RotateRefreshToken in Hr. run Hr as t w0 Ht. run Hr as z w2 Hz.
  destruct (Z.eqb_spec z 1) as [->|]; [|repeat case_match; by apply throw_Ok in Hr].
  apply ret_Ok in Hr as [_ <-]. destruct (call_Ok _ _ _ _ Hz) as (w1 & r & Hs & Hw).
  exists t, w0, w1, r. split; [|done]. unfold now in Ht. destruct (time_Now w). by injection Ht as -> ->.
Qed.

Lemma rotate_program_steps P old new argv r :
  P (OpRotate old new argv) -> a_old_sha argv = old ->
  rtc (allowed key P) r (rotate_script key old new argv r).2.
Proof.
  intros HP Hold. apply rtc_once. exists (OpRotate old new argv). split; [done|].
  destruct (rotate_script key old new argv r) as [b r'] eqn:E. by eapply step_rotate.
Qed.

Lemma spent_rtc sha (r r' : R) :
  rtc (allowed key (not_reissue sha)) r r' -> spent key sha (keys r) -> spent key sha (keys r').
Proof.
  intros Hr Hs. eapply spent_forever; [|exact Hs].
  eapply (rtc_congruence keys); [|exact Hr]. intros x y. apply allowed_on_keys.
Qed.

Lemma spent_not_rotatable sha ks h ttl : spent key sha ks -> ~ rotatable key ks sha h ttl.
Proof. intros Hs (Hk & Ha & _). unfold spent in Hs. rewrite Hk in Hs. simpl in Hs. congruence. Qed.
End Client.

(** C1. A refresh token is rotated at most once.  Once [RotateRefreshToken]
    succeeded on a token, no later call on it succeeds, from any server and
    whatever the cache does in between (operations on tokens, in any order
    and number, lost replies and retries, expiry, other users of the cache),
    as long as nobody issues the same token hash anew. *)
Theorem refresh_rotation_single_use {W R} `{Runtime W} `{HC : RedisClient W R} (key : KeyBuilder)
    old e1 resp1 fp1 n1 g1 w w1 w2 e2 resp2 fp2 n2 g2 w3 :
  others_do key (not_reissue old) ->
  RotateRefreshToken key old e1 resp1 fp1 n1 g1 w = (Ok tt, w1) ->
  rce_TokenSHA256 e1 <> old -> rce_TokenSHA256 e2 <> old ->
  rtc (allowed key (not_reissue old)) (server w1) (server w2) ->
  RotateRefreshToken key old e2 resp2 fp2 n2 g2 w2 <> (Ok tt, w3).
Proof.
  intros Hoth H1 Hne1 Hne2 Hrtc H2.
  apply RotateRefreshToken_Ok in H1 as (t1 & wa & wb & r1 & _ & _ & Hs1 & <-).
  apply simulates_rotate_token, rotate_script_outcome in Hs1; [|congruence|done].
  destruct Hs1 as [[_ (h & ttl & _ & Hrot)]|[(? & _)|(? & ? & _ & [[??]|[??]] & _)]]; try discriminate.
  assert (Hsp : spent key old (keys (server w2))) by (eapply spent_rtc; [done|by eapply rotated_spent]).
  apply RotateRefreshToken_Ok in H2 as (t & wc & _ & _ & Ht & Hc & _).
  assert (Hwc : spent key old (keys (server wc))).
  { eapply spent_rtc; [|exact Hsp]. pose proof (proj2 Hoth w2) as Hn. by rewrite Ht in Hn. }
  apply (call_Ok_steps (allowed key (not_reissue old))) in Hc as (wd & r & Hsteps & Hs & _);
    [|apply Hoth|intros ?; by apply rotate_program_steps].
  apply simulates_rotate_token, rotate_script_outcome in Hs; [|congruence|done].
  destruct Hs as [[_ (h' & ttl' & Hrot' & _)]|[(? & _)|(? & ? & _ & [[??]|[??]] & _)]]; try discriminate.
  eapply spent_not_rotatable; [|exact Hrot']. by eapply spent_rtc.
Qed.

(** ** The retry of a rotation *)

Lemma lookup_rotated_status h argv f : hash_status (hset h (rotated_fields argv f)) = "rotated".
Proof.
  unfold hash_status, hset, rotated_fields. simpl. rewrite !lookup_insert_ne by done.
  by rewrite lookup_insert_eq.
Qed.

Lemma lookup_rotated_family sha h argv :
  hash_family sha (hset h (rotated_fields argv (hash_family sha h))) = hash_family sha h.
Proof.
  unfold hash_family at 1, hset, rotated_fields. simpl. rewrite lookup_insert_eq.
  unfold filled, hash_family. destruct (String.eqb_spec (default sha (filled (h !! "family_id"))) "") as [E|E];
    [|done]. rewrite E. revert E. unfold filled. destruct (h !! "family_id") as [s|]; [|by intros <-].
  destruct (String.eqb_spec s ""); simpl; [by intros <-|by intros ->].
Qed.

Lemma lookup_rotated_fp h argv f : bound_fp (hset h (rotated_fields argv f)) = a_fingerprint argv.
Proof.
  unfold bound_fp, hset, rotated_fields. simpl. rewrite !lookup_insert_ne by done.
  by rewrite lookup_insert_eq.
Qed.

Lemma lookup_rotated_grace h argv f now grace :
  a_now argv = FormatInt now -> a_grace_ttl argv = FormatInt grace -> plain now -> plain grace ->
  grace_bound (hset h (rotated_fields argv f)) = Some (now + grace).
Proof.
  intros Hn Hg Hpn Hpg. unfold grace_bound, hset, rotated_fields. simpl.
  rewrite Hn, Hg, !number_or_0_FormatInt by by apply plain_exact.
  rewrite !lookup_insert_ne by done. rewrite lookup_insert_eq. simpl.
  assert (exact_int (now + grace)) by (unfold plain, exact_int in *; lia).
  rewrite to_double_exact by done.
  rewrite tostring_small by (unfold plain in *; lia). by apply tonumber_FormatInt.
Qed.

(** The grace branch of the check, computed. *)
Lemma replay_script_grace key sha fp t ks h ttl gu json :
  ks !! RefreshToken key sha = Some (mkEntry (RHash h) ttl) ->
  ks !! RefreshTokenFamilyRevoked key (hash_family sha h) = None ->
  hash_status h = "rotated" -> grace_bound h = Some gu ->
  in_grace h gu (number_or_0 (FormatInt (Unix t))) fp ->
  string_at ks (RefreshTokenGrace key sha) = Some (Some json) -> json <> "" ->
  replay_script key sha fp t ks = (Ok [LInt 1; LStr json], ks).
Proof.
  intros Hk Hf Hs Hg [Hin1 Hin2] Hc Hj. unfold replay_script, check_refresh_replay.
  cbn [exec keyspace_server]. pose proof (hash_at_Some _ _ _ _ Hk) as Hh.
  assert (HG : forall f, documented (HGET (RefreshToken key sha) f) ks = (Ok (h !! f), ks))
    by (intros f; apply HGET_Ok; eauto).
  rewrite (bind_run _ _ _ true ks) by (apply EXISTS_Ok; rewrite Hk; done). cbn [negb].
  rewrite !(bind_run _ _ _ _ ks (HG _)). rewrite family_key. fold (hash_family sha h).
  rewrite (bind_run _ _ _ false ks) by (apply EXISTS_Ok; rewrite Hf; done).
  rewrite (bind_run _ _ _ (hash_status h) ks) by (by apply (token_status_Ok _ _ h)).
  rewrite Hs. cbn [String.eqb Ascii.eqb Bool.eqb negb].
  rewrite !(bind_run _ _ _ _ ks (HG _)). fold (grace_bound h) (bound_fp h). rewrite Hg.
  rewrite (bind_run _ _ _ gu ks) by done. rewrite (proj2 (Z.leb_le _ _) Hin1).
  assert (String.eqb (bound_fp h) "" || String.eqb (bound_fp h) fp = true) as ->.
  { apply orb_true_iff. destruct Hin2 as [-> | ->]; [by left | right; apply String.eqb_refl]. }
  cbn [andb]. rewrite (bind_run _ _ _ (Some json) ks) by (by apply GET_Ok).
  unfold filled. by destruct (String.eqb_spec json "").
Qed.

Lemma unmarshal_marshal_response r :
  forallb member_ok (response_struct r) = true -> unmarshal_response (marshal_response r) = Some r.
Proof.
  intros Hok. unfold unmarshal_response, marshal_response.
  rewrite unmarshal_render_struct; [by destruct r | done | | done | done |].
  - simpl. repeat (constructor; [set_solver|]). constructor.
  - repeat constructor.
Qed.

Section Grace.
Context {W R : Type} `{Runtime W} `{HC : RedisClient W R}.
Context (key : KeyBuilder).

(** The next request: the clock says [t], and the request reaches the server
    [d] milliseconds after the state [w] with nothing else in between. *)
Definition next_request (w : W) (t : time) (d : Z) : Prop :=
  exists w0 w1, time_Now w = (t, w0) /\ transport w0 = (Delivered, w1) /\ 0 <= d /\
    keys (server w1) = elapse d (keys (server w)).

Lemma call_delivered {A} (m : IO R A) w w1 :
  transport w = (Delivered, w1) -> call m w = ((m (server w1)).1, put_server (m (server w1)).2 w1).
Proof.
  intros Ht. unfold call. destruct (max_retries w); simpl; rewrite Ht; by destruct (m (server w1)).
Qed.

Lemma CheckRefreshTokenReplay_run sha fp w t d f v :
  next_request w t d ->
  (forall ks, keys (server w) = ks -> replay_script key sha fp t (elapse d ks) = (Ok v, f ks)) ->
  exists w', keys (server w') = f (keys (server w)) /\
    CheckRefreshTokenReplay key sha fp w =
      (match v with
       | code :: payload :: _ => (let* c := luaInt64 code in let* p := luaString payload in replay_result c p) w'
       | _ => (throw (Driver "unexpected refresh replay script result")) w'
       end).
Proof.
  intros (w0 & w1 & Ht & Htr & _ & Hk) Hv. specialize (Hv _ eq_refl).
  pose proof (simulates_check_refresh_replay (RefreshToken key sha) (RefreshTokenGrace key sha)
    (RefreshTokenFamilyRevoked key "") (FormatInt (Unix t)) fp sha (server w1)) as Hsim.
  destruct (replay_script key sha fp t (server w1)) as [a r] eqn:Er.
  specialize (Hsim _ _ Er). rewrite Hk in Hsim. unfold replay_script in Hv. rewrite Hv in Hsim.
  injection Hsim as <- Hr. exists (put_server r w1). split; [by rewrite server_put|].
  unfold CheckRefreshTokenReplay.
  rewrite (bind_run _ _ _ t w0) by (unfold now; by rewrite Ht).
  rewrite (bind_run _ _ _ v (put_server r w1)) by (rewrite (call_delivered _ _ _ Htr), Er; done).
  destruct v as [|code [|payload ?]]; done.
Qed.
End Grace.

Lemma string_at_elapse ks k s ms d :
  ks !! k = Some (mkEntry (RString s) (Some ms)) -> d < ms ->
  string_at (elapse d ks) k = Some (Some s).
Proof.
  intros Hk Hd. unfold string_at. rewrite lookup_elapse, Hk. simpl. unfold age. simpl.
  by destruct (Z.leb_spec ms d); [lia|].
Qed.

Definition outlives (d : Z) (ttl : option Z) : Prop := forall ms, ttl = Some ms -> d < ms.

Lemma lookup_elapse_alive ks k v ttl d :
  ks !! k = Some (mkEntry v ttl) -> outlives d ttl ->
  exists ttl', elapse d ks !! k = Some (mkEntry v ttl').
Proof.
  intros Hk Ho. rewrite lookup_elapse, Hk. simpl. unfold age. simpl. destruct ttl as [ms|]; [|eauto].
  specialize (Ho ms eq_refl). destruct (Z.leb_spec ms d); [lia|eauto].
Qed.

(** C5. The retry of a rotation gets the same tokens.  When the client that
    rotated a refresh token repeats the request within the grace period
    (same fingerprint, same or later server), the replay check answers with
    the very response of the first rotation, read back from the cache, and
    changes nothing: no second pair of tokens is issued. *)
Theorem grace_retry_same_response {W R} `{Runtime W} `{HC : RedisClient W R} (key : KeyBuilder)
    old e resp fp newTTL graceTTL w w1 t2 d :
  let t1 := (time_Now w).1 in
  RotateRefreshToken key old e resp fp newTTL graceTTL w = (Ok tt, w1) ->
  rce_TokenSHA256 e <> old -> forallb member_ok (response_struct resp) = true ->
  plain (Unix t1) -> 0 < graceTTL -> plain (durationSeconds graceTTL) -> exact_int (Unix t2) ->
  next_request w1 t2 d -> Unix t2 <= Unix t1 + durationSeconds graceTTL ->
  d < durationSeconds graceTTL * 1000 ->
  outlives d (keys (server w1) !! RefreshToken key old ≫= e_ttl) ->
  exists w2, keys (server w2) = elapse d (keys (server w1)) /\
    CheckRefreshTokenReplay key old fp w1 =
      (Ok (Some (mkRefreshTokenReplayResult RefreshTokenReplayGrace (Some resp))), w2).
Proof.
  intros t1 H1 Hne Hresp Hp1 Hg Hpg Hx2 Hnext Hle Hd Hlive.
  apply RotateRefreshToken_Ok in H1 as (t & wa & wb & r1 & Ht & _ & Hs1 & <-).
  assert (t = t1) as -> by (unfold t1; by rewrite Ht).
  apply simulates_rotate_token, rotate_script_outcome in Hs1; [|congruence|done].
  destruct Hs1 as [[_ (h & ttl & Hrot & Hold & _ & Hgrace & Hframe)]|[(? & _)|(? & ? & _ & [[??]|[??]] & _)]];
    try discriminate.
  set (argv := rotate_args _ _ _ _ _ _ _) in *. set (f := hash_family old h) in *.
  rewrite Hold in Hlive. simpl in Hlive.
  set (ks1 := keys (server w1)) in *.
  assert (Hfam : ks1 !! RefreshTokenFamilyRevoked key f = None).
  { rewrite <- (proj2 (proj2 Hrot)). exact (Hframe (KRefreshTokenFamilyRevoked f) eq_refl ltac:(done) ltac:(done) ltac:(done)). }
  destruct (lookup_elapse_alive _ _ _ _ _ Hold Hlive) as [ttl' Hk].
  simpl a_grace_ttl in Hgrace. rewrite number_or_0_FormatInt in Hgrace by by apply plain_exact.
  unfold expiry in Hgrace. rewrite (proj2 (Z.ltb_lt _ _) (durationSeconds_pos _ Hg)) in Hgrace.
  destruct (CheckRefreshTokenReplay_run key old fp w1 t2 d (elapse d) [LInt 1; LStr (marshal_response resp)] Hnext)
    as (w2 & Hw2 & Hrun).
  { intros ks <-. fold ks1. eapply replay_script_grace; [exact Hk| | | | | |].
    - rewrite lookup_rotated_family. fold f. by rewrite lookup_elapse, Hfam.
    - apply lookup_rotated_status.
    - by apply lookup_rotated_grace.
    - split; [by rewrite number_or_0_FormatInt | right; apply lookup_rotated_fp].
    - by eapply string_at_elapse.
    - done. }
  exists w2. split; [done|]. rewrite Hrun. cbn [luaInt64 luaString].
  unfold replay_result. simpl.
  rewrite (bind_run _ _ _ 1 w2) by done. rewrite (bind_run _ _ _ (marshal_response resp) w2) by done.
  cbn [Z.eqb Pos.eqb]. rewrite unmarshal_marshal_response by done. done.
Qed.

(** ** Markers live out their time *)

(** The entries an operation can write. *)
Definition touches (op : cache_op) (c : cache_key) : Prop :=
  match op with
  | Elapse _ => True
  | OpSaveAccess entry _ => c = KAccessToken (ace_TokenSHA256 entry)
  | OpSaveRefresh entry _ => c = KRefreshToken (rce_TokenSHA256 entry)
  | OpRevokeAccess sha _ => c = KAccessToken sha \/ c = KRevokedAccessToken sha
  | OpRevokeRefresh sha _ => c = KRefreshToken sha \/ c = KRevokedRefreshToken sha
  | OpReplay sha _ _ => c = KRefreshToken sha \/ exists f, c = KRefreshTokenFamilyRevoked f
  | OpRotate old new _ => c = KRefreshToken old \/ c = KRefreshToken new \/ c = KRefreshTokenGrace old
  | Foreign => token_entry c = false
  end.

Lemma frame_read {A} key c x (m : command A) :
  writes m = None -> preserves (fun ks => ks !! build key c = x) (documented m).
Proof. intros Hm. apply (preserves_documented m (fun e => e = x)). by rewrite Hm. Qed.

Lemma frame_write {A} key c x (m : command A) e :
  writes m = Some (build key e) -> key_ok e = true -> key_ok c = true -> e <> c ->
  preserves (fun ks => ks !! build key c = x) (documented m).
Proof.
  intros Hm He Hc Hne. apply (preserves_documented m (fun e => e = x)). rewrite Hm.
  intros [= E]. by apply (build_ne key e c) in Hne.
Qed.

Ltac frame_step0 :=
  first
    [ apply preserves_ret | apply preserves_fail | apply preserves_some_or
    | apply preserves_quietly | apply frame_read; reflexivity
    | apply preserves_bind; [|intros ?]
    | match goal with |- preserves _ (if ?b then _ else _) => destruct b end
    | match goal with |- preserves _ (match ?o with Some _ => _ | None => _ end) => destruct o end ].
Ltac frame_step := frame_step0 || (apply preserves_token_status; intros ?; frame_step0).
Ltac frame_by e :=
  eapply (frame_write _ _ _ _ e); [reflexivity|reflexivity|done|first [congruence | intros <-; eauto 6]].

Lemma step_frame key op (ks ks' : keyspace) c :
  step key op ks ks' -> token_entry c = true -> ~ touches op c -> ks' !! build key c = ks !! build key c.
Proof.
  intros Hs Hc Ht. assert (Hok : key_ok c = true) by by destruct c.
  assert (Hgo : forall A (m : IO keyspace A) a, m ks = (a, ks') ->
    preserves (fun k => k !! build key c = ks !! build key c) m -> ks' !! build key c = ks !! build key c).
  { intros A m a Hm Hp. by eapply Hp. }
  destruct Hs as [? ? ? ? ?|entry ? ? ? ? Hr|entry ? ? ? ? Hr|sha ? ? ? ? Hr|sha ? ? ? ? Hr
    |sha ? ? ? ? ? Hr|old new ? ? ? ? ? Hr|? ? Hr]; simpl in Ht.
  - done.
  - eapply Hgo; [exact Hr|]. apply preserves_tx. repeat constructor; [|apply preserves_quietly];
      frame_by (KAccessToken (ace_TokenSHA256 entry)).
  - eapply Hgo; [exact Hr|]. apply preserves_tx. repeat constructor; [|apply preserves_quietly];
      frame_by (KRefreshToken (rce_TokenSHA256 entry)).
  - eapply Hgo; [exact Hr|]. unfold revoke_access_script, revoke_token.
    cbn [exec keyspace_server String.eqb]. repeat frame_step; try frame_by (KAccessToken sha).
    all: frame_by (KRevokedAccessToken sha).
  - eapply Hgo; [exact Hr|]. unfold revoke_refresh_script, revoke_token.
    cbn [exec keyspace_server String.eqb]. repeat frame_step; try frame_by (KRefreshToken sha).
    all: frame_by (KRevokedRefreshToken sha).
  - eapply Hgo; [exact Hr|]. unfold replay_script, check_refresh_replay.
    cbn [exec keyspace_server]. repeat frame_step.
    all: try frame_by (KRefreshToken sha).
    all: rewrite family_key;
      match goal with |- context [RefreshTokenFamilyRevoked _ ?f] =>
        frame_by (KRefreshTokenFamilyRevoked f) end.
  - eapply Hgo; [exact Hr|]. unfold rotate_script, rotate_token, track_token.
    cbn [exec keyspace_server String.eqb]. repeat frame_step.
    all: try frame_by (KRefreshToken old).
    all: try frame_by (KRefreshToken new).
    all: frame_by (KRefreshTokenGrace old).
  - by apply Hr.
Qed.

Lemma bind_read_inv {A B} (c : command A) (k : A -> IO keyspace B) ks b ks' :
  writes c = None -> bind (documented c) k ks = (b, ks') ->
  ks' = ks \/ exists a, documented c ks = (Ok a, ks) /\ k a ks = (b, ks').
Proof.
  intros Hc. unfold bind. destruct (documented c ks) as [[a|e] k1] eqn:E.
  - assert (k1 = ks) as -> by (destruct c; simplify_eq/=; unfold on_type in *; repeat case_match; simplify_eq; done).
    right. eauto.
  - assert (k1 = ks) as -> by (destruct c; simplify_eq/=; unfold on_type in *; repeat case_match; simplify_eq; done).
    intros [= _ <-]. by left.
Qed.

(** A family marker that is there is not written again. *)
Lemma family_marker_kept key f sha fp t ks a ks' e :
  ks !! RefreshTokenFamilyRevoked key f = Some e -> replay_script key sha fp t ks = (a, ks') ->
  ks' !! RefreshTokenFamilyRevoked key f = Some e.
Proof.
  intros He Hr. unfold replay_script, check_refresh_replay in Hr. cbn [exec keyspace_server] in Hr.
  apply bind_read_inv in Hr as [->|(found & _ & Hr)]; [done| |done].
  destruct found; cbn [negb] in Hr; [|by injection Hr as _ <-].
  apply bind_read_inv in Hr as [->|(st & _ & Hr)]; [done| |done].
  apply bind_read_inv in Hr as [->|(fam & _ & Hr)]; [done| |done].
  rewrite family_key in Hr. set (g := default sha (filled fam)) in Hr.
  apply bind_read_inv in Hr as [->|(rv & Hrv & Hr)]; [done| |done].
  destruct (decide (g = f)) as [->|Hgf].
  { apply EXISTS_Ok in Hrv as [-> _]. rewrite He, bool_decide_eq_true_2 in Hr by eauto.
    by injection Hr as _ <-. }
  match type of Hr with ?m ks = _ =>
    assert (Hp : preserves (fun k => k !! build key (KRefreshTokenFamilyRevoked f) = Some e) m)
  end; [|exact (Hp _ _ _ Hr He)].
  clear Hr He Hrv. destruct rv; [apply preserves_ret|].
  repeat frame_step.
  all: try frame_by (KRefreshToken sha).
  all: frame_by (KRefreshTokenFamilyRevoked g).
Qed.

(** The entry is there and has more than [ms] milliseconds left. *)
Definition alive (e : option entry) (ms : Z) : Prop :=
  exists v ttl, e = Some (mkEntry v ttl) /\ forall left, ttl = Some left -> ms < left.

Lemma alive_elapse d ks k ms : 0 <= ms -> alive (ks !! k) (d + ms) -> alive (elapse d ks !! k) ms.
Proof.
  intros Hms (v & ttl & Hk & Hl). unfold alive. rewrite lookup_elapse, Hk. simpl. unfold age. simpl.
  destruct ttl as [n|]; [|by exists v, None]. specialize (Hl n eq_refl).
  destruct (Z.leb_spec n d); [lia|]. exists v, (Some (n - d)). split; [done|]. intros ? [= <-]. lia.
Qed.

Lemma elapsed_nonneg key ops (ks ks' : keyspace) : runs key ops ks ks' -> 0 <= elapsed ops.
Proof.
  induction 1 as [|op ops ks k1 ks' Hs _ IH]; [done|]. cbn [elapsed foldr] in *. fold (elapsed ops).
  destruct Hs; simpl; lia.
Qed.

(** A marker survives a run shorter than its life, if no operation of the
    run replaces it while it is there. *)
Lemma marker_lives key c ops (ks ks' : keyspace) ms :
  token_entry c = true ->
  (forall op k k' e, op ∈ ops -> elapsed1 op = 0 -> (forall d, op <> Elapse d) -> step key op k k' ->
    k !! build key c = Some e -> k' !! build key c = Some e) ->
  runs key ops ks ks' -> 0 <= ms -> alive (ks !! build key c) (elapsed ops + ms) ->
  alive (ks' !! build key c) ms.
Proof.
  intros Hc Hkeep Hr Hms. induction Hr as [ks|op ops ks k1 ks' Hs Hr IH]; intros Hal; [done|].
  pose proof (elapsed_nonneg _ _ _ _ Hr) as Hpos.
  apply IH; [intros; eapply Hkeep; eauto; by right|].
  cbn [elapsed foldr] in Hal. fold (elapsed ops) in Hal.
  assert (Hcase : (exists d, op = Elapse d) \/ (elapsed1 op = 0 /\ forall d, op <> Elapse d)).
  { destruct op; try (right; split; [done|congruence]). left. eauto. }
  destruct Hcase as [[d ->]|[H0 Hne]].
  - simpl in Hal. assert (k1 = elapse d ks) as -> by (inversion Hs; done).
    apply alive_elapse; [lia|]. by replace (d + (elapsed ops + ms)) with (d + elapsed ops + ms) by lia.
  - rewrite H0 in Hal. destruct Hal as (v & ttl & Hk & Hl).
    exists v, ttl. split; [eapply (Hkeep op ks k1); eauto; by left|]. intros left Hleft. specialize (Hl _ Hleft). lia.
Qed.

(** ** A detected replay locks the family *)

(** How long the family is locked: what is left of the replayed token, in
    whole seconds, a minute if that is nothing. *)
Definition lock_seconds (ks : keyspace) (key : KeyBuilder) (sha : string) : Z :=
  let life := ttl_reply ks (RefreshToken key sha) in if life <=? 0 then 60 else life.

Lemma lock_seconds_pos ks key sha : 0 < lock_seconds ks key sha.
Proof. unfold lock_seconds. destruct (Z.leb_spec (ttl_reply ks (RefreshToken key sha)) 0); lia. Qed.

(** The script on a rotated token outside its grace, inverted. *)
Lemma replay_script_detected key sha fp t ks h ttl gu v ks' :
  ks !! RefreshToken key sha = Some (mkEntry (RHash h) ttl) ->
  ks !! RefreshTokenFamilyRevoked key (hash_family sha h) = None ->
  hash_status h = "rotated" -> grace_bound h = Some gu ->
  ~ in_grace h gu (number_or_0 (FormatInt (Unix t))) fp ->
  replay_script key sha fp t ks = (Ok v, ks') ->
  v = [LInt (-1); LStr ""] /\
  ks' !! RefreshTokenFamilyRevoked key (hash_family sha h) =
    Some (mkEntry (RString "1") (Some (lock_seconds ks key sha * 1000))).
Proof.
  intros Hk Hf Hs Hg Hin Hr. apply replay_script_decision in Hr.
  destruct Hr as [|? ? ? [? ?]|? ? ? ? ?|? ? ? ? ? ?|? ? ? ? ? ? ? ? ? ?|h1 ttl1 gu1 ks1 Hk1 Hf1 Hs1 Hg1 Hin1 Heq]; simplify_eq/=;
    try congruence.
  split; [done|]. unfold keeps_ttl. rewrite lookup_insert_ne, lookup_insert_eq; [done|].
  by apply (key_ne key (KRefreshToken _) (KRefreshTokenFamilyRevoked _)).
Qed.

(** While the family marker is there no token of the family is of use. *)
Lemma locked_family_refuses key sha h ttl (ks : keyspace) :
  ks !! RefreshToken key sha = Some (mkEntry (RHash h) ttl) ->
  is_Some (ks !! RefreshTokenFamilyRevoked key (hash_family sha h)) ->
  (forall new argv z ks', new <> sha -> a_old_sha argv = sha ->
    rotate_script key sha new argv ks = (Ok z, ks') -> z <> 1) /\
  (forall fp t v ks', replay_script key sha fp t ks = (Ok v, ks') -> v = [LInt (-1); LStr ""]).
Proof.
  intros Hk [m Hm]. split.
  - intros new argv z ks' Hne Hold Hr ->. apply rotate_script_outcome in Hr; [|congruence|done].
    destruct Hr as [[_ (h1 & ttl1 & (Hk1 & _ & Hf1) & _)]|[(? & _)|(? & ? & _ & [[??]|[??]] & _)]]; try discriminate.
    rewrite Hk in Hk1. injection Hk1 as <- <-. congruence.
  - intros fp t v ks' Hr. apply replay_script_decision in Hr.
    destruct Hr; simplify_eq/=; try congruence.
Qed.

(** C6. A replay of a rotated refresh token locks its family.  When the
    check meets a token that was rotated and the request is not the retry of
    that rotation (too late, or another client), it rejects it and marks the
    family; from then on, for as long as the replayed token would have lived,
    whatever operations run in between, no token of the family can be rotated
    and every replay check on one is rejected. *)
Theorem detected_replay_locks_family {R} `{RedisServer R} (key : KeyBuilder)
    sha fp t (r r1 r2 : R) h ttl gu v ops :
  keys r !! RefreshToken key sha = Some (mkEntry (RHash h) ttl) ->
  keys r !! RefreshTokenFamilyRevoked key (hash_family sha h) = None ->
  hash_status h = "rotated" -> grace_bound h = Some gu ->
  exact_int (Unix t) -> ~ in_grace h gu (Unix t) fp ->
  replay_script key sha fp t r = (Ok v, r1) ->
  runs key ops r1 r2 -> elapsed ops < lock_seconds (keys r) key sha * 1000 ->
  v = [LInt (-1); LStr ""] /\
  forall sha' h' ttl', keys r2 !! RefreshToken key sha' = Some (mkEntry (RHash h') ttl') ->
    hash_family sha' h' = hash_family sha h ->
    (forall new argv z r3, new <> sha' -> a_old_sha argv = sha' ->
      rotate_script key sha' new argv r2 = (Ok z, r3) -> z <> 1) /\
    (forall fp' t' v' r3, replay_script key sha' fp' t' r2 = (Ok v', r3) -> v' = [LInt (-1); LStr ""]).
Proof.
  intros Hk Hf Hs Hg Hx Hin Hr Hruns Hel. apply simulates_check_refresh_replay in Hr.
  eapply (replay_script_detected key sha fp t) in Hr as [-> Hm]; try done;
    [|by rewrite number_or_0_FormatInt]. split; [done|].
  intros sha' h' ttl' Hk' Hfam. apply runs_on_keys in Hruns.
  assert (Hal : alive (keys r2 !! RefreshTokenFamilyRevoked key (hash_family sha h)) 0).
  { eapply (marker_lives key (KRefreshTokenFamilyRevoked _)); [done| |exact Hruns|done|].
    - intros op k k' e _ _ Hne Hst He. simpl in *. destruct op; try by destruct (Hne d).
      5: { inversion Hst; subst. by eapply family_marker_kept. }
      all: rewrite <- He; eapply (step_frame key _ _ _ (KRefreshTokenFamilyRevoked _) Hst); [done|];
        simpl; naive_solver.
    - exists (RString "1"). eexists. split; [exact Hm|]. intros left [= <-]. lia. }
  destruct Hal as (mv & mttl & Hm2 & _). rewrite <- Hfam in Hm2.
  destruct (locked_family_refuses key sha' h' ttl' (keys r2) Hk') as [Hrot Hrep]; [by rewrite Hm2|].
  split.
  - intros new argv z r3 Hne Hold Hrun. eapply Hrot; [exact Hne|exact Hold|]. by apply simulates_rotate_token in Hrun.
  - intros fp' t' v' r3 Hrun. eapply Hrep. by apply simulates_check_refresh_replay in Hrun.
Qed.

(** ** A revocation is remembered for its lifetime *)

Lemma revoke_token_marks (ks : keyspace) t m n v ks' :
  t <> m -> exact_int n -> 0 < n ->
  revoke_token t m "" (FormatInt n) ks = (Ok v, ks') ->
  ks' !! m = Some (mkEntry (RString "1") (Some (n * 1000))).
Proof.
  intros Hne Hx Hn Hr. unfold revoke_token in Hr. cbn [exec keyspace_server String.eqb] in Hr.
  run Hr as found k1 H1. run Hr as u k2 H2. run Hr as d k3 H3. apply ret_Ok in H3 as [_ <-].
  apply ret_Ok in Hr as [_ <-]. apply SET_Ok in H2 as [-> _].
  rewrite number_or_0_FormatInt by done. rewrite (proj2 (Z.ltb_lt _ _) Hn). by rewrite lookup_insert_eq.
Qed.

(** Nothing in the run is a revocation of [sha] with another lifetime. *)
Definition no_other_revocation (sha : string) (op : cache_op) : Prop :=
  (forall ttl, op <> OpRevokeAccess sha ttl) /\ (forall ttl, op <> OpRevokeRefresh sha ttl).

Lemma revocation_lives key c ops (ks ks' : keyspace) sha ms :
  c = KRevokedAccessToken sha \/ c = KRevokedRefreshToken sha ->
  ks !! build key c = Some (mkEntry (RString "1") (Some ms)) ->
  runs key ops ks ks' -> Forall (no_other_revocation sha) ops -> elapsed ops < ms ->
  is_Some (ks' !! build key c).
Proof.
  intros Hc Hk Hr Hops Hel.
  assert (Hal : alive (ks' !! build key c) 0).
  { eapply marker_lives; [by destruct Hc as [-> | ->]| |exact Hr|done|].
    - intros op k k' e Hin _ Hne Hst He. rewrite <- He.
      eapply Forall_forall in Hops as [Hno1 Hno2]; [|exact Hin].
      eapply step_frame; [exact Hst|by destruct Hc as [-> | ->]|].
      destruct Hc as [-> | ->], op; simpl; naive_solver.
    - exists (RString "1"). eexists. split; [exact Hk|]. intros left [= <-]. lia. }
  destruct Hal as (v & ttl & Hv & _). by rewrite Hv.
Qed.

(** A revoked token is reported revoked for the whole lifetime given to
    the revocation: after [RevokeAccessToken] (or [RevokeRefreshToken])
    returned, on any later server state less than that lifetime away, whatever
    ran in between other than a revocation of the same token, the revocation
    check answers true. *)
Theorem revoked_token_stays_revoked {W R} `{Runtime W} `{HC : RedisClient W R} (key : KeyBuilder)
    sha ttl w ops r2 :
  0 < ttl -> exact_int (durationSeconds ttl) ->
  Forall (no_other_revocation sha) ops -> elapsed ops < durationSeconds ttl * 1000 ->
  (forall w1, RevokeAccessToken key sha ttl w = (Ok tt, w1) -> runs key ops (server w1) r2 ->
    exists r3, exec (EXISTS (RevokedAccessToken key sha)) r2 = (Ok true, r3)) /\
  (forall w1, RevokeRefreshToken key sha ttl w = (Ok tt, w1) -> runs key ops (server w1) r2 ->
    exists r3, exec (EXISTS (RevokedRefreshToken key sha)) r2 = (Ok true, r3)).
Proof.
  intros Ht Hx Hops Hel. pose proof (durationSeconds_pos _ Ht) as Hpos.
  assert (Hexists : forall k, is_Some (keys r2 !! k) -> exists r3, exec (EXISTS k) r2 = (Ok true, r3)).
  { intros k Hk. destruct (exec (EXISTS k) r2) as [a r3] eqn:E. exists r3. f_equal.
    apply exec_documented in E. simpl in E. injection E as <- _. by rewrite bool_decide_eq_true_2. }
  split; intros w1 H1 Hr; apply runs_on_keys in Hr; run H1 as v wa Hc; apply ret_Ok in H1 as [_ <-];
    apply call_Ok in Hc as (wb & r1 & Hs & <-); apply simulates_revoke_token in Hs; apply Hexists.
  - eapply (revocation_lives key (KRevokedAccessToken sha)); eauto.
    eapply revoke_token_marks; [|exact Hx|exact Hpos|exact Hs].
    by apply (key_ne key (KAccessToken _) (KRevokedAccessToken _)).
  - eapply (revocation_lives key (KRevokedRefreshToken sha)); eauto.
    eapply revoke_token_marks; [|exact Hx|exact Hpos|exact Hs].
    by apply (key_ne key (KRefreshToken _) (KRevokedRefreshToken _)).
Qed.

(** ** The theorems at work *)

Module CacheDemo.
Import Local.

Definition key : KeyBuilder := NewKeyBuilder "idp" "test".
Definition noon : time := 1700000000 * Second.

Definition old_entry : RefreshTokenCacheEntry :=
  mkRefreshTokenCacheEntry "old" "web" "7" "uuid-7" "[]" "" noon (noon + 86400 * Second).
Definition new_entry : RefreshTokenCacheEntry :=
  mkRefreshTokenCacheEntry "new" "web" "7" "uuid-7" "[]" "" noon (noon + 86400 * Second).
Definition response : TokenResponseCacheEntry :=
  mkTokenResponseCacheEntry "at-1" "Bearer" 3600 "rt-1" "openid" "".

(** The old token is in the cache for a day. *)
Definition start : world := (SaveRefreshToken key old_entry (86400 * Second) (mkWorld ∅ noon)).2.

Definition rotation : IO world unit :=
  RotateRefreshToken key "old" new_entry response "fp" (86400 * Second) (10 * Second).

Definition rotated_world : world := (rotation start).2.

Lemma rotation_Ok : rotation start = (Ok tt, rotated_world).
Proof. vm_compute. reflexivity. Qed.

Lemma quiet_others P : others_do key P.
Proof. split; intros w; simpl; constructor. Qed.

(** The hash left under the old token's key. *)
Definition old_hash : gmap string string :=
  match w_keys rotated_world !! RefreshToken key "old" with
  | Some (mkEntry (RHash h) _) => h
  | _ => ∅
  end.

Definition revocation : IO world unit := RevokeAccessToken key "at" (60 * Second).
Definition revoked_world : world := (revocation start).2.

Lemma revocation_Ok : revocation start = (Ok tt, revoked_world).
Proof. vm_compute. reflexivity. Qed.

(** Twenty seconds later, past the grace period. *)
Definition late : world := mkWorld (elapse 20000 (w_keys rotated_world)) (noon + 20 * Second).
End CacheDemo.

Import Local CacheDemo.

Lemma refresh_rotation_single_use_witness :
  rotation start = (Ok tt, rotated_world) /\
  forall w3, RotateRefreshToken CacheDemo.key "old" new_entry response "other" (86400 * Second) (10 * Second)
               rotated_world <> (Ok tt, w3).
Proof.
  split; [exact rotation_Ok|]. intros w3.
  exact (refresh_rotation_single_use CacheDemo.key "old" new_entry response "fp" (86400 * Second) (10 * Second)
    start rotated_world rotated_world new_entry response "other" (86400 * Second) (10 * Second) w3
    (quiet_others _) rotation_Ok ltac:(vm_compute; discriminate) ltac:(vm_compute; discriminate)
    (rtc_refl _ _)).
Defined.

Lemma grace_retry_same_response_witness :
  exists w2, CheckRefreshTokenReplay CacheDemo.key "old" "fp" rotated_world =
    (Ok (Some (mkRefreshTokenReplayResult RefreshTokenReplayGrace (Some response))), w2).
Proof.
  destruct (grace_retry_same_response CacheDemo.key "old" new_entry response "fp" (86400 * Second) (10 * Second)
    start rotated_world noon 0 rotation_Ok ltac:(vm_compute; discriminate) ltac:(vm_compute; reflexivity)
    ltac:(vm_compute; reflexivity) ltac:(vm_compute; reflexivity) ltac:(vm_compute; reflexivity)
    ltac:(vm_compute; discriminate)) as (w2 & _ & Hw2).
  - exists rotated_world, rotated_world. split; [done|]. split; [done|]. split; [lia|]. vm_compute. reflexivity.
  - vm_compute. discriminate.
  - vm_compute. reflexivity.
  - intros ms Hms. vm_compute in Hms. injection Hms as <-. reflexivity.
  - exists w2. exact Hw2.
Defined.

Lemma detected_replay_locks_family_witness :
  (replay_script CacheDemo.key "old" "fp" (w_clock late) (w_keys late)).1 = Ok [LInt (-1); LStr ""].
Proof.
  destruct (replay_script CacheDemo.key "old" "fp" (w_clock late) (w_keys late)) as [[v|e] r1] eqn:E;
    [|vm_compute in E; discriminate E].
  destruct (detected_replay_locks_family CacheDemo.key "old" "fp" (w_clock late) (w_keys late) r1 r1
    old_hash (Some 86380000) 1700000010 v []) as [-> _].
  - vm_compute. reflexivity.
  - vm_compute. reflexivity.
  - vm_compute. reflexivity.
  - vm_compute. reflexivity.
  - vm_compute. discriminate.
  - intros [Hle _]. vm_compute in Hle. by apply Hle.
  - exact E.
  - constructor.
  - vm_compute. reflexivity.
  - reflexivity.
Defined.

Lemma revoked_token_stays_revoked_witness :
  exists r3, exec (EXISTS (RevokedAccessToken CacheDemo.key "at")) (elapse 5000 (w_keys revoked_world)) = (Ok true, r3).
Proof.
  destruct (revoked_token_stays_revoked CacheDemo.key "at" (60 * Second) start [Elapse 5000]
    (elapse 5000 (w_keys revoked_world)) ltac:(vm_compute; reflexivity) ltac:(vm_compute; discriminate)
    ltac:(repeat constructor; discriminate) ltac:(vm_compute; reflexivity)) as [Haccess _].
  apply (Haccess revoked_world revocation_Ok).
  econstructor; [by apply step_elapse|constructor].
Defined.

(** ** What the scripts do not promise *)

(** Revocation writes the [revoked] field but not the [status] that the
    rotation script looks at: in the cache alone, a revoked refresh token
    still rotates (the service is protected by the database's own record). *)
Example revoked_token_still_rotates :
  (rotation (RevokeRefreshToken CacheDemo.key "old" (3600 * Second) start).2).1 = Ok tt.
Proof. vm_compute. reflexivity. Qed.

(** A family is locked for the rest of the replayed token's life only.  A
    token rotated out later, with a longer life, is usable again after. *)
Example family_lock_expires :
  let next (w : world) := RotateRefreshToken CacheDemo.key "new"
    (mkRefreshTokenCacheEntry "newer" "web" "7" "uuid-7" "[]" "" noon (noon + 86400 * Second))
    CacheDemo.response "fp" (86400 * Second) (10 * Second) w in
  let longer := (RotateRefreshToken CacheDemo.key "old" new_entry CacheDemo.response "fp"
    (172800 * Second) (10 * Second) start).2 in
  let replayed := (CheckRefreshTokenReplay CacheDemo.key "old" "fp"
    (mkWorld (elapse 20000 (w_keys longer)) (noon + 20 * Second))).2 in
  (next replayed).1 = Err (Infra (Driver "refresh token family revoked in cache")) /\
  (next (mkWorld (elapse 86400000 (w_keys replayed)) (noon + 86420 * Second))).1 = Ok tt.
Proof. vm_compute. split; reflexivity. Qed.
