(* ===== verification/StateMask.v ===== *)
(** * ports/cache/state_mask.go: session and MFA challenge state masks

    The string states of a session and of an MFA challenge, packed into
    32-bit masks.  [&^=] is [Z.ldiff].  The abstract state of a challenge
    ([challenge]) is what the mask means; [canonical] says which masks are
    the encoding of one. *)

From stdpp Require Import base tactics list strings numbers.
From Stdlib Require Import ZArith Lia.
From S2P Require Import Prelude GoStrings GoTime Ports.

Definition SessionStateActive : Z := 1.
Definition SessionStateLocked : Z := 2.
Definition SessionStateLoggedOut : Z := 4.

Definition MFAChallengeStateLive : Z := 1.
Definition MFAChallengeStateModePasskey : Z := 2.
Definition MFAChallengeStateModePush : Z := 4.
Definition MFAChallengeStatePushApproved : Z := 8.
Definition MFAChallengeStatePushDenied : Z := 16.
Definition MFAChallengeStatePasskeySessionBound : Z := 32.

Definition mfaModeTOTPOnly : string := "totp_only".
Definition mfaModePushTOTPFallback : string := "push_totp_fallback".
Definition mfaModePasskeyTOTPFallback : string := "passkey_totp_fallback".
Definition mfaPushStatusPending : string := "pending".
Definition mfaPushStatusApproved : string := "approved".
Definition mfaPushStatusDenied : string := "denied".

(** [mask&flag != 0] *)
Definition has (mask flag : Z) : bool := negb (Z.land mask flag =? 0).

(** ** Sessions *)

Definition NormalizeSessionStateMask (mask : Z) (status : string) : Z :=
  if negb (mask =? 0) then mask else
  let st := ToLower (TrimSpace status) in
  if String.eqb st "logged_out" || String.eqb st "logout" then SessionStateLoggedOut
  else if String.eqb st "locked" then SessionStateLocked
  else SessionStateActive.

Definition SessionStatusFromMask (mask : Z) (fallback : string) : string :=
  let mask := NormalizeSessionStateMask mask fallback in
  if has mask SessionStateLoggedOut then "logged_out"
  else if has mask SessionStateLocked then "locked"
  else "active".

Definition IsSessionStateActive (mask : Z) : bool :=
  has mask SessionStateActive && negb (has mask SessionStateLocked) &&
  negb (has mask SessionStateLoggedOut).

Definition IsSessionEntryActive (entry : option SessionCacheEntry) (now : time) : bool :=
  match entry with
  | None => false
  | Some e =>
      if negb (After (sce_ExpiresAt e) now) then false
      else IsSessionStateActive (NormalizeSessionStateMask (sce_StateMask e) (sce_Status e))
  end.

(** ** MFA challenges *)

Definition normalizeMFAMode (mode : string) : string :=
  let m := ToLower (TrimSpace mode) in
  if String.eqb m mfaModePushTOTPFallback then mfaModePushTOTPFallback
  else if String.eqb m mfaModePasskeyTOTPFallback then mfaModePasskeyTOTPFallback
  else mfaModeTOTPOnly.

Definition normalizeMFAPushStatus (status : string) : string :=
  let st := ToLower (TrimSpace status) in
  if String.eqb st mfaPushStatusApproved then mfaPushStatusApproved
  else if String.eqb st mfaPushStatusDenied then mfaPushStatusDenied
  else mfaPushStatusPending.

Definition decision_bits : Z := Z.lor MFAChallengeStatePushApproved MFAChallengeStatePushDenied.
Definition mode_bits : Z := Z.lor MFAChallengeStateModePush MFAChallengeStateModePasskey.

Definition canonicalMFAChallengeStateMask (mask : Z) (passkeySessionJSON : string) : Z :=
  let mask := Z.lor mask MFAChallengeStateLive in
  let mask := if has mask MFAChallengeStateModePush
              then Z.ldiff mask MFAChallengeStateModePasskey else mask in
  let mask := if negb (has mask MFAChallengeStateModePush)
              then Z.ldiff mask decision_bits else mask in
  let mask := if has mask MFAChallengeStatePushApproved && has mask MFAChallengeStatePushDenied
              then Z.ldiff mask MFAChallengeStatePushApproved else mask in
  if blank passkeySessionJSON
  then Z.ldiff mask MFAChallengeStatePasskeySessionBound
  else Z.lor mask MFAChallengeStatePasskeySessionBound.

Definition NormalizeMFAChallengeStateMask (mask : Z) (mode pushStatus passkeySessionJSON : string)
    : Z :=
  let mask := if mask =? 0 then MFAChallengeStateLive else mask in
  let mask := Z.ldiff mask mode_bits in
  let m := normalizeMFAMode mode in
  let mask := if String.eqb m mfaModePushTOTPFallback then Z.lor mask MFAChallengeStateModePush
              else if String.eqb m mfaModePasskeyTOTPFallback
              then Z.lor mask MFAChallengeStateModePasskey else mask in
  let mask := Z.ldiff mask decision_bits in
  let p := normalizeMFAPushStatus pushStatus in
  let mask := if String.eqb p mfaPushStatusApproved
              then Z.lor mask MFAChallengeStatePushApproved
              else if String.eqb p mfaPushStatusDenied
              then Z.lor mask MFAChallengeStatePushDenied else mask in
  let mask := if negb (blank passkeySessionJSON)
              then Z.lor mask MFAChallengeStatePasskeySessionBound else mask in
  canonicalMFAChallengeStateMask mask passkeySessionJSON.

Definition MFAModeFromStateMask (mask : Z) (fallback : string) : string :=
  let mask := canonicalMFAChallengeStateMask mask "" in
  if has mask MFAChallengeStateModePush then mfaModePushTOTPFallback
  else if has mask MFAChallengeStateModePasskey then mfaModePasskeyTOTPFallback
  else
    let trimmed := ToLower (TrimSpace fallback) in
    if String.eqb trimmed mfaModeTOTPOnly || String.eqb trimmed mfaModePushTOTPFallback ||
       String.eqb trimmed mfaModePasskeyTOTPFallback then trimmed
    else if negb (String.eqb trimmed "") then trimmed
    else mfaModeTOTPOnly.

Definition MFAPushStatusFromStateMask (mask : Z) (fallback : string) : string :=
  let mask := canonicalMFAChallengeStateMask mask "" in
  if has mask MFAChallengeStatePushDenied then mfaPushStatusDenied
  else if has mask MFAChallengeStatePushApproved then mfaPushStatusApproved
  else normalizeMFAPushStatus fallback.

(** ** Bit-level reasoning

    A mask is what its bits are; a flag is a power of two. *)

Lemma has_testbit mask n : 0 <= n -> has mask (2 ^ n) = Z.testbit mask n.
Proof.
  intros Hn. unfold has. destruct (Z.testbit mask n) eqn:E.
  - apply negb_true_iff, Z.eqb_neq. intros H0.
    pose proof (f_equal (fun z => Z.testbit z n) H0) as Hb. cbn beta in Hb.
    rewrite Z.land_spec, E, Z.pow2_bits_true, Z.bits_0 in Hb by done. discriminate.
  - apply negb_false_iff, Z.eqb_eq, Z.bits_inj'. intros k Hk.
    rewrite Z.land_spec, Z.bits_0, Z.pow2_bits_eqb by done.
    destruct (Z.eqb_spec n k) as [->|]; [by rewrite E | apply andb_false_r].
Qed.

Ltac flag_bits :=
  repeat match goal with
  | |- context [has ?m SessionStateActive] => rewrite (has_testbit m 0 ltac:(lia))
  | |- context [has ?m SessionStateLocked] => rewrite (has_testbit m 1 ltac:(lia))
  | |- context [has ?m SessionStateLoggedOut] => rewrite (has_testbit m 2 ltac:(lia))
  | |- context [has ?m MFAChallengeStateLive] => rewrite (has_testbit m 0 ltac:(lia))
  | |- context [has ?m MFAChallengeStateModePasskey] => rewrite (has_testbit m 1 ltac:(lia))
  | |- context [has ?m MFAChallengeStateModePush] => rewrite (has_testbit m 2 ltac:(lia))
  | |- context [has ?m MFAChallengeStatePushApproved] => rewrite (has_testbit m 3 ltac:(lia))
  | |- context [has ?m MFAChallengeStatePushDenied] => rewrite (has_testbit m 4 ltac:(lia))
  | |- context [has ?m MFAChallengeStatePasskeySessionBound] => rewrite (has_testbit m 5 ltac:(lia))
  end.

(** What the six bits of a mask say. *)
Record challenge := mkChallenge {
  live : bool;
  passkey : bool;
  push : bool;
  approved : bool;
  denied : bool;
  bound : bool;
}.

Definition view (mask : Z) : challenge :=
  mkChallenge (Z.testbit mask 0) (Z.testbit mask 1) (Z.testbit mask 2) (Z.testbit mask 3)
    (Z.testbit mask 4) (Z.testbit mask 5).

(** The abstract canonicalisation of the six bits. *)
Definition canon (c : challenge) (b : bool) : challenge :=
  mkChallenge true (passkey c && negb (push c)) (push c)
    (push c && approved c && negb (denied c)) (push c && denied c) b.

(** A legal state: live, at most one mode, a decision only in push mode and at
    most one, the binding bit exactly when there is a passkey session. *)
Definition legal (c : challenge) (b : bool) : Prop :=
  live c = true /\ passkey c && push c = false /\
  (approved c || denied c = true -> push c = true) /\
  approved c && denied c = false /\ bound c = b.

Lemma canon_legal c b : legal (canon c b) b.
Proof. destruct c as [[] [] [] [] [] []]; by destruct b. Qed.

Lemma canon_id c b : legal c b -> canon c b = c.
Proof.
  unfold legal, canon. destruct c as [l p q a d e]; simpl. intros (-> & H1 & H2 & H3 & ->).
  destruct p, q, a, d; simpl in *; try done; specialize (H2 eq_refl); discriminate.
Qed.

Lemma canon_idem c b : canon (canon c b) b = canon c b.
Proof. apply canon_id, canon_legal. Qed.

(** ** From masks to views *)

Definition chal_or (a b : challenge) : challenge :=
  mkChallenge (live a || live b) (passkey a || passkey b) (push a || push b)
    (approved a || approved b) (denied a || denied b) (bound a || bound b).

Definition chal_diff (a b : challenge) : challenge :=
  mkChallenge (live a && negb (live b)) (passkey a && negb (passkey b)) (push a && negb (push b))
    (approved a && negb (approved b)) (denied a && negb (denied b)) (bound a && negb (bound b)).

Lemma view_lor a b : view (Z.lor a b) = chal_or (view a) (view b).
Proof. unfold view, chal_or. cbn [live passkey push approved denied bound]. by rewrite !Z.lor_spec. Qed.

Lemma view_ldiff a b : view (Z.ldiff a b) = chal_diff (view a) (view b).
Proof. unfold view, chal_diff. cbn [live passkey push approved denied bound]. by rewrite !Z.ldiff_spec. Qed.

Lemma view_if (b : bool) x y : view (if b then x else y) = if b then view x else view y.
Proof. by destruct b. Qed.

Lemma shiftr_if (b : bool) x y n :
  Z.shiftr (if b then x else y) n = if b then Z.shiftr x n else Z.shiftr y n.
Proof. by destruct b. Qed.

Lemma has_passkey m : has m MFAChallengeStateModePasskey = passkey (view m).
Proof. exact (has_testbit m 1 ltac:(lia)). Qed.
Lemma has_push m : has m MFAChallengeStateModePush = push (view m).
Proof. exact (has_testbit m 2 ltac:(lia)). Qed.
Lemma has_approved m : has m MFAChallengeStatePushApproved = approved (view m).
Proof. exact (has_testbit m 3 ltac:(lia)). Qed.
Lemma has_denied m : has m MFAChallengeStatePushDenied = denied (view m).
Proof. exact (has_testbit m 4 ltac:(lia)). Qed.

Lemma view_Live : view MFAChallengeStateLive = mkChallenge true false false false false false.
Proof. done. Qed.
Lemma view_Passkey : view MFAChallengeStateModePasskey = mkChallenge false true false false false false.
Proof. done. Qed.
Lemma view_Push : view MFAChallengeStateModePush = mkChallenge false false true false false false.
Proof. done. Qed.
Lemma view_Approved : view MFAChallengeStatePushApproved = mkChallenge false false false true false false.
Proof. done. Qed.
Lemma view_Denied : view MFAChallengeStatePushDenied = mkChallenge false false false false true false.
Proof. done. Qed.
Lemma view_Bound : view MFAChallengeStatePasskeySessionBound = mkChallenge false false false false false true.
Proof. done. Qed.
Lemma view_decision : view decision_bits = mkChallenge false false false true true false.
Proof. done. Qed.
Lemma view_mode : view mode_bits = mkChallenge false true true false false false.
Proof. done. Qed.

Create Rewrite HintDb mask_view.
Create Rewrite HintDb mask_shift.
Hint Rewrite has_passkey has_push has_approved has_denied view_if view_lor view_ldiff view_Live
  view_Passkey view_Push view_Approved view_Denied view_Bound view_decision view_mode : mask_view.
Hint Rewrite shiftr_if Z.shiftr_lor Z.shiftr_ldiff : mask_shift.

(** A mask is its six known bits and the bits above. *)
Lemma mask_ext a b : view a = view b -> Z.shiftr a 6 = Z.shiftr b 6 -> a = b.
Proof.
  intros Hv Hs. apply Z.bits_inj'. intros k Hk. destruct (Z.ltb_spec k 6).
  - injection Hv as H0 H1 H2 H3 H4 H5.
    assert (k = 0 \/ k = 1 \/ k = 2 \/ k = 3 \/ k = 4 \/ k = 5)
      as [->|[->|[->|[->|[->| ->]]]]] by lia; done.
  - replace k with (k - 6 + 6) by lia. rewrite <- !Z.shiftr_spec by lia. by rewrite Hs.
Qed.

Lemma view_canonical mask js :
  view (canonicalMFAChallengeStateMask mask js) = canon (view mask) (negb (blank js)).
Proof.
  unfold canonicalMFAChallengeStateMask. cbv zeta. autorewrite with mask_view.
  destruct (view mask) as [[] [] [] [] [] []], (blank js); reflexivity.
Qed.

Lemma shiftr_canonical mask js :
  Z.shiftr (canonicalMFAChallengeStateMask mask js) 6 = Z.shiftr mask 6.
Proof.
  unfold canonicalMFAChallengeStateMask. cbv zeta. autorewrite with mask_shift.
  change (Z.shiftr MFAChallengeStateLive 6) with 0.
  change (Z.shiftr MFAChallengeStateModePasskey 6) with 0.
  change (Z.shiftr decision_bits 6) with 0.
  change (Z.shiftr MFAChallengeStatePushApproved 6) with 0.
  change (Z.shiftr MFAChallengeStatePasskeySessionBound 6) with 0.
  rewrite !Z.lor_0_r, !Z.ldiff_0_r. by repeat case_match.
Qed.

Definition mode_view (mode : string) (c : challenge) : challenge :=
  let m := normalizeMFAMode mode in
  mkChallenge (live c) (String.eqb m mfaModePasskeyTOTPFallback)
    (String.eqb m mfaModePushTOTPFallback) (approved c) (denied c) (bound c).

Definition decision_view (status : string) (c : challenge) : challenge :=
  let p := normalizeMFAPushStatus status in
  mkChallenge (live c) (passkey c) (push c) (String.eqb p mfaPushStatusApproved)
    (String.eqb p mfaPushStatusDenied) (bound c).

Lemma normalizeMFAMode_cases mode :
  normalizeMFAMode mode = mfaModePushTOTPFallback \/
  normalizeMFAMode mode = mfaModePasskeyTOTPFallback \/
  normalizeMFAMode mode = mfaModeTOTPOnly.
Proof. unfold normalizeMFAMode. cbv zeta. repeat case_match; auto. Qed.

Lemma normalizeMFAPushStatus_cases status :
  normalizeMFAPushStatus status = mfaPushStatusApproved \/
  normalizeMFAPushStatus status = mfaPushStatusDenied \/
  normalizeMFAPushStatus status = mfaPushStatusPending.
Proof. unfold normalizeMFAPushStatus. cbv zeta. repeat case_match; auto. Qed.

(** Normalisation, on views: the mode and the decision are the ones named by
    the strings, then the state is made canonical. *)
Lemma view_Normalize mask mode status js :
  view (NormalizeMFAChallengeStateMask mask mode status js) =
  canon (decision_view status (mode_view mode (view mask))) (negb (blank js)).
Proof.
  unfold NormalizeMFAChallengeStateMask, decision_view, mode_view. cbv zeta.
  rewrite view_canonical. autorewrite with mask_view.
  destruct (normalizeMFAMode_cases mode) as [->|[->| ->]],
    (normalizeMFAPushStatus_cases status) as [->|[->| ->]], (blank js), (Z.eqb_spec mask 0);
    try subst mask; destruct (view _) as [[] [] [] [] [] []]; reflexivity.
Qed.

Lemma shiftr_Normalize mask mode status js :
  Z.shiftr (NormalizeMFAChallengeStateMask mask mode status js) 6 = Z.shiftr mask 6.
Proof.
  unfold NormalizeMFAChallengeStateMask. cbv zeta. rewrite shiftr_canonical.
  autorewrite with mask_shift.
  change (Z.shiftr MFAChallengeStateLive 6) with 0. change (Z.shiftr mode_bits 6) with 0.
  change (Z.shiftr decision_bits 6) with 0. change (Z.shiftr MFAChallengeStateModePush 6) with 0.
  change (Z.shiftr MFAChallengeStateModePasskey 6) with 0.
  change (Z.shiftr MFAChallengeStatePushApproved 6) with 0.
  change (Z.shiftr MFAChallengeStatePushDenied 6) with 0.
  change (Z.shiftr MFAChallengeStatePasskeySessionBound 6) with 0.
  rewrite !Z.lor_0_r, !Z.ldiff_0_r.
  destruct (Z.eqb_spec mask 0) as [->|]; by repeat case_match.
Qed.

(** ** Properties *)

(** Whatever mask and strings it is given, the normalisation of an MFA
    challenge yields a legal state: live, push and passkey mode exclusive, a
    decision only in push mode and never both decisions, and the binding bit
    exactly when there is a passkey session; the unknown upper bits are kept,
    and normalising again with the same strings changes nothing. *)
Theorem normalized_challenge_legal mask mode status js :
  let m := NormalizeMFAChallengeStateMask mask mode status js in
  legal (view m) (negb (blank js)) /\ Z.shiftr m 6 = Z.shiftr mask 6 /\
  NormalizeMFAChallengeStateMask m mode status js = m /\
  canonicalMFAChallengeStateMask m js = m.
Proof.
  cbv zeta. rewrite view_Normalize. split; [apply canon_legal|].
  split; [apply shiftr_Normalize|]. split; apply mask_ext.
  - rewrite !view_Normalize. destruct (view mask) as [[] [] [] [] [] []].
    all: unfold decision_view, mode_view, canon; cbn -[normalizeMFAMode normalizeMFAPushStatus blank].
    all: destruct (normalizeMFAMode_cases mode) as [->|[->| ->]],
      (normalizeMFAPushStatus_cases status) as [->|[->| ->]]; reflexivity.
  - by rewrite !shiftr_Normalize.
  - rewrite view_canonical, view_Normalize. apply canon_idem.
  - by rewrite shiftr_canonical.
Qed.

(** The strings come back from the mask: the mode a challenge was
    normalised with is read back, and so is the push decision when the mode
    is push; in any other mode the push status reads as the pending it falls
    back to, so no decision survives a change of mode.  A push mask with both
    decision bits set reads as denied. *)
Theorem challenge_strings_round_trip mask mode status js :
  let m := NormalizeMFAChallengeStateMask mask mode status js in
  MFAModeFromStateMask m (normalizeMFAMode mode) = normalizeMFAMode mode /\
  MFAPushStatusFromStateMask m mfaPushStatusPending =
    (if String.eqb (normalizeMFAMode mode) mfaModePushTOTPFallback
     then normalizeMFAPushStatus status else mfaPushStatusPending) /\
  (push (view mask) = true -> approved (view mask) = true -> denied (view mask) = true ->
   MFAPushStatusFromStateMask mask mfaPushStatusApproved = mfaPushStatusDenied).
Proof.
  cbv zeta. unfold MFAModeFromStateMask, MFAPushStatusFromStateMask. cbv zeta.
  rewrite !has_push, !has_passkey, !has_approved, !has_denied, !view_canonical, !view_Normalize.
  split; [|split].
  - destruct (normalizeMFAMode_cases mode) as [Hm|[Hm|Hm]],
      (normalizeMFAPushStatus_cases status) as [Hs|[Hs|Hs]];
      unfold decision_view, mode_view; rewrite Hm, Hs; reflexivity.
  - destruct (normalizeMFAMode_cases mode) as [Hm|[Hm|Hm]],
      (normalizeMFAPushStatus_cases status) as [Hs|[Hs|Hs]];
      unfold decision_view, mode_view; rewrite Hm, Hs; reflexivity.
  - destruct (view mask) as [l p q a d e]; simpl. by intros -> -> ->.
Qed.

(** What a cached session says about itself: the mask when there is one, the
    status string of older entries otherwise. *)
Definition session_usable (e : SessionCacheEntry) : Prop :=
  let st := ToLower (TrimSpace (sce_Status e)) in
  if sce_StateMask e =? 0
  then st <> "logged_out" /\ st <> "logout" /\ st <> "locked"
  else Z.testbit (sce_StateMask e) 0 = true /\ Z.testbit (sce_StateMask e) 1 = false /\
       Z.testbit (sce_StateMask e) 2 = false.

Lemma session_state_usable e :
  IsSessionStateActive (NormalizeSessionStateMask (sce_StateMask e) (sce_Status e)) = true <->
  session_usable e.
Proof.
  unfold session_usable, NormalizeSessionStateMask. cbv zeta.
  destruct (sce_StateMask e =? 0); simpl.
  - set (st := ToLower _). clearbody st.
    destruct (String.eqb_spec st "logged_out") as [->|]; [naive_solver|].
    destruct (String.eqb_spec st "logout") as [->|]; [naive_solver|].
    destruct (String.eqb_spec st "locked") as [->|]; [naive_solver|].
    by split.
  - unfold IsSessionStateActive. rewrite (has_testbit _ 0), (has_testbit _ 1), (has_testbit _ 2) by lia.
    rewrite !andb_true_iff, !negb_true_iff. tauto.
Qed.

Lemma session_entry_active e now :
  IsSessionEntryActive (Some e) now = true <-> now < sce_ExpiresAt e /\ session_usable e.
Proof.
  unfold IsSessionEntryActive. rewrite <- After_spec, <- session_state_usable.
  destruct (After (sce_ExpiresAt e) now); simpl; naive_solver.
Qed.

(** A session entry counts as active exactly when it exists, expires
    strictly after now, and is usable: its mask has the active bit and
    neither the locked nor the logged-out one, or, without a mask, its status
    string is none of logged_out, logout and locked up to case and space. *)
Theorem session_entry_active_iff e now :
  IsSessionEntryActive e now = true <->
  exists s, e = Some s /\ now < sce_ExpiresAt s /\ session_usable s.
Proof.
  destruct e as [s|]; [rewrite session_entry_active|]; naive_solver.
Qed.
