(* ===== verification/WorkerPool.v ===== *)
(** * The worker pools of the login service (worker_pool.go)

    Two bounded pools: io jobs, and cpu jobs (password hashing) that an io
    job submits and waits for.  A pool is a queue of bounded capacity and a
    number of workers; [runWithPool] sends the job, waits for room and then
    for the result, and leaves early when its context is done.  The result
    channel has room for one value, so that a worker never waits for a caller
    that left.

    A state is the list of the requests, each with the phase of its caller,
    of its io job and of the cpu job inside it, and the two queues; a step is
    one move of a caller, a worker or the context.  What a job computes is
    the service's business ([AuthnService]); here a job that runs finishes. *)

From stdpp Require Import base tactics list relations numbers.
From Stdlib Require Import ZArith Lia.
From S2P Require Import Prelude.

#[local] Open Scope nat_scope.

(** ** newWorkerPool, newIOPool, newCPUPool *)

Record pool := mkPool { workers : nat; capacity : nat }.

Definition newWorkerPool (workers queue : Z) : pool :=
  let workers := if (workers <=? 0)%Z then 1%Z else workers in
  let queue := if (queue <? workers)%Z then workers else queue in
  mkPool (Z.to_nat workers) (Z.to_nat queue).

Definition newIOPool (procs : Z) : pool :=
  let workers := Z.max 8 (procs * 4) in newWorkerPool workers (workers * 8).

Definition newCPUPool (procs : Z) : pool :=
  let workers := Z.max 1 procs in newWorkerPool workers (workers * 8).

Lemma newWorkerPool_pos w q : 1 <= workers (newWorkerPool w q) <= capacity (newWorkerPool w q).
Proof.
  unfold newWorkerPool. simpl. destruct (Z.leb_spec w 0); simpl; case_match; lia.
Qed.

(** ** Requests *)

Inductive answer := FromJob | FromContext.
Inductive caller_phase := Waiting | Answered (a : answer).

#[export] Instance answer_eq_dec : EqDecision answer.
Proof. solve_decision. Defined.
#[export] Instance caller_phase_eq_dec : EqDecision caller_phase.
Proof. solve_decision. Defined.

(** The io job: its caller waits for room, it is queued, a worker runs it, a
    worker waits inside it for its cpu job, its result is in the channel. *)
Inductive job_phase := Sending | Queued | Running | Inner | Done.

(** The cpu job, whose caller is the io worker. *)
Inductive cpu_phase := CNone | CSending | CQueued | CRunning | CDone.

Record request := mkRequest {
  nested : bool;
  cancelled : bool;
  caller : caller_phase;
  job : job_phase;
  cpu : cpu_phase;
}.

Definition submitted (n : bool) : request := mkRequest n false Waiting Sending CNone.

Record state := mkState { reqs : list request; io_queue : list nat; cpu_queue : list nat }.

Definition io_busy (r : request) : bool := match job r with Running | Inner => true | _ => false end.
Definition cpu_busy (r : request) : bool := match cpu r with CRunning => true | _ => false end.

Definition busy (p : request -> bool) (st : state) : nat := List.length (List.filter p (reqs st)).

(** Moves within one request. *)
Inductive move : request -> request -> Prop :=
| context_done n c j k : move (mkRequest n false c j k) (mkRequest n true c j k)
| leave_sending n k : move (mkRequest n true Waiting Sending k) (mkRequest n true (Answered FromContext) Done k)
| leave_waiting n j k : j <> Sending -> move (mkRequest n true Waiting j k) (mkRequest n true (Answered FromContext) j k)
| receive n x k : move (mkRequest n x Waiting Done k) (mkRequest n x (Answered FromJob) Done k)
| run x c k : move (mkRequest false x c Running k) (mkRequest false x c Done k)
| call_cpu x c : move (mkRequest true x c Running CNone) (mkRequest true x c Inner CSending)
| leave_cpu_sending n c : move (mkRequest n true c Inner CSending) (mkRequest n true c Done CNone)
| leave_cpu_waiting n c k : k <> CSending -> move (mkRequest n true c Inner k) (mkRequest n true c Done k)
| run_cpu n x c j : move (mkRequest n x c j CRunning) (mkRequest n x c j CDone)
| receive_cpu n x c : move (mkRequest n x c Inner CDone) (mkRequest n x c Done CDone).

Definition set_job (j : job_phase) (r : request) : request := mkRequest (nested r) (cancelled r) (caller r) j (cpu r).
Definition set_cpu (k : cpu_phase) (r : request) : request := mkRequest (nested r) (cancelled r) (caller r) (job r) k.

(** The worker loop takes a job and skips it when its context is done. *)
Definition taken (r : request) : request := set_job (if cancelled r then Done else Running) r.
Definition cpu_taken (r : request) : request := set_cpu (if cancelled r then CDone else CRunning) r.

Section Pools.
Context (io cpus : pool).

Inductive step : state -> state -> Prop :=
| step_move rs q1 q2 i r r' :
    rs !! i = Some r -> move r r' -> step (mkState rs q1 q2) (mkState (<[i := r']> rs) q1 q2)
| step_send rs q1 q2 i r :
    rs !! i = Some r -> job r = Sending -> List.length q1 < capacity io ->
    step (mkState rs q1 q2) (mkState (<[i := set_job Queued r]> rs) (q1 ++ [i]) q2)
| step_take rs q1 q2 i r :
    rs !! i = Some r -> busy io_busy (mkState rs (i :: q1) q2) < workers io ->
    step (mkState rs (i :: q1) q2) (mkState (<[i := taken r]> rs) q1 q2)
| step_cpu_send rs q1 q2 i r :
    rs !! i = Some r -> job r = Inner -> cpu r = CSending -> List.length q2 < capacity cpus ->
    step (mkState rs q1 q2) (mkState (<[i := set_cpu CQueued r]> rs) q1 (q2 ++ [i]))
| step_cpu_take rs q1 q2 i r :
    rs !! i = Some r -> busy cpu_busy (mkState rs q1 (i :: q2)) < workers cpus ->
    step (mkState rs q1 (i :: q2)) (mkState (<[i := cpu_taken r]> rs) q1 q2).

Definition start (bodies : list bool) : state := mkState (List.map submitted bodies) [] [].

(** ** The invariant: the queues hold the queued jobs *)

Definition queue_of {P : Type} (phase : request -> P) (p : P) (rs : list request) (q : list nat) : Prop :=
  NoDup q /\ forall i, i ∈ q <-> exists r, rs !! i = Some r /\ phase r = p.

Definition cpu_sane (r : request) : Prop :=
  (job r = Inner -> cpu r <> CNone) /\ (cpu r = CSending -> job r = Inner) /\
  (job r <> Inner -> job r <> Done -> cpu r = CNone).

Record well_formed (st : state) : Prop := {
  io_queued : queue_of job Queued (reqs st) (io_queue st);
  cpu_queued : queue_of cpu CQueued (reqs st) (cpu_queue st);
  io_bounded : List.length (io_queue st) <= capacity io;
  cpu_bounded : List.length (cpu_queue st) <= capacity cpus;
  phases : Forall cpu_sane (reqs st);
}.

Section Queue.
Context {P : Type} (phase : request -> P) (p : P).

Lemma queue_keep rs q i r r' :
  queue_of phase p rs q -> rs !! i = Some r -> (phase r = p <-> phase r' = p) -> queue_of phase p (<[i := r']> rs) q.
Proof.
  intros [Hnd Hq] Hi Hp. split; [done|]. intros j. rewrite Hq. destruct (decide (i = j)) as [<-|Hne].
  - rewrite list_lookup_insert_eq by (by eapply lookup_lt_Some). rewrite Hi. naive_solver.
  - by rewrite list_lookup_insert_ne.
Qed.

Lemma queue_push rs q i r r' :
  queue_of phase p rs q -> rs !! i = Some r -> phase r <> p -> phase r' = p -> queue_of phase p (<[i := r']> rs) (q ++ [i]).
Proof.
  intros [Hnd Hq] Hi Hr Hr'. split.
  - apply list.NoDup_app. split; [done|]. split; [|apply NoDup_singleton]. intros j Hj ->%list_elem_of_singleton.
    apply Hq in Hj as (r0 & Hr0 & Hp). congruence.
  - intros j. rewrite elem_of_app, list_elem_of_singleton, Hq. destruct (decide (i = j)) as [<-|Hne].
    + rewrite list_lookup_insert_eq by (by eapply lookup_lt_Some). naive_solver.
    + rewrite list_lookup_insert_ne by done. naive_solver.
Qed.

Lemma queue_pop rs q i r r' :
  queue_of phase p rs (i :: q) -> rs !! i = Some r -> phase r' <> p -> queue_of phase p (<[i := r']> rs) q.
Proof.
  intros [Hnd Hq] Hi Hr'. apply list.NoDup_cons in Hnd as [Hni Hnd]. split; [done|]. intros j.
  destruct (decide (i = j)) as [<-|Hne].
  - rewrite list_lookup_insert_eq by (by eapply lookup_lt_Some). naive_solver.
  - rewrite list_lookup_insert_ne by done. rewrite <- Hq, elem_of_cons. naive_solver.
Qed.
End Queue.

Lemma move_phases r r' : move r r' ->
  (job r = Queued <-> job r' = Queued) /\ (cpu r = CQueued <-> cpu r' = CQueued) /\ (cpu_sane r -> cpu_sane r').
Proof.
  intros Hm. destruct Hm; simpl; (split; [split; congruence|]; split; [split; congruence|]);
    unfold cpu_sane; simpl; intuition congruence.
Qed.

Lemma Forall_update (Q : request -> Prop) rs i r : Forall Q rs -> Q r -> Forall Q (<[i := r]> rs).
Proof. intros. by apply list.Forall_insert. Qed.

Lemma step_well_formed st st' : step st st' -> well_formed st -> well_formed st'.
Proof.
  intros Hs [Hio Hcpu Hbio Hbcpu Hph].
  assert (Hsane : forall i r, reqs st !! i = Some r -> cpu_sane r) by (intros i r Hi; by eapply Forall_lookup_1).
  destruct Hs as [rs q1 q2 i r r' Hi Hm | rs q1 q2 i r Hi Hj Hlen | rs q1 q2 i r Hi Hb
    | rs q1 q2 i r Hi Hj Hc Hlen | rs q1 q2 i r Hi Hb]; simpl in *; specialize (Hsane i r Hi).
  - destruct (move_phases _ _ Hm) as (H1 & H2 & H3). split; simpl; try done.
    + by eapply queue_keep.
    + by eapply queue_keep.
    + apply Forall_update; auto.
  - split; simpl; try done.
    + eapply queue_push; try done. congruence.
    + by eapply queue_keep.
    + rewrite length_app. simpl. lia.
    + apply Forall_update; [done|]. unfold cpu_sane in *. simpl. intuition congruence.
  - assert (Hq : job r = Queued).
    { destruct Hio as [_ Hio]. destruct (proj1 (Hio i) (list_elem_of_here _ _)) as (r0 & Hr0 & Hp). congruence. }
    split; simpl; try done.
    + eapply queue_pop; try done. unfold taken. simpl. by destruct (cancelled r).
    + by eapply queue_keep.
    + lia.
    + apply Forall_update; [done|]. unfold cpu_sane, taken in *. simpl. destruct (cancelled r); intuition congruence.
  - split; simpl; try done.
    + by eapply queue_keep.
    + eapply queue_push; try done. congruence.
    + rewrite length_app. simpl. lia.
    + apply Forall_update; [done|]. unfold cpu_sane in *. simpl. intuition congruence.
  - assert (Hq : cpu r = CQueued).
    { destruct Hcpu as [_ Hcpu]. destruct (proj1 (Hcpu i) (list_elem_of_here _ _)) as (r0 & Hr0 & Hp). congruence. }
    split; simpl; try done.
    + by eapply queue_keep.
    + eapply queue_pop; try done. unfold cpu_taken. simpl. by destruct (cancelled r).
    + lia.
    + apply Forall_update; [done|]. unfold cpu_sane, cpu_taken in *. simpl. destruct (cancelled r); intuition congruence.
Qed.

Lemma start_well_formed bodies : well_formed (start bodies).
Proof.
  assert (Hall : forall i r, List.map submitted bodies !! i = Some r -> exists n, r = submitted n).
  { intros i r Hi. apply list_lookup_fmap_Some in Hi as (n & -> & _). by exists n. }
  split; simpl; try lia.
  - split; [constructor|]. intros i. split; [by intros ?%elem_of_nil|]. intros (r & Hi & Hr).
    destruct (Hall _ _ Hi) as [n ->]. discriminate.
  - split; [constructor|]. intros i. split; [by intros ?%elem_of_nil|]. intros (r & Hi & Hr).
    destruct (Hall _ _ Hi) as [n ->]. discriminate.
  - apply Forall_lookup_2. intros i r Hi. destruct (Hall _ _ Hi) as [n ->]. by repeat split.
Qed.

(** ** Every step is one of finitely many *)

Definition weight (r : request) : nat :=
  (if cancelled r then 0 else 1) +
  match caller r with Waiting => 1 | Answered _ => 0 end +
  match job r with Sending => 8 | Queued => 7 | Running => 6 | Inner => 1 | Done => 0 end +
  match cpu r with CNone => 0 | CSending => 4 | CQueued => 3 | CRunning => 2 | CDone => 0 end.

Definition measure (st : state) : nat := sum_list_with weight (reqs st).

Lemma sum_insert rs i r r' : rs !! i = Some r ->
  sum_list_with weight (<[i := r']> rs) + weight r = sum_list_with weight rs + weight r'.
Proof.
  revert i. induction rs as [|x rs IH]; intros [|i] Hi; simpl in *; simplify_eq; [lia|].
  specialize (IH _ Hi). lia.
Qed.

Lemma move_weight r r' : move r r' -> cpu_sane r -> weight r' < weight r.
Proof.
  intros Hm. destruct Hm; unfold weight, cpu_sane; simpl; intros (H1 & H2 & H3);
    repeat match goal with |- context [match ?x with _ => _ end] => destruct x end; try lia; try done; naive_solver.
Qed.

Lemma step_measure st st' : well_formed st -> step st st' -> measure st' < measure st.
Proof.
  intros Hwf Hs.
  destruct Hs as [rs q1 q2 i r r' Hi Hm | rs q1 q2 i r Hi Hj Hlen | rs q1 q2 i r Hi Hb
    | rs q1 q2 i r Hi Hj Hc Hlen | rs q1 q2 i r Hi Hb]; unfold measure; simpl;
    match goal with |- sum_list_with _ (<[_ := ?r']> _) < _ =>
      pose proof (sum_insert rs i r r' Hi); enough (weight r' < weight r) by lia end.
  - apply move_weight; [done|]. by eapply Forall_lookup_1; [apply (phases _ Hwf)|].
  - unfold weight, set_job. simpl. rewrite Hj. lia.
  - destruct (io_queued _ Hwf) as [_ Hq]. simpl in Hq.
    destruct (proj1 (Hq i) (list_elem_of_here _ _)) as (r0 & Hr0 & Hp). rewrite Hi in Hr0. injection Hr0 as <-.
    unfold weight, taken, set_job. simpl. rewrite Hp. destruct (cancelled r); lia.
  - unfold weight, set_cpu. simpl. rewrite Hc. lia.
  - destruct (cpu_queued _ Hwf) as [_ Hq]. simpl in Hq.
    destruct (proj1 (Hq i) (list_elem_of_here _ _)) as (r0 & Hr0 & Hp). rewrite Hi in Hr0. injection Hr0 as <-.
    unfold weight, cpu_taken, set_cpu. simpl. rewrite Hp. destruct (cancelled r); lia.
Qed.

(** A caller whose context was not done was answered by its job. *)
Definition answered_by_job (r : request) : Prop := caller r = Answered FromContext -> cancelled r = true.

Lemma step_answers st st' : step st st' -> Forall answered_by_job (reqs st) -> Forall answered_by_job (reqs st').
Proof.
  intros Hs Ha.
  destruct Hs as [rs q1 q2 i r r' Hi Hm | rs q1 q2 i r Hi Hj Hlen | rs q1 q2 i r Hi Hb
    | rs q1 q2 i r Hi Hj Hc Hlen | rs q1 q2 i r Hi Hb]; simpl in *; apply Forall_update; try done;
    pose proof (Forall_lookup_1 _ _ _ _ Ha Hi) as Hr; [|exact Hr..].
  destruct Hm; unfold answered_by_job in *; simpl in *; naive_solver.
Qed.
(** ** Nobody waits for ever *)

Hypothesis io_sane : 1 <= workers io <= capacity io.
Hypothesis cpu_pool_sane : 1 <= workers cpus <= capacity cpus.

Definition can_step (st : state) : Prop := exists st', step st st'.

Lemma busy_witness p st : 1 <= busy p st -> exists i r, reqs st !! i = Some r /\ p r = true.
Proof.
  unfold busy. intros Hb. destruct (List.filter p (reqs st)) as [|r l] eqn:E; [simpl in Hb; lia|].
  assert (Hin : In r (List.filter p (reqs st))) by (rewrite E; by left).
  apply filter_In in Hin as [Hin Hp]. apply list_elem_of_In, list_elem_of_lookup in Hin as [i Hi]. by exists i, r.
Qed.

Lemma can_move st i r r' : reqs st !! i = Some r -> move r r' -> can_step st.
Proof. destruct st as [rs q1 q2]. intros Hi Hm. eexists. by eapply step_move. Qed.

(** The cpu pool never blocks: its jobs wait for nothing. *)
Lemma cpu_progress st : well_formed st -> cpu_queue st <> [] -> can_step st.
Proof.
  intros Hwf Hne. destruct st as [rs q1 [|i q2]]; simpl in *; [done|].
  destruct (decide (busy cpu_busy (mkState rs q1 (i :: q2)) < workers cpus)) as [Hlt|Hge].
  - destruct (cpu_queued _ Hwf) as [_ Hq]. destruct (proj1 (Hq i) (list_elem_of_here _ _)) as (r & Hi & _).
    eexists. by eapply step_cpu_take.
  - destruct (busy_witness cpu_busy (mkState rs q1 (i :: q2)) ltac:(lia)) as (j & r & Hj & Hr).
    destruct r as [n x c jb k]. unfold cpu_busy in Hr. simpl in Hr. destruct k; try discriminate.
    eapply can_move; [exact Hj | constructor].
Qed.

(** A busy io worker can go on, or waits for the cpu pool, which can. *)
Lemma io_busy_progress st i r : well_formed st -> reqs st !! i = Some r -> io_busy r = true -> can_step st.
Proof.
  intros Hwf Hi Hb. pose proof (Forall_lookup_1 _ _ _ _ (phases _ Hwf) Hi) as (Hs1 & Hs2 & Hs3).
  destruct r as [n x c jb k]. unfold io_busy in Hb. simpl in *. destruct jb; try discriminate.
  - rewrite Hs3 in Hi by done. destruct n; (eapply can_move; [exact Hi | constructor]).
  - destruct k as [ | | | | ].
    + by destruct Hs1.
    + destruct st as [rs q1 q2]. simpl in *. destruct (decide (List.length q2 < capacity cpus)) as [Hlt|Hge].
      * eexists. by eapply step_cpu_send.
      * apply cpu_progress; [done|]. simpl. intros ->. simpl in Hge. lia.
    + apply cpu_progress; [done|]. intros Hnil. destruct (cpu_queued _ Hwf) as [_ Hq].
      assert (Hin : i ∈ cpu_queue st) by (apply Hq; by eexists). rewrite Hnil in Hin. by apply elem_of_nil in Hin.
    + eapply can_move; [exact Hi | constructor].
    + eapply can_move; [exact Hi | apply receive_cpu].
Qed.

Lemma io_progress st : well_formed st -> io_queue st <> [] -> can_step st.
Proof.
  intros Hwf Hne. destruct st as [rs [|i q1] q2]; simpl in *; [done|].
  destruct (decide (busy io_busy (mkState rs (i :: q1) q2) < workers io)) as [Hlt|Hge].
  - destruct (io_queued _ Hwf) as [_ Hq]. destruct (proj1 (Hq i) (list_elem_of_here _ _)) as (r & Hi & _).
    eexists. by eapply step_take.
  - destruct (busy_witness io_busy (mkState rs (i :: q1) q2) ltac:(lia)) as (j & r & Hj & Hr).
    by eapply io_busy_progress.
Qed.

Lemma waiting_progress st i r : well_formed st -> reqs st !! i = Some r -> caller r = Waiting -> can_step st.
Proof.
  intros Hwf Hi Hc. destruct (job r) eqn:Hj.
  - destruct st as [rs q1 q2]. simpl in *. destruct (decide (List.length q1 < capacity io)) as [Hlt|Hge].
    + eexists. by eapply step_send.
    + apply io_progress; [done|]. simpl. intros ->. simpl in Hge. lia.
  - apply io_progress; [done|]. intros Hnil. destruct (io_queued _ Hwf) as [_ Hq].
    assert (Hin : i ∈ io_queue st) by (apply Hq; by eexists). rewrite Hnil in Hin. by apply elem_of_nil in Hin.
  - eapply io_busy_progress; [done | exact Hi | by unfold io_busy; rewrite Hj].
  - eapply io_busy_progress; [done | exact Hi | by unfold io_busy; rewrite Hj].
  - destruct r as [n x c j k]. simpl in *. subst. eapply can_move; [exact Hi | constructor].
Qed.

End Pools.

Lemma steps_sound io cpus st k st' :
  well_formed io cpus st -> nsteps (step io cpus) k st st' ->
  well_formed io cpus st' /\ k + measure st' <= measure st /\
  (Forall answered_by_job (reqs st) -> Forall answered_by_job (reqs st')).
Proof.
  intros Hwf Hs. induction Hs as [st|k st st1 st' Hstep _ IH]; [split; [done | split; [lia | done]]|].
  pose proof (step_well_formed _ _ _ _ Hstep Hwf) as Hwf1. destruct (IH Hwf1) as (Hwf' & Hk & Ha).
  pose proof (step_measure _ _ _ _ Hwf Hstep). split; [done|]. split; [lia|]. intros Hans. apply Ha. by eapply step_answers.
Qed.

(** C28. Every login that goes through the pools is answered: with the pools
    the program makes, on any number of processors, and any number of
    requests, plain or with a cpu job inside, no run has more than ten steps
    per request, and a run that cannot go on has answered every caller, by
    its own job unless its context was done.  An io worker waiting for the
    cpu pool never deadlocks it. *)
Theorem pools_answer_every_caller procs bodies k st :
  let io := newIOPool procs in let cpus := newCPUPool procs in
  nsteps (step io cpus) k (start bodies) st ->
  k + measure st <= 10 * List.length bodies /\
  (can_step io cpus st \/
   Forall (fun r => caller r = Answered FromJob \/ caller r = Answered FromContext /\ cancelled r = true) (reqs st)).
Proof.
  intros io cpus Hs. destruct (steps_sound io cpus _ _ _ (start_well_formed io cpus bodies) Hs) as (Hwf & Hk & Ha). split.
  - enough (measure (start bodies) = 10 * List.length bodies) by lia. clear. unfold measure. simpl.
    induction bodies as [|b bodies IH]; [done|]. simpl. rewrite IH. lia.
  - assert (Hans : Forall answered_by_job (reqs st)).
    { apply Ha. simpl. clear. induction bodies; simpl; constructor; done. }
    destruct (decide (Forall (fun r => caller r <> Waiting) (reqs st))) as [Hall|Hnot].
    + right. apply Forall_lookup_2. intros i r Hi. pose proof (Forall_lookup_1 _ _ _ _ Hall Hi) as Hw.
      pose proof (Forall_lookup_1 _ _ _ _ Hans Hi) as Hr. destruct (caller r) as [|[]] eqn:Hc; [done | by left | right].
      split; [done|]. by apply Hr.
    + left. apply not_Forall_Exists in Hnot; [|apply _].
      apply Exists_exists in Hnot as (r & Hin & Hr). apply list_elem_of_In, list_elem_of_lookup in Hin as [i Hi].
      assert (Hwait : caller r = Waiting) by (by destruct (decide (caller r = Waiting))).
      eapply waiting_progress; try done; apply newWorkerPool_pos.
Qed.

(** ** At work *)

(** One request with a cpu job, from submission to answer. *)
Module PoolDemo.
Definition io : pool := newIOPool 4.
Definition cpus : pool := newCPUPool 4.

Definition one (x : bool) c j k : state := mkState [mkRequest true x c j k] [] [].

Lemma runs_to_the_end : nsteps (step io cpus) 8 (start [true]) (one false (Answered FromJob) Done CDone).
Proof.
  eapply nsteps_l; [by eapply (step_send io cpus _ _ _ 0); [reflexivity | reflexivity | vm_compute; lia]|].
  eapply nsteps_l; [eapply (step_take io cpus _ [] _ 0); [reflexivity | vm_compute; lia]|].
  eapply nsteps_l; [eapply (step_move io cpus _ _ _ 0); [reflexivity | apply call_cpu]|].
  eapply nsteps_l; [eapply (step_cpu_send io cpus _ _ _ 0); [reflexivity | reflexivity | reflexivity | vm_compute; lia]|].
  eapply nsteps_l; [eapply (step_cpu_take io cpus _ _ [] 0); [reflexivity | vm_compute; lia]|].
  eapply nsteps_l; [eapply (step_move io cpus _ _ _ 0); [reflexivity | apply run_cpu]|].
  eapply nsteps_l; [eapply (step_move io cpus _ _ _ 0); [reflexivity | apply receive_cpu]|].
  eapply nsteps_l; [eapply (step_move io cpus _ _ _ 0); [reflexivity | apply receive]|].
  apply nsteps_O.
Qed.
End PoolDemo.

Lemma pools_answer_every_caller_witness :
  8 + measure (PoolDemo.one false (Answered FromJob) Done CDone) <= 10.
Proof. apply (pools_answer_every_caller 4 [true] _ _ PoolDemo.runs_to_the_end). Defined.
