(* ===== verification/AuthnPlugins.v ===== *)
(** * plugins/authn: the login methods and their registry

    The password method and the federated method, with the registry the login
    service looks them up in.  The connector of the federated method is a port
    (ports/federation). *)

From stdpp Require Import base tactics list gmap strings.
From S2P Require Import Prelude GoStrings Errors Domain Ports AuthPorts.

(** ** plugins/registry/authn_registry.go *)

Module AuthnRegistry.
Section Registry.
Context {W : Type}.

Definition AuthnRegistry : Type := gmap string (AuthnMethod W).

Definition Register (registry : AuthnRegistry) (method : option (AuthnMethod W)) : AuthnRegistry :=
  match method with
  | None => registry
  | Some m => <[method_Type m := m]> registry
  end.

Definition NewAuthnRegistry (methods : list (option (AuthnMethod W))) : AuthnRegistry :=
  foldl Register ∅ methods.

Definition Get (registry : AuthnRegistry) (methodType : AuthnMethodType) : option (AuthnMethod W) :=
  registry !! methodType.
End Registry.
End AuthnRegistry.

(** ** plugins/authn/password *)

Module password.
Section Method.
Context {W : Type}.
Record Method := NewMethod { users : option (UserRepository W); passwords : option (PasswordVerifier W) }.

Definition Authenticate (m : Method) (input : plugin.AuthenticateInput) : IO W (option plugin.AuthenticateResult) :=
  let username := TrimSpace (plugin.in_Username input) in
  match users m, passwords m with
  | Some users, Some passwords =>
      do* guard (negb (String.eqb username "") && negb (String.eqb (plugin.in_Password input) ""))
            AuthnErrInvalidCredentials in
      let* user := match plugin.in_User input with
                   | Some u => ret (Some u)
                   | None => FindByUsername users username
                   end in
      let* user := some_or user AuthnErrInvalidCredentials in
      do* guard (negb (String.eqb (user.Status user) "locked")) AuthnErrUserLocked in
      do* guard (String.eqb (user.Status user) "" || String.eqb (user.Status user) "active") AuthnErrUserDisabled in
      do* guard (VerifyPassword passwords (plugin.in_Password input) (user.PasswordHash user))
            AuthnErrInvalidCredentials in
      ret (Some {| plugin.Handled := true; plugin.Authenticated := true; plugin.UserID := user.ID user;
                   plugin.UserStatus := user.Status user; plugin.Subject := user.UserUUID user;
                   plugin.IdentityProvider := ""; plugin.Username := user.Username user;
                   plugin.DisplayName := user.DisplayName user; plugin.Email := user.Email user;
                   plugin.RedirectURI := "" |})
  | _, _ => throw AuthnErrInvalidCredentials
  end.

Definition method (m : Method) : AuthnMethod W := mkAuthnMethod W "password" AuthnMethodTypePassword (Authenticate m).
End Method.
End password.

(** ** plugins/authn/federated_oidc and its connector (ports/federation) *)

Module federated_oidc.
Record OIDCAuthenticateInput := mkIn {
  fi_RedirectURI : string; fi_ReturnTo : string; fi_State : string; fi_Code : string; fi_Nonce : string;
}.
Record OIDCAuthenticateResult := mkOut {
  fo_Authenticated : bool; fo_Subject : string; fo_Username : string; fo_DisplayName : string;
  fo_Email : string; fo_RedirectURI : string;
}.

Section Method.
Context {W : Type}.

Definition OIDCConnector : Type := OIDCAuthenticateInput -> IO W (option OIDCAuthenticateResult).

Definition Authenticate (connector : option OIDCConnector) (input : plugin.AuthenticateInput)
    : IO W (option plugin.AuthenticateResult) :=
  let* connector := some_or connector AuthnErrUnsupportedMethod in
  let* result := connector (mkIn (plugin.in_RedirectURI input) (plugin.in_ReturnTo input)
                              (plugin.in_State input) (plugin.in_Code input) (plugin.in_Nonce input)) in
  let* result := some_or result AuthnErrInvalidCredentials in
  ret (Some {| plugin.Handled := true; plugin.Authenticated := fo_Authenticated result; plugin.UserID := 0;
               plugin.UserStatus := ""; plugin.Subject := fo_Subject result;
               plugin.IdentityProvider := "federated_oidc"; plugin.Username := fo_Username result;
               plugin.DisplayName := fo_DisplayName result; plugin.Email := fo_Email result;
               plugin.RedirectURI := fo_RedirectURI result |}).

Definition method (connector : option OIDCConnector) : AuthnMethod W :=
  mkAuthnMethod W "federated_oidc" AuthnMethodTypeFederatedOIDC (Authenticate connector).
End Method.
End federated_oidc.
