(* ===== verification/AuthnService.v ===== *)
(** * application/authn: logging in

    The login service over the login methods of AuthnPlugins.  [Authenticate] checks the first factor, the limits and the
    state of the user, then creates a session or, when the user has a second
    factor, a challenge that one of the MFA operations turns into a session.
    The worker pools the service runs its steps on are in [WorkerPool]; here a
    step is the function it runs. *)

From stdpp Require Import base tactics list gmap strings.
From Stdlib Require Import ZArith Lia Ascii.
From S2P Require Import Prelude GoStrings GoJson GoTime GoCrypto Errors Domain Ports AuthPorts AuthnPlugins StateMask.

(** [uuid.NewSHA1(uuid.NameSpaceOID, data).String()] of google/uuid. *)
Class NameUUIDs := { uuid_NewSHA1 : string -> string }.

(** ** types.go *)

Record RateLimitPolicy := mkRateLimitPolicy {
  FailureWindow : duration;
  MaxFailuresPerIP : Z;
  MaxFailuresPerUser : Z;
  UserLockThreshold : Z;
  UserLockTTL : duration;
  PermanentUserLockThreshold : Z;
}.

Definition DefaultRateLimitPolicy : RateLimitPolicy :=
  mkRateLimitPolicy (15 * Minute) 20 5 5 (30 * Minute) 10.

Record AuthenticateInput := mkAuthenticateInput {
  ai_Method : string; ai_Username : string; ai_Password : string; ai_RedirectURI : string;
  ai_ReturnTo : string; ai_State : string; ai_Code : string; ai_Nonce : string;
  ai_IPAddress : string; ai_UserAgent : string;
}.

Record AuthenticateResult := mkAuthenticateResult {
  ar_SessionID : string; ar_UserID : Z; ar_Subject : string; ar_RoleCode : string;
  ar_RedirectURI : string; ar_ReturnTo : string; ar_MFARequired : bool; ar_MFAEnrollmentRequired : bool;
  ar_MFAChallengeID : string; ar_MFAMode : string; ar_PasskeyAvailable : bool; ar_PushStatus : string;
  ar_PushCode : string; ar_AuthenticatedAt : time; ar_ExpiresAt : time;
}.

Record PollMFAChallengeResult := mkPollResult {
  pm_ChallengeID : string; pm_MFAMode : string; pm_PasskeyAvailable : bool; pm_PushStatus : string;
  pm_PushCode : string; pm_ExpiresAt : time;
}.

Record DecideMFAPushInput := mkDecideInput {
  dp_ChallengeID : string; dp_ApproverSessionID : string; dp_Action : string; dp_MatchCode : string;
}.

(** A result next to an error, as [Authenticate] returns it when the second
    factor is still to come. *)
Abbreviation outcome := (AuthenticateResult * option error)%type.

Definition set_enrollment_required (r : AuthenticateResult) : AuthenticateResult :=
  mkAuthenticateResult (ar_SessionID r) (ar_UserID r) (ar_Subject r) (ar_RoleCode r) (ar_RedirectURI r)
    (ar_ReturnTo r) (ar_MFARequired r) true (ar_MFAChallengeID r) (ar_MFAMode r) (ar_PasskeyAvailable r)
    (ar_PushStatus r) (ar_PushCode r) (ar_AuthenticatedAt r) (ar_ExpiresAt r).

(** ** Names *)

Definition resolveMethodType (input : AuthenticateInput) : option AuthnMethodType :=
  let method := ToLower (TrimSpace (ai_Method input)) in
  if negb (String.eqb method "") then
    if String.eqb method AuthnMethodTypePassword || String.eqb method AuthnMethodTypeFederatedOIDC
    then Some method else None
  else if negb (blank (ai_Username input)) || negb (String.eqb (ai_Password input) "")
  then Some AuthnMethodTypePassword
  else if negb (blank (ai_Code input)) || negb (blank (ai_State input)) || negb (blank (ai_Nonce input))
  then Some AuthnMethodTypeFederatedOIDC
  else Some AuthnMethodTypePassword.

Definition contains_byte (x : ascii) (s : string) : bool :=
  existsb (Ascii.eqb x) (String.list_ascii_of_string s).

Definition normalizeFederatedEmail (value : string) : string :=
  let value := ToLower (TrimSpace value) in
  if String.eqb value "" then ""
  else if contains_byte " " value || negb (contains_byte "@" value) then ""
  else value.

Definition federatedSubjectUserUUID `{NameUUIDs} (identityProvider subject : string) : string :=
  let subject := TrimSpace subject in
  if String.eqb subject "" then ""
  else uuid_NewSHA1 (TrimSpace identityProvider +:+ "|" +:+ subject).

Definition shortStableID (value : string) : string :=
  HexEncode (take 6 (sha1_Sum (bytes_of (TrimSpace value)))).

(** The part before the first [@], when there is one and it is not empty. *)
Fixpoint before_at (s : string) : option string :=
  match s with
  | EmptyString => None
  | String a s' => if Ascii.eqb a "@" then Some EmptyString else option_map (String a) (before_at s')
  end.

(** [strings.ReplaceAll(s, "-", "")] *)
Definition drop_dashes (s : string) : string :=
  String.string_of_list_ascii (List.filter (fun a => negb (Ascii.eqb a "-")) (String.list_ascii_of_string s)).

Definition candidateFederatedUsername (result : plugin.AuthenticateResult) (userUUID : string) : string :=
  if negb (blank (plugin.Username result)) then TrimSpace (plugin.Username result) else
  let email := normalizeFederatedEmail (plugin.Email result) in
  if negb (String.eqb email "") then
    match before_at email with
    | Some (String a local) => String a local
    | _ => email
    end
  else if negb (blank (plugin.DisplayName result)) then TrimSpace (plugin.DisplayName result)
  else if negb (blank (plugin.Subject result)) then "oidc_" +:+ shortStableID (TrimSpace (plugin.Subject result))
  else if negb (blank userUUID) then "oidc_" +:+ drop_dashes (TrimSpace userUUID)
  else "oidc_user".

Definition trimUsernameTo (value : string) (limit : Z) : string :=
  if limit <=? 0 then ""
  else if Z.of_nat (String.length value) <=? limit then value
  else String.substring 0 (Z.to_nat limit) value.

(** How many bytes the first rune of the list takes; an invalid byte is a
    rune of its own. *)
Definition continuation (lo hi x : Z) : bool := (lo <=? x) && (x <=? hi).

Definition rune_len (l : list Z) : nat :=
  let c := continuation 128 191 in
  match l with
  | [] => 0%nat
  | a :: rest =>
      match rest with
      | b :: rest2 =>
          if (194 <=? a) && (a <=? 223) && c b then 2%nat else
          match rest2 with
          | d :: rest3 =>
              let lo := if a =? 224 then 160 else 128 in
              let hi := if a =? 237 then 159 else 191 in
              if (224 <=? a) && (a <=? 239) && continuation lo hi b && c d then 3%nat else
              match rest3 with
              | e :: _ =>
                  let lo := if a =? 240 then 144 else 128 in
                  let hi := if a =? 244 then 143 else 191 in
                  if (240 <=? a) && (a <=? 244) && continuation lo hi b && c d && c e then 4%nat else 1%nat
              | [] => 1%nat
              end
          | [] => 1%nat
          end
      | [] => 1%nat
      end
  end.

Definition username_char (x : Z) : bool :=
  (97 <=? x) && (x <=? 122) || (48 <=? x) && (x <=? 57) || (x =? 46) || (x =? 95) || (x =? 45).

(** The loop over the runes, until 32 bytes are written; the fuel is the
    number of bytes. *)
Fixpoint sanitize_runes (fuel : nat) (written : nat) (l : list Z) : list Z :=
  match fuel, l with
  | S fuel', x :: _ =>
      let out := if username_char x then x else 95 in
      let rest := if (32 <=? S written)%nat then [] else sanitize_runes fuel' (S written) (drop (rune_len l) l) in
      out :: rest
  | _, _ => []
  end.

Definition is_mark (a : ascii) : bool := Ascii.eqb a "." || Ascii.eqb a "_" || Ascii.eqb a "-".

Fixpoint drop_marks (l : list ascii) : list ascii :=
  match l with
  | [] => []
  | a :: rest => if is_mark a then drop_marks rest else l
  end.

(** [strings.Trim(s, "._-")] *)
Definition trim_marks (l : list ascii) : list ascii := rev (drop_marks (rev (drop_marks l))).

(** [for len(out) < 3 { out += "x" }] *)
Definition fill_to_three (s : string) : string :=
  s +:+ String.string_of_list_ascii (List.repeat "x"%char (3 - String.length s)).

Definition sanitizeFederatedUsername (value : string) : string :=
  let value := ToLower (TrimSpace value) in
  if String.eqb value "" then "" else
  let b := sanitize_runes (String.length value) 0 (bytes_of value) in
  trimUsernameTo (fill_to_three (String.string_of_list_ascii (trim_marks (List.map ascii_of b)))) 32.

(** [`["m"]`] and the like. *)
Definition amr_json (methods : list string) : string :=
  "[" +:+ String.concat "," (List.map (fun m => String quote (m +:+ String quote "")) methods) +:+ "]".

Definition sessionAuthContext (methodType : AuthnMethodType) : string * string :=
  if String.eqb methodType AuthnMethodTypeFederatedOIDC
  then ("urn:idp:acr:federated_oidc", amr_json ["federated_oidc"])
  else ("urn:idp:acr:pwd", amr_json ["pwd"]).

Definition normalizeMFAMode (mode : string) : string :=
  let m := TrimSpace mode in
  if String.eqb m mfaModePasskeyTOTPFallback then mfaModePasskeyTOTPFallback
  else if String.eqb m mfaModePushTOTPFallback then mfaModePushTOTPFallback
  else mfaModeTOTPOnly.

Definition normalizePushStatus (status : string) : string :=
  let s := TrimSpace (ToLower status) in
  if String.eqb s mfaPushStatusApproved then mfaPushStatusApproved
  else if String.eqb s mfaPushStatusDenied then mfaPushStatusDenied
  else mfaPushStatusPending.

Definition ttlUntil (now expiresAt : time) : duration :=
  let ttl := Sub expiresAt now in
  if ttl <=? 0 then Second else ttl.

Definition toPasskeyUser (u : user.Model) : PasskeyUser :=
  let id := FormatInt (user.ID u) in
  let handle := TrimSpace (user.UserUUID u) in
  let handle := if String.eqb handle "" && (0 <? user.ID u) then id else handle in
  let username := TrimSpace (user.Username u) in
  let username := if String.eqb username "" && (0 <? user.ID u) then id else username in
  let displayName := TrimSpace (user.DisplayName u) in
  let displayName := if String.eqb displayName "" then username else displayName in
  mkPasskeyUser handle username displayName.

(** ** The service *)

Section Service.
Context {W : Type} `{!Runtime W} `{!NameUUIDs}.

Record Service := mkService {
  sessionRepo : SessionRepository W;
  sessionCache : option (SessionCacheRepository W);
  rateLimits : option (RateLimitRepository W);
  mfaCache : option (MFARepository W);
  userRepo : UserRepository W;
  accounts : UserAccounts W;
  totpRepo : option (TOTPRepository W);
  passkeyRepo : option (PasskeyCredentialRepository W);
  registry : option (@AuthnRegistry.AuthnRegistry W);
  totp_provider : option (TOTPProvider W);
  passkey : option (PasskeyProvider W);
  sessionTTL : duration;
  mfaTTL : duration;
  forceMFAEnrollment : bool;
  ratePolicy : RateLimitPolicy;
}.

(** The policy [NewService] makes of the one it is given. *)
Definition effective_policy (p : RateLimitPolicy) : RateLimitPolicy :=
  let p := if (FailureWindow p <=? 0) && (MaxFailuresPerIP p =? 0) && (MaxFailuresPerUser p =? 0) &&
              (UserLockThreshold p =? 0) && (UserLockTTL p =? 0) && (PermanentUserLockThreshold p =? 0)
           then DefaultRateLimitPolicy else p in
  if PermanentUserLockThreshold p <=? 0
  then mkRateLimitPolicy (FailureWindow p) (MaxFailuresPerIP p) (MaxFailuresPerUser p) (UserLockThreshold p)
         (UserLockTTL p) (PermanentUserLockThreshold DefaultRateLimitPolicy)
  else p.

Definition NewService userRepo accounts sessionRepo sessionCache rateLimits mfaCache registry totpRepo totp
    sessionTTL mfaTTL forceMFAEnrollment ratePolicy : Service :=
  mkService sessionRepo sessionCache rateLimits mfaCache userRepo accounts totpRepo None registry totp None
    sessionTTL mfaTTL forceMFAEnrollment (effective_policy ratePolicy).

Definition WithPasskey (s : Service) (repo : option (PasskeyCredentialRepository W))
    (provider : option (PasskeyProvider W)) : Service :=
  mkService (sessionRepo s) (sessionCache s) (rateLimits s) (mfaCache s) (userRepo s) (accounts s) (totpRepo s)
    repo (registry s) (totp_provider s) provider (sessionTTL s) (mfaTTL s) (forceMFAEnrollment s) (ratePolicy s).

Context (s : Service).

(** *** Lookups *)

Definition lookupUserByUsername (username : string) : IO W (option user.Model) :=
  let username := TrimSpace username in
  if String.eqb username "" then ret None else FindByUsername (userRepo s) username.

Definition lookupTOTP (userID : Z) : IO W (option totp.Model) :=
  match totpRepo s with
  | Some repo => if userID <=? 0 then ret None else TOTP_FindByUserID repo userID
  | None => ret None
  end.

Fixpoint credential_jsons (credentials : list (option passkey.Model)) : list string :=
  match credentials with
  | [] => []
  | Some c :: rest =>
      let raw := TrimSpace (passkey.CredentialJSON c) in
      if String.eqb raw "" then credential_jsons rest else raw :: credential_jsons rest
  | None :: rest => credential_jsons rest
  end.

Definition lookupPasskeyCredentialJSON (userID : Z) : IO W (list string) :=
  match passkeyRepo s with
  | Some repo =>
      if userID <=? 0 then ret [] else
      let* credentials := Passkey_ListByUserID repo userID in ret (credential_jsons credentials)
  | None => ret []
  end.

(** *** The first factor *)

Definition preparePasswordAuthentication (username ipAddress : string) : IO W (option user.Model) :=
  let username := TrimSpace username in
  let ipAddress := TrimSpace ipAddress in
  do* match rateLimits s with
      | Some limits =>
          if String.eqb ipAddress "" then ret tt else
          let* locked := IsIPLocked limits ipAddress in guard (negb locked) AuthnErrRateLimited
      | None => ret tt
      end in
  let* user := lookupUserByUsername username in
  do* match user, rateLimits s with
      | Some u, Some limits =>
          let* locked := IsUserLocked limits (FormatInt (user.ID u)) in guard (negb locked) AuthnErrUserLocked
      | _, _ => ret tt
      end in
  ret user.

Definition is_locked (result : option RateLimitIncrementResult) : bool :=
  match result with Some r => rli_Locked r | None => false end.

(** The permanent lock, once its threshold is reached. *)
Definition lock_permanently (limits : RateLimitRepository W) (userID : string) (u : option user.Model)
    : IO W unit :=
  match LockAccount (accounts s), u with
  | None, _ =>
      do* attempt (ClearUserLock limits userID) in throw (Driver "user lock is not supported by repository")
  | Some _, None =>
      do* attempt (ClearUserLock limits userID) in throw (Driver "missing user model for lock persistence")
  | Some lock, Some u =>
      let* t := now in
      let* locked := attempt (lock (user.ID u) t) in
      match locked with
      | Err err => do* attempt (ClearUserLock limits userID) in throw err
      | Ok _ => throw AuthnErrUserLocked
      end
  end.

(** Always an error; [A] is the result there is none of. *)
Definition registerPasswordFailure {A} (username ipAddress : string) (u : option user.Model) : IO W A :=
  let username := TrimSpace username in
  let ipAddress := TrimSpace ipAddress in
  let policy := ratePolicy s in
  match rateLimits s with
  | None => throw AuthnErrInvalidCredentials
  | Some limits =>
      let userID := match u with
                    | Some u => if 0 <? user.ID u then FormatInt (user.ID u) else ""
                    | None => ""
                    end in
      do* (if (0 <? FailureWindow policy) && (0 <? MaxFailuresPerUser policy) && negb (String.eqb username "") then
             let* result := IncrementLoginFailByUser limits username userID (FailureWindow policy)
                              (UserLockThreshold policy) (UserLockTTL policy) in
             guard (negb (is_locked result)) AuthnErrUserLocked
           else ret tt) in
      do* (if (0 <? FailureWindow policy) && (0 <? MaxFailuresPerIP policy) && negb (String.eqb ipAddress "") then
             let* result := IncrementLoginFailByIP limits ipAddress (FailureWindow policy)
                              (MaxFailuresPerIP policy) (UserLockTTL policy) in
             guard (negb (is_locked result)) AuthnErrRateLimited
           else ret tt) in
      do* (if negb (String.eqb userID "") && negb (String.eqb username "") && (0 <? PermanentUserLockThreshold policy) then
             let* result := IncrementBlacklistByUser limits username userID (PermanentUserLockThreshold policy) in
             if is_locked result then lock_permanently limits userID u else ret tt
           else ret tt) in
      throw AuthnErrInvalidCredentials
  end.

Definition resetPasswordRateLimit (username ipAddress : string) : IO W unit :=
  match rateLimits s with
  | None => ret tt
  | Some limits =>
      let username := TrimSpace username in
      do* (if String.eqb username "" then ret tt else
           do* ResetLoginFailByUser limits username in ResetBlacklistByUser limits username) in
      let ipAddress := TrimSpace ipAddress in
      if String.eqb ipAddress "" then ret tt else
      do* ResetLoginFailByIP limits ipAddress in ClearIPLock limits ipAddress
  end.

(** *** The user behind a login *)

(** [if user, err := f(); err != nil || user != nil { return user, err }] *)
Definition or_else (find : IO W (option user.Model)) (next : IO W (option user.Model)) : IO W (option user.Model) :=
  let* found := find in
  match found with Some u => ret (Some u) | None => next end.

Definition plugin_user (result : plugin.AuthenticateResult) : user.Model :=
  user.mk (plugin.UserID result) (TrimSpace (plugin.Subject result)) (TrimSpace (plugin.Username result))
    (TrimSpace (plugin.Email result)) false (TrimSpace (plugin.DisplayName result)) "" "" 0 ""
    (TrimSpace (plugin.UserStatus result)) 0 None zero_time zero_time.

Definition find_by_subject (identityProvider subject : string) : IO W (option user.Model) :=
  let subject := TrimSpace subject in
  if String.eqb subject "" then ret None else
  or_else (FindByUserUUID (userRepo s) subject)
    (let federatedUUID := federatedSubjectUserUUID identityProvider subject in
     if negb (String.eqb federatedUUID "") && negb (String.eqb federatedUUID subject)
     then FindByUserUUID (userRepo s) federatedUUID else ret None).

Definition resolveExistingUser (result : plugin.AuthenticateResult) : IO W (option user.Model) :=
  if 0 <? plugin.UserID result then ret (Some (plugin_user result)) else
  or_else (find_by_subject (plugin.IdentityProvider result) (plugin.Subject result))
    (or_else
       (let username := TrimSpace (plugin.Username result) in
        if String.eqb username "" then ret None else FindByUsername (userRepo s) username)
       (let email := normalizeFederatedEmail (plugin.Email result) in
        if String.eqb email "" then ret None else FindByEmail (userRepo s) email)).

Definition pad2 (i : Z) : string := if i <? 10 then "0" +:+ FormatInt i else FormatInt i.

Definition username_candidate (base : string) (i : Z) : string :=
  if 0 <? i then
    let suffix := "_" +:+ pad2 i in
    trimUsernameTo base (32 - Z.of_nat (String.length suffix)) +:+ suffix
  else base.

(** [for i := 0; i < 100; i++] *)
Fixpoint probe_usernames (base : string) (i : Z) (left : nat) : IO W string :=
  match left with
  | O => throw (Driver "allocate federated username exhausted")
  | S left' =>
      let candidate := username_candidate base i in
      let* user := FindByUsername (userRepo s) candidate in
      match user with None => ret candidate | Some _ => probe_usernames base (i + 1) left' end
  end.

Definition username_base (result : plugin.AuthenticateResult) (userUUID : string) : string :=
  let base := sanitizeFederatedUsername (candidateFederatedUsername result userUUID) in
  let base := if String.eqb base "" then "oidc_user" else base in
  trimUsernameTo base 26.

Definition allocateFederatedUsername (result : plugin.AuthenticateResult) (userUUID : string) : IO W string :=
  probe_usernames (username_base result userUUID) 0 100.

Definition federatedPasswordHashPlaceholder : string := "!federated_oidc_only".

Definition federated_model (result : plugin.AuthenticateResult) (userUUID username : string) (t : time) : user.Model :=
  let email := normalizeFederatedEmail (plugin.Email result) in
  let email := if String.eqb email "" then userUUID +:+ "@federated.local" else email in
  let displayName := TrimSpace (plugin.DisplayName result) in
  let displayName := if String.eqb displayName "" then username else displayName in
  user.mk 0 userUUID username email (negb (String.eqb email "")) displayName federatedPasswordHashPlaceholder
    "" 0 "" "active" 0 None t t.

Definition provisionFederatedUser (result : plugin.AuthenticateResult) : IO W (option user.Model) :=
  let subject := TrimSpace (plugin.Subject result) in
  if String.eqb subject "" then ret None else
  let userUUID := federatedSubjectUserUUID (plugin.IdentityProvider result) subject in
  let* userUUID := (if String.eqb userUUID "" then NewString else ret userUUID) in
  let* username := allocateFederatedUsername result userUUID in
  let* t := now in
  let* created := attempt (User_Create (userRepo s) (federated_model result userUUID username t)) in
  match created with
  | Ok model => ret (Some model)
  | Err err =>
      let* existing := attempt (resolveExistingUser result) in
      match existing with
      | Ok (Some u) => ret (Some u)
      | _ => throw err
      end
  end.

(** *** Sessions *)

Definition createSession (u : user.Model) (methodType : AuthnMethodType)
    (ipAddress userAgent redirectURI returnTo : string) (t : time) : IO W AuthenticateResult :=
  let* sessionID := NewString in
  let expiresAt := Add t (sessionTTL s) in
  let '(acr, amrJSON) := sessionAuthContext methodType in
  let* strength :=
    (if String.eqb methodType AuthnMethodTypeFederatedOIDC then ret (acr, amrJSON) else
     let* credential := attempt (lookupTOTP (user.ID u)) in
     match credential with
     | Ok (Some _) => ret ("urn:idp:acr:mfa", amr_json ["pwd"; "otp"])
     | _ => ret (acr, amrJSON)
     end) in
  let '(acr, amrJSON) := strength in
  do* Session_Create (sessionRepo s)
        (session.mk 0 sessionID (user.ID u) (user.UserUUID u) acr amrJSON ipAddress userAgent t expiresAt None zero_time) in
  do* when_some (sessionCache s) (fun cache =>
        SessionCache_Save cache
          (mkSessionCacheEntry sessionID (FormatInt (user.ID u)) (user.UserUUID u) acr amrJSON ipAddress userAgent
             t expiresAt "active" SessionStateActive 0) (sessionTTL s)) in
  ret {| ar_SessionID := sessionID; ar_UserID := user.ID u; ar_Subject := user.UserUUID u;
         ar_RoleCode := user.RoleCode u; ar_RedirectURI := redirectURI; ar_ReturnTo := returnTo;
         ar_MFARequired := false; ar_MFAEnrollmentRequired := false; ar_MFAChallengeID := "";
         ar_MFAMode := ""; ar_PasskeyAvailable := false; ar_PushStatus := ""; ar_PushCode := "";
         ar_AuthenticatedAt := t; ar_ExpiresAt := expiresAt |}.

(** *** Challenges *)

Definition buildPushMatchCode : IO W string :=
  let* b := rand_bytes 1 in ret (FormatInt (nth 0 b 0 mod 90 + 10)).

(** [errors.Is(err, a) || errors.Is(err, b)] of a save *)
Definition state_error (err : error) : bool :=
  bool_decide (err = ErrStateVersionConflict) || bool_decide (err = ErrInvalidStateTransition).

Definition effective_mfaTTL : duration := if mfaTTL s <=? 0 then 5 * Minute else mfaTTL s.

Definition createMFAChallenge (u : user.Model) (input : AuthenticateInput) : IO W (string * string) :=
  match mfaCache s with
  | None => throw AuthnErrMFARequired
  | Some cache =>
      let* challengeID := NewString in
      let* pushCode := buildPushMatchCode in
      let* t := now in
      let* saved := attempt (SaveMFAChallenge cache
        (mkMFAChallengeEntry challengeID (FormatInt (user.ID u)) (user.UserUUID u) (user.Username u)
           (ai_IPAddress input) (ai_UserAgent input) (ai_ReturnTo input) (ai_RedirectURI input) mfaModeTOTPOnly
           mfaPushStatusPending pushCode "" zero_time "" (Add t effective_mfaTTL) 0 0) effective_mfaTTL) in
      match saved with
      | Ok _ => ret (challengeID, pushCode)
      | Err err => if state_error err then throw AuthnErrMFARequired else throw err
      end
  end.

(** The challenge of an id, when there is one and it has not expired. *)
Definition live_challenge (cache : MFARepository W) (challengeID : string) (t : time) : IO W MFAChallengeEntry :=
  let* challenge := GetMFAChallenge cache challengeID in
  let* challenge := some_or challenge AuthnErrMFAChallengeExpired in
  do* guard (After (mce_ExpiresAt challenge) t) AuthnErrMFAChallengeExpired in
  ret challenge.

Definition set_mode (mode : string) (e : MFAChallengeEntry) : MFAChallengeEntry :=
  mkMFAChallengeEntry (mce_ChallengeID e) (mce_UserID e) (mce_Subject e) (mce_Username e) (mce_IPAddress e)
    (mce_UserAgent e) (mce_ReturnTo e) (mce_RedirectURI e) mode (mce_PushStatus e) (mce_PushCode e)
    (mce_ApproverUserID e) (mce_DecidedAt e) (mce_PasskeySessionJSON e) (mce_ExpiresAt e) (mce_StateMask e)
    (mce_StateVersion e).

Definition set_passkey_session (json : string) (e : MFAChallengeEntry) : MFAChallengeEntry :=
  mkMFAChallengeEntry (mce_ChallengeID e) (mce_UserID e) (mce_Subject e) (mce_Username e) (mce_IPAddress e)
    (mce_UserAgent e) (mce_ReturnTo e) (mce_RedirectURI e) (mce_MFAMode e) (mce_PushStatus e) (mce_PushCode e)
    (mce_ApproverUserID e) (mce_DecidedAt e) json (mce_ExpiresAt e) (mce_StateMask e) (mce_StateVersion e).

Definition set_decision (action approver : string) (t : time) (e : MFAChallengeEntry) : MFAChallengeEntry :=
  mkMFAChallengeEntry (mce_ChallengeID e) (mce_UserID e) (mce_Subject e) (mce_Username e) (mce_IPAddress e)
    (mce_UserAgent e) (mce_ReturnTo e) (mce_RedirectURI e) (mce_MFAMode e) action (mce_PushCode e)
    approver t (mce_PasskeySessionJSON e) (mce_ExpiresAt e) (mce_StateMask e) (mce_StateVersion e).

(** A save whose state errors end the challenge. *)
Definition save_challenge (cache : MFARepository W) (challenge : MFAChallengeEntry) (t : time) : IO W unit :=
  let* saved := attempt (SaveMFAChallenge cache challenge (ttlUntil t (mce_ExpiresAt challenge))) in
  match saved with
  | Ok _ => ret tt
  | Err err => if state_error err then throw AuthnErrMFAChallengeExpired else throw err
  end.

Definition updateMFAChallengeMode (challengeID mode : string) : IO W unit :=
  let* cache := some_or (mfaCache s) AuthnErrMFAChallengeExpired in
  let challengeID := TrimSpace challengeID in
  do* guard (negb (String.eqb challengeID "")) AuthnErrMFAChallengeExpired in
  let* t := now in
  let* challenge := live_challenge cache challengeID t in
  save_challenge cache (set_mode (normalizeMFAMode mode) challenge) t.

(** *** Authenticate *)

Definition no_result : AuthenticateResult :=
  mkAuthenticateResult "" 0 "" "" "" "" false false "" "" false "" "" zero_time zero_time.

Definition redirect_result (uri : string) : AuthenticateResult :=
  mkAuthenticateResult "" 0 "" "" uri "" false false "" "" false "" "" zero_time zero_time.

Definition mfa_required_result (u : user.Model) (redirectURI returnTo challengeID mode pushCode : string)
    (passkeyAvailable : bool) : AuthenticateResult :=
  mkAuthenticateResult "" (user.ID u) (user.UserUUID u) "" redirectURI returnTo true false challengeID mode
    passkeyAvailable mfaPushStatusPending pushCode zero_time zero_time.

Definition user_state (u : user.Model) : option error :=
  if String.eqb (user.Status u) "locked" then Some (AuthnErrUserLocked : error)
  else if negb (String.eqb (user.Status u) "") && negb (String.eqb (user.Status u) "active")
  then Some (AuthnErrUserDisabled : error) else None.

(** After the first factor of a password login: the second one, enrollment,
    or a session. *)
Definition second_factor (u : user.Model) (input : AuthenticateInput) (redirectURI : string) (t : time)
    : IO W outcome :=
  let* credential := lookupTOTP (user.ID u) in
  let* passkeys := lookupPasskeyCredentialJSON (user.ID u) in
  let passkeyAvailable := negb (bool_decide (passkeys = [])) && match passkey s with Some _ => true | None => false end in
  if match credential with Some _ => true | None => false end || passkeyAvailable then
    let* challenge := createMFAChallenge u input in
    let '(challengeID, pushCode) := challenge in
    let mfaMode := if passkeyAvailable then mfaModePasskeyTOTPFallback else mfaModeTOTPOnly in
    do* updateMFAChallengeMode challengeID mfaMode in
    ret (mfa_required_result u redirectURI (ai_ReturnTo input) challengeID mfaMode pushCode passkeyAvailable,
         Some (AuthnErrMFARequired : error))
  else
    let* r := createSession u AuthnMethodTypePassword (ai_IPAddress input) (ai_UserAgent input) redirectURI
                (ai_ReturnTo input) t in
    if forceMFAEnrollment s then ret (set_enrollment_required r, Some (AuthnErrMFAEnrollmentRequired : error))
    else ret (r, None).

(** The user of a successful first factor. *)
Definition login_user (federated : bool) (result : plugin.AuthenticateResult) : IO W user.Model :=
  let* user := (let* existing := resolveExistingUser result in
                match existing with
                | Some u => ret (Some u)
                | None => if federated then provisionFederatedUser result else ret None
                end) in
  let* user := some_or user AuthnErrInvalidCredentials in
  do* check (user_state user) in
  ret user.

Definition authn_input (input : AuthenticateInput) (u : option user.Model) : plugin.AuthenticateInput :=
  plugin.mkInput (ai_Username input) (ai_Password input) (ai_RedirectURI input) (ai_ReturnTo input)
    (ai_State input) (ai_Code input) (ai_Nonce input) u.

(** What the login method answered: a session is still possible, the caller
    is to be sent away, or the credentials are wrong. *)
Inductive first_factor :=
| FactorPassed (result : plugin.AuthenticateResult)
| FactorRedirect (uri : string)
| FactorRejected.

Definition first_factor_of (result : option plugin.AuthenticateResult) : first_factor :=
  match result with
  | Some r =>
      if negb (String.eqb (plugin.RedirectURI r) "") && negb (plugin.Authenticated r) then FactorRedirect (plugin.RedirectURI r)
      else if plugin.Handled r && plugin.Authenticated r then FactorPassed r else FactorRejected
  | None => FactorRejected
  end.

Definition Authenticate (input : AuthenticateInput) : IO W outcome :=
  let* registry := some_or (registry s) AuthnErrUnsupportedMethod in
  let* methodType := some_or (resolveMethodType input) AuthnErrUnsupportedMethod in
  let* method := some_or (AuthnRegistry.Get registry methodType) AuthnErrUnsupportedMethod in
  let password := String.eqb methodType AuthnMethodTypePassword in
  let* passwordUser :=
    (if password then preparePasswordAuthentication (ai_Username input) (ai_IPAddress input) else ret None) in
  let* authnResult := attempt (method_Authenticate method (authn_input input passwordUser)) in
  match authnResult with
  | Err err =>
      if password && bool_decide (err = AuthnErrInvalidCredentials)
      then registerPasswordFailure (ai_Username input) (ai_IPAddress input) passwordUser
      else throw err
  | Ok result =>
      match first_factor_of result with
      | FactorRedirect uri => ret (redirect_result uri, None)
      | FactorRejected =>
          if password then registerPasswordFailure (ai_Username input) (ai_IPAddress input) passwordUser
          else throw AuthnErrInvalidCredentials
      | FactorPassed r =>
          let* user := login_user (String.eqb methodType AuthnMethodTypeFederatedOIDC) r in
          let* t := now in
          if password then
            do* resetPasswordRateLimit (user.Username user) (ai_IPAddress input) in
            second_factor user input (plugin.RedirectURI r) t
          else
            let* r := createSession user methodType (ai_IPAddress input) (ai_UserAgent input)
                        (plugin.RedirectURI r) (ai_ReturnTo input) t in
            ret (r, None)
      end
  end.

(** *** Second factors *)

Definition totpStepReplayTTL : duration := 120 * Second.

(** [strconv.ParseInt(userID, 10, 64)], positive. *)
Definition challenge_user_id (userID : string) : option Z :=
  match ParseInt userID with Some id => if id <=? 0 then None else Some id | None => None end.

Definition session_of_challenge (u : user.Model) (challenge : MFAChallengeEntry) (t : time) : IO W AuthenticateResult :=
  createSession u AuthnMethodTypePassword (mce_IPAddress challenge) (mce_UserAgent challenge)
    (mce_RedirectURI challenge) (mce_ReturnTo challenge) t.

Definition VerifyTOTP (ChallengeID Code : string) : IO W AuthenticateResult :=
  let* cache := some_or (mfaCache s) AuthnErrMFAChallengeExpired in
  let* t := now in
  let* challenge := live_challenge cache (TrimSpace ChallengeID) t in
  let* userID := some_or (challenge_user_id (mce_UserID challenge)) AuthnErrMFAChallengeExpired in
  let* user := User_FindByID (userRepo s) userID in
  let* user := some_or user AuthnErrMFAChallengeExpired in
  let* credential := lookupTOTP (user.ID user) in
  let* credential := some_or credential AuthnErrInvalidTOTPCode in
  let* totp := some_or (totp_provider s) AuthnErrInvalidTOTPCode in
  let* matchedStep := some_or (VerifyCodeWithStep totp (totp.Secret credential) Code t) AuthnErrInvalidTOTPCode in
  let* reserved := ReserveTOTPStepUse cache (mce_UserID challenge) TOTPPurposeLogin matchedStep totpStepReplayTTL in
  do* guard reserved AuthnErrTOTPCodeReused in
  do* DeleteMFAChallenge cache (mce_ChallengeID challenge) in
  let* result := session_of_challenge user challenge t in
  match passkey s, passkeyRepo s with
  | Some _, Some _ =>
      let* passkeys := lookupPasskeyCredentialJSON (user.ID user) in
      ret (if bool_decide (passkeys = []) then set_enrollment_required result else result)
  | _, _ => ret result
  end.

(** [s.mfaCache == nil || s.passkey == nil || s.passkeyRepo == nil] *)
Definition passkey_parts : option (MFARepository W * PasskeyProvider W * PasskeyCredentialRepository W) :=
  match mfaCache s, passkey s, passkeyRepo s with
  | Some cache, Some provider, Some repo => Some (cache, provider, repo)
  | _, _, _ => None
  end.

(** The active user of a challenge; the id may have spaces around it. *)
Definition active_challenge_user (challenge : MFAChallengeEntry) : IO W user.Model :=
  let* userID := some_or (challenge_user_id (TrimSpace (mce_UserID challenge))) AuthnErrMFAChallengeExpired in
  let* user := User_FindByID (userRepo s) userID in
  let* user := some_or user AuthnErrInvalidCredentials in
  do* guard (String.eqb (user.Status user) "active") AuthnErrInvalidCredentials in
  ret user.

Definition BeginMFAPasskey (ChallengeID : string) : IO W (string * string * time) :=
  let* parts := some_or passkey_parts AuthnErrPasskeyUnavailable in
  let '(cache, provider, _) := parts in
  let* t := now in
  let* challenge := live_challenge cache (TrimSpace ChallengeID) t in
  do* guard (String.eqb (normalizeMFAMode (mce_MFAMode challenge)) mfaModePasskeyTOTPFallback) AuthnErrPasskeyUnavailable in
  let* user := active_challenge_user challenge in
  let* credentialJSON := lookupPasskeyCredentialJSON (user.ID user) in
  do* guard (negb (bool_decide (credentialJSON = []))) AuthnErrPasskeyUnavailable in
  let* begun := BeginLogin provider (toPasskeyUser user) credentialJSON in
  let '(optionsJSON, sessionJSON) := begun in
  let challenge := set_passkey_session sessionJSON challenge in
  do* save_challenge cache challenge t in
  ret (mce_ChallengeID challenge, optionsJSON, mce_ExpiresAt challenge).

Definition VerifyMFAPasskey (ChallengeID ResponseJSON : string) : IO W AuthenticateResult :=
  let* parts := some_or passkey_parts AuthnErrPasskeyUnavailable in
  let '(cache, provider, repo) := parts in
  let* t := now in
  let* challenge := live_challenge cache (TrimSpace ChallengeID) t in
  do* guard (String.eqb (normalizeMFAMode (mce_MFAMode challenge)) mfaModePasskeyTOTPFallback) AuthnErrPasskeyUnavailable in
  do* guard (negb (blank (mce_PasskeySessionJSON challenge))) AuthnErrPasskeySessionMissing in
  let* user := active_challenge_user challenge in
  let* credentialJSON := lookupPasskeyCredentialJSON (user.ID user) in
  do* guard (negb (bool_decide (credentialJSON = []))) AuthnErrPasskeyUnavailable in
  let* finished := FinishLogin provider (toPasskeyUser user) credentialJSON (mce_PasskeySessionJSON challenge) ResponseJSON in
  let '(credentialID, updatedCredentialJSON) := finished in
  do* (if negb (blank credentialID) && negb (blank updatedCredentialJSON) then
         let* _ := attempt (Passkey_Upsert repo
           (passkey.mk 0 (user.ID user) (TrimSpace credentialID) (TrimSpace updatedCredentialJSON) (Some t) t t)) in ret tt
       else ret tt) in
  do* DeleteMFAChallenge cache (mce_ChallengeID challenge) in
  session_of_challenge user challenge t.

Definition poll_result (challenge : MFAChallengeEntry) (passkeyAvailable : bool) : PollMFAChallengeResult :=
  mkPollResult (mce_ChallengeID challenge) (normalizeMFAMode (mce_MFAMode challenge)) passkeyAvailable
    (normalizePushStatus (mce_PushStatus challenge)) (mce_PushCode challenge) (mce_ExpiresAt challenge).

Definition PollMFAChallenge (ChallengeID : string) : IO W PollMFAChallengeResult :=
  let* cache := some_or (mfaCache s) AuthnErrMFAChallengeExpired in
  let* t := now in
  let* challenge := live_challenge cache (TrimSpace ChallengeID) t in
  ret (poll_result challenge (String.eqb (normalizeMFAMode (mce_MFAMode challenge)) mfaModePasskeyTOTPFallback)).

(** The user of a session that is active in the cache or in the database. *)
Definition resolveActiveSessionUserID (sessionID : string) : IO W Z :=
  let sessionID := TrimSpace sessionID in
  do* guard (negb (String.eqb sessionID "")) AuthnErrMFAApproverMismatch in
  let* t := now in
  let* cached :=
    match sessionCache s with
    | None => ret None
    | Some cache =>
        let* entry := SessionCache_Get cache sessionID in
        ret (match entry with
             | Some e => if IsSessionEntryActive entry t then challenge_user_id (TrimSpace (sce_UserID e)) else None
             | None => None
             end)
    end in
  match cached with
  | Some userID => ret userID
  | None =>
      let* m := FindBySessionID (sessionRepo s) sessionID in
      let* m := some_or m AuthnErrMFAApproverMismatch in
      do* guard (bool_decide (session.LoggedOutAt m = None) && After (session.ExpiresAt m) t) AuthnErrMFAApproverMismatch in
      ret (session.UserID m)
  end.

Definition DecideMFAPush (input : DecideMFAPushInput) : IO W PollMFAChallengeResult :=
  let* cache := some_or (mfaCache s) AuthnErrMFAChallengeExpired in
  let action := ToLower (TrimSpace (dp_Action input)) in
  do* guard (String.eqb action mfaPushStatusApproved || String.eqb action mfaPushStatusDenied) AuthnErrInvalidMFAAction in
  let* t := now in
  let* challenge := live_challenge cache (TrimSpace (dp_ChallengeID input)) t in
  do* guard (String.eqb (normalizeMFAMode (mce_MFAMode challenge)) mfaModePushTOTPFallback) AuthnErrInvalidMFAAction in
  let* approverUserID := resolveActiveSessionUserID (dp_ApproverSessionID input) in
  let* challengeUserID := some_or (challenge_user_id (TrimSpace (mce_UserID challenge))) AuthnErrMFAChallengeExpired in
  do* guard (approverUserID =? challengeUserID) AuthnErrMFAApproverMismatch in
  do* guard (negb (String.eqb action mfaPushStatusApproved) ||
             negb (blank (dp_MatchCode input)) &&
             String.eqb (TrimSpace (dp_MatchCode input)) (TrimSpace (mce_PushCode challenge))) AuthnErrInvalidPushMatchCode in
  let challenge := set_decision action (FormatInt approverUserID) t challenge in
  let* saved := attempt (SaveMFAChallenge cache challenge (ttlUntil t (mce_ExpiresAt challenge))) in
  match saved with
  | Ok _ => ret (poll_result challenge false)
  | Err err =>
      if bool_decide (err = ErrStateVersionConflict) then throw AuthnErrMFAChallengeExpired
      else if bool_decide (err = ErrInvalidStateTransition) then throw AuthnErrInvalidMFAAction
      else throw err
  end.

Definition FinalizeMFAPush (ChallengeID : string) : IO W AuthenticateResult :=
  let* cache := some_or (mfaCache s) AuthnErrMFAChallengeExpired in
  let* t := now in
  let* challenge := live_challenge cache (TrimSpace ChallengeID) t in
  do* guard (negb (String.eqb (normalizePushStatus (mce_PushStatus challenge)) mfaPushStatusDenied)) AuthnErrMFAPushRejected in
  do* guard (String.eqb (normalizePushStatus (mce_PushStatus challenge)) mfaPushStatusApproved) AuthnErrMFAPushNotApproved in
  let* user := active_challenge_user challenge in
  do* DeleteMFAChallenge cache (mce_ChallengeID challenge) in
  session_of_challenge user challenge t.
End Service.

Arguments Service W : clear implicits.
