(* ===== verification/AuthnTheorems.v ===== *)
(** * What a login proves

    The outcomes of [Authenticate] and of the second factors: what each
    presupposes of the ports; and the bounds on federated user names. *)

From stdpp Require Import base tactics list gmap strings relations.
From Stdlib Require Import ZArith Lia Ascii.
From S2P Require Import Prelude GoStrings GoJson GoJsonObject GoTime GoCrypto Errors Domain Ports AuthPorts StateMask AuthnPlugins AuthnService.

Section Outcomes.
Context {W : Type} `{!Runtime W} `{HN : NameUUIDs}.
Implicit Types (s : AuthnService.Service W) (w : W).

(** The first factor of a password login ran with the limits open. *)
Definition limits_open s (input : AuthenticateInput) (passwordUser : option user.Model) w w1 : Prop :=
  preparePasswordAuthentication s (ai_Username input) (ai_IPAddress input) w = (Ok passwordUser, w1) /\
  forall limits, rateLimits s = Some limits ->
    (TrimSpace (ai_IPAddress input) <> "" ->
       exists wb, IsIPLocked limits (TrimSpace (ai_IPAddress input)) w = (Ok false, wb)) /\
    (forall u, passwordUser = Some u ->
       exists wa, IsUserLocked limits (FormatInt (user.ID u)) wa = (Ok false, w1)).

Lemma prepare_open s input pu w w1 :
  preparePasswordAuthentication s (ai_Username input) (ai_IPAddress input) w = (Ok pu, w1) -> limits_open s input pu w w1.
Proof.
  intros H. split; [done|]. intros limits Hl. unfold preparePasswordAuthentication in H. rewrite Hl in H.
  run H as u0 wa Hip. run H as found wb Hf. run H as u1 wc Hlock. apply ret_Ok in H as [-> ->]. split.
  - intros Hne. rewrite (proj2 (String.eqb_neq _ _) Hne) in Hip. run Hip as locked wd Hq.
    apply guard_Ok in Hip as [Hn <-]. apply negb_true_iff in Hn as ->. by exists wd.
  - intros u ->. run Hlock as locked wd Hq. apply guard_Ok in Hlock as [Hn <-].
    apply negb_true_iff in Hn as ->. by exists wb.
Qed.

(** The user of a login: found or created for the identity the method
    vouched for, and neither locked nor disabled. *)
Lemma login_user_sound s federated r w u w' :
  login_user s federated r w = (Ok u, w') ->
  user_state u = None /\
  ((exists wa, resolveExistingUser s r w = (Ok (Some u), wa)) \/
   federated = true /\ exists wa, resolveExistingUser s r w = (Ok None, wa) /\ provisionFederatedUser s r wa = (Ok (Some u), w')).
Proof.
  unfold login_user. intros H. run H as found wa Hf. run_some H as u0 Hu. run_check H as Hst.
  apply ret_Ok in H as [-> ->]. split; [done|]. subst found. run Hf as existing wb He. destruct existing as [u1|].
  - apply ret_Ok in Hf as [[= ->] <-]. left. by exists wb.
  - destruct federated; [|by apply ret_Ok in Hf as [? _]]. right. split; [done|]. by exists wb.
Qed.

(** The challenge a password login leaves: nothing decided, for [ttl]. *)
Definition pending_challenge (u : user.Model) (input : AuthenticateInput) (challengeID pushCode : string) (expiresAt : time)
    : MFAChallengeEntry :=
  mkMFAChallengeEntry challengeID (FormatInt (user.ID u)) (user.UserUUID u) (user.Username u)
    (ai_IPAddress input) (ai_UserAgent input) (ai_ReturnTo input) (ai_RedirectURI input) mfaModeTOTPOnly
    mfaPushStatusPending pushCode "" zero_time "" expiresAt 0 0.

(** From [w] to [w'] a fresh challenge for [u] was saved in the cache, read
    back alive and saved in its mode, and nothing else was called. *)
Definition challenge_created s (u : user.Model) (input : AuthenticateInput) (mode challengeID pushCode : string) w w' : Prop :=
  exists cache t t' c w1 w2 w3 w4 w5 w6,
    mfaCache s = Some cache /\ NewString w = (Ok challengeID, w1) /\ buildPushMatchCode w1 = (Ok pushCode, w2) /\
    now w2 = (Ok t, w3) /\
    SaveMFAChallenge cache (pending_challenge u input challengeID pushCode (Add t (effective_mfaTTL s)))
      (effective_mfaTTL s) w3 = (Ok tt, w4) /\
    now w4 = (Ok t', w5) /\ GetMFAChallenge cache (TrimSpace challengeID) w5 = (Ok (Some c), w6) /\
    t' < mce_ExpiresAt c /\
    SaveMFAChallenge cache (set_mode mode c) (ttlUntil t' (mce_ExpiresAt c)) w6 = (Ok tt, w').

Lemma challenge_created_of s u input mode id code w w1 w' :
  normalizeMFAMode mode = mode ->
  createMFAChallenge s u input w = (Ok (id, code), w1) -> updateMFAChallengeMode s id mode w1 = (Ok tt, w') ->
  challenge_created s u input mode id code w w'.
Proof.
  intros Hmode Hc Hm. unfold createMFAChallenge in Hc. unfold challenge_created.
  destruct (mfaCache s) as [cache|] eqn:Hcache; [|done].
  run Hc as id0 wa Hid. run Hc as code0 wb Hcode. run Hc as t wc Ht. run Hc as saved wd Hs. apply attempt_inv in Hs.
  destruct saved as [[]|err]; [|by destruct (state_error err)]. apply ret_Ok in Hc as [[= <- <-] <-].
  unfold updateMFAChallengeMode in Hm. run_some Hm as cache0 Hcache0. rewrite Hcache in Hcache0. injection Hcache0 as <-.
  run_guard Hm as Hne. run Hm as t' we Ht'.
  run Hm as c wf Hlive. unfold live_challenge in Hlive. run Hlive as found wg Hg. run_some Hlive as c0 Hfound.
  run_guard Hlive as Hexp. apply ret_Ok in Hlive as [-> ->]. subst found.
  unfold save_challenge in Hm. run Hm as saved' wh Hs'. apply attempt_inv in Hs'.
  destruct saved' as [[]|err]; [|by destruct (state_error err)]. apply ret_Ok in Hm as [_ ->]. rewrite Hmode in Hs'.
  exists cache, t, t', c, wa, wb, wc, wd, we, wf. do 7 (split; [done|]). split; [by apply After_spec | done].
Qed.

Definition is_password (methodType : AuthnMethodType) : bool := String.eqb methodType AuthnMethodTypePassword.
Definition is_federated (methodType : AuthnMethodType) : bool := String.eqb methodType AuthnMethodTypeFederatedOIDC.

(** The registered method of the request answered [r], after the limits were
    found open when it takes a password; [w'] is the state it left. *)
Definition first_factor_ran s (input : AuthenticateInput) methodType (r : plugin.AuthenticateResult) w w' : Prop :=
  exists reg method passwordUser w1,
    registry s = Some reg /\ resolveMethodType input = Some methodType /\
    AuthnRegistry.Get reg methodType = Some method /\
    (if is_password methodType then limits_open s input passwordUser w w1 else passwordUser = None /\ w1 = w) /\
    method_Authenticate method (authn_input input passwordUser) w1 = (Ok (Some r), w').

(** It vouched for an identity, and the user behind it may log in. *)
Definition first_factor_passed s (input : AuthenticateInput) methodType (r : plugin.AuthenticateResult) (u : user.Model) w w' : Prop :=
  plugin.Handled r = true /\ plugin.Authenticated r = true /\ user_state u = None /\
  exists w1, first_factor_ran s input methodType r w w1 /\ login_user s (is_federated methodType) r w1 = (Ok u, w').

(** The user has no second factor this server can ask for. *)
Definition no_second_factor s (credential : option totp.Model) (passkeys : list string) : bool :=
  bool_decide (credential = None) && (bool_decide (passkeys = []) || bool_decide (passkey s = None)).

(** How a password login ends for a user whose password was right. *)
Definition password_outcome s (u : user.Model) input (result : plugin.AuthenticateResult) (t : time) (r : AuthenticateResult) (e : option error) w w' : Prop :=
  exists credential passkeys w1 w2 w3,
    resetPasswordRateLimit s (user.Username u) (ai_IPAddress input) w = (Ok tt, w1) /\
    lookupTOTP s (user.ID u) w1 = (Ok credential, w2) /\
    lookupPasskeyCredentialJSON s (user.ID u) w2 = (Ok passkeys, w3) /\
    if no_second_factor s credential passkeys
    then exists r0,
      createSession s u AuthnMethodTypePassword (ai_IPAddress input) (ai_UserAgent input) (plugin.RedirectURI result) (ai_ReturnTo input) t w3 = (Ok r0, w') /\
      if forceMFAEnrollment s then r = set_enrollment_required r0 /\ e = Some (AuthnErrMFAEnrollmentRequired : error)
      else r = r0 /\ e = None
    else exists challengeID pushCode (available : bool),
      let mode := if available then mfaModePasskeyTOTPFallback else mfaModeTOTPOnly in
      (available = true <-> passkeys <> [] /\ passkey s <> None) /\
      challenge_created s u input mode challengeID pushCode w3 w' /\
      e = Some (AuthnErrMFARequired : error) /\
      r = mfa_required_result u (plugin.RedirectURI result) (ai_ReturnTo input) challengeID mode pushCode available.

Lemma second_factor_cases s u input result t w w1 r e w' :
  resetPasswordRateLimit s (user.Username u) (ai_IPAddress input) w = (Ok tt, w1) ->
  second_factor s u input (plugin.RedirectURI result) t w1 = (Ok (r, e), w') ->
  password_outcome s u input result t r e w w'.
Proof.
  unfold second_factor. intros Hreset H. run H as credential w2 Hc. run H as passkeys w3 Hp.
  exists credential, passkeys, w1, w2, w3. do 3 (split; [done|]). unfold no_second_factor.
  set (available := negb (bool_decide (passkeys = [])) && match passkey s with Some _ => true | None => false end) in H.
  assert (Hcond : match credential with Some _ => true | None => false end || available =
    negb (bool_decide (credential = None) && (bool_decide (passkeys = []) || bool_decide (passkey s = None)))).
  { unfold available. destruct credential, passkeys, (passkey s); reflexivity. }
  cbv zeta in H. rewrite Hcond in H. destruct (bool_decide (credential = None) && _); cbn [negb] in H.
  - run H as r0 w4 Hs. exists r0. destruct (forceMFAEnrollment s); apply ret_Ok in H as [[= <- <-] <-]; done.
  - run H as challenge w4 Hch. destruct challenge as [challengeID pushCode]. run H as u0 w5 Hm.
    apply ret_Ok in H as [[= <- <-] <-]. exists challengeID, pushCode, available. cbv zeta. split; [|split; [|done]].
    + unfold available. destruct passkeys, (passkey s); cbn; naive_solver.
    + eapply challenge_created_of; [by destruct available | exact Hch | by destruct u0].
Qed.

(** C26. Every way to come out of [Authenticate] without an error, state by
    state.  The registered method of the request ran, a password one after
    the limits were found open.  Either it sent the caller to another party
    without vouching for anybody, and nothing was done after it; or it
    vouched for a user who may log in.  A password login of a user with a
    second factor, a TOTP credential or a usable passkey, then saves a fresh
    challenge for that user and answers with it: between the first factor and
    the answer only the limits are reset, the factors looked up and the
    challenge saved, so no session is created.  One without a second factor
    creates a session, flagged when enrollment is enforced; so does a login
    by another method. *)
Theorem login_outcomes s input w r e w' :
  Authenticate s input w = (Ok (r, e), w') ->
  (exists methodType result, first_factor_ran s input methodType result w w' /\
     plugin.Authenticated result = false /\ plugin.RedirectURI result <> "" /\
     r = redirect_result (plugin.RedirectURI result) /\ e = None) \/
  exists methodType result u t w1 w2, first_factor_passed s input methodType result u w w1 /\ now w1 = (Ok t, w2) /\
    if is_password methodType then password_outcome s u input result t r e w2 w'
    else e = None /\
      createSession s u methodType (ai_IPAddress input) (ai_UserAgent input) (plugin.RedirectURI result) (ai_ReturnTo input) t w2 = (Ok r, w').
Proof.
  unfold Authenticate. intros H. run_some H as reg Hreg. run_some H as methodType Hm. run_some H as method Hg.
  run H as pu w1 Hprep. run H as answer w2 Ha. apply attempt_inv in Ha.
  assert (Hpre : if is_password methodType then limits_open s input pu w w1 else pu = None /\ w1 = w).
  { unfold is_password. destruct (String.eqb methodType AuthnMethodTypePassword); [by apply prepare_open|].
    by apply ret_Ok in Hprep as [<- <-]. }
  assert (Hfail : forall wx, registerPasswordFailure (A := outcome) s (ai_Username input) (ai_IPAddress input) pu wx <> (Ok (r, e), w')).
  { intros wx Hx. unfold registerPasswordFailure in Hx. destruct (rateLimits s); [|by apply throw_Ok in Hx].
    run Hx as u1 wa H1. run Hx as u2 wb H2. run Hx as u3 wc H3. by apply throw_Ok in Hx. }
  destruct answer as [result|err]; cycle 1.
  { exfalso. destruct (_ && _); [by eapply Hfail | by apply throw_Ok in H]. }
  unfold first_factor_of in H. destruct result as [result|]; cycle 1.
  { exfalso. destruct (String.eqb _ _); [by eapply Hfail | by apply throw_Ok in H]. }
  assert (Hran : first_factor_ran s input methodType result w w2) by by exists reg, method, pu, w1.
  destruct (negb (String.eqb (plugin.RedirectURI result) "") && negb (plugin.Authenticated result)) eqn:Hredir.
  { apply ret_Ok in H as [[= <- <-] <-]. left. apply andb_true_iff in Hredir as [Hu Hn].
    apply negb_true_iff, String.eqb_neq in Hu. apply negb_true_iff in Hn. by exists methodType, result. }
  destruct (plugin.Handled result && plugin.Authenticated result) eqn:Hok; cycle 1.
  { exfalso. destruct (String.eqb _ _); [by eapply Hfail | by apply throw_Ok in H]. }
  apply andb_true_iff in Hok as [Hh Hauth]. right. run H as u w3 Hu. run H as t w4 Ht.
  exists methodType, result, u, t, w3, w4. split; [|split; [done|]].
  { do 2 (split; [done|]). split; [by apply login_user_sound in Hu as [? _] | by exists w2]. }
  unfold is_password. destruct (String.eqb_spec methodType AuthnMethodTypePassword) as [->|Hne].
  - run H as u0 w5 Hreset. destruct u0. by eapply second_factor_cases.
  - run H as r0 w5 Hs. by apply ret_Ok in H as [[= <- <-] <-].
Qed.

(** ** The password method *)

(** The plugin vouches for a user only after the password verifier accepted
    the password against the hash of that user, an active one. *)
Lemma password_method_sound (m : @password.Method W) input w r w' :
  password.Authenticate m input w = (Ok (Some r), w') ->
  exists users passwords u, password.users m = Some users /\ password.passwords m = Some passwords /\
    (plugin.in_User input = Some u \/
     plugin.in_User input = None /\ FindByUsername users (TrimSpace (plugin.in_Username input)) w = (Ok (Some u), w')) /\
    VerifyPassword passwords (plugin.in_Password input) (user.PasswordHash u) = true /\
    plugin.in_Password input <> "" /\ user_state u = None /\
    plugin.UserID r = user.ID u /\ plugin.Subject r = user.UserUUID u /\
    plugin.UserStatus r = user.Status u /\ plugin.RedirectURI r = "".
Proof.
  unfold password.Authenticate. destruct (password.users m) as [users|]; [|done].
  destruct (password.passwords m) as [passwords|]; [|done]. intros Hr. run_guard Hr as Hne.
  apply andb_true_iff in Hne as [_ Hpw]. apply negb_true_iff, String.eqb_neq in Hpw.
  run Hr as found wa Hf. run_some Hr as u Hu. run_guard Hr as Hl. run_guard Hr as Hst. run_guard Hr as Hv.
  apply ret_Ok in Hr as [[= <-] <-]. exists users, passwords, u. repeat split; try done.
  - subst found. destruct (plugin.in_User input) as [u0|].
    + apply ret_Ok in Hf as [[= ->] _]. by left.
    + by right.
  - unfold user_state. apply negb_true_iff in Hl as ->. apply orb_true_iff in Hst as [-> | ->]; [done|].
    by rewrite andb_false_r.
Qed.

(** ** Second factors *)

Lemma live_challenge_sound (cache : MFARepository W) id t w c w' :
  live_challenge cache id t w = (Ok c, w') ->
  GetMFAChallenge cache id w = (Ok (Some c), w') /\ t < mce_ExpiresAt c.
Proof.
  unfold live_challenge. intros Hr. run Hr as found wa Hg. run_some Hr as c0 Hc. run_guard Hr as Ht.
  apply ret_Ok in Hr as [-> ->]. subst found. split; [done | by apply After_spec].
Qed.

Lemma createSession_user s u m ip ua uri rt t w r w' :
  createSession s u m ip ua uri rt t w = (Ok r, w') ->
  ar_UserID r = user.ID u /\ ar_Subject r = user.UserUUID u /\ ar_MFARequired r = false /\
  ar_AuthenticatedAt r = t /\ ar_ExpiresAt r = Add t (sessionTTL s) /\ ar_RedirectURI r = uri /\ ar_ReturnTo r = rt.
Proof.
  unfold createSession. destruct (sessionAuthContext m) as [acr amr]. intros Hr.
  run Hr as id wa Hid. run Hr as strength wb Hs. destruct strength as [acr' amr'].
  run Hr as row wc Hc. run Hr as u0 wd Hca. by apply ret_Ok in Hr as [<- _].
Qed.

(** A login by code from [w] to [w'], state by state: the live challenge [c],
    its user and their secret, the code matching at [step], the step reserved
    between [reserving] and [reserved], the challenge deleted, the session. *)
Definition totp_run s id code w (c : MFAChallengeEntry) (step : Z) reserving reserved w' : Prop :=
  exists cache t u credential provider w0 w1 w2 w5 w6 r0,
    mfaCache s = Some cache /\ now w = (Ok t, w0) /\
    GetMFAChallenge cache (TrimSpace id) w0 = (Ok (Some c), w1) /\ t < mce_ExpiresAt c /\
    (exists userID, challenge_user_id (mce_UserID c) = Some userID /\
       User_FindByID (userRepo s) userID w1 = (Ok (Some u), w2)) /\
    lookupTOTP s (user.ID u) w2 = (Ok (Some credential), reserving) /\ totp_provider s = Some provider /\
    VerifyCodeWithStep provider (totp.Secret credential) code t = Some step /\
    ReserveTOTPStepUse cache (mce_UserID c) TOTPPurposeLogin step totpStepReplayTTL reserving = (Ok true, reserved) /\
    DeleteMFAChallenge cache (mce_ChallengeID c) reserved = (Ok tt, w5) /\
    session_of_challenge s u c t w5 = (Ok r0, w6) /\
    (w' = w6 \/ exists passkeys, lookupPasskeyCredentialJSON s (user.ID u) w6 = (Ok passkeys, w')).

Lemma VerifyTOTP_run s id code w r w' : VerifyTOTP s id code w = (Ok r, w') ->
  exists c step reserving reserved, totp_run s id code w c step reserving reserved w'.
Proof.
  unfold VerifyTOTP. intros Hr. run_some Hr as cache Hcache. run Hr as t w0 Ht.
  run Hr as c w1 Hc. apply live_challenge_sound in Hc as [Hget Hlive]. run_some Hr as userID Huid.
  run Hr as found w2 Hu. run_some Hr as u Hfound. subst found. run Hr as cred w3 Hcred. run_some Hr as credential Hs. subst cred.
  run_some Hr as provider Hprov. run_some Hr as step Hstep. run Hr as reserved w4 Hres. run_guard Hr as Hreserved. subst reserved.
  run Hr as u1 w5 Hdel. destruct u1. run Hr as r0 w6 Hsess.
  exists c, step, w3, w4, cache, t, u, credential, provider, w0, w1, w2, w5, w6, r0.
  do 4 (split; [done|]). split; [by exists userID|]. do 6 (split; [done|]).
  destruct (passkey s), (passkeyRepo s); try (apply ret_Ok in Hr as [_ ->]; by left).
  run Hr as passkeys w8 Hp. apply ret_Ok in Hr as [_ ->]. right. by exists passkeys.
Qed.

(** C27. [VerifyTOTP] gives a session only for a live challenge, to the user
    the challenge was made for, when the code is the one of the user's secret
    at a step nobody used before: the step was reserved for this user by this
    very call, and the challenge was deleted before the session was made. *)
Theorem totp_login_sound s id code w r w' :
  VerifyTOTP s id code w = (Ok r, w') ->
  exists cache t c u credential provider step w0 w1 w2 w3 w4 w5 w6,
    mfaCache s = Some cache /\ now w = (Ok t, w0) /\
    GetMFAChallenge cache (TrimSpace id) w0 = (Ok (Some c), w1) /\ t < mce_ExpiresAt c /\
    (exists userID, challenge_user_id (mce_UserID c) = Some userID /\
       User_FindByID (userRepo s) userID w1 = (Ok (Some u), w2)) /\
    lookupTOTP s (user.ID u) w2 = (Ok (Some credential), w3) /\ totp_provider s = Some provider /\
    VerifyCodeWithStep provider (totp.Secret credential) code t = Some step /\
    ReserveTOTPStepUse cache (mce_UserID c) TOTPPurposeLogin step totpStepReplayTTL w3 = (Ok true, w4) /\
    DeleteMFAChallenge cache (mce_ChallengeID c) w4 = (Ok tt, w5) /\
    (exists r0, session_of_challenge s u c t w5 = (Ok r0, w6) /\ (r = r0 \/ r = set_enrollment_required r0)) /\
    ar_UserID r = user.ID u.
Proof.
  unfold VerifyTOTP. intros Hr. run_some Hr as cache Hcache. run Hr as t w0 Ht.
  run Hr as c w1 Hc. apply live_challenge_sound in Hc as [Hget Hlive]. run_some Hr as userID Huid.
  run Hr as found w2 Hu. run_some Hr as u Hfound. subst found. run Hr as cred w3 Hcred. run_some Hr as credential Hs.
  subst cred. run_some Hr as provider Hprov. run_some Hr as step Hstep. run Hr as reserved w4 Hres.
  run_guard Hr as Hreserved. subst reserved. run Hr as u1 w5 Hdel. destruct u1. run Hr as r0 w6 Hsess.
  exists cache, t, c, u, credential, provider, step, w0, w1, w2, w3, w4, w5, w6.
  do 4 (split; [done|]). split; [by exists userID|]. do 5 (split; [done|]).
  assert (Hid : ar_UserID r0 = user.ID u) by by apply (createSession_user s u AuthnMethodTypePassword _ _ _ _ _ _ _ _ Hsess).
  enough (Hres0 : r = r0 \/ r = set_enrollment_required r0).
  { split; [by exists r0|]. by destruct Hres0 as [-> | ->]. }
  destruct (passkey s), (passkeyRepo s); try (apply ret_Ok in Hr as [-> _]; by left).
  run Hr as passkeys w8 Hp. apply ret_Ok in Hr as [<- _]. case_bool_decide; [by right | by left].
Qed.

(** The two other second factors: a passkey login needs a live
    challenge in passkey mode with a WebAuthn session bound to it, an active
    user with a credential, and the provider's acceptance of the response; a
    push login needs the challenge approved.  Both delete the challenge
    before the session is made, for the user of the challenge. *)
Theorem passkey_and_push_sound s id response w r w' :
  (VerifyMFAPasskey s id response w = (Ok r, w') ->
   exists cache provider c u credentials finished wa wb wc t,
     mfaCache s = Some cache /\ passkey s = Some provider /\
     GetMFAChallenge cache (TrimSpace id) wa = (Ok (Some c), wb) /\ t < mce_ExpiresAt c /\
     normalizeMFAMode (mce_MFAMode c) = mfaModePasskeyTOTPFallback /\ blank (mce_PasskeySessionJSON c) = false /\
     active_challenge_user s c wb = (Ok u, wc) /\ user.Status u = "active" /\ credentials <> [] /\
     (exists wd we, FinishLogin provider (toPasskeyUser u) credentials (mce_PasskeySessionJSON c) response wd = (Ok finished, we)) /\
     exists wf wg, DeleteMFAChallenge cache (mce_ChallengeID c) wf = (Ok tt, wg) /\
       session_of_challenge s u c t wg = (Ok r, w')) /\
  (FinalizeMFAPush s id w = (Ok r, w') ->
   exists cache c u wa wb wc wd t,
     mfaCache s = Some cache /\ GetMFAChallenge cache (TrimSpace id) wa = (Ok (Some c), wb) /\ t < mce_ExpiresAt c /\
     normalizePushStatus (mce_PushStatus c) = mfaPushStatusApproved /\
     active_challenge_user s c wb = (Ok u, wc) /\ user.Status u = "active" /\
     DeleteMFAChallenge cache (mce_ChallengeID c) wc = (Ok tt, wd) /\ session_of_challenge s u c t wd = (Ok r, w')).
Proof.
  assert (Hact : forall c wx u wy, active_challenge_user s c wx = (Ok u, wy) -> user.Status u = "active").
  { intros c wx u wy Hr. unfold active_challenge_user in Hr. run_some Hr as userID H1. run Hr as found w2 H2.
    run_some Hr as u0 H3. run_guard Hr as H4. apply ret_Ok in Hr as [-> _]. by apply String.eqb_eq. }
  split; intros Hr.
  - unfold VerifyMFAPasskey in Hr. run_some Hr as parts Hparts. destruct parts as [[cache provider] repo].
    assert (Hsome : mfaCache s = Some cache /\ passkey s = Some provider).
    { unfold passkey_parts in Hparts. destruct (mfaCache s), (passkey s), (passkeyRepo s); simplify_eq; done. }
    destruct Hsome as [Hcache Hprov]. run Hr as t w0 Ht. run Hr as c w1 Hc. apply live_challenge_sound in Hc as [Hget Hlive].
    run_guard Hr as Hmode. apply String.eqb_eq in Hmode. run_guard Hr as Hbound. apply negb_true_iff in Hbound.
    run Hr as u w2 Hu. run Hr as credentials w3 Hcr. run_guard Hr as Hne. run Hr as finished w4 Hf.
    destruct finished as [cid cjson]. run Hr as u1 w5 Hup. run Hr as u2 w6 Hdel. destruct u2.
    exists cache, provider, c, u, credentials, (cid, cjson), w0, w1, w2, t. do 7 (split; [done|]).
    split; [by eapply Hact|]. split; [intros ->; done|]. split; [by exists w3, w4|]. by exists w5, w6.
  - unfold FinalizeMFAPush in Hr. run_some Hr as cache Hcache. run Hr as t w0 Ht. run Hr as c w1 Hc.
    apply live_challenge_sound in Hc as [Hget Hlive]. run_guard Hr as Hd. run_guard Hr as Ha. apply String.eqb_eq in Ha.
    run Hr as u w2 Hu. run Hr as u1 w3 Hdel. destruct u1. exists cache, c, u, w0, w1, w2, w3, t.
    do 5 (split; [done|]). split; [by eapply Hact|]. by split.
Qed.

(** A session that approves is active: in the cache by mask and expiry, or in
    the database. *)
Definition session_active_for s (id : string) (userID : Z) (w w' : W) : Prop :=
  exists t w0, now w = (Ok t, w0) /\
    ((exists cache e w1, sessionCache s = Some cache /\ SessionCache_Get cache (TrimSpace id) w0 = (Ok (Some e), w1) /\
        IsSessionEntryActive (Some e) t = true /\ challenge_user_id (TrimSpace (sce_UserID e)) = Some userID) \/
     (exists m w1, FindBySessionID (sessionRepo s) (TrimSpace id) w1 = (Ok (Some m), w') /\
        session.LoggedOutAt m = None /\ t < session.ExpiresAt m /\ session.UserID m = userID)).

Lemma approver_session_active s id w userID w' :
  resolveActiveSessionUserID s id w = (Ok userID, w') -> session_active_for s id userID w w'.
Proof.
  unfold resolveActiveSessionUserID. intros Hr. run_guard Hr as Hne. run Hr as t w0 Ht. exists t, w0. split; [done|].
  run Hr as cached w1 Hc. destruct cached as [id0|].
  - apply ret_Ok in Hr as [-> ->]. left. destruct (sessionCache s) as [cache|]; [|by apply ret_Ok in Hc as [? _]].
    run Hc as entry w2 Hg. apply ret_Ok in Hc as [He <-]. destruct entry as [e|]; [|done].
    destruct (IsSessionEntryActive (Some e) t) eqn:Ha; [|done]. by exists cache, e, w2.
  - right. run Hr as found w2 Hf. run_some Hr as m Hm. run_guard Hr as Hg. apply ret_Ok in Hr as [<- <-]. subst found.
    apply andb_true_iff in Hg as [Hl Hx]. apply bool_decide_eq_true in Hl. apply After_spec in Hx. by exists m, w1.
Qed.
(** A push challenge is decided only by its own user: the approver's
    session is active (in the cache, or in the database neither logged out
    nor expired) and belongs to the user of the challenge, the challenge is
    live and in push mode, and an approval carries the code shown to the
    browser. *)
Theorem push_decision_authorized s input w r w' :
  DecideMFAPush s input w = (Ok r, w') ->
  exists cache c userID wa wb wc wd t,
    mfaCache s = Some cache /\ GetMFAChallenge cache (TrimSpace (dp_ChallengeID input)) wa = (Ok (Some c), wb) /\
    t < mce_ExpiresAt c /\ normalizeMFAMode (mce_MFAMode c) = mfaModePushTOTPFallback /\
    session_active_for s (dp_ApproverSessionID input) userID wb wc /\
    challenge_user_id (TrimSpace (mce_UserID c)) = Some userID /\
    (ToLower (TrimSpace (dp_Action input)) = mfaPushStatusApproved /\
       blank (dp_MatchCode input) = false /\ TrimSpace (dp_MatchCode input) = TrimSpace (mce_PushCode c) \/
     ToLower (TrimSpace (dp_Action input)) = mfaPushStatusDenied) /\
    SaveMFAChallenge cache (set_decision (ToLower (TrimSpace (dp_Action input))) (FormatInt userID) t c)
      (ttlUntil t (mce_ExpiresAt c)) wc = (Ok wd, w').
Proof.
  unfold DecideMFAPush. intros Hr. run_some Hr as cache Hcache. run_guard Hr as Haction. run Hr as t w0 Ht.
  run Hr as c w1 Hc. apply live_challenge_sound in Hc as [Hget Hlive]. run_guard Hr as Hmode. apply String.eqb_eq in Hmode.
  run Hr as approver w2 Hap. run_some Hr as userID Huid. run_guard Hr as Hsame. apply Z.eqb_eq in Hsame as ->.
  run_guard Hr as Hcode. run Hr as saved w3 Hs. apply attempt_inv in Hs.
  destruct saved as [u|err]; cycle 1.
  { repeat case_bool_decide; by apply throw_Ok in Hr. }
  apply ret_Ok in Hr as [_ <-]. exists cache, c, userID, w0, w1, w2, u, t. do 4 (split; [done|]). split; [by apply approver_session_active|].
  split; [done|]. split; [|done]. apply orb_true_iff in Haction as [Ha|Ha]; apply String.eqb_eq in Ha; rewrite Ha in *; [left | by right].
  split; [done|]. cbn [negb orb] in Hcode. rewrite String.eqb_refl in Hcode. simpl in Hcode.
  apply andb_true_iff in Hcode as [Hb Heq]. apply negb_true_iff in Hb. apply String.eqb_eq in Heq. done.
Qed.

End Outcomes.

(** ** Names of federated users *)

Definition username_ascii (a : ascii) : bool := username_char (byte_of a).

Definition valid_username (name : string) : Prop :=
  (3 <= String.length name <= 32)%nat /\ forall_string username_ascii name = true.

Lemma substring_length n s : String.length (String.substring 0 n s) = (n `min` String.length s)%nat.
Proof. revert s. induction n as [|n IH]; intros [|a s]; simpl; [done..|]. by rewrite IH. Qed.

Lemma forall_string_substring p n s : forall_string p s = true -> forall_string p (String.substring 0 n s) = true.
Proof.
  revert s. induction n as [|n IH]; intros [|a s]; simpl; [done..|]. rewrite !andb_true_iff. intros [-> Hs].
  split; [done | by apply IH].
Qed.

Lemma forall_string_list p s : forall_string p s = true <-> Forall (fun a => p a = true) (String.list_ascii_of_string s).
Proof.
  induction s as [|a s IH]; simpl; [split; [by constructor | done]|]. rewrite andb_true_iff, IH, Forall_cons. done.
Qed.

Lemma drop_marks_sub l a : a ∈ drop_marks l -> a ∈ l.
Proof. induction l as [|b l IH]; simpl; [done|]. case_match; [intros ?; right; by apply IH | done]. Qed.

Lemma trim_marks_sub l a : a ∈ trim_marks l -> a ∈ l.
Proof.
  unfold trim_marks. intros Ha%list_elem_of_In. apply (proj2 (in_rev _ _)), list_elem_of_In, drop_marks_sub, list_elem_of_In in Ha.
  apply (proj2 (in_rev _ _)), list_elem_of_In, drop_marks_sub in Ha. done.
Qed.

Lemma sanitize_runes_ok fuel written l : Forall (fun x => username_char x = true /\ 0 <= x < 256) (sanitize_runes fuel written l).
Proof.
  revert written l. induction fuel as [|fuel IH]; intros written [|x l]; cbn [sanitize_runes]; [by constructor..|].
  constructor.
  - destruct (username_char x) eqn:E; [|done]. split; [done|]. unfold username_char in E. lia.
  - case_match; [by constructor | apply IH].
Qed.

Lemma trimUsernameTo_valid name limit :
  valid_username name \/ (3 <= String.length name)%nat /\ forall_string username_ascii name = true ->
  3 <= limit <= 32 -> valid_username (trimUsernameTo name limit) /\ (String.length (trimUsernameTo name limit) <= Z.to_nat limit)%nat.
Proof.
  intros Hn Hl. assert (Hlen : (3 <= String.length name)%nat) by (destruct Hn as [[? _]|[? _]]; lia).
  assert (Hch : forall_string username_ascii name = true) by (by destruct Hn as [[_ ?]|[_ ?]]).
  unfold trimUsernameTo. rewrite (proj2 (Z.leb_gt limit 0)) by lia.
  destruct (Z.leb_spec (Z.of_nat (String.length name)) limit); unfold valid_username.
  - split; [split; [lia|done]|lia].
  - rewrite substring_length. split; [split; [lia|] | lia]. by apply forall_string_substring.
Qed.

Lemma fill_to_three_ok name : forall_string username_ascii name = true ->
  (3 <= String.length (fill_to_three name))%nat /\ forall_string username_ascii (fill_to_three name) = true.
Proof.
  intros Hn. unfold fill_to_three. rewrite length_append, forall_string_app, Hn.
  generalize (String.length name) as n. intros n. destruct n as [|[|[|n]]]; simpl; split; (lia || done).
Qed.

Lemma sanitize_valid value : sanitizeFederatedUsername value = "" \/ valid_username (sanitizeFederatedUsername value).
Proof.
  unfold sanitizeFederatedUsername. cbv zeta. destruct (String.eqb _ ""); [by left|right].
  apply trimUsernameTo_valid; [|lia]. right. apply fill_to_three_ok, forall_string_list.
  rewrite String.list_ascii_of_string_of_list_ascii. apply Forall_forall. intros a Ha%trim_marks_sub.
  apply list_elem_of_In, in_map_iff in Ha as (x & <- & Hx).
  pose proof (sanitize_runes_ok (String.length (ToLower (TrimSpace value))) 0 (bytes_of (ToLower (TrimSpace value)))) as Hok.
  rewrite List.Forall_forall in Hok. destruct (Hok x Hx) as [Hu Hr]. unfold username_ascii. by rewrite byte_of_ascii_of.
Qed.

Lemma username_base_valid result uuid :
  valid_username (username_base result uuid) /\ (String.length (username_base result uuid) <= 26)%nat.
Proof.
  unfold username_base. cbv zeta. apply (trimUsernameTo_valid _ 26); [left|lia].
  destruct (String.eqb_spec (sanitizeFederatedUsername (candidateFederatedUsername result uuid)) "") as [_|Hne].
  - by split; [simpl; lia|].
  - by destruct (sanitize_valid (candidateFederatedUsername result uuid)).
Qed.

(** The suffixes, all hundred of them. *)
Lemma suffix_ok i : 0 <= i < 100 -> String.length (pad2 i) = 2%nat /\ forall_string username_ascii (pad2 i) = true.
Proof.
  intros Hi.
  assert (Hall : forallb (fun n => (String.length (pad2 (Z.of_nat n)) =? 2)%nat && forall_string username_ascii (pad2 (Z.of_nat n)))
    (seq 0 100) = true) by by vm_compute.
  rewrite forallb_forall in Hall. specialize (Hall (Z.to_nat i)). rewrite Z2Nat.id in Hall by lia.
  apply andb_true_iff in Hall as [H2 Hc]; [by apply Nat.eqb_eq in H2 | apply in_seq; lia].
Qed.

Lemma username_candidate_valid base i :
  valid_username base -> (String.length base <= 26)%nat -> 0 <= i < 100 -> valid_username (username_candidate base i).
Proof.
  intros [Hl Hc] H26 Hi. unfold username_candidate. destruct (0 <? i); [|done]. cbv zeta.
  destruct (suffix_ok i Hi) as [Hsl Hsc].
  assert (Hsuf : String.length ("_" +:+ pad2 i) = 3%nat) by (rewrite length_append, Hsl; done).
  destruct (trimUsernameTo_valid base 29 (or_introl (conj Hl Hc)) ltac:(lia)) as [[Ht Htc] Ht29].
  rewrite Hsuf. change (32 - Z.of_nat 3) with 29. unfold valid_username.
  rewrite length_append, Hsuf, forall_string_app, Htc. split; [lia | exact Hsc].
Qed.

(** Whatever an upstream identity provider says about a user, the local
    name allocated to it has 3 to 32 characters, all lower-case letters,
    digits, dots, underscores or dashes, and no user had it when it was
    chosen; the search stops after a hundred names. *)
Theorem federated_username_valid {W} `{!Runtime W} `{HN : NameUUIDs} (s : AuthnService.Service W) result uuid w name w' :
  allocateFederatedUsername s result uuid w = (Ok name, w') ->
  valid_username name /\
  (exists wa, FindByUsername (userRepo s) name wa = (Ok None, w')) /\
  exists i, 0 <= i < 100 /\ name = username_candidate (username_base result uuid) i.
Proof.
  unfold allocateFederatedUsername. destruct (username_base_valid result uuid) as [Hb H26].
  enough (G : forall left i w, (Z.to_nat i + left = 100)%nat -> 0 <= i ->
    probe_usernames s (username_base result uuid) i left w = (Ok name, w') ->
    (exists wa, FindByUsername (userRepo s) name wa = (Ok None, w')) /\
    exists j, 0 <= j < 100 /\ name = username_candidate (username_base result uuid) j).
  { intros Hr. destruct (G 100%nat 0 w eq_refl ltac:(lia) Hr) as (Hf & j & Hj & ->).
    split; [by apply username_candidate_valid|]. split; [done|]. by exists j. }
  induction left as [|left IH]; intros i w0 Hi H0 Hr; cbn [probe_usernames] in Hr; [by apply throw_Ok in Hr|].
  run Hr as found wa Hf. destruct found as [u|].
  - apply (IH (i + 1) wa); [lia | lia | exact Hr].
  - apply ret_Ok in Hr as [<- <-]. split; [by exists w0|]. exists i. split; [lia | done].
Qed.

Example federated_username_examples :
  let r name email := plugin.mkResult true true 0 "" "sub-1" "federated_oidc" name "" email "" in
  username_base (r "Ünïcode Name" "") "" = "n_code_name" /\
  username_base (r "" "Jo@x.org") "" = "jox" /\
  username_candidate (username_base (r "a.very.long.upstream.user.name.indeed" "") "") 7 = "a.very.long.upstream.user._07".
Proof. vm_compute. repeat split. Qed.

(** ** At work *)

Module AuthnDemo.

Record world := mkWorld {
  challenges : gmap string MFAChallengeEntry;
  used : list (string * Z);
  sessions : list session.Model;
  users_table : list user.Model;
  ids : nat;
}.

Definition start_time : time := 1700000000 * Second.

#[export] Instance runtime : Runtime world := {
  time_Now := fun w => (start_time, w);
  uuid_NewString := fun w => ("id" +:+ FormatInt (Z.of_nat (ids w)),
    mkWorld (challenges w) (used w) (sessions w) (users_table w) (S (ids w)));
  rand_Read := fun n w => (Ok (List.repeat 7 n), w);
}.

#[export] Instance uuids : NameUUIDs := { uuid_NewSHA1 := fun data => "v5-" +:+ data }.

Definition upd_challenges f w := mkWorld (f (challenges w)) (used w) (sessions w) (users_table w) (ids w).
Definition nothing {A} (a : A) : IO world A := ret a.
Definition find_user (p : user.Model -> bool) : IO world (option user.Model) :=
  fun w => (Ok (List.find p (users_table w)), w).

Definition mfa_store : MFARepository world := {|
  SaveTOTPEnrollment := fun _ _ => nothing tt;
  GetTOTPEnrollment := fun _ => nothing None;
  DeleteTOTPEnrollment := fun _ => nothing tt;
  ReserveTOTPStepUse := fun user _ step _ w =>
    if existsb (fun p => String.eqb p.1 user && (p.2 =? step)) (used w) then (Ok false, w)
    else (Ok true, mkWorld (challenges w) ((user, step) :: used w) (sessions w) (users_table w) (ids w));
  SaveMFAChallenge := fun e _ w => (Ok tt, upd_challenges (insert (mce_ChallengeID e) e) w);
  GetMFAChallenge := fun id w => (Ok (challenges w !! id), w);
  DeleteMFAChallenge := fun id w => (Ok tt, upd_challenges (delete id) w);
|}.

Definition session_store : SessionRepository world := {|
  Session_Create := fun m w => (Ok m, mkWorld (challenges w) (used w) (m :: sessions w) (users_table w) (ids w));
  FindBySessionID := fun id w => (Ok (List.find (fun m => String.eqb (session.SessionID m) id) (sessions w)), w);
  ListActiveByUserID := fun _ => nothing [];
  LogoutBySessionID := fun _ _ => nothing tt;
  LogoutAllByUserID := fun _ _ => nothing tt;
|}.

Definition user_store : UserRepository world := {|
  User_Create := fun m w => (Ok m, mkWorld (challenges w) (used w) (sessions w) (m :: users_table w) (ids w));
  User_FindByID := fun id => find_user (fun u => user.ID u =? id);
  FindByUserUUID := fun id => find_user (fun u => String.eqb (user.UserUUID u) id);
  FindByEmail := fun e => find_user (fun u => String.eqb (user.Email u) e);
  FindByUsername := fun n => find_user (fun u => String.eqb (user.Username u) n);
  ListByRoleCode := fun _ _ => nothing [];
  CountByRoleCode := fun _ => nothing 0;
  UpdateRoleAndPrivilege := fun _ _ _ _ => nothing tt;
  UnlockAccount := fun _ _ => nothing tt;
  IncrementFailedLogin := fun _ => nothing 0;
  ResetFailedLogin := fun _ _ => nothing tt;
|}.

Definition alice : user.Model :=
  user.mk 7 "uuid-7" "alice" "alice@x" true "Alice" "hash:pw" "end_user" 0 "" "active" 0 None 0 0.

Definition passwords : PasswordVerifier world := {|
  HashPassword := fun p => nothing ("hash:" +:+ p);
  VerifyPassword := fun p h => String.eqb ("hash:" +:+ p) h;
|}.

Definition methods : @AuthnRegistry.AuthnRegistry world :=
  AuthnRegistry.NewAuthnRegistry
    [Some (password.method (password.NewMethod (Some user_store) (Some passwords))); None;
     Some (federated_oidc.method (Some (fun input =>
       nothing (Some (federated_oidc.mkOut true "sub-1" "Jo Doe" "" "jo@x.org" "")))))].

Definition totp_store : TOTPRepository world := {|
  TOTP_FindByUserID := fun id => nothing (if id =? 7 then Some (totp.mk 1 7 "SECRET" 0 0 0) else None);
  TOTP_Upsert := fun _ => nothing tt;
  TOTP_DeleteByUserID := fun _ => nothing tt;
|}.

Definition provider : TOTPProvider world := {|
  GenerateSecret := nothing "SECRET";
  ProvisioningURI := fun _ _ _ => "";
  VerifyCodeWithStep := fun _ code t => if String.eqb code "123456" then Some (Unix t / 30) else None;
|}.

Definition service : AuthnService.Service world :=
  NewService user_store (Build_UserAccounts world None None) session_store None None (Some mfa_store) (Some methods)
    (Some totp_store) (Some provider) (3600 * Second) (300 * Second) false DefaultRateLimitPolicy.

Definition start : world := mkWorld ∅ [] [] [alice] 0.
Definition login : AuthenticateInput := mkAuthenticateInput "" "alice" "pw" "" "/" "" "" "" "10.0.0.1" "curl".
Definition federated : AuthenticateInput := mkAuthenticateInput "federated_oidc" "" "" "" "/" "st" "co" "" "10.0.0.1" "curl".

Definition challenged : world := (Authenticate service login start).2.
Definition verified : world := (VerifyTOTP service "id0" "123456" challenged).2.

(** The same challenge in push mode, and alice's session on another device. *)
Definition with_push : world :=
  mkWorld (set_mode mfaModePushTOTPFallback <$> challenges challenged) [] (sessions verified) [alice] 2.
Definition decide : DecideMFAPushInput := mkDecideInput "id0" "id1" "Approved" "17".
Definition decided : world := (DecideMFAPush service decide with_push).2.
End AuthnDemo.

Import AuthnDemo.

Lemma login_outcomes_witness :
  exists r w', Authenticate AuthnDemo.service AuthnDemo.login AuthnDemo.start = (Ok (r, Some (AuthnErrMFARequired : error)), w') /\
    exists result u t w1 w2, first_factor_passed AuthnDemo.service AuthnDemo.login AuthnMethodTypePassword result u AuthnDemo.start w1 /\
      password_outcome AuthnDemo.service u AuthnDemo.login result t r (Some (AuthnErrMFARequired : error)) w2 w'.
Proof.
  destruct (Authenticate AuthnDemo.service AuthnDemo.login AuthnDemo.start) as [[[r e]|] w'] eqn:E; [|vm_compute in E; discriminate E].
  assert (He : e = Some (AuthnErrMFARequired : error)) by (vm_compute in E; by injection E as _ <- _).
  subst e. exists r, w'. split; [reflexivity|].
  destruct (login_outcomes _ _ _ _ _ _ E) as [(m & res & _ & _ & _ & _ & He) | (m & res & u & t & w1 & w2 & Hf & _ & Ho)];
    [discriminate He|].
  assert (Hm : m = AuthnMethodTypePassword)
    by (destruct Hf as (_ & _ & _ & wx & (reg & method & pu & wy & _ & Hm & _) & _); vm_compute in Hm; by injection Hm).
  subst m. exists res, u, t, w1, w2. split; [exact Hf | exact Ho].
Defined.

Lemma totp_login_sound_witness :
  exists r u, VerifyTOTP AuthnDemo.service "id0" "123456" AuthnDemo.challenged = (Ok r, AuthnDemo.verified) /\
    ar_UserID r = user.ID u.
Proof.
  destruct (VerifyTOTP AuthnDemo.service "id0" "123456" AuthnDemo.challenged) as [[r|] w'] eqn:E; [|vm_compute in E; discriminate E].
  assert (Hw : w' = AuthnDemo.verified) by (unfold AuthnDemo.verified; by rewrite E).
  destruct (totp_login_sound _ _ _ _ _ _ E) as (cache & t & c & u & cr & p & st & a0 & a1 & a2 & a3 & a4 & a5 & a6 & Hall).
  exists r, u. split; [by rewrite Hw | apply Hall].
Defined.

Lemma push_decision_authorized_witness :
  exists cache c userID, mfaCache AuthnDemo.service = Some cache /\
    normalizeMFAMode (mce_MFAMode c) = mfaModePushTOTPFallback /\
    challenge_user_id (TrimSpace (mce_UserID c)) = Some userID.
Proof.
  destruct (DecideMFAPush AuthnDemo.service AuthnDemo.decide AuthnDemo.with_push) as [[r|] w'] eqn:E; [|vm_compute in E; discriminate E].
  destruct (push_decision_authorized _ _ _ _ _ E) as (cache & c & id & wa & wb & wc & wd & t & Hc & _ & _ & Hm & _ & Hid & _).
  exists cache, c, id. split; [exact Hc|]. split; [exact Hm | exact Hid].
Defined.

Lemma passkey_and_push_sound_witness :
  exists c u, normalizePushStatus (mce_PushStatus c) = mfaPushStatusApproved /\ user.Status u = "active".
Proof.
  destruct (FinalizeMFAPush AuthnDemo.service "id0" AuthnDemo.decided) as [[r|] w'] eqn:E; [|vm_compute in E; discriminate E].
  destruct (passkey_and_push_sound AuthnDemo.service "id0" "" AuthnDemo.decided r w') as [_ Hpush].
  destruct (Hpush E) as (cache & c & u & wa & wb & wc & wd & t & _ & _ & _ & Ha & _ & Hu & _).
  exists c, u. split; [exact Ha | exact Hu].
Defined.

Lemma federated_username_valid_witness :
  exists name w', allocateFederatedUsername AuthnDemo.service
      (plugin.mkResult true true 0 "" "sub-1" "federated_oidc" "alice" "" "" "") "v5" AuthnDemo.start = (Ok name, w') /\
    valid_username name /\ name = "alice_01".
Proof.
  destruct (allocateFederatedUsername AuthnDemo.service (plugin.mkResult true true 0 "" "sub-1" "federated_oidc" "alice" "" "" "")
    "v5" AuthnDemo.start) as [[name|] w'] eqn:E; [|vm_compute in E; discriminate E].
  destruct (federated_username_valid _ _ _ _ _ _ E) as (Hv & _).
  exists name, w'. split; [reflexivity|]. split; [exact Hv|]. vm_compute in E. by injection E as <- _.
Defined.
