(* ===== verification/SessionCache.v ===== *)
(** * The session cache (session_cache_repository.go)

    A session is a hash, a packed pair of u32 words (state mask and version)
    and a member of the user's index set; one script writes the three, another
    removes them. *)

From stdpp Require Import base tactics list gmap strings numbers.
From Stdlib Require Import ZArith Lia Ascii.
From S2P Require Import Prelude GoStrings GoTime Errors Ports Remote Redis RedisKeys LuaScripts StateMask.

Import KeyBuilder.

Section Repository.
Context {W R : Type} `{HC : RedisClient W R}.
Context (key : KeyBuilder).

Definition save_args (entry : SessionCacheEntry) (ttl : duration) : session_argv :=
  let stateMask := NormalizeSessionStateMask (sce_StateMask entry) (sce_Status entry) in
  let stateVersion := if sce_StateVersion entry =? 0 then 1 else sce_StateVersion entry in
  {| s_member := sce_SessionID entry;
     s_user_id := sce_UserID entry;
     s_subject := sce_Subject entry;
     s_acr := sce_ACR entry;
     s_amr_json := sce_AMRJSON entry;
     s_ip := sce_IPAddress entry;
     s_user_agent := sce_UserAgent entry;
     s_authenticated_at := formatTime (sce_AuthenticatedAt entry);
     s_expires_at := formatTime (sce_ExpiresAt entry);
     s_status := SessionStatusFromMask stateMask (sce_Status entry);
     s_ttl := FormatInt (durationSeconds ttl);
     s_state_mask := FormatInt stateMask;
     s_state_version := FormatInt stateVersion |}.

Definition save_script (entry : SessionCacheEntry) (ttl : duration) : IO R Z :=
  save_session (Session key (sce_SessionID entry)) (UserSessionIndex key (sce_UserID entry))
    (SessionState key (sce_SessionID entry)) (save_args entry ttl).

Definition Save (entry : SessionCacheEntry) (ttl : duration) : IO W unit :=
  do* call (save_script entry ttl) in ret tt.

Definition readRedisString (value : option string) : string := default "" value.

Definition decodePackedState (values : list Z) : Z * Z :=
  (match values with v :: _ => if 0 <? v then v mod 2 ^ 32 else 0 | [] => 0 end,
   match values with _ :: v :: _ => if 0 <? v then v mod 2 ^ 32 else 0 | _ => 0 end).

Definition session_field_names : list string :=
  ["user_id"; "subject"; "acr"; "amr_json"; "ip"; "user_agent"; "authenticated_at"; "expires_at"; "status"].

Definition entry_of_values (sessionID : string) (values : list (option string)) (stateValues : list Z)
    : option SessionCacheEntry :=
  match values with
  | Some user_id :: subject :: acr :: amr_json :: ip :: user_agent :: authenticated_at :: expires_at
      :: status :: _ =>
      let status := readRedisString status in
      let '(stateMask, stateVersion) := decodePackedState stateValues in
      let stateMask := NormalizeSessionStateMask stateMask status in
      let status := SessionStatusFromMask stateMask status in
      Some {| sce_SessionID := sessionID;
              sce_UserID := user_id;
              sce_Subject := readRedisString subject;
              sce_ACR := readRedisString acr;
              sce_AMRJSON := readRedisString amr_json;
              sce_IPAddress := readRedisString ip;
              sce_UserAgent := readRedisString user_agent;
              sce_AuthenticatedAt := parseTime (readRedisString authenticated_at);
              sce_ExpiresAt := parseTime (readRedisString expires_at);
              sce_Status := status;
              sce_StateMask := stateMask;
              sce_StateVersion := stateVersion |}
  | _ => None
  end.

(** A plain pipeline: other clients may write between its two commands. *)
Definition Get (sessionID : string) : IO W (option SessionCacheEntry) :=
  let* valuesCmd := attempt (call (exec (HMGET (Session key sessionID) session_field_names))) in
  let* stateCmd := attempt (call (exec (BITFIELD_GET (SessionState key sessionID) [0%nat; 4%nat]))) in
  match valuesCmd, stateCmd with
  | Ok values, Ok stateValues => ret (entry_of_values sessionID values stateValues)
  | Err e, _ => throw e
  | _, Err e => throw e
  end.

Definition delete_script (userID sessionID : string) : IO R (list lua_value) :=
  delete_session (Session key sessionID) (UserSessionIndex key userID) (SessionState key sessionID) sessionID.

Definition Delete (sessionID : string) : IO W unit :=
  let* entry := Get sessionID in
  match entry with
  | None => do* call (exec (DEL (Session key sessionID))) in ret tt
  | Some e => do* call (delete_script (sce_UserID e) sessionID) in ret tt
  end.

Definition index_script (userID sessionID : string) (ttl : duration) : IO R unit :=
  tx_pipeline [quietly (exec (SADD (UserSessionIndex key userID) sessionID));
               quietly (exec (EXPIRE (UserSessionIndex key userID) (durationSeconds ttl)))].

Definition AddUserSessionIndex (userID sessionID : string) (ttl : duration) : IO W unit :=
  call (index_script userID sessionID ttl).

Definition ListUserSessionIDs (userID : string) : IO W (list string) :=
  let* s := call (exec (SMEMBERS (UserSessionIndex key userID))) in
  fun w => (Ok (set_order s), w).

Definition RemoveUserSessionIndex (userID sessionID : string) : IO W unit :=
  do* call (exec (SREM (UserSessionIndex key userID) sessionID)) in ret tt.

Definition NewSessionCacheRepository : SessionCacheRepository W := {|
  SessionCache_Save := Save;
  SessionCache_Get := Get;
  SessionCache_Delete := Delete;
  Ports.AddUserSessionIndex := AddUserSessionIndex;
  Ports.ListUserSessionIDs := ListUserSessionIDs;
  Ports.RemoveUserSessionIndex := RemoveUserSessionIndex;
|}.
End Repository.

(** ** What is stored is read back *)

(** The entry a reader sees: times to the second, the mask and the status
    made consistent, versions from 1. *)
Definition stored_session (e : SessionCacheEntry) : SessionCacheEntry :=
  let mask := NormalizeSessionStateMask (sce_StateMask e) (sce_Status e) in
  mkSessionCacheEntry (sce_SessionID e) (sce_UserID e) (sce_Subject e) (sce_ACR e) (sce_AMRJSON e)
    (sce_IPAddress e) (sce_UserAgent e) (Unix (sce_AuthenticatedAt e) * Second)
    (Unix (sce_ExpiresAt e) * Second) (SessionStatusFromMask mask (sce_Status e)) mask
    (if sce_StateVersion e =? 0 then 1 else sce_StateVersion e).

Definition u32 (z : Z) : Prop := 0 <= z < 2 ^ 32.

(** The entry is one the cache can hold: u32 words, four-digit years. *)
Definition session_storable (e : SessionCacheEntry) : Prop :=
  u32 (sce_StateMask e) /\ u32 (sce_StateVersion e) /\
  four_digit_year (sce_AuthenticatedAt e) /\ four_digit_year (sce_ExpiresAt e).

Lemma NormalizeSessionStateMask_pos mask status :
  u32 mask -> 0 < NormalizeSessionStateMask mask status < 2 ^ 32.
Proof.
  unfold u32, NormalizeSessionStateMask. destruct (Z.eqb_spec mask 0); simpl; [|lia].
  intros _. repeat case_match; unfold SessionStateLoggedOut, SessionStateLocked, SessionStateActive; lia.
Qed.

Lemma NormalizeSessionStateMask_id mask status : mask <> 0 -> NormalizeSessionStateMask mask status = mask.
Proof. unfold NormalizeSessionStateMask. by destruct (Z.eqb_spec mask 0). Qed.

Lemma SessionStatusFromMask_fallback mask a b :
  mask <> 0 -> SessionStatusFromMask mask a = SessionStatusFromMask mask b.
Proof. intros Hm. unfold SessionStatusFromMask. by rewrite !NormalizeSessionStateMask_id. Qed.

(** What the save script writes. *)
Lemma save_session_writes (S U T : string) argv (ks : keyspace) z ks' :
  S <> U -> S <> T -> U <> T ->
  save_session S U T argv ks = (Ok z, ks') ->
  exists h o s, hash_at ks S = Some h /\ string_at ks T = Some o /\ set_at ks U = Some s /\
    value_at ks' S = Some (RHash (hset h (session_fields argv))) /\
    value_at ks' T = Some (RString (String.string_of_list_ascii
      (foldl bitfield_set1 (chars o)
        [(0%nat, default 1 (tonumber (s_state_mask argv))); (4%nat, default 1 (tonumber (s_state_version argv)))]))) /\
    value_at ks' U = Some (RSet ({[s_member argv]} ∪ s)) /\
    (forall k, k <> S -> k <> U -> k <> T -> value_at ks' k = value_at ks k).
Proof.
  intros HSU HST HUT Hr. unfold save_session in Hr. cbn [exec keyspace_server] in Hr.
  run Hr as u1 k1 H1. apply HSET_Ok in H1 as (h & Hh & ->).
  run Hr as u2 k2 H2. apply BITFIELD_SET_Ok in H2 as (o & Ho & ->).
  set (k2 := keeps_ttl _ T _) in *.
  run Hr as u3 k3 H3. run Hr as b k4 H4. run Hr as u5 k5 H5. apply ret_Ok in Hr as [_ <-].
  assert (V3 : forall k, value_at k3 k = value_at k2 k).
  { intros k. destruct (Z.ltb_spec 0 (number_or_0 (s_ttl argv))) as [Hp|]; [|by apply ret_Ok in H3 as [_ <-]].
    run H3 as b1 ka Ha. unfold quietly in H3. run H3 as b2 kb Hb. apply ret_Ok in H3 as [_ <-].
    by rewrite (value_EXPIRE _ _ _ _ _ _ Hb), (value_EXPIRE _ _ _ _ _ _ Ha). }
  apply SADD_Ok in H4 as (s & Hs & ->).
  assert (V5 : forall k, value_at k5 k = value_at (keeps_ttl k3 U (RSet ({[s_member argv]} ∪ s))) k).
  { intros k. destruct (Z.ltb_spec 0 (number_or_0 (s_ttl argv))) as [Hp|]; [|by apply ret_Ok in H5 as [_ <-]].
    run H5 as t ka Ha. apply TTL_Ok in Ha as [-> ->].
    case_match; [|by apply ret_Ok in H5 as [_ <-]].
    unfold quietly in H5. run H5 as b2 kb Hb. apply ret_Ok in H5 as [_ <-].
    by rewrite (value_EXPIRE _ _ _ _ _ _ Hb). }
  rewrite set_at_value, V3 in Hs. rewrite string_at_value in Ho. subst k2.
  rewrite !value_keeps_ttl in Hs. rewrite value_keeps_ttl in Ho.
  rewrite !decide_False in Hs by done. rewrite decide_False in Ho by done.
  exists h, o, s. rewrite string_at_value, set_at_value. split; [done|]. split; [done|]. split; [done|].
  rewrite !V5, !value_keeps_ttl, !V3, !value_keeps_ttl.
  repeat (case_decide; try congruence). repeat split.
  intros k Hk1 Hk2 Hk3. rewrite V5, value_keeps_ttl, V3, !value_keeps_ttl.
  by repeat (case_decide; try congruence).
Qed.

(** The nine fields the reader asks for, on a hash the script wrote. *)
Lemma read_session_fields h argv :
  List.map (fun f => hset h (session_fields argv) !! f) session_field_names =
  List.map Some [s_user_id argv; s_subject argv; s_acr argv; s_amr_json argv; s_ip argv;
    s_user_agent argv; s_authenticated_at argv; s_expires_at argv; s_status argv].
Proof.
  unfold session_field_names, hset, session_fields. simpl.
  repeat (f_equal; [repeat (rewrite lookup_insert_ne by done); by rewrite lookup_insert_eq|]).
  by rewrite lookup_insert_eq.
Qed.

Lemma quiet_HMGET {W R} `{HC : RedisClient W R} `{!Quiet W R} k fs w h :
  value_at (keys (server w)) k = Some (RHash h) ->
  exists w', call (exec (HMGET k fs)) w = (Ok (List.map (fun f => h !! f) fs), w') /\
    keys (server w') = keys (server w).
Proof.
  intros Hv. apply (quiet_call _ _ _ _ _ (simulates_exec _)). simpl. unfold on_type.
  by rewrite hash_at_value, Hv.
Qed.

Lemma quiet_BITFIELD_GET {W R} `{HC : RedisClient W R} `{!Quiet W R} k offs w s :
  value_at (keys (server w)) k = Some (RString s) ->
  exists w', call (exec (BITFIELD_GET k offs)) w =
      (Ok (List.map (bitfield_get1 (String.list_ascii_of_string s)) offs), w') /\
    keys (server w') = keys (server w).
Proof.
  intros Hv. apply (quiet_call _ _ _ _ _ (simulates_exec _)). simpl. unfold on_type.
  by rewrite string_at_value, Hv.
Qed.

Lemma quiet_SMEMBERS {W R} `{HC : RedisClient W R} `{!Quiet W R} k w s :
  value_at (keys (server w)) k = Some (RSet s) ->
  exists w', call (exec (SMEMBERS k)) w = (Ok s, w') /\ keys (server w') = keys (server w).
Proof.
  intros Hv. apply (quiet_call _ _ _ _ _ (simulates_exec _)). simpl. unfold on_type.
  by rewrite set_at_value, Hv.
Qed.

Lemma session_keys_distinct key sid user :
  Session key sid <> UserSessionIndex key user /\ Session key sid <> SessionState key sid /\
  UserSessionIndex key user <> SessionState key sid.
Proof.
  repeat split; [apply (build_ne key (KSession _) (KUserSessionIndex _))
    | apply (build_ne key (KSession _) (KSessionState _))
    | apply (build_ne key (KUserSessionIndex _) (KSessionState _))]; done.
Qed.

Lemma decode_u32 z : u32 z -> (if 0 <? z then z mod 2 ^ 32 else 0) = z.
Proof.
  unfold u32. intros Hz. destruct (Z.ltb_spec 0 z); [by apply Z.mod_small | lia].
Qed.

(** A session saved in the cache is the session read back, by id and
    through the user's index: same user, subject, factors, address and agent,
    times to the second; the state mask and the status word are made
    consistent, the version starts at 1. *)
Theorem session_cache_round_trip {W R} `{HC : RedisClient W R} `{!Quiet W R} (key : KeyBuilder)
    (e : SessionCacheEntry) ttl w w1 :
  session_storable e -> Save key e ttl w = (Ok tt, w1) ->
  (exists w2, Get key (sce_SessionID e) w1 = (Ok (Some (stored_session e)), w2)) /\
  (exists ids w2, ListUserSessionIDs key (sce_UserID e) w1 = (Ok ids, w2) /\ sce_SessionID e ∈ ids).
Proof.
  intros (Hm & Hv & Ha & Hx) Hsave. unfold Save in Hsave. run Hsave as z wa Hc.
  apply ret_Ok in Hsave as [_ ->]. apply call_Ok in Hc as (wb & r & Hs & <-).
  apply simulates_save_session in Hs.
  destruct (session_keys_distinct key (sce_SessionID e) (sce_UserID e)) as (N1 & N2 & N3).
  apply save_session_writes in Hs as (h & o & s & _ & _ & _ & VS & VT & VU & _); [|done|done|done].
  split; cycle 1.
  { destruct (quiet_SMEMBERS _ _ _ VU) as (w2 & Hc & _).
    eexists _, w2. unfold ListUserSessionIDs. rewrite (bind_run _ _ _ _ _ Hc). split; [done|].
    rewrite set_order_spec. set_solver. }
  unfold Get. destruct (quiet_HMGET _ session_field_names _ _ VS) as (w2 & H2 & K2).
  rewrite (bind_run _ _ _ (Ok _) w2) by (unfold attempt; by rewrite H2).
  rewrite <- K2 in VT. destruct (quiet_BITFIELD_GET _ [0%nat; 4%nat] _ _ VT) as (w3 & H3 & K3).
  rewrite (bind_run _ _ _ (Ok _) w3) by (unfold attempt; by rewrite H3).
  exists w3. rewrite read_session_fields, String.list_ascii_of_string_of_list_ascii, bitfield_pair.
  set (mask := NormalizeSessionStateMask (sce_StateMask e) (sce_Status e)).
  set (ver := if sce_StateVersion e =? 0 then 1 else sce_StateVersion e).
  assert (Hmask : 0 < mask < 2 ^ 32) by by apply NormalizeSessionStateMask_pos.
  assert (Hver : u32 ver) by (unfold u32, ver in *; case_match; lia).
  cbn [save_args s_state_mask s_state_version]. fold mask ver.
  rewrite !tonumber_FormatInt by (unfold exact_int, u32 in *; lia). cbn [default from_option].
  rewrite (Z.mod_small mask), (Z.mod_small ver) by (unfold u32 in *; lia).
  cbn [List.map entry_of_values save_args s_user_id s_subject s_acr s_amr_json s_ip s_user_agent
    s_authenticated_at s_expires_at s_status readRedisString default from_option decodePackedState].
  fold mask. rewrite !decode_u32 by (unfold u32 in *; lia).
  rewrite (NormalizeSessionStateMask_id mask) by lia.
  unfold id.   rewrite (SessionStatusFromMask_fallback mask (SessionStatusFromMask _ _) (sce_Status e)) by lia.
  rewrite !parseTime_formatTime by done. done.
Qed.

(** ** Deletion *)

Lemma DEL_Ok ks k b ks' : documented (DEL k) ks = (Ok b, ks') -> ks' = delete k ks.
Proof. simpl. by intros [= _ <-]. Qed.

Lemma SREM_Ok ks k m b ks' :
  documented (SREM k m) ks = (Ok b, ks') ->
  exists s, set_at ks k = Some s /\ set_at ks' k = Some (s ∖ {[m]}) /\
    forall j, j <> k -> ks' !! j = ks !! j.
Proof.
  intros Hr. pose proof (fun j => documented_frame _ _ _ _ j Hr) as Hf. simpl in Hr, Hf. unfold on_type in Hr.
  destruct (set_at ks k) as [s|] eqn:Es; [|discriminate]. exists s. split; [done|].
  split; [|intros j Hj; apply Hf; congruence].
  destruct (decide (m ∈ s)); injection Hr as _ <-.
  - unfold store_set. destruct (decide (s ∖ {[m]} = ∅)) as [->|].
    + unfold set_at. by rewrite lookup_delete_eq.
    + by rewrite set_at_value, value_keeps_ttl, decide_True.
  - rewrite Es. f_equal. set_solver.
Qed.

Lemma SCARD_Ok ks k n ks' :
  documented (SCARD k) ks = (Ok n, ks') -> ks' = ks /\ exists s, set_at ks k = Some s /\ n = Z.of_nat (size s).
Proof.
  simpl. unfold on_type. destruct (set_at ks k) as [s|]; [|discriminate]. intros [= <- <-]. eauto.
Qed.

Lemma delete_session_writes (S U T : string) m (ks : keyspace) v ks' :
  S <> U -> S <> T -> U <> T ->
  delete_session S U T m ks = (Ok v, ks') ->
  ks' !! S = None /\ ks' !! T = None /\
  (exists s, set_at ks U = Some s /\ set_at ks' U = Some (s ∖ {[m]})).
Proof.
  intros HSU HST HUT Hr. unfold delete_session in Hr. cbn [exec keyspace_server] in Hr.
  run Hr as d1 k1 H1. apply DEL_Ok in H1 as ->.
  run Hr as d2 k2 H2. apply SREM_Ok in H2 as (s & Hs & Hs2 & Hf2).
  run Hr as d3 k3 H3. apply DEL_Ok in H3 as ->.
  run Hr as n k4 H4. apply SCARD_Ok in H4 as (-> & s' & Hs' & ->).
  run Hr as u k5 H5. apply ret_Ok in Hr as [_ <-].
  assert (HS : k2 !! S = None) by (rewrite Hf2 by done; apply lookup_delete_eq).
  assert (HU : set_at (delete T k2) U = Some (s ∖ {[m]})).
  { revert Hs2. unfold set_at. by rewrite lookup_delete_ne. }
  assert (HsU : set_at ks U = Some s) by (revert Hs; unfold set_at; by rewrite lookup_delete_ne).
  destruct (Z.eqb_spec (Z.of_nat (size s')) 0) as [Hz|Hz].
  - unfold quietly in H5. run H5 as d5 k6 H6. apply DEL_Ok in H6 as ->. apply ret_Ok in H5 as [_ <-].
    split; [by rewrite !lookup_delete_ne|].
    split; [by rewrite lookup_delete_ne, lookup_delete_eq|].
    exists s. split; [done|]. unfold set_at at 1. rewrite lookup_delete_eq.
    rewrite HU in Hs'. injection Hs' as <-. f_equal. symmetry. apply leibniz_equiv, size_empty_iff. lia.
  - apply ret_Ok in H5 as [_ <-]. split; [by rewrite lookup_delete_ne|].
    split; [by rewrite lookup_delete_eq|]. eauto.
Qed.

(** Deleting a session removes it for good: whatever else happens to the
    cache meanwhile, when [Delete] returns the session's hash is gone.  When
    it read the session first, the packed state is gone too and the user's
    index no longer lists it; a reader then finds nothing. *)
Theorem session_delete_complete {W R} `{HC : RedisClient W R} (key : KeyBuilder) sid w w' :
  Delete key sid w = (Ok tt, w') ->
  exists entry w1, Get key sid w = (Ok entry, w1) /\
    keys (server w') !! Session key sid = None /\
    (forall e, entry = Some e ->
       keys (server w') !! SessionState key sid = None /\
       exists s, set_at (keys (server w')) (UserSessionIndex key (sce_UserID e)) = Some s /\ sid ∉ s) /\
    (Quiet W R -> exists w2, Get key sid w' = (Ok None, w2) \/ exists err, Get key sid w' = (Err err, w2)).
Proof.
  intros Hr. unfold Delete in Hr. run Hr as entry w1 Hget. exists entry, w1. split; [done|].
  assert (Hdone : keys (server w') !! Session key sid = None /\
    (forall e, entry = Some e -> keys (server w') !! SessionState key sid = None /\
       exists s, set_at (keys (server w')) (UserSessionIndex key (sce_UserID e)) = Some s /\ sid ∉ s)).
  { destruct entry as [e|].
    - run Hr as v wa Hc. apply ret_Ok in Hr as [_ <-]. apply call_Ok in Hc as (wb & r & Hs & <-).
      apply simulates_delete_session in Hs.
      destruct (session_keys_distinct key sid (sce_UserID e)) as (N1 & N2 & N3).
      apply delete_session_writes in Hs as (HS & HT & s & _ & Hs); [|done|done|done].
      split; [done|]. intros ? [= <-]. split; [done|]. eexists. split; [done|]. set_solver.
    - run Hr as v wa Hc. apply ret_Ok in Hr as [_ <-]. apply call_Ok in Hc as (wb & r & Hs & <-).
      apply exec_documented in Hs. apply DEL_Ok in Hs as ->. rewrite lookup_delete_eq. done. }
  destruct Hdone as [HS HT]. split; [done|]. split; [done|]. intros HQ.
  destruct (quiet_call (exec (HMGET (Session key sid) session_field_names)) _ w'
    (Ok (List.map (fun f => (∅ : gmap string string) !! f) session_field_names)) (keys (server w'))
    (simulates_exec _)) as (w2 & H2 & _).
  { simpl. unfold on_type, hash_at. by rewrite HS. }
  destruct (call (exec (BITFIELD_GET (SessionState key sid) [0%nat; 4%nat])) w2) as [b w3] eqn:H3.
  exists w3. unfold Get. rewrite (bind_run _ _ _ (Ok _) w2) by (unfold attempt; by rewrite H2).
  rewrite (bind_run _ _ _ b w3) by (unfold attempt; by rewrite H3).
  destruct b as [vals|err]; [left | right; by exists err]. done.
Qed.

(** ** At work *)

Module SessionCacheDemo.
Import Local.

Definition key : KeyBuilder := NewKeyBuilder "idp" "test".
Definition login : time := 1700000000 * Second.

Definition entry : SessionCacheEntry :=
  mkSessionCacheEntry "s1" "7" "uuid-7" "urn:acr" "[]" "10.0.0.1" "curl" login (login + 3600 * Second)
    "active" 0 0.

Definition empty_world : world := mkWorld ∅ login.
Definition saved : world := (Save key entry (3600 * Second) empty_world).2.

Lemma session_saved_Ok : Save key entry (3600 * Second) empty_world = (Ok tt, saved).
Proof. vm_compute. reflexivity. Qed.

Definition deleted : world := (Delete key "s1" saved).2.

Lemma deleted_Ok : Delete key "s1" saved = (Ok tt, deleted).
Proof. vm_compute. reflexivity. Qed.
End SessionCacheDemo.

Import Local.

Lemma session_cache_round_trip_witness :
  exists w2, Get (R := keyspace) SessionCacheDemo.key "s1" SessionCacheDemo.saved =
    (Ok (Some (stored_session SessionCacheDemo.entry)), w2).
Proof.
  destruct (session_cache_round_trip SessionCacheDemo.key SessionCacheDemo.entry (3600 * Second)
    SessionCacheDemo.empty_world SessionCacheDemo.saved) as [Hget _].
  - split; [split; vm_compute; [discriminate|reflexivity]|].
    split; [split; vm_compute; [discriminate|reflexivity]|].
    split; vm_compute; (split; [discriminate|reflexivity]).
  - exact SessionCacheDemo.session_saved_Ok.
  - exact Hget.
Defined.

Lemma session_delete_complete_witness :
  keys (server SessionCacheDemo.deleted) !! Session SessionCacheDemo.key "s1" = None.
Proof.
  destruct (session_delete_complete SessionCacheDemo.key "s1" SessionCacheDemo.saved SessionCacheDemo.deleted
    SessionCacheDemo.deleted_Ok) as (e & w1 & _ & Hgone & _).
  exact Hgone.
Defined.

(** [Delete] of a session whose hash is gone (expired, say) takes the short
    path and leaves the packed state behind. *)
Example delete_without_hash_leaves_state :
  let w := mkWorld (delete (Session SessionCacheDemo.key "s1") (w_keys SessionCacheDemo.saved)) SessionCacheDemo.login in
  let w' := (Delete SessionCacheDemo.key "s1" w).2 in
  is_Some (w_keys w' !! SessionState SessionCacheDemo.key "s1").
Proof. vm_compute. eexists. reflexivity. Qed.
