(* ===== verification/DeviceCache.v ===== *)
(** * The device-code cache (device_code_repository.go)

    A device code is a hash; its user code is a string key that holds the
    device code.  Polling is throttled by an optimistic transaction: WATCH,
    read, then MULTI/EXEC, which the server refuses when the watched key was
    modified in between. *)

From stdpp Require Import base tactics list gmap strings numbers.
From Stdlib Require Import ZArith Lia Ascii.
From S2P Require Import Prelude GoStrings GoTime Errors Ports Remote Redis RedisKeys LuaScripts.

Import KeyBuilder.

(** From [r] to [r'] the key [k] may have been modified, and if the count of
    modifications says it was not, it was not. *)
Definition calm {R} `{RedisServer R} (changes : R -> string -> Z) (k : string) : relation R := fun r r' =>
  changes r k <= changes r' k /\
  (changes r' k = changes r k -> value_at (keys r') k = value_at (keys r) k).

(** [changes] counts the modifications of each key, as WATCH does, whoever
    makes them. *)
Class WatchedServer (W R : Type) `{HC : RedisClient W R} := {
  changes : R -> string -> Z;
  changes_exec : forall A (c : command A) r k, calm changes k r (exec c r).2;
  changes_transport : forall w k, calm changes k (server w) (server (transport w).2);
}.

Definition TxFailedErr : error := Driver "redis: transaction failed".

(** [strconv.ParseInt] with the error dropped: the nearest bound when the
    number is out of range, 0 when it is not a number. *)
Definition parseInt64 (value : string) : Z :=
  let parsed := match value with
                | String "+" s' => option_map (fun u => Z.of_int (Decimal.Pos u)) (DecimalString.NilZero.uint_of_string s')
                | _ => option_map Z.of_int (DecimalString.NilZero.int_of_string value)
                end in
  match parsed with
  | Some z => Z.max int64_min (Z.min int64_max z)
  | None => 0
  end.

Section Repository.
Context {W R : Type} `{HC : RedisClient W R} `{!WatchedServer W R}.
Context (key : KeyBuilder).

Definition IsZero (t : time) : bool := t =? zero_time.

Definition zeroAwareTime (value : option time) : string :=
  match value with None => "" | Some t => if IsZero t then "" else formatTime t end.

(** A time field read from the hash; a zero time is an unset field. *)
Definition read_time (value : string) : option time :=
  let t := parseTime value in if IsZero t then None else Some t.

Definition device_fields (entry : DeviceCodeEntry) : list (string * string) :=
  [("device_code", dce_DeviceCode entry); ("user_code", dce_UserCode entry);
   ("client_id", dce_ClientID entry); ("client_name", dce_ClientName entry);
   ("scopes_json", dce_ScopesJSON entry); ("status", dce_Status entry);
   ("user_id", dce_UserID entry); ("subject", dce_Subject entry);
   ("expires_at", formatTime (dce_ExpiresAt entry)); ("approved_at", zeroAwareTime (dce_ApprovedAt entry));
   ("denied_at", zeroAwareTime (dce_DeniedAt entry)); ("consumed_at", zeroAwareTime (dce_ConsumedAt entry));
   ("last_polled_at", zeroAwareTime (dce_LastPolledAt entry)); ("interval", FormatInt (dce_Interval entry))].

(** The lifetime [SET] gives the user code is replaced by [EXPIRE] in the
    same transaction. *)
Definition save_device (entry : DeviceCodeEntry) (ttl : duration) : IO R unit :=
  let deviceKey := DeviceCode key (dce_DeviceCode entry) in
  let userKey := DeviceUserCode key (dce_UserCode entry) in
  tx_pipeline
    [exec (HSET deviceKey (device_fields entry));
     exec (SET userKey (dce_DeviceCode entry) (if 0 <? ttl then Some (durationSeconds ttl) else None));
     quietly (exec (EXPIRE deviceKey (durationSeconds ttl)));
     quietly (exec (EXPIRE userKey (durationSeconds ttl)))].

Definition Save (entry : DeviceCodeEntry) (ttl : duration) : IO W unit := call (save_device entry ttl).

Definition map_get (h : gmap string string) (f : string) : string := default "" (h !! f).

Definition mapDeviceCodeEntry (values : gmap string string) : DeviceCodeEntry := {|
  dce_DeviceCode := map_get values "device_code";
  dce_UserCode := map_get values "user_code";
  dce_ClientID := map_get values "client_id";
  dce_ClientName := map_get values "client_name";
  dce_ScopesJSON := map_get values "scopes_json";
  dce_Status := map_get values "status";
  dce_UserID := map_get values "user_id";
  dce_Subject := map_get values "subject";
  dce_ExpiresAt := parseTime (map_get values "expires_at");
  dce_ApprovedAt := read_time (map_get values "approved_at");
  dce_DeniedAt := read_time (map_get values "denied_at");
  dce_ConsumedAt := read_time (map_get values "consumed_at");
  dce_LastPolledAt := read_time (map_get values "last_polled_at");
  dce_Interval := parseInt64 (map_get values "interval") |}.

Definition GetByDeviceCode (deviceCode : string) : IO W (option DeviceCodeEntry) :=
  let* values := call (exec (HGETALL (DeviceCode key deviceCode))) in
  if decide (values = ∅) then ret None else ret (Some (mapDeviceCodeEntry values)).

Definition GetByUserCode (userCode : string) : IO W (option DeviceCodeEntry) :=
  let* deviceCode := call (exec (GET (DeviceUserCode key userCode))) in
  match deviceCode with
  | None => ret None
  | Some deviceCode => GetByDeviceCode deviceCode
  end.

Definition approve_fields (userID subject : string) (approvedAt : time) : list (string * string) :=
  [("status", "approved"); ("user_id", userID); ("subject", subject); ("approved_at", formatTime approvedAt)].

Definition Approve (userCode userID subject : string) (approvedAt : time) : IO W unit :=
  let* entry := GetByUserCode userCode in
  match entry with
  | None => ret tt
  | Some e => call (exec (HSET (DeviceCode key (dce_DeviceCode e)) (approve_fields userID subject approvedAt)))
  end.

Definition Deny (userCode : string) (deniedAt : time) : IO W unit :=
  let* entry := GetByUserCode userCode in
  match entry with
  | None => ret tt
  | Some e => call (exec (HSET (DeviceCode key (dce_DeviceCode e))
                            [("status", "denied"); ("denied_at", formatTime deniedAt)]))
  end.

Definition MarkConsumed (deviceCode : string) (consumedAt : time) : IO W unit :=
  call (exec (HSET (DeviceCode key deviceCode) [("status", "consumed"); ("consumed_at", formatTime consumedAt)])).

(** WATCH: the server remembers how often the key was modified. *)
Definition watch (k : string) : IO R Z := fun r => (Ok (changes r k), r).

(** EXEC of one HSET under a watch. *)
Definition exec_watched (k : string) (seen : Z) (fvs : list (string * string)) : IO R unit := fun r =>
  if changes r k =? seen then exec (HSET k fvs) r else (Err TxFailedErr, r).

Definition too_soon (values : gmap string string) (polledAt : time) (minInterval : duration) : bool :=
  let last := parseTime (map_get values "last_polled_at") in
  negb (IsZero last) && Before polledAt (Add last minInterval).

Definition TouchPoll (deviceCode : string) (polledAt : time) (minInterval : duration) : IO W bool :=
  let k := DeviceCode key deviceCode in
  let* seen := call (watch k) in
  let* values := call (exec (HGETALL k)) in
  if decide (values = ∅) then ret false
  else if too_soon values polledAt minInterval then ret false
  else do* call (exec_watched k seen [("last_polled_at", formatTime polledAt)]) in ret true.

Definition NewDeviceCodeRepository : DeviceCodeRepository W := {|
  Device_Save := Save;
  Ports.GetByDeviceCode := GetByDeviceCode;
  Ports.GetByUserCode := GetByUserCode;
  Device_Approve := Approve;
  Device_Deny := Deny;
  Ports.MarkConsumed := MarkConsumed;
  Ports.TouchPoll := TouchPoll;
|}.
End Repository.

(** ** What is stored is read back *)

Lemma parseInt64_FormatInt z : in_int64 z = true -> parseInt64 (FormatInt z) = z.
Proof.
  intros Hz. pose proof (ParseInt_FormatInt z Hz) as Hp. unfold ParseInt in Hp. unfold parseInt64.
  destruct (match FormatInt z with
            | String "+" s' => option_map (fun u => Z.of_int (Decimal.Pos u)) (DecimalString.NilZero.uint_of_string s')
            | _ => option_map Z.of_int (DecimalString.NilZero.int_of_string (FormatInt z))
            end) as [n|]; [|discriminate].
  destruct (in_int64 n) eqn:En; [|discriminate]. injection Hp as ->.
  unfold in_int64 in En. rewrite andb_true_iff, !Z.leb_le in En. unfold int64_min, int64_max in *. lia.
Qed.

(** A time field after a round trip: to the second, the zero time unset. *)
Definition stored_time (o : option time) : option time :=
  match o with
  | None => None
  | Some t => if IsZero t then None
              else if IsZero (Unix t * Second) then None else Some (Unix t * Second)
  end.

Definition time_storable (o : option time) : Prop := forall t, o = Some t -> four_digit_year t.

Lemma read_zeroAwareTime o : time_storable o -> read_time (zeroAwareTime o) = stored_time o.
Proof.
  intros Ho. destruct o as [t|]; [|reflexivity]. simpl. destruct (IsZero t); [reflexivity|].
  unfold read_time. by rewrite parseTime_formatTime by by apply Ho.
Qed.

Definition stored_device (e : DeviceCodeEntry) : DeviceCodeEntry :=
  mkDeviceCodeEntry (dce_DeviceCode e) (dce_UserCode e) (dce_ClientID e) (dce_ClientName e)
    (dce_ScopesJSON e) (dce_Status e) (dce_UserID e) (dce_Subject e) (Unix (dce_ExpiresAt e) * Second)
    (stored_time (dce_ApprovedAt e)) (stored_time (dce_DeniedAt e)) (stored_time (dce_ConsumedAt e))
    (stored_time (dce_LastPolledAt e)) (dce_Interval e).

Definition device_storable (e : DeviceCodeEntry) : Prop :=
  four_digit_year (dce_ExpiresAt e) /\ time_storable (dce_ApprovedAt e) /\ time_storable (dce_DeniedAt e) /\
  time_storable (dce_ConsumedAt e) /\ time_storable (dce_LastPolledAt e) /\ in_int64 (dce_Interval e) = true.

Ltac hash_field := repeat (rewrite lookup_insert_ne by done); rewrite ?lookup_insert_eq.

Lemma map_device_fields h e :
  device_storable e -> mapDeviceCodeEntry (hset h (device_fields e)) = stored_device e.
Proof.
  intros (Hx & Ha & Hd & Hc & Hl & Hi). unfold mapDeviceCodeEntry, stored_device, map_get, hset, device_fields.
  cbn [foldl fst snd]. f_equal; hash_field; cbn [default from_option id];
    rewrite ?read_zeroAwareTime, ?parseTime_formatTime, ?parseInt64_FormatInt by done; done.
Qed.

Lemma device_fields_nonempty h fvs k v : hset h (fvs ++ [(k, v)]) <> ∅.
Proof.
  unfold hset. rewrite foldl_app. simpl. apply insert_non_empty.
Qed.

(** The save transaction on the live keys. *)
Lemma save_device_writes (key : KeyBuilder) e ttl (ks : keyspace) ks' :
  0 < ttl -> save_device key e ttl ks = (Ok tt, ks') ->
  exists h, value_at ks' (DeviceCode key (dce_DeviceCode e)) = Some (RHash (hset h (device_fields e))) /\
    value_at ks' (DeviceUserCode key (dce_UserCode e)) = Some (RString (dce_DeviceCode e)).
Proof.
  intros Ht Hr. pose proof (durationSeconds_pos _ Ht) as Hpos.
  assert (Hne : DeviceCode key (dce_DeviceCode e) <> DeviceUserCode key (dce_UserCode e))
    by by apply (build_ne key (KDeviceCode _) (KDeviceUserCode _)).
  unfold save_device in Hr. cbn [tx_pipeline exec keyspace_server] in Hr.
  rewrite (proj2 (Z.ltb_lt _ _) Ht) in Hr.
  destruct (documented (HSET _ _) ks) as [[u|err] k1] eqn:H1; cycle 1.
  { repeat case_match; simplify_eq. }
  destruct (documented (SET _ _ _) k1) as [a2 k2] eqn:H2.
  destruct (quietly (documented (EXPIRE (DeviceCode _ _) _)) k2) as [a3 k3] eqn:H3.
  destruct (quietly (documented (EXPIRE (DeviceUserCode _ _) _)) k3) as [a4 k4] eqn:H4.
  injection Hr as Ha <-. destruct a2 as [u2|]; [|done]. destruct a3 as [u3|]; [|done]. destruct a4 as [u4|]; [|done].
  apply HSET_Ok in H1 as (h & _ & ->). apply SET_Ok in H2 as [-> _].
  run H3 as b3 k3' H3'. apply ret_Ok in H3 as [_ <-]. run H4 as b4 k4' H4'. apply ret_Ok in H4 as [_ <-].
  exists h. rewrite !(value_EXPIRE _ _ _ _ _ _ H4' Hpos), !(value_EXPIRE _ _ _ _ _ _ H3' Hpos).
  rewrite !value_insert, value_keeps_ttl. repeat (case_decide; try congruence). done.
Qed.

Section Reads.
Context {W R : Type} `{HC : RedisClient W R} `{!Quiet W R}.
Context (key : KeyBuilder).

Lemma quiet_GetByDeviceCode code w h :
  value_at (keys (server w)) (DeviceCode key code) = Some (RHash h) -> h <> ∅ ->
  exists w', GetByDeviceCode key code w = (Ok (Some (mapDeviceCodeEntry h)), w') /\
    keys (server w') = keys (server w).
Proof.
  intros Hv Hne.
  destruct (quiet_call (exec (HGETALL (DeviceCode key code))) _ w (Ok h) (keys (server w)) (simulates_exec _))
    as (w' & Hc & Hk).
  { simpl. unfold on_type. by rewrite hash_at_value, Hv. }
  exists w'. split; [|done]. unfold GetByDeviceCode. rewrite (bind_run _ _ _ _ _ Hc).
  by rewrite decide_False.
Qed.

Lemma quiet_GetByUserCode user_code code w h :
  value_at (keys (server w)) (DeviceUserCode key user_code) = Some (RString code) ->
  value_at (keys (server w)) (DeviceCode key code) = Some (RHash h) -> h <> ∅ ->
  exists w', GetByUserCode key user_code w = (Ok (Some (mapDeviceCodeEntry h)), w') /\
    keys (server w') = keys (server w).
Proof.
  intros Hu Hv Hne.
  destruct (quiet_call (exec (GET (DeviceUserCode key user_code))) _ w (Ok (Some code)) (keys (server w))
    (simulates_exec _)) as (w1 & Hc & Hk).
  { simpl. unfold on_type. by rewrite string_at_value, Hu. }
  rewrite <- Hk in Hv. destruct (quiet_GetByDeviceCode code w1 h Hv Hne) as (w2 & Hg & Hk2).
  exists w2. split; [|by rewrite Hk2]. unfold GetByUserCode. by rewrite (bind_run _ _ _ _ _ Hc).
Qed.
End Reads.

Definition approved_entry (e : DeviceCodeEntry) (userID subject : string) (at_ : time) : DeviceCodeEntry :=
  mkDeviceCodeEntry (dce_DeviceCode e) (dce_UserCode e) (dce_ClientID e) (dce_ClientName e)
    (dce_ScopesJSON e) "approved" userID subject (dce_ExpiresAt e)
    (Some at_) (dce_DeniedAt e) (dce_ConsumedAt e) (dce_LastPolledAt e) (dce_Interval e).

Lemma map_approved_fields h e userID subject at_ :
  device_storable e -> four_digit_year at_ ->
  mapDeviceCodeEntry (hset (hset h (device_fields e)) (approve_fields userID subject at_)) =
  stored_device (approved_entry e userID subject at_) \/ IsZero at_ = true.
Proof.
  intros (Hx & Ha & Hd & Hc & Hl & Hi) Hat. destruct (IsZero at_) eqn:Ez; [by right|left].
  unfold mapDeviceCodeEntry, stored_device, approved_entry, map_get, hset, device_fields, approve_fields.
  cbn [foldl fst snd dce_DeviceCode dce_UserCode dce_ClientID dce_ClientName dce_ScopesJSON dce_Status dce_UserID
    dce_Subject dce_ExpiresAt dce_ApprovedAt dce_DeniedAt dce_ConsumedAt dce_LastPolledAt dce_Interval].
  f_equal; hash_field; cbn [default from_option id];
    rewrite ?read_zeroAwareTime, ?parseTime_formatTime, ?parseInt64_FormatInt by done; try done.
  unfold read_time. rewrite parseTime_formatTime by done. simpl. by rewrite Ez.
Qed.

(** A device request saved in the cache is the request the polling
    device and the browser read, by device code and by user code (times to
    the second, unset times unset); and once it is approved both see the
    approval, with its user, and the rest of the request unchanged. *)
Theorem device_cache_round_trip {W R} `{HC : RedisClient W R} `{!Quiet W R} (key : KeyBuilder)
    (e : DeviceCodeEntry) ttl w w1 :
  device_storable e -> 0 < ttl -> Save key e ttl w = (Ok tt, w1) ->
  (exists w2, GetByDeviceCode key (dce_DeviceCode e) w1 = (Ok (Some (stored_device e)), w2)) /\
  (exists w2, GetByUserCode key (dce_UserCode e) w1 = (Ok (Some (stored_device e)), w2)) /\
  (forall userID subject at_, four_digit_year at_ -> IsZero at_ = false ->
     exists w2 w3, Approve key (dce_UserCode e) userID subject at_ w1 = (Ok tt, w2) /\
       GetByDeviceCode key (dce_DeviceCode e) w2 =
         (Ok (Some (stored_device (approved_entry e userID subject at_))), w3)).
Proof.
  intros He Ht Hsave. unfold Save in Hsave. apply call_Ok in Hsave as (wb & r & Hs & <-).
  eapply simulates_tx in Hs; [|repeat constructor; eauto with simulates].
  apply (save_device_writes key e ttl) in Hs as (h & Hd & Hu); [|done].
  assert (Hne : hset h (device_fields e) <> ∅).
  { unfold device_fields. exact (device_fields_nonempty h (_ :: _ :: _ :: _ :: _ :: _ :: _ :: _ :: _ :: _ :: _ :: _ :: [_]) _ _). }
  destruct (quiet_GetByDeviceCode key _ _ _ Hd Hne) as (w2 & G2 & _).
  destruct (quiet_GetByUserCode key _ _ _ _ Hu Hd Hne) as (w3 & G3 & K3).
  rewrite map_device_fields in G2, G3 by done.
  split; [by exists w2|]. split; [by exists w3|]. intros userID subject at_ Hat Hz.
  assert (Hd3 : value_at (keys (server w3)) (DeviceCode key (dce_DeviceCode e)) = Some (RHash (hset h (device_fields e))))
    by by rewrite K3.
  destruct (quiet_call (exec (HSET (DeviceCode key (dce_DeviceCode e)) (approve_fields userID subject at_))) _ w3
    (Ok tt) (keeps_ttl (keys (server w3)) (DeviceCode key (dce_DeviceCode e))
      (RHash (hset (hset h (device_fields e)) (approve_fields userID subject at_)))) (simulates_exec _)) as (w4 & H4 & K4).
  { simpl. unfold on_type. rewrite hash_at_value, Hd3. reflexivity. }
  assert (Hd4 : value_at (keys (server w4)) (DeviceCode key (dce_DeviceCode e)) =
    Some (RHash (hset (hset h (device_fields e)) (approve_fields userID subject at_)))).
  { rewrite K4, value_keeps_ttl. by rewrite decide_True. }
  destruct (quiet_GetByDeviceCode key _ _ _ Hd4) as (w5 & G5 & _).
  { exact (device_fields_nonempty _ [_; _; _] _ _). }
  exists w4, w5. split.
  - unfold Approve. rewrite (bind_run _ _ _ _ _ G3). exact H4.
  - rewrite G5. destruct (map_approved_fields h e userID subject at_ He Hat) as [->|Hz']; [done|congruence].
Qed.

(** ** Polling is throttled *)

Section Throttle.
Context {W R : Type} `{HC : RedisClient W R} `{!WatchedServer W R}.

Lemma calm_rtc k r r' : rtc (calm changes k) r r' -> calm changes k r r'.
Proof.
  induction 1 as [|r r1 r' [H1 H2] _ [H3 H4]]; [by split|]. split; [lia|].
  intros He. rewrite H4 by lia. apply H2. lia.
Qed.

Lemma calm_transport k w : rtc (calm changes k) (server w) (server (transport w).2).
Proof. apply rtc_once, changes_transport. Qed.

Lemma calm_command {A} k (c : command A) r : rtc (calm changes k) r (exec c r).2.
Proof. apply rtc_once, changes_exec. Qed.

Lemma calm_watched k seen fvs r : rtc (calm changes k) r (exec_watched (W := W) k seen fvs r).2.
Proof. unfold exec_watched. case_match; [apply calm_command | done]. Qed.
End Throttle.

(** C22. Polling is throttled atomically.  [TouchPoll] lets a poll through
    only if, at the very instant the cache recorded it, the code existed and
    its last recorded poll was at least the minimum interval ago: of several
    polls racing, those that lost see a failed transaction.  The recorded
    poll then bars every poll before its second plus the interval. *)
Theorem poll_interval_enforced {W R} `{HC : RedisClient W R} `{!WatchedServer W R} (key : KeyBuilder)
    code polledAt minInterval w w' :
  TouchPoll key code polledAt minInterval w = (Ok true, w') ->
  exists (r : R) h,
    value_at (keys r) (DeviceCode key code) = Some (RHash h) /\
    too_soon h polledAt minInterval = false /\
    value_at (keys (server w')) (DeviceCode key code) =
      Some (RHash (<["last_polled_at" := formatTime polledAt]> h)) /\
    (four_digit_year polledAt -> IsZero (Unix polledAt * Second) = false ->
     forall p, p < Unix polledAt * Second + minInterval ->
       too_soon (<["last_polled_at" := formatTime polledAt]> h) p minInterval = true).
Proof.
  intros Hr. unfold TouchPoll in Hr. set (k := DeviceCode key code) in *.
  run Hr as seen w1 H1. run Hr as values w2 H2.
  destruct (decide (values = ∅)) as [|Hne]; [by apply ret_Ok in Hr as [? _]|].
  destruct (too_soon values polledAt minInterval) eqn:Hsoon; [by apply ret_Ok in Hr as [? _]|].
  run Hr as u w3 H3. apply ret_Ok in Hr as [_ <-].
  apply call_Ok in H1 as (wa & ra & Hw & Ha). unfold watch in Hw. injection Hw as <- <-.
  apply (call_Ok_steps (calm changes k)) in H2 as (wb & rb & Sb & Hb & Eb);
    [|apply calm_transport|intros ?; apply calm_command].
  apply (call_Ok_steps (calm changes k)) in H3 as (wc & rc & Sc & Hc & Ec);
    [|apply calm_transport|intros ?; apply calm_watched].
  apply calm_rtc in Sb as [B1 B2]. apply calm_rtc in Sc as [C1 C2].
  destruct (changes_exec _ (HGETALL k) (server wb) k) as [D1 D2]. rewrite Hb in D1, D2. simpl in D1, D2.
  unfold exec_watched in Hc. destruct (Z.eqb_spec (changes (server wc) k) (changes (server wa) k)) as [Heq|];
    [|discriminate]. rewrite Ha in B1, B2. rewrite Eb in C1, C2.
  assert (Hval : value_at (keys (server wc)) k = value_at (keys (server wb)) k).
  { rewrite C2, D2 by lia. done. }
  apply exec_documented in Hb, Hc. simpl in Hb. unfold on_type in Hb.
  destruct (hash_at (keys (server wb)) k) as [h|] eqn:Hh; [|discriminate]. injection Hb as <- _.
  assert (Hk : value_at (keys (server wc)) k = Some (RHash h)).
  { rewrite Hval. rewrite hash_at_value in Hh. destruct (value_at (keys (server wb)) k) as [[]|]; simplify_eq; done. }
  exists (server wc), h. split; [done|]. split; [done|]. split.
  - apply HSET_Ok in Hc as (h' & Hh' & Hk'). rewrite hash_at_value, Hk in Hh'. injection Hh' as <-.
    rewrite Ec, Hk', value_keeps_ttl, decide_True by done. done.
  - intros Hy Hz p Hp. unfold too_soon, map_get. rewrite lookup_insert_eq. cbn [default from_option id].
    rewrite parseTime_formatTime by done. rewrite Hz. unfold Before, Add. by apply Z.ltb_lt.
Qed.

(** ** At work *)

(** A server that counts the writes to each key, and a client next to it. *)
Module Counted.
Definition state : Type := keyspace * gmap string Z.

Definition count (r : state) (k : string) : Z := default 0 (r.2 !! k).

Definition bump (o : option string) (m : gmap string Z) : gmap string Z :=
  match o with Some k => <[k := default 0 (m !! k) + 1]> m | None => m end.

#[export] Program Instance counted : RedisServer state := {
  exec := fun A c r => let '(a, ks) := documented c r.1 in (a, (ks, bump (writes c) r.2));
  keys := fst;
}.
Next Obligation. intros A c [ks m] a [ks' m'] H. simpl in *. destruct (documented c ks). by simplify_eq. Qed.

Record world := mkWorld { w_server : state; w_clock : time }.

#[export] Program Instance remote : Remote world state := {
  server := w_server;
  put_server := fun r w => mkWorld r (w_clock w);
  transport := fun w => (Delivered, w);
  max_retries := fun _ => 3%nat;
}.
Next Obligation. done. Qed.

#[export] Program Instance client : RedisClient world state := { set_order := elements }.
Next Obligation. done. Qed.

#[export] Instance counted_quiet : Quiet world state.
Proof. intros w. by exists w. Qed.

#[export] Program Instance watched : WatchedServer world state := { changes := count }.
Next Obligation.
  intros A c [ks m] k. unfold calm, count. simpl. destruct (documented c ks) as [a ks'] eqn:E. simpl.
  destruct (writes c) as [j|] eqn:Hw; simpl.
  - destruct (decide (j = k)) as [->|Hne].
    + rewrite lookup_insert_eq. simpl. split; [lia|]. intros ?. lia.
    + rewrite lookup_insert_ne by done. split; [lia|]. intros _. unfold value_at.
      rewrite (documented_frame _ _ _ _ k E); [done|]. congruence.
  - split; [lia|]. intros _. unfold value_at. rewrite (documented_frame _ _ _ _ k E); [done|]. congruence.
Qed.
Next Obligation. intros w k. simpl. split; [lia|done]. Qed.
End Counted.

Module DeviceCacheDemo.
Import Counted.

Definition key : KeyBuilder := NewKeyBuilder "idp" "test".
Definition start : time := 1700000000 * Second.

Definition entry : DeviceCodeEntry :=
  mkDeviceCodeEntry "dev" "ABCD-EFGH" "tv" "TV" "[]" "pending" "" "" (start + 600 * Second)
    None None None None 5.

Definition empty_world : world := mkWorld (∅, ∅) start.
Definition saved : world := (Save (R := state) key entry (600 * Second) empty_world).2.

Lemma device_saved_Ok : Save (R := state) key entry (600 * Second) empty_world = (Ok tt, saved).
Proof. vm_compute. reflexivity. Qed.

Definition polled : world := (TouchPoll (R := state) key "dev" start (5 * Second) saved).2.

Lemma polled_Ok : TouchPoll (R := state) key "dev" start (5 * Second) saved = (Ok true, polled).
Proof. vm_compute. reflexivity. Qed.
End DeviceCacheDemo.

Import Counted.

Lemma device_cache_round_trip_witness :
  exists w2, GetByUserCode (R := state) DeviceCacheDemo.key "ABCD-EFGH" DeviceCacheDemo.saved =
    (Ok (Some (stored_device DeviceCacheDemo.entry)), w2).
Proof.
  destruct (device_cache_round_trip DeviceCacheDemo.key DeviceCacheDemo.entry (600 * Second)
    DeviceCacheDemo.empty_world DeviceCacheDemo.saved) as (_ & Huser & _).
  - split; [vm_compute; split; [discriminate|reflexivity]|].
    do 4 (split; [intros t Ht; discriminate Ht|]). reflexivity.
  - vm_compute. reflexivity.
  - exact DeviceCacheDemo.device_saved_Ok.
  - exact Huser.
Defined.

Lemma poll_interval_enforced_witness :
  exists h, too_soon (<["last_polled_at" := formatTime DeviceCacheDemo.start]> h)
    (DeviceCacheDemo.start + 4 * Second) (5 * Second) = true.
Proof.
  destruct (poll_interval_enforced DeviceCacheDemo.key "dev" DeviceCacheDemo.start (5 * Second)
    DeviceCacheDemo.saved DeviceCacheDemo.polled DeviceCacheDemo.polled_Ok) as (r & h & _ & _ & _ & Hbar).
  exists h. apply Hbar.
  - vm_compute. split; [discriminate|reflexivity].
  - vm_compute. reflexivity.
  - vm_compute. reflexivity.
Defined.
