(* ===== verification/MFACache.v ===== *)
(** * Short-lived second-factor state (mfa_repository.go)

    TOTP enrollments, the marks of used TOTP steps, and MFA challenges.  A
    challenge is a hash and a packed pair of u32 words (state mask and
    version); saving one is a compare-and-swap on the version, in one script.
    [register] is the abstract challenge: what the repository promises is that
    of a versioned register whose decision, once taken, is final. *)

From stdpp Require Import base tactics list gmap strings numbers relations.
From Stdlib Require Import ZArith Lia Ascii.
From S2P Require Import Prelude GoStrings GoJson GoTime Errors Ports AuthPorts Remote Redis RedisKeys LuaScripts DeviceCache TokenCache StateMask SessionCache.

Import KeyBuilder.

(** ** save_mfa_challenge.lua *)

Record challenge_argv := mkChallengeArgv {
  c_challenge_id : string; c_user_id : string; c_subject : string; c_username : string;
  c_ip_address : string; c_user_agent : string; c_return_to : string; c_redirect_uri : string;
  c_mfa_mode : string; c_push_status : string; c_push_code : string; c_approver_user_id : string;
  c_decided_at : string; c_passkey_session_json : string; c_expires_at : string;
  c_ttl : string; c_next_state : string; c_expected_ver : string;
}.

Definition challenge_fields (argv : challenge_argv) : list (string * string) :=
  [("challenge_id", c_challenge_id argv); ("user_id", c_user_id argv); ("subject", c_subject argv);
   ("username", c_username argv); ("ip_address", c_ip_address argv); ("user_agent", c_user_agent argv);
   ("return_to", c_return_to argv); ("redirect_uri", c_redirect_uri argv); ("mfa_mode", c_mfa_mode argv);
   ("push_status", c_push_status argv); ("push_code", c_push_code argv);
   ("approver_user_id", c_approver_user_id argv); ("decided_at", c_decided_at argv);
   ("passkey_session_json", c_passkey_session_json argv); ("expires_at", c_expires_at argv)].

Section Script.
Context {R : Type} `{RedisServer R}.

(** The state of a record that still keeps it in its hash. *)
Definition migrated_state (hash_key : string) (cur_state : Z) : IO R Z :=
  if negb (cur_state =? 0) then ret cur_state else
  let* old := exec (HGET hash_key "state_mask") in
  let* old_mask := some_or (tonumber (default "0" old)) (Driver "attempt to compare number with nil") in
  if 0 <? old_mask then ret old_mask else
  let* hash_mode := exec (HGET hash_key "mfa_mode") in
  let* hash_push := exec (HGET hash_key "push_status") in
  let* hash_passkey := exec (HGET hash_key "passkey_session_json") in
  let cur := if String.eqb (default "" hash_mode) "passkey_totp_fallback" then Z.lor cur_state 2
             else if String.eqb (default "" hash_mode) "push_totp_fallback" then Z.lor cur_state 4
             else cur_state in
  let cur := if String.eqb (default "" hash_push) "approved" then Z.lor cur 8
             else if String.eqb (default "" hash_push) "denied" then Z.lor cur 16 else cur in
  let cur := if String.eqb (default "" hash_passkey) "" then cur else Z.lor cur 32 in
  ret (if cur =? 0 then cur else Z.lor cur 1).

Definition migrated_version (hash_key : string) (cur_ver : Z) : IO R (option Z) :=
  if negb (cur_ver =? 0) then ret (Some cur_ver) else
  let* old := exec (HGET hash_key "state_ver") in
  ret (tonumber (default "0" old)).

(** A Lua table ends at its first nil. *)
Definition reply (code : Z) (ver : option Z) : list lua_value :=
  LInt code :: match ver with Some v => [LInt v] | None => [] end.

(** The combinations of state bits the script accepts. *)
Definition acceptable_state (next_state : Z) : bool :=
  let push_decision := Z.land next_state 24 in
  negb (Z.land next_state 1 =? 0) &&
  negb (negb (Z.land next_state 4 =? 0) && negb (Z.land next_state 2 =? 0)) &&
  negb ((Z.land next_state 4 =? 0) && negb (push_decision =? 0)) &&
  negb (push_decision =? 24).

Definition save_mfa_challenge (hash_key state_key : string) (argv : challenge_argv)
    : IO R (list lua_value) :=
  let ttl := number_or_0 (c_ttl argv) in
  let next_state := number_or_0 (c_next_state argv) in
  let expected_ver := default (-1) (tonumber (c_expected_ver argv)) in
  let* cur_pair := exec (BITFIELD_GET state_key [0%nat; 4%nat]) in
  let cur_state := default 0 (cur_pair !! 0%nat) in
  let cur_ver := default 0 (cur_pair !! 1%nat) in
  let* cur_ver := migrated_version hash_key cur_ver in
  let* cur_state := migrated_state hash_key cur_state in
  if (0 <=? expected_ver) && negb (bool_decide (cur_ver = Some expected_ver))
  then ret (reply (-2) cur_ver) else
  if negb (acceptable_state next_state) then ret (reply (-3) cur_ver) else
  let cur_terminal := Z.land cur_state 24 in
  if negb (cur_terminal =? 0) && negb (cur_terminal =? Z.land next_state 24)
  then ret (reply (-3) cur_ver) else
  let* cur := some_or cur_ver (Driver "attempt to perform arithmetic on nil") in
  let next_ver := if 4294967295 <? cur + 1 then 1 else cur + 1 in
  do* exec (HSET hash_key (challenge_fields argv)) in
  do* exec (BITFIELD_SET state_key [(0%nat, next_state); (4%nat, next_ver)]) in
  do* (if 0 <? ttl
       then do* exec (EXPIRE hash_key ttl) in quietly (exec (EXPIRE state_key ttl))
       else ret tt) in
  ret (reply 1 (Some next_ver)).
End Script.

Lemma simulates_save_mfa_challenge {R} `{RedisServer R} h s argv :
  simulates (R:=R) (save_mfa_challenge h s argv) (save_mfa_challenge h s argv).
Proof.
  unfold save_mfa_challenge. simulate; unfold migrated_version, migrated_state; simulate.
Qed.

#[export] Hint Resolve simulates_save_mfa_challenge : simulates.

(** ** The repository *)

Section Repository.
Context {W R : Type} `{HC : RedisClient W R}.
Context (key : KeyBuilder).

Definition enrollment_fields (entry : TOTPEnrollmentEntry) : list (string * string) :=
  [("session_id", tee_SessionID entry); ("user_id", tee_UserID entry); ("secret", tee_Secret entry);
   ("provisioning_uri", tee_ProvisioningURI entry); ("expires_at", formatTime (tee_ExpiresAt entry))].

Definition SaveTOTPEnrollment (entry : TOTPEnrollmentEntry) (ttl : duration) : IO W unit :=
  call (save_hash (TOTPEnrollment key (tee_SessionID entry)) (enrollment_fields entry) ttl).

Definition GetTOTPEnrollment (sessionID : string) : IO W (option TOTPEnrollmentEntry) :=
  let* values := call (exec (HGETALL (TOTPEnrollment key sessionID))) in
  if decide (values = ∅) then ret None else
  ret (Some {| tee_SessionID := map_get values "session_id";
               tee_UserID := map_get values "user_id";
               tee_Secret := map_get values "secret";
               tee_ProvisioningURI := map_get values "provisioning_uri";
               tee_ExpiresAt := parseTime (map_get values "expires_at") |}).

Definition DeleteTOTPEnrollment (sessionID : string) : IO W unit :=
  do* call (exec (DEL (TOTPEnrollment key sessionID))) in ret tt.

(** The client sends a lifetime of whole seconds as such, any other in
    milliseconds; 0 is no expiry, -1 keeps the one of the key. *)
Definition nx_lifetime (ttl : duration) : option Z :=
  if (ttl =? 0) || (ttl =? -1) then None
  else if (ttl <? Second) || negb (Z.rem ttl Second =? 0) then
    Some (if (0 <? ttl) && (ttl <? Millisecond) then 1 else Z.quot ttl Millisecond)
  else Some (Z.quot ttl Second * 1000).

Definition ReserveTOTPStepUse (userID purpose : string) (step : Z) (ttl : duration) : IO W bool :=
  call (exec (SETNX (TOTPStepUsed key userID purpose step) "1" (nx_lifetime ttl))).

Definition entry_mask (entry : MFAChallengeEntry) : Z :=
  NormalizeMFAChallengeStateMask (mce_StateMask entry) (mce_MFAMode entry) (mce_PushStatus entry)
    (mce_PasskeySessionJSON entry).

Definition challenge_args (entry : MFAChallengeEntry) (ttl : duration) : challenge_argv :=
  let stateMask := entry_mask entry in
  {| c_challenge_id := mce_ChallengeID entry;
     c_user_id := mce_UserID entry;
     c_subject := mce_Subject entry;
     c_username := mce_Username entry;
     c_ip_address := mce_IPAddress entry;
     c_user_agent := mce_UserAgent entry;
     c_return_to := mce_ReturnTo entry;
     c_redirect_uri := mce_RedirectURI entry;
     c_mfa_mode := MFAModeFromStateMask stateMask (mce_MFAMode entry);
     c_push_status := MFAPushStatusFromStateMask stateMask (mce_PushStatus entry);
     c_push_code := mce_PushCode entry;
     c_approver_user_id := mce_ApproverUserID entry;
     c_decided_at := formatTime (mce_DecidedAt entry);
     c_passkey_session_json := mce_PasskeySessionJSON entry;
     c_expires_at := formatTime (mce_ExpiresAt entry);
     c_ttl := FormatInt (durationSeconds ttl);
     c_next_state := FormatInt stateMask;
     c_expected_ver := FormatInt (mce_StateVersion entry) |}.

Definition save_challenge_script (entry : MFAChallengeEntry) (ttl : duration) : IO R (list lua_value) :=
  save_mfa_challenge (MFAChallenge key (mce_ChallengeID entry)) (MFAChallengeState key (mce_ChallengeID entry))
    (challenge_args entry ttl).

Definition toInt64 (value : lua_value) : Z :=
  match value with LInt z => z | LStr s => parseInt64 s | LNil => 0 end.

Definition save_result (values : list lua_value) : IO W unit :=
  match values with
  | [] => throw (Driver "save mfa challenge: unexpected lua response")
  | v :: _ =>
      let code := toInt64 v in
      if code =? 1 then ret tt
      else if code =? -2 then throw ErrStateVersionConflict
      else if code =? -3 then throw ErrInvalidStateTransition
      else throw (Driver "save mfa challenge: unexpected lua code")
  end.

Definition SaveMFAChallenge (entry : MFAChallengeEntry) (ttl : duration) : IO W unit :=
  let* values := call (save_challenge_script entry ttl) in save_result values.

Definition challenge_field_names : list string :=
  ["challenge_id"; "user_id"; "subject"; "username"; "ip_address"; "user_agent"; "return_to";
   "redirect_uri"; "mfa_mode"; "push_status"; "push_code"; "approver_user_id"; "decided_at";
   "passkey_session_json"; "expires_at"; "state_mask"; "state_ver"].

Definition challenge_of_values (values : list (option string)) (stateValues : list Z)
    : option MFAChallengeEntry :=
  match values with
  | Some challenge_id :: user_id :: subject :: username :: ip :: agent :: return_to :: redirect
      :: mode :: push :: code :: approver :: decided :: passkey :: expires :: state_mask :: state_ver :: _ =>
      let mode := readRedisString mode in
      let pushStatus := readRedisString push in
      let passkeySessionJSON := readRedisString passkey in
      let '(stateMask, stateVersion) := decodePackedState stateValues in
      let stateMask := if stateMask =? 0 then parseUint32 (readRedisString state_mask) else stateMask in
      let stateVersion := if stateVersion =? 0 then parseUint32 (readRedisString state_ver) else stateVersion in
      let stateMask := NormalizeMFAChallengeStateMask stateMask mode pushStatus passkeySessionJSON in
      Some {| mce_ChallengeID := challenge_id;
              mce_UserID := readRedisString user_id;
              mce_Subject := readRedisString subject;
              mce_Username := readRedisString username;
              mce_IPAddress := readRedisString ip;
              mce_UserAgent := readRedisString agent;
              mce_ReturnTo := readRedisString return_to;
              mce_RedirectURI := readRedisString redirect;
              mce_MFAMode := MFAModeFromStateMask stateMask mode;
              mce_PushStatus := MFAPushStatusFromStateMask stateMask pushStatus;
              mce_PushCode := readRedisString code;
              mce_ApproverUserID := readRedisString approver;
              mce_DecidedAt := parseTime (readRedisString decided);
              mce_PasskeySessionJSON := passkeySessionJSON;
              mce_ExpiresAt := parseTime (readRedisString expires);
              mce_StateMask := stateMask;
              mce_StateVersion := stateVersion |}
  | _ => None
  end.

(** A plain pipeline, as in the session cache. *)
Definition GetMFAChallenge (challengeID : string) : IO W (option MFAChallengeEntry) :=
  let* valuesCmd := attempt (call (exec (HMGET (MFAChallenge key challengeID) challenge_field_names))) in
  let* stateCmd := attempt (call (exec (BITFIELD_GET (MFAChallengeState key challengeID) [0%nat; 4%nat]))) in
  match valuesCmd, stateCmd with
  | Ok values, Ok stateValues => ret (challenge_of_values values stateValues)
  | Err e, _ => throw e
  | _, Err e => throw e
  end.

(** One [DEL] of two keys. *)
Definition delete_challenge_script (challengeID : string) : IO R unit :=
  do* exec (DEL (MFAChallenge key challengeID)) in
  do* exec (DEL (MFAChallengeState key challengeID)) in ret tt.

Definition DeleteMFAChallenge (challengeID : string) : IO W unit :=
  call (delete_challenge_script challengeID).

Definition NewMFARepository : MFARepository W := {|
  AuthPorts.SaveTOTPEnrollment := SaveTOTPEnrollment;
  AuthPorts.GetTOTPEnrollment := GetTOTPEnrollment;
  AuthPorts.DeleteTOTPEnrollment := DeleteTOTPEnrollment;
  AuthPorts.ReserveTOTPStepUse := ReserveTOTPStepUse;
  AuthPorts.SaveMFAChallenge := SaveMFAChallenge;
  AuthPorts.GetMFAChallenge := GetMFAChallenge;
  AuthPorts.DeleteMFAChallenge := DeleteMFAChallenge;
|}.
End Repository.

(** ** Masks as the script and the repository see them *)

Lemma land_flag m n : 0 <= n -> Z.land m (2 ^ n) = if Z.testbit m n then 2 ^ n else 0.
Proof.
  intros Hn. apply Z.bits_inj'. intros k Hk. rewrite Z.land_spec, Z.pow2_bits_eqb by done.
  destruct (Z.eqb_spec n k) as [->|Hne].
  - rewrite andb_true_r. destruct (Z.testbit m k); [by rewrite Z.pow2_bits_true | by rewrite Z.bits_0].
  - rewrite andb_false_r. destruct (Z.testbit m n); [|by rewrite Z.bits_0].
    by rewrite Z.pow2_bits_eqb, (proj2 (Z.eqb_neq _ _) Hne).
Qed.

(** The decision bits of a mask. *)
Definition decision (mask : Z) : Z := Z.land mask 24.

Lemma decision_of_view m :
  decision m = (if approved (view m) then 8 else 0) + (if denied (view m) then 16 else 0).
Proof.
  unfold decision. change 24 with (Z.lor (2 ^ 3) (2 ^ 4)). rewrite Z.land_lor_distr_r.
  rewrite !land_flag by lia. change (Z.testbit m 3) with (approved (view m)).
  change (Z.testbit m 4) with (denied (view m)). by destruct (approved _), (denied _).
Qed.

Lemma legal_acceptable m b : legal (view m) b -> acceptable_state m = true.
Proof.
  intros (Hl & Hex & Hdec & Hboth & _). unfold acceptable_state. cbv zeta.
  change (Z.land m 24) with (decision m). rewrite decision_of_view.
  pose proof (land_flag m 0 ltac:(lia)) as L0. pose proof (land_flag m 1 ltac:(lia)) as L1.
  pose proof (land_flag m 2 ltac:(lia)) as L2. change (2 ^ 0) with 1 in L0.
  change (2 ^ 1) with 2 in L1. change (2 ^ 2) with 4 in L2. rewrite L0, L1, L2.
  change (Z.testbit m 0) with (live (view m)). change (Z.testbit m 1) with (passkey (view m)).
  change (Z.testbit m 2) with (push (view m)). revert Hl Hex Hdec Hboth.
  destruct (view m) as [[] [] [] [] [] e]; simpl; intros; try done; by specialize (Hdec eq_refl).
Qed.

Lemma entry_mask_range e : u32 (mce_StateMask e) -> 0 < entry_mask e < 2 ^ 32.
Proof.
  intros Hm. unfold entry_mask.
  destruct (normalized_challenge_legal (mce_StateMask e) (mce_MFAMode e) (mce_PushStatus e)
    (mce_PasskeySessionJSON e)) as ((Hlive & _) & Hs & _).
  set (m := NormalizeMFAChallengeStateMask _ _ _ _) in *. clearbody m.
  rewrite !Z.shiftr_div_pow2 in Hs by lia. unfold u32 in Hm.
  assert (m <> 0) by by intros ->. Z.to_euclidean_division_equations; lia.
Qed.

(** The modes the program uses. *)
Definition known_mode (mode : string) : Prop :=
  mode = mfaModeTOTPOnly \/ mode = mfaModePushTOTPFallback \/ mode = mfaModePasskeyTOTPFallback.

(** The strings a challenge is stored with name the state it is stored in. *)
Lemma stored_strings mask mode push js :
  known_mode mode ->
  let m := NormalizeMFAChallengeStateMask mask mode push js in
  MFAModeFromStateMask m mode = mode /\
  NormalizeMFAChallengeStateMask m mode (MFAPushStatusFromStateMask m push) js = m /\
  MFAPushStatusFromStateMask m (MFAPushStatusFromStateMask m push) = MFAPushStatusFromStateMask m push.
Proof.
  intros Hk. cbv zeta. unfold MFAModeFromStateMask, MFAPushStatusFromStateMask. cbv zeta.
  rewrite !has_push, !has_passkey, !has_approved, !has_denied, !view_canonical, !view_Normalize.
  split; [|split].
  - destruct Hk as [->|[->| ->]], (normalizeMFAPushStatus_cases push) as [Hs|[Hs|Hs]];
      unfold decision_view, mode_view; rewrite Hs; reflexivity.
  - apply mask_ext; [|by rewrite shiftr_Normalize].
    rewrite !view_Normalize. destruct Hk as [->|[->| ->]], (normalizeMFAPushStatus_cases push) as [Hs|[Hs|Hs]];
      unfold decision_view, mode_view; rewrite ?Hs; destruct (view mask) as [[] [] [] [] [] []], (blank js);
      reflexivity.
  - destruct Hk as [->|[->| ->]], (normalizeMFAPushStatus_cases push) as [Hs|[Hs|Hs]];
      unfold decision_view, mode_view; rewrite ?Hs; reflexivity.
Qed.

(** ** The abstract challenge

    A versioned register: a save carries the version it has read and writes
    the next one; a decision, once taken, is not rewritten. *)

Record register := mkRegister { reg_entry : MFAChallengeEntry; reg_ms : Z }.

Definition reg_version (o : option register) : Z :=
  match o with Some r => mce_StateVersion (reg_entry r) | None => 0 end.

Definition reg_decision (o : option register) : Z :=
  match o with Some r => decision (mce_StateMask (reg_entry r)) | None => 0 end.

Definition next_version (ver : Z) : Z := if 4294967295 <? ver + 1 then 1 else ver + 1.

(** What a save writes: times to the second, strings and mask consistent. *)
Definition stored_challenge (e : MFAChallengeEntry) (ver : Z) : MFAChallengeEntry :=
  mkMFAChallengeEntry (mce_ChallengeID e) (mce_UserID e) (mce_Subject e) (mce_Username e) (mce_IPAddress e)
    (mce_UserAgent e) (mce_ReturnTo e) (mce_RedirectURI e) (mce_MFAMode e)
    (MFAPushStatusFromStateMask (entry_mask e) (mce_PushStatus e)) (mce_PushCode e) (mce_ApproverUserID e)
    (Unix (mce_DecidedAt e) * Second) (mce_PasskeySessionJSON e) (Unix (mce_ExpiresAt e) * Second)
    (entry_mask e) ver.

Inductive save_outcome := Saved (ver : Z) | Conflict (ver : Z) | Refused (ver : Z).

Definition abs_save (e : MFAChallengeEntry) (ttl : duration) (o : option register)
    : save_outcome * option register :=
  if negb (reg_version o =? mce_StateVersion e) then (Conflict (reg_version o), o)
  else if negb (reg_decision o =? 0) && negb (reg_decision o =? decision (entry_mask e))
  then (Refused (reg_version o), o)
  else let ver := next_version (reg_version o) in
       (Saved ver, Some (mkRegister (stored_challenge e ver) (durationSeconds ttl * 1000))).

Definition abs_elapse (d : Z) (o : option register) : option register :=
  match o with
  | Some r => if reg_ms r <=? d then None else Some (mkRegister (reg_entry r) (reg_ms r - d))
  | None => None
  end.

Definition outcome_reply (out : save_outcome) : list lua_value :=
  match out with
  | Saved v => [LInt 1; LInt v]
  | Conflict v => [LInt (-2); LInt v]
  | Refused v => [LInt (-3); LInt v]
  end.

Definition outcome_result (out : save_outcome) : result error unit :=
  match out with
  | Saved _ => Ok tt
  | Conflict _ => Err (ErrStateVersionConflict : error)
  | Refused _ => Err (ErrInvalidStateTransition : error)
  end.

(** ** The register in the cache *)

Definition packed (ks : keyspace) (S : string) : list Z :=
  List.map (bitfield_get1 (match value_at ks S with Some (RString s) => chars (Some s) | _ => [] end)) [0%nat; 4%nat].

(** The two keys hold the register, and expire together. *)
Definition represents (H S : string) (ks : keyspace) (o : option register) : Prop :=
  match o with
  | None => ks !! H = None /\ ks !! S = None
  | Some (mkRegister e ms) => exists h s,
      ks !! H = Some (mkEntry (RHash h) (Some ms)) /\ ks !! S = Some (mkEntry (RString s) (Some ms)) /\
      challenge_of_values (List.map (fun f => h !! f) challenge_field_names) (packed ks S) = Some e /\
      packed ks S = [mce_StateMask e; mce_StateVersion e] /\
      0 < mce_StateMask e < 2 ^ 32 /\ 0 < mce_StateVersion e < 2 ^ 32
  end.

Definition challenge_storable (e : MFAChallengeEntry) : Prop :=
  u32 (mce_StateMask e) /\ u32 (mce_StateVersion e) /\ four_digit_year (mce_DecidedAt e) /\
  four_digit_year (mce_ExpiresAt e) /\ known_mode (mce_MFAMode e).

Definition lifetime (ttl : duration) : Prop := 0 < ttl <= int64_max.

Lemma lifetime_seconds ttl : lifetime ttl -> 0 < durationSeconds ttl /\ exact_int (durationSeconds ttl).
Proof.
  intros [H0 H1]. pose proof (durationSeconds_pos _ H0). split; [done|]. unfold exact_int, durationSeconds in *.
  assert (Z.quot ttl Second <= 9223372036).
  { rewrite Z.quot_div_nonneg by (unfold Second; lia). unfold int64_max, Second in *.
    Z.to_euclidean_division_equations; lia. }
  case_match; lia.
Qed.

Lemma EXPIRE_run ks k e secs : ks !! k = Some e -> 0 < secs ->
  documented (EXPIRE k secs) ks = (Ok true, <[k := mkEntry (e_value e) (Some (secs * 1000))]> ks).
Proof. intros Hk Hs. simpl. rewrite Hk. by rewrite (proj2 (Z.leb_gt _ _) Hs). Qed.

Lemma reg_version_range H S ks o : represents H S ks o -> 0 <= reg_version o < 2 ^ 32.
Proof. destruct o as [[e ms]|]; simpl; [|lia]. intros (h & s & _ & _ & _ & _ & _ & Hv). lia. Qed.

Lemma next_version_range v : 0 <= v < 2 ^ 32 -> 0 < next_version v < 2 ^ 32.
Proof. unfold next_version. intros Hv. destruct (Z.ltb_spec 4294967295 (v + 1)); lia. Qed.

(** The script reads the version and the mask of the register. *)
Lemma challenge_state_read H S ks o :
  represents H S ks o ->
  exists pair, documented (BITFIELD_GET S [0%nat; 4%nat]) ks = (Ok pair, ks) /\
    migrated_version H (default 0 (pair !! 1%nat)) ks = (Ok (Some (reg_version o)), ks) /\
    exists cur, migrated_state H (default 0 (pair !! 0%nat)) ks = (Ok cur, ks) /\ decision cur = reg_decision o.
Proof.
  intros Ho. exists (packed ks S). destruct o as [[e ms]|].
  - destruct Ho as (h & s & HH & HS & _ & Hp & Hm & Hv).
    assert (HvS : value_at ks S = Some (RString s)) by (unfold value_at; by rewrite HS).
    split; [|rewrite Hp; split].
    + simpl. unfold on_type, packed. by rewrite string_at_value, HvS.
    + unfold migrated_version. simpl. by destruct (Z.eqb_spec (mce_StateVersion e) 0); [lia|].
    + exists (mce_StateMask e). split; [|done]. unfold migrated_state. simpl.
      by destruct (Z.eqb_spec (mce_StateMask e) 0); [lia|].
  - destruct Ho as [HH HS]. assert (Hnone : forall f, documented (HGET H f) ks = (Ok None, ks)).
    { intros f. simpl. unfold on_type, hash_at. by rewrite HH. }
    assert (Hp : packed ks S = [0; 0]) by (unfold packed, value_at; by rewrite HS).
    rewrite Hp. split; [|split].
    + simpl. unfold on_type, string_at. by rewrite HS.
    + change (default 0 ([0; 0] !! 1%nat)) with 0. unfold migrated_version. cbn [Z.eqb negb exec keyspace_server]. by rewrite (bind_run _ _ _ _ _ (Hnone _)).
    + exists 0. split; [|done]. change (default 0 ([0; 0] !! 0%nat)) with 0. unfold migrated_state.
      cbn [Z.eqb negb exec keyspace_server]. rewrite (bind_run _ _ _ _ _ (Hnone _)). rewrite (bind_run _ _ _ 0 ks) by done.
      cbn [Z.ltb Z.compare]. by do 3 rewrite (bind_run _ _ _ _ _ (Hnone _)).
Qed.

Lemma read_challenge_fields h argv :
  List.map (fun f => hset h (challenge_fields argv) !! f) challenge_field_names =
  List.map Some [c_challenge_id argv; c_user_id argv; c_subject argv; c_username argv; c_ip_address argv;
    c_user_agent argv; c_return_to argv; c_redirect_uri argv; c_mfa_mode argv; c_push_status argv;
    c_push_code argv; c_approver_user_id argv; c_decided_at argv; c_passkey_session_json argv; c_expires_at argv]
  ++ [h !! "state_mask"; h !! "state_ver"].
Proof.
  unfold challenge_field_names, hset, challenge_fields. simpl.
  repeat (f_equal; [by hash_field|]). by hash_field.
Qed.

(** The hash and the packed state a save writes are read back. *)
Lemma challenge_read_back h e ttl ver :
  challenge_storable e -> 0 < ver < 2 ^ 32 ->
  challenge_of_values (List.map (fun f => hset h (challenge_fields (challenge_args e ttl)) !! f) challenge_field_names)
    [entry_mask e; ver] = Some (stored_challenge e ver).
Proof.
  intros (Hm & _ & Hd & Hx & Hk) Hv. rewrite read_challenge_fields. pose proof (entry_mask_range e Hm) as Hmask.
  destruct (stored_strings (mce_StateMask e) (mce_MFAMode e) (mce_PushStatus e) (mce_PasskeySessionJSON e) Hk)
    as (Hmode & Hnorm & Hpush). fold (entry_mask e) in Hmode, Hnorm, Hpush.
  cbn [List.map app challenge_of_values challenge_args c_challenge_id c_user_id c_subject c_username c_ip_address
    c_user_agent c_return_to c_redirect_uri c_mfa_mode c_push_status c_push_code c_approver_user_id c_decided_at
    c_passkey_session_json c_expires_at readRedisString default from_option id decodePackedState].
  rewrite !decode_u32 by (unfold u32; lia). rewrite Hmode.
  rewrite (proj2 (Z.eqb_neq (entry_mask e) 0)), (proj2 (Z.eqb_neq ver 0)) by lia.
  rewrite Hnorm, Hmode, Hpush, !parseTime_formatTime by done. done.
Qed.

(** The writing half of the script. *)
Lemma challenge_writes H S ks o e ttl :
  H <> S -> represents H S ks o -> challenge_storable e -> lifetime ttl ->
  let ver := next_version (reg_version o) in
  let argv := challenge_args e ttl in
  exists ks',
    (do* documented (HSET H (challenge_fields argv)) in
     do* documented (BITFIELD_SET S [(0%nat, number_or_0 (c_next_state argv)); (4%nat, ver)]) in
     do* (if 0 <? number_or_0 (c_ttl argv)
          then do* documented (EXPIRE H (number_or_0 (c_ttl argv))) in
               quietly (documented (EXPIRE S (number_or_0 (c_ttl argv))))
          else ret tt) in
     ret (reply 1 (Some ver))) ks = (Ok [LInt 1; LInt ver], ks') /\
    represents H S ks' (Some (mkRegister (stored_challenge e ver) (durationSeconds ttl * 1000))) /\
    (forall k, k <> H -> k <> S -> ks' !! k = ks !! k).
Proof.
  intros HHS Ho He Ht ver argv. pose proof (next_version_range _ (reg_version_range _ _ _ _ Ho)) as Hver. fold ver in Hver.
  destruct He as (Hm & Hrest). pose proof (entry_mask_range e Hm) as Hmask.
  destruct (lifetime_seconds ttl Ht) as [Hpos Hex].
  assert (Hh : exists h, hash_at ks H = Some h).
  { destruct o as [[? ?]|]; [destruct Ho as (h & s & HH & _) | destruct Ho as [HH _]];
      unfold hash_at; rewrite HH; by eexists. }
  assert (Hs : exists l, string_at ks S = Some l).
  { destruct o as [[? ?]|]; [destruct Ho as (h & s & _ & HS & _) | destruct Ho as [_ HS]];
      unfold string_at; rewrite HS; by eexists. }
  destruct Hh as [h Hh], Hs as [l Hs].
  assert (Hnext : number_or_0 (c_next_state argv) = entry_mask e).
  { apply number_or_0_FormatInt. unfold exact_int. lia. }
  assert (Httl : number_or_0 (c_ttl argv) = durationSeconds ttl) by by apply number_or_0_FormatInt.
  rewrite Hnext, Httl, (proj2 (Z.ltb_lt _ _) Hpos).
  set (k1 := keeps_ttl ks H (RHash (hset h (challenge_fields argv)))).
  set (l' := foldl bitfield_set1 (chars l) [(0%nat, entry_mask e); (4%nat, ver)]).
  set (k2 := keeps_ttl k1 S (RString (String.string_of_list_ascii l'))).
  rewrite (bind_run _ _ _ tt k1) by (simpl; unfold on_type; by rewrite Hh).
  rewrite (bind_run _ _ _ tt k2).
  2:{ simpl. unfold on_type. replace (string_at k1 S) with (string_at ks S); [by rewrite Hs|].
      unfold k1, keeps_ttl, string_at. by rewrite lookup_insert_ne. }
  assert (L2 : k2 !! H = Some (mkEntry (RHash (hset h (challenge_fields argv))) (ks !! H ≫= e_ttl))).
  { unfold k2, k1, keeps_ttl. rewrite lookup_insert_ne by done. by rewrite lookup_insert_eq. }
  unfold quietly. rewrite !bind_assoc, (bind_run _ _ _ _ _ (EXPIRE_run _ _ _ _ L2 Hpos)). cbn [e_value].
  set (k3 := <[H := _]> k2).
  assert (L3 : k3 !! S = Some (mkEntry (RString (String.string_of_list_ascii l')) (k1 !! S ≫= e_ttl))).
  { unfold k3, k2, keeps_ttl. rewrite lookup_insert_ne by done. by rewrite lookup_insert_eq. }
  rewrite !bind_assoc, (bind_run _ _ _ _ _ (EXPIRE_run _ _ _ _ L3 Hpos)). eexists. split; [reflexivity|]. cbn [e_value].
  assert (Hp : forall k4, k4 !! S = Some (mkEntry (RString (String.string_of_list_ascii l')) (Some (durationSeconds ttl * 1000))) ->
    packed k4 S = [entry_mask e; ver]).
  { intros k4 H4. unfold packed, value_at. rewrite H4. cbn [fmap option_fmap option_map e_value chars].
    rewrite String.list_ascii_of_string_of_list_ascii. unfold l'. rewrite bitfield_pair.
    by rewrite !Z.mod_small by lia. }
  split.
  - exists (hset h (challenge_fields argv)), (String.string_of_list_ascii l').
    rewrite (Hp _ (lookup_insert_eq _ _ _)). split; [rewrite lookup_insert_ne by done; unfold k3; by rewrite lookup_insert_eq|].
    split; [by rewrite lookup_insert_eq|]. split; [by apply challenge_read_back|]. split; [done|]. cbn. lia.
  - intros k HkH HkS. unfold k3, k2, k1, keeps_ttl. by rewrite !lookup_insert_ne.
Qed.

(** The script is the abstract save. *)
Lemma challenge_script_refines H S ks o e ttl :
  H <> S -> represents H S ks o -> challenge_storable e -> lifetime ttl ->
  exists ks', save_mfa_challenge H S (challenge_args e ttl) ks =
      (Ok (outcome_reply (abs_save e ttl o).1), ks') /\
    represents H S ks' (abs_save e ttl o).2 /\ (forall k, k <> H -> k <> S -> ks' !! k = ks !! k).
Proof.
  intros HHS Ho He Ht.
  destruct (challenge_state_read H S ks o Ho) as (pair & Hpair & Hver & cur & Hcur & Hdec).
  destruct (challenge_writes H S ks o e ttl HHS Ho He Ht) as (ks' & Hw & Hrep & Hframe).
  destruct He as (Hm & Hv & _). pose proof (entry_mask_range e Hm) as Hmask.
  assert (Hexp : tonumber (c_expected_ver (challenge_args e ttl)) = Some (mce_StateVersion e)).
  { apply tonumber_FormatInt. unfold exact_int, u32 in *. lia. }
  assert (Hnext : number_or_0 (c_next_state (challenge_args e ttl)) = entry_mask e).
  { apply number_or_0_FormatInt. unfold exact_int. lia. }
  assert (Hacc : acceptable_state (entry_mask e) = true).
  { eapply legal_acceptable. apply (normalized_challenge_legal (mce_StateMask e) (mce_MFAMode e)). }
  unfold save_mfa_challenge. cbn [exec keyspace_server].
  rewrite (bind_run _ _ _ _ _ Hpair), (bind_run _ _ _ _ _ Hver), (bind_run _ _ _ _ _ Hcur).
  rewrite Hexp. rewrite Hnext in *. cbn [default from_option id].
  change (Z.land cur 24) with (decision cur). rewrite Hdec, Hacc. change (Z.land (entry_mask e) 24) with (decision (entry_mask e)).
  rewrite (proj2 (Z.leb_le 0 (mce_StateVersion e))) by (unfold u32 in *; lia). unfold abs_save. cbn [negb andb].
  replace (bool_decide (Some (reg_version o) = Some (mce_StateVersion e))) with (reg_version o =? mce_StateVersion e).
  2:{ destruct (Z.eqb_spec (reg_version o) (mce_StateVersion e)) as [->|Hne]; symmetry;
        [by apply bool_decide_true | apply bool_decide_false; congruence]. }
  destruct (reg_version o =? mce_StateVersion e); cbn [negb]; [|by exists ks].
  destruct (negb (reg_decision o =? 0) && _); [by exists ks|].
  cbn [some_or]. exists ks'. split; [exact Hw | by split].
Qed.

(** ** Operations and runs *)

Lemma challenge_keys_ne key id : MFAChallenge key id <> MFAChallengeState key id.
Proof.
  intros Heq. apply (f_equal String.length) in Heq. revert Heq. unfold MFAChallenge, MFAChallengeState.
  rewrite !length_append. simpl. lia.
Qed.

Definition holds (key : KeyBuilder) (id : string) : keyspace -> option register -> Prop :=
  represents (MFAChallenge key id) (MFAChallengeState key id).

(** One step of a server that holds the challenge: an operation of the
    repository on it, a command of anybody on other keys, or time. *)
Inductive challenge_step (key : KeyBuilder) (id : string) (allowed : MFAChallengeEntry -> Prop) : relation keyspace :=
| step_save e ttl ks a ks' :
    mce_ChallengeID e = id -> allowed e -> challenge_storable e -> lifetime ttl ->
    save_challenge_script key e ttl ks = (a, ks') -> challenge_step key id allowed ks ks'
| step_delete ks a ks' :
    delete_challenge_script key id ks = (a, ks') -> challenge_step key id allowed ks ks'
| step_elapse d ks : 0 <= d -> challenge_step key id allowed ks (elapse d ks)
| step_other A (c : command A) ks a ks' :
    writes c <> Some (MFAChallenge key id) -> writes c <> Some (MFAChallengeState key id) ->
    documented c ks = (a, ks') -> challenge_step key id allowed ks ks'.

Inductive register_step (allowed : MFAChallengeEntry -> Prop) : relation (option register) :=
| reg_save e ttl o : allowed e -> register_step allowed o (abs_save e ttl o).2
| reg_delete o : register_step allowed o None
| reg_elapse d o : 0 <= d -> register_step allowed o (abs_elapse d o)
| reg_idle o : register_step allowed o o.

Lemma represents_frame H S ks ks' o :
  ks' !! H = ks !! H -> ks' !! S = ks !! S -> represents H S ks o -> represents H S ks' o.
Proof.
  intros HH HS. destruct o as [[e ms]|]; unfold represents, packed, value_at; rewrite HH, HS; done.
Qed.

Lemma represents_elapse H S ks o d :
  0 <= d -> represents H S ks o -> represents H S (elapse d ks) (abs_elapse d o).
Proof.
  intros Hd. destruct o as [[e ms]|]; cbn [represents abs_elapse reg_ms reg_entry].
  - intros (h & s & HH & HS & Hr & Hp & Hm).
    assert (Hage : forall v, age d (mkEntry v (Some ms)) = if ms <=? d then None else Some (mkEntry v (Some (ms - d))))
      by done.
    assert (HH' := lookup_elapse d ks H). assert (HS' := lookup_elapse d ks S). rewrite HH in HH'. rewrite HS in HS'.
    cbn [mbind option_bind] in HH', HS'. rewrite Hage in HH', HS'.
    destruct (ms <=? d); [done|]. exists h, s.
    replace (packed (elapse d ks) S) with (packed ks S); [do 2 (split; [done|]); split; [exact Hr|]; split; [exact Hp | exact Hm]|].
    unfold packed, value_at. by rewrite HS, HS'.
  - intros [HH HS]. by rewrite !lookup_elapse, HH, HS.
Qed.

Lemma delete_challenge_run key id ks :
  delete_challenge_script key id ks = (Ok tt, delete (MFAChallengeState key id) (delete (MFAChallenge key id) ks)).
Proof. reflexivity. Qed.

Lemma represents_deleted H S ks : represents H S (delete S (delete H ks)) None.
Proof.
  simpl. split; [|by rewrite lookup_delete_eq].
  destruct (decide (S = H)) as [->|]; [by rewrite lookup_delete_eq|].
  rewrite lookup_delete_ne by done. by rewrite lookup_delete_eq.
Qed.

Lemma challenge_step_refines key id allowed ks ks' o :
  challenge_step key id allowed ks ks' -> holds key id ks o ->
  exists o', register_step allowed o o' /\ holds key id ks' o'.
Proof.
  intros Hs Ho. destruct Hs as [e ttl ks a ks' Hid Hal He Ht Hr | ks a ks' Hr | d ks Hd | A c ks a ks' H1 H2 Hr].
  - unfold save_challenge_script in Hr. rewrite Hid in Hr.
    destruct (challenge_script_refines _ _ ks o e ttl (challenge_keys_ne key id) Ho He Ht) as (k2 & Hrun & Hrep & _).
    rewrite Hrun in Hr. injection Hr as <- <-. eexists. split; [by apply reg_save | exact Hrep].
  - rewrite delete_challenge_run in Hr. injection Hr as <- <-.
    exists None. split; [apply reg_delete | apply represents_deleted].
  - exists (abs_elapse d o). split; [by apply reg_elapse | by apply represents_elapse].
  - exists o. split; [apply reg_idle|]. eapply represents_frame; [| |exact Ho]; by eapply documented_frame.
Qed.

Lemma challenge_run_refines key id allowed ks ks' o :
  rtc (challenge_step key id allowed) ks ks' -> holds key id ks o ->
  exists o', rtc (register_step allowed) o o' /\ holds key id ks' o'.
Proof.
  intros Hs. revert o. induction Hs as [ks|ks k1 ks' Hstep _ IH]; intros o Ho; [by exists o|].
  destruct (challenge_step_refines _ _ _ _ _ _ Hstep Ho) as (o1 & Ha & Ho1).
  destruct (IH _ Ho1) as (o2 & Hb & Ho2). exists o2. split; [by eapply rtc_l | done].
Qed.

Section Operations.
Context {W R : Type} `{HC : RedisClient W R} `{!Quiet W R}.
Context (key : KeyBuilder).

Lemma quiet_SaveMFAChallenge e ttl w o :
  challenge_storable e -> lifetime ttl -> holds key (mce_ChallengeID e) (keys (server w)) o ->
  exists w', SaveMFAChallenge key e ttl w = (outcome_result (abs_save e ttl o).1, w') /\
    holds key (mce_ChallengeID e) (keys (server w')) (abs_save e ttl o).2.
Proof.
  intros He Ht Ho.
  destruct (challenge_script_refines _ _ _ o e ttl (challenge_keys_ne key _) Ho He Ht) as (ks' & Hrun & Hrep & _).
  destruct (quiet_call (save_challenge_script key e ttl) _ w _ _ (simulates_save_mfa_challenge _ _ _) Hrun)
    as (w' & Hc & Hk).
  exists w'. rewrite Hk. split; [|exact Hrep]. unfold SaveMFAChallenge. rewrite (bind_run _ _ _ _ _ Hc).
  by destruct (abs_save e ttl o).1.
Qed.

Lemma quiet_GetMFAChallenge id w o :
  holds key id (keys (server w)) o ->
  exists w', GetMFAChallenge key id w = (Ok (reg_entry <$> o), w') /\ keys (server w') = keys (server w).
Proof.
  intros Ho.
  assert (Hvals : exists vals pair,
    documented (HMGET (MFAChallenge key id) challenge_field_names) (keys (server w)) = (Ok vals, keys (server w)) /\
    documented (BITFIELD_GET (MFAChallengeState key id) [0%nat; 4%nat]) (keys (server w)) = (Ok pair, keys (server w)) /\
    challenge_of_values vals pair = reg_entry <$> o).
  { destruct o as [[e ms]|].
    - destruct Ho as (h & s & HH & HS & Hr & _). eexists _, _. simpl. unfold on_type, string_at, hash_at.
      rewrite HH, HS. split; [reflexivity|]. split; [reflexivity|].
      unfold packed, value_at in Hr. rewrite HS in Hr. exact Hr.
    - destruct Ho as [HH HS]. eexists _, _. simpl. unfold on_type, string_at, hash_at. rewrite HH, HS. done. }
  destruct Hvals as (vals & pair & Hm & Hb & Hr).
  destruct (quiet_call _ _ w _ _ (simulates_exec (HMGET _ _)) Hm) as (w1 & H1 & K1). rewrite <- K1 in Hb.
  destruct (quiet_call _ _ w1 _ _ (simulates_exec (BITFIELD_GET _ _)) Hb) as (w2 & H2 & K2).
  exists w2. split; [|by rewrite K2]. unfold GetMFAChallenge.
  rewrite (bind_run _ _ _ (Ok vals) w1) by (unfold attempt; by rewrite H1).
  rewrite (bind_run _ _ _ (Ok pair) w2) by (unfold attempt; by rewrite H2). by rewrite Hr.
Qed.

Lemma quiet_DeleteMFAChallenge id w :
  exists w', DeleteMFAChallenge key id w = (Ok tt, w') /\ holds key id (keys (server w')) None.
Proof.
  destruct (quiet_call (delete_challenge_script key id) (delete_challenge_script key id) w _ _
    ltac:(unfold delete_challenge_script; simulate) (delete_challenge_run key id _)) as (w' & Hc & Hk).
  exists w'. split; [exact Hc|]. rewrite Hk. apply represents_deleted.
Qed.
End Operations.

(** C25. The challenge store is the versioned register it stands for: in any
    run of saves, deletions, expiry and unrelated commands the two Redis keys
    of a challenge go through the steps of the abstract register, and on the
    state reached each operation of the repository answers what the register
    says: a save succeeds, reports a version conflict or refuses to rewrite a
    decision, a read returns exactly the entry of the last successful save
    that has not expired, a deletion leaves nothing. *)
Theorem challenge_store_refines_register {W R} `{HC : RedisClient W R} `{!Quiet W R} (key : KeyBuilder) id
    (ks : keyspace) o (w : W) :
  holds key id ks o -> rtc (challenge_step key id (fun _ => True)) ks (keys (server w)) ->
  exists o', rtc (register_step (fun _ => True)) o o' /\ holds key id (keys (server w)) o' /\
    (exists w', GetMFAChallenge key id w = (Ok (reg_entry <$> o'), w') /\ keys (server w') = keys (server w)) /\
    (forall e ttl, mce_ChallengeID e = id -> challenge_storable e -> lifetime ttl ->
       exists w', SaveMFAChallenge key e ttl w = (outcome_result (abs_save e ttl o').1, w') /\
         holds key id (keys (server w')) (abs_save e ttl o').2) /\
    (exists w', DeleteMFAChallenge key id w = (Ok tt, w') /\ holds key id (keys (server w')) None).
Proof.
  intros Ho Hrun. destruct (challenge_run_refines _ _ _ _ _ _ Hrun Ho) as (o' & Ha & Ho'). exists o'.
  split; [done|]. split; [done|]. split; [by apply quiet_GetMFAChallenge|]. split.
  - intros e ttl <- He Ht. by apply quiet_SaveMFAChallenge.
  - apply quiet_DeleteMFAChallenge.
Qed.

(** ** Decisions *)

(** An update carries a version it has read; only a creation carries 0. *)
Definition update (e : MFAChallengeEntry) : Prop := mce_StateVersion e <> 0.

Lemma update_keeps_decision o o' :
  register_step update o o' -> reg_decision o <> 0 -> o' = None \/ reg_decision o' = reg_decision o.
Proof.
  intros [e ttl o1 Hu | o1 | d o1 Hd | o1] Hdec; [|by left| |by right].
  - unfold abs_save. destruct (reg_version o1 =? _); simpl; [|by right].
    destruct (Z.eqb_spec (reg_decision o1) 0); [done|]. simpl.
    destruct (Z.eqb_spec (reg_decision o1) (decision (entry_mask e))) as [Heq|]; simpl; [by right | by right].
  - destruct o1 as [[e ms]|]; simpl; [|by left]. destruct (ms <=? d); [by left | by right].
Qed.

Lemma update_never_creates o' : register_step update None o' -> o' = None.
Proof.
  intros Hs. inversion Hs as [e ttl o1 Hu | | |]; subst; try done. unfold abs_save. cbn [reg_version].
  destruct (Z.eqb_spec 0 (mce_StateVersion e)) as [Hv|]; cbn [negb snd]; [destruct Hu; by rewrite <- Hv | done].
Qed.

Lemma updates_keep_decision o o' d :
  rtc (register_step update) o o' -> d <> 0 -> o = None \/ reg_decision o = d -> o' = None \/ reg_decision o' = d.
Proof.
  intros Hs Hd. induction Hs as [|o o1 o2 Hstep _ IH]; [done|]. intros [->|Ho]; apply IH.
  - left. by apply update_never_creates.
  - destruct (update_keeps_decision _ _ Hstep) as [->|Heq]; [congruence | by left | right; congruence].
Qed.

(** A second-factor decision is final: once a challenge is stored as
    approved or denied, then whatever updates, deletions, expiry and other
    traffic follow in whatever order (everything but creating a challenge of
    the same id anew), a reader finds the challenge with that same decision
    or finds none, and an update that would change the decision never
    succeeds. *)
Theorem push_decision_final {W R} `{HC : RedisClient W R} `{!Quiet W R} (key : KeyBuilder) id
    (ks : keyspace) r d (w : W) :
  holds key id ks (Some r) -> decision (mce_StateMask (reg_entry r)) = d -> d <> 0 ->
  rtc (challenge_step key id update) ks (keys (server w)) ->
  (exists found w', GetMFAChallenge key id w = (Ok found, w') /\
     forall e, found = Some e -> decision (mce_StateMask e) = d) /\
  (forall e ttl, mce_ChallengeID e = id -> update e -> challenge_storable e -> lifetime ttl ->
     decision (entry_mask e) <> d -> exists err w', SaveMFAChallenge key e ttl w = (Err err, w')).
Proof.
  intros Ho Hd Hne Hrun. destruct (challenge_run_refines _ _ _ _ _ _ Hrun Ho) as (o' & Ha & Ho').
  pose proof (updates_keep_decision _ _ d Ha Hne (or_intror Hd)) as Hfinal. split.
  - destruct (quiet_GetMFAChallenge key id w o' Ho') as (w' & Hg & _). exists (reg_entry <$> o'), w'.
    split; [done|]. intros e He. destruct o' as [r'|]; [|done]. injection He as <-.
    by destruct Hfinal as [|Hfinal].
  - intros e ttl <- Hu He Ht Hde. destruct (quiet_SaveMFAChallenge key e ttl w o' He Ht Ho') as (w' & Hs & _).
    unfold abs_save in Hs. destruct (Z.eqb_spec (reg_version o') (mce_StateVersion e)) as [Hv|Hv]; simpl in Hs.
    + destruct Hfinal as [-> | Hfinal]; [destruct Hu; by rewrite <- Hv|]. rewrite Hfinal in Hs.
      rewrite (proj2 (Z.eqb_neq d 0)) in Hs by done.
      rewrite (proj2 (Z.eqb_neq d (decision (entry_mask e)))) in Hs by congruence. simpl in Hs. eexists _, _. exact Hs.
    + eexists _, _. exact Hs.
Qed.

(** ** At work *)

Module MFACacheDemo.
Import Local.

Definition key : KeyBuilder := NewKeyBuilder "idp" "test".
Definition start : time := 1700000000 * Second.

Definition challenge (push : string) (mask ver : Z) : MFAChallengeEntry :=
  mkMFAChallengeEntry "c1" "7" "uuid-7" "alice" "10.0.0.1" "curl" "/" "" mfaModePushTOTPFallback push "42" ""
    zero_time "" (start + 300 * Second) mask ver.

Definition pending : MFAChallengeEntry := challenge "pending" 0 0.
Definition approved : MFAChallengeEntry := challenge "approved" 0 1.
Definition denied : MFAChallengeEntry := challenge "denied" 0 2.

Definition empty_world : world := mkWorld ∅ start.
Definition created : world := (SaveMFAChallenge key pending (300 * Second) empty_world).2.
Definition approved_register : option register :=
  Some (mkRegister (stored_challenge approved 2) (300 * 1000)).

Lemma storable push mask ver : u32 mask -> u32 ver -> challenge_storable (challenge push mask ver).
Proof.
  intros Hm Hv. split; [done|]. split; [done|].
  split; [vm_compute; split; [discriminate|reflexivity]|].
  split; [vm_compute; split; [discriminate|reflexivity] | by right; left].
Qed.

Definition create (ks : keyspace) : keyspace := (save_challenge_script key pending (300 * Second) ks).2.
Definition approve (ks : keyspace) : keyspace := (save_challenge_script key approved (300 * Second) ks).2.
Definition decided : world := mkWorld (approve (create ∅)) start.
Definition late_update : keyspace := (save_challenge_script key denied (300 * Second) (w_keys decided)).2.

Lemma empty_holds : holds key "c1" ∅ None.
Proof. done. Qed.

Lemma short_lived : lifetime (300 * Second).
Proof. split; vm_compute; [reflexivity | discriminate]. Qed.

Lemma decided_run allowed : (forall e, allowed e) -> rtc (challenge_step key "c1" allowed) ∅ (w_keys decided).
Proof.
  intros Hall. eapply rtc_l; [|eapply rtc_l; [|apply rtc_refl]].
  - apply (step_save _ _ _ pending (300 * Second) _ (save_challenge_script key pending (300 * Second) ∅).1);
      [done | apply Hall | by apply storable | apply short_lived | apply surjective_pairing].
  - apply (step_save _ _ _ approved (300 * Second) _ (save_challenge_script key approved (300 * Second) (create ∅)).1);
      [done | apply Hall | by apply storable | apply short_lived | apply surjective_pairing].
Qed.

Lemma decided_holds : holds key "c1" (w_keys decided) approved_register.
Proof. eexists _, _. do 4 (split; [vm_compute; reflexivity|]). done. Qed.
End MFACacheDemo.

Import Local.

Lemma challenge_store_refines_register_witness :
  exists o' w', (GetMFAChallenge (R := keyspace) MFACacheDemo.key "c1" MFACacheDemo.decided = (Ok (reg_entry <$> o'), w')).
Proof.
  destruct (challenge_store_refines_register MFACacheDemo.key "c1" ∅ None MFACacheDemo.decided)
    as (o' & _ & _ & (w' & Hg & _) & _).
  - exact MFACacheDemo.empty_holds.
  - by apply (MFACacheDemo.decided_run (fun _ => True)).
  - by exists o', w'.
Defined.

Lemma push_decision_final_witness :
  exists err w', SaveMFAChallenge (R := keyspace) MFACacheDemo.key MFACacheDemo.denied (300 * Second) MFACacheDemo.decided =
    (Err err, w').
Proof.
  destruct (push_decision_final MFACacheDemo.key "c1" (w_keys MFACacheDemo.decided)
    (mkRegister (stored_challenge MFACacheDemo.approved 2) (300 * 1000)) 8 MFACacheDemo.decided) as [_ Hsave].
  - exact MFACacheDemo.decided_holds.
  - reflexivity.
  - discriminate.
  - apply rtc_refl.
  - apply Hsave; [reflexivity | discriminate | by apply MFACacheDemo.storable | apply MFACacheDemo.short_lived | vm_compute; discriminate].
Defined.

(** [GetMFAChallenge] is a plain pipeline: an update that lands between its
    two commands gives a reader the old fields with the new version, with
    which its next save passes the version check. *)
Example torn_read_passes_version_check :
  let old := List.map (fun f => match hash_at (w_keys MFACacheDemo.created) (MFAChallenge MFACacheDemo.key "c1") with
                                | Some h => h !! f | None => None end) challenge_field_names in
  let new := packed (w_keys MFACacheDemo.decided) (MFAChallengeState MFACacheDemo.key "c1") in
  mce_StateVersion <$> challenge_of_values old new = Some 2 /\
  mce_PushStatus <$> challenge_of_values old new = Some "pending".
Proof. vm_compute. split; reflexivity. Qed.
