(* ===== verification/RateLimitCache.v ===== *)
(** * Failure counters and locks (rate_limit_repository.go)

    A failure counter is a string key that the first failure gives its
    lifetime, so that it counts the failures of one window; the script that
    counts also sets the lock, from the threshold on. *)

From stdpp Require Import base tactics list gmap strings numbers relations.
From Stdlib Require Import ZArith Lia Ascii.
From S2P Require Import Prelude GoStrings GoTime Errors Ports AuthPorts Remote Redis RedisKeys LuaScripts DeviceCache.

Import KeyBuilder.

(** ** increment_with_ttl.lua *)

Section Script.
Context {R : Type} `{RedisServer R}.

Definition increment_with_ttl (counter_key lock_key : string) (counter_ttl_arg threshold_arg lock_ttl_arg : string)
    : IO R (list lua_value) :=
  let counter_ttl := number_or_0 counter_ttl_arg in
  let threshold := number_or_0 threshold_arg in
  let lock_ttl := number_or_0 lock_ttl_arg in
  let* count := exec (INCR counter_key) in
  let count := to_double count in
  do* (if (count =? 1) && (0 <? counter_ttl) then quietly (exec (EXPIRE counter_key counter_ttl)) else ret tt) in
  let* locked :=
    (if negb (String.eqb lock_key "") && (0 <? threshold) && (threshold <=? count) then
       do* (if 0 <? lock_ttl then exec (SET lock_key "1" (Some lock_ttl)) else exec (SET lock_key "1" None)) in ret 1
     else ret 0) in
  let* ttl := exec (TTL counter_key) in
  ret [LInt count; LInt ttl; LInt locked].
End Script.

Lemma simulates_increment_with_ttl {R} `{RedisServer R} c l a b d :
  simulates (R:=R) (increment_with_ttl c l a b d) (increment_with_ttl c l a b d).
Proof. unfold increment_with_ttl. simulate. Qed.

#[export] Hint Resolve simulates_increment_with_ttl : simulates.

(** ** The repository *)

Section Repository.
Context {W R : Type} `{HC : RedisClient W R}.
Context (key : KeyBuilder).

Definition increment_script (counterKey lockKey : string) (counterTTL : duration) (lockThreshold : Z)
    (lockTTL : duration) : IO R (list lua_value) :=
  increment_with_ttl counterKey lockKey (FormatInt (durationSeconds counterTTL)) (FormatInt lockThreshold)
    (FormatInt (durationSeconds lockTTL)).

(** [Cmd.Int64Slice] *)
Fixpoint Int64Slice (values : list lua_value) : IO W (list Z) :=
  match values with
  | [] => ret []
  | v :: rest => let* z := luaInt64 v in let* zs := Int64Slice rest in ret (z :: zs)
  end.

Definition incrementWithLock (counterKey lockKey : string) (counterTTL : duration) (lockThreshold : Z)
    (lockTTL : duration) : IO W (option RateLimitIncrementResult) :=
  let* cmd := call (increment_script counterKey lockKey counterTTL lockThreshold lockTTL) in
  let* values := Int64Slice cmd in
  match values with
  | count :: _ :: locked :: _ => ret (Some {| rli_Count := count; rli_Locked := locked =? 1 |})
  | _ => ret (Some {| rli_Count := 0; rli_Locked := false |})
  end.

Definition user_lock_key (userID : string) : string :=
  if String.eqb (TrimSpace userID) "" then "" else UserLock key (TrimSpace userID).

Definition IncrementLoginFailByUser (username userID : string) (counterTTL : duration) (lockThreshold : Z)
    (lockTTL : duration) : IO W (option RateLimitIncrementResult) :=
  incrementWithLock (LoginFailUser key username) (user_lock_key userID) counterTTL lockThreshold lockTTL.

Definition IncrementLoginFailByIP (ip : string) (counterTTL : duration) (lockThreshold : Z) (lockTTL : duration)
    : IO W (option RateLimitIncrementResult) :=
  incrementWithLock (LoginFailIP key ip) (IPLock key ip) counterTTL lockThreshold lockTTL.

Definition counter_value (k : string) : IO W Z :=
  let* value := call (exec (GET k)) in
  ret (match value with None => 0 | Some v => parseInt64 v end).

Definition GetLoginFailByUser (username : string) : IO W Z := counter_value (LoginFailUser key username).
Definition GetLoginFailByIP (ip : string) : IO W Z := counter_value (LoginFailIP key ip).

Definition del (k : string) : IO W unit := do* call (exec (DEL k)) in ret tt.

Definition ResetLoginFailByUser (username : string) : IO W unit := del (LoginFailUser key username).
Definition ResetLoginFailByIP (ip : string) : IO W unit := del (LoginFailIP key ip).

Definition IncrementBlacklistByUser (username userID : string) (lockThreshold : Z)
    : IO W (option RateLimitIncrementResult) :=
  incrementWithLock (LoginBlacklistUser key username) (user_lock_key userID) 0 lockThreshold 0.

Definition ResetBlacklistByUser (username : string) : IO W unit := del (LoginBlacklistUser key username).

(** [Set] sends a lifetime of whole seconds as such, any other one in
    milliseconds; none at 0 or below, -1 keeps the one of the key. *)
Definition set_command (k v : string) (ttl : duration) : command unit :=
  if 0 <? ttl then
    if (ttl <? Second) || negb (Z.rem ttl Second =? 0)
    then SETPX k v (if ttl <? Millisecond then 1 else Z.quot ttl Millisecond)
    else SET k v (Some (Z.quot ttl Second))
  else if ttl =? -1 then SETKEEPTTL k v
  else SET k v None.

Definition SetUserLock (userID : string) (ttl : duration) : IO W unit :=
  call (exec (set_command (UserLock key userID) "1" ttl)).

Definition IsUserLocked (userID : string) : IO W bool := call (exec (EXISTS (UserLock key userID))).
Definition ClearUserLock (userID : string) : IO W unit := del (UserLock key userID).
Definition IsIPLocked (ip : string) : IO W bool := call (exec (EXISTS (IPLock key ip))).
Definition ClearIPLock (ip : string) : IO W unit := del (IPLock key ip).

Definition NewRateLimitRepository : RateLimitRepository W := {|
  AuthPorts.IncrementLoginFailByUser := IncrementLoginFailByUser;
  AuthPorts.IncrementLoginFailByIP := IncrementLoginFailByIP;
  AuthPorts.GetLoginFailByUser := GetLoginFailByUser;
  AuthPorts.GetLoginFailByIP := GetLoginFailByIP;
  AuthPorts.ResetLoginFailByUser := ResetLoginFailByUser;
  AuthPorts.ResetLoginFailByIP := ResetLoginFailByIP;
  AuthPorts.IncrementBlacklistByUser := IncrementBlacklistByUser;
  AuthPorts.ResetBlacklistByUser := ResetBlacklistByUser;
  AuthPorts.SetUserLock := SetUserLock;
  AuthPorts.IsUserLocked := IsUserLocked;
  AuthPorts.ClearUserLock := ClearUserLock;
  AuthPorts.IsIPLocked := IsIPLocked;
  AuthPorts.ClearIPLock := ClearIPLock;
|}.
End Repository.

(** ** Counting in a window *)

Lemma integer_value_FormatInt z : in_int64 z = true -> integer_value (FormatInt z) = Some z.
Proof. intros Hz. unfold integer_value. by rewrite ParseInt_FormatInt, String.eqb_refl. Qed.

Section Window.
(** The counter and lock keys of a call, and its three numbers in seconds. *)
Context (C L : string) (counter_ttl threshold lock_ttl : Z).
Hypothesis keys_differ : C <> L.
Hypothesis has_lock : L <> "".
Hypothesis ttl_pos : 0 < counter_ttl /\ exact_int counter_ttl.
Hypothesis threshold_pos : 0 < threshold /\ exact_int threshold.
Hypothesis lock_ttl_exact : exact_int lock_ttl.

Definition failure : IO keyspace (list lua_value) :=
  increment_with_ttl C L (FormatInt counter_ttl) (FormatInt threshold) (FormatInt lock_ttl).

(** [n] failures were counted in the window, at most [d] milliseconds ago. *)
Definition counted (n : nat) (d : Z) (ks : keyspace) : Prop :=
  if decide (n = 0%nat) then ks !! C = None
  else exists ms, ks !! C = Some (mkEntry (RString (FormatInt (Z.of_nat n))) (Some ms)) /\
    counter_ttl * 1000 - d <= ms.

Definition lock_entry : entry := mkEntry (RString "1") (if 0 <? lock_ttl then Some (lock_ttl * 1000) else None).

Lemma counted_string n d ks : counted n d ks -> exists o, string_at ks C = Some o /\
  default "0" o = FormatInt (Z.of_nat n).
Proof.
  unfold counted, string_at. case_decide as Hn; [intros ->; subst n; by eexists|].
  intros (ms & -> & _). by eexists.
Qed.

(** One failure: the count goes up by one, and the reply says whether the
    lock was set. *)
Lemma failure_counts n d ks :
  counted n d ks -> 0 <= d -> Z.of_nat n < 2 ^ 53 ->
  let locked := threshold <=? Z.of_nat n + 1 in
  exists ttl ks', failure ks = (Ok [LInt (Z.of_nat n + 1); LInt ttl; LInt (if locked then 1 else 0)], ks') /\
    counted (S n) d ks' /\
    ks' !! L = (if locked then Some lock_entry else ks !! L) /\
    (forall k, k <> C -> k <> L -> ks' !! k = ks !! k).
Proof.
  intros Hc Hd Hn locked. destruct (counted_string _ _ _ Hc) as (o & Ho & Hdef).
  destruct ttl_pos as [Ht Htx], threshold_pos as [Hth Hthx].
  unfold failure, increment_with_ttl. rewrite !number_or_0_FormatInt by done. cbn [exec keyspace_server].
  set (k1 := keeps_ttl ks C (RString (FormatInt (Z.of_nat n + 1)))).
  rewrite (bind_run _ _ _ (Z.of_nat n + 1) k1).
  2:{ simpl. rewrite Ho, Hdef, integer_value_FormatInt by (unfold in_int64, int64_min, int64_max; rewrite andb_true_iff, !Z.leb_le; lia).
      by rewrite (proj2 (Z.eqb_neq _ _)) by (unfold int64_max; lia). }
  rewrite to_double_exact by (unfold exact_int; lia). rewrite (proj2 (Z.ltb_lt _ _) Ht), andb_true_r.
  set (v := RString (FormatInt (Z.of_nat n + 1))).
  assert (H2 : exists k2, (if Z.of_nat n + 1 =? 1 then quietly (documented (EXPIRE C counter_ttl)) else ret tt) k1 = (Ok tt, k2) /\
    counted (S n) d k2 /\ (forall k, k <> C -> k2 !! k = ks !! k)).
  { unfold counted in Hc. destruct (Z.eqb_spec (Z.of_nat n + 1) 1) as [H1|H1].
    - assert (n = 0%nat) as -> by lia. unfold quietly.
      assert (L1 : k1 !! C = Some (mkEntry v (ks !! C ≫= e_ttl))) by (unfold k1, keeps_ttl; by rewrite lookup_insert_eq).
      rewrite (bind_run _ _ _ true (<[C := mkEntry v (Some (counter_ttl * 1000))]> k1)).
      2:{ simpl. rewrite L1. by rewrite (proj2 (Z.leb_gt _ _) Ht). }
      eexists. split; [reflexivity|]. unfold counted. simpl.
      split; [exists (counter_ttl * 1000); rewrite lookup_insert_eq; split; [done|lia]|].
      intros k Hk. unfold k1, keeps_ttl. by rewrite !lookup_insert_ne.
    - rewrite decide_False in Hc by lia. destruct Hc as (ms & Hms & Hle). exists k1. split; [done|].
      unfold counted. simpl. split.
      + exists ms. unfold k1, keeps_ttl. rewrite lookup_insert_eq, Hms. split; [|lia].
        simpl. do 4 f_equal. lia.
      + intros k Hk. unfold k1, keeps_ttl. by rewrite lookup_insert_ne. }
  destruct H2 as (k2 & H2 & Hcount & Hframe). rewrite (bind_run _ _ _ _ _ H2).
  rewrite (proj2 (String.eqb_neq L "") has_lock), (proj2 (Z.ltb_lt _ _) Hth). cbn [negb andb]. fold locked.
  assert (H3 : exists k3, (if locked then
       do* (if 0 <? lock_ttl then documented (SET L "1" (Some lock_ttl)) else documented (SET L "1" None)) in ret 1
     else ret 0) k2 = (Ok (if locked then 1 else 0), k3) /\
     k3 = if locked then <[L := lock_entry]> k2 else k2).
  { destruct locked; [|by eexists]. unfold lock_entry. destruct (Z.ltb_spec 0 lock_ttl) as [Hl|Hl].
    - rewrite (bind_run _ _ _ tt (<[L := mkEntry (RString "1") (Some (lock_ttl * 1000))]> k2)); [by eexists|].
      simpl. by rewrite (proj2 (Z.leb_gt _ _) Hl).
    - by eexists. }
  destruct H3 as (k3 & H3 & ->). rewrite (bind_run _ _ _ _ _ H3). eexists _, _. split; [reflexivity|].
  split; [|split].
  - destruct locked; [|done]. unfold counted in *. simpl in *. by rewrite lookup_insert_ne.
  - destruct locked; [by rewrite lookup_insert_eq | by apply Hframe].
  - intros k HkC HkL. destruct locked; [rewrite lookup_insert_ne by done|]; by apply Hframe.
Qed.

(** Everything that can happen in a window, but clearing the counter or the
    lock: failures from any server, commands on other keys, time. *)
Inductive traffic : nat -> Z -> relation keyspace :=
| traffic_start ks : traffic 0 0 ks ks
| traffic_failure n d ks k1 a k2 :
    traffic n d ks k1 -> failure k1 = (a, k2) -> traffic (S n) d ks k2
| traffic_time n d e ks k1 :
    traffic n d ks k1 -> 0 <= e -> traffic n (d + e) ks (elapse e k1)
| traffic_other n d ks k1 A (c : command A) a k2 :
    traffic n d ks k1 -> writes c <> Some C -> writes c <> Some L -> documented c k1 = (a, k2) ->
    traffic n d ks k2.

Lemma traffic_time_pos n d ks ks' : traffic n d ks ks' -> 0 <= d.
Proof. induction 1; lia. Qed.

Lemma age_keeps d v ms : d < ms -> age d (mkEntry v (Some ms)) = Some (mkEntry v (Some (ms - d))).
Proof. intros Hd. unfold age. simpl. by rewrite (proj2 (Z.leb_gt _ _) Hd). Qed.

(** The counter of a window counts it. *)
Lemma traffic_counted n d ks ks' :
  ks !! C = None -> traffic n d ks ks' -> d < counter_ttl * 1000 -> Z.of_nat n < 2 ^ 53 -> counted n d ks'.
Proof.
  intros Hfresh Hrun. induction Hrun as [ks | n d ks k1 a k2 Hrun IH Hf | n d e ks k1 Hrun IH He
    | n d ks k1 A c a k2 Hrun IH HC HL Hc]; intros Hd Hn.
  - done.
  - pose proof (traffic_time_pos _ _ _ _ Hrun).
    destruct (failure_counts n d k1) as (ttl & k3 & Hf' & Hc & _); [by apply IH; [| |lia] | lia | lia|].
    rewrite Hf in Hf'. by injection Hf' as -> ->.
  - pose proof (traffic_time_pos _ _ _ _ Hrun). specialize (IH Hfresh ltac:(lia) Hn). unfold counted in *.
    rewrite lookup_elapse. case_decide; [by rewrite IH|]. destruct IH as (ms & -> & Hms). simpl.
    rewrite age_keeps by lia. exists (ms - e). split; [done|lia].
  - specialize (IH Hfresh Hd Hn). unfold counted in *. by rewrite (documented_frame _ _ _ _ _ Hc HC).
Qed.

End Window.

(** ** The life of a lock *)

Section Lock.
(** The lock's key, and its lifetime in seconds; 0 for one that stays. *)
Context (L : string) (lock_ttl : Z).
Hypothesis lock_ttl_ok : 0 <= lock_ttl /\ exact_int lock_ttl.

(** What can happen to a lock that nobody clears: [m] failures that count
    against any other key and set this lock when they reach their threshold,
    for its lifetime or for good, commands on other keys, and [d]
    milliseconds. *)
Inductive lock_traffic : nat -> Z -> relation keyspace :=
| lt_start ks : lock_traffic 0 0 ks ks
| lt_failure m d ks k1 C counter_ttl threshold lock_ttl' a k2 :
    lock_traffic m d ks k1 -> C <> L -> lock_ttl' = FormatInt lock_ttl \/ lock_ttl' = FormatInt 0 ->
    increment_with_ttl C L counter_ttl threshold lock_ttl' k1 = (a, k2) -> lock_traffic (S m) d ks k2
| lt_time m d e ks k1 : lock_traffic m d ks k1 -> 0 <= e -> lock_traffic m (d + e) ks (elapse e k1)
| lt_other m d ks k1 A (c : command A) a k2 :
    lock_traffic m d ks k1 -> writes c <> Some L -> documented c k1 = (a, k2) -> lock_traffic m d ks k2.

Lemma lock_traffic_pos m d ks ks' : lock_traffic m d ks ks' -> 0 <= d.
Proof. induction 1; lia. Qed.

(** A failure sets the lock or leaves it. *)
Lemma failure_lock C a b c (r : result error (list lua_value)) ks ks' : C <> L -> increment_with_ttl C L a b c ks = (r, ks') ->
  ks' !! L = ks !! L \/ ks' !! L = Some (lock_entry (number_or_0 c)).
Proof.
  intros HC. set (Q := fun k : keyspace => k !! L = ks !! L \/ k !! L = Some (lock_entry (number_or_0 c))).
  assert (Hother : forall A (x : command A), writes x <> Some L -> preserves Q (exec x))
    by (intros A x Hx; apply (preserves_documented x (fun o => o = ks !! L \/ o = Some (lock_entry (number_or_0 c)))), Hx).
  assert (HS : forall o, preserves Q (if (0 <? number_or_0 c) then exec (SET L "1" (Some (number_or_0 c))) else exec (SET L "1" o)) \/ o <> None) by
    (intros [o|]; [by right|left]; intros k x k' H _; right; unfold lock_entry;
     destruct (Z.ltb_spec 0 (number_or_0 c)) as [Hl|Hl]; simpl in H;
       [rewrite (proj2 (Z.leb_gt _ _) Hl) in H|]; injection H as _ <-; apply lookup_insert_eq).
  destruct (HS None) as [HSET|]; [|done].
  enough (Hp : preserves Q (increment_with_ttl C L a b c)) by (intros H; exact (Hp _ _ _ H (or_introl eq_refl))).
  unfold increment_with_ttl, quietly.
  repeat (first [apply preserves_bind; [|intros ?] | apply preserves_ret | (apply Hother; simpl; congruence) | exact HSET | case_match]).
Qed.

(** Some lock is there for at least the rest of the lifetime. *)
Definition lock_set (d : Z) (ks : keyspace) : Prop :=
  exists v ttl, ks !! L = Some (mkEntry v ttl) /\ forall ms, ttl = Some ms -> 0 < lock_ttl /\ lock_ttl * 1000 - d <= ms.

Lemma lock_set_entry d ttl : 0 <= d -> ttl = lock_ttl \/ ttl = 0 ->
  forall ks : keyspace, ks !! L = Some (lock_entry ttl) -> lock_set d ks.
Proof.
  intros Hd Ht ks Hk. eexists _, _. split; [exact Hk|]. cbn. intros ms. destruct (Z.ltb_spec 0 ttl); [|done]. intros [= <-].
  destruct Ht as [->| ->]; lia.
Qed.

(** A lock that nobody clears outlives everything but its lifetime. *)
Lemma lock_kept m d ks ks' : ks !! L = Some (lock_entry lock_ttl) -> lock_traffic m d ks ks' ->
  (0 < lock_ttl -> d < lock_ttl * 1000) -> lock_set d ks'.
Proof.
  intros Hk Hrun. induction Hrun as [ks|m d ks k1 C ct th lt a k2 Hrun IH HC Hlt Hf|m d e ks k1 Hrun IH He|m d ks k1 A c a k2 Hrun IH HL Hc]; intros Hd.
  - eapply lock_set_entry; [done | by left | exact Hk].
  - specialize (IH Hk Hd). apply failure_lock in Hf; [|exact HC]. destruct Hf as [Hf|Hf].
    + destruct IH as (v & ttl & Hv & Hms). exists v, ttl. by rewrite Hf.
    + eapply lock_set_entry; [by eapply lock_traffic_pos| |exact Hf].
      destruct Hlt as [->| ->]; rewrite number_or_0_FormatInt; [by left|apply lock_ttl_ok|by right|unfold exact_int; lia].
  - pose proof (lock_traffic_pos _ _ _ _ Hrun). destruct (IH Hk ltac:(lia)) as (v & ttl & Hv & Hms).
    unfold lock_set. rewrite lookup_elapse, Hv. destruct ttl as [ms|]; simpl.
    + destruct (Hms ms eq_refl). rewrite age_keeps by lia. eexists _, _. split; [done|]. intros ? [= <-]. lia.
    + by eexists _, _.
  - destruct (IH Hk Hd) as (v & ttl & Hv & Hms). exists v, ttl. by rewrite (documented_frame _ _ _ _ _ Hc HL).
Qed.

(** Without further failures it goes when its lifetime has passed. *)
Lemma lock_ends d ks ks' : ks !! L = Some (lock_entry lock_ttl) -> lock_traffic 0 d ks ks' -> 0 < lock_ttl ->
  ks' !! L = if d <? lock_ttl * 1000 then Some (mkEntry (RString "1") (Some (lock_ttl * 1000 - d))) else None.
Proof.
  intros Hk Hrun Hl. remember 0%nat as m eqn:Em.
  induction Hrun as [ks|m d ks k1 C ct th lt a k2 Hrun IH HC Hlt Hf|m d e ks k1 Hrun IH He|m d ks k1 A c a k2 Hrun IH HL Hc].
  - rewrite Hk, (proj2 (Z.ltb_lt _ _)) by lia. unfold lock_entry. by rewrite (proj2 (Z.ltb_lt _ _) Hl), Z.sub_0_r.
  - discriminate.
  - rewrite lookup_elapse, (IH Hk Em). pose proof (lock_traffic_pos _ _ _ _ Hrun). destruct (Z.ltb_spec d (lock_ttl * 1000)) as [Hd|Hd].
    + cbn [mbind option_bind]. unfold age. cbn [e_ttl e_value]. destruct (Z.leb_spec (lock_ttl * 1000 - d) e), (Z.ltb_spec (d + e) (lock_ttl * 1000)); try lia; [done|].
      do 3 f_equal. lia.
    + rewrite (proj2 (Z.ltb_ge _ _)) by lia. done.
  - by rewrite (documented_frame _ _ _ _ _ Hc HL), (IH Hk Em).
Qed.
End Lock.

(** ** The lockout of a user *)

Section Lockout.
Context {W R : Type} `{HC : RedisClient W R} `{!Quiet W R}.
Context (key : KeyBuilder) (username userID : string) (counterTTL lockTTL : duration) (threshold : Z).

Definition user_traffic : nat -> Z -> relation keyspace :=
  traffic (LoginFailUser key username) (UserLock key (TrimSpace userID)) (durationSeconds counterTTL) threshold
    (durationSeconds lockTTL).

Definition window_ms : Z := durationSeconds counterTTL * 1000.

(** The policy is one the script understands. *)
Definition policy_ok : Prop :=
  0 < counterTTL <= int64_max /\ 0 < threshold <= 2 ^ 53 /\ 0 <= lockTTL <= int64_max /\ TrimSpace userID <> "".

Lemma user_keys_differ : LoginFailUser key username <> UserLock key (TrimSpace userID).
Proof. by apply (build_ne key (KLoginFailUser _) (KUserLock _)). Qed.

Lemma user_lock_nonempty : UserLock key (TrimSpace userID) <> "".
Proof. unfold UserLock. by destruct (Prefix key). Qed.

Lemma durationSeconds_exact_int ttl : 0 <= ttl <= int64_max -> exact_int (durationSeconds ttl).
Proof.
  intros [H0 H1]. unfold exact_int, durationSeconds.
  assert (0 <= Z.quot ttl Second <= 9223372036).
  { rewrite Z.quot_div_nonneg by (unfold Second; lia). unfold int64_max, Second in *.
    Z.to_euclidean_division_equations; lia. }
  case_match; lia.
Qed.

Definition lock_seconds : Z := durationSeconds lockTTL.

Lemma lock_seconds_ok : 0 <= lockTTL <= int64_max -> 0 <= lock_seconds /\ exact_int lock_seconds.
Proof.
  intros Hl. split; [|by apply durationSeconds_exact_int]. unfold lock_seconds, durationSeconds.
  assert (0 <= Z.quot lockTTL Second) by (apply Z.quot_pos; unfold Second; lia). case_match; lia.
Qed.

(** One failure through the repository: the reply, the window, and the lock,
    which it sets from the threshold on and leaves alone before. *)
Lemma quiet_IncrementLoginFailByUser n d ks w :
  policy_ok -> ks !! LoginFailUser key username = None -> user_traffic n d ks (keys (server w)) ->
  d < window_ms -> Z.of_nat n < 2 ^ 53 ->
  exists w', IncrementLoginFailByUser key username userID counterTTL threshold lockTTL w =
      (Ok (Some (mkRateLimitIncrementResult (Z.of_nat n + 1) (threshold <=? Z.of_nat n + 1))), w') /\
    user_traffic (S n) d ks (keys (server w')) /\
    keys (server w') !! UserLock key (TrimSpace userID) =
      (if threshold <=? Z.of_nat n + 1 then Some (lock_entry lock_seconds)
       else keys (server w) !! UserLock key (TrimSpace userID)).
Proof.
  intros (Hc & Ht & Hl & Hu) Hfresh Hrun Hd Hn.
  assert (Hct : 0 < durationSeconds counterTTL /\ exact_int (durationSeconds counterTTL)).
  { split; [apply durationSeconds_pos | apply durationSeconds_exact_int]; lia. }
  assert (Hth : 0 < threshold /\ exact_int threshold) by (unfold exact_int; lia).
  assert (Hlt : exact_int (durationSeconds lockTTL)) by (apply durationSeconds_exact_int; lia).
  pose proof (traffic_counted _ _ _ _ _ user_keys_differ user_lock_nonempty Hct Hth Hlt _ _ _ _ Hfresh Hrun Hd Hn) as Hcount.
  pose proof (traffic_time_pos _ _ _ _ _ _ _ _ _ Hrun) as Hd0.
  destruct (failure_counts _ _ _ _ _ user_keys_differ user_lock_nonempty Hct Hth Hlt _ _ _ Hcount Hd0 Hn)
    as (ttl & ks' & Hf & _ & HL & _).
  destruct (quiet_call (increment_script (LoginFailUser key username) (UserLock key (TrimSpace userID)) counterTTL threshold lockTTL)
    _ w _ _ (simulates_increment_with_ttl _ _ _ _ _) Hf) as (w' & Hcall & Hk).
  exists w'. rewrite Hk. split; [|split; [|exact HL]].
  - unfold IncrementLoginFailByUser, incrementWithLock, user_lock_key.
    rewrite (proj2 (String.eqb_neq _ _) Hu), (bind_run _ _ _ _ _ Hcall). by destruct (threshold <=? _).
  - eapply traffic_failure; [exact Hrun | exact Hf].
Qed.

Lemma quiet_IsUserLocked id w :
  exists w', IsUserLocked key id w = (Ok (bool_decide (is_Some (keys (server w) !! UserLock key id))), w') /\
    keys (server w') = keys (server w).
Proof. by apply (quiet_call _ _ _ _ _ (simulates_exec (EXISTS _))). Qed.

(** What may befall the lock of the user while nobody clears or overwrites
    it, with [m] more failures against it. *)
Definition lock_life : nat -> Z -> relation keyspace := lock_traffic (UserLock key (TrimSpace userID)) lock_seconds.

(** The lock lasts as the policy says. *)
Lemma lock_seen m e ks later :
  0 <= lockTTL <= int64_max -> ks !! UserLock key (TrimSpace userID) = Some (lock_entry lock_seconds) ->
  lock_life m e ks (keys (server later)) -> (0 < lockTTL -> e < lock_seconds * 1000) ->
  is_Some (keys (server later) !! UserLock key (TrimSpace userID)).
Proof.
  intros Hl Hk Hrun He.
  destruct (lock_kept _ _ (lock_seconds_ok Hl) _ _ _ _ Hk Hrun) as (v & ttl & Hv & _); [|by eexists].
  intros Hpos. apply He. destruct (Z.eq_dec lockTTL 0) as [E|]; [|lia].
  unfold lock_seconds in Hpos. rewrite E in Hpos. vm_compute in Hpos. discriminate.
Qed.

Lemma lock_over e ks later :
  0 < lockTTL <= int64_max -> ks !! UserLock key (TrimSpace userID) = Some (lock_entry lock_seconds) ->
  lock_life 0 e ks (keys (server later)) ->
  bool_decide (is_Some (keys (server later) !! UserLock key (TrimSpace userID))) = (e <? lock_seconds * 1000).
Proof.
  intros Hl Hk Hrun. assert (0 < lock_seconds) by (apply durationSeconds_pos; lia).
  rewrite (lock_ends _ _ _ _ _ Hk Hrun) by done.
  destruct (e <? lock_seconds * 1000); [by apply bool_decide_eq_true | by apply bool_decide_eq_false].
Qed.
End Lockout.

(** C29. Failures are counted and lock: in a window of failures from any
    number of servers, with other traffic in between, the failure after [n]
    others is answered with count [n + 1]. Before the threshold the lock of
    the user is left as it is. From the threshold on it is set for the lock
    time, however long the window still is: every reader sees it until the
    lock time has passed, or for ever when that is 0, whatever failures and
    other traffic follow, unless somebody clears or overwrites it; and
    without a further failure no reader sees it any longer. *)
Theorem failure_window_locks {W R} `{HC : RedisClient W R} `{!Quiet W R} (key : KeyBuilder)
    (username userID : string) (counterTTL lockTTL : duration) (threshold : Z) n d (ks : keyspace) (w : W) :
  policy_ok userID counterTTL lockTTL threshold ->
  ks !! LoginFailUser key username = None ->
  user_traffic key username userID counterTTL lockTTL threshold n d ks (keys (server w)) ->
  d < window_ms counterTTL -> Z.of_nat n < 2 ^ 53 ->
  exists w', IncrementLoginFailByUser key username userID counterTTL threshold lockTTL w =
      (Ok (Some (mkRateLimitIncrementResult (Z.of_nat n + 1) (threshold <=? Z.of_nat n + 1))), w') /\
    (Z.of_nat n + 1 < threshold ->
       keys (server w') !! UserLock key (TrimSpace userID) = keys (server w) !! UserLock key (TrimSpace userID)) /\
    (threshold <= Z.of_nat n + 1 -> forall m e (later : W),
       lock_life key userID lockTTL m e (keys (server w')) (keys (server later)) ->
       ((0 < lockTTL -> e < window_ms lockTTL) ->
          exists last, IsUserLocked key (TrimSpace userID) later = (Ok true, last)) /\
       (m = 0%nat -> 0 < lockTTL ->
          exists last, IsUserLocked key (TrimSpace userID) later = (Ok (e <? window_ms lockTTL), last))).
Proof.
  intros Hp Hfresh Hrun Hd Hn.
  destruct (quiet_IncrementLoginFailByUser key username userID counterTTL lockTTL threshold n d ks w Hp Hfresh Hrun Hd Hn)
    as (w' & Hincr & _ & HL).
  exists w'. split; [done|]. destruct Hp as (_ & _ & Hl & _). split.
  - intros Hlt. by rewrite HL, (proj2 (Z.leb_gt _ _) Hlt).
  - intros Hle m e later Hlater. rewrite (proj2 (Z.leb_le _ _) Hle) in HL.
    destruct (quiet_IsUserLocked key (TrimSpace userID) later) as (last & Hq & _). rewrite Hq. split.
    + intros He. exists last. do 2 f_equal. apply bool_decide_eq_true. by eapply lock_seen.
    + intros -> Hpos. exists last. do 2 f_equal. apply (lock_over key userID lockTTL e (keys (server w'))); [lia | done | done].
Qed.

(** ** At work *)

Module RateLimitDemo.
Import Local.

Definition key : KeyBuilder := NewKeyBuilder "idp" "test".
Definition window : duration := 900 * Second.
Definition start : world := mkWorld ∅ 0.

Definition fail_as (username : string) (w : world) : world :=
  (IncrementLoginFailByUser key username "7" window 3 (1800 * Second) w).2.

Lemma policy : policy_ok "7" window (1800 * Second) 3.
Proof.
  split; [split; vm_compute; [reflexivity | discriminate]|]. split; [lia|].
  split; [split; vm_compute; discriminate|]. discriminate.
Qed.

Definition twice : world := fail_as "alice" (fail_as "alice" start).

Lemma two_failures : user_traffic key "alice" "7" window (1800 * Second) 3 2 0 ∅ (w_keys twice).
Proof.
  eapply traffic_failure; [eapply traffic_failure; [apply traffic_start|]|]; apply surjective_pairing.
Qed.
End RateLimitDemo.

Import Local.

(** Half an hour less a millisecond later the lock of the third failure is
    seen, though the window has been over for a quarter of an hour; a
    millisecond later it is gone. *)
Lemma failure_window_locks_witness :
  exists w', IncrementLoginFailByUser RateLimitDemo.key "alice" "7" RateLimitDemo.window 3 (1800 * Second) RateLimitDemo.twice =
      (Ok (Some (mkRateLimitIncrementResult 3 true)), w') /\
    (exists last, IsUserLocked RateLimitDemo.key "7" (mkWorld (elapse 1799999 (w_keys w')) 0) = (Ok true, last)) /\
    (exists last, IsUserLocked RateLimitDemo.key "7" (mkWorld (elapse 1800000 (w_keys w')) 0) = (Ok false, last)).
Proof.
  destruct (failure_window_locks RateLimitDemo.key "alice" "7" RateLimitDemo.window (1800 * Second) 3 2 0 ∅
    RateLimitDemo.twice) as (w' & Hincr & _ & Hlock).
  - apply RateLimitDemo.policy.
  - reflexivity.
  - apply RateLimitDemo.two_failures.
  - reflexivity.
  - reflexivity.
  - exists w'. split; [exact Hincr|]. split.
    + destruct (Hlock ltac:(vm_compute; discriminate) 0%nat (0 + 1799999) (mkWorld (elapse 1799999 (w_keys w')) 0)) as [Hseen _];
        [apply lt_time; [apply lt_start | lia]|]. apply Hseen. reflexivity.
    + destruct (Hlock ltac:(vm_compute; discriminate) 0%nat (0 + 1800000) (mkWorld (elapse 1800000 (w_keys w')) 0)) as [_ Hover];
        [apply lt_time; [apply lt_start | lia]|]. exact (Hover eq_refl eq_refl).
Defined.

(** The counter is kept per spelling of the name: failures against the same
    user under another spelling count from one. *)
Example spellings_count_apart :
  let attempt name w := (IncrementLoginFailByUser RateLimitDemo.key name "7" RateLimitDemo.window 3 (1800 * Second) w).1 in
  attempt "alice" RateLimitDemo.twice = Ok (Some (mkRateLimitIncrementResult 3 true)) /\
  attempt "Alice" RateLimitDemo.twice = Ok (Some (mkRateLimitIncrementResult 1 false)).
Proof. vm_compute. split; reflexivity. Qed.
