(* ===== verification/ReplayCache.v ===== *)
(** * States, nonces and cached codes

    replay_protection_repository.go, the short-lived state and nonces of a
    federated login, and authorization_code_cache_repository.go, a cache of
    authorization codes with a marker for the consumed ones; with their
    scripts save_oauth_state.lua, reserve_nonce.lua and
    consume_authorization_code.lua. *)

From stdpp Require Import base tactics list gmap strings numbers relations.
From Stdlib Require Import ZArith Lia Ascii.
From S2P Require Import Prelude GoStrings GoTime Errors Ports AuthPorts Remote Redis RedisKeys LuaScripts TokenCache.

Import KeyBuilder.

Record AuthorizationCodeCacheEntry := mkCodeEntry {
  cce_Code : string; cce_ClientID : string; cce_UserID : string; cce_Scope : string;
  cce_ExpiresAt : time; cce_Consumed : bool;
}.

(** ** The scripts *)

Section Scripts.
Context {R : Type} `{RedisServer R}.

Definition state_fields : list string :=
  ["client_id"; "redirect_uri"; "session_id"; "created_at"; "return_to"; "nonce"].

Definition save_oauth_state (state_key : string) (values : list string) (ttl_arg : string) : IO R Z :=
  let* found := exec (EXISTS state_key) in
  if (found : bool) then ret 0 else
  let ttl := number_or_0 ttl_arg in
  do* exec (HSET state_key (zip state_fields values)) in
  do* (if 0 <? ttl then quietly (exec (EXPIRE state_key ttl)) else ret tt) in
  ret 1.

(** [SET ... EX ... NX] *)
Definition reserve_nonce (nonce_key value ttl_arg : string) : IO R Z :=
  let ttl := number_or_0 ttl_arg in
  let* ok := exec (SETNX nonce_key value (if 0 <? ttl then Some (ttl * 1000) else None)) in
  ret (if (ok : bool) then 1 else 0).

Definition set_marker (marker_key : string) (consumed_ttl : Z) : IO R unit :=
  exec (SET marker_key "1" (if 0 <? consumed_ttl then Some consumed_ttl else None)).

(** The fields of the hash follow in the order of the server. *)
Definition consume_authorization_code (code_key marker_key : string) (ttl_arg : string) : IO R (list lua_value) :=
  let consumed_ttl := number_or_0 ttl_arg in
  let* found := exec (EXISTS code_key) in
  if negb found then ret [LInt (-1)] else
  let* marked := exec (EXISTS marker_key) in
  if (marked : bool) then ret [LInt (-2)] else
  let* consumed := exec (HGET code_key "consumed") in
  if bool_decide (consumed = Some "1") then do* set_marker marker_key consumed_ttl in ret [LInt (-2)] else
  do* exec (HSET code_key [("consumed", "1")]) in
  do* set_marker marker_key consumed_ttl in
  let* data := exec (HGETALL code_key) in
  ret (LInt 1 :: concat (List.map (fun fv => [LStr fv.1; LStr fv.2]) (map_to_list data))).
End Scripts.

Lemma simulates_save_oauth_state {R} `{RedisServer R} k v t :
  simulates (R:=R) (save_oauth_state k v t) (save_oauth_state k v t).
Proof. unfold save_oauth_state. simulate. Qed.

Lemma simulates_reserve_nonce {R} `{RedisServer R} k v t :
  simulates (R:=R) (reserve_nonce k v t) (reserve_nonce k v t).
Proof. unfold reserve_nonce. simulate. Qed.

Lemma simulates_consume_authorization_code {R} `{RedisServer R} k m t :
  simulates (R:=R) (consume_authorization_code k m t) (consume_authorization_code k m t).
Proof. unfold consume_authorization_code, set_marker. simulate. Qed.

#[export] Hint Resolve simulates_save_oauth_state simulates_reserve_nonce simulates_consume_authorization_code : simulates.

Section Repositories.
Context {W R : Type} `{HC : RedisClient W R}.
Context (key : KeyBuilder).

(** ** Replay protection *)

Definition state_script (state : string) (value : gmap string string) (ttl : duration) : IO R Z :=
  save_oauth_state (OAuthState key state) (List.map (map_get value) state_fields) (FormatInt (durationSeconds ttl)).

(** A state that exists already is not an error. *)
Definition SaveState (state : string) (value : gmap string string) (ttl : duration) : IO W unit :=
  do* call (state_script state value ttl) in ret tt.

Definition GetState (state : string) : IO W (option (gmap string string)) :=
  let* result := call (exec (HGETALL (OAuthState key state))) in
  if decide (result = ∅) then ret None else ret (Some result).

Definition DeleteState (state : string) : IO W unit :=
  do* call (exec (DEL (OAuthState key state))) in ret tt.

Definition SaveNonce (nonce : string) (ttl : duration) : IO W unit :=
  let* result := call (reserve_nonce (Nonce key nonce) "1" (FormatInt (durationSeconds ttl))) in
  if result =? 1 then ret tt else ret tt.

Definition ExistsNonce (nonce : string) : IO W bool := call (exec (EXISTS (Nonce key nonce))).

(** ** Cached authorization codes *)

Definition code_fields (entry : AuthorizationCodeCacheEntry) : list (string * string) :=
  [("client_id", cce_ClientID entry); ("user_id", cce_UserID entry); ("scope", cce_Scope entry);
   ("expires_at", formatTime (cce_ExpiresAt entry)); ("consumed", boolString (cce_Consumed entry))].

Definition SaveCode (entry : AuthorizationCodeCacheEntry) (ttl : duration) : IO W unit :=
  call (save_hash (AuthCode key (cce_Code entry)) (code_fields entry) ttl).

Definition GetCode (code : string) : IO W (option AuthorizationCodeCacheEntry) :=
  let* res := call (exec (HGETALL (AuthCode key code))) in
  if decide (res = ∅) then ret None else
  ret (Some {| cce_Code := code; cce_ClientID := map_get res "client_id"; cce_UserID := map_get res "user_id";
               cce_Scope := map_get res "scope"; cce_ExpiresAt := parseTime (map_get res "expires_at");
               cce_Consumed := parseBoolString (map_get res "consumed") |}).

(** One [DEL] of two keys. *)
Definition delete_code_script (code : string) : IO R unit :=
  do* exec (DEL (AuthCode key code)) in do* exec (DEL (AuthCodeConsumed key code)) in ret tt.

Definition DeleteCode (code : string) : IO W unit := call (delete_code_script code).

Definition IsConsumed (code : string) : IO W bool :=
  let* marked := attempt (call (exec (EXISTS (AuthCodeConsumed key code)))) in
  match marked with
  | Ok true => ret true
  | _ =>
      let* value := call (exec (HGET (AuthCode key code) "consumed")) in
      ret (match value with None => false | Some v => parseBoolString v end)
  end.

(** [TTL] as a duration: -1 and -2 are not scaled. *)
Definition ttl_duration (reply : Z) : duration := if reply <? 0 then reply else reply * Second.

Definition consume_script (code : string) (ttl : duration) : IO R (list lua_value) :=
  consume_authorization_code (AuthCode key code) (AuthCodeConsumed key code) (FormatInt (durationSeconds ttl)).

Definition MarkAsConsumed (code : string) : IO W unit :=
  let* reply := call (exec (TTL (AuthCode key code))) in
  let ttl := ttl_duration reply in
  let ttl := if ttl <? 0 then 10 * Minute else ttl in
  do* call (consume_script code ttl) in ret tt.
End Repositories.

(** ** The first state wins *)

(** What the server does to a state: saves (by anyone, with any values),
    other commands that leave its key alone, time. *)
Inductive state_step (key : KeyBuilder) (state : string) : relation keyspace :=
| state_saved value ttl ks a ks' : state_script key state value ttl ks = (a, ks') -> state_step key state ks ks'
| state_other A (c : command A) ks a ks' :
    writes c <> Some (OAuthState key state) -> documented c ks = (a, ks') -> state_step key state ks ks'.

Lemma state_kept key state ks ks' e :
  ks !! OAuthState key state = Some e -> state_step key state ks ks' -> ks' !! OAuthState key state = Some e.
Proof.
  intros He Hs. destruct Hs as [value ttl ks a ks' Hr | A c ks a ks' Hw Hr].
  - unfold state_script, save_oauth_state in Hr. cbn [exec keyspace_server] in Hr.
    rewrite (bind_run _ _ _ true ks) in Hr; [by injection Hr as _ <-|].
    simpl. rewrite He. by rewrite bool_decide_true by done.
  - by rewrite (documented_frame _ _ _ _ _ Hr Hw).
Qed.

(** A login state is bound once: whatever is saved under the same state
    afterwards, by whomever, [GetState] gives the values it was first saved
    with. *)
Theorem oauth_state_bound_once {W R} `{HC : RedisClient W R} `{!Quiet W R} (key : KeyBuilder) state ttl value w w1 later :
  keys (server w) !! OAuthState key state = None ->
  SaveState key state value ttl w = (Ok tt, w1) ->
  rtc (state_step key state) (keys (server w1)) (keys (server later)) ->
  exists last, GetState key state later = (Ok (Some (hset ∅ (zip state_fields (List.map (map_get value) state_fields)))), last).
Proof.
  intros Hfresh Hsave Hrun. set (k := OAuthState key state) in *.
  set (h := hset ∅ (zip state_fields (List.map (map_get value) state_fields))).
  assert (Hin : exists t, keys (server w1) !! k = Some (mkEntry (RHash h) t)).
  { unfold SaveState in Hsave. run Hsave as z wa Hc. apply ret_Ok in Hsave as [_ <-].
    destruct (state_script key state value ttl (keys (server w))) as [a ks'] eqn:Hr.
    destruct (quiet_call _ _ w _ _ (simulates_save_oauth_state _ _ _) Hr) as (wb & Hc' & Hk).
    unfold state_script in Hc. rewrite Hc in Hc'. injection Hc' as <- <-. rewrite Hk.
    unfold state_script, save_oauth_state in Hr. cbn [exec keyspace_server] in Hr. fold k in Hr.
    run Hr as f k1 H1. apply EXISTS_Ok in H1 as [-> ->]. rewrite Hfresh in Hr. rewrite bool_decide_false in Hr by by intros [].
    run Hr as u k2 H2. apply HSET_Ok in H2 as (h0 & Hh0 & ->). unfold hash_at in Hh0. rewrite Hfresh in Hh0. injection Hh0 as <-.
    fold h in Hr. run Hr as u3 k3 H3. apply ret_Ok in Hr as [_ <-].
    assert (L1 : keeps_ttl (keys (server w)) k (RHash h) !! k = Some (mkEntry (RHash h) (keys (server w) !! k ≫= e_ttl)))
      by apply lookup_insert_eq.
    destruct (Z.ltb_spec 0 (number_or_0 (FormatInt (durationSeconds ttl)))) as [Hpos|].
    - unfold quietly in H3. run H3 as b k4 H4. apply ret_Ok in H3 as [_ <-]. apply EXPIRE_Ok in H4 as ->; [|done].
      rewrite lookup_alter_eq, L1. by eexists.
    - apply ret_Ok in H3 as [_ <-]. rewrite L1. by eexists. }
  destruct Hin as [t Ht].
  assert (Hlater : keys (server later) !! k = Some (mkEntry (RHash h) t)).
  { clear Hsave Hfresh. revert Ht. generalize (keys (server w1)) (keys (server later)) Hrun. clear.
    induction 1 as [|k1 k2 k3 Hs _ IH]; [done|]. intros Ht. by eapply IH, state_kept. }
  destruct (quiet_call (exec (HGETALL k)) _ later (Ok h) (keys (server later)) (simulates_exec _)) as (last & Hc & _).
  { simpl. unfold on_type, hash_at. by rewrite Hlater. }
  exists last. unfold GetState. fold k. rewrite (bind_run _ _ _ _ _ Hc). rewrite decide_False; [done|].
  unfold h, state_fields. simpl. unfold hset. simpl. apply insert_non_empty.
Qed.

(** ** Consumption *)

(** Once a code was consumed in the cache, it counts as consumed, and a second
    consumption is answered as a replay. *)
Theorem consumed_code_is_consumed {W R} `{HC : RedisClient W R} `{!Quiet W R} (key : KeyBuilder) code w w1 rest w2 :
  call (consume_script key code (10 * Minute)) w = (Ok (LInt 1 :: rest), w1) ->
  w2 = w1 ->
  (exists w3, IsConsumed key code w2 = (Ok true, w3)) /\
  (exists w3, call (consume_script key code (10 * Minute)) w2 = (Ok [LInt (-2)], w3)).
Proof.
  intros Hc ->.
  destruct (consume_script key code (10 * Minute) (keys (server w))) as [a ks'] eqn:Hr.
  destruct (quiet_call _ _ w _ _ (simulates_consume_authorization_code _ _ _) Hr) as (wb & Hc' & Hk).
  unfold consume_script in Hc. rewrite Hc in Hc'. injection Hc' as <- <-.
  unfold consume_script, consume_authorization_code, set_marker in Hr. cbn [exec keyspace_server] in Hr.
  set (C := AuthCode key code) in *. set (M := AuthCodeConsumed key code) in *.
  assert (HCM : C <> M) by by apply (build_ne key (KAuthCode _) (KAuthCodeConsumed _)).
  run Hr as f k1 H1. apply EXISTS_Ok in H1 as [-> ->]. destruct (bool_decide (is_Some (keys (server w) !! C))); [|discriminate].
  cbn [negb] in Hr. run Hr as f k2 H2. apply EXISTS_Ok in H2 as [-> ->].
  destruct (bool_decide (is_Some (keys (server w) !! M))); [discriminate|].
  run Hr as o k3 H3. apply HGET_Ok in H3 as (h & Hh & -> & ->). case_bool_decide.
  { run Hr as u k4 H4. discriminate. }
  run Hr as u k4 H4. apply HSET_Ok in H4 as (h4 & _ & ->).
  run Hr as u5 k5 H5. run Hr as data k6 H6. injection Hr as _ <-.
  simpl in H6. unfold on_type in H6. destruct (hash_at k5 C) as [h5|]; [|discriminate]. injection H6 as _ <-.
  assert (HM : is_Some (k5 !! M) /\ is_Some (k5 !! C)).
  { apply SET_Ok in H5 as [-> _]. rewrite lookup_insert_eq, lookup_insert_ne by done.
    unfold keeps_ttl. rewrite lookup_insert_eq. split; by eexists. }
  destruct HM as [HM HC']. rewrite <- Hk in HM, HC'. split.
  - destruct (quiet_call (exec (EXISTS M)) _ w1 (Ok true) (keys (server w1)) (simulates_exec _)) as (w3 & H7 & _).
    { simpl. by rewrite bool_decide_true. }
    exists w3. unfold IsConsumed. fold M. by rewrite (bind_run _ _ _ (Ok true) w3) by (unfold attempt; by rewrite H7).
  - destruct (quiet_call (consume_script key code (10 * Minute)) (consume_script key code (10 * Minute)) w1
      (Ok [LInt (-2)]) (keys (server w1)) (simulates_consume_authorization_code _ _ _)) as (w3 & H7 & _).
    { unfold consume_script, consume_authorization_code. cbn [exec keyspace_server]. fold C M.
      rewrite (bind_run _ _ _ true (keys (server w1))) by (simpl; by rewrite bool_decide_true). cbn [negb].
      by rewrite (bind_run _ _ _ true (keys (server w1))) by (simpl; by rewrite bool_decide_true). }
    by exists w3.
Qed.

(** ** At work *)

Module ReplayCacheDemo.
Import Local.
Definition key : KeyBuilder := NewKeyBuilder "idp" "test".
Definition start : world := mkWorld ∅ 0.
Definition saved : world := (SaveState key "st" {["nonce" := "n1"]} (300 * Second) start).2.
Definition code : AuthorizationCodeCacheEntry := mkCodeEntry "c" "web" "7" "openid" (1700000000 * Second) false.
Definition cached : world := (SaveCode key code (600 * Second) start).2.
Definition consumed : world := (call (consume_script key "c" (10 * Minute)) cached).2.
Definition nearly_expired : world := mkWorld (elapse 599700 (w_keys cached)) 0.
End ReplayCacheDemo.

Import Local.

Lemma oauth_state_bound_once_witness :
  exists h last, GetState ReplayCacheDemo.key "st" (SaveState ReplayCacheDemo.key "st" {["nonce" := "n2"]} Second ReplayCacheDemo.saved).2 =
    (Ok (Some h), last) /\ h !! "nonce" = Some "n1".
Proof.
  destruct (oauth_state_bound_once ReplayCacheDemo.key "st" (300 * Second) {["nonce" := "n1"]} ReplayCacheDemo.start
    ReplayCacheDemo.saved (SaveState ReplayCacheDemo.key "st" {["nonce" := "n2"]} Second ReplayCacheDemo.saved).2) as (last & Hg).
  - reflexivity.
  - vm_compute. reflexivity.
  - eapply rtc_l; [|apply rtc_refl]. eapply (state_saved _ _ {["nonce" := "n2"]} Second). apply surjective_pairing.
  - eexists _, last. split; [exact Hg | reflexivity].
Defined.

Lemma consumed_code_is_consumed_witness :
  exists w3, IsConsumed ReplayCacheDemo.key "c" ReplayCacheDemo.consumed = (Ok true, w3).
Proof.
  destruct (call (consume_script ReplayCacheDemo.key "c" (10 * Minute)) ReplayCacheDemo.cached) as [[[|[[| |]| |] rest]|] w1] eqn:E;
    try (vm_compute in E; discriminate E).
  destruct (consumed_code_is_consumed ReplayCacheDemo.key "c" ReplayCacheDemo.cached w1 rest w1) as [(w3 & H3) _].
  - rewrite E. vm_compute in E. by injection E as <- <-.
  - reflexivity.
  - exists w3. unfold ReplayCacheDemo.consumed. rewrite E. exact H3.
Defined.

(** A nonce reserved twice: the second reservation fails in the cache and
    succeeds for the caller. *)
Example nonce_reuse_not_reported :
  let first := (SaveNonce ReplayCacheDemo.key "n" (300 * Second) ReplayCacheDemo.start).2 in
  (SaveNonce ReplayCacheDemo.key "n" (300 * Second) first).1 = Ok tt /\
  (reserve_nonce (Nonce ReplayCacheDemo.key "n") "1" "300" (w_keys first)).1 = Ok 0.
Proof. vm_compute. split; reflexivity. Qed.

(** A code consumed in its last half second leaves a marker that never
    expires: its remaining lifetime rounds to 0, which means none. *)
Example late_marker_never_expires :
  let w := (MarkAsConsumed ReplayCacheDemo.key "c" ReplayCacheDemo.nearly_expired).2 in
  w_keys w !! AuthCodeConsumed ReplayCacheDemo.key "c" = Some (mkEntry (RString "1") None).
Proof. vm_compute. reflexivity. Qed.
