(* ===== verification/LoggedIn.v ===== *)
(** * The user behind a session

    application/mfa and application/passkey load the user of a session in the
    same way: from the session cache when its entry is active and names a
    user that exists, from the session table otherwise.  Each service wraps
    [load_user] with its own result and error. *)

From stdpp Require Import base tactics list gmap strings.
From Stdlib Require Import ZArith Lia.
From S2P Require Import Prelude GoStrings GoTime Errors Domain Ports StateMask.

(** Where the session was found. *)
Inductive found_session :=
| Cached (e : SessionCacheEntry)
| Stored (m : session.Model).

Section LoadUser.
Context {W : Type} `{!Runtime W}.
Context (sessions : SessionRepository W) (sessionCache : option (SessionCacheRepository W)) (users : UserRepository W).
(** How the user id of a cache entry is read. *)
Context (parse_id : string -> option Z) (login_required : error).

Definition cached_session (sessionID : string) (t : time) : IO W (option (user.Model * Z * found_session)) :=
  match sessionCache with
  | None => ret None
  | Some cache =>
      let* entry := SessionCache_Get cache sessionID in
      match entry with
      | None => ret None
      | Some e =>
          if IsSessionEntryActive entry t then
            match parse_id (sce_UserID e) with
            | Some userID =>
                if 0 <? userID then
                  let* u := User_FindByID users userID in
                  ret (option_map (fun u => (u, userID, Cached e)) u)
                else ret None
            | None => ret None
            end
          else ret None
      end
  end.

Definition load_user (sessionID : string) : IO W (user.Model * Z * found_session) :=
  let sessionID := TrimSpace sessionID in
  do* guard (negb (String.eqb sessionID "")) login_required in
  let* t := now in
  let* cached := cached_session sessionID t in
  match cached with
  | Some found => ret found
  | None =>
      let* m := FindBySessionID sessions sessionID in
      let* m := some_or m login_required in
      do* guard (bool_decide (session.LoggedOutAt m = None) && After (session.ExpiresAt m) t) login_required in
      let* u := User_FindByID users (session.UserID m) in
      let* u := some_or u login_required in
      ret (u, user.ID u, Stored m)
  end.

(** What a session the service accepts is. *)
Inductive logged_in (sessionID : string) : user.Model -> Z -> found_session -> Prop :=
| logged_in_cached cache e u userID t w1 w2 w3 w4 :
    sessionCache = Some cache -> SessionCache_Get cache sessionID w1 = (Ok (Some e), w2) ->
    t < sce_ExpiresAt e -> session_usable e -> parse_id (sce_UserID e) = Some userID -> 0 < userID ->
    User_FindByID users userID w3 = (Ok (Some u), w4) -> logged_in sessionID u userID (Cached e)
| logged_in_stored m u t w1 w2 w3 w4 :
    FindBySessionID sessions sessionID w1 = (Ok (Some m), w2) ->
    session.LoggedOutAt m = None -> t < session.ExpiresAt m ->
    User_FindByID users (session.UserID m) w3 = (Ok (Some u), w4) -> logged_in sessionID u (user.ID u) (Stored m).

Lemma load_user_logged_in sessionID w u id found w' :
  load_user sessionID w = (Ok (u, id, found), w') ->
  TrimSpace sessionID <> "" /\ logged_in (TrimSpace sessionID) u id found.
Proof.
  unfold load_user. intros H. run_guard H as Hne. apply negb_true_iff, String.eqb_neq in Hne. split; [done|].
  run H as t w1 Ht. run H as cached w2 Hc. destruct cached as [x|].
  - apply ret_Ok in H as [-> <-]. unfold cached_session in Hc.
    destruct sessionCache as [cache|] eqn:Es; [|by apply ret_Ok in Hc as [? _]].
    run Hc as entry w3 Hg. destruct entry as [e|]; [|by apply ret_Ok in Hc as [? _]].
    destruct (IsSessionEntryActive _ _) eqn:Ha; [|by apply ret_Ok in Hc as [? _]].
    destruct (parse_id _) as [uid|] eqn:Ep; [|by apply ret_Ok in Hc as [? _]].
    destruct (Z.ltb_spec 0 uid); [|by apply ret_Ok in Hc as [? _]].
    run Hc as fu w4 Hu. apply ret_Ok in Hc as [Hx <-]. destruct fu as [u'|]; [|done].
    injection Hx as <- <- <-. apply session_entry_active in Ha as [??]. by eapply logged_in_cached.
  - run H as o w3 Hf. run_some H as m Ho. subst o. run_guard H as Hg. apply andb_true_iff in Hg as [Hl Hx].
    apply bool_decide_eq_true in Hl. apply After_spec in Hx. run H as o w4 Hu. run_some H as u' Ho. subst o.
    apply ret_Ok in H as [[= <- <- <-] <-]. by eapply logged_in_stored.
Qed.
End LoadUser.

(** Ports of the examples: one user, one session that never ends. *)
Module LoggedInDemo.
Section Ports.
Context {W : Type}.
Definition nothing {A} (a : A) : IO W A := ret a.

Definition alice : user.Model :=
  user.mk 7 "uuid-7" "alice" "alice@x" true "Alice" "hash:pw" "end_user" 0 "" "active" 0 None 0 0.

Definition the_session : session.Model :=
  session.mk 1 "sid" 7 "uuid-7" "urn:idp:acr:pwd" "" "10.0.0.1" "curl" 0 (4000000000 * Second) None 0.

Definition session_store : SessionRepository W := {|
  Session_Create := fun m => nothing m;
  FindBySessionID := fun id => nothing (if String.eqb id "sid" then Some the_session else None);
  ListActiveByUserID := fun _ => nothing [];
  LogoutBySessionID := fun _ _ => nothing tt;
  LogoutAllByUserID := fun _ _ => nothing tt;
|}.

Definition user_store : UserRepository W := {|
  User_Create := fun m => nothing m;
  User_FindByID := fun id => nothing (if id =? 7 then Some alice else None);
  FindByUserUUID := fun _ => nothing None;
  FindByEmail := fun e => nothing (if String.eqb e "alice@x" then Some alice else None);
  FindByUsername := fun n => nothing (if String.eqb n "alice" then Some alice else None);
  ListByRoleCode := fun _ _ => nothing [];
  CountByRoleCode := fun _ => nothing 0;
  UpdateRoleAndPrivilege := fun _ _ _ _ => nothing tt;
  UnlockAccount := fun _ _ => nothing tt;
  IncrementFailedLogin := fun _ => nothing 0;
  ResetFailedLogin := fun _ _ => nothing tt;
|}.
End Ports.
End LoggedInDemo.
