(* ===== verification/MfaService.v ===== *)
(** * application/mfa: enrolling a one-time password

    [BeginSetup] hands out a secret and keeps it under the session;
    [ConfirmSetup] stores it once a code of it was entered.  Either a page of
    a logged-in user asks for it, or the login did ("returnTo" is then set):
    a new login challenge is made and the session that enrolled is ended. *)

From stdpp Require Import base tactics list gmap strings.
From Stdlib Require Import ZArith Lia.
From S2P Require Import Prelude GoStrings GoTime Errors Domain Redis RedisKeys MFACache Totp Ports AuthPorts StateMask LoggedIn.

Record SetupResult := mkSetupResult { sr_Secret : string; sr_ProvisioningURI : string; sr_AlreadyEnabled : bool }.

Record ConfirmResult := mkConfirmResult {
  cr_Enabled : bool; cr_TOTPRequired : bool; cr_MFAChallengeID : string; cr_RedirectURI : string; cr_ReturnTo : string;
}.

Record mfaAuthContext := mkAuthContext {
  mc_SessionID : string; mc_UserID : Z; mc_Subject : string; mc_Username : string; mc_Email : string;
  mc_IPAddress : string; mc_UserAgent : string;
}.

Definition totpStepReplayTTL : duration := 120 * Second.
Definition loginChallengeTTL : duration := 5 * Minute.
Definition loginTOTPRedirectRoute : string := "/login/totp".

Section Service.
Context {W : Type} `{!Runtime W}.

Record Service := mkService {
  sessions : SessionRepository W;
  sessionCache : option (SessionCacheRepository W);
  users : UserRepository W;
  totps : TOTPRepository W;
  mfaCache : MFARepository W;
  totp_provider : option (TOTPProvider W);
  issuer : string;
  ttl : duration;
}.

Definition NewService sessions sessionCache users totps mfaCache totp issuer ttl : Service :=
  mkService sessions sessionCache users totps mfaCache totp (TrimSpace issuer) ttl.

Context (s : Service).

Definition context_of (sessionID : string) (u : user.Model) (userID : Z) (found : found_session) : mfaAuthContext :=
  match found with
  | Cached e =>
      mkAuthContext sessionID userID (user.UserUUID u) (user.Username u) (user.Email u) (sce_IPAddress e) (sce_UserAgent e)
  | Stored m =>
      let subject := TrimSpace (user.UserUUID u) in
      let subject := if String.eqb subject "" then TrimSpace (session.Subject m) else subject in
      mkAuthContext sessionID userID subject (user.Username u) (user.Email u) (session.IPAddress m) (session.UserAgent m)
  end.

Definition loadUser (sessionID : string) : IO W mfaAuthContext :=
  let* found := load_user (sessions s) (sessionCache s) (users s) ParseInt MfaErrLoginRequired sessionID in
  let '(u, userID, f) := found in
  ret (context_of (TrimSpace sessionID) u userID f).

(** [s.totp.GenerateSecret()] with no provider is a panic. *)
Definition nil_provider : error := Driver "invalid memory address or nil pointer dereference".

Definition BeginSetup (sessionID : string) : IO W SetupResult :=
  let* authCtx := loadUser sessionID in
  let* existing := TOTP_FindByUserID (totps s) (mc_UserID authCtx) in
  match existing with
  | Some _ => ret (mkSetupResult "" "" true)
  | None =>
      let* totp := some_or (totp_provider s) nil_provider in
      let* secret := GenerateSecret totp in
      let accountName := if blank (mc_Email authCtx) then mc_Username authCtx else mc_Email authCtx in
      let provisioningURI := ProvisioningURI totp (issuer s) accountName secret in
      let ttl := if ttl s <=? 0 then 10 * Minute else ttl s in
      let* t := now in
      do* SaveTOTPEnrollment (mfaCache s)
            (mkTOTPEnrollmentEntry (TrimSpace sessionID) (FormatInt (mc_UserID authCtx)) secret provisioningURI (Add t ttl))
            ttl in
      ret (mkSetupResult secret provisioningURI false)
  end.

Definition login_challenge (authCtx : mfaAuthContext) (challengeID returnTo : string) (t : time) : MFAChallengeEntry :=
  mkMFAChallengeEntry challengeID (FormatInt (mc_UserID authCtx)) (mc_Subject authCtx) (mc_Username authCtx)
    (mc_IPAddress authCtx) (mc_UserAgent authCtx) returnTo returnTo "" "" "" "" zero_time ""
    (Add t loginChallengeTTL) 0 0.

Definition createLoginChallenge (authCtx : mfaAuthContext) (returnTo : string) (t : time) : IO W string :=
  let* challengeID := NewString in
  do* SaveMFAChallenge (mfaCache s) (login_challenge authCtx challengeID returnTo t) loginChallengeTTL in
  ret challengeID.

Definition invalidateCurrentSession (authCtx : mfaAuthContext) (t : time) : IO W unit :=
  if String.eqb (mc_SessionID authCtx) "" then ret tt else
  do* LogoutBySessionID (sessions s) (mc_SessionID authCtx) t in
  when_some (sessionCache s) (fun cache =>
    do* SessionCache_Delete cache (mc_SessionID authCtx) in
    RemoveUserSessionIndex cache (FormatInt (mc_UserID authCtx)) (mc_SessionID authCtx)).

(** The second login of a user who has just enrolled. *)
Definition challenge_again (authCtx : mfaAuthContext) (returnTo : string) (t : time) : IO W ConfirmResult :=
  let* challengeID := createLoginChallenge authCtx returnTo t in
  do* invalidateCurrentSession authCtx t in
  ret (mkConfirmResult true true challengeID loginTOTPRedirectRoute returnTo).

Definition ConfirmSetup (sessionID code returnTo : string) : IO W ConfirmResult :=
  let* authCtx := loadUser sessionID in
  let* t := now in
  let* entry := GetTOTPEnrollment (mfaCache s) (TrimSpace sessionID) in
  let* entry := some_or entry MfaErrEnrollmentExpired in
  do* guard (After (tee_ExpiresAt entry) t) MfaErrEnrollmentExpired in
  do* guard (String.eqb (tee_UserID entry) (FormatInt (mc_UserID authCtx))) MfaErrEnrollmentExpired in
  let* totp := some_or (totp_provider s) MfaErrInvalidTOTPCode in
  let* matchedStep := some_or (VerifyCodeWithStep totp (tee_Secret entry) code t) MfaErrInvalidTOTPCode in
  let* reserved := ReserveTOTPStepUse (mfaCache s) (FormatInt (mc_UserID authCtx)) TOTPPurposeEnable2FA matchedStep
                     totpStepReplayTTL in
  do* guard reserved MfaErrTOTPCodeReused in
  do* TOTP_Upsert (totps s) (totp.mk 0 (mc_UserID authCtx) (tee_Secret entry) t t t) in
  do* DeleteTOTPEnrollment (mfaCache s) (TrimSpace sessionID) in
  let returnTo := TrimSpace returnTo in
  if String.eqb returnTo "" then ret (mkConfirmResult true false "" "" "")
  else challenge_again authCtx returnTo t.

Definition BeginLoginChallenge (sessionID returnTo : string) : IO W ConfirmResult :=
  let* authCtx := loadUser sessionID in
  let returnTo := TrimSpace returnTo in
  if String.eqb returnTo "" then ret (mkConfirmResult true false "" "" "") else
  let* existing := TOTP_FindByUserID (totps s) (mc_UserID authCtx) in
  let* existing := some_or existing MfaErrEnrollmentExpired in
  let* t := now in
  challenge_again authCtx returnTo t.
End Service.
Arguments Service : clear implicits.

(** ** Soundness *)

Section Sound.
Context {W : Type} `{!Runtime W}.
Implicit Types s : Service W.

Lemma loadUser_logged_in s sessionID w authCtx w' :
  loadUser s sessionID w = (Ok authCtx, w') ->
  exists u id found, logged_in (sessions s) (sessionCache s) (users s) ParseInt (TrimSpace sessionID) u id found /\
    authCtx = context_of (TrimSpace sessionID) u id found /\ mc_SessionID authCtx <> "" /\ mc_UserID authCtx = id.
Proof.
  unfold loadUser. intros H. run H as found w1 Hl. destruct found as [[u id] found].
  apply ret_Ok in H as [<- <-]. apply load_user_logged_in in Hl as [Hne Hl].
  exists u, id, found. split; [done|]. split; [done|]. destruct found; done.
Qed.

(** What a second login starts from: a challenge of the same user, saved
    before the session that asked for it ends in the table, the cache and the
    user's index. *)
Definition challenged_again s (authCtx : mfaAuthContext) (returnTo : string) (t : time) (r : ConfirmResult) (w w' : W) : Prop :=
  exists id wa wb wc,
    SaveMFAChallenge (mfaCache s) (login_challenge authCtx id returnTo t) loginChallengeTTL wa = (Ok tt, wb) /\
    LogoutBySessionID (sessions s) (mc_SessionID authCtx) t wb = (Ok tt, wc) /\
    match sessionCache s with
    | None => wc = w'
    | Some cache => exists wd,
        SessionCache_Delete cache (mc_SessionID authCtx) wc = (Ok tt, wd) /\
        RemoveUserSessionIndex cache (FormatInt (mc_UserID authCtx)) (mc_SessionID authCtx) wd = (Ok tt, w')
    end /\ r = mkConfirmResult true true id loginTOTPRedirectRoute returnTo.

Lemma challenge_again_sound s authCtx returnTo t w r w' :
  mc_SessionID authCtx <> "" -> challenge_again s authCtx returnTo t w = (Ok r, w') ->
  challenged_again s authCtx returnTo t r w w'.
Proof.
  unfold challenge_again, createLoginChallenge, invalidateCurrentSession. intros Hne H.
  run H as id w1 Hc. run Hc as fresh w0 Hf. run Hc as u wb Hs. destruct u. apply ret_Ok in Hc as [-> <-].
  run H as u w2 Hi. destruct u. apply ret_Ok in H as [<- <-].
  rewrite (proj2 (String.eqb_neq _ _) Hne) in Hi. run Hi as u wc Hl. destruct u.
  exists id, w0, wb, wc. do 2 (split; [done|]). split; [|done].
  destruct (sessionCache s) as [cache|]; [|by apply ret_Ok in Hi as [_ <-]].
  run Hi as u wd Hd. destruct u. by exists wd.
Qed.

(** The checks of [ConfirmSetup], and what follows them. *)
Definition check_enrollment s (sessionID code : string) : IO W (mfaAuthContext * time * TOTPEnrollmentEntry) :=
  let* authCtx := loadUser s sessionID in
  let* t := now in
  let* entry := GetTOTPEnrollment (mfaCache s) (TrimSpace sessionID) in
  let* entry := some_or entry MfaErrEnrollmentExpired in
  do* guard (After (tee_ExpiresAt entry) t) MfaErrEnrollmentExpired in
  do* guard (String.eqb (tee_UserID entry) (FormatInt (mc_UserID authCtx))) MfaErrEnrollmentExpired in
  let* totp := some_or (totp_provider s) MfaErrInvalidTOTPCode in
  let* matchedStep := some_or (VerifyCodeWithStep totp (tee_Secret entry) code t) MfaErrInvalidTOTPCode in
  let* reserved := ReserveTOTPStepUse (mfaCache s) (FormatInt (mc_UserID authCtx)) TOTPPurposeEnable2FA matchedStep
                     totpStepReplayTTL in
  do* guard reserved MfaErrTOTPCodeReused in
  ret (authCtx, t, entry).

Definition enable s (sessionID returnTo : string) (checked : mfaAuthContext * time * TOTPEnrollmentEntry) : IO W ConfirmResult :=
  let '(authCtx, t, entry) := checked in
  do* TOTP_Upsert (totps s) (totp.mk 0 (mc_UserID authCtx) (tee_Secret entry) t t t) in
  do* DeleteTOTPEnrollment (mfaCache s) (TrimSpace sessionID) in
  if String.eqb (TrimSpace returnTo) "" then ret (mkConfirmResult true false "" "" "")
  else challenge_again s authCtx (TrimSpace returnTo) t.

Lemma ConfirmSetup_split s sessionID code returnTo w :
  ConfirmSetup s sessionID code returnTo w = (let* checked := check_enrollment s sessionID code in enable s sessionID returnTo checked) w.
Proof.
  unfold ConfirmSetup, check_enrollment, enable. cbv zeta.
  repeat (rewrite bind_assoc; apply bind_ext; intros ? ? _; cbv beta). done.
Qed.

(** [s] with another table of secrets. *)
Definition with_totps (store : TOTPRepository W) s : Service W :=
  mkService (sessions s) (sessionCache s) (users s) store (mfaCache s) (totp_provider s) (issuer s) (ttl s).

(** From [w] to [w'] the request was found to be one of the user [id] with an
    active session, whose enrollment [entry] is kept under that session and
    not expired at [t], and whose code is that of a step it reserved last. *)
Definition enrollment_checked s (sessionID code : string) authCtx id t entry w w' : Prop :=
  exists u found totp step w1 w2 w3,
    loadUser s sessionID w = (Ok authCtx, w1) /\ authCtx = context_of (TrimSpace sessionID) u id found /\
    logged_in (sessions s) (sessionCache s) (users s) ParseInt (TrimSpace sessionID) u id found /\
    now w1 = (Ok t, w2) /\ GetTOTPEnrollment (mfaCache s) (TrimSpace sessionID) w2 = (Ok (Some entry), w3) /\
    t < tee_ExpiresAt entry /\ tee_UserID entry = FormatInt id /\
    totp_provider s = Some totp /\ VerifyCodeWithStep totp (tee_Secret entry) code t = Some step /\
    ReserveTOTPStepUse (mfaCache s) (FormatInt id) TOTPPurposeEnable2FA step totpStepReplayTTL w3 = (Ok true, w').

Lemma check_enrollment_sound s sessionID code w authCtx t entry w' :
  check_enrollment s sessionID code w = (Ok (authCtx, t, entry), w') ->
  mc_SessionID authCtx <> "" /\ enrollment_checked s sessionID code authCtx (mc_UserID authCtx) t entry w w'.
Proof.
  unfold check_enrollment. intros H. run H as authCtx0 w1 Hload.
  destruct (loadUser_logged_in _ _ _ _ _ Hload) as (u & id & found & Hl & Hctx & Hne & Hid).
  run H as t0 w2 Ht. run H as o w3 Hg. run_some H as entry0 Ho. subst o. run_guard H as Hexp. apply After_spec in Hexp.
  run_guard H as Huser. apply String.eqb_eq in Huser. run_some H as totp Hp. run_some H as step Hv.
  run H as reserved w4 Hr. run_guard H as Hres. destruct reserved; [|done]. apply ret_Ok in H as [[= <- <- <-] <-].
  split; [done|]. rewrite Hid in *. by exists u, found, totp, step, w1, w2, w3.
Qed.

(** C31. A one-time password is enabled only for the user of an active
    session, with a secret kept for that very session and user and not
    expired, by a code of that secret whose time step this request reserved.
    However a confirmation ends, either it failed without the table of
    secrets (it would have been the same request, in every state it went
    through, with any other table), or all of this was found, step by step,
    before the secret is stored; that is the next thing done, and a failure
    to store it is the answer.  Then the enrollment is deleted.  When the
    login asked for the enrollment, a fresh challenge of the same user is
    saved and then the session is ended: nobody stays logged in on one
    factor. *)
Theorem totp_enrollment_sound s sessionID code returnTo w :
  (exists err w', ConfirmSetup s sessionID code returnTo w = (Err err, w') /\
     forall store, ConfirmSetup (with_totps store s) sessionID code returnTo w = (Err err, w')) \/
  exists authCtx id t entry w1 stored w2,
    enrollment_checked s sessionID code authCtx id t entry w w1 /\
    TOTP_Upsert (totps s) (totp.mk 0 id (tee_Secret entry) t t t) w1 = (stored, w2) /\
    match stored with
    | Err err => ConfirmSetup s sessionID code returnTo w = (Err err, w2)
    | Ok _ => forall r w', ConfirmSetup s sessionID code returnTo w = (Ok r, w') -> exists w3,
        DeleteTOTPEnrollment (mfaCache s) (TrimSpace sessionID) w2 = (Ok tt, w3) /\
        (blank returnTo = true /\ r = mkConfirmResult true false "" "" "" /\ w' = w3 \/
         blank returnTo = false /\ challenged_again s authCtx (TrimSpace returnTo) t r w3 w')
    end.
Proof.
  destruct (check_enrollment s sessionID code w) as [[[[authCtx t] entry]|err] w1] eqn:Hc; cycle 1.
  { left. exists err, w1. split; [|intros store]; rewrite ConfirmSetup_split; exact (bind_run_Err _ _ _ _ _ Hc). }
  right. destruct (check_enrollment_sound _ _ _ _ _ _ _ _ Hc) as [Hne Hsound].
  destruct (TOTP_Upsert (totps s) (totp.mk 0 (mc_UserID authCtx) (tee_Secret entry) t t t) w1) as [stored w2] eqn:Hup.
  exists authCtx, (mc_UserID authCtx), t, entry, w1, stored, w2. split; [done|]. split; [done|].
  rewrite ConfirmSetup_split, (bind_run _ _ _ _ _ Hc). destruct stored as [[]|err]; cycle 1.
  { exact (bind_run_Err _ _ _ _ _ Hup). }
  intros r w'. cbn [enable]. rewrite (bind_run _ _ _ _ _ Hup). intros H. run H as u2 w3 Hd. destruct u2. exists w3. split; [done|].
  unfold blank. destruct (String.eqb (TrimSpace returnTo) "") eqn:Hb.
  - apply ret_Ok in H as [<- <-]. by left.
  - right. split; [done|]. by apply challenge_again_sound.
Qed.
End Sound.

(** ** An enrollment, on Redis and with the program's own codes *)

Module MfaDemo.
Export Local LoggedInDemo.
Import KeyBuilder.

Definition totp_store : TOTPRepository world := {|
  TOTP_FindByUserID := fun _ => nothing None;
  TOTP_Upsert := fun _ => nothing tt;
  TOTP_DeleteByUserID := fun _ => nothing tt;
|}.

Definition service : Service world :=
  NewService session_store None user_store totp_store (NewMFARepository (R := keyspace) (NewKeyBuilder "idp" "test"))
    (Some (NewProvider world NewTOTPProvider)) " Sienne " 0.

Definition start : world := mkWorld ∅ (1700000000 * Second).
Definition begun : result error SetupResult * world := BeginSetup service "sid" start.

(** What the authenticator shows half a minute later. *)
Definition later : world := mkWorld (w_keys begun.2) (1700000030 * Second).
Definition shown : string :=
  match begun.1 with
  | Ok r => match decode_secret (sr_Secret r) with
            | Some key => generateCode NewTOTPProvider key (counter_at NewTOTPProvider (1700000030 * Second))
            | None => ""
            end
  | Err _ => ""
  end.

(** The enrollment is gone once it was confirmed, and a code that confirmed
    one enrollment does not confirm another. *)
Example confirmed_once :
  (ConfirmSetup service "sid" shown "" (ConfirmSetup service "sid" shown "" later).2).1 = Err (MfaErrEnrollmentExpired : error) /\
  (ConfirmSetup service "sid" shown "" (BeginSetup service "sid" (ConfirmSetup service "sid" shown "" later).2).2).1 =
  Err (MfaErrTOTPCodeReused : error).
Proof. split; vm_compute; reflexivity. Qed.
End MfaDemo.

Import MfaDemo.

(** The right code enables the secret; the left outcome is out of the
    question, for the run succeeds. *)
Lemma totp_enrollment_sound_witness :
  exists r w' authCtx id t entry w1, ConfirmSetup MfaDemo.service "sid" MfaDemo.shown "/authorize?x" MfaDemo.later = (Ok r, w') /\
    enrollment_checked MfaDemo.service "sid" MfaDemo.shown authCtx id t entry MfaDemo.later w1 /\ cr_TOTPRequired r = true.
Proof.
  destruct (ConfirmSetup MfaDemo.service "sid" MfaDemo.shown "/authorize?x" MfaDemo.later) as [[r|] w'] eqn:E;
    [|vm_compute in E; discriminate E].
  destruct (totp_enrollment_sound MfaDemo.service "sid" MfaDemo.shown "/authorize?x" MfaDemo.later) as
    [(err & w'' & Hr & _) | (authCtx & id & t & entry & w1 & stored & w2 & Hchecked & _ & Hend)].
  - rewrite E in Hr. discriminate Hr.
  - exists r, w', authCtx, id, t, entry, w1. split; [reflexivity|]. split; [exact Hchecked|].
    destruct stored as [u|err]; [|rewrite E in Hend; discriminate Hend].
    destruct (Hend r w' E) as (w3 & _ & [(Hb & _)|(_ & cid & wi & wj & wk & _ & _ & _ & Hr)]); [vm_compute in Hb; discriminate Hb|].
    rewrite Hr. reflexivity.
Defined.
