(* ===== verification/PasskeyService.v ===== *)
(** * application/passkey: registering a passkey

    [BeginSetup] starts a WebAuthn registration for the user of a session and
    keeps the ceremony's state in the challenge store under a setup id;
    [FinishSetup] lets the provider check the browser's answer and stores the
    credential.  Before it the repository of the credentials
    (passkey_credential_repo.go): its table is keyed by the credential alone,
    whoever owns it. *)

From stdpp Require Import base tactics list gmap strings sorting.
From Stdlib Require Import ZArith Lia.
From S2P Require Import Prelude GoStrings GoText GoTime Errors Domain Remote Database Ports AuthPorts StateMask LoggedIn.

(** ** The repository *)

(** user_webauthn_credentials *)
Record passkey_row := mkPasskeyRow {
  w_id : Z; w_user_id : Z; w_credential_id : string; w_credential_json : string; w_last_used_at : option time;
  w_created_at : time; w_updated_at : time;
}.

#[export] Instance passkey_row_eq_dec : EqDecision passkey_row.
Proof. solve_decision. Defined.

(** PRIMARY KEY (id), UNIQUE KEY (credential_id) *)
#[export] Instance passkey_row_keys {D} `{!Columns D} : Row passkey_row := {
  row_id := w_id;
  conflict := fun a b => collate (D := D) (w_credential_id a) (w_credential_id b);
}.

(** ORDER BY id ASC *)
Definition by_id (a b : passkey_row) : Prop := w_id a <= w_id b.
#[export] Instance by_id_dec a b : Decision (by_id a b).
Proof. unfold by_id. apply _. Defined.

(** The ON DUPLICATE KEY clause of upsert.sql: the owner is overwritten. *)
Definition replace_passkey (old new : passkey_row) : passkey_row :=
  mkPasskeyRow (w_id old) (w_user_id new) (w_credential_id old) (w_credential_json new) (w_last_used_at new) (w_created_at old) (w_updated_at new).

Definition touch_passkey (lastUsedAt t : time) (r : passkey_row) : passkey_row :=
  mkPasskeyRow (w_id r) (w_user_id r) (w_credential_id r) (w_credential_json r) (Some lastUsedAt) (w_created_at r) t.

Section Passkeys.
Context {W D : Type} `{!Runtime W} `{!Columns D} `{!Table D passkey_row (H := passkey_row_keys (D := D))} `{!TableEdit D passkey_row}.

Definition PasskeyRepo : Type := dbRouter W D.
Definition NewPasskeyCredentialRepositoryRW (writeDB readDB : DB W D) : PasskeyRepo := newDBRouter writeDB readDB.

(** list_by_user_id.sql, upsert.sql, touch_by_credential_id.sql *)
Definition listByUserID (userID : Z) : IO D (list passkey_row) :=
  let* l := SELECT (fun _ r => w_user_id r =? userID) in ret (merge_sort by_id l).
Definition upsertPasskey (userID : Z) (credentialID credentialJSON : string) (lastUsed : option time) (createdAt updatedAt : time) : IO D Z :=
  let* json := some_or (json_column credentialJSON) (Driver "Invalid JSON text") in
  UPSERT (fun id _ => mkPasskeyRow id userID credentialID json (option_map datetime lastUsed) (datetime createdAt) (datetime updatedAt))
    (fun _ => replace_passkey).
Definition touchByCredentialID (lastUsedAt : time) (credentialID : string) : IO D Z := fun d =>
  UPDATE (fun _ r => collate (D := D) (w_credential_id r) credentialID) (touch_passkey (datetime lastUsedAt) (current_timestamp d)) d.

Definition scanOne (r : passkey_row) : passkey.Model :=
  passkey.mk (w_id r) (w_user_id r) (w_credential_id r) (w_credential_json r) (w_last_used_at r) (w_created_at r) (w_updated_at r).

Definition ListByUserID (r : PasskeyRepo) (userID : Z) : IO W (list (option passkey.Model)) :=
  let* l := run_on (reader r) (listByUserID userID) in ret (List.map (fun row => Some (scanOne row)) l).

(** [if t.IsZero() { t = now }] *)
Definition time_or (t now : time) : time := if t =? zero_time then now else t.

Definition Upsert (r : PasskeyRepo) (m : passkey.Model) : IO W unit :=
  let* t := now in
  do* run_on (writer r) (upsertPasskey (passkey.UserID m) (passkey.CredentialID m) (passkey.CredentialJSON m) (passkey.LastUsedAt m)
        (time_or (passkey.CreatedAt m) t) (time_or (passkey.UpdatedAt m) t)) in
  ret tt.

Definition TouchByCredentialID (r : PasskeyRepo) (credentialID : string) (lastUsedAt : time) : IO W unit :=
  do* run_on (writer r) (touchByCredentialID lastUsedAt credentialID) in ret tt.

Definition NewPasskeyCredentialRepository (r : PasskeyRepo) : PasskeyCredentialRepository W := {|
  Passkey_ListByUserID := ListByUserID r; Passkey_Upsert := Upsert r; Passkey_TouchByCredentialID := TouchByCredentialID r;
|}.

(** A credential has one owner: whoever wrote it last.  A write for another
    user, under any spelling the collation takes for the same, takes it away. *)
Lemma upsert_takes_over u cid json last c t (d : D) n d' r id : upsertPasskey u cid json last c t d = (Ok n, d') ->
  rows d !! id = Some r -> collate (D := D) (w_credential_id r) cid = true ->
  exists s, rows d' !! id = Some s /\ w_user_id s = u /\ w_credential_id s = w_credential_id r /\ w_created_at s = w_created_at r.
Proof.
  unfold upsertPasskey. intros H Hr Hc. run_some H as js Hj.
  apply UPSERT_Ok in H as (i & t' & [(_ & Hno & _ & _)|(r' & Hr' & Hc' & Hd)]).
  - specialize (Hno _ _ Hr). cbn in Hno. congruence.
  - assert (i = id) as ->.
    { eapply rows_unique; [exact Hr' | exact Hr|]. cbn in Hc' |- *. rewrite collate_sym in Hc. by eapply collate_trans. }
    assert (r' = r) as -> by congruence. eexists. split; [by rewrite Hd, lookup_insert_eq|]. done.
Qed.

(** Touching a credential changes when it was used, and nothing else. *)
Lemma touch_keeps_owner t cid (d : D) n d' id : touchByCredentialID t cid d = (Ok n, d') ->
  (w_user_id <$> rows d' !! id) = (w_user_id <$> rows d !! id) /\ (w_credential_json <$> rows d' !! id) = (w_credential_json <$> rows d !! id).
Proof. unfold touchByCredentialID. intros [Hr _]%UPDATE_Ok. rewrite Hr, lookup_fmap. destruct (rows d !! id) as [r|]; [|done]. cbn. by case_match. Qed.
End Passkeys.
Arguments PasskeyRepo : clear implicits.

Module PasskeyRepoDemo.
Record database := mkDatabase { table_rows : gmap Z passkey_row; clock : time }.

#[export] Instance columns : Columns database := memory_columns clock.
#[export] Instance table : Table database passkey_row (H := passkey_row_keys (D := database)) :=
  memory_table (H := passkey_row_keys (D := database)) table_rows (fun m d => mkDatabase m (clock d)) clock (fun m d => eq_refl).
#[export] Instance edit : TableEdit database passkey_row :=
  memory_edit (H := passkey_row_keys (D := database)) table_rows (fun m d => mkDatabase m (clock d)) clock (fun m d => eq_refl).

Definition start : database := mkDatabase ∅ (1700000000 * Second).
Definition alice : database := (upsertPasskey 7 "AbCd" "{}" None 0 0 start).2.
Definition mallory : database := (upsertPasskey 8 "AbCd" "{}" None 0 0 alice).2.

(** Another user who registers the same credential id takes the passkey. *)
Example passkey_taken_over :
  (listByUserID 7 alice).1 = Ok [mkPasskeyRow 0 7 "AbCd" "{}" None 0 0] /\ (listByUserID 7 mallory).1 = Ok [].
Proof. split; vm_compute; reflexivity. Qed.
End PasskeyRepoDemo.

(** ** The service *)

Definition passkeySetupMFAMode : string := "passkey_setup".

Record BeginSetupResult := mkBeginSetupResult { bs_SetupID : string; bs_OptionsJSON : string; bs_ExpiresAt : time }.

Record repositoryUser := mkRepositoryUser {
  ru_ID : Z; ru_UserUUID : string; ru_Username : string; ru_DisplayName : string;
}.

Definition toPasskeyUser (u : repositoryUser) : PasskeyUser :=
  let id := FormatInt (ru_ID u) in
  let handle := TrimSpace (ru_UserUUID u) in
  let handle := if String.eqb handle "" then id else handle in
  let name := TrimSpace (ru_Username u) in
  let name := if String.eqb name "" then id else name in
  let display := TrimSpace (ru_DisplayName u) in
  let display := if String.eqb display "" then name else display in
  mkPasskeyUser handle name display.

Fixpoint credentialJSONList (models : list (option passkey.Model)) : list string :=
  match models with
  | [] => []
  | None :: rest => credentialJSONList rest
  | Some m :: rest =>
      let raw := TrimSpace (passkey.CredentialJSON m) in
      if String.eqb raw "" then credentialJSONList rest else raw :: credentialJSONList rest
  end.

Section Service.
Context {W : Type} `{!Runtime W}.

Record Service := mkService {
  sessions : SessionRepository W;
  sessionCache : option (SessionCacheRepository W);
  users : UserRepository W;
  passkeys : option (PasskeyCredentialRepository W);
  mfaCache : option (MFARepository W);
  passkey_provider : option (PasskeyProvider W);
  ttl : duration;
}.

Definition NewService sessions sessionCache users passkeys mfaCache passkey ttl : Service :=
  mkService sessions sessionCache users passkeys mfaCache passkey (if ttl <=? 0 then 10 * Minute else ttl).

Context (s : Service).

Definition loadUser (sessionID : string) : IO W repositoryUser :=
  let* found := load_user (sessions s) (sessionCache s) (users s) (fun id => ParseInt (TrimSpace id))
                  PasskeyErrLoginRequired sessionID in
  let '(u, _, _) := found in
  ret (mkRepositoryUser (user.ID u) (user.UserUUID u) (user.Username u) (user.DisplayName u)).

(** [s.passkey == nil || s.passkeys == nil || s.mfaCache == nil] *)
Definition parts : option (PasskeyProvider W * PasskeyCredentialRepository W * MFARepository W) :=
  match passkey_provider s, passkeys s, mfaCache s with
  | Some provider, Some repo, Some cache => Some (provider, repo, cache)
  | _, _, _ => None
  end.

Definition setup_challenge (authUser : repositoryUser) (setupID sessionJSON : string) (expiresAt : time) : MFAChallengeEntry :=
  mkMFAChallengeEntry setupID (FormatInt (ru_ID authUser)) (ru_UserUUID authUser) (ru_Username authUser)
    "" "" "" "" passkeySetupMFAMode "" "" "" zero_time sessionJSON expiresAt 0 0.

Definition BeginSetup (sessionID : string) : IO W BeginSetupResult :=
  let* p := some_or parts PasskeyErrPasskeyDisabled in
  let '(provider, repo, cache) := p in
  let* authUser := loadUser sessionID in
  let* existing := Passkey_ListByUserID repo (ru_ID authUser) in
  let* begun := BeginRegistration provider (toPasskeyUser authUser) (credentialJSONList existing) in
  let '(optionsJSON, sessionJSON) := begun in
  let* t := now in
  let* setupID := NewString in
  let expiresAt := Add t (ttl s) in
  do* SaveMFAChallenge cache (setup_challenge authUser setupID sessionJSON expiresAt) (ttl s) in
  ret (mkBeginSetupResult setupID optionsJSON expiresAt).

Definition is_setup (challenge : MFAChallengeEntry) (t : time) : bool :=
  After (mce_ExpiresAt challenge) t && EqualFold (TrimSpace (mce_MFAMode challenge)) passkeySetupMFAMode.

(** The credential id. *)
Definition FinishSetup (sessionID setupID responseJSON : string) : IO W string :=
  let* p := some_or parts PasskeyErrPasskeyDisabled in
  let '(provider, repo, cache) := p in
  let* authUser := loadUser sessionID in
  let* challenge := GetMFAChallenge cache (TrimSpace setupID) in
  let* t := now in
  let* challenge := some_or challenge PasskeyErrPasskeySetupExpired in
  do* guard (is_setup challenge t) PasskeyErrPasskeySetupExpired in
  do* guard (negb (blank (mce_PasskeySessionJSON challenge))) PasskeyErrPasskeySetupExpired in
  do* guard (String.eqb (TrimSpace (mce_UserID challenge)) (FormatInt (ru_ID authUser))) PasskeyErrPasskeySetupExpired in
  let* existing := Passkey_ListByUserID repo (ru_ID authUser) in
  let* finished := FinishRegistration provider (toPasskeyUser authUser) (credentialJSONList existing)
                     (mce_PasskeySessionJSON challenge) responseJSON in
  let '(credentialID, credentialJSON) := finished in
  let* saved := attempt (Passkey_Upsert repo (passkey.mk 0 (ru_ID authUser) credentialID credentialJSON None t t)) in
  match saved with
  | Err _ => throw PasskeyErrPasskeyCredentialSave
  | Ok _ =>
      do* DeleteMFAChallenge cache (mce_ChallengeID challenge) in
      ret credentialID
  end.
End Service.
Arguments Service : clear implicits.

(** ** Soundness *)

Section Sound.
Context {W : Type} `{!Runtime W}.
Implicit Types s : Service W.

Lemma passkey_user_logged_in s sessionID w u w' :
  loadUser s sessionID w = (Ok u, w') ->
  exists m id found,
    logged_in (sessions s) (sessionCache s) (users s) (fun id => ParseInt (TrimSpace id)) (TrimSpace sessionID) m id found /\
    u = mkRepositoryUser (user.ID m) (user.UserUUID m) (user.Username m) (user.DisplayName m).
Proof.
  unfold loadUser. intros H. run H as found w1 Hl. destruct found as [[m id] found].
  apply ret_Ok in H as [<- <-]. apply load_user_logged_in in Hl as [_ Hl]. by exists m, id, found.
Qed.

(** A passkey is stored only for the user of an active session, and only
    as the answer to a ceremony that this user started: the challenge named by
    the setup id is of the setup kind, unexpired, owned by the same user, and
    the provider accepted the browser's response against the state kept in
    it.  What is stored is what the provider returned, and the setup is
    deleted, so that it cannot be finished twice.  A challenge of a login is
    never accepted as a setup, nor one of another user. *)
Theorem passkey_registration_sound s sessionID setupID response w credentialID w' :
  FinishSetup s sessionID setupID response w = (Ok credentialID, w') ->
  exists m id found provider repo cache c existing json t wa wb wc wd we wf wg,
    let u := mkRepositoryUser (user.ID m) (user.UserUUID m) (user.Username m) (user.DisplayName m) in
    logged_in (sessions s) (sessionCache s) (users s) (fun id => ParseInt (TrimSpace id)) (TrimSpace sessionID) m id found /\
    passkey_provider s = Some provider /\ passkeys s = Some repo /\ mfaCache s = Some cache /\
    GetMFAChallenge cache (TrimSpace setupID) wa = (Ok (Some c), wb) /\
    t < mce_ExpiresAt c /\ fold_case (TrimSpace (mce_MFAMode c)) = passkeySetupMFAMode /\
    blank (mce_PasskeySessionJSON c) = false /\ TrimSpace (mce_UserID c) = FormatInt (user.ID m) /\
    FinishRegistration provider (toPasskeyUser u) existing (mce_PasskeySessionJSON c) response wc = (Ok (credentialID, json), wd) /\
    Passkey_Upsert repo (passkey.mk 0 (user.ID m) credentialID json None t t) wd = (Ok tt, we) /\
    DeleteMFAChallenge cache (mce_ChallengeID c) wf = (Ok tt, wg) /\ we = wf /\ wg = w'.
Proof.
  unfold FinishSetup. intros H. run_some H as p Hp. unfold parts in Hp.
  destruct (passkey_provider s) as [provider|]; [|done]. destruct (passkeys s) as [repo|]; [|done].
  destruct (mfaCache s) as [cache|]; [|done]. injection Hp as <-.
  run H as u w1 Hl. apply passkey_user_logged_in in Hl as (m & id & found & Hl & ->). cbn [ru_ID] in H.
  run H as o w2 Hg. run H as t w3 Ht. run_some H as c Ho. subst o. run_guard H as Hs. unfold is_setup, EqualFold in Hs.
  apply andb_true_iff in Hs as [Hx Hm]. apply After_spec in Hx. apply String.eqb_eq in Hm.
  run_guard H as Hb. apply negb_true_iff in Hb. run_guard H as Hu. apply String.eqb_eq in Hu.
  run H as existing w4 He. run H as fin w5 Hf. destruct fin as [cid json]. run H as saved w6 Hup. apply attempt_inv in Hup.
  destruct saved as [[]|]; [|by apply throw_Ok in H]. run H as u w7 Hd. destruct u. apply ret_Ok in H as [-> <-].
  exists m, id, found, provider, repo, cache, c, (credentialJSONList existing), json, t, w1, w2, w4, w5, w6, w6, w7.
  by repeat (split; [done|]).
Qed.
End Sound.

(** ** A registration *)

Module PasskeyDemo.
Export LoggedInDemo.
(** The challenges, and how many ids were drawn. *)
Record world := mkWorld { challenges : list MFAChallengeEntry; stored : list passkey.Model }.

#[export] Instance runtime : Runtime world := {
  time_Now := fun w => (1700000000 * Second, w);
  uuid_NewString := fun w => ("setup", w);
  rand_Read := fun n w => (Ok (List.repeat 7 n), w);
}.

Definition challenge_store : MFARepository world := {|
  SaveTOTPEnrollment := fun _ _ => nothing tt;
  GetTOTPEnrollment := fun _ => nothing None;
  DeleteTOTPEnrollment := fun _ => nothing tt;
  ReserveTOTPStepUse := fun _ _ _ _ => nothing true;
  SaveMFAChallenge := fun e _ w => (Ok tt, mkWorld (e :: challenges w) (stored w));
  GetMFAChallenge := fun id w =>
    (Ok (List.find (fun e => String.eqb (mce_ChallengeID e) id) (challenges w)), w);
  DeleteMFAChallenge := fun id w =>
    (Ok tt, mkWorld (List.filter (fun e => negb (String.eqb (mce_ChallengeID e) id)) (challenges w)) (stored w));
|}.

Definition credentials : PasskeyCredentialRepository world := {|
  Passkey_ListByUserID := fun id w => (Ok (List.map Some (List.filter (fun m => passkey.UserID m =? id) (stored w))), w);
  Passkey_Upsert := fun m w => (Ok tt, mkWorld (challenges w) (m :: stored w));
  Passkey_TouchByCredentialID := fun _ _ => nothing tt;
|}.

Definition provider : PasskeyProvider world := {|
  BeginRegistration := fun u _ => nothing ("options", pu_UserHandle u);
  FinishRegistration := fun u _ state response =>
    if String.eqb state (pu_UserHandle u) && String.eqb response "signed" then nothing ("cred", "json") else throw (Driver "no");
  BeginLogin := fun _ _ => nothing ("options", "state");
  FinishLogin := fun _ _ _ _ => nothing ("cred", "json");
|}.

Definition service : Service world :=
  NewService session_store None user_store (Some credentials) (Some challenge_store) (Some provider) 0.

Definition begun : world := (BeginSetup service "sid" (mkWorld [] [])).2.

(** A second attempt with the same setup id is refused. *)
Example setup_used_once :
  (FinishSetup service "sid" "setup" "signed" (FinishSetup service "sid" "setup" "signed" begun).2).1 =
  Err (PasskeyErrPasskeySetupExpired : error).
Proof. vm_compute. reflexivity. Qed.
End PasskeyDemo.

Import PasskeyDemo.

Lemma passkey_registration_sound_witness :
  exists c m json, FinishSetup PasskeyDemo.service "sid" "setup" "signed" PasskeyDemo.begun =
      (Ok "cred", PasskeyDemo.mkWorld [] [m]) /\
    fold_case (TrimSpace (mce_MFAMode c)) = passkeySetupMFAMode /\ passkey.CredentialJSON m = json.
Proof.
  destruct (FinishSetup PasskeyDemo.service "sid" "setup" "signed" PasskeyDemo.begun) as [[r|] w'] eqn:E;
    [|vm_compute in E; discriminate E].
  destruct (passkey_registration_sound _ _ _ _ _ _ _ E) as
    (m & id & found & p & repo & cache & c & ex & json & t & wa & wb & wc & wd & we & wf & wg & _ & _ & _ & _ & _ & _ & Hm & _).
  exists c, (passkey.mk 0 7 "cred" "json" None (1700000000 * Second) (1700000000 * Second)), "json".
  split; [|split; [exact Hm | reflexivity]]. rewrite <- E. vm_compute. reflexivity.
Defined.
