(* ===== verification/AuthnSystem.v ===== *)
(** * The login service on the Redis cache

    The service of AuthnService with the repositories of RateLimitCache and
    MFACache behind its ports: the lockout, from the failing password to the
    refused login, and the single use of a one-time password across logins,
    servers and challenges. *)

From stdpp Require Import base tactics list gmap strings relations.
From Stdlib Require Import ZArith Lia Ascii.
From S2P Require Import Prelude GoStrings GoTime Errors Domain Ports AuthPorts Remote Redis RedisKeys LuaScripts StateMask AuthnPlugins AuthnService AuthnTheorems MFACache RateLimitCache.

Import KeyBuilder.

Section Lockout.
Context {W R : Type} `{!Runtime W} `{HN : NameUUIDs} `{HC : RedisClient W R} `{!Quiet W R}.
Context (key : KeyBuilder) (s : AuthnService.Service W).
Hypothesis limiter : rateLimits s = Some (NewRateLimitRepository key).









End Lockout.

(** ** One-time passwords are used once *)

Section SingleUse.
Context {W R : Type} `{!Runtime W} `{HN : NameUUIDs} `{HC : RedisClient W R} `{!Quiet W R}.
Context (key : KeyBuilder).

(** Time, and anything that leaves the mark as it is; on the mark itself only
    [SETNX], which is what every reservation is. *)
Inductive mark_traffic (k : string) : Z -> relation keyspace :=
| mark_start ks : mark_traffic k 0 ks ks
| mark_time d e ks k1 : mark_traffic k d ks k1 -> 0 <= e -> mark_traffic k (d + e) ks (elapse e k1)
| mark_reserve d ks k1 v px a k2 :
    mark_traffic k d ks k1 -> documented (SETNX k v px) k1 = (a, k2) -> mark_traffic k d ks k2
| mark_other d ks k1 k2 : mark_traffic k d ks k1 -> k2 !! k = k1 !! k -> mark_traffic k d ks k2.

Lemma mark_traffic_pos k d ks ks' : mark_traffic k d ks ks' -> 0 <= d.
Proof. induction 1; lia. Qed.

Lemma mark_kept k v ms d ks ks' :
  ks !! k = Some (mkEntry (RString v) (Some ms)) -> mark_traffic k d ks ks' -> d < ms ->
  ks' !! k = Some (mkEntry (RString v) (Some (ms - d))).
Proof.
  intros Hk Hrun. induction Hrun as [ks | d e ks k1 Hrun IH He | d ks k1 v' px a k2 Hrun IH Hr | d ks k1 k2 Hrun IH Hw];
    intros Hd.
  - by rewrite Z.sub_0_r.
  - pose proof (mark_traffic_pos _ _ _ _ Hrun). rewrite lookup_elapse, IH by (done || lia). simpl.
    rewrite age_keeps by lia. do 3 f_equal. lia.
  - specialize (IH Hk Hd). simpl in Hr. rewrite IH in Hr. destruct (match px with Some ms0 => ms0 <=? 0 | None => false end);
      by injection Hr as _ <-.
  - rewrite Hw. by apply IH.
Qed.

Definition step_mark (user : string) (step : Z) : string := TOTPStepUsed key user TOTPPurposeLogin step.

Lemma reserve_run user step (w : W) b w' :
  MFACache.ReserveTOTPStepUse key user TOTPPurposeLogin step totpStepReplayTTL w = (Ok b, w') ->
  b = bool_decide (keys (server w) !! step_mark user step = None) /\
  keys (server w') = if b then <[step_mark user step := mkEntry (RString "1") (Some 120000)]> (keys (server w)) else keys (server w).
Proof.
  intros Hr. unfold MFACache.ReserveTOTPStepUse in Hr. fold (step_mark user step) in Hr.
  change (nx_lifetime totpStepReplayTTL) with (Some 120000) in Hr.
  destruct (documented (SETNX (step_mark user step) "1" (Some 120000)) (keys (server w))) as [a ks'] eqn:Hd.
  destruct (quiet_call _ _ w _ _ (simulates_exec _) Hd) as (w2 & Hc & Hk). rewrite Hr in Hc. injection Hc as <- <-.
  apply SETNX_Ok in Hd as [Hb Hks]. by rewrite Hk.
Qed.

Lemma mark_set user step (w w' : W) :
  AuthPorts.ReserveTOTPStepUse (NewMFARepository key) user TOTPPurposeLogin step totpStepReplayTTL w = (Ok true, w') ->
  keys (server w) !! step_mark user step = None /\
  keys (server w') !! step_mark user step = Some (mkEntry (RString "1") (Some 120000)).
Proof.
  intros Hr. apply reserve_run in Hr as [Hb Hk]. symmetry in Hb. apply bool_decide_eq_true in Hb.
  split; [done|]. rewrite Hk. apply lookup_insert_eq.
Qed.

(** *** What a login does to the marks *)

(** [m] leaves the cache entry [k] as it is. *)
Definition leaves (k : string) {A} (m : IO W A) : Prop := forall o, preserves (fun w => keys (server w) !! k = o) m.

(** The ports of a login, but for the challenge cache, leave the entry alone:
    the tables and the clock are elsewhere, the sessions under other keys. *)
Record ports_leave (k : string) (s : AuthnService.Service W) : Prop := {
  pl_now : leaves k now;
  pl_uuid : leaves k NewString;
  pl_user id : leaves k (User_FindByID (userRepo s) id);
  pl_totp repo id : totpRepo s = Some repo -> leaves k (TOTP_FindByUserID repo id);
  pl_passkeys repo id : passkeyRepo s = Some repo -> leaves k (Passkey_ListByUserID repo id);
  pl_session m : leaves k (Session_Create (sessionRepo s) m);
  pl_session_cache cache e ttl : sessionCache s = Some cache -> leaves k (SessionCache_Save cache e ttl);
}.

Lemma leaves_call k {A} (m : IO R A) f : simulates m f -> (forall o, preserves (fun ks : keyspace => ks !! k = o) f) -> leaves k (call m).
Proof.
  intros Hm Hf o w r w' Hr Hk. destruct (f (keys (server w))) as [a ks'] eqn:Ef.
  destruct (quiet_call m f w a ks' Hm Ef) as (w1 & Hc & Hks). rewrite Hr in Hc. injection Hc as <- <-.
  rewrite Hks. by apply (Hf o _ _ _ Ef).
Qed.

Lemma leaves_get k id : leaves k (MFACache.GetMFAChallenge key id).
Proof.
  intros o. unfold MFACache.GetMFAChallenge.
  assert (Hread : forall A (c : command A), writes c = None -> leaves k (call (exec c))).
  { intros A c Hc. eapply leaves_call; [apply simulates_exec|]. intros o'.
    apply (preserves_documented c (fun e => e = o')). by rewrite Hc. }
  apply preserves_bind; [by apply preserves_attempt, Hread|]. intros a.
  apply preserves_bind; [by apply preserves_attempt, Hread|]. intros b.
  destruct a, b; first [apply preserves_ret | apply preserves_fail].
Qed.

Lemma mark_not_challenge user step id :
  MFAChallenge key id <> step_mark user step /\ MFAChallengeState key id <> step_mark user step.
Proof.
  split; unfold step_mark, MFAChallenge, MFAChallengeState, TOTPStepUsed; intros E; do 3 apply app_cancel_l in E; discriminate E.
Qed.

Lemma leaves_delete user step id : leaves (step_mark user step) (MFACache.DeleteMFAChallenge key id).
Proof.
  unfold MFACache.DeleteMFAChallenge. eapply (leaves_call _ _ (delete_challenge_script key id)).
  - unfold delete_challenge_script. simulate.
  - intros o ks a ks' Hr Hk. rewrite delete_challenge_run in Hr. injection Hr as _ <-.
    destruct (mark_not_challenge user step id). by rewrite !lookup_delete_ne.
Qed.

Section Leaves.
Context (k : string) (s : AuthnService.Service W).
Hypothesis ports : ports_leave k s.

Lemma leaves_lookupTOTP id : leaves k (lookupTOTP s id).
Proof.
  intros o. unfold lookupTOTP. destruct (totpRepo s) as [repo|] eqn:Hr; [|apply preserves_ret].
  destruct (id <=? 0); [apply preserves_ret | by apply (pl_totp _ _ ports)].
Qed.

Lemma leaves_passkeys id : leaves k (lookupPasskeyCredentialJSON s id).
Proof.
  intros o. unfold lookupPasskeyCredentialJSON. destruct (passkeyRepo s) as [repo|] eqn:Hr; [|apply preserves_ret].
  destruct (id <=? 0); [apply preserves_ret|]. apply preserves_bind; [by apply (pl_passkeys _ _ ports)|]. intros; apply preserves_ret.
Qed.

Lemma leaves_session u c t : leaves k (session_of_challenge s u c t).
Proof.
  intros o. unfold session_of_challenge, createSession.
  apply preserves_bind; [apply (pl_uuid _ _ ports)|]. intros id. destruct (sessionAuthContext _) as [acr amr].
  apply preserves_bind; [|intros [acr' amr']].
  { case_match; [apply preserves_ret|]. apply preserves_bind; [apply preserves_attempt, leaves_lookupTOTP|].
    intros [[?|]|?]; apply preserves_ret. }
  apply preserves_bind; [apply (pl_session _ _ ports)|]. intros _.
  apply preserves_bind; [|intros _; apply preserves_ret].
  apply preserves_when_some. intros cache Hc. by apply (pl_session_cache _ _ ports).
Qed.
End Leaves.

(** A login keeps the mark it sets, and finds the one it needs free where it started. *)
Lemma login_marks s id code w c step reserving reserved w' :
  mfaCache s = Some (NewMFARepository key) -> totp_run s id code w c step reserving reserved w' ->
  ports_leave (step_mark (mce_UserID c) step) s ->
  keys (server w) !! step_mark (mce_UserID c) step = None /\
  keys (server w') !! step_mark (mce_UserID c) step = Some (mkEntry (RString "1") (Some 120000)).
Proof.
  intros Hs (cache & t & u & credential & p & w0 & w1 & w2 & w5 & w6 & r0 & Hcache & Hnow & Hget & _ & (n & _ & Hu) & Hl & _ & _ & Hres & Hdel & Hsess & Hend) Hp.
  rewrite Hs in Hcache. injection Hcache as <-. set (k := step_mark (mce_UserID c) step) in *.
  destruct (mark_set _ _ _ _ Hres) as [Hfree Hmark]. fold k in Hfree, Hmark. split.
  - destruct (keys (server w) !! k) as [e|] eqn:Hk; [|done]. exfalso.
    apply (pl_now _ _ Hp _ _ _ _ Hnow) in Hk. apply (leaves_get k _ _ _ _ _ Hget) in Hk.
    apply (pl_user _ _ Hp _ _ _ _ _ Hu) in Hk. apply (leaves_lookupTOTP _ _ Hp _ _ _ _ _ Hl) in Hk. congruence.
  - apply (leaves_delete _ _ _ _ _ _ _ Hdel) in Hmark. apply (leaves_session _ _ Hp _ _ _ _ _ _ _ Hsess) in Hmark.
    destruct Hend as [->|(ps & Hps)]; [done|]. by apply (leaves_passkeys _ _ Hp _ _ _ _ _ Hps) in Hmark.
Qed.

(** C24. A one-time password logs in once.  Take two logins by code that both
    succeed, through any two servers and challenges, [c1] and [c2] being the
    challenges they read and [step1] and [step2] the 30-second steps their
    codes matched; each reserved its step on the way.  If the second starts
    within two minutes of the end of the first, or, when they overlap, if it
    reserves within two minutes of the reservation of the first, then either
    the users differ or the steps do, whatever happens in between. *)
Theorem totp_code_logs_in_once (s1 s2 : AuthnService.Service W) id1 code1 id2 code2 w1 r1 w1' w2 r2 w2' :
  mfaCache s1 = Some (NewMFARepository key) -> mfaCache s2 = Some (NewMFARepository key) ->
  VerifyTOTP s1 id1 code1 w1 = (Ok r1, w1') -> VerifyTOTP s2 id2 code2 w2 = (Ok r2, w2') ->
  exists c1 step1 reserving1 reserved1 c2 step2 reserving2 reserved2,
    totp_run s1 id1 code1 w1 c1 step1 reserving1 reserved1 w1' /\
    totp_run s2 id2 code2 w2 c2 step2 reserving2 reserved2 w2' /\
    let mark := step_mark (mce_UserID c1) step1 in
    forall d, d < 120000 ->
      (ports_leave mark s1 /\ ports_leave mark s2 /\ mark_traffic mark d (keys (server w1')) (keys (server w2))) \/
      mark_traffic mark d (keys (server reserved1)) (keys (server reserving2)) ->
      mce_UserID c1 <> mce_UserID c2 \/ step1 <> step2.
Proof.
  intros Hc1 Hc2 Hv1 Hv2.
  destruct (VerifyTOTP_run _ _ _ _ _ _ Hv1) as (c1 & st1 & a & a' & Hr1).
  destruct (VerifyTOTP_run _ _ _ _ _ _ Hv2) as (c2 & st2 & b & b' & Hr2).
  exists c1, st1, a, a', c2, st2, b, b'. split; [done|]. split; [done|]. intros mark d Hd Htr.
  destruct (decide (mce_UserID c1 = mce_UserID c2)) as [Hu|]; [|by left].
  destruct (decide (st1 = st2)) as [Hst|]; [exfalso|by right].
  destruct Htr as [(Hp1 & Hp2 & Htr)|Htr].
  - destruct (login_marks _ _ _ _ _ _ _ _ _ Hc1 Hr1 Hp1) as [_ Hset]. unfold mark in *. rewrite Hu, Hst in *.
    destruct (login_marks _ _ _ _ _ _ _ _ _ Hc2 Hr2 Hp2) as [Hfree _].
    pose proof (mark_kept _ _ _ _ _ _ Hset Htr Hd). congruence.
  - destruct Hr1 as (q1 & ? & ? & ? & ? & ? & ? & ? & ? & ? & ? & Hq1 & _ & _ & _ & _ & _ & _ & _ & Hres1 & _).
    destruct Hr2 as (q2 & ? & ? & ? & ? & ? & ? & ? & ? & ? & ? & Hq2 & _ & _ & _ & _ & _ & _ & _ & Hres2 & _).
    rewrite Hc1 in Hq1. injection Hq1 as <-. rewrite Hc2 in Hq2. injection Hq2 as <-.
    destruct (mark_set _ _ _ _ Hres1) as [_ Hset], (mark_set _ _ _ _ Hres2) as [Hfree _].
    unfold mark in *. rewrite Hu, Hst in *. pose proof (mark_kept _ _ _ _ _ _ Hset Htr Hd). congruence.
Qed.
End SingleUse.

(** ** At work *)

Module AuthnSystemDemo.
Import Local.

#[export] Instance uuids : NameUUIDs := { uuid_NewSHA1 := fun data => "v5-" +:+ data }.

Definition key : KeyBuilder := NewKeyBuilder "idp" "test".
Definition nothing {A} (a : A) : IO world A := ret a.

Definition alice : user.Model :=
  user.mk 7 "uuid-7" "alice" "alice@x" true "Alice" "hash:pw" "end_user" 0 "" "active" 0 None 0 0.

(** The names are compared as the collation of the table does. *)
Definition user_store : UserRepository world := {|
  User_Create := fun m => nothing m;
  User_FindByID := fun id => nothing (if id =? 7 then Some alice else None);
  FindByUserUUID := fun _ => nothing None;
  FindByEmail := fun _ => nothing None;
  FindByUsername := fun n => nothing (if String.eqb (ToLower n) "alice" then Some alice else None);
  ListByRoleCode := fun _ _ => nothing [];
  CountByRoleCode := fun _ => nothing 0;
  UpdateRoleAndPrivilege := fun _ _ _ _ => nothing tt;
  UnlockAccount := fun _ _ => nothing tt;
  IncrementFailedLogin := fun _ => nothing 0;
  ResetFailedLogin := fun _ _ => nothing tt;
|}.

Definition session_store : SessionRepository world := {|
  Session_Create := fun m => nothing m;
  FindBySessionID := fun _ => nothing None;
  ListActiveByUserID := fun _ => nothing [];
  LogoutBySessionID := fun _ _ => nothing tt;
  LogoutAllByUserID := fun _ _ => nothing tt;
|}.

Definition passwords : PasswordVerifier world := {|
  HashPassword := fun p => nothing ("hash:" +:+ p);
  VerifyPassword := fun p h => String.eqb ("hash:" +:+ p) h;
|}.

Definition totp_store : TOTPRepository world := {|
  TOTP_FindByUserID := fun _ => nothing (Some (totp.mk 1 7 "SECRET" 0 0 0));
  TOTP_Upsert := fun _ => nothing tt;
  TOTP_DeleteByUserID := fun _ => nothing tt;
|}.

Definition provider : TOTPProvider world := {|
  GenerateSecret := nothing "SECRET";
  ProvisioningURI := fun _ _ _ => "";
  VerifyCodeWithStep := fun _ code t => if String.eqb code "123456" then Some (Unix t / 30) else None;
|}.

Definition service : AuthnService.Service world :=
  NewService user_store (Build_UserAccounts world None None) session_store None (Some (NewRateLimitRepository (R := keyspace) key))
    (Some (NewMFARepository (R := keyspace) key))
    (Some (AuthnRegistry.NewAuthnRegistry [Some (password.method (password.NewMethod (Some user_store) (Some passwords)))]))
    (Some totp_store) (Some provider) (3600 * Second) (300 * Second) false
    (mkRateLimitPolicy (900 * Second) 20 3 3 (1800 * Second) 10).

Definition login (username password : string) : AuthenticateInput :=
  mkAuthenticateInput "" username password "" "/" "" "" "" "10.0.0.1" "curl".

Definition start : time := 1700000000 * Second.

(** [ms] milliseconds pass. *)
Definition wait (ms : Z) (w : world) : world := mkWorld (elapse ms (w_keys w)) (start + ms * Millisecond).

(** Two logins, a minute apart. *)
Definition challenge1 : world := (Authenticate service (login "alice" "pw") (mkWorld ∅ start)).2.
Definition done1 : world := (VerifyTOTP service "uuid" "123456" challenge1).2.
Definition challenge2 : world := (Authenticate service (login "alice" "pw") (wait 60000 done1)).2.



End AuthnSystemDemo.

Import Local AuthnSystemDemo.


(** The second challenge is what the minute changed, apart from time. *)
Lemma minute_apart user step :
  mark_traffic (step_mark AuthnSystemDemo.key user step) (0 + 60000) (w_keys AuthnSystemDemo.done1) (w_keys AuthnSystemDemo.challenge2).
Proof.
  apply mark_other with (k1 := elapse 60000 (w_keys AuthnSystemDemo.done1)); [apply mark_time; [apply mark_start | lia]|].
  set (saved k := default (mkEntry (RString "") None) (w_keys AuthnSystemDemo.challenge2 !! k)).
  assert (E : w_keys AuthnSystemDemo.challenge2 =
    <[MFAChallengeState AuthnSystemDemo.key "uuid" := saved (MFAChallengeState AuthnSystemDemo.key "uuid")]>
      (<[MFAChallenge AuthnSystemDemo.key "uuid" := saved (MFAChallenge AuthnSystemDemo.key "uuid")]>
        (elapse 60000 (w_keys AuthnSystemDemo.done1)))) by (vm_compute; reflexivity).
  destruct (mark_not_challenge AuthnSystemDemo.key user step "uuid"). rewrite E. by rewrite !lookup_insert_ne.
Qed.

Lemma demo_ports k : ports_leave k AuthnSystemDemo.service.
Proof.
  assert (Hn : forall A (a : A), leaves k (AuthnSystemDemo.nothing a)) by (intros A a o w r w' [= _ <-]; exact id).
  split; intros; try discriminate; first [apply Hn | intros o w r w' [= _ <-]; exact id | idtac].
  - injection H as <-. apply Hn.
Qed.

(** The two logins, a minute apart: the second code must be of another step. *)
Lemma totp_code_logs_in_once_witness :
  exists c1 c2 step1 step2, mce_UserID c1 <> mce_UserID c2 \/ step1 <> step2 :> Z.
Proof.
  destruct (VerifyTOTP AuthnSystemDemo.service "uuid" "123456" AuthnSystemDemo.challenge1) as [[r1|] w1] eqn:E1;
    [|vm_compute in E1; discriminate E1].
  destruct (VerifyTOTP AuthnSystemDemo.service "uuid" "123456" AuthnSystemDemo.challenge2) as [[r2|] w2] eqn:E2;
    [|vm_compute in E2; discriminate E2].
  destruct (totp_code_logs_in_once AuthnSystemDemo.key AuthnSystemDemo.service AuthnSystemDemo.service "uuid" "123456" "uuid" "123456"
    AuthnSystemDemo.challenge1 r1 w1 AuthnSystemDemo.challenge2 r2 w2 eq_refl eq_refl E1 E2)
    as (c1 & st1 & a & a' & c2 & st2 & b & b' & _ & _ & Hd).
  exists c1, c2, st1, st2. apply (Hd (0 + 60000)); [reflexivity|]. left. split; [apply demo_ports|]. split; [apply demo_ports|].
  assert (Hw : w1 = AuthnSystemDemo.done1) by (unfold AuthnSystemDemo.done1; rewrite E1; reflexivity).
  rewrite Hw. apply minute_apart.
Defined.
