(* ===== verification/Authz.v ===== *)
(** * application/authz: issuing authorization codes *)

From stdpp Require Import base tactics list gmap strings.
From Stdlib Require Import ZArith Lia.
From S2P Require Import Prelude GoStrings GoCrypto GoJson GoTime Errors Domain Ports Scopes StateMask TokenService TokenTheorems.

Record AuthorizationCommand := mkAuthorizationCommand {
  cmd_ResponseType : string;
  cmd_ClientID : string;
  cmd_RedirectURI : string;
  cmd_Scope : list string;
  cmd_State : string;
  cmd_UserID : string;
  cmd_CodeChallenge : string;
  cmd_CodeChallengeMethod : string;
  cmd_SessionID : string;
  cmd_Nonce : string;
}.

Record AuthorizationResult := mkAuthorizationResult {
  RequireLogin : bool;
  RequireConsent : bool;
  LoginRedirectURI : string;
  ConsentRedirectURI : string;
  res_RedirectURI : string;
  res_Code : string;
  res_State : string;
}.

Definition require_login : AuthorizationResult :=
  mkAuthorizationResult true false "/login" "" "" "" "".
Definition require_consent : AuthorizationResult :=
  mkAuthorizationResult false true "" "/consent" "" "" "".

Definition normalizeCodeChallengeMethod (method : string) : string :=
  let m := ToUpper (TrimSpace method) in
  if String.eqb m "" || String.eqb m "PLAIN" then "plain"
  else if String.eqb m "S256" then "S256"
  else TrimSpace method.

Definition validatePKCE (requirePKCE : bool) (challenge method : string) : option error :=
  if String.eqb challenge "" then
    if requirePKCE then Some (Authz AuthzErrInvalidCodeChallenge) else None
  else
    let m := normalizeCodeChallengeMethod method in
    if String.eqb m "plain" || String.eqb m "S256" then None
    else Some (Authz AuthzErrInvalidCodeChallenge).

Section Service.
Context {W : Type} `{!Runtime W}.

(** [codeMaker] is [uuid.NewString() + "." + uuid.NewString()] and [now] the
    wall clock, as [NewService] sets them. *)
Record AuthorizationService := NewService {
  clients : ClientRepository W;
  sessions : SessionRepository W;
  sessionCache : option (SessionCacheRepository W);
  codes : AuthorizationCodeRepository W;
  consents : option (ConsentRepository W);
  codeTTL : duration;
}.

Definition codeMaker : IO W string :=
  let* a := NewString in let* b := NewString in ret (a +:+ "." +:+ b).

(** The session built from a cache entry that is active and names a user. *)
Definition session_from_entry (entry : option SessionCacheEntry) (now : time)
    : option session.Model :=
  match entry with
  | None => None
  | Some e =>
      if IsSessionEntryActive entry now then
        match ParseInt (TrimSpace (sce_UserID e)) with
        | Some userID =>
            if 0 <? userID then
              Some (session.mk 0 (sce_SessionID e) userID (sce_Subject e) (sce_ACR e)
                      (sce_AMRJSON e) (sce_IPAddress e) (sce_UserAgent e)
                      (sce_AuthenticatedAt e) (sce_ExpiresAt e) None zero_time)
            else None
        | None => None
        end
      else None
  end.

Definition session_row_active (m : session.Model) (now : time) : bool :=
  match session.LoggedOutAt m with
  | Some _ => false
  | None => After (session.ExpiresAt m) now
  end.

Definition findActiveSession (s : AuthorizationService) (sessionID : string)
    : IO W (option session.Model) :=
  let* t := now in
  let* cached := match sessionCache s with
                 | None => ret None
                 | Some cache =>
                     let* entry := SessionCache_Get cache sessionID in
                     ret (session_from_entry entry t)
                 end in
  match cached with
  | Some m => ret (Some m)
  | None =>
      let* currentSession := FindBySessionID (sessions s) sessionID in
      match currentSession with
      | None => ret None
      | Some m => if session_row_active m t then ret (Some m) else ret None
      end
  end.

Definition Authorize (s : AuthorizationService) (command : option AuthorizationCommand)
    : IO W AuthorizationResult :=
  let* cmd := some_or command AuthzErrInvalidRequest in
  do* guard (negb (blank (cmd_ClientID cmd)) && negb (blank (cmd_RedirectURI cmd)))
        AuthzErrInvalidRequest in
  do* guard (String.eqb (TrimSpace (cmd_ResponseType cmd)) "code")
        AuthzErrUnsupportedResponseType in
  let* found := FindByClientID (clients s) (TrimSpace (cmd_ClientID cmd)) in
  let* c := some_or found AuthzErrInvalidClient in
  do* guard (String.eqb (client.Status c) "active") AuthzErrInvalidClient in
  do* guard (contains (client.GrantTypes c) GrantTypeAuthorizationCode) AuthzErrInvalidClient in
  do* guard (contains (client.RedirectURIs c) (cmd_RedirectURI cmd)) AuthzErrInvalidRedirectURI in
  let scopes := match normalizeScopes (cmd_Scope cmd) with [] => ["openid"] | l => l end in
  do* guard (allContained scopes (client.Scopes c)) AuthzErrInvalidScope in
  do* check (validatePKCE (client.RequirePKCE c) (TrimSpace (cmd_CodeChallenge cmd))
               (TrimSpace (cmd_CodeChallengeMethod cmd))) in
  let sessionID := TrimSpace (cmd_SessionID cmd) in
  if String.eqb sessionID "" then ret require_login else
  let* active := findActiveSession s sessionID in
  match active with
  | None => ret require_login
  | Some currentSession =>
      let* hasConsent :=
        match client.RequireConsent c, consents s with
        | true, Some repo =>
            HasActiveConsent repo (session.UserID currentSession) (client.ID c) scopes
        | _, _ => ret true
        end in
      if negb hasConsent then ret require_consent else
      let* t := now in
      let scopeJSON := MarshalStrings (Some scopes) in
      let sessionDBID := if 0 <? session.ID currentSession
                         then Some (session.ID currentSession) else None in
      let* code := codeMaker in
      let codeModel := authorization.mk 0 code (client.ID c) (session.UserID currentSession)
        sessionDBID (cmd_RedirectURI cmd) scopeJSON (TrimSpace (cmd_State cmd))
        (TrimSpace (cmd_Nonce cmd)) (TrimSpace (cmd_CodeChallenge cmd))
        (normalizeCodeChallengeMethod (cmd_CodeChallengeMethod cmd)) (Add t (codeTTL s))
        None zero_time in
      do* AuthorizationCode_Create (codes s) codeModel in
      ret (mkAuthorizationResult false false "" "" (cmd_RedirectURI cmd) code (cmd_State cmd))
  end.
End Service.

Arguments AuthorizationService W : clear implicits.

(** ** PKCE at issuance and at redemption *)

Lemma normalize_method_upper method :
  normalizeCodeChallengeMethod method = "plain" \/ normalizeCodeChallengeMethod method = "S256" ->
  ToUpper (normalizeCodeChallengeMethod method) = "PLAIN" \/
  ToUpper (normalizeCodeChallengeMethod method) = "S256".
Proof. intros [-> | ->]; [by left | by right]. Qed.

Lemma validatePKCE_None required challenge method :
  validatePKCE required challenge method = None ->
  (challenge = "" /\ required = false) \/
  (challenge <> "" /\ (normalizeCodeChallengeMethod method = "plain" \/
                       normalizeCodeChallengeMethod method = "S256")).
Proof.
  unfold validatePKCE. destruct (String.eqb_spec challenge "") as [->|].
  - destruct required; [discriminate | by left].
  - cbv zeta. destruct (_ || _) eqn:E; [|discriminate]. intros _. right. split; [done|].
    by rewrite orb_true_iff, !String.eqb_eq in E.
Qed.

Lemma normalize_method_trim method :
  normalizeCodeChallengeMethod (TrimSpace method) = normalizeCodeChallengeMethod method.
Proof. unfold normalizeCodeChallengeMethod. by rewrite !TrimSpace_idem. Qed.

(** The verifier that answers a challenge under the normalised method. *)
Definition answers (challenge method verifier : string) : Prop :=
  challenge <> "" -> verifier <> "" /\
  (if String.eqb (normalizeCodeChallengeMethod method) "S256"
   then s256_challenge verifier = challenge else verifier = challenge).

(** ** Theorems *)

Section Theorems.
Context {W : Type} `{!Runtime W}.
Implicit Types (s : AuthorizationService W) (w : W).

(** The scopes an authorization request asks for. *)
Definition requested_scopes (cmd : AuthorizationCommand) : list string :=
  match normalizeScopes (cmd_Scope cmd) with [] => ["openid"] | l => l end.

Lemma requested_scopes_normal cmd : normal_scopes (requested_scopes cmd).
Proof.
  unfold requested_scopes. pose proof (normal_normalizeScopes (cmd_Scope cmd)) as H.
  destruct (normalizeScopes (cmd_Scope cmd)); [|done].
  split; [apply NoDup_singleton | repeat constructor; done].
Qed.

(** Where the session that a code is issued for comes from. *)
Definition session_active s (sessionID : string) (m : session.Model) (t : time) : Prop :=
  (exists cache e w1 w2,
     sessionCache s = Some cache /\ SessionCache_Get cache sessionID w1 = (Ok (Some e), w2) /\
     t < sce_ExpiresAt e /\ session_usable e /\
     ParseInt (TrimSpace (sce_UserID e)) = Some (session.UserID m) /\ 0 < session.UserID m) \/
  (exists w1 w2,
     FindBySessionID (sessions s) sessionID w1 = (Ok (Some m), w2) /\
     session.LoggedOutAt m = None /\ t < session.ExpiresAt m).

Lemma session_from_entry_Some entry t m :
  session_from_entry entry t = Some m ->
  exists e, entry = Some e /\ t < sce_ExpiresAt e /\ session_usable e /\
    ParseInt (TrimSpace (sce_UserID e)) = Some (session.UserID m) /\ 0 < session.UserID m.
Proof.
  unfold session_from_entry. destruct entry as [e|]; [|done].
  destruct (IsSessionEntryActive (Some e) t) eqn:Ea; [|done].
  destruct (ParseInt _) as [uid|] eqn:Ep; [|done].
  destruct (Z.ltb_spec 0 uid); [|done]. intros [= <-].
  exists e. split; [done|].
  unfold IsSessionEntryActive in Ea. destruct (After _ _) eqn:Et; [|discriminate].
  apply After_spec in Et. split; [done|]. simpl in *. split; [|done].
  unfold session_usable, NormalizeSessionStateMask in *. cbv zeta in *.
  destruct (sce_StateMask e =? 0); simpl in Ea.
  - set (st := ToLower _) in *. clearbody st.
    repeat split; intros ->; discriminate Ea.
  - unfold IsSessionStateActive in Ea.
    rewrite (has_testbit _ 0), (has_testbit _ 1), (has_testbit _ 2) in Ea by lia.
    rewrite !andb_true_iff, !negb_true_iff in Ea. tauto.
Qed.

Lemma findActiveSession_Ok s id w m w' :
  findActiveSession s id w = (Ok (Some m), w') -> exists t, session_active s id m t.
Proof.
  unfold findActiveSession. intros H. run H as t w1 Ht. run H as cached w2 Hc. exists t.
  destruct cached as [m'|].
  - apply ret_Ok in H as [[= ->] <-]. destruct (sessionCache s) as [cache|] eqn:Es.
    2: { by apply ret_Ok in Hc as [? _]. }
    run Hc as e w3 He. apply ret_Ok in Hc as [Hm <-].
    apply session_from_entry_Some in Hm as (e' & -> & Hm). left. by exists cache, e', w1, w3.
  - run H as o w3 Hf. destruct o as [m'|]; [|by apply ret_Ok in H as [? _]].
    unfold session_row_active in H. destruct (session.LoggedOutAt m') eqn:El.
    { by apply ret_Ok in H as [? _]. }
    destruct (After _ _) eqn:Ea; [|by apply ret_Ok in H as [? _]].
    apply ret_Ok in H as [[= ->] <-]. apply After_spec in Ea. right. by exists w2, w3.
Qed.

Definition code_issued s (cmd : AuthorizationCommand) w r w' : Prop :=
  exists c m t t0 w1 w2 model,
    FindByClientID (clients s) (TrimSpace (cmd_ClientID cmd)) w = (Ok (Some c), w1) /\
    client.Status c = "active" /\ GrantTypeAuthorizationCode ∈ client.GrantTypes c /\
    cmd_RedirectURI cmd ∈ client.RedirectURIs c /\
    allContained (requested_scopes cmd) (client.Scopes c) = true /\
    session_active s (TrimSpace (cmd_SessionID cmd)) m t0 /\
    (forall repo, client.RequireConsent c = true -> consents s = Some repo ->
       exists w3 w4, HasActiveConsent repo (session.UserID m) (client.ID c)
                       (requested_scopes cmd) w3 = (Ok true, w4)) /\
    (exists stored, AuthorizationCode_Create (codes s) model w2 = (Ok stored, w')) /\
    authorization.Code model = res_Code r /\
    authorization.ClientDBID model = client.ID c /\
    authorization.UserID model = session.UserID m /\
    authorization.RedirectURI model = cmd_RedirectURI cmd /\
    authorization.ScopesJSON model = MarshalStrings (Some (requested_scopes cmd)) /\
    authorization.CodeChallenge model = TrimSpace (cmd_CodeChallenge cmd) /\
    authorization.CodeChallengeMethod model =
      normalizeCodeChallengeMethod (cmd_CodeChallengeMethod cmd) /\
    validatePKCE (client.RequirePKCE c) (authorization.CodeChallenge model)
      (cmd_CodeChallengeMethod cmd) = None /\
    authorization.ExpiresAt model = Add t (codeTTL s) /\ authorization.ConsumedAt model = None /\
    r = mkAuthorizationResult false false "" "" (cmd_RedirectURI cmd) (res_Code r) (cmd_State cmd).

(** An authorization request ends in one of three ways: the user is sent
    to log in, the user is sent to consent, or a code is issued.  A code is
    issued only for an active client allowed the grant, a redirect URI it
    registered, scopes of its registration, a session that is active now (in
    the cache or in the database), and, when the client requires consent and
    consents are kept, a consent that covers those scopes; the stored code is
    bound to that client, user, redirect URI, scopes and PKCE challenge, and
    expires codeTTL later. *)
Theorem authorize_cases s command w r w' :
  Authorize s command w = (Ok r, w') ->
  r = require_login \/ r = require_consent \/
  exists cmd, command = Some cmd /\ code_issued s cmd w r w'.
Proof.
  unfold Authorize. cbv zeta. intros H. run_some H as cmd Hcmd. run_guard H as Hb.
  run_guard H as Hrt. run H as o w1 Hc. run_some H as c Ho. subst o. run_guard H as Hact.
  run_guard H as Hgr. run_guard H as Hru. run_guard H as Hsc. run_check H as Hp.
  destruct (String.eqb (TrimSpace (cmd_SessionID cmd)) ""); [apply ret_Ok in H; naive_solver|].
  run H as active w2 Hact'. destruct active as [m|]; [|apply ret_Ok in H; naive_solver].
  apply findActiveSession_Ok in Hact' as [t0 Hm]. run H as has w3 Hcons.
  destruct has; simpl in H; [|apply ret_Ok in H; naive_solver].
  run H as t w4 Ht. run H as code w5 Hcode. run H as stored w6 Hst. apply ret_Ok in H as [<- <-].
  apply String.eqb_eq in Hact. apply contains_spec in Hgr, Hru.
  right. right. exists cmd. split; [done|]. exists c, m, t, t0, w1, w5. eexists.
  do 6 (split; [eassumption|]).
  split.
  { intros repo Hrc Hrepo. rewrite Hrc, Hrepo in Hcons. by exists w2, w3. }
  split; [by exists stored|]. simpl. do 7 (split; [done|]). split; [|done].
  rewrite <- Hp. unfold validatePKCE. by rewrite normalize_method_trim.
Qed.

(** The answer to a request that gets a code. *)
Lemma code_issued_result s cmd w r w' : code_issued s cmd w r w' ->
  res_RedirectURI r = cmd_RedirectURI cmd /\ res_State r = cmd_State cmd /\ RequireConsent r = false /\ RequireLogin r = false.
Proof.
  intros (c & m & t & t0 & w1 & w2 & model & Hi). assert (Hr : r = mkAuthorizationResult false false "" "" (cmd_RedirectURI cmd) (res_Code r) (cmd_State cmd)).
  { apply Hi. }
  by rewrite Hr.
Qed.
End Theorems.

(** C20. Issuance and redemption agree on PKCE: for a challenge and method
    the authorization endpoint accepted and stored in its normalised form,
    the token endpoint accepts exactly the verifiers that answer it, the
    verifier itself under plain and the one whose SHA-256 digest is the
    challenge under S256; a code stored without challenge needs none. *)
Theorem pkce_issue_redeem required code challenge method verifier :
  validatePKCE required challenge method = None ->
  authorization.CodeChallenge code = challenge ->
  authorization.CodeChallengeMethod code = normalizeCodeChallengeMethod method ->
  validateCodeVerifier code verifier required = None <-> answers challenge method verifier.
Proof.
  intros Hv Hc Hm. apply validatePKCE_None in Hv.
  assert (Hiff : pkce_verified code verifier required <-> answers challenge method verifier).
  { unfold pkce_verified, answers. cbv zeta. rewrite Hc, Hm.
    destruct Hv as [[-> ->]|[Hne [Hn|Hn]]]; rewrite ?Hn; simpl;
      [naive_solver | |]; (split; [intros [[? _]|(_ & ? & [[[?|?] ?]|[? ?]])]; done|];
      intros [? ?]; [done|right]; auto 10). }
  rewrite <- Hiff.
  destruct (validateCodeVerifier_cases code verifier required) as [[-> ?]|[-> ?]]; naive_solver.
Qed.

(** The scopes of an authorization survive the trip through the stored
    code: they are distinct, trimmed and nonempty, and decoding the JSON the
    code carries gives them back, in order, for ASCII scope names. *)
Theorem authorized_scopes_round_trip cmd :
  normal_scopes (requested_scopes cmd) /\
  (forallb ascii_string (requested_scopes cmd) = true ->
   mustDecodeScopeJSON (MarshalStrings (Some (requested_scopes cmd)))
   = Some (requested_scopes cmd)).
Proof.
  split; [apply requested_scopes_normal|]. intros H. by apply decode_marshal_scopes.
Qed.

(** ** Witnesses *)

Module AuthzDemo.
Definition live_session : session.Model :=
  session.mk 3 "sid-1" 42 "uuid-alice" "" "" "" "" 0 1000 None 0.

Definition session_repo : SessionRepository Z := {|
  Session_Create m := ret m;
  FindBySessionID sid := ret (if String.eqb sid "sid-1" then Some live_session else None);
  ListActiveByUserID _ := ret [Some live_session];
  LogoutBySessionID _ _ := ret tt;
  LogoutAllByUserID _ _ := ret tt;
|}.

Definition service : AuthorizationService Z :=
  NewService Demo.clients session_repo None Demo.authCodes None (10 * Minute).

Definition command : AuthorizationCommand :=
  mkAuthorizationCommand "code" "web" Demo.callback ["openid"; " profile "; "openid"] "st" ""
    (s256_challenge Demo.verifier) "s256" "sid-1" "n-1".
End AuthzDemo.

#[local] Existing Instance Demo.runtime.

Lemma authorize_cases_witness :
  exists r w', Authorize AuthzDemo.service (Some AuthzDemo.command) 100 = (Ok r, w') /\
    (r = require_login \/ r = require_consent \/
     exists cmd, Some AuthzDemo.command = Some cmd /\
       code_issued AuthzDemo.service cmd 100 r w').
Proof.
  provide_run (Authorize AuthzDemo.service (Some AuthzDemo.command) 100).
  assert (H : Authorize AuthzDemo.service (Some AuthzDemo.command) 100 = _) by run_is.
  split; [exact H | exact (authorize_cases _ _ _ _ _ H)].
Defined.

Lemma pkce_issue_redeem_witness :
  validateCodeVerifier Demo.code Demo.verifier true = None.
Proof.
  apply (pkce_issue_redeem true Demo.code "E9Melhoa2OwvFrEMTJguCHaoeK1t8URWbuGJSstw-cM" "s256");
    [reflexivity | reflexivity | reflexivity |].
  intros _. split; [discriminate | vm_compute; reflexivity].
Defined.

Lemma authorized_scopes_round_trip_witness :
  mustDecodeScopeJSON (MarshalStrings (Some (requested_scopes AuthzDemo.command)))
  = Some ["openid"; "profile"].
Proof. exact (proj2 (authorized_scopes_round_trip AuthzDemo.command) eq_refl). Defined.
