(* ===== verification/AuthorizeEndpoint.v ===== *)
(** * The authorization endpoint over HTTP (interfaces/http/handler/authorize_handler.go)

    GET /oauth2/authorize turns the query into a command for the
    authorization service and its result into a redirect: to the login or the
    consent page with the request kept in return_to, or to the client with
    the code, or with the error. *)

From stdpp Require Import base tactics list gmap strings numbers.
From Stdlib Require Import ZArith Lia Ascii.
From S2P Require Import Prelude GoStrings GoText GoCrypto GoPath GoUrl GoNetUrl HttpRedirects GoTime Errors Domain Scopes Ports TokenService TokenTheorems Authz.

(** dto/authorize.go *)
Record AuthorizeRequest := mkAuthorizeRequest {
  ResponseType : string;
  ClientID : string;
  RedirectURI : string;
  Scope : string;
  State : string;
  Nonce : string;
  CodeChallenge : string;
  CodeChallengeMethod : string;
}.

Definition scope_list (scope : string) : list string := if blank scope then [] else Fields scope.

(** The request: its URL and the cookie idp_session. *)
Record http_get := mkHttpGet { hg_URL : URL; hg_session : option string }.

(** What the browser gets. *)
Inductive http_answer :=
| Found (location : string)
| HttpError (status : Z) (text : string).

Definition oauth_error_code (e : error) : string :=
  match e with
  | Authz AuthzErrUnsupportedResponseType => "unsupported_response_type"
  | Authz AuthzErrInvalidScope => "invalid_scope"
  | Authz AuthzErrInvalidClient => "unauthorized_client"
  | _ => "invalid_request"
  end.

Definition authorize_request (u : URL) : AuthorizeRequest :=
  let get := Values_Get (Query u) in
  mkAuthorizeRequest (get "response_type") (get "client_id") (get "redirect_uri") (get "scope") (get "state") (get "nonce")
    (get "code_challenge") (get "code_challenge_method").

Definition authorize_command (req : AuthorizeRequest) (sessionID : string) : AuthorizationCommand :=
  mkAuthorizationCommand (ResponseType req) (ClientID req) (RedirectURI req) (scope_list (Scope req)) (State req) ""
    (CodeChallenge req) (CodeChallengeMethod req) sessionID (Nonce req).

Definition command_of (rq : http_get) : AuthorizationCommand :=
  authorize_command (authorize_request (hg_URL rq)) (default "" (hg_session rq)).

Section Handler.
Context {W : Type}.

Record AuthorizationHandler := NewAuthorizationHandler {
  authzService : option AuthorizationCommand -> IO W AuthorizationResult;
}.

Definition writeAuthorizeError (cmd : AuthorizationCommand) (e : error) : http_answer :=
  let refuse := HttpError 400 (error_text e) in
  if String.eqb (cmd_RedirectURI cmd) "" then refuse else
  match buildAuthorizeErrorRedirect (cmd_RedirectURI cmd) (oauth_error_code e) (error_text e) (cmd_State cmd) with
  | Some location => Found location
  | None => refuse
  end.

Definition ServeHTTP (h : AuthorizationHandler) (rq : http_get) : IO W http_answer :=
  let cmd := command_of rq in
  let* outcome := attempt (authzService h (Some cmd)) in
  ret match outcome with
      | Err e => writeAuthorizeError cmd e
      | Ok result =>
          if RequireConsent result then Found (withReturnTo (ConsentRedirectURI result) (RequestURI (hg_URL rq)))
          else if RequireLogin result then Found (withReturnTo (LoginRedirectURI result) (RequestURI (hg_URL rq)))
          else match buildAuthorizeSuccessRedirect (res_RedirectURI result) (res_Code result) (res_State result) with
               | Some location => Found location
               | None => HttpError 500 "failed to build redirect url"
               end
      end.
End Handler.
Arguments AuthorizationHandler W : clear implicits.

(** ** What the endpoint does with codes *)

Section Endpoint.
Context {W : Type} `{!Runtime W}.
Implicit Types (s : AuthorizationService W) (w : W).

Definition authorize_endpoint s : AuthorizationHandler W := NewAuthorizationHandler (Authorize s).

Lemma local_page page target : page = "/login" \/ page = "/consent" ->
  received (withReturnTo page target) = {["return_to" := [target]]} /\ request_base (withReturnTo page target) = page.
Proof.
  intros Hp. assert (Hu : exists u, Parse page = Some u /\ Query u = ∅ /\ front_String u = page).
  { destruct Hp as [-> | ->]; eexists; (split; [reflexivity|]); split; reflexivity. }
  destruct Hu as (u & Hu & Hq & Hf). unfold withReturnTo. rewrite Hu.
  assert (Hs : Values_Set "return_to" target (Query u) = {["return_to" := [target]]}) by by rewrite Hq.
  destruct (set_query_received page u (Values_Set "return_to" target) "return_to" target Hu) as [Hr Hb]; [| auto |..].
  - rewrite Hs. apply lookup_singleton_eq.
  - rewrite Hs. unfold few_params, pairs_of, sorted_keys. rewrite map_to_list_singleton. done.
  - by rewrite Hr, Hb, Hs, Hf.
Qed.

(** A code on its way to the client: the address is the registered redirect
    URI [uri], and what the client receives there is the parameters the URI
    came with, the code and the state. *)
Definition code_delivered (uri code state location : string) : Prop :=
  exists u, Parse uri = Some u /\ location = set_query (success_params code state) u /\
    (few_params (success_params code state (Query u)) ->
       request_base location = front_String u /\ received location = success_params code state (Query u) /\
       Values_Get (received location) "code" = code /\ (state <> "" -> Values_Get (received location) "state" = state)).

Lemma delivered uri code state location : buildAuthorizeSuccessRedirect uri code state = Some location ->
  code_delivered uri code state location.
Proof.
  unfold buildAuthorizeSuccessRedirect. destruct (Parse uri) as [u|] eqn:Hu; [|done]. intros [= <-]. exists u. do 2 (split; [done|]).
  intros Hl. destruct (set_query_received uri u _ "code" code Hu (success_code code state _)) as [Hr Hb]; [|done|].
  { intros m Hm. unfold success_params. auto. }
  split; [done|]. split; [done|]. rewrite Hr. unfold Values_Get. rewrite success_code. split; [done|].
  intros Hs. unfold success_params. rewrite lookup_set_if. by rewrite (proj2 (String.eqb_neq _ _) Hs).
Qed.

(** C8. The authorization endpoint sends the browser to one of four places:
    the login page or the consent page of this site, with exactly the address
    of the request to return to; the client, with a code; or, when the
    service refused, wherever the request asked to, with the error.  A code is
    issued only as [code_issued] says, for an active client and a
    redirect URI of its registration, and it is that very URI it is sent to,
    where the client receives the code and the state of the request unchanged
    next to the URI's own parameters. *)
Theorem authorize_endpoint_sound s rq location w w' :
  ServeHTTP (authorize_endpoint s) rq w = (Ok (Found location), w') ->
  let cmd := command_of rq in
  (exists page, (page = "/login" \/ page = "/consent") /\ request_base location = page /\
     received location = {["return_to" := [RequestURI (hg_URL rq)]]}) \/
  (exists r, code_issued s cmd w r w' /\ code_delivered (cmd_RedirectURI cmd) (res_Code r) (cmd_State cmd) location) \/
  (exists e, Authorize s (Some cmd) w = (Err e, w') /\
     buildAuthorizeErrorRedirect (cmd_RedirectURI cmd) (oauth_error_code e) (error_text e) (cmd_State cmd) = Some location).
Proof.
  unfold ServeHTTP. cbv zeta. intros Hx. run Hx as outcome w1 Ha. apply ret_Ok in Hx as [Hx <-]. apply attempt_inv in Ha.
  cbn [authorize_endpoint authzService] in Ha. destruct outcome as [r|e].
  - destruct (authorize_cases _ _ _ _ _ Ha) as [->|[->|(cmd & [= <-] & Hi)]].
    + left. injection Hx as <-. exists "/login". destruct (local_page "/login" (RequestURI (hg_URL rq)) (or_introl eq_refl)) as [Hr Hb]. auto.
    + left. injection Hx as <-. exists "/consent". destruct (local_page "/consent" (RequestURI (hg_URL rq)) (or_intror eq_refl)) as [Hr Hb]. auto.
    + right. left. exists r. split; [exact Hi|]. destruct (code_issued_result _ _ _ _ _ Hi) as (Hu & Hs & Hc & Hlog).
      rewrite Hc, Hlog, Hu, Hs in Hx. destruct (buildAuthorizeSuccessRedirect _ _ _) as [l|] eqn:Hb; [|discriminate Hx].
      injection Hx as ->. by apply delivered.
  - right. right. exists e. split; [exact Ha|]. unfold writeAuthorizeError in Hx. destruct (String.eqb _ ""); [discriminate Hx|].
    destruct (buildAuthorizeErrorRedirect _ _ _ _) as [l|]; [|discriminate Hx]. by injection Hx as ->.
Qed.
End Endpoint.

(** ** At work *)

#[local] Existing Instance Demo.runtime.

Module AuthorizeDemo.
Definition request (query : string) (session : option string) : http_get :=
  mkHttpGet (mkURL "" "" None "" "/oauth2/authorize" "" false false query "" "") session.

Definition query_of (redirect_uri : string) : string :=
  encode_values [("client_id", "web"); ("code_challenge", s256_challenge Demo.verifier); ("code_challenge_method", "S256");
    ("redirect_uri", redirect_uri); ("response_type", "code"); ("scope", "openid profile"); ("state", "st&1")].

Definition good : http_get := request (query_of Demo.callback) (Some "sid-1").
Definition anonymous : http_get := request (query_of Demo.callback) None.
Definition forged : http_get := request (query_of "https://evil.example/cb") None.

Definition answer_to (rq : http_get) : result error http_answer := (ServeHTTP (authorize_endpoint AuthzDemo.service) rq 100).1.
End AuthorizeDemo.
Import AuthorizeDemo.

(** A redirect URI the client never registered is redirected to all the
    same, without a session, and with an error instead of a code. *)
Example unregistered_uri_redirected : answer_to forged =
  Ok (Found "https://evil.example/cb?error=invalid_request&error_description=invalid+redirect+uri&state=st%261").
Proof. vm_compute. reflexivity. Qed.

Lemma authorize_endpoint_sound_witness :
  exists location w', ServeHTTP (authorize_endpoint AuthzDemo.service) good 100 = (Ok (Found location), w') /\
    exists r, code_issued AuthzDemo.service (command_of good) 100 r w' /\
      code_delivered Demo.callback (res_Code r) "st&1" location.
Proof.
  assert (Hrun : exists location w', ServeHTTP (authorize_endpoint AuthzDemo.service) good 100 = (Ok (Found location), w') /\
    Values_Get (received location) "code" <> "").
  { eexists _, _. split; [vm_compute; reflexivity | vm_compute; discriminate]. }
  destruct Hrun as (location & w' & Hrun & Hcode). exists location, w'. split; [exact Hrun|].
  destruct (authorize_endpoint_sound _ _ _ _ _ Hrun) as [(page & _ & _ & Hr)|[Hi|(e & Ha & _)]].
  - exfalso. apply Hcode. rewrite Hr. reflexivity.
  - exact Hi.
  - exfalso. assert (Hok : exists r w2, Authorize AuthzDemo.service (Some (command_of good)) 100 = (Ok r, w2)) by (eexists _, _; vm_compute; reflexivity).
    destruct Hok as (r & w2 & Hok). congruence.
Defined.
