(* ===== verification/ConsentService.v ===== *)
(** * The consent page (application/consent)

    The authorization endpoint sends the browser here with its own address in
    return_to.  The service reads client, redirect URI and scopes back from
    it, checks them and the session, and records the decision. *)

From stdpp Require Import base tactics list gmap strings numbers.
From Stdlib Require Import ZArith Lia Ascii.
From S2P Require Import Prelude GoStrings GoText GoCrypto GoPath GoUrl GoNetUrl HttpRedirects GoTime Errors Domain Scopes Ports StateMask TokenService TokenTheorems Authz AuthorizeEndpoint.

Record authorizeReturnTo := mkAuthorizeReturnTo {
  rt_clientID : string;
  rt_redirectURI : string;
  rt_scopes : list string;
  rt_state : string;
}.

(** [None] for ErrInvalidReturnTo. *)
Definition parseAuthorizeReturnTo (returnTo : string) : option authorizeReturnTo :=
  let returnTo := TrimSpace returnTo in
  if String.eqb returnTo "" then None else
  match Parse returnTo with
  | None => None
  | Some u =>
      if negb (String.eqb (Path u) "/oauth2/authorize") then None else
      let get key := TrimSpace (Values_Get (Query u) key) in
      let clientID := get "client_id" in
      let redirectURI := get "redirect_uri" in
      if String.eqb clientID "" || String.eqb redirectURI "" then None else
      let scopes := match normalizeScopes (Fields (get "scope")) with [] => ["openid"] | l => l end in
      Some (mkAuthorizeReturnTo clientID redirectURI scopes (get "state"))
  end.

Record PrepareResult := mkPrepareResult { pr_ClientID : string; pr_ClientName : string; pr_Scopes : list string; pr_ReturnTo : string }.

Section Service.
Context {W : Type} `{!Runtime W}.

Record Service := NewService {
  clients : ClientRepository W;
  sessions : SessionRepository W;
  sessionCache : option (SessionCacheRepository W);
  consents : option (ConsentRepository W);
}.

(** The checks on the client, the same on both ways to the session. *)
Definition consent_client (s : Service) (parsed : authorizeReturnTo) : IO W client.Model :=
  let* found := FindByClientID (clients s) (rt_clientID parsed) in
  let* c := some_or found ConsentErrInvalidClient in
  do* guard (String.eqb (client.Status c) "active") ConsentErrInvalidClient in
  do* guard (contains (client.RedirectURIs c) (rt_redirectURI parsed)) ConsentErrInvalidReturnTo in
  do* guard (allContained (rt_scopes parsed) (client.Scopes c)) ConsentErrInvalidScope in
  ret c.

(** The user of the cached session; an entry that is there but not active is
    refused at once. *)
Definition cached_session_user (s : Service) (sessionID : string) : IO W (option Z) :=
  match sessionCache s with
  | None => ret None
  | Some cache =>
      let* entry := SessionCache_Get cache sessionID in
      match entry with
      | None => ret None
      | Some e =>
          let* t := now in
          do* guard (IsSessionEntryActive entry t) ConsentErrLoginRequired in
          ret (match ParseInt (sce_UserID e) with Some userID => if 0 <? userID then Some userID else None | None => None end)
      end
  end.

Definition stored_session_user (s : Service) (sessionID : string) : IO W Z :=
  let* found := FindBySessionID (sessions s) sessionID in
  let* m := some_or found ConsentErrLoginRequired in
  do* guard (match session.LoggedOutAt m with None => true | Some _ => false end) ConsentErrLoginRequired in
  let* t := now in
  do* guard (After (session.ExpiresAt m) t) ConsentErrLoginRequired in
  ret (session.UserID m).

(** The user of the session, the client, and what was asked for. *)
Definition loadContext (s : Service) (returnTo sessionID : string) : IO W (authorizeReturnTo * Z * client.Model) :=
  let* parsed := some_or (parseAuthorizeReturnTo returnTo) ConsentErrInvalidReturnTo in
  let sessionID := TrimSpace sessionID in
  do* guard (negb (String.eqb sessionID "")) ConsentErrLoginRequired in
  let* cached := cached_session_user s sessionID in
  let* userID := match cached with Some userID => ret userID | None => stored_session_user s sessionID end in
  let* c := consent_client s parsed in
  ret (parsed, userID, c).

Definition Prepare (s : Service) (returnTo sessionID : string) : IO W PrepareResult :=
  let* context := loadContext s returnTo sessionID in
  let '(parsed, _, c) := context in
  ret (mkPrepareResult (client.ClientID c) (client.ClientName c) (rt_scopes parsed) returnTo).

(** The result is [RedirectURI]. *)
Definition Decide (s : Service) (returnTo sessionID action : string) : IO W string :=
  let action := ToLower (TrimSpace action) in
  do* guard (String.eqb action "accept" || String.eqb action "deny") ConsentErrInvalidAction in
  let* context := loadContext s returnTo sessionID in
  let '(parsed, userID, c) := context in
  if String.eqb action "deny" then
    some_or (buildDenyRedirect (rt_redirectURI parsed) (rt_state parsed)) ConsentErrInvalidReturnTo
  else
    let* consents := some_or (consents s) ConsentErrInvalidClient in
    let* t := now in
    do* UpsertActiveConsent consents userID (client.ID c) (rt_scopes parsed) t in
    ret returnTo.
End Service.
Arguments Service W : clear implicits.

(** ** Decisions *)

Section Decisions.
Context {W : Type} `{!Runtime W}.
Implicit Types (s : Service W) (w : W).

(** [userID] is logged in under [sessionID]: in the cache, or, when the
    cache has no entry for it or one without a user, in the database. *)
Inductive logged_in s (sessionID : string) (userID : Z) : Prop :=
| in_cache cache e w1 w2 t : sessionCache s = Some cache -> SessionCache_Get cache sessionID w1 = (Ok (Some e), w2) ->
    t < sce_ExpiresAt e -> session_usable e -> ParseInt (sce_UserID e) = Some userID -> 0 < userID -> logged_in s sessionID userID
| in_database m w1 w2 t : FindBySessionID (sessions s) sessionID w1 = (Ok (Some m), w2) ->
    session.LoggedOutAt m = None -> t < session.ExpiresAt m -> session.UserID m = userID -> logged_in s sessionID userID.

(** What the request asks for is what the client may have. *)
Definition allowed_request (c : client.Model) (parsed : authorizeReturnTo) : Prop :=
  client.Status c = "active" /\ rt_redirectURI parsed ∈ client.RedirectURIs c /\
  allContained (rt_scopes parsed) (client.Scopes c) = true.

Lemma consent_context_Ok s returnTo sessionID parsed userID c w w' :
  loadContext s returnTo sessionID w = (Ok (parsed, userID, c), w') ->
  parseAuthorizeReturnTo returnTo = Some parsed /\ logged_in s (TrimSpace sessionID) userID /\ allowed_request c parsed /\
  exists w1, FindByClientID (clients s) (rt_clientID parsed) w1 = (Ok (Some c), w').
Proof.
  unfold loadContext. intros Hx. run Hx as p w1 Hp. apply some_or_Ok in Hp as [Hp <-]. run_guard Hx as Hne.
  run Hx as cached w2 Hc. run Hx as user w3 Hu. run Hx as c' w4 Hcl. apply ret_Ok in Hx as [Hx <-]. injection Hx as -> -> ->.
  split; [done|]. split.
  - destruct cached as [id|].
    + apply ret_Ok in Hu as [-> <-]. unfold cached_session_user in Hc. destruct (sessionCache s) as [cache|] eqn:Ecache; [|by apply ret_Ok in Hc as [? _]].
      run Hc as entry w5 Hget. destruct entry as [e|]; [|by apply ret_Ok in Hc as [? _]]. run Hc as t w6 Ht. run_guard Hc as Hact.
      apply ret_Ok in Hc as [Hid _]. apply session_entry_active in Hact as [Hexp Hus].
      destruct (ParseInt (sce_UserID e)) as [z|] eqn:Ez; [|done]. destruct (Z.ltb_spec 0 z) as [Hz|]; [|done]. injection Hid as ->.
      by eapply in_cache.
    + unfold stored_session_user in Hu. run Hu as found w5 Hf. run_some Hu as m Hm. subst found. run_guard Hu as Hlog. run Hu as t w6 Ht.
      run_guard Hu as Hexp. apply ret_Ok in Hu as [Hid _]. apply After_spec in Hexp.
      eapply in_database; [exact Hf | by destruct (session.LoggedOutAt m) | exact Hexp | exact Hid].
  - unfold consent_client in Hcl. run Hcl as found w5 Hf. run_some Hcl as c1 Hc1. subst found. run_guard Hcl as Hact. run_guard Hcl as Hred.
    run_guard Hcl as Hsc. apply ret_Ok in Hcl as [<- <-]. apply String.eqb_eq in Hact. apply contains_spec in Hred.
    split; [done|]. by exists w3.
Qed.

(** What a decision does. *)
Inductive decided s (returnTo action : string) (parsed : authorizeReturnTo) (userID : Z) (c : client.Model) (w : W) (uri : string) (w' : W) : Prop :=
| granted repo t w1 : action = "accept" -> consents s = Some repo ->
    UpsertActiveConsent repo userID (client.ID c) (rt_scopes parsed) t w1 = (Ok tt, w') -> uri = returnTo ->
    decided s returnTo action parsed userID c w uri w'
| refused : action = "deny" -> buildDenyRedirect (rt_redirectURI parsed) (rt_state parsed) = Some uri ->
    (exists w1, FindByClientID (clients s) (rt_clientID parsed) w1 = (Ok (Some c), w')) ->
    decided s returnTo action parsed userID c w uri w'.

Lemma Decide_cases s returnTo sessionID action w uri w' :
  Decide s returnTo sessionID action w = (Ok uri, w') ->
  exists parsed userID c, parseAuthorizeReturnTo returnTo = Some parsed /\ logged_in s (TrimSpace sessionID) userID /\
    allowed_request c parsed /\ (exists w1 w2, FindByClientID (clients s) (rt_clientID parsed) w1 = (Ok (Some c), w2)) /\
    decided s returnTo (ToLower (TrimSpace action)) parsed userID c w uri w'.
Proof.
  unfold Decide. cbv zeta. intros Hx. run_guard Hx as Hact. run Hx as context w1 Hl. destruct context as [[parsed userID] c].
  destruct (consent_context_Ok _ _ _ _ _ _ _ _ Hl) as (Hp & Hlog & Hall & w0 & Hf). exists parsed, userID, c. do 3 (split; [done|]). split; [by eexists _, _|].
  destruct (String.eqb_spec (ToLower (TrimSpace action)) "deny") as [Hd|Hd].
  - apply some_or_Ok in Hx as [Hb <-]. eapply refused; [done | done | by exists w0].
  - rewrite orb_false_r in Hact. apply String.eqb_eq in Hact. run_some Hx as repo Hr. run Hx as t w2 Ht. run Hx as u w3 Hup. destruct u.
    apply ret_Ok in Hx as [<- <-]. by eapply granted.
Qed.
End Decisions.

(** ** The consent page and the authorization endpoint agree *)

(** The target of a request to the authorization endpoint: visible ASCII with
    a query, and no spaces around its scope. *)
Record authorize_target (u : URL) : Prop := {
  at_opaque : Opaque u = "";
  at_path : Path u = "/oauth2/authorize" /\ RawPath u = "";
  at_query : RawQuery u <> "" /\ forall_string (fun a => visible a && negb (Ascii.eqb a "#")) (RawQuery u) = true;
  at_scope : TrimSpace (Values_Get (Query u) "scope") = Values_Get (Query u) "scope";
}.

Lemma RequestURI_target u : authorize_target u -> RequestURI u = "/oauth2/authorize" +:+ String "?" (RawQuery u).
Proof.
  intros [Ho [Hp Hr] [Hq _] _]. unfold RequestURI, EscapedPath. rewrite Ho, Hp, Hr. cbn [String.eqb negb andb].
  rewrite (proj2 (String.eqb_neq _ _) Hq), orb_true_r. reflexivity.
Qed.

Lemma visible_not_ctl a : visible a = true -> negb (is_ctl a) = true.
Proof. unfold visible, is_ctl. rewrite andb_true_iff, !Z.leb_le. intros [??]. apply negb_true_iff, orb_false_iff. rewrite Z.ltb_ge, Z.eqb_neq. lia. Qed.

Lemma Parse_target q : forall_string (fun a => visible a && negb (Ascii.eqb a "#")) q = true -> q <> "" ->
  exists u, Parse ("/oauth2/authorize" +:+ String "?" q) = Some u /\ Path u = "/oauth2/authorize" /\ RawQuery u = q.
Proof.
  intros Hq Hne. assert (Hnc : forall_string (fun a => negb (is_ctl a)) q = true).
  { eapply forall_string_impl, Hq. intros a [Ha _]%andb_true_iff. by apply visible_not_ctl. }
  assert (Hnh : forall_string (fun c => negb (Ascii.eqb c "#")) q = true).
  { eapply forall_string_impl, Hq. by intros a [_ Ha]%andb_true_iff. }
  unfold Parse. rewrite (proj2 (cut_at_None "#" ("/oauth2/authorize" +:+ String "?" q))) by (rewrite forall_string_app; cbn [forall_string]; by rewrite Hnh).
  assert (Hp : parse ("/oauth2/authorize" +:+ String "?" q) false = Some (mkURL "" "" None "" "/oauth2/authorize" "" false false q "" "")).
  { unfold parse. rewrite forall_string_app. cbn [forall_string]. rewrite Hnc.
    assert (Hg : getScheme ("/oauth2/authorize" +:+ String "?" q) = Some ("", "/oauth2/authorize" +:+ String "?" q)) by reflexivity.
    rewrite Hg. unfold cut_query. rewrite cut_at_app by reflexivity. rewrite (proj2 (String.eqb_neq _ _) Hne). reflexivity. }
  rewrite Hp. by eexists.
Qed.

(** Read from the address of the request, the request is what the
    authorization endpoint takes it for. *)
Lemma consent_reads_request rq : authorize_target (hg_URL rq) -> let cmd := command_of rq in
  parseAuthorizeReturnTo (RequestURI (hg_URL rq)) =
  if blank (cmd_ClientID cmd) || blank (cmd_RedirectURI cmd) then None
  else Some (mkAuthorizeReturnTo (TrimSpace (cmd_ClientID cmd)) (TrimSpace (cmd_RedirectURI cmd)) (requested_scopes cmd) (TrimSpace (cmd_State cmd))).
Proof.
  intros Ht. cbv zeta. rewrite (RequestURI_target _ Ht). destruct Ht as [_ _ [Hne Hq] Hs].
  destruct (Parse_target _ Hq Hne) as (u & Hu & Hp & Hr). unfold parseAuthorizeReturnTo. cbv zeta.
  rewrite TrimSpace_visible.
  2: { rewrite forall_string_app. cbn [forall_string]. rewrite andb_true_iff. split; [reflexivity|]. apply andb_true_iff. split; [reflexivity|].
       eapply forall_string_impl, Hq. by intros a [Ha _]%andb_true_iff. }
  assert (Hnb : String.eqb ("/oauth2/authorize" +:+ String "?" (RawQuery (hg_URL rq))) "" = false) by reflexivity.
  rewrite Hnb, Hu, Hp, String.eqb_refl. cbn [negb]. unfold Query. rewrite Hr. fold (Query (hg_URL rq)).
  rewrite Hs. unfold command_of, authorize_command, authorize_request. cbn [cmd_ClientID cmd_RedirectURI cmd_Scope cmd_State ClientID RedirectURI Scope State].
  unfold blank. destruct (_ || _); [done|]. do 2 f_equal. unfold requested_scopes, scope_list, blank. cbn [cmd_Scope Scope].
  rewrite Hs. destruct (String.eqb_spec (Values_Get (Query (hg_URL rq)) "scope") "") as [->|]; [reflexivity | done].
Qed.

Section Agreement.
Context {W : Type} `{!Runtime W}.
Implicit Types (s : Service W) (w : W).

(** The service over another store of consents *)
Definition with_consents (store : option (ConsentRepository W)) s : Service W := NewService (clients s) (sessions s) (sessionCache s) store.

(** C9. What the user consents to is what the authorization endpoint asks
    for: a decision on the address of an authorization request is made only
    by a user who is logged in, for the active client and a redirect URI of
    its registration.  Accepting records, for this very user and client,
    exactly the scopes [Authorize] will look for, and leads back to the
    request.  Denying, whatever comes of it, does not use the store of
    consents: the outcome and the world after it are the same with any other
    store or none, and after a denial that succeeds the last thing done was to
    look the client up; it leads to the redirect URI, where the client
    receives access_denied and the state of the request. *)
Theorem consent_grants_request s rq sessionID action w :
  authorize_target (hg_URL rq) ->
  (ToLower (TrimSpace action) = "deny" -> forall store,
     Decide (with_consents store s) (RequestURI (hg_URL rq)) sessionID action w = Decide s (RequestURI (hg_URL rq)) sessionID action w) /\
  forall uri w', Decide s (RequestURI (hg_URL rq)) sessionID action w = (Ok uri, w') ->
  let cmd := command_of rq in
  exists userID c, logged_in s (TrimSpace sessionID) userID /\
    (exists w1 w2, FindByClientID (clients s) (TrimSpace (cmd_ClientID cmd)) w1 = (Ok (Some c), w2)) /\
    client.Status c = "active" /\ TrimSpace (cmd_RedirectURI cmd) ∈ client.RedirectURIs c /\
    allContained (requested_scopes cmd) (client.Scopes c) = true /\
    ((ToLower (TrimSpace action) = "accept" /\ uri = RequestURI (hg_URL rq) /\
      exists repo t w1, consents s = Some repo /\ UpsertActiveConsent repo userID (client.ID c) (requested_scopes cmd) t w1 = (Ok tt, w')) \/
     (ToLower (TrimSpace action) = "deny" /\
      (exists w1, FindByClientID (clients s) (TrimSpace (cmd_ClientID cmd)) w1 = (Ok (Some c), w')) /\
      exists u, Parse (TrimSpace (cmd_RedirectURI cmd)) = Some u /\
        let m := set_if "state" (TrimSpace (cmd_State cmd)) (Values_Set "error" "access_denied" (Query u)) in
        (few_params m -> received uri = m /\ request_base uri = front_String u))).
Proof.
  intros Ht. split.
  { intros Ha store. unfold Decide. cbv zeta. rewrite Ha. reflexivity. }
  intros uri w' Hx. cbv zeta. apply Decide_cases in Hx as (parsed & userID & c & Hp & Hlog & (Hact & Hred & Hsc) & Hf & Hd).
  rewrite (consent_reads_request _ Ht) in Hp. destruct (_ || _); [done|]. injection Hp as <-. cbn [rt_clientID rt_redirectURI rt_scopes rt_state] in *.
  exists userID, c. do 5 (split; [done|]). inversion Hd as [repo t w1 Ha Hr Hu ->|Ha Hb Hlast]; subst; cbn [rt_clientID rt_redirectURI rt_scopes rt_state] in *.
  - left. do 2 (split; [done|]). by exists repo, t, w1.
  - right. do 2 (split; [done|]). unfold buildDenyRedirect in Hb. destruct (Parse _) as [u|] eqn:Hu; [|done]. injection Hb as <-.
    exists u. split; [done|]. cbv zeta. intros Hl.
    apply (set_query_received _ u (fun q => set_if "state" (TrimSpace (cmd_State (command_of rq))) (Values_Set "error" "access_denied" q)) "error" "access_denied" Hu);
      [|auto | exact Hl]. rewrite lookup_set_if. apply lookup_insert_eq.
Qed.
End Agreement.

(** ** At work *)

#[local] Existing Instance Demo.runtime.

Module ConsentDemo.
Definition consent_repo : ConsentRepository Z := {|
  HasActiveConsent := fun _ _ _ => ret false;
  UpsertActiveConsent := fun _ _ _ _ => ret tt;
|}.
Definition service : Service Z := NewService Demo.clients AuthzDemo.session_repo None (Some consent_repo).
End ConsentDemo.
Import AuthorizeDemo.

Lemma consent_grants_request_witness :
  exists uri w', Decide ConsentDemo.service (RequestURI (hg_URL good)) "sid-1" " Accept " 100 = (Ok uri, w') /\ uri = RequestURI (hg_URL good).
Proof.
  assert (Hrun : exists uri w', Decide ConsentDemo.service (RequestURI (hg_URL good)) "sid-1" " Accept " 100 = (Ok uri, w')) by (eexists _, _; vm_compute; reflexivity).
  destruct Hrun as (uri & w' & Hrun). exists uri, w'. split; [exact Hrun|].
  assert (Ht : authorize_target (hg_URL good)) by (split; [reflexivity | split; reflexivity | split; [discriminate | vm_compute; reflexivity] | vm_compute; reflexivity]).
  destruct (proj2 (consent_grants_request ConsentDemo.service good "sid-1" " Accept " 100 Ht) uri w' Hrun) as (userID & c & _ & _ & _ & _ & _ & [(_ & Hu & _)|(Ha & _)]).
  - exact Hu.
  - discriminate Ha.
Defined.

(** The address is not tied to this site: after accepting, the browser goes
    wherever return_to said. *)
Example consent_leads_anywhere :
  (Decide ConsentDemo.service ("https://evil.example" +:+ RequestURI (hg_URL good)) "sid-1" "accept" 100).1 =
  Ok ("https://evil.example" +:+ RequestURI (hg_URL good)).
Proof. vm_compute. reflexivity. Qed.
