(* ===== verification/SessionService.v ===== *)
(** * application/session: logging out *)

From stdpp Require Import base tactics list gmap sets strings.
From Stdlib Require Import ZArith Lia.
From S2P Require Import Prelude GoStrings GoTime Errors Domain Ports.

Record LogoutResult := mkLogoutResult { lo_SessionID : string; lo_UserID : string }.

Record LogoutAllResult := mkLogoutAllResult {
  la_SessionID : string;
  la_UserID : string;
  la_RevokedSessionCount : Z;
  la_RevokedAccessTokens : Z;
  la_RevokedRefreshTokens : Z;
}.

Definition no_logout : LogoutResult := mkLogoutResult "" "".
Definition no_logout_all (sessionID : string) : LogoutAllResult :=
  mkLogoutAllResult sessionID "" 0 0 0.

Definition lenZ {A} (l : list A) : Z := Z.of_nat (List.length l).

(** The trimmed, nonempty identifiers not seen yet, in order. *)
Fixpoint add_ids (ids : list string) (seen : gset string) : list string * gset string :=
  match ids with
  | [] => ([], seen)
  | i :: rest =>
      let i := TrimSpace i in
      if String.eqb i "" then add_ids rest seen
      else if decide (i ∈ seen) then add_ids rest seen
      else let '(out, seen') := add_ids rest ({[ i ]} ∪ seen) in (i :: out, seen')
  end.

(** The identifiers of the non-nil rows. *)
Fixpoint session_ids (l : list (option session.Model)) : list string :=
  match l with
  | [] => []
  | Some m :: rest => session.SessionID m :: session_ids rest
  | None :: rest => session_ids rest
  end.

Section Service.
Context {W : Type} `{!Runtime W}.

Record Service := NewService {
  sessions : SessionRepository W;
  sessionCache : option (SessionCacheRepository W);
  tokens : option (tokenRevoker W);
  tokenCache : option (TokenCacheRepository W);
}.

Definition delete_cached (s : Service) (sessionID : string) : IO W unit :=
  when_some (sessionCache s) (fun cache => SessionCache_Delete cache sessionID).

Definition Logout (s : Service) (SessionID : string) : IO W LogoutResult :=
  let sessionID := TrimSpace SessionID in
  if String.eqb sessionID "" then ret no_logout else
  let* sessionModel := FindBySessionID (sessions s) sessionID in
  match sessionModel with
  | None => do* delete_cached s sessionID in ret no_logout
  | Some m =>
      do* match session.LoggedOutAt m with
          | Some _ => ret tt
          | None => let* t := now in LogoutBySessionID (sessions s) sessionID t
          end in
      do* delete_cached s sessionID in
      ret (mkLogoutResult sessionID (FormatInt (session.UserID m)))
  end.

Definition collectUserSessionIDs (s : Service) (userID : Z)
    (activeSessions : list (option session.Model)) : IO W (list string) :=
  let '(ids, seen) := add_ids (session_ids activeSessions) ∅ in
  match sessionCache s with
  | None => ret ids
  | Some cache =>
      let* cachedIDs := ListUserSessionIDs cache (FormatInt userID) in
      ret (ids ++ fst (add_ids cachedIDs seen))
  end.

(** The rest of the lifetime of each token, written to the cache's revocation
    list; tokens with none left are skipped. *)
Definition revoke_one (revoke : string -> duration -> IO W unit) (sha : string)
    (expiresAt revokedAt : time) : IO W unit :=
  let ttl := Sub expiresAt revokedAt in
  if ttl <=? 0 then ret tt else revoke sha ttl.

Definition revokeUserTokens (s : Service) (userID : Z) (revokedAt : time) : IO W (Z * Z) :=
  match tokens s with
  | None => ret (0, 0)
  | Some repo =>
      let* accessTokens := ListActiveAccessTokensByUserID repo userID in
      let* refreshTokens := ListActiveRefreshTokensByUserID repo userID in
      do* RevokeAccessTokensByUserID repo userID revokedAt in
      do* RevokeRefreshTokensByUserID repo userID revokedAt in
      do* when_some (tokenCache s) (fun cache =>
            do* mapM_ (fun token => when_some token (fun t =>
                  revoke_one (RevokeAccessToken cache) (access.TokenSHA256 t)
                    (access.ExpiresAt t) revokedAt)) accessTokens in
            mapM_ (fun token => when_some token (fun t =>
                  revoke_one (RevokeRefreshToken cache) (refresh.TokenSHA256 t)
                    (refresh.ExpiresAt t) revokedAt)) refreshTokens) in
      ret (lenZ accessTokens, lenZ refreshTokens)
  end.

Definition logoutUser (s : Service) (userID : Z) (sessionID : string) : IO W LogoutAllResult :=
  let* t := now in
  let* activeSessions := ListActiveByUserID (sessions s) userID in
  do* LogoutAllByUserID (sessions s) userID t in
  let* sessionIDs := collectUserSessionIDs s userID activeSessions in
  do* mapM_ (fun candidate => if String.eqb candidate "" then ret tt
                              else delete_cached s candidate) sessionIDs in
  let* counts := revokeUserTokens s userID t in
  ret (mkLogoutAllResult sessionID (FormatInt userID) (lenZ sessionIDs)
         (fst counts) (snd counts)).

Definition LogoutAll (s : Service) (SessionID : string) : IO W LogoutAllResult :=
  let sessionID := TrimSpace SessionID in
  if String.eqb sessionID "" then ret (no_logout_all "") else
  let* currentSession := FindBySessionID (sessions s) sessionID in
  match currentSession with
  | None => do* delete_cached s sessionID in ret (no_logout_all sessionID)
  | Some m => logoutUser s (session.UserID m) sessionID
  end.

Definition AdminLogoutUser (s : Service) (UserID : Z) : IO W LogoutAllResult :=
  if UserID <=? 0 then ret (no_logout_all "") else logoutUser s UserID "".
End Service.

Arguments Service W : clear implicits.

(** ** The identifiers collected *)

Lemma add_ids_spec ids seen out seen' :
  add_ids ids seen = (out, seen') ->
  NoDup out /\
  (forall x, x ∈ out <-> x ∉ seen /\ x <> "" /\ exists y, y ∈ ids /\ TrimSpace y = x) /\
  (forall x, x ∈ seen' <-> x ∈ seen \/ x ∈ out).
Proof.
  revert seen out seen'. induction ids as [|i rest IH]; intros seen out seen'; simpl.
  - intros [= <- <-]. split; [constructor|]. split; intros x; [|set_solver].
    split; [by intros ?%elem_of_nil | intros (_ & _ & y & ?%elem_of_nil & _); done].
  - destruct (String.eqb_spec (TrimSpace i) "") as [He|Hne].
    { intros H. destruct (IH _ _ _ H) as (Hnd & Hout & Hseen).
      split; [done|]. split; [|done]. intros x. rewrite Hout. setoid_rewrite elem_of_cons.
      naive_solver. }
    case_decide as Hin.
    { intros H. destruct (IH _ _ _ H) as (Hnd & Hout & Hseen).
      split; [done|]. split; [|done]. intros x. rewrite Hout. setoid_rewrite elem_of_cons.
      naive_solver. }
    destruct (add_ids rest ({[ TrimSpace i ]} ∪ seen)) as [o sn] eqn:E. intros [= <- <-].
    destruct (IH _ _ _ E) as (Hnd & Hout & Hseen). split; [|split].
    + constructor; [rewrite Hout; set_solver | done].
    + intros x. rewrite elem_of_cons, Hout, not_elem_of_union, not_elem_of_singleton.
      setoid_rewrite elem_of_cons. destruct (decide (x = TrimSpace i)); naive_solver.
    + intros x. rewrite Hseen, elem_of_cons. set_solver.
Qed.

Section Theorems.
Context {W : Type} `{!Runtime W}.
Implicit Types (s : Service W) (w : W).

Lemma collected_nonempty s userID rows w ids w' :
  collectUserSessionIDs s userID rows w = (Ok ids, w') -> forall x, x ∈ ids -> x <> "".
Proof.
  unfold collectUserSessionIDs. destruct (add_ids (session_ids rows) ∅) as [l1 seen] eqn:E1.
  destruct (add_ids_spec _ _ _ _ E1) as (_ & H1 & _). destruct (sessionCache s) as [cache|]; intros H.
  - run H as cached w1 Hc. apply ret_Ok in H as [<- <-].
    destruct (add_ids cached seen) as [l2 seen2] eqn:E2. simpl.
    destruct (add_ids_spec _ _ _ _ E2) as (_ & H2 & _). intros x [Hx|Hx]%elem_of_app.
    + by apply H1 in Hx as (_ & ? & _).
    + by apply H2 in Hx as (_ & ? & _).
  - apply ret_Ok in H as [<- <-]. intros x Hx. by apply H1 in Hx as (_ & ? & _).
Qed.

(** The sessions a user-wide logout clears are the union of those the
    database lists and those the cache's index lists, trimmed, without blanks
    and without repetition. *)
Theorem collected_sessions_union s userID rows w ids w' :
  collectUserSessionIDs s userID rows w = (Ok ids, w') ->
  NoDup ids /\
  exists cached,
    match sessionCache s with
    | None => cached = []
    | Some cache => ListUserSessionIDs cache (FormatInt userID) w = (Ok cached, w')
    end /\
    forall x, x ∈ ids <-> x <> "" /\ exists y, y ∈ session_ids rows ++ cached /\ TrimSpace y = x.
Proof.
  unfold collectUserSessionIDs. destruct (add_ids (session_ids rows) ∅) as [l1 seen] eqn:E1.
  destruct (add_ids_spec _ _ _ _ E1) as (Hnd1 & H1 & Hs).
  assert (Hl1 : forall x, x ∈ l1 <-> x <> "" /\ exists y, y ∈ session_ids rows /\ TrimSpace y = x)
    by (intros x; rewrite H1; set_solver).
  assert (Hseen : forall x, x ∈ seen <-> x ∈ l1) by (intros x; rewrite Hs; set_solver).
  destruct (sessionCache s) as [cache|]; intros H.
  - run H as cached w1 Hc. apply ret_Ok in H as [<- <-].
    destruct (add_ids cached seen) as [l2 seen2] eqn:E2. simpl.
    destruct (add_ids_spec _ _ _ _ E2) as (Hnd2 & H2 & _). split.
    + apply NoDup_app. split; [done|]. split; [|done]. intros x Hx1 Hx2.
      apply H2 in Hx2 as [Hx2 _]. by apply Hx2, Hseen.
    + exists cached. split; [done|]. intros x. rewrite elem_of_app, H2, Hseen.
      setoid_rewrite elem_of_app.
      destruct (decide (x ∈ l1)) as [Hl|Hl]; pose proof Hl as Hl'; rewrite Hl1 in Hl'; naive_solver.
  - apply ret_Ok in H as [<- <-]. split; [done|]. exists []. split; [done|].
    intros x. by rewrite Hl1, app_nil_r.
Qed.

(** No deletion, revocation or listing of the service makes [P] false. *)
Definition undisturbed s (P : W -> Prop) : Prop :=
  (forall cache i, sessionCache s = Some cache -> preserves P (SessionCache_Delete cache i)) /\
  (forall cache h d, tokenCache s = Some cache -> preserves P (RevokeAccessToken cache h d)) /\
  (forall cache h d, tokenCache s = Some cache -> preserves P (RevokeRefreshToken cache h d)) /\
  (forall repo u, tokens s = Some repo -> preserves P (ListActiveAccessTokensByUserID repo u)) /\
  (forall repo u, tokens s = Some repo -> preserves P (ListActiveRefreshTokensByUserID repo u)) /\
  (forall repo u t, tokens s = Some repo -> preserves P (RevokeAccessTokensByUserID repo u t)) /\
  (forall repo u t, tokens s = Some repo -> preserves P (RevokeRefreshTokensByUserID repo u t)).

(** ** What a logout promises

    The interface a client of this service relies on, stated over any caches
    that keep the promises of their own ports: a deleted session is gone, a
    revoked token is revoked, and neither is undone by another deletion or
    revocation. *)
Class RevocationLaws s := {
  session_gone : string -> W -> Prop;
  access_revoked : string -> W -> Prop;
  refresh_revoked : string -> W -> Prop;
  session_gone_kept : forall i, undisturbed s (session_gone i);
  access_revoked_kept : forall h, undisturbed s (access_revoked h);
  refresh_revoked_kept : forall h, undisturbed s (refresh_revoked h);
  delete_gone : forall cache i w w', sessionCache s = Some cache ->
    SessionCache_Delete cache i w = (Ok tt, w') -> session_gone i w';
  revoke_access_revoked : forall cache h d w w', tokenCache s = Some cache -> 0 < d ->
    RevokeAccessToken cache h d w = (Ok tt, w') -> access_revoked h w';
  revoke_refresh_revoked : forall cache h d w w', tokenCache s = Some cache -> 0 < d ->
    RevokeRefreshToken cache h d w = (Ok tt, w') -> refresh_revoked h w';
}.

Section Revocation.
Context s `{!RevocationLaws s}.

Lemma revoke_one_establishes (revoke : string -> duration -> IO W unit) (P : W -> Prop) h e t w w' :
  (forall d w1 w2, 0 < d -> revoke h d w1 = (Ok tt, w2) -> P w2) ->
  revoke_one revoke h e t w = (Ok tt, w') -> t < e -> P w'.
Proof.
  intros Hr H Hlt. unfold revoke_one in H. cbv zeta in H.
  pose proof (Sub_pos e t (proj2 (After_spec e t) Hlt)).
  destruct (Z.leb_spec (Sub e t) 0); [lia|]. by eapply Hr; [|exact H].
Qed.

Lemma revoke_one_keeps (revoke : string -> duration -> IO W unit) (P : W -> Prop) h e t :
  (forall d, preserves P (revoke h d)) -> preserves P (revoke_one revoke h e t).
Proof. intros Hr. unfold revoke_one. cbv zeta. case_match; auto with preserves. Qed.

(** Every live token listed is revoked in the cache, and what was gone or
    revoked before stays so. *)
Lemma revokeUserTokens_Ok userID t w n w' :
  revokeUserTokens s userID t w = (Ok n, w') ->
  (forall i, session_gone i w -> session_gone i w') /\
  forall repo cache, tokens s = Some repo -> tokenCache s = Some cache ->
  exists rows_a rows_r w1 w2 w3 w4,
    ListActiveAccessTokensByUserID repo userID w = (Ok rows_a, w1) /\
    ListActiveRefreshTokensByUserID repo userID w1 = (Ok rows_r, w2) /\
    RevokeAccessTokensByUserID repo userID t w2 = (Ok tt, w3) /\
    RevokeRefreshTokensByUserID repo userID t w3 = (Ok tt, w4) /\
    n = (lenZ rows_a, lenZ rows_r) /\
    (forall m, Some m ∈ rows_a -> t < access.ExpiresAt m ->
               access_revoked (access.TokenSHA256 m) w') /\
    (forall m, Some m ∈ rows_r -> t < refresh.ExpiresAt m ->
               refresh_revoked (refresh.TokenSHA256 m) w').
Proof.
  unfold revokeUserTokens. destruct (tokens s) as [repo|] eqn:Et.
  2: { intros H. apply ret_Ok in H as [_ <-]. split; [done|]. by intros. }
  intros H. run H as rows_a w1 Ha. run H as rows_r w2 Hr. run H as u1 w3 Hra. destruct u1.
  run H as u2 w4 Hrr. destruct u2. run H as u3 w5 Hc. destruct u3. apply ret_Ok in H as [<- <-].
  split.
  - intros i Hi. destruct (session_gone_kept i) as (K1 & K2 & K3 & K4 & K5 & K6 & K7).
    pose proof (K4 _ _ Et _ _ _ Ha Hi) as P1. pose proof (K5 _ _ Et _ _ _ Hr P1) as P2.
    pose proof (K6 _ _ _ Et _ _ _ Hra P2) as P3. pose proof (K7 _ _ _ Et _ _ _ Hrr P3) as P4.
    revert Hc P4. apply preserves_when_some. intros cache Hcache. apply preserves_bind.
    + apply preserves_mapM_. intros o. apply preserves_when_some. intros m _.
      apply revoke_one_keeps. intros d. by apply K2.
    + intros _. apply preserves_mapM_. intros o. apply preserves_when_some. intros m _.
      apply revoke_one_keeps. intros d. by apply K3.
  - intros repo' cache [= <-] Hcache. exists rows_a, rows_r, w1, w2, w3, w4.
    do 5 (split; [done|]). rewrite Hcache in Hc. cbn in Hc. run Hc as u3 w6 Hc1. destruct u3.
    split.
    + intros m Hm Hlt.
      enough (Hq : access_revoked (access.TokenSHA256 m) w6).
      { revert Hc Hq. apply preserves_mapM_. intros o. apply preserves_when_some. intros x _.
        apply revoke_one_keeps. intros d. by apply access_revoked_kept. }
      refine (mapM_establishes _ (fun o w0 => forall x, o = Some x -> t < access.ExpiresAt x ->
        access_revoked (access.TokenSHA256 x) w0) rows_a w4 w6 _ _ Hc1 (Some m) Hm m eq_refl Hlt).
      * intros o wa wb Ho x -> Hx. cbn in Ho. eapply revoke_one_establishes; [|exact Ho|exact Hx].
        intros d wc wd Hd Hrev. by eapply revoke_access_revoked.
      * intros o o' wa r0 wb Hrun HP x Hx Hlt'. pose proof (HP x Hx Hlt') as HPx. revert Hrun HPx.
        apply preserves_when_some. intros y _. apply revoke_one_keeps. intros d.
        by apply access_revoked_kept.
    + intros m Hm Hlt.
      refine (mapM_establishes _ (fun o w0 => forall x, o = Some x -> t < refresh.ExpiresAt x ->
        refresh_revoked (refresh.TokenSHA256 x) w0) rows_r w6 w5 _ _ Hc (Some m) Hm m eq_refl Hlt).
      * intros o wa wb Ho x -> Hx. cbn in Ho. eapply revoke_one_establishes; [|exact Ho|exact Hx].
        intros d wc wd Hd Hrev. by eapply revoke_refresh_revoked.
      * intros o o' wa r0 wb Hrun HP x Hx Hlt'. pose proof (HP x Hx Hlt') as HPx. revert Hrun HPx.
        apply preserves_when_some. intros y _. apply revoke_one_keeps. intros d.
        by apply refresh_revoked_kept.
Qed.

(** The sessions of a list, deleted one by one. *)
Lemma delete_all_gone ids w w' :
  sessionCache s <> None ->
  mapM_ (fun candidate => if String.eqb candidate "" then ret tt
                          else delete_cached s candidate) ids w = (Ok tt, w') ->
  forall i, i ∈ ids -> i <> "" -> session_gone i w'.
Proof.
  intros Hcache H i Hi Hne.
  refine (mapM_establishes _ (fun j w0 => j <> "" -> session_gone j w0) ids w w' _ _ H i Hi Hne).
  - intros j wa wb Hj Hnej. rewrite (proj2 (String.eqb_neq _ _) Hnej) in Hj.
    unfold delete_cached in Hj. destruct (sessionCache s) as [cache|] eqn:Ec; [|done].
    cbn in Hj. by eapply delete_gone.
  - intros j k wa r0 wb Hrun HP Hk. specialize (HP Hk). revert Hrun HP.
    destruct (String.eqb j ""); [apply preserves_ret|]. apply preserves_when_some.
    intros cache Hc. by apply session_gone_kept.
Qed.

(** C21. A successful user-wide logout (of the user of a session, or of any
    user by an administrator) has logged every session row of that user out,
    has deleted every session the database or the cache's index listed from
    the cache, and, when tokens are kept, has revoked the user's tokens in the
    database and entered every listed token that had any lifetime left in the
    cache's revocation list; the counts it reports are those of the lists. *)
Theorem user_logout_complete userID sid w r w' :
  logoutUser s userID sid w = (Ok r, w') ->
  exists t rows ids w0 w1 w2 w3,
    now w = (Ok t, w0) /\ ListActiveByUserID (sessions s) userID w0 = (Ok rows, w1) /\
    LogoutAllByUserID (sessions s) userID t w1 = (Ok tt, w2) /\
    collectUserSessionIDs s userID rows w2 = (Ok ids, w3) /\
    la_RevokedSessionCount r = lenZ ids /\ la_UserID r = FormatInt userID /\
    (sessionCache s <> None -> forall i, i ∈ ids -> session_gone i w') /\
    forall repo cache, tokens s = Some repo -> tokenCache s = Some cache ->
    exists rows_a rows_r w4 w5 w6 w7 w8,
      ListActiveAccessTokensByUserID repo userID w4 = (Ok rows_a, w5) /\
      ListActiveRefreshTokensByUserID repo userID w5 = (Ok rows_r, w6) /\
      RevokeAccessTokensByUserID repo userID t w6 = (Ok tt, w7) /\
      RevokeRefreshTokensByUserID repo userID t w7 = (Ok tt, w8) /\
      la_RevokedAccessTokens r = lenZ rows_a /\ la_RevokedRefreshTokens r = lenZ rows_r /\
      (forall m, Some m ∈ rows_a -> t < access.ExpiresAt m ->
                 access_revoked (access.TokenSHA256 m) w') /\
      (forall m, Some m ∈ rows_r -> t < refresh.ExpiresAt m ->
                 refresh_revoked (refresh.TokenSHA256 m) w').
Proof.
  unfold logoutUser. intros H. run H as t w0 Ht. run H as rows w1 Hl. run H as u w2 Hlo.
  destruct u. run H as ids w3 Hids. run H as u w4 Hdel. destruct u. run H as n w5 Hrev.
  apply ret_Ok in H as [<- <-]. apply revokeUserTokens_Ok in Hrev as [Hkeep Hrev].
  exists t, rows, ids, w0, w1, w2, w3. do 6 (split; [done|]). split.
  - intros Hc i Hi. apply Hkeep. apply (delete_all_gone ids w3 w4 Hc Hdel i Hi).
    exact (collected_nonempty _ _ _ _ _ _ Hids i Hi).
  - intros repo cache Hr Hc. destruct (Hrev repo cache Hr Hc)
      as (ra & rr & x1 & x2 & x3 & x4 & ? & ? & ? & ? & -> & Ha & Hb).
    by exists ra, rr, w4, x1, x2, x3, x4.
Qed.

(** Logging out one session: with the session row present, it is marked
    logged out unless it already was, and the session is gone from the cache;
    without a row the cache entry is removed all the same; a blank identifier
    does nothing. *)
Theorem single_logout_complete SessionID w r w' :
  Logout s SessionID w = (Ok r, w') ->
  let sid := TrimSpace SessionID in
  (sid = "" /\ r = no_logout /\ w' = w) \/
  (sid <> "" /\ (sessionCache s <> None -> session_gone sid w') /\
   exists found w1, FindBySessionID (sessions s) sid w = (Ok found, w1) /\
   match found with
   | None => r = no_logout
   | Some m =>
       r = mkLogoutResult sid (FormatInt (session.UserID m)) /\
       (session.LoggedOutAt m = None ->
        exists t w2 w3, LogoutBySessionID (sessions s) sid t w2 = (Ok tt, w3))
   end).
Proof.
  cbv zeta. unfold Logout. cbv zeta. intros H.
  destruct (String.eqb_spec (TrimSpace SessionID) "") as [E|Hne].
  { left. apply ret_Ok in H as [<- <-]. done. }
  right. split; [done|]. run H as found w1 Hf.
  assert (Hdel : forall wa wb, delete_cached s (TrimSpace SessionID) wa = (Ok tt, wb) ->
            sessionCache s <> None -> session_gone (TrimSpace SessionID) wb).
  { unfold delete_cached. intros wa wb Hd Hc. destruct (sessionCache s) as [cache|] eqn:Ec; [|done].
    cbn in Hd. by eapply delete_gone. }
  destruct found as [m|].
  - run H as u w2 Hlo. run H as v w3 Hd. destruct v. apply ret_Ok in H as [<- <-].
    split; [by eapply Hdel|]. exists (Some m), w1. split; [done|]. split; [done|].
    intros Hnone. rewrite Hnone in Hlo. run Hlo as t w4 Ht. destruct u. by exists t, w4, w2.
  - run H as v w3 Hd. destruct v. apply ret_Ok in H as [<- <-].
    split; [by eapply Hdel|]. by exists None, w1.
Qed.
End Revocation.
End Theorems.

(** ** Witnesses *)

(** A world that records what its caches were told: the sessions deleted and
    the tokens revoked. *)
Module SessionDemo.
Record world := mkWorld {
  clock : Z;
  deleted : list string;
  revoked_a : list string;
  revoked_r : list string;
}.

#[export] Instance runtime : Runtime world := {|
  time_Now w := (clock w, w);
  uuid_NewString w := ("u", w);
  rand_Read n w := (Ok (replicate n 7), w);
|}.

Definition row (sid : string) : session.Model :=
  session.mk 1 sid 42 "uuid-alice" "" "" "" "" 0 1000 None 0.

Definition repo : SessionRepository world := {|
  Session_Create m := ret m;
  FindBySessionID sid := ret (if String.eqb sid "sid-1" then Some (row sid) else None);
  ListActiveByUserID _ := ret [Some (row "sid-1"); None];
  LogoutBySessionID _ _ := ret tt;
  LogoutAllByUserID _ _ := ret tt;
|}.

Definition cache : SessionCacheRepository world := {|
  SessionCache_Save _ _ := ret tt;
  SessionCache_Get _ := ret None;
  SessionCache_Delete i := fun w =>
    (Ok tt, mkWorld (clock w) (i :: deleted w) (revoked_a w) (revoked_r w));
  AddUserSessionIndex _ _ _ := ret tt;
  ListUserSessionIDs _ := ret [" sid-2 "; "sid-1"];
  RemoveUserSessionIndex _ _ := ret tt;
|}.

Definition token_rows : tokenRevoker world := {|
  ListActiveAccessTokensByUserID _ :=
    ret [Some (access.mk 1 "a" "sha-a" 7 (Some 42) "" "" "" "" "" 0 500 None 0)];
  ListActiveRefreshTokensByUserID _ :=
    ret [Some (refresh.mk 1 "r" "sha-r" 7 (Some 42) "" "" 0 900 None None 0)];
  RevokeAccessTokensByUserID _ _ := ret tt;
  RevokeRefreshTokensByUserID _ _ := ret tt;
|}.

Definition token_cache : TokenCacheRepository world := {|
  SaveAccessToken _ _ := ret tt;
  GetAccessToken _ := ret None;
  SaveRefreshToken _ _ := ret tt;
  GetRefreshToken _ := ret None;
  CheckRefreshTokenReplay _ _ := ret None;
  Cache_RotateRefreshToken _ _ _ _ _ _ := ret tt;
  RevokeAccessToken h _ := fun w =>
    (Ok tt, mkWorld (clock w) (deleted w) (h :: revoked_a w) (revoked_r w));
  RevokeRefreshToken h _ := fun w =>
    (Ok tt, mkWorld (clock w) (deleted w) (revoked_a w) (h :: revoked_r w));
  IsAccessTokenRevoked h := fun w => (Ok (bool_decide (h ∈ revoked_a w)), w);
  IsRefreshTokenRevoked h := fun w => (Ok (bool_decide (h ∈ revoked_r w)), w);
|}.

Definition service : Service world :=
  NewService repo (Some cache) (Some token_rows) (Some token_cache).
Definition start : world := mkWorld 100 [] [] [].

Lemma undisturbed_facts (P : world -> Prop) :
  (forall i c d a r, P (mkWorld c d a r) -> P (mkWorld c (i :: d) a r)) ->
  (forall i c d a r, P (mkWorld c d a r) -> P (mkWorld c d (i :: a) r)) ->
  (forall i c d a r, P (mkWorld c d a r) -> P (mkWorld c d a (i :: r))) ->
  undisturbed service P.
Proof.
  intros Hd Ha Hr. unfold undisturbed. repeat split; cbn; intros;
    try match goal with H : Some _ = Some _ |- _ => injection H as <- end;
    try (apply preserves_ret); intros [] ? ? [= <- <-]; cbn; auto.
Qed.

#[export] Instance laws : RevocationLaws service.
Proof.
  refine {| session_gone i w := i ∈ deleted w; access_revoked h w := h ∈ revoked_a w;
            refresh_revoked h w := h ∈ revoked_r w |}.
  - intros i. apply undisturbed_facts; cbn; set_solver.
  - intros i. apply undisturbed_facts; cbn; set_solver.
  - intros i. apply undisturbed_facts; cbn; set_solver.
  - intros c i w w' [= <-] [= <-]. cbn. set_solver.
  - intros c h d w w' [= <-] _ [= <-]. cbn. set_solver.
  - intros c h d w w' [= <-] _ [= <-]. cbn. set_solver.
Defined.
End SessionDemo.

#[local] Existing Instance SessionDemo.runtime.
#[local] Existing Instance SessionDemo.laws.

Lemma collected_sessions_union_witness :
  NoDup ["sid-1"; "sid-2"].
Proof.
  exact (proj1 (collected_sessions_union SessionDemo.service 42 [Some (SessionDemo.row "sid-1")]
           SessionDemo.start ["sid-1"; "sid-2"] SessionDemo.start eq_refl)).
Defined.

Lemma user_logout_complete_witness :
  exists r w', logoutUser SessionDemo.service 42 "sid-1" SessionDemo.start = (Ok r, w') /\
    la_RevokedSessionCount r = 2.
Proof.
  provide_run (logoutUser SessionDemo.service 42 "sid-1" SessionDemo.start).
  assert (H : logoutUser SessionDemo.service 42 "sid-1" SessionDemo.start = _) by run_is.
  split; [exact H|].
  destruct (user_logout_complete SessionDemo.service 42 "sid-1" _ _ _ H)
    as (t & rows & ids & w0 & w1 & w2 & w3 & Hn & Hr & Hl & Hi & Hc & _).
  rewrite Hc. injection Hn as <- <-. injection Hr as <- <-. injection Hl as <-.
  injection Hi as <- _. reflexivity.
Defined.

Lemma single_logout_complete_witness :
  exists r w', Logout SessionDemo.service " sid-1 " SessionDemo.start = (Ok r, w') /\
    session_gone "sid-1" w'.
Proof.
  provide_run (Logout SessionDemo.service " sid-1 " SessionDemo.start).
  assert (H : Logout SessionDemo.service " sid-1 " SessionDemo.start = _) by run_is.
  split; [exact H|].
  destruct (single_logout_complete SessionDemo.service " sid-1 " _ _ _ H)
    as [(E & _)|(_ & Hg & _)]; [vm_compute in E; discriminate E|].
  apply Hg. discriminate.
Defined.
