(* ===== verification/DeviceService.v ===== *)
(** * application/device: the device authorization grant's browser side *)

From stdpp Require Import base tactics list gmap strings.
From Stdlib Require Import ZArith Lia Ascii String.
From S2P Require Import Prelude GoStrings GoCrypto GoJson GoTime Errors Domain Ports Scopes StateMask TokenService TokenTheorems.

Record StartInput := mkStartInput { st_ClientID : string; st_Scopes : list string }.

Record StartResult := mkStartResult {
  sr_DeviceCode : string;
  sr_UserCode : string;
  sr_ExpiresAt : time;
  sr_Interval : Z;
  sr_ClientID : string;
}.

Record PrepareResult := mkPrepareResult {
  pr_UserCode : string;
  pr_ClientID : string;
  pr_ClientName : string;
  pr_Scopes : option (list string);
}.

(** ** Random codes *)

Definition token_alphabet : string :=
  "abcdefghijklmnopqrstuvwxyzABCDEFGHIJKLMNOPQRSTUVWXYZ0123456789".
Definition user_alphabet : string := "ABCDEFGHJKLMNPQRSTUVWXYZ23456789".

(** [alphabet[int(b) % len(alphabet)]] *)
Definition pick (alphabet : string) (b : Z) : ascii :=
  default zero (String.get (Z.to_nat (b mod Z.of_nat (String.length alphabet))) alphabet).

Definition encode (alphabet : string) (buf : list Z) : string :=
  string_of_list_ascii (List.map (pick alphabet) buf).

Definition format_user_code (buf : list Z) : string :=
  encode user_alphabet (take 4 buf) +:+ "-" +:+ encode user_alphabet (drop 4 buf).

Section Service.
Context {W : Type} `{!Runtime W}.

Record Service := NewService {
  clients : ClientRepository W;
  deviceCodes : option (DeviceCodeRepository W);
  sessions : SessionRepository W;
  sessionCache : option (SessionCacheRepository W);
  deviceTTL : duration;
  interval : duration;
}.

Definition randomToken (length : nat) : IO W string :=
  let* buf := rand_bytes length in ret (encode token_alphabet buf).

Definition randomUserCode : IO W string :=
  let* buf := rand_bytes 8 in ret (format_user_code buf).

(** [Start] calls [s.deviceCodes] without a nil test: a missing repository is
    a crash, [None] here. *)
Definition device_repo (s : Service) : IO W (DeviceCodeRepository W) :=
  some_or (deviceCodes s) (Driver "nil device code repository").

Definition Start (s : Service) (input : StartInput) : IO W StartResult :=
  let* found := FindByClientID (clients s) (TrimSpace (st_ClientID input)) in
  let* c := some_or found DeviceErrInvalidClient in
  do* guard (String.eqb (client.Status c) "active" &&
             contains (client.GrantTypes c) GrantTypeDeviceCode) DeviceErrInvalidClient in
  let scopes := scopes_or_default (st_Scopes input) (client.Scopes c) in
  do* guard (allContained (elems scopes) (client.Scopes c)) DeviceErrInvalidScope in
  let* deviceCode := randomToken 32 in
  let* userCode := randomUserCode in
  let scopeJSON := MarshalStrings scopes in
  let* t := now in
  let expiresAt := Add t (deviceTTL s) in
  let poll := Z.quot (interval s) Second in
  let* devices := device_repo s in
  do* Device_Save devices
        (mkDeviceCodeEntry deviceCode userCode (client.ClientID c) (client.ClientName c) scopeJSON
           "pending" "" "" expiresAt None None None None poll) (deviceTTL s) in
  ret (mkStartResult deviceCode userCode expiresAt poll (client.ClientID c)).

(** The user of a cached session that is active and names a positive id. *)
Definition cached_user (entry : option SessionCacheEntry) (now : time) : option (Z * string) :=
  match entry with
  | None => None
  | Some e =>
      if IsSessionEntryActive entry now then
        match ParseInt (sce_UserID e) with
        | Some userID => if 0 <? userID then Some (userID, sce_Subject e) else None
        | None => None
        end
      else None
  end.

(** Who is logged in under the session identifier. *)
Definition session_user (s : Service) (sessionID : string) : IO W (Z * string) :=
  let* cached := match sessionCache s with
                 | None => ret None
                 | Some cache =>
                     let* entry := SessionCache_Get cache sessionID in
                     let* t := now in
                     ret (cached_user entry t)
                 end in
  match cached with
  | Some u => ret u
  | None =>
      let* found := FindBySessionID (sessions s) sessionID in
      let* m := some_or found DeviceErrLoginRequired in
      do* guard (match session.LoggedOutAt m with None => true | Some _ => false end)
            DeviceErrLoginRequired in
      let* t := now in
      do* guard (After (session.ExpiresAt m) t) DeviceErrLoginRequired in
      ret (session.UserID m, session.Subject m)
  end.

Definition loadContext (s : Service) (sessionID userCode : string)
    : IO W (DeviceCodeEntry * Z * string) :=
  let userCode := ToUpper (TrimSpace userCode) in
  do* guard (negb (String.eqb userCode "")) DeviceErrInvalidUserCode in
  let* devices := some_or (deviceCodes s) DeviceErrInvalidUserCode in
  let* found := GetByUserCode devices userCode in
  let* entry := some_or found DeviceErrInvalidUserCode in
  let* t := now in
  do* guard (After (dce_ExpiresAt entry) t) DeviceErrInvalidUserCode in
  do* guard (String.eqb (dce_Status entry) "" || String.eqb (dce_Status entry) "pending")
        DeviceErrInvalidUserCode in
  let sessionID := TrimSpace sessionID in
  do* guard (negb (String.eqb sessionID "")) DeviceErrLoginRequired in
  let* u := session_user s sessionID in
  ret (entry, fst u, snd u).

Definition Prepare (s : Service) (SessionID UserCode : string) : IO W PrepareResult :=
  let* context := loadContext s SessionID UserCode in
  let '(entry, _, _) := context in
  ret (mkPrepareResult (dce_UserCode entry) (dce_ClientID entry) (dce_ClientName entry)
         (mustDecodeScopeJSON (dce_ScopesJSON entry))).

(** The result is [Approved]. *)
Definition Decide (s : Service) (SessionID UserCode Action : string) : IO W bool :=
  let action := ToLower (TrimSpace Action) in
  do* guard (String.eqb action "approve" || String.eqb action "deny") DeviceErrInvalidAction in
  let* context := loadContext s SessionID UserCode in
  let '(entry, sessionUserID, subject) := context in
  let* devices := device_repo s in
  if String.eqb action "deny" then
    let* t := now in
    do* Device_Deny devices (dce_UserCode entry) t in
    ret false
  else
    let* t := now in
    do* Device_Approve devices (dce_UserCode entry) (FormatInt sessionUserID) subject t in
    ret true.
End Service.

Arguments Service W : clear implicits.

(** ** Codes *)

Lemma get_some n s : (n < String.length s)%nat -> exists a, String.get n s = Some a.
Proof.
  revert n. induction s as [|a s IH]; intros n Hn; simpl in Hn; [lia|].
  destruct n as [|n]; [by exists a|]. apply IH. lia.
Qed.

Lemma forall_string_get p s n a :
  forall_string p s = true -> String.get n s = Some a -> p a = true.
Proof.
  revert n. induction s as [|b s IH]; intros n; simpl; [done|].
  rewrite andb_true_iff. intros [Hb Hs]. destruct n; [by intros [= <-] | by apply IH].
Qed.

Lemma pick_in p alphabet b :
  alphabet <> "" -> forall_string p alphabet = true -> p (pick alphabet b) = true.
Proof.
  intros Hne Hp. unfold pick.
  destruct (get_some (Z.to_nat (b mod Z.of_nat (String.length alphabet))) alphabet) as [a Ha].
  - destruct alphabet as [|x l]; [done|].
    pose proof (Z.mod_pos_bound b (Z.of_nat (String.length (String x l))) ltac:(simpl; lia)). lia.
  - rewrite Ha. by eapply forall_string_get.
Qed.

Lemma encode_forall p alphabet buf :
  alphabet <> "" -> forall_string p alphabet = true ->
  forall_string p (encode alphabet buf) = true.
Proof.
  intros Hne Hp. unfold encode. induction buf as [|b buf IH]; simpl; [done|].
  by rewrite pick_in.
Qed.

Lemma encode_length alphabet buf : String.length (encode alphabet buf) = List.length buf.
Proof. unfold encode. induction buf as [|b buf IH]; simpl; [done|]. by rewrite IH. Qed.

(** A character a user code is made of: visible and its own upper case. *)
Definition code_char (a : ascii) : bool := visible a && Ascii.eqb (upper1 a) a.

Lemma format_user_code_chars buf : forall_string code_char (format_user_code buf) = true.
Proof.
  unfold format_user_code. rewrite !forall_string_app, !encode_forall by (done || reflexivity). done.
Qed.

(** The codes the device flow hands out: for any random bytes, the device
    code has one alphanumeric character per byte; the user code of eight bytes
    is nine characters of the unambiguous alphabet with a dash in the middle,
    and reading it back as the browser submits it, with any surrounding
    space trimmed and upper-cased, yields the same code. *)
Theorem device_codes_well_formed buf :
  String.length (encode token_alphabet buf) = List.length buf /\
  (List.length buf = 8%nat ->
   String.length (format_user_code buf) = 9%nat /\
   String.get 4 (format_user_code buf) = Some "-"%char) /\
  ToUpper (TrimSpace (format_user_code buf)) = format_user_code buf.
Proof.
  split; [apply encode_length|]. split.
  - intros Hl. do 8 (destruct buf as [|? buf]; [discriminate|]). by destruct buf.
  - rewrite TrimSpace_visible; [apply ToUpper_id, format_user_code_chars|].
    eapply forall_string_impl; [|apply format_user_code_chars].
    intros a Ha. by apply andb_true_iff in Ha as [? _].
Qed.

Section Theorems.
Context {W : Type} `{!Runtime W}.
Implicit Types (s : Service W) (w : W).

(** Who the decision is made by: the user of an active session, from the
    cache or, failing that, from the database. *)
Definition decided_by s (sessionID : string) (userID : Z) (subject : string) : Prop :=
  (exists cache e t w1 w2,
     sessionCache s = Some cache /\ SessionCache_Get cache sessionID w1 = (Ok (Some e), w2) /\
     t < sce_ExpiresAt e /\ session_usable e /\
     ParseInt (sce_UserID e) = Some userID /\ 0 < userID /\ subject = sce_Subject e) \/
  (exists m t w1 w2,
     FindBySessionID (sessions s) sessionID w1 = (Ok (Some m), w2) /\
     session.LoggedOutAt m = None /\ t < session.ExpiresAt m /\
     userID = session.UserID m /\ subject = session.Subject m).

Lemma cached_user_Some entry t u :
  cached_user entry t = Some u ->
  exists e, entry = Some e /\ t < sce_ExpiresAt e /\ session_usable e /\
    ParseInt (sce_UserID e) = Some (fst u) /\ 0 < fst u /\ snd u = sce_Subject e.
Proof.
  unfold cached_user. destruct entry as [e|]; [|done].
  destruct (IsSessionEntryActive (Some e) t) eqn:Ea; [|done].
  destruct (ParseInt _) as [uid|] eqn:Ep; [|done]. destruct (Z.ltb_spec 0 uid); [|done].
  intros [= <-]. apply session_entry_active in Ea as [??]. exists e. by repeat split.
Qed.

Lemma session_user_Ok s sid w u w' :
  session_user s sid w = (Ok u, w') -> decided_by s sid (fst u) (snd u).
Proof.
  unfold session_user. intros H. run H as cached w1 Hc. destruct cached as [x|].
  - apply ret_Ok in H as [-> <-]. destruct (sessionCache s) as [cache|] eqn:Es.
    2: { by apply ret_Ok in Hc as [? _]. }
    run Hc as entry w2 He. run Hc as t w3 Ht. apply ret_Ok in Hc as [Hx <-].
    apply cached_user_Some in Hx as (e & -> & Hx). left.
    destruct Hx as (?&?&?&?&?). by exists cache, e, t, w, w2.
  - run H as o w2 Hf. run_some H as m Ho. subst o. run_guard H as Hlo. run H as t w3 Ht.
    run_guard H as Hexp. apply ret_Ok in H as [<- <-]. apply After_spec in Hexp.
    destruct (session.LoggedOutAt m) eqn:El; [discriminate Hlo|]. right. by exists m, t, w1, w2.
Qed.

Lemma loadContext_Ok s sessionID userCode w entry uid sub w' :
  loadContext s sessionID userCode w = (Ok (entry, uid, sub), w') ->
  exists d t w1 w2, deviceCodes s = Some d /\ TrimSpace sessionID <> "" /\
    GetByUserCode d (ToUpper (TrimSpace userCode)) w1 = (Ok (Some entry), w2) /\
    t < dce_ExpiresAt entry /\ (dce_Status entry = "" \/ dce_Status entry = "pending") /\
    decided_by s (TrimSpace sessionID) uid sub.
Proof.
  unfold loadContext. cbv zeta. intros H. run_guard H as Hne. run_some H as d Hd.
  run H as o w1 Hg. run_some H as e Ho. subst o. run H as t w2 Ht. run_guard H as Hexp.
  run_guard H as Hst. run_guard H as Hsid. run H as u w3 Hu. apply ret_Ok in H as [[= -> <- <-] <-].
  apply session_user_Ok in Hu. apply After_spec in Hexp.
  rewrite orb_true_iff, !String.eqb_eq in Hst. rewrite negb_true_iff, String.eqb_neq in Hsid.
  by exists d, t, w, w1.
Qed.

(** A decision on a device code is taken only by the user of a session
    that is active, on a code that is still pending and not expired, and it is
    what reaches the store: approving records that user's id and subject,
    denying records the denial, and nothing else is accepted as an action. *)
Theorem device_decision_sound s sessionID userCode act w approved w' :
  Decide s sessionID userCode act w = (Ok approved, w') ->
  exists d entry uid sub t0 t w1 w2 w3,
    deviceCodes s = Some d /\
    GetByUserCode d (ToUpper (TrimSpace userCode)) w1 = (Ok (Some entry), w2) /\
    t0 < dce_ExpiresAt entry /\ (dce_Status entry = "" \/ dce_Status entry = "pending") /\
    decided_by s (TrimSpace sessionID) uid sub /\
    ((ToLower (TrimSpace act) = "approve" /\ approved = true /\
      Device_Approve d (dce_UserCode entry) (FormatInt uid) sub t w3 = (Ok tt, w')) \/
     (ToLower (TrimSpace act) = "deny" /\ approved = false /\
      Device_Deny d (dce_UserCode entry) t w3 = (Ok tt, w'))).
Proof.
  unfold Decide. cbv zeta. intros H. run_guard H as Hact. run H as context w1 Hl.
  destruct context as [[entry uid] sub].
  apply loadContext_Ok in Hl as (d & t0 & x1 & x2 & Hd & _ & Hg & Hexp & Hst & Hby).
  unfold device_repo in H. rewrite Hd in H. run_some H as d' Hd'. injection Hd' as <-.
  rewrite orb_true_iff, !String.eqb_eq in Hact.
  destruct (String.eqb_spec (ToLower (TrimSpace act)) "deny") as [Ed|Ed].
  - run H as t w2 Ht. run H as u w3 Hdeny. destruct u. apply ret_Ok in H as [<- <-].
    exists d, entry, uid, sub, t0, t, x1, x2, w2. do 5 (split; [done|]). by right.
  - run H as t w2 Ht. run H as u w3 Happ. destruct u. apply ret_Ok in H as [<- <-].
    exists d, entry, uid, sub, t0, t, x1, x2, w2. do 5 (split; [done|]). left.
    destruct Hact as [Hact|Hact]; [done|congruence].
Qed.

(** A device flow starts only for an active client allowed the grant and
    within its registered scopes; the record saved is pending, names no user,
    carries those scopes and expires deviceTTL after now, and the answer shows
    the codes of that record. *)
Theorem device_start_sound s input w r w' :
  Start s input w = (Ok r, w') ->
  exists c d t w1 w2 sc entry,
    FindByClientID (clients s) (TrimSpace (st_ClientID input)) w = (Ok (Some c), w1) /\
    client.Status c = "active" /\ GrantTypeDeviceCode ∈ client.GrantTypes c /\
    deviceCodes s = Some d /\
    sc = scopes_or_default (st_Scopes input) (client.Scopes c) /\
    allContained (elems sc) (client.Scopes c) = true /\
    Device_Save d entry (deviceTTL s) w2 = (Ok tt, w') /\
    dce_Status entry = "pending" /\ dce_UserID entry = "" /\ dce_Subject entry = "" /\
    dce_ScopesJSON entry = MarshalStrings sc /\ dce_ClientID entry = client.ClientID c /\
    dce_ExpiresAt entry = Add t (deviceTTL s) /\
    sr_DeviceCode r = dce_DeviceCode entry /\ sr_UserCode r = dce_UserCode entry /\
    sr_ExpiresAt r = dce_ExpiresAt entry /\ sr_ClientID r = client.ClientID c.
Proof.
  unfold Start. cbv zeta. intros H. run H as o w1 Hc. run_some H as c Ho. subst o.
  run_guard H as Hg. run_guard H as Hsc. run H as dc w2 Hdc. run H as uc w3 Huc.
  run H as t w4 Ht. unfold device_repo in H. run_some H as d Hd. run H as u w5 Hs. destruct u.
  apply ret_Ok in H as [<- <-]. apply andb_true_iff in Hg as [Hact Hgr].
  apply String.eqb_eq in Hact. apply contains_spec in Hgr.
  exists c, d, t, w1, w4. do 2 eexists. do 4 (split; [done|]). split; [reflexivity|].
  split; [done|]. split; [exact Hs|]. done.
Qed.
End Theorems.

(** ** Witnesses *)

Module DeviceDemo.
Definition session_repo : SessionRepository Z := {|
  Session_Create m := ret m;
  FindBySessionID sid :=
    ret (if String.eqb sid "sid-1"
         then Some (session.mk 3 "sid-1" 42 "uuid-alice" "" "" "" "" 0 1000 None 0) else None);
  ListActiveByUserID _ := ret [];
  LogoutBySessionID _ _ := ret tt;
  LogoutAllByUserID _ _ := ret tt;
|}.

Definition service : Service Z :=
  NewService Demo.clients (Some (Demo.devices "pending")) session_repo None (10 * Minute)
    (5 * Second).
End DeviceDemo.

#[local] Existing Instance Demo.runtime.

Lemma device_codes_well_formed_witness :
  String.length (format_user_code [0; 1; 2; 3; 4; 5; 6; 7]) = 9%nat.
Proof. exact (proj1 (proj1 (proj2 (device_codes_well_formed [0; 1; 2; 3; 4; 5; 6; 7])) eq_refl)). Defined.

Lemma device_decision_sound_witness :
  exists w', Decide DeviceDemo.service "sid-1" " abcd-efgh " "Approve" 100 = (Ok true, w') /\
  exists uid sub, decided_by DeviceDemo.service "sid-1" uid sub.
Proof.
  exists 100.
  assert (H : Decide DeviceDemo.service "sid-1" " abcd-efgh " "Approve" 100 = (Ok true, 100)) by run_is.
  split; [exact H|].
  destruct (device_decision_sound _ _ _ _ _ _ _ H)
    as (d & e & uid & sub & t0 & t & w1 & w2 & w3 & Hx).
  exists uid, sub. exact (proj1 (proj2 (proj2 (proj2 (proj2 Hx))))).
Defined.

Lemma device_start_sound_witness :
  let i := mkStartInput "web" ["openid"] in
  exists r w', Start DeviceDemo.service i 100 = (Ok r, w') /\ sr_ClientID r = "web".
Proof.
  intros i. provide_run (Start DeviceDemo.service i 100).
  assert (H : Start DeviceDemo.service i 100 = _) by run_is. split; [exact H|].
  destruct (device_start_sound _ _ _ _ _ H) as (c & d & t & w1 & w2 & sc & e & Hc & Hx).
  do 15 destruct Hx as [? Hx]. rewrite Hx. injection Hc as <- _. reflexivity.
Defined.
