(* ===== verification/ClientAuth.v ===== *)
(** * application/clientauth and plugins/client_auth: client authentication

    The service, the registry of methods and the three methods the server
    registers: client_secret_basic, client_secret_post and none. *)

From stdpp Require Import base tactics list gmap strings.
From Stdlib Require Import ZArith Lia Ascii.
From S2P Require Import Prelude GoStrings GoBase64 GoTime Errors Domain Ports.

Abbreviation ClientAuthMethodType := string.
Definition ClientAuthMethodClientSecretBasic : ClientAuthMethodType := "client_secret_basic".
Definition ClientAuthMethodClientSecretPost : ClientAuthMethodType := "client_secret_post".
Definition ClientAuthMethodNone : ClientAuthMethodType := "none".

Record ClientAuthenticateInput := mkClientAuthenticateInput {
  ca_Client : option client.Model;
  ca_AuthorizationHeader : string;
  ca_ClientID : string;
  ca_ClientSecret : string;
}.

Record ClientAuthenticateResult := mkClientAuthenticateResult {
  cr_ClientID : string;
  cr_ClientSecret : string;
  cr_Method : ClientAuthMethodType;
}.

Record AuthenticateInput := mkAuthenticateInput {
  ai_AuthorizationHeader : string;
  ai_ClientID : string;
  ai_ClientSecret : string;
}.

(** [strings.SplitN(decoded, ":", 2)] of the decoded Basic payload, when it
    has two parts. *)
Definition basic_parts (header : string) : option (string * string) :=
  match DecodeString (TrimPrefix header "Basic ") with
  | None => None
  | Some decoded =>
      match split2 ":" decoded with
      | (l, Some r) => Some (l, r)
      | (_, None) => None
      end
  end.

Definition extractClientID (authorizationHeader bodyClientID : string) : string :=
  match (if HasPrefix authorizationHeader "Basic " then basic_parts authorizationHeader else None)
  with
  | Some (l, _) => TrimSpace l
  | None => TrimSpace bodyClientID
  end.

Fixpoint first_method (candidates : list string) : ClientAuthMethodType :=
  match candidates with
  | [] => ClientAuthMethodNone
  | c :: rest =>
      let method := ToLower (TrimSpace c) in
      if negb (String.eqb method "") then method else first_method rest
  end.

Definition normalizeClientAuthMethod (primary : string) (fallbacks : list string)
    : ClientAuthMethodType :=
  let method := ToLower (TrimSpace primary) in
  if negb (String.eqb method "") then method else first_method fallbacks.

Section ClientAuth.
Context {W : Type}.

Record ClientAuthenticator := mkAuthenticator {
  Type_ : ClientAuthMethodType;
  Plugin_Authenticate : ClientAuthenticateInput -> IO W (option ClientAuthenticateResult);
}.

(** ** The three methods *)

Definition basic_Authenticate (passwords : option (PasswordVerifier W))
    (input : ClientAuthenticateInput) : IO W (option ClientAuthenticateResult) :=
  let* c := some_or (ca_Client input) ErrInvalidClient in
  let* p := some_or passwords ErrInvalidClient in
  do* guard (HasPrefix (ca_AuthorizationHeader input) "Basic ") ErrInvalidClient in
  do* guard (blank (ca_ClientID input) && blank (ca_ClientSecret input)) ErrInvalidClient in
  let* parts := some_or (basic_parts (ca_AuthorizationHeader input)) ErrInvalidClient in
  let clientID := TrimSpace (fst parts) in
  let clientSecret := snd parts in
  do* guard (negb (String.eqb clientID "") && String.eqb clientID (client.ClientID c))
        ErrInvalidClient in
  do* guard (VerifyPassword p clientSecret (client.ClientSecretHash c)) ErrInvalidClient in
  ret (Some (mkClientAuthenticateResult clientID clientSecret ClientAuthMethodClientSecretBasic)).

Definition post_Authenticate (passwords : option (PasswordVerifier W))
    (input : ClientAuthenticateInput) : IO W (option ClientAuthenticateResult) :=
  let* c := some_or (ca_Client input) ErrInvalidClient in
  let* p := some_or passwords ErrInvalidClient in
  do* guard (blank (ca_AuthorizationHeader input)) ErrInvalidClient in
  let clientID := TrimSpace (ca_ClientID input) in
  let clientSecret := ca_ClientSecret input in
  do* guard (negb (String.eqb clientID "") && negb (String.eqb clientSecret "") &&
             String.eqb clientID (client.ClientID c)) ErrInvalidClient in
  do* guard (VerifyPassword p clientSecret (client.ClientSecretHash c)) ErrInvalidClient in
  ret (Some (mkClientAuthenticateResult clientID clientSecret ClientAuthMethodClientSecretPost)).

Definition none_Authenticate (input : ClientAuthenticateInput)
    : IO W (option ClientAuthenticateResult) :=
  let* c := some_or (ca_Client input) ErrInvalidClient in
  do* guard (blank (ca_AuthorizationHeader input)) ErrInvalidClient in
  do* guard (blank (ca_ClientSecret input)) ErrInvalidClient in
  let clientID := TrimSpace (ca_ClientID input) in
  do* guard (negb (String.eqb clientID "") && String.eqb clientID (client.ClientID c))
        ErrInvalidClient in
  ret (Some (mkClientAuthenticateResult clientID "" ClientAuthMethodNone)).

Definition basic_authenticator (passwords : option (PasswordVerifier W)) : ClientAuthenticator :=
  mkAuthenticator ClientAuthMethodClientSecretBasic (basic_Authenticate passwords).
Definition post_authenticator (passwords : option (PasswordVerifier W)) : ClientAuthenticator :=
  mkAuthenticator ClientAuthMethodClientSecretPost (post_Authenticate passwords).
Definition none_authenticator : ClientAuthenticator :=
  mkAuthenticator ClientAuthMethodNone none_Authenticate.

(** ** The registry *)

Definition ClientAuthRegistry : Type := gmap string ClientAuthenticator.

Definition Register (r : gmap string ClientAuthenticator) (a : option ClientAuthenticator)
    : gmap string ClientAuthenticator :=
  match a with None => r | Some x => <[Type_ x := x]> r end.

Definition NewClientAuthRegistry (l : list (option ClientAuthenticator)) : ClientAuthRegistry :=
  foldl Register ∅ l.

Definition Registry_Get (r : gmap string ClientAuthenticator) (m : ClientAuthMethodType)
    : option ClientAuthenticator := r !! m.

(** ** The service *)

Record Service := NewService {
  clients : option (ClientRepository W);
  registry : option ClientAuthRegistry;
}.

Definition Authenticate (s : Service) (input : AuthenticateInput)
    : IO W ClientAuthenticateResult :=
  let* repo := some_or (clients s) ErrInvalidClient in
  let* reg := some_or (registry s) ErrInvalidClient in
  let clientID := extractClientID (ai_AuthorizationHeader input) (ai_ClientID input) in
  do* guard (negb (String.eqb clientID "")) ErrInvalidClient in
  let* found := FindByClientID repo clientID in
  let* c := some_or found ErrInvalidClient in
  do* guard (String.eqb (client.Status c) "active") ErrInvalidClient in
  let methodType := normalizeClientAuthMethod (client.TokenEndpointAuthMethod c)
                      (client.AuthMethods c) in
  let* authenticator := some_or (Registry_Get reg methodType) ErrInvalidClient in
  let* outcome := Plugin_Authenticate authenticator
    (mkClientAuthenticateInput (Some c) (ai_AuthorizationHeader input) (ai_ClientID input)
       (ai_ClientSecret input)) in
  let* result := some_or outcome ErrInvalidClient in
  do* guard (negb (blank (cr_ClientID result))) ErrInvalidClient in
  do* guard (String.eqb (cr_ClientID result) (client.ClientID c)) ErrInvalidClient in
  ret result.
End ClientAuth.

Arguments ClientAuthenticator W : clear implicits.
Arguments ClientAuthRegistry W : clear implicits.
Arguments Service W : clear implicits.

(** ** Theorems *)

Section Theorems.
Context {W : Type}.
Implicit Types (s : Service W) (w : W).

(** The registry the server builds: the three methods. *)
Definition server_registry (passwords : option (PasswordVerifier W)) : ClientAuthRegistry W :=
  NewClientAuthRegistry
    [Some (basic_authenticator passwords); Some (post_authenticator passwords);
     Some none_authenticator].

(** What each method demands of the request. *)
Inductive credentials (passwords : option (PasswordVerifier W)) (c : client.Model)
    (input : AuthenticateInput) : ClientAuthMethodType -> string -> Prop :=
| Basic id secret p :
    HasPrefix (ai_AuthorizationHeader input) "Basic " = true ->
    basic_parts (ai_AuthorizationHeader input) = Some (id, secret) ->
    TrimSpace id = client.ClientID c ->
    blank (ai_ClientID input) = true -> blank (ai_ClientSecret input) = true ->
    passwords = Some p -> VerifyPassword p secret (client.ClientSecretHash c) = true ->
    credentials passwords c input ClientAuthMethodClientSecretBasic secret
| Post p :
    blank (ai_AuthorizationHeader input) = true ->
    TrimSpace (ai_ClientID input) = client.ClientID c -> ai_ClientSecret input <> "" ->
    passwords = Some p ->
    VerifyPassword p (ai_ClientSecret input) (client.ClientSecretHash c) = true ->
    credentials passwords c input ClientAuthMethodClientSecretPost (ai_ClientSecret input)
| Public :
    blank (ai_AuthorizationHeader input) = true -> blank (ai_ClientSecret input) = true ->
    TrimSpace (ai_ClientID input) = client.ClientID c ->
    credentials passwords c input ClientAuthMethodNone "".

Lemma server_registry_get passwords m a :
  Registry_Get (server_registry passwords) m = Some a ->
  (m = ClientAuthMethodClientSecretBasic /\ a = basic_authenticator passwords) \/
  (m = ClientAuthMethodClientSecretPost /\ a = post_authenticator passwords) \/
  (m = ClientAuthMethodNone /\ a = none_authenticator).
Proof.
  unfold Registry_Get, server_registry, NewClientAuthRegistry, ClientAuthRegistry. cbn [foldl Register Type_
    basic_authenticator post_authenticator none_authenticator].
  intros [[<- <-]|[_ H]]%lookup_insert_Some; [auto|].
  apply lookup_insert_Some in H as [[<- <-]|[_ H]]; [auto|].
  apply lookup_insert_Some in H as [[<- <-]|[_ H]]; [auto|]. by rewrite lookup_empty in H.
Qed.

Lemma plugin_credentials passwords m a c input w r w' :
  Registry_Get (server_registry passwords) m = Some a ->
  Plugin_Authenticate a
    (mkClientAuthenticateInput (Some c) (ai_AuthorizationHeader input) (ai_ClientID input)
       (ai_ClientSecret input)) w = (Ok (Some r), w') ->
  cr_Method r = m /\ cr_ClientID r = client.ClientID c /\
  credentials passwords c input m (cr_ClientSecret r) /\ w' = w.
Proof.
  intros [[-> ->]|[[-> ->]|[-> ->]]]%server_registry_get H; cbn in H.
  - unfold basic_Authenticate in H. cbn [ca_Client ca_AuthorizationHeader ca_ClientID ca_ClientSecret] in H.
    run_some H as c' Hc. injection Hc as <-. run_some H as p Hp. run_guard H as Hpre.
    run_guard H as Hb. run_some H as parts Hparts. run_guard H as Hid. run_guard H as Hv.
    apply ret_Ok in H as [[= <-] <-]. destruct parts as [id secret].
    apply andb_true_iff in Hb as [??], Hid as [_ Hid%String.eqb_eq]. simpl in *.
    do 2 (split; [done|]). split; [|done]. by eapply Basic.
  - unfold post_Authenticate in H. cbn [ca_Client ca_AuthorizationHeader ca_ClientID ca_ClientSecret] in H.
    run_some H as c' Hc. injection Hc as <-. run_some H as p Hp. run_guard H as Hb.
    run_guard H as Hid. run_guard H as Hv. apply ret_Ok in H as [[= <-] <-]. simpl in *.
    rewrite !andb_true_iff, !negb_true_iff, String.eqb_eq, !String.eqb_neq in Hid.
    destruct Hid as [[_ Hne] Hid]. do 2 (split; [done|]). split; [|done]. by eapply Post.
  - unfold none_Authenticate in H. cbn [ca_Client ca_AuthorizationHeader ca_ClientID ca_ClientSecret] in H.
    run_some H as c' Hc. injection Hc as <-. run_guard H as Hb. run_guard H as Hs.
    run_guard H as Hid. apply ret_Ok in H as [[= <-] <-]. simpl in *.
    rewrite andb_true_iff, String.eqb_eq in Hid. destruct Hid as [_ Hid].
    do 2 (split; [done|]). split; [|done]. by apply Public.
Qed.

(** With the methods the server registers, a client is authenticated only
    if it is known and active and the request carries the credentials of the
    method the client is registered with, and of no other: the method cannot
    be downgraded by the request, a secret method always had its secret
    verified, and the answer names that client and that method. *)
Theorem authentication_not_downgraded s passwords input w r w' :
  registry s = Some (server_registry passwords) ->
  Authenticate s input w = (Ok r, w') ->
  exists repo c,
    clients s = Some repo /\
    FindByClientID repo (extractClientID (ai_AuthorizationHeader input) (ai_ClientID input)) w
      = (Ok (Some c), w') /\
    client.Status c = "active" /\ cr_ClientID r = client.ClientID c /\
    cr_Method r = normalizeClientAuthMethod (client.TokenEndpointAuthMethod c)
                    (client.AuthMethods c) /\
    credentials passwords c input (cr_Method r) (cr_ClientSecret r).
Proof.
  intros Hreg. unfold Authenticate. cbv zeta. intros H. run_some H as repo Hrepo.
  run_some H as reg Hr. rewrite Hreg in Hr. injection Hr as <-. run_guard H as Hne.
  run H as o w1 Hf. run_some H as c Ho. subst o. run_guard H as Hact. apply String.eqb_eq in Hact.
  run_some H as a Ha. run H as o w2 Hplug. run_some H as res Ho. subst o.
  apply (plugin_credentials passwords _ _ _ _ _ _ _ Ha) in Hplug as (Hm & Hid & Hcred & ->).
  run_guard H as Hb. run_guard H as Heq. apply ret_Ok in H as [<- <-].
  exists repo, c. rewrite Hm. done.
Qed.

(** What is wrong with the request or the client is always
    [ErrInvalidClient]; any other error is the one the table of clients
    answered the look-up with. *)
Lemma plugin_errors passwords m a input w e w' :
  Registry_Get (server_registry passwords) m = Some a -> Plugin_Authenticate a input w = (Err e, w') -> e = ErrInvalidClient.
Proof.
  assert (Hsome : forall A B (o : option A) (k : A -> IO W B) v, (forall x, o = Some x -> k x v = (Err e, w') -> e = ErrInvalidClient) ->
    (let* x := some_or o (ErrInvalidClient : error) in k x) v = (Err e, w') -> e = ErrInvalidClient).
  { intros A B o k v Hk. destruct o as [x|]; [by apply Hk|]. by intros [= <-]. }
  assert (Hguard : forall B b (k : IO W B) v, (k v = (Err e, w') -> e = ErrInvalidClient) ->
    (do* guard b (ErrInvalidClient : error) in k) v = (Err e, w') -> e = ErrInvalidClient).
  { intros B b k v Hk. destruct b; [exact Hk|]. by intros [= <-]. }
  intros [[-> ->]|[[-> ->]|[-> ->]]]%server_registry_get; cbn;
    unfold basic_Authenticate, post_Authenticate, none_Authenticate; cbv zeta;
    repeat first [apply Hsome; intros ? _ | apply Hguard | discriminate].
Qed.

Lemma authentication_errors s passwords input w e w' :
  registry s = Some (server_registry passwords) -> Authenticate s input w = (Err e, w') ->
  e = ErrInvalidClient \/
  exists repo, clients s = Some repo /\
    FindByClientID repo (extractClientID (ai_AuthorizationHeader input) (ai_ClientID input)) w = (Err e, w').
Proof.
  intros Hreg. unfold Authenticate. cbv zeta. rewrite Hreg.
  destruct (clients s) as [repo|]; [|by intros [= <-]; left]. cbn [some_or].
  rewrite (bind_run _ _ _ repo w), (bind_run _ _ _ (server_registry passwords) w) by done.
  destruct (negb _); [|by intros [= <-]; left]. rewrite (bind_run _ _ _ tt w) by done.
  destruct (FindByClientID repo (extractClientID (ai_AuthorizationHeader input) (ai_ClientID input)) w) as [[o|e1] w1] eqn:Hf; cycle 1.
  { rewrite (bind_run_Err _ _ _ _ _ Hf). intros [= <- <-]. right. by exists repo. }
  rewrite (bind_run _ _ _ _ _ Hf). destruct o as [c|]; [|by intros [= <-]; left]. rewrite (bind_run _ _ _ c w1) by done.
  destruct (String.eqb (client.Status c) "active"); [|by intros [= <-]; left]. rewrite (bind_run _ _ _ tt w1) by done.
  destruct (Registry_Get (server_registry passwords) (normalizeClientAuthMethod (client.TokenEndpointAuthMethod c) (client.AuthMethods c)))
    as [a|] eqn:Ha; [|by intros [= <-]; left]. rewrite (bind_run _ _ _ a w1) by done.
  destruct (Plugin_Authenticate a (mkClientAuthenticateInput (Some c) (ai_AuthorizationHeader input) (ai_ClientID input)
    (ai_ClientSecret input)) w1) as [[o|e2] w2] eqn:Hp; cycle 1.
  { rewrite (bind_run_Err _ _ _ _ _ Hp). intros [= <- <-]. left. by eapply plugin_errors. }
  rewrite (bind_run _ _ _ _ _ Hp). destruct o as [res|]; [|by intros [= <-]; left]. rewrite (bind_run _ _ _ res w2) by done.
  destruct (negb (blank (cr_ClientID res))); [|by intros [= <-]; left]. rewrite (bind_run _ _ _ tt w2) by done.
  destruct (String.eqb (cr_ClientID res) _); [discriminate | by intros [= <-]; left].
Qed.

(** The Basic header a conforming client sends is read back: for any
    identifier without colon and any secret, the service looks up the trimmed
    identifier whatever the body says, and the basic method verifies exactly
    that secret. *)
Theorem basic_header_round_trip id secret body :
  forall_string (fun a => negb (Ascii.eqb a ":")) id = true ->
  let header := "Basic " +:+ EncodeToString (id +:+ String ":" secret) in
  extractClientID header body = TrimSpace id /\ basic_parts header = Some (id, secret).
Proof.
  intros Hid header.
  assert (Hparts : basic_parts header = Some (id, secret)).
  { unfold basic_parts, header. by rewrite TrimPrefix_append, Decode_Encode, split2_first. }
  split; [|done]. unfold extractClientID, header at 1. by rewrite HasPrefix_append, Hparts.
Qed.
End Theorems.

(** ** Witnesses *)

Module ClientAuthDemo.
Definition web : client.Model :=
  client.mk 7 "web" "Web" "hash" "confidential" " Client_Secret_Basic " true false 3600 86400 0
    "active" [] [] [] [] [] 0 0.

Definition repo : ClientRepository unit := {|
  FindByClientID id := ret (if String.eqb id "web" then Some web else None);
  HasPostLogoutRedirectURI _ _ := ret false;
  CreateClient m := ret m;
  RegisterRedirectURIs _ _ := ret 0;
  RegisterPostLogoutRedirectURIs _ _ := ret 0;
|}.

Definition passwords : PasswordVerifier unit := {|
  HashPassword p := ret p;
  VerifyPassword p h := String.eqb h "hash" && String.eqb p "s:ecret";
|}.

Definition service : Service unit :=
  NewService (Some repo) (Some (server_registry (Some passwords))).
Definition input : AuthenticateInput :=
  mkAuthenticateInput ("Basic " +:+ EncodeToString "web:s:ecret") "" "".
End ClientAuthDemo.

Lemma authentication_not_downgraded_witness :
  exists r w', Authenticate ClientAuthDemo.service ClientAuthDemo.input tt = (Ok r, w') /\
    cr_Method r = ClientAuthMethodClientSecretBasic.
Proof.
  provide_run (Authenticate ClientAuthDemo.service ClientAuthDemo.input tt).
  assert (H : Authenticate ClientAuthDemo.service ClientAuthDemo.input tt = _) by run_is.
  split; [exact H|].
  destruct (authentication_not_downgraded ClientAuthDemo.service (Some ClientAuthDemo.passwords)
              _ _ _ _ eq_refl H) as (repo & c & Hrepo & Hf & _ & _ & Hm & _).
  injection Hrepo as <-. rewrite Hm. injection Hf as <-. reflexivity.
Defined.

Lemma basic_header_round_trip_witness :
  extractClientID ("Basic " +:+ EncodeToString (" web " +:+ String ":" "s:ecret")) "other" = "web".
Proof. exact (proj1 (basic_header_round_trip " web " "s:ecret" "other" eq_refl)). Defined.
