(* ===== verification/ClientSystem.v ===== *)
(** * Client administration over the database, and the client that comes back

    The administration service (ClientService) over the client tables
    (ClientRepo), and the same client at the token endpoint (ClientAuth). *)

From stdpp Require Import base tactics list gmap strings numbers relations sorting.
From Stdlib Require Import ZArith Lia Ascii.
From S2P Require Import Prelude GoStrings GoCrypto GoText GoUrl GoNetUrl GoBase64 GoTime Errors Domain Ports Remote Database ClientRepo ClientService ClientAuth.

(** The header a client that knows its secret sends. *)
Definition basic_request (id secret : string) : AuthenticateInput :=
  mkAuthenticateInput ("Basic " +:+ EncodeToString (id +:+ String ":" secret)) "" "".

Section System.
Context {W D : Type} `{!Columns D} `{!Schema D} (repo : ClientRepo W D) (h : Remote W D).
Hypothesis on_writer : writer repo = Some h.
Hypothesis on_reader : reader repo = Some h.
Hypothesis transport_clients : forall w, rtc client_step (server w) (server (transport w).2).

(** The password hash: what it hashed, it verifies; while it works, others
    use the tables. *)
Context (pw : PasswordVerifier W).
Hypothesis hash_verifies : forall p w hash w', HashPassword pw p w = (Ok hash, w') -> VerifyPassword pw p hash = true.
Hypothesis hash_steps : forall p w, rtc client_step (server w) (server (HashPassword pw p w).2).

Definition admin : ClientService.Service W := ClientService.NewService (NewClientRepository repo) (Some pw).
Definition token_endpoint_auth : ClientAuth.Service W :=
  ClientAuth.NewService (Some (NewClientRepository repo)) (Some (server_registry (Some pw))).

Lemma run_reader_steps {A} (m : IO D A) w : query m -> rtc client_step (server w) (server (run_on (reader repo) m w).2).
Proof.
  intros Hq. unfold run_on. rewrite on_reader. unfold call. generalize (max_retries w) as n. intros n. revert w.
  induction n as [|n IH]; intros w; cbn [round_trips]; pose proof (transport_clients w) as Hw; destruct (transport w) as [[|e|e] w1]; cbn [snd] in Hw.
  1, 3, 4, 6: destruct (m (server w1)) as [x r] eqn:E; apply Hq in E.
  all: try (cbn [snd]; rewrite ?server_put; eapply rtc_r; [exact Hw | exact E]); try exact Hw.
  - etrans; [|apply IH]. rewrite server_put. by eapply rtc_r.
  - etrans; [exact Hw | apply IH].
Qed.

(** Programs that do nothing to the tables but what others do. *)
Definition tracks {A} (m : IO W A) : Prop := forall w, rtc client_step (server w) (server (m w).2).

Lemma tracks_bind {A B} (m : IO W A) (k : A -> IO W B) : tracks m -> (forall a, tracks (k a)) -> tracks (bind m k).
Proof.
  intros Hm Hk w. specialize (Hm w). unfold bind. destruct (m w) as [[a|e] w1]; [etrans; [exact Hm | apply Hk] | exact Hm].
Qed.

Lemma tracks_run {A} (m : IO W A) w o w' : tracks m -> m w = (o, w') -> rtc client_step (server w) (server w').
Proof. intros Hm Hx. specialize (Hm w). by rewrite Hx in Hm. Qed.

Lemma tracks_query {A} (m : IO D A) : query m -> tracks (run_on (reader repo) m).
Proof. intros Hq w. by apply run_reader_steps. Qed.

(** Looking a client up changes nothing. *)
Lemma tracks_values (row : client_row) : tracks (
  let* redirectURIs := run_on (reader repo) (selectRedirectURIs (c_id row)) in
  let* grantTypes := run_on (reader repo) (selectValues GrantTypeRows (c_id row)) in
  let* authMethods := run_on (reader repo) (selectValues AuthMethodRows (c_id row)) in
  let* scopes := run_on (reader repo) (selectValues ScopeRows (c_id row)) in
  ret (Some (scan_client row redirectURIs grantTypes authMethods scopes))).
Proof.
  apply tracks_bind; [apply tracks_query, (SELECT_query (URIs RedirectRows) _ (fun l => List.map r_redirect_uri (merge_sort by_key l)))|]. intros ?.
  do 3 (apply tracks_bind; [apply tracks_query; eapply (SELECT_query (Values _) _ (fun l => List.map v_value (merge_sort by_key l)))|]; intros ?).
  by intros w.
Qed.

Lemma tracks_find c : tracks (ClientRepo.FindByClientID repo c).
Proof.
  apply tracks_bind; [apply tracks_query, (SELECT_query Clients _ head)|]. intros [row|]; [apply tracks_values | by intros w].
Qed.

(** The client that was created, where it is stored. *)
Lemma admin_created input w res w1 : no_orphans (server w) -> ClientService.CreateClient admin input w = (Ok res, w1) ->
  exists m, stored m (server w1) /\ created_result m = res /\ well_formed m = true /\
    (client.ClientType m = "confidential" -> (8 <= String.length (TrimSpace (in_ClientSecret input)))%nat /\
       exists wa wb, HashPassword pw (TrimSpace (in_ClientSecret input)) wa = (Ok (client.ClientSecretHash m), wb)).
Proof.
  intros Ho Hx. apply CreateClient_Ok in Hx as (w2 & w3 & m & m' & Hf & Hwf & Hc & -> & Hh).
  assert (Ho3 : no_orphans (server w3)).
  { apply (tracks_run _ _ _ _ (tracks_find _)) in Hf. destruct Hh as [[_ ->]|(p & [= <-] & Hh & _)]; [by eapply client_steps_later|].
    eapply client_steps_later; [|exact Ho]. etrans; [exact Hf|]. pose proof (hash_steps (TrimSpace (in_ClientSecret input)) w2) as Hs. by rewrite Hh in Hs. }
  change (ClientRepo.CreateClient repo m w3 = (Ok m', w1)) in Hc. unfold ClientRepo.CreateClient, run_on in Hc. rewrite on_writer in Hc.
  apply (call_Ok_steps client_step) in Hc as (w4 & d & Hst & Hc & <-); [|exact transport_clients|].
  2: { intros d. apply rtc_once. destruct (transaction (create_client_tx m) d) as [o d'] eqn:Ht. by eapply step_created. }
  apply created_stored in Hc as [Hs [id ->]]; [|by eapply client_steps_later]. exists (with_id m id).
  split; [exact Hs|]. split; [done|]. split; [exact Hwf|]. intros Ht. change (client.ClientType m = "confidential") in Ht.
  destruct Hh as [[Hp _]|(p & [= <-] & Hh & Hlen)]; [by rewrite Hp in Ht|]. split; [exact Hlen|]. by eexists _, _.
Qed.

Lemma well_formed_id m : well_formed m = true -> TrimSpace (client.ClientID m) = client.ClientID m /\ client.ClientID m <> "".
Proof.
  unfold well_formed. rewrite !andb_true_iff. intros H. assert (Hid : clientIDPattern (client.ClientID m) = true) by tauto.
  unfold clientIDPattern in Hid. rewrite !andb_true_iff in Hid. destruct Hid as [[Hv Hl] _]. split.
  - apply TrimSpace_visible. eapply forall_string_impl; [|exact Hv]. intros a Ha. unfold is_alpha, is_digit, visible in *. lia.
  - intros E. by rewrite E in Hl.
Qed.

Lemma well_formed_method m : well_formed m = true -> client.ClientType m = "confidential" ->
  client.TokenEndpointAuthMethod m = "client_secret_basic" \/ client.TokenEndpointAuthMethod m = "client_secret_post".
Proof.
  unfold well_formed. rewrite !andb_true_iff. intros H Hm. assert (Ht : (String.eqb (client.ClientType m) "public" && String.eqb (client.TokenEndpointAuthMethod m) "none" && client.RequirePKCE m &&
     String.eqb (client.ClientSecretHash m) "" ||
   String.eqb (client.ClientType m) "confidential" &&
     (String.eqb (client.TokenEndpointAuthMethod m) "client_secret_basic" || String.eqb (client.TokenEndpointAuthMethod m) "client_secret_post")) = true) by tauto.
  rewrite Hm in Ht. cbn [String.eqb Ascii.eqb Bool.eqb andb orb] in Ht. by rewrite orb_true_iff, !String.eqb_eq in Ht.
Qed.

(** The basic method's answer to a well-formed header. *)
Lemma basic_answer (c : client.Model) header secret w :
  HasPrefix header "Basic " = true -> basic_parts header = Some (client.ClientID c, secret) ->
  TrimSpace (client.ClientID c) = client.ClientID c -> client.ClientID c <> "" ->
  basic_Authenticate (Some pw) (mkClientAuthenticateInput (Some c) header "" "") w =
    (if VerifyPassword pw secret (client.ClientSecretHash c)
     then Ok (Some (mkClientAuthenticateResult (client.ClientID c) secret ClientAuthMethodClientSecretBasic))
     else Err (Token ErrInvalidClient), w).
Proof.
  intros Hpre Hparts Htrim Hne. unfold basic_Authenticate. cbn [ca_Client ca_AuthorizationHeader ca_ClientID ca_ClientSecret].
  rewrite !some_or_run, !guard_run, Hparts, some_or_run by done. cbn [fst snd]. rewrite Htrim, guard_run.
  - destruct (VerifyPassword pw secret (client.ClientSecretHash c)); reflexivity.
  - by rewrite (proj2 (String.eqb_neq _ _) Hne), String.eqb_refl.
Qed.

(** The post method's answer to a request without a header. *)
Lemma post_answer (c : client.Model) secret w : TrimSpace (client.ClientID c) = client.ClientID c -> client.ClientID c <> "" ->
  post_Authenticate (Some pw) (mkClientAuthenticateInput (Some c) "" (client.ClientID c) secret) w =
    (if negb (String.eqb secret "") && VerifyPassword pw secret (client.ClientSecretHash c)
     then Ok (Some (mkClientAuthenticateResult (client.ClientID c) secret ClientAuthMethodClientSecretPost))
     else Err (Token ErrInvalidClient), w).
Proof.
  intros Htrim Hne. unfold post_Authenticate. cbn [ca_Client ca_AuthorizationHeader ca_ClientID ca_ClientSecret].
  rewrite !some_or_run, guard_run by done. rewrite Htrim, (proj2 (String.eqb_neq _ _) Hne), String.eqb_refl.
  destruct (String.eqb secret ""); [reflexivity|]. rewrite guard_run by done. destruct (VerifyPassword pw secret (client.ClientSecretHash c)); reflexivity.
Qed.

(** How a client that is registered for [method] sends a secret, and whether
    the method takes it as one. *)
Definition sent_by (method id secret : string) : AuthenticateInput :=
  if String.eqb method "client_secret_post" then mkAuthenticateInput "" id secret else basic_request id secret.
Definition is_secret (method secret : string) : bool := negb (String.eqb method "client_secret_post" && String.eqb secret "").

(** C17. A confidential client gets in with its secret and with no other:
    after an administrator created one that is active, whatever others then
    do to the client tables, the token endpoint's authentication answers this
    id with any secret, sent by the method the client is registered with,
    Basic or post, when it can read the tables, by verifying that secret
    against the stored hash, which is what the password hash made of the
    secret the client was created with, without surrounding spaces: it
    accepts it as this client, or refuses it with invalid_client; that secret
    itself is accepted.  Of an id with a colon the Basic method sees only a
    part, so there the id must have none; and the post method takes no empty
    secret. *)
Theorem created_client_authenticates input w res w1 w2 secret o w3 :
  no_orphans (server w) -> ClientService.CreateClient admin input w = (Ok res, w1) -> rtc client_step (server w1) (server w2) ->
  out_ClientType res = "confidential" -> out_Status res = "active" ->
  (out_TokenEndpointAuthMethod res = "client_secret_basic" -> forall_string (fun a => negb (Ascii.eqb a ":")) (out_ClientID res) = true) ->
  ClientRepo.FindByClientID repo (out_ClientID res) w2 = (Ok o, w3) ->
  let method := out_TokenEndpointAuthMethod res in
  let own := TrimSpace (in_ClientSecret input) in
  exists f, o = Some f /\ (exists wa wb, HashPassword pw own wa = (Ok (client.ClientSecretHash f), wb)) /\
    is_secret method own && VerifyPassword pw own (client.ClientSecretHash f) = true /\
    Authenticate token_endpoint_auth (sent_by method (out_ClientID res) secret) w2 =
      (if is_secret method secret && VerifyPassword pw secret (client.ClientSecretHash f)
       then Ok (mkClientAuthenticateResult (out_ClientID res) secret method)
       else Err (Token ErrInvalidClient), w3).
Proof.
  intros Ho Hc Hst Htype Hstatus Hcolon Hfind. apply admin_created in Hc as (m & Hs & <- & Hwf & Hsecret); [|exact Ho].
  cbn [created_result out_TokenEndpointAuthMethod out_Status out_ClientID out_ClientType] in *. cbv zeta.
  apply (stored_steps _ _ _ Hst) in Hs.
  destruct (FindByClientID_stored repo h on_reader transport_clients m _ _ _ _ Hs (collate_refl _) Hfind) as (f & -> & _ & Hset & Hv & _).
  unfold settings in Hset. injection Hset as Hid _ Hhash _ Hmeth _ _ _ _ _ Hstat.
  destruct (well_formed_id m Hwf) as [Htrim Hne]. destruct (Hsecret Htype) as (Hlen & wa & wb & Hh). exists f. rewrite Hhash.
  split; [done|]. split; [by exists wa, wb|]. split.
  { rewrite (hash_verifies _ _ _ _ Hh). unfold is_secret. destruct (String.eqb_spec (TrimSpace (in_ClientSecret input)) "") as [He|_]; [rewrite He in Hlen; cbn in Hlen; lia|].
    by rewrite andb_false_r. }
  assert (Hread : forall A (k : option client.Model -> IO W A), bind (Ports.FindByClientID (NewClientRepository repo) (client.ClientID m)) k w2 = k (Some f) w3).
  { intros A k. exact (bind_run _ _ _ _ _ (Hfind : Ports.FindByClientID (NewClientRepository repo) _ _ = _)). }
  destruct (well_formed_method m Hwf Htype) as [Hmethod|Hmethod]; rewrite Hmethod in *;
    unfold Authenticate, token_endpoint_auth, sent_by, is_secret; cbn [String.eqb Ascii.eqb Bool.eqb andb negb].
  - destruct (basic_header_round_trip (client.ClientID m) secret "" (Hcolon eq_refl)) as [Hext Hparts].
    unfold basic_request. set (header := "Basic " +:+ EncodeToString (client.ClientID m +:+ String ":" secret)) in *.
    cbn [clients registry ai_AuthorizationHeader ai_ClientID ai_ClientSecret].
    rewrite Hext, Htrim, (proj2 (String.eqb_neq _ _) Hne).
    rewrite !some_or_run, guard_run by done. rewrite Hread, some_or_run, Hstat, Hstatus, guard_run by done. rewrite Hmeth.
    change (normalizeClientAuthMethod "client_secret_basic" (client.AuthMethods f)) with ClientAuthMethodClientSecretBasic.
    change (Registry_Get (server_registry (Some pw)) ClientAuthMethodClientSecretBasic) with (Some (basic_authenticator (Some pw))).
    rewrite some_or_run. unfold bind at 1. cbn [basic_authenticator Plugin_Authenticate].
    rewrite (basic_answer f header secret w3); [|apply HasPrefix_append|by rewrite Hid | by rewrite Hid | by rewrite Hid].
    rewrite Hhash, Hid. destruct (VerifyPassword pw secret (client.ClientSecretHash m)); [|done].
    rewrite some_or_run, guard_run, guard_run; [done | apply String.eqb_refl|].
    cbn [cr_ClientID]. apply negb_true_iff, String.eqb_neq. by rewrite Htrim.
  - cbn [clients registry ai_AuthorizationHeader ai_ClientID ai_ClientSecret].
    change (extractClientID "" (client.ClientID m)) with (TrimSpace (client.ClientID m)). rewrite Htrim, (proj2 (String.eqb_neq _ _) Hne).
    rewrite !some_or_run, guard_run by done. rewrite Hread, some_or_run, Hstat, Hstatus, guard_run by done. rewrite Hmeth.
    change (normalizeClientAuthMethod "client_secret_post" (client.AuthMethods f)) with ClientAuthMethodClientSecretPost.
    change (Registry_Get (server_registry (Some pw)) ClientAuthMethodClientSecretPost) with (Some (post_authenticator (Some pw))).
    rewrite some_or_run. unfold bind at 1. cbn [post_authenticator Plugin_Authenticate].
    rewrite <- Hid at 1. rewrite (post_answer f secret w3); [|by rewrite Hid | by rewrite Hid].
    rewrite Hhash, Hid. destruct (negb (String.eqb secret "") && VerifyPassword pw secret (client.ClientSecretHash m)); [|done].
    rewrite some_or_run, guard_run, guard_run; [done | apply String.eqb_refl|].
    cbn [cr_ClientID]. apply negb_true_iff, String.eqb_neq. by rewrite Htrim.
Qed.

(** ** Where a logout may send the browser *)

(** An active client that this id finds has registered this address. *)
Definition registered_post_logout (d : D) (clientID uri : string) : Prop :=
  exists i (c : client_row) j (r : uri_row PostLogoutRows),
    rows (Table := tables Clients) d !! i = Some c /\ c_status c = "active" /\ collate (D := D) (c_client_id c) clientID = true /\
    rows (Table := tables (URIs PostLogoutRows)) d !! j = Some r /\ r_client_id r = i /\
    collate (D := D) (r_redirect_uri_sha256 r) (sha256_hex uri) = true.

Lemma find_row c w m w' : ClientRepo.FindByClientID repo c w = (Ok (Some m), w') ->
  exists d r, rows (Table := tables Clients) d !! c_id r = Some r /\ collate (D := D) (c_client_id r) c = true /\
    client.ID m = c_id r /\ client.Status m = c_status r /\ rtc client_step d (server w').
Proof.
  intros Hx. unfold ClientRepo.FindByClientID in Hx. run Hx as row w1 Hf.
  apply (run_reader repo h on_reader transport_clients) in Hf as (d & _ & Hf & H1); [|intros ?; apply (SELECT_query Clients _ head)].
  destruct row as [row|]; [|by apply ret_Ok in Hx as [? _]].
  pose proof (tracks_run _ _ _ _ (tracks_values row) Hx) as Hst.
  run Hx as l1 w2 Hq1. run Hx as l2 w3 Hq2. run Hx as l3 w4 Hq3. run Hx as l4 w5 Hq4. apply ret_Ok in Hx as [[= <-] _].
  unfold findByClientID in Hf. run Hf as l d1 Hs. apply ret_Ok in Hf as [Hl Hd1]. destruct l as [|r l]; [done|]. injection Hl as ->.
  destruct (proj1 (SELECT_Ok _ _ _ _ Hs row) ltac:(by left)) as [Hcol [i Hr]].
  assert (i = c_id row) as -> by (symmetry; exact (rows_keyed (Table := tables Clients) d i row Hr)).
  exists d, row. split; [exact Hr|]. split; [exact Hcol|]. split; [done|]. split; [done|]. by etrans.
Qed.

(** What ValidatePostLogoutRedirectURI accepts, an active client registered. *)
Lemma validated_registered clientID uri w r w' : ValidatePostLogoutRedirectURI admin clientID uri w = (Ok r, w') ->
  val_RedirectURI r = TrimSpace uri /\
  exists d, rtc client_step (server w) d /\ registered_post_logout d (TrimSpace clientID) (TrimSpace uri).
Proof.
  unfold ValidatePostLogoutRedirectURI. cbv zeta. intros Hx. run_guard Hx as Hne. run Hx as found w1 Hf. run_some Hx as m Hm. subst found.
  run_guard Hx as Hact. run Hx as b w2 Hp. run_guard Hx as Hb. apply ret_Ok in Hx as [<- _]. split; [done|]. subst b.
  change (ClientRepo.FindByClientID repo (TrimSpace clientID) w = (Ok (Some m), w1)) in Hf.
  pose proof (tracks_run _ _ _ _ (tracks_find _) Hf) as Hst. apply find_row in Hf as (d & c & Hc & Hcol & Hid & Hstat & Hd).
  change (HasPostLogoutRedirectURI repo (client.ID m) (TrimSpace uri) w1 = (Ok true, w2)) in Hp.
  apply (run_reader repo h on_reader transport_clients) in Hp as (d2 & Hd2 & Hp & _);
    [|intros ?; apply (SELECT_query (URIs PostLogoutRows) _ (fun l => match l with [] => false | _ => true end))].
  exists d2. split; [by etrans|]. unfold selectPostLogout in Hp. run Hp as l d3 Hs. apply ret_Ok in Hp as [Hl _]. destruct l as [|u l]; [done|].
  destruct (proj1 (SELECT_Ok _ _ _ _ Hs u) ltac:(by left)) as [Hu [j Hj]]. apply andb_true_iff in Hu as [Hu1%Z.eqb_eq Hu2].
  exists (c_id c), c, j, u. split; [|split; [by rewrite <- Hstat; apply String.eqb_eq|]].
  - eapply lookup_weaken; [exact Hc|]. apply (proj1 (proj1 (client_steps_later d d2 ltac:(by etrans))) Clients).
  - split; [exact Hcol|]. split; [exact Hj|]. split; [congruence | exact Hu2].
Qed.
End System.

(** ** At work *)

Module AdminDemo.
Import ClientDemo.

Definition pw : PasswordVerifier database := {|
  HashPassword := fun p => ret ("hash of " +:+ p);
  VerifyPassword := fun p h => String.eqb h ("hash of " +:+ p);
|}.

Definition admin : ClientService.Service database := admin repo pw.

Definition shop : CreateClientInput :=
  mkCreateClientInput " shop.example " "The Shop" " s3cret:with colon " "" "" None (Some false) 0 (-5) 0
    ["authorization_code"; " Refresh_Token "; "authorization_code"] ["openid"; ""; "orders"; "openid"]
    ["https://shop.example/cb "] ["https://shop.example/bye"] "".

Definition created : result error CreateClientResult * database := ClientService.CreateClient admin shop empty.
Definition later_on : database := (ClientRepo.CreateClient repo cli created.2).2.
End AdminDemo.
Import ClientDemo AdminDemo.

Example created_shop : created.1 = Ok (mkCreateClientResult "shop.example" "The Shop" "confidential" "client_secret_basic" true false
  3600 2592000 3600 ["authorization_code"; "refresh_token"] ["client_secret_basic"] ["openid"; "orders"]
  ["https://shop.example/cb"] ["https://shop.example/bye"] "active").
Proof. vm_compute. reflexivity. Qed.

Lemma created_client_authenticates_witness : exists w3,
  Authenticate (token_endpoint_auth ClientDemo.repo pw) (basic_request "shop.example" "s3cret:with colon") later_on =
    (Ok (mkClientAuthenticateResult "shop.example" "s3cret:with colon" ClientAuthMethodClientSecretBasic), w3).
Proof.
  destruct (ClientRepo.FindByClientID ClientDemo.repo "shop.example" later_on) as [o w3] eqn:Hf.
  assert (Hok : match o with Ok _ => true | Err _ => false end = true) by (apply (f_equal fst) in Hf; cbn [fst] in Hf; rewrite <- Hf; vm_compute; reflexivity).
  destruct o as [o|]; [|discriminate]. exists w3.
  destruct (created_client_authenticates ClientDemo.repo ClientDemo.remote eq_refl eq_refl (fun w => rtc_refl _ _) pw
    (fun p w hash w' Hx => ltac:(apply ret_Ok in Hx as [<- _]; apply String.eqb_refl)) (fun p w => rtc_refl _ _)
    shop ClientDemo.empty _ created.2 later_on "s3cret:with colon" o w3
    ltac:(by intros t i r Hr) (eq_trans (surjective_pairing created) (f_equal (fun x => (x, created.2)) created_shop))
    ltac:(apply rtc_once; eapply (step_created ClientDemo.cli); apply surjective_pairing) eq_refl eq_refl (fun _ => eq_refl) Hf) as (f & _ & _ & Hv & Ha).
  change (TrimSpace (in_ClientSecret shop)) with "s3cret:with colon" in Hv. rewrite Hv in Ha. exact Ha.
Defined.
