(* ===== verification/BrowserLogout.v ===== *)
(** * Logging out from the browser (logout_handler.go, logout_all_handler.go, end_session_handler.go)

    Three forms end sessions: this one, all of the user's, and the one a
    relying party asks for, which may send the browser back to it.  A form is
    the dto that gin's [ShouldBind] filled in, [None] when it refused. *)

From stdpp Require Import base tactics list gmap strings numbers relations.
From Stdlib Require Import ZArith Lia Ascii.
From S2P Require Import Prelude GoStrings GoText GoNetUrl GoTime Errors Domain Ports Browser HttpRedirects SessionService ClientService Remote Database ClientRepo ClientSystem.

(** dto/logout.go, dto/end_session.go *)
Record LogoutRequest := mkLogoutRequest { lr_ReturnTo : string; lr_CSRFToken : string }.
Record EndSessionRequest := mkEndSessionRequest { es_ClientID : string; es_PostLogoutRedirectURI : string; es_State : string; es_CSRFToken : string }.

Section Handlers.
Context {W : Type} `{!Runtime W}.

(** appsession.Manager *)
Record Manager := mkManager {
  m_Logout : string -> IO W LogoutResult;
  m_LogoutAll : string -> IO W LogoutAllResult;
  m_AdminLogoutUser : Z -> IO W LogoutAllResult;
}.

(** appclient.LogoutRedirectValidator *)
Definition LogoutRedirectValidator : Type := string -> string -> IO W ValidatePostLogoutRedirectURIResult.

Definition accepts_html (rq : request) : bool := Contains (ToLower (rq_header rq "Accept")) "text/html".

(** The end of a logout: to [returnTo], to the login page, or an answer. *)
Definition logged_out (rq : request) (returnTo : string) (answer : fields) : response :=
  if negb (String.eqb returnTo "") then redirect [clear_session] returnTo
  else if accepts_html rq then redirect [clear_session] "/login"
  else mkResponse StatusOK [clear_session] (JSON answer).

(** What the two logout forms check first; the validated return_to. *)
Definition logout_checks (rq : request) (form : option LogoutRequest) : result response string :=
  match form with
  | None => Err (json_error [] StatusBadRequest "invalid logout request")
  | Some req =>
      match validateLocalRedirectTarget (lr_ReturnTo req) with
      | None => Err (json_error [] StatusBadRequest invalid_return_to)
      | Some returnTo => if validateCSRFToken rq (lr_CSRFToken req) then Ok returnTo else Err (writeCSRFError rq)
      end
  end.

(** LogoutHandler.Handle *)
Definition handleLogout (service : option Manager) (rq : request) (form : option LogoutRequest) : IO W response :=
  match logout_checks rq form with
  | Err refused => ret refused
  | Ok returnTo =>
      let answer := logged_out rq returnTo [("logged_out", Bool true)] in
      match service with
      | None => ret answer
      | Some service =>
          let* outcome := attempt (m_Logout service (rq_cookie rq session_cookie)) in
          ret match outcome with Err _ => json_error [] StatusInternalServerError "logout failed" | Ok _ => answer end
      end
  end.

(** LogoutAllHandler.Handle *)
Definition handleLogoutAll (service : option Manager) (rq : request) (form : option LogoutRequest) : IO W response :=
  match logout_checks rq form with
  | Err refused => ret refused
  | Ok returnTo =>
      let answer (r : LogoutAllResult) := logged_out rq returnTo
        [("logged_out_all", Bool true); ("revoked_session_count", Int (la_RevokedSessionCount r));
         ("revoked_access_tokens", Int (la_RevokedAccessTokens r)); ("revoked_refresh_tokens", Int (la_RevokedRefreshTokens r))] in
      match service with
      | None => ret (answer (mkLogoutAllResult "" "" 0 0 0))
      | Some service =>
          let* outcome := attempt (m_LogoutAll service (rq_cookie rq session_cookie)) in
          ret match outcome with Err _ => json_error [] StatusInternalServerError "logout all failed" | Ok r => answer r end
      end
  end.

(** ** end_session_handler.go *)

Definition errInvalidEndSessionRequest : error := Driver "invalid end session request".

Record EndSessionHandler := NewEndSessionHandler {
  es_service : option Manager;
  redirectValidator : option LogoutRedirectValidator;
}.

Definition validateRedirect (h : EndSessionHandler) (req : EndSessionRequest) : IO W string :=
  let clientID := TrimSpace (es_ClientID req) in
  let redirectURI := TrimSpace (es_PostLogoutRedirectURI req) in
  let state := TrimSpace (es_State req) in
  if String.eqb redirectURI "" then
    do* guard (String.eqb clientID "" && String.eqb state "") errInvalidEndSessionRequest in ret ""
  else
    do* guard (negb (String.eqb clientID "")) errInvalidEndSessionRequest in
    let* validate := some_or (redirectValidator h) errInvalidEndSessionRequest in
    let* result := validate clientID redirectURI in
    ret (val_RedirectURI result).

Definition endSessionErrorMessage (e : error) : string :=
  if bool_decide (e = errInvalidEndSessionRequest) then error_text errInvalidEndSessionRequest
  else if bool_decide (e = Client ClientErrInvalidRedirectURI) || bool_decide (e = Client ClientErrClientNotFound)
  then "invalid post_logout_redirect_uri" else "logout request rejected".

(** endSessionPageData without its token *)
Definition end_session_page (clientID redirectURI state text : string) : fields :=
  [("ClientID", Str clientID); ("PostLogoutRedirectURI", Str redirectURI); ("State", Str state); ("Error", Str text)].

Definition es_renderPage (rq : request) (status : Z) (token : string) (data : fields) : IO W response :=
  strict_page "logout.html" rq [] status token data.

Definition writeRequestError (rq : request) (status : Z) (req : EndSessionRequest) (e : error) : IO W response :=
  if wantsHTML rq then
    es_renderPage rq status ""
      (end_session_page (TrimSpace (es_ClientID req)) (TrimSpace (es_PostLogoutRedirectURI req)) (TrimSpace (es_State req)) (endSessionErrorMessage e))
  else ret (json_error [] status (endSessionErrorMessage e)).

Definition EndSessionGet (h : EndSessionHandler) (rq : request) : IO W response :=
  let req := mkEndSessionRequest (query_value rq "client_id") (query_value rq "post_logout_redirect_uri") (query_value rq "state") "" in
  let* validated := attempt (validateRedirect h req) in
  match validated with
  | Err e => writeRequestError rq StatusBadRequest req e
  | Ok validatedRedirect =>
      let* issued := attempt (ensureCSRFToken rq) in
      match issued with
      | Err _ => ret (json_error [] StatusInternalServerError "failed to generate csrf token")
      | Ok (csrfToken, set) =>
          if wantsHTML rq then
            let* page := es_renderPage rq StatusOK csrfToken
              (end_session_page (TrimSpace (es_ClientID req)) validatedRedirect (TrimSpace (es_State req)) "") in
            ret (mkResponse (rs_status page) (set ++ rs_cookies page) (rs_body page))
          else ret (mkResponse StatusOK set (JSON
            [("endpoint", Str "end_session"); ("action", Str "/connect/logout"); ("client_id", Str (TrimSpace (es_ClientID req)));
             ("post_logout_redirect_uri", Str (TrimSpace (es_PostLogoutRedirectURI req))); ("state", Str (TrimSpace (es_State req)));
             ("csrf_token", Str csrfToken);
             ("message", Str "submit POST /connect/logout from the browser context to end the IdP session")]))
      end
  end.

Definition no_end_session : EndSessionRequest := mkEndSessionRequest "" "" "" "".

(** After the checks: the session ends, and the browser is sent on. *)
Definition end_session (h : EndSessionHandler) (rq : request) (validatedRedirect state : string) : IO W response :=
  let answer :=
    if negb (String.eqb validatedRedirect "") then redirect [clear_session] (buildPostLogoutRedirect validatedRedirect (TrimSpace state))
    else if wantsHTML rq then redirect [clear_session] "/login"
    else mkResponse StatusOK [clear_session] (JSON [("logged_out", Bool true)]) in
  match es_service h with
  | None => ret answer
  | Some service =>
      let* outcome := attempt (m_Logout service (rq_cookie rq session_cookie)) in
      ret match outcome with Err _ => json_error [] StatusInternalServerError "logout failed" | Ok _ => answer end
  end.

Definition EndSessionPost (h : EndSessionHandler) (rq : request) (form : option EndSessionRequest) : IO W response :=
  match form with
  | None => writeRequestError rq StatusBadRequest no_end_session errInvalidEndSessionRequest
  | Some req =>
      let* validated := attempt (validateRedirect h req) in
      match validated with
      | Err e => writeRequestError rq StatusBadRequest req e
      | Ok validatedRedirect =>
          if validateCSRFToken rq (es_CSRFToken req) then end_session h rq validatedRedirect (es_State req) else
          if wantsHTML rq then
            es_renderPage rq StatusForbidden ""
              (end_session_page (TrimSpace (es_ClientID req)) validatedRedirect (TrimSpace (es_State req)) invalid_csrf_token)
          else ret (writeCSRFError rq)
      end
  end.
End Handlers.
Arguments Manager W : clear implicits.
Arguments LogoutRedirectValidator W : clear implicits.
Arguments EndSessionHandler W : clear implicits.
