(* ===== verification/BrowserConsent.v ===== *)
(** * The consent page and the device page (consent_handler.go, device_verification_handler.go)

    A signed-in user grants scopes to a client, or lets a device in.  The GET
    shows what is asked; the POST decides, behind the form token. *)

From stdpp Require Import base tactics list strings numbers.
From Stdlib Require Import ZArith Lia Ascii.
From S2P Require Import Prelude GoStrings GoText GoUrl GoNetUrl GoTime Errors Domain Ports Browser HttpRedirects.
From S2P Require DeviceService ConsentService.

(** dto/consent.go, dto/device.go *)
Record ConsentDecisionRequest := mkConsentDecision { cd_Action : string; cd_ReturnTo : string; cd_CSRFToken : string }.
Record DeviceVerifyRequest := mkDeviceVerify { dv_UserCode : string; dv_Action : string; dv_CSRFToken : string }.

Section Handlers.
Context {W : Type} `{!Runtime W}.

(** appconsent.Manager *)
Record ConsentManager := mkConsentManager {
  c_Prepare : string -> string -> IO W ConsentService.PrepareResult;
  c_Decide : string -> string -> string -> IO W string;
}.

(** ** consent_handler.go *)

(** consentPageData without its token *)
Definition consent_page (clientID clientName : string) (scopes : list string) (returnTo text : string) : fields :=
  [("ClientID", Str clientID); ("ClientName", Str clientName); ("Scopes", Strs scopes); ("ReturnTo", Str returnTo); ("Error", Str text)].

Definition renderConsentPage (rq : request) (cookies : list cookie) (status : Z) (token : string) (data : fields) : IO W response :=
  strict_page "consent.html" rq cookies status token data.

Definition consent_writeError (rq : request) (e : error) (returnTo : string) : response :=
  match e with
  | Consent ConsentErrLoginRequired => redirect [] (withReturnTo "/login" (RequestURI (rq_URL rq)))
  | Consent ConsentErrInvalidReturnTo | Consent ConsentErrInvalidClient | Consent ConsentErrInvalidScope | Consent ConsentErrInvalidAction =>
      mkResponse StatusBadRequest [] (JSON [("error", Str (error_text e)); ("return_to", Str returnTo)])
  | _ => json_error [] StatusInternalServerError "consent processing failed"
  end.

Definition writeCSRFFailure (service : ConsentManager) (rq : request) (returnTo sessionID : string) : IO W response :=
  if wantsHTML rq then
    let* prepared := attempt (c_Prepare service returnTo sessionID) in
    let text := "CSRF validation failed." in
    renderConsentPage rq [] StatusForbidden ""
      match prepared with
      | Ok r => consent_page (ConsentService.pr_ClientID r) (ConsentService.pr_ClientName r) (ConsentService.pr_Scopes r) (ConsentService.pr_ReturnTo r) text
      | Err _ => consent_page "" "" [] returnTo text
      end
  else ret (mkResponse StatusForbidden [] (JSON [("error", Str invalid_csrf_token); ("return_to", Str returnTo)])).

Definition consent_get (service : ConsentManager) (rq : request) (sessionID : string) : IO W response :=
  let returnTo := query_value rq "return_to" in
  let* prepared := attempt (c_Prepare service returnTo sessionID) in
  match prepared with
  | Err e => ret (consent_writeError rq e returnTo)
  | Ok r =>
      let* issued := attempt (ensureCSRFToken rq) in
      match issued with
      | Err _ => ret (json_error [] StatusInternalServerError "failed to generate csrf token")
      | Ok (csrfToken, set) =>
          if wantsHTML rq then
            renderConsentPage rq set StatusOK csrfToken
              (consent_page (ConsentService.pr_ClientID r) (ConsentService.pr_ClientName r) (ConsentService.pr_Scopes r) (ConsentService.pr_ReturnTo r) "")
          else ret (mkResponse StatusOK set (JSON
            [("endpoint", Str "consent"); ("client_id", Str (ConsentService.pr_ClientID r)); ("client_name", Str (ConsentService.pr_ClientName r));
             ("scopes", Strs (ConsentService.pr_Scopes r)); ("csrf_token", Str csrfToken); ("return_to", Str (ConsentService.pr_ReturnTo r));
             ("message", Str "submit action=accept or action=deny")]))
      end
  end.

Definition handleConsent (service : ConsentManager) (rq : request) (form : option ConsentDecisionRequest) : IO W response :=
  let sessionID := rq_cookie rq session_cookie in
  if rq_GET rq then consent_get service rq sessionID else
  match form with
  | None => ret (json_error [] StatusBadRequest "invalid consent request")
  | Some req =>
      if negb (validateCSRFToken rq (cd_CSRFToken req)) then writeCSRFFailure service rq (cd_ReturnTo req) sessionID else
      let* decided := attempt (c_Decide service (cd_ReturnTo req) sessionID (cd_Action req)) in
      ret match decided with
          | Err e => consent_writeError rq e (cd_ReturnTo req)
          | Ok redirectURI => redirect [] redirectURI
          end
  end.

(** ** device_verification_handler.go *)

(** appdevice.Verifier; [Decide] tells whether the device was approved. *)
Record Verifier := mkVerifier {
  v_Prepare : string -> string -> IO W DeviceService.PrepareResult;
  v_Decide : string -> string -> string -> IO W bool;
}.

(** devicePageData without its token *)
Definition device_page (userCode clientID clientName : string) (scopes : list string) (text : string) (success : bool) : fields :=
  [("UserCode", Str userCode); ("ClientID", Str clientID); ("ClientName", Str clientName); ("Scopes", Strs scopes); ("Error", Str text);
   ("Success", Bool success)].

Definition device_renderPage (rq : request) (status : Z) (data : fields) : IO W response :=
  let* issued := lenient_token rq in
  let '(csrfToken, set) := issued in
  let data := ("CSRFToken", Str csrfToken) :: data in
  ret (mkResponse status set (if wantsHTML rq then HTML "device.html" data else JSON data)).

Definition device_address (userCode : string) : string := "/device?user_code=" +:+ escape encodeQueryComponent userCode.

Definition device_writeError (rq : request) (e : error) (userCode : string) : IO W response :=
  match e with
  | Device DeviceErrLoginRequired => ret (redirect [] (withReturnTo "/login" (device_address userCode)))
  | Device DeviceErrInvalidUserCode | Device DeviceErrInvalidAction =>
      device_renderPage rq StatusBadRequest (device_page userCode "" "" [] (error_text e) false)
  | _ => device_renderPage rq StatusInternalServerError (device_page userCode "" "" [] "device verification failed" false)
  end.

Definition successMessage (approved : bool) : string :=
  if approved then "Device verification approved. Return to your original device to continue." else "Device verification denied.".

Definition device_get (verifier : Verifier) (rq : request) (sessionID : string) : IO W response :=
  let userCode := query_value rq "user_code" in
  if String.eqb userCode "" then device_renderPage rq StatusOK (device_page "" "" "" [] "" false) else
  let* prepared := attempt (v_Prepare verifier sessionID userCode) in
  match prepared with
  | Err e => device_writeError rq e userCode
  | Ok r => device_renderPage rq StatusOK (device_page (DeviceService.pr_UserCode r) (DeviceService.pr_ClientID r)
              (DeviceService.pr_ClientName r) (default [] (DeviceService.pr_Scopes r)) "" false)
  end.

Definition handleDeviceVerification (verifier : Verifier) (rq : request) (form : option DeviceVerifyRequest) : IO W response :=
  let sessionID := rq_cookie rq session_cookie in
  if rq_GET rq then device_get verifier rq sessionID else
  match form with
  | None => ret (json_error [] StatusBadRequest "invalid verification request")
  | Some req =>
      if String.eqb (dv_Action req) "" then ret (redirect [] (device_address (dv_UserCode req))) else
      if negb (validateCSRFToken rq (dv_CSRFToken req)) then
        device_renderPage rq StatusForbidden (device_page (dv_UserCode req) "" "" [] "CSRF validation failed." false) else
      let* decided := attempt (v_Decide verifier sessionID (dv_UserCode req) (dv_Action req)) in
      match decided with
      | Err e => device_writeError rq e (dv_UserCode req)
      | Ok approved => device_renderPage rq StatusOK (device_page (dv_UserCode req) "" "" [] (successMessage approved) true)
      end
  end.
End Handlers.
Arguments ConsentManager W : clear implicits.
Arguments Verifier W : clear implicits.
