(* ===== verification/BrowserLogin.v ===== *)
(** * Signing in from the browser (login_handler.go, login_totp_handler.go, login_push_handler.go)

    The login form, the second-factor page with its five actions, and the
    page that decides a push challenge, over the authentication service. *)

From stdpp Require Import base tactics list strings numbers.
From Stdlib Require Import ZArith Lia Ascii.
From S2P Require Import Prelude GoStrings GoText GoJson GoJsonObject GoJsonWrite GoUrl GoNetUrl GoTime Errors Domain Ports Browser HttpRedirects AuthPorts AuthnService.

(** ** Records *)

(** dto/login.go, dto/totp.go *)
Record LoginRequest := mkLoginRequest {
  lg_Method : string; lg_Username : string; lg_Password : string; lg_CSRFToken : string; lg_ReturnTo : string;
  lg_RedirectURI : string; lg_State : string; lg_Code : string; lg_Nonce : string;
}.
Record LoginTOTPRequest := mkLoginTOTPRequest {
  lt_Action : string; lt_ChallengeID : string; lt_MatchCode : string; lt_Code : string; lt_ResponseJSON : string; lt_CSRFToken : string;
}.

(** domain/audit: what the handlers write of an event; [ClientID] they leave
    nil, the rest is the repository's. *)
Record audit_event := mkAuditEvent {
  ev_EventType : string; ev_UserID : Z; ev_Subject : string; ev_SessionID : option Z; ev_IPAddress : string; ev_UserAgent : string;
  ev_MetadataJSON : string;
}.

Definition defaultPostLoginRedirect : string := "/".

Section Handlers.
Context {W : Type} `{!Runtime W}.

(** authn.Authenticator; [Authenticate] may answer with a result next to an
    error. *)
Record Authenticator := mkAuthenticator {
  an_Authenticate : AuthenticateInput -> IO W outcome;
  an_VerifyTOTP : string -> string -> IO W AuthenticateResult;
  an_BeginMFAPasskey : string -> IO W (string * string * time);
  an_VerifyMFAPasskey : string -> string -> IO W AuthenticateResult;
  an_PollMFAChallenge : string -> IO W PollMFAChallengeResult;
  an_DecideMFAPush : DecideMFAPushInput -> IO W PollMFAChallengeResult;
  an_FinalizeMFAPush : string -> IO W AuthenticateResult;
}.

(** The part of repository.AuditEventRepository the handlers use *)
Definition AuditCreate : Type := audit_event -> IO W unit.

(** audit_authn_helper.go; a failure is only logged. *)
Definition recordLoginSuccessAuditEvent (repo : option AuditCreate) (rq : request) (resultUserID : Z) (subject roleCode method redirectURI : string) : IO W unit :=
  match repo with
  | None => ret tt
  | Some create =>
      if resultUserID <=? 0 then ret tt else
      let metadataJSON := render (JObject [("method", JString (TrimSpace method)); ("redirect_uri", JString (TrimSpace redirectURI));
        ("role_code", JString (TrimSpace roleCode))]) in
      do* attempt (create (mkAuditEvent "auth.login.succeeded" resultUserID (TrimSpace subject) None (rq_clientIP rq) (rq_header rq "User-Agent") metadataJSON)) in
      ret tt
  end.

(** The cookie that starts a session. *)
Definition start_session (result : AuthenticateResult) : IO W cookie :=
  let* maxAge := seconds_until (ar_ExpiresAt result) in
  ret (mkCookie session_cookie (ar_SessionID result) maxAge true true).

Definition session_fields (result : AuthenticateResult) : fields :=
  [("session_id", Str (ar_SessionID result)); ("user_id", Int (ar_UserID result)); ("subject", Str (ar_Subject result));
   ("expires_at", Time (ar_ExpiresAt result))].

Definition post_login (result : AuthenticateResult) : string :=
  resolveBrowserPostLoginRedirect (ar_ReturnTo result) (ar_RedirectURI result) (ar_RoleCode result).

(** ** login_handler.go *)

Record LoginHandler := mkLoginHandler {
  lh_authn : Authenticator;
  federatedOIDCEnabled : bool;
  federatedOIDCProviderName : string;
  lh_audit : option AuditCreate;
}.

Definition buildMFASetupURI (returnTo : string) : string :=
  if String.eqb returnTo "" then "/mfa/passkey/setup" else withReturnTo "/mfa/passkey/setup" returnTo.

Definition shouldProcessLoginGET (req : LoginRequest) : bool := negb (String.eqb (lg_Code req) "") || negb (String.eqb (lg_State req) "").

Definition localizeLoginError (e : error) : string :=
  match e with
  | Authn AuthnErrInvalidCredentials => "Invalid username or password."
  | Authn AuthnErrUserLocked => "Your account is locked."
  | Authn AuthnErrUserDisabled => "Your account is disabled."
  | Authn AuthnErrRateLimited => "Too many attempts. Please try again later."
  | Authn AuthnErrUnsupportedMethod => "This authentication method is currently unavailable."
  | _ => "Sign-in failed."
  end.

Definition login_status (e : error) : Z :=
  match e with
  | Authn AuthnErrMFARequired => StatusUnauthorized
  | Authn AuthnErrMFAEnrollmentRequired => StatusForbidden
  | Authn AuthnErrUnsupportedMethod => StatusBadRequest
  | Authn AuthnErrRateLimited => StatusTooManyRequests
  | Authn AuthnErrUserLocked => StatusLocked
  | Authn AuthnErrUserDisabled => StatusForbidden
  | Authn AuthnErrInvalidCredentials => StatusUnauthorized
  | _ => StatusInternalServerError
  end.

(** [renderLoginPage]: the provider's name is the handler's, in every use *)
Definition renderLoginPage (h : LoginHandler) (rq : request) (cookies : list cookie) (status : Z) (token username returnTo text : string) (success : bool) : IO W response :=
  strict_page "login.html" rq cookies status token
    [("Username", Str username); ("ReturnTo", Str returnTo); ("Error", Str text); ("Success", Bool success);
     ("FederatedOIDCEnabled", Bool (federatedOIDCEnabled h)); ("FederatedOIDCProviderName", Str (federatedOIDCProviderName h))].

Definition writeInvalidReturnTo (h : LoginHandler) (rq : request) : IO W response :=
  if wantsHTML rq then renderLoginPage h rq [] StatusBadRequest "" "" "" "Invalid redirect target." false
  else ret (json_error [] StatusBadRequest invalid_return_to).

Definition writeInvalidCSRF (h : LoginHandler) (rq : request) (req : LoginRequest) : IO W response :=
  if wantsHTML rq then renderLoginPage h rq [] StatusForbidden "" (lg_Username req) (lg_ReturnTo req) "CSRF validation failed." false
  else ret (json_error [] StatusForbidden invalid_csrf_token).

Definition authenticate_input (rq : request) (req : LoginRequest) : AuthenticateInput :=
  mkAuthenticateInput (lg_Method req) (lg_Username req) (lg_Password req) (lg_RedirectURI req) (lg_ReturnTo req) (lg_State req)
    (lg_Code req) (lg_Nonce req) (rq_clientIP rq) (rq_header rq "User-Agent").

(** The answer to an error, next to which there may be a result. *)
Definition login_failed (h : LoginHandler) (rq : request) (req : LoginRequest) (result : option AuthenticateResult) (e : error) : IO W response :=
  let status := login_status e in
  let plain :=
    if wantsHTML rq then renderLoginPage h rq [] status "" (lg_Username req) (lg_ReturnTo req) (localizeLoginError e) false
    else ret (json_error [] status (error_text e)) in
  match result with
  | None => plain
  | Some r =>
      if bool_decide (e = Authn AuthnErrMFAEnrollmentRequired) && negb (String.eqb (ar_SessionID r) "") then
        let* started := start_session r in
        let setupURI := buildMFASetupURI (lg_ReturnTo req) in
        if wantsHTML rq then ret (redirect [started] setupURI)
        else ret (mkResponse status [started] (JSON [("error", Str (error_text e)); ("mfa_enrollment_required", Bool true);
               ("redirect_uri", Str setupURI); ("return_to", Str (lg_ReturnTo req))]))
      else if bool_decide (e = Authn AuthnErrMFARequired) && negb (String.eqb (ar_MFAChallengeID r) "") then
        let challenge := mkCookie mfaChallengeCookieName (ar_MFAChallengeID r) 300 true true in
        if wantsHTML rq then ret (redirect [challenge] "/login/totp")
        else ret (mkResponse status [challenge] (JSON [("error", Str (error_text e)); ("mfa_required", Bool true);
               ("challenge_id", Str (ar_MFAChallengeID r)); ("mfa_mode", Str (ar_MFAMode r)); ("passkey_available", Bool (ar_PasskeyAvailable r));
               ("push_status", Str (ar_PushStatus r)); ("push_code", Str (ar_PushCode r)); ("redirect_uri", Str "/login/totp");
               ("return_to", Str (lg_ReturnTo req))]))
      else plain
  end.

Definition login_succeeded (h : LoginHandler) (rq : request) (req : LoginRequest) (r : AuthenticateResult) : IO W response :=
  if String.eqb (ar_SessionID r) "" && negb (String.eqb (ar_RedirectURI r) "") then ret (redirect [] (ar_RedirectURI r)) else
  match validateLocalRedirectTarget (resolveBrowserPostLoginRedirect (lg_ReturnTo req) (ar_RedirectURI r) (ar_RoleCode r)) with
  | None => writeInvalidReturnTo h rq
  | Some redirectURI =>
      let* issued := attempt (ensureCSRFToken rq) in
      match issued with
      | Err _ => ret (json_error [] StatusInternalServerError "failed to generate csrf token")
      | Ok (_, set) =>
          let* started := start_session r in
          let cookies := set ++ [started] in
          do* recordLoginSuccessAuditEvent (lh_audit h) rq (ar_UserID r) (ar_Subject r) (ar_RoleCode r) (lg_Method req) redirectURI in
          if negb (String.eqb redirectURI "") then ret (redirect cookies redirectURI)
          else if wantsHTML rq then renderLoginPage h rq cookies StatusOK "" (lg_Username req) "" "" true
          else ret (mkResponse StatusOK cookies (JSON (session_fields r)))
      end
  end.

Definition handleAuthenticate (h : LoginHandler) (rq : request) (req : LoginRequest) : IO W response :=
  let* result := attempt (an_Authenticate (lh_authn h) (authenticate_input rq req)) in
  match result with
  | Err e => login_failed h rq req None e
  | Ok (r, Some e) => login_failed h rq req (Some r) e
  | Ok (r, None) => login_succeeded h rq req r
  end.

Definition with_return_to (req : LoginRequest) (returnTo : string) : LoginRequest :=
  mkLoginRequest (lg_Method req) (lg_Username req) (lg_Password req) (lg_CSRFToken req) returnTo (lg_RedirectURI req) (lg_State req)
    (lg_Code req) (lg_Nonce req).

Definition login_get (h : LoginHandler) (rq : request) : IO W response :=
  let q := query_value rq in
  let req := mkLoginRequest (q "method") "" "" "" (q "return_to") (q "redirect_uri") (q "state") (q "code") (q "nonce") in
  match validateLocalRedirectTarget (lg_ReturnTo req) with
  | None => writeInvalidReturnTo h rq
  | Some returnTo =>
      let req := with_return_to req returnTo in
      if shouldProcessLoginGET req then handleAuthenticate h rq req else
      let* issued := attempt (ensureCSRFToken rq) in
      match issued with
      | Err _ => ret (json_error [] StatusInternalServerError "failed to generate csrf token")
      | Ok (csrfToken, set) =>
          if wantsHTML rq then renderLoginPage h rq set StatusOK csrfToken "" returnTo "" false
          else ret (mkResponse StatusOK set (JSON [("endpoint", Str "login"); ("message", Str "submit username and password to login");
                 ("csrf_token", Str csrfToken); ("return_to", Str returnTo); ("federated_oidc_enabled", Bool (federatedOIDCEnabled h));
                 ("federated_oidc_provider", Str (federatedOIDCProviderName h)); ("federated_oidc_endpoint", Str "/login");
                 ("federated_oidc_method", Str "POST")]))
      end
  end.

(** [posted] gives the form values that a page shows again when the form
    could not be bound: username and return_to. *)
Definition handleLogin (h : LoginHandler) (rq : request) (posted : string * string) (form : option LoginRequest) : IO W response :=
  if rq_GET rq then login_get h rq else
  match form with
  | None =>
      if wantsHTML rq then renderLoginPage h rq [] StatusBadRequest "" posted.1 posted.2 "Please enter both username and password." false
      else ret (json_error [] StatusBadRequest "invalid login request")
  | Some req =>
      match validateLocalRedirectTarget (lg_ReturnTo req) with
      | None => writeInvalidReturnTo h rq
      | Some returnTo =>
          let req := with_return_to req returnTo in
          if negb (validateCSRFToken rq (lg_CSRFToken req)) then writeInvalidCSRF h rq req else handleAuthenticate h rq req
      end
  end.
End Handlers.
Arguments Authenticator W : clear implicits.
Arguments AuditCreate W : clear implicits.
Arguments LoginHandler W : clear implicits.
