(* ===== verification/BrowserSecondFactor.v ===== *)
(** * The second factor in the browser (login_totp_handler.go, login_push_handler.go)

    One page with five actions: a one-time password, a passkey in two steps,
    the state of a push challenge, and its decision; and a page of its own for
    the decision. *)

From stdpp Require Import base tactics list strings numbers.
From Stdlib Require Import ZArith Lia Ascii.
From S2P Require Import Prelude GoStrings GoText GoJson GoJsonObject GoNetUrl GoTime Errors Domain Ports Browser HttpRedirects AuthPorts AuthnService BrowserLogin StateMask.

Section Handlers.
Context {W : Type} `{!Runtime W}.

Record LoginTOTPHandler := mkLoginTOTPHandler { th_authn : Authenticator W; th_audit : option (AuditCreate W) }.

(** ** Pages *)

(** loginTOTPPageData without its token *)
Record loginTOTPPageData := mkTOTPPage {
  tp_Error : string; tp_ChallengeID : string; tp_PushEnabled : bool; tp_PasskeyEnabled : bool; tp_PushStatus : string; tp_PushCode : string;
}.

Definition with_error (text : string) (d : loginTOTPPageData) : loginTOTPPageData :=
  mkTOTPPage text (tp_ChallengeID d) (tp_PushEnabled d) (tp_PasskeyEnabled d) (tp_PushStatus d) (tp_PushCode d).

Definition totp_render (rq : request) (cookies : list cookie) (status : Z) (data : loginTOTPPageData) : IO W response :=
  let* issued := lenient_token rq in
  let '(token, set) := issued in
  ret (mkResponse status (cookies ++ set)
    (if wantsHTML rq
     then HTML "login_totp.html" [("CSRFToken", Str token); ("Error", Str (tp_Error data)); ("ChallengeID", Str (tp_ChallengeID data));
            ("PushEnabled", Bool (tp_PushEnabled data)); ("PasskeyEnabled", Bool (tp_PasskeyEnabled data));
            ("PushStatus", Str (tp_PushStatus data)); ("PushCode", Str (tp_PushCode data))]
     else JSON [("csrf_token", Str token); ("error", Str (tp_Error data)); ("challenge_id", Str (tp_ChallengeID data));
            ("push_enabled", Bool (tp_PushEnabled data)); ("passkey_enabled", Bool (tp_PasskeyEnabled data));
            ("push_status", Str (tp_PushStatus data)); ("push_code", Str (tp_PushCode data))])).

(** The challenge as the page shows it, and the cookie to clear when it is
    over. *)
Definition loadChallengeData (h : LoginTOTPHandler) (rq : request) : IO W (loginTOTPPageData * list cookie) :=
  let challengeID := TrimSpace (rq_cookie rq mfaChallengeCookieName) in
  let data := mkTOTPPage "" challengeID false false "" "" in
  if String.eqb challengeID "" then ret (data, []) else
  let* state := attempt (an_PollMFAChallenge (th_authn h) challengeID) in
  ret match state with
      | Err e => (data, if bool_decide (e = Authn AuthnErrMFAChallengeExpired) then [clear_challenge] else [])
      | Ok state => (mkTOTPPage "" (pm_ChallengeID state) (String.eqb (pm_MFAMode state) mfaModePushTOTPFallback) (pm_PasskeyAvailable state)
                       (pm_PushStatus state) (pm_PushCode state), [])
      end.

(** [options any] of json.Unmarshal, or the answer when it is not JSON *)
Definition options_answer (optionsJSON : string) (answer : json -> response) : response :=
  match parse_json optionsJSON with
  | None => json_error [] StatusInternalServerError "invalid passkey options payload"
  | Some options => answer options
  end.

(** ** The actions *)

(** The challenge of the form, or else of the cookie *)
Definition challenge_of (rq : request) (req : LoginTOTPRequest) : string :=
  let challengeID := TrimSpace (lt_ChallengeID req) in
  if String.eqb challengeID "" then rq_cookie rq mfaChallengeCookieName else challengeID.

Definition expired_cookie (e : error) : list cookie := if bool_decide (e = Authn AuthnErrMFAChallengeExpired) then [clear_challenge] else [].

Definition begin_status (e : error) : Z :=
  match e with
  | Authn AuthnErrMFAChallengeExpired => StatusUnauthorized
  | Authn AuthnErrPasskeyUnavailable | Authn AuthnErrPasskeySessionMissing => StatusBadRequest
  | _ => StatusInternalServerError
  end.

Definition handlePasskeyBegin (h : LoginTOTPHandler) (rq : request) (req : LoginTOTPRequest) : IO W response :=
  let* result := attempt (an_BeginMFAPasskey (th_authn h) (challenge_of rq req)) in
  ret match result with
      | Err e => json_error (expired_cookie e) (begin_status e) (error_text e)
      | Ok (challengeID, optionsJSON, expiresAt) => options_answer optionsJSON (fun options =>
          mkResponse StatusOK [] (JSON [("challenge_id", Str challengeID); ("options", Val options); ("expires_at", Time expiresAt)]))
      end.

Definition finish_status (e : error) : Z :=
  match e with
  | Authn AuthnErrMFAChallengeExpired | Authn AuthnErrPasskeyUnavailable | Authn AuthnErrPasskeySessionMissing
  | Authn AuthnErrInvalidCredentials => StatusUnauthorized
  | _ => StatusInternalServerError
  end.

Definition or_home (redirectURI : string) : string := if String.eqb redirectURI "" then defaultPostLoginRedirect else redirectURI.

Definition handlePasskeyFinish (h : LoginTOTPHandler) (rq : request) (req : LoginTOTPRequest) : IO W response :=
  let responseJSON := TrimSpace (lt_ResponseJSON req) in
  if String.eqb responseJSON "" then ret (json_error [] StatusBadRequest "missing passkey response payload") else
  let* result := attempt (an_VerifyMFAPasskey (th_authn h) (challenge_of rq req) responseJSON) in
  match result with
  | Err e => ret (json_error (expired_cookie e) (finish_status e) (error_text e))
  | Ok result =>
      let* started := start_session result in
      let redirectURI := or_home (post_login result) in
      do* recordLoginSuccessAuditEvent (th_audit h) rq (ar_UserID result) (ar_Subject result) (ar_RoleCode result) "passkey" redirectURI in
      ret (mkResponse StatusOK [clear_challenge; started]
        (JSON (("authenticated", Bool true) :: ("redirect_uri", Str redirectURI) :: session_fields result)))
  end.

Definition decision_status (e : error) : Z :=
  match e with
  | Authn AuthnErrMFAChallengeExpired => StatusUnauthorized
  | Authn AuthnErrMFAApproverMismatch => StatusForbidden
  | Authn AuthnErrInvalidPushMatchCode | Authn AuthnErrInvalidMFAAction => StatusBadRequest
  | _ => StatusInternalServerError
  end.

Definition decided_fields (state : PollMFAChallengeResult) : fields :=
  [("challenge_id", Str (pm_ChallengeID state)); ("mfa_mode", Str (pm_MFAMode state)); ("push_status", Str (pm_PushStatus state));
   ("push_code", Str (pm_PushCode state)); ("expires_at", Time (pm_ExpiresAt state))].

Definition handlePushDecision (h : LoginTOTPHandler) (rq : request) (req : LoginTOTPRequest) : IO W response :=
  let* state := attempt (an_DecideMFAPush (th_authn h)
    (mkDecideInput (challenge_of rq req) (rq_cookie rq session_cookie) (lt_Action req) (lt_MatchCode req))) in
  ret match state with
      | Err e => json_error [] (decision_status e) (error_text e)
      | Ok state => mkResponse StatusOK [] (JSON (decided_fields state))
      end.

Definition push_state (state : PollMFAChallengeResult) : response :=
  mkResponse StatusOK [] (JSON [("authenticated", Bool false); ("challenge_id", Str (pm_ChallengeID state)); ("mfa_mode", Str (pm_MFAMode state));
    ("passkey_available", Bool (pm_PasskeyAvailable state)); ("push_status", Str (pm_PushStatus state)); ("push_code", Str (pm_PushCode state));
    ("expires_at", Time (pm_ExpiresAt state))]).

Definition writePushStatus (h : LoginTOTPHandler) (rq : request) : IO W response :=
  let challengeID := TrimSpace (rq_cookie rq mfaChallengeCookieName) in
  if String.eqb challengeID "" then ret (json_error [] StatusUnauthorized "missing mfa challenge cookie") else
  let* state := attempt (an_PollMFAChallenge (th_authn h) challengeID) in
  match state with
  | Err e => ret (json_error (expired_cookie e)
      (if bool_decide (e = Authn AuthnErrMFAChallengeExpired) then StatusUnauthorized else StatusInternalServerError) (error_text e))
  | Ok state =>
      if String.eqb (pm_MFAMode state) mfaModePushTOTPFallback && String.eqb (pm_PushStatus state) mfaPushStatusApproved then
        let* result := attempt (an_FinalizeMFAPush (th_authn h) challengeID) in
        match result with
        | Err _ => ret (push_state state)
        | Ok result =>
            let* started := start_session result in
            let redirectURI := or_home (post_login result) in
            do* recordLoginSuccessAuditEvent (th_audit h) rq (ar_UserID result) (ar_Subject result) (ar_RoleCode result) "push" redirectURI in
            ret (mkResponse StatusOK [clear_challenge; started]
              (JSON (("authenticated", Bool true) :: ("status", Str mfaPushStatusApproved) :: ("passkey_available", Bool (pm_PasskeyAvailable state)) ::
                 ("redirect_uri", Str redirectURI) :: session_fields result)))
        end
      else ret (push_state state)
  end.

Definition totp_status (e : error) : Z :=
  match e with
  | Authn AuthnErrMFAChallengeExpired | Authn AuthnErrInvalidTOTPCode | Authn AuthnErrTOTPCodeReused => StatusUnauthorized
  | _ => StatusInternalServerError
  end.

(** After a right code: on to the enrolment of a passkey, or in. *)
Definition totp_succeeded (h : LoginTOTPHandler) (rq : request) (result : AuthenticateResult) : IO W response :=
  let* started := start_session result in
  let cookies := [clear_challenge; started] in
  if ar_MFAEnrollmentRequired result then
    let setupURI := buildMFASetupURI (post_login result) in
    ret (if wantsHTML rq then redirect cookies setupURI
         else mkResponse StatusOK cookies (JSON (session_fields result ++
           [("mfa_enrollment_required", Bool true); ("passkey_enrollment_first", Bool true); ("redirect_uri", Str setupURI)])))
  else
    let redirectURI := post_login result in
    do* recordLoginSuccessAuditEvent (th_audit h) rq (ar_UserID result) (ar_Subject result) (ar_RoleCode result) "totp" redirectURI in
    ret (if negb (String.eqb redirectURI "") then redirect cookies redirectURI
         else if wantsHTML rq then redirect cookies defaultPostLoginRedirect
         else mkResponse StatusOK cookies (JSON (session_fields result))).

Definition handleCode (h : LoginTOTPHandler) (rq : request) (req : LoginTOTPRequest) : IO W response :=
  let* result := attempt (an_VerifyTOTP (th_authn h) (rq_cookie rq mfaChallengeCookieName) (lt_Code req)) in
  match result with
  | Err e =>
      let* loaded := loadChallengeData h rq in
      totp_render rq (expired_cookie e ++ loaded.2) (totp_status e) (with_error (error_text e) loaded.1)
  | Ok result => totp_succeeded h rq result
  end.

Definition handleLoginTOTP (h : LoginTOTPHandler) (rq : request) (form : option LoginTOTPRequest) : IO W response :=
  if rq_GET rq then
    if EqualFold (TrimSpace (query_value rq "mode")) "status" then writePushStatus h rq else
    let* loaded := loadChallengeData h rq in
    totp_render rq loaded.2 StatusOK loaded.1
  else
  match form with
  | None => ret (json_error [] StatusBadRequest "invalid totp login request")
  | Some req =>
      let action := ToLower (TrimSpace (lt_Action req)) in
      let valid := validateCSRFToken rq (lt_CSRFToken req) in
      if String.eqb action "approve" || String.eqb action "deny" then handlePushDecision h rq req
      else if String.eqb action "poll" then writePushStatus h rq
      else if String.eqb action "passkey_begin" then
        if valid then handlePasskeyBegin h rq req else ret (json_error [] StatusForbidden invalid_csrf_token)
      else if String.eqb action "passkey_finish" then
        if valid then handlePasskeyFinish h rq req else ret (json_error [] StatusForbidden invalid_csrf_token)
      else if valid then handleCode h rq req
      else
        let* loaded := loadChallengeData h rq in
        totp_render rq loaded.2 StatusForbidden (with_error invalid_csrf_token loaded.1)
  end.

(** ** login_push_handler.go *)

(** loginPushPageData without its token *)
Definition push_render (rq : request) (status : Z) (challengeID matchCode pushStatus text : string) : IO W response :=
  let* issued := lenient_token rq in
  let '(token, set) := issued in
  ret (mkResponse status set
    (if wantsHTML rq
     then HTML "login_push.html" [("CSRFToken", Str token); ("ChallengeID", Str challengeID); ("MatchCode", Str matchCode);
            ("Status", Str pushStatus); ("Error", Str text)]
     else JSON [("csrf_token", Str token); ("challenge_id", Str challengeID); ("match_code", Str matchCode); ("status", Str pushStatus);
            ("error", Str text)])).

Definition handleLoginPush (authn : Authenticator W) (rq : request) (form : option LoginTOTPRequest) : IO W response :=
  if rq_GET rq then
    push_render rq StatusOK (TrimSpace (query_value rq "challenge_id")) (TrimSpace (query_value rq "match_code")) "" ""
  else
  match form with
  | None => ret (json_error [] StatusBadRequest "invalid push approval request")
  | Some req =>
      if negb (validateCSRFToken rq (lt_CSRFToken req)) then
        push_render rq StatusForbidden (lt_ChallengeID req) (lt_MatchCode req) "" invalid_csrf_token else
      let* result := attempt (an_DecideMFAPush authn
        (mkDecideInput (lt_ChallengeID req) (rq_cookie rq session_cookie) (lt_Action req) (lt_MatchCode req))) in
      match result with
      | Err e => push_render rq (decision_status e) (lt_ChallengeID req) (lt_MatchCode req) "" (error_text e)
      | Ok state =>
          if wantsHTML rq then push_render rq StatusOK (lt_ChallengeID req) (lt_MatchCode req) (pm_PushStatus state) ""
          else ret (mkResponse StatusOK [] (JSON (decided_fields state)))
      end
  end.
End Handlers.
Arguments LoginTOTPHandler W : clear implicits.
