(* ===== verification/BrowserSetup.v ===== *)
(** * Enrolling a second factor in the browser (totp_setup_handler.go, passkey_setup_handler.go)

    The page that shows a new one-time-password secret and confirms it with a
    code, and the two steps that register a passkey.  The picture of the
    secret is made by a third-party library and left out. *)

From stdpp Require Import base tactics list strings numbers.
From Stdlib Require Import ZArith Lia Ascii.
From S2P Require Import Prelude GoStrings GoText GoJson GoJsonObject GoNetUrl GoTime Errors Domain Ports Browser HttpRedirects BrowserLogin BrowserSecondFactor.
From S2P Require MfaService PasskeyService.

(** dto/totp.go, dto/passkey.go *)
Record TOTPSetupRequest := mkTOTPSetup { ts_Code : string; ts_CSRFToken : string; ts_ReturnTo : string }.
Record PasskeySetupRequest := mkPasskeySetup {
  ps_Action : string; ps_SetupID : string; ps_ResponseJSON : string; ps_CSRFToken : string; ps_ReturnTo : string;
}.

Section Handlers.
Context {W : Type} `{!Runtime W}.

(** ** totp_setup_handler.go *)

(** appmfa.Manager *)
Record TOTPManager := mkTOTPManager {
  mm_BeginSetup : string -> IO W MfaService.SetupResult;
  mm_ConfirmSetup : string -> string -> string -> IO W MfaService.ConfirmResult;
  mm_BeginLoginChallenge : string -> string -> IO W MfaService.ConfirmResult;
}.

(** totpSetupPageData without token and picture *)
Record totpSetupPageData := mkTOTPSetupPage {
  sp_Secret : string; sp_ProvisioningURI : string; sp_ReturnTo : string; sp_Error : string; sp_Success : bool; sp_AlreadyEnabled : bool;
}.

Definition setup_page (returnTo text : string) : totpSetupPageData := mkTOTPSetupPage "" "" returnTo text false false.

Definition setup_render (rq : request) (status : Z) (d : totpSetupPageData) : IO W response :=
  let* issued := lenient_token rq in
  let '(token, set) := issued in
  ret (mkResponse status set
    (if wantsHTML rq
     then HTML "totp_setup.html" [("Secret", Str (sp_Secret d)); ("ProvisioningURI", Str (sp_ProvisioningURI d)); ("ReturnTo", Str (sp_ReturnTo d));
            ("CSRFToken", Str token); ("Error", Str (sp_Error d)); ("Success", Bool (sp_Success d)); ("AlreadyEnabled", Bool (sp_AlreadyEnabled d))]
     else JSON [("secret", Str (sp_Secret d)); ("provisioning_uri", Str (sp_ProvisioningURI d)); ("return_to", Str (sp_ReturnTo d));
            ("already_enabled", Bool (sp_AlreadyEnabled d)); ("enabled", Bool (sp_Success d)); ("csrf_token", Str token); ("error", Str (sp_Error d))])).

Definition setup_status (e : error) : Z :=
  match e with
  | Mfa MfaErrAlreadyEnabled => StatusConflict
  | Mfa MfaErrEnrollmentExpired | Mfa MfaErrInvalidTOTPCode | Mfa MfaErrTOTPCodeReused => StatusBadRequest
  | _ => StatusInternalServerError
  end.

Definition setup_text (e : error) : string :=
  if setup_status e =? StatusInternalServerError then "totp setup failed" else error_text e.

(** [preserve]: after a wrong code the page shows the secret again. *)
Definition setup_writeError (m : TOTPManager) (rq : request) (e : error) (preserve : bool) (returnTo : string) : IO W response :=
  let setupPath := if negb (String.eqb returnTo "") then withReturnTo "/mfa/totp/setup" returnTo else "/mfa/totp/setup" in
  if bool_decide (e = Mfa MfaErrLoginRequired) then ret (redirect [] (withReturnTo "/login" setupPath)) else
  let status := setup_status e in
  let data := mkTOTPSetupPage "" "" returnTo (setup_text e) false (bool_decide (e = Mfa MfaErrAlreadyEnabled)) in
  if preserve && (status =? StatusBadRequest) then
    let* begun := attempt (mm_BeginSetup m (rq_cookie rq session_cookie)) in
    setup_render rq status
      match begun with
      | Ok r => mkTOTPSetupPage (MfaService.sr_Secret r) (MfaService.sr_ProvisioningURI r) returnTo (setup_text e) false (MfaService.sr_AlreadyEnabled r)
      | Err _ => data
      end
  else setup_render rq status data.

(** On to the login challenge of an enrolled user; the session ends. *)
Definition challenge_cookies (challengeID : string) (secure : bool) : list cookie :=
  [mkCookie mfaChallengeCookieName challengeID 300 secure true; mkCookie session_cookie "" (-1) secure true].

Definition challenge_started (rq : request) (r : MfaService.ConfirmResult) (secure : bool) (returnTo : string) (already : bool) : response :=
  let cookies := challenge_cookies (MfaService.cr_MFAChallengeID r) secure in
  if wantsHTML rq then redirect cookies "/login/totp"
  else mkResponse StatusOK cookies (JSON [("enabled", Bool (MfaService.cr_Enabled r)); ("mfa_required", Bool (MfaService.cr_TOTPRequired r));
         ("challenge_id", Str (MfaService.cr_MFAChallengeID r)); ("redirect_uri", Str "/login/totp"); ("return_to", Str returnTo);
         ("already_enabled", Bool already)]).

Definition setup_get (m : TOTPManager) (rq : request) (sessionID returnTo : string) : IO W response :=
  let* result := attempt (mm_BeginSetup m sessionID) in
  match result with
  | Err e => setup_writeError m rq e false returnTo
  | Ok result =>
      if MfaService.sr_AlreadyEnabled result && negb (String.eqb returnTo "") then
        let* challenge := attempt (mm_BeginLoginChallenge m sessionID returnTo) in
        match challenge with
        | Err e => setup_writeError m rq e false returnTo
        | Ok challenge =>
            ret (if negb (String.eqb (MfaService.cr_MFAChallengeID challenge) "")
                 then challenge_started rq challenge false returnTo true else redirect [] returnTo)
        end
      else setup_render rq StatusOK (mkTOTPSetupPage (MfaService.sr_Secret result) (MfaService.sr_ProvisioningURI result) returnTo "" false
             (MfaService.sr_AlreadyEnabled result))
  end.

Definition setup_confirm (m : TOTPManager) (rq : request) (sessionID code returnTo : string) : IO W response :=
  let* result := attempt (mm_ConfirmSetup m sessionID code returnTo) in
  match result with
  | Err e => setup_writeError m rq e true returnTo
  | Ok result =>
      if negb (String.eqb (MfaService.cr_MFAChallengeID result) "") then ret (challenge_started rq result true returnTo false)
      else if MfaService.cr_Enabled result && negb (String.eqb returnTo "") then ret (redirect [] returnTo)
      else setup_render rq StatusOK (mkTOTPSetupPage "" "" returnTo "TOTP has been enabled." (MfaService.cr_Enabled result) false)
  end.

(** The return_to of the form, when it has one, goes before the one of the
    address. *)
Definition form_return_to (raw returnTo : string) : option string :=
  if blank raw then Some returnTo else validateLocalRedirectTarget (TrimSpace raw).

Definition refuse_return_to (rq : request) (returnTo : string) : IO W response :=
  if wantsHTML rq then setup_render rq StatusBadRequest (setup_page returnTo invalid_return_to)
  else ret (json_error [] StatusBadRequest invalid_return_to).

Definition handleTOTPSetup (m : TOTPManager) (rq : request) (form : option TOTPSetupRequest) : IO W response :=
  let sessionID := rq_cookie rq session_cookie in
  match validateLocalRedirectTarget (TrimSpace (query_value rq "return_to")) with
  | None => refuse_return_to rq ""
  | Some returnTo =>
      if rq_GET rq then setup_get m rq sessionID returnTo else
      match form with
      | None => ret (json_error [] StatusBadRequest "invalid totp setup request")
      | Some req =>
          match form_return_to (ts_ReturnTo req) returnTo with
          | None => refuse_return_to rq returnTo
          | Some returnTo =>
              if negb (validateCSRFToken rq (ts_CSRFToken req)) then setup_render rq StatusForbidden (setup_page returnTo invalid_csrf_token)
              else setup_confirm m rq sessionID (ts_Code req) returnTo
          end
      end
  end.

(** ** passkey_setup_handler.go *)

(** apppasskey.Manager, nil when passkeys are off *)
Record PasskeyManager := mkPasskeyManager {
  pk_BeginSetup : string -> IO W PasskeyService.BeginSetupResult;
  pk_FinishSetup : string -> string -> string -> IO W string;
}.

(** passkeySetupPageData without its token *)
Definition passkey_render (rq : request) (status : Z) (returnTo text : string) : IO W response :=
  let* issued := lenient_token rq in
  let '(token, set) := issued in
  ret (mkResponse status set
    (if wantsHTML rq
     then HTML "passkey_setup.html" [("CSRFToken", Str token); ("ReturnTo", Str returnTo); ("Error", Str text); ("Success", Bool false)]
     else JSON [("csrf_token", Str token); ("return_to", Str returnTo); ("error", Str text); ("success", Bool false)])).

Definition passkeySetupRoutingPath : string := "/mfa/passkey/setup".

Definition passkey_writeError (rq : request) (e : error) (returnTo : string) : response :=
  match e with
  | Passkey PasskeyErrLoginRequired =>
      let loginReturn := if negb (String.eqb returnTo "") then withReturnTo passkeySetupRoutingPath returnTo else passkeySetupRoutingPath in
      if wantsHTML rq then redirect [] (withReturnTo "/login" loginReturn)
      else mkResponse StatusUnauthorized [] (JSON [("error", Str (error_text e)); ("redirect_uri", Str (withReturnTo "/login" loginReturn))])
  | _ =>
      let status := match e with
        | Passkey PasskeyErrPasskeyDisabled => StatusServiceUnavailable
        | Passkey PasskeyErrPasskeySetupExpired => StatusUnauthorized
        | _ => StatusInternalServerError
        end in
      mkResponse status [] (JSON [("error", Str (error_text e)); ("return_to", Str returnTo)])
  end.

Definition passkeys_off : response := json_error [] StatusServiceUnavailable (error_text (Passkey PasskeyErrPasskeyDisabled)).

Definition handleBegin (service : option PasskeyManager) (rq : request) (sessionID returnTo : string) : IO W response :=
  match service with
  | None => ret passkeys_off
  | Some m =>
      let* result := attempt (pk_BeginSetup m sessionID) in
      ret match result with
          | Err e => passkey_writeError rq e returnTo
          | Ok r => options_answer (PasskeyService.bs_OptionsJSON r) (fun options =>
              mkResponse StatusOK [] (JSON [("setup_id", Str (PasskeyService.bs_SetupID r)); ("options", Val options);
                ("expires_at", Time (PasskeyService.bs_ExpiresAt r)); ("return_to", Str returnTo)]))
          end
  end.

Definition handleFinish (service : option PasskeyManager) (rq : request) (sessionID returnTo : string) (req : PasskeySetupRequest) : IO W response :=
  match service with
  | None => ret passkeys_off
  | Some m =>
      let setupID := TrimSpace (ps_SetupID req) in
      let responseJSON := TrimSpace (ps_ResponseJSON req) in
      if String.eqb setupID "" || String.eqb responseJSON "" then ret (json_error [] StatusBadRequest "missing setup_id or response_json") else
      let* result := attempt (pk_FinishSetup m sessionID setupID responseJSON) in
      ret match result with
          | Err e => passkey_writeError rq e returnTo
          | Ok _ => mkResponse StatusOK [] (JSON [("enabled", Bool true); ("redirect_uri", Str (or_home returnTo)); ("return_to", Str returnTo)])
          end
  end.

Definition handlePasskeySetup (service : option PasskeyManager) (rq : request) (form : option PasskeySetupRequest) : IO W response :=
  let sessionID := rq_cookie rq session_cookie in
  match validateLocalRedirectTarget (TrimSpace (query_value rq "return_to")) with
  | None => passkey_render rq StatusBadRequest "" invalid_return_to
  | Some returnTo =>
      if rq_GET rq then passkey_render rq StatusOK returnTo "" else
      match form with
      | None => ret (json_error [] StatusBadRequest "invalid passkey setup request")
      | Some req =>
          match form_return_to (ps_ReturnTo req) returnTo with
          | None => ret (json_error [] StatusBadRequest invalid_return_to)
          | Some returnTo =>
              if negb (validateCSRFToken rq (ps_CSRFToken req)) then ret (json_error [] StatusForbidden invalid_csrf_token) else
              let action := ToLower (TrimSpace (ps_Action req)) in
              if String.eqb action "begin" then handleBegin service rq sessionID returnTo
              else if String.eqb action "finish" then handleFinish service rq sessionID returnTo req
              else ret (json_error [] StatusBadRequest "invalid passkey setup action")
          end
      end
  end.
End Handlers.
Arguments TOTPManager W : clear implicits.
Arguments PasskeyManager W : clear implicits.
