(* ===== verification/BrowserTheorems.v ===== *)
(** * What the browser pages guarantee

    No page's form decides anything without its token; a session cookie is only ever
    that of a login that succeeded, and the form login then stays on the
    site; a logout sends the browser only where a client registered. *)

From stdpp Require Import base tactics list gmap strings numbers relations.
From Stdlib Require Import ZArith Lia Ascii.
From S2P Require Import Prelude GoStrings GoText GoCrypto GoBase64 GoNetUrl GoTime Errors Domain Ports Remote Database Browser HttpRedirects AuthPorts AuthnService.
From S2P Require Import SessionService ClientRepo ClientService ClientSystem BrowserLogout BrowserConsent BrowserLogin BrowserSecondFactor BrowserSetup StateMask.

(** ** Forms without their token *)

Section Forged.
Context {W : Type} `{!Runtime W}.

(** The same authenticator, with other operations where a form decides. *)
Definition with_decisions (a b : Authenticator W) : Authenticator W :=
  mkAuthenticator (an_Authenticate b) (an_VerifyTOTP b) (an_BeginMFAPasskey b) (an_VerifyMFAPasskey b)
    (an_PollMFAChallenge a) (an_DecideMFAPush a) (an_FinalizeMFAPush a).

(** The actions of the second-factor page that ask for no token. *)
Definition untokened (action : string) : bool :=
  let action := ToLower (TrimSpace action) in
  String.eqb action "approve" || String.eqb action "deny" || String.eqb action "poll".

(** The pages' forms: without the token of the browser's cookie each gives
    the same response in the same state whatever the operation it guards would
    do. *)
Lemma forged_pages rq token w : rq_GET rq = false -> validateCSRFToken rq token = false ->
  (forall s s' returnTo, let req := Some (mkLogoutRequest returnTo token) in
     handleLogout s rq req w = handleLogout s' rq req w /\ handleLogoutAll s rq req w = handleLogoutAll s' rq req w) /\
  (forall validator s s' id uri state, let req := Some (mkEndSessionRequest id uri state token) in
     EndSessionPost (NewEndSessionHandler s validator) rq req w = EndSessionPost (NewEndSessionHandler s' validator) rq req w) /\
  (forall prepare decide decide' action returnTo, let req := Some (mkConsentDecision action returnTo token) in
     handleConsent (mkConsentManager prepare decide) rq req w = handleConsent (mkConsentManager prepare decide') rq req w) /\
  (forall v v' code action, let req := Some (mkDeviceVerify code action token) in
     handleDeviceVerification v rq req w = handleDeviceVerification v' rq req w) /\
  (forall a a' enabled name audit posted method username password returnTo uri state code nonce,
     let req := Some (mkLoginRequest method username password token returnTo uri state code nonce) in
     handleLogin (mkLoginHandler a enabled name audit) rq posted req w = handleLogin (mkLoginHandler a' enabled name audit) rq posted req w) /\
  (forall a b audit action id match_ code answer, untokened action = false ->
     let req := Some (mkLoginTOTPRequest action id match_ code answer token) in
     handleLoginTOTP (mkLoginTOTPHandler a audit) rq req w = handleLoginTOTP (mkLoginTOTPHandler (with_decisions a b) audit) rq req w) /\
  (forall a a' action id match_ code answer, let req := Some (mkLoginTOTPRequest action id match_ code answer token) in
     handleLoginPush a rq req w = handleLoginPush a' rq req w) /\
  (forall m m' code returnTo, let req := Some (mkTOTPSetup code token returnTo) in
     handleTOTPSetup m rq req w = handleTOTPSetup m' rq req w) /\
  (forall m m' action id answer returnTo, let req := Some (mkPasskeySetup action id answer token returnTo) in
     handlePasskeySetup m rq req w = handlePasskeySetup m' rq req w).
Proof.
  intros Hpost Hforged. repeat split; intros; cbv zeta in *; try subst req.
  - unfold handleLogout, logout_checks. cbn. rewrite Hforged. by destruct (validateLocalRedirectTarget returnTo).
  - unfold handleLogoutAll, logout_checks. cbn. rewrite Hforged. by destruct (validateLocalRedirectTarget returnTo).
  - unfold EndSessionPost. cbn [es_CSRFToken]. rewrite Hforged. reflexivity.
  - unfold handleConsent. rewrite Hpost. cbn [cd_CSRFToken]. rewrite Hforged. reflexivity.
  - unfold handleDeviceVerification. rewrite Hpost. cbn [dv_CSRFToken dv_Action]. rewrite Hforged. by destruct (String.eqb action "").
  - unfold handleLogin. rewrite Hpost. cbn [lg_ReturnTo]. destruct (validateLocalRedirectTarget returnTo); [|reflexivity].
    cbn [with_return_to lg_CSRFToken]. rewrite Hforged. reflexivity.
  - unfold handleLoginTOTP. rewrite Hpost. cbn [lt_CSRFToken lt_Action]. rewrite Hforged.
    unfold untokened in H. cbv zeta in H. apply orb_false_iff in H as [-> ->]. by repeat case_match.
  - unfold handleLoginPush. rewrite Hpost. cbn [lt_CSRFToken]. rewrite Hforged. reflexivity.
  - unfold handleTOTPSetup. rewrite Hpost. cbn [ts_CSRFToken ts_ReturnTo]. rewrite Hforged. by repeat case_match.
  - unfold handlePasskeySetup. rewrite Hpost. cbn [ps_CSRFToken ps_ReturnTo]. rewrite Hforged. by repeat case_match.
Qed.
End Forged.

(** ** The token of a page is accepted *)

Section Token.
Context {W : Type} `{!Runtime W}.
Hypothesis random_bytes : forall w bytes w', rand_Read 32 w = (Ok bytes, w') -> length bytes = 32%nat /\ Forall (fun z => 0 <= z < 256) bytes.

(** The browser's cookies after a response. *)
Definition after_response (cookies : string -> string) (set : list cookie) (name : string) : string :=
  fold_left (fun v c => if String.eqb (ck_name c) name then ck_value c else v) set (cookies name).

Lemma issued_token rq w token set w' : ensureCSRFToken rq w = (Ok (token, set), w') ->
  token <> "" /\ TrimSpace token = token /\ TrimSpace (after_response (rq_cookie rq) set csrfCookieName) = token.
Proof.
  unfold ensureCSRFToken, readCSRFCookie. cbv zeta. destruct (String.eqb_spec (TrimSpace (rq_cookie rq csrfCookieName)) "") as [He|Hne]; cbn [negb]; intros Hx.
  - run Hx as t w1 Ht. apply ret_Ok in Hx as [[= <- <-] _]. unfold newCSRFToken in Ht. run Ht as bytes w2 Hb. apply ret_Ok in Ht as [<- _].
    destruct (random_bytes _ _ _ Hb) as [Hlen Hbytes]. pose proof (RawURLEncode_visible _ Hbytes) as Hv.
    assert (Hn : RawURLEncode bytes <> "").
    { intros E. pose proof (RawURLEncode_length _ Hbytes) as Hl. rewrite E, Hlen in Hl. discriminate. }
    split; [done|]. split; [by apply TrimSpace_visible|]. cbn. by apply TrimSpace_visible.
  - apply ret_Ok in Hx as [[= <- <-] _]. split; [done|]. split; [apply TrimSpace_idem | done].
Qed.

(** A form comes back with the token its page was given: whatever the
    request that asked for the page had in its cookies, the token issued for
    the page is accepted, from the form or from the header, with any request
    that carries the cookies the browser then has, and no other token is. *)
Theorem page_token_accepted rq w token set w' rq' submitted :
  ensureCSRFToken rq w = (Ok (token, set), w') ->
  rq_cookie rq' csrfCookieName = after_response (rq_cookie rq) set csrfCookieName ->
  validateCSRFToken rq' token = true /\
  (rq_header rq' csrfHeaderName = token -> validateCSRFToken rq' "" = true) /\
  (validateCSRFToken rq' submitted = true -> TrimSpace submitted = token \/ (blank submitted = true /\ TrimSpace (rq_header rq' csrfHeaderName) = token)).
Proof.
  intros Hx Hc. destruct (issued_token _ _ _ _ _ Hx) as (Hne & Htrim & Hcookie). unfold validateCSRFToken, readCSRFCookie. cbv zeta.
  rewrite Hc, Hcookie, Htrim, (proj2 (String.eqb_neq _ _) Hne). split; [|split].
  - by rewrite (proj2 (String.eqb_neq _ _) Hne), String.eqb_refl.
  - intros ->. change (TrimSpace "") with "". cbn [String.eqb]. by rewrite Htrim, (proj2 (String.eqb_neq _ _) Hne), String.eqb_refl.
  - unfold blank. destruct (String.eqb_spec (TrimSpace submitted) "") as [Hb|Hb]; rewrite orb_false_r.
    + destruct (String.eqb _ ""); [done|]. intros ->%String.eqb_eq. by right.
    + rewrite (proj2 (String.eqb_neq _ _) Hb). intros ->%String.eqb_eq. by left.
Qed.
End Token.

(** ** Session cookies *)

Section Sessions.
Context {W : Type} `{!Runtime W}.
Implicit Types (a : Authenticator W) (w : W).

(** A login that succeeded: with the first factor alone, or up to the
    enrolment of a second one; by a code; by a passkey; by an approved push. *)
Inductive signed_in a : AuthenticateResult -> Prop :=
| by_login input w r e w' : an_Authenticate a input w = (Ok (r, e), w') ->
    e = None \/ e = Some (Authn AuthnErrMFAEnrollmentRequired) -> signed_in a r
| by_code challengeID code w r w' : an_VerifyTOTP a challengeID code w = (Ok r, w') -> signed_in a r
| by_passkey challengeID answer w r w' : an_VerifyMFAPasskey a challengeID answer w = (Ok r, w') -> signed_in a r
| by_push challengeID w r w' : an_FinalizeMFAPush a challengeID w = (Ok r, w') -> signed_in a r.

(** A session cookie of a response is closed to scripts and plain HTTP, and
    ends the session or carries the session of a login. *)
Definition sound_cookie a (c : cookie) : Prop :=
  ck_name c = session_cookie -> ck_secure c = true /\ ck_httpOnly c = true /\
    (ck_value c = "" \/ exists r, signed_in a r /\ ck_value c = ar_SessionID r).

(** A program all of whose answers have sound cookies. *)
Definition sound a (m : IO W response) : Prop := forall w r w', m w = (Ok r, w') -> Forall (sound_cookie a) (rs_cookies r).

Lemma sound_ret a r : Forall (sound_cookie a) (rs_cookies r) -> sound a (ret r).
Proof. intros Hr w r' w' Hx. by apply ret_Ok in Hx as [<- _]. Qed.

Lemma sound_bind a {A} (m : IO W A) (k : A -> IO W response) :
  (forall w x w1, m w = (Ok x, w1) -> sound a (k x)) -> sound a (bind m k).
Proof. intros Hk w r w' Hx. run Hx as x w1 Hm. by eapply Hk. Qed.

Lemma sound_bind_any a {A} (m : IO W A) (k : A -> IO W response) : (forall x, sound a (k x)) -> sound a (bind m k).
Proof. intros Hk. apply sound_bind. auto. Qed.

Lemma sound_other a name value maxAge secure httpOnly : name <> session_cookie -> sound_cookie a (mkCookie name value maxAge secure httpOnly).
Proof. intros Hn Hs. done. Qed.

Lemma sound_clear a : sound_cookie a clear_session.
Proof. intros _. split; [done|]. split; [done | by left]. Qed.

Lemma sound_challenge a : sound_cookie a clear_challenge.
Proof. by apply sound_other. Qed.

Lemma sound_token rq w token set w' a : ensureCSRFToken rq w = (Ok (token, set), w') -> Forall (sound_cookie a) set.
Proof.
  unfold ensureCSRFToken. cbv zeta. destruct (negb _); intros Hx.
  - apply ret_Ok in Hx as [[= _ <-] _]. constructor.
  - run Hx as t w1 Ht. apply ret_Ok in Hx as [[= _ <-] _]. constructor; [by apply sound_other | constructor].
Qed.

Lemma sound_strict a template rq cookies status token data : Forall (sound_cookie a) cookies -> sound a (strict_page template rq cookies status token data).
Proof.
  intros Hc. unfold strict_page. destruct (negb _); [by apply sound_ret|]. apply sound_bind. intros w issued w1 Hi. apply attempt_inv in Hi.
  apply sound_ret. destruct issued as [[t set]|e]; [|done]. cbn. apply Forall_app. split; [done | by eapply sound_token].
Qed.

Lemma sound_lenient a rq (k : string * list cookie -> IO W response) :
  (forall issued, Forall (sound_cookie a) issued.2 -> sound a (k issued)) -> sound a (bind (lenient_token rq) k).
Proof.
  intros Hk. apply sound_bind. intros w issued w1 Hi. apply Hk. unfold lenient_token in Hi. run Hi as o w2 Ho. apply attempt_inv in Ho.
  apply ret_Ok in Hi as [<- _]. destruct o as [[t set]|e]; [by eapply sound_token | constructor].
Qed.

Lemma sound_started a (r : AuthenticateResult) (k : cookie -> IO W response) : signed_in a r ->
  (forall c, sound_cookie a c -> sound a (k c)) -> sound a (bind (start_session r) k).
Proof.
  intros Hs Hk. apply sound_bind. intros w c w1 Hc. apply Hk. unfold start_session in Hc. run Hc as n w2 Hn. apply ret_Ok in Hc as [<- _].
  intros _. split; [done|]. split; [done|]. right. by exists r.
Qed.

Lemma sound_audit a repo rq id subject role method uri (m : IO W response) :
  sound a m -> sound a (do* recordLoginSuccessAuditEvent repo rq id subject role method uri in m).
Proof. intros Hm. by apply sound_bind_any. Qed.
End Sessions.

Create HintDb sound.
#[export] Hint Extern 1 (sound _ (ret _)) => (apply sound_ret; cbn) : sound.
#[export] Hint Resolve sound_strict sound_audit sound_clear sound_challenge Forall_nil_2 Forall_cons_2 : sound.
#[export] Hint Extern 1 (sound_cookie _ (mkCookie _ _ _ _ _)) => (apply sound_other; discriminate) : sound.

Section LoginCookies.
Context {W : Type} `{!Runtime W}.
Implicit Types (a : Authenticator W) (w : W).

Lemma json_error_sound a cookies status text : Forall (sound_cookie a) cookies -> sound a (ret (json_error cookies status text)).
Proof. intros Hc. by apply sound_ret. Qed.
Hint Resolve json_error_sound : sound.

Lemma writeInvalidReturnTo_sound a (h : LoginHandler W) rq : sound a (writeInvalidReturnTo h rq).
Proof. unfold writeInvalidReturnTo, renderLoginPage. case_match; eauto with sound. Qed.
Hint Resolve writeInvalidReturnTo_sound : sound.

Lemma login_failed_sound (h : LoginHandler W) rq req result e :
  (forall r, result = Some r -> e = Authn AuthnErrMFAEnrollmentRequired -> signed_in (lh_authn h) r) ->
  sound (lh_authn h) (login_failed h rq req result e).
Proof.
  intros Hr. unfold login_failed, renderLoginPage. cbv zeta.
  destruct result as [r|]; [|case_match; eauto with sound]. case_bool_decide as He; cbn [andb].
  - destruct (negb (String.eqb (ar_SessionID r) "")).
    + apply sound_started; [by apply Hr|]. intros c Hc. case_match; eauto with sound.
    + repeat case_match; eauto with sound.
  - repeat case_match; eauto with sound.
Qed.

Lemma login_succeeded_sound (h : LoginHandler W) rq req r : signed_in (lh_authn h) r -> sound (lh_authn h) (login_succeeded h rq req r).
Proof.
  intros Hr. unfold login_succeeded, renderLoginPage. case_match; [eauto with sound|]. case_match; [|eauto with sound].
  apply sound_bind. intros w issued w1 Hi. apply attempt_inv in Hi. destruct issued as [[t set]|e]; [|eauto with sound].
  apply sound_token with (a := lh_authn h) in Hi. apply sound_started; [done|]. intros c Hc. cbv zeta. apply sound_audit.
  assert (Hcs : Forall (sound_cookie (lh_authn h)) (set ++ [c])) by (apply Forall_app; split; [done | by apply Forall_singleton]).
  case_match; [eauto with sound|]. case_match; eauto with sound.
Qed.

Lemma handleAuthenticate_sound (h : LoginHandler W) rq req : sound (lh_authn h) (handleAuthenticate h rq req).
Proof.
  apply sound_bind. intros w result w1 Ha. apply attempt_inv in Ha. destruct result as [[r [e|]]|e].
  - apply login_failed_sound. intros r' [= <-] ->. eapply by_login; [exact Ha | by right].
  - apply login_succeeded_sound. eapply by_login; [exact Ha | by left].
  - by apply login_failed_sound.
Qed.
Hint Resolve handleAuthenticate_sound : sound.

Lemma handleLogin_sound (h : LoginHandler W) rq posted form : sound (lh_authn h) (handleLogin h rq posted form).
Proof.
  unfold handleLogin, login_get, renderLoginPage, writeInvalidCSRF. destruct (rq_GET rq).
  - cbv zeta. case_match; [|eauto with sound]. case_match; [eauto with sound|]. apply sound_bind. intros w issued w1 Hi. apply attempt_inv in Hi.
    destruct issued as [[t set]|e]; [|eauto with sound]. apply sound_token with (a := lh_authn h) in Hi. unfold renderLoginPage. case_match; eauto with sound.
  - case_match; [|case_match; eauto with sound]. case_match; [|eauto with sound]. cbv zeta.
    case_match; [unfold renderLoginPage; case_match; eauto with sound | eauto with sound].
Qed.

Lemma totp_render_sound a rq cookies status data : Forall (sound_cookie a) cookies -> sound a (totp_render rq cookies status data).
Proof.
  intros Hc. apply sound_lenient. intros [t set] Hs. apply sound_ret. apply Forall_app. by split.
Qed.

Lemma loadChallengeData_sound a (h : LoginTOTPHandler W) rq (k : loginTOTPPageData * list cookie -> IO W response) :
  (forall loaded, Forall (sound_cookie a) loaded.2 -> sound a (k loaded)) -> sound a (bind (loadChallengeData h rq) k).
Proof.
  intros Hk. apply sound_bind. intros w loaded w1 Hl. apply Hk. unfold loadChallengeData in Hl. cbv zeta in Hl.
  destruct (String.eqb _ ""); [by apply ret_Ok in Hl as [<- _]|]. run Hl as st w2 Hs. apply ret_Ok in Hl as [<- _].
  destruct st as [st|e]; [done|]. cbn. case_bool_decide; eauto with sound.
Qed.

Lemma expired_sound a e : Forall (sound_cookie a) (expired_cookie e).
Proof. unfold expired_cookie. case_bool_decide; eauto with sound. Qed.
Hint Resolve expired_sound : sound.

Lemma writePushStatus_sound (h : LoginTOTPHandler W) rq : sound (th_authn h) (writePushStatus h rq).
Proof.
  unfold writePushStatus. cbv zeta. case_match; [eauto with sound|]. apply sound_bind_any. intros [st|e]; [|eauto with sound].
  case_match; [|eauto with sound]. apply sound_bind. intros w r w1 Hf. apply attempt_inv in Hf. destruct r as [r|e]; [|eauto with sound].
  apply sound_started; [by eapply by_push|]. intros c Hc. eauto with sound.
Qed.

Lemma handlePasskeyBegin_sound (h : LoginTOTPHandler W) rq req : sound (th_authn h) (handlePasskeyBegin h rq req).
Proof.
  apply sound_bind_any. intros [[[id options] t]|e]; [|eauto with sound]. unfold options_answer. case_match; eauto with sound.
Qed.

Lemma handlePasskeyFinish_sound (h : LoginTOTPHandler W) rq req : sound (th_authn h) (handlePasskeyFinish h rq req).
Proof.
  unfold handlePasskeyFinish. cbv zeta. case_match; [eauto with sound|]. apply sound_bind. intros w r w1 Hf. apply attempt_inv in Hf.
  destruct r as [r|e]; [|eauto with sound]. apply sound_started; [by eapply by_passkey|]. intros c Hc. eauto with sound.
Qed.

Lemma handlePushDecision_sound a (h : LoginTOTPHandler W) rq req : sound a (handlePushDecision h rq req).
Proof. apply sound_bind_any. intros [st|e]; eauto with sound. Qed.

Lemma totp_succeeded_sound (h : LoginTOTPHandler W) rq r : signed_in (th_authn h) r -> sound (th_authn h) (totp_succeeded h rq r).
Proof.
  intros Hr. apply sound_started; [done|]. intros c Hc. cbv zeta. repeat case_match; eauto with sound.
Qed.

Lemma handleCode_sound (h : LoginTOTPHandler W) rq req : sound (th_authn h) (handleCode h rq req).
Proof.
  apply sound_bind. intros w r w1 Hf. apply attempt_inv in Hf. destruct r as [r|e]; [apply totp_succeeded_sound; by eapply by_code|].
  apply loadChallengeData_sound. intros loaded Hl. apply totp_render_sound, Forall_app. split; [apply expired_sound | done].
Qed.
Hint Resolve writePushStatus_sound handlePasskeyBegin_sound handlePasskeyFinish_sound handlePushDecision_sound handleCode_sound : sound.

Lemma handleLoginTOTP_sound (h : LoginTOTPHandler W) rq form : sound (th_authn h) (handleLoginTOTP h rq form).
Proof.
  unfold handleLoginTOTP. cbv zeta. destruct (rq_GET rq).
  - case_match; [eauto with sound|]. apply loadChallengeData_sound. intros loaded Hl. by apply totp_render_sound.
  - destruct form as [req|]; [|eauto with sound]. repeat (case_match; try solve [eauto with sound]).
    apply loadChallengeData_sound. intros loaded Hl. by apply totp_render_sound.
Qed.

Lemma push_render_sound a rq status id code st text : sound a (push_render rq status id code st text).
Proof. apply sound_lenient. intros [t set] Hs. by apply sound_ret. Qed.
Hint Resolve push_render_sound : sound.

Lemma handleLoginPush_sound a rq form : sound a (handleLoginPush a rq form).
Proof.
  unfold handleLoginPush. destruct (rq_GET rq); [eauto with sound|]. destruct form as [req|]; [|eauto with sound].
  case_match; [eauto with sound|]. apply sound_bind_any. intros [st|e]; [|eauto with sound]. case_match; eauto with sound.
Qed.

(** C10. A session cookie is the outcome of a login: whatever form, cookies and
    headers a browser sends to the login page, the second-factor page or the
    push page, a session cookie in the response is marked for HTTPS only and
    hidden from scripts, and either it ends the session or its value is the
    session of a result with which the authentication service completed a
    login, by password or provider, one-time password, passkey or push. *)
Theorem session_cookies_sound a enabled name audit rq posted login_form form w r w' c :
  handleLogin (mkLoginHandler a enabled name audit) rq posted login_form w = (Ok r, w') \/
  handleLoginTOTP (mkLoginTOTPHandler a audit) rq form w = (Ok r, w') \/
  handleLoginPush a rq form w = (Ok r, w') ->
  In c (rs_cookies r) -> ck_name c = session_cookie ->
  ck_secure c = true /\ ck_httpOnly c = true /\ (ck_value c = "" \/ exists result, signed_in a result /\ ck_value c = ar_SessionID result).
Proof.
  intros Hrun Hin Hname. enough (Hs : Forall (sound_cookie a) (rs_cookies r)).
  { rewrite List.Forall_forall in Hs. by apply Hs. }
  destruct Hrun as [Hx|[Hx|Hx]].
  - exact (handleLogin_sound _ _ _ _ _ _ _ Hx).
  - exact (handleLoginTOTP_sound _ _ _ _ _ _ Hx).
  - exact (handleLoginPush_sound _ _ _ _ _ _ Hx).
Qed.
End LoginCookies.

(** ** Where a logout sends the browser *)

Section EndSession.
Context {W D : Type} `{!Runtime W} `{!Columns D} `{!Schema D} (repo : ClientRepo W D) (h : Remote W D).
Hypothesis on_reader : reader repo = Some h.
Hypothesis transport_clients : forall w, rtc client_step (server w) (server (transport w).2).
Context (pw : PasswordVerifier W) (service : option (Manager W)).

(** The handler as the program builds it: client administration validates. *)
Definition end_session_handler : EndSessionHandler W :=
  NewEndSessionHandler service (Some (ValidatePostLogoutRedirectURI (admin repo pw))).

Lemma validateRedirect_registered (req : EndSessionRequest) w uri w' :
  validateRedirect end_session_handler req w = (Ok uri, w') ->
  uri = "" \/ exists d, rtc client_step (server w) d /\
    uri = TrimSpace (es_PostLogoutRedirectURI req) /\ registered_post_logout d (TrimSpace (es_ClientID req)) uri.
Proof.
  unfold validateRedirect. cbv zeta. case_match; intros Hx; [run_guard Hx as Hb; apply ret_Ok in Hx as [<- _]; by left|].
  right. run_guard Hx as Hne. run Hx as validate w1 Hv. apply ret_Ok in Hv as [<- <-]. run Hx as r w2 Hr. apply ret_Ok in Hx as [<- _].
  destruct (validated_registered repo h on_reader transport_clients pw _ _ _ _ _ Hr) as (E & d & Hd & Hreg). rewrite !TrimSpace_idem in *.
  exists d. rewrite E. auto.
Qed.

(** A page is no redirect. *)
Lemma strict_page_stays template rq cookies status token data w r w' loc :
  strict_page template rq cookies status token data w = (Ok r, w') -> rs_body r <> Redirect loc.
Proof.
  unfold strict_page. case_match; intros Hx; [by apply ret_Ok in Hx as [<- _]|]. run Hx as issued w1 Hi. apply ret_Ok in Hx as [<- _].
  by destruct issued as [[t set]|e].
Qed.

Lemma writeRequestError_stays rq status req e w r w' loc : writeRequestError rq status req e w = (Ok r, w') -> rs_body r <> Redirect loc.
Proof. unfold writeRequestError. case_match; intros Hx; [by eapply strict_page_stays | by apply ret_Ok in Hx as [<- _]]. Qed.

(** C15. A relying party's logout is no open redirect: the logout form sends
    the browser to the login page, or to the post-logout address of the form
    with its state added, when the database at that moment has an active
    client with the form's client id that registered this very address; in
    either case the session cookie is cleared, which happens for no form with
    another token. *)
Theorem end_session_redirects_registered rq req w r w' loc :
  EndSessionPost end_session_handler rq (Some req) w = (Ok r, w') -> rs_body r = Redirect loc ->
  validateCSRFToken rq (es_CSRFToken req) = true /\ rs_cookies r = [clear_session] /\
  (loc = "/login" \/
   exists d uri, rtc client_step (server w) d /\ registered_post_logout d (TrimSpace (es_ClientID req)) uri /\
     uri = TrimSpace (es_PostLogoutRedirectURI req) /\ loc = buildPostLogoutRedirect uri (TrimSpace (es_State req))).
Proof.
  unfold EndSessionPost. intros Hx Hr. run Hx as validated w1 Hv. apply attempt_inv in Hv.
  destruct validated as [uri|e]; [|by apply writeRequestError_stays with (loc := loc) in Hx].
  destruct (validateCSRFToken rq (es_CSRFToken req)).
  2: { case_match; [by apply strict_page_stays with (loc := loc) in Hx|]. apply ret_Ok in Hx as [<- _]. unfold writeCSRFError in Hr. by case_match. }
  split; [done|]. unfold end_session in Hx.
  assert (Ha : r = (if negb (String.eqb uri "") then redirect [clear_session] (buildPostLogoutRedirect uri (TrimSpace (es_State req)))
    else if wantsHTML rq then redirect [clear_session] "/login" else mkResponse StatusOK [clear_session] (JSON [("logged_out", Bool true)]))).
  { destruct (es_service _); [|by apply ret_Ok in Hx as [<- _]]. run Hx as o w2 Ho. apply ret_Ok in Hx as [<- _]. by destruct o. }
  clear Hx. subst r. destruct (String.eqb_spec uri "") as [->|Hne]; cbn [negb] in *.
  - case_match; [|done]. split; [done|]. injection Hr as <-. by left.
  - split; [done|]. injection Hr as <-. right. apply validateRedirect_registered in Hv as [->|(d & Hd & Huri & Hreg)]; [done|].
    exists d, uri. auto.
Qed.
End EndSession.

(** ** The second-factor page as it is *)

(** The buttons of the push page submit approve and deny, which are not the
    decisions that the service takes. *)
Lemma push_buttons_refused {W} `{!Runtime W} (s : AuthnService.Service W) id sid action code w r w' :
  action = "approve" \/ action = "deny" -> DecideMFAPush s (mkDecideInput id sid action code) w = (Ok r, w') -> False.
Proof. intros [->| ->]; unfold DecideMFAPush; cbv zeta; intros Hx; run Hx as cache w1 Hc; run_guard Hx as Hf; vm_compute in Hf; discriminate. Qed.

(** ** At work *)

Module BrowserDemo.
Import ClientDemo AdminDemo.

#[export] Instance runtime : Runtime database := {|
  time_Now d := (clock d, d);
  uuid_NewString d := ("a-session", d);
  rand_Read n d := (Ok (replicate n 7), d);
|}.

Definition page : URL := match Parse "/login" with Some u => u | None => mkURL "" "" None "" "" "" false false "" "" "" end.
Definition html (cookies : list (string * string)) (GET : bool) : request :=
  mkRequest GET page (fun name => match List.find (fun p => String.eqb p.1 name) cookies with Some p => p.2 | None => "" end)
    (fun name => if String.eqb name "Accept" then "text/html" else "") "198.51.100.7".

Definition alice (returnTo : string) : AuthenticateResult :=
  mkAuthenticateResult "a-session" 42 "uuid-alice" "end_user" "" returnTo false false "" "" false "" "" 0 (1700003600 * Second).

(** Lets everybody in, as the first result it is given; and nobody. *)
Definition generous (r : AuthenticateResult) : Authenticator database :=
  mkAuthenticator (fun _ => ret (r, None)) (fun _ _ => ret r) (fun _ => throw (Authn AuthnErrPasskeyUnavailable)) (fun _ _ => ret r)
    (fun _ => throw (Authn AuthnErrMFAChallengeExpired)) (fun _ => throw (Authn AuthnErrInvalidMFAAction)) (fun _ => ret r).
Definition strict : Authenticator database :=
  mkAuthenticator (fun _ => throw (Authn AuthnErrInvalidCredentials)) (fun _ _ => throw (Authn AuthnErrInvalidTOTPCode))
    (fun _ => throw (Authn AuthnErrPasskeyUnavailable)) (fun _ _ => throw (Authn AuthnErrInvalidCredentials))
    (fun _ => throw (Authn AuthnErrMFAChallengeExpired)) (fun _ => throw (Authn AuthnErrInvalidMFAAction)) (fun _ => throw (Authn AuthnErrMFAPushNotApproved)).

Definition visitor : request := html [(csrfCookieName, "t0ken"); (mfaChallengeCookieName, "c-1")] false.
Definition login_form (token : string) : LoginRequest := mkLoginRequest "password" "alice" "s3cret" token "/portal" "" "" "" "".
Definition form_login (a : Authenticator database) (token : string) : result error response * database :=
  handleLogin (mkLoginHandler a false "" None) visitor ("", "") (Some (login_form token)) others.
Definition code_form : LoginTOTPRequest := mkLoginTOTPRequest "" "" "" "123456" "" "t0ken".
Definition end_session_form (uri : string) : EndSessionRequest := mkEndSessionRequest "web-client" uri "x y" "t0ken".
End BrowserDemo.
Import ClientDemo AdminDemo BrowserDemo.

(** A right code, and the redirect the challenge was stored with: what the
    login form made of it was never checked as an address again. *)
Example second_factor_redirect_hole :
  option_map (fun target => match (handleLoginTOTP (mkLoginTOTPHandler (generous (alice target)) None) visitor (Some code_form) others).1 with
    | Ok r => rs_body r | Err _ => Text "" end) (validateLocalRedirectTarget "/%2Fevil.example/a b")
  = Some (Redirect "//evil.example/a%20b").
Proof. vm_compute. reflexivity. Qed.

(** The decision of a push challenge needs no token on this page. *)
Example forged_push_decision : forall a, let rq := html [(session_cookie, "victim")] false in
  validateCSRFToken rq "" = false /\
  handleLoginTOTP (mkLoginTOTPHandler a None) rq (Some (mkLoginTOTPRequest "deny" "c-1" "" "" "" "")) others =
  handlePushDecision (mkLoginTOTPHandler a None) rq (mkLoginTOTPRequest "deny" "c-1" "" "" "" "") others.
Proof. intros a. by split. Qed.

Lemma page_token_accepted_witness : exists token set w', ensureCSRFToken (html [] true) empty = (Ok (token, set), w') /\
  validateCSRFToken (html [(csrfCookieName, token)] false) token = true.
Proof.
  assert (He : exists token set w', ensureCSRFToken (html [] true) empty = (Ok (token, set), w') /\
    after_response (rq_cookie (html [] true)) set csrfCookieName = token) by (do 3 eexists; split; vm_compute; reflexivity).
  destruct He as (token & set & w' & He & Ha). exists token, set, w'. split; [exact He|].
  refine (proj1 (page_token_accepted _ (html [] true) empty token set w' _ "" He _)).
  - intros w bytes w1 Hx. cbn in Hx. injection Hx as <- _. split; [reflexivity | repeat constructor; discriminate].
  - rewrite Ha. reflexivity.
Defined.

Lemma session_cookies_sound_witness : exists r w' c, form_login (generous (alice "")) "t0ken" = (Ok r, w') /\ In c (rs_cookies r) /\
  rs_body r = Redirect "/portal" /\
  ck_secure c = true /\ ck_httpOnly c = true /\ ck_value c = "a-session".
Proof.
  destruct (form_login (generous (alice "")) "t0ken") as [[r|e] w'] eqn:Hf; [|exfalso; vm_compute in Hf; discriminate].
  assert (Hr : r = redirect [mkCookie session_cookie "a-session" 3600 true true] "/portal") by (vm_compute in Hf; injection Hf as <- _; vm_compute; reflexivity).
  exists r, w', (mkCookie session_cookie "a-session" 3600 true true). split; [reflexivity|]. subst r. split; [by left|]. split; [reflexivity|].
  destruct (session_cookies_sound (generous (alice "")) false "" None visitor ("", "") (Some (login_form "t0ken")) None others _ w'
    (mkCookie session_cookie "a-session" 3600 true true) (or_introl Hf) (or_introl eq_refl) eq_refl) as (Hsec & Hhttp & _).
  split; [exact Hsec|]. split; [exact Hhttp | reflexivity].
Defined.

Lemma end_session_redirects_registered_witness : exists d,
  registered_post_logout d "web-client" "https://portal.example/bye" /\
  match (EndSessionPost (end_session_handler repo pw None) visitor (Some (end_session_form " https://portal.example/bye")) others).1 with
  | Ok r => rs_body r | Err _ => Text "" end = Redirect "https://portal.example/bye?state=x+y".
Proof.
  destruct (EndSessionPost (end_session_handler repo pw None) visitor (Some (end_session_form " https://portal.example/bye")) others) as [[r|e] w'] eqn:Hx;
    [|exfalso; vm_compute in Hx; discriminate].
  assert (Hr : rs_body r = Redirect "https://portal.example/bye?state=x+y") by (vm_compute in Hx; injection Hx as <- _; vm_compute; reflexivity).
  destruct (end_session_redirects_registered repo remote eq_refl (fun w => rtc_refl _ _) pw None visitor _ others r w' _ Hx Hr) as (_ & _ & [Hl|(d & uri & _ & Hreg & -> & _)]).
  - discriminate Hl.
  - exists d. split; [exact Hreg | exact Hr].
Defined.
