(* ===== verification/RegisterService.v ===== *)
(** * Accounts (application/register)

    Registration of local users, and what an administrator does to an
    account: a new password, an unlock.  [net/mail]'s grammar of addresses is
    a parameter. *)

From stdpp Require Import base tactics list gmap strings numbers relations.
From Stdlib Require Import ZArith Lia Ascii.
From S2P Require Import Prelude GoStrings GoText GoTime Errors Domain Ports AuthPorts.

Record RegisterInput := mkRegisterInput {
  ri_Username : string; ri_Email : string; ri_DisplayName : string; ri_Password : string; ri_EmailVerified : bool; ri_AutoActivate : bool;
}.
Record RegisterResult := mkRegisterResult {
  rr_UserID : Z; rr_UserUUID : string; rr_Username : string; rr_Email : string; rr_EmailVerified : bool; rr_DisplayName : string;
  rr_Status : string; rr_CreatedAt : time;
}.
Record AdminResetPasswordResult := mkResetResult { rp_UserID : Z; rp_Username : string; rp_PasswordSetAt : time }.
Record AdminUnlockUserResult := mkUnlockResult { uu_UserID : Z; uu_Username : string; uu_UnlockedAt : time }.

(** ** Rules *)

Definition ascii_letter (a : ascii) : bool := let x := byte_of a in (97 <=? x) && (x <=? 122) || (65 <=? x) && (x <=? 90).
Definition ascii_digit (a : ascii) : bool := let x := byte_of a in (48 <=? x) && (x <=? 57).

(** [^[a-zA-Z0-9._-]{3,32}$] *)
Definition usernamePattern (s : string) : bool :=
  forall_string (fun a => ascii_letter a || ascii_digit a || (byte_of a =? 46) || (byte_of a =? 95) || (byte_of a =? 45)) s &&
  (3 <=? String.length s)%nat && (String.length s <=? 32)%nat.

Fixpoint exists_string (p : ascii -> bool) (s : string) : bool :=
  match s with EmptyString => false | String a s => p a || exists_string p s end.

(** The loop looks at runes; letters and digits are bytes of their own. *)
Definition isStrongEnoughPassword (password : string) : bool :=
  let password := TrimSpace password in
  if (String.length password <? 8)%nat || (128 <? String.length password)%nat then false
  else exists_string ascii_letter password && exists_string ascii_digit password.

Section Service.
Context {W : Type} `{!Runtime W}.

(** [mail.ParseAddress(email)] succeeds. *)
Context (ParseAddress : string -> bool).

Definition isValidEmail (email : string) : bool := negb (255 <? String.length email)%nat && ParseAddress email.

(** [accounts]: what the repository offers besides its interface, which the
    code asks for with type assertions; UnlockAccount is in the interface. *)
Record Service := NewService {
  users : UserRepository W;
  accounts : UserAccounts W;
  passwords : option (PasswordVerifier W);
  rateLimit : option (RateLimitRepository W);
}.

(** The four rules of the switch, in its order. *)
Definition register_refusal (username email displayName password : string) : option register_error :=
  if negb (usernamePattern username) then Some RegisterErrInvalidUsername
  else if negb (isValidEmail email) then Some RegisterErrInvalidEmail
  else if (String.length displayName <? 2)%nat || (128 <? String.length displayName)%nat then Some RegisterErrInvalidDisplayName
  else if negb (isStrongEnoughPassword password) then Some RegisterErrWeakPassword
  else None.

Definition nobody (found : option user.Model) : bool := match found with None => true | Some _ => false end.

Definition Register (s : Service) (input : RegisterInput) : IO W RegisterResult :=
  let username := TrimSpace (ri_Username input) in
  let email := ToLower (TrimSpace (ri_Email input)) in
  let displayName := TrimSpace (ri_DisplayName input) in
  do* check (option_map Register (register_refusal username email displayName (ri_Password input))) in
  let* existingByUsername := FindByUsername (users s) username in
  do* guard (nobody existingByUsername) RegisterErrUsernameAlreadyUsed in
  let* existingByEmail := FindByEmail (users s) email in
  do* guard (nobody existingByEmail) RegisterErrEmailAlreadyUsed in
  let* p := some_or (passwords s) RegisterErrWeakPassword in
  let* passwordHash := HashPassword p (ri_Password input) in
  let* t := now in
  let status := if ri_AutoActivate input then "active" else "pending_verification" in
  let* uuid := NewString in
  let* model := User_Create (users s)
    (user.mk 0 uuid username email (ri_EmailVerified input) displayName passwordHash "" 0 "" status 0 None t t) in
  ret (mkRegisterResult (user.ID model) (user.UserUUID model) (user.Username model) (user.Email model) (user.EmailVerified model)
         (user.DisplayName model) (user.Status model) t).

Definition AdminResetPassword (s : Service) (userID : Z) (newPassword : string) : IO W AdminResetPasswordResult :=
  do* guard (negb (userID <=? 0)) RegisterErrUserNotFound in
  do* guard (isStrongEnoughPassword newPassword) RegisterErrWeakPassword in
  let* p := some_or (passwords s) RegisterErrWeakPassword in
  let* update := some_or (UpdatePasswordHash (accounts s)) RegisterErrPasswordUpdateFailed in
  let* found := User_FindByID (users s) userID in
  let* userModel := some_or found RegisterErrUserNotFound in
  let* passwordHash := HashPassword p newPassword in
  let* t := now in
  do* update userID passwordHash t in
  ret (mkResetResult (user.ID userModel) (user.Username userModel) t).

(** The locks and counters of the cache; their errors are dropped. *)
Definition clear_limits (s : Service) (userID : Z) (userModel : user.Model) : IO W unit :=
  match rateLimit s with
  | None => ret tt
  | Some limits =>
      do* attempt (ClearUserLock limits (FormatInt userID)) in
      let username := TrimSpace (user.Username userModel) in
      if String.eqb username "" then ret tt else
      do* attempt (ResetLoginFailByUser limits username) in
      do* attempt (ResetBlacklistByUser limits username) in
      ret tt
  end.

Definition AdminUnlockUser (s : Service) (userID : Z) : IO W AdminUnlockUserResult :=
  do* guard (negb (userID <=? 0)) RegisterErrUserNotFound in
  let* found := User_FindByID (users s) userID in
  let* userModel := some_or found RegisterErrUserNotFound in
  let* t := now in
  do* UnlockAccount (users s) userID t in
  do* clear_limits s userID userModel in
  ret (mkUnlockResult (user.ID userModel) (user.Username userModel) t).
End Service.
Arguments Service W : clear implicits.

(** * Accounts over the database, and the password that logs in

    RegisterService over UserRepo, and the password method (AuthnPlugins)
    over the same table. *)

From S2P Require Import Remote Database UserRepo AuthnPlugins.

Section System.
Context {W D : Type} `{!Runtime W} `{!Columns D} `{!Table D user_row (H := user_row_keys (D := D))}.
Context (repo : UserRepo W D) (h : Remote W D).
Hypothesis on_writer : writer repo = Some h.
Hypothesis on_reader : reader repo = Some h.

(** A statement that sets no password of the accounts [ids]. *)
Definition keeps_password (ids : Z -> Prop) : relation D := fun d d' =>
  user_step (fun _ => True) d d' /\
  forall id r r', ids id -> rows d !! id = Some r -> rows d' !! id = Some r' -> u_password_hash r' = u_password_hash r.

(** While a request of this program travels, others set no password; while
    it hashes or reads the clock they may do anything to the accounts. *)
Hypothesis transport_keeps : forall w, rtc (keeps_password (fun _ => True)) (server w) (server (transport w).2).
Hypothesis clock_steps : forall w, rtc (user_step (fun _ => True)) (server w) (server (time_Now w).2).
Context (ParseAddress : string -> bool) (pw : PasswordVerifier W) (limits : option (RateLimitRepository W)).
Hypothesis hash_verifies : forall p w hash w', HashPassword pw p w = (Ok hash, w') -> VerifyPassword pw p hash = true.
Hypothesis hash_steps : forall p w, rtc (user_step (fun _ => True)) (server w) (server (HashPassword pw p w).2).

Definition account_service : RegisterService.Service W :=
  RegisterService.NewService (NewUserRepository repo) (UserRepo.accounts repo) (Some pw) limits.
Definition password_method : password.Method := password.NewMethod (Some (NewUserRepository repo)) (Some pw).

(** The password of an account is set when it is registered, and when an
    administrator sets another. *)
Inductive password_set (id : Z) (p : string) (w w1 : W) : Prop :=
| by_registration input r : Register ParseAddress account_service input w = (Ok r, w1) ->
    rr_UserID r = id -> ri_Password input = p -> password_set id p w w1
| by_administrator r : AdminResetPassword account_service id p w = (Ok r, w1) -> password_set id p w w1.

Lemma keeps_steps ids d d' : rtc (keeps_password ids) d d' -> rtc (user_step (fun _ => True)) d d'.
Proof. induction 1 as [|x y z [Hs _] _ IH]; [apply rtc_refl | by eapply rtc_l]. Qed.

Lemma keeps_weaken (P Q : Z -> Prop) d d' : (forall id, Q id -> P id) -> rtc (keeps_password P) d d' -> rtc (keeps_password Q) d d'.
Proof.
  intros HPQ. induction 1 as [|x y z [Hs Hk] _ IH]; [apply rtc_refl|]. eapply rtc_l; [|exact IH]. split; [done|]. intros id r r' Hq. apply Hk. auto.
Qed.

(** The hash stays as long as nobody sets another. *)
Lemma hash_kept id d d' r : rtc (keeps_password (eq id)) d d' -> rows d !! id = Some r ->
  exists r', rows d' !! id = Some r' /\ u_password_hash r' = u_password_hash r.
Proof.
  intros Hst. revert r. induction Hst as [d|d d1 d2 [Hs Hk] _ IH]; intros r Hr; [by exists r|].
  destruct (account_kept _ _ _ _ _ (rtc_once _ _ Hs) Hr) as (r1 & Hr1 & _). destruct (IH _ Hr1) as (r2 & Hr2 & He).
  exists r2. split; [done|]. rewrite He. by eapply Hk.
Qed.

Lemma findUser_keeps ids p (d : D) : rtc (keeps_password ids) d (findUser p d).2.
Proof.
  assert (Hrows : rows (R := user_row) (findUser p d).2 = rows d).
  { unfold findUser, bind. destruct (SELECT _ d) as [b d1] eqn:Es. apply SELECT_rows in Es. by destruct b. }
  apply rtc_once. split; [by apply user_elsewhere|]. intros id r r' _ Hr. rewrite Hrows. congruence.
Qed.

Lemma created_row m m' w w1 : UserRepo.Create repo m w = (Ok m', w1) ->
  exists r, rows (server w1) !! user.ID m' = Some r /\ u_password_hash r = user.PasswordHash m.
Proof.
  intros Hc. unfold UserRepo.Create, run_on in Hc. rewrite on_writer in Hc. set (role := if String.eqb _ _ then _ else _) in Hc. clearbody role.
  run Hc as id wa Hi. apply ret_Ok in Hc as [<- <-]. apply call_Ok in Hi as (wb & d1 & Hi & <-).
  unfold createUser in Hi. apply INSERT_Ok in Hi as (_ & at_ & Hrows & Hid). cbn [user.ID] in *.
  eexists. split; [rewrite Hrows; apply lookup_insert_eq | done].
Qed.

Lemma steps_run {A} (m : IO W A) w o w' : (forall w, rtc (user_step (fun _ => True)) (server w) (server (m w).2)) ->
  m w = (o, w') -> rtc (user_step (fun _ => True)) (server w) (server w').
Proof. intros Hm Hx. specialize (Hm w). by rewrite Hx in Hm. Qed.

Lemma now_steps w t w' : now w = (Ok t, w') -> rtc (user_step (fun _ => True)) (server w) (server w').
Proof. unfold now. pose proof (clock_steps w) as H. destruct (time_Now w) as [t0 w0]. intros [= _ <-]. exact H. Qed.

(** Where it was set, the account has a hash of the password. *)
Lemma set_hash id p w w1 : password_set id p w w1 ->
  exists hash r, VerifyPassword pw p hash = true /\ rows (server w1) !! id = Some r /\ u_password_hash r = hash.
Proof.
  intros [input r Hx <- <- | r Hx].
  - unfold Register in Hx. cbv zeta in Hx. run Hx as u0 wa Hc. run Hx as by_name wb Hn. run_guard Hx as Hn1. run Hx as by_mail wc He. run_guard Hx as He1.
    run_some Hx as v Hv. injection Hv as <-. run Hx as hash wd Hh. run Hx as t we Ht. run Hx as uuid wf Hu. run Hx as m wg Hm. apply ret_Ok in Hx as [<- <-].
    apply created_row in Hm as (row & Hr & He2). exists hash, row. split; [by eapply hash_verifies|]. by split.
  - unfold AdminResetPassword in Hx. run_guard Hx as Hid. run_guard Hx as Hs. run_some Hx as v Hv. injection Hv as <-. run_some Hx as update Hup. injection Hup as <-.
    run Hx as found wa Hf. run_some Hx as m Hm. subst found. run Hx as hash wb Hh. run Hx as t wc Ht. run Hx as u wd Hw. apply ret_Ok in Hx as [_ <-].
    assert (Hrow : exists r1, rows (server wc) !! id = Some r1).
    { change (UserRepo.FindByID repo id w = (Ok (Some m), wa)) in Hf. unfold UserRepo.FindByID, findByID, getOne, run_on in Hf. rewrite on_reader in Hf.
      run Hf as o we Hc. apply ret_Ok in Hf as [Ho <-]. destruct o as [r1|]; [|done]. clear Ho.
      apply (call_Ok_steps (user_step (fun _ => True))) in Hc as (wf & d & Hst & Hf & Hd).
      2: { intros w'. eapply keeps_steps, transport_keeps. }
      2: { intros d. eapply keeps_steps, (findUser_keeps (fun _ => True)). }
      pose proof (findUser_steps (fun _ => True) (fun r => u_id r =? id) (server wf)) as Hs1. rewrite Hf in Hs1. cbn [snd] in Hs1.
      apply findUser_inv in Hf as [Hr1 Hid1%Z.eqb_eq]. rewrite Hid1 in Hr1. rewrite <- Hd in Hs1.
      destruct (account_kept (fun _ => True) (server wf) (server wc) id r1) as (r2 & Hr2 & _); [|done|by exists r2].
      etrans; [exact Hs1|]. etrans; [exact (steps_run _ _ _ _ (hash_steps p) Hh) | exact (now_steps _ _ _ Ht)]. }
    destruct Hrow as [r1 Hr1]. unfold UserRepo.UpdatePasswordHash, run_on in Hw. rewrite on_writer in Hw.
    run Hw as n we Hc. apply ret_Ok in Hw as [_ <-].
    apply (call_Ok_steps (user_step (fun _ => True))) in Hc as (wf & d & Hst & Hu & <-).
    2: { intros w'. eapply keeps_steps, transport_keeps. }
    2: { intros d. apply rtc_once. destruct (updatePasswordHash hash t id d) as [a d'] eqn:E. by eapply user_password. }
    destruct (account_kept _ _ _ _ _ Hst Hr1) as (r2 & Hr2 & _). unfold updatePasswordHash in Hu. apply UPDATE_Ok in Hu as [Hd _].
    exists hash. eexists. split; [by eapply hash_verifies|]. rewrite Hd, lookup_fmap, Hr2.
    pose proof (rows_keyed _ _ _ Hr2) as Hk. simpl in Hk. simpl. rewrite Hk, Z.eqb_refl. by split.
Qed.
(** C13. The password in force is the one that was set last: after an account
    was registered with a password, or an administrator set one, and as long
    as others set no password of this account, whatever else they do to the
    accounts, a password login whose lookup finds this account tests the
    password it is given against a hash of that one.  It lets in exactly the
    passwords that hash accepts, the one that was set among them, and only
    when the account is active; locked accounts and others are told apart. *)
Theorem password_in_force id p w w1 w2 name guess m w3 :
  password_set id p w w1 -> rtc (keeps_password (eq id)) (server w1) (server w2) ->
  UserRepo.FindByUsername repo (TrimSpace name) w2 = (Ok (Some m), w3) -> user.ID m = id ->
  TrimSpace name <> "" -> guess <> "" ->
  exists hash, VerifyPassword pw p hash = true /\
    let (answer, w4) := password.Authenticate password_method (plugin.mkInput name guess "" "" "" "" "" None) w2 in
    w4 = w3 /\
    (answer = if String.eqb (user.Status m) "locked" then Err (Authn AuthnErrUserLocked)
     else if negb (String.eqb (user.Status m) "" || String.eqb (user.Status m) "active") then Err (Authn AuthnErrUserDisabled)
     else if VerifyPassword pw guess hash
     then Ok (Some (plugin.mkResult true true id (user.Status m) (user.UserUUID m) "" (user.Username m) (user.DisplayName m) (user.Email m) ""))
     else Err (Authn AuthnErrInvalidCredentials)).
Proof.
  intros Hset Hst Hf Hid Hname Hguess. destruct (set_hash _ _ _ _ Hset) as (hash & r & Hv & Hr & Hh). exists hash. split; [done|].
  assert (Hpw : user.PasswordHash m = hash).
  { unfold UserRepo.FindByUsername, findByUsername, getOne, run_on in Hf. rewrite on_reader in Hf. run Hf as o we Hc. apply ret_Ok in Hf as [Ho _].
    destruct o as [r2|]; [|done]. injection Ho as <-.
    apply (call_Ok_steps (keeps_password (eq id))) in Hc as (wf & d & Hst2 & Hc & _).
    2: { intros w'. eapply keeps_weaken; [|apply transport_keeps]. done. }
    2: { intros d. apply findUser_keeps. }
    apply findUser_inv in Hc as [Hr2 _]. cbn [scanOne user.ID user.PasswordHash] in *. rewrite Hid in Hr2.
    destruct (hash_kept _ _ _ _ (transitivity Hst Hst2) Hr) as (r3 & Hr3 & He). congruence. }
  destruct (password.Authenticate _ _ w2) as [answer w4] eqn:Ha. unfold password.Authenticate in Ha. cbv zeta in Ha.
  cbn [plugin.in_Username plugin.in_Password plugin.in_User password_method password.users password.passwords] in Ha.
  rewrite guard_run in Ha by (by rewrite (proj2 (String.eqb_neq _ _) Hname), (proj2 (String.eqb_neq _ _) Hguess)).
  rewrite (bind_run _ _ _ _ _ (Hf : Ports.FindByUsername (NewUserRepository repo) _ _ = _)) in Ha. rewrite some_or_run in Ha.
  destruct (String.eqb (user.Status m) "locked"); [cbn in Ha; by injection Ha as <- <-|]. rewrite guard_run in Ha by done.
  destruct (_ || _) eqn:Hact; [|cbn in Ha; by injection Ha as <- <-]. rewrite guard_run in Ha by done. cbn [negb].
  rewrite Hpw in Ha. destruct (VerifyPassword pw guess hash); [|cbn in Ha; by injection Ha as <- <-]. rewrite guard_run in Ha by done.
  injection Ha as <- <-. by rewrite Hid.
Qed.
End System.

(** ** At work *)

Module AccountDemo.
Import UserRepoDemo.

#[export] Instance runtime : Runtime world := {|
  time_Now w := (UserRepoDemo.now, w);
  uuid_NewString w := ("uuid-carol", w);
  rand_Read n w := (Ok (replicate n 7), w);
|}.

Definition pw : PasswordVerifier world := {|
  HashPassword := fun p => ret ("hash of " +:+ p);
  VerifyPassword := fun p h => String.eqb h ("hash of " +:+ p);
|}.
Definition has_at (email : string) : bool := contains_ascii "@" email.
Definition carol : RegisterInput := mkRegisterInput " Carol.1 " "Carol@Example.org" "Carol" "s3cret-pass" false true.

Definition registered : result error RegisterResult * world := Register has_at (account_service repo pw None) carol more.
Definition reset : result error AdminResetPasswordResult * world := AdminResetPassword (account_service repo pw None) 2 "an0ther-pass" registered.2.
Definition later : world := (UserRepo.IncrementFailedLogin repo 2 reset.2).2.
End AccountDemo.
Import UserRepoDemo AccountDemo.

Example carol_registered : registered.1 = Ok (mkRegisterResult 2 "uuid-carol" "Carol.1" "carol@example.org" false "Carol" "active" UserRepoDemo.now).
Proof. vm_compute. reflexivity. Qed.

Lemma later_keeps : keeps_password (D := database) (eq 2) (server reset.2) (server later).
Proof.
  split.
  - destruct (incrementFailedLogin 2 (server reset.2)) as [a d'] eqn:E.
    assert (server later = d') as -> by (vm_compute in E; injection E as _ <-; vm_compute; reflexivity). by eapply user_failed.
  - intros id r r' <- Hr Hr'. vm_compute in Hr, Hr'. injection Hr as <-. injection Hr' as <-. reflexivity.
Qed.

Lemma password_in_force_witness :
  let login guess := (password.Authenticate (password_method repo pw) (plugin.mkInput " Carol.1" guess "" "" "" "" "" None) later).1 in
  (exists r, login "an0ther-pass" = Ok (Some r)) /\ login "s3cret-pass" = Err (Authn AuthnErrInvalidCredentials).
Proof.
  destruct (UserRepo.FindByUsername repo "Carol.1" later) as [o w3] eqn:Hf.
  assert (Ho : exists m, o = Ok (Some m) /\ user.ID m = 2 /\ user.Status m = "active").
  { apply (f_equal fst) in Hf. cbn [fst] in Hf. rewrite <- Hf. eexists. vm_compute. repeat split. }
  destruct Ho as (m & -> & Hid & Hact).
  assert (Hall : forall guess, guess <> "" -> _) by (intros guess Hg;
    refine (password_in_force repo remote eq_refl eq_refl (fun w => rtc_refl _ _) (fun w => rtc_refl _ _) has_at pw None
      (fun p w hash w' Hx => ltac:(apply ret_Ok in Hx as [<- _]; apply String.eqb_refl)) (fun p w => rtc_refl _ _)
      2 "an0ther-pass" registered.2 reset.2 later " Carol.1" guess m w3
      (by_administrator _ _ _ _ _ _ _ _ (mkResetResult 2 "Carol.1" UserRepoDemo.now) _) (rtc_once _ _ later_keeps) Hf Hid _ Hg);
    [vm_compute; reflexivity | vm_compute; discriminate]).
  cbv zeta. split.
  - destruct (Hall "an0ther-pass" ltac:(discriminate)) as (hash & Hv & Ha). rewrite Hact, Hv in Ha.
    destruct (password.Authenticate _ _ later) as [answer w4]. destruct Ha as [_ ->]. eexists. reflexivity.
  - destruct (Hall "s3cret-pass" ltac:(discriminate)) as (hash & Hv & Ha). apply String.eqb_eq in Hv as ->. rewrite Hact in Ha.
    destruct (password.Authenticate _ _ later) as [answer w4]. destruct Ha as [_ ->]. reflexivity.
Defined.
