(* ===== verification/AdminGate.v ===== *)
(** * The gate of the administration (interfaces/http/middleware/admin_session.go)

    RequireSessionPermissions: a live session with a second factor, of an
    active user whose privilege mask covers what the route demands. *)

From stdpp Require Import base tactics list strings numbers.
From Stdlib Require Import ZArith Lia Ascii.
From S2P Require Import Prelude GoStrings GoText GoJson GoUrl GoNetUrl GoTime Errors Domain Ports StateMask Rbac Browser HttpRedirects.

(** The context values a request carries behind the gate. *)
Record admin := mkAdmin { ad_User : user.Model; ad_Session : session.Model }.

(** The digits of a trusted value, in wrapping int64 arithmetic; 0 for
    anything else. *)
Fixpoint parse_digits (result : Z) (s : string) : Z :=
  match s with
  | EmptyString => result
  | String ch s => if (byte_of ch <? 48) || (57 <? byte_of ch) then 0 else parse_digits (wrap64 (result * 10 + (byte_of ch - 48))) s
  end.
Definition mustParseInt64 (value : string) : Z := parse_digits 0 (TrimSpace value).

Definition wantsAdminHTML (rq : request) : bool := Contains (ToLower (TrimSpace (rq_header rq "Accept"))) "text/html".

(** The text otp between quotes *)
Definition quoted_otp : string := String quote ("otp" +:+ String quote "").

Definition sessionHasOTP (m : session.Model) : bool :=
  Contains (ToLower (TrimSpace (session.AMRJSON m))) quoted_otp || EqualFold (TrimSpace (session.ACR m)) "urn:idp:acr:mfa".

Section Middleware.
Context {W : Type} `{!Runtime W}.

Record SessionPermissionMiddleware := NewSessionPermissionMiddleware {
  mw_sessions : SessionRepository W;
  mw_sessionCache : option (SessionCacheRepository W);
  mw_users : UserRepository W;
}.

(** The page that says so and goes back, or JSON. *)
Definition abortForbidden (rq : request) (message : string) : response :=
  if wantsAdminHTML rq then mkResponse StatusForbidden [] (HTML "forbidden" [("msg", Str (TrimSpace message))])
  else json_error [] StatusForbidden message.

Definition abortUnauthorized (rq : request) (message : string) : response :=
  if wantsAdminHTML rq then
    let returnTo := "?return_to=" +:+ QueryEscape (RequestURI (rq_URL rq)) in
    if EqualFold (TrimSpace message) "mfa required" then redirect [] ("/mfa/totp/setup" +:+ returnTo) else redirect [] ("/login" +:+ returnTo)
  else json_error [] StatusUnauthorized message.

Definition cached_model (e : SessionCacheEntry) : session.Model :=
  session.mk 0 (sce_SessionID e) (mustParseInt64 (sce_UserID e)) (sce_Subject e) (sce_ACR e) (sce_AMRJSON e) (sce_IPAddress e)
    (sce_UserAgent e) (sce_AuthenticatedAt e) (sce_ExpiresAt e) None zero_time.

Definition findSession (m : SessionPermissionMiddleware) (sessionID : string) : IO W (option session.Model) :=
  let* cached :=
    match mw_sessionCache m with
    | None => ret None
    | Some cache =>
        let* entry := SessionCache_Get cache sessionID in
        let* t := now in
        ret (if IsSessionEntryActive entry t then option_map cached_model entry else None)
    end in
  match cached with
  | Some session => ret (Some session)
  | None => FindBySessionID (mw_sessions m) sessionID
  end.

(** [next] is the rest of the chain. *)
Definition RequireSessionPermissions (m : SessionPermissionMiddleware) (required : list Z) (next : admin -> IO W response) (rq : request) : IO W response :=
  let sessionID := TrimSpace (rq_cookie rq session_cookie) in
  if String.eqb sessionID "" then ret (abortUnauthorized rq "login required") else
  let* found := attempt (findSession m sessionID) in
  match found with
  | Err _ => ret (abortUnauthorized rq "invalid session")
  | Ok None => ret (abortUnauthorized rq "session expired")
  | Ok (Some sessionModel) =>
      let* live :=
        match session.LoggedOutAt sessionModel with
        | Some _ => ret false
        | None => let* t := now in ret (After (session.ExpiresAt sessionModel) t)
        end in
      if negb live then ret (abortUnauthorized rq "session expired") else
      if negb (sessionHasOTP sessionModel) then ret (abortUnauthorized rq "mfa required") else
      let* user := attempt (User_FindByID (mw_users m) (session.UserID sessionModel)) in
      match user with
      | Err _ => ret (json_error [] StatusForbidden "permission lookup failed")
      | Ok None => ret (abortForbidden rq "user unavailable")
      | Ok (Some user) =>
          if negb (String.eqb (user.Status user) "active") then ret (abortForbidden rq "user unavailable") else
          if negb (HasAll (user.PrivilegeMask user) required) then ret (abortForbidden rq "insufficient privilege") else
          next (mkAdmin user sessionModel)
      end
  end.

(** ** Who is let in *)

(** What lets a request in: the session of its cookie, as the cache or the
    database have it, and its user, at these moments. *)
Record admitted (m : SessionPermissionMiddleware) (required : list Z) (rq : request) (a : admin) (w w' : W) : Prop := {
  at_session : exists w1, findSession m (TrimSpace (rq_cookie rq session_cookie)) w = (Ok (Some (ad_Session a)), w1) /\
    exists t w2, now w1 = (Ok t, w2) /\ t < session.ExpiresAt (ad_Session a) /\
    User_FindByID (mw_users m) (session.UserID (ad_Session a)) w2 = (Ok (Some (ad_User a)), w');
  at_open : session.LoggedOutAt (ad_Session a) = None;
  at_otp : sessionHasOTP (ad_Session a) = true;
  at_active : user.Status (ad_User a) = "active";
  at_privileged : forall p, p ∈ required -> covers (user.PrivilegeMask (ad_User a)) p;
  at_cookie : blank (rq_cookie rq session_cookie) = false;
}.

(** What the gate answers by itself. *)
Inductive refused (rq : request) : response -> Prop :=
| refused_login message : refused rq (abortUnauthorized rq message)
| refused_privilege message : refused rq (abortForbidden rq message)
| refused_lookup : refused rq (json_error [] StatusForbidden "permission lookup failed").

(** The gate refuses, without looking at what is behind it, or lets in. *)
Lemma gate_decides m required rq w :
  (exists r w', refused rq r /\ forall next, RequireSessionPermissions m required next rq w = (Ok r, w')) \/
  (exists a w', admitted m required rq a w w' /\ forall next, RequireSessionPermissions m required next rq w = next a w').
Proof.
  unfold RequireSessionPermissions. cbv zeta. destruct (String.eqb (TrimSpace (rq_cookie rq session_cookie)) "") eqn:Hc.
  { left. eexists _, w. split; [constructor | done]. }
  destruct (findSession m (TrimSpace (rq_cookie rq session_cookie)) w) as [found w1] eqn:Hf.
  assert (Hrun : forall {B} (k : result error (option session.Model) -> IO W B),
    bind (attempt (findSession m (TrimSpace (rq_cookie rq session_cookie)))) k w = k found w1) by (intros; by rewrite (bind_run _ _ _ _ _ (proj2 (attempt_Ok _ _ _ _) Hf))).
  destruct found as [[sess|]|e].
  2, 3: left; eexists _, w1; split; [apply refused_login | intros; rewrite Hrun; reflexivity].
  destruct (session.LoggedOutAt sess) eqn:Hopen; [left; eexists _, w1; split; [apply refused_login | intros; rewrite Hrun, Hopen; reflexivity]|].
  destruct (time_Now w1) as [t w2] eqn:Ht. assert (Hnow : now w1 = (Ok t, w2)) by (unfold now; by rewrite Ht).
  assert (Hlive : forall {B} (k : bool -> IO W B), bind (let* t := now in ret (After (session.ExpiresAt sess) t)) k w1 = k (t <? session.ExpiresAt sess) w2).
  { intros. apply bind_run. by rewrite (bind_run _ _ _ _ _ Hnow). }
  destruct (t <? session.ExpiresAt sess) eqn:Hexp; [|left; eexists _, w2; split; [apply refused_login | intros; rewrite Hrun, Hopen, Hlive; reflexivity]].
  destruct (sessionHasOTP sess) eqn:Hotp; [|left; eexists _, w2; split; [apply refused_login | intros; rewrite Hrun, Hopen, Hlive, Hotp; reflexivity]].
  destruct (User_FindByID (mw_users m) (session.UserID sess) w2) as [user w3] eqn:Hu.
  assert (Hlook : forall {B} (k : result error (option user.Model) -> IO W B),
    bind (attempt (User_FindByID (mw_users m) (session.UserID sess))) k w2 = k user w3) by (intros; by rewrite (bind_run _ _ _ _ _ (proj2 (attempt_Ok _ _ _ _) Hu))).
  assert (Hall : forall next, exists k, RequireSessionPermissions m required next rq w = k user w3 /\ k = fun user => match user with
    | Err _ => ret (json_error [] StatusForbidden "permission lookup failed")
    | Ok None => ret (abortForbidden rq "user unavailable")
    | Ok (Some user) =>
        if negb (String.eqb (user.Status user) "active") then ret (abortForbidden rq "user unavailable") else
        if negb (HasAll (user.PrivilegeMask user) required) then ret (abortForbidden rq "insufficient privilege") else
        next (mkAdmin user sess) end).
  { intros next. eexists. split; [|reflexivity]. unfold RequireSessionPermissions. cbv zeta. rewrite Hc, Hrun, Hopen, Hlive. cbn [negb].
    rewrite Hotp. cbn [negb]. apply Hlook. }
  unfold RequireSessionPermissions in Hall. cbv zeta in Hall. rewrite Hc in Hall.
  destruct user as [[u|]|e].
  2: left; eexists _, w3; split; [apply refused_privilege | intros next; destruct (Hall next) as (k & -> & ->); reflexivity].
  2: left; eexists _, w3; split; [apply refused_lookup | intros next; destruct (Hall next) as (k & -> & ->); reflexivity].
  destruct (String.eqb_spec (user.Status u) "active") as [Hact|Hact].
  2: { left. eexists _, w3. split; [apply refused_privilege|]. intros next. destruct (Hall next) as (k & -> & ->). by rewrite (proj2 (String.eqb_neq _ _) Hact). }
  destruct (HasAll (user.PrivilegeMask u) required) eqn:Hmask.
  2: { left. eexists _, w3. split; [apply refused_privilege|]. intros next. destruct (Hall next) as (k & -> & ->). by rewrite Hact, Hmask. }
  right. exists (mkAdmin u sess), w3. split; [|intros next; destruct (Hall next) as (k & -> & ->); by rewrite Hact, Hmask].
  apply Z.ltb_lt in Hexp. split; cbn [ad_User ad_Session]; try done; [|by apply HasAll_spec].
  exists w1. split; [done|]. exists t, w2. by split.
Qed.
End Middleware.
Arguments SessionPermissionMiddleware W : clear implicits.
