(* ===== verification/AdminActions.v ===== *)
(** * What administrators do from the console (handler/admin_action_handler.go, audit_helper.go)

    One form per action: the token of the page, the service, the fields, the
    operation, a record of it, and back to the console with a notice or an
    error. *)

From stdpp Require Import base tactics list strings numbers.
From Stdlib Require Import ZArith Lia Ascii.
From S2P Require Import Prelude GoStrings GoText GoUrl GoJsonObject GoJsonWrite GoTime Errors Domain Ports Rbac SessionService ClientService.
From S2P Require Import RegisterService Keys KeyRotation Browser BrowserLogout BrowserLogin AdminGate.
From S2P Require Import GoNetUrl GoJson StateMask HttpRedirects.

(** ** Fields *)

(** The [fmt.Errorf] of a field that does not parse *)
Abbreviation parsed A := (result string A).

Definition parseInt64Field (raw field : string) : parsed Z :=
  let raw := TrimSpace raw in
  if String.eqb raw "" then Err (field +:+ " is required") else
  match ParseInt raw with
  | Some value => if value <=? 0 then Err (field +:+ " must be a positive integer") else Ok value
  | None => Err (field +:+ " must be a positive integer")
  end.

(** [strconv.ParseUint(s, 0, 32)]: the digits of a base, underscores aside *)
Definition lower_bit (a : ascii) : Z := Z.lor (byte_of a) 32.
Definition digit_in (a : ascii) : option Z :=
  let x := byte_of a in
  if (48 <=? x) && (x <=? 57) then Some (x - 48)
  else if (97 <=? lower_bit a) && (lower_bit a <=? 122) then Some (lower_bit a - 97 + 10) else None.

Fixpoint digits_in (base n : Z) (s : string) : option Z :=
  match s with
  | EmptyString => Some n
  | String c s =>
      if byte_of c =? 95 then digits_in base n s else
      match digit_in c with
      | Some d => if base <=? d then None else digits_in base (n * base + d) s
      | None => None
      end
  end.

(** underscoreOK on digits and underscores: each stands after a digit or the
    prefix, and before a digit. *)
Fixpoint underscores_ok (after_digit after_underscore : bool) (s : string) : bool :=
  match s with
  | EmptyString => negb after_underscore
  | String c s => if byte_of c =? 95 then after_digit && underscores_ok false true s else underscores_ok true false s
  end.

Definition ParseUint0 (s : string) : option Z :=
  let read base prefixed digits :=
    match digits_in base 0 digits with
    | Some n => if (n <? 2 ^ 32) && underscores_ok prefixed false (if prefixed then digits else s) then Some n else None
    | None => None
    end in
  match s with
  | EmptyString => None
  | String a rest =>
      if negb (byte_of a =? 48) then read 10 false s else
      match rest with
      | String b (String _ _ as digits) =>
          if lower_bit b =? 98 then read 2 true digits
          else if lower_bit b =? 111 then read 8 true digits
          else if lower_bit b =? 120 then read 16 true digits
          else read 8 false rest
      | _ => read 8 false rest
      end
  end.

Definition parseUint32Field (raw field : string) : parsed Z :=
  let raw := TrimSpace raw in
  if String.eqb raw "" then Err (field +:+ " is required") else
  match ParseUint0 raw with
  | Some value => Ok value
  | None => Err (field +:+ " must be an unsigned integer (decimal or 0x hex)")
  end.

(** [strconv.Atoi] of a 64-bit int *)
Definition parseOptionalIntField (raw field : string) : parsed Z :=
  let raw := TrimSpace raw in
  if String.eqb raw "" then Ok 0 else
  match ParseInt raw with
  | Some value => if value <? 0 then Err (field +:+ " must be a non-negative integer") else Ok value
  | None => Err (field +:+ " must be a non-negative integer")
  end.

Definition parseOptionalBoolField (raw field : string) : parsed (option bool) :=
  let raw := ToLower (TrimSpace raw) in
  if String.eqb raw "" then Ok None
  else if bool_decide (raw ∈ ["1"; "true"; "yes"; "on"]) then Ok (Some true)
  else if bool_decide (raw ∈ ["0"; "false"; "no"; "off"]) then Ok (Some false)
  else Err (field +:+ " must be true/false").

(** [strings.FieldsFunc] at commas, line feeds, carriage returns, tabs; the
    empty fields it drops are dropped below. *)
Fixpoint split_fields (word : string) (s : string) : list string :=
  match s with
  | EmptyString => [string_rev word]
  | String c s =>
      let x := byte_of c in
      if (x =? 44) || (x =? 10) || (x =? 13) || (x =? 9) then string_rev word :: split_fields "" s else split_fields (String c word) s
  end.

Fixpoint distinct_values (seen : list string) (parts : list string) : list string :=
  match parts with
  | [] => []
  | part :: parts =>
      let value := TrimSpace part in
      if String.eqb value "" then distinct_values seen parts
      else if bool_decide (value ∈ seen) then distinct_values seen parts
      else value :: distinct_values (value :: seen) parts
  end.

Definition parseDelimitedValues (raw : string) : list string :=
  let raw := TrimSpace raw in if String.eqb raw "" then [] else distinct_values [] (split_fields "" raw).

Section Handlers.
Context {W : Type} `{!Runtime W}.

(** ** The record of an action *)

(** recordAdminAuditEvent with currentAdminAuditContext; a failure is only
    logged.  [metadata] has its keys sorted, as json.Marshal writes a map. *)
Definition recordAdminAuditEvent (repo : option (AuditCreate W)) (rq : request) (actor : option admin) (eventType subject : string) (metadata : list (string * json)) : IO W unit :=
  match repo, actor with
  | Some create, Some actor =>
      let sessionID := if 0 <? session.ID (ad_Session actor) then Some (session.ID (ad_Session actor)) else None in
      do* attempt (create (mkAuditEvent eventType (user.ID (ad_User actor)) subject sessionID (rq_clientIP rq) (rq_header rq "User-Agent")
        (render (JObject metadata)))) in
      ret tt
  | _, _ => ret tt
  end.

Definition number (n : Z) : json := JNumber (FormatInt n).

(** ** The services behind the console *)

(** apprbac.Manager *)
Record RBACManager := mkRBACManager {
  rm_BootstrapBuiltinRoles : IO W (list RoleView);
  rm_ListRoles : IO W (list RoleView);
  rm_ListUsersByRole : string -> Z -> IO W (string * list RoleUserView);
  rm_RoleUsage : IO W (list RoleUsageView);
  rm_CreateRole : UpsertRoleInput -> IO W RoleView;
  rm_UpdateRole : UpsertRoleInput -> IO W RoleView;
  rm_DeleteRole : string -> IO W unit;
  rm_AssignRole : Rbac.AssignRoleInput -> IO W AssignRoleResult;
}.

Record AdminActionHandler := NewAdminActionHandler {
  rbacService : option RBACManager;
  sessionService : option (Manager W);
  clientCreator : option (CreateClientInput -> IO W CreateClientResult);
  clientRedirectRegistrar : option (string -> list string -> IO W RegisterURIsResult);
  clientPostLogoutRedirectManager : option (string -> list string -> IO W RegisterURIsResult);
  passwordResetter : option (Z -> string -> IO W AdminResetPasswordResult);
  accountUnlocker : option (Z -> IO W AdminUnlockUserResult);
  keysService : option (IO W ManualRotateResult);
  aa_audit : option (AuditCreate W);
}.

Definition redirectWithNotice (message : string) : response := redirect [] ("/admin?notice=" +:+ QueryEscape (TrimSpace message)).
Definition redirectWithError (message : string) : response := redirect [] ("/admin?error=" +:+ QueryEscape (TrimSpace message)).

(** What every action begins with: the token, then the service. *)
Definition action {S} (rq : request) (form : string -> string) (service : option S) (unavailable : string) (k : S -> IO W response) : IO W response :=
  if negb (validateCSRFToken rq (form "csrf_token")) then ret (redirectWithError invalid_csrf_token) else
  match service with
  | None => ret (redirectWithError unavailable)
  | Some service => k service
  end.

(** A field that does not parse ends the action. *)
Definition with_field {A} (p : parsed A) (k : A -> IO W response) : IO W response :=
  match p with Err text => ret (redirectWithError text) | Ok a => k a end.

(** The operation, with [failure] before the text of its error; then the
    record and the notice. *)
Definition perform {A} (operation : IO W A) (failure : string) (done : A -> IO W response) : IO W response :=
  let* result := attempt operation in
  match result with
  | Err e => ret (redirectWithError (failure +:+ error_text e))
  | Ok result => done result
  end.

(** ** The actions *)

Definition role_metadata (role : RoleView) : list (string * json) :=
  [("display_name", JString (rv_DisplayName role)); ("is_system", JBool (rv_IsSystem role)); ("privilege_mask", number (rv_PrivilegeMask role));
   ("role_code", JString (rv_RoleCode role))].

Definition role_input (form : string -> string) (mask : Z) : UpsertRoleInput :=
  mkUpsertRoleInput (TrimSpace (form "role_code")) (TrimSpace (form "display_name")) (TrimSpace (form "description")) mask.

Definition BootstrapRoles (h : AdminActionHandler) (rq : request) (form : string -> string) (actor : admin) : IO W response :=
  action rq form (rbacService h) "rbac service unavailable" (fun rbac =>
    perform (rm_BootstrapBuiltinRoles rbac) "bootstrap roles failed: " (fun roles =>
      do* recordAdminAuditEvent (aa_audit h) rq (Some actor) "rbac.bootstrap" "rbac:bootstrap" [("role_count", number (Z.of_nat (length roles)))] in
      ret (redirectWithNotice "builtin roles have been bootstrapped"))).

Definition CreateRole (h : AdminActionHandler) (rq : request) (form : string -> string) (actor : admin) : IO W response :=
  action rq form (rbacService h) "rbac service unavailable" (fun rbac =>
    with_field (parseUint32Field (form "privilege_mask") "privilege_mask") (fun mask =>
    perform (rm_CreateRole rbac (role_input form mask)) "create role failed: " (fun role =>
      do* recordAdminAuditEvent (aa_audit h) rq (Some actor) "rbac.role.created" ("role:" +:+ rv_RoleCode role) (role_metadata role) in
      ret (redirectWithNotice ("role " +:+ rv_RoleCode role +:+ " created"))))).

Definition UpdateRole (h : AdminActionHandler) (rq : request) (form : string -> string) (actor : admin) : IO W response :=
  action rq form (rbacService h) "rbac service unavailable" (fun rbac =>
    with_field (parseUint32Field (form "privilege_mask") "privilege_mask") (fun mask =>
    perform (rm_UpdateRole rbac (role_input form mask)) "update role failed: " (fun role =>
      do* recordAdminAuditEvent (aa_audit h) rq (Some actor) "rbac.role.updated" ("role:" +:+ rv_RoleCode role) (role_metadata role) in
      ret (redirectWithNotice ("role " +:+ rv_RoleCode role +:+ " updated"))))).

Definition DeleteRole (h : AdminActionHandler) (rq : request) (form : string -> string) (actor : admin) : IO W response :=
  action rq form (rbacService h) "rbac service unavailable" (fun rbac =>
    let roleCode := TrimSpace (form "role_code") in
    perform (rm_DeleteRole rbac roleCode) "delete role failed: " (fun _ =>
      do* recordAdminAuditEvent (aa_audit h) rq (Some actor) "rbac.role.deleted" ("role:" +:+ roleCode) [("role_code", JString roleCode)] in
      ret (redirectWithNotice ("role " +:+ roleCode +:+ " deleted")))).

(** The mask of the form: the custom one, or else the chosen one, or none. *)
Definition assigned_mask (form : string -> string) : parsed (option Z) :=
  let rawMask := TrimSpace (form "privilege_mask_custom") in
  let rawMask := if String.eqb rawMask "" then TrimSpace (form "privilege_mask") else rawMask in
  if String.eqb rawMask "" then Ok None else
  match parseUint32Field rawMask "privilege_mask" with Err text => Err text | Ok mask => Ok (Some mask) end.

Definition assigned_metadata (custom : bool) (r : AssignRoleResult) : list (string * json) :=
  (if custom then [("custom_privilege_mask", JBool true)] else []) ++
  [("privilege_mask", number (arr_PrivilegeMask r)); ("role_code", JString (arr_RoleCode r)); ("tenant_scope", JString (arr_TenantScope r));
   ("user_id", number (arr_UserID r)); ("username", JString (arr_Username r))].

Definition AssignRole (h : AdminActionHandler) (rq : request) (form : string -> string) (actor : admin) : IO W response :=
  action rq form (rbacService h) "rbac service unavailable" (fun rbac =>
    with_field (parseInt64Field (form "user_id") "user_id") (fun userID =>
    with_field (assigned_mask form) (fun privilegeMask =>
    perform (rm_AssignRole rbac (Rbac.mkAssignRoleInput userID (TrimSpace (form "role_code")) privilegeMask (TrimSpace (form "tenant_scope"))))
        "assign role failed: " (fun r =>
      do* recordAdminAuditEvent (aa_audit h) rq (Some actor) "rbac.role.assigned" ("user:" +:+ FormatInt (arr_UserID r))
            (assigned_metadata (bool_decide (is_Some privilegeMask)) r) in
      ret (redirectWithNotice ("user " +:+ FormatInt (arr_UserID r) +:+ " assigned role " +:+ arr_RoleCode r)))))).

Definition logout_metadata (r : LogoutAllResult) : list (string * json) :=
  [("revoked_access_tokens", number (la_RevokedAccessTokens r)); ("revoked_refresh_tokens", number (la_RevokedRefreshTokens r));
   ("revoked_session_count", number (la_RevokedSessionCount r)); ("target_user_id", JString (la_UserID r))].

Definition LogoutUser (h : AdminActionHandler) (rq : request) (form : string -> string) (actor : admin) : IO W response :=
  action rq form (sessionService h) "session service unavailable" (fun sessions =>
    with_field (parseInt64Field (form "user_id") "user_id") (fun userID =>
    perform (m_AdminLogoutUser sessions userID) "logout user failed: " (fun r =>
      do* recordAdminAuditEvent (aa_audit h) rq (Some actor) "auth.user.logout_all.admin" ("user:" +:+ la_UserID r) (logout_metadata r) in
      ret (redirectWithNotice ("user " +:+ FormatInt userID +:+ " has been logged out from all sessions"))))).

Definition ChangeUserPassword (h : AdminActionHandler) (rq : request) (form : string -> string) (actor : admin) : IO W response :=
  action rq form (passwordResetter h) "password reset service unavailable" (fun reset =>
    with_field (parseInt64Field (form "user_id") "user_id") (fun userID =>
    perform (reset userID (form "new_password")) "change password failed: " (fun r =>
      do* recordAdminAuditEvent (aa_audit h) rq (Some actor) "auth.user.password_changed.admin" ("user:" +:+ FormatInt (rp_UserID r))
            [("password_set_at", JString (formatTime (rp_PasswordSetAt r))); ("target_user_id", number (rp_UserID r)); ("username", JString (rp_Username r))] in
      ret (redirectWithNotice ("password changed for user " +:+ FormatInt (rp_UserID r)))))).

Definition UnlockUser (h : AdminActionHandler) (rq : request) (form : string -> string) (actor : admin) : IO W response :=
  action rq form (accountUnlocker h) "unlock service unavailable" (fun unlock =>
    with_field (parseInt64Field (form "user_id") "user_id") (fun userID =>
    perform (unlock userID) "unlock user failed: " (fun r =>
      do* recordAdminAuditEvent (aa_audit h) rq (Some actor) "auth.user.unlocked.admin" ("user:" +:+ FormatInt (uu_UserID r))
            [("target_user_id", number (uu_UserID r)); ("unlocked_at", JString (formatTime (uu_UnlockedAt r))); ("username", JString (uu_Username r))] in
      ret (redirectWithNotice ("user " +:+ FormatInt (uu_UserID r) +:+ " unlocked"))))).

Definition rotation_metadata (r : ManualRotateResult) : list (string * json) :=
  ("active_kid", JString (ActiveKID r)) ::
  match RotatesAt r with Some t => [("next_rotate_at", JString (formatTime t))] | None => [] end ++
  [("previous_kid", JString (PreviousKID r)); ("rotated_at", JString (formatTime (RotatedAt r)))].

Definition RotateSigningKey (h : AdminActionHandler) (rq : request) (form : string -> string) (actor : admin) : IO W response :=
  action rq form (keysService h) "key rotation service unavailable" (fun rotate =>
    perform rotate "manual key rotation failed: " (fun r =>
      do* recordAdminAuditEvent (aa_audit h) rq (Some actor) "key.rotation.manual" ("key:" +:+ ActiveKID r) (rotation_metadata r) in
      ret (redirectWithNotice ("manual key rotation completed: active kid " +:+ ActiveKID r)))).

(** A list the client service copied, [append([]string(nil), l...)]: nil, and
    so null, when it is empty *)
Definition strings_json (l : list string) : json := match l with [] => JNull | _ => JArray (List.map JString l) end.

(** The grants and scopes of the form must not be empty. *)
Definition required_values (raw field : string) : parsed (list string) :=
  match parseDelimitedValues raw with [] => Err (field +:+ " is required") | values => Ok values end.

Definition CreateOAuthClient (h : AdminActionHandler) (rq : request) (form : string -> string) (actor : admin) : IO W response :=
  action rq form (clientCreator h) "client service unavailable" (fun create =>
    with_field (required_values (form "grant_types") "grant_types") (fun grantTypes =>
    with_field (required_values (form "scopes") "scopes") (fun scopes =>
    with_field (parseOptionalBoolField (form "require_pkce") "require_pkce") (fun requirePKCE =>
    with_field (parseOptionalBoolField (form "require_consent") "require_consent") (fun requireConsent =>
    with_field (parseOptionalIntField (form "access_token_ttl_seconds") "access_token_ttl_seconds") (fun accessTTL =>
    with_field (parseOptionalIntField (form "refresh_token_ttl_seconds") "refresh_token_ttl_seconds") (fun refreshTTL =>
    with_field (parseOptionalIntField (form "id_token_ttl_seconds") "id_token_ttl_seconds") (fun idTokenTTL =>
    perform (create (mkCreateClientInput (TrimSpace (form "client_id")) (TrimSpace (form "client_name")) (TrimSpace (form "client_secret"))
        (TrimSpace (form "client_type")) (TrimSpace (form "token_endpoint_auth_method")) requirePKCE requireConsent accessTTL refreshTTL idTokenTTL
        grantTypes scopes (parseDelimitedValues (form "redirect_uris")) (parseDelimitedValues (form "post_logout_redirect_uris"))
        (TrimSpace (form "status")))) "create oauth client failed: " (fun r =>
      do* recordAdminAuditEvent (aa_audit h) rq (Some actor) "oauth.client.created" ("client:" +:+ out_ClientID r)
            [("client_id", JString (out_ClientID r)); ("client_type", JString (out_ClientType r)); ("grant_types", strings_json (out_GrantTypes r));
             ("redirect_uris", strings_json (out_RedirectURIs r))] in
      ret (redirectWithNotice ("oauth client " +:+ out_ClientID r +:+ " created"))))))))))).

(** RegisterClientRedirectURIs and RegisterClientPostLogoutRedirectURIs,
    which differ in the service, the field and the texts. *)
Definition register_client_uris (h : AdminActionHandler) (rq : request) (form : string -> string) (actor : admin)
    (service : option (string -> list string -> IO W RegisterURIsResult)) (unavailable field failure event what : string) : IO W response :=
  action rq form service unavailable (fun register =>
    with_field (required_values (form field) field) (fun redirectURIs =>
    perform (register (TrimSpace (form "client_id")) redirectURIs) failure (fun r =>
      do* recordAdminAuditEvent (aa_audit h) rq (Some actor) event ("client:" +:+ reg_ClientID r)
            [("client_id", JString (reg_ClientID r)); ("registered_count", number (reg_RegisteredCount r)); ("skipped_count", number (reg_SkippedCount r))] in
      ret (redirectWithNotice ("registered " +:+ FormatInt (reg_RegisteredCount r) +:+ what +:+ reg_ClientID r))))).

Definition RegisterClientRedirectURIs (h : AdminActionHandler) (rq : request) (form : string -> string) (actor : admin) : IO W response :=
  register_client_uris h rq form actor (clientRedirectRegistrar h) "redirect uri service unavailable" "redirect_uris"
    "register redirect uris failed: " "oauth.client.redirect_uris.registered" " redirect uris for ".

Definition RegisterClientPostLogoutRedirectURIs (h : AdminActionHandler) (rq : request) (form : string -> string) (actor : admin) : IO W response :=
  register_client_uris h rq form actor (clientPostLogoutRedirectManager h) "post logout redirect service unavailable" "post_logout_redirect_uris"
    "register post logout redirect uris failed: " "oauth.client.post_logout_redirect_uris.registered" " post-logout redirect uris for ".
End Handlers.
Arguments RBACManager W : clear implicits.
Arguments AdminActionHandler W : clear implicits.

(** * The routes of the console's actions (interfaces/http/router.go)

    Which privileges each action demands, the gate in front of it, and what
    holds of whatever an administrator's form did: who was let in, and what
    was recorded of it. *)

(** The permissions of pkg/rbac the routes name *)
Definition AuthExec : Z := permission ActionExec 28.
Definition OAuthRead : Z := permission ActionRead 24.
Definition ClientRead : Z := permission ActionRead 20.
Definition ClientManage : Z := permission ActionManage 20.
Definition UserRead : Z := permission ActionRead 16.
Definition UserManage : Z := permission ActionManage 16.
Definition AuditRead : Z := permission ActionRead 12.
Definition KeyRead : Z := permission ActionRead 8.
Definition KeyManage : Z := permission ActionManage 8.
Definition OpsRead : Z := permission ActionRead 0.
Definition OpsManage : Z := permission ActionManage 0.

Definition StatusNotFound : Z := 404.

(** gin's router, on routes without parameters *)
Fixpoint route {A} (path : string) (routes : list (string * A)) : option A :=
  match routes with
  | [] => None
  | (p, a) :: routes => if String.eqb path p then Some a else route path routes
  end.

Lemma route_elem {A} path (routes : list (string * A)) a : route path routes = Some a -> (path, a) ∈ routes.
Proof.
  induction routes as [|[p b] routes IH]; [discriminate|]. cbn [route]. destruct (String.eqb_spec path p) as [->|]; intros E.
  - injection E as ->. left.
  - right. auto.
Qed.

Section Routes.
Context {W : Type} `{!Runtime W}.

Definition action_handler : Type := AdminActionHandler W -> request -> (string -> string) -> admin -> IO W response.

(** The POST routes under /admin/actions: path, privileges, handler. *)
Definition action_routes : list (string * (list Z * action_handler)) :=
  [("/admin/actions/rbac/bootstrap", ([AuthExec; OpsManage], BootstrapRoles));
   ("/admin/actions/rbac/roles/create", ([AuthExec; OpsManage], CreateRole));
   ("/admin/actions/rbac/roles/update", ([AuthExec; OpsManage], UpdateRole));
   ("/admin/actions/rbac/roles/delete", ([AuthExec; OpsManage], DeleteRole));
   ("/admin/actions/users/assign-role", ([AuthExec; UserManage], AssignRole));
   ("/admin/actions/users/logout-all", ([AuthExec; UserManage], LogoutUser));
   ("/admin/actions/users/change-password", ([AuthExec; UserManage], ChangeUserPassword));
   ("/admin/actions/users/unlock", ([AuthExec; UserManage], UnlockUser));
   ("/admin/actions/keys/rotate", ([AuthExec; KeyManage], RotateSigningKey));
   ("/admin/actions/clients/create", ([AuthExec; ClientManage], CreateOAuthClient));
   ("/admin/actions/clients/redirect-uris", ([AuthExec; ClientManage], RegisterClientRedirectURIs));
   ("/admin/actions/clients/post-logout-redirect-uris", ([AuthExec; ClientManage], RegisterClientPostLogoutRedirectURIs))].

Definition routerWantsHTML (accept : string) : bool :=
  let accept := ToLower accept in String.eqb accept "" || Contains accept "text/html" || Contains accept "*/*".

Definition NoRoute (method path : string) (rq : request) : response :=
  if routerWantsHTML (rq_header rq "Accept") then mkResponse StatusNotFound [] (HTML "not_found" [("Method", Str method); ("Path", Str path)])
  else mkResponse StatusNotFound [] (JSON [("error", Str "not_found"); ("message", Str "route not found"); ("method", Str method); ("path", Str path)]).

(** A POST to [path]; [form] is the parsed form of its body. *)
Definition serve_action (mw : SessionPermissionMiddleware W) (h : AdminActionHandler W) (path : string) (rq : request) (form : string -> string) : IO W response :=
  match route path action_routes with
  | Some (required, handler) => RequireSessionPermissions mw required (handler h rq form) rq
  | None => ret (NoRoute "POST" path rq)
  end.

(** ** What an action leaves *)

(** What the audit event says was done, and the privilege for it *)
Definition privilege_for (event : string) : Z :=
  if String.eqb event "rbac.role.assigned" then UserManage
  else if HasPrefix event "rbac." then OpsManage
  else if HasPrefix event "auth.user." then UserManage
  else if HasPrefix event "key." then KeyManage
  else ClientManage.

(** The world after the event went to the audit log, if there is one *)
Definition recorded (h : AdminActionHandler W) (ev : audit_event) (w w' : W) : Prop :=
  match aa_audit h with Some create => (create ev w).2 = w' | None => w = w' end.

(** An error, or a notice after an event that names the actor and where the
    form came from. *)
Inductive outcome (h : AdminActionHandler W) (rq : request) (actor : admin) (required : list Z) : response -> W -> Prop :=
| act_failed message w' : outcome h rq actor required (redirectWithError message) w'
| act_done message ev w w' : recorded h ev w w' -> ev_UserID ev = user.ID (ad_User actor) -> ev_IPAddress ev = rq_clientIP rq ->
    privilege_for (ev_EventType ev) ∈ required -> outcome h rq actor required (redirectWithNotice message) w'.

Definition answers (h : AdminActionHandler W) (rq : request) (actor : admin) (required : list Z) (io : IO W response) : Prop :=
  forall w, exists r w', io w = (Ok r, w') /\ outcome h rq actor required r w'.

Section Outcome.
Context (h : AdminActionHandler W) (rq : request) (actor : admin) (required : list Z).

Lemma error_answers message : answers h rq actor required (ret (redirectWithError message)).
Proof. intros w. by eexists _, _; split; [|constructor]. Qed.

Lemma with_field_answers {A} (p : parsed A) k : (forall a, answers h rq actor required (k a)) -> answers h rq actor required (with_field p k).
Proof. intros Hk. destruct p; [apply Hk | apply error_answers]. Qed.

Lemma perform_answers {A} (operation : IO W A) failure k :
  (forall a, answers h rq actor required (k a)) -> answers h rq actor required (perform operation failure k).
Proof.
  intros Hk w. unfold perform. destruct (operation w) as [o w1] eqn:E. rewrite (bind_run _ _ _ _ _ (proj2 (attempt_Ok _ _ _ _) E)).
  destruct o; [apply Hk | apply error_answers].
Qed.

Lemma record_answers eventType subject metadata message : privilege_for eventType ∈ required ->
  answers h rq actor required (let* _ := recordAdminAuditEvent (aa_audit h) rq (Some actor) eventType subject metadata in ret (redirectWithNotice message)).
Proof.
  intros Hp w. unfold recordAdminAuditEvent. cbv zeta. set (ev := mkAuditEvent _ _ _ _ _ _ _).
  assert (Hrec : forall w', recorded h ev w w' -> outcome h rq actor required (redirectWithNotice message) w') by (intros; by apply act_done with ev w).
  unfold recorded in Hrec. destruct (aa_audit h) as [create|]; [|eexists _, w; eauto].
  destruct (create ev w) as [o w1] eqn:E. eexists _, w1. split; [|by apply Hrec].
  refine (bind_run _ _ _ _ _ _). by rewrite (bind_run _ _ _ _ _ (proj2 (attempt_Ok _ _ _ _) E)).
Qed.

Lemma action_answers {S} form (service : option S) unavailable k :
  (forall s, answers h rq actor required (k s)) -> answers h rq actor required (action (W := W) rq form service unavailable k).
Proof. intros Hk. unfold action. destruct (negb _), service; auto using error_answers. Qed.

Lemma action_forged {S} form (service : option S) unavailable k :
  validateCSRFToken rq (form "csrf_token") = false -> action (W := W) rq form service unavailable k = ret (redirectWithError invalid_csrf_token).
Proof. unfold action. by intros ->. Qed.
End Outcome.

(** A handler is built of these. *)
Ltac handler_answers :=
  intros; lazymatch goal with
  | |- answers _ _ _ _ (action _ _ _ _ _) => apply action_answers; handler_answers
  | |- answers _ _ _ _ (with_field _ _) => apply with_field_answers; handler_answers
  | |- answers _ _ _ _ (perform _ _ _) => apply perform_answers; handler_answers
  | |- answers _ _ _ _ (bind (recordAdminAuditEvent _ _ _ _ _ _) _) => apply record_answers; refine (bool_decide_unpack _ _); vm_compute; exact I
  | |- answers _ _ _ _ (let _ := _ in _) => cbv zeta; handler_answers
  end.

(** Every handler of the table: AuthExec is demanded, and the privilege for
    what it records. *)
Lemma routes_answer path required handler : (path, (required, handler)) ∈ action_routes ->
  AuthExec ∈ required /\
  (forall h rq form actor, answers h rq actor required (handler h rq form actor)) /\
  (forall h rq form actor, validateCSRFToken rq (form "csrf_token") = false -> handler h rq form actor = ret (redirectWithError invalid_csrf_token)).
Proof.
  intros Hin. unfold action_routes in Hin. rewrite !elem_of_cons in Hin.
  repeat destruct Hin as [[= -> -> ->]|Hin]; [..|by apply elem_of_nil in Hin].
  all: split; [left|]; split; [intros h rq form actor; unfold BootstrapRoles, CreateRole, UpdateRole, DeleteRole, AssignRole, LogoutUser, ChangeUserPassword, UnlockUser, RotateSigningKey, CreateOAuthClient, RegisterClientRedirectURIs, RegisterClientPostLogoutRedirectURIs, register_client_uris; handler_answers | intros; by apply action_forged].
Qed.
End Routes.

(** The role service behind the console *)
Definition rbac_manager {W} (s : Rbac.Service W) : RBACManager W := {|
  rm_BootstrapBuiltinRoles := Rbac.BootstrapBuiltinRoles s;
  rm_ListRoles := Rbac.ListRoles s;
  rm_ListUsersByRole := Rbac.ListUsersByRole s;
  rm_RoleUsage := Rbac.RoleUsage s;
  rm_CreateRole := Rbac.CreateRole s;
  rm_UpdateRole := Rbac.UpdateRole s;
  rm_DeleteRole := Rbac.DeleteRole s;
  rm_AssignRole := Rbac.AssignRole s;
|}.

Section Guarded.
Context {W : Type} `{!Runtime W}.

(** C12. A form posted to an administration action is answered by the gate
    alone, the same whatever the services behind it are and with nothing of
    them run; or its session is a live one with a second factor of an active
    user who has AuthExec and the other privilege of the route.  Then, with a
    forged token, nothing runs either; and otherwise the action runs, and
    whenever it reports success an event of an action that this user's
    privileges cover went to the audit log, under his name and address. *)
Theorem admin_actions_guarded (mw : SessionPermissionMiddleware W) path required (handler : action_handler) (rq : request) form w :
  route path action_routes = Some (required, handler) ->
  (exists r w', refused rq r /\ forall h, serve_action mw h path rq form w = (Ok r, w')) \/
  (exists a w', let mask := user.PrivilegeMask (ad_User a) in
     admitted mw required rq a w w' /\ covers mask AuthExec /\
     if validateCSRFToken rq (form "csrf_token") then
       forall h, exists r w'', serve_action mw h path rq form w = (Ok r, w'') /\ handler h rq form a w' = (Ok r, w'') /\
         ((exists message, r = redirectWithError message) \/
          (exists message ev w1, r = redirectWithNotice message /\ recorded h ev w1 w'' /\ ev_UserID ev = user.ID (ad_User a) /\
             ev_IPAddress ev = rq_clientIP rq /\ covers mask (privilege_for (ev_EventType ev))))
     else forall h, serve_action mw h path rq form w = (Ok (redirectWithError invalid_csrf_token), w')).
Proof.
  intros Hroute. destruct (routes_answer _ _ _ (route_elem _ _ _ Hroute)) as (Hexec & Hanswers & Hforged).
  unfold serve_action. rewrite Hroute. destruct (gate_decides mw required rq w) as [(r & w' & Hr & Hgate)|(a & w' & Ha & Hgate)].
  { left. exists r, w'. split; [done|]. intros h. apply Hgate. }
  right. exists a, w'. split; [done|]. split; [by apply (at_privileged _ _ _ _ _ _ Ha)|].
  destruct (validateCSRFToken rq (form "csrf_token")) eqn:Htoken; intros h; rewrite Hgate; [|by rewrite Hforged].
  destruct (Hanswers h rq form a w') as (r & w'' & Hrun & Hout). exists r, w''. split; [done|]. split; [done|].
  destruct Hout as [message w''|message ev w1 w'' Hrec Huser Hip Hpriv]; [left; eauto|].
  right. exists message, ev, w1. split_and!; try done. by apply (at_privileged _ _ _ _ _ _ Ha).
Qed.
End Guarded.

(** ** At work *)

Module AdminRoutesDemo.
(** The world is the audit log. *)
#[export] Instance runtime : Runtime (list audit_event) := {|
  time_Now w := (1700000000 * Second, w);
  uuid_NewString w := ("uuid", w);
  rand_Read n w := (Ok (replicate n 7), w);
|}.

Definition boss (mask : Z) : user.Model :=
  user.mk 7 "uuid-7" "boss" "boss@x" true "Boss" "hash" "security_admin" mask "" "active" 0 None 0 0.
Definition of_boss (acr : string) : session.Model := session.mk 1 "sid" 7 "uuid-7" acr "" "10.0.0.1" "curl" 0 (4000000000 * Second) None 0.

Definition gate (mask : Z) (acr : string) : SessionPermissionMiddleware (list audit_event) := NewSessionPermissionMiddleware
  {| Session_Create := fun m => ret m;
     FindBySessionID := fun id => ret (if String.eqb id "sid" then Some (of_boss acr) else None);
     ListActiveByUserID := fun _ => ret []; LogoutBySessionID := fun _ _ => ret tt; LogoutAllByUserID := fun _ _ => ret tt |}
  None
  {| User_Create := fun m => ret m; User_FindByID := fun id => ret (if id =? 7 then Some (boss mask) else None);
     FindByUserUUID := fun _ => ret None; FindByEmail := fun _ => ret None; Ports.FindByUsername := fun _ => ret None;
     ListByRoleCode := fun _ _ => ret []; CountByRoleCode := fun _ => ret 0; UpdateRoleAndPrivilege := fun _ _ _ _ => ret tt;
     Ports.UnlockAccount := fun _ _ => ret tt; Ports.IncrementFailedLogin := fun _ => ret 0; Ports.ResetFailedLogin := fun _ _ => ret tt |}.

Definition mfa : string := "urn:idp:acr:mfa".

(** Unlocking works, nothing else is there. *)
Definition console : AdminActionHandler (list audit_event) :=
  NewAdminActionHandler None None None None None None (Some (fun id => ret (mkUnlockResult id "eve" (1700000000 * Second)))) None
    (Some (fun ev w => (Ok tt, w ++ [ev]))).

Definition rq : request := mkRequest false (mkURL "" "" None "" "/admin/actions/users/unlock" "" false false "" "" "")
  (fun name => if String.eqb name csrfCookieName then "token" else if String.eqb name session_cookie then " sid " else "") (fun _ => "") "10.9.9.9".
Definition form (token name : string) : string :=
  if String.eqb name "csrf_token" then token else if String.eqb name "user_id" then " 9 " else "".
Definition unlock mask acr token : result error response * list audit_event :=
  serve_action (gate mask acr) console "/admin/actions/users/unlock" rq (form token) [].
End AdminRoutesDemo.
Import AdminRoutesDemo.

Example unlocked_and_audited : let '(r, log) := unlock MaskSecurityAdmin mfa "token" in
  r = Ok (redirectWithNotice "user 9 unlocked") /\
  exists ev, log = [ev] /\ ev_EventType ev = "auth.user.unlocked.admin" /\ ev_UserID ev = 7 /\ ev_SessionID ev = Some 1.
Proof. vm_compute. split; [done|]. eexists. split; done. Qed.

Example forged_unlock : unlock MaskSecurityAdmin mfa "other" = (Ok (redirectWithError invalid_csrf_token), []).
Proof. vm_compute. reflexivity. Qed.

Example unlock_without_factor : unlock MaskSecurityAdmin "urn:idp:acr:pwd" "token" = (Ok (abortUnauthorized rq "mfa required"), []).
Proof. vm_compute. reflexivity. Qed.

Example unlock_without_privilege : unlock MaskSupport mfa "token" = (Ok (abortForbidden rq "insufficient privilege"), []).
Proof. vm_compute. reflexivity. Qed.

Lemma admin_actions_guarded_witness : exists message ev w1 w2, unlock MaskSecurityAdmin mfa "token" = (Ok (redirectWithNotice message), w2) /\
  recorded console ev w1 w2 /\ ev_UserID ev = 7 /\ covers MaskSecurityAdmin (privilege_for (ev_EventType ev)).
Proof.
  destruct (admin_actions_guarded (gate MaskSecurityAdmin mfa) "/admin/actions/users/unlock" [AuthExec; UserManage] UnlockUser rq (form "token") [] eq_refl)
    as [(r & w' & Hr & H)|(a & w' & Had & _ & H)].
  { specialize (H console). vm_compute in H. injection H as <- _. inversion Hr. }
  destruct (at_session _ _ _ _ _ _ Had) as (w1 & Hs & t & w2 & Ht & _ & Hu).
  assert (Hsess : ad_Session a = of_boss mfa) by (apply (f_equal fst) in Hs; cbn [fst] in Hs; by injection Hs).
  assert (Huser : ad_User a = boss MaskSecurityAdmin) by (rewrite Hsess in Hu; apply (f_equal fst) in Hu; cbn [fst] in Hu; by injection Hu).
  change (validateCSRFToken rq (form "token" "csrf_token")) with true in H. destruct (H console) as (r & w'' & Hrun & _ & [[message ->]|Hdone]).
  { vm_compute in Hrun. discriminate. }
  destruct Hdone as (message & ev & w3 & -> & Hrec & Hid & _ & Hcov). exists message, ev, w3, w''. rewrite Huser in Hid, Hcov. by split_and!.
Defined.
