(* ===== verification/Oidc.v ===== *)
(** * Consuming tokens (application/oidc/service.go, middleware/auth.go)

    The side that accepts tokens: the userinfo and introspection endpoints,
    the discovery document and key set, and the middleware that guards the
    routes behind a bearer token.  All trust a token when its signature,
    issuer and times are right; introspection and the middleware also ask
    whether it was revoked, and introspection whether this server issued it. *)

From stdpp Require Import base tactics list gmap strings.
From Stdlib Require Import ZArith Lia Ascii.
From S2P Require Import Prelude GoStrings GoText GoCrypto GoJson GoJsonObject GoJsonWrite GoTime Errors Domain Remote Redis RedisKeys LuaScripts TokenCache TokenCacheTheorems Keys Jwt Ports TokenService.

(** ** Claims *)

Definition stringClaim (value : option json) : string := TrimSpace (as_string value).

Definition int64Claim (value : option json) : Z :=
  match value with Some (JNumber n) => default 0 (float_int64 n) | _ => 0 end.

Definition texts (l : list json) : list string :=
  omap (fun item => match item with JString s => if blank s then None else Some (TrimSpace s) | _ => None end) l.

(** nil and the empty slice are told apart; decoded claims hold no []string. *)
Definition claimStringSlice (value : option json) : option (list string) :=
  match value with
  | Some (JString v) => if blank v then None else Some [TrimSpace v]
  | Some (JArray v) => Some (texts v)
  | _ => None
  end.

(** [strings.TrimRight(s, "/")] *)
Fixpoint trim_right_slash (s : string) : string :=
  match s with
  | EmptyString => EmptyString
  | String a s' =>
      let t := trim_right_slash s' in
      if Ascii.eqb a "/" && String.eqb t "" then EmptyString else String a t
  end.

(** ** The service *)

Record UserInfoOutput := mkUserInfoOutput {
  uio_Subject : string; uio_Name : string; uio_PreferredName : string; uio_Email : string; uio_EmailVerified : bool }.

Record DiscoveryDocument := mkDiscoveryDocument {
  dd_Issuer : string;
  dd_AuthorizationEndpoint : string;
  dd_TokenEndpoint : string;
  dd_UserInfoEndpoint : string;
  dd_IntrospectionEndpoint : string;
  dd_EndSessionEndpoint : string;
  dd_JWKSURI : string;
  dd_ResponseTypesSupported : list string;
  dd_SubjectTypesSupported : list string;
  dd_IDTokenSigningAlgValuesSupported : list string;
  dd_ScopesSupported : list string;
  dd_TokenEndpointAuthMethodsSupported : list string;
  dd_IntrospectionEndpointAuthMethodsSupported : list string;
  dd_GrantTypesSupported : list string;
  dd_CodeChallengeMethodsSupported : list string;
}.

Record IntrospectionOutput := mkIntrospectionOutput {
  io_Active : bool;
  io_Scope : string;
  io_ClientID : string;
  io_TokenType : string;
  io_Exp : Z;
  io_Iat : Z;
  io_Nbf : Z;
  io_Sub : string;
  io_Aud : option (list string);
  io_Iss : string;
  io_Jti : string;
  io_Username : string;
  io_UpdatedAt : time;
}.

Definition inactive : IntrospectionOutput := mkIntrospectionOutput false "" "" "" 0 0 0 "" None "" "" "" zero_time.

Section Service.
Context {W : Type} `{!Runtime W}.

(** [tokens] takes the token and the issuer of its options. *)
Record Service := mkService {
  users : option (UserRepository W);
  accessTokens : option (TokenRepository W);
  tokenCache : option (TokenCacheRepository W);
  tokens : string -> string -> IO W json_map;
  keys : option (W -> list JSONWebKey);
  issuer : string;
}.

Definition NewService := mkService.

Definition GetUserInfo (s : Service) (accessToken : string) : IO W UserInfoOutput :=
  if blank accessToken then throw OidcErrInvalidAccessToken else
  let* validated := attempt (tokens s accessToken (issuer s)) in
  match validated with
  | Err _ => throw OidcErrInvalidAccessToken
  | Ok claims =>
      let subject := as_string (claims !! "sub") in
      do* guard (negb (String.eqb subject "")) OidcErrInvalidAccessToken in
      let* users := some_or (users s) (Driver "nil pointer") in
      let* found := FindByUserUUID users subject in
      let* user := some_or found OidcErrUserNotFound in
      ret (mkUserInfoOutput (user.UserUUID user) (user.DisplayName user) (user.Username user) (user.Email user)
             (user.EmailVerified user))
  end.

Definition Discovery (s : Service) : DiscoveryDocument :=
  let base := trim_right_slash (issuer s) in
  mkDiscoveryDocument base (base +:+ "/oauth2/authorize") (base +:+ "/oauth2/token") (base +:+ "/oauth2/userinfo")
    (base +:+ "/oauth2/introspect") (base +:+ "/connect/logout") (base +:+ "/oauth2/jwks")
    ["code"] ["public"] ["RS256"] ["openid"; "profile"; "email"; "offline_access"]
    ["client_secret_basic"; "client_secret_post"; "none"] ["client_secret_basic"; "client_secret_post"]
    ["authorization_code"; "refresh_token"; "client_credentials"] ["plain"; "S256"].

Definition JWKS (s : Service) (w : W) : list JSONWebKey := match keys s with None => [] | Some k => k w end.

(** The database, when the cache has no entry or did not answer. *)
Definition issued_in_database (s : Service) (tokenSHA256 : string) : IO W bool :=
  match accessTokens s with
  | None => ret false
  | Some repo =>
      let* model := attempt (FindActiveAccessTokenBySHA256 repo tokenSHA256) in
      ret (match model with Ok (Some _) => true | _ => false end)
  end.

Definition isServerIssuedAccessToken (s : Service) (tokenSHA256 : string) : IO W bool :=
  match tokenCache s with
  | None => issued_in_database s tokenSHA256
  | Some cache =>
      let* entry := attempt (GetAccessToken cache tokenSHA256) in
      match entry with
      | Ok (Some entry) => let* now := now in ret (After (ace_ExpiresAt entry) now)
      | _ => issued_in_database s tokenSHA256
      end
  end.

Definition is_revoked (cache : option (TokenCacheRepository W)) (tokenSHA256 : string) : IO W bool :=
  match cache with None => ret false | Some cache => IsAccessTokenRevoked cache tokenSHA256 end.

(** What the claims of an active token say. *)
Definition claims_output (claims : json_map) : IntrospectionOutput :=
  mkIntrospectionOutput true (Join (default [] (claimStringSlice (claims !! "scp"))) " ") (stringClaim (claims !! "cid")) "Bearer"
    (int64Claim (claims !! "exp")) (int64Claim (claims !! "iat")) (int64Claim (claims !! "nbf")) (stringClaim (claims !! "sub"))
    (claimStringSlice (claims !! "aud")) (stringClaim (claims !! "iss")) (stringClaim (claims !! "jti")) "" zero_time.

Definition with_user (u : user.Model) (r : IntrospectionOutput) : IntrospectionOutput :=
  mkIntrospectionOutput (io_Active r) (io_Scope r) (io_ClientID r) (io_TokenType r) (io_Exp r) (io_Iat r) (io_Nbf r)
    (io_Sub r) (io_Aud r) (io_Iss r) (io_Jti r) (user.Username u) (user.UpdatedAt u).

Definition Introspect (s : Service) (accessToken : string) : IO W IntrospectionOutput :=
  let token := TrimSpace accessToken in
  if String.eqb token "" then ret inactive else
  let tokenSHA256 := sha256Hex token in
  let* revoked := is_revoked (tokenCache s) tokenSHA256 in
  if revoked : bool then ret inactive else
  let* validated := attempt (tokens s token (issuer s)) in
  match validated with
  | Err _ => ret inactive
  | Ok claims =>
      let* issued := isServerIssuedAccessToken s tokenSHA256 in
      if negb issued then ret inactive else
      let result := claims_output claims in
      match users s with
      | None => ret result
      | Some users =>
          if String.eqb (io_Sub result) "" then ret result else
          let* found := FindByUserUUID users (io_Sub result) in
          ret (match found with None => result | Some u => with_user u result end)
      end
  end.

(** ** The middleware *)

Record AuthMiddleware := NewAuthMiddleware {
  am_tokens : option (string -> string -> IO W json_map);
  am_tokenCache : option (TokenCacheRepository W);
  am_issuer : string;
}.

(** What the handlers behind it find in the request's context. *)
Record bearer_context := mkBearerContext {
  ContextAccessToken : string;
  ContextTokenClaims : option json_map;
  ContextSubject : option string;
  ContextClientID : option string;
}.

(** Status 401 with this error, or on to the handler. *)
Inductive bearer := Unauthorized (error : string) | Next (context : bearer_context).

Definition extractBearerToken (authorizationHeader : string) : string :=
  if HasPrefix authorizationHeader "Bearer " then TrimSpace (TrimPrefix authorizationHeader "Bearer ") else "".

Definition set_claim (value : option json) : option string :=
  match value with Some (JString s) => if String.eqb s "" then None else Some s | _ => None end.

Definition RequireBearerToken (m : AuthMiddleware) (header : string) : IO W bearer :=
  let token := extractBearerToken header in
  if String.eqb token "" then ret (Unauthorized "missing bearer token") else
  let* revoked := attempt (is_revoked (am_tokenCache m) (sha256Hex token)) in
  match revoked with
  | Err _ => ret (Unauthorized "invalid access token")
  | Ok true => ret (Unauthorized "access token revoked")
  | Ok false =>
      match am_tokens m with
      | None => ret (Next (mkBearerContext token None None None))
      | Some parse =>
          let* validated := attempt (parse token (am_issuer m)) in
          ret (match validated with
               | Err _ => Unauthorized "invalid access token"
               | Ok claims => Next (mkBearerContext token (Some claims) (set_claim (claims !! "sub")) (set_claim (claims !! "cid")))
               end)
      end
  end.
End Service.
Arguments Service W : clear implicits.
Arguments AuthMiddleware W : clear implicits.

(** ** Introspection, case by case *)

Section Introspection.
Context {W : Type} `{!Runtime W}.

(** What an answer says, the directory's part aside. *)
Definition without_user (r : IntrospectionOutput) : IntrospectionOutput :=
  mkIntrospectionOutput (io_Active r) (io_Scope r) (io_ClientID r) (io_TokenType r) (io_Exp r) (io_Iat r) (io_Nbf r)
    (io_Sub r) (io_Aud r) (io_Iss r) (io_Jti r) "" zero_time.

(** The decision: not revoked, valid, issued here; with its evidence. *)
Inductive introspected (s : Service W) (token : string) (w : W) (out : IntrospectionOutput) : Prop :=
| in_revoked wa : is_revoked (tokenCache s) (sha256Hex token) w = (Ok true, wa) -> out = inactive -> introspected s token w out
| in_invalid wa e wb : is_revoked (tokenCache s) (sha256Hex token) w = (Ok false, wa) ->
    tokens s token (issuer s) wa = (Err e, wb) -> out = inactive -> introspected s token w out
| in_unknown wa claims wb wc : is_revoked (tokenCache s) (sha256Hex token) w = (Ok false, wa) ->
    tokens s token (issuer s) wa = (Ok claims, wb) ->
    isServerIssuedAccessToken s (sha256Hex token) wb = (Ok false, wc) -> out = inactive -> introspected s token w out
| in_active wa claims wb wc : is_revoked (tokenCache s) (sha256Hex token) w = (Ok false, wa) ->
    tokens s token (issuer s) wa = (Ok claims, wb) ->
    isServerIssuedAccessToken s (sha256Hex token) wb = (Ok true, wc) ->
    without_user out = claims_output claims ->
    (out = claims_output claims \/ exists repo u wd, users s = Some repo /\
       FindByUserUUID repo (stringClaim (claims !! "sub")) wc = (Ok (Some u), wd) /\ out = with_user u (claims_output claims)) ->
    introspected s token w out.

(** What introspection answers: a token it calls active was not revoked,
    has a valid signature, issuer and expiry, and is recorded as issued by
    this server and not expired or revoked there; what it says of the token is
    what the claims say, with the name of the user of the subject.  In every
    other case it says nothing but "not active". *)
Theorem introspection_sound (s : Service W) accessToken out w w' :
  Introspect s accessToken w = (Ok out, w') ->
  (TrimSpace accessToken = "" /\ out = inactive) \/
  (TrimSpace accessToken <> "" /\ introspected s (TrimSpace accessToken) w out).
Proof.
  unfold Introspect. cbv zeta. destruct (String.eqb_spec (TrimSpace accessToken) "") as [He|Hne].
  { intros Hx. apply ret_Ok in Hx as [<- _]. by left. }
  intros Hx. right. split; [done|]. run Hx as revoked wa Hr. destruct revoked.
  { apply ret_Ok in Hx as [<- _]. eapply in_revoked; [exact Hr | done]. }
  run Hx as validated wb Hv. apply attempt_inv in Hv. destruct validated as [claims|e].
  2: { apply ret_Ok in Hx as [<- _]. eapply in_invalid; [exact Hr | exact Hv | done]. }
  run Hx as issued wc Hi. destruct issued; cbn [negb] in Hx.
  2: { apply ret_Ok in Hx as [<- _]. eapply in_unknown; [exact Hr | exact Hv | exact Hi | done]. }
  destruct (users s) as [repo|] eqn:Hus.
  2: { apply ret_Ok in Hx as [<- _]. eapply in_active; eauto. }
  destruct (String.eqb _ ""); [apply ret_Ok in Hx as [<- _]; eapply in_active; eauto|].
  run Hx as found wd Hf. apply ret_Ok in Hx as [<- _].
  eapply in_active; [exact Hr | exact Hv | exact Hi | by destruct found |]. destruct found as [u|]; [right | by left]. by exists repo, u, wd.
Qed.

(** ** What was issued is what introspection says *)

Definition clean (s : string) : bool := trimmed s && negb (blank s) && ascii_string s.

Lemma clean_spec s : clean s = true -> TrimSpace s = s /\ blank s = false /\ ascii_string s = true.
Proof. unfold clean. rewrite !andb_true_iff, negb_true_iff. intros [[Ht%trimmed_spec ?] ?]. done. Qed.

Lemma texts_clean l : Forall (fun s => clean s = true) l -> texts (List.map JString l) = l.
Proof.
  induction l as [|s l IH]; [done|]. intros [Hs Hl]%Forall_cons. destruct (clean_spec s Hs) as (Ht & Hb & _).
  unfold texts in *. cbn. rewrite Hb, Ht. cbn. f_equal. by apply IH.
Qed.

Definition issuable (iss sub : string) (auds : list string) (at_ exp : time) (jti cid : string) (scopes : list string) : Prop :=
  Forall (fun s => clean s = true) ([iss; sub; jti; cid] ++ auds ++ scopes) /\ Z.abs (Unix at_) <= 2 ^ 53 /\ Z.abs (Unix exp) <= 2 ^ 53.

Lemma access_claims_ok iss sub auds exp at_ jti cid scopes : issuable iss sub auds at_ exp jti cid scopes ->
  claims_ok (access_claims iss sub auds exp at_ jti cid (Some scopes)).
Proof.
  intros (Hall & Ha & He). apply Forall_app in Hall as [H4 [Hau Hsc]%Forall_app].
  assert (Hc : forall l, Forall (fun s => clean s = true) l -> forallb ascii_string l = true).
  { intros l Hl. apply forallb_forall. intros s Hs. apply list_elem_of_In in Hs.
    rewrite Forall_forall in Hl. by apply (clean_spec s), Hl. }
  repeat (apply Forall_cons in H4 as [?%clean_spec H4]). destruct_and!.
  unfold access_claims, claims_ok. cbn [list_to_map foldr fst snd].
  repeat (apply map_Forall_insert_2; [split; [done|]; cbn; (done || by apply Hc || by apply Z.leb_le)|]). apply map_Forall_empty.
Qed.

(** The answer for an access token with these claims. *)
Definition issued_output (iss sub : string) (auds : list string) (at_ exp : time) (jti cid : string) (scopes : list string) :
    IntrospectionOutput :=
  mkIntrospectionOutput true (Join scopes " ") cid "Bearer" (Unix exp) (Unix at_) (Unix at_) sub (Some auds) iss jti "" zero_time.

Lemma access_claims_lookup iss sub auds exp at_ jti cid scopes :
  let c := access_claims iss sub auds exp at_ jti cid scopes in
  c !! "iss" = Some (ClaimString iss) /\ c !! "sub" = Some (ClaimString sub) /\ c !! "aud" = Some (ClaimStrings (Some auds)) /\
  c !! "exp" = Some (ClaimInt (Unix exp)) /\ c !! "iat" = Some (ClaimInt (Unix at_)) /\ c !! "nbf" = Some (ClaimInt (Unix at_)) /\
  c !! "jti" = Some (ClaimString jti) /\ c !! "cid" = Some (ClaimString cid) /\ c !! "scp" = Some (ClaimStrings scopes).
Proof. repeat split. Qed.

Lemma access_claims_output iss sub auds exp at_ jti cid scopes : issuable iss sub auds at_ exp jti cid scopes ->
  claims_output (json_claims (access_claims iss sub auds exp at_ jti cid (Some scopes))) =
  issued_output iss sub auds at_ exp jti cid scopes.
Proof.
  intros (Hall & Ha & He). apply Forall_app in Hall as [H4 [Hau Hsc]%Forall_app].
  repeat (apply Forall_cons in H4 as [?%clean_spec H4]). destruct_and!.
  unfold claims_output, issued_output. rewrite !json_claims_lookup.
  destruct (access_claims_lookup iss sub auds exp at_ jti cid (Some scopes)) as (-> & -> & -> & -> & -> & -> & -> & -> & ->).
  unfold stringClaim, int64Claim, claimStringSlice. cbn [option_map claim_json as_string].
  rewrite !float_int64_FormatInt, !texts_clean by done.
  repeat match goal with H : TrimSpace _ = _ |- _ => rewrite H; clear H end. done.
Qed.
(** The validation of a checker, as the service calls it. *)
Definition validator `{!RSA} (js : JWTService W) : string -> string -> IO W json_map := ParseAndValidateBasic js.

(** The record of an issue, as the service finds it from [w]: an entry of the
    cache that has not expired, or, when the cache has none or does not
    answer, an active row of the table. *)
Definition recorded (s : Service W) (tokenSHA256 : string) (w : W) : Prop :=
  (exists cache entry w1, tokenCache s = Some cache /\ GetAccessToken cache tokenSHA256 w = (Ok (Some entry), w1) /\
     (time_Now w1).1 < ace_ExpiresAt entry) \/
  exists repo row w1 w2, accessTokens s = Some repo /\ FindActiveAccessTokenBySHA256 repo tokenSHA256 w1 = (Ok (Some row), w2) /\
    match tokenCache s with
    | None => w1 = w
    | Some cache => exists r, GetAccessToken cache tokenSHA256 w = (r, w1) /\ forall entry, r <> Ok (Some entry)
    end.

Lemma issued_in_database_recorded (s : Service W) sha w b w' : issued_in_database s sha w = (Ok b, w') ->
  b = true <-> exists repo row w2, accessTokens s = Some repo /\ FindActiveAccessTokenBySHA256 repo sha w = (Ok (Some row), w2).
Proof.
  unfold issued_in_database. destruct (accessTokens s) as [repo|]; [|intros [<- _]%ret_Ok; split; [done | by intros (? & ? & ? & ? & _)]].
  intros Hx. run Hx as m w1 Hf. apply attempt_inv in Hf. apply ret_Ok in Hx as [<- _]. split.
  - destruct m as [[row|]|]; try done. intros _. by exists repo, row, w1.
  - intros (repo' & row & w2 & [= <-] & Hf'). rewrite Hf in Hf'. injection Hf' as -> _. done.
Qed.

Lemma issued_recorded (s : Service W) sha w b w' : isServerIssuedAccessToken s sha w = (Ok b, w') -> b = true <-> recorded s sha w.
Proof.
  unfold isServerIssuedAccessToken, recorded. destruct (tokenCache s) as [cache|].
  2: { intros Hb. rewrite (issued_in_database_recorded _ _ _ _ _ Hb). split.
       - intros (repo & row & w2 & Hr & Hf). right. by exists repo, row, w, w2.
       - intros [(cache & entry & w1 & [=] & _)|(repo & row & w1 & w2 & Hr & Hf & ->)]. by exists repo, row, w2. }
  intros Hx. run Hx as entry w1 Hg. apply attempt_inv in Hg.
  assert (Hmiss : (forall e, entry <> Ok (Some e)) -> issued_in_database s sha w1 = (Ok b, w') -> b = true <->
    (exists cache0 entry0 w2, Some cache = Some cache0 /\ GetAccessToken cache0 sha w = (Ok (Some entry0), w2) /\ (time_Now w2).1 < ace_ExpiresAt entry0) \/
    exists repo row w2 w3, accessTokens s = Some repo /\ FindActiveAccessTokenBySHA256 repo sha w2 = (Ok (Some row), w3) /\
      exists r, GetAccessToken cache sha w = (r, w2) /\ forall e, r <> Ok (Some e)).
  { intros Hno Hb. rewrite (issued_in_database_recorded _ _ _ _ _ Hb). split.
    - intros (repo & row & w2 & Hr & Hf). right. exists repo, row, w1, w2. do 2 (split; [done|]). by exists entry.
    - intros [(c & e & w2 & [= <-] & He & _)|(repo & row & w2 & w3 & Hr & Hf & r & Hgr & _)]; [rewrite Hg in He; injection He as -> _; by destruct (Hno e)|].
      rewrite Hg in Hgr. injection Hgr as _ <-. by exists repo, row, w3. }
  destruct entry as [[entry|]|e]; [|by apply Hmiss|by apply Hmiss].
  run Hx as t w2 Ht. apply ret_Ok in Hx as [<- _]. unfold now in Ht. destruct (time_Now w1) as [t' w3] eqn:En. injection Ht as <- <-.
  rewrite After_spec. split.
  - intros Hlt. left. exists cache, entry, w1. by rewrite En.
  - intros [(c & e & w4 & [= <-] & He & Hlt)|(repo & row & w4 & w5 & _ & _ & r & Hgr & Hno)].
    + rewrite Hg in He. injection He as <- <-. by rewrite En in Hlt.
    + rewrite Hg in Hgr. injection Hgr as <- _. by destruct (Hno entry).
Qed.

(** The claims of an access token are valid in its lifetime. *)
Lemma access_claims_valid iss sub auds at_ exp jti cid scopes t :
  valid_for (mkValidateOptions iss "" "" zero_time) (access_claims iss sub auds exp at_ jti cid scopes) t <->
  Unix at_ * Second <= t < Unix exp * Second.
Proof.
  destruct (access_claims_lookup iss sub auds exp at_ jti cid scopes) as (Li & _ & _ & Le & La & Ln & _). split.
  - intros (_ & _ & _ & (e & He & Ht) & Hp). rewrite Le in He. injection He as <-.
    destruct (Hp "iat" ltac:(by right)) as [Hi|(z & Hz & Hle)]; [congruence|]. rewrite La in Hz. injection Hz as <-. done.
  - intros [Hle Hlt]. split; [by right|]. split; [by left|]. split; [by left|]. split; [by exists (Unix exp)|].
    intros k [-> | ->]; right; by exists (Unix at_).
Qed.

(** C38. An access token is introspected as what was issued, exactly while it
    lives: for a token minted with the claims of the token service, wherever
    its public key is known, introspection calls it active if and only if it
    is not revoked, the clock is in its lifetime (from the second of its
    issue until, and without, the second it expires), and the record of its
    issue is found in the cache or the table; it then answers with exactly the
    scopes, client, subject, audience, identifier and times it was issued
    with, and otherwise with nothing but "not active". *)
Theorem issued_token_introspects `{!RSA} (minter checker : JWTService W) (s : Service W) keys keys2 meta sk meta2
    iss sub auds at_ exp jti cid scopes w token w1 w2 out w3 :
  jwt_signer minter = Some (NewSigner (Some keys)) -> jwt_signer checker = Some (NewSigner (Some keys2)) ->
  ActiveSigningKey (keys w) = Ok (meta, sk) -> key.KID meta <> "" -> ascii_string (key.KID meta) = true ->
  (forall w', PublicKeyByKID (keys2 w') (key.KID meta) = Ok (meta2, Public sk)) -> key.Alg meta2 = DefaultJWTAlg ->
  issuable iss sub auds at_ exp jti cid scopes ->
  Jwt.Mint minter (access_claims iss sub auds exp at_ jti cid (Some scopes)) w = (Ok token, w1) ->
  tokens s = validator checker -> issuer s = iss -> TrimSpace token = token -> token <> "" ->
  Introspect s token w2 = (Ok out, w3) ->
  exists revoked wa, is_revoked (tokenCache s) (sha256Hex token) w2 = (Ok revoked, wa) /\
    (io_Active out = true <->
       revoked = false /\ Unix at_ * Second <= (time_Now wa).1 < Unix exp * Second /\
       recorded s (sha256Hex token) (tokens s token (issuer s) wa).2) /\
    if io_Active out then without_user out = issued_output iss sub auds at_ exp jti cid scopes else out = inactive.
Proof.
  intros Hm Hch Hact Hkid Hka Hpub Halg Hok Hmint Htok Hiss Htrim Hne Hx.
  apply introspection_sound in Hx as [[He _]|[_ Hx]]; [congruence|]. rewrite Htrim in Hx.
  set (c := json_claims (access_claims iss sub auds exp at_ jti cid (Some scopes))).
  assert (Hval : forall wa r wb, tokens s token (issuer s) wa = (r, wb) ->
    (r = Ok c <-> Unix at_ * Second <= (time_Now wa).1 < Unix exp * Second) /\ (r = Ok c \/ exists e, r = Err e)).
  { intros wa r wb Hr. rewrite Htok, Hiss in Hr. rewrite <- (access_claims_valid iss sub auds at_ exp jti cid (Some scopes)).
    exact (minted_token_validates minter checker keys keys2 _ w token w1 meta sk meta2 _ wa r wb Hm Hch Hact Hkid Hka (Hpub wa) Halg
      (access_claims_ok _ _ _ _ _ _ _ _ Hok) Hmint Hr). }
  destruct Hx as [wa Hr ->|wa e wb Hr Hp ->|wa claims wb wc Hr Hp Hi ->|wa claims wb wc Hr Hp Hi Hsame _].
  - exists true, wa. split; [done|]. split; [|done]. split; [done | by intros [? _]].
  - exists false, wa. split; [done|]. split; [|done]. split; [done|]. intros (_ & Ht & _).
    apply (proj2 (proj1 (Hval _ _ _ Hp))) in Ht. discriminate.
  - exists false, wa. split; [done|]. split; [|done]. split; [done|]. intros (_ & _ & Hrec). rewrite Hp in Hrec.
    by apply (issued_recorded _ _ _ _ _ Hi) in Hrec.
  - exists false, wa. split; [done|]. destruct (Hval _ _ _ Hp) as [Hiff [Heq|(e & [=])]]. injection Heq as ->.
    assert (Hact2 : io_Active out = true) by (change (io_Active out) with (io_Active (without_user out)); by rewrite Hsame).
    rewrite Hact2. split; [|rewrite Hsame; by apply access_claims_output].
    split; [|done]. intros _. split; [done|]. split; [by apply Hiff|]. rewrite Hp. by apply (issued_recorded _ _ _ _ _ Hi).
Qed.
End Introspection.

(** ** Revocation *)

(** C39. A revoked access token is refused everywhere: from the moment
    [RevokeAccessToken] returned and for the whole lifetime of the revocation,
    whatever else happens to the cache, the middleware answers 401 to a
    request that carries the token, and introspection answers "not active". *)
Theorem revoked_token_refused {W R} `{!Runtime W} `{HC : RedisClient W R} `{!Quiet W R} (key : KeyBuilder.KeyBuilder)
    (m : AuthMiddleware W) (s : Service W) token ttl w w1 ops w2 :
  am_tokenCache m = Some (NewTokenCacheRepository key) -> tokenCache s = Some (NewTokenCacheRepository key) ->
  0 < ttl -> exact_int (durationSeconds ttl) ->
  TokenCache.RevokeAccessToken key (sha256Hex token) ttl w = (Ok tt, w1) ->
  runs key ops (server w1) (server w2) -> Forall (no_other_revocation (sha256Hex token)) ops ->
  elapsed ops < durationSeconds ttl * 1000 -> token <> "" ->
  (forall header, extractBearerToken header = token ->
     exists w3, RequireBearerToken m header w2 = (Ok (Unauthorized "access token revoked"), w3)) /\
  (forall accessToken, TrimSpace accessToken = token -> exists w3, Introspect s accessToken w2 = (Ok inactive, w3)).
Proof.
  intros Hm Hs Httl Hx Hrev Hruns Hops Hel Hne.
  assert (Hrevoked : exists w3, TokenCache.IsAccessTokenRevoked key (sha256Hex token) w2 = (Ok true, w3)).
  { destruct (revoked_token_stays_revoked key (sha256Hex token) ttl w ops (server w2) Httl Hx Hops Hel) as [Hall _].
    destruct (Hall w1 Hrev Hruns) as [r3 Hr3]. pose proof (simulates_exec _ _ _ _ Hr3) as Hks.
    destruct (quiet_call (exec (EXISTS (KeyBuilder.RevokedAccessToken key (sha256Hex token)))) _ w2 (Ok true) (Redis.keys r3) (simulates_exec _) Hks)
      as (w3 & Hc & _). by exists w3. }
  destruct Hrevoked as [w3 Hrevoked]. split.
  - intros header Hh. exists w3. unfold RequireBearerToken. rewrite Hh. rewrite (proj2 (String.eqb_neq _ _) Hne), Hm.
    rewrite (bind_run _ _ _ (Ok true) w3); [done|]. apply attempt_Ok. exact Hrevoked.
  - intros accessToken Hh. exists w3. unfold Introspect. cbv zeta. rewrite Hh, (proj2 (String.eqb_neq _ _) Hne), Hs.
    by rewrite (bind_run _ _ _ true w3).
Qed.

(** ** At work: a token, its introspection and its revocation *)

Import KeyDemo Local.

Module OidcDemo.
Definition key : KeyBuilder.KeyBuilder := KeyBuilder.NewKeyBuilder "idp" "test".
Definition noon : time := 1700000000 * Second.
Definition iss : string := "https://idp.example".

Definition js : JWTService Local.world := NewJWTService (Some (NewSigner (Some (fun _ => JwtDemo.signing_keys)))).
Definition start : Local.world := mkWorld ∅ noon.
Definition token : string :=
  match (Jwt.Mint js (access_claims iss "uuid-7" ["web"] (noon + 3600 * Second) noon "jti-1" "web" (Some ["openid"; "profile"])) start).1 with
  | Ok t => t | Err _ => "" end.

Definition entry : AccessTokenCacheEntry :=
  mkAccessTokenCacheEntry (sha256Hex token) "web" "7" "uuid-7" "[]" "[]" "Bearer" "jwt" noon (noon + 3600 * Second).
Definition cached : Local.world := (TokenCache.SaveAccessToken key entry (3600 * Second) start).2.
Definition revoked : Local.world := (TokenCache.RevokeAccessToken key (sha256Hex token) (3600 * Second) cached).2.

Definition service : Service Local.world :=
  mkService None None (Some (NewTokenCacheRepository key)) (validator js) None iss.
Definition guard : AuthMiddleware Local.world := NewAuthMiddleware (Some (validator js)) (Some (NewTokenCacheRepository key)) iss.
End OidcDemo.
Import OidcDemo.

Lemma introspected_active : exists out w', Introspect service token cached = (Ok out, w') /\ io_Active out = true.
Proof. vm_compute. by eexists _, _. Qed.

Lemma issued_token_introspects_witness : exists out w', Introspect service token cached = (Ok out, w') /\
  without_user out = issued_output iss "uuid-7" ["web"] noon (noon + 3600 * Second) "jti-1" "web" ["openid"; "profile"].
Proof.
  destruct introspected_active as (out & w' & Hx & Hact). exists out, w'. split; [exact Hx|].
  destruct (issued_token_introspects js js service (fun _ => JwtDemo.signing_keys) (fun _ => JwtDemo.signing_keys)
    (key.mk "kid-2" "RS256" "sig") "k2" (key.mk "kid-2" "RS256" "sig") iss "uuid-7" ["web"] noon (noon + 3600 * Second) "jti-1" "web"
    ["openid"; "profile"] start token start cached out w'
    eq_refl eq_refl ltac:(vm_compute; reflexivity) ltac:(discriminate) eq_refl (fun _ => ltac:(vm_compute; reflexivity)) eq_refl
    ltac:(split; [repeat constructor | split; vm_compute; discriminate])
    ltac:(vm_compute; reflexivity) eq_refl eq_refl ltac:(vm_compute; reflexivity) ltac:(vm_compute; discriminate) Hx)
    as (revoked & wa & _ & _ & Hall).
  rewrite Hact in Hall. exact Hall.
Defined.

Lemma revocation_done : TokenCache.RevokeAccessToken OidcDemo.key (sha256Hex token) (3600 * Second) cached = (Ok tt, revoked).
Proof. vm_compute. reflexivity. Qed.

Lemma revoked_token_refused_witness :
  exists w3, RequireBearerToken OidcDemo.guard ("Bearer " +:+ token) revoked = (Ok (Unauthorized "access token revoked"), w3).
Proof.
  destruct (revoked_token_refused OidcDemo.key OidcDemo.guard service token (3600 * Second) cached revoked [] revoked
    eq_refl eq_refl ltac:(reflexivity) ltac:(vm_compute; discriminate) revocation_done (runs_nil _ _) (Forall_nil_2 _)
    ltac:(vm_compute; reflexivity) ltac:(vm_compute; discriminate)) as [Hall _].
  apply Hall. vm_compute. reflexivity.
Defined.
