(* ===== verification/OidcProvider.v ===== *)
(** * The upstream provider of a federated login (infrastructure/external/oidc_provider.go)

    Both halves of the authorization-code flow this server runs as a client of
    another provider: sending the browser away with a state and a nonce, and
    redeeming the code it comes back with.  net/http's client is a parameter;
    the states live in ReplayCache. *)

From stdpp Require Import base tactics list gmap strings numbers relations.
From Stdlib Require Import ZArith Lia Ascii.
From S2P Require Import Prelude GoStrings GoText GoCrypto GoBase64 GoJson GoJsonObject GoJsonWrite GoUrl GoNetUrl HttpRedirects GoTime Errors Domain Ports AuthPorts.
From S2P Require Import Scopes Keys Jwt AuthnPlugins Remote Redis RedisKeys LuaScripts DeviceCache TokenCache ReplayCache.
From S2P Require Oidc Totp.

Import federated_oidc.

(** ** Configuration and documents *)

Record OIDCProviderConfig := mkConfig {
  pc_Issuer : string; pc_ClientID : string; pc_ClientSecret : string; pc_RedirectURI : string; pc_Scopes : list string;
  pc_ClientAuthMethod : string; pc_UsernameClaim : string; pc_DisplayNameClaim : string; pc_EmailClaim : string; pc_StateTTL : duration;
}.

Definition normalizeClientAuthMethod (value : string) : string :=
  let value := ToLower (TrimSpace value) in
  if String.eqb value "client_secret_post" || String.eqb value "none" then value else "client_secret_basic".

Definition fallback (value defaultValue : string) : string :=
  let trimmed := TrimSpace value in if String.eqb trimmed "" then defaultValue else trimmed.

(** What the constructor makes of a configuration *)
Definition normalized_config (c : OIDCProviderConfig) : OIDCProviderConfig :=
  let scopes := normalizeScopes (pc_Scopes c) in
  mkConfig (TrimSpace (pc_Issuer c)) (TrimSpace (pc_ClientID c)) (pc_ClientSecret c) (TrimSpace (pc_RedirectURI c))
    (match scopes with [] => ["openid"; "profile"; "email"] | _ => scopes end)
    (normalizeClientAuthMethod (pc_ClientAuthMethod c)) (fallback (pc_UsernameClaim c) "preferred_username")
    (fallback (pc_DisplayNameClaim c) "name") (fallback (pc_EmailClaim c) "email")
    (if pc_StateTTL c <=? 0 then 10 * Minute else pc_StateTTL c).

Record oidcDiscoveryDocument := mkDiscovery {
  dd_Issuer : string; dd_AuthorizationEndpoint : string; dd_TokenEndpoint : string; dd_UserInfoEndpoint : string;
}.
Record oidcTokenResponse := mkTokenResponse { tr_AccessToken : string; tr_IDToken : string; tr_TokenType : string }.

(** ** net/http *)

Record http_request := mkHttpRequest { hq_Method : string; hq_URL : URL; hq_Header : list (string * string); hq_Body : string }.

(** [hp_Body]: what can be read of the body. *)
Record http_response := mkHttpResponse { hp_StatusCode : Z; hp_Status : string; hp_Body : string }.

Definition success (r : http_response) : bool := (200 <=? hp_StatusCode r) && (hp_StatusCode r <? 300).

(** [json.NewDecoder(body).Decode]: the first value, whatever follows it *)
Definition first_value (body : string) : option json :=
  option_map fst (value (2 * String.length body + 2) body).

Definition decode_struct (body : string) (names : list string) : option (list (string * field)) :=
  let fields := List.map (fun n => (n, FString "")) names in
  match first_value body with Some (JObject l) => fill l fields | Some JNull => Some fields | _ => None end.

(** A field of the struct by its position *)
Definition text_at (fields : list (string * field)) (n : nat) : string :=
  match fields !! n with Some (_, FString s) => s | _ => "" end.

Definition decode_discovery (body : string) : option oidcDiscoveryDocument :=
  option_map (fun f => mkDiscovery (text_at f 0) (text_at f 1) (text_at f 2) (text_at f 3))
    (decode_struct body ["issuer"; "authorization_endpoint"; "token_endpoint"; "userinfo_endpoint"]).

Definition decode_tokens (body : string) : option oidcTokenResponse :=
  option_map (fun f => mkTokenResponse (text_at f 0) (text_at f 1) (text_at f 2)) (decode_struct body ["access_token"; "id_token"; "token_type"]).

Definition decode_claims (body : string) : option json_map :=
  match first_value body with
  | Some (JObject l) => if numbers_fit (JObject l) then Some (list_to_map (reverse l)) else None
  | Some JNull => Some ∅
  | _ => None
  end.

(** ** Claims *)

Definition decodeJWTClaims (token : string) : result error json_map :=
  match split_at "." token with
  | [_; payload; _] =>
      match RawURLDecode payload with
      | None => Err (Driver "decode id_token payload" : error)
      | Some bytes => match unmarshal_map (string_of_bytes bytes) with Some claims => Ok claims | None => Err (Driver "decode id_token claims" : error) end
      end
  | _ => Err (Driver "invalid id_token format" : error)
  end.

Fixpoint firstStringClaim (claims : json_map) (keys : list string) : string :=
  match keys with
  | [] => ""
  | key :: keys => let value := TrimSpace (as_string (claims !! key)) in if String.eqb value "" then firstStringClaim claims keys else value
  end.

Definition claimContainsAudience (raw : json) (expected : string) : bool :=
  match raw with
  | JString aud => String.eqb aud expected
  | JArray items => existsb (fun item => match item with JString value => String.eqb value expected | _ => false end) items
  | _ => false
  end.

(** A claim that is there and is not the expected one *)
Definition foreign_claim (claims : json_map) (key expected : string) : bool :=
  let got := firstStringClaim claims [key] in
  negb (String.eqb expected "") && negb (String.eqb got "") && negb (String.eqb got expected).

Definition foreign_audience (claims : json_map) (audience : string) : bool :=
  negb (String.eqb audience "") && match claims !! "aud" with Some rawAud => negb (claimContainsAudience rawAud audience) | None => false end.

(** [None]: the claims pass. *)
Definition validateOIDCClaims (claims : json_map) (issuer audience nonce : string) : option error :=
  if foreign_claim claims "iss" issuer then Some (Driver "unexpected oidc issuer" : error)
  else if foreign_audience claims audience then Some (Driver "unexpected oidc audience" : error)
  else if foreign_claim claims "nonce" nonce then Some (Driver "unexpected oidc nonce" : error)
  else None.

(** ** The requests *)

Definition auth_params (clientID redirectURI state nonce : string) (scopes : list string) (q : values) : values :=
  Values_Set "nonce" nonce (Values_Set "state" state (Values_Set "scope" (Join scopes " ") (Values_Set "redirect_uri" redirectURI
    (Values_Set "client_id" clientID (Values_Set "response_type" "code" q))))).

Definition buildAuthorizationURL (endpoint clientID redirectURI state nonce : string) (scopes : list string) : option string :=
  option_map (set_query (auth_params clientID redirectURI state nonce scopes)) (Parse endpoint).

Definition token_form (c : OIDCProviderConfig) (code redirectURI : string) : values :=
  let form := Values_Set "client_id" (pc_ClientID c) (Values_Set "redirect_uri" redirectURI
    (Values_Set "code" code (Values_Set "grant_type" "authorization_code" ∅))) in
  if String.eqb (pc_ClientAuthMethod c) "client_secret_post" then set_if "client_secret" (pc_ClientSecret c) form else form.

Definition token_request (c : OIDCProviderConfig) (endpoint : URL) (code redirectURI : string) : http_request :=
  mkHttpRequest "POST" endpoint
    ([("Content-Type", "application/x-www-form-urlencoded"); ("Accept", "application/json")] ++
     if String.eqb (pc_ClientAuthMethod c) "client_secret_basic" && negb (String.eqb (pc_ClientSecret c) "")
     then [("Authorization", "Basic " +:+ EncodeToString (pc_ClientID c +:+ ":" +:+ pc_ClientSecret c))] else [])
    (Encode (token_form c code redirectURI)).

Definition userinfo_request (endpoint : URL) (accessToken : string) : http_request :=
  mkHttpRequest "GET" endpoint [("Authorization", "Bearer " +:+ accessToken); ("Accept", "application/json")] "".

(** ** The provider *)

Section Provider.
Context {W : Type} `{!Runtime W}.

(** The part of ports/cache's ReplayProtectionRepository that is used *)
Record ReplayProtectionRepository := mkReplay {
  rp_SaveState : string -> gmap string string -> duration -> IO W unit;
  rp_GetState : string -> IO W (option (gmap string string));
  rp_DeleteState : string -> IO W unit;
}.

(** [op_metadata] reads the discovery document in memory, under its lock;
    [op_remember] sets it. *)
Record OIDCProvider := mkProvider {
  op_cfg : OIDCProviderConfig;
  op_Do : http_request -> IO W http_response;
  op_replayCache : option ReplayProtectionRepository;
  op_metadata : IO W (option oidcDiscoveryDocument);
  op_remember : oidcDiscoveryDocument -> IO W unit;
}.

Definition NewOIDCProviderWithReplayCache (cfg : OIDCProviderConfig) (client : http_request -> IO W http_response)
    (replayCache : option ReplayProtectionRepository) (metadata : IO W (option oidcDiscoveryDocument))
    (remember : oidcDiscoveryDocument -> IO W unit) : OIDCProvider :=
  mkProvider (normalized_config cfg) client replayCache metadata remember.

(** A request and its answer, decoded when its status is one of success. *)
Definition fetch {A} (p : OIDCProvider) (url what : string) (request : URL -> http_request) (decode : string -> option A) : IO W A :=
  let* endpoint := some_or (Parse url) (Driver ("build oidc " +:+ what +:+ " request")) in
  let* resp := op_Do p (request endpoint) in
  do* guard (success resp) (Driver ("oidc " +:+ what +:+ " request returned " +:+ hp_Status resp)) in
  some_or (decode (hp_Body resp)) (Driver ("decode oidc " +:+ what +:+ " response")).

Definition loadDiscovery (p : OIDCProvider) : IO W oidcDiscoveryDocument :=
  let* known := op_metadata p in
  match known with
  | Some metadata => ret metadata
  | None =>
      let discoveryURL := Oidc.trim_right_slash (pc_Issuer (op_cfg p)) +:+ "/.well-known/openid-configuration" in
      let* metadata := fetch p discoveryURL "discovery" (fun endpoint => mkHttpRequest "GET" endpoint [] "") decode_discovery in
      do* guard (negb (String.eqb (dd_TokenEndpoint metadata) "")) (Driver "oidc discovery is missing token_endpoint") in
      do* op_remember p metadata in
      ret metadata
  end.

Definition beginAuthentication (p : OIDCProvider) (metadata : oidcDiscoveryDocument) (redirectURI returnTo : string) : IO W OIDCAuthenticateResult :=
  let* replayCache := some_or (op_replayCache p) (Driver "oidc replay cache is not configured") in
  do* guard (negb (String.eqb (dd_AuthorizationEndpoint metadata) "")) (Driver "oidc discovery is missing authorization_endpoint") in
  let* state := NewString in
  let* nonce := NewString in
  let* t := now in
  do* rp_SaveState replayCache state
        (list_to_map [("nonce", nonce); ("return_to", TrimSpace returnTo); ("redirect_uri", redirectURI); ("created_at", formatNano t)])
        (pc_StateTTL (op_cfg p)) in
  let* authURL := some_or (buildAuthorizationURL (dd_AuthorizationEndpoint metadata) (pc_ClientID (op_cfg p)) redirectURI state nonce (pc_Scopes (op_cfg p)))
                    (Driver "build oidc authorization url") in
  ret (mkOut false "" "" "" "" authURL).

Definition consumeState (p : OIDCProvider) (state : string) : IO W (gmap string string) :=
  do* guard (negb (String.eqb state "")) (Driver "oidc state is required") in
  let* replayCache := some_or (op_replayCache p) (Driver "oidc replay cache is not configured") in
  let* value := rp_GetState replayCache state in
  let* value := some_or value (Driver "oidc state is invalid or expired") in
  do* rp_DeleteState replayCache state in
  ret value.

Definition exchangeCode (p : OIDCProvider) (metadata : oidcDiscoveryDocument) (code redirectURI : string) : IO W oidcTokenResponse :=
  let* tokens := fetch p (dd_TokenEndpoint metadata) "token" (fun endpoint => token_request (op_cfg p) endpoint code redirectURI) decode_tokens in
  do* guard (negb (String.eqb (tr_AccessToken tokens) "" && String.eqb (tr_IDToken tokens) "")) (Driver "oidc token response is missing tokens") in
  ret tokens.

Definition fetchUserInfo (p : OIDCProvider) (endpoint accessToken : string) : IO W json_map :=
  fetch p endpoint "userinfo" (fun url => userinfo_request url accessToken) decode_claims.

(** The claims of the userinfo endpoint, or else those of the ID token. *)
Definition user_claims (p : OIDCProvider) (metadata : oidcDiscoveryDocument) (tokens : oidcTokenResponse) : IO W json_map :=
  let* claims :=
    if negb (String.eqb (dd_UserInfoEndpoint metadata) "") && negb (String.eqb (tr_AccessToken tokens) "")
    then fetchUserInfo p (dd_UserInfoEndpoint metadata) (tr_AccessToken tokens) else ret ∅ in
  let* claims :=
    if bool_decide (claims = ∅) && negb (String.eqb (tr_IDToken tokens) "")
    then (fun w => (decodeJWTClaims (tr_IDToken tokens), w)) else ret claims in
  do* guard (negb (bool_decide (claims = ∅))) (Driver "oidc provider returned no user claims") in
  ret claims.

(** The user the claims describe, who goes on to [return_to]. *)
Definition claimed_user (c : OIDCProviderConfig) (claims : json_map) (subject return_to : string) : OIDCAuthenticateResult :=
  mkOut true subject (firstStringClaim claims [pc_UsernameClaim c; "preferred_username"; "name"])
    (firstStringClaim claims [pc_DisplayNameClaim c; "name"]) (firstStringClaim claims [pc_EmailClaim c; "email"]) return_to.

Definition claimed_subject (c : OIDCProviderConfig) (claims : json_map) : string :=
  let subject := firstStringClaim claims ["sub"] in
  if String.eqb subject "" then firstStringClaim claims [pc_EmailClaim c; pc_UsernameClaim c] else subject.

Definition expected_issuer (c : OIDCProviderConfig) (metadata : oidcDiscoveryDocument) : string :=
  if blank (dd_Issuer metadata) then pc_Issuer c else TrimSpace (dd_Issuer metadata).

Definition completeAuthentication (p : OIDCProvider) (metadata : oidcDiscoveryDocument) (input : OIDCAuthenticateInput) (redirectURI : string)
    : IO W OIDCAuthenticateResult :=
  let* savedState := consumeState p (TrimSpace (fi_State input)) in
  let value := TrimSpace (map_get savedState "redirect_uri") in
  let redirectURI := if String.eqb value "" then redirectURI else value in
  let nonce := if String.eqb (fi_Nonce input) "" then TrimSpace (map_get savedState "nonce") else TrimSpace (fi_Nonce input) in
  let* tokenResponse := exchangeCode p metadata (fi_Code input) redirectURI in
  let* claims := user_claims p metadata tokenResponse in
  do* check (validateOIDCClaims claims (expected_issuer (op_cfg p) metadata) (pc_ClientID (op_cfg p)) nonce) in
  let subject := claimed_subject (op_cfg p) claims in
  do* guard (negb (String.eqb subject "")) (Driver "oidc subject claim is missing") in
  ret (claimed_user (op_cfg p) claims subject (TrimSpace (map_get savedState "return_to"))).

Definition Authenticate (p : OIDCProvider) (input : OIDCAuthenticateInput) : IO W OIDCAuthenticateResult :=
  do* guard (negb (blank (pc_Issuer (op_cfg p)) || blank (pc_ClientID (op_cfg p)))) (Driver "oidc provider is not configured") in
  let redirectURI := TrimSpace (fi_RedirectURI input) in
  let redirectURI := if String.eqb redirectURI "" then pc_RedirectURI (op_cfg p) else redirectURI in
  do* guard (negb (String.eqb redirectURI "")) (Driver "oidc redirect_uri is required") in
  let* metadata := loadDiscovery p in
  if blank (fi_Code input) then beginAuthentication p metadata redirectURI (fi_ReturnTo input)
  else completeAuthentication p metadata input redirectURI.

(** As the federated method uses it *)
Definition connector (p : OIDCProvider) : OIDCConnector (W := W) := fun input => let* r := Authenticate p input in ret (Some r).
End Provider.
Arguments OIDCProvider W : clear implicits.
Arguments ReplayProtectionRepository W : clear implicits.

(** ** The states in Redis *)

Definition replay_repository {W R : Type} `{HC : RedisClient W R} (key : KeyBuilder.KeyBuilder) : ReplayProtectionRepository W := {|
  rp_SaveState := SaveState key; rp_GetState := GetState key; rp_DeleteState := DeleteState key;
|}.

(** ** What a federated login rests on *)

Section Answers.
Context {W : Type} `{!Runtime W} (p : OIDCProvider W).








End Answers.

(** ** The two halves *)



Section Login.
Context {W R : Type} `{HS : RedisServer R} `{HR : !Remote W R} `{HC : !RedisClient W R} `{!Quiet W R} `{!Runtime W}.
Context (key : KeyBuilder.KeyBuilder) (cfg : OIDCProviderConfig) (client : http_request -> IO W http_response)
  (metadata : IO W (option oidcDiscoveryDocument)) (remember : oidcDiscoveryDocument -> IO W unit).

Definition provider : OIDCProvider W := NewOIDCProviderWithReplayCache cfg client (Some (replay_repository key)) metadata remember.








(** Drawing identifiers and reading the clock leave the cache as it is, and
    a fresh identifier names no state. *)
Hypothesis ids_fresh : forall w, keys (server (uuid_NewString w).2) = keys (server w) /\
  keys (server w) !! KeyBuilder.OAuthState key (uuid_NewString w).1 = None.
Hypothesis clock_quiet : forall w, keys (server (time_Now w).2) = keys (server w).

(** Whatever happens while the discovery document is fetched, nobody else
    writes to a state. *)
Hypothesis discovery_steps : forall state w, rtc (state_step key state) (keys (server w)) (keys (server (loadDiscovery provider w).2)).

End Login.

(** ** At work *)

Module FederatedDemo.
Record world := mkWorld { o_keys : keyspace }.

(** Longer than the name of every key *)
Definition long_name (ks : keyspace) : string := "s" +:+ foldr String.append "" (List.map fst (map_to_list ks)).

#[export] Instance runtime : Runtime world := {|
  time_Now w := (1700000000 * Second + 500000000, w);
  uuid_NewString w := (long_name (o_keys w), w);
  rand_Read n w := (Ok (replicate n 7), w);
|}.
#[export] Program Instance remote : Remote world keyspace := {
  server := o_keys; put_server := fun ks _ => mkWorld ks; transport := fun w => (Delivered, w); max_retries := fun _ => 3%nat;
}.
Next Obligation. done. Qed.
#[export] Program Instance client : RedisClient world keyspace := { set_order := base.elements }.
Next Obligation. done. Qed.
#[export] Instance quiet : Quiet world keyspace.
Proof. intros w. by exists w. Qed.



Definition key : KeyBuilder.KeyBuilder := KeyBuilder.NewKeyBuilder "idp" "test".
Definition cfg : OIDCProviderConfig := mkConfig " https://up.example " "idp" "secret" "https://idp.example/login" [] "" "" "" "" 0.
Definition known : oidcDiscoveryDocument :=
  mkDiscovery "https://up.example" "https://up.example/authorize?prompt=login" "https://up.example/token" "".

(** Upstream, where Ursula logged in with this nonce *)
Definition upstream (nonce : string) (rq : http_request) : IO world http_response :=
  let id_token := "h." +:+ RawURLEncode (bytes_of (render (JObject
    [("iss", JString "https://up.example"); ("aud", JString "idp"); ("sub", JString "u-1"); ("nonce", JString nonce); ("name", JString "Ursula")]))) +:+ ".s" in
  ret (mkHttpResponse 200 "200 OK" (render (JObject [("access_token", JString "at"); ("id_token", JString id_token)]) +:+ " and more")).
Definition up (nonce : string) : OIDCProvider world := provider key cfg (upstream nonce) (ret (Some known)) (fun _ => ret tt).

Definition first : OIDCAuthenticateInput := mkIn "" "/oauth2/authorize?x=1" "" "" "".
Definition second (nonce : string) : OIDCAuthenticateInput := mkIn "https://elsewhere.example" "" " s " "code-1" nonce.
Definition begun : result error OIDCAuthenticateResult * world := Authenticate (up "s") first (mkWorld ∅).

End FederatedDemo.
Import FederatedDemo.

Example login_begun : begun.1 = Ok (mkOut false "" "" "" ""
  "https://up.example/authorize?client_id=idp&nonce=s&prompt=login&redirect_uri=https%3A%2F%2Fidp.example%2Flogin&response_type=code&scope=openid+profile+email&state=s").
Proof. vm_compute. reflexivity. Qed.

(** Once only: the state is gone afterwards. *)
Example login_completed : let '(r, w) := Authenticate (up "s") (second "") begun.2 in
  r = Ok (mkOut true "u-1" "Ursula" "Ursula" "" "/oauth2/authorize?x=1") /\
  (Authenticate (up "s") (second "") w).1 = Err (Driver "oidc state is invalid or expired" : error).
Proof. vm_compute. by split. Qed.

(** Claims with another nonce are refused, unless the callback itself names
    that nonce: its parameter takes the place of the one that was saved. *)
Example nonce_of_the_callback_wins :
  (Authenticate (up "stolen") (second "") begun.2).1 = Err (Driver "unexpected oidc nonce" : error) /\
  exists r, (Authenticate (up "stolen") (second "stolen") begun.2).1 = Ok r.
Proof. vm_compute. split; [done|]. eexists. reflexivity. Qed.

