(* ===== verification/TokenEndpoint.v ===== *)
(** * The token endpoint (handler/token_handler.go, plugins/grant, dto/token.go)

    A request is validated, its client authenticated, and the grant handed to
    the plugin registered for it, which hands it to the token service; errors
    become the answers OAuth gives them.  The introspection endpoint, which
    authenticates its caller the same way, is here too. *)

From stdpp Require Import base tactics list gmap strings.
From Stdlib Require Import ZArith Lia Ascii.
From S2P Require Import Prelude GoStrings GoText GoCrypto GoBase64 GoTime Errors Domain Remote Redis RedisKeys TokenCache TokenCacheTheorems Keys Jwt Ports ClientAuth TokenService TokenTheorems Oidc.

(** ** Grant plugins *)

(** [pluginport.ExchangeInput] and [ExchangeResult] have the fields of the
    token service's own, and are kept in its records. *)
Abbreviation GrantHandlerType := string (only parsing).

Section Grants.
Context {W : Type}.

Definition Exchanger : Type := option (ExchangeInput -> IO W ExchangeResult).

Record GrantHandler := mkGrantHandler {
  gh_Name : string;
  gh_Type : GrantHandlerType;
  gh_Exchange : ExchangeInput -> IO W (option ExchangeResult);
}.

(** The body of every handler: [forward] is the struct literal it builds. *)
Definition grant_Exchange (own : GrantHandlerType) (forward : GrantHandlerType -> ExchangeInput -> ExchangeInput)
    (exchanger : Exchanger) (input : ExchangeInput) : IO W (option ExchangeResult) :=
  let* exchange := some_or exchanger (Driver "grant handler is not configured") in
  let grantType := if String.eqb (in_GrantType input) "" then own else in_GrantType input in
  do* guard (String.eqb grantType own) ErrUnsupportedGrantType in
  let* result := exchange (forward grantType input) in
  ret (Some result).

(** authorization_code, refresh_token and client_credentials forward the same fields. *)
Definition forward_code (g : GrantHandlerType) (i : ExchangeInput) : ExchangeInput :=
  mkExchangeInput g (in_ClientID i) (in_ClientSecret i) (in_ReplayFingerprint i) (in_Code i) (in_RedirectURI i)
    (in_CodeVerifier i) (in_RefreshToken i) "" "" "" (in_Scopes i).
Definition forward_password (g : GrantHandlerType) (i : ExchangeInput) : ExchangeInput :=
  mkExchangeInput g (in_ClientID i) (in_ClientSecret i) (in_ReplayFingerprint i) "" "" "" "" "" (in_Username i) (in_Password i)
    (in_Scopes i).
Definition forward_device (g : GrantHandlerType) (i : ExchangeInput) : ExchangeInput :=
  mkExchangeInput g (in_ClientID i) (in_ClientSecret i) (in_ReplayFingerprint i) "" "" "" "" (in_DeviceCode i) "" "" [].

Definition authorization_code_handler (e : Exchanger) : GrantHandler :=
  mkGrantHandler "authorization_code" GrantTypeAuthorizationCode (grant_Exchange GrantTypeAuthorizationCode forward_code e).
Definition refresh_token_handler (e : Exchanger) : GrantHandler :=
  mkGrantHandler "refresh_token" GrantTypeRefreshToken (grant_Exchange GrantTypeRefreshToken forward_code e).
Definition client_credentials_handler (e : Exchanger) : GrantHandler :=
  mkGrantHandler "client_credentials" GrantTypeClientCredentials (grant_Exchange GrantTypeClientCredentials forward_code e).
Definition password_handler (e : Exchanger) : GrantHandler :=
  mkGrantHandler "password" GrantTypePassword (grant_Exchange GrantTypePassword forward_password e).
Definition device_code_handler (e : Exchanger) : GrantHandler :=
  mkGrantHandler "device_code" GrantTypeDeviceCode (grant_Exchange GrantTypeDeviceCode forward_device e).

(** plugins/registry/grant_registry.go *)
Definition GrantRegistry : Type := gmap string GrantHandler.

Definition Grant_Register (r : GrantRegistry) (h : option GrantHandler) : GrantRegistry :=
  match h with None => r | Some h => <[gh_Type h := h]> r end.
Definition NewGrantRegistry (handlers : list (option GrantHandler)) : GrantRegistry := foldl Grant_Register ∅ handlers.
Definition Grant_Get (r : GrantRegistry) (t : GrantHandlerType) : option GrantHandler := r !! t.
End Grants.
Arguments Exchanger W : clear implicits.
Arguments GrantHandler W : clear implicits.
Arguments GrantRegistry W : clear implicits.

(** ** The request *)

Record TokenRequest := mkTokenRequest {
  tr_GrantType : string;
  tr_Code : string;
  tr_RedirectURI : string;
  tr_RefreshToken : string;
  tr_DeviceCode : string;
  tr_ClientID : string;
  tr_ClientSecret : string;
  tr_CodeVerifier : string;
  tr_Username : string;
  tr_Password : string;
  tr_Scope : string;
}.

(** [None] when the request is complete, else what is missing. *)
Definition required (missing : bool) (message : string) (rest : option string) : option string :=
  if missing then Some message else rest.

Definition Validate (r : TokenRequest) : option string :=
  let g := tr_GrantType r in
  if String.eqb g GrantTypeAuthorizationCode then
    required (blank (tr_Code r)) "code is required for authorization_code" (
    required (blank (tr_RedirectURI r)) "redirect_uri is required for authorization_code" None)
  else if String.eqb g GrantTypeRefreshToken then
    required (blank (tr_RefreshToken r)) "refresh_token is required for refresh_token" None
  else if String.eqb g GrantTypeClientCredentials then None
  else if String.eqb g GrantTypePassword then
    required (blank (tr_Username r)) "username is required for password" (
    required (String.eqb (tr_Password r) "") "password is required for password" None)
  else if String.eqb g GrantTypeDeviceCode then
    required (blank (tr_DeviceCode r)) "device_code is required for device_code" None
  else Some ("unsupported grant_type: " +:+ g).

Definition ScopeList (r : TokenRequest) : list string := if blank (tr_Scope r) then [] else Fields (tr_Scope r).

(** ** Answers *)

Record oauth_error := mkOAuthError { Code : string; Description : string }.

Inductive answer (A : Type) :=
| Failed (status : Z) (e : oauth_error)
| Answered (a : A).
Arguments Failed {A}.
Arguments Answered {A}.

(** The texts of application/token/types.go *)
Definition token_text (e : token_error) : string :=
  match e with
  | ErrUnsupportedGrantType => "unsupported grant type"
  | ErrInvalidClient => "invalid client"
  | ErrInvalidScope => "invalid scope"
  | ErrInvalidCode => "invalid authorization code"
  | ErrInvalidRedirectURI => "invalid redirect uri"
  | ErrInvalidCodeVerifier => "invalid code verifier"
  | ErrInvalidRefreshToken => "invalid refresh token"
  | ErrInvalidUserCredentials => "invalid user credentials"
  | ErrInvalidDeviceCode => "invalid device code"
  | ErrAuthorizationPending => "authorization pending"
  | ErrSlowDown => "slow down"
  | ErrAccessDenied => "access denied"
  end.

(** The switch on the error of client authentication. *)
Definition client_auth_failed {A} (e : error) : answer A :=
  match e with
  | Token ErrInvalidClient => Failed 401 (mkOAuthError "invalid_client" (token_text ErrInvalidClient))
  | _ => Failed 500 (mkOAuthError "server_error" "client authentication failed")
  end.

(** The switch on the error of the exchange. *)
Definition exchange_failed {A} (e : error) : answer A :=
  match e with
  | Token t =>
      match t with
      | ErrInvalidClient => Failed 401 (mkOAuthError "invalid_client" (token_text t))
      | ErrInvalidScope => Failed 400 (mkOAuthError "invalid_scope" (token_text t))
      | ErrUnsupportedGrantType => Failed 400 (mkOAuthError "unsupported_grant_type" (token_text t))
      | ErrAuthorizationPending => Failed 400 (mkOAuthError "authorization_pending" (token_text t))
      | ErrSlowDown => Failed 400 (mkOAuthError "slow_down" (token_text t))
      | ErrAccessDenied => Failed 400 (mkOAuthError "access_denied" (token_text t))
      | _ => Failed 400 (mkOAuthError "invalid_grant" (token_text t))
      end
  | _ => Failed 500 (mkOAuthError "server_error" "token issuance failed")
  end.

Definition buildRefreshReplayFingerprint (clientID authMethod clientIP userAgent : string) : string :=
  sha256_hex (clientID +:+ "|" +:+ authMethod +:+ "|" +:+ clientIP +:+ "|" +:+ userAgent).

(** ** The handlers *)

(** What the framework makes of the HTTP request: the bound form, when it
    binds, and what the handlers read besides. *)
Record http_request (A : Type) := mkRequest {
  rq_bound : option A;
  rq_Authorization : string;
  rq_ClientIP : string;
  rq_UserAgent : string;
}.
Arguments mkRequest {A}.
Arguments rq_bound {A}.
Arguments rq_Authorization {A}.
Arguments rq_ClientIP {A}.
Arguments rq_UserAgent {A}.

Section Handlers.
Context {W : Type}.

Record TokenHandler := NewTokenHandler {
  th_clientAuthenticator : option (AuthenticateInput -> IO W ClientAuthenticateResult);
  th_grantRegistry : option (GrantRegistry W);
}.

Definition invalid_request {A} (what : string) : answer A := Failed 400 (mkOAuthError "invalid_request" what).

Definition exchange_input (rq : http_request TokenRequest) (req : TokenRequest) (clientAuth : ClientAuthenticateResult) : ExchangeInput :=
  mkExchangeInput (tr_GrantType req) (cr_ClientID clientAuth) (cr_ClientSecret clientAuth)
    (buildRefreshReplayFingerprint (cr_ClientID clientAuth) (cr_Method clientAuth) (rq_ClientIP rq) (rq_UserAgent rq))
    (tr_Code req) (tr_RedirectURI req) (tr_CodeVerifier req) (tr_RefreshToken req) (tr_DeviceCode req) (tr_Username req)
    (tr_Password req) (ScopeList req).

Definition Token_Handle (h : TokenHandler) (rq : http_request TokenRequest) : IO W (answer ExchangeResult) :=
  match rq_bound rq with
  | None => ret (invalid_request "invalid token request")
  | Some req =>
      match Validate req with
      | Some message => ret (invalid_request message)
      | None =>
          match th_clientAuthenticator h, th_grantRegistry h with
          | Some authenticate, Some grants =>
              let* clientAuth := attempt (authenticate (mkAuthenticateInput (rq_Authorization rq) (tr_ClientID req) (tr_ClientSecret req))) in
              match clientAuth with
              | Err e => ret (client_auth_failed e)
              | Ok clientAuth =>
                  match Grant_Get grants (tr_GrantType req) with
                  | None => ret (Failed 400 (mkOAuthError "unsupported_grant_type" "unsupported grant_type"))
                  | Some grantHandler =>
                      let* result := attempt (gh_Exchange grantHandler (exchange_input rq req clientAuth)) in
                      match result with
                      | Err e => ret (exchange_failed e)
                      | Ok None => throw (Driver "nil pointer")
                      | Ok (Some result) => ret (Answered result)
                      end
                  end
              end
          | _, _ => ret (Failed 500 (mkOAuthError "server_error" "token handler is not configured"))
          end
      end
  end.

(** *** handler/introspection_handler.go, dto/introspect.go *)

Record IntrospectRequest := mkIntrospectRequest { ir_Token : string; ir_ClientID : string; ir_ClientSecret : string }.

Record IntrospectionHandler := NewIntrospectionHandler {
  ih_clientAuthenticator : option (AuthenticateInput -> IO W ClientAuthenticateResult);
  ih_service : option (string -> IO W IntrospectionOutput);
}.

(** [err.Error()] of an authentication that failed. *)
Definition auth_text (e : error) : string := match e with Token t => token_text t | Infra (Driver what) => what | _ => "error" end.

Definition Introspection_Handle (h : IntrospectionHandler) (rq : http_request IntrospectRequest) : IO W (answer IntrospectionOutput) :=
  match rq_bound rq with
  | None => ret (invalid_request "invalid introspection request")
  | Some req =>
      if blank (ir_Token req) then ret (invalid_request "token is required") else
      match ih_clientAuthenticator h, ih_service h with
      | Some authenticate, Some introspect =>
          let* authResult := attempt (authenticate (mkAuthenticateInput (rq_Authorization rq) (ir_ClientID req) (ir_ClientSecret req))) in
          match authResult with
          | Err e => ret (Failed 401 (mkOAuthError "invalid_client" (auth_text e)))
          | Ok authResult =>
              if String.eqb (cr_Method authResult) ClientAuthMethodNone
              then ret (Failed 401 (mkOAuthError "invalid_client" "client authentication is required")) else
              let* result := attempt (introspect (ir_Token req)) in
              match result with
              | Err e => ret (Failed 500 (mkOAuthError "server_error" "token introspection failed"))
              | Ok result => ret (Answered result)
              end
          end
      | _, _ => ret (Failed 500 (mkOAuthError "server_error" "introspection handler is not configured"))
      end
  end.
End Handlers.
Arguments TokenHandler W : clear implicits.
Arguments IntrospectionHandler W : clear implicits.

(** ** The endpoint as the server wires it (bootstrap/providers.go) *)

Section Server.
Context {W : Type} `{!Runtime W}.
Context (auth : ClientAuth.Service W) (passwords : option (PasswordVerifier W)) (s : TokenService.Service W).
Hypothesis methods : ClientAuth.registry auth = Some (server_registry passwords).

Definition provideGrantRegistry (s : TokenService.Service W) : GrantRegistry W :=
  NewGrantRegistry
    [Some (authorization_code_handler (Some (Exchange s))); Some (refresh_token_handler (Some (Exchange s)));
     Some (client_credentials_handler (Some (Exchange s))); Some (password_handler (Some (Exchange s)));
     Some (device_code_handler (Some (Exchange s)))].

Definition token_endpoint : TokenHandler W := NewTokenHandler (Some (ClientAuth.Authenticate auth)) (Some (provideGrantRegistry s)).

(** What reaches the token service for a grant type. *)
Definition forwarded (g : string) (i : ExchangeInput) : ExchangeInput :=
  if String.eqb g GrantTypePassword then forward_password g i
  else if String.eqb g GrantTypeDeviceCode then forward_device g i else forward_code g i.

Definition served (g : string) : Prop :=
  g ∈ [GrantTypeAuthorizationCode; GrantTypeRefreshToken; GrantTypeClientCredentials; GrantTypePassword; GrantTypeDeviceCode].

Lemma Validate_served req : Validate req = None -> served (tr_GrantType req).
Proof.
  unfold Validate, served. cbv zeta. rewrite list_elem_of_In. cbn [In].
  destruct (String.eqb_spec (tr_GrantType req) GrantTypeAuthorizationCode); [auto|].
  destruct (String.eqb_spec (tr_GrantType req) GrantTypeRefreshToken); [auto|].
  destruct (String.eqb_spec (tr_GrantType req) GrantTypeClientCredentials); [auto|].
  destruct (String.eqb_spec (tr_GrantType req) GrantTypePassword); [auto|].
  destruct (String.eqb_spec (tr_GrantType req) GrantTypeDeviceCode); [auto 6 | discriminate].
Qed.

(** Every grant type that passes validation has its plugin. *)
Lemma grant_served g i w : served g -> in_GrantType i = g -> exists h, Grant_Get (provideGrantRegistry s) g = Some h /\
  gh_Exchange h i w = match Exchange s (forwarded g i) w with (Ok r, w') => (Ok (Some r), w') | (Err e, w') => (Err e, w') end.
Proof.
  unfold served. rewrite !elem_of_cons. intros Hg Hi.
  assert (Hrun : forall own fw, own <> "" -> in_GrantType i = own ->
    grant_Exchange own fw (Some (Exchange s)) i w =
    match Exchange s (fw own i) w with (Ok r, w') => (Ok (Some r), w') | (Err e, w') => (Err e, w') end).
  { intros own fw Hne Hown. unfold grant_Exchange. rewrite (bind_run _ _ _ (Exchange s) w) by done. cbv zeta.
    rewrite Hown, (proj2 (String.eqb_neq _ _) Hne), String.eqb_refl, (bind_run _ _ _ tt w) by done.
    unfold bind. by destruct (Exchange s (fw own i) w) as [[r|e] w']. }
  destruct Hg as [-> | [-> | [-> | [-> | [-> | []%elem_of_nil]]]]]; eexists; (split; [reflexivity|]).
  - exact (Hrun GrantTypeAuthorizationCode forward_code ltac:(done) Hi).
  - exact (Hrun GrantTypeRefreshToken forward_code ltac:(done) Hi).
  - exact (Hrun GrantTypeClientCredentials forward_code ltac:(done) Hi).
  - exact (Hrun GrantTypePassword forward_password ltac:(done) Hi).
  - exact (Hrun GrantTypeDeviceCode forward_device ltac:(done) Hi).
Qed.

Lemma forwarded_client g i : in_ClientID (forwarded g i) = in_ClientID i /\ in_ClientSecret (forwarded g i) = in_ClientSecret i /\
  in_GrantType (forwarded g i) = g.
Proof. unfold forwarded. destruct (String.eqb g GrantTypePassword); [done|]. by destruct (String.eqb g GrantTypeDeviceCode). Qed.

(** C34. Tokens come only out of the token service, for the client that was
    authenticated: whenever the token endpoint answers with tokens, the
    request was complete, its client is known and active and was authenticated
    by the method it is registered with, with the credentials of that method,
    and the tokens are what the token service returned for the grant of the
    request, asked in the name and with the secret of this very client. *)
Theorem token_endpoint_sound rq r w w' :
  Token_Handle token_endpoint rq w = (Ok (Answered r), w') ->
  exists req repo c cr w1, rq_bound rq = Some req /\ Validate req = None /\
    ClientAuth.clients auth = Some repo /\
    FindByClientID repo (extractClientID (rq_Authorization rq) (tr_ClientID req)) w = (Ok (Some c), w1) /\
    client.Status c = "active" /\
    cr_Method cr = normalizeClientAuthMethod (client.TokenEndpointAuthMethod c) (client.AuthMethods c) /\
    credentials passwords c (mkAuthenticateInput (rq_Authorization rq) (tr_ClientID req) (tr_ClientSecret req))
      (cr_Method cr) (cr_ClientSecret cr) /\
    let i := forwarded (tr_GrantType req) (exchange_input rq req cr) in
    Exchange s i w1 = (Ok r, w') /\ in_GrantType i = tr_GrantType req /\ in_ClientID i = client.ClientID c /\
    in_ClientSecret i = cr_ClientSecret cr.
Proof.
  unfold Token_Handle, token_endpoint. cbn [th_clientAuthenticator th_grantRegistry]. intros Hx.
  destruct (rq_bound rq) as [req|]; [|by apply ret_Ok in Hx as [? _]].
  destruct (Validate req) eqn:Hval; [by apply ret_Ok in Hx as [? _]|].
  run Hx as ca w1 Ha. apply attempt_inv in Ha. destruct ca as [cr|e]; [|apply ret_Ok in Hx as [Hx _]; by destruct e as [[]| | | | | | | | | | | | |]].
  destruct (authentication_not_downgraded auth passwords _ _ _ _ methods Ha) as (repo & c & Hrepo & Hf & Hst & Hid & Hm & Hcred).
  destruct (grant_served (tr_GrantType req) (exchange_input rq req cr) w1 (Validate_served _ Hval) eq_refl) as (h & Hget & Hrun).
  rewrite Hget in Hx. run Hx as res w2 He. apply attempt_inv in He. rewrite Hrun in He.
  destruct (Exchange s (forwarded (tr_GrantType req) (exchange_input rq req cr)) w1) as [[r'|e] w3] eqn:Hex; injection He as <- <-.
  2: { apply ret_Ok in Hx as [Hx _]. by destruct e as [[]| | | | | | | | | | | | |]. }
  apply ret_Ok in Hx as [Hr <-]. injection Hr as ->.
  destruct (forwarded_client (tr_GrantType req) (exchange_input rq req cr)) as (F1 & F2 & F3).
  exists req, repo, c, cr, w1. do 7 (split; [done|]). cbv zeta. rewrite F1, F2, F3. by rewrite <- Hid.
Qed.






(** Introspection answers only to a client that proved who it is. *)
Theorem introspection_endpoint_sound (oidc : Oidc.Service W) rq r w w' :
  Introspection_Handle (NewIntrospectionHandler (Some (ClientAuth.Authenticate auth)) (Some (Introspect oidc))) rq w = (Ok (Answered r), w') ->
  exists req repo c cr p w1, rq_bound rq = Some req /\ ClientAuth.clients auth = Some repo /\
    FindByClientID repo (extractClientID (rq_Authorization rq) (ir_ClientID req)) w = (Ok (Some c), w1) /\
    client.Status c = "active" /\ passwords = Some p /\ VerifyPassword p (cr_ClientSecret cr) (client.ClientSecretHash c) = true /\
    Introspect oidc (ir_Token req) w1 = (Ok r, w').
Proof.
  unfold Introspection_Handle. cbn [ih_clientAuthenticator ih_service]. intros Hx.
  destruct (rq_bound rq) as [req|]; [|by apply ret_Ok in Hx as [? _]].
  destruct (blank (ir_Token req)); [by apply ret_Ok in Hx as [? _]|].
  run Hx as ca w1 Ha. apply attempt_inv in Ha. destruct ca as [cr|e]; [|by apply ret_Ok in Hx as [? _]].
  destruct (authentication_not_downgraded auth passwords _ _ _ _ methods Ha) as (repo & c & Hrepo & Hf & Hst & Hid & Hm & Hcred).
  destruct (String.eqb_spec (cr_Method cr) ClientAuthMethodNone) as [|Hnone]; [by apply ret_Ok in Hx as [? _]|].
  run Hx as res w2 Hi. apply attempt_inv in Hi. destruct res as [r'|e]; [|by apply ret_Ok in Hx as [? _]].
  apply ret_Ok in Hx as [Hr <-]. injection Hr as ->.
  assert (Hp : exists p, passwords = Some p /\ VerifyPassword p (cr_ClientSecret cr) (client.ClientSecretHash c) = true).
  { clear -Hcred Hnone. inversion Hcred; subst; [by exists p | by exists p | congruence]. }
  destruct Hp as (p & Hp & Hv). by exists req, repo, c, cr, p, w1.
Qed.
End Server.

(** ** At work: a code redeemed over HTTP *)

Import Demo.

Module EndpointDemo.
Definition auth : ClientAuth.Service Z :=
  ClientAuth.NewService (Some Demo.clients) (Some (server_registry (Some Demo.passwords))).
Definition service : TokenService.Service Z := Demo.service "pending".
Definition form (g verifier : string) : TokenRequest :=
  mkTokenRequest g "code-1" Demo.callback "" "dev-1" "" "" verifier "" "" "".
Definition request (g verifier : string) : http_request TokenRequest :=
  mkRequest (Some (form g verifier)) ("Basic " +:+ EncodeToString "web:secret") "192.0.2.1" "app/1".

Example bad_grant : (Token_Handle (token_endpoint auth service) (request "implicit" "") 500).1 =
  Ok (Failed 400 (mkOAuthError "invalid_request" "unsupported grant_type: implicit")).
Proof. vm_compute. reflexivity. Qed.
End EndpointDemo.
Import EndpointDemo.

Lemma token_endpoint_sound_witness : exists r w',
  Token_Handle (token_endpoint EndpointDemo.auth EndpointDemo.service) (request GrantTypeAuthorizationCode Demo.verifier) 500 =
    (Ok (Answered r), w') /\
  exists i w1, Exchange EndpointDemo.service i w1 = (Ok r, w') /\ in_ClientID i = "web".
Proof.
  destruct (Token_Handle (token_endpoint EndpointDemo.auth EndpointDemo.service) (request GrantTypeAuthorizationCode Demo.verifier) 500)
    as [[[status e|r]|e] w'] eqn:E; [vm_compute in E; discriminate E | | vm_compute in E; discriminate E].
  exists r, w'. split; [reflexivity|].
  destruct (token_endpoint_sound EndpointDemo.auth (Some Demo.passwords) EndpointDemo.service eq_refl _ r 500 w' E)
    as (req & repo & c & cr & w1 & Hb & _ & Hrepo & Hf & _ & _ & _ & Hx & _ & Hid & _).
  injection Hrepo as <-. injection Hb as <-. injection Hf as <- _.
  eexists _, w1. split; [exact Hx | exact Hid].
Defined.

