(* ===== verification/ApiHandlers.v ===== *)
(** * The JSON interface (interfaces/http/handler: rbac, admin_user_logout, admin_user_lookup, short_url,
      client, client_redirect_uri, client_post_logout_redirect_uri, register, device_authorize, userinfo, oidc_metadata)

    Handlers that answer scripts rather than browsers: what they bind, whom
    they call, and with which status they report each error. *)

From stdpp Require Import base tactics list strings numbers.
From Stdlib Require Import ZArith Lia.
From S2P Require Import Prelude GoStrings GoText GoUrl GoNetUrl GoJson GoJsonObject GoJsonWrite GoTime Errors Domain Ports Rbac Browser BrowserLogout BrowserLogin HttpRedirects.
From S2P Require Import BrowserConsent BrowserSecondFactor BrowserSetup BrowserTheorems AdminGate AdminActions.
From S2P Require ClientRepo ClientSystem Keys ClientService RegisterService ShortURL ClientAuth DeviceService Oidc TokenEndpoint.

Definition StatusCreated : Z := 201.
Definition StatusGone : Z := 410.

(** [ShouldBind] failed, or the token is wrong: the handler goes no further. *)
Definition bound {W A} (form : option A) (bad : string) (k : A -> IO W response) : IO W response :=
  match form with None => ret (json_error [] StatusBadRequest bad) | Some req => k req end.
Definition with_token {W} (rq : request) (token : string) (k : IO W response) : IO W response :=
  if negb (validateCSRFToken rq token) then ret (writeCSRFError rq) else k.

(** The operation; [failed] answers its error. *)
Definition operate {W A} (operation : IO W A) (failed : error -> response) (done : A -> IO W response) : IO W response :=
  let* result := attempt operation in
  match result with Err e => ret (failed e) | Ok a => done a end.

Definition internal (text : string) (_ : error) : response := json_error [] StatusInternalServerError text.
Definition with_status (status : error -> Z) (e : error) : response := json_error [] (status e) (error_text e).
Definition answer {W} (status : Z) (content : fields) : IO W response := ret (mkResponse status [] (JSON content)).

(** ** Roles (rbac_handler.go) *)

(** apprbac.RoleView has no JSON names. *)
Definition role_json (r : RoleView) : json :=
  JObject [("RoleCode", JString (rv_RoleCode r)); ("DisplayName", JString (rv_DisplayName r)); ("Description", JString (rv_Description r));
           ("PrivilegeMask", number (rv_PrivilegeMask r)); ("IsSystem", JBool (rv_IsSystem r))].
Definition role_user_json (u : RoleUserView) : json :=
  JObject [("user_id", number (ruv_UserID u)); ("user_uuid", JString (ruv_UserUUID u)); ("username", JString (ruv_Username u));
           ("email", JString (ruv_Email u)); ("display_name", JString (ruv_DisplayName u)); ("status", JString (ruv_Status u));
           ("role_code", JString (ruv_RoleCode u)); ("privilege_mask", number (ruv_PrivilegeMask u)); ("tenant_scope", JString (ruv_TenantScope u))].
Definition role_usage_json (r : RoleUsageView) : json :=
  JObject [("role_code", JString (rus_RoleCode r)); ("display_name", JString (rus_DisplayName r)); ("is_system", JBool (rus_IsSystem r));
           ("privilege_mask", number (rus_PrivilegeMask r)); ("user_count", number (rus_UserCount r))].

Definition rbac_status (e : error) : Z :=
  match e with
  | Rbac ErrRoleAlreadyExists | Rbac ErrRoleInUse => StatusConflict
  | Rbac ErrUserNotFound | Rbac ErrRoleNotFound => StatusNotFound
  | Rbac ErrSystemRoleImmutable => StatusForbidden
  | Rbac ErrInvalidRoleCode | Rbac ErrInvalidPrivilege | Rbac ErrInvalidTenantScope | Rbac ErrInvalidDisplayName | Rbac ErrInvalidDescription =>
      StatusBadRequest
  | _ => StatusInternalServerError
  end.
Definition writeRBACError : error -> response := with_status rbac_status.

Definition assign_status (e : error) : Z :=
  match e with
  | Rbac ErrUserNotFound | Rbac ErrRoleNotFound => StatusNotFound
  | Rbac ErrInvalidRoleCode | Rbac ErrInvalidPrivilege | Rbac ErrInvalidTenantScope => StatusBadRequest
  | _ => StatusInternalServerError
  end.

(** [rm_PrivilegeMask] is required by its binding tag, and so not 0. *)
Record RoleMutationRequest := mkRoleMutation {
  rm_RoleCode : string; rm_DisplayName : string; rm_Description : string; rm_PrivilegeMask : Z; rm_CSRFToken : string;
}.
Record AssignRoleRequest := mkAssignRole { as_RoleCode : string; as_PrivilegeMask : option Z; as_TenantScope : string; as_CSRFToken : string }.

Section RBAC.
Context {W : Type} `{!Runtime W}.
Context (service : RBACManager W) (audit : option (AuditCreate W)).
Context (rq : request) (param : string -> string) (actor : option admin).

Definition rbac_Bootstrap (form : option LogoutRequest) : IO W response :=
  bound form "invalid bootstrap request" (fun req => with_token rq (lr_CSRFToken req)
    (operate (rm_BootstrapBuiltinRoles service) (internal "bootstrap roles failed") (fun roles =>
      do* recordAdminAuditEvent audit rq actor "rbac.bootstrap" "rbac:bootstrap" [("role_count", number (Z.of_nat (length roles)))] in
      answer StatusOK [("roles", Val (JArray (List.map role_json roles)))]))).

Definition rbac_ListRoles : IO W response :=
  operate (rm_ListRoles service) (internal "list roles failed") (fun roles => answer StatusOK [("roles", Val (JArray (List.map role_json roles)))]).

Definition list_limit (raw : string) : Z := default 100 (ParseInt (TrimSpace raw)).

Definition rbac_ListUsersByRole : IO W response :=
  let limit := list_limit (query_value rq "limit") in
  operate (rm_ListUsersByRole service (param "role_code") limit) writeRBACError (fun r =>
    answer StatusOK [("role_code", Str r.1); ("users", Val (JArray (List.map role_user_json r.2))); ("limit", Int limit)]).

Definition rbac_RoleUsage : IO W response :=
  operate (rm_RoleUsage service) (internal "role usage failed") (fun roles => answer StatusOK [("roles", Val (JArray (List.map role_usage_json roles)))]).

(** CreateRole and UpdateRole differ in the operation, the code and the
    texts. *)
Definition mutate_role (form : option RoleMutationRequest) (bad event : string) (status : Z)
    (operation : UpsertRoleInput -> IO W RoleView) (code : RoleMutationRequest -> string) : IO W response :=
  bound form bad (fun req => with_token rq (rm_CSRFToken req)
    (operate (operation (mkUpsertRoleInput (code req) (rm_DisplayName req) (rm_Description req) (rm_PrivilegeMask req))) writeRBACError (fun role =>
      do* recordAdminAuditEvent audit rq actor event ("role:" +:+ rv_RoleCode role) (("description", JString (rv_Description role)) :: role_metadata role) in
      answer status [("role", Val (role_json role))]))).

Definition rbac_CreateRole (form : option RoleMutationRequest) : IO W response :=
  mutate_role form "invalid create role request" "rbac.role.created" StatusCreated (rm_CreateRole service) rm_RoleCode.
Definition rbac_UpdateRole (form : option RoleMutationRequest) : IO W response :=
  mutate_role form "invalid update role request" "rbac.role.updated" StatusOK (rm_UpdateRole service) (fun _ => param "role_code").

Definition rbac_DeleteRole (form : option LogoutRequest) : IO W response :=
  bound form "invalid delete role request" (fun req => with_token rq (lr_CSRFToken req)
    (operate (rm_DeleteRole service (param "role_code")) writeRBACError (fun _ =>
      let roleCode := TrimSpace (param "role_code") in
      do* recordAdminAuditEvent audit rq actor "rbac.role.deleted" ("role:" +:+ roleCode) [("role_code", JString roleCode)] in
      answer StatusOK [("deleted", Bool true); ("role_code", Str roleCode)]))).

(** The id in the path *)
Definition with_user_id (k : Z -> IO W response) : IO W response :=
  match ParseInt (TrimSpace (param "user_id")) with
  | Some userID => if userID <=? 0 then ret (json_error [] StatusBadRequest "invalid user id") else k userID
  | None => ret (json_error [] StatusBadRequest "invalid user id")
  end.

Definition rbac_AssignRole (form : option AssignRoleRequest) : IO W response :=
  bound form "invalid assign role request" (fun req => with_token rq (as_CSRFToken req)
    (with_user_id (fun userID =>
      operate (rm_AssignRole service (Rbac.mkAssignRoleInput userID (as_RoleCode req) (as_PrivilegeMask req) (as_TenantScope req))) (with_status assign_status) (fun r =>
        do* recordAdminAuditEvent audit rq actor "rbac.role.assigned" ("user:" +:+ FormatInt (arr_UserID r))
              (assigned_metadata (bool_decide (is_Some (as_PrivilegeMask req))) r) in
        answer StatusOK [("user_id", Int (arr_UserID r)); ("username", Str (arr_Username r)); ("role_code", Str (arr_RoleCode r));
                         ("privilege_mask", Int (arr_PrivilegeMask r)); ("tenant_scope", Str (arr_TenantScope r))])))).

(** ** Users (admin_user_logout_handler.go, admin_user_lookup_handler.go) *)

Definition handleAdminUserLogout (sessions : Manager W) (form : option LogoutRequest) : IO W response :=
  bound form "invalid logout request" (fun req => with_token rq (lr_CSRFToken req)
    (with_user_id (fun userID =>
      operate (m_AdminLogoutUser sessions userID) (internal "logout user failed") (fun r =>
        do* recordAdminAuditEvent audit rq actor "auth.user.logout_all.admin" ("user:" +:+ SessionService.la_UserID r) (logout_metadata r) in
        answer StatusOK [("logged_out_user", Bool true); ("user_id", Str (SessionService.la_UserID r));
          ("revoked_session_count", Int (SessionService.la_RevokedSessionCount r)); ("revoked_access_tokens", Int (SessionService.la_RevokedAccessTokens r));
          ("revoked_refresh_tokens", Int (SessionService.la_RevokedRefreshTokens r))])))).

Definition LookupByUsername (users : option (UserRepository W)) : IO W response :=
  let username := TrimSpace (query_value rq "username") in
  if String.eqb username "" then ret (json_error [] StatusBadRequest "username is required") else
  match users with
  | None => ret (json_error [] StatusServiceUnavailable "user lookup service unavailable")
  | Some users =>
      operate (FindByUsername users username) (internal "failed to lookup user") (fun found =>
        match found with
        | None => answer StatusNotFound [("error", Str "user not found"); ("username", Str username)]
        | Some u =>
            answer StatusOK [("user_id", Int (user.ID u)); ("user_uuid", Str (user.UserUUID u)); ("username", Str (user.Username u));
              ("email", Str (user.Email u)); ("display_name", Str (user.DisplayName u)); ("status", Str (user.Status u));
              ("role_code", Str (user.RoleCode u)); ("privilege_mask", Int (user.PrivilegeMask u)); ("tenant_scope", Str (user.TenantScope u))]
        end)
  end.
End RBAC.

(** ** Short links (short_url_handler.go) *)

Section ShortLinks.
Context {W : Type} `{!Runtime W}.

(** appshorturl.Manager *)
Record ShortURLManager := mkShortURLManager {
  su_Create : ShortURL.CreateInput -> IO W ShortURL.CreateResult;
  su_Resolve : string -> IO W ShortURL.ResolveResult;
}.

Definition short_url_status (e : error) : Z :=
  match e with
  | Errors.ShortURL ShortURLErrCodeAlreadyExists => StatusConflict
  | Errors.ShortURL ShortURLErrInvalidCode | Errors.ShortURL ShortURLErrInvalidTargetURL | Errors.ShortURL ShortURLErrInvalidExpiry => StatusBadRequest
  | _ => StatusInternalServerError
  end.

(** [c.Request.Host], and whether the request came over TLS *)
Definition buildShortURL (rq : request) (host : string) (tls : bool) (code : string) : string :=
  let scheme := TrimSpace (rq_header rq "X-Forwarded-Proto") in
  let scheme := if String.eqb scheme "" then if tls then "https" else "http" else scheme in
  let forwarded := TrimSpace (rq_header rq "X-Forwarded-Host") in
  let host := if String.eqb forwarded "" then host else forwarded in
  scheme +:+ "://" +:+ host +:+ "/s/" +:+ PathEscape code.

Definition short_url_Create (service : ShortURLManager) (rq : request) (host : string) (tls : bool) (form : option ShortURL.CreateInput) : IO W response :=
  bound form "invalid short url request" (fun req =>
    operate (su_Create service req) (with_status short_url_status) (fun r =>
      answer StatusCreated [("code", Str (ShortURL.cr_Code r)); ("short_url", Str (buildShortURL rq host tls (ShortURL.cr_Code r)));
        ("target_url", Str (ShortURL.cr_TargetURL r));
        ("expires_at", match ShortURL.cr_ExpiresAt r with Some t => Time t | None => Val JNull end); ("created_at", Time (ShortURL.cr_CreatedAt r))])).

Definition short_url_failed (e : error) : response :=
  match e with
  | Errors.ShortURL ShortURLErrInvalidCode | Errors.ShortURL ShortURLErrLinkNotFound => json_error [] StatusNotFound "short url not found"
  | Errors.ShortURL ShortURLErrLinkExpired => json_error [] StatusGone "short url expired"
  | _ => json_error [] StatusInternalServerError "short url redirect failed"
  end.

Definition short_url_Redirect (service : ShortURLManager) (code : string) : IO W response :=
  operate (su_Resolve service code) short_url_failed (fun r => ret (redirect [] (ShortURL.rr_TargetURL r))).
End ShortLinks.

(** ** Clients (client_handler.go, client_redirect_uri_handler.go, client_post_logout_redirect_uri_handler.go) *)

Definition client_status (e : error) : Z :=
  match e with
  | Client ClientErrClientIDAlreadyExists => StatusConflict
  | Client ClientErrInvalidClientID | Client ClientErrInvalidClientName | Client ClientErrInvalidClientType | Client ClientErrInvalidClientSecret
  | Client ClientErrInvalidAuthMethod | Client ClientErrInvalidGrantType | Client ClientErrInvalidScope | Client ClientErrRedirectURIRequired
  | Client ClientErrInvalidRedirectURI | Client ClientErrInvalidClientConfig => StatusBadRequest
  | _ => StatusInternalServerError
  end.

Definition register_uris_status (e : error) : Z :=
  match e with
  | Client ClientErrClientNotFound => StatusNotFound
  | Client ClientErrInvalidClientID | Client ClientErrRedirectURIRequired | Client ClientErrInvalidRedirectURI => StatusBadRequest
  | _ => StatusInternalServerError
  end.

Record RegisterClientRedirectURIRequest := mkRegisterURIs { ru_RedirectURI : string; ru_RedirectURIs : list string }.

Section Clients.
Context {W : Type} `{!Runtime W}.
Import ClientService.

(** dto.CreateClientRequest has the fields of CreateClientInput. *)
Definition handleCreateClient (create : CreateClientInput -> IO W CreateClientResult) (form : option CreateClientInput) : IO W response :=
  bound form "invalid client request" (fun req =>
    operate (create req) (with_status client_status) (fun r =>
      answer StatusCreated
        [("client_id", Str (out_ClientID r)); ("client_name", Str (out_ClientName r)); ("client_type", Str (out_ClientType r));
         ("token_endpoint_auth_method", Str (out_TokenEndpointAuthMethod r)); ("require_pkce", Bool (out_RequirePKCE r));
         ("require_consent", Bool (out_RequireConsent r)); ("access_token_ttl_seconds", Int (out_AccessTokenTTLSeconds r));
         ("refresh_token_ttl_seconds", Int (out_RefreshTokenTTLSeconds r)); ("id_token_ttl_seconds", Int (out_IDTokenTTLSeconds r));
         ("grant_types", Val (strings_json (out_GrantTypes r))); ("auth_methods", Val (strings_json (out_AuthMethods r)));
         ("scopes", Val (strings_json (out_Scopes r))); ("redirect_uris", Val (strings_json (out_RedirectURIs r)));
         ("post_logout_redirect_uris", Val (strings_json (out_PostLogoutRedirectURIs r))); ("status", Str (out_Status r))])).

(** The two handlers differ in the operation and the name of the list. *)
Definition handleRegisterURIs (register : string -> list string -> IO W RegisterURIsResult) (clientID bad name : string)
    (form : option RegisterClientRedirectURIRequest) : IO W response :=
  bound form bad (fun req =>
    let redirectURIs := ru_RedirectURIs req ++ (if String.eqb (ru_RedirectURI req) "" then [] else [ru_RedirectURI req]) in
    operate (register clientID redirectURIs) (with_status register_uris_status) (fun r =>
      answer StatusCreated [("client_id", Str (reg_ClientID r)); ("client_name", Str (reg_ClientName r)); (name, Strs (reg_RedirectURIs r));
        ("registered_count", Int (reg_RegisteredCount r)); ("skipped_count", Int (reg_SkippedCount r))])).

Definition handleClientRedirectURIs register clientID : option RegisterClientRedirectURIRequest -> IO W response :=
  handleRegisterURIs register clientID "invalid redirect uri request" "redirect_uris".
Definition handleClientPostLogoutRedirectURIs register clientID : option RegisterClientRedirectURIRequest -> IO W response :=
  handleRegisterURIs register clientID "invalid post logout redirect uri request" "post_logout_redirect_uris".
End Clients.

(** ** Registration (register_handler.go) *)

Record RegisterRequest := mkRegisterRequest {
  re_Username : string; re_Email : string; re_DisplayName : string; re_Password : string; re_CSRFToken : string; re_EmailVerified : bool;
}.

Definition register_status (e : error) : Z :=
  match e with
  | Errors.Register RegisterErrUsernameAlreadyUsed | Errors.Register RegisterErrEmailAlreadyUsed => StatusConflict
  | Errors.Register RegisterErrInvalidUsername | Errors.Register RegisterErrInvalidEmail | Errors.Register RegisterErrInvalidDisplayName
  | Errors.Register RegisterErrWeakPassword => StatusBadRequest
  | _ => StatusInternalServerError
  end.

Section Registration.
Context {W : Type} `{!Runtime W}.
Import RegisterService.

Definition register_page (username email displayName problem : string) (done : bool) : fields :=
  [("Username", Str username); ("Email", Str email); ("DisplayName", Str displayName); ("Error", Str problem); ("Success", Bool done)].

(** The page, for who accepts one; JSON otherwise.  [rendered] draws the
    page with a token of its own. *)
Definition page_or_json (rq : request) (status : Z) (page : fields) (otherwise : fields) : IO W response :=
  if wantsAdminHTML rq then strict_page "register" rq [] status "" page else answer status otherwise.

Definition register_get (rq : request) : IO W response :=
  let* issued := attempt (ensureCSRFToken rq) in
  match issued with
  | Err _ => ret (json_error [] StatusInternalServerError "failed to generate csrf token")
  | Ok (token, set) =>
      if wantsAdminHTML rq then strict_page "register" rq set StatusOK token (register_page "" "" "" "" false)
      else ret (mkResponse StatusOK set (JSON [("endpoint", Str "register");
        ("message", Str "submit username, email, display_name and password to register"); ("csrf_token", Str token)]))
  end.

Definition handleRegister (register : RegisterInput -> IO W RegisterResult) (rq : request) (form_value : string -> string) (form : option RegisterRequest) : IO W response :=
  if rq_GET rq then register_get rq else
  match form with
  | None => page_or_json rq StatusBadRequest (register_page (TrimSpace (form_value "username")) (TrimSpace (form_value "email"))
              (TrimSpace (form_value "display_name")) "Please check your input values." false) [("error", Str "invalid register request")]
  | Some req =>
      let with_problem problem := register_page (re_Username req) (re_Email req) (re_DisplayName req) problem false in
      if negb (validateCSRFToken rq (re_CSRFToken req)) then
        page_or_json rq StatusForbidden (with_problem invalid_csrf_token) [("error", Str invalid_csrf_token)] else
      let* result := attempt (register (mkRegisterInput (re_Username req) (re_Email req) (re_DisplayName req) (re_Password req) (re_EmailVerified req) true)) in
      match result with
      | Err e => page_or_json rq (register_status e) (with_problem (error_text e)) [("error", Str (error_text e))]
      | Ok r =>
          page_or_json rq StatusCreated (register_page "" "" "" "" true)
            [("user_id", Int (rr_UserID r)); ("user_uuid", Str (rr_UserUUID r)); ("username", Str (rr_Username r)); ("email", Str (rr_Email r));
             ("email_verified", Bool (rr_EmailVerified r)); ("display_name", Str (rr_DisplayName r)); ("status", Str (rr_Status r));
             ("created_at", Time (rr_CreatedAt r))]
      end
  end.
End Registration.

(** ** The device authorization endpoint (device_authorize_handler.go) *)

Record DeviceAuthorizeRequest := mkDeviceAuthorize { da_ClientID : string; da_ClientSecret : string; da_Scope : string }.

Section Devices.
Context {W : Type} `{!Runtime W}.

Record DeviceAuthorizeHandler := NewDeviceAuthorizeHandler {
  dh_authenticate : option (ClientAuth.AuthenticateInput -> IO W ClientAuth.ClientAuthenticateResult);
  dh_start : option (DeviceService.StartInput -> IO W DeviceService.StartResult);
}.

(** ScopeList of a token request with this scope *)
Definition scope_list (scope : string) : list string := if blank scope then [] else Fields scope.

Definition deviceVerificationURI (rq : request) (host : string) (tls : bool) : string :=
  let proto := TrimSpace (rq_header rq "X-Forwarded-Proto") in
  let scheme := if negb (String.eqb proto "") then proto else if tls then "https" else "http" in
  scheme +:+ "://" +:+ host +:+ "/device".

(** The status stays 0 for invalid_client; gin takes a status of 0 for none
    and sends 200. *)
Definition client_refused (e : error) : response :=
  match e with
  | Token ErrInvalidClient => json_error [] 0 "invalid_client"
  | _ => json_error [] StatusInternalServerError "server_error"
  end.

Definition start_failed (e : error) : response :=
  match e with
  | Device DeviceErrInvalidClient => json_error [] StatusUnauthorized "invalid_client"
  | Device DeviceErrInvalidScope => json_error [] StatusBadRequest "invalid_scope"
  | _ => json_error [] StatusInternalServerError "server_error"
  end.

Definition handleDeviceAuthorize (h : DeviceAuthorizeHandler) (rq : request) (host : string) (tls : bool) (form : option DeviceAuthorizeRequest) : IO W response :=
  bound form "invalid device authorization request" (fun req =>
    match dh_authenticate h, dh_start h with
    | Some authenticate, Some start =>
        operate (authenticate (ClientAuth.mkAuthenticateInput (rq_header rq "Authorization") (da_ClientID req) (da_ClientSecret req))) client_refused (fun auth =>
        operate (start (DeviceService.mkStartInput (ClientAuth.cr_ClientID auth) (scope_list (da_Scope req)))) start_failed (fun r =>
          let verificationURI := deviceVerificationURI rq host tls in
          let* expires := seconds_until (DeviceService.sr_ExpiresAt r) in
          answer StatusOK [("device_code", Str (DeviceService.sr_DeviceCode r)); ("user_code", Str (DeviceService.sr_UserCode r));
            ("verification_uri", Str verificationURI); ("verification_uri_complete", Str (verificationURI +:+ "?user_code=" +:+ DeviceService.sr_UserCode r));
            ("expires_in", Int expires); ("interval", Int (DeviceService.sr_Interval r))]))
    | _, _ => ret (json_error [] StatusInternalServerError "device authorization is not configured")
    end).
End Devices.

(** ** OpenID Connect (userinfo_handler.go, oidc_metadata_handler.go) *)

(** Fields with omitempty *)
Definition omit_empty (name s : string) : fields := if String.eqb s "" then [] else [(name, Str s)].

Definition user_info_answer (r : Oidc.UserInfoOutput) : fields :=
  ("sub", Str (Oidc.uio_Subject r)) :: omit_empty "name" (Oidc.uio_Name r) ++ omit_empty "preferred_username" (Oidc.uio_PreferredName r) ++
  omit_empty "email" (Oidc.uio_Email r) ++ (if Oidc.uio_EmailVerified r then [("email_verified", Bool true)] else []).

Definition user_info_status (e : error) : Z :=
  match e with
  | Errors.Oidc OidcErrUserNotFound => StatusNotFound
  | Errors.Oidc OidcErrInvalidAccessToken => StatusUnauthorized
  | _ => StatusInternalServerError
  end.

Definition discovery_answer (d : Oidc.DiscoveryDocument) : fields :=
  [("issuer", Str (Oidc.dd_Issuer d)); ("authorization_endpoint", Str (Oidc.dd_AuthorizationEndpoint d)); ("token_endpoint", Str (Oidc.dd_TokenEndpoint d));
   ("userinfo_endpoint", Str (Oidc.dd_UserInfoEndpoint d))] ++ omit_empty "introspection_endpoint" (Oidc.dd_IntrospectionEndpoint d) ++
  omit_empty "end_session_endpoint" (Oidc.dd_EndSessionEndpoint d) ++
  [("jwks_uri", Str (Oidc.dd_JWKSURI d)); ("response_types_supported", Strs (Oidc.dd_ResponseTypesSupported d));
   ("subject_types_supported", Strs (Oidc.dd_SubjectTypesSupported d));
   ("id_token_signing_alg_values_supported", Strs (Oidc.dd_IDTokenSigningAlgValuesSupported d)); ("scopes_supported", Strs (Oidc.dd_ScopesSupported d));
   ("token_endpoint_auth_methods_supported", Strs (Oidc.dd_TokenEndpointAuthMethodsSupported d))] ++
  (match Oidc.dd_IntrospectionEndpointAuthMethodsSupported d with [] => [] | l => [("introspection_endpoint_auth_methods_supported", Strs l)] end) ++
  [("grant_types_supported", Strs (Oidc.dd_GrantTypesSupported d)); ("code_challenge_methods_supported", Strs (Oidc.dd_CodeChallengeMethodsSupported d))].

Definition json_member (name s : string) : list (string * json) := if String.eqb s "" then [] else [(name, JString s)].
Definition jwk_json (k : Keys.JSONWebKey) : json :=
  JObject ([("kty", JString (Keys.jwk_Kty k)); ("kid", JString (Keys.jwk_Kid k))] ++ json_member "use" (Keys.jwk_Use k) ++ json_member "alg" (Keys.jwk_Alg k) ++
    json_member "n" (Keys.jwk_N k) ++ json_member "e" (Keys.jwk_E k)).

Section OpenID.
Context {W : Type} `{!Runtime W}.

(** [in_context]: the token the middleware left, if it ran *)
Definition tokenFromContextOrHeader (rq : request) (in_context : string) : string :=
  if negb (String.eqb in_context "") then in_context else Oidc.extractBearerToken (rq_header rq "Authorization").

Definition handleUserInfo (s : Oidc.Service W) (rq : request) (in_context : string) : IO W response :=
  operate (Oidc.GetUserInfo s (tokenFromContextOrHeader rq in_context)) (with_status user_info_status) (fun r => answer StatusOK (user_info_answer r)).

Definition handleDiscovery (s : Oidc.Service W) : IO W response := answer StatusOK (discovery_answer (Oidc.Discovery s)).

Definition handleJWKS (s : Oidc.Service W) : IO W response := fun w =>
  answer StatusOK [("keys", Val (JArray (List.map jwk_json (Oidc.JWKS s w))))] w.
End OpenID.

(** ** What the handlers promise *)

(** A status of 500 is for errors that are none of the package's own; the
    exception is the one of AssignRole, which knows fewer of them. *)
Lemma server_errors_are_not_sentinels :
  (forall e, rbac_status e = StatusInternalServerError <-> forall r, e <> Rbac r) /\
  (forall r, register_uris_status (Client r) = StatusInternalServerError <->
     r ∉ [ClientErrClientNotFound; ClientErrInvalidClientID; ClientErrRedirectURIRequired; ClientErrInvalidRedirectURI]) /\
  (forall r, client_status (Client r) = StatusInternalServerError <-> r = ClientErrClientNotFound) /\
  (forall r, short_url_status (Errors.ShortURL r) = StatusInternalServerError <-> r = ShortURLErrLinkNotFound \/ r = ShortURLErrLinkExpired) /\
  (forall r, register_status (Errors.Register r) = StatusInternalServerError <->
     r = RegisterErrUserNotFound \/ r = RegisterErrPasswordUpdateFailed \/ r = RegisterErrUserUnlockFailed) /\
  (forall e, user_info_status e = StatusInternalServerError <-> forall r, e <> Errors.Oidc r).
Proof.
  split_and!.
  - intros e. destruct e as [| | |[]| | | | | | | | | |]; cbn; split; try done; intros H; by elim (H _ eq_refl).
  - intros r. rewrite !not_elem_of_cons. destruct r; cbn; split; try done; intros H; decompose [and] H; try congruence; split_and!; try done; apply not_elem_of_nil.
  - intros r. destruct r; by cbn.
  - intros r. destruct r; cbn; naive_solver.
  - intros r. destruct r; cbn; naive_solver.
  - intros e. destruct e as [| | | | | | | | | |[]| | |]; cbn; split; try done; intros H; by elim (H _ eq_refl).
Qed.

(** ** Forms without their token *)

Section Forged.
Context {W : Type} `{!Runtime W}.

(** The handlers of this file, whatever the services behind them are. *)
Lemma forged_json_forms (rq : request) token param actor audit audit' (s s' : RBACManager W) (m m' : Manager W) :
  validateCSRFToken rq token = false ->
  (forall returnTo, let req := Some (mkLogoutRequest returnTo token) in
     rbac_Bootstrap s audit rq actor req = rbac_Bootstrap s' audit' rq actor req /\
     rbac_DeleteRole s audit rq param actor req = rbac_DeleteRole s' audit' rq param actor req /\
     handleAdminUserLogout audit rq param actor m req = handleAdminUserLogout audit' rq param actor m' req) /\
  (forall code display description mask, let req := Some (mkRoleMutation code display description mask token) in
     rbac_CreateRole s audit rq actor req = rbac_CreateRole s' audit' rq actor req /\
     rbac_UpdateRole s audit rq param actor req = rbac_UpdateRole s' audit' rq param actor req) /\
  (forall code mask scope, let req := Some (mkAssignRole code mask scope token) in
     rbac_AssignRole s audit rq param actor req = rbac_AssignRole s' audit' rq param actor req).
Proof.
  intros Hf. split_and!; intros; try subst req; cbv zeta; repeat match goal with |- _ /\ _ => split end.
  all: unfold rbac_Bootstrap, rbac_CreateRole, rbac_UpdateRole, mutate_role, rbac_DeleteRole, rbac_AssignRole, handleAdminUserLogout, bound, with_token.
  all: cbn [lr_CSRFToken rm_CSRFToken as_CSRFToken]; by rewrite Hf.
Qed.

(** C11. A form that another site made the browser send decides nothing: when
    the submitted token is missing or is not the one in the browser's cookie,
    every handler that takes a token gives the same response in the same
    state whatever the operation it guards would do, so the operation is not
    called.  These are the forms of logout (three), consent, device, login,
    second factor and push, TOTP and passkey enrolment and registration, the
    twelve actions of the console, and the handlers over JSON of roles and of
    the logout of a user; on the second-factor page it holds of every action
    but the decision and the poll of a push challenge, which ask for no
    token. *)
Theorem forged_forms_decide_nothing (rq : request) token (w : W) : rq_GET rq = false -> validateCSRFToken rq token = false ->
  (forall s s' returnTo, let req := Some (mkLogoutRequest returnTo token) in
     handleLogout s rq req w = handleLogout s' rq req w /\ handleLogoutAll s rq req w = handleLogoutAll s' rq req w) /\
  (forall validator s s' id uri state, let req := Some (mkEndSessionRequest id uri state token) in
     EndSessionPost (NewEndSessionHandler s validator) rq req w = EndSessionPost (NewEndSessionHandler s' validator) rq req w) /\
  (forall prepare decide decide' action returnTo, let req := Some (mkConsentDecision action returnTo token) in
     handleConsent (mkConsentManager prepare decide) rq req w = handleConsent (mkConsentManager prepare decide') rq req w) /\
  (forall v v' code action, let req := Some (mkDeviceVerify code action token) in
     handleDeviceVerification v rq req w = handleDeviceVerification v' rq req w) /\
  (forall a a' enabled name audit posted method username password returnTo uri state code nonce,
     let req := Some (mkLoginRequest method username password token returnTo uri state code nonce) in
     handleLogin (mkLoginHandler a enabled name audit) rq posted req w = handleLogin (mkLoginHandler a' enabled name audit) rq posted req w) /\
  (forall a b audit action id match_ code answer, untokened action = false ->
     let req := Some (mkLoginTOTPRequest action id match_ code answer token) in
     handleLoginTOTP (mkLoginTOTPHandler a audit) rq req w = handleLoginTOTP (mkLoginTOTPHandler (with_decisions a b) audit) rq req w) /\
  (forall a a' action id match_ code answer, let req := Some (mkLoginTOTPRequest action id match_ code answer token) in
     handleLoginPush a rq req w = handleLoginPush a' rq req w) /\
  (forall m m' code returnTo, let req := Some (mkTOTPSetup code token returnTo) in
     handleTOTPSetup m rq req w = handleTOTPSetup m' rq req w) /\
  (forall m m' action id answer returnTo, let req := Some (mkPasskeySetup action id answer token returnTo) in
     handlePasskeySetup m rq req w = handlePasskeySetup m' rq req w) /\
  (forall register register' form_value username email display password verified,
     let req := Some (mkRegisterRequest username email display password token verified) in
     handleRegister register rq form_value req w = handleRegister register' rq form_value req w) /\
  (forall path required handler h h' form actor, (path, (required, handler)) ∈ action_routes -> form "csrf_token" = token ->
     handler h rq form actor w = handler h' rq form actor w) /\
  (forall s s' m m' audit audit' param actor,
     (forall returnTo, let req := Some (mkLogoutRequest returnTo token) in
        rbac_Bootstrap s audit rq actor req w = rbac_Bootstrap s' audit' rq actor req w /\
        rbac_DeleteRole s audit rq param actor req w = rbac_DeleteRole s' audit' rq param actor req w /\
        handleAdminUserLogout audit rq param actor m req w = handleAdminUserLogout audit' rq param actor m' req w) /\
     (forall code display description mask, let req := Some (mkRoleMutation code display description mask token) in
        rbac_CreateRole s audit rq actor req w = rbac_CreateRole s' audit' rq actor req w /\
        rbac_UpdateRole s audit rq param actor req w = rbac_UpdateRole s' audit' rq param actor req w) /\
     (forall code mask scope, let req := Some (mkAssignRole code mask scope token) in
        rbac_AssignRole s audit rq param actor req w = rbac_AssignRole s' audit' rq param actor req w)).
Proof.
  intros Hpost Hforged. destruct (forged_pages rq token w Hpost Hforged) as (H1 & H2 & H3 & H4 & H5 & H6 & H7 & H8 & H9).
  do 9 (split; [assumption|]). split; [|split].
  - intros. subst req. unfold handleRegister. rewrite Hpost. cbn [re_CSRFToken]. rewrite Hforged. reflexivity.
  - intros path required handler h h' form actor Hr <-. destruct (routes_answer _ _ _ Hr) as (_ & _ & Hf). by rewrite !Hf.
  - intros s s' m m' audit audit' param actor. destruct (forged_json_forms rq token param actor audit audit' s s' m m' Hforged) as (Ha & Hb & Hc).
    split; [|split].
    + intros returnTo. destruct (Ha returnTo) as (E1 & E2 & E3). cbv zeta. by rewrite E1, E2, E3.
    + intros code display description mask. destruct (Hb code display description mask) as (E1 & E2). cbv zeta. by rewrite E1, E2.
    + intros code mask scope. cbv zeta. by rewrite Hc.
Qed.
End Forged.

(** ** Who may call what (interfaces/http/router.go) *)

(** The routes behind the gate: method, path, privileges. *)
Definition protected_routes : list (string * string * list Z) :=
  [("GET", "/register", [AuthExec; UserManage]); ("POST", "/register", [AuthExec; UserManage]);
   ("POST", "/oauth2/clients", [ClientManage]); ("POST", "/oauth2/clients/:client_id/redirect-uris", [ClientManage]);
   ("POST", "/oauth2/clients/:client_id/post-logout-redirect-uris", [ClientManage]);
   ("GET", "/admin", [AuthExec; OpsRead]); ("GET", "/admin/", [AuthExec; OpsRead]); ("GET", "/admin/workbench/support", [AuthExec; OpsRead]);
   ("GET", "/admin/workbench/oauth", [OAuthRead; ClientRead]); ("GET", "/admin/workbench/security", [AuthExec; AuditRead; KeyRead]);
   ("GET", "/admin/audit", [AuditRead]); ("GET", "/admin/rbac/roles", [AuthExec; OpsRead]);
   ("GET", "/admin/rbac/roles/:role_code/users", [AuthExec; OpsRead]); ("GET", "/admin/rbac/usage", [AuthExec; OpsRead]);
   ("GET", "/admin/users/lookup-by-username", [AuthExec; UserRead]);
   ("POST", "/admin/rbac/bootstrap", [AuthExec; OpsManage]); ("POST", "/admin/rbac/roles", [AuthExec; OpsManage]);
   ("PUT", "/admin/rbac/roles/:role_code", [AuthExec; OpsManage]); ("DELETE", "/admin/rbac/roles/:role_code", [AuthExec; OpsManage]);
   ("POST", "/admin/users/:user_id/role", [AuthExec; UserManage]); ("POST", "/admin/users/:user_id/logout-all", [AuthExec; UserManage]);
   ("POST", "/admin/short-urls", [AuthExec; OpsManage])] ++
  List.map (fun r => ("POST", r.1, r.2.1)) (action_routes (W := unit)).

(** The built-in roles at the routes: how many each may call *)
Definition callable (mask : Z) : Z := Z.of_nat (length (List.filter (fun r => HasAll mask r.2) protected_routes)).

Example built_in_reach : List.map callable [MaskEndUser; MaskSupport; MaskOAuthAdmin; MaskSecurityAdmin; MaskSuperAdmin] = [0; 10; 5; 34; 34].
Proof. vm_compute. reflexivity. Qed.

(** The operator for clients may not use the console at all, where AuthExec is
    demanded: only the JSON routes for clients, the audit page and one
    workbench are left to him. *)
Example oauth_admin_reach : List.map (fun r => r.1.2) (List.filter (fun r => HasAll MaskOAuthAdmin r.2) protected_routes) =
  ["/oauth2/clients"; "/oauth2/clients/:client_id/redirect-uris"; "/oauth2/clients/:client_id/post-logout-redirect-uris";
   "/admin/workbench/oauth"; "/admin/audit"].
Proof. vm_compute. reflexivity. Qed.

Import ClientRepo.ClientDemo ClientSystem.AdminDemo BrowserDemo.

Lemma forged_forms_decide_nothing_witness : form_login (generous (alice "")) "guessed" = form_login strict "guessed" /\
  match (form_login strict "guessed").1 with Ok r => rs_status r | Err _ => 0 end = StatusForbidden.
Proof.
  split; [|vm_compute; reflexivity].
  destruct (forged_forms_decide_nothing visitor "guessed" others) as (_ & _ & _ & _ & H & _); [reflexivity | vm_compute; reflexivity|].
  apply H.
Defined.
